(* ===== verification/_CoqProject ===== *)
-Q . S2P
Prelude.v
Text.v
CircleBuffer.v
Misc.v
Codec.v
World.v
Uart.v
Link.v
Apk.v
Stm32.v
Daemon.v
Threads.v
Servers.v
Tools.v
Kernel.v
Spider.v
Leds.v
Board.v
Keys.v
Hal.v
SuAgent.v
Su.v
Hello.v
ProcInfo.v
FreqTable.v
QcomCpufreq.v
Icn6211.v
GoodixTool.v
GtBus.v
Gt9xx.v
GtPanel.v
GtProbe.v
GtUpdate.v
GtBurn.v
GtFlash.v
GtLive.v
SmbRegs.v
SmbBus.v
SmbCharge.v
SmbIrq.v
SmbInit.v
SmbDebug.v
