(* ===== verification/Prelude.v ===== *)
(** * X300 board software: daemons, tools and drivers

    The X300 is an Android vehicle terminal.  The repository holds the changes
    its makers put over the Android platform.  This library models the C
    programs and drivers that are theirs, or that they changed and the board
    depends on, and proves what makes them correct, or where they are not.

    ** The program

    - The daemon [external/scorpion] connects an application (a local socket)
      with the board's STM32 microcontroller (a UART).  Both links carry the same
      frames: a delimiter 0x7E, a stuffed packet (header, body, exclusive-or
      checksum), a delimiter.  Bytes from the UART go through a circular buffer
      to an analyser, which cuts them into frames and calls the handler of each
      message; messages from the socket are analysed in place.  Handlers
      acknowledge, forward between the two sides, run shell commands, record
      versions, and feed a watchdog on the application's heart beats.  Bytes for
      the UART go through a second circular buffer that a sender thread empties.
      A third thread reports the keys of an input device.
    - The drivers [kernel/drivers/fleety]: [fleety_leds] owns the board's output
      pins, [fleety_spider] keeps the application's state and bit maps of pin
      levels, each calling the other; [fleety_keys] reports buttons and inputs
      and records them in the spider driver's input map.  The hardware module
      [hardware/qcom/spider] gives Android's services the drivers' attribute
      files as functions.
    - [external/SuAgent] runs commands for applications: a client sends its
      arguments over TCP, the server runs them through [popen] and sends the
      output back.  [system/extras/su] is the platform's [su].
    - [m2r_icn6211.c] programs the bridge between display controller and panel;
      [qcom-cpufreq.c] and [freq_table.c] set the CPU frequency.
    - The touch screen [drivers/input/touchscreen/gt9xx]: [gt9xx.c] brings the
      chip up and configures it, reports touches from a work item that the
      interrupt queues, and puts the chip to sleep with the display;
      [gt9xx_update.c] burns firmware from a file, in a thread that the probe
      starts or on request; [goodix_tool.c] is a file through which programs
      reach the chip's registers and ask for an update.
    - The charger [drivers/power/smb1360-charger-fg.c]: it charges the battery
      from USB within the limits of the supply, of the thermal levels and of the
      battery's temperature, reports the battery to Android, dispatches the
      chip's interrupts, supplies on-the-go devices, and reads and configures
      the fuel gauge, which answers at a second bus address after a handshake.
    - An exercise driver with its hardware module and tool ([hello]), two /proc
      files, and the tools [htfsk], [getkeys] and [v4l2].

    ** The files

    - [Prelude]: machine integers, the error monad [prog] with its faults,
      bounds-checked memory, tactics and shared lemmas.
    - [Text]: C text: decimal numbers, strings, words and fields.
    - [CircleBuffer]: [scorpion_cb.c].  [CircleBufferMngr] is the C struct, each
      [cb_*] the body of the C function; [Queue] is its abstract specification.
    - [Misc]: [scorpion_misc.c], checksums and conversions.
    - [Codec]: the framing code that [scorpion_protocol.c] and
      [scorpion_stm32.c] both contain: stuffing, analyser, sender.
    - [World]: the daemon's static variables ([world]), the system calls and
      uninitialised memory as a class ([Env]), the trace of outside effects.
    - [Uart], [Link], [Apk], [Stm32]: [scorpion_uart.c] (line settings, transmit
      side), the functions that build and send messages, the handlers and
      dispatch of the application side ([scorpion_protocol*.c]) and of the
      microcontroller side ([scorpion_stm32*.c]).  [Link] also holds the
      abstract state [aworld], in which rings are byte queues and packets are
      the wire form of a message, and the refinement relation [refines].
    - [Daemon]: one turn of the receive, socket and event threads, their
      servers, and [main] ([scorpion_uart.c], [scorpion_socket.c],
      [scorpion_event.c], [scorpion_server.c]).
    - [Servers]: the socket and event threads over all their turns, and the
      descriptors, threads and locks ([handles]) that starting and stopping the
      servers takes and gives back.
    - [Threads]: the transmit queue under every interleaving of its users
      ([tx_step], [tx_run]).
    - [Tools]: [htfsk.c], [getkeys.c] and [v4l2.c].
    - [Kernel]: the drivers' objects and pointers ([kworld]), the kernel they
      call ([Kernel]), and the interfaces between the drivers ([PinMaps],
      [UsbControl]).
    - [Spider], [Leds]: [fleety_spider.c] and [fleety_leds.c], each proved
      against the other's interface; [Board]: both together.
    - [Keys]: [fleety_keys.c] over [PinMaps], with its own state [kbd] and the
      subsystems it calls as [KeysKernel].
    - [Hal]: [hardware/qcom/spider/spider.c] over [Files], and [board_files],
      which connects it to the attribute tables of [Spider] and [Leds].
    - [SuAgent]: server and client; [agent] holds the open descriptors, the
      descriptor set and the heap, [Host] is the system.  [Su]: [su.c] and the
      copy of it in the agent, over [SuKernel].
    - [Hello]: [kernel/drivers/hello], [hardware/qcom/hello] and
      [external/hello]; [hcode] is the body of an access as steps on the
      semaphore, the user memory and the bytes of the register, [hexec] runs it
      alone and [istep] interleaves it with others.  [ProcInfo]: [fs/proc/fleetyinfo.c] and [seqfile_exam.c] under
      the protocol of the kernel's sequence files.
    - [FreqTable]: [freq_table.c]; [QcomCpufreq]: [qcom-cpufreq.c] with the
      prepare and enable counts of the clocks in its state [cfworld].
    - [Icn6211]: [m2r_icn6211.c]; its state [iworld] includes the text of the
      device tree, which the driver writes to.
    - [GoodixTool]: [goodix_tool.c] and the interrupt switches of [gt9xx.c];
      [tool] holds the command head, the block and the registered functions.
    - [GtBus], [Gt9xx], [GtPanel], [GtProbe]: [gt9xx.c].  [GtBus] has the state
      [gworld] (the object [goodix_ts_data], which may be absent or freed, the
      static variables, what the driver holds of the kernel, the state of an
      update, and all effects so far), the kernel and the chip as the class
      [GtpKernel], whose answers depend on all effects so far, and the
      transfers; [Gt9xx] the touches, interrupts, suspend and resume, with
      [gstep] for their interleavings; [GtPanel] the configuration; [GtProbe]
      binding and unbinding.
    - [GtUpdate], [GtBurn]: [gt9xx_update.c] up to the decision, and the burning.
      [GtFlash] names the parts of an image ([pieces]), follows a run
      ([burn_log], [attempt_burned]) and says how an update can end ([ends]);
      [GtLive] has a chip that works ([healthy]) and what an update promises.

    - [SmbRegs], [SmbBus], [SmbCharge], [SmbIrq], [SmbInit], [SmbDebug]:
      [smb1360-charger-fg.c].  [SmbRegs] has its constants and tables; [SmbBus]
      the state [sworld] ([struct smb1360_chip] in groups, the table [handlers],
      the mutexes that are held, all effects so far), the kernel and the chip as
      the class [SmbKernel], whose answers depend on all effects so far, the
      access to registers under [read_write_lock], and the frame conditions
      [reg_only] and [keeps] with the tactics that discharge them along the text
      of a function; [SmbCharge] currents, voltages, thermal levels and battery
      properties; [SmbIrq] the dispatcher ([stat_row], [dispatch]), the handlers,
      the temperature work, suspend and resume, with [run_op] for the entry
      points and [runs_from] for their sequences; [SmbInit] battery profile,
      fuel-gauge configuration, device tree, probe and remove; [SmbDebug] the
      debug files.

    A C function is a [prog]: it returns, exits, or faults (an access outside an
    object, NULL or freed memory, a bad free, a bad shift, BUG(), a semaphore its
    own caller holds, a mutex taken twice).  A struct is a record, an automatic packet is
    uninitialised memory the code stores into, a w-bit integer is a [Z] with its
    conversions written out.  The target is a 32-bit ARM, little-endian.

    ** What the theorems show

    - Data path: the ring refines a queue; stuffing round-trips and its output
      holds no delimiter; the analyser delivers exactly the good frames of a
      stream in order and stops; however a byte stream is cut into reads, the
      receive thread does what it would do with the whole stream, with memory at
      hand and bodies of the length their messages need; the sender puts exactly
      the wire form of a message on its device.
    - Messages: every handler, sender and dispatcher refines its description on
      the abstract state; the socket thread does what the complete frames of all
      its reads ask for, the event thread reports every key; the watchdog fires
      after the threshold of silent ticks; version numbers survive their decimal
      form; checksums detect a changed byte, the CRC is CCITT.
    - Concurrency: in every interleaving the bytes written to the UART are a
      prefix of what the producers queued, in order; with one producer at a
      time frames are whole; the queue drains.  However the accesses to the
      register of [hello] are interleaved, byte by byte, they have the results
      of some order of whole accesses, errors and partial copies included.
    - Drivers: with both bound, every sequence of calls returns, keeps the
      semaphores balanced and the recorded pin levels true; the attribute files
      on every branch; the pin maps; the exact pin sequence of [app_ready];
      binding on every branch.  Buttons are reported with their level, presses
      and releases of a debounced button alternate, the disable bitmaps do what
      they say, and a failed probe of the keys driver gives back every resource.
      A setter of the hardware module drives exactly its lines, and the pin maps
      round-trip through it.
    - Commands: the agent's descriptor sets stay in step with the open sockets,
      and a pass answers and closes exactly the connections that were ready and
      sent something; it goes on serving as long as requests stay within its
      limits; what a
      client prints is the output of the words it was given; the limits are
      exact.  [su] executes exactly the command and identity it was asked for,
      or nothing.
    - Frequency: the table search returns the best frequency of the policy, a
      verified policy has one, the tables a probe leaves are well formed, and
      CPU hot-plug keeps the clocks' counts equal to the CPUs that use them, up
      to the CPUs whose clocks could not be enabled when they started.
    - Display: the bridge is programmed with exactly the registers written in
      the device tree, each time the display comes back.
    - Touch screen: a request to the debug file reaches the register it names,
      and stays inside the buffers exactly when its lengths fit.  However
      interrupts, the work item, suspend, resume, updates and the debug file are
      interleaved, an interrupt that is off has someone who switches it on
      again; a frame of the chip is reported point by point; the configuration
      that is sent is the group of the sensor the chip named, with the version
      that the one in flash asks for and its checksum, or the reason why none is
      sent; the probe on every branch, with the supplies on and the interrupt or
      the timer running when it succeeds.  The decision to update and the check
      of an image are what they should be; an update gives the driver back,
      unless the chip never ends a burn command or the product identifier of the
      file has no end; when it says SUCCESS every part of the image was burned
      and read back in one attempt, the first section last; and on a chip that
      works it does say SUCCESS.
    - Charger: whatever the chip, the bus and the device tree answer, the probe
      returns, and a probe that succeeds leaves a driver that is [ready]; from
      there every entry point returns with every mutex free and the bus address
      restored.  The interrupt line is off exactly while an interrupt waits for
      the resume; the flags mirror the status registers along every run; suspend
      and resume restore the interrupt masks; charging is on exactly while there
      is no reason against it; which current the registers of the chip ask for,
      given the limits of the supply and of the thermal level, and where that is
      more than allowed; the temperature work programs the thresholds and the
      float voltage of the band the temperature is in; a dump of the fuel gauge
      stays in its buffer, and a register that is poked can be peeked at.
    - Where the code fails: two adjacent delimiters or a bad escape read out of
      bounds, 2048 bytes of noise stop reception, a frame split over two socket
      reads is lost, two producers can truncate a frame, a heart beat without
      body, a message before the UART is up, stop requests lost once a thread
      has seen data, a socket thread that spins after its client has gone, a
      driver timer that outlives its object, a watchdog in the kernel that only
      counts, objects lost when the pin controller defers the probe of the keys
      driver, a proc file cut after its first buffer, a bridge driver that uses
      freed memory after an unbind and destroys its register text, an echo
      server that sends old bytes along, a debug file open to everybody whose
      lengths are not checked, a configuration file that overflows the heap, a
      finger that stays down for ever, a regulator used after it was given back,
      a chip that wakes up during the suspend, a missing battery that counts as
      present, a battery that is hot at boot and not noticed, an error code used
      as a temperature, a thermal level that is never tried again, clocks that
      are disabled more often than they were enabled.

    ** Bounds and fuel

    Loops over a buffer recurse on it.  Other loops take fuel, and the theorems
    show that what their callers pass is never used up: [ayalyze_loop] and
    [shell_loop] consume a byte in each pass but the last
    ([ayalyze_terminates], [shell_run_exact]); [split_loop], [output_loop] and
    [client_loop] a word, a line or a chunk ([agent_roundtrip]); [count_loop] and
    [fields_loop] a character or a field ([init_text_roundtrip]), [fetch_loop] at
    least a byte ([tool_registers]), [burn_loop] and [recall_loop] a page.  The
    charger polls at most as often as the code ([fg_poll], [access_poll] 50
    times, [profile_poll] 10); the loops of [float_encode] take 64 and 96 steps,
    which any 64-bit value ends before ([encode_loops_end]).  The
    wait for a burn command has no bound in the code: [wait_loop] follows
    [gp_polls + 1] polls, a number the kernel class leaves open, and what is said
    of an update says what happens when they are used up ([hangs]: every one of
    them was answered and found the command running); only the theorem that an
    update succeeds, and the part of another that it returns, assume a chip that
    is done by then ([settles]).  Decimal
    printing has ten rounds, enough for 32 bits.  Endless loops are modelled by
    their body and run over lists of what the system returned, of any length;
    interleavings by [tx_run] and [istep], which have no bound on their length.

    ** What is not modelled

    The system calls, the platform bus, sysfs, debugfs, GPIO, clock, I2C and
    class libraries are parameters; debug output is left out.  The semaphore of
    a fleety driver is modelled for one call at a time, so a call that waits for
    another is not; the heart-beat work, which takes no semaphore, runs between
    calls and not inside one.  In [Keys] a spin lock or mutex makes its body one
    step, and interrupts and timers of one button are interleaved as whole
    handlers.  In [GoodixTool] concurrent users of the file, which share its
    state without a lock, are not modelled, and the firmware update it starts is
    a parameter there.  Of [gt9xx.c] and [gt9xx_update.c] the code that [gt9xx.h]
    switches off is left out: pens, touch keys, gestures, the ESD watchdog, the
    firmware in [gt9xx_firmware.h] and everything for GT9XXF chips.  A handler of
    the touch screen runs as a whole; what another update does meanwhile is an
    answer of the kernel.  An entry point of the charger runs as a
    whole, so its mutexes are checked for double locking, not for contention;
    creating and opening its debug files and registering the driver only call
    the kernel and are left out.
    The adb daemon, the display controller and sound drivers, busybox and the
    Android framework are the platform's code and not part of this
    development. *)

From stdpp Require Import base list numbers.
From Stdlib Require Import ZArith Lia.

Open Scope Z_scope.

(** ** Machine integers

    The target is a 32-bit ARM: [int], [unsigned int], [long] and [size_t]
    are 32 bits wide.  An integer is kept as a [Z]; conversions to a width
    are written out. *)

Definition u8 (z : Z) : Z := z mod 2 ^ 8.
Definition u16 (z : Z) : Z := z mod 2 ^ 16.
Definition u32 (z : Z) : Z := z mod 2 ^ 32.
Definition s32 (z : Z) : Z := (z + 2 ^ 31) mod 2 ^ 32 - 2 ^ 31.

(** A byte buffer is a list of [Z]; [is_byte] is the type invariant of its cells. *)
Definition is_byte (z : Z) : Prop := 0 <= z < 256.
Definition bytes (l : list Z) : Prop := Forall is_byte l.

(** The length of a buffer as a C integer. *)
Definition zlen {A} (l : list A) : Z := Z.of_nat (length l).

(** ** Running C code

    A C function that touches state [S] is a function of the state that
    returns a value, ends the process with [exit], or runs into behaviour C
    leaves undefined. *)

Inductive fault :=
  | OutOfBounds   (* a load or store outside the object *)
  | BadShift      (* a shift by a negative amount or by the width or more *)
  | NullDeref     (* a dereference of NULL *)
  | UseAfterFree  (* an access to an object that was freed *)
  | KernelBug     (* BUG() *)
  | BadFree       (* free() of what malloc did not return *)
  | Deadlock      (* waits for a semaphore nobody else will release *)
  | NoFuel.       (* not behaviour of C: the bound on a loop of the model was hit *)

Inductive result (S A : Type) : Type :=
  | Ret (a : A) (s : S)
  | Exit (code : Z) (s : S)
  | Fault (f : fault) (s : S).
Arguments Ret {S A} a s.
Arguments Exit {S A} code s.
Arguments Fault {S A} f s.

Definition prog (S A : Type) : Type := S -> result S A.

Definition ret {S A} (a : A) : prog S A := fun s => Ret a s.

Definition bind {S A B} (c : prog S A) (k : A -> prog S B) : prog S B :=
  fun s => match c s with
           | Ret a s' => k a s'
           | Exit n s' => Exit n s'
           | Fault f s' => Fault f s'
           end.

Definition get {S} : prog S S := fun s => Ret s s.
Definition put {S} (s : S) : prog S unit := fun _ => Ret tt s.
Definition modify {S} (f : S -> S) : prog S unit := fun s => Ret tt (f s).
Definition exit {S A} (n : Z) : prog S A := fun s => Exit n s.
Definition fault_with {S A} (f : fault) : prog S A := fun s => Fault f s.

(** A partial pure computation, with the fault its failure stands for. *)
Definition lift {S A} (f : fault) (o : option A) : prog S A :=
  match o with Some a => ret a | None => fault_with f end.

Declare Scope c_scope.
Delimit Scope c_scope with c.
Notation "'let*' x ':=' c 'in' k" := (bind c (fun x => k))
  (at level 10, x name, c at level 100, k at level 200) : c_scope.
Notation "'do*' c ';' k" := (bind c (fun _ => k))
  (at level 10, c at level 100, k at level 200) : c_scope.
Open Scope c_scope.

(** The value and the state of a run that returned. *)
Definition returned {S A} (r : result S A) : option (A * S) :=
  match r with Ret a s => Some (a, s) | _ => None end.

Lemma bind_ret {S A B} (a : A) (k : A -> prog S B) s : bind (ret a) k s = k a s.
Proof. reflexivity. Qed.

Lemma bind_unfold {S A B} (c : prog S A) (k : A -> prog S B) s :
  bind c k s = match c s with
               | Ret a s' => k a s'
               | Exit n s' => Exit n s'
               | Fault f s' => Fault f s'
               end.
Proof. reflexivity. Qed.

Lemma bind_Ret {S A B} (c : prog S A) (k : A -> prog S B) s a s' :
  c s = Ret a s' -> bind c k s = k a s'.
Proof. unfold bind. by intros ->. Qed.

Lemma bind_lift_Some {S A B} f (a : A) (k : A -> prog S B) s : bind (lift f (Some a)) k s = k a s.
Proof. reflexivity. Qed.

Lemma bind_get {S B} (k : S -> prog S B) s : bind get k s = k s s.
Proof. reflexivity. Qed.

Lemma bind_modify {S B} f (k : unit -> prog S B) s : bind (modify f) k s = k tt (f s).
Proof. reflexivity. Qed.

Lemma bind_bind {S A B C} (c : prog S A) (k : A -> prog S B) (k2 : B -> prog S C) s :
  bind (bind c k) k2 s = bind c (fun a => bind (k a) k2) s.
Proof. unfold bind. by destruct (c s). Qed.

(** ** Memory: bounds-checked access to a byte buffer *)

Definition load8 (b : list Z) (i : Z) : option Z :=
  if i <? 0 then None else b !! Z.to_nat i.

Definition store8 (b : list Z) (i v : Z) : option (list Z) :=
  if (0 <=? i) && (i <? zlen b) then Some (<[Z.to_nat i := v]> b) else None.

(** [splice b off d] overwrites [length d] cells of [b] from [off]. *)
Definition splice (b : list Z) (off : nat) (d : list Z) : list Z :=
  take off b ++ d ++ drop (off + length d) b.

(** [memcpy dst doff src soff n]: [None] when the source or the destination
    range leaves its object. *)
Definition memcpy (dst : list Z) (doff : Z) (src : list Z) (soff n : Z) : option (list Z) :=
  if (0 <=? doff) && (doff + n <=? zlen dst) && (0 <=? soff) && (soff + n <=? zlen src)
     && (0 <=? n)
  then Some (splice dst (Z.to_nat doff) (take (Z.to_nat n) (drop (Z.to_nat soff) src)))
  else None.

(** [range b off n] reads the [n] bytes at [off]. *)
Definition range (b : list Z) (off n : Z) : option (list Z) :=
  if (0 <=? off) && (0 <=? n) && (off + n <=? zlen b)
  then Some (take (Z.to_nat n) (drop (Z.to_nat off) b)) else None.

(** Little-endian integers, as the ARM core stores them. *)
Fixpoint le_combine (l : list Z) : Z :=
  match l with [] => 0 | b :: l' => b + 256 * le_combine l' end.

Fixpoint le_split (n : nat) (z : Z) : list Z :=
  match n with O => [] | S n' => z mod 256 :: le_split n' (z / 256) end.

Definition load_le (b : list Z) (off n : Z) : option Z := le_combine <$> range b off n.

(** The C string that starts at [off]: the bytes up to the first NUL, [None]
    when there is no NUL before the end of the object. *)
Fixpoint c_string (b : list Z) : option (list Z) :=
  match b with
  | [] => None
  | c :: b' => if c =? 0 then Some [] else cons c <$> c_string b'
  end.
Definition load_str (b : list Z) (off : Z) : option (list Z) :=
  if (off <? 0) || (zlen b <? off) then None else c_string (drop (Z.to_nat off) b).

(** ** Automation *)

Create HintDb x300.
Create Rewrite HintDb x300.

(** Turns the boolean tests of the code into propositions. *)
Ltac bool_cases :=
  repeat match goal with
  | H : _ && _ = true |- _ => apply andb_true_iff in H; destruct H
  | H : _ && _ = false |- _ => apply andb_false_iff in H
  | H : (_ =? _) = true |- _ => apply Z.eqb_eq in H
  | H : (_ =? _) = false |- _ => apply Z.eqb_neq in H
  | H : (_ <=? _) = true |- _ => apply Z.leb_le in H
  | H : (_ <=? _) = false |- _ => apply Z.leb_gt in H
  | H : (_ <? _) = true |- _ => apply Z.ltb_lt in H
  | H : (_ <? _) = false |- _ => apply Z.ltb_ge in H
  end.

(** Splits on the innermost boolean test of the goal. *)
Ltac split_if :=
  match goal with
  | |- context [if ?b then _ else _] =>
      lazymatch b with
      | context [if _ then _ else _] => fail
      | _ => destruct b eqn:?
      end
  end.

(** Lists of a known length, and arithmetic on lengths. *)
Ltac len := unfold zlen in *; repeat rewrite ?length_app, ?length_take, ?length_drop,
  ?length_insert, ?length_replicate in *; simpl length in *; try lia.

(** ** Lemmas shared by the components *)

Lemma u8_byte z : is_byte (u8 z).
Proof. unfold u8, is_byte. apply (Z.mod_pos_bound z (2 ^ 8)). lia. Qed.

Lemma u8_id z : is_byte z -> u8 z = z.
Proof. unfold u8, is_byte. intros. by apply Z.mod_small. Qed.

Lemma u16_id z : 0 <= z < 65536 -> u16 z = z.
Proof. unfold u16. intros. by apply Z.mod_small. Qed.

Lemma u32_id z : 0 <= z < 2 ^ 32 -> u32 z = z.
Proof. unfold u32. intros. by apply Z.mod_small. Qed.

Lemma s32_id z : - 2 ^ 31 <= z < 2 ^ 31 -> s32 z = z.
Proof. unfold s32. intros. rewrite Z.mod_small; lia. Qed.

(** Removes the conversions that do not change a value in range. *)
Ltac no_wrap := repeat match goal with
  | |- context [s32 ?x] => rewrite (s32_id x) by lia
  | |- context [u32 ?x] => rewrite (u32_id x) by lia
  | |- context [u16 ?x] => rewrite (u16_id x) by lia
  end.

Lemma s32_range z : - 2 ^ 31 <= s32 z < 2 ^ 31.
Proof. unfold s32. pose proof (Z.mod_pos_bound (z + 2 ^ 31) (2 ^ 32) ltac:(lia)). lia. Qed.

Lemma zlen_nonneg {A} (l : list A) : 0 <= zlen l.
Proof. unfold zlen. lia. Qed.

Lemma zlen_app {A} (l k : list A) : zlen (l ++ k) = zlen l + zlen k.
Proof. len. Qed.

Lemma zlen_cons {A} (x : A) l : zlen (x :: l) = zlen l + 1.
Proof. len. Qed.

Lemma drop_zlen {A} (l k : list A) : drop (Z.to_nat (zlen l)) (l ++ k) = k.
Proof. unfold zlen. by rewrite Nat2Z.id, drop_app_length. Qed.

Lemma take_zlen {A} (l k : list A) : take (Z.to_nat (zlen l)) (l ++ k) = l.
Proof. unfold zlen. by rewrite Nat2Z.id, take_app_length. Qed.

Lemma take_zlen_all {A} (l : list A) : take (Z.to_nat (zlen l)) l = l.
Proof. unfold zlen. rewrite Nat2Z.id. apply firstn_all. Qed.

Lemma zlen_drop_length {A} (k l : list A) : zlen k <= zlen l -> zlen (drop (length k) l) = zlen l - zlen k.
Proof. intros. unfold zlen in *. rewrite length_drop. lia. Qed.

Lemma zlen_replicate {A} n (x : A) : 0 <= n -> zlen (replicate (Z.to_nat n) x) = n.
Proof. intros. unfold zlen. rewrite length_replicate. lia. Qed.

Lemma load8_app_r b c i : 0 <= i -> load8 (b ++ c) (zlen b + i) = load8 c i.
Proof.
  intros Hi. unfold load8, zlen.
  destruct (_ + i <? 0) eqn:E; bool_cases; [lia|].
  destruct (i <? 0) eqn:E'; bool_cases; [lia|].
  rewrite lookup_app_r by lia. f_equal. lia.
Qed.

Lemma length_splice b off d :
  (off + length d <= length b)%nat -> length (splice b off d) = length b.
Proof. intros. unfold splice. len. Qed.

Lemma splice_lookup b off d i :
  (off + length d <= length b)%nat ->
  splice b off d !! i =
    if decide (off <= i < off + length d)%nat then d !! (i - off)%nat else b !! i.
Proof.
  intros H. unfold splice. case_decide.
  - rewrite lookup_app_r by len. rewrite lookup_app_l by len. f_equal. len.
  - destruct (decide (i < off)%nat).
    + rewrite lookup_app_l by len. apply lookup_take_lt; lia.
    + rewrite !lookup_app_r by len. rewrite lookup_drop. f_equal. len.
Qed.

Lemma memcpy_Some dst doff src soff n :
  0 <= doff -> doff + n <= zlen dst -> 0 <= soff -> soff + n <= zlen src -> 0 <= n ->
  memcpy dst doff src soff n =
    Some (splice dst (Z.to_nat doff) (take (Z.to_nat n) (drop (Z.to_nat soff) src))).
Proof.
  intros. unfold memcpy. destruct (_ && _) eqn:E; [done|].
  repeat (apply andb_false_iff in E as [E|E]); bool_cases; lia.
Qed.

Lemma bytes_app l k : bytes (l ++ k) <-> bytes l /\ bytes k.
Proof. apply Forall_app. Qed.

Lemma bytes_splice b off d : bytes b -> bytes d -> bytes (splice b off d).
Proof.
  intros Hb Hd. unfold splice. rewrite !bytes_app. repeat split; auto.
  - by apply Forall_take.
  - by apply Forall_drop.
Qed.

(** [bytes] is decided by evaluation. *)
Definition bytesb (l : list Z) : bool := forallb (fun z => (0 <=? z) && (z <? 256)) l.

Lemma bytes_true l : bytesb l = true -> bytes l.
Proof.
  induction l as [|c l IH]; [constructor|]. cbn. intros E. apply andb_true_iff in E as [E1 E2].
  bool_cases. constructor; [unfold is_byte; lia|by apply IH].
Qed.

Lemma length_le_split n z : length (le_split n z) = n.
Proof. revert z. induction n; simpl; auto. Qed.

Lemma bytes_le_split n z : bytes (le_split n z).
Proof.
  revert z. induction n as [|n IH]; intros z; simpl; constructor; [|apply IH].
  apply Z.mod_pos_bound. lia.
Qed.

Lemma le_combine_split n z : le_combine (le_split n z) = z mod 256 ^ Z.of_nat n.
Proof.
  revert z. induction n as [|n IH]; intros z; cbn [le_split le_combine].
  - by rewrite Z.mod_1_r.
  - rewrite IH, Nat2Z.inj_succ, Z.pow_succ_r by lia.
    rewrite Z.rem_mul_r; lia.
Qed.

Lemma le_split_combine l : bytes l -> le_split (length l) (le_combine l) = l.
Proof.
  induction 1 as [|b l Hb _ IH]; [done|]. cbn [le_combine length le_split].
  unfold is_byte in Hb.
  rewrite Z.mul_comm, Z.mod_add, Z.mod_small, Z.div_add by lia.
  rewrite Z.div_small by lia. by rewrite Z.add_0_l, IH.
Qed.

Lemma le_combine_bound l : bytes l -> 0 <= le_combine l < 256 ^ zlen l.
Proof.
  induction 1 as [|b l Hb _ IH]; [unfold zlen; simpl; lia|].
  rewrite zlen_cons, Z.add_1_r, Z.pow_succ_r by apply zlen_nonneg.
  cbn [le_combine]. unfold is_byte in Hb. lia.
Qed.

Lemma range_app_mid a b c n :
  n = zlen b -> range (a ++ b ++ c) (zlen a) n = Some b.
Proof.
  intros ->. unfold range. rewrite !zlen_app.
  pose proof (zlen_nonneg a). pose proof (zlen_nonneg b). pose proof (zlen_nonneg c).
  destruct (_ && _) eqn:E.
  - unfold zlen. rewrite !Nat2Z.id, drop_app_length, take_app_length. done.
  - repeat (apply andb_false_iff in E as [E|E]); bool_cases; lia.
Qed.

Lemma load_le_app_mid a b c n :
  n = zlen b -> load_le (a ++ b ++ c) (zlen a) n = Some (le_combine b).
Proof. intros. unfold load_le. by rewrite range_app_mid. Qed.

(** A load inside the first part of a buffer. *)
Lemma load_le_prefix b r off n :
  0 <= off -> 0 <= n -> off + n <= zlen b ->
  load_le (b ++ r) off n = Some (le_combine (take (Z.to_nat n) (drop (Z.to_nat off) b))).
Proof.
  intros Ho Hn Hl. unfold load_le, range. rewrite zlen_app. pose proof (zlen_nonneg r).
  destruct (_ && _) eqn:E;
    [|repeat (apply andb_false_iff in E as [E|E]); bool_cases; lia].
  simpl. do 2 f_equal. unfold zlen in *. rewrite drop_app_le by lia.
  by rewrite take_app_le by (rewrite length_drop; lia).
Qed.

Lemma c_string_app l r : Forall (fun c => c <> 0) l -> c_string (l ++ 0 :: r) = Some l.
Proof.
  induction 1 as [|c l Hc _ IH]; [done|]. cbn [app c_string]. rewrite IH. by destruct (Z.eqb_spec c 0).
Qed.

#[export] Hint Resolve u8_byte zlen_nonneg bytes_le_split : x300.
#[export] Hint Rewrite @zlen_app @zlen_cons : x300.
