(* ===== verification/Text.v ===== *)
(** * C text: string literals and decimal numbers

    What [printf] writes for an integer and what a decimal string stands for,
    shared by the daemon's property values and the drivers' attribute files. *)

From stdpp Require Import base list numbers strings sets.
From Stdlib Require Import ZArith Lia.
From S2P Require Import Prelude.
Open Scope Z_scope.

(** A C string literal, without its NUL. *)
Definition str (s : String.string) : list Z :=
  map (fun c => Z.of_N (Ascii.N_of_ascii c)) (String.list_ascii_of_string s).

(** ** [printf] of a non-negative number *)

Fixpoint dec_loop (fuel : nat) (n : Z) (acc : list Z) : list Z :=
  match fuel with
  | O => acc
  | S f => if n <? 10 then (48 + n) :: acc else dec_loop f (n / 10) ((48 + n mod 10) :: acc)
  end.
(** An [int] has at most ten digits. *)
Definition decimal (n : Z) : list Z := dec_loop 10 n [].

(** [snprintf(buf, size, ...)] keeps [size - 1] characters. *)
Definition snprintf (size : Z) (s : list Z) : list Z := take (Z.to_nat (size - 1)) s.

(** [%d] of an [int]. *)
Definition sdecimal (n : Z) : list Z := if n <? 0 then 45 :: decimal (- n) else decimal n.

(** [atoi] of a C string: an optional sign and the digits after it; the strings
    here start with neither white space nor a plus sign. *)
Fixpoint digits_value (acc : Z) (l : list Z) : Z :=
  match l with
  | [] => acc
  | c :: l => if (48 <=? c) && (c <=? 57) then digits_value (10 * acc + (c - 48)) l else acc
  end.
Definition atoi (l : list Z) : Z :=
  match l with
  | [] => 0
  | c :: l' => if c =? 45 then - digits_value 0 l' else digits_value 0 l
  end.

(** [atoi] of any C string: white space, a sign, digits; a value outside the
    range of [int] is cut to its ends, as [strtol] does with a 32-bit [long]. *)
Definition is_space (c : Z) : bool := (c =? 32) || ((9 <=? c) && (c <=? 13)).
Fixpoint skip_space (l : list Z) : list Z :=
  match l with [] => [] | c :: l' => if is_space c then skip_space l' else l end.
Definition strtol10 (l : list Z) : Z :=
  let v := match skip_space l with
           | [] => 0
           | c :: l' => if c =? 45 then - digits_value 0 l'
                        else if c =? 43 then digits_value 0 l' else digits_value 0 (c :: l')
           end in
  Z.max (- 2 ^ 31) (Z.min (2 ^ 31 - 1) v).

(** The number a string of decimal digits stands for. *)
Definition undecimal (l : list Z) : Z := foldl (fun a c => 10 * a + (c - 48)) 0 l.

Lemma undecimal_acc l a :
  foldl (fun a c => 10 * a + (c - 48)) a l = a * 10 ^ zlen l + undecimal l.
Proof.
  revert a. induction l as [|c l IH]; intros a; [unfold undecimal, zlen; simpl; lia|].
  cbn [foldl]. rewrite IH. unfold undecimal at 2. cbn [foldl]. rewrite IH.
  rewrite zlen_cons, Z.pow_add_r by (pose proof (zlen_nonneg l); lia). ring.
Qed.

Lemma undecimal_cons c l : undecimal (c :: l) = (c - 48) * 10 ^ zlen l + undecimal l.
Proof. unfold undecimal at 1. cbn [foldl]. rewrite undecimal_acc. lia. Qed.

Lemma dec_loop_spec f n acc :
  0 <= n < 10 ^ Z.of_nat f -> (0 < f)%nat ->
  undecimal (dec_loop f n acc) = n * 10 ^ zlen acc + undecimal acc /\
  (length (dec_loop f n acc) <= f + length acc)%nat.
Proof.
  revert n acc. induction f as [|f IH]; intros n acc Hn Hf; [lia|]. cbn [dec_loop].
  destruct (n <? 10) eqn:E; bool_cases.
  - rewrite undecimal_cons. split; [lia|simpl; lia].
  - rewrite Nat2Z.inj_succ, Z.pow_succ_r in Hn by lia.
    assert (0 < f)%nat by (destruct f; [simpl in Hn; lia|lia]).
    destruct (IH (n / 10) ((48 + n mod 10) :: acc)) as [E1 E2];
      [split; [apply Z.div_pos; lia|apply Z.div_lt_upper_bound; lia]|done|].
    split; [|simpl in E2; lia]. rewrite E1, undecimal_cons, zlen_cons.
    rewrite Z.pow_add_r by (pose proof (zlen_nonneg acc); lia).
    pose proof (Z.div_mod n 10 ltac:(lia)). nia.
Qed.

Lemma decimal_value n : 0 <= n < 10 ^ 10 -> undecimal (decimal n) = n.
Proof.
  intros Hn. destruct (dec_loop_spec 10 n [] ltac:(simpl; lia) ltac:(lia)) as [E _].
  unfold decimal. rewrite E. unfold zlen, undecimal. simpl. lia.
Qed.

Lemma dec_loop_digits f n acc :
  0 <= n < 10 ^ Z.of_nat f -> Forall (fun c => 48 <= c <= 57) acc ->
  Forall (fun c => 48 <= c <= 57) (dec_loop f n acc).
Proof.
  revert n acc. induction f as [|f IH]; intros n acc Hn Ha; [done|]. cbn [dec_loop].
  destruct (n <? 10) eqn:E; bool_cases; [by constructor; [lia|]|].
  rewrite Nat2Z.inj_succ, Z.pow_succ_r in Hn by lia.
  pose proof (Z.mod_pos_bound n 10 ltac:(lia)).
  apply IH; [split; [apply Z.div_pos; lia|apply Z.div_lt_upper_bound; lia]|].
  constructor; [lia|done].
Qed.

Lemma decimal_digits n : 0 <= n < 10 ^ 10 -> Forall (fun c => 48 <= c <= 57) (decimal n).
Proof. intros. apply dec_loop_digits; [simpl; lia|constructor]. Qed.

Lemma digits_value_app l c r acc :
  Forall (fun c => 48 <= c <= 57) l -> ~ (48 <= c <= 57) ->
  digits_value acc (l ++ c :: r) = foldl (fun a c => 10 * a + (c - 48)) acc l.
Proof.
  intros Hl Hc. revert acc. induction Hl as [|x l Hx _ IH]; intros acc; cbn [app digits_value foldl].
  - destruct (_ && _) eqn:E; [|done]. bool_cases. lia.
  - rewrite (proj2 (Z.leb_le 48 x)), (proj2 (Z.leb_le x 57)) by lia. apply IH.
Qed.

(** What [%d] prints, [atoi] reads. *)
Lemma atoi_sdecimal n c r :
  - 2 ^ 31 <= n < 2 ^ 31 -> ~ (48 <= c <= 57) -> c <> 45 -> atoi (sdecimal n ++ c :: r) = n.
Proof.
  intros Hn Hc Hm. unfold sdecimal. destruct (n <? 0) eqn:E; bool_cases.
  - cbn [app atoi Z.eqb Pos.eqb]. rewrite digits_value_app; [|apply decimal_digits; lia|done].
    change (foldl _ 0 (decimal (- n))) with (undecimal (decimal (- n))). rewrite decimal_value; lia.
  - pose proof (decimal_digits n ltac:(lia)) as Hd.
    assert (atoi (decimal n ++ c :: r) = digits_value 0 (decimal n ++ c :: r)) as ->.
    { destruct (decimal n) as [|x l]; cbn [app atoi].
      - by destruct (Z.eqb_spec c 45).
      - apply Forall_inv in Hd. destruct (Z.eqb_spec x 45); [lia|done]. }
    rewrite digits_value_app by done. apply decimal_value. lia.
Qed.

Lemma sdecimal_length n : - 2 ^ 31 <= n < 2 ^ 31 -> (length (sdecimal n) <= 11)%nat.
Proof.
  intros Hn. unfold sdecimal. destruct (n <? 0) eqn:E; bool_cases; cbn [length].
  - destruct (dec_loop_spec 10 (- n) []) as [_ Hl]; [simpl; lia|lia|]. unfold decimal. cbn [length] in Hl. lia.
  - destruct (dec_loop_spec 10 n []) as [_ Hl]; [simpl; lia|lia|]. unfold decimal. cbn [length] in Hl. lia.
Qed.

(** No leading zero, except for the number 0. *)
Lemma dec_loop_head f n acc :
  0 < n < 10 ^ Z.of_nat f -> exists c l, dec_loop f n acc = c :: l /\ 49 <= c <= 57.
Proof.
  revert n acc. induction f as [|f IH]; intros n acc Hn; [simpl in Hn; lia|]. cbn [dec_loop].
  destruct (n <? 10) eqn:E; bool_cases; [do 2 eexists; split; [done|lia]|].
  rewrite Nat2Z.inj_succ, Z.pow_succ_r in Hn by lia.
  apply IH. split; [apply Z.div_str_pos; lia|apply Z.div_lt_upper_bound; lia].
Qed.

(** ** C strings *)

(** The bytes before the first NUL. *)
Fixpoint strz (l : list Z) : list Z :=
  match l with [] => [] | c :: l' => if c =? 0 then [] else c :: strz l' end.

(** [fgets] with room for [k] bytes and the NUL: up to and with the first
    newline; the rest of the stream. *)
Fixpoint fgets (k : nat) (s : list Z) : list Z * list Z :=
  match k, s with
  | S k', c :: s' =>
      if c =? 10 then ([c], s') else let '(l, r) := fgets k' s' in (c :: l, r)
  | _, _ => ([], s)
  end.

(** [strncat(out, line, n)]. *)
Definition strncat (out line : list Z) (n : Z) : option (list Z) :=
  old ← c_string out;
  let k := take (Z.to_nat n) (strz line) in
  if zlen old + zlen k + 1 <=? zlen out then Some (splice out (length old) (k ++ [0])) else None.


(** ** Lemmas: C strings *)

Definition nul_free (l : list Z) : Prop := Forall (fun c => c <> 0) l.

Lemma nul_free_true l : forallb (fun c => negb (c =? 0)) l = true -> nul_free l.
Proof.
  induction l as [|c l IH]; [constructor|]. cbn. intros E. apply andb_true_iff in E as [E1 E2].
  apply negb_true_iff in E1. bool_cases. constructor; [done|by apply IH].
Qed.

Lemma strz_nul_free l : nul_free (strz l).
Proof.
  induction l as [|c l IH]; simpl; [constructor|]. destruct (c =? 0) eqn:E; bool_cases;
    constructor; auto.
Qed.

Lemma strz_id l : nul_free l -> strz l = l.
Proof.
  induction 1 as [|c l Hc _ IH]; [done|]. simpl. destruct (c =? 0) eqn:E; bool_cases; [done|].
  by rewrite IH.
Qed.

Lemma strz_length l : zlen (strz l) <= zlen l.
Proof.
  induction l as [|c l IH]; [done|]. simpl. rewrite zlen_cons. pose proof (zlen_nonneg l).
  destruct (c =? 0); [change (zlen []) with 0; lia|rewrite zlen_cons; lia].
Qed.

Lemma fgets_spec k s l r :
  fgets k s = (l, r) -> s = l ++ r /\ (length l <= k)%nat /\
    (s <> [] -> (0 < k)%nat -> l <> []).
Proof.
  revert s l r. induction k as [|k IH]; intros s l r E; [simpl in E; simplify_eq; split_and!;
    [done|simpl; lia|lia]|].
  destruct s as [|c s]; simpl in E; [simplify_eq; split_and!; [done|simpl; lia|done]|].
  destruct (c =? 10); [simplify_eq; split_and!; [done|simpl; lia|done]|].
  destruct (fgets k s) as [l' r'] eqn:E'.
  destruct (IH s l' r' E') as (-> & Hl & _). simplify_eq. split_and!; [done|simpl; lia|done].
Qed.

(** What a loop over [fgets] sees of a stream: each line up to its first NUL. *)
Fixpoint fgets_text (k fuel : nat) (fp : list Z) : list Z :=
  match fuel, fp with
  | S fuel', _ :: _ =>
      let '(l, r) := fgets k fp in strz l ++ fgets_text k fuel' r
  | _, _ => []
  end.

Lemma fgets_text_nul_free k fuel fp :
  (0 < k)%nat ->
  (length fp <= fuel)%nat -> nul_free fp -> fgets_text k fuel fp = fp.
Proof.
  intros Hk. revert fp. induction fuel as [|fuel IH]; intros fp Hl Hn.
  - destruct fp; [done|simpl in Hl; lia].
  - cbn [fgets_text]. destruct fp as [|c fp]; [done|].
    destruct (fgets _ (c :: fp)) as [l r] eqn:E.
    destruct (fgets_spec _ _ _ _ E) as (Es & _ & Hne). specialize (Hne ltac:(done) Hk).
    rewrite Es in *. apply Forall_app in Hn as [Hn1 Hn2].
    rewrite strz_id by done. f_equal. apply IH; [|done].
    rewrite length_app in Hl. destruct l; [done|]. simpl in Hl. lia.
Qed.


(** [strncat] after the text already there. *)
Lemma strncat_spec cur line tl n :
  nul_free cur -> 0 <= n ->
  let k := take (Z.to_nat n) (strz line) in
  zlen cur + zlen k + 1 <= zlen (cur ++ 0 :: tl) ->
  strncat (cur ++ 0 :: tl) line n =
    Some ((cur ++ k) ++ 0 :: drop (length k) tl).
Proof.
  intros Hc Hn k Hlen. unfold strncat. rewrite c_string_app by done. cbn [mbind option_bind].
  fold k. destruct (_ <=? _) eqn:E; bool_cases; [|lia]. f_equal. unfold splice.
  rewrite take_app_length, <- !app_assoc. f_equal. f_equal. cbn [app]. f_equal.
  rewrite length_app. cbn [length]. rewrite drop_app_add. by rewrite Nat.add_1_r.
Qed.


(** ** Words: [strtok] and [strsep] with one delimiter *)

(** The bytes before the first [d] and, when there is one, those after it. *)
Fixpoint cut_at (d : Z) (s : list Z) : list Z * option (list Z) :=
  match s with
  | [] => ([], None)
  | c :: s' => if c =? d then ([], Some s') else let '(t, r) := cut_at d s' in (c :: t, r)
  end.

Fixpoint skip_all (d : Z) (s : list Z) : list Z :=
  match s with [] => [] | c :: s' => if c =? d then skip_all d s' else s end.

(** [strtok] on the text it has still to scan: the next token and the text
    after it. *)
Definition strtok (d : Z) (s : list Z) : option (list Z * list Z) :=
  match skip_all d s with
  | [] => None
  | s' => let '(t, r) := cut_at d s' in Some (t, default [] r)
  end.

(** [strsep(&s, delim)]: the token and the new value of [s], NULL after the last. *)
Definition strsep (d : Z) (s : option (list Z)) : option (list Z * option (list Z)) :=
  cut_at d <$> s.

(** The words of a text: its maximal runs without the delimiter. *)
Fixpoint words_from (d : Z) (cur s : list Z) : list (list Z) :=
  let flush := match cur with [] => [] | _ => [cur] end in
  match s with
  | [] => flush
  | c :: s' => if c =? d then flush ++ words_from d [] s' else words_from d (cur ++ [c]) s'
  end.
Definition words (d : Z) (s : list Z) : list (list Z) := words_from d [] s.

(** Every word followed by a delimiter. *)
Definition join (d : Z) (ws : list (list Z)) : list Z := concat (map (fun w => w ++ [d]) ws).

Definition word_of (d : Z) (w : list Z) : Prop := w <> [] /\ d ∉ w.

Lemma cut_at_spec d s t r :
  cut_at d s = (t, r) ->
  d ∉ t /\ (match r with Some r => s = t ++ d :: r | None => s = t end).
Proof.
  revert t r. induction s as [|c s IH]; intros t r E; simpl in E; [simplify_eq; split; [set_solver|done]|].
  destruct (c =? d) eqn:Ec; bool_cases; [simplify_eq; split; [set_solver|done]|].
  destruct (cut_at d s) as [t' r']. simplify_eq. destruct (IH _ _ eq_refl) as [Hd Hr].
  split; [set_solver|]. by destruct r; rewrite Hr.
Qed.

Lemma cut_at_app d t r : d ∉ t -> cut_at d (t ++ d :: r) = (t, Some r).
Proof.
  induction t as [|c t IH]; intros Hd; simpl; [by rewrite Z.eqb_refl|].
  destruct (c =? d) eqn:E; bool_cases; [subst; set_solver|]. rewrite IH; [done|set_solver].
Qed.

Lemma cut_at_none d t : d ∉ t -> cut_at d t = (t, None).
Proof.
  induction t as [|c t IH]; intros Hd; simpl; [done|].
  destruct (c =? d) eqn:E; bool_cases; [subst; set_solver|]. rewrite IH; [done|set_solver].
Qed.

(** The fields of a text between its delimiters. *)
Fixpoint fields (d : Z) (s : list Z) : list (list Z) :=
  match s with
  | [] => [[]]
  | c :: s' =>
      if c =? d then [] :: fields d s'
      else match fields d s' with f :: fs => (c :: f) :: fs | [] => [[c]] end
  end.

Lemma fields_cut d s t r :
  cut_at d s = (t, r) -> fields d s = t :: match r with Some r => fields d r | None => [] end.
Proof.
  revert t r. induction s as [|c s IH]; intros t r E; simpl in E |- *; [by simplify_eq|].
  destruct (c =? d); [by simplify_eq|]. destruct (cut_at d s) as [t' r']. simplify_eq.
  by rewrite (IH _ _ eq_refl).
Qed.

Lemma words_skip d s : words d (skip_all d s) = words d s.
Proof.
  unfold words. induction s as [|c s IH]; [done|]. simpl. destruct (c =? d) eqn:E; [done|].
  cbn [words_from]. by rewrite E.
Qed.

Lemma words_from_run d cur t s :
  d ∉ t -> words_from d cur (t ++ s) = words_from d (cur ++ t) s.
Proof.
  revert cur. induction t as [|c t IH]; intros cur Hd; [by rewrite app_nil_r|]. simpl.
  destruct (c =? d) eqn:E; bool_cases; [subst; set_solver|].
  rewrite IH, <- app_assoc by set_solver. done.
Qed.

Lemma words_cons d w s : word_of d w -> words d (w ++ d :: s) = w :: words d s.
Proof.
  intros [Hne Hd]. unfold words. rewrite words_from_run by done. cbn [app words_from].
  rewrite Z.eqb_refl. by destruct w.
Qed.

Lemma words_last d w : word_of d w -> words d w = [w].
Proof.
  intros [Hne Hd]. unfold words. rewrite <- (app_nil_r w) at 1. rewrite words_from_run by done.
  by destruct w.
Qed.

(** [strtok] takes the first word. *)
Lemma strtok_words d s :
  match strtok d s with
  | None => words d s = []
  | Some (t, r) => words d s = t :: words d r /\ word_of d t /\ (length r < length s)%nat
  end.
Proof.
  unfold strtok. rewrite <- (words_skip d s).
  assert (length (skip_all d s) <= length s)%nat as HL.
  { induction s as [|c s IH]; simpl; [lia|]. destruct (c =? d); simpl; lia. }
  assert (match skip_all d s with [] => True | c :: _ => c <> d end) as Hc.
  { clear HL. induction s as [|c s IH]; simpl; [done|]. destruct (c =? d) eqn:E; bool_cases; done. }
  destruct (skip_all d s) as [|c s']; [done|]. destruct (cut_at d (c :: s')) as [t r] eqn:E.
  destruct (cut_at_spec _ _ _ _ E) as [Hd Hr].
  assert (word_of d t) as Hw.
  { split; [|done]. intros ->. destruct r as [r|]; simpl in Hr; [|done]. by injection Hr as -> _. }
  destruct r as [r|]; simpl; rewrite Hr.
  - rewrite words_cons by done. split_and!; [done|done|]. rewrite Hr, length_app in HL. simpl in HL. lia.
  - rewrite words_last by done. split_and!; [done|done|]. simpl in HL. lia.
Qed.

Lemma join_cons d w ws : join d (w :: ws) = w ++ d :: join d ws.
Proof. unfold join. simpl. by rewrite <- app_assoc. Qed.

Lemma join_app d ws vs : join d (ws ++ vs) = join d ws ++ join d vs.
Proof. unfold join. by rewrite map_app, concat_app. Qed.

Lemma words_join d ws : Forall (word_of d) ws -> words d (join d ws) = ws.
Proof. induction 1 as [|w ws Hw _ IH]; [done|]. by rewrite join_cons, words_cons, IH. Qed.

(** The same without the last delimiter. *)
Lemma words_join_last d ws w :
  Forall (word_of d) ws -> word_of d w -> words d (join d ws ++ w) = ws ++ [w].
Proof.
  intros Hws Hw. induction Hws as [|v ws Hv _ IH]; [by apply words_last|].
  by rewrite join_cons, <- app_assoc, <- app_comm_cons, words_cons, IH.
Qed.

Lemma join_length d ws : zlen (join d ws) = foldr (fun w n => zlen w + 1 + n) 0 ws.
Proof.
  induction ws as [|w ws IH]; [done|]. rewrite join_cons, zlen_app, zlen_cons, IH. simpl. lia.
Qed.

Lemma nul_free_app l k : nul_free (l ++ k) <-> nul_free l /\ nul_free k.
Proof. apply Forall_app. Qed.

Lemma nul_free_join d ws : d <> 0 -> Forall nul_free ws -> nul_free (join d ws).
Proof.
  intros Hd. induction 1 as [|w ws Hw _ IH]; [constructor|].
  rewrite join_cons. apply nul_free_app. split; [done|]. by constructor.
Qed.

(** A string after its NUL-terminated copy. *)
Lemma c_string_zeros l n : nul_free l -> c_string (l ++ replicate (S n) 0) = Some l.
Proof. intros. by apply c_string_app. Qed.
