(* ===== verification/CircleBuffer.v ===== *)
(** * The circular byte buffer of the daemon ([external/scorpion/scorpion_cb.c])

    [CircleBufferMngr] is the C struct, [cb_*] are the C functions, [None] is
    an access outside an object.  The mutex makes the body of every operation
    one atomic step; the operations below are those bodies.  [Queue] is the
    abstract byte queue the buffer promises; [contents] is the abstraction
    function. *)

From stdpp Require Import base list numbers.
From Stdlib Require Import ZArith Lia.
From S2P Require Import Prelude.
Open Scope Z_scope.

Record CircleBufferMngr := mkCB {
  bufptr : list Z;
  buflen : Z;      (* cb_s32 *)
  datalen : Z;     (* cb_s32 *)
  readpos : Z;     (* cb_u32 *)
  writepos : Z     (* cb_u32 *)
}.

Definition cb_full (m : CircleBufferMngr) : bool := buflen m =? datalen m.

Definition cb_empty (m : CircleBufferMngr) : bool := 0 =? datalen m.

(** [cb_init]: the manager pointer is NULL ([None]) or not; the results of
    the two [malloc] calls are inputs ([false] is NULL), and a failed one is
    dereferenced by the [memset] that follows it. *)
Definition cb_init (malloc_mngr malloc_buf : bool) (pp : option CircleBufferMngr) (len : Z)
  : option (bool * option CircleBufferMngr) :=
  match pp with
  | Some m => Some (false, Some m)
  | None =>
      if len =? 0 then Some (false, None)
      else if malloc_mngr && malloc_buf then
        Some (true, Some (mkCB (replicate (Z.to_nat len) 0) (s32 len) 0 0 0))
      else None
  end.

Definition cb_deinit (pp : option CircleBufferMngr) : bool * option CircleBufferMngr :=
  match pp with
  | None => (false, None)
  | Some _ => (true, None)
  end.

Definition cb_clear (m : CircleBufferMngr) : CircleBufferMngr :=
  mkCB (bufptr m) (buflen m) 0 0 0.

(** The copy [cb_read] and [cb_read_no_offset] make into a non-NULL [outbuf]. *)
Definition cb_copy_out (m : CircleBufferMngr) (outbuf : option (list Z)) (readlen tmplen : Z)
  : option (option (list Z)) :=
  match outbuf with
  | None => Some None
  | Some out =>
      if readlen <=? tmplen then
        out' ← memcpy out 0 (bufptr m) (readpos m) readlen; Some (Some out')
      else
        out1 ← memcpy out 0 (bufptr m) (readpos m) tmplen;
        out2 ← memcpy out1 tmplen (bufptr m) 0 (u32 (readlen - tmplen)); Some (Some out2)
  end.

Definition cb_read (m : CircleBufferMngr) (outbuf : option (list Z)) (n : Z)
  : option (Z * option (list Z) * CircleBufferMngr) :=
  if cb_empty m then Some (0, outbuf, m)
  else
    let readlen := u32 (if datalen m <? n then datalen m else n) in
    let tmplen := u32 (buflen m - readpos m) in
    out ← cb_copy_out m outbuf readlen tmplen;
    Some (s32 readlen, out,
          mkCB (bufptr m) (buflen m) (s32 (datalen m - readlen))
               (u32 (readpos m + readlen) mod u32 (buflen m)) (writepos m)).

Definition cb_read_no_offset (m : CircleBufferMngr) (outbuf : option (list Z)) (n : Z)
  : option (Z * option (list Z)) :=
  if cb_empty m then Some (0, outbuf)
  else
    let readlen := u32 (if datalen m <? n then datalen m else n) in
    let tmplen := u32 (buflen m - readpos m) in
    out ← cb_copy_out m outbuf readlen tmplen;
    Some (s32 readlen, out).

Definition cb_datalen (m : CircleBufferMngr) : Z := datalen m.

Definition cb_freelen (m : CircleBufferMngr) : Z := s32 (buflen m - datalen m).

Definition cb_read_move_offset (m : CircleBufferMngr) (offset : Z) : CircleBufferMngr :=
  let len := cb_datalen m in
  if len <=? offset then
    mkCB (bufptr m) (buflen m) 0 (writepos m) (writepos m)
  else
    mkCB (bufptr m) (buflen m) (s32 (datalen m - offset))
         (u32 (readpos m + u32 offset) mod u32 (buflen m)) (writepos m).

Definition cb_write (m : CircleBufferMngr) (dat : list Z) (datlen : Z)
  : option (Z * CircleBufferMngr) :=
  if cb_full m then Some (0, m)
  else
    let tmplen := s32 (buflen m - datalen m) in
    let writelen := if datlen <? tmplen then datlen else tmplen in
    buf' ←
      (if writepos m <? readpos m then
         memcpy (bufptr m) (writepos m) dat 0 (u32 writelen)
       else
         let tmplen := s32 (buflen m - writepos m) in
         if writelen <=? tmplen then
           memcpy (bufptr m) (writepos m) dat 0 (u32 writelen)
         else
           b1 ← memcpy (bufptr m) (writepos m) dat 0 (u32 tmplen);
           memcpy b1 0 dat tmplen (u32 (writelen - tmplen)));
    Some (writelen,
          mkCB buf' (buflen m) (s32 (datalen m + writelen))
               (readpos m) (u32 (writepos m + u32 writelen) mod u32 (buflen m))).

(** ** The abstract queue *)

Module Queue.
(** A FIFO of bytes of capacity [cap]. *)
Definition room (cap : Z) (q : list Z) : Z := cap - zlen q.
Definition push (cap : Z) (q d : list Z) : Z * list Z :=
  let n := Z.min (room cap q) (zlen d) in (n, q ++ take (Z.to_nat n) d).
Definition pop (q : list Z) (n : Z) : list Z * list Z :=
  (take (Z.to_nat n) q, drop (Z.to_nat n) q).
End Queue.

Record cb_ok (m : CircleBufferMngr) : Prop := {
  ok_buflen : 0 < buflen m < 2 ^ 31;
  ok_buf : zlen (bufptr m) = buflen m;
  ok_datalen : 0 <= datalen m <= buflen m;
  ok_readpos : 0 <= readpos m < buflen m;
  ok_writepos : writepos m = (readpos m + datalen m) mod buflen m
}.

Definition contents (m : CircleBufferMngr) : list Z :=
  take (Z.to_nat (datalen m)) (drop (Z.to_nat (readpos m)) (bufptr m) ++ bufptr m).

(** ** Lemmas *)

Lemma mod_wrap a L : 0 < L -> 0 <= a < 2 * L -> a mod L = if a <? L then a else a - L.
Proof.
  intros. destruct (a <? L) eqn:?; bool_cases; [apply Z.mod_small; lia|].
  symmetry. apply (Z.mod_unique a L 1); lia.
Qed.

Lemma contents_lookup m i :
  cb_ok m ->
  contents m !! i =
    if decide (Z.of_nat i < datalen m) then
      bufptr m !! Z.to_nat (if readpos m + Z.of_nat i <? buflen m
                            then readpos m + Z.of_nat i
                            else readpos m + Z.of_nat i - buflen m)
    else None.
Proof.
  intros [Hl Hb Hd Hr Hw]. unfold contents, zlen in *. case_decide.
  - rewrite lookup_take_lt by lia.
    destruct (_ <? _) eqn:?; bool_cases.
    + rewrite lookup_app_l by len. rewrite lookup_drop. f_equal. lia.
    + rewrite lookup_app_r by len. f_equal. len.
  - apply lookup_take_ge. lia.
Qed.

Lemma contents_length m : cb_ok m -> zlen (contents m) = datalen m.
Proof. intros [Hl Hb Hd Hr Hw]. unfold contents, zlen in *. len. Qed.

(** The write position in the linear form the proofs use. *)
Lemma writepos_cases m :
  cb_ok m ->
  writepos m = (if readpos m + datalen m <? buflen m
                then readpos m + datalen m else readpos m + datalen m - buflen m).
Proof. intros [Hl Hb Hd Hr Hw]. rewrite Hw. apply mod_wrap; lia. Qed.

Lemma cb_ok_bounds m : cb_ok m -> 0 <= writepos m < buflen m.
Proof. intros Hm. rewrite writepos_cases by done. destruct Hm. split_if; bool_cases; lia. Qed.

(** What a write of [n] bytes leaves in the buffer: cell [j] lies [k] cells
    after the write position, and holds byte [k] of the data when [k < n]. *)
Definition written (L wp n : Z) (buf dat buf' : list Z) : Prop :=
  length buf' = length buf /\
  forall j : nat, Z.of_nat j < L ->
    let k := if wp <=? Z.of_nat j then Z.of_nat j - wp else Z.of_nat j - wp + L in
    buf' !! j = if decide (k < n) then dat !! Z.to_nat k else buf !! j.

Lemma lookup_take_drop (l : list Z) a n i :
  (i < n)%nat -> take n (drop a l) !! i = l !! (a + i)%nat.
Proof. intros. by rewrite lookup_take_lt, lookup_drop by lia. Qed.

Lemma written_one L wp n buf dat :
  zlen buf = L -> 0 <= wp -> 0 <= n -> wp + n <= L -> n <= zlen dat ->
  exists buf', memcpy buf wp dat 0 n = Some buf' /\ written L wp n buf dat buf'.
Proof.
  intros HL Hwp Hn Hle Hd. unfold zlen in *. eexists. split.
  - apply memcpy_Some; unfold zlen; lia.
  - split; [apply length_splice; len|]. intros j Hj k. subst k.
    rewrite splice_lookup by len.
    destruct (decide _) as [H1|H1]; destruct (_ <=? _) eqn:E; bool_cases;
      destruct (decide _) as [H2|H2]; try (len; fail); try done.
    rewrite lookup_take_drop by len. f_equal. len.
Qed.

Lemma written_two L wp n buf dat t :
  zlen buf = L -> t = L - wp -> 0 <= wp < L -> t < n -> n <= L -> n <= zlen dat ->
  exists b1 buf', memcpy buf wp dat 0 t = Some b1 /\
    memcpy b1 0 dat t (n - t) = Some buf' /\ written L wp n buf dat buf'.
Proof.
  intros HL -> Hwp Hn Hle Hd. unfold zlen in *. do 2 eexists. split_and!.
  - apply memcpy_Some; unfold zlen; lia.
  - apply memcpy_Some; unfold zlen; rewrite ?length_splice; len.
  - split; [rewrite !length_splice; rewrite ?length_splice; len|].
    intros j Hj k. subst k.
    rewrite splice_lookup by (rewrite length_splice; len).
    rewrite splice_lookup by len.
    repeat (destruct (decide _) as [?|?]); destruct (_ <=? _) eqn:E; bool_cases;
      try (exfalso; len; fail); try done;
      rewrite lookup_take_drop by len; f_equal; len.
Qed.

(** The arithmetic of [cb_write] on a well-formed buffer. *)
Lemma cb_write_eq m dat datlen :
  cb_ok m -> 0 <= datlen < 2 ^ 31 -> datlen <= zlen dat ->
  let n := Z.min (buflen m - datalen m) datlen in
  exists buf', written (buflen m) (writepos m) n (bufptr m) dat buf' /\
    cb_write m dat datlen =
      Some (n, mkCB buf' (buflen m) (datalen m + n) (readpos m)
                    ((writepos m + n) mod buflen m)).
Proof.
  intros Hm Hd1 Hd2 n. pose proof (cb_ok_bounds m Hm) as Hw.
  pose proof (writepos_cases m Hm) as Hwc. destruct Hm as [Hl Hb Hd Hr _].
  unfold cb_write, cb_full. destruct (_ =? _) eqn:Hfull; bool_cases.
  { exists (bufptr m). assert (n = 0) as -> by (subst n; lia). split.
    - split; [done|]. intros j Hj k. destruct (decide _) as [H|H]; [|done].
      subst k. destruct (_ <=? _) eqn:?; bool_cases; lia.
    - rewrite !Z.add_0_r, Z.mod_small by lia. by destruct m. }
  no_wrap.
  assert ((if datlen <? buflen m - datalen m then datlen else buflen m - datalen m) = n) as ->.
  { subst n. split_if; bool_cases; lia. }
  assert (0 <= n <= buflen m - datalen m /\ n <= datlen) as Hn by (subst n; lia). clearbody n.
  assert (exists buf', (if writepos m <? readpos m
     then memcpy (bufptr m) (writepos m) dat 0 n
     else if n <=? buflen m - writepos m
      then memcpy (bufptr m) (writepos m) dat 0 n
      else b1 ← memcpy (bufptr m) (writepos m) dat 0 (buflen m - writepos m);
        memcpy b1 0 dat (buflen m - writepos m) (n - (buflen m - writepos m)))
     = Some buf' /\ written (buflen m) (writepos m) n (bufptr m) dat buf') as (buf' & E & W).
  { destruct (writepos m <? readpos m) eqn:?; bool_cases.
    - apply written_one; try lia. destruct (_ <? _) eqn:? in Hwc; bool_cases; lia.
    - destruct (n <=? buflen m - writepos m) eqn:?; bool_cases.
      + apply written_one; lia.
      + destruct (written_two (buflen m) (writepos m) n (bufptr m) dat
                    (buflen m - writepos m)) as (b1 & b2 & E1 & E2 & W); try lia.
        exists b2. rewrite E1. simpl. by rewrite E2. }
  exists buf'. split; [done|].
  destruct (writepos m <? readpos m) eqn:?; no_wrap;
    [|destruct (n <=? _) eqn:?]; bool_cases; no_wrap; by rewrite E.
Qed.

Lemma cb_ok_pushed m n buf' :
  cb_ok m -> 0 <= n <= buflen m - datalen m -> length buf' = length (bufptr m) ->
  cb_ok (mkCB buf' (buflen m) (datalen m + n) (readpos m) ((writepos m + n) mod buflen m)).
Proof.
  intros [Hl Hb Hd Hr Hw] Hn Hlen. split; simpl; try (unfold zlen in *; lia).
  rewrite Hw, Z.add_mod_idemp_l by lia. f_equal. lia.
Qed.

Lemma contents_pushed m n dat buf' :
  cb_ok m -> 0 <= n <= buflen m - datalen m -> n <= zlen dat ->
  written (buflen m) (writepos m) n (bufptr m) dat buf' ->
  contents (mkCB buf' (buflen m) (datalen m + n) (readpos m) ((writepos m + n) mod buflen m))
  = contents m ++ take (Z.to_nat n) dat.
Proof.
  intros Hm Hn Hdat [Hlen W]. pose proof (writepos_cases m Hm) as Hwc.
  pose proof (contents_length m Hm) as HC. pose proof Hm as [Hl Hb Hd Hr _].
  apply list_eq. intros i.
  rewrite contents_lookup by (by apply cb_ok_pushed). cbn [bufptr buflen datalen readpos].
  unfold zlen in *. destruct (decide (Z.of_nat i < datalen m + n)) as [Hi|Hi].
  - rewrite W by (split_if; bool_cases; lia).
    destruct (decide (Z.of_nat i < datalen m)) as [Hi2|Hi2].
    + rewrite lookup_app_l by lia. rewrite contents_lookup by done.
      rewrite decide_False; [by rewrite decide_True by lia|].
      destruct (readpos m + Z.of_nat i <? _) eqn:?; bool_cases;
        destruct (_ <=? _) eqn:? ; bool_cases; destruct (_ <? _) eqn:? in Hwc; bool_cases; lia.
    + rewrite lookup_app_r by lia. rewrite lookup_take_lt by lia.
      rewrite decide_True; [f_equal|];
      destruct (readpos m + Z.of_nat i <? _) eqn:?; bool_cases;
        destruct (_ <=? _) eqn:? ; bool_cases; destruct (_ <? _) eqn:? in Hwc; bool_cases; lia.
  - rewrite lookup_app_r by lia. rewrite lookup_take_ge; [done|lia].
Qed.

(** [cb_write] is [Queue.push]. *)
Lemma cb_write_spec m dat datlen :
  cb_ok m -> 0 <= datlen < 2 ^ 31 -> datlen <= zlen dat ->
  exists n m',
    cb_write m dat datlen = Some (n, m') /\ cb_ok m' /\ buflen m' = buflen m /\
    (n, contents m') = Queue.push (buflen m) (contents m) (take (Z.to_nat datlen) dat).
Proof.
  intros Hm H1 H2. destruct (cb_write_eq m dat datlen Hm H1 H2) as (buf' & W & E).
  do 2 eexists. split; [exact E|]. pose proof W as [HW _].
  pose proof Hm as [Hl Hb Hd Hr _]. split_and!; [apply cb_ok_pushed; auto; lia|done|].
  rewrite contents_pushed with (dat := dat); try lia; auto.
  unfold Queue.push, Queue.room. rewrite contents_length by done. unfold zlen in *. len.
  replace (Z.of_nat (Z.to_nat datlen `min` length dat)) with datlen by lia.
  f_equal. f_equal. rewrite take_take. f_equal. lia.
Qed.

Lemma cb_write_bytes m dat datlen n m' :
  cb_ok m -> 0 <= datlen < 2 ^ 31 -> datlen <= zlen dat ->
  bytes (contents m) -> bytes dat ->
  cb_write m dat datlen = Some (n, m') -> bytes (contents m').
Proof.
  intros Hm H1 H2 B1 B2 E.
  destruct (cb_write_spec m dat datlen Hm H1 H2) as (? & ? & E' & _ & _ & P).
  rewrite E' in E. simplify_eq. injection P as _ ->.
  apply bytes_app. split; [done|]. by do 2 apply Forall_take.
Qed.

(** What [cb_copy_out] puts in the output buffer. *)
Lemma cb_copy_out_spec m out k :
  cb_ok m -> 0 <= k <= datalen m -> k <= zlen out ->
  exists out', cb_copy_out m (Some out) k (u32 (buflen m - readpos m)) = Some (Some out') /\
    out' = take (Z.to_nat k) (contents m) ++ drop (Z.to_nat k) out.
Proof.
  intros Hm Hk Hout. pose proof (contents_length m Hm) as HC.
  pose proof Hm as [Hl Hb Hd Hr _]. unfold cb_copy_out. no_wrap. unfold zlen in *.
  destruct (_ <=? _) eqn:E; bool_cases.
  - rewrite memcpy_Some by (unfold zlen; lia). simpl. eexists. split; [done|].
    unfold splice. simpl. f_equal; [|f_equal; len].
    unfold contents. rewrite take_take. rewrite take_app_le by len. f_equal. lia.
  - no_wrap. rewrite memcpy_Some by (unfold zlen; lia). cbn [mbind option_bind].
    rewrite memcpy_Some by (unfold zlen; rewrite ?length_splice; len). simpl.
    eexists. split; [done|]. unfold contents. rewrite take_take.
    replace (Z.to_nat k `min` Z.to_nat (datalen m))%nat with (Z.to_nat k) by lia.
    rewrite take_app_ge by len.
    unfold splice. cbn [take Z.to_nat app]. rewrite drop_0.
    assert (take (Z.to_nat (buflen m - readpos m)) (drop (Z.to_nat (readpos m)) (bufptr m))
            = drop (Z.to_nat (readpos m)) (bufptr m)) as -> by (apply take_ge; len).
    change (Z.to_nat 0) with 0%nat. rewrite take_0. cbn [app Nat.add].
    rewrite <- !app_assoc. rewrite take_app_length' by len. f_equal.
    f_equal; [f_equal; len|]. rewrite drop_app_ge by len. rewrite drop_drop. f_equal. len.
Qed.

(** Dropping [k] bytes from the front. *)
Lemma popped m k :
  cb_ok m -> 0 <= k <= datalen m ->
  let m' := mkCB (bufptr m) (buflen m) (datalen m - k) ((readpos m + k) mod buflen m)
                 (writepos m) in
  cb_ok m' /\ contents m' = drop (Z.to_nat k) (contents m).
Proof.
  intros Hm Hk m'. pose proof Hm as [Hl Hb Hd Hr Hw].
  assert (cb_ok m') as Hm'.
  { split; simpl; try lia.
    - apply Z.mod_pos_bound. lia.
    - rewrite Hw, Z.add_mod_idemp_l by lia. f_equal. lia. }
  split; [done|]. apply list_eq. intros i. rewrite lookup_drop.
  rewrite !contents_lookup by done. subst m'. cbn [bufptr buflen datalen readpos].
  rewrite mod_wrap by lia.
  destruct (decide (Z.of_nat i < datalen m - k)).
  - rewrite decide_True by lia. f_equal.
    destruct (readpos m + k <? _) eqn:?; bool_cases;
      repeat (split_if; bool_cases); lia.
  - by rewrite decide_False by lia.
Qed.

(** [cb_read] is [Queue.pop] of at most what there is. *)
Lemma cb_read_spec m out n :
  cb_ok m -> 0 <= n < 2 ^ 31 -> Z.min n (datalen m) <= zlen out ->
  let k := Z.min n (datalen m) in
  exists m',
    cb_read m (Some out) n =
      Some (k, Some (take (Z.to_nat k) (contents m) ++ drop (Z.to_nat k) out), m') /\
    cb_ok m' /\ buflen m' = buflen m /\
    contents m' = drop (Z.to_nat k) (contents m).
Proof.
  intros Hm Hn Hout k. pose proof Hm as [Hl Hb Hd Hr Hw].
  unfold cb_read, cb_empty. destruct (_ =? _) eqn:E; bool_cases.
  { exists m. assert (k = 0) as -> by (subst k; lia). split_and!; auto. }
  assert (u32 (if datalen m <? n then datalen m else n) = k) as ->.
  { subst k. split_if; bool_cases; no_wrap; lia. }
  destruct (cb_copy_out_spec m out k Hm) as (out' & -> & ->); [subst k; lia..|].
  cbn [mbind option_bind]. assert (0 <= k <= datalen m) as Hk by (subst k; lia).
  destruct (popped m k Hm Hk) as [P1 P2].
  no_wrap. eexists. split; [reflexivity|]. done.
Qed.

(** [cb_read_no_offset] returns the same bytes and leaves the buffer alone. *)
Lemma cb_peek_spec m out n :
  cb_ok m -> 0 <= n < 2 ^ 31 -> Z.min n (datalen m) <= zlen out ->
  let k := Z.min n (datalen m) in
  cb_read_no_offset m (Some out) n =
    Some (k, Some (take (Z.to_nat k) (contents m) ++ drop (Z.to_nat k) out)).
Proof.
  intros Hm Hn Hout k. pose proof Hm as [Hl Hb Hd Hr Hw].
  unfold cb_read_no_offset, cb_empty. destruct (_ =? _) eqn:E; bool_cases.
  { assert (k = 0) as -> by (subst k; lia). done. }
  assert (u32 (if datalen m <? n then datalen m else n) = k) as ->.
  { subst k. split_if; bool_cases; no_wrap; lia. }
  destruct (cb_copy_out_spec m out k Hm) as (out' & -> & ->); [subst k; lia..|].
  cbn [mbind option_bind]. by rewrite s32_id by (subst k; lia).
Qed.

(** [cb_read_move_offset] with an offset that is not negative drops that many bytes. *)
Lemma cb_move_spec m offset :
  cb_ok m -> 0 <= offset < 2 ^ 31 ->
  cb_ok (cb_read_move_offset m offset) /\
  buflen (cb_read_move_offset m offset) = buflen m /\
  contents (cb_read_move_offset m offset) = drop (Z.to_nat offset) (contents m).
Proof.
  intros Hm Ho. pose proof (contents_length m Hm). pose proof (cb_ok_bounds m Hm).
  pose proof Hm as [Hl Hb Hd Hr Hw]. unfold cb_read_move_offset, cb_datalen.
  destruct (_ <=? _) eqn:E; bool_cases.
  - split_and!; [|done|].
    + split; simpl; auto; [lia|]. rewrite Z.add_0_r, Z.mod_small; lia.
    + unfold contents at 1. simpl. symmetry. apply drop_ge. unfold zlen in *. lia.
  - destruct (popped m offset Hm) as [P1 P2]; [lia|]. no_wrap. done.
Qed.

Lemma cb_clear_spec m : cb_ok m -> cb_ok (cb_clear m) /\ contents (cb_clear m) = [].
Proof.
  intros [Hl Hb Hd Hr Hw]. split; [|done].
  split; simpl; auto; try lia.
Qed.

Lemma cb_init_spec len :
  0 < len < 2 ^ 31 ->
  exists m, cb_init true true None len = Some (true, Some m) /\
    cb_ok m /\ buflen m = len /\ contents m = [].
Proof.
  intros Hl. unfold cb_init. destruct (_ =? _) eqn:E; bool_cases; [lia|]. simpl.
  eexists. split; [done|]. rewrite s32_id by lia. split_and!; [|done|done].
  split; simpl; try lia; [|by rewrite Z.mod_0_l by lia].
  unfold zlen. rewrite length_replicate. lia.
Qed.

(** ** Runs of operations *)

Inductive cb_op :=
  | Write (d : list Z)                 (* cb_write(m, d, length d) *)
  | Read (out : list Z) (n : Z)        (* cb_read(m, out, n) *)
  | Peek (out : list Z) (n : Z)        (* cb_read_no_offset(m, out, n) *)
  | Skip (n : Z)                       (* cb_read_move_offset(m, n) *)
  | Clear                              (* cb_clear(m) *)
  | Free.                              (* cb_freelen(m) *)

(** What the caller sees: the returned number and the bytes read. *)
Definition answer : Type := Z * list Z.

Definition cb_step (m : CircleBufferMngr) (o : cb_op) : option (answer * CircleBufferMngr) :=
  match o with
  | Write d => '(n, m') ← cb_write m d (zlen d); Some ((n, []), m')
  | Read out n =>
      '(k, out', m') ← cb_read m (Some out) n;
      out'' ← out'; Some ((k, take (Z.to_nat k) out''), m')
  | Peek out n =>
      '(k, out') ← cb_read_no_offset m (Some out) n;
      out'' ← out'; Some ((k, take (Z.to_nat k) out''), m)
  | Skip n => Some ((0, []), cb_read_move_offset m n)
  | Clear => Some ((0, []), cb_clear m)
  | Free => Some ((cb_freelen m, []), m)
  end.

Definition queue_step (cap : Z) (q : list Z) (o : cb_op) : answer * list Z :=
  match o with
  | Write d => let '(n, q') := Queue.push cap q d in ((n, []), q')
  | Read _ n =>
      let '(d, q') := Queue.pop q (Z.min n (zlen q)) in ((zlen d, d), q')
  | Peek _ n =>
      let '(d, _) := Queue.pop q (Z.min n (zlen q)) in ((zlen d, d), q)
  | Skip n => ((0, []), (Queue.pop q n).2)
  | Clear => ((0, []), [])
  | Free => ((Queue.room cap q, []), q)
  end.

(** The sizes a caller may pass: not negative, of type [int], and no larger
    than the buffer they describe. *)
Definition op_ok (o : cb_op) : Prop :=
  match o with
  | Write d => zlen d < 2 ^ 31
  | Read out n | Peek out n => 0 <= n < 2 ^ 31 /\ n <= zlen out
  | Skip n => 0 <= n < 2 ^ 31
  | Clear | Free => True
  end.

Fixpoint cb_run (m : CircleBufferMngr) (os : list cb_op)
  : option (list answer * CircleBufferMngr) :=
  match os with
  | [] => Some ([], m)
  | o :: os' =>
      '(a, m') ← cb_step m o; '(l, m'') ← cb_run m' os'; Some (a :: l, m'')
  end.

Fixpoint queue_run (cap : Z) (q : list Z) (os : list cb_op) : list answer * list Z :=
  match os with
  | [] => ([], q)
  | o :: os' =>
      let '(a, q') := queue_step cap q o in
      let '(l, q'') := queue_run cap q' os' in (a :: l, q'')
  end.

Lemma take_take_app (c d : list Z) k :
  (k <= length c)%nat -> take k (take k c ++ d) = take k c.
Proof. intros. apply take_app_length'. len. Qed.

Lemma cb_step_refines m o :
  cb_ok m -> op_ok o ->
  exists a m', cb_step m o = Some (a, m') /\ cb_ok m' /\ buflen m' = buflen m /\
    queue_step (buflen m) (contents m) o = (a, contents m').
Proof.
  intros Hm Ho. pose proof (contents_length m Hm) as HC.
  pose proof Hm as [Hl Hb Hd Hr Hw]. destruct o as [d|out n|out n|n| |];
    cbn [cb_step queue_step op_ok] in Ho |- *.
  - destruct (cb_write_spec m d (zlen d) Hm) as (n & m' & -> & ? & ? & P);
      [split; [apply zlen_nonneg|done]|done|].
    unfold zlen in P at 1. rewrite Nat2Z.id, firstn_all in P.
    rewrite <- P. cbn. eauto 10.
  - destruct (cb_read_spec m out n) as (m' & -> & ? & ? & E); auto; try lia.
    cbn. do 2 eexists. split_and!; [done..|]. rewrite HC, E.
    rewrite take_take_app by (unfold zlen in *; lia). repeat f_equal. unfold zlen in *. len.
  - rewrite cb_peek_spec by (auto; lia). cbn. do 2 eexists. split_and!; [done..|].
    rewrite HC. rewrite take_take_app by (unfold zlen in *; lia).
    repeat f_equal. unfold zlen in *. len.
  - destruct (cb_move_spec m n Hm Ho) as (? & ? & E). do 2 eexists.
    split_and!; [done..|]. by rewrite E.
  - destruct (cb_clear_spec m Hm) as [? E]. do 2 eexists. split_and!; [done..|]. by rewrite E.
  - do 2 eexists. split_and!; [done..|]. unfold cb_freelen, Queue.room. rewrite HC. no_wrap. done.
Qed.

Lemma cb_run_refines m os :
  cb_ok m -> Forall op_ok os ->
  exists l m', cb_run m os = Some (l, m') /\ cb_ok m' /\ buflen m' = buflen m /\
    queue_run (buflen m) (contents m) os = (l, contents m').
Proof.
  intros Hm Hos. revert m Hm. induction Hos as [|o os Ho _ IH]; intros m Hm; simpl.
  - eauto 10.
  - destruct (cb_step_refines m o Hm Ho) as (a & m1 & -> & Hm1 & E1 & ->). simpl.
    destruct (IH m1 Hm1) as (l & m2 & -> & Hm2 & E2 & E). simpl.
    rewrite <- E1, E. do 2 eexists. split_and!; try done; congruence.
Qed.

(** C2: Every sequence of calls with legal sizes on a buffer that [cb_init]
    made stays inside the allocated memory, and each call answers what a
    byte queue of that capacity answers: the circular buffer refines a
    bounded FIFO, through every wrap-around. *)
Theorem cb_refines_queue len os :
  0 < len < 2 ^ 31 -> Forall op_ok os ->
  exists m l m',
    cb_init true true None len = Some (true, Some m) /\
    cb_run m os = Some (l, m') /\ cb_ok m' /\
    queue_run len [] os = (l, contents m').
Proof.
  intros Hl Hos. destruct (cb_init_spec len Hl) as (m & E & Hm & Hb & HC).
  destruct (cb_run_refines m os Hm Hos) as (l & m' & R & Hm' & _ & Q).
  exists m, l, m'. rewrite Hb, HC in Q. done.
Qed.

Definition cb_demo : list cb_op :=
  [Write [1;2;3]; Read [0;0] 2; Write [4;5;6;7]; Free; Peek [9;9;9;9;9] 5; Read [0;0;0;0] 4].

Lemma cb_refines_queue_witness :
  exists m l m',
    cb_init true true None 4 = Some (true, Some m) /\
    cb_run m cb_demo = Some (l, m') /\ cb_ok m' /\
    queue_run 4 [] cb_demo = (l, contents m').
Proof.
  apply (cb_refines_queue 4 cb_demo); [lia|].
  repeat constructor; simpl; unfold zlen; simpl; lia.
Defined.

(** A negative offset, which [cb_read_move_offset] is handed when the
    analyser reports a failed allocation as [-1], moves the read position
    back and claims one byte more than was ever written: on a full buffer
    the length ends up above the capacity and the invariant is lost. *)
Theorem cb_move_negative_breaks m :
  cb_ok m -> buflen m < 2 ^ 31 - 1 -> datalen m = buflen m ->
  datalen (cb_read_move_offset m (-1)) = buflen (cb_read_move_offset m (-1)) + 1 /\
  ~ cb_ok (cb_read_move_offset m (-1)).
Proof.
  intros [Hl Hb Hd Hr Hw] Hmax Hfull. unfold cb_read_move_offset, cb_datalen.
  destruct (_ <=? _) eqn:E; bool_cases; [lia|]. simpl. rewrite Hfull. split.
  - no_wrap. lia.
  - intros [_ _ Hd' _ _]. simpl in Hd'. rewrite s32_id in Hd'; lia.
Qed.

Definition cb_full_demo : CircleBufferMngr := mkCB [1;2;3;4] 4 4 1 1.

Lemma cb_move_negative_breaks_witness :
  datalen (cb_read_move_offset cb_full_demo (-1))
    = buflen (cb_read_move_offset cb_full_demo (-1)) + 1 /\
  ~ cb_ok (cb_read_move_offset cb_full_demo (-1)).
Proof.
  apply (cb_move_negative_breaks cb_full_demo); [|simpl; lia|reflexivity].
  split; simpl; try lia; reflexivity.
Defined.
