(* ===== verification/Misc.v ===== *)
(** * Checksums and number conversions ([external/scorpion/scorpion_misc.c]) *)

From stdpp Require Import base list numbers.
From Stdlib Require Import ZArith Lia.
From S2P Require Import Prelude.
Open Scope Z_scope.

(** A loop [for (i = 0; i < n; i++)] over [p_data[i]]: it reads [n] bytes and
    leaves the object when there are fewer. *)
Fixpoint byte_loop (step : Z -> Z -> Z) (p_data : list Z) (n acc : Z) : option Z :=
  if n <=? 0 then Some acc
  else match p_data with
       | [] => None
       | b :: p' => byte_loop step p' (n - 1) (step acc b)
       end.

(** The body of the loop of [crc16_compute]; [crc] is an [unsigned short]. *)
Definition crc16_step (crc b : Z) : Z :=
  let crc := u16 (Z.lor (u8 (Z.shiftr crc 8)) (Z.shiftl crc 8)) in
  let crc := u16 (Z.lxor crc b) in
  let crc := u16 (Z.lxor crc (Z.shiftr (u8 (Z.land crc 255)) 4)) in
  let crc := u16 (Z.lxor crc (Z.shiftl (Z.shiftl crc 8) 4)) in
  u16 (Z.lxor crc (Z.shiftl (Z.shiftl (Z.land crc 255) 4) 1)).

Definition crc16_compute (p_data : list Z) (size : Z) (p_crc : option Z) : option Z :=
  byte_loop crc16_step p_data size (match p_crc with None => 65535 | Some c => c end).

Definition xor8_step (x b : Z) : Z := u8 (Z.lxor x b).

Definition xor8_computer (p_data : list Z) (len : Z) : option Z :=
  byte_loop xor8_step p_data len 0.

(** [power(base, times)]; the result is an [unsigned int]. *)
Fixpoint power_loop (base : Z) (times : nat) (rusult : Z) : Z :=
  match times with O => rusult | S t => power_loop base t (u32 (rusult * base)) end.
Definition power (base times : Z) : Z := power_loop base (Z.to_nat times) 1.

Definition bcd_digits (b : Z) : Z :=
  Z.land (Z.shiftr b 4) 15 * 10 + Z.land b 15.

Fixpoint bcd2decimal_loop (buf : list Z) (i len dec : Z) : option Z :=
  if len <=? i then Some dec
  else match buf with
       | [] => None
       | b :: buf' =>
           bcd2decimal_loop buf' (i + 1) len
             (u32 (dec + u32 (bcd_digits b * power 100 (len - 1 - i))))
       end.
Definition bcd2decimal (buf : list Z) (len : Z) : option Z := bcd2decimal_loop buf 0 len 0.

(** ** Specifications *)

(** The exclusive or of a list of bytes. *)
Definition xor_all (l : list Z) : Z := foldl Z.lxor 0 l.

(** CRC-16/CCITT as it is defined: shift the byte in bit by bit from the top,
    subtracting the polynomial 0x1021 whenever a 1 falls out. *)
Definition ccitt_bit (crc : Z) : Z :=
  let s := u16 (Z.shiftl crc 1) in if Z.testbit crc 15 then Z.lxor s 4129 else s.
Definition ccitt_step (crc b : Z) : Z := Nat.iter 8 ccitt_bit (Z.lxor crc (Z.shiftl b 8)).
Definition ccitt (l : list Z) (init : Z) : Z := foldl ccitt_step init l.

(** The number a string of BCD bytes writes in base 100. *)
Definition bcd_value (l : list Z) : Z := foldl (fun d b => 100 * d + bcd_digits b) 0 l.

(** ** Lemmas *)

Lemma byte_loop_app step l r acc :
  byte_loop step (l ++ r) (zlen l) acc = Some (foldl step acc l).
Proof.
  revert acc. induction l as [|b l IH]; intros acc.
  - by destruct r.
  - rewrite zlen_cons. cbn [byte_loop foldl app]. destruct (_ <=? 0) eqn:E; bool_cases.
    { pose proof (zlen_nonneg l). lia. }
    by rewrite Z.add_simpl_r, IH.
Qed.

Lemma byte_loop_short step l n acc : zlen l < n -> byte_loop step l n acc = None.
Proof.
  revert n acc. induction l as [|b l IH]; intros n acc H; cbn [byte_loop];
    (destruct (_ <=? 0) eqn:E; bool_cases; [len|]); [done|].
  apply IH. rewrite zlen_cons in H. lia.
Qed.

Lemma lxor_byte a b : is_byte a -> is_byte b -> is_byte (Z.lxor a b).
Proof.
  unfold is_byte. intros [Ha Ha'] [Hb Hb'].
  split; [by apply Z.lxor_nonneg|].
  destruct (Z.eq_dec (Z.lxor a b) 0) as [->|Hn]; [lia|].
  apply (Z.log2_lt_cancel _ 256). change (Z.log2 256) with 8.
  pose proof (Z.log2_lxor a b Ha Hb).
  assert (forall x, 0 <= x < 256 -> Z.log2 x <= 7) as HL.
  { intros x Hx. apply Z.lt_succ_r. destruct (decide (x = 0)) as [->|]; [done|].
    apply (Z.log2_lt_pow2 x 8); lia. }
  pose proof (HL a ltac:(lia)). pose proof (HL b ltac:(lia)). lia.
Qed.

Lemma xor8_fold l acc :
  is_byte acc -> bytes l ->
  foldl xor8_step acc l = foldl Z.lxor acc l /\ is_byte (foldl Z.lxor acc l).
Proof.
  intros Ha Hl. revert acc Ha. induction Hl as [|b l Hb _ IH]; intros acc Ha; simpl; [done|].
  assert (is_byte (Z.lxor acc b)) as Hx by by apply lxor_byte.
  unfold xor8_step at 2. rewrite u8_id by done. by apply IH.
Qed.

Lemma xor_all_byte l : bytes l -> is_byte (xor_all l).
Proof. intros. by apply xor8_fold. Qed.

Lemma xor8_spec l r : bytes l -> xor8_computer (l ++ r) (zlen l) = Some (xor_all l).
Proof.
  intros Hl. unfold xor8_computer. rewrite byte_loop_app.
  f_equal. by apply xor8_fold.
Qed.

Lemma foldl_lxor_acc l acc : foldl Z.lxor acc l = Z.lxor acc (xor_all l).
Proof.
  unfold xor_all. revert acc. induction l as [|b l IH]; intros acc; cbn [foldl].
  - by rewrite Z.lxor_0_r.
  - rewrite IH, (IH (Z.lxor 0 b)), Z.lxor_0_l. by rewrite Z.lxor_assoc.
Qed.

Lemma xor_all_app l k : xor_all (l ++ k) = Z.lxor (xor_all l) (xor_all k).
Proof. unfold xor_all. rewrite foldl_app. apply foldl_lxor_acc. Qed.

Lemma xor_all_single b : xor_all [b] = b.
Proof. reflexivity. Qed.

#[export] Hint Resolve xor_all_byte lxor_byte : x300.

(** Maps that commute with exclusive or.  Two of them that agree on the powers
    of two agree on every number of that many bits. *)
Definition linear (f : Z -> Z) : Prop := forall x y, f (Z.lxor x y) = Z.lxor (f x) (f y).

Lemma linear_id : linear (fun x => x).
Proof. done. Qed.

Lemma linear_comp f g : linear f -> linear g -> linear (fun x => f (g x)).
Proof. intros Hf Hg x y. by rewrite Hg, Hf. Qed.

Lemma linear_lxor f g : linear f -> linear g -> linear (fun x => Z.lxor (f x) (g x)).
Proof.
  intros Hf Hg x y. rewrite Hf, Hg. rewrite !Z.lxor_assoc. f_equal.
  rewrite <- !Z.lxor_assoc. f_equal. apply Z.lxor_comm.
Qed.

Lemma linear_shiftl f n : linear f -> linear (fun x => Z.shiftl (f x) n).
Proof. intros Hf x y. rewrite Hf. apply Z.shiftl_lxor. Qed.

Lemma linear_shiftr f n : linear f -> linear (fun x => Z.shiftr (f x) n).
Proof. intros Hf x y. rewrite Hf. apply Z.shiftr_lxor. Qed.

Lemma linear_land f m : linear f -> linear (fun x => Z.land (f x) m).
Proof.
  intros Hf x y. rewrite Hf. apply Z.bits_inj'. intros n _.
  rewrite !Z.land_spec, !Z.lxor_spec, !Z.land_spec. by repeat destruct (Z.testbit _ _).
Qed.

Lemma u16_land x : u16 x = Z.land x (Z.ones 16).
Proof. unfold u16. by rewrite Z.land_ones by lia. Qed.

Lemma u8_land x : u8 x = Z.land x (Z.ones 8).
Proof. unfold u8. by rewrite Z.land_ones by lia. Qed.

Lemma linear_u16 f : linear f -> linear (fun x => u16 (f x)).
Proof. intros Hf x y. rewrite !u16_land. revert x y. by apply linear_land. Qed.

Lemma linear_u8 f : linear f -> linear (fun x => u8 (f x)).
Proof. intros Hf x y. rewrite !u8_land. revert x y. by apply linear_land. Qed.

Ltac solve_linear := repeat first
  [ apply linear_id | apply linear_u16 | apply linear_u8 | apply linear_shiftl
  | apply linear_shiftr | apply linear_land | apply linear_lxor ].

(** The byte swap joins two disjoint halves, so its [|] is an exclusive or. *)
Lemma lor_swap c : Z.lor (u8 (Z.shiftr c 8)) (Z.shiftl c 8)
                   = Z.lxor (u8 (Z.shiftr c 8)) (Z.shiftl c 8).
Proof.
  symmetry. apply Z.lxor_lor. apply Z.bits_inj'. intros n Hn.
  rewrite Z.land_spec, u8_land, Z.land_spec, Z.bits_0, Z.shiftl_spec by lia.
  rewrite Z.testbit_ones_nonneg by lia.
  destruct (Z.ltb_spec n 8); [|by rewrite andb_false_r].
  rewrite (Z.testbit_neg_r _ (n - 8)) by lia. by rewrite andb_false_r.
Qed.

Lemma linear_crc16 : linear (fun x => crc16_step x 0).
Proof.
  intros x y. unfold crc16_step. rewrite !Z.lxor_0_r, !lor_swap.
  assert (linear (fun c => u16 (Z.lxor c (Z.shiftr (u8 (Z.land c 255)) 4)))) as H2
    by solve_linear.
  assert (linear (fun c => u16 (Z.lxor c (Z.shiftl (Z.shiftl c 8) 4)))) as H3
    by solve_linear.
  assert (linear (fun c => u16 (Z.lxor c (Z.shiftl (Z.shiftl (Z.land c 255) 4) 1)))) as H4
    by solve_linear.
  assert (linear (fun c => u16 (u16 (Z.lxor (u8 (Z.shiftr c 8)) (Z.shiftl c 8))))) as H1
    by solve_linear.
  exact (linear_comp _ _ H4 (linear_comp _ _ H3 (linear_comp _ _ H2 H1)) x y).
Qed.

Lemma linear_ccitt_bit : linear ccitt_bit.
Proof.
  intros x y. unfold ccitt_bit.
  assert (u16 (Z.shiftl (Z.lxor x y) 1) = Z.lxor (u16 (Z.shiftl x 1)) (u16 (Z.shiftl y 1)))
    as -> by (revert x y; change (linear (fun x => u16 (Z.shiftl x 1))); solve_linear).
  rewrite Z.lxor_spec. generalize (u16 (Z.shiftl x 1)) (u16 (Z.shiftl y 1)). intros a b.
  destruct (Z.testbit x 15), (Z.testbit y 15); cbn [xorb]; auto; apply Z.bits_inj';
    intros n _; rewrite !Z.lxor_spec; by repeat destruct (Z.testbit _ n).
Qed.

Lemma linear_iter n f : linear f -> linear (fun x => Nat.iter n f x).
Proof.
  intros Hf. induction n as [|n IH]; [apply linear_id|].
  exact (linear_comp f (fun x => Nat.iter n f x) Hf IH).
Qed.

(** A number with top bit [n] is its lower part with that bit flipped. *)
Lemma top_bit_lxor x n :
  2 ^ Z.of_nat n <= x < 2 * 2 ^ Z.of_nat n ->
  x = Z.lxor (x - 2 ^ Z.of_nat n) (2 ^ Z.of_nat n).
Proof.
  intros Hx. set (r := x - 2 ^ Z.of_nat n).
  assert (Z.land r (2 ^ Z.of_nat n) = 0) as Hd.
  { apply Z.bits_inj'. intros k Hk. rewrite Z.land_spec, Z.bits_0, Z.pow2_bits_eqb by lia.
    destruct (Z.eqb_spec (Z.of_nat n) k) as [<-|]; [|apply andb_false_r].
    rewrite andb_true_r. apply Z.testbit_false; [lia|].
    rewrite Z.div_small; [done|]. subst r. lia. }
  rewrite <- Z.add_nocarry_lxor by done. subst r. lia.
Qed.

Lemma linear_ext n f g :
  linear f -> linear g ->
  (forall i, (i < n)%nat -> f (2 ^ Z.of_nat i) = g (2 ^ Z.of_nat i)) ->
  forall x, 0 <= x < 2 ^ Z.of_nat n -> f x = g x.
Proof.
  intros Hf Hg. assert (f 0 = g 0) as H0.
  { rewrite <- (Z.lxor_nilpotent 0), Hf, Hg, !Z.lxor_nilpotent. done. }
  induction n as [|n IH]; intros HB x Hx; [replace x with 0 by (simpl in Hx; lia); done|].
  rewrite Nat2Z.inj_succ, Z.pow_succ_r in Hx by lia.
  destruct (decide (x < 2 ^ Z.of_nat n)) as [|Hge]; [apply IH; auto; lia|].
  rewrite (top_bit_lxor x n), Hf, Hg, HB by lia. f_equal. apply IH; auto; lia.
Qed.

Lemma crc16_step_16 x : 0 <= x < 65536 -> crc16_step x 0 = Nat.iter 8 ccitt_bit x.
Proof.
  apply (linear_ext 16 (fun x => crc16_step x 0) (fun x => Nat.iter 8 ccitt_bit x)).
  - apply linear_crc16.
  - apply linear_iter, linear_ccitt_bit.
  - intros i Hi. do 16 (destruct i as [|i]; [reflexivity|]). lia.
Qed.

Lemma u16_range z : 0 <= u16 z < 65536.
Proof. unfold u16. apply (Z.mod_pos_bound z (2 ^ 16)). lia. Qed.

Lemma lxor_u16 a b : 0 <= a < 65536 -> 0 <= b < 65536 -> 0 <= Z.lxor a b < 65536.
Proof.
  intros Ha Hb. rewrite <- (u16_id a), <- (u16_id b) by done.
  rewrite <- (linear_u16 _ linear_id). apply u16_range.
Qed.

(** The byte enters at the top of the register. *)
Lemma crc16_step_split crc b :
  is_byte b -> crc16_step crc b = crc16_step (Z.lxor crc (Z.shiftl b 8)) 0.
Proof.
  intros Hb. unfold crc16_step. rewrite Z.lxor_0_r, !lor_swap.
  assert (linear (fun c => u16 (Z.lxor (u8 (Z.shiftr c 8)) (Z.shiftl c 8)))) as HL
    by solve_linear.
  pose proof (HL crc (Z.shiftl b 8)) as E. cbn beta in E. rewrite E.
  assert (u16 (Z.lxor (u8 (Z.shiftr (Z.shiftl b 8) 8)) (Z.shiftl (Z.shiftl b 8) 8)) = b) as ->.
  { rewrite Z.shiftr_shiftl_l, Z.sub_diag, Z.shiftl_0_r, u8_id by (done || lia).
    rewrite (linear_u16 _ linear_id), Z.shiftl_shiftl, Z.shiftl_mul_pow2 by lia.
    rewrite u16_id by (unfold is_byte in Hb; lia).
    unfold u16. rewrite Z.mod_mul by lia. apply Z.lxor_0_r. }
  reflexivity.
Qed.

Lemma crc16_step_ccitt crc b :
  0 <= crc < 65536 -> is_byte b -> crc16_step crc b = ccitt_step crc b.
Proof.
  intros Hc Hb. rewrite crc16_step_split by done. apply crc16_step_16.
  apply lxor_u16; [done|]. rewrite Z.shiftl_mul_pow2 by lia. unfold is_byte in Hb. lia.
Qed.

Lemma crc16_fold l crc :
  0 <= crc < 65536 -> bytes l -> foldl crc16_step crc l = ccitt l crc.
Proof.
  intros Hc Hl. revert crc Hc. induction Hl as [|b l Hb _ IH]; intros crc Hc; [done|].
  unfold ccitt. cbn [foldl]. rewrite <- crc16_step_ccitt by done. apply IH, u16_range.
Qed.

(** The table-free [crc16_compute] is CRC-16/CCITT: for every buffer and
    every 16-bit start value (0xFFFF when [p_crc] is NULL) it returns what
    shifting the bytes through the polynomial 0x1021 bit by bit returns, and
    it reads only the [size] bytes it is given. *)
Theorem crc16_is_ccitt l rest p_crc :
  bytes l -> (forall c, p_crc = Some c -> 0 <= c < 65536) ->
  crc16_compute (l ++ rest) (zlen l) p_crc =
    Some (ccitt l (match p_crc with None => 65535 | Some c => c end)).
Proof.
  intros Hl Hc. unfold crc16_compute. rewrite byte_loop_app. f_equal.
  apply crc16_fold; [|done]. destruct p_crc; [by apply Hc|lia].
Qed.

(** The bytes of "123456789", whose CRC-16/CCITT-FALSE is 0x29B1. *)
Definition check_string : list Z := [49;50;51;52;53;54;55;56;57].

Lemma crc16_is_ccitt_witness :
  crc16_compute (check_string ++ [7]) (zlen check_string) None = Some (ccitt check_string 65535)
  /\ ccitt check_string 65535 = 10673.
Proof.
  split; [|reflexivity]. apply (crc16_is_ccitt check_string [7] None); [|done].
  repeat constructor; unfold is_byte; lia.
Defined.

(** [xor8_computer] catches every single damaged byte: when one byte of a
    buffer is replaced by a different one the checksum changes. *)
Theorem xor8_detects_one_byte pre b b' post :
  bytes (pre ++ b :: post) -> is_byte b' -> b <> b' ->
  exists x x',
    xor8_computer (pre ++ b :: post) (zlen (pre ++ b :: post)) = Some x /\
    xor8_computer (pre ++ b' :: post) (zlen (pre ++ b' :: post)) = Some x' /\ x <> x'.
Proof.
  intros H1 Hb' Hne. apply Forall_app in H1 as H2. destruct H2 as [Hpre Hpost].
  assert (bytes (pre ++ b' :: post)) as H3
    by (apply Forall_app; split; [done|]; constructor; [done|by inversion Hpost]).
  do 2 eexists. rewrite <- (app_nil_r (pre ++ b :: post)) at 1.
  rewrite <- (app_nil_r (pre ++ b' :: post)) at 1.
  rewrite !xor8_spec by done. split_and!; [done..|].
  rewrite !xor_all_app. intros E. apply Hne.
  apply (f_equal (Z.lxor (xor_all pre))) in E.
  rewrite <- !Z.lxor_assoc, !Z.lxor_nilpotent, !Z.lxor_0_l in E.
  unfold xor_all in E. cbn [foldl] in E. rewrite !Z.lxor_0_l, !foldl_lxor_acc in E.
  apply (f_equal (fun z => Z.lxor z (xor_all post))) in E.
  by rewrite !Z.lxor_assoc, !Z.lxor_nilpotent, !Z.lxor_0_r in E.
Qed.

Lemma xor8_detects_one_byte_witness :
  exists x x',
    xor8_computer ([1;2] ++ 3 :: [4]) (zlen ([1;2] ++ 3 :: [4])) = Some x /\
    xor8_computer ([1;2] ++ 9 :: [4]) (zlen ([1;2] ++ 9 :: [4])) = Some x' /\ x <> x'.
Proof.
  apply (xor8_detects_one_byte [1;2] 3 9 [4]);
    [repeat constructor; unfold is_byte; lia|unfold is_byte; lia|lia].
Defined.

(** *** Binary-coded decimals *)

Lemma power_loop_spec base n r : 0 <= r < 2 ^ 32 -> power_loop base n r = u32 (r * base ^ Z.of_nat n).
Proof.
  revert r. induction n as [|n IH]; intros r Hr; cbn [power_loop].
  - rewrite Z.mul_1_r. symmetry. by apply u32_id.
  - rewrite IH by (apply Z.mod_pos_bound; lia). unfold u32.
    rewrite Z.mul_mod_idemp_l by lia. f_equal.
    rewrite Nat2Z.inj_succ, Z.pow_succ_r by lia. ring.
Qed.

Lemma power_spec base n : 0 <= n -> power base n = u32 (base ^ n).
Proof. intros. unfold power. rewrite power_loop_spec by lia. by rewrite Z.mul_1_l, Z2Nat.id. Qed.

Lemma bcd_fold l acc :
  foldl (fun d b => 100 * d + bcd_digits b) acc l = acc * 100 ^ zlen l + bcd_value l.
Proof.
  unfold bcd_value. revert acc. induction l as [|b l IH]; intros acc; cbn [foldl].
  - change (zlen []) with 0. lia.
  - rewrite IH, (IH (100 * 0 + bcd_digits b)), zlen_cons, Z.add_1_r, Z.pow_succ_r
      by apply zlen_nonneg. ring.
Qed.

Lemma bcd_loop_spec l rest i len dec :
  0 <= dec < 2 ^ 32 -> len = i + zlen l ->
  bcd2decimal_loop (l ++ rest) i len dec = Some (u32 (dec + bcd_value l)).
Proof.
  revert i len dec. induction l as [|b l IH]; intros i len dec Hd ->.
  - change (zlen []) with 0. rewrite Z.add_0_r.
    assert (bcd2decimal_loop ([] ++ rest) i i dec = Some dec) as ->
      by (destruct rest; cbn; by rewrite Z.leb_refl).
    change (bcd_value []) with 0. by rewrite Z.add_0_r, u32_id.
  - rewrite zlen_cons. pose proof (zlen_nonneg l). cbn [app bcd2decimal_loop].
    destruct (_ <=? i) eqn:E; bool_cases; [lia|].
    rewrite IH by (try (apply Z.mod_pos_bound; lia); lia). f_equal.
    replace (i + (zlen l + 1) - 1 - i) with (zlen l) by lia. rewrite power_spec by done.
    unfold u32. rewrite Z.mul_mod_idemp_r, Z.add_mod_idemp_r by lia.
    rewrite Z.add_mod_idemp_l by lia. f_equal. unfold bcd_value at 2. cbn [foldl].
    rewrite (bcd_fold l (100 * 0 + bcd_digits b)). ring.
Qed.

(** [k] BCD bytes of [n], most significant first. *)
Fixpoint bcd_encode (k : nat) (n : Z) : list Z :=
  match k with
  | O => []
  | S k' => bcd_encode k' (n / 100) ++ [16 * (n mod 100 / 10) + n mod 10]
  end.

Lemma bcd_digits_pair t u : 0 <= t < 10 -> 0 <= u < 10 -> bcd_digits (16 * t + u) = 10 * t + u.
Proof.
  intros Ht Hu. unfold bcd_digits.
  change 15 with (Z.ones 4). rewrite !Z.land_ones, Z.shiftr_div_pow2 by lia.
  change (2 ^ 4) with 16.
  assert ((16 * t + u) / 16 = t) as -> by (symmetry; apply (Z.div_unique _ 16 t u); lia).
  assert ((16 * t + u) mod 16 = u) as -> by (symmetry; apply (Z.mod_unique _ 16 t); lia).
  rewrite Z.mod_small; lia.
Qed.

Lemma bcd_encode_value k n :
  0 <= n < 100 ^ Z.of_nat k -> bcd_value (bcd_encode k n) = n /\ zlen (bcd_encode k n) = Z.of_nat k.
Proof.
  revert n. induction k as [|k IH]; intros n Hn.
  - simpl in Hn. unfold bcd_value, zlen. simpl. lia.
  - rewrite Nat2Z.inj_succ, Z.pow_succ_r in Hn by lia. cbn [bcd_encode].
    destruct (IH (n / 100)) as [IH1 IH2].
    { split; [apply Z.div_pos; lia|]. apply Z.div_lt_upper_bound; lia. }
    rewrite zlen_app, IH2. split; [|unfold zlen; simpl; lia].
    unfold bcd_value. rewrite foldl_app. fold (bcd_value (bcd_encode k (n / 100))). rewrite IH1.
    cbn [foldl]. rewrite bcd_digits_pair.
    + pose proof (Z.div_mod n 100). pose proof (Z.div_mod (n mod 100) 10).
      assert ((n mod 100) mod 10 = n mod 10)
        by (apply Z.mod_mod_divide; by exists 10). lia.
    + pose proof (Z.mod_pos_bound n 100). split; [apply Z.div_pos; lia|].
      apply Z.div_lt_upper_bound; lia.
    + apply Z.mod_pos_bound. lia.
Qed.

(** [bcd2decimal] reads back the number whose BCD digits fill the buffer:
    exactly for up to four bytes, and modulo 2^32 for longer ones. *)
Theorem bcd_roundtrip k n rest :
  0 <= n < 100 ^ Z.of_nat k ->
  bcd2decimal (bcd_encode k n ++ rest) (Z.of_nat k) = Some (u32 n) /\
  ((k <= 4)%nat -> u32 n = n).
Proof.
  intros Hn. destruct (bcd_encode_value k n Hn) as [H1 H2]. split.
  - unfold bcd2decimal. rewrite bcd_loop_spec by lia. by rewrite H1, Z.add_0_l.
  - intros Hk. apply u32_id. split; [lia|].
    assert (100 ^ Z.of_nat k <= 100 ^ 4) by (apply Z.pow_le_mono_r; lia). lia.
Qed.

Lemma bcd_roundtrip_witness :
  bcd2decimal (bcd_encode 3 160512 ++ [255]) (Z.of_nat 3) = Some (u32 160512) /\
  ((3 <= 4)%nat -> u32 160512 = 160512).
Proof. apply (bcd_roundtrip 3 160512 [255]). simpl. lia. Defined.
