(* ===== verification/Codec.v ===== *)
(** * The framing both links of the daemon use

    [external/scorpion/scorpion_protocol.c] (application side) and
    [external/scorpion/scorpion_stm32.c] (microcontroller side) hold the same
    framing code twice: byte stuffing, search for a frame, the loop over the
    frames of a buffer, and the sender.  The definitions here are that code,
    parameterised by what the two files do differently: the dispatcher of a
    message, and the device a frame is sent to.

    A pointer into a buffer is the list of the bytes from it to the end of
    the object. *)

From stdpp Require Import base list numbers.
From Stdlib Require Import ZArith Lia.
From S2P Require Import Prelude Misc.
Open Scope Z_scope.

Definition ESCAPE_CHAR : Z := 125.   (* 0x7D *)
Definition MAGIC_CHAR : Z := 126.    (* 0x7E *)

(** [sizeof] of the packed message header: four [unsigned short]. *)
Definition HEADER_SIZE : Z := 8.

Record buff_mgr_t := mkBuff {
  bm_buf : list Z;
  bm_len : Z
}.

(** ** Byte stuffing *)

(** The loop of [*_protocol_escape]; [j] is the write index in [dest]. *)
Fixpoint escape_loop (dest : list Z) (j : Z) (src : list Z) (n : Z) : option (Z * list Z) :=
  if n <=? 0 then Some (j, dest)
  else match src with
  | [] => None
  | c :: src' =>
      if c =? ESCAPE_CHAR then
        d1 ← store8 dest j ESCAPE_CHAR; d2 ← store8 d1 (j + 1) 1;
        escape_loop d2 (j + 2) src' (n - 1)
      else if c =? MAGIC_CHAR then
        d1 ← store8 dest j ESCAPE_CHAR; d2 ← store8 d1 (j + 1) 2;
        escape_loop d2 (j + 2) src' (n - 1)
      else
        d1 ← store8 dest j c; escape_loop d1 (j + 1) src' (n - 1)
  end.

(** [*_protocol_escape(&dest[off], src, len)]. *)
Definition protocol_escape (dest : list Z) (off : Z) (src : list Z) (len : Z)
  : option (Z * list Z) :=
  if len =? 0 then Some (-1, dest)
  else '(j, d) ← escape_loop dest off src len; Some (j - off, d).

(** The loop of [*_protocol_unescape]. *)
Fixpoint unescape_loop (dest : list Z) (j : Z) (src : list Z) (n : Z) : option (Z * list Z) :=
  if n <=? 0 then Some (j, dest)
  else match src with
  | [] => None
  | c :: src' =>
      if c =? ESCAPE_CHAR then
        if n =? 1 then Some (-1, dest)
        else match src' with
        | [] => None
        | e :: src'' =>
            if e =? 1 then
              d1 ← store8 dest j ESCAPE_CHAR; unescape_loop d1 (j + 1) src'' (n - 2)
            else if e =? 2 then
              d1 ← store8 dest j MAGIC_CHAR; unescape_loop d1 (j + 1) src'' (n - 2)
            else Some (-1, dest)
        end
      else
        d1 ← store8 dest j c; unescape_loop d1 (j + 1) src' (n - 1)
  end.

Definition protocol_unescape (dest src : list Z) (len : Z) : option (Z * list Z) :=
  if len =? 0 then Some (-1, dest) else unescape_loop dest 0 src len.

(** ** Finding a frame *)

(** The [while] loop of [*_find_magic_char]. *)
Fixpoint find_magic_loop (buf : list Z) (index len : Z) : option (bool * Z) :=
  if len <=? index then Some (false, 0)
  else match buf with
  | [] => None
  | c :: buf' =>
      if c =? MAGIC_CHAR then Some (true, index)
      else find_magic_loop buf' (index + 1) len
  end.

Definition find_magic_char (buf : list Z) (len : Z) : option (bool * Z) :=
  find_magic_loop buf 0 len.

(** [*_get_a_full_msg]: the number of bytes to skip and the frame found (a
    zeroed [msg] when there is none).  The offsets are [unsigned int]. *)
Definition get_a_full_msg (buf : list Z) (len : Z) : option (Z * buff_mgr_t) :=
  '(found, head_offset) ← find_magic_char buf len;
  if (found : bool) && (HEADER_SIZE + 3 <=? u32 (len - head_offset)) then
    '(found2, tail) ← find_magic_char (drop (Z.to_nat (head_offset + 1)) buf)
                                     (s32 (len - head_offset - 1));
    let tail_offset := u32 (tail + (head_offset + 1)) in
    if (found2 : bool) then
      Some (s32 (tail_offset + 1),
            mkBuff (drop (Z.to_nat head_offset) buf) (s32 (tail_offset - head_offset + 1)))
    else Some (s32 head_offset, mkBuff [] 0)
  else Some (s32 head_offset, mkBuff [] 0).

(** ** Interfaces of the code around the framing *)

(** The allocator: a request returns NULL or an object of the requested size
    with arbitrary contents. *)
Class Heap (W : Type) := {
  malloc : Z -> prog W (option (list Z));
  malloc_ret : forall n s, exists o s', malloc n s = Ret o s';
  malloc_len : forall n s c s', malloc n s = Ret (Some c) s' -> 0 <= n -> zlen c = n
}.

Section Analyser.
Context {W : Type} `{Heap W}.
(** [*_parse_a_full_msg], the code behind the framing. *)
Variable parse_a_full_msg : buff_mgr_t -> prog W unit.

(** One frame of [*_protocol_ayalyze]: [false] when the allocation failed. *)
Definition treat_frame (raw : buff_mgr_t) : prog W bool :=
  let* now_buf := malloc (bm_len raw) in
  match now_buf with
  | None => ret false
  | Some dest =>
      let* r := lift OutOfBounds (protocol_unescape dest (bm_buf raw) (bm_len raw)) in
      let now := mkBuff (snd r) (fst r) in
      let* check := lift OutOfBounds (load8 (bm_buf now) (bm_len now - 2)) in
      let* x := lift OutOfBounds (xor8_computer (drop 1 (bm_buf now)) (u32 (bm_len now - 3))) in
      do* (if negb (check =? x) then ret tt else parse_a_full_msg now);
      ret true
  end.

(** The [do ... while] of [*_protocol_ayalyze]: the bytes left, or [None] when
    it returned -1.  Every pass but the last consumes a byte, so [fuel] above
    the number of bytes is enough. *)
Fixpoint ayalyze_loop (fuel : nat) (msg_buf : list Z) (msg_len : Z) : prog W (option Z) :=
  match fuel with
  | O => fault_with NoFuel
  | S fuel' =>
      let* r := lift OutOfBounds (get_a_full_msg msg_buf msg_len) in
      let offset := fst r in
      let raw := snd r in
      let more := negb (offset =? 0) && negb (bm_len raw =? 0) in
      let* ok := (if more then treat_frame raw else ret true) in
      if negb ok then ret None
      else
        let msg_len' := msg_len - offset in
        if more && (0 <? msg_len')
        then ayalyze_loop fuel' (drop (Z.to_nat offset) msg_buf) msg_len'
        else ret (Some msg_len')
  end.

Definition protocol_ayalyze (buf : list Z) (len : Z) : prog W Z :=
  let* r := ayalyze_loop (S (Z.to_nat len)) buf len in
  match r with None => ret (-1) | Some msg_len => ret (len - msg_len) end.

(** [*_protocol_send_data]: stamps the frame, stuffs it and hands it to the
    device. *)
Variable send : list Z -> Z -> prog W Z.

Definition protocol_send_data (buf : list Z) (len : Z) : prog W Z :=
  let* b1 := lift OutOfBounds (store8 buf (len - 1) MAGIC_CHAR) in
  let* b2 := lift OutOfBounds (store8 b1 0 MAGIC_CHAR) in
  let* val := lift OutOfBounds (xor8_computer (drop 1 b2) (u32 (len - 3))) in
  let* b3 := lift OutOfBounds (store8 b2 (len - 2) val) in
  let* nb := malloc (len * 2) in
  match nb with
  | None => ret (-1)
  | Some new_buf =>
      let* first := lift OutOfBounds (load8 b3 0) in
      let* n1 := lift OutOfBounds (store8 new_buf 0 first) in
      let* r := lift OutOfBounds (protocol_escape n1 1 (drop 1 b3) (len - 2)) in
      let new_len := fst r + 1 in
      let* last := lift OutOfBounds (load8 b3 (len - 1)) in
      let* n2 := lift OutOfBounds (store8 (snd r) new_len last) in
      let new_len := new_len + 1 in
      do* send n2 new_len;
      ret new_len
  end.

End Analyser.

(** ** Specifications *)

(** Byte stuffing as a function on byte strings, and its inverse. *)
Definition stuff1 (c : Z) : list Z :=
  if c =? ESCAPE_CHAR then [ESCAPE_CHAR; 1]
  else if c =? MAGIC_CHAR then [ESCAPE_CHAR; 2] else [c].
Fixpoint stuff (l : list Z) : list Z :=
  match l with [] => [] | c :: l' => stuff1 c ++ stuff l' end.

Fixpoint unstuff (l : list Z) : option (list Z) :=
  match l with
  | [] => Some []
  | c :: l' =>
      if c =? ESCAPE_CHAR then
        match l' with
        | [] => None
        | e :: l'' =>
            if e =? 1 then cons ESCAPE_CHAR <$> unstuff l''
            else if e =? 2 then cons MAGIC_CHAR <$> unstuff l''
            else None
        end
      else cons c <$> unstuff l'
  end.

Definition nomagic (l : list Z) : Prop := Forall (fun c => c <> MAGIC_CHAR) l.

(** The message [p] (header and body) with the check byte [x] between its
    delimiters, and the bytes that go over the wire for it; [frame] and [wire]
    have the right check byte. *)
Definition frame_x (p : list Z) (x : Z) : list Z := MAGIC_CHAR :: p ++ [x; MAGIC_CHAR].
Definition wire_x (p : list Z) (x : Z) : list Z := MAGIC_CHAR :: stuff (p ++ [x]) ++ [MAGIC_CHAR].
Definition frame (p : list Z) : list Z := frame_x p (xor_all p).
Definition wire (p : list Z) : list Z := wire_x p (xor_all p).

(** ** Lemmas: memory *)

Lemma store8_splice b j v : 0 <= j < zlen b -> store8 b j v = Some (splice b (Z.to_nat j) [v]).
Proof.
  intros Hj. unfold store8. destruct (_ && _) eqn:E.
  - f_equal. unfold splice. unfold zlen in *. rewrite Nat.add_1_r. 
    by rewrite insert_take_drop by lia.
  - apply andb_false_iff in E as [E|E]; bool_cases; lia.
Qed.

Lemma splice_app b j d1 d2 :
  (j + length d1 + length d2 <= length b)%nat ->
  splice (splice b j d1) (j + length d1) d2 = splice b j (d1 ++ d2).
Proof.
  intros Hl. apply list_eq. intros i.
  rewrite splice_lookup by (rewrite length_splice; len).
  rewrite !splice_lookup by len. rewrite length_app.
  destruct (decide (j + length d1 <= i < j + length d1 + length d2)%nat).
  - rewrite decide_True by lia. rewrite lookup_app_r by lia. f_equal. lia.
  - destruct (decide (j <= i < j + length d1)%nat).
    + rewrite decide_True by lia. by rewrite lookup_app_l by lia.
    + by rewrite decide_False by lia.
Qed.

Lemma splice_nil b j : splice b j [] = b.
Proof. unfold splice. simpl. rewrite Nat.add_0_r. apply take_drop. Qed.

Lemma store8_mid a x y c i : i = zlen a -> store8 (a ++ x :: c) i y = Some (a ++ y :: c).
Proof.
  intros ->. unfold store8. rewrite zlen_app, zlen_cons.
  pose proof (zlen_nonneg a). pose proof (zlen_nonneg c).
  destruct (_ && _) eqn:E; [|apply andb_false_iff in E as [E|E]; bool_cases; lia].
  unfold zlen. rewrite Nat2Z.id. rewrite <- (Nat.add_0_r (length a)), insert_app_r. done.
Qed.

(** Two stores in a row. *)
Lemma store8_twice {A} b j u v (k : list Z -> option A) :
  0 <= j -> j + 1 < zlen b ->
  (d1 ← store8 b j u; d2 ← store8 d1 (j + 1) v; k d2) = k (splice b (Z.to_nat j) [u; v]).
Proof.
  intros H1 H2. rewrite store8_splice by lia. simpl. unfold zlen in *.
  rewrite store8_splice by (unfold zlen; rewrite length_splice; len).
  replace (Z.to_nat (j + 1)) with (Z.to_nat j + length [u])%nat by len.
  by rewrite splice_app by len.
Qed.

(** ** Lemmas: byte stuffing *)

Lemma stuff_length l : zlen l <= zlen (stuff l) <= 2 * zlen l.
Proof.
  induction l as [|c l IH]; [done|]. cbn [stuff]. rewrite zlen_app, zlen_cons.
  assert (1 <= zlen (stuff1 c) <= 2); [|lia].
  unfold stuff1, zlen. repeat split_if; simpl; lia.
Qed.

Lemma stuff_app l k : stuff (l ++ k) = stuff l ++ stuff k.
Proof. induction l as [|c l IH]; [done|]. simpl. by rewrite IH, app_assoc. Qed.

Lemma stuff_nomagic l : nomagic (stuff l).
Proof.
  induction l as [|c l IH]; [constructor|]. cbn [stuff]. apply Forall_app. split; [|done].
  unfold stuff1. repeat split_if; bool_cases; repeat constructor;
    unfold ESCAPE_CHAR, MAGIC_CHAR in *; lia.
Qed.

Lemma unstuff_stuff l : unstuff (stuff l) = Some l.
Proof.
  induction l as [|c l IH]; [done|]. cbn [stuff]. unfold stuff1.
  destruct (c =? ESCAPE_CHAR) eqn:E1; [|destruct (c =? MAGIC_CHAR) eqn:E2]; bool_cases;
    subst; cbn; rewrite ?IH; try done.
  destruct (c =? ESCAPE_CHAR) eqn:E; bool_cases; [done|]. done.
Qed.

Lemma unstuff_cons_plain c l : c <> ESCAPE_CHAR -> unstuff (c :: l) = cons c <$> unstuff l.
Proof. intros Hc. cbn. destruct (c =? _) eqn:E; bool_cases; done. Qed.

(** A frame unstuffs to its message between the delimiters. *)
Lemma unstuff_snoc l d c :
  unstuff l = Some d -> c <> ESCAPE_CHAR -> unstuff (l ++ [c]) = Some (d ++ [c]).
Proof.
  intros Hl Hc. revert d Hl. induction l as [l IH] using (induction_ltof1 _ length).
  unfold ltof in IH. destruct l as [|x l]; intros d Hl.
  - simpl in Hl. simplify_eq. change ([] ++ [c]) with [c]. by rewrite unstuff_cons_plain.
  - cbn [unstuff app] in *. destruct (x =? ESCAPE_CHAR) eqn:E; bool_cases.
    + destruct l as [|e l]; [done|]. cbn [app].
      destruct (e =? 1); [|destruct (e =? 2); [|done]];
        (destruct (unstuff l) as [d'|] eqn:El; [|done]); simpl in Hl; simplify_eq;
        rewrite (IH l) with (d := d') by (simpl; auto; lia); done.
    + destruct (unstuff l) as [d'|] eqn:El; [|done]. simpl in Hl. simplify_eq.
      rewrite (IH l) with (d := d') by (simpl; auto; lia). done.
Qed.

Lemma unstuff_wire p x : unstuff (wire_x p x) = Some (frame_x p x).
Proof.
  unfold wire_x, frame_x. rewrite unstuff_cons_plain by done.
  rewrite (unstuff_snoc _ (p ++ [x])) by (done || apply unstuff_stuff).
  simpl. by rewrite <- app_assoc.
Qed.

(** The escape loop writes the stuffed bytes and nothing else. *)
Lemma escape_loop_spec dest j src rest :
  0 <= j -> j + zlen (stuff src) <= zlen dest ->
  escape_loop dest j (src ++ rest) (zlen src) =
    Some (j + zlen (stuff src), splice dest (Z.to_nat j) (stuff src)).
Proof.
  revert dest j. induction src as [|c src IH]; intros dest j Hj Hd.
  - cbn [stuff app]. change (zlen []) with 0. rewrite splice_nil, Z.add_0_r. by destruct rest.
  - rewrite zlen_cons. cbn [app escape_loop stuff] in *.
    rewrite zlen_app in Hd. pose proof (zlen_nonneg (stuff src)). pose proof (zlen_nonneg src).
    destruct (_ <=? 0) eqn:E; bool_cases; [lia|]. rewrite Z.add_simpl_r.
    assert (forall u, zlen u = 1 \/ zlen u = 2 -> stuff1 c = u ->
      escape_loop (splice dest (Z.to_nat j) u) (j + zlen u) (src ++ rest) (zlen src)
      = Some (j + zlen (stuff1 c ++ stuff src), splice dest (Z.to_nat j) (stuff1 c ++ stuff src)))
      as Hrest.
    { intros u Hu Eu. rewrite Eu in *. unfold zlen in *. rewrite IH; unfold zlen in *.
      - rewrite length_app. f_equal. f_equal; [lia|].
        replace (Z.to_nat (j + Z.of_nat (length u))) with (Z.to_nat j + length u)%nat by lia.
        apply splice_app. lia.
      - lia.
      - rewrite length_splice; lia. }
    unfold stuff1 in *. destruct (c =? ESCAPE_CHAR); [|destruct (c =? MAGIC_CHAR)];
      change (zlen [ESCAPE_CHAR; 1]) with 2 in *; change (zlen [ESCAPE_CHAR; 2]) with 2 in *;
      change (zlen [c]) with 1 in *.
    + rewrite store8_twice by lia. apply (Hrest [ESCAPE_CHAR; 1]); auto.
    + rewrite store8_twice by lia. apply (Hrest [ESCAPE_CHAR; 2]); auto.
    + rewrite store8_splice by lia. cbn [mbind option_bind]. apply (Hrest [c]); auto.
Qed.

Lemma unstuff_length l d : unstuff l = Some d -> zlen d <= zlen l.
Proof.
  revert d. induction l as [l IH] using (induction_ltof1 _ length). unfold ltof in IH.
  destruct l as [|x l]; intros d Hl; cbn [unstuff] in Hl; [by simplify_eq|].
  rewrite zlen_cons. destruct (x =? ESCAPE_CHAR); [destruct l as [|e l]; [done|]|].
  - rewrite zlen_cons. destruct (e =? 1); [|destruct (e =? 2); [|done]];
      (destruct (unstuff l) as [d'|] eqn:El; [|done]); simpl in Hl; simplify_eq;
      rewrite zlen_cons; pose proof (IH l ltac:(simpl; lia) d' El); lia.
  - destruct (unstuff l) as [d'|] eqn:El; [|done]. simpl in Hl; simplify_eq.
    rewrite zlen_cons. pose proof (IH l ltac:(simpl; lia) d' El). lia.
Qed.

(** The unescape loop: the unstuffed bytes, or -1; never a store out of
    bounds when the destination is as long as the source. *)
Lemma unescape_loop_spec src rest dest j :
  0 <= j -> j + zlen src <= zlen dest ->
  match unstuff src with
  | Some d => unescape_loop dest j (src ++ rest) (zlen src) =
                Some (j + zlen d, splice dest (Z.to_nat j) d)
  | None => exists dest', unescape_loop dest j (src ++ rest) (zlen src) = Some (-1, dest')
  end.
Proof.
  revert dest j. induction src as [src IH] using (induction_ltof1 _ length). unfold ltof in IH.
  (* one more byte [c] was produced, [src'] is left *)
  assert (forall dest j c src', (length src' < length src)%nat -> 0 <= j ->
    j + 1 + zlen src' <= zlen dest ->
    match cons c <$> unstuff src' with
    | Some d => (d1 ← store8 dest j c; unescape_loop d1 (j + 1) (src' ++ rest) (zlen src')) =
                  Some (j + zlen d, splice dest (Z.to_nat j) d)
    | None => exists dest',
        (d1 ← store8 dest j c; unescape_loop d1 (j + 1) (src' ++ rest) (zlen src'))
        = Some (-1, dest')
    end) as Hstep.
  { intros dest j c src' Hlt Hj Hd. pose proof (zlen_nonneg src').
    rewrite store8_splice by lia. cbn [mbind option_bind].
    specialize (IH src' Hlt (splice dest (Z.to_nat j) [c]) (j + 1) ltac:(lia)).
    unfold zlen in IH. rewrite length_splice in IH by (unfold zlen in *; len).
    fold (zlen src') in IH. fold (zlen dest) in IH. specialize (IH ltac:(lia)).
    destruct (unstuff src') as [d'|] eqn:Ed; cbn; [|exact IH].
    pose proof (unstuff_length _ _ Ed). fold (zlen d') in IH. rewrite IH, zlen_cons.
    f_equal. f_equal; [lia|].
    replace (Z.to_nat (j + 1)) with (Z.to_nat j + length [c])%nat by len.
    apply splice_app. unfold zlen in *. simpl. lia. }
  intros dest j Hj Hd. destruct src as [|c src].
  - cbn. change (zlen []) with 0. rewrite Z.add_0_r, splice_nil. by destruct rest.
  - rewrite zlen_cons in *. pose proof (zlen_nonneg src).
    cbn [unstuff app unescape_loop]. destruct (_ <=? 0) eqn:E; bool_cases; [lia|].
    destruct (c =? ESCAPE_CHAR) eqn:Ec.
    + destruct src as [|e src].
      { change (zlen []) with 0. simpl. eauto. }
      rewrite zlen_cons in *. pose proof (zlen_nonneg src).
      destruct (zlen src + 1 + 1 =? 1) eqn:E1; bool_cases; [lia|]. cbn [app].
      replace (zlen src + 1 + 1 - 2) with (zlen src) by lia.
      destruct (e =? 1); [|destruct (e =? 2); [|by eauto]];
        (apply Hstep; [simpl; lia|lia|lia]).
    + replace (zlen src + 1 - 1) with (zlen src) by lia. apply Hstep; [simpl; lia|lia|lia].
Qed.

(** ** Lemmas: finding frames *)

Lemma find_magic_found pre rest i len :
  nomagic pre -> i + zlen pre < len ->
  find_magic_loop (pre ++ MAGIC_CHAR :: rest) i len = Some (true, i + zlen pre).
Proof.
  intros Hpre. revert i. induction Hpre as [|c pre Hc _ IH]; intros i Hl.
  - change (zlen []) with 0 in *. cbn [app find_magic_loop].
    destruct (_ <=? _) eqn:E; bool_cases; [lia|]. by rewrite Z.eqb_refl, Z.add_0_r.
  - rewrite zlen_cons in *. pose proof (zlen_nonneg pre). cbn [app find_magic_loop].
    destruct (_ <=? _) eqn:E; bool_cases; [lia|].
    destruct (c =? _) eqn:E2; bool_cases; [done|]. rewrite IH by lia. f_equal. f_equal. lia.
Qed.

Lemma find_magic_none l rest i :
  nomagic l -> find_magic_loop (l ++ rest) i (i + zlen l) = Some (false, 0).
Proof.
  intros Hl. revert i. induction Hl as [|c l Hc _ IH]; intros i.
  - change (zlen []) with 0. rewrite Z.add_0_r. cbn [app].
    destruct rest; cbn; by rewrite Z.leb_refl.
  - rewrite zlen_cons. pose proof (zlen_nonneg l). cbn [app find_magic_loop].
    destruct (_ <=? _) eqn:E; bool_cases; [lia|].
    destruct (c =? _) eqn:E2; bool_cases; [done|].
    replace (i + (zlen l + 1)) with (i + 1 + zlen l) by lia. apply IH.
Qed.

Lemma get_msg_frame pre body rest len :
  nomagic pre -> nomagic body -> zlen pre + zlen body + 2 <= len < 2 ^ 31 ->
  HEADER_SIZE + 3 <= len - zlen pre ->
  get_a_full_msg (pre ++ MAGIC_CHAR :: body ++ MAGIC_CHAR :: rest) len =
    Some (zlen pre + zlen body + 2,
          mkBuff (MAGIC_CHAR :: body ++ MAGIC_CHAR :: rest) (zlen body + 2)).
Proof.
  intros Hpre Hbody Hlen Hmin. unfold HEADER_SIZE in Hmin.
  pose proof (zlen_nonneg pre). pose proof (zlen_nonneg body).
  unfold get_a_full_msg, find_magic_char. rewrite find_magic_found by (done || lia).
  cbn [mbind option_bind]. rewrite Z.add_0_l. no_wrap. unfold HEADER_SIZE.
  destruct (_ <=? _) eqn:E; bool_cases; [|lia]. cbn [andb].
  replace (drop (Z.to_nat (zlen pre + 1)) _) with (body ++ MAGIC_CHAR :: rest).
  2: { replace (Z.to_nat (zlen pre + 1)) with (length pre + 1)%nat by (unfold zlen; lia).
       by rewrite drop_app_add. }
  rewrite find_magic_found by (done || lia). cbn [mbind option_bind].
  rewrite Z.add_0_l. no_wrap. rewrite drop_zlen.
  do 2 f_equal; [|f_equal]; lia.
Qed.

Lemma get_msg_no_magic l slack :
  nomagic l -> get_a_full_msg (l ++ slack) (zlen l) = Some (0, mkBuff [] 0).
Proof.
  intros Hl. unfold get_a_full_msg, find_magic_char.
  pose proof (find_magic_none l slack 0 Hl) as E. rewrite Z.add_0_l in E. by rewrite E.
Qed.

(** A start of frame whose end has not arrived: everything before it is
    skipped and the rest is kept. *)
Lemma get_msg_partial pre tl slack :
  nomagic pre -> nomagic tl -> zlen pre + zlen tl + 1 < 2 ^ 31 ->
  get_a_full_msg (pre ++ MAGIC_CHAR :: tl ++ slack) (zlen pre + zlen tl + 1) =
    Some (zlen pre, mkBuff [] 0).
Proof.
  intros Hpre Htl Hlen. pose proof (zlen_nonneg pre). pose proof (zlen_nonneg tl).
  unfold get_a_full_msg, find_magic_char. rewrite find_magic_found by (done || lia).
  cbn [mbind option_bind]. rewrite Z.add_0_l. no_wrap. cbn [andb].
  destruct (_ <=? _) eqn:E; bool_cases; [|done].
  replace (drop (Z.to_nat (zlen pre + 1)) _) with (tl ++ slack).
  2: { replace (Z.to_nat (zlen pre + 1)) with (length pre + 1)%nat by (unfold zlen; lia).
       by rewrite drop_app_add. }
  replace (zlen pre + zlen tl + 1 - zlen pre - 1) with (zlen tl) by lia.
  pose proof (find_magic_none tl slack 0 Htl) as E2. rewrite Z.add_0_l in E2. by rewrite E2.
Qed.

(** A start of frame fewer than 11 bytes before the end. *)
Lemma get_msg_short pre rest len :
  nomagic pre -> zlen pre < len < 2 ^ 31 -> len - zlen pre < HEADER_SIZE + 3 ->
  get_a_full_msg (pre ++ MAGIC_CHAR :: rest) len = Some (zlen pre, mkBuff [] 0).
Proof.
  intros Hpre Hlen Hmin. unfold HEADER_SIZE in Hmin. pose proof (zlen_nonneg pre).
  unfold get_a_full_msg, find_magic_char. rewrite find_magic_found by (done || lia).
  cbn [mbind option_bind]. rewrite Z.add_0_l. no_wrap. unfold HEADER_SIZE.
  destruct (_ <=? _) eqn:E; bool_cases; [lia|]. done.
Qed.

(** [get_a_full_msg] never reads outside the [len] bytes it is given. *)
Lemma get_msg_total buf slack :
  zlen buf < 2 ^ 31 ->
  exists off raw, get_a_full_msg (buf ++ slack) (zlen buf) = Some (off, raw) /\
    0 <= off <= zlen buf /\
    (bm_len raw = 0 \/
     (exists body, nomagic body /\ bm_len raw = zlen body + 2 /\ zlen body + 2 <= off /\
        exists rest, bm_buf raw = MAGIC_CHAR :: body ++ MAGIC_CHAR :: rest)).
Proof.
  intros Hlen.
  (* cut at the first delimiter *)
  assert (forall l : list Z, nomagic l \/ exists a b, l = a ++ MAGIC_CHAR :: b /\ nomagic a) as Hcut.
  { clear. intros l. induction l as [|c l IH]; [left; constructor|].
    destruct (decide (c = MAGIC_CHAR)) as [->|Hc].
    - right. exists [], l. split; [done|constructor].
    - destruct IH as [IH|(a & b & -> & IH)]; [left; by constructor|].
      right. exists (c :: a), b. split; [done|by constructor]. }
  destruct (Hcut buf) as [Hn|(pre & t & -> & Hpre)].
  { rewrite get_msg_no_magic by done. do 2 eexists. split; [done|].
    pose proof (zlen_nonneg buf). simpl. split; [lia|auto]. }
  rewrite <- app_assoc. cbn [app]. rewrite zlen_app, zlen_cons in *.
  pose proof (zlen_nonneg pre). pose proof (zlen_nonneg t).
  destruct (Hcut t) as [Ht|(body & t2 & -> & Hbody)].
  - replace (zlen pre + (zlen t + 1)) with (zlen pre + zlen t + 1) by lia.
    rewrite get_msg_partial by (done || lia). do 2 eexists. split; [done|].
    simpl. split; [lia|auto].
  - rewrite zlen_app, zlen_cons in *. pose proof (zlen_nonneg body). pose proof (zlen_nonneg t2).
    rewrite <- app_assoc. cbn [app].
    destruct (decide (HEADER_SIZE + 3 <= zlen pre + (zlen body + (zlen t2 + 1) + 1) - zlen pre)).
    + rewrite get_msg_frame by (done || lia). do 2 eexists. split; [done|].
      simpl. split; [lia|]. right. exists body. split_and!; [done|done|lia|eauto].
    + rewrite get_msg_short by (done || lia). do 2 eexists. split; [done|].
      simpl. split; [lia|auto].
Qed.

(** ** Lemmas: the analyser *)

Section AnalyserFacts.
Context {W : Type} `{Heap W}.
Variable parse : buff_mgr_t -> prog W unit.

Lemma zlen_frame p x : zlen (frame_x p x) = zlen p + 3.
Proof. unfold frame_x. rewrite zlen_cons, zlen_app. unfold zlen. simpl. lia. Qed.

Lemma zlen_wire p x : zlen (wire_x p x) = zlen (stuff (p ++ [x])) + 2.
Proof. unfold wire_x. rewrite zlen_cons, zlen_app. unfold zlen. simpl. lia. Qed.

Lemma wire_frame_length p x : zlen (frame_x p x) <= zlen (wire_x p x) <= 2 * zlen p + 4.
Proof.
  rewrite zlen_frame, zlen_wire. pose proof (stuff_length (p ++ [x])) as Hs.
  rewrite zlen_app in Hs. change (zlen [x]) with 1 in Hs. lia.
Qed.

Lemma protocol_unescape_wire p x rest dest :
  zlen dest = zlen (wire_x p x) ->
  protocol_unescape dest (wire_x p x ++ rest) (zlen (wire_x p x)) =
    Some (zlen (frame_x p x), frame_x p x ++ drop (length (frame_x p x)) dest).
Proof.
  intros Hd. pose proof (zlen_nonneg p). pose proof (wire_frame_length p x) as HF.
  rewrite zlen_frame in HF. unfold protocol_unescape.
  destruct (_ =? 0) eqn:E; bool_cases; [lia|].
  pose proof (unescape_loop_spec (wire_x p x) rest dest 0 ltac:(lia) ltac:(lia)) as U.
  rewrite unstuff_wire in U. rewrite U. unfold splice. simpl. done.
Qed.

(** The checksum byte of an unstuffed frame matches. *)
Lemma frame_checksum p x junk :
  bytes p -> zlen p + 3 < 2 ^ 31 ->
  load8 (frame_x p x ++ junk) (zlen (frame_x p x) - 2) = Some x /\
  xor8_computer (drop 1 (frame_x p x ++ junk)) (u32 (zlen (frame_x p x) - 3)) = Some (xor_all p).
Proof.
  intros Hp Hlen. pose proof (zlen_nonneg p). rewrite zlen_frame.
  replace (zlen p + 3 - 2) with (zlen (MAGIC_CHAR :: p) + 0) by (rewrite zlen_cons; lia).
  replace (zlen p + 3 - 3) with (zlen p) by lia. rewrite u32_id by lia.
  assert (frame_x p x ++ junk = (MAGIC_CHAR :: p) ++ [x; MAGIC_CHAR] ++ junk) as ->
    by (unfold frame_x; simpl; by rewrite <- app_assoc).
  split; [by rewrite load8_app_r by lia|].
  cbn [app drop]. by apply xor8_spec.
Qed.

(** A message is acted on when its check byte is right. *)
Definition checked (p : list Z) (x : Z) (act : prog W unit) : prog W unit :=
  if x =? xor_all p then act else ret tt.

(** A frame with the right check byte reaches the dispatcher exactly once,
    unstuffed; the bytes after it are what the allocator left there. *)
Lemma treat_frame_wire p x rest s :
  bytes p -> zlen p + 3 < 2 ^ 31 ->
  treat_frame parse (mkBuff (wire_x p x ++ rest) (zlen (wire_x p x))) s =
  (let* nb := malloc (zlen (wire_x p x)) in
   match nb with
   | None => ret false
   | Some c =>
       do* checked p x (parse (mkBuff (frame_x p x ++ drop (length (frame_x p x)) c)
                                  (zlen (frame_x p x))));
       ret true
   end) s.
Proof.
  intros Hp Hlen. unfold treat_frame. cbn [bm_len bm_buf]. unfold bind at 1 6.
  destruct (malloc_ret (zlen (wire_x p x)) s) as (o & s' & E). rewrite E.
  destruct o as [c|]; [|done].
  apply malloc_len in E; [|apply zlen_nonneg].
  rewrite protocol_unescape_wire by done. unfold lift at 1. rewrite bind_ret. cbn [fst snd].
  cbn [bm_len bm_buf].
  destruct (frame_checksum p x (drop (length (frame_x p x)) c) Hp Hlen) as [-> ->].
  unfold lift, checked. rewrite !bind_ret. by destruct (x =? xor_all p).
Qed.

(** One pass of the loop on a buffer that starts with noise and a frame. *)
Lemma ayalyze_loop_wire fuel pre p x rest len s :
  nomagic pre -> bytes p -> HEADER_SIZE <= zlen p ->
  zlen pre + zlen (wire_x p x) <= len < 2 ^ 31 ->
  ayalyze_loop parse (S fuel) (pre ++ wire_x p x ++ rest) len s =
  (let* nb := malloc (zlen (wire_x p x)) in
   match nb with
   | None => ret None
   | Some c =>
       do* checked p x (parse (mkBuff (frame_x p x ++ drop (length (frame_x p x)) c)
                                  (zlen (frame_x p x))));
       let rem := len - zlen pre - zlen (wire_x p x) in
       if 0 <? rem then ayalyze_loop parse fuel rest rem else ret (Some rem)
   end) s.
Proof.
  intros Hpre Hp Hmin Hlen. pose proof (wire_frame_length p x) as HF. rewrite zlen_frame in HF.
  unfold HEADER_SIZE in Hmin. cbn [ayalyze_loop].
  assert (pre ++ wire_x p x ++ rest =
    pre ++ MAGIC_CHAR :: stuff (p ++ [x]) ++ MAGIC_CHAR :: rest) as E1
    by (unfold wire_x; cbn [app]; by rewrite <- app_assoc).
  rewrite E1, get_msg_frame;
    [|done|apply stuff_nomagic|rewrite zlen_wire in *; lia|unfold HEADER_SIZE; lia].
  unfold lift at 1. rewrite bind_ret. cbn [fst snd].
  assert (MAGIC_CHAR :: stuff (p ++ [x]) ++ MAGIC_CHAR :: rest = wire_x p x ++ rest) as ->
    by (unfold wire_x; cbn [app]; by rewrite <- app_assoc).
  replace (zlen (stuff (p ++ [x])) + 2) with (zlen (wire_x p x)) by (apply zlen_wire).
  replace (zlen pre + zlen (stuff (p ++ [x])) + 2)
    with (zlen pre + zlen (wire_x p x)) by (rewrite zlen_wire; lia).
  pose proof (zlen_nonneg pre). cbn [bm_len].
  destruct (zlen pre + zlen (wire_x p x) =? 0) eqn:E2; bool_cases; [lia|].
  destruct (zlen (wire_x p x) =? 0) eqn:E3; bool_cases; [lia|]. cbn [negb andb].
  unfold bind at 1. rewrite treat_frame_wire by (done || lia). unfold bind at 1 3.
  destruct (malloc _ s) as [[c|] s'|n s'|f s']; try done.
  unfold bind. destruct (checked _ _ _ s') as [[] s2|n s2|f s2]; try done.
  cbn [negb]. rewrite Z.sub_add_distr. destruct (0 <? _); [|done].
  f_equal. rewrite app_assoc, <- zlen_app. by rewrite drop_zlen.
Qed.

(** A byte stream: noise without delimiters, then a frame, repeated.  The
    check byte of a frame may be wrong. *)
Record item := mkItem { it_noise : list Z; it_msg : list Z; it_check : Z }.

Definition stream_bytes (fs : list item) : list Z :=
  concat (map (fun f => it_noise f ++ wire_x (it_msg f) (it_check f)) fs).

Definition good_frame (f : item) : Prop :=
  nomagic (it_noise f) /\ bytes (it_msg f) /\ HEADER_SIZE <= zlen (it_msg f).

(** Handing every message of the stream whose check byte is right to the
    dispatcher, in order; [false] when an allocation fails. *)
Fixpoint deliver (fs : list item) : prog W bool :=
  match fs with
  | [] => ret true
  | mkItem _ p x :: fs' =>
      let* nb := malloc (zlen (wire_x p x)) in
      match nb with
      | None => ret false
      | Some c =>
          do* checked p x (parse (mkBuff (frame_x p x ++ drop (length (frame_x p x)) c)
                                  (zlen (frame_x p x))));
          deliver fs'
      end
  end.

Lemma wire_min p x : HEADER_SIZE <= zlen p -> HEADER_SIZE + 3 <= zlen (wire_x p x).
Proof. intros. pose proof (wire_frame_length p x) as HF. rewrite zlen_frame in HF. lia. Qed.

Lemma stream_length fs :
  Forall good_frame fs -> Z.of_nat (length fs) <= zlen (stream_bytes fs).
Proof.
  induction 1 as [|[n p x] fs (Hn & Hp & Hm) _ IH]; [done|].
  unfold stream_bytes in *. cbn [map concat length it_noise it_msg it_check] in *. rewrite !zlen_app.
  pose proof (wire_min p x Hm). pose proof (zlen_nonneg n). unfold HEADER_SIZE in *. lia.
Qed.

Lemma ayalyze_loop_empty fuel slack s :
  ayalyze_loop parse (S fuel) slack 0 s = Ret (Some 0) s.
Proof. cbn [ayalyze_loop]. pose proof (get_msg_no_magic [] slack) as E. cbn [app] in E.
  change (zlen []) with 0 in E. rewrite E by constructor. done. Qed.

Lemma ayalyze_loop_stream fs tail slack fuel s :
  Forall good_frame fs -> (length fs < fuel)%nat ->
  zlen (stream_bytes fs) + zlen tail < 2 ^ 31 ->
  ayalyze_loop parse fuel (stream_bytes fs ++ tail ++ slack)
               (zlen (stream_bytes fs) + zlen tail) s =
  (let* ok := deliver fs in
   if ok then ayalyze_loop parse (fuel - length fs) (tail ++ slack) (zlen tail)
   else ret None) s.
Proof.
  intros Hfs. revert fuel s. induction Hfs as [|[n p x] fs (Hn & Hp & Hm) Hfs IH];
    intros fuel s Hfuel Hlen.
  - unfold stream_bytes. cbn [map concat app deliver length].
    change (zlen []) with 0. rewrite Z.add_0_l, Nat.sub_0_r. done.
  - destruct fuel as [|fuel]; [lia|].
    unfold stream_bytes in *. cbn [map concat length it_noise it_msg it_check deliver] in *.
    rewrite <- !app_assoc. rewrite !zlen_app in *.
    set (B := concat (map _ fs)) in *. cbn [it_noise it_msg it_check] in Hn, Hp, Hm.
    pose proof (zlen_nonneg B). pose proof (zlen_nonneg tail). pose proof (zlen_nonneg n).
    pose proof (wire_min p x Hm). unfold HEADER_SIZE in *.
    rewrite ayalyze_loop_wire by (done || lia).
    unfold bind at 1 3 4. destruct (malloc _ s) as [[c|] s'|k s'|f s']; try done.
    unfold bind at 1 2. destruct (checked _ _ _ s') as [[] s2|k s2|f s2]; try done.
    cbv zeta. match goal with |- context [0 <? ?e] =>
      replace e with (zlen B + zlen tail) by lia end.
    cbn [Nat.sub]. destruct (0 <? _) eqn:E; bool_cases.
    + rewrite IH by lia. done.
    + assert (zlen B = 0) as EB by lia. assert (zlen tail = 0) as ET by lia.
      assert (fs = []) as ->.
      { pose proof (stream_length fs Hfs) as HL. unfold stream_bytes in HL.
        fold B in HL. destruct fs; [done|]. simpl in HL. lia. }
      rewrite EB, ET. cbn [length deliver]. rewrite Nat.sub_0_r.
      destruct fuel as [|fuel]; [simpl in Hfuel; lia|].
      destruct tail; [|unfold zlen in ET; simpl in ET; lia].
      cbn [app]. unfold ret at 2. by rewrite ayalyze_loop_empty.
Qed.

(** The part of a frame that has arrived so far. *)
Definition partial_frame (tail : list Z) : Prop :=
  tail = [] \/ exists t, tail = MAGIC_CHAR :: t /\ nomagic t.

Lemma prefix_partial q x k : (k < length (wire_x q x))%nat -> partial_frame (take k (wire_x q x)).
Proof.
  intros Hk. destruct k as [|k]; [by left|]. right. unfold wire_x in *. cbn [take].
  eexists. split; [done|]. simpl in Hk. rewrite length_app in Hk. simpl in Hk.
  rewrite take_app_le by lia. apply Forall_take, stuff_nomagic.
Qed.

Lemma ayalyze_loop_partial fuel tail slack s :
  partial_frame tail -> zlen tail < 2 ^ 31 ->
  ayalyze_loop parse (S fuel) (tail ++ slack) (zlen tail) s = Ret (Some (zlen tail)) s.
Proof.
  intros [->|(t & -> & Ht)] Hlen; [by apply ayalyze_loop_empty|].
  cbn [ayalyze_loop]. rewrite zlen_cons in *.
  pose proof (get_msg_partial [] t slack) as E. cbn [app] in *.
  change (zlen []) with 0 in E. rewrite !Z.add_0_l in E.
  rewrite E by (done || constructor || lia). cbn. by rewrite Z.sub_0_r.
Qed.

(** The analyser on a stream that ends inside a frame. *)
Lemma ayalyze_stream fs tail slack s :
  Forall good_frame fs -> partial_frame tail ->
  zlen (stream_bytes fs) + zlen tail < 2 ^ 31 ->
  protocol_ayalyze parse (stream_bytes fs ++ tail ++ slack)
                   (zlen (stream_bytes fs) + zlen tail) s =
  (let* ok := deliver fs in
   if ok then ret (zlen (stream_bytes fs)) else ret (-1)) s.
Proof.
  intros Hfs Ht Hlen. pose proof (stream_length fs Hfs) as HL.
  pose proof (zlen_nonneg tail). unfold protocol_ayalyze. unfold bind at 1.
  rewrite ayalyze_loop_stream by (done || lia). unfold bind.
  destruct (deliver fs s) as [[] s'|k s'|f s']; try done.
  destruct (_ - length fs)%nat as [|k] eqn:E; [lia|].
  rewrite ayalyze_loop_partial by (done || lia). unfold ret. f_equal. lia.
Qed.

(** The end of a buffer without a complete frame, and what the analyser
    keeps of it: noise is kept until a frame starts, and dropped then. *)
Inductive residue : list Z -> list Z -> Prop :=
  | residue_noise pre : nomagic pre -> residue pre pre
  | residue_frame pre t : nomagic pre -> nomagic t ->
      residue (pre ++ MAGIC_CHAR :: t) (MAGIC_CHAR :: t).

Lemma ayalyze_loop_residue fuel tl r slack s :
  residue tl r -> zlen tl < 2 ^ 31 ->
  ayalyze_loop parse (S fuel) (tl ++ slack) (zlen tl) s = Ret (Some (zlen r)) s.
Proof.
  intros [pre Hpre|pre t Hpre Ht] Hlen; cbn [ayalyze_loop].
  - rewrite get_msg_no_magic by done. cbn. by rewrite Z.sub_0_r.
  - rewrite <- app_assoc. cbn [app]. rewrite zlen_app, zlen_cons in *.
    replace (zlen pre + (zlen t + 1)) with (zlen pre + zlen t + 1) in * by lia.
    rewrite get_msg_partial by (done || lia). unfold lift. rewrite bind_ret. cbn [fst snd bm_len].
    rewrite andb_false_r, bind_ret. cbn [negb andb].
    unfold ret. do 2 f_equal. lia.
Qed.

Lemma ayalyze_residue fs tl r slack s :
  Forall good_frame fs -> residue tl r ->
  zlen (stream_bytes fs) + zlen tl < 2 ^ 31 ->
  protocol_ayalyze parse (stream_bytes fs ++ tl ++ slack)
                   (zlen (stream_bytes fs) + zlen tl) s =
  (let* ok := deliver fs in
   if ok then ret (zlen (stream_bytes fs) + zlen tl - zlen r) else ret (-1)) s.
Proof.
  intros Hfs Hr Hlen. pose proof (stream_length fs Hfs) as HL.
  pose proof (zlen_nonneg tl). pose proof (zlen_nonneg (stream_bytes fs)).
  unfold protocol_ayalyze. unfold bind at 1.
  rewrite ayalyze_loop_stream by (done || lia). unfold bind.
  destruct (deliver fs s) as [[] s'|k s'|f s']; try done.
  destruct (_ - length fs)%nat as [|k] eqn:E; [lia|].
  rewrite (ayalyze_loop_residue _ _ _ _ _ Hr) by lia. done.
Qed.

(** What the analyser can return: -1, or a number of bytes no larger than
    what it was given. *)
Definition parse_no_fuel : Prop := forall m s s', parse m s <> Fault NoFuel s'.

Lemma treat_frame_no_fuel raw s s' :
  parse_no_fuel -> treat_frame parse raw s <> Fault NoFuel s'.
Proof.
  intros Hp. unfold treat_frame, bind, lift.
  destruct (malloc_ret (bm_len raw) s) as (o & s1 & ->). destruct o as [c|]; [|done].
  destruct (protocol_unescape _ _ _) as [[j d]|]; [|done]. cbn [ret fst snd bm_buf bm_len].
  destruct (load8 _ _) as [x|]; [|done]. cbn [ret].
  destruct (xor8_computer _ _) as [y|]; [|done]. cbn [ret].
  destruct (negb _); [done|].
  pose proof (Hp (mkBuff d j) s1) as Hp1. destruct (parse _ s1) as [|?|f s2]; try done.
  intros E. injection E as -> ->. by apply (Hp1 s').
Qed.

Lemma ayalyze_loop_range buf slack fuel s :
  parse_no_fuel -> zlen buf < 2 ^ 31 -> (length buf < fuel)%nat ->
  match ayalyze_loop parse fuel (buf ++ slack) (zlen buf) s with
  | Ret (Some rem) _ => 0 <= rem <= zlen buf
  | Ret None _ | Exit _ _ => True
  | Fault f _ => f <> NoFuel
  end.
Proof.
  intros Hp. revert fuel s. induction buf as [buf IH] using (induction_ltof1 _ length).
  unfold ltof in IH. intros fuel s Hlen Hfuel. destruct fuel as [|fuel]; [lia|].
  destruct (get_msg_total buf slack Hlen) as (off & raw & E & Hoff & _).
  cbn [ayalyze_loop]. rewrite E. unfold lift at 1. rewrite bind_ret. cbn [fst snd].
  set (more := negb (off =? 0) && _). unfold bind.
  assert (forall s', (if more then treat_frame parse raw else ret true) s <> Fault NoFuel s') as HT
    by (intros s'; destruct more; [by apply treat_frame_no_fuel|done]).
  destruct ((if more then treat_frame parse raw else ret true) s) as [ok s1|k s1|f s1]; [|done|by intros ->; apply (HT s1)].
  destruct ok; [|done]. cbn [negb].
  destruct (more && _) eqn:EM; [|simpl; lia].
  apply andb_true_iff in EM as [EM EL]. bool_cases. subst more.
  apply andb_true_iff in EM as [EM _]. apply negb_true_iff in EM. bool_cases.
  assert (zlen (drop (Z.to_nat off) buf) = zlen buf - off) as HD by (unfold zlen in *; len).
  rewrite drop_app_le by (unfold zlen in *; lia). rewrite <- HD.
  specialize (IH (drop (Z.to_nat off) buf)).
  assert (length (drop (Z.to_nat off) buf) < length buf)%nat as Hd by (unfold zlen in *; len).
  specialize (IH Hd fuel s1 ltac:(lia) ltac:(lia)).
  destruct (ayalyze_loop _ _ _ _ _) as [[rem|] s2|k s2|f s2]; try done. lia.
Qed.

Lemma ayalyze_range buf slack s :
  parse_no_fuel -> zlen buf < 2 ^ 31 ->
  match protocol_ayalyze parse (buf ++ slack) (zlen buf) s with
  | Ret n _ => n = -1 \/ 0 <= n <= zlen buf
  | Exit _ _ => True
  | Fault f _ => f <> NoFuel
  end.
Proof.
  intros Hp Hlen. unfold protocol_ayalyze, bind.
  assert (length buf < S (Z.to_nat (zlen buf)))%nat as HF by (unfold zlen; lia).
  pose proof (ayalyze_loop_range buf slack _ s Hp Hlen HF) as R.
  destruct (ayalyze_loop _ _ _ _ _) as [[rem|] s2|k s2|f s2]; simpl; auto. right. lia.
Qed.

(** ** Lemmas: the sender *)

Variable send : list Z -> Z -> prog W Z.

(** The sender's stamps turn any frame-shaped buffer into [frame p]. *)
Lemma stamp_frame u v w p :
  bytes p -> zlen p + 3 < 2 ^ 31 ->
  exists b1 b2,
    store8 (u :: p ++ [v; w]) (zlen p + 3 - 1) MAGIC_CHAR = Some b1 /\
    store8 b1 0 MAGIC_CHAR = Some b2 /\
    xor8_computer (drop 1 b2) (u32 (zlen p + 3 - 3)) = Some (xor_all p) /\
    store8 b2 (zlen p + 3 - 2) (xor_all p) = Some (frame p).
Proof.
  intros Hp Hlen. pose proof (zlen_nonneg p).
  exists (u :: p ++ [v; MAGIC_CHAR]), (MAGIC_CHAR :: p ++ [v; MAGIC_CHAR]). split_and!.
  - rewrite !app_comm_cons. change [v; w] with ([v] ++ [w]). change [v; MAGIC_CHAR] with ([v] ++ [MAGIC_CHAR]).
    rewrite !app_assoc. apply store8_mid. rewrite zlen_app, zlen_cons. unfold zlen. simpl. lia.
  - apply (store8_mid []). done.
  - cbn [drop]. replace (zlen p + 3 - 3) with (zlen p) by lia. rewrite u32_id by lia.
    by apply xor8_spec.
  - unfold frame, frame_x. rewrite !app_comm_cons. apply store8_mid. rewrite zlen_cons. lia.
Qed.

(** The sender: on success the device gets exactly the wire form of the
    message, whatever the caller left in the three framing bytes. *)
Lemma send_data_wire u v w p s :
  bytes p -> 2 * (zlen p + 3) < 2 ^ 31 ->
  protocol_send_data send (u :: p ++ [v; w]) (zlen p + 3) s =
  (let* nb := malloc ((zlen p + 3) * 2) in
   match nb with
   | None => ret (-1)
   | Some c =>
       do* send (wire p ++ drop (length (wire p)) c) (zlen (wire p));
       ret (zlen (wire p))
   end) s.
Proof.
  intros Hp Hlen. pose proof (zlen_nonneg p).
  destruct (stamp_frame u v w p Hp) as (b1 & b2 & E1 & E2 & E3 & E4); [lia|].
  fold (frame p) (wire p) in *.
  unfold protocol_send_data. unfold lift at 1. rewrite E1, bind_ret.
  unfold lift at 1. rewrite E2, bind_ret. unfold lift at 1. rewrite E3, bind_ret.
  unfold lift at 1. rewrite E4, bind_ret.
  destruct (malloc_ret ((zlen p + 3) * 2) s) as (o & s' & E).
  rewrite !(bind_Ret _ _ _ _ _ E).
  destruct o as [c|]; [|done]. apply malloc_len in E; [|lia].
  pose proof (wire_frame_length p (xor_all p)) as HW. rewrite zlen_wire in HW. rewrite zlen_frame in HW.
  change (load8 (frame p) 0) with (Some MAGIC_CHAR).
  unfold lift at 1. rewrite bind_ret, store8_splice by lia. unfold lift at 1. rewrite bind_ret.
  assert (drop 1 (frame p) = (p ++ [xor_all p]) ++ [MAGIC_CHAR]) as ->
    by (unfold frame, frame_x; simpl; by rewrite <- app_assoc).
  unfold protocol_escape. replace (zlen p + 3 - 2) with (zlen (p ++ [xor_all p]))
    by (rewrite zlen_app; unfold zlen; simpl; lia).
  set (q := p ++ [xor_all p]) in *. pose proof (zlen_nonneg (stuff q)).
  destruct (_ =? 0) eqn:E0; bool_cases.
  { subst q. rewrite zlen_app in E0. unfold zlen in E0. simpl in E0. lia. }
  rewrite escape_loop_spec;
    [|lia|unfold zlen in *; rewrite length_splice by (simpl; lia); lia].
  cbn [mbind option_bind]. unfold lift at 1. rewrite bind_ret. cbn [fst snd].
  assert (load8 (frame p) (zlen p + 3 - 1) = Some MAGIC_CHAR) as ->.
  { replace (frame p) with ((MAGIC_CHAR :: q) ++ [MAGIC_CHAR])
      by (unfold frame, frame_x, q; simpl; by rewrite <- app_assoc).
    replace (zlen p + 3 - 1) with (zlen (MAGIC_CHAR :: q) + 0)
      by (subst q; rewrite zlen_cons, zlen_app; unfold zlen; simpl; lia).
    by rewrite load8_app_r by lia. }
  unfold lift at 1. rewrite bind_ret.
  replace (splice (splice c (Z.to_nat 0) [MAGIC_CHAR]) (Z.to_nat 1) (stuff q))
    with (splice c 0 (MAGIC_CHAR :: stuff q))
    by (symmetry; apply (splice_app c 0 [MAGIC_CHAR] (stuff q)); unfold zlen in *; simpl; lia).
  replace (1 + zlen (stuff q) - 1 + 1) with (zlen (MAGIC_CHAR :: stuff q))
    by (rewrite zlen_cons; lia).
  rewrite store8_splice
    by (rewrite zlen_cons; unfold zlen in *; rewrite length_splice by (simpl; lia); lia).
  replace (Z.to_nat (zlen (MAGIC_CHAR :: stuff q)))
    with (0 + length (MAGIC_CHAR :: stuff q))%nat by (unfold zlen; lia).
  rewrite (splice_app c 0 (MAGIC_CHAR :: stuff q) [MAGIC_CHAR])
    by (unfold zlen in *; simpl; lia).
  unfold lift at 1. rewrite bind_ret.
  change ((MAGIC_CHAR :: stuff q) ++ [MAGIC_CHAR]) with (wire p).
  replace (zlen (MAGIC_CHAR :: stuff q) + 1) with (zlen (wire p))
    by (unfold wire; rewrite zlen_wire, zlen_cons; subst q; lia).
  unfold splice. simpl. done.
Qed.

End AnalyserFacts.

(** ** What the framing guarantees *)

(** A world for the examples: an allocator that never fails, and the log of
    the messages handed to the dispatcher. *)
Module Log.
#[export, refine] Instance log_heap : Heap (list (list Z)) := {
  malloc n := ret (Some (replicate (Z.to_nat n) 0));
  malloc_ret := _;
  malloc_len := _
}.
Proof.
  - intros. by do 2 eexists.
  - intros n s c s' E Hn. injection E as <- _. unfold zlen. rewrite length_replicate. lia.
Defined.
Definition log_msg (m : buff_mgr_t) : prog (list (list Z)) unit :=
  modify (fun l => l ++ [take (Z.to_nat (bm_len m)) (bm_buf m)]).
End Log.
Import Log.

(** C7: byte stuffing is a transparent, memory-safe encoding.  For a non-empty
    message [src] and a destination with room for twice its length, the
    escape routine stays inside the destination, produces between [len] and
    [2*len] bytes, none of which is the delimiter 0x7E, and touches nothing
    else; the unescape routine run on these bytes with a destination as long
    as they are gives back exactly [src]. *)
Theorem escape_roundtrip src rest dest off dest2 rest2 :
  src <> [] -> 0 <= off -> off + 2 * zlen src <= zlen dest ->
  zlen dest2 = zlen (stuff src) ->
  exists n, protocol_escape dest off (src ++ rest) (zlen src) =
              Some (n, splice dest (Z.to_nat off) (stuff src)) /\
    zlen src <= n <= 2 * zlen src /\
    range (splice dest (Z.to_nat off) (stuff src)) off n = Some (stuff src) /\
    nomagic (stuff src) /\
    protocol_unescape dest2 (stuff src ++ rest2) n =
      Some (zlen src, src ++ drop (length src) dest2).
Proof.
  intros Hs Hoff Hd Hd2. pose proof (stuff_length src) as HL. exists (zlen (stuff src)).
  assert (0 < zlen src) by (destruct src; [done|]; rewrite zlen_cons; pose proof (zlen_nonneg src); lia).
  unfold protocol_escape, protocol_unescape.
  destruct (zlen src =? 0) eqn:E0; bool_cases; [lia|].
  destruct (zlen (stuff src) =? 0) eqn:E1; bool_cases; [lia|].
  rewrite escape_loop_spec by lia. cbn [mbind option_bind].
  pose proof (unescape_loop_spec (stuff src) rest2 dest2 0 ltac:(lia) ltac:(lia)) as U.
  rewrite unstuff_stuff in U. split_and!.
  - do 2 f_equal. lia.
  - lia.
  - lia.
  - unfold splice. rewrite <- (range_app_mid (take (Z.to_nat off) dest) (stuff src)
      (drop (Z.to_nat off + length (stuff src)) dest) _ eq_refl).
    f_equal. unfold zlen in *. len.
  - apply stuff_nomagic.
  - rewrite U. unfold splice. simpl. done.
Qed.

Lemma escape_roundtrip_witness :
  exists n, protocol_escape (replicate 8 0) 1 ([125; 65; 126] ++ [9]) 3 =
              Some (n, [0; 125; 1; 65; 125; 2; 0; 0]) /\
    protocol_unescape (replicate 5 7) ([125; 1; 65; 125; 2] ++ []) n =
      Some (3, [125; 65; 126; 7; 7]).
Proof.
  destruct (escape_roundtrip [125; 65; 126] [9] (replicate 8 0) 1 (replicate 5 7) [])
    as (n & E1 & _ & _ & _ & E2); [done|lia|vm_compute; congruence|reflexivity|].
  exists n. split; [exact E1|exact E2].
Defined.

(** C3: the receiver delivers a byte stream of frames.  The buffer holds any
    number of frames, each preceded by noise without delimiters and each with
    a right or a wrong check byte, then the part of one more frame that has
    arrived so far, then stale bytes of the buffer.  The analyser hands
    exactly the messages whose check byte is right to the dispatcher, in
    order and once each, and returns the length of the complete frames, so
    that the partial frame is kept; an allocation failure on the way makes
    it return -1. *)
Theorem ayalyze_delivers {W} `{Heap W} parse fs q y k slack (s : W) :
  Forall good_frame fs -> (k < length (wire_x q y))%nat ->
  zlen (stream_bytes fs) + Z.of_nat k < 2 ^ 31 ->
  protocol_ayalyze parse (stream_bytes fs ++ take k (wire_x q y) ++ slack)
                   (zlen (stream_bytes fs) + Z.of_nat k) s =
  (let* ok := deliver parse fs in
   if ok then ret (zlen (stream_bytes fs)) else ret (-1)) s.
Proof.
  intros Hfs Hk Hlen.
  assert (Z.of_nat k = zlen (take k (wire_x q y))) as Ek by (unfold zlen; len).
  rewrite Ek in *. apply ayalyze_stream; [done|by apply prefix_partial|done].
Qed.

Lemma ayalyze_delivers_witness :
  let m1 := [2; 0; 1; 0; 0; 0; 0; 0; 126] in
  let m2 := [3; 0; 1; 0; 1; 0; 0; 0; 5] in
  let fs := [mkItem [1; 2] m1 (xor_all m1); mkItem [] m2 99; mkItem [] m2 (xor_all m2)] in
  protocol_ayalyze Log.log_msg (stream_bytes fs ++ [126; 3; 0] ++ [42; 42])
                   (zlen (stream_bytes fs) + 3) [] = Ret 40 [frame m1; frame m2].
Proof.
  intros m1 m2 fs.
  rewrite (ayalyze_delivers Log.log_msg fs m2 0 3 [42; 42] []); [reflexivity| | |].
  - repeat constructor; unfold MAGIC_CHAR, HEADER_SIZE; simpl; (lia || (vm_compute; congruence)).
  - vm_compute. lia.
  - vm_compute. reflexivity.
Defined.

(** C40: the receiver's loop ends on every input, whatever the bytes are: the
    fuel is never the reason it stops, and the value it returns is -1 or a
    number of bytes between 0 and the length of the buffer. *)
Theorem ayalyze_terminates {W} `{Heap W} parse buf slack (s : W) :
  parse_no_fuel parse -> zlen buf < 2 ^ 31 ->
  match protocol_ayalyze parse (buf ++ slack) (zlen buf) s with
  | Ret n _ => n = -1 \/ 0 <= n <= zlen buf
  | Exit _ _ => True
  | Fault f _ => f <> NoFuel
  end.
Proof. apply ayalyze_range. Qed.

Lemma ayalyze_terminates_witness :
  match protocol_ayalyze Log.log_msg ([126; 126; 1; 2; 126; 0; 0; 0; 0; 0; 0; 0] ++ [1]) 12 [] with
  | Ret n _ => n = -1 \/ 0 <= n <= 12
  | Exit _ _ => True
  | Fault f _ => f <> NoFuel
  end.
Proof. by apply (ayalyze_terminates Log.log_msg [126; 126; 1; 2; 126; 0; 0; 0; 0; 0; 0; 0] [1] []). Defined.

(** The analyser on a first frame [body] that makes [treat_frame] fault. *)
Lemma ayalyze_first_fault {W} `{Heap W} parse pre body rest len (s s' : W) :
  nomagic pre -> nomagic body -> zlen pre + zlen body + 2 <= len < 2 ^ 31 ->
  HEADER_SIZE + 3 <= len - zlen pre ->
  treat_frame parse (mkBuff (MAGIC_CHAR :: body ++ MAGIC_CHAR :: rest) (zlen body + 2)) s
    = Fault OutOfBounds s' ->
  protocol_ayalyze parse (pre ++ MAGIC_CHAR :: body ++ MAGIC_CHAR :: rest) len s
    = Fault OutOfBounds s'.
Proof.
  intros Hpre Hbody Hlen Hmin Ht. unfold protocol_ayalyze, bind at 1. cbn [ayalyze_loop].
  rewrite get_msg_frame by done. unfold lift at 1. rewrite bind_ret. cbn [fst snd bm_len].
  pose proof (zlen_nonneg pre). pose proof (zlen_nonneg body).
  destruct (zlen pre + zlen body + 2 =? 0) eqn:E1; bool_cases; [lia|].
  destruct (zlen body + 2 =? 0) eqn:E2; bool_cases; [lia|]. cbn [negb andb].
  unfold bind at 1. by rewrite Ht.
Qed.

(** Two delimiters in a row bring the receiver down.  When the first
    delimiter of the buffer is followed by another one and at least 11 bytes
    are left from it, the empty "frame" makes the checksum length wrap to
    2^32 - 1 and the receiver reads out of bounds. *)
Theorem adjacent_delimiters_fault {W} `{Heap W} parse pre rest len (s s' : W) c :
  nomagic pre -> zlen pre + 11 <= len < 2 ^ 31 -> malloc 2 s = Ret (Some c) s' ->
  protocol_ayalyze parse (pre ++ MAGIC_CHAR :: MAGIC_CHAR :: rest) len s
    = Fault OutOfBounds s'.
Proof.
  intros Hpre Hlen Hc. unfold zlen in Hlen. fold (zlen pre) in Hlen.
  apply (ayalyze_first_fault parse pre [] rest);
    [done|constructor|change (zlen []) with 0; lia|unfold HEADER_SIZE; lia|].
  unfold treat_frame. cbn [bm_len bm_buf app]. change (zlen [] + 2) with 2.
  rewrite (bind_Ret _ _ _ _ _ Hc). apply malloc_len in Hc; [|lia].
  destruct c as [|c0 [|c1 [|]]]; try (unfold zlen in Hc; simpl in Hc; lia). by destruct rest.
Qed.

Lemma adjacent_delimiters_fault_witness :
  protocol_ayalyze Log.log_msg ([1; 2] ++ 126 :: 126 :: replicate 9 0) 13 []
    = Fault OutOfBounds [].
Proof.
  apply (adjacent_delimiters_fault Log.log_msg [1; 2] (replicate 9 0) 13 [] [] [0; 0]);
    [repeat constructor; unfold MAGIC_CHAR; lia|vm_compute; split; congruence|reflexivity].
Defined.

(** so does a frame with a bad escape sequence: the -1 of the unescape
    routine is used as the frame's length and [now.buf[-3]] is read. *)
Theorem bad_escape_fault {W} `{Heap W} parse pre body rest len (s s' : W) c :
  nomagic pre -> nomagic body -> zlen pre + zlen body + 2 <= len < 2 ^ 31 ->
  zlen pre + 11 <= len ->
  unstuff (MAGIC_CHAR :: body ++ [MAGIC_CHAR]) = None ->
  malloc (zlen body + 2) s = Ret (Some c) s' ->
  protocol_ayalyze parse (pre ++ MAGIC_CHAR :: body ++ MAGIC_CHAR :: rest) len s
    = Fault OutOfBounds s'.
Proof.
  intros Hpre Hbody Hlen Hmin Hbad Hc. pose proof (zlen_nonneg body).
  apply ayalyze_first_fault; [done|done|done|unfold HEADER_SIZE; lia|].
  unfold treat_frame. cbn [bm_len bm_buf].
  rewrite (bind_Ret _ _ _ _ _ Hc). apply malloc_len in Hc; [|lia].
  set (raw := MAGIC_CHAR :: body ++ [MAGIC_CHAR]) in *.
  assert (MAGIC_CHAR :: body ++ MAGIC_CHAR :: rest = raw ++ rest) as ->
    by (subst raw; simpl; by rewrite <- app_assoc).
  assert (zlen body + 2 = zlen raw) as E
    by (subst raw; rewrite zlen_cons, zlen_app; unfold zlen; simpl; lia).
  pose proof (unescape_loop_spec raw rest c 0 ltac:(lia) ltac:(lia)) as U.
  rewrite Hbad in U. destruct U as (d & U). unfold protocol_unescape. rewrite E.
  destruct (zlen raw =? 0) eqn:E0; bool_cases; [lia|]. by rewrite U.
Qed.

Lemma bad_escape_fault_witness :
  protocol_ayalyze Log.log_msg ([] ++ 126 :: [1; 125; 9; 2; 3; 4; 5; 6; 7; 8] ++ 126 :: []) 12 []
    = Fault OutOfBounds [].
Proof.
  apply (bad_escape_fault Log.log_msg [] [1; 125; 9; 2; 3; 4; 5; 6; 7; 8] [] 12 [] []
           (replicate 12 0));
    (reflexivity || (repeat constructor; unfold MAGIC_CHAR; lia) || (vm_compute; split; congruence)
     || (vm_compute; congruence)).
Defined.

(** C6: the sender.  For a message of at least one byte of header and body
    the device gets exactly the wire form of the message, whatever the
    caller left in the delimiter and checksum cells, the scratch buffer of
    twice the length is never overrun, and the number of bytes is
    returned; -1 and nothing sent when the allocation fails. *)
Theorem send_data_sends_wire {W} `{Heap W} send u v w p (s : W) :
  bytes p -> 2 * (zlen p + 3) < 2 ^ 31 ->
  protocol_send_data send (u :: p ++ [v; w]) (zlen p + 3) s =
  (let* nb := malloc ((zlen p + 3) * 2) in
   match nb with
   | None => ret (-1)
   | Some c =>
       do* send (wire p ++ drop (length (wire p)) c) (zlen (wire p));
       ret (zlen (wire p))
   end) s.
Proof. apply send_data_wire. Qed.

Lemma send_data_sends_wire_witness :
  protocol_send_data (fun b n => do* Log.log_msg (mkBuff b n); ret n)
    (0 :: [1; 0; 126; 0] ++ [7; 7]) 7 [] = Ret 8 [wire [1; 0; 126; 0]].
Proof.
  rewrite (send_data_sends_wire (fun b n => do* Log.log_msg (mkBuff b n); ret n)
             0 7 7 [1; 0; 126; 0] []);
    [reflexivity|repeat constructor; lia|vm_compute; reflexivity].
Defined.
