(* ===== verification/World.v ===== *)
(** * The state of the daemon and what surrounds it

    [world] holds the static variables of the daemon ([external/scorpion]):
    the two message counters, the heart-beat counters and the UART manager.
    [Env] is everything the daemon calls and does not define: the allocator,
    uninitialised stack memory, [send], [popen], the terminal driver.  Each
    call of [Env] is stamped with the number of calls before it, so that the
    environment may answer differently every time.  What the daemon does to
    the outside is appended to [w_trace]. *)

From stdpp Require Import base list numbers strings.
From Stdlib Require Import ZArith Lia.
From S2P Require Import Prelude Text CircleBuffer Codec.
Open Scope Z_scope.

(** [struct termios], the fields the code uses. *)
Record termios := mkTermios {
  c_iflag : Z; c_oflag : Z; c_cflag : Z; c_lflag : Z; c_cc : list Z
}.

(** What the daemon does to the outside. *)
Inductive effect :=
  | SockSend (b : list Z)                 (* send() on the client socket *)
  | SockClose                             (* close() of the client socket *)
  | UartWrite (fd : Z) (b : list Z)       (* write() on the UART *)
  | CondSignal                            (* pthread_cond_signal of the UART sender *)
  | TcSet (fd : Z) (t : termios)          (* tcsetattr(fd, TCSANOW, t) *)
  | Popen (cmd : list Z)                  (* popen(cmd, r) *)
  | PropertySet (key value : list Z).     (* property_set *)

Class Env := {
  env_malloc : nat -> Z -> option (list Z);
  env_malloc_len : forall t n c, env_malloc t n = Some c -> 0 <= n -> zlen c = n;
  env_stack : nat -> Z -> list Z;
  env_stack_len : forall t n, 0 <= n -> zlen (env_stack t n) = n;
  env_send : nat -> list Z -> Z;
  (** [popen] of a command: NULL, or the command's output and what [pclose]
      returns for it. *)
  env_popen : nat -> list Z -> option (list Z * Z);
  env_popen_bytes : forall t cmd out closed, env_popen t cmd = Some (out, closed) -> bytes out;
  env_open : nat -> list Z -> Z;
  env_tcgetattr : nat -> Z -> option termios
}.

Record world := mkWorld {
  w_time : nat;
  apk_msg_seq_number : Z;     (* static in scorpion_protocol_build_header *)
  mcu_msg_seq_number : Z;     (* static in stm32_protocol_build_header *)
  scorpion_heart_beat_count : Z;
  scorpion_heart_beat_threhold : Z;
  uart_fd : Z;
  ppmngr_read : option CircleBufferMngr;
  ppmngr_write : option CircleBufferMngr;
  send_thread_exit : Z;
  w_trace : list effect
}.

Definition tick (w : world) : world :=
  mkWorld (S (w_time w)) (apk_msg_seq_number w) (mcu_msg_seq_number w)
    (scorpion_heart_beat_count w) (scorpion_heart_beat_threhold w) (uart_fd w)
    (ppmngr_read w) (ppmngr_write w) (send_thread_exit w) (w_trace w).
Definition emit (e : effect) (w : world) : world :=
  mkWorld (w_time w) (apk_msg_seq_number w) (mcu_msg_seq_number w)
    (scorpion_heart_beat_count w) (scorpion_heart_beat_threhold w) (uart_fd w)
    (ppmngr_read w) (ppmngr_write w) (send_thread_exit w) (w_trace w ++ [e]).
Definition set_apk_seq (n : Z) (w : world) : world :=
  mkWorld (w_time w) n (mcu_msg_seq_number w)
    (scorpion_heart_beat_count w) (scorpion_heart_beat_threhold w) (uart_fd w)
    (ppmngr_read w) (ppmngr_write w) (send_thread_exit w) (w_trace w).
Definition set_mcu_seq (n : Z) (w : world) : world :=
  mkWorld (w_time w) (apk_msg_seq_number w) n
    (scorpion_heart_beat_count w) (scorpion_heart_beat_threhold w) (uart_fd w)
    (ppmngr_read w) (ppmngr_write w) (send_thread_exit w) (w_trace w).
Definition set_heart_beat (count threhold : Z) (w : world) : world :=
  mkWorld (w_time w) (apk_msg_seq_number w) (mcu_msg_seq_number w)
    count threhold (uart_fd w)
    (ppmngr_read w) (ppmngr_write w) (send_thread_exit w) (w_trace w).
Definition set_uart_fd (fd : Z) (w : world) : world :=
  mkWorld (w_time w) (apk_msg_seq_number w) (mcu_msg_seq_number w)
    (scorpion_heart_beat_count w) (scorpion_heart_beat_threhold w) fd
    (ppmngr_read w) (ppmngr_write w) (send_thread_exit w) (w_trace w).
Definition set_ppmngr_read (m : option CircleBufferMngr) (w : world) : world :=
  mkWorld (w_time w) (apk_msg_seq_number w) (mcu_msg_seq_number w)
    (scorpion_heart_beat_count w) (scorpion_heart_beat_threhold w) (uart_fd w)
    m (ppmngr_write w) (send_thread_exit w) (w_trace w).
Definition set_ppmngr_write (m : option CircleBufferMngr) (w : world) : world :=
  mkWorld (w_time w) (apk_msg_seq_number w) (mcu_msg_seq_number w)
    (scorpion_heart_beat_count w) (scorpion_heart_beat_threhold w) (uart_fd w)
    (ppmngr_read w) m (send_thread_exit w) (w_trace w).
Definition set_send_thread_exit (b : Z) (w : world) : world :=
  mkWorld (w_time w) (apk_msg_seq_number w) (mcu_msg_seq_number w)
    (scorpion_heart_beat_count w) (scorpion_heart_beat_threhold w) (uart_fd w)
    (ppmngr_read w) (ppmngr_write w) b (w_trace w).

Section Calls.
Context `{Env}.

(** One call of the environment. *)
Definition ask {A} (f : nat -> A) : prog world A :=
  fun w => Ret (f (w_time w)) (tick w).

Definition do_effect (e : effect) : prog world unit := modify (emit e).

#[export, refine] Instance world_heap : Heap world := {
  malloc n := ask (fun t => env_malloc t n);
  malloc_ret := _;
  malloc_len := _
}.
Proof.
  - intros. by do 2 eexists.
  - intros n s c s' E Hn. injection E as E _. by eapply env_malloc_len.
Defined.

(** An automatic variable of [n] bytes before its first assignment. *)
Definition uninit (n : Z) : prog world (list Z) := ask (fun t => env_stack t n).

Definition gets {A} (f : world -> A) : prog world A := fun w => Ret (f w) w.

Lemma bind_gets {A B} (f : world -> A) (k : A -> prog world B) w :
  bind (gets f) k w = k (f w) w.
Proof. reflexivity. Qed.

Lemma bind_ask {A B} (f : nat -> A) (k : A -> prog world B) w :
  bind (ask f) k w = k (f (w_time w)) (tick w).
Proof. reflexivity. Qed.

Lemma bind_effect {B} e (k : unit -> prog world B) w :
  bind (do_effect e) k w = k tt (emit e w).
Proof. reflexivity. Qed.

End Calls.

(** Runs the first steps of a program whose results are known. *)
Ltac run := repeat first
  [ rewrite bind_gets | rewrite bind_ask | rewrite bind_effect | rewrite bind_modify
  | rewrite bind_ret | rewrite bind_lift_Some | rewrite bind_bind ]; cbv beta.

(** An environment for the examples: nothing fails, memory is 0xAA, every
    command prints the same line. *)
Module Demo.
Definition fill (n : Z) : list Z := replicate (Z.to_nat n) 170.

Lemma fill_len n : 0 <= n -> zlen (fill n) = n.
Proof. intros. unfold fill, zlen. rewrite length_replicate. lia. Qed.

#[export, refine] Instance demo_env : Env := {
  env_malloc t n := Some (fill n);
  env_malloc_len := _;
  env_stack t n := fill n;
  env_stack_len := _;
  env_send t b := zlen b;
  env_popen t cmd := Some (str "root"%string ++ [10], 0);
  env_popen_bytes := _;
  env_open t path := 5;
  env_tcgetattr t fd := Some (mkTermios 0 0 0 0 (replicate 19 0))
}.
Proof.
  - intros t n c E Hn. simplify_eq. by apply fill_len.
  - intros. by apply fill_len.
  - intros t cmd out closed E. simplify_eq. repeat constructor; lia.
Defined.

Definition cb0 (n : Z) : CircleBufferMngr := mkCB (replicate (Z.to_nat n) 0) n 0 0 0.

(** The daemon just after its start. *)
Definition world0 : world :=
  mkWorld 0 0 0 0 100 5 (Some (cb0 2048)) (Some (cb0 2048)) 0 [].
End Demo.
