(* ===== verification/Uart.v ===== *)
(** * The UART side of the daemon: line settings and the transmit queue

    [external/scorpion/scorpion_uart.c], the parts that do not depend on the
    protocol: [scorpion_uart_create], [scorpion_uart_set_params],
    [scorpion_uart_send] (the producers) and [scorpion_uart_send_treat] (the
    body of the sender thread).  The receive side is in [Daemon]. *)

From stdpp Require Import base list numbers strings.
From Stdlib Require Import ZArith Lia.
From S2P Require Import Prelude Text CircleBuffer Codec World.
Open Scope Z_scope.

Definition MAX_TEMP_BUFF_SIZE : Z := 256.
Definition MAX_UART_BUFF_SIZE : Z := 2048.

(** ** Line settings *)

Record scorpion_uart_params_t := mkParams {
  bps : Z; databits : Z; stopbits : Z; parity : Z; timeout : Z
}.

(** The flags of [<termios.h>] on this target. *)
Definition CSIZE : Z := 48.      (* 0000060 *)
Definition CS7 : Z := 32.        (* 0000040 *)
Definition CS8 : Z := 48.        (* 0000060 *)
Definition CSTOPB : Z := 64.     (* 0000100 *)
Definition PARENB : Z := 256.    (* 0000400 *)
Definition PARODD : Z := 512.    (* 0001000 *)
Definition CBAUD : Z := 4111.    (* 0010017 *)
Definition B115200 : Z := 4098.  (* 0010002 *)
Definition INPCK : Z := 16.      (* 0000020 *)
Definition VINTR : nat := 0.
Definition VQUIT : nat := 1.
Definition VTIME : nat := 5.
Definition VMIN : nat := 6.
Definition VSTART : nat := 8.
Definition VSTOP : nat := 9.
Definition VSUSP : nat := 10.

Definition termios_params : scorpion_uart_params_t := mkParams B115200 8 1 78 0.

(** [flags |= m] and [flags &= ~m]. *)
Definition set_bits (flags m : Z) : Z := Z.lor flags m.
Definition clear_bits (flags m : Z) : Z := Z.land flags (Z.lnot m).

(** The three [switch] statements of [scorpion_uart_set_params]. *)
Definition uart_databits (n cflag : Z) : option Z :=
  if n =? 7 then Some (set_bits cflag CS7)
  else if n =? 8 then Some (set_bits cflag CS8) else None.

Definition uart_stopbits (n cflag : Z) : option Z :=
  if n =? 1 then Some (clear_bits cflag CSTOPB)
  else if n =? 2 then Some (set_bits cflag CSTOPB) else None.

Definition uart_parity (c cflag iflag : Z) : option (Z * Z) :=
  if (c =? 110) || (c =? 78) then Some (clear_bits cflag PARENB, clear_bits iflag INPCK)
  else if (c =? 111) || (c =? 79) then
    Some (set_bits cflag (Z.lor PARODD PARENB), set_bits iflag INPCK)
  else if (c =? 101) || (c =? 69) then
    Some (clear_bits (set_bits cflag PARENB) PARODD, set_bits iflag INPCK)
  else None.

(** [cfsetospeed]/[cfsetispeed]: both set the speed bits of [c_cflag]. *)
Definition cfsetspeed (cflag speed : Z) : Z :=
  set_bits (clear_bits cflag CBAUD) (Z.land speed CBAUD).

(** The options [scorpion_uart_set_params] computes from those it read. *)
Definition uart_options (old : termios) (p : scorpion_uart_params_t) : option termios :=
  c1 ← uart_databits (databits p) (clear_bits 0 CSIZE);
  c2 ← uart_stopbits (stopbits p) c1;
  '(c3, i3) ← uart_parity (parity p) c2 0;
  Some (mkTermios i3 0 (cfsetspeed (cfsetspeed c3 (bps p)) (bps p)) 0
    (<[VSUSP := 0]> (<[VSTOP := 0]> (<[VSTART := 0]> (<[VQUIT := 0]> (<[VINTR := 0]>
      (<[VTIME := u8 (timeout p)]> (<[VMIN := 0]> (c_cc old))))))))).

Section Uart.
Context `{Env}.

Definition scorpion_uart_create (device : list Z) : prog world Z :=
  let* fd := ask (fun t => env_open t device) in
  if fd <? 0 then ret (-1) else ret fd.

Definition scorpion_uart_set_params (fd : Z) (p : scorpion_uart_params_t) : prog world bool :=
  let* old := ask (fun t => env_tcgetattr t fd) in
  match old with
  | None => ret false
  | Some old =>
      match uart_options old p with
      | None => ret false
      | Some options => do* do_effect (TcSet fd options); ret true
      end
  end.

(** ** The transmit queue *)

Definition scorpion_uart_send (buff : list Z) (len : Z) : prog world Z :=
  let* fd := gets uart_fd in
  if fd <? 0 then ret 0
  else
    let* p := gets ppmngr_write in
    let* m := lift NullDeref p in
    if len <=? cb_freelen m then
      let* r := lift OutOfBounds (cb_write m buff len) in
      do* modify (set_ppmngr_write (Some (snd r)));
      do* do_effect CondSignal;
      ret (fst r)
    else ret 0.

Definition scorpion_uart_send_treat : prog world unit :=
  let* p := gets ppmngr_write in
  let* m := lift NullDeref p in
  if cb_empty m then ret tt
  else
    let* temp_buff := uninit MAX_TEMP_BUFF_SIZE in
    let* r := lift OutOfBounds (cb_read m (Some temp_buff) MAX_TEMP_BUFF_SIZE) in
    let '(len, out, m') := r in
    do* modify (set_ppmngr_write (Some m'));
    let* fd := gets uart_fd in
    let* out := lift NullDeref out in
    do_effect (UartWrite fd (take (Z.to_nat len) out)).

End Uart.

(** ** Specifications *)

(** The transmit side is set up: an open device and a sound queue. *)
Record tx_ok (w : world) (m : CircleBufferMngr) : Prop := {
  tx_fd : 0 <= uart_fd w;
  tx_ptr : ppmngr_write w = Some m;
  tx_cb : cb_ok m;
  tx_len : buflen m = MAX_UART_BUFF_SIZE
}.

(** The bytes handed to the UART so far. *)
Fixpoint uart_sent (tr : list effect) : list Z :=
  match tr with
  | [] => []
  | UartWrite _ b :: tr' => b ++ uart_sent tr'
  | _ :: tr' => uart_sent tr'
  end.

Lemma uart_sent_app t1 t2 : uart_sent (t1 ++ t2) = uart_sent t1 ++ uart_sent t2.
Proof.
  induction t1 as [|e t1 IH]; [done|]. destruct e; simpl; rewrite ?IH, ?app_assoc; done.
Qed.

Section UartFacts.
Context `{Env}.

(** A send is all or nothing: the whole frame is queued, or nothing is. *)
Lemma uart_send_spec w m b slack :
  tx_ok w m -> zlen b < 2 ^ 31 ->
  if zlen (contents m) + zlen b <=? MAX_UART_BUFF_SIZE then
    exists m', scorpion_uart_send (b ++ slack) (zlen b) w =
        Ret (zlen b) (emit CondSignal (set_ppmngr_write (Some m') w)) /\
      tx_ok (emit CondSignal (set_ppmngr_write (Some m') w)) m' /\
      contents m' = contents m ++ b
  else scorpion_uart_send (b ++ slack) (zlen b) w = Ret 0 w.
Proof.
  intros [Hfd Hp Hm Hl] Hb. pose proof (contents_length m Hm) as HC.
  pose proof Hm as [Hm1 _ Hm3 _ _]. pose proof (zlen_nonneg b).
  unfold scorpion_uart_send. run. destruct (uart_fd w <? 0) eqn:E; bool_cases; [lia|].
  run. rewrite Hp. run.
  unfold cb_freelen. rewrite s32_id by lia. rewrite HC.
  assert ((zlen b <=? buflen m - datalen m) = (datalen m + zlen b <=? MAX_UART_BUFF_SIZE)) as ->
    by (apply eq_true_iff_eq; rewrite !Z.leb_le; lia).
  destruct (_ <=? MAX_UART_BUFF_SIZE) eqn:E2; bool_cases; [|done].
  destruct (cb_write_spec m (b ++ slack) (zlen b) Hm) as (n & m' & Ew & Hm' & Hl' & HQ);
    [lia|rewrite zlen_app; pose proof (zlen_nonneg slack); lia|].
  rewrite take_zlen in HQ. unfold Queue.push, Queue.room in HQ. rewrite HC in HQ.
  rewrite Z.min_r in HQ by lia. injection HQ as -> HQ.
  unfold zlen in HQ at 1. rewrite Nat2Z.id, firstn_all in HQ.
  rewrite Ew. exists m'. split; [done|]. split; [|done]. split; simpl; auto; lia.
Qed.

(** The sender thread moves up to 256 bytes from the head of the queue to
    the device, in order, and never touches the rest. *)
Lemma uart_send_treat_spec w m :
  tx_ok w m ->
  exists w' m', scorpion_uart_send_treat w = Ret tt w' /\ tx_ok w' m' /\
    uart_sent (w_trace w') ++ contents m' = uart_sent (w_trace w) ++ contents m /\
    zlen (contents m') = Z.max 0 (zlen (contents m) - MAX_TEMP_BUFF_SIZE) /\
    ppmngr_read w' = ppmngr_read w.
Proof.
  intros [Hfd Hp Hm Hl]. pose proof (contents_length m Hm) as HC.
  unfold scorpion_uart_send_treat. run. rewrite Hp. run. unfold cb_empty.
  destruct (0 =? datalen m) eqn:E; bool_cases.
  { exists w, m. split; [done|]. split; [by split|]. rewrite HC.
    unfold MAX_TEMP_BUFF_SIZE. split_and!; [done|lia|done]. }
  pose proof Hm as [Hm1 _ Hm3 _ _].
  unfold uninit. run. set (buf := env_stack _ _).
  assert (zlen buf = 256) as Hb by (apply env_stack_len; unfold MAX_TEMP_BUFF_SIZE; lia).
  destruct (cb_read_spec m buf 256 Hm) as (m' & Er & Hm' & Hl' & HQ); [lia|lia|].
  unfold MAX_TEMP_BUFF_SIZE in *. rewrite Er. set (k := Z.min 256 (datalen m)) in *.
  assert (zlen (take (Z.to_nat k) (contents m)) = k) as Hk by (unfold zlen in *; len).
  do 2 eexists. split; [reflexivity|].
  assert (contents m' = drop (Z.to_nat k) (contents m)) as HQ' by exact HQ.
  split; [|split_and!].
  - split; simpl; auto; lia.
  - cbn [w_trace emit set_ppmngr_write tick]. rewrite uart_sent_app. cbn [uart_sent].
    rewrite app_nil_r, HQ', <- app_assoc. f_equal.
    rewrite <- Hk at 1. rewrite take_zlen. apply take_drop.
  - rewrite HQ'. unfold zlen in *. len.
  - done.
Qed.

End UartFacts.

(** ** The line settings *)

Lemma speed_other c b m : Z.land CBAUD m = 0 -> Z.land (cfsetspeed c b) m = Z.land c m.
Proof.
  intros Hm. apply Z.bits_inj'. intros n Hn. apply (f_equal (fun z => Z.testbit z n)) in Hm.
  rewrite Z.land_spec, Z.bits_0 in Hm. unfold cfsetspeed, set_bits, clear_bits.
  rewrite !Z.land_spec, Z.lor_spec, !Z.land_spec, Z.lnot_spec by done.
  by destruct (Z.testbit c n), (Z.testbit b n), (Z.testbit CBAUD n), (Z.testbit m n).
Qed.

Lemma speed_self c b : Z.land (cfsetspeed c b) CBAUD = Z.land b CBAUD.
Proof.
  apply Z.bits_inj'. intros n Hn. unfold cfsetspeed, set_bits, clear_bits.
  rewrite !Z.land_spec, Z.lor_spec, !Z.land_spec, Z.lnot_spec by done.
  by destruct (Z.testbit c n), (Z.testbit b n), (Z.testbit CBAUD n).
Qed.

(** The settings the code supports, and what they ask for. *)
Definition odd_parity (p : scorpion_uart_params_t) : bool := (parity p =? 111) || (parity p =? 79).
Definition even_parity (p : scorpion_uart_params_t) : bool := (parity p =? 101) || (parity p =? 69).
Definition no_parity (p : scorpion_uart_params_t) : bool := (parity p =? 110) || (parity p =? 78).
Definition supported (p : scorpion_uart_params_t) : bool :=
  ((databits p =? 7) || (databits p =? 8)) && ((stopbits p =? 1) || (stopbits p =? 2))
  && (no_parity p || odd_parity p || even_parity p).

(** The line settings.  For supported parameters the terminal is set to
    raw mode with exactly the data bits, stop bits, parity and speed asked
    for, reads that do not wait for a byte, and the asked time-out; for
    unsupported ones, or when the device gives no settings, nothing is set
    and [false] is returned. *)
Theorem uart_line_settings `{Env} w fd p old :
  env_tcgetattr (w_time w) fd = Some old -> (VSUSP < length (c_cc old))%nat ->
  if supported p then
    exists t, scorpion_uart_set_params fd p w = Ret true (emit (TcSet fd t) (tick w)) /\
      c_lflag t = 0 /\ c_oflag t = 0 /\
      Z.land (c_cflag t) CSIZE = (if databits p =? 8 then CS8 else CS7) /\
      Z.land (c_cflag t) CSTOPB = (if stopbits p =? 2 then CSTOPB else 0) /\
      Z.land (c_cflag t) PARENB = (if no_parity p then 0 else PARENB) /\
      Z.land (c_cflag t) PARODD = (if odd_parity p then PARODD else 0) /\
      Z.land (c_iflag t) INPCK = (if no_parity p then 0 else INPCK) /\
      Z.land (c_cflag t) CBAUD = Z.land (bps p) CBAUD /\
      c_cc t !! VMIN = Some 0 /\ c_cc t !! VTIME = Some (u8 (timeout p))
  else scorpion_uart_set_params fd p w = Ret false (tick w).
Proof.
  intros Ho Hcc. unfold scorpion_uart_set_params. run. rewrite Ho.
  unfold supported, uart_options, uart_databits, uart_stopbits, uart_parity,
    no_parity, odd_parity, even_parity.
  destruct p as [b d s c tm]. cbn [databits stopbits parity bps timeout].
  assert (forall v : Z,
    <[VSUSP:=0]> (<[VSTOP:=0]> (<[VSTART:=0]> (<[VQUIT:=0]> (<[VINTR:=0]>
      (<[VTIME:=v]> (<[VMIN:=0]> (c_cc old))))))) !! VMIN = Some 0 /\
    <[VSUSP:=0]> (<[VSTOP:=0]> (<[VSTART:=0]> (<[VQUIT:=0]> (<[VINTR:=0]>
      (<[VTIME:=v]> (<[VMIN:=0]> (c_cc old))))))) !! VTIME = Some v) as CC.
  { intros v. unfold VSUSP, VSTOP, VSTART, VQUIT, VINTR, VTIME, VMIN in *.
    split; rewrite !list_lookup_insert_ne by lia; apply list_lookup_insert_eq;
      rewrite ?length_insert; lia. }
  specialize (CC (u8 tm)).
  destruct (d =? 7) eqn:D7; destruct (d =? 8) eqn:D8; bool_cases; try lia; try done;
    (destruct (s =? 1) eqn:S1; destruct (s =? 2) eqn:S2; bool_cases; try lia; try done);
    (destruct ((c =? 110) || (c =? 78)) eqn:P1; destruct ((c =? 111) || (c =? 79)) eqn:P2;
     destruct ((c =? 101) || (c =? 69)) eqn:P3; try done;
     try (repeat match goal with H : _ || _ = true |- _ => apply orb_true_iff in H as [H|H] end;
          bool_cases; lia));
    cbn [orb andb mbind option_bind]; eexists; (split; [reflexivity|]);
    cbn [c_lflag c_oflag c_cflag c_iflag c_cc];
    rewrite !speed_other by reflexivity; rewrite ?speed_self;
    (split_and!; try reflexivity; apply CC).
Qed.

Lemma uart_line_settings_witness :
  exists t, scorpion_uart_set_params (H := Demo.demo_env) 5 termios_params Demo.world0
      = Ret true (emit (TcSet 5 t) (tick Demo.world0)) /\
    Z.land (c_cflag t) CSIZE = CS8 /\ Z.land (c_cflag t) CBAUD = B115200 /\
    c_cc t !! VMIN = Some 0.
Proof.
  destruct (uart_line_settings (H := Demo.demo_env) Demo.world0 5 termios_params
              (mkTermios 0 0 0 0 (replicate 19 0)) eq_refl)
    as (t & E & _ & _ & E1 & _ & _ & _ & _ & E2 & E3 & _); [vm_compute; lia|].
  exists t. split_and!; assumption.
Defined.
