(* ===== verification/Link.v ===== *)
(** * Sending messages on the two links

    The packet headers and acknowledgements of both protocols, the two
    [*_protocol_send_data], and every function of [external/scorpion] that
    sends a message: [stm32_send_*] to the microcontroller over the UART,
    [scorpion_report_*] to the application over the socket.

    A packet is an automatic struct: one delimiter byte, the 8-byte header,
    the body, the checksum and the closing delimiter, packed.  The fields
    are stored into uninitialised memory, the framing bytes by
    [*_protocol_send_data].

    [aworld] is the abstract state the functions are specified on: the ring
    buffers become byte queues and a packet becomes the wire form of its
    message.  [refines] relates a run of the code to a run of the
    specification. *)

From stdpp Require Import base list numbers strings.
From Stdlib Require Import ZArith Lia.
From S2P Require Import Prelude Text CircleBuffer Misc Codec World Uart.
Open Scope Z_scope.

Definition MCU2SYSTEM_GENERAL_ACK : Z := 32769.  (* 0x8001 *)
Definition MCU2SYSTEM_GPIO_IN : Z := 32771.
Definition MCU2SYSTEM_ADC_REP : Z := 32772.
Definition MCU2SYSTEM_EVAL_IN : Z := 32773.
Definition MCU2SYSTEM_VOLUMN_IN : Z := 32774.
Definition MCU2SYSTEM_GPIO_IN_REP : Z := 32775.
Definition MCU2SYSTEM_VERSION_REP : Z := 32832.  (* 0x8040 *)
Definition SYSTEM2MCU_GENERAL_ACK : Z := 1.
Definition SYSTEM2MCU_HEART_BEAT : Z := 2.
Definition SYSTEM2MCU_GPIO_OUT : Z := 3.
Definition SYSTEM2MCU_ADC_REQ : Z := 4.
Definition SYSTEM2MCU_GPIO_IN_REQ : Z := 7.
Definition SYSTEM2MCU_DELAY_TIME : Z := 9.
Definition SYSTEM2MCU_VERSION_REQ : Z := 64.
Definition SYSTEM2MCU_REBOOT : Z := 128.

Definition SCORPION2APK_GENERAL_ACK : Z := 32769.
Definition SCORPION2APK_EVENT_IN : Z := 32770.
Definition SCORPION2APK_GPIO_IN : Z := 32771.
Definition SCORPION2APK_EVAL_IN : Z := 32773.
Definition SCORPION2APK_VOLUMN_IN : Z := 32774.
Definition SCORPION2APK_SHELL_REP : Z := 32784.  (* 0x8010 *)
Definition APK2SCORPION_GENERAL_ACK : Z := 1.
Definition APK2SCORPION_HEART_BEAT : Z := 2.
Definition APK2SCORPION_DELAY_TIME : Z := 9.
Definition APK2SCORPION_SHELL_REQ : Z := 16.
Definition APK2SCORPION_EX_REBOOT : Z := 128.

Definition PROTOCOL_RESULT_OK : Z := 0.

(** [*_protocol_header_t] as it lies in memory. *)
Definition header_bytes (msg_id msg_len msg_serial_number : Z) : list Z :=
  le_split 2 msg_id ++ le_split 2 msg_len ++ le_split 2 msg_serial_number ++ [0; 0].

(** [*_protocol_ack_t] for the message whose header is at [hdr]. *)
Definition protocol_build_ack (hdr : list Z) (result : Z) : option (list Z) :=
  seq ← load_le hdr 4 2; id ← load_le hdr 0 2;
  Some (le_split 2 seq ++ le_split 2 id ++ [u8 result]).

Section Link.
Context `{Env}.

(** ** The link to the microcontroller *)

Definition stm32_protocol_build_header (msg_id msg_len : Z) : prog world (list Z) :=
  let* n := gets mcu_msg_seq_number in
  do* modify (set_mcu_seq (u32 (n + 1)));
  ret (header_bytes (u16 msg_id) (u16 msg_len) (u16 n)).

Definition stm32_protocol_send_data (buf : list Z) (len : Z) : prog world Z :=
  protocol_send_data scorpion_uart_send buf len.

(** [header] is the header of the message to acknowledge. *)
Definition stm32_protocol_send_ack (header : list Z) (result : Z) : prog world unit :=
  let* ack := uninit 16 in
  let* hdr := stm32_protocol_build_header SYSTEM2MCU_GENERAL_ACK 5 in
  let* body := lift OutOfBounds (protocol_build_ack header result) in
  do* stm32_protocol_send_data (splice (splice ack 1 hdr) 9 body) 16;
  ret tt.

Definition stm32_send_heart_beat : prog world unit :=
  let* heart_beat := uninit 11 in
  let* hdr := stm32_protocol_build_header SYSTEM2MCU_HEART_BEAT 0 in
  do* stm32_protocol_send_data (splice heart_beat 1 hdr) 11;
  ret tt.

Definition stm32_send_version_req : prog world unit :=
  let* version_req := uninit 11 in
  let* hdr := stm32_protocol_build_header SYSTEM2MCU_VERSION_REQ 0 in
  do* stm32_protocol_send_data (splice version_req 1 hdr) 11;
  ret tt.

Definition stm32_send_reboot : prog world unit :=
  let* reboot := uninit 11 in
  let* hdr := stm32_protocol_build_header SYSTEM2MCU_REBOOT 0 in
  do* stm32_protocol_send_data (splice reboot 1 hdr) 11;
  ret tt.

Definition stm32_send_gpio_in_req : prog world unit :=
  let* gpio_in_req := uninit 11 in
  let* hdr := stm32_protocol_build_header SYSTEM2MCU_GPIO_IN_REQ 0 in
  do* stm32_protocol_send_data (splice gpio_in_req 1 hdr) 11;
  ret tt.

Definition stm32_send_adc_req (channel : Z) : prog world unit :=
  let* adc := uninit 12 in
  let* hdr := stm32_protocol_build_header SYSTEM2MCU_ADC_REQ 1 in
  do* stm32_protocol_send_data (splice (splice adc 1 hdr) 9 [u8 channel]) 12;
  ret tt.

Definition stm32_send_delay_time (delay : Z) : prog world unit :=
  let* delay_time := uninit 15 in
  let* hdr := stm32_protocol_build_header SYSTEM2MCU_DELAY_TIME 4 in
  do* stm32_protocol_send_data (splice (splice delay_time 1 hdr) 9 (le_split 4 delay)) 15;
  ret tt.

Definition stm32_send_gpio_out (out : Z) : prog world unit :=
  let* gpio_out := uninit 15 in
  let* hdr := stm32_protocol_build_header SYSTEM2MCU_GPIO_OUT 4 in
  do* stm32_protocol_send_data (splice (splice gpio_out 1 hdr) 9 (le_split 4 out)) 15;
  ret tt.

(** ** The link to the application *)

Definition scorpion_protocol_build_header (msg_id msg_len : Z) : prog world (list Z) :=
  let* n := gets apk_msg_seq_number in
  do* modify (set_apk_seq (u32 (n + 1)));
  ret (header_bytes (u16 msg_id) (u16 msg_len) (u16 n)).

(** [exit(0)] when the peer is gone. *)
Definition scorpion_socket_send (buff : list Z) (len : Z) : prog world Z :=
  let data := take (Z.to_nat len) buff in
  let* size := ask (fun t => env_send t data) in
  do* do_effect (SockSend data);
  if size =? -1 then do* do_effect SockClose; exit 0 else ret size.

Definition scorpion_protocol_send_data (buf : list Z) (len : Z) : prog world Z :=
  protocol_send_data scorpion_socket_send buf len.

Definition scorpion_protocol_send_ack (header : list Z) (result : Z) : prog world unit :=
  let* ack := uninit 16 in
  let* hdr := scorpion_protocol_build_header SCORPION2APK_GENERAL_ACK 5 in
  let* body := lift OutOfBounds (protocol_build_ack header result) in
  do* scorpion_protocol_send_data (splice (splice ack 1 hdr) 9 body) 16;
  ret tt.

Definition scorpion_report_eval_in (eval : Z) : prog world unit :=
  let* protocol_eval_in := uninit 12 in
  let* hdr := scorpion_protocol_build_header SCORPION2APK_EVAL_IN 1 in
  do* scorpion_protocol_send_data (splice (splice protocol_eval_in 1 hdr) 9 [u8 eval]) 12;
  ret tt.

Definition scorpion_report_volumn_in (volumn : Z) : prog world unit :=
  let* protocol_volumn := uninit 12 in
  let* hdr := scorpion_protocol_build_header SCORPION2APK_VOLUMN_IN 1 in
  do* scorpion_protocol_send_data (splice (splice protocol_volumn 1 hdr) 9 [u8 volumn]) 12;
  ret tt.

Definition scorpion_report_gpio_in (gpio_in : Z) : prog world unit :=
  let* protocol_gpio_in := uninit 15 in
  let* hdr := scorpion_protocol_build_header SCORPION2APK_GPIO_IN 4 in
  do* scorpion_protocol_send_data
    (splice (splice protocol_gpio_in 1 hdr) 9 (le_split 4 gpio_in)) 15;
  ret tt.

(** [msg_gpio_in_t] of an event: [1 << index] and [level << index], cut to 16
    bits; [index] is unsigned, and a shift by 32 or more is undefined. *)
Definition protocol_build_gpio_in (index level : Z) : option (list Z) :=
  if index <? 32 then
    Some (le_split 2 (Z.shiftl 1 index) ++ le_split 2 (u32 (Z.shiftl level index)))
  else None.

Definition scorpion_report_event_in (index level : Z) : prog world unit :=
  let* protocol_gpio_in := uninit 15 in
  let* hdr := scorpion_protocol_build_header SCORPION2APK_EVENT_IN 4 in
  let* body := lift BadShift (protocol_build_gpio_in index level) in
  do* scorpion_protocol_send_data (splice (splice protocol_gpio_in 1 hdr) 9 body) 15;
  ret tt.

End Link.

(** ** The abstract state *)

Record aworld := mkA {
  a_time : nat;
  a_apk : Z;            (* messages sent to the application, modulo 2^32 *)
  a_mcu : Z;            (* messages sent to the microcontroller, modulo 2^32 *)
  a_count : Z;
  a_threhold : Z;
  a_fd : Z;
  a_rx : list Z;        (* received and not yet treated *)
  a_tx : list Z;        (* accepted and not yet written to the UART *)
  a_trace : list effect
}.

Definition queue_of (p : option CircleBufferMngr) : list Z :=
  match p with None => [] | Some m => contents m end.

Definition abs (w : world) : aworld :=
  mkA (w_time w) (apk_msg_seq_number w) (mcu_msg_seq_number w)
    (scorpion_heart_beat_count w) (scorpion_heart_beat_threhold w) (uart_fd w)
    (queue_of (ppmngr_read w)) (queue_of (ppmngr_write w)) (w_trace w).

(** The invariant of the running daemon. *)
Record ok (w : world) : Prop := {
  ok_fd : 0 <= uart_fd w;
  ok_apk : 0 <= apk_msg_seq_number w < 2 ^ 32;
  ok_mcu : 0 <= mcu_msg_seq_number w < 2 ^ 32;
  ok_count : 0 <= scorpion_heart_beat_count w < 2 ^ 32;
  ok_threhold : 0 < scorpion_heart_beat_threhold w < 2 ^ 32;
  ok_read : exists m, ppmngr_read w = Some m /\ cb_ok m /\ buflen m = MAX_UART_BUFF_SIZE;
  ok_write : exists m, ppmngr_write w = Some m /\ cb_ok m /\ buflen m = MAX_UART_BUFF_SIZE
}.

(** A run of the code and a run of the specification that agree; the
    specification faults where the code does. *)
Definition refines {A} (r : result world A) (r' : result aworld A) : Prop :=
  match r, r' with
  | Ret a w, Ret a' w' => a = a' /\ ok w /\ abs w = w'
  | Exit n w, Exit n' w' => n = n' /\ ok w /\ abs w = w'
  | Fault f w, Fault f' w' => f = f' /\ ok w /\ abs w = w'
  | _, _ => False
  end.

Definition implements {A} (c : prog world A) (s : prog aworld A) : Prop :=
  forall w, ok w -> refines (c w) (s (abs w)).

(** What a run that returned shows of its final state. *)
Definition observe {A B} (obs : A -> aworld -> B) (r : result aworld A) : option B :=
  match r with Ret x a => Some (obs x a) | _ => None end.

Lemma refines_observe {A B} (obs : A -> aworld -> B) (r : result world A) (r' : result aworld A) v :
  refines r r' -> observe obs r' = Some v ->
  match r with Ret x w => obs x (abs w) = v | _ => False end.
Proof.
  destruct r, r'; simpl; try done. intros (-> & _ & ->) E. congruence.
Qed.

Definition a_tick (a : aworld) : aworld :=
  mkA (S (a_time a)) (a_apk a) (a_mcu a) (a_count a) (a_threhold a) (a_fd a)
      (a_rx a) (a_tx a) (a_trace a).
Definition a_emit (e : effect) (a : aworld) : aworld :=
  mkA (a_time a) (a_apk a) (a_mcu a) (a_count a) (a_threhold a) (a_fd a)
      (a_rx a) (a_tx a) (a_trace a ++ [e]).
Definition a_set_apk (n : Z) (a : aworld) : aworld :=
  mkA (a_time a) n (a_mcu a) (a_count a) (a_threhold a) (a_fd a)
      (a_rx a) (a_tx a) (a_trace a).
Definition a_set_mcu (n : Z) (a : aworld) : aworld :=
  mkA (a_time a) (a_apk a) n (a_count a) (a_threhold a) (a_fd a)
      (a_rx a) (a_tx a) (a_trace a).
Definition a_set_heart_beat (c t : Z) (a : aworld) : aworld :=
  mkA (a_time a) (a_apk a) (a_mcu a) c t (a_fd a) (a_rx a) (a_tx a) (a_trace a).
Definition a_set_rx (q : list Z) (a : aworld) : aworld :=
  mkA (a_time a) (a_apk a) (a_mcu a) (a_count a) (a_threhold a) (a_fd a)
      q (a_tx a) (a_trace a).
Definition a_set_tx (q : list Z) (a : aworld) : aworld :=
  mkA (a_time a) (a_apk a) (a_mcu a) (a_count a) (a_threhold a) (a_fd a)
      (a_rx a) q (a_trace a).

Section Spec.
Context `{Env}.

Definition a_ask {A} (f : nat -> A) : prog aworld A :=
  fun a => Ret (f (a_time a)) (a_tick a).

(** The message [msg] as the microcontroller sees it: the header with the
    next serial number, the body. *)
Definition message (id : Z) (body : list Z) (serial : Z) : list Z :=
  header_bytes id (zlen body) (u16 serial) ++ body.

(** Queue the wire form of [p] for the UART; drop it when there is no memory
    or no room for all of it. *)
Definition a_uart (p : list Z) : prog aworld unit :=
  let* nb := a_ask (fun t => env_malloc t ((zlen p + 3) * 2)) in
  match nb with
  | None => ret tt
  | Some _ =>
      let* a := get in
      if zlen (a_tx a) + zlen (wire p) <=? MAX_UART_BUFF_SIZE
      then modify (fun a => a_emit CondSignal (a_set_tx (a_tx a ++ wire p) a))
      else ret tt
  end.

Definition a_send_mcu (id : Z) (body : list Z) : prog aworld unit :=
  do* a_ask (fun _ => tt);
  let* a := get in
  do* modify (a_set_mcu (u32 (a_mcu a + 1)));
  a_uart (message id body (a_mcu a)).

(** Write the wire form of [p] to the socket; the daemon ends when the peer
    is gone, and the message is dropped when there is no memory. *)
Definition a_socket (p : list Z) : prog aworld unit :=
  let* nb := a_ask (fun t => env_malloc t ((zlen p + 3) * 2)) in
  match nb with
  | None => ret tt
  | Some _ =>
      let* size := a_ask (fun t => env_send t (wire p)) in
      do* modify (a_emit (SockSend (wire p)));
      if size =? -1 then do* modify (a_emit SockClose); exit 0 else ret tt
  end.

Definition a_send_apk (id : Z) (body : list Z) : prog aworld unit :=
  do* a_ask (fun _ => tt);
  let* a := get in
  do* modify (a_set_apk (u32 (a_apk a + 1)));
  a_socket (message id body (a_apk a)).

(** ** Lemmas: the refinement *)

Lemma refines_bind {A B} (c : prog world A) (c' : prog aworld A)
    (k : A -> prog world B) (k' : A -> prog aworld B) w a :
  refines (c w) (c' a) ->
  (forall x w1, ok w1 -> refines (k x w1) (k' x (abs w1))) ->
  refines (bind c k w) (bind c' k' a).
Proof.
  intros Hc Hk. unfold bind. destruct (c w), (c' a); simpl in *; try done.
  destruct Hc as (-> & Hok & <-). by apply Hk.
Qed.

Lemma implements_bind {A B} (c : prog world A) c' (k : A -> prog world B) k' :
  implements c c' -> (forall x, implements (k x) (k' x)) -> implements (bind c k) (bind c' k').
Proof. intros Hc Hk w Hw. apply refines_bind; [by apply Hc|]. intros. by apply Hk. Qed.

Lemma implements_ret {A} (x : A) : implements (ret x) (ret x).
Proof. intros w Hw. simpl. auto. Qed.

Lemma implements_fault {A} f : implements (A := A) (fault_with f) (fault_with f).
Proof. intros w Hw. simpl. auto. Qed.

Lemma implements_lift {A} f (o : option A) : implements (lift f o) (lift f o).
Proof. destruct o; [apply implements_ret|apply implements_fault]. Qed.

Lemma bind_a_ask {A B} (f : nat -> A) (k : A -> prog aworld B) a :
  bind (a_ask f) k a = k (f (a_time a)) (a_tick a).
Proof. reflexivity. Qed.

Lemma ok_tick w : ok w -> ok (tick w).
Proof. intros []; by split. Qed.

Lemma ok_emit e w : ok w -> ok (emit e w).
Proof. intros []; by split. Qed.

Lemma u32_range z : 0 <= u32 z < 2 ^ 32.
Proof. apply Z.mod_pos_bound. lia. Qed.

Lemma implements_ask {A} (f : nat -> A) : implements (ask f) (a_ask f).
Proof. intros w Hw. split_and!; [done|by apply ok_tick|done]. Qed.

Lemma implements_effect e : implements (do_effect e) (modify (a_emit e)).
Proof. intros w Hw. split_and!; [done|by apply ok_emit|done]. Qed.

End Spec.

Lemma ok_tx w : ok w -> exists m, tx_ok w m /\ queue_of (ppmngr_write w) = contents m.
Proof. intros [? ? ? ? ? ? (m & E & Hm & Hl)]. exists m. rewrite E. by split. Qed.

Lemma length_header id len n : length (header_bytes id len n) = 8%nat.
Proof. unfold header_bytes. rewrite !length_app, !length_le_split. done. Qed.

Lemma bytes_header id len n : bytes (header_bytes id len n).
Proof.
  unfold header_bytes. rewrite !bytes_app. split_and!; try apply bytes_le_split.
  repeat constructor; lia.
Qed.

Lemma zlen_message id body n : zlen (message id body n) = zlen body + 8.
Proof. unfold message. rewrite zlen_app. unfold zlen. rewrite length_header. lia. Qed.

Lemma bytes_message id body n : bytes body -> bytes (message id body n).
Proof. intros. apply bytes_app. split; [apply bytes_header|done]. Qed.

(** A packet struct with its header and its body stored. *)
Lemma packet_shape raw hdr body :
  length hdr = 8%nat -> zlen raw = zlen body + 11 ->
  exists u v w, splice (splice raw 1 hdr) 9 body = u :: (hdr ++ body) ++ [v; w].
Proof.
  intros Hh Hr. unfold zlen in Hr.
  replace 9%nat with (1 + length hdr)%nat by lia. rewrite splice_app by lia.
  unfold splice. destruct raw as [|u raw]; [simpl in Hr; lia|]. cbn [take].
  cbn [length] in Hr.
  destruct (drop (1 + length (hdr ++ body)) (u :: raw)) as [|v [|w [|]]] eqn:E;
    apply (f_equal length) in E; rewrite length_drop, length_app in E; simpl in E; try lia.
  exists u, v, w. done.
Qed.
#[export] Hint Resolve ok_tick ok_emit bytes_header bytes_message : x300.

Section SendFacts.
Context `{Env}.

(** The two devices behind the senders. *)
Lemma uart_device_refines p slack w :
  ok w -> zlen p + 3 < 2 ^ 20 ->
  refines ((do* scorpion_uart_send (wire p ++ slack) (zlen (wire p)); ret tt) w)
          ((let* a := get in
            if zlen (a_tx a) + zlen (wire p) <=? MAX_UART_BUFF_SIZE
            then modify (fun a => a_emit CondSignal (a_set_tx (a_tx a ++ wire p) a))
            else ret tt) (abs w)).
Proof.
  intros Hw Hlen. destruct (ok_tx w Hw) as (m & Htx & Eq).
  pose proof (wire_frame_length p (xor_all p)) as HW. fold (wire p) in HW.
  pose proof (uart_send_spec w m (wire p) slack Htx ltac:(lia)) as S.
  rewrite bind_get. cbn [a_tx abs]. rewrite Eq.
  destruct (_ <=? _).
  - destruct S as (m' & E & Htx' & Hc). unfold bind. rewrite E.
    destruct Hw, Htx'. split_and!; [done| |].
    + split; simpl; eauto.
    + unfold abs, modify, a_emit, a_set_tx. simpl. by rewrite Hc, Eq.
  - unfold bind. rewrite S. simpl. auto.
Qed.

Lemma socket_device_refines p slack :
  implements (do* scorpion_socket_send (wire p ++ slack) (zlen (wire p)); ret tt)
             (let* size := a_ask (fun t => env_send t (wire p)) in
              do* modify (a_emit (SockSend (wire p)));
              if size =? -1 then do* modify (a_emit SockClose); exit 0 else ret tt).
Proof.
  intros w Hw. unfold scorpion_socket_send. rewrite take_zlen. run.
  change (bind (a_ask ?f) ?k (abs w)) with (k (f (w_time w)) (abs (tick w))). cbv beta.
  change (bind (modify (a_emit ?e)) ?k (abs (tick w))) with (k tt (abs (emit e (tick w)))).
  cbv beta. destruct (_ =? -1); (split_and!; [done|simpl; auto with x300|done]).
Qed.

(** [*_protocol_send_data] on a packet whose header and body are stored. *)
Lemma packet_refines send raw hdr body w (dev : prog aworld unit) :
  length hdr = 8%nat -> bytes hdr -> bytes body -> zlen body < 2 ^ 16 ->
  zlen raw = zlen body + 11 -> ok w ->
  (forall slack w, ok w ->
     refines ((do* send (wire (hdr ++ body) ++ slack) (zlen (wire (hdr ++ body))); ret tt) w)
             (dev (abs w))) ->
  refines ((do* protocol_send_data send (splice (splice raw 1 hdr) 9 body) (zlen body + 11);
            ret tt) w)
    ((let* nb := a_ask (fun t => env_malloc t ((zlen (hdr ++ body) + 3) * 2)) in
      match nb with None => ret tt | Some _ => dev end) (abs w)).
Proof.
  intros Hh Bh Bb Hlen Hraw Hw Hdev. pose proof (zlen_nonneg body).
  destruct (packet_shape raw hdr body Hh Hraw) as (u & v & x & ->).
  assert (zlen (hdr ++ body) = zlen body + 8) as HZ by (rewrite zlen_app; unfold zlen; lia).
  replace (zlen body + 11) with (zlen (hdr ++ body) + 3) by lia.
  unfold bind at 1. rewrite send_data_wire; [|apply bytes_app; auto|lia].
  cbn [malloc world_heap]. rewrite bind_ask, bind_a_ask.
  change (a_time (abs w)) with (w_time w).
  destruct (env_malloc _ _) as [c|]; [|simpl; auto with x300].
  specialize (Hdev (drop (length (wire (hdr ++ body))) c) (tick w) (ok_tick w Hw)).
  unfold bind in *. by destruct (send _ _ (tick w)).
Qed.

Lemma stm32_packet_refines raw id body w n :
  bytes body -> zlen body < 2 ^ 16 -> zlen raw = zlen body + 11 -> ok w ->
  refines ((do* stm32_protocol_send_data
              (splice (splice raw 1 (header_bytes id (zlen body) (u16 n))) 9 body)
              (zlen body + 11); ret tt) w)
          (a_uart (message id body n) (abs w)).
Proof.
  intros Bb Hlen Hraw Hw. pose proof (zlen_message id body n).
  apply packet_refines; [apply length_header|apply bytes_header|done..|].
  intros slack w' Hw'. apply uart_device_refines; [done|]. unfold message in *. lia.
Qed.

Lemma scorpion_packet_refines raw id body w n :
  bytes body -> zlen body < 2 ^ 16 -> zlen raw = zlen body + 11 -> ok w ->
  refines ((do* scorpion_protocol_send_data
              (splice (splice raw 1 (header_bytes id (zlen body) (u16 n))) 9 body)
              (zlen body + 11); ret tt) w)
          (a_socket (message id body n) (abs w)).
Proof.
  intros Bb Hlen Hraw Hw. 
  apply packet_refines; [apply length_header|apply bytes_header|done..|].
  intros slack w' Hw'. by apply socket_device_refines.
Qed.

Lemma ok_set_mcu w : ok w -> ok (set_mcu_seq (u32 (mcu_msg_seq_number w + 1)) w).
Proof. intros []; split; auto. apply u32_range. Qed.

Lemma ok_set_apk w : ok w -> ok (set_apk_seq (u32 (apk_msg_seq_number w + 1)) w).
Proof. intros []; split; auto. apply u32_range. Qed.

(** Every message function has this shape. *)
Lemma stm32_send_refines id body :
  0 <= id < 65536 -> bytes body -> zlen body < 2 ^ 16 ->
  implements
    (let* raw := uninit (zlen body + 11) in
     let* hdr := stm32_protocol_build_header id (zlen body) in
     do* stm32_protocol_send_data (splice (splice raw 1 hdr) 9 body) (zlen body + 11);
     ret tt)
    (a_send_mcu id body).
Proof.
  intros Hid Hb Hl w Hw. pose proof (zlen_nonneg body).
  unfold uninit, stm32_protocol_build_header. run. rewrite !u16_id with (z := id) by lia.
  rewrite u16_id with (z := zlen body) by lia.
  apply (stm32_packet_refines _ id body (set_mcu_seq _ (tick w)));
    [done|done|apply env_stack_len; lia|apply (ok_set_mcu (tick w)); by apply ok_tick].
Qed.

Lemma scorpion_send_refines id body :
  0 <= id < 65536 -> bytes body -> zlen body < 2 ^ 16 ->
  implements
    (let* raw := uninit (zlen body + 11) in
     let* hdr := scorpion_protocol_build_header id (zlen body) in
     do* scorpion_protocol_send_data (splice (splice raw 1 hdr) 9 body) (zlen body + 11);
     ret tt)
    (a_send_apk id body).
Proof.
  intros Hid Hb Hl w Hw. pose proof (zlen_nonneg body).
  unfold uninit, scorpion_protocol_build_header. run. rewrite !u16_id with (z := id) by lia.
  rewrite u16_id with (z := zlen body) by lia.
  apply (scorpion_packet_refines _ id body (set_apk_seq _ (tick w)));
    [done|done|apply env_stack_len; lia|apply (ok_set_apk (tick w)); by apply ok_tick].
Qed.

Lemma bytes_one z : bytes [u8 z].
Proof. repeat constructor; apply u8_byte. Qed.

(** The shape of a message without a body. *)
Lemma stm32_send_empty_refines id :
  0 <= id < 65536 ->
  implements
    (let* raw := uninit 11 in
     let* hdr := stm32_protocol_build_header id 0 in
     do* stm32_protocol_send_data (splice raw 1 hdr) 11;
     ret tt)
    (a_send_mcu id []).
Proof.
  intros Hid w Hw.
  pose proof (stm32_send_refines id [] Hid ltac:(constructor) ltac:(reflexivity) w Hw) as R.
  revert R. unfold uninit, stm32_protocol_build_header. run. by rewrite splice_nil.
Qed.

Lemma stm32_send_reboot_refines : implements stm32_send_reboot (a_send_mcu SYSTEM2MCU_REBOOT []).
Proof. by apply stm32_send_empty_refines. Qed.

Lemma stm32_send_heart_beat_refines :
  implements stm32_send_heart_beat (a_send_mcu SYSTEM2MCU_HEART_BEAT []).
Proof. by apply stm32_send_empty_refines. Qed.

Lemma stm32_send_version_req_refines :
  implements stm32_send_version_req (a_send_mcu SYSTEM2MCU_VERSION_REQ []).
Proof. by apply stm32_send_empty_refines. Qed.

Lemma stm32_send_delay_time_refines delay :
  implements (stm32_send_delay_time delay) (a_send_mcu SYSTEM2MCU_DELAY_TIME (le_split 4 delay)).
Proof. by apply (stm32_send_refines _ (le_split 4 delay)); [|apply bytes_le_split|]. Qed.

Lemma scorpion_report_eval_in_refines eval :
  implements (scorpion_report_eval_in eval) (a_send_apk SCORPION2APK_EVAL_IN [u8 eval]).
Proof. by apply (scorpion_send_refines _ [u8 eval]); [|apply bytes_one|]. Qed.

Lemma scorpion_report_volumn_in_refines volumn :
  implements (scorpion_report_volumn_in volumn) (a_send_apk SCORPION2APK_VOLUMN_IN [u8 volumn]).
Proof. by apply (scorpion_send_refines _ [u8 volumn]); [|apply bytes_one|]. Qed.

Lemma scorpion_report_gpio_in_refines gpio :
  implements (scorpion_report_gpio_in gpio) (a_send_apk SCORPION2APK_GPIO_IN (le_split 4 gpio)).
Proof. by apply (scorpion_send_refines _ (le_split 4 gpio)); [|apply bytes_le_split|]. Qed.

(** The body of an acknowledgement: serial number, identifier, result. *)
Definition ack_body (id serial result : Z) : list Z :=
  le_split 2 serial ++ le_split 2 id ++ [u8 result].

Lemma bytes_ack id serial result : bytes (ack_body id serial result).
Proof.
  unfold ack_body. rewrite !bytes_app. split_and!; try apply bytes_le_split. apply bytes_one.
Qed.

(** Fields of a received message [p] (header and body). *)
Definition msg_id (p : list Z) : Z := le_combine (take 2 p).
Definition msg_serial (p : list Z) : Z := le_combine (take 2 (drop 4 p)).
Definition msg_body (p : list Z) : list Z := drop 8 p.

Lemma message_fields id body n :
  0 <= id < 65536 ->
  msg_id (message id body n) = id /\ msg_serial (message id body n) = u16 n /\
  msg_body (message id body n) = body.
Proof.
  intros Hid. unfold message, msg_id, msg_serial, msg_body, header_bytes.
  assert (forall z, le_combine (le_split 2 z) = z mod 65536) as LE
    by (intros; apply le_combine_split).
  split_and!; [etransitivity; [apply (LE id)|by apply Z.mod_small]| |done].
  etransitivity; [apply (LE (u16 n))|]. apply Z.mod_mod. lia.
Qed.

Lemma build_ack_spec p rest result :
  HEADER_SIZE <= zlen p ->
  protocol_build_ack (p ++ rest) result = Some (ack_body (msg_id p) (msg_serial p) result).
Proof.
  unfold HEADER_SIZE. intros Hp. unfold protocol_build_ack.
  rewrite !load_le_prefix by lia. done.
Qed.

Lemma stm32_send_ack_refines p rest result :
  HEADER_SIZE <= zlen p ->
  implements (stm32_protocol_send_ack (p ++ rest) result)
             (a_send_mcu SYSTEM2MCU_GENERAL_ACK (ack_body (msg_id p) (msg_serial p) result)).
Proof.
  intros Hp w Hw. unfold stm32_protocol_send_ack. rewrite build_ack_spec by done.
  exact (stm32_send_refines SYSTEM2MCU_GENERAL_ACK (ack_body (msg_id p) (msg_serial p) result)
    ltac:(unfold SYSTEM2MCU_GENERAL_ACK; lia) (bytes_ack _ _ _) ltac:(reflexivity) w Hw).
Qed.

Lemma scorpion_send_ack_refines p rest result :
  HEADER_SIZE <= zlen p ->
  implements (scorpion_protocol_send_ack (p ++ rest) result)
             (a_send_apk SCORPION2APK_GENERAL_ACK (ack_body (msg_id p) (msg_serial p) result)).
Proof.
  intros Hp w Hw. unfold scorpion_protocol_send_ack. rewrite build_ack_spec by done.
  exact (scorpion_send_refines SCORPION2APK_GENERAL_ACK (ack_body (msg_id p) (msg_serial p) result)
    ltac:(unfold SCORPION2APK_GENERAL_ACK; lia) (bytes_ack _ _ _) ltac:(reflexivity) w Hw).
Qed.

(** Fields of an unstuffed frame at their offsets. *)
Lemma frame_fields p x junk :
  HEADER_SIZE <= zlen p ->
  let buf := frame_x p x ++ junk in
  load_le buf 1 2 = Some (msg_id p) /\
  (exists len, load_le buf 3 2 = Some len) /\
  load_le buf 5 2 = Some (msg_serial p) /\
  drop 1 buf = p ++ [x; MAGIC_CHAR] ++ junk /\
  drop 9 buf = msg_body p ++ [x; MAGIC_CHAR] ++ junk /\
  zlen buf = zlen (msg_body p) + 11 + zlen junk.
Proof.
  intros Hp buf. unfold HEADER_SIZE in Hp. subst buf.
  assert (frame_x p x ++ junk = (MAGIC_CHAR :: p) ++ [x; MAGIC_CHAR] ++ junk) as ->
    by (unfold frame_x; cbn [app]; by rewrite <- app_assoc).
  rewrite !load_le_prefix by (rewrite ?zlen_cons; lia). split_and!; try done; eauto.
  - unfold msg_body. cbn [app drop]. rewrite drop_app_le by (unfold zlen in *; lia). done.
  - unfold msg_body. rewrite !zlen_app, zlen_cons. unfold zlen in *. len.
Qed.

(** Messages delivered one after the other, on the abstract state. *)
Fixpoint a_deliver (act : list Z -> prog aworld unit) (fs : list item) : prog aworld bool :=
  match fs with
  | [] => ret true
  | mkItem _ p x :: fs' =>
      let* nb := a_ask (fun t => env_malloc t (zlen (wire_x p x))) in
      match nb with
      | None => ret false
      | Some _ =>
          do* (if x =? xor_all p then act p else ret tt);
          a_deliver act fs'
      end
  end.

Lemma deliver_refines parse act fs :
  (forall f junk, f ∈ fs -> it_check f = xor_all (it_msg f) ->
     implements (parse (mkBuff (frame (it_msg f) ++ junk) (zlen (frame (it_msg f)))))
                (act (it_msg f))) ->
  implements (deliver parse fs) (a_deliver act fs).
Proof.
  induction fs as [|[n p x] fs IH]; intros Hp; [apply implements_ret|].
  cbn [deliver a_deliver]. apply implements_bind; [apply implements_ask|].
  intros [c|]; [|apply implements_ret]. apply implements_bind.
  - unfold checked. destruct (x =? xor_all p) eqn:E; [|apply implements_ret]. bool_cases. subst x.
    apply (Hp (mkItem n p (xor_all p))); [left|done].
  - intros _. apply IH. intros f junk Hf. apply Hp. by right.
Qed.

(** The receiver of either link on a stream of frames. *)
Lemma stream_refines parse act fs q y k slack :
  Forall good_frame fs -> (k < length (wire_x q y))%nat ->
  zlen (stream_bytes fs) + Z.of_nat k < 2 ^ 31 ->
  (forall f junk, f ∈ fs -> it_check f = xor_all (it_msg f) ->
     implements (parse (mkBuff (frame (it_msg f) ++ junk) (zlen (frame (it_msg f)))))
                (act (it_msg f))) ->
  implements (protocol_ayalyze parse (stream_bytes fs ++ take k (wire_x q y) ++ slack)
                               (zlen (stream_bytes fs) + Z.of_nat k))
             (let* good := a_deliver act fs in
              if good then ret (zlen (stream_bytes fs)) else ret (-1)).
Proof.
  intros Hfs Hk Hlen Hp w Hw.
  assert (Z.of_nat k = zlen (take k (wire_x q y))) as Ek by (unfold zlen; len).
  rewrite Ek in *. rewrite ayalyze_stream; [|done|by apply prefix_partial|done].
  apply refines_bind; [by apply deliver_refines|].
  intros [] w1 Hw1; by apply implements_ret.
Qed.

Lemma residue_refines parse act fs tl r slack :
  Forall good_frame fs -> residue tl r ->
  zlen (stream_bytes fs) + zlen tl < 2 ^ 31 ->
  (forall f junk, f ∈ fs -> it_check f = xor_all (it_msg f) ->
     implements (parse (mkBuff (frame (it_msg f) ++ junk) (zlen (frame (it_msg f)))))
                (act (it_msg f))) ->
  implements (protocol_ayalyze parse (stream_bytes fs ++ tl ++ slack)
                               (zlen (stream_bytes fs) + zlen tl))
             (let* good := a_deliver act fs in
              if good then ret (zlen (stream_bytes fs) + zlen tl - zlen r) else ret (-1)).
Proof.
  intros Hfs Hr Hlen Hp w Hw. rewrite (ayalyze_residue _ _ _ r) by done.
  apply refines_bind; [by apply deliver_refines|].
  intros [] w1 Hw1; by apply implements_ret.
Qed.

(** The body of an event: the bit of its channel and its level in that bit,
    both cut to 16 bits. *)
Definition event_body (index level : Z) : list Z :=
  le_split 2 (Z.shiftl 1 index) ++ le_split 2 (u32 (Z.shiftl level index)).

Lemma scorpion_report_event_in_refines index level :
  0 <= index ->
  implements (scorpion_report_event_in index level)
    (if index <? 32 then a_send_apk SCORPION2APK_EVENT_IN (event_body index level)
     else do* a_ask (fun _ => tt); let* a := get in
          do* modify (a_set_apk (u32 (a_apk a + 1))); fault_with BadShift).
Proof.
  intros Hi w Hw. unfold scorpion_report_event_in, protocol_build_gpio_in.
  destruct (index <? 32).
  - pose proof (scorpion_send_refines SCORPION2APK_EVENT_IN (event_body index level)
      ltac:(unfold SCORPION2APK_EVENT_IN; lia)
      ltac:(unfold event_body; apply bytes_app; split; apply bytes_le_split)
      ltac:(reflexivity) w Hw) as R. exact R.
  - unfold uninit, scorpion_protocol_build_header. run. split_and!; [done| |done].
    apply (ok_set_apk (tick w)). by apply ok_tick.
Qed.

End SendFacts.

(** ** What is sent *)

(** The messages to the microcontroller.  Each sending function puts one
    well-formed message with its own identifier, its own body and the next
    16-bit serial number on the transmit queue, in its wire form, behind
    what is queued already; it is dropped as a whole when there is no memory
    or no room.  Nothing else of the daemon's state changes, and no access
    leaves the packet. *)
Theorem stm32_messages `{Env} w delay out channel :
  ok w ->
  refines (stm32_send_heart_beat w) (a_send_mcu SYSTEM2MCU_HEART_BEAT [] (abs w)) /\
  refines (stm32_send_version_req w) (a_send_mcu SYSTEM2MCU_VERSION_REQ [] (abs w)) /\
  refines (stm32_send_reboot w) (a_send_mcu SYSTEM2MCU_REBOOT [] (abs w)) /\
  refines (stm32_send_gpio_in_req w) (a_send_mcu SYSTEM2MCU_GPIO_IN_REQ [] (abs w)) /\
  refines (stm32_send_adc_req channel w) (a_send_mcu SYSTEM2MCU_ADC_REQ [u8 channel] (abs w)) /\
  refines (stm32_send_gpio_out out w) (a_send_mcu SYSTEM2MCU_GPIO_OUT (le_split 4 out) (abs w)) /\
  refines (stm32_send_delay_time delay w)
          (a_send_mcu SYSTEM2MCU_DELAY_TIME (le_split 4 delay) (abs w)).
Proof.
  intros Hw. split_and!.
  - by apply stm32_send_heart_beat_refines.
  - by apply stm32_send_version_req_refines.
  - by apply stm32_send_reboot_refines.
  - by apply stm32_send_empty_refines.
  - by apply (stm32_send_refines _ [u8 channel]); [|apply bytes_one| |].
  - by apply (stm32_send_refines _ (le_split 4 out)); [|apply bytes_le_split| |].
  - by apply stm32_send_delay_time_refines.
Qed.

Lemma world0_ok : ok Demo.world0.
Proof.
  split; simpl; try lia; (eexists; split; [reflexivity|split; [|reflexivity]]);
    (split; simpl; try lia; reflexivity).
Qed.

Lemma stm32_messages_witness :
  match stm32_send_delay_time (H := Demo.demo_env) 126 Demo.world0 with
  | Ret _ w => a_tx (abs w) = wire (message 9 [126; 0; 0; 0] 0)
  | _ => False
  end.
Proof.
  destruct (stm32_messages (H := Demo.demo_env) Demo.world0 126 0 0 world0_ok)
    as (_ & _ & _ & _ & _ & _ & R).
  apply (refines_observe (fun _ => a_tx) _ _ _ R). vm_compute. reflexivity.
Defined.

(** The reports to the application.  Each report sends one well-formed
    message with the next 16-bit serial number on the socket, in its wire
    form; it is dropped when there is no memory, and the daemon exits when
    the peer is gone. *)
Theorem scorpion_reports `{Env} w eval volumn gpio :
  ok w ->
  refines (scorpion_report_eval_in eval w) (a_send_apk SCORPION2APK_EVAL_IN [u8 eval] (abs w)) /\
  refines (scorpion_report_volumn_in volumn w)
          (a_send_apk SCORPION2APK_VOLUMN_IN [u8 volumn] (abs w)) /\
  refines (scorpion_report_gpio_in gpio w)
          (a_send_apk SCORPION2APK_GPIO_IN (le_split 4 gpio) (abs w)).
Proof.
  intros Hw. split_and!.
  - by apply scorpion_report_eval_in_refines.
  - by apply scorpion_report_volumn_in_refines.
  - by apply scorpion_report_gpio_in_refines.
Qed.

Lemma scorpion_reports_witness :
  match scorpion_report_gpio_in (H := Demo.demo_env) 258 Demo.world0 with
  | Ret _ w =>
      a_trace (abs w) = [SockSend (wire (message SCORPION2APK_GPIO_IN [2; 1; 0; 0] 0))]
  | _ => False
  end.
Proof.
  destruct (scorpion_reports (H := Demo.demo_env) Demo.world0 0 0 258 world0_ok) as (_ & _ & R).
  apply (refines_observe (fun _ => a_trace) _ _ _ R). vm_compute. reflexivity.
Defined.
