(* ===== verification/Apk.v ===== *)
(** * The application side of the daemon

    [external/scorpion/scorpion_protocol.c] and the handlers of the messages
    the application sends: heart beat ([scorpion_protocol_heart_beat.c]),
    delay time ([scorpion_protocol_delay_time.c]), reboot
    ([scorpion_protocol_reboot.c]) and shell command
    ([scorpion_protocol_shell.c]). *)

From stdpp Require Import base list numbers strings.
From Stdlib Require Import ZArith Lia.
From S2P Require Import Prelude Text CircleBuffer Misc Codec World Uart Link.
Open Scope Z_scope.

(** The framing of [scorpion_protocol.c] is the common one. *)
Definition scorpion_protocol_escape := protocol_escape.
Definition scorpion_protocol_unescape := protocol_unescape.
Definition scorpion_find_magic_char := find_magic_char.
Definition scorpion_get_a_full_msg := get_a_full_msg.

Definition DEFAULT_HEART_BEAT_THREHOLD : Z := 100.
Definition MAX_LINE : Z := 512.
Definition LINE_SIZE : Z := 80.

(** ** Command output *)

(** [memset(out, 0, size); strcpy(out, s)]. *)
Definition memset_strcpy (out s : list Z) (size : Z) : option (list Z) :=
  if (size <=? zlen out) && (zlen s + 1 <=? zlen out)
  then Some (splice (splice out 0 (replicate (Z.to_nat size) 0)) 0 (s ++ [0])) else None.

Section Apk.
Context `{Env}.

(** ** The handlers *)

Definition scorpion_reboot : prog world unit := stm32_send_reboot.

(** [buf] is the message from its body on. *)
Definition scorpion_heart_beat (buf : list Z) : prog world unit :=
  let* threhold := lift OutOfBounds (load_le buf 0 4) in
  let* w := get in
  let t := if threhold =? 0 then scorpion_heart_beat_threhold w else threhold in
  modify (set_heart_beat 0 t).

Definition scorpion_heart_beat_treat : prog world unit :=
  let* w := get in
  let count := u32 (scorpion_heart_beat_count w + 1) in
  do* modify (set_heart_beat count (scorpion_heart_beat_threhold w));
  if scorpion_heart_beat_threhold w <? count then scorpion_reboot else ret tt.

Definition scorpion_delay_time_treat (buf : list Z) : prog world unit :=
  let* delay := lift OutOfBounds (load_le buf 0 4) in
  stm32_send_delay_time delay.

(** The [while (fgets(...))] loop of [shell_run]; [size] is an [unsigned
    short].  Every pass takes a byte of the command's output, so [fuel] above
    their number is enough. *)
Fixpoint shell_loop (fuel : nat) (fp out_buf : list Z) (size out_size : Z)
  : prog world (list Z * Z) :=
  match fuel with
  | O => fault_with NoFuel
  | S fuel' =>
      match fp with
      | [] => ret (out_buf, size)
      | _ =>
          let '(line_buf, fp') := fgets (Z.to_nat (LINE_SIZE - 1)) fp in
          let len := zlen (strz line_buf) in
          if out_size - 1 <=? size + u16 len then
            let* o1 := lift OutOfBounds (strncat out_buf line_buf (out_size - 1 - size)) in
            let* o2 := lift OutOfBounds (store8 o1 (out_size - 1) 0) in
            shell_loop fuel' fp' o2 (u16 (out_size - 1)) out_size
          else
            let* o1 := lift OutOfBounds (strncat out_buf line_buf len) in
            shell_loop fuel' fp' o1 (u16 (size + len)) out_size
      end
  end.

(** [shell_run]: the value returned and the contents of [out_buf]. *)
Definition shell_run (in_buf : list Z) (out_buf : option (list Z)) (out_size : Z)
  : prog world (Z * list Z) :=
  let* cmd := lift OutOfBounds (c_string in_buf) in
  let* fp := ask (fun t => env_popen t cmd) in
  do* do_effect (Popen cmd);
  let* out := lift NullDeref out_buf in
  match fp with
  | None =>
      let* o := lift OutOfBounds (memset_strcpy out (str "popen failed!") out_size) in
      ret (zlen (str "popen failed!"), o)
  | Some (output, closed) =>
      let* out0 := lift OutOfBounds (memset_strcpy out [] out_size) in
      let* r := shell_loop (S (length output)) output out0 0 out_size in
      if closed =? -1 then
        let* o := lift OutOfBounds (memset_strcpy (fst r) (str "pclose failed!") out_size) in
        ret (zlen (str "pclose failed!"), o)
      else ret (u16 (snd r + 1), fst r)
  end.

Definition scorpion_shell_respond (buf : list Z) : prog world Z :=
  do* lift OutOfBounds (c_string buf);
  let* new_buf := malloc (MAX_LINE * LINE_SIZE) in
  let* r := shell_run buf new_buf (u16 (MAX_LINE * LINE_SIZE)) in
  let new_len := fst r in
  let shell_rep_len := u16 (new_len + HEADER_SIZE + 3) in
  let* rep := malloc shell_rep_len in
  let* rep := lift NullDeref rep in
  let* hdr := scorpion_protocol_build_header SCORPION2APK_SHELL_REP new_len in
  let* rep := lift OutOfBounds (memcpy rep 1 hdr 0 8) in
  let* rep := lift OutOfBounds (memcpy rep 9 (snd r) 0 new_len) in
  do* scorpion_protocol_send_data rep shell_rep_len;
  ret PROTOCOL_RESULT_OK.

(** ** The dispatcher *)

(** It only logs the acknowledgement, but reads it. *)
Definition scorpion_protocol_common_ack_treat (buf : list Z) : prog world unit :=
  do* lift OutOfBounds (load_le buf 9 2);
  do* lift OutOfBounds (load_le buf 11 2);
  do* lift OutOfBounds (load8 buf 13);
  ret tt.

Definition scorpion_parse_header (msg : buff_mgr_t) : prog world bool :=
  do* lift OutOfBounds (load_le (bm_buf msg) 1 2);
  let* msg_len := lift OutOfBounds (load_le (bm_buf msg) 3 2) in
  do* lift OutOfBounds (load_le (bm_buf msg) 5 2);
  ret (msg_len =? u32 (bm_len msg - HEADER_SIZE - 3)).

Definition scorpion_parse_protocol (msg : buff_mgr_t) : prog world bool :=
  let* msg_no := lift OutOfBounds (load_le (bm_buf msg) 1 2) in
  let body := drop 9 (bm_buf msg) in
  do* (if msg_no =? APK2SCORPION_GENERAL_ACK then
         scorpion_protocol_common_ack_treat (bm_buf msg)
       else if msg_no =? APK2SCORPION_HEART_BEAT then
         do* scorpion_heart_beat body;
         scorpion_protocol_common_ack_treat (bm_buf msg)
       else if msg_no =? APK2SCORPION_DELAY_TIME then
         do* scorpion_delay_time_treat body;
         scorpion_protocol_common_ack_treat (bm_buf msg)
       else if msg_no =? APK2SCORPION_SHELL_REQ then
         do* scorpion_shell_respond body; ret tt
       else if msg_no =? APK2SCORPION_EX_REBOOT then scorpion_reboot
       else ret tt);
  ret true.

Definition b2z (b : bool) : Z := if b then 1 else 0.

(** The [bool] of [scorpion_parse_header] is compared with [< 0]. *)
Definition scorpion_parse_a_full_msg (msg : buff_mgr_t) : prog world Z :=
  let* h := scorpion_parse_header msg in
  let r := b2z h in
  if r <? 0 then ret r
  else let* b := scorpion_parse_protocol msg in ret (b2z b).

Definition scorpion_protocol_ayalyze (buf : list Z) (len : Z) : prog world Z :=
  protocol_ayalyze (fun m => do* scorpion_parse_a_full_msg m; ret tt) buf len.

End Apk.

(** What [shell_run] collects of a command's output: each line of [fgets] up
    to its first NUL. *)
Abbreviation lines_text := (fgets_text (Z.to_nat (LINE_SIZE - 1))).
Definition shell_text (fp : list Z) : list Z := lines_text (length fp) fp.

Lemma shell_text_nul_free fp : nul_free fp -> shell_text fp = fp.
Proof. apply fgets_text_nul_free; [vm_compute; lia|done]. Qed.

Section ShellFacts.
Context `{Env}.

Lemma shell_loop_spec fuel fp cur tl N w :
  (length fp < fuel)%nat -> nul_free cur -> zlen (cur ++ 0 :: tl) = N -> 80 <= N < 65536 ->
  zlen cur <= N - 1 ->
  let res := take (Z.to_nat (N - 1)) (cur ++ lines_text (fuel - 1) fp) in
  exists tl', shell_loop fuel fp (cur ++ 0 :: tl) (zlen cur) N w =
    Ret (res ++ 0 :: tl', zlen res) w /\ zlen (res ++ 0 :: tl') = N.
Proof.
  revert fp cur tl. induction fuel as [|fuel IH]; intros fp cur tl Hf Hc HN Hrange Hcur; [lia|].
  cbn [shell_loop Nat.sub]. rewrite Nat.sub_0_r.
  destruct fp as [|c0 fp0].
  { exists tl. destruct fuel; cbn [fgets_text];
      (rewrite app_nil_r, take_ge by (unfold zlen in *; lia); done). }
  destruct fuel as [|fuel]; [simpl in Hf; lia|].
  cbn [fgets_text]. set (fp := c0 :: fp0) in *. destruct (fgets _ fp) as [line fp'] eqn:E.
  destruct (fgets_spec _ _ _ _ E) as (Es & Hl & Hne).
  specialize (Hne ltac:(done) ltac:(vm_compute; lia)).
  assert (length fp' < S fuel)%nat as Hf'.
  { rewrite Es, length_app in Hf. destruct line; [done|]. simpl in Hf. lia. }
  pose proof (strz_length line) as HL.
  assert (zlen line <= 79) as HL2 by (change (Z.to_nat (LINE_SIZE - 1)) with 79%nat in Hl; unfold zlen; lia).
  pose proof (zlen_nonneg (strz line)). pose proof (zlen_nonneg cur).
  rewrite u16_id by lia. rewrite app_assoc.
  assert (S fuel - 1 = fuel)%nat as Hs by lia.
  assert (zlen (cur ++ 0 :: tl) = zlen cur + zlen tl + 1) as HN' by (rewrite zlen_app, zlen_cons; lia).
  destruct (N - 1 <=? _) eqn:EN; bool_cases.
  - set (k := take (Z.to_nat (N - 1 - zlen cur)) (strz line)).
    assert (zlen k = N - 1 - zlen cur) as Hk by (subst k; unfold zlen in *; len).
    rewrite strncat_spec by (done || lia || (fold k; lia)). fold k. run.
    assert (drop (length k) tl = []) as Ed by (apply drop_ge; unfold zlen in *; lia).
    rewrite Ed. rewrite store8_mid by (rewrite zlen_app; lia). run.
    rewrite u16_id by lia. assert (zlen (cur ++ k) = N - 1) as Hck by (rewrite zlen_app; lia).
    destruct (IH fp' (cur ++ k) []) as (tl' & E1 & E2).
    + lia.
    + apply Forall_app. split; [done|]. apply Forall_take, strz_nul_free.
    + rewrite zlen_app, zlen_cons, zlen_app. change (zlen []) with 0. lia.
    + lia.
    + rewrite zlen_app. lia.
    + exists tl'. cbn zeta in E1, E2 |- *. rewrite Hs in E1, E2.
      rewrite Hck in E1. rewrite E1.
      assert (take (Z.to_nat (N - 1)) ((cur ++ k) ++ lines_text fuel fp') =
              take (Z.to_nat (N - 1)) ((cur ++ strz line) ++ lines_text fuel fp')) as <-.
      { rewrite take_app_length' by (unfold zlen in *; lia).
        rewrite take_app_le by (rewrite length_app; unfold zlen in *; lia).
        rewrite take_app_ge by (unfold zlen in *; lia). f_equal. subst k. f_equal.
        unfold zlen in *. lia. }
      done.
  - rewrite strncat_spec; [|done|lia|rewrite take_ge by (unfold zlen in *; lia); lia].
    rewrite take_ge by (unfold zlen in *; lia). run.
    rewrite u16_id by lia. rewrite <- zlen_app.
    destruct (IH fp' (cur ++ strz line) (drop (length (strz line)) tl)) as (tl' & E1 & E2).
    + lia.
    + apply Forall_app. split; [done|]. apply strz_nul_free.
    + rewrite zlen_app, zlen_cons, zlen_app. unfold zlen in *. len.
    + lia.
    + rewrite zlen_app. lia.
    + exists tl'. cbn zeta in E1, E2 |- *. rewrite Hs in E1, E2. by rewrite E1.
Qed.

Lemma memset_strcpy_spec out s N :
  zlen out = N -> zlen s + 1 <= N ->
  exists tl, memset_strcpy out s N = Some (s ++ 0 :: tl) /\ zlen (s ++ 0 :: tl) = N.
Proof.
  intros Ho Hs. unfold memset_strcpy. pose proof (zlen_nonneg s).
  destruct (_ && _) eqn:E; [|apply andb_false_iff in E as [E|E]; bool_cases; lia].
  eexists (drop (length s + 1) (splice out 0 (replicate (Z.to_nat N) 0))). split.
  - unfold splice at 1. cbn [take app]. rewrite Nat.add_0_l, length_app. cbn [length].
    by rewrite <- app_assoc.
  - rewrite zlen_app, zlen_cons. unfold zlen in *.
    rewrite length_drop, length_splice by (rewrite length_replicate; lia). lia.
Qed.

(** The body of the reply to a shell command: at most 40959 bytes of the
    command's output and a NUL, or a message without NUL. *)
Definition shell_reply (o : option (list Z * Z)) : list Z :=
  match o with
  | None => str "popen failed!"
  | Some (output, closed) =>
      if closed =? -1 then str "pclose failed!"
      else take (Z.to_nat (MAX_LINE * LINE_SIZE - 1)) (shell_text output) ++ [0]
  end.

Lemma shell_reply_length o : 0 < zlen (shell_reply o) <= 40960.
Proof.
  destruct o as [[out c]|]; [|done]. simpl. destruct (c =? -1); [done|].
  rewrite zlen_app. change (zlen [0]) with 1. unfold zlen. rewrite length_take.
  change (Z.to_nat (MAX_LINE * LINE_SIZE - 1)) with (Z.to_nat 40959). lia.
Qed.

Lemma lines_text_bytes fuel fp : bytes fp -> bytes (lines_text fuel fp).
Proof.
  assert (forall l, bytes l -> bytes (strz l)) as HS.
  { intros l. induction 1 as [|c l Hc _ IH]; simpl; [constructor|].
    destruct (c =? 0); constructor; auto. }
  revert fp. induction fuel as [|fuel IH]; intros fp Hf; [constructor|].
  cbn [fgets_text]. destruct fp as [|c fp]; [constructor|].
  destruct (fgets _ _) as [l r] eqn:E. destruct (fgets_spec _ _ _ _ E) as (Es & _ & _).
  rewrite Es in Hf. apply bytes_app in Hf as [H1 H2]. apply bytes_app. auto.
Qed.

Lemma shell_reply_bytes t cmd : bytes (shell_reply (env_popen t cmd)).
Proof.
  destruct (env_popen t cmd) as [[out c]|] eqn:E; [|repeat constructor; lia]. simpl.
  destruct (c =? -1); [repeat constructor; lia|]. apply env_popen_bytes in E.
  apply bytes_app. split; [|repeat constructor; lia].
  by apply Forall_take, lines_text_bytes.
Qed.

Lemma shell_run_spec cmd rest buf w :
  nul_free cmd -> zlen buf = 40960 ->
  let reply := shell_reply (env_popen (w_time w) cmd) in
  exists tl, shell_run (cmd ++ 0 :: rest) (Some buf) 40960 w =
    Ret (zlen reply, reply ++ tl) (emit (Popen cmd) (tick w)) /\ zlen (reply ++ tl) = 40960.
Proof.
  intros Hc Hb reply. unfold shell_run. rewrite c_string_app by done. run.
  subst reply. destruct (env_popen _ cmd) as [[out closed]|]; cbn [shell_reply].
  - destruct (memset_strcpy_spec buf [] 40960 Hb ltac:(done)) as (tl0 & E0 & L0).
    rewrite E0. run. cbn [app] in *.
    destruct (shell_loop_spec (S (length out)) out [] tl0 40960 (emit (Popen cmd) (tick w)))
      as (tl1 & E1 & L1); [lia|constructor|done|lia|done|].
    change (zlen []) with 0 in E1. cbn [app Nat.sub] in E1, L1. rewrite Nat.sub_0_r in *.
    rewrite (bind_Ret _ _ _ _ _ E1). cbn [fst snd].
    destruct (closed =? -1).
    + destruct (memset_strcpy_spec _ (str "pclose failed!") 40960 L1 ltac:(done))
        as (tl2 & E2 & L2).
      rewrite E2. run. exists (0 :: tl2). done.
    + change (MAX_LINE * LINE_SIZE - 1) with (40960 - 1).
      set (t := take _ (lines_text _ _)) in *. fold (shell_text out) in *. fold t.
      assert (zlen t <= 40959) as HT by (subst t; unfold zlen; rewrite length_take; lia).
      pose proof (zlen_nonneg t). rewrite u16_id by lia.
      exists tl1. rewrite <- app_assoc. cbn [app]. split; [|done].
      unfold ret. do 2 f_equal. rewrite zlen_app. done.
  - destruct (memset_strcpy_spec buf (str "popen failed!") 40960 Hb ltac:(done)) as (tl & E & L).
    rewrite E. run. exists (0 :: tl). done.
Qed.

(** What a shell request does. *)
Definition a_shell (cmd : list Z) : prog aworld unit :=
  let* nb := a_ask (fun t => env_malloc t (MAX_LINE * LINE_SIZE)) in
  let* fp := a_ask (fun t => env_popen t cmd) in
  do* modify (a_emit (Popen cmd));
  do* lift NullDeref nb;
  let reply := shell_reply fp in
  let* rep := a_ask (fun t => env_malloc t (zlen reply + 11)) in
  do* lift NullDeref rep;
  let* a := get in
  do* modify (a_set_apk (u32 (a_apk a + 1)));
  a_socket (message SCORPION2APK_SHELL_REP reply (a_apk a)).

Lemma shell_respond_refines cmd rest :
  nul_free cmd ->
  implements (do* scorpion_shell_respond (cmd ++ 0 :: rest); ret tt) (a_shell cmd).
Proof.
  intros Hc w Hw. unfold scorpion_shell_respond, a_shell.
  rewrite c_string_app by done. cbn [malloc world_heap]. run.
  rewrite !bind_a_ask. rewrite bind_modify. change (u16 (MAX_LINE * LINE_SIZE)) with 40960.
  change (a_time (abs w)) with (w_time w). change (a_time (a_tick (abs w))) with (w_time (tick w)).
  destruct (env_malloc (w_time w) _) as [nb|] eqn:E1.
  2: { unfold shell_run. rewrite c_string_app by done. run. split_and!; auto with x300. }
  apply env_malloc_len in E1; [|done].
  destruct (shell_run_spec cmd rest nb (tick w) Hc E1) as (tl & ER & HL).
  rewrite (bind_Ret _ _ _ _ _ ER). cbn [fst snd]. clear ER E1.
  pose proof (shell_reply_bytes (w_time (tick w)) cmd) as HB.
  pose proof (shell_reply_length (env_popen (w_time (tick w)) cmd)) as HR.
  set (reply := shell_reply _) in *. set (w1 := emit _ _).
  assert (ok w1) as Hw1 by (subst w1; auto with x300).
  unfold HEADER_SIZE. rewrite u16_id with (z := zlen reply + 8 + 3) by lia.
  replace (zlen reply + 8 + 3) with (zlen reply + 11) by lia. run.
  rewrite bind_a_ask.
  change (a_time _) with (w_time w1).
  destruct (env_malloc (w_time w1) _) as [rep|] eqn:E2; [|split_and!; auto with x300].
  apply env_malloc_len in E2; [|lia]. run.
  unfold scorpion_protocol_build_header. run. rewrite bind_get, bind_modify.
  rewrite u16_id with (z := zlen reply) by lia.
  change (u16 SCORPION2APK_SHELL_REP) with SCORPION2APK_SHELL_REP.
  set (hdr := header_bytes _ _ _). pose proof (length_header SCORPION2APK_SHELL_REP (zlen reply)
    (u16 (apk_msg_seq_number (tick w1)))) as HH. fold hdr in HH.
  rewrite memcpy_Some by (unfold zlen in *; lia). run.
  rewrite memcpy_Some
    by (rewrite ?zlen_app in *; pose proof (zlen_nonneg tl); unfold zlen in *;
        rewrite ?length_splice; len).
  run. change (Z.to_nat 0) with 0%nat. rewrite !drop_0, take_zlen.
  replace (take (Z.to_nat 8) hdr) with hdr by (rewrite take_ge by lia; done).
  apply (scorpion_packet_refines rep SCORPION2APK_SHELL_REP reply
           (set_apk_seq _ (tick w1))); [done|lia|done|].
  apply (ok_set_apk (tick w1)). auto with x300.
Qed.

End ShellFacts.

(** ** The dispatcher, on the abstract state *)

Section ApkFacts.
Context `{Env}.

Definition a_heart_beat (threhold : Z) : prog aworld unit :=
  let* a := get in
  modify (a_set_heart_beat 0 (if threhold =? 0 then a_threhold a else threhold)).

(** What a message of the application does. *)
Definition a_apk_msg (p : list Z) : prog aworld unit :=
  let id := msg_id p in
  let body := msg_body p in
  if id =? APK2SCORPION_HEART_BEAT then a_heart_beat (le_combine (take 4 body))
  else if id =? APK2SCORPION_DELAY_TIME then a_send_mcu SYSTEM2MCU_DELAY_TIME (take 4 body)
  else if id =? APK2SCORPION_SHELL_REQ then a_shell (strz body)
  else if id =? APK2SCORPION_EX_REBOOT then a_send_mcu SYSTEM2MCU_REBOOT []
  else ret tt.

(** A message with the body its identifier asks for. *)
Definition apk_wf (p : list Z) : Prop :=
  bytes p /\ HEADER_SIZE <= zlen p /\
  (msg_id p = APK2SCORPION_GENERAL_ACK -> 5 <= zlen (msg_body p)) /\
  (msg_id p = APK2SCORPION_HEART_BEAT -> 4 <= zlen (msg_body p)) /\
  (msg_id p = APK2SCORPION_DELAY_TIME -> 4 <= zlen (msg_body p)) /\
  (msg_id p = APK2SCORPION_SHELL_REQ -> 0 ∈ msg_body p).

Lemma bytes_body p : bytes p -> bytes (msg_body p).
Proof. apply Forall_drop. Qed.

Lemma body_word body rest :
  bytes body -> 4 <= zlen body ->
  load_le (body ++ rest) 0 4 = Some (le_combine (take 4 body)) /\
  0 <= le_combine (take 4 body) < 2 ^ 32 /\ le_split 4 (le_combine (take 4 body)) = take 4 body.
Proof.
  intros Hb Hl. rewrite load_le_prefix by lia. split_and!; [done| | |].
  - by apply le_combine_bound, Forall_take.
  - pose proof (le_combine_bound (take 4 body) ltac:(by apply Forall_take)) as B.
    assert (zlen (take 4 body) = 4) as E by (unfold zlen in *; len). rewrite E in B. apply B.
  - assert (length (take 4 body) = 4%nat) as E by (unfold zlen in *; len).
    rewrite <- E at 1. apply le_split_combine. by apply Forall_take.
Qed.

Lemma common_ack_treat_ok buf w :
  14 <= zlen buf -> scorpion_protocol_common_ack_treat buf w = Ret tt w.
Proof.
  intros Hl. unfold scorpion_protocol_common_ack_treat.
  pose proof (load_le_prefix buf []) as L. rewrite app_nil_r in L. rewrite !L by lia. run.
  unfold load8. destruct (_ <? _) eqn:E; bool_cases; [lia|].
  destruct (lookup_lt_is_Some_2 buf (Z.to_nat 13)) as [x ->]; [unfold zlen in *; lia|]. done.
Qed.

Lemma heart_beat_refines body rest :
  bytes body -> 4 <= zlen body ->
  implements (scorpion_heart_beat (body ++ rest)) (a_heart_beat (le_combine (take 4 body))).
Proof.
  intros Hb Hl w Hw. destruct (body_word body rest Hb Hl) as (E & B & _).
  unfold scorpion_heart_beat, a_heart_beat. rewrite E. run. rewrite !bind_get.
  split_and!; [done| |by destruct (_ =? 0)].
  destruct Hw. split; simpl; auto; [lia|]. destruct (_ =? 0) eqn:EZ; bool_cases; lia.
Qed.

(** A message on its own, then a step that does nothing more than look at it. *)
Lemma then_ack (c : prog world unit) s buf :
  implements c s -> 14 <= zlen buf ->
  implements (do* c; scorpion_protocol_common_ack_treat buf) s.
Proof.
  intros Hc Hl w Hw. specialize (Hc w Hw). unfold bind.
  destruct (c w) as [[] w1|?|?]; [|done|done]. by rewrite common_ack_treat_ok.
Qed.

Lemma strz_split body : 0 ∈ body -> exists rest, body = strz body ++ 0 :: rest.
Proof.
  induction body as [|c body IH]; intros Hin; [by apply not_elem_of_nil in Hin|]. simpl.
  destruct (c =? 0) eqn:E; bool_cases; [exists body; by subst|].
  apply elem_of_cons in Hin as [?|Hin]; [done|].
  destruct (IH Hin) as (rest & Er). exists rest. cbn [app]. by rewrite <- Er.
Qed.

Lemma scorpion_parse_protocol_refines p x junk :
  apk_wf p ->
  implements (do* scorpion_parse_protocol (mkBuff (frame_x p x ++ junk) (zlen (frame_x p x)));
              ret tt)
             (a_apk_msg p).
Proof.
  intros (Hb & Hp & H1 & H2 & H3 & H4).
  destruct (frame_fields p x junk Hp) as (E1 & _ & _ & _ & E9 & EL).
  pose proof (zlen_nonneg junk). pose proof (bytes_body p Hb) as Hbb.
  unfold scorpion_parse_protocol, a_apk_msg. cbn [bm_buf]. rewrite E1, E9.
  set (buf := frame_x p x ++ junk) in *.
  assert (forall c s, implements c s -> implements
    (do* let* msg_no := lift OutOfBounds (Some (msg_id p)) in do* c; ret true; ret tt) s) as K.
  { intros c s Hc w Hw. specialize (Hc w Hw). run. unfold bind.
    destruct (c w) as [[] w1|?|?]; done. }
  apply K. clear K.
  destruct (msg_id p =? APK2SCORPION_GENERAL_ACK) eqn:D1; bool_cases.
  { rewrite D1. specialize (H1 D1). intros w Hw. rewrite common_ack_treat_ok by lia. simpl. auto. }
  destruct (msg_id p =? APK2SCORPION_HEART_BEAT) eqn:D2; bool_cases.
  { specialize (H2 D2). apply then_ack; [by apply heart_beat_refines|lia]. }
  destruct (msg_id p =? APK2SCORPION_DELAY_TIME) eqn:D3; bool_cases.
  { specialize (H3 D3). apply then_ack; [|lia].
    destruct (body_word (msg_body p) ([x; MAGIC_CHAR] ++ junk) Hbb H3) as (E & _ & S).
    unfold scorpion_delay_time_treat. rewrite E. intros w Hw. run. rewrite <- S at 2.
    by apply stm32_send_delay_time_refines. }
  destruct (msg_id p =? APK2SCORPION_SHELL_REQ) eqn:D4; bool_cases.
  { destruct (strz_split _ (H4 D4)) as (rest & ER). rewrite ER at 1. rewrite <- app_assoc.
    apply shell_respond_refines, strz_nul_free. }
  destruct (msg_id p =? APK2SCORPION_EX_REBOOT); [apply stm32_send_reboot_refines|].
  apply implements_ret.
Qed.

Lemma scorpion_parse_refines p x junk :
  apk_wf p ->
  implements (do* scorpion_parse_a_full_msg (mkBuff (frame_x p x ++ junk) (zlen (frame_x p x)));
              ret tt)
             (a_apk_msg p).
Proof.
  intros Hwf w Hw. pose proof Hwf as (_ & Hp & _).
  destruct (frame_fields p x junk Hp) as (E1 & (len & E3) & E5 & _).
  pose proof (scorpion_parse_protocol_refines p x junk Hwf w Hw) as R.
  unfold scorpion_parse_a_full_msg, scorpion_parse_header. cbn [bm_buf].
  rewrite E1, E3, E5. run. destruct (b2z _ <? 0) eqn:E; bool_cases.
  { unfold b2z in E. destruct (_ =? _); lia. }
  revert R. unfold bind. by destruct (scorpion_parse_protocol _ w) as [? ?|?|?].
Qed.

End ApkFacts.

(** ** What the application side guarantees *)

Section Watchdog.
Context `{Env}.

(** [n] turns of the main loop's watchdog, no heart beat in between. *)
Fixpoint treats (n : nat) : prog world unit :=
  match n with O => ret tt | S n' => do* treats n'; scorpion_heart_beat_treat end.

Lemma heart_beat_treat_step w :
  scorpion_heart_beat_treat w =
  let count := u32 (scorpion_heart_beat_count w + 1) in
  let w' := set_heart_beat count (scorpion_heart_beat_threhold w) w in
  if scorpion_heart_beat_threhold w <? count then stm32_send_reboot w' else Ret tt w'.
Proof.
  unfold scorpion_heart_beat_treat. rewrite bind_get. run. cbv zeta. by destruct (_ <? _).
Qed.

Lemma treats_quiet w n :
  ok w -> scorpion_heart_beat_count w = 0 -> Z.of_nat n <= scorpion_heart_beat_threhold w ->
  treats n w = Ret tt (set_heart_beat (Z.of_nat n) (scorpion_heart_beat_threhold w) w).
Proof.
  intros Hw H0. induction n as [|n IH]; intros Hn.
  - simpl. unfold ret. f_equal. destruct w; simpl in *. by subst.
  - destruct Hw. cbn [treats]. rewrite (bind_Ret _ _ _ _ _ (IH ltac:(lia))).
    rewrite heart_beat_treat_step. cbn [set_heart_beat scorpion_heart_beat_count
      scorpion_heart_beat_threhold]. rewrite u32_id by lia. cbv zeta.
    destruct (_ <? _) eqn:E; bool_cases; [lia|].
    by replace (Z.of_nat n + 1) with (Z.of_nat (S n)) by lia.
Qed.

End Watchdog.

(** The watchdog.  Count the main loop's turns since the last heart beat
    of the application.  As long as they are at most the threshold nothing
    happens but the counting; at the next turn the microcontroller is asked
    to reboot the system, once per turn from then on.  (A threshold of
    2^32 - 1 switches the watchdog off: the counter cannot pass it.) *)
Theorem watchdog_fires `{Env} w n :
  ok w -> scorpion_heart_beat_count w = 0 ->
  scorpion_heart_beat_threhold w < 2 ^ 32 - 1 ->
  Z.of_nat n = scorpion_heart_beat_threhold w ->
  (forall k, (k <= n)%nat ->
     treats k w = Ret tt (set_heart_beat (Z.of_nat k) (scorpion_heart_beat_threhold w) w)) /\
  refines (treats (S n) w)
    (a_send_mcu SYSTEM2MCU_REBOOT []
       (a_set_heart_beat (Z.of_nat n + 1) (scorpion_heart_beat_threhold w) (abs w))).
Proof.
  intros Hw H0 Hmax Hn. split; [intros; apply treats_quiet; auto; lia|].
  pose proof (treats_quiet w n Hw H0 ltac:(lia)) as E.
  cbn [treats]. rewrite (bind_Ret _ _ _ _ _ E), heart_beat_treat_step.
  cbn [set_heart_beat scorpion_heart_beat_count scorpion_heart_beat_threhold].
  rewrite u32_id by lia. cbv zeta. destruct (_ <? _) eqn:E2; bool_cases; [|lia].
  apply (stm32_send_reboot_refines
           (set_heart_beat (Z.of_nat n + 1) (scorpion_heart_beat_threhold w) w)).
  destruct Hw. split; simpl; auto; lia.
Qed.

Lemma watchdog_fires_witness :
  match treats (H := Demo.demo_env) 101 Demo.world0 with
  | Ret _ w => a_tx (abs w) = wire (message SYSTEM2MCU_REBOOT [] 0)
  | _ => False
  end.
Proof.
  destruct (watchdog_fires (H := Demo.demo_env) Demo.world0 100 world0_ok) as [_ R];
    [reflexivity|vm_compute; reflexivity|reflexivity|].
  apply (refines_observe (fun _ => a_tx) _ _ _ R). vm_compute. reflexivity.
Defined.

(** C4: what a message of the application does.  For every message with the
    body its identifier asks for, and whatever its length field says, the
    dispatcher does exactly this: a heart beat clears the watchdog and sets
    a non-zero threshold, a delay time is forwarded to the microcontroller
    byte for byte, a shell request runs the NUL-terminated command and
    answers with its output, a reboot is forwarded, an acknowledgement and
    an unknown identifier do nothing.  No access leaves the message. *)
Theorem apk_message_effect `{Env} p junk w :
  apk_wf p -> ok w ->
  refines ((do* scorpion_parse_a_full_msg (mkBuff (frame p ++ junk) (zlen (frame p))); ret tt) w)
          (a_apk_msg p (abs w)).
Proof. intros. by apply scorpion_parse_refines. Qed.

Definition demo_beat : list Z := message APK2SCORPION_HEART_BEAT [7; 0; 0; 0] 3.

Lemma demo_beat_wf : apk_wf demo_beat.
Proof. split_and!; [by apply bytes_true|..]; vm_compute; congruence. Qed.

Lemma apk_message_effect_witness :
  match (do* scorpion_parse_a_full_msg (H := Demo.demo_env)
           (mkBuff (frame demo_beat ++ []) (zlen (frame demo_beat))); ret tt) Demo.world0 with
  | Ret _ w => a_threhold (abs w) = 7
  | _ => False
  end.
Proof.
  apply (refines_observe (fun _ => a_threhold) _ _ _
    (apk_message_effect (H := Demo.demo_env) demo_beat [] Demo.world0 demo_beat_wf world0_ok)).
  vm_compute. reflexivity.
Defined.

(** A burst of application messages.  A buffer the socket returned that
    holds whole frames (noise in between, wrong check bytes) and perhaps the
    start of another one has the effect of its valid messages one after the
    other, in order. *)
Theorem apk_stream_effect `{Env} fs q y k slack w :
  Forall good_frame fs ->
  (forall f, f ∈ fs -> it_check f = xor_all (it_msg f) -> apk_wf (it_msg f)) ->
  (k < length (wire_x q y))%nat -> zlen (stream_bytes fs) + Z.of_nat k < 2 ^ 31 -> ok w ->
  refines (scorpion_protocol_ayalyze (stream_bytes fs ++ take k (wire_x q y) ++ slack)
                                     (zlen (stream_bytes fs) + Z.of_nat k) w)
          ((let* good := a_deliver a_apk_msg fs in
            if good then ret (zlen (stream_bytes fs)) else ret (-1)) (abs w)).
Proof.
  intros Hfs Hwf Hk Hlen Hw. apply stream_refines; [done|done|done| |done].
  intros f junk Hin Hx. apply scorpion_parse_refines. by apply Hwf.
Qed.

Definition demo_delay : list Z := message APK2SCORPION_DELAY_TIME [30; 0; 0; 0] 3.
Definition demo_burst : list item :=
  [mkItem [9] demo_delay 0; mkItem [] demo_delay (xor_all demo_delay)].

Lemma demo_delay_wf : apk_wf demo_delay.
Proof. split_and!; [by apply bytes_true|..]; vm_compute; congruence. Qed.

Lemma demo_burst_good : Forall good_frame demo_burst.
Proof.
  repeat constructor; try (by apply bytes_true); simpl; unfold MAGIC_CHAR;
    (lia || (vm_compute; congruence)).
Qed.

Lemma demo_burst_wf f : f ∈ demo_burst -> apk_wf (it_msg f).
Proof.
  intros Hf. unfold demo_burst in Hf. rewrite !elem_of_cons in Hf.
  destruct Hf as [->|[->|Hf]]; [apply demo_delay_wf|apply demo_delay_wf|].
  by apply not_elem_of_nil in Hf.
Qed.

Lemma apk_stream_effect_witness :
  match scorpion_protocol_ayalyze (H := Demo.demo_env)
          (stream_bytes demo_burst ++ take 0 (wire_x [] 0) ++ [])
          (zlen (stream_bytes demo_burst) + Z.of_nat 0) Demo.world0 with
  | Ret n w => (n, a_tx (abs w)) = (31, wire (message SYSTEM2MCU_DELAY_TIME [30; 0; 0; 0] 0))
  | _ => False
  end.
Proof.
  apply (refines_observe (fun n a => (n, a_tx a)) _ _ _
    (apk_stream_effect (H := Demo.demo_env) demo_burst [] 0 0 [] Demo.world0
      demo_burst_good (fun f Hf _ => demo_burst_wf f Hf) ltac:(vm_compute; lia)
      ltac:(vm_compute; reflexivity) world0_ok)).
  vm_compute. reflexivity.
Defined.

(** A shell command's output is collected without ever leaving the
    40960-byte buffer: the reply is the first 40959 bytes of the output (which
    holds no NUL) and a NUL, its length is returned, the command was run
    exactly once and the loop over the output ends. *)
Theorem shell_run_exact `{Env} cmd rest buf w out closed :
  nul_free cmd -> zlen buf = 40960 ->
  env_popen (w_time w) cmd = Some (out, closed) -> closed <> -1 -> nul_free out ->
  exists n o,
    shell_run (cmd ++ 0 :: rest) (Some buf) 40960 w = Ret (n, o) (emit (Popen cmd) (tick w)) /\
    n = Z.min (zlen out) 40959 + 1 /\ zlen o = 40960 /\
    take (Z.to_nat n) o = take (Z.to_nat 40959) out ++ [0].
Proof.
  intros Hc Hb Hp Hcl Hout. destruct (shell_run_spec cmd rest buf w Hc Hb) as (tl & E & L).
  revert E L. rewrite Hp. cbn [shell_reply]. destruct (closed =? -1) eqn:E0; bool_cases; [done|].
  rewrite shell_text_nul_free by done.
  change (MAX_LINE * LINE_SIZE - 1) with 40959. set (reply := _ ++ [0]). intros E L.
  exists (zlen reply), (reply ++ tl). split_and!; [done| |done|apply take_zlen].
  subst reply. rewrite zlen_app. change (zlen [0]) with 1. unfold zlen. rewrite length_take. lia.
Qed.

Lemma shell_run_exact_witness :
  exists n o,
    shell_run (H := Demo.demo_env) (str "id" ++ 0 :: [5]) (Some (Demo.fill 40960)) 40960 Demo.world0
      = Ret (n, o) (emit (Popen (str "id")) (tick Demo.world0)) /\
    n = 6 /\ take 6 o = str "root" ++ [10; 0].
Proof.
  destruct (shell_run_exact (H := Demo.demo_env) (str "id") [5] (Demo.fill 40960) Demo.world0
              (str "root" ++ [10]) 0) as (n & o & E & En & _ & Eo);
    [by apply nul_free_true|vm_compute; reflexivity|reflexivity|lia|by apply nul_free_true|].
  exists n, o. split; [exact E|]. change (n = 6) in En. split; [exact En|].
  rewrite En in Eo. exact Eo.
Defined.

(** a heart beat without its four-byte body is read past its end: when
    nothing in the frame was escaped the buffer holds 11 bytes and the
    handler reads the threshold from bytes 9 to 12. *)
Theorem short_heart_beat_faults `{Env} p w :
  zlen p = HEADER_SIZE -> msg_id p = APK2SCORPION_HEART_BEAT ->
  scorpion_parse_a_full_msg (mkBuff (frame p) (zlen (frame p))) w = Fault OutOfBounds w.
Proof.
  intros Hp Hid. destruct (frame_fields p (xor_all p) [] ltac:(lia))
    as (E1 & (len & E3) & E5 & _ & E9 & _).
  rewrite app_nil_r in *. unfold scorpion_parse_a_full_msg, scorpion_parse_header,
    scorpion_parse_protocol. cbn [bm_buf]. fold (frame p) in *. rewrite E1, E3, E5, E9, Hid. run.
  destruct (b2z _ <? 0) eqn:E; bool_cases; [unfold b2z in E; destruct (_ =? _); lia|].
  unfold msg_body, HEADER_SIZE in *. rewrite drop_ge by (unfold zlen in Hp; lia). reflexivity.
Qed.

Lemma short_heart_beat_faults_witness :
  scorpion_parse_a_full_msg (H := Demo.demo_env)
    (mkBuff (frame (message 2 [] 1)) (zlen (frame (message 2 [] 1)))) Demo.world0
    = Fault OutOfBounds Demo.world0.
Proof.
  apply (short_heart_beat_faults (H := Demo.demo_env) (message 2 [] 1) Demo.world0);
    vm_compute; reflexivity.
Defined.
