(* ===== verification/Stm32.v ===== *)
(** * The microcontroller side of the daemon

    [external/scorpion/scorpion_stm32.c] and the handlers of the messages the
    microcontroller sends: digital inputs ([scorpion_stm32_gpio.c]), analog
    values ([scorpion_stm32_adc.c]), light and volume ([scorpion_stm32_eval.c],
    [scorpion_stm32_volumn.c]) and firmware versions
    ([scorpion_stm32_version.c]). *)

From stdpp Require Import base list numbers strings.
From Stdlib Require Import ZArith Lia.
From S2P Require Import Prelude Text CircleBuffer Misc Codec World Uart Link Apk.
Open Scope Z_scope.

(** The framing of [scorpion_stm32.c] is the common one. *)
Definition stm32_protocol_escape := protocol_escape.
Definition stm32_protocol_unescape := protocol_unescape.
Definition stm32_find_magic_char := find_magic_char.
Definition stm32_get_a_full_msg := get_a_full_msg.

(** ** [printf("%04d")] of a non-negative number *)

Definition pad4 (s : list Z) : list Z := replicate (4 - length s) 48 ++ s.
Definition version_value (ver : Z) : list Z := snprintf 50 (str "MSM742." ++ pad4 (decimal ver)).

Section Stm32.
Context `{Env}.

(** ** The handlers *)

Definition stm32_gpio_in_treat (buf : list Z) : prog world Z :=
  let* gpio_in := lift OutOfBounds (load_le buf 9 4) in
  do* scorpion_report_gpio_in gpio_in;
  ret PROTOCOL_RESULT_OK.

Definition stm32_gpio_in_rep_treat (buf : list Z) : prog world Z :=
  do* lift OutOfBounds (load_le buf 9 2);
  ret PROTOCOL_RESULT_OK.

Definition stm32_get_adc_treat (buf : list Z) : prog world unit :=
  do* lift OutOfBounds (load_le buf 9 2);
  ret tt.

Definition stm32_eval_treat (buf : list Z) : prog world Z :=
  let* eval := lift OutOfBounds (load8 buf 9) in
  do* scorpion_report_eval_in eval;
  ret PROTOCOL_RESULT_OK.

Definition stm32_volumn_treat (buf : list Z) : prog world Z :=
  let* volumn := lift OutOfBounds (load8 buf 9) in
  do* scorpion_report_volumn_in volumn;
  ret PROTOCOL_RESULT_OK.

Definition stm32_get_version_treat (buf : list Z) : prog world Z :=
  let* hw0 := lift OutOfBounds (load8 buf 9) in
  let* hw1 := lift OutOfBounds (load8 buf 10) in
  let* sw0 := lift OutOfBounds (load8 buf 11) in
  let* sw1 := lift OutOfBounds (load8 buf 12) in
  do* lift OutOfBounds (load_le buf 13 4);
  do* lift OutOfBounds (load_le buf 17 4);
  do* lift OutOfBounds (load_le buf 21 4);
  do* do_effect (PropertySet (snprintf 50 (str "sys.stm32.sw.version"))
                             (version_value (Z.lor sw1 (Z.shiftl sw0 8))));
  do* do_effect (PropertySet (snprintf 50 (str "sys.stm32.hw.version"))
                             (version_value (Z.lor hw1 (Z.shiftl hw0 8))));
  ret PROTOCOL_RESULT_OK.

(** ** The dispatcher *)

Definition stm32_protocol_common_ack_treat (buf : list Z) : prog world unit :=
  do* lift OutOfBounds (load_le buf 9 2);
  do* lift OutOfBounds (load_le buf 11 2);
  do* lift OutOfBounds (load8 buf 13);
  ret tt.

Definition stm32_parse_header (msg : buff_mgr_t) : prog world bool :=
  do* lift OutOfBounds (load_le (bm_buf msg) 1 2);
  let* msg_len := lift OutOfBounds (load_le (bm_buf msg) 3 2) in
  do* lift OutOfBounds (load_le (bm_buf msg) 5 2);
  ret (msg_len =? u32 (bm_len msg - HEADER_SIZE - 3)).

Definition stm32_parse_protocol (msg : buff_mgr_t) : prog world bool :=
  let buf := bm_buf msg in
  let header := drop 1 buf in
  let* msg_no := lift OutOfBounds (load_le buf 1 2) in
  do* (if msg_no =? MCU2SYSTEM_GENERAL_ACK then stm32_protocol_common_ack_treat buf
       else if msg_no =? MCU2SYSTEM_GPIO_IN then
         let* result := stm32_gpio_in_treat buf in stm32_protocol_send_ack header result
       else if msg_no =? MCU2SYSTEM_ADC_REP then stm32_get_adc_treat buf
       else if msg_no =? MCU2SYSTEM_EVAL_IN then
         let* result := stm32_eval_treat buf in stm32_protocol_send_ack header result
       else if msg_no =? MCU2SYSTEM_VOLUMN_IN then
         let* result := stm32_volumn_treat buf in stm32_protocol_send_ack header result
       else if msg_no =? MCU2SYSTEM_GPIO_IN_REP then
         let* result := stm32_gpio_in_rep_treat buf in stm32_protocol_send_ack header result
       else if msg_no =? MCU2SYSTEM_VERSION_REP then
         let* result := stm32_get_version_treat buf in stm32_protocol_send_ack header result
       else ret tt);
  ret true.

Definition stm32_parse_a_full_msg (msg : buff_mgr_t) : prog world Z :=
  let* h := stm32_parse_header msg in
  let r := b2z h in
  if r <? 0 then ret r
  else let* b := stm32_parse_protocol msg in ret (b2z b).

Definition stm32_protocol_ayalyze (buf : list Z) (len : Z) : prog world Z :=
  protocol_ayalyze (fun m => do* stm32_parse_a_full_msg m; ret tt) buf len.

(** ** The dispatcher, on the abstract state *)

Definition a_ack (p : list Z) : prog aworld unit :=
  a_send_mcu SYSTEM2MCU_GENERAL_ACK (ack_body (msg_id p) (msg_serial p) PROTOCOL_RESULT_OK).

(** What a message of the microcontroller does. *)
Definition a_mcu_msg (p : list Z) : prog aworld unit :=
  let id := msg_id p in
  let body := msg_body p in
  if id =? MCU2SYSTEM_GPIO_IN then
    do* a_send_apk SCORPION2APK_GPIO_IN (take 4 body); a_ack p
  else if id =? MCU2SYSTEM_EVAL_IN then
    do* a_send_apk SCORPION2APK_EVAL_IN (take 1 body); a_ack p
  else if id =? MCU2SYSTEM_VOLUMN_IN then
    do* a_send_apk SCORPION2APK_VOLUMN_IN (take 1 body); a_ack p
  else if id =? MCU2SYSTEM_GPIO_IN_REP then a_ack p
  else if id =? MCU2SYSTEM_VERSION_REP then
    do* modify (a_emit (PropertySet (str "sys.stm32.sw.version")
          (version_value (le_combine (rev (take 2 (drop 2 body)))))));
    do* modify (a_emit (PropertySet (str "sys.stm32.hw.version")
          (version_value (le_combine (rev (take 2 body))))));
    a_ack p
  else ret tt.

(** The bytes of body an identifier asks for. *)
Definition mcu_min (id : Z) : Z :=
  if id =? MCU2SYSTEM_GENERAL_ACK then 5
  else if id =? MCU2SYSTEM_GPIO_IN then 4
  else if id =? MCU2SYSTEM_ADC_REP then 2
  else if id =? MCU2SYSTEM_EVAL_IN then 1
  else if id =? MCU2SYSTEM_VOLUMN_IN then 1
  else if id =? MCU2SYSTEM_GPIO_IN_REP then 2
  else if id =? MCU2SYSTEM_VERSION_REP then 16 else 0.

Definition mcu_wf (p : list Z) : Prop :=
  bytes p /\ HEADER_SIZE <= zlen p /\ mcu_min (msg_id p) <= zlen (msg_body p).

End Stm32.

(** ** Lemmas *)

(** Reads in the body of an unstuffed frame. *)
Lemma body_load8 p x junk j i :
  j = 9 + i -> HEADER_SIZE <= zlen p -> 0 <= i < zlen (msg_body p) ->
  exists b, load8 (frame_x p x ++ junk) j = Some b /\ msg_body p !! Z.to_nat i = Some b.
Proof.
  intros -> Hp Hi. destruct (frame_fields p x junk Hp) as (_ & _ & _ & _ & E9 & _).
  destruct (lookup_lt_is_Some_2 (msg_body p) (Z.to_nat i)) as [b Hb]; [unfold zlen in *; lia|].
  exists b. split; [|done]. unfold load8. destruct (_ <? 0) eqn:E; bool_cases; [lia|].
  replace (Z.to_nat (9 + i)) with (9 + Z.to_nat i)%nat by lia.
  rewrite <- lookup_drop, E9. by apply lookup_app_l_Some.
Qed.

Lemma body_load_le p x junk j i n :
  j = 9 + i -> HEADER_SIZE <= zlen p -> 0 <= i -> 0 <= n -> i + n <= zlen (msg_body p) ->
  load_le (frame_x p x ++ junk) j n =
    Some (le_combine (take (Z.to_nat n) (drop (Z.to_nat i) (msg_body p)))).
Proof.
  intros -> Hp Hi Hn Hl. unfold HEADER_SIZE in Hp.
  assert (frame_x p x ++ junk = (MAGIC_CHAR :: p) ++ [x; MAGIC_CHAR] ++ junk) as ->
    by (unfold frame_x; cbn [app]; by rewrite <- app_assoc).
  assert (zlen (msg_body p) = zlen p - 8) as HB by (unfold msg_body, zlen in *; len).
  rewrite load_le_prefix by (rewrite ?zlen_cons; lia). do 3 f_equal.
  replace (Z.to_nat (9 + i)) with (9 + Z.to_nat i)%nat by lia.
  unfold msg_body. rewrite drop_drop. done.
Qed.

Lemma lookup_take1 (l : list Z) b : l !! 0%nat = Some b -> take 1 l = [b].
Proof. destruct l; simpl; intros; simplify_eq. by destruct l. Qed.

Section Stm32Facts.
Context `{Env}.

Lemma then_reply (c : prog world unit) s p rest :
  HEADER_SIZE <= zlen p -> implements c s ->
  implements (let* result := (do* c; ret PROTOCOL_RESULT_OK) in
              stm32_protocol_send_ack (p ++ rest) result)
             (do* s; a_ack p).
Proof.
  intros Hp Hc w Hw. run. apply refines_bind; [by apply Hc|].
  intros _ w1 Hw1. run. by apply stm32_send_ack_refines.
Qed.

Lemma word_lor hi lo : is_byte hi -> is_byte lo -> Z.lor lo (Z.shiftl hi 8) = lo + 256 * hi.
Proof.
  unfold is_byte. intros Hh Hl. rewrite Z.shiftl_mul_pow2 by lia. change (2 ^ 8) with 256.
  pose proof (Z.add_lor_land lo (hi * 256)) as A.
  assert (Z.land lo (hi * 256) = 0) as A0; [clear A|lia].
  apply Z.bits_inj'. intros n Hn. rewrite Z.land_spec, Z.bits_0. change 256 with (2 ^ 8).
  destruct (decide (n < 8)).
  - rewrite Z.mul_pow2_bits_low by lia. apply andb_false_r.
  - rewrite (Z.bits_above_log2 lo n); [done|lia|].
    destruct (decide (lo = 0)) as [->|]; [simpl; lia|].
    apply Z.log2_lt_pow2; [lia|]. change 256 with (2 ^ 8) in Hl.
    apply Z.lt_le_trans with (2 ^ 8); [lia|]. apply Z.pow_le_mono_r; lia.
Qed.

Lemma version_bytes body i hi lo :
  bytes body -> body !! i = Some hi -> body !! S i = Some lo ->
  Z.lor lo (Z.shiftl hi 8) = le_combine (rev (take 2 (drop i body))).
Proof.
  intros Hb E1 E2. pose proof (Forall_lookup_1 _ _ _ _ Hb E1). pose proof (Forall_lookup_1 _ _ _ _ Hb E2).
  rewrite word_lor by done. rewrite (drop_S _ _ _ E1). rewrite (drop_S _ _ _ E2). simpl. lia.
Qed.

Lemma get_version_refines p x junk :
  bytes p -> HEADER_SIZE <= zlen p -> 16 <= zlen (msg_body p) ->
  implements (do* stm32_get_version_treat (frame_x p x ++ junk); ret tt)
    (do* modify (a_emit (PropertySet (str "sys.stm32.sw.version")
          (version_value (le_combine (rev (take 2 (drop 2 (msg_body p))))))));
     modify (a_emit (PropertySet (str "sys.stm32.hw.version")
          (version_value (le_combine (rev (take 2 (msg_body p)))))))).
Proof.
  intros Hb Hp Hl w Hw. unfold stm32_get_version_treat.
  destruct (body_load8 p x junk 9 0 eq_refl Hp ltac:(lia)) as (hw0 & -> & B0).
  destruct (body_load8 p x junk 10 1 eq_refl Hp ltac:(lia)) as (hw1 & -> & B1).
  destruct (body_load8 p x junk 11 2 eq_refl Hp ltac:(lia)) as (sw0 & -> & B2).
  destruct (body_load8 p x junk 12 3 eq_refl Hp ltac:(lia)) as (sw1 & -> & B3).
  rewrite (body_load_le p x junk 13 4 4 eq_refl) by lia. rewrite (body_load_le p x junk 17 8 4 eq_refl) by lia.
  rewrite (body_load_le p x junk 21 12 4 eq_refl) by lia. run.
  pose proof (bytes_body p Hb) as Hbb.
  rewrite (version_bytes (msg_body p) 2 sw0 sw1 Hbb B2 B3).
  rewrite (version_bytes (msg_body p) 0 hw0 hw1 Hbb B0 B1).
  split_and!; [done|auto with x300|done].
Qed.


Lemma report_byte_refines (report : Z -> prog world unit) id p x junk :
  HEADER_SIZE <= zlen p -> bytes p -> 1 <= zlen (msg_body p) ->
  (forall b, implements (report b) (a_send_apk id [u8 b])) ->
  implements (let* b := lift OutOfBounds (load8 (frame_x p x ++ junk) 9) in report b)
             (a_send_apk id (take 1 (msg_body p))).
Proof.
  intros Hp Hb Hl Hr w Hw. destruct (body_load8 p x junk 9 0 eq_refl Hp ltac:(lia)) as (b & -> & B).
  run. rewrite (lookup_take1 _ _ B).
  rewrite <- (u8_id b) at 2; [by apply Hr|].
  exact (Forall_lookup_1 _ _ _ _ (bytes_body p Hb) B).
Qed.

Lemma gpio_in_refines p x junk :
  HEADER_SIZE <= zlen p -> bytes p -> 4 <= zlen (msg_body p) ->
  implements (let* g := lift OutOfBounds (load_le (frame_x p x ++ junk) 9 4) in
              scorpion_report_gpio_in g)
             (a_send_apk SCORPION2APK_GPIO_IN (take 4 (msg_body p))).
Proof.
  intros Hp Hb Hl w Hw. rewrite (body_load_le p x junk 9 0 4 eq_refl) by lia. run.
  change (Z.to_nat 0) with 0%nat. change (Z.to_nat 4) with 4%nat. rewrite drop_0.
  destruct (body_word (msg_body p) [] (bytes_body p Hb) Hl) as (_ & _ & S).
  rewrite <- S at 2. by apply scorpion_report_gpio_in_refines.
Qed.

(** Two programs that make the same loads first and are equal up to the
    associativity of [bind]. *)
Ltac loads := repeat (run; first
  [ match goal with |- context [lift _ (load8 ?b ?i)] => destruct (load8 b i); [|exact (fun R => R)] end
  | match goal with |- context [lift _ (load_le ?b ?i ?n)] => destruct (load_le b i n); [|exact (fun R => R)] end ]);
  first [exact (fun R => R) | run; exact (fun R => R)].

Lemma stm32_parse_protocol_refines p x junk :
  mcu_wf p ->
  implements (do* stm32_parse_protocol (mkBuff (frame_x p x ++ junk) (zlen (frame_x p x))); ret tt)
             (a_mcu_msg p).
Proof.
  intros (Hb & Hp & Hmin).
  destruct (frame_fields p x junk Hp) as (E1 & _ & _ & ED & _ & EL).
  pose proof (zlen_nonneg junk). pose proof (zlen_nonneg (msg_body p)).
  unfold stm32_parse_protocol, a_mcu_msg. cbn [bm_buf]. rewrite E1, ED. unfold mcu_min in Hmin.
  assert (forall c s, implements c s -> implements
    (do* let* msg_no := lift OutOfBounds (Some (msg_id p)) in do* c; ret true; ret tt) s) as K.
  { intros c s Hc w Hw. specialize (Hc w Hw). run. unfold bind.
    destruct (c w) as [[] w1|?|?]; done. }
  apply K. clear K.
  destruct (msg_id p =? MCU2SYSTEM_GENERAL_ACK) eqn:D1; bool_cases.
  { rewrite D1. intros w Hw.
    change stm32_protocol_common_ack_treat with scorpion_protocol_common_ack_treat.
    rewrite common_ack_treat_ok by lia. simpl. auto. }
  destruct (msg_id p =? MCU2SYSTEM_GPIO_IN) eqn:D2; bool_cases.
  { intros w Hw. pose proof (then_reply _ _ p ([x; MAGIC_CHAR] ++ junk) Hp
      (gpio_in_refines p x junk Hp Hb Hmin) w Hw) as R.
    revert R. unfold stm32_gpio_in_treat. loads. }
  destruct (msg_id p =? MCU2SYSTEM_ADC_REP) eqn:D3; bool_cases.
  { rewrite D3. unfold stm32_get_adc_treat. rewrite (body_load_le p x junk 9 0 2 eq_refl) by lia.
    intros w Hw. run. by apply implements_ret. }
  destruct (msg_id p =? MCU2SYSTEM_EVAL_IN) eqn:D4; bool_cases.
  { intros w Hw. pose proof (then_reply _ _ p ([x; MAGIC_CHAR] ++ junk) Hp
      (report_byte_refines _ _ p x junk Hp Hb Hmin scorpion_report_eval_in_refines) w Hw) as R.
    revert R. unfold stm32_eval_treat. loads. }
  destruct (msg_id p =? MCU2SYSTEM_VOLUMN_IN) eqn:D5; bool_cases.
  { intros w Hw. pose proof (then_reply _ _ p ([x; MAGIC_CHAR] ++ junk) Hp
      (report_byte_refines _ _ p x junk Hp Hb Hmin scorpion_report_volumn_in_refines) w Hw) as R.
    revert R. unfold stm32_volumn_treat. loads. }
  destruct (msg_id p =? MCU2SYSTEM_GPIO_IN_REP) eqn:D6; bool_cases.
  { unfold stm32_gpio_in_rep_treat. rewrite (body_load_le p x junk 9 0 2 eq_refl) by lia.
    intros w Hw. run. by apply stm32_send_ack_refines. }
  destruct (msg_id p =? MCU2SYSTEM_VERSION_REP) eqn:D7; bool_cases; [|apply implements_ret].
  intros w Hw. pose proof (then_reply _ _ p ([x; MAGIC_CHAR] ++ junk) Hp
    (get_version_refines p x junk Hb Hp Hmin) w Hw) as R.
  revert R. unfold stm32_get_version_treat. loads.
Qed.

Lemma stm32_parse_refines p x junk :
  mcu_wf p ->
  implements (do* stm32_parse_a_full_msg (mkBuff (frame_x p x ++ junk) (zlen (frame_x p x)));
              ret tt)
             (a_mcu_msg p).
Proof.
  intros Hwf w Hw. pose proof Hwf as (_ & Hp & _).
  destruct (frame_fields p x junk Hp) as (E1 & (len & E3) & E5 & _).
  pose proof (stm32_parse_protocol_refines p x junk Hwf w Hw) as R.
  unfold stm32_parse_a_full_msg, stm32_parse_header. cbn [bm_buf].
  rewrite E1, E3, E5. run. destruct (b2z _ <? 0) eqn:E; bool_cases.
  { unfold b2z in E. destruct (_ =? _); lia. }
  revert R. unfold bind. by destruct (stm32_parse_protocol _ w) as [? ?|?|?].
Qed.

End Stm32Facts.

(** ** Version strings *)

Lemma pad4_value s : undecimal (pad4 s) = undecimal s.
Proof.
  unfold pad4. generalize (4 - length s)%nat. intros k.
  induction k as [|k IH]; [done|]. cbn [replicate app]. rewrite undecimal_cons, IH. lia.
Qed.

Lemma version_value_spec ver :
  0 <= ver < 65536 ->
  exists digits, version_value ver = str "MSM742." ++ digits /\ undecimal digits = ver /\
    (4 <= length digits <= 10)%nat.
Proof.
  intros Hv. exists (pad4 (decimal ver)).
  destruct (dec_loop_spec 10 ver [] ltac:(simpl; lia) ltac:(lia)) as [E1 E2].
  fold (decimal ver) in E1, E2. cbn [length] in E2. rewrite Nat.add_0_r in E2.
  assert (4 <= length (pad4 (decimal ver)) <= 10)%nat as HL
    by (unfold pad4; rewrite length_app, length_replicate; lia).
  split_and!; [|rewrite pad4_value, E1|lia|lia].
  - unfold version_value, snprintf. apply take_ge. rewrite length_app.
    change (length (str "MSM742.")) with 7%nat. lia.
  - change (zlen []) with 0. unfold undecimal. simpl. lia.
Qed.

(** ** What the microcontroller side guarantees *)

(** C5: what a message of the microcontroller does.  For every message with
    the body its identifier asks for, and whatever its length field says:
    inputs, light and volume are forwarded to the application byte for byte
    and then acknowledged with the serial number and identifier of the
    message; a reply to an input request is acknowledged; the versions
    become system properties and are acknowledged; an analog value, an
    acknowledgement and an unknown identifier have no effect.  No access
    leaves the message. *)
Theorem mcu_message_effect `{Env} p junk w :
  mcu_wf p -> ok w ->
  refines ((do* stm32_parse_a_full_msg (mkBuff (frame p ++ junk) (zlen (frame p))); ret tt) w)
          (a_mcu_msg p (abs w)).
Proof. intros. by apply stm32_parse_refines. Qed.

Definition demo_gpio : list Z := message MCU2SYSTEM_GPIO_IN [1; 0; 1; 0] 513.

Lemma demo_gpio_wf : mcu_wf demo_gpio.
Proof. split_and!; [by apply bytes_true|..]; vm_compute; congruence. Qed.

Lemma mcu_message_effect_witness :
  match (do* stm32_parse_a_full_msg (H := Demo.demo_env)
           (mkBuff (frame demo_gpio ++ []) (zlen (frame demo_gpio))); ret tt) Demo.world0 with
  | Ret _ w =>
      (a_trace (abs w), a_tx (abs w)) =
      ([SockSend (wire (message SCORPION2APK_GPIO_IN [1; 0; 1; 0] 0)); CondSignal],
       wire (message SYSTEM2MCU_GENERAL_ACK [1; 2; 3; 128; 0] 0))
  | _ => False
  end.
Proof.
  apply (refines_observe (fun _ a => (a_trace a, a_tx a)) _ _ _
    (mcu_message_effect (H := Demo.demo_env) demo_gpio [] Demo.world0 demo_gpio_wf world0_ok)).
  vm_compute. reflexivity.
Defined.

(** the version properties.  From a version message the daemon publishes
    "MSM742." and at least four decimal digits whose value is the big-endian
    version word, untruncated, so that different versions give different
    properties. *)
Theorem version_roundtrip `{Env} p x junk w :
  bytes p -> HEADER_SIZE <= zlen p -> 16 <= zlen (msg_body p) ->
  exists w' sw hw,
    stm32_get_version_treat (frame_x p x ++ junk) w = Ret PROTOCOL_RESULT_OK w' /\
    w_trace w' = w_trace w ++
      [PropertySet (str "sys.stm32.sw.version") (str "MSM742." ++ sw);
       PropertySet (str "sys.stm32.hw.version") (str "MSM742." ++ hw)] /\
    undecimal sw = le_combine (rev (take 2 (drop 2 (msg_body p)))) /\
    undecimal hw = le_combine (rev (take 2 (msg_body p))) /\
    (4 <= length sw)%nat /\ (4 <= length hw)%nat.
Proof.
  intros Hb Hp Hl. unfold stm32_get_version_treat.
  destruct (body_load8 p x junk 9 0 eq_refl Hp ltac:(lia)) as (hw0 & -> & B0).
  destruct (body_load8 p x junk 10 1 eq_refl Hp ltac:(lia)) as (hw1 & -> & B1).
  destruct (body_load8 p x junk 11 2 eq_refl Hp ltac:(lia)) as (sw0 & -> & B2).
  destruct (body_load8 p x junk 12 3 eq_refl Hp ltac:(lia)) as (sw1 & -> & B3).
  rewrite (body_load_le p x junk 13 4 4 eq_refl), (body_load_le p x junk 17 8 4 eq_refl),
    (body_load_le p x junk 21 12 4 eq_refl) by lia. run.
  pose proof (bytes_body p Hb) as Hbb.
  rewrite (version_bytes (msg_body p) 2 sw0 sw1 Hbb B2 B3).
  rewrite (version_bytes (msg_body p) 0 hw0 hw1 Hbb B0 B1).
  assert (forall i, 0 <= le_combine (rev (take 2 (drop i (msg_body p)))) < 65536) as R.
  { intros i. assert (bytes (rev (take 2 (drop i (msg_body p))))) as HR
      by (by apply List.Forall_rev, Forall_take, Forall_drop).
    pose proof (le_combine_bound _ HR) as B. split; [apply B|].
    eapply Z.lt_le_trans; [apply B|]. change 65536 with (256 ^ 2).
    apply Z.pow_le_mono_r; [lia|]. unfold zlen. rewrite length_rev, length_take. lia. }
  destruct (version_value_spec _ (R 2%nat)) as (sw & -> & S1 & S2).
  destruct (version_value_spec _ (R 0%nat)) as (hw & -> & S3 & S4).
  do 3 eexists. split; [reflexivity|]. split; [|split_and!; [exact S1|exact S3|lia|lia]].
  cbn [w_trace emit]. by rewrite <- app_assoc.
Qed.

Lemma version_roundtrip_witness :
  let p := message MCU2SYSTEM_VERSION_REP [1; 0; 0; 7; 0;0;0;0; 0;0;0;0; 0;0;0;0] 0 in
  exists w' sw hw,
    stm32_get_version_treat (frame_x p 5 ++ []) Demo.world0 = Ret PROTOCOL_RESULT_OK w' /\
    w_trace w' = [] ++
      [PropertySet (str "sys.stm32.sw.version") (str "MSM742." ++ sw);
       PropertySet (str "sys.stm32.hw.version") (str "MSM742." ++ hw)] /\
    undecimal sw = 7 /\ undecimal hw = 256.
Proof.
  intros p.
  destruct (version_roundtrip (H := Demo.demo_env) p 5 [] Demo.world0)
    as (w' & sw & hw & E1 & E2 & E3 & E4 & _);
    [by apply bytes_true|vm_compute; congruence|vm_compute; congruence|].
  exists w', sw, hw. split_and!; [exact E1|exact E2|exact E3|exact E4].
Defined.
