(* ===== verification/Daemon.v ===== *)
(** * The daemon: its threads and its start

    [external/scorpion/scorpion_uart.c] (receive side and servers),
    [scorpion_socket.c], [scorpion_event.c] and [scorpion_server.c].  Each
    thread's loop body is one definition; what [select], [read] and [recv]
    returned is its input. *)

From stdpp Require Import base list numbers strings.
From Stdlib Require Import ZArith Lia.
From S2P Require Import Prelude Text CircleBuffer Misc Codec World Uart Link Apk Stm32.
Open Scope Z_scope.

Definition KEYPAD_BASE_CODE : Z := 59.
Definition EV_KEY : Z := 1.
Definition MAX_SOCKET_BUFF_SIZE : Z := 4096.

(** The two descriptors a thread waits on: its device and its pipe.  The set
    is filled once, before the loop, and [select] leaves only the ready ones
    in it. *)
Record fdset := mkSet { rs_dev : bool; rs_pipe : bool }.
Definition fdset0 : fdset := mkSet true true.

(** What [select] did: it failed, or the device and the pipe are ready or not. *)
Inductive sel := SelFail | SelReady (dev pipe : bool).

Definition select (rs : fdset) (s : sel) : Z * fdset :=
  match s with
  | SelFail => (-1, rs)
  | SelReady d p =>
      let rs' := mkSet (rs_dev rs && d) (rs_pipe rs && p) in
      ((if rs_dev rs' then 1 else 0) + (if rs_pipe rs' then 1 else 0), rs')
  end.

(** [struct input_event], without its time stamp. *)
Record input_event := mkEvent { ev_type : Z; ev_code : Z; ev_value : Z }.

Section Daemon.
Context `{Env}.

(** ** Receiving from the microcontroller *)

Definition scorpion_uart_treat_gateway : prog world unit :=
  let* p := gets ppmngr_read in
  let* m := lift NullDeref p in
  let len := cb_datalen m in
  if len =? 0 then ret tt
  else
    let* buff := malloc len in
    let* r := lift OutOfBounds (cb_read_no_offset m buff len) in
    let* buff := lift NullDeref (snd r) in
    let* size := stm32_protocol_ayalyze buff len in
    let* p := gets ppmngr_read in
    let* m := lift NullDeref p in
    modify (set_ppmngr_read (Some (cb_read_move_offset m size))).

(** What the receive thread does with the [size] bytes it read. *)
Definition uart_received (temp_buff : list Z) (size : Z) : prog world unit :=
  let* p := gets ppmngr_read in
  let* m := lift NullDeref p in
  let* r := lift OutOfBounds (cb_write m temp_buff size) in
  do* modify (set_ppmngr_read (Some (snd r)));
  scorpion_uart_treat_gateway.

(** One turn of [scorpion_uart_recv_treat]: the set for the next turn and
    whether the thread ends.  [data] and [size] are what [read] gives. *)
Definition scorpion_uart_recv_treat (rs : fdset) (s : sel) (data : list Z) (size : Z)
  : prog world (fdset * bool) :=
  let '(n, rs') := select rs s in
  if n =? -1 then ret (rs', true)
  else if n =? 0 then ret (rs', false)
  else if rs_dev rs' && (size <=? 0) then ret (rs', true)
  else
    do* (if rs_dev rs' then uart_received data size else ret tt);
    ret (rs', rs_pipe rs').

(** One turn of the sender thread, up to its wait. *)
Definition scorpion_uart_send_thread_proc : prog world unit := scorpion_uart_send_treat.

(** ** Receiving from the application *)

(** One turn of [scorpion_socket_recv_treat]: [recv] returned [size] bytes
    [data]; the 256-byte buffer was cleared. *)
Definition scorpion_socket_recv_treat (data : list Z) (size : Z) : prog world unit :=
  if size =? -1 then ret tt
  else
    let* buff := lift OutOfBounds
      (memcpy (replicate (Z.to_nat MAX_TEMP_BUFF_SIZE) 0) 0 data 0 size) in
    do* scorpion_protocol_ayalyze buff size;
    ret tt.

(** ** Key events *)

Definition event_protocol_ayalyze (code value : Z) : prog world unit :=
  let index := u32 (code - KEYPAD_BASE_CODE) in
  let level := u32 value in
  scorpion_report_event_in index level.

(** One turn of [event_treat]; [data] is the event when [read] gave a whole
    one. *)
Definition event_treat (rs : fdset) (s : sel) (data : option input_event)
  : prog world (fdset * bool) :=
  let '(n, rs') := select rs s in
  if n =? -1 then ret (rs', true)
  else if n =? 0 then ret (rs', false)
  else
    do* (if rs_dev rs' then
           match data with
           | Some e =>
               if ev_type e =? EV_KEY then event_protocol_ayalyze (ev_code e) (ev_value e)
               else ret tt
           | None => ret tt
           end
         else ret tt);
    ret (rs', rs_pipe rs').

(** ** Starting *)

(** What the calls of a start-up return. *)
Record startup := mkStart {
  st_pipe : Z; st_cond : Z; st_mutex : Z; st_thread1 : Z; st_thread2 : Z;
  st_mngr1 : bool; st_buf1 : bool; st_mngr2 : bool; st_buf2 : bool
}.

Definition STM32_UART_DEV : list Z := str "/dev/ttyACM4".

Definition scorpion_uart_start_server (st : startup) : prog world Z :=
  if negb (st_pipe st =? 0) then ret (st_pipe st)
  else if negb (st_cond st =? 0) then ret (st_cond st)
  else if negb (st_mutex st =? 0) then ret (-1)
  else
    let* fd := scorpion_uart_create STM32_UART_DEV in
    do* modify (set_uart_fd fd);
    do* scorpion_uart_set_params fd termios_params;
    let* p := gets ppmngr_read in
    let* r1 := lift NullDeref (cb_init (st_mngr1 st) (st_buf1 st) p MAX_UART_BUFF_SIZE) in
    do* modify (set_ppmngr_read (snd r1));
    let* p := gets ppmngr_write in
    let* r2 := lift NullDeref (cb_init (st_mngr2 st) (st_buf2 st) p MAX_UART_BUFF_SIZE) in
    do* modify (set_ppmngr_write (snd r2));
    do* (if fst r2 then ret tt
         else let* p := gets ppmngr_read in modify (set_ppmngr_read (snd (cb_deinit p))));
    if negb (st_thread1 st =? 0) then ret (-1)
    else if negb (st_thread2 st =? 0) then ret (-1)
    else do* modify (set_send_thread_exit 0); ret 0.

(** [scorpion_uart_stop_server] as far as it changes the daemon's state: the
    byte in the pipe is the input of the receive thread. *)
Definition scorpion_uart_stop_server : prog world unit :=
  modify (set_send_thread_exit 1).

Definition scorpion_event_start_server (st : startup) : Z :=
  if negb (st_pipe st =? 0) then st_pipe st
  else if negb (st_cond st =? 0) then st_cond st
  else if negb (st_mutex st =? 0) then -1
  else if negb (st_thread1 st =? 0) then -1 else 0.

(** [fds]: what [android_get_control_socket], [listen] and [accept] return;
    [st] the start of the socket thread and its buffers, [ev] and [ua] of the
    two other servers. *)
Definition scorpion_socket_start_server (server_fd listened client_fd : Z) (st ev ua : startup)
  : prog world Z :=
  if server_fd <? 0 then exit (-1)
  else if listened <? 0 then exit (-1)
  else if client_fd <? 0 then exit (-1)
  else
    let* r1 := lift NullDeref (cb_init (st_mngr1 st) (st_buf1 st) None MAX_SOCKET_BUFF_SIZE) in
    if negb (fst r1) then exit (-1)
    else
      let* r2 := lift NullDeref (cb_init (st_mngr2 st) (st_buf2 st) None MAX_SOCKET_BUFF_SIZE) in
      if negb (fst r2) then ret (-1)
      else if negb (st_thread1 st =? 0) then ret (-1)
      else
        let _ := scorpion_event_start_server ev in
        do* scorpion_uart_start_server ua;
        ret 0.

(** [main] before its loop, and one turn of the loop that timed out (a
    signalled condition ends it: [true]). *)
Definition main_start (server_fd listened client_fd : Z) (st ev ua : startup) : prog world unit :=
  do* scorpion_socket_start_server server_fd listened client_fd st ev ua;
  stm32_send_version_req.

Definition main_turn (timedwait : Z) : prog world bool :=
  if timedwait =? 0 then ret true
  else
    do* stm32_send_heart_beat;
    do* scorpion_heart_beat_treat;
    ret false.

End Daemon.

(** ** The receive path, on the abstract state *)

Section ReceiveFacts.
Context `{Env}.

(** The whole queue is treated: the frames [g] in it, then [r] is kept. *)
Definition a_gateway (g : list item) (r : list Z) : prog aworld unit :=
  let* a := get in
  let* nb := a_ask (fun t => env_malloc t (zlen (a_rx a))) in
  do* lift NullDeref nb;
  do* a_deliver a_mcu_msg g;
  modify (a_set_rx r).

(** Bytes [c] arrive and complete the frames [g]. *)
Definition a_received (c : list Z) (g : list item) (r : list Z) : prog aworld unit :=
  do* modify (fun a => a_set_rx (a_rx a ++ c) a);
  a_gateway g r.

(** Programs that leave the receive queue alone when they return. *)
Definition keeps_rx {A} (c : prog aworld A) : Prop :=
  forall a x a', c a = Ret x a' -> a_rx a' = a_rx a.

Lemma keeps_bind {A B} (c : prog aworld A) (k : A -> prog aworld B) :
  keeps_rx c -> (forall x, keeps_rx (k x)) -> keeps_rx (bind c k).
Proof.
  intros Hc Hk a y a' E. unfold bind in E. destruct (c a) as [x a1|?|?] eqn:E1; try done.
  rewrite (Hk _ _ _ _ E). by apply (Hc _ _ _ E1).
Qed.

Lemma keeps_ret {A} (x : A) : keeps_rx (ret x).
Proof. intros a y a' E. by injection E as _ <-. Qed.
Lemma keeps_ask {A} (f : nat -> A) : keeps_rx (a_ask f).
Proof. intros a y a' E. by injection E as _ <-. Qed.
Lemma keeps_get : keeps_rx get.
Proof. intros a y a' E. by injection E as _ <-. Qed.
Lemma keeps_modify f : (forall a, a_rx (f a) = a_rx a) -> keeps_rx (modify f).
Proof. intros Hf a y a' E. by injection E as _ <-. Qed.
Lemma keeps_exit {A} n : keeps_rx (A := A) (exit n).
Proof. intros a y a' E. done. Qed.

Ltac keeps := repeat first
  [ apply keeps_bind; [|intros ?] | apply keeps_ret | apply keeps_ask | apply keeps_get
  | apply keeps_exit | apply keeps_modify; intros; reflexivity
  | match goal with |- keeps_rx (match ?o with Some _ => _ | None => _ end) => destruct o end
  | match goal with |- keeps_rx (if ?b then _ else _) => destruct b end ].

Lemma keeps_send_mcu id body : keeps_rx (a_send_mcu id body).
Proof. unfold a_send_mcu, a_uart. keeps. Qed.
Lemma keeps_send_apk id body : keeps_rx (a_send_apk id body).
Proof. unfold a_send_apk, a_socket. keeps. Qed.
Lemma keeps_mcu_msg p : keeps_rx (a_mcu_msg p).
Proof.
  unfold a_mcu_msg, a_ack. cbv zeta.
  repeat first [apply keeps_send_mcu | apply keeps_send_apk | progress keeps].
Qed.
Lemma keeps_deliver fs : keeps_rx (a_deliver a_mcu_msg fs).
Proof.
  induction fs as [|[n p x] fs IH]; cbn [a_deliver]; keeps; [apply keeps_mcu_msg|done].
Qed.

(** With memory, every frame is delivered. *)
Definition malloc_total : Prop := forall t n, env_malloc t n <> None.

Lemma deliver_true act fs a b a' : malloc_total -> a_deliver act fs a = Ret b a' -> b = true.
Proof.
  intros Hm. revert a. induction fs as [|[n p x] fs IH]; intros a E; [by injection E as <- _|].
  cbn [a_deliver] in E. rewrite bind_a_ask in E.
  destruct (env_malloc _ _) eqn:EM; [|by apply Hm in EM]. unfold bind in E.
  destruct ((if x =? xor_all p then act p else ret tt) (a_tick a)) as [[] a1|?|?]; try done. by apply (IH a1).
Qed.

Lemma implements_modify f g :
  (forall w, ok w -> ok (f w)) -> (forall w, ok w -> abs (f w) = g (abs w)) ->
  implements (modify f) (modify g).
Proof. intros H1 H2 w Hw. split_and!; [done|by apply H1|by apply H2]. Qed.

(** The messages of a stream, without the noise. *)
Definition msgs (fs : list item) : list (list Z * Z) := map (fun f => (it_msg f, it_check f)) fs.

(** The messages the checksum lets through have the body they need. *)
Definition wf_stream (fs : list item) : Prop :=
  Forall (fun m => snd m = xor_all (fst m) -> mcu_wf (fst m)) (msgs fs).

Lemma good_mcu (fs : list item) :
  wf_stream fs ->
  forall f junk, f ∈ fs -> it_check f = xor_all (it_msg f) ->
     implements (do* stm32_parse_a_full_msg
                   (mkBuff (frame (it_msg f) ++ junk) (zlen (frame (it_msg f)))); ret tt)
                (a_mcu_msg (it_msg f)).
Proof.
  intros Hwf f junk Hin Hx. apply stm32_parse_refines.
  unfold wf_stream in Hwf. rewrite Forall_forall in Hwf.
  apply (Hwf (it_msg f, it_check f)); [|done]. unfold msgs. apply list_elem_of_fmap.
  by exists f.
Qed.

(** Moving the read position of a queue [q] to its end [r]. *)
Lemma move_refines w q r :
  ok w -> queue_of (ppmngr_read w) = q -> zlen q <= MAX_UART_BUFF_SIZE ->
  (exists a, q = a ++ r) ->
  refines ((let* p := gets ppmngr_read in let* m := lift NullDeref p in
            modify (set_ppmngr_read (Some (cb_read_move_offset m (zlen q - zlen r))))) w)
          (modify (a_set_rx r) (abs w)).
Proof.
  intros Hw Hq Hlen [a ->]. destruct Hw. destruct ok_read as (m & E & Hm & Hl).
  run. rewrite E in *. run. simpl in Hq.
  pose proof (zlen_nonneg a). pose proof (zlen_nonneg r). rewrite zlen_app in *.
  unfold MAX_UART_BUFF_SIZE in *.
  destruct (cb_move_spec m (zlen a + zlen r - zlen r) Hm ltac:(lia)) as (Hm' & Hl' & HC).
  split_and!; [done| |].
  - split; simpl; auto. eexists. split; [done|]. split; [done|]. unfold MAX_UART_BUFF_SIZE. lia.
  - unfold abs, modify, a_set_rx. simpl. rewrite HC, Hq.
    replace (zlen a + zlen r - zlen r) with (zlen a) by lia. by rewrite drop_zlen.
Qed.

Lemma residue_suffix tl r : residue tl r -> exists a, tl = a ++ r.
Proof. intros [pre _|pre t _ _]; [by exists []|by exists pre]. Qed.

Lemma gateway_refines w fs tl r :
  malloc_total -> ok w -> queue_of (ppmngr_read w) = stream_bytes fs ++ tl ->
  Forall good_frame fs -> residue tl r -> wf_stream fs ->
  0 < zlen (stream_bytes fs ++ tl) ->
  refines (scorpion_uart_treat_gateway w) (a_gateway fs r (abs w)).
Proof.
  intros Hmt Hw Hq Hfs Hr Hwf Hpos. pose proof Hw as [_ _ _ _ _ (m & E & Hm & Hl) _].
  rewrite E in Hq. cbn [queue_of] in Hq. pose proof (contents_length m Hm) as HC.
  pose proof Hm as [_ _ Hd _ _]. unfold MAX_UART_BUFF_SIZE in Hl.
  unfold scorpion_uart_treat_gateway, a_gateway, cb_datalen. run. rewrite E. run.
  destruct (datalen m =? 0) eqn:E0; bool_cases; [rewrite Hq in HC; lia|].
  rewrite bind_get, bind_a_ask. cbn [malloc world_heap]. run.
  change (a_rx (abs w)) with (queue_of (ppmngr_read w)). rewrite E. cbn [queue_of].
  change (a_time (abs w)) with (w_time w). rewrite HC.
  destruct (env_malloc (w_time w) (datalen m)) as [c|] eqn:EM; [|by apply Hmt in EM].
  apply env_malloc_len in EM; [|lia].
  rewrite (cb_peek_spec m c (datalen m) Hm) by lia. rewrite Z.min_id. run. cbn [fst snd]. run.
  rewrite take_ge by (unfold zlen in *; lia). rewrite drop_ge by (unfold zlen in *; lia).
  rewrite Hq in *. rewrite zlen_app in HC. rewrite <- HC.
  assert (refines (stm32_protocol_ayalyze ((stream_bytes fs ++ tl) ++ [])
                     (zlen (stream_bytes fs) + zlen tl) (tick w))
           ((let* good := a_deliver a_mcu_msg fs in
             if good then ret (zlen (stream_bytes fs) + zlen tl - zlen r) else ret (-1))
              (abs (tick w)))) as R.
  { rewrite <- app_assoc. apply residue_refines; [done|done|lia|by apply good_mcu|].
    by apply ok_tick. }
  change (a_tick (abs w)) with (abs (tick w)). rewrite (bind_unfold (stm32_protocol_ayalyze _ _)).
  unfold bind in R at 1.
  pose proof (keeps_deliver fs (abs (tick w))) as K.
  pose proof (deliver_true a_mcu_msg fs (abs (tick w))) as T.
  rewrite (bind_unfold (a_deliver a_mcu_msg fs)).
  destruct (a_deliver a_mcu_msg fs (abs (tick w))) as [b a1|?|?];
    destruct (stm32_protocol_ayalyze _ _ (tick w)) as [size w1|?|?]; try done;
    try (destruct b; done).
  rewrite (T b a1 Hmt eq_refl) in R. destruct R as (-> & Hw1 & <-).
  specialize (K b _ eq_refl). change (queue_of (ppmngr_read w1) = queue_of (ppmngr_read w)) in K.
  rewrite E in K. cbn [queue_of] in K. rewrite Hq in K.
  rewrite <- zlen_app. apply move_refines; [done|done| |].
  - rewrite zlen_app. unfold MAX_UART_BUFF_SIZE. lia.
  - destruct (residue_suffix _ _ Hr) as (a & ->). exists (stream_bytes fs ++ a).
    by rewrite app_assoc.
Qed.


(** Bytes that fit are appended to the receive queue. *)
Lemma received_refines w c stale fs tl r :
  malloc_total -> ok w -> queue_of (ppmngr_read w) ++ c = stream_bytes fs ++ tl ->
  zlen (queue_of (ppmngr_read w)) + zlen c <= MAX_UART_BUFF_SIZE -> 0 < zlen c ->
  Forall good_frame fs -> residue tl r -> wf_stream fs ->
  refines (uart_received (c ++ stale) (zlen c) w) (a_received c fs r (abs w)).
Proof.
  intros Hmt Hw Hq Hfit Hc Hfs Hr Hwf. pose proof Hw as [? ? ? ? ? (m & E & Hm & Hl) ?].
  unfold MAX_UART_BUFF_SIZE in *. rewrite E in Hq, Hfit. cbn [queue_of] in Hq, Hfit.
  pose proof (contents_length m Hm) as HC. pose proof (zlen_nonneg (contents m)).
  unfold uart_received, a_received. run. rewrite E. run.
  destruct (cb_write_spec m (c ++ stale) (zlen c) Hm) as (n & m' & Ew & Hm' & Hl' & HQ);
    [lia|rewrite zlen_app; pose proof (zlen_nonneg stale); lia|].
  rewrite take_zlen in HQ. unfold Queue.push, Queue.room in HQ.
  rewrite Z.min_r in HQ by lia. injection HQ as -> HQ.
  unfold zlen in HQ. rewrite Nat2Z.id, firstn_all in HQ.
  rewrite Ew. run. cbn [snd].
  set (w1 := set_ppmngr_read (Some m') w).
  assert (ok w1) as Hw1.
  { destruct Hw. split; simpl; auto. exists m'. split_and!; [done|done|].
    unfold MAX_UART_BUFF_SIZE. lia. }
  replace (a_set_rx (a_rx (abs w) ++ c) (abs w)) with (abs w1).
  2: { subst w1. unfold abs, a_set_rx. simpl. rewrite HQ, E. done. }
  apply (gateway_refines w1 fs tl r); [done|done| |done|done|done|].
  - simpl. by rewrite HQ.
  - rewrite <- Hq, zlen_app. pose proof (zlen_nonneg (contents m)). lia.
Qed.

(** A frame that leaves room for the next read in the 2048-byte buffer. *)
Definition fits (f : item) : Prop :=
  zlen (it_noise f) + zlen (wire_x (it_msg f) (it_check f))
    <= MAX_UART_BUFF_SIZE - MAX_TEMP_BUFF_SIZE.

Lemma stream_cons f fs :
  stream_bytes (f :: fs) = (it_noise f ++ wire_x (it_msg f) (it_check f)) ++ stream_bytes fs.
Proof. done. Qed.

(** Cutting a stream anywhere: the complete frames before the cut, and what
    the analyser keeps for the next time. *)
Lemma split_stream fs x more :
  Forall good_frame fs -> Forall fits fs -> x ++ more = stream_bytes fs ->
  exists fs1 fs2 tl r,
    x = stream_bytes fs1 ++ tl /\ residue tl r /\ r ++ more = stream_bytes fs2 /\
    Forall good_frame fs1 /\ Forall good_frame fs2 /\ Forall fits fs2 /\
    msgs fs = msgs fs1 ++ msgs fs2 /\
    zlen r <= MAX_UART_BUFF_SIZE - MAX_TEMP_BUFF_SIZE /\ (more = [] -> fs2 = [] /\ r = []).
Proof.
  intros Hg Hf. revert x. induction Hg as [|[n p y] fs Hgf Hg IH]; intros x Hx.
  - apply app_nil in Hx as [-> ->]. exists [], [], [], [].
    split_and!; try constructor; try done; constructor.
  - apply Forall_cons in Hf as [Hff Hf]. pose proof Hgf as (Hn & Hp & Hm).
    cbn [it_noise it_msg it_check] in *.
    rewrite stream_cons in Hx. cbn [it_noise it_msg it_check] in Hx.
    set (W := n ++ wire_x p y) in *. unfold fits in Hff. cbn [it_noise it_msg it_check] in Hff.
    destruct (decide (length W <= length x)%nat) as [Hle|Hlt].
    + assert (x = W ++ drop (length W) x) as Ex.
      { rewrite <- (take_drop (length W) x) at 1. f_equal.
        apply (f_equal (take (length W))) in Hx.
        by rewrite take_app_le, take_app_length in Hx by lia. }
      rewrite Ex, <- app_assoc in Hx. apply app_inv_head in Hx.
      destruct (IH Hf _ Hx) as (fs1 & fs2 & tl & r & E1 & Hr & E2 & G1 & G2 & F2 & EM & HL & HE).
      exists (mkItem n p y :: fs1), fs2, tl, r. split_and!; try done.
      * rewrite stream_cons, <- app_assoc. cbn [it_noise it_msg it_check]. fold W.
        by rewrite <- E1.
      * by constructor.
      * cbn [msgs map]. fold (msgs fs) (msgs fs1). by rewrite EM.
    + assert (x = take (length x) W) as Ex.
      { apply (f_equal (take (length x))) in Hx.
        by rewrite take_app_length, take_app_le in Hx by lia. }
      assert (more <> []) as Hmore.
      { intros ->. apply (f_equal length) in Hx. rewrite app_nil_r, length_app in Hx. lia. }
      assert (zlen x <= MAX_UART_BUFF_SIZE - MAX_TEMP_BUFF_SIZE) as Hxl
        by (subst W; rewrite <- zlen_app in Hff; unfold zlen in *; lia).
      destruct (decide (length x <= length n)%nat) as [Hln|Hln].
      * exists [], (mkItem n p y :: fs), x, x. split_and!; try done; try by constructor.
        -- subst W. rewrite take_app_le in Ex by done. rewrite Ex. constructor. by apply Forall_take.
      * (* the noise is complete and the frame has started *)
        subst W. rewrite take_app_ge in Ex by lia.
        set (k := (length x - length n)%nat) in *.
        assert (k < length (wire_x p y))%nat as Hk by (rewrite length_app in Hlt; lia).
        exists [], (mkItem [] p y :: fs), x, (take k (wire_x p y)).
        assert (take k (wire_x p y) ++ more = wire_x p y ++ stream_bytes fs) as Er.
        { rewrite Ex in Hx. rewrite <- !app_assoc in Hx. by apply app_inv_head in Hx. }
        destruct (prefix_partial p y k Hk) as [E0|(t & Et & Ht)].
        { apply (f_equal length) in E0. rewrite length_take in E0. simpl in E0. lia. }
        split_and!; try done; try (constructor; [|done]).
        -- rewrite Ex, Et. by constructor.
        -- split_and!; [constructor|done|done].
        -- unfold fits. simpl. change (zlen []) with 0. pose proof (zlen_nonneg n). lia.
        -- assert (zlen (take k (wire_x p y)) <= zlen x); [|lia].
           apply (f_equal zlen) in Ex. rewrite zlen_app in Ex. pose proof (zlen_nonneg n). lia.
Qed.

(** The receive thread on a list of reads; [stale] is what is left in its
    buffer behind the bytes read. *)
Fixpoint recv_all (stale : list Z) (cs : list (list Z)) : prog world unit :=
  match cs with
  | [] => ret tt
  | c :: cs' => do* uart_received (c ++ stale) (zlen c); recv_all stale cs'
  end.

(** Each read [c] completes the frames [g] and leaves [r] in the queue. *)
Fixpoint a_recv_all (l : list (list Z * list item * list Z)) : prog aworld unit :=
  match l with
  | [] => ret tt
  | (c, g, r) :: l' => do* a_received c g r; a_recv_all l'
  end.

Lemma received_rx c g r a x a' : a_received c g r a = Ret x a' -> a_rx a' = r.
Proof.
  unfold a_received, a_gateway. rewrite bind_modify, bind_get, bind_a_ask.
  destruct (env_malloc _ _); [|done]. rewrite bind_lift_Some, bind_unfold.
  destruct (a_deliver _ _ _); try done. intros E. by injection E as _ <-.
Qed.

(** The cuts [l] of a byte stream, [q] queued before the first. *)
Inductive cuts : list Z -> list (list Z * list item * list Z) -> Prop :=
  | cuts_nil q : cuts q []
  | cuts_cons q c g r tl l :
      q ++ c = stream_bytes g ++ tl -> residue tl r -> Forall good_frame g -> wf_stream g ->
      0 < zlen c -> zlen q + zlen c <= MAX_UART_BUFF_SIZE ->
      cuts r l -> cuts q ((c, g, r) :: l).

Definition end_queue (q : list Z) (l : list (list Z * list item * list Z)) : list Z :=
  foldl (fun _ e => snd e) q l.

Lemma cuts_exist q cs fs :
  Forall good_frame fs -> Forall fits fs -> wf_stream fs ->
  Forall (fun c => 0 < zlen c <= MAX_TEMP_BUFF_SIZE) cs ->
  zlen q <= MAX_UART_BUFF_SIZE - MAX_TEMP_BUFF_SIZE ->
  q ++ concat cs = stream_bytes fs -> (cs = [] -> fs = [] /\ q = []) ->
  exists l, map (fun e => fst (fst e)) l = cs /\ cuts q l /\
    concat (map (fun e => msgs (snd (fst e))) l) = msgs fs /\ end_queue q l = [].
Proof.
  revert fs q. induction cs as [|c cs IH]; intros fs q Hg Hf Hwf Hcs Hfit Hq H0.
  - destruct (H0 eq_refl) as [-> ->]. exists []. split_and!; try done. constructor.
  - apply Forall_cons in Hcs as [Hc Hcs].
    destruct (split_stream fs (q ++ c) (concat cs) Hg Hf)
      as (fs1 & fs2 & tl & r & E1 & Hr & E2 & G1 & G2 & F2 & EM & HL & HE);
      [rewrite <- app_assoc; exact Hq|].
    unfold wf_stream in Hwf. rewrite EM in Hwf. apply Forall_app in Hwf as [W1 W2].
    destruct (IH fs2 r G2 F2 W2 Hcs HL E2) as (l & El & Hl & Em & Ee).
    { intros ->. by apply HE. }
    exists ((c, fs1, r) :: l). cbn [map fst snd concat]. split_and!.
    + by rewrite El.
    + econstructor; eauto; unfold MAX_UART_BUFF_SIZE, MAX_TEMP_BUFF_SIZE in *; lia.
    + by rewrite Em, EM.
    + exact Ee.
Qed.

Lemma cuts_refines stale q l w :
  malloc_total -> cuts q l -> ok w -> queue_of (ppmngr_read w) = q ->
  refines (recv_all stale (map (fun e => fst (fst e)) l) w) (a_recv_all l (abs w)).
Proof.
  intros Hmt Hl. revert w. induction Hl as [q|q c g r tl l E Hr Hg Hwf Hc Hfit Hl IH];
    intros w Hw Hq; [simpl; auto|].
  cbn [map fst recv_all a_recv_all]. subst q.
  pose proof (received_refines w c stale g tl r Hmt Hw E Hfit Hc Hg Hr Hwf) as R.
  rewrite !bind_unfold. pose proof (received_rx c g r (abs w)) as RX.
  destruct (uart_received _ _ w) as [[] w1|?|?], (a_received c g r (abs w)) as [[] a1|?|?];
    try done.
  destruct R as (_ & Hw1 & <-). apply IH; [done|]. exact (RX tt _ eq_refl).
Qed.

(** Programs that return or end the process, and never fault. *)
Definition faultless {S A} (r : result S A) : Prop := match r with Fault _ _ => False | _ => True end.
Definition sound {S A} (c : prog S A) : Prop := forall s, faultless (c s).

Lemma sound_bind {S A B} (c : prog S A) (k : A -> prog S B) : sound c -> (forall x, sound (k x)) -> sound (bind c k).
Proof. intros Hc Hk s. rewrite bind_unfold. specialize (Hc s). destruct (c s); [apply Hk|done|done]. Qed.

Ltac sounds := repeat first
  [ apply sound_bind; [|intros ?]
  | match goal with |- sound (match ?o with Some _ => _ | None => _ end) => destruct o end
  | match goal with |- sound (if ?b then _ else _) => destruct b end
  | intros ?; exact I ].

Lemma sound_mcu_msg p : sound (a_mcu_msg p).
Proof. unfold a_mcu_msg, a_ack, a_send_mcu, a_send_apk, a_uart, a_socket. cbv zeta. sounds. Qed.

Lemma sound_deliver fs : sound (a_deliver a_mcu_msg fs).
Proof. induction fs as [|[n p x] fs IH]; cbn [a_deliver]; sounds; [apply sound_mcu_msg|done]. Qed.

Lemma sound_recv_all l : malloc_total -> sound (a_recv_all l).
Proof.
  intros Hm. induction l as [|[[c g] r] l IH]; cbn [a_recv_all]; [by intros ?|]. apply sound_bind; [|by intros ?].
  unfold a_received, a_gateway. apply sound_bind; [by intros ?|]. intros _. apply sound_bind; [by intros ?|]. intros a.
  intros s. rewrite bind_a_ask. destruct (env_malloc _ _) eqn:E; [|by apply Hm in E]. rewrite bind_lift_Some.
  assert (sound (do* a_deliver a_mcu_msg g; modify (a_set_rx r))) as D by (apply sound_bind; [apply sound_deliver|by intros ? ?]).
  apply D.
Qed.

Lemma refines_faultless {A} (r : result world A) (r' : result aworld A) : refines r r' -> faultless r' -> faultless r.
Proof. by destruct r, r'. Qed.

End ReceiveFacts.

(** ** What the daemon guarantees *)

(** C1: the receive path is independent of how the bytes arrive.  Take any
    stream of frames (noise in between, right or wrong check bytes, every
    frame with its noise at most 1792 bytes) and cut it into reads of 1 to
    256 bytes in any way.  Running the receive thread on these reads through
    the 2048-byte ring buffer, which is empty at first, has the effect of a
    sequence of deliveries whose messages, put together, are the messages of
    the stream in order and once each, and the buffer is empty at the end; no
    access leaves a buffer and every loop ends: the run returns, or the process
    exits because the application's socket is gone.  Two things are assumed.
    No allocation fails ([malloc_total]): the code uses the copy of the queue
    without a test, and moves the read position by -1 when a frame could not be
    copied.  And every message whose check byte is right has the bytes of body
    that its identifier asks for ([wf_stream]): the handlers do not look at the
    length, and a shorter body is read past the end of its buffer. *)
Theorem uart_chunking `{Env} stale cs fs w :
  malloc_total -> ok w -> queue_of (ppmngr_read w) = [] ->
  Forall good_frame fs -> Forall fits fs -> wf_stream fs ->
  Forall (fun c => 0 < zlen c <= MAX_TEMP_BUFF_SIZE) cs ->
  concat cs = stream_bytes fs ->
  faultless (recv_all stale cs w) /\
  exists l, map (fun e => fst (fst e)) l = cs /\
    concat (map (fun e => msgs (snd (fst e))) l) = msgs fs /\ end_queue [] l = [] /\
    refines (recv_all stale cs w) (a_recv_all l (abs w)).
Proof.
  intros Hmt Hw Hq Hg Hf Hwf Hcs Hs.
  destruct (cuts_exist [] cs fs) as (l & El & Hl & Em & Ee); auto.
  { vm_compute. congruence. }
  { intros ->. split; [|done]. pose proof (stream_length fs Hg) as HL. rewrite <- Hs in HL.
    destruct fs; [done|]. change (zlen (concat [])) with 0 in HL. simpl in HL. lia. }
  assert (refines (recv_all stale cs w) (a_recv_all l (abs w))) as R by (rewrite <- El; by eapply cuts_refines).
  split; [eapply refines_faultless; [exact R|by apply sound_recv_all]|]. by exists l.
Qed.

Definition demo_cuts : list (list Z) :=
  let s := stream_bytes [mkItem [3] demo_gpio (xor_all demo_gpio)] in
  [take 5 s; take 4 (drop 5 s); drop 9 s].

Lemma demo_malloc_total : malloc_total (H := Demo.demo_env).
Proof. intros t n. discriminate. Qed.

Lemma demo_items_ok :
  Forall good_frame [mkItem [3] demo_gpio (xor_all demo_gpio)] /\
  Forall fits [mkItem [3] demo_gpio (xor_all demo_gpio)] /\
  wf_stream [mkItem [3] demo_gpio (xor_all demo_gpio)].
Proof.
  split_and!; (constructor; [|constructor]).
  - split_and!; [by repeat constructor|by apply bytes_true|vm_compute; congruence].
  - vm_compute. congruence.
  - intros _. apply demo_gpio_wf.
Qed.

Lemma uart_chunking_witness :
  exists l, map (fun e => fst (fst e)) l = demo_cuts /\
    concat (map (fun e => msgs (snd (fst e))) l) = [(demo_gpio, xor_all demo_gpio)] /\
    end_queue [] l = [] /\
    refines (recv_all (H := Demo.demo_env) [] demo_cuts Demo.world0)
            (a_recv_all (H := Demo.demo_env) l (abs Demo.world0)).
Proof.
  destruct demo_items_ok as (Hg & Hf & Hwf).
  refine (proj2 (uart_chunking (H := Demo.demo_env) [] demo_cuts
           [mkItem [3] demo_gpio (xor_all demo_gpio)] Demo.world0 demo_malloc_total world0_ok
           eq_refl Hg Hf Hwf _ _)).
  - repeat constructor; vm_compute; congruence.
  - vm_compute. reflexivity.
Defined.

(** Noise blocks the receiver for ever.  When the 2048-byte receive
    buffer is full of bytes without a delimiter, whatever arrives is dropped
    and the buffer stays as it is. *)
Theorem noise_blocks_receiver `{Env} w m c stale :
  malloc_total -> ok w -> ppmngr_read w = Some m -> zlen (contents m) = MAX_UART_BUFF_SIZE ->
  nomagic (contents m) -> 0 < zlen c <= MAX_TEMP_BUFF_SIZE ->
  exists w', uart_received (c ++ stale) (zlen c) w = Ret tt w' /\ ok w' /\
    queue_of (ppmngr_read w') = contents m /\ w_trace w' = w_trace w.
Proof.
  intros Hmt Hw E Hfull Hn Hc. pose proof Hw as [_ _ _ _ _ (m' & E' & Hm & Hl) _].
  rewrite E in E'. injection E' as <-. pose proof (contents_length m Hm) as HC.
  unfold uart_received. run. rewrite E. run. unfold cb_write, cb_full.
  destruct (buflen m =? datalen m) eqn:Ef; bool_cases; [|lia]. run. cbn [snd].
  set (w1 := set_ppmngr_read (Some m) w).
  assert (ok w1) as Hw1 by (destruct Hw; split; simpl; eauto).
  pose proof (gateway_refines w1 [] (contents m) (contents m) Hmt Hw1 eq_refl
    ltac:(constructor) ltac:(by constructor) ltac:(constructor)) as R.
  cbn [stream_bytes map concat app] in R. unfold MAX_UART_BUFF_SIZE in *.
  specialize (R ltac:(lia)). unfold a_gateway in R. rewrite bind_get, bind_a_ask in R.
  destruct (env_malloc _ _) as [b|] eqn:EM; [|by apply Hmt in EM].
  destruct (scorpion_uart_treat_gateway w1) as [[] w'|?|?]; try done.
  destruct R as (_ & Hw' & EA). exists w'. split_and!; [done|done| |].
  - by apply (f_equal a_rx) in EA.
  - by apply (f_equal a_trace) in EA.
Qed.

Definition noise_world : world :=
  set_ppmngr_read (Some (mkCB (replicate 2048 1) 2048 2048 0 0)) Demo.world0.

Lemma noise_world_ok : ok noise_world.
Proof.
  destruct world0_ok. split; auto. exists (mkCB (replicate 2048 1) 2048 2048 0 0).
  split_and!; [done| |done]. split; try (vm_compute; congruence); vm_compute; split; congruence.
Qed.

Lemma noise_blocks_receiver_witness :
  exists w', uart_received (H := Demo.demo_env) ([126; 1] ++ []) 2 noise_world = Ret tt w' /\
    ok w' /\ queue_of (ppmngr_read w') = contents (mkCB (replicate 2048 1) 2048 2048 0 0) /\
    w_trace w' = [].
Proof.
  apply (noise_blocks_receiver (H := Demo.demo_env) noise_world
           (mkCB (replicate 2048 1) 2048 2048 0 0) [126; 1] [] demo_malloc_total noise_world_ok eq_refl);
    [vm_compute; reflexivity| |vm_compute; split; congruence].
  change (contents _) with (replicate 2048 1). apply Forall_replicate. unfold MAGIC_CHAR. lia.
Defined.

(** The socket thread's buffer after a read. *)
Lemma socket_buffer data :
  zlen data <= MAX_TEMP_BUFF_SIZE ->
  exists slack, memcpy (replicate (Z.to_nat MAX_TEMP_BUFF_SIZE) 0) 0 data 0 (zlen data)
    = Some (data ++ slack).
Proof.
  unfold MAX_TEMP_BUFF_SIZE. intros Hd. pose proof (zlen_nonneg data). eexists.
  rewrite memcpy_Some by (rewrite ?zlen_app; unfold zlen in *; rewrite ?length_replicate; lia).
  unfold splice. change (Z.to_nat 0) with 0%nat. cbn [take app]. rewrite drop_0.
  unfold zlen at 1. rewrite Nat2Z.id, firstn_all. done.
Qed.

(** A frame that arrives in two pieces on the socket is lost.  The
    application side has no buffer between reads: whatever the cut, neither
    piece has any effect, so the message never reaches its handler. *)
Theorem socket_split_frame_lost `{Env} p k w :
  (0 < k < length (wire p))%nat -> zlen (wire p) <= MAX_TEMP_BUFF_SIZE ->
  scorpion_socket_recv_treat (take k (wire p)) (Z.of_nat k) w = Ret tt w /\
  scorpion_socket_recv_treat (drop k (wire p)) (zlen (wire p) - Z.of_nat k) w = Ret tt w.
Proof.
  intros Hk Hlen. unfold MAX_TEMP_BUFF_SIZE in Hlen.
  assert (zlen (take k (wire p)) = Z.of_nat k) as E1 by (unfold zlen; len).
  assert (zlen (drop k (wire p)) = zlen (wire p) - Z.of_nat k) as E2 by (unfold zlen in *; len).
  assert (forall d tl r, d = tl -> residue tl r -> zlen d <= 256 ->
    scorpion_socket_recv_treat d (zlen d) w = Ret tt w) as K.
  { intros d tl r -> Hr Hd. pose proof (zlen_nonneg tl). unfold scorpion_socket_recv_treat.
    destruct (_ =? -1) eqn:E; bool_cases; [lia|].
    destruct (socket_buffer tl Hd) as (slack & ->). run.
    pose proof (ayalyze_residue (fun m => do* scorpion_parse_a_full_msg m; ret tt) [] tl r slack w
      ltac:(constructor) Hr) as A. cbn [stream_bytes map concat app] in A.
    change (zlen []) with 0 in A. rewrite Z.add_0_l in A. specialize (A ltac:(lia)).
    unfold scorpion_protocol_ayalyze. rewrite (bind_Ret _ _ _ _ _ A). done. }
  rewrite <- E2, <- E1. split.
  - destruct (prefix_partial p (xor_all p) k ltac:(apply Hk)) as [E0|(t & Et & Ht)].
    + fold (wire p) in E0. rewrite E0 in E1. change (zlen []) with 0 in E1. lia.
    + fold (wire p) in Et. rewrite Et. eapply K; [reflexivity|apply (residue_frame []); [constructor|done]|].
      rewrite <- Et, E1. unfold zlen in Hlen. lia.
  - assert (exists body, nomagic body /\ drop k (wire p) = body ++ MAGIC_CHAR :: []) as (body & Hb & Ed).
    { destruct k as [|k]; [lia|]. unfold wire, wire_x in *. cbn [drop].
      exists (drop k (stuff (p ++ [xor_all p]))).
      split; [apply Forall_drop, stuff_nomagic|]. rewrite drop_app_le; [done|].
      cbn [length] in Hk. rewrite length_app in Hk. cbn [length] in Hk. lia. }
    rewrite Ed. eapply K; [reflexivity|apply residue_frame; [done|constructor]|].
    rewrite <- Ed, E2. lia.
Qed.

Lemma socket_split_frame_lost_witness :
  scorpion_socket_recv_treat (H := Demo.demo_env) (take 6 (wire demo_beat)) 6 Demo.world0
    = Ret tt Demo.world0 /\
  scorpion_socket_recv_treat (H := Demo.demo_env) (drop 6 (wire demo_beat)) 9 Demo.world0
    = Ret tt Demo.world0.
Proof.
  apply (socket_split_frame_lost (H := Demo.demo_env) demo_beat 6 Demo.world0);
    [vm_compute; lia|vm_compute; congruence].
Defined.

(** Key events.  A key with code 59 to 74 is reported with the bit of
    its channel, and its value in that bit; the 16 codes above are reported
    with an empty channel mask, because the mask is cut to 16 bits; for any
    other code the shift is undefined. *)
Theorem event_channels `{Env} w code value :
  ok w -> 0 <= code < 65536 -> value = 0 \/ value = 1 ->
  (59 <= code <= 74 ->
   refines (event_protocol_ayalyze code value w)
     (a_send_apk SCORPION2APK_EVENT_IN
        (le_split 2 (2 ^ (code - 59)) ++ le_split 2 (value * 2 ^ (code - 59))) (abs w))) /\
  (75 <= code <= 90 ->
   refines (event_protocol_ayalyze code value w)
     (a_send_apk SCORPION2APK_EVENT_IN [0; 0; 0; 0] (abs w))) /\
  (code < 59 \/ 90 < code ->
   exists w', event_protocol_ayalyze code value w = Fault BadShift w').
Proof.
  intros Hw Hc Hv. unfold event_protocol_ayalyze, KEYPAD_BASE_CODE.
  assert (u32 value = value) as Ev by (apply u32_id; lia).
  pose proof (scorpion_report_event_in_refines (u32 (code - 59)) (u32 value)
    ltac:(apply u32_range) w Hw) as R. rewrite Ev in *.
  split_and!.
  - intros Hr. rewrite u32_id in * by lia. destruct (_ <? 32) eqn:E; bool_cases; [|lia].
    unfold event_body in R. rewrite !Z.shiftl_mul_pow2, Z.mul_1_l in R by lia.
    assert (0 < 2 ^ (code - 59) <= 2 ^ 15) as HP
      by (split; [apply Z.pow_pos_nonneg; lia|apply Z.pow_le_mono_r; lia]).
    rewrite u32_id in R by (destruct Hv as [-> | ->]; lia). exact R.
  - intros Hr. rewrite u32_id in * by lia. destruct (_ <? 32) eqn:E; bool_cases; [|lia].
    assert (event_body (code - 59) value = [0; 0; 0; 0]) as EB; [|by rewrite EB in R].
    unfold event_body. rewrite !Z.shiftl_mul_pow2, Z.mul_1_l by lia.
    assert (2 ^ (code - 59) = 65536 * 2 ^ (code - 75)) as ->
      by (change 65536 with (2 ^ 16); rewrite <- Z.pow_add_r by lia; f_equal; lia).
    assert (0 < 2 ^ (code - 75) <= 2 ^ 15) as HP
      by (split; [apply Z.pow_pos_nonneg; lia|apply Z.pow_le_mono_r; lia]).
    rewrite u32_id by (destruct Hv as [-> | ->]; lia).
    assert (forall z, le_split 2 (65536 * z) = [0; 0]) as L.
    { intros z. cbn [le_split]. f_equal; [|f_equal].
      - replace (65536 * z) with (256 * z * 256) by lia. apply Z.mod_mul. lia.
      - replace (65536 * z) with (256 * z * 256) by lia. rewrite Z.div_mul by lia.
        rewrite Z.mul_comm. apply Z.mod_mul. lia. }
    rewrite L. replace (value * (65536 * 2 ^ (code - 75))) with (65536 * (value * 2 ^ (code - 75))) by lia.
    by rewrite L.
  - intros Hr. assert (32 <= u32 (code - 59)) as Hbig.
    { destruct (decide (code < 59)).
      - unfold u32. rewrite <- (Z.mod_add (code - 59) 1) by lia. rewrite Z.mod_small by lia. lia.
      - rewrite u32_id by lia. lia. }
    destruct (_ <? 32) eqn:E; bool_cases; [lia|].
    rewrite bind_a_ask, bind_get, bind_modify in R.
    destruct (scorpion_report_event_in _ _ w) as [?|?|f w'] eqn:ER; try done.
    destruct R as (-> & _). by exists w'.
Qed.

Lemma event_channels_witness :
  refines (event_protocol_ayalyze (H := Demo.demo_env) 61 1 Demo.world0)
     (a_send_apk (H := Demo.demo_env) SCORPION2APK_EVENT_IN [4; 0; 4; 0] (abs Demo.world0)).
Proof.
  destruct (event_channels (H := Demo.demo_env) Demo.world0 61 1 world0_ok) as (R & _ & _);
    [lia|by right|]. apply R. lia.
Defined.

(** The daemon's static data before [main]. *)
Definition world_init : world := mkWorld 0 0 0 0 DEFAULT_HEART_BEAT_THREHOLD 0 None None 0 [].

(** The start.  When every call of the start-up succeeds the daemon
    reaches the invariant [ok] with empty queues, an 8N1 line at 115200 baud,
    and the version request queued as its first message. *)
Theorem main_start_ok `{Env} server client st ev ua :
  0 <= server -> 0 <= client ->
  st_mngr1 st && st_buf1 st && st_mngr2 st && st_buf2 st = true -> st_thread1 st = 0 ->
  st_mngr1 ua && st_buf1 ua && st_mngr2 ua && st_buf2 ua = true ->
  st_pipe ua = 0 -> st_cond ua = 0 -> st_mutex ua = 0 -> st_thread1 ua = 0 -> st_thread2 ua = 0 ->
  (forall t d, env_open t d = 5) -> (forall t fd, env_tcgetattr t fd <> None) ->
  exists w, scorpion_socket_start_server server 0 client st ev ua world_init = Ret 0 w /\
    ok w /\ a_rx (abs w) = [] /\ a_tx (abs w) = [] /\
    (exists cc, w_trace w = [TcSet 5 (mkTermios 0 0 (Z.lor CS8 B115200) 0 cc)]) /\
    refines (main_start server 0 client st ev ua world_init)
            (a_send_mcu SYSTEM2MCU_VERSION_REQ [] (abs w)).
Proof.
  intros Hs Hc M1 T1 M2 P1 P2 P3 T2 T3 Ho Ht.
  assert (exists w, scorpion_socket_start_server server 0 client st ev ua world_init = Ret 0 w /\
    ok w /\ a_rx (abs w) = [] /\ a_tx (abs w) = [] /\
    (exists cc, w_trace w = [TcSet 5 (mkTermios 0 0 (Z.lor CS8 B115200) 0 cc)])) as (w & E & Hw & Q).
  { unfold scorpion_socket_start_server, scorpion_uart_start_server, scorpion_uart_create,
      scorpion_uart_set_params.
    apply andb_true_iff in M1 as [M1 ->], M2 as [M2 ->].
    apply andb_true_iff in M1 as [M1 ->], M2 as [M2 ->].
    apply andb_true_iff in M1 as [-> ->], M2 as [-> ->].
    rewrite T1, P1, P2, P3, T2, T3.
    destruct (server <? 0) eqn:E1; bool_cases; [lia|].
    destruct (client <? 0) eqn:E2; bool_cases; [lia|].
    unfold cb_init. change (0 <? 0) with false. change (MAX_SOCKET_BUFF_SIZE =? 0) with false.
    change (MAX_UART_BUFF_SIZE =? 0) with false. cbn [negb andb Z.eqb].
    do 4 (run; cbn [fst snd negb]). rewrite Ho. change (5 <? 0) with false. cbv iota. run.
    destruct (env_tcgetattr (w_time (set_uart_fd 5 (tick world_init))) 5) as [old|] eqn:EO;
      [|by apply Ht in EO].
    eexists. split; [reflexivity|]. split_and!; [|done|done|eexists; reflexivity].
    split; try (vm_compute; split; congruence); try (vm_compute; congruence);
      (eexists; split; [reflexivity|split; [|reflexivity]]);
      (split; first [vm_compute; split; congruence | vm_compute; reflexivity]). }
  exists w. destruct Q as (Q1 & Q2 & Q3). split_and!; try done.
  unfold main_start. rewrite (bind_Ret _ _ _ _ _ E). by apply stm32_send_version_req_refines.
Qed.

Definition demo_start : startup := mkStart 0 0 0 0 0 true true true true.

Lemma main_start_ok_witness :
  exists w, scorpion_socket_start_server (H := Demo.demo_env) 3 0 4 demo_start demo_start demo_start
              world_init = Ret 0 w /\ ok w /\ a_rx (abs w) = [] /\ a_tx (abs w) = [].
Proof.
  destruct (main_start_ok (H := Demo.demo_env) 3 4 demo_start demo_start demo_start)
    as (w & E & Hw & Q1 & Q2 & _); try reflexivity; try lia; [discriminate|].
  exists w. split_and!; assumption.
Defined.

(** before the UART server is started there is no transmit queue, and
    the descriptor's initial value 0 passes for an open one: a message of the
    application that the socket thread, which is started first, forwards to
    the microcontroller in that time dereferences a null pointer. *)
Theorem early_message_faults `{Env} p junk :
  malloc_total -> apk_wf p -> msg_id p = APK2SCORPION_DELAY_TIME ->
  exists w, scorpion_parse_a_full_msg (mkBuff (frame p ++ junk) (zlen (frame p))) world_init
    = Fault NullDeref w.
Proof.
  intros Hmt (Hb & Hp & _ & _ & H3 & _) Hid. specialize (H3 Hid).
  destruct (frame_fields p (xor_all p) junk Hp) as (E1 & (len & E3) & E5 & _ & E9 & _).
  unfold frame. unfold scorpion_parse_a_full_msg, scorpion_parse_header, scorpion_parse_protocol.
  cbn [bm_buf]. rewrite E1, E3, E5, E9, Hid. run.
  destruct (b2z _ <? 0) eqn:E; bool_cases; [unfold b2z in E; destruct (_ =? _); lia|].
  destruct (body_word (msg_body p) ([xor_all p; MAGIC_CHAR] ++ junk) (bytes_body p Hb) H3)
    as (EW & _ & _).
  run. change (APK2SCORPION_DELAY_TIME =? APK2SCORPION_GENERAL_ACK) with false.
  change (APK2SCORPION_DELAY_TIME =? APK2SCORPION_HEART_BEAT) with false.
  change (APK2SCORPION_DELAY_TIME =? APK2SCORPION_DELAY_TIME) with true. cbv iota.
  unfold scorpion_delay_time_treat. rewrite EW. run.
  unfold stm32_send_delay_time, uninit, stm32_protocol_build_header. run.
  set (v := le_combine _). set (raw := env_stack _ _).
  assert (zlen raw = 15) as HR by (apply env_stack_len; lia).
  set (hdr := header_bytes _ _ _).
  destruct (packet_shape raw hdr (le_split 4 v) (length_header _ _ _) HR) as (u1 & u2 & u3 & ->).
  unfold stm32_protocol_send_data.
  pose proof (send_data_wire scorpion_uart_send u1 u2 u3 (hdr ++ le_split 4 v)
    (set_mcu_seq (u32 (mcu_msg_seq_number (tick world_init) + 1)) (tick world_init))
    ltac:(apply bytes_app; split; [apply bytes_header|apply bytes_le_split]) ltac:(reflexivity)) as S.
  change (zlen (hdr ++ le_split 4 v) + 3) with 15 in S.
  rewrite (bind_unfold (protocol_send_data _ _ _)), S. cbn [malloc world_heap]. rewrite bind_ask.
  destruct (env_malloc _ _) as [c|] eqn:EM; [|by apply Hmt in EM]. eexists. reflexivity.
Qed.

Lemma early_message_faults_witness :
  exists w, scorpion_parse_a_full_msg (H := Demo.demo_env)
    (mkBuff (frame demo_delay ++ []) (zlen (frame demo_delay))) world_init = Fault NullDeref w.
Proof.
  apply (early_message_faults (H := Demo.demo_env) demo_delay [] demo_malloc_total demo_delay_wf).
  vm_compute. reflexivity.
Defined.

(** Turns of the receive thread, until it ends ([true]). *)
Fixpoint recv_turns `{Env} (turns : list (sel * list Z * Z)) (rs : fdset) : prog world bool :=
  match turns with
  | [] => ret false
  | (s, data, size) :: turns' =>
      let* r := scorpion_uart_recv_treat rs s data size in
      if snd r : bool then ret true else recv_turns turns' (fst r)
  end.

Lemma unwatched_turn `{Env} rs d p data size :
  rs_pipe rs = false -> 0 < size ->
  scorpion_uart_recv_treat rs (SelReady d p) data size =
    if rs_dev rs && d
    then do* uart_received data size; ret (mkSet true false, false)
    else ret (mkSet false false, false).
Proof.
  intros Hp Hs. unfold scorpion_uart_recv_treat, select. rewrite Hp.
  destruct (rs_dev rs && d); [|done]. cbn. destruct (size <=? 0) eqn:E; bool_cases; [lia|done].
Qed.

(** a stop request is lost once data has come.  The descriptor set is
    not filled again before [select]: after one turn in which only the UART
    was ready the pipe is not watched any more, and no later turn ends the
    thread because of it. *)
Theorem stop_request_lost `{Env} turns rs w :
  rs_pipe rs = false ->
  Forall (fun t => fst (fst t) <> SelFail /\ 0 < snd t) turns ->
  match recv_turns turns rs w with
  | Ret ended _ => ended = false
  | _ => True
  end.
Proof.
  intros Hrs Ht. revert rs w Hrs. induction Ht as [|[[s data] size] turns [Hs Hsz] _ IH];
    intros rs w Hrs; [done|]. cbn [fst snd] in *.
  destruct s as [|d p]; [done|]. cbn [recv_turns]. rewrite unwatched_turn by done.
  destruct (rs_dev rs && d); run; [|by apply IH].
  rewrite (bind_unfold (uart_received data size)).
  destruct (uart_received data size w) as [[] w1|?|?]; try done. run. by apply IH.
Qed.

Lemma stop_request_lost_witness :
  match recv_turns (H := Demo.demo_env) [(SelReady true true, [1], 1); (SelReady false true, [], 1)]
         (snd (select fdset0 (SelReady true false))) Demo.world0 with
  | Ret ended _ => ended = false
  | _ => True
  end.
Proof.
  apply (stop_request_lost (H := Demo.demo_env)
           [(SelReady true true, [1], 1); (SelReady false true, [], 1)]
           (snd (select fdset0 (SelReady true false))) Demo.world0); [reflexivity|].
  repeat constructor; discriminate.
Defined.
