(* ===== verification/Threads.v ===== *)
(** * The transmit queue between the threads

    Messages for the microcontroller come from several threads (the receive
    thread's acknowledgements, the socket thread's forwarded requests, the
    main loop's heart beats); the sender thread empties the queue.
    [scorpion_uart_send] takes the queue's lock twice: once to ask for the
    free space, once to write.  [tx_step] interleaves the threads at that
    granularity. *)

From stdpp Require Import base list numbers.
From Stdlib Require Import ZArith Lia.
From S2P Require Import Prelude Text CircleBuffer Misc Codec World Uart Link.
Open Scope Z_scope.

(** [tx_pend]: frames whose producer has found room and not yet written;
    [tx_done]: the frames of the producers that have written, in order;
    [tx_log]: every byte these writes put into the queue, in order. *)
Record tx := mkTx {
  tx_world : world;
  tx_pend : list (list Z);
  tx_done : list (list Z);
  tx_log : list Z
}.

Section Threads.
Context `{Env}.

Inductive tx_step : tx -> tx -> Prop :=
  (** a producer finds room for its frame: [len <= cb_freelen(...)] *)
  | step_check w pend fs log m b :
      ppmngr_write w = Some m -> 0 <= uart_fd w -> zlen b <= cb_freelen m ->
      tx_step (mkTx w pend fs log) (mkTx w (b :: pend) fs log)
  (** a producer that found room writes, and signals the sender *)
  | step_write w pend1 b pend2 fs log m n m' :
      ppmngr_write w = Some m -> cb_write m b (zlen b) = Some (n, m') ->
      tx_step (mkTx w (pend1 ++ b :: pend2) fs log)
              (mkTx (emit CondSignal (set_ppmngr_write (Some m') w)) (pend1 ++ pend2)
                    (fs ++ [b]) (log ++ take (Z.to_nat n) b))
  (** the sender thread runs *)
  | step_drain w pend fs log w' :
      scorpion_uart_send_treat w = Ret tt w' ->
      tx_step (mkTx w pend fs log) (mkTx w' pend fs log).

(** Runs, with the number of producers between check and write bounded. *)
Inductive tx_run (bound : nat) : tx -> tx -> Prop :=
  | run_refl s : tx_run bound s s
  | run_step s1 s2 s3 :
      tx_run bound s1 s2 -> tx_step s2 s3 -> (length (tx_pend s3) <= bound)%nat ->
      tx_run bound s1 s3.

(** A send with nothing in between is a check followed by a write. *)
Lemma send_is_check_write w m b fs log :
  tx_ok w m -> zlen b <= cb_freelen m -> zlen b < 2 ^ 31 ->
  exists n w', scorpion_uart_send b (zlen b) w = Ret n w' /\
    tx_run 1 (mkTx w [] fs log) (mkTx w' [] (fs ++ [b]) (log ++ take (Z.to_nat n) b)).
Proof.
  intros [Hfd Hp Hm Hl] Hroom Hb. pose proof (zlen_nonneg b).
  destruct (cb_write_spec m b (zlen b) Hm) as (n & m' & Ew & _ & _ & _); [lia|lia|].
  exists n, (emit CondSignal (set_ppmngr_write (Some m') w)). split.
  - unfold scorpion_uart_send. run. destruct (_ <? 0) eqn:E; bool_cases; [lia|]. run.
    rewrite Hp. run. destruct (_ <=? _) eqn:E2; bool_cases; [|lia]. rewrite Ew. done.
  - eapply run_step; [eapply run_step; [apply run_refl|by eapply step_check|simpl; lia]| |simpl; lia].
    by apply (step_write w [] b [] fs log m n m').
Qed.

Lemma take_all_zlen (b : list Z) : take (Z.to_nat (zlen b)) b = b.
Proof. unfold zlen. by rewrite Nat2Z.id, firstn_all. Qed.

(** The invariant of every interleaving. *)
Definition tx_inv (s : tx) : Prop :=
  exists m, tx_ok (tx_world s) m /\ Forall (fun b => zlen b < 2 ^ 31) (tx_pend s) /\
    uart_sent (w_trace (tx_world s)) ++ contents m = tx_log s.

Lemma free_len m : cb_ok m -> cb_freelen m = buflen m - zlen (contents m).
Proof.
  intros Hm. pose proof Hm as [? ? ? ? ?]. unfold cb_freelen.
  rewrite contents_length by done. apply s32_id. lia.
Qed.

Lemma step_inv s1 s2 : tx_inv s1 -> tx_step s1 s2 -> tx_inv s2.
Proof.
  intros (m & Hok & Hpend & Hlog) Hs. destruct Hs as
    [w pend fs log m1 b E Hfd Hroom|w p1 b p2 fs log m1 n m' E Ew|w pend fs log w' E]; simpl in *.
  - exists m. destruct Hok as [? E' Hm Hl]. rewrite E in E'. injection E' as ->.
    rewrite free_len in Hroom by done. pose proof (zlen_nonneg (contents m)).
    unfold MAX_UART_BUFF_SIZE in Hl.
    split_and!; [by split|apply Forall_cons_2; [lia|done]|done].
  - destruct Hok as [Hfd E' Hm Hl]. rewrite E in E'. injection E' as ->.
    apply Forall_app in Hpend as [Hp1 Hp2]. apply Forall_cons_1 in Hp2 as [Hb Hp2].
    pose proof (zlen_nonneg b).
    destruct (cb_write_spec m b (zlen b) Hm) as (n' & m'' & Ew' & Hm' & Hl' & HQ); [lia|lia|].
    rewrite Ew in Ew'. injection Ew' as <- <-. exists m'. split_and!.
    + split; simpl; auto. lia.
    + by apply Forall_app.
    + cbn [tx_world w_trace emit set_ppmngr_write tx_log]. rewrite uart_sent_app. cbn [uart_sent]. rewrite app_nil_r.
      rewrite take_all_zlen in HQ. unfold Queue.push in HQ. injection HQ as -> HQ.
      by rewrite HQ, app_assoc, Hlog.
  - destruct (uart_send_treat_spec w m Hok) as (w2 & m2 & E2 & Hok2 & Hs & _).
    rewrite E in E2. injection E2 as <-. exists m2. split_and!; [done|done|]. cbn [tx_world tx_log]. by rewrite Hs.
Qed.

Lemma run_inv k s1 s2 : tx_inv s1 -> tx_run k s1 s2 -> tx_inv s2.
Proof. intros Hi Hr. induction Hr as [|s1 s2 s3 _ IH Hs _]; [done|]. exact (step_inv _ _ (IH Hi) Hs). Qed.

(** One producer at a time: a frame that was promised room still has it. *)
Definition tx_inv1 (s : tx) : Prop :=
  tx_inv s /\ tx_log s = concat (tx_done s) /\
  forall b, tx_pend s = [b] -> forall m, ppmngr_write (tx_world s) = Some m -> zlen b <= cb_freelen m.

Lemma step_inv1 s1 s2 :
  tx_inv1 s1 -> (length (tx_pend s1) <= 1)%nat -> tx_step s1 s2 ->
  (length (tx_pend s2) <= 1)%nat -> tx_inv1 s2.
Proof.
  intros (Hi & Hf & Hroom) H1 Hs H2. split; [by eapply step_inv|].
  pose proof Hi as (m & Hok & Hpend & Hlog). destruct Hs as
    [w pend fs log m1 b E Hfd Hr|w p1 b p2 fs log m1 n m' E Ew|w pend fs log w' E]; simpl in *.
  - split; [done|]. destruct pend; [|simpl in H2; lia].
    intros b' Eb m2 E2. injection Eb as <-. rewrite E in E2. by injection E2 as <-.
  - assert (p1 = [] /\ p2 = []) as [-> ->].
    { rewrite length_app in H1. simpl in H1.
      destruct p1; [|simpl in H1; lia]. destruct p2; [done|simpl in H1; lia]. }
    split; [|done]. rewrite Hf, concat_app. cbn [concat]. f_equal.
    destruct Hok as [Hfd E' Hm Hl]. rewrite E in E'. injection E' as ->.
    specialize (Hroom b eq_refl m E). rewrite free_len in Hroom by done.
    apply Forall_cons_1 in Hpend as [Hb _]. pose proof (zlen_nonneg b).
    destruct (cb_write_spec m b (zlen b) Hm) as (n' & m'' & Ew' & _ & _ & HQ); [lia|lia|].
    rewrite Ew in Ew'. injection Ew' as <- <-. rewrite take_all_zlen in HQ.
    unfold Queue.push, Queue.room in HQ. injection HQ as -> _. rewrite Z.min_r by lia. rewrite app_nil_r. apply take_ge. unfold zlen. lia.
  - split; [done|]. intros b -> m2 E2.
    destruct (uart_send_treat_spec w m Hok) as (w2 & m' & E' & Hok' & _ & HL & _).
    rewrite E in E'. injection E' as <-. destruct Hok, Hok'. rewrite tx_ptr0 in E2.
    injection E2 as <-. specialize (Hroom b eq_refl m tx_ptr).
    rewrite free_len in * by done. unfold MAX_TEMP_BUFF_SIZE in HL.
    pose proof (zlen_nonneg (contents m)). lia.
Qed.

End Threads.

(** C8: nothing is lost, repeated or reordered on the way to the UART.
    Under every interleaving of any number of producers with the sender
    thread, the bytes handed to the UART followed by the bytes still queued
    are exactly the bytes the producers' writes put into the queue, in that
    order, and the queue stays well formed.  Handed to the UART means passed to
    [write], whose result the code drops: what the device does not take of them
    is lost behind this point. *)
Theorem tx_fifo `{Env} k w m s :
  tx_ok w m -> uart_sent (w_trace w) = [] -> contents m = [] ->
  tx_run k (mkTx w [] [] []) s ->
  exists m', tx_ok (tx_world s) m' /\
    uart_sent (w_trace (tx_world s)) ++ contents m' = tx_log s.
Proof.
  intros Hok Hs Hc Hr. apply run_inv in Hr; [destruct Hr as (m' & ? & _ & ?); eauto|].
  exists m. simpl. rewrite Hs, Hc. split_and!; [done|constructor|done].
Qed.

Lemma world0_tx : tx_ok Demo.world0 (Demo.cb0 2048).
Proof. split; [simpl; lia|done|split; simpl; try lia; reflexivity|done]. Qed.

Lemma tx_fifo_witness :
  exists s m', tx_run (H := Demo.demo_env) 1 (mkTx Demo.world0 [] [] []) s /\
    tx_log s = [1; 2; 3] /\
    tx_ok (tx_world s) m' /\ uart_sent (w_trace (tx_world s)) ++ contents m' = [1; 2; 3].
Proof.
  destruct (send_is_check_write (H := Demo.demo_env) Demo.world0 (Demo.cb0 2048) [1; 2; 3] [] []
              world0_tx) as (n & w' & E & R); [vm_compute; congruence|vm_compute; reflexivity|].
  destruct (tx_fifo (H := Demo.demo_env) 1 Demo.world0 (Demo.cb0 2048) _ world0_tx
              eq_refl eq_refl R) as (m' & Hok & Hs).
  assert (n = 3) as -> by (vm_compute in E; congruence).
  exists (mkTx w' [] ([] ++ [[1; 2; 3]]) ([] ++ take (Z.to_nat 3) [1; 2; 3])), m'.
  split_and!; [exact R|reflexivity|exact Hok|exact Hs].
Defined.

(** With one producer at a time every frame is queued whole: however the
    sender thread is interleaved, what went into the queue is the sequence of
    the complete frames of the producers, in the order of their writes. *)
Theorem tx_whole_frames `{Env} w m s :
  tx_ok w m -> uart_sent (w_trace w) = [] -> contents m = [] ->
  tx_run 1 (mkTx w [] [] []) s ->
  tx_log s = concat (tx_done s).
Proof.
  intros Hok Hs Hc Hr.
  assert (tx_inv1 (mkTx w [] [] [])) as H0.
  { split; [|done]. exists m. simpl. rewrite Hs, Hc.
    split_and!; [done|constructor|done]. }
  assert (tx_inv1 s /\ (length (tx_pend s) <= 1)%nat) as [(_ & Hf & _) _]; [|done].
  remember (mkTx w [] [] []) as s0 eqn:E0. induction Hr as [|s1 s2 s3 Hr IH Hst Hb].
  - split; [done|]. subst. simpl. lia.
  - destruct (IH E0 H0) as [Hi Hl]. split; [by eapply step_inv1|done].
Qed.

Lemma tx_whole_frames_witness :
  exists s, tx_run (H := Demo.demo_env) 1 (mkTx Demo.world0 [] [] []) s /\
    tx_log s = [1; 2; 3] /\ tx_log s = concat (tx_done s).
Proof.
  destruct (send_is_check_write (H := Demo.demo_env) Demo.world0 (Demo.cb0 2048) [1; 2; 3] [] []
              world0_tx) as (n & w' & E & R); [vm_compute; congruence|vm_compute; reflexivity|].
  assert (n = 3) as -> by (vm_compute in E; congruence).
  eexists. split; [exact R|]. split; [reflexivity|].
  exact (tx_whole_frames (H := Demo.demo_env) Demo.world0 (Demo.cb0 2048) _ world0_tx
           eq_refl eq_refl R).
Defined.

(** Two producers can cut a frame.  When each of two frames fits but not
    both, the producers can both find room; the second write then takes only
    the part that is left, and a truncated frame is sent. *)
Theorem tx_race_truncates `{Env} w m b1 b2 :
  tx_ok w m -> 0 < zlen b2 ->
  zlen b1 <= cb_freelen m -> zlen b2 <= cb_freelen m -> cb_freelen m < zlen b1 + zlen b2 ->
  exists s, tx_run 2 (mkTx w [] [] []) s /\ tx_pend s = [] /\
    tx_log s = b1 ++ take (Z.to_nat (cb_freelen m - zlen b1)) b2 /\
    tx_log s <> concat (tx_done s).
Proof.
  intros [Hfd Hp Hm Hl] Hpos H1 H2 H3. pose proof (zlen_nonneg b1). pose proof (zlen_nonneg b2).
  pose proof (free_len m Hm) as HF. pose proof (zlen_nonneg (contents m)).
  unfold MAX_UART_BUFF_SIZE in Hl.
  destruct (cb_write_spec m b1 (zlen b1) Hm) as (n1 & m1 & E1 & Hm1 & L1 & Q1); [lia|lia|].
  destruct (cb_write_spec m1 b2 (zlen b2) Hm1) as (n2 & m2 & E2 & Hm2 & L2 & Q2); [lia|lia|].
  rewrite take_all_zlen in Q1, Q2.
  unfold Queue.push, Queue.room in Q1, Q2. injection Q1 as -> Q1. injection Q2 as -> Q2.
  rewrite (Z.min_r _ (zlen b1)) in * by lia. pose proof (take_all_zlen b1) as T1.
  rewrite T1 in Q1. rewrite Q1, zlen_app in *.
  assert (Z.min (buflen m1 - (zlen (contents m) + zlen b1)) (zlen b2) = cb_freelen m - zlen b1)
    as EN by lia.
  rewrite EN in *.
  eexists. split.
  - eapply run_step with (s2 := mkTx _ [b2] _ _).
    + eapply run_step with (s2 := mkTx w [b2; b1] [] []).
      * eapply run_step with (s2 := mkTx w [b1] [] []).
        -- eapply run_step; [apply run_refl|by eapply step_check|simpl; lia].
        -- by eapply step_check.
        -- simpl. lia.
      * apply (step_write w [b2] b1 [] [] [] m (zlen b1) m1); [done|]. exact E1.
      * simpl. lia.
    + apply (step_write _ [] b2 [] _ _ m1 (cb_freelen m - zlen b1) m2); [done|]. exact E2.
    + simpl. lia.
  - cbn [tx_pend tx_done tx_log app concat]. rewrite T1. split_and!; [done|done|].
    rewrite app_nil_r. intros E. apply app_inv_head in E. apply (f_equal zlen) in E.
    unfold zlen in E at 1. rewrite length_take in E. unfold zlen in *. lia.
Qed.

Definition nearly_full : CircleBufferMngr := mkCB (replicate 2048 0) 2048 2030 0 2030.
Definition nearly_full_world : world := set_ppmngr_write (Some nearly_full) Demo.world0.

Lemma nearly_full_tx : tx_ok nearly_full_world nearly_full.
Proof. split; [simpl; lia|done|split; simpl; try lia; reflexivity|done]. Qed.

Lemma tx_race_truncates_witness :
  let b := wire (message SYSTEM2MCU_HEART_BEAT [] 7) in
  exists s, tx_run (H := Demo.demo_env) 2 (mkTx nearly_full_world [] [] []) s /\ tx_pend s = [] /\
    tx_log s = b ++ take 7 b /\ tx_log s <> concat (tx_done s).
Proof.
  intros b.
  apply (tx_race_truncates (H := Demo.demo_env) nearly_full_world nearly_full b b nearly_full_tx);
    vm_compute; congruence.
Defined.

(** [n] passes of the sender thread. *)
Fixpoint send_passes `{Env} (n : nat) : prog world unit :=
  match n with O => ret tt | S n' => do* send_passes n'; scorpion_uart_send_treat end.

(** The queue drains.  Each pass of the sender thread hands up to 256
    bytes to the UART; after [n] passes with [256 n] at least the number of
    queued bytes the queue is empty and every queued byte has been handed
    over, in order. *)
Theorem tx_drains `{Env} n w m :
  tx_ok w m -> zlen (contents m) <= MAX_TEMP_BUFF_SIZE * Z.of_nat n ->
  exists w' m',
    send_passes n w = Ret tt w' /\
    tx_ok w' m' /\ contents m' = [] /\
    uart_sent (w_trace w') = uart_sent (w_trace w) ++ contents m.
Proof.
  intros Hok Hn.
  assert (exists w' m', send_passes n w = Ret tt w' /\
    tx_ok w' m' /\ uart_sent (w_trace w') ++ contents m' = uart_sent (w_trace w) ++ contents m /\
    zlen (contents m') = Z.max 0 (zlen (contents m) - MAX_TEMP_BUFF_SIZE * Z.of_nat n))
    as (w' & m' & E & Hok' & Hs & HL).
  { clear Hn. unfold MAX_TEMP_BUFF_SIZE. induction n as [|n IH].
    - exists w, m. pose proof (zlen_nonneg (contents m)). split_and!; [done|done|done|lia].
    - destruct IH as (w1 & m1 & E1 & Hok1 & Hs1 & HL1).
      destruct (uart_send_treat_spec w1 m1 Hok1) as (w2 & m2 & E2 & Hok2 & Hs2 & HL2 & _).
      exists w2, m2. cbn [send_passes]. split_and!; [|done|by rewrite Hs2|].
      + rewrite (bind_Ret _ _ _ _ _ E1). exact E2.
      + unfold MAX_TEMP_BUFF_SIZE in HL2. lia. }
  exists w', m'. assert (contents m' = []) as Ec.
  { destruct (contents m'); [done|]. rewrite zlen_cons in HL. pose proof (zlen_nonneg l). lia. }
  rewrite Ec, app_nil_r in Hs. split_and!; done.
Qed.

Lemma tx_drains_witness :
  exists w' m',
    send_passes (H := Demo.demo_env) 8 nearly_full_world = Ret tt w' /\
    tx_ok w' m' /\ contents m' = [] /\
    uart_sent (w_trace w') = [] ++ contents nearly_full.
Proof.
  apply (tx_drains (H := Demo.demo_env) 8 nearly_full_world nearly_full nearly_full_tx).
  vm_compute. congruence.
Defined.
