(* ===== verification/Servers.v ===== *)
(** * The socket and event servers of the daemon, from start to stop

    [external/scorpion/scorpion_socket.c] and [scorpion_event.c]: the loops of
    their two threads over what [recv], [select] and [read] return, and the
    descriptors, threads and locks their start and stop functions take and
    give back.  [Daemon.v] has one turn of each loop. *)

From stdpp Require Import base list numbers strings gmap sets.
From Stdlib Require Import ZArith Lia.
From S2P Require Import Prelude Text CircleBuffer Misc Codec World Uart Link Apk Stm32 Daemon.
Open Scope Z_scope.

(** ** What the process holds *)

Record handles := mkHandles {
  h_fds : gset Z;              (* open descriptors *)
  h_threads : gset Z;          (* threads that were created and not joined *)
  h_conds : gset nat;          (* initialised condition variables *)
  h_mutexes : gset nat         (* initialised mutexes *)
}.

(** [close] of a number that is no open descriptor fails with [EBADF]; the
    code does not look at the result. *)
Definition close (fd : Z) (h : handles) : handles :=
  mkHandles (h_fds h ∖ {[fd]}) (h_threads h) (h_conds h) (h_mutexes h).
Definition opened (fd : Z) (h : handles) : handles :=
  mkHandles (h_fds h ∪ {[fd]}) (h_threads h) (h_conds h) (h_mutexes h).
Definition created (t : Z) (h : handles) : handles :=
  mkHandles (h_fds h) (h_threads h ∪ {[t]}) (h_conds h) (h_mutexes h).
Definition joined (t : Z) (h : handles) : handles :=
  mkHandles (h_fds h) (h_threads h ∖ {[t]}) (h_conds h) (h_mutexes h).
Definition cond_init (c : nat) (h : handles) : handles :=
  mkHandles (h_fds h) (h_threads h) (h_conds h ∪ {[c]}) (h_mutexes h).
Definition cond_destroy (c : nat) (h : handles) : handles :=
  mkHandles (h_fds h) (h_threads h) (h_conds h ∖ {[c]}) (h_mutexes h).
Definition mutex_init (m : nat) (h : handles) : handles :=
  mkHandles (h_fds h) (h_threads h) (h_conds h) (h_mutexes h ∪ {[m]}).
Definition mutex_destroy (m : nat) (h : handles) : handles :=
  mkHandles (h_fds h) (h_threads h) (h_conds h) (h_mutexes h ∖ {[m]}).

(** The locks of [scorpion_event_private_data] and of [scorpion_socket_mngr]. *)
Definition EVENT_LOCK : nat := 0.
Definition SOCKET_LOCK : nat := 1.

(** ** The event server *)

(** [scorpion_event_private_t]; the locks are named by [EVENT_LOCK]. *)
Record scorpion_event_private_t := mkEventData {
  event_fd : Z; thread_id : Z; pipe_fd : Z * Z
}.

(** What [pipe], [pthread_cond_init], [pthread_mutex_init] and
    [pthread_create] do: a result, and the descriptors or the thread they
    made when it is zero. *)
Record event_start := mkEventStart {
  es_pipe : Z; es_pipe_fd : Z * Z; es_cond : Z; es_mutex : Z; es_thread : Z; es_thread_id : Z
}.

Definition event_start_server (s : event_start) (d : scorpion_event_private_t) (h : handles)
  : Z * scorpion_event_private_t * handles :=
  if negb (es_pipe s =? 0) then (es_pipe s, d, h)
  else
    let d := mkEventData (event_fd d) (thread_id d) (es_pipe_fd s) in
    let h := opened (snd (es_pipe_fd s)) (opened (fst (es_pipe_fd s)) h) in
    if negb (es_cond s =? 0) then (es_cond s, d, h)
    else
      let h := cond_init EVENT_LOCK h in
      if negb (es_mutex s =? 0) then (-1, d, h)
      else
        let h := mutex_init EVENT_LOCK h in
        if negb (es_thread s =? 0) then (-1, d, h)
        else (0, mkEventData (event_fd d) (es_thread_id s) (pipe_fd d), created (es_thread_id s) h).

(** The thread opens its device first; [fd] is what [open] returns. *)
Definition event_open (fd : Z) (d : scorpion_event_private_t) (h : handles)
  : bool * scorpion_event_private_t * handles :=
  let d := mkEventData fd (thread_id d) (pipe_fd d) in
  if fd <? 0 then (false, d, h) else (true, d, opened fd h).

(** [stop_event_server]; [pthread_join] returns only when the thread has
    ended, [None] is a call that does not return. *)
Definition stop_event_server (ended : bool) (d : scorpion_event_private_t) (h : handles)
  : option handles :=
  if ended then
    let h := joined (thread_id d) h in
    let h := close (fst (pipe_fd d)) h in
    let h := close (snd (pipe_fd d)) h in
    let h := close (thread_id d) h in
    Some (mutex_destroy EVENT_LOCK (cond_destroy EVENT_LOCK h))
  else None.

(** ** The stop of the UART server *)

Definition UART_LOCK : nat := 2.

(** [scorpion_uart_stop_server] with its two joins; the UART itself stays
    open. *)
Definition uart_stop_server (recv_ended send_ended : bool) (pipe : Z * Z) (recv_thread_id send_thread_id : Z)
    (h : handles) : option handles :=
  if negb recv_ended then None
  else
    let h := joined recv_thread_id h in
    if negb send_ended then None
    else
      let h := joined send_thread_id h in
      let h := close (snd pipe) (close (fst pipe) h) in
      let h := close send_thread_id (close recv_thread_id h) in
      Some (mutex_destroy UART_LOCK (cond_destroy UART_LOCK h)).

(** ** The socket server *)

Record ScorpionSocketMngr := mkSocketMngr {
  socket_server_fd : Z; socket_client_fd : Z; socket_thread_id : Z
}.

Definition scorpion_socket_stop_server (s : ScorpionSocketMngr) (h : handles) : handles :=
  let h := close (socket_thread_id s) h in
  let h := close (socket_client_fd s) h in
  let h := close (socket_server_fd s) h in
  mutex_destroy SOCKET_LOCK (cond_destroy SOCKET_LOCK h).

Section Threads.
Context `{Env}.

(** Turns of the event thread's loop: whether it ended. *)
Fixpoint event_turns (turns : list (sel * option input_event)) (rs : fdset) : prog world bool :=
  match turns with
  | [] => ret false
  | (s, data) :: turns' =>
      let* r := event_treat rs s data in
      if snd r : bool then ret true else event_turns turns' (fst r)
  end.

(** The whole thread: [fd] is what [open] of the device returns. *)
Definition event_thread (fd : Z) (turns : list (sel * option input_event)) : prog world bool :=
  if fd <? 0 then ret true else event_turns turns fdset0.

(** Turns of the socket thread's loop, which has no end: what each [recv]
    stored and returned. *)
Fixpoint socket_turns (recvs : list (list Z * Z)) : prog world unit :=
  match recvs with
  | [] => ret tt
  | (data, size) :: recvs' =>
      do* scorpion_socket_recv_treat data size;
      socket_turns recvs'
  end.

End Threads.

(** ** The event thread *)

Section EventFacts.
Context `{Env}.

(** What the thread makes of what it read. *)
Definition handle (data : option input_event) : prog world unit :=
  match data with
  | Some e => if ev_type e =? EV_KEY then event_protocol_ayalyze (ev_code e) (ev_value e) else ret tt
  | None => ret tt
  end.

Fixpoint handle_all (evs : list (option input_event)) : prog world unit :=
  match evs with
  | [] => ret tt
  | e :: evs' => do* handle e; handle_all evs'
  end.

(** The device is the only one that is ready. *)
Definition on_device (e : option input_event) : sel * option input_event := (SelReady true false, e).

Lemma event_treat_ready p rs e w :
  rs_dev rs = true -> (rs_pipe rs = true \/ p = false) ->
  event_treat rs (SelReady true p) e w =
  (do* handle e; ret (mkSet true p, p)) w.
Proof.
  intros Hd Hp. unfold event_treat, select. rewrite Hd. cbn [andb].
  replace (rs_pipe rs && p) with p by (destruct Hp as [-> | ->]; [done|by rewrite andb_false_r]).
  by destruct p.
Qed.

Lemma event_turns_device evs rest rs w :
  rs_dev rs = true ->
  event_turns (map on_device evs ++ rest) rs w =
  (do* handle_all evs;
   event_turns rest (if decide (evs = []) then rs else mkSet true false)) w.
Proof.
  revert rs w. induction evs as [|e evs IH]; intros rs w Hd; [done|].
  cbn [map app event_turns handle_all on_device]. rewrite (bind_unfold (event_treat _ _ _)).
  rewrite event_treat_ready by auto. rewrite bind_bind, !(bind_unfold (handle e)).
  destruct (handle e w) as [[] w1|?|?]; [|done..]. cbn [ret fst snd].
  rewrite IH by done. rewrite (decide_False (P := e :: evs = [])) by done.
  by destruct (decide (evs = [])).
Qed.

Lemma event_treat_unwatched rs d p e w :
  rs_pipe rs = false ->
  event_treat rs (SelReady d p) e w =
  (if rs_dev rs && d then do* handle e; ret (mkSet true false, false)
   else ret (mkSet false false, false)) w.
Proof. intros Hp. unfold event_treat, select. rewrite Hp. by destruct (rs_dev rs && d). Qed.

(** Once the pipe has left the set no turn ends the thread, unless [select]
    fails. *)
Lemma event_turns_unwatched turns rs w :
  rs_pipe rs = false -> Forall (fun t => fst t <> SelFail) turns ->
  match event_turns turns rs w with Ret ended _ => ended = false | _ => True end.
Proof.
  intros Hp Ht. revert rs w Hp. induction Ht as [|[s e] turns Hs _ IH]; intros rs w Hp; [done|].
  destruct s as [|d p]; [done|]. cbn [event_turns].
  rewrite (bind_unfold (event_treat _ _ _)), event_treat_unwatched by done.
  destruct (rs_dev rs && d); [|by apply IH].
  rewrite (bind_unfold (handle e)). destruct (handle e w) as [[] w1|?|?]; [|done..]. by apply IH.
Qed.

End EventFacts.

(** What the application is told of an input event. *)
Definition a_handle `{Env} (data : option input_event) : prog aworld unit :=
  match data with
  | Some e =>
      if ev_type e =? EV_KEY then
        a_send_apk SCORPION2APK_EVENT_IN
          (if ev_code e <=? 74
           then le_split 2 (2 ^ (ev_code e - 59)) ++ le_split 2 (ev_value e * 2 ^ (ev_code e - 59))
           else [0; 0; 0; 0])
      else ret tt
  | None => ret tt
  end.

Fixpoint a_handle_all `{Env} (evs : list (option input_event)) : prog aworld unit :=
  match evs with
  | [] => ret tt
  | e :: evs' => do* a_handle e; a_handle_all evs'
  end.

(** An event that is no key, a read that failed, or a key the board can have:
    a press or a release of one of the 32 codes from 59 on. *)
Definition board_event (data : option input_event) : Prop :=
  match data with
  | Some e => ev_type e = EV_KEY -> 59 <= ev_code e <= 90 /\ (ev_value e = 0 \/ ev_value e = 1)
  | None => True
  end.

Lemma handle_refines `{Env} data : board_event data -> implements (handle data) (a_handle data).
Proof.
  intros Hb w Hw. destruct data as [e|]; [|by apply implements_ret]. cbn [handle a_handle].
  destruct (ev_type e =? EV_KEY) eqn:E; bool_cases; [|by apply implements_ret].
  destruct (Hb E) as [Hc Hv].
  destruct (event_channels w (ev_code e) (ev_value e) Hw ltac:(lia) Hv) as (R1 & R2 & _).
  destruct (ev_code e <=? 74) eqn:E1; bool_cases; [apply R1; lia|apply R2; lia].
Qed.

Lemma handle_all_refines `{Env} evs :
  Forall board_event evs -> implements (handle_all evs) (a_handle_all evs).
Proof.
  induction 1 as [|e evs He _ IH]; [apply implements_ret|].
  apply implements_bind; [by apply handle_refines|]. by intros [].
Qed.

(** The event thread as a whole.  Whatever input events its device gives,
    one after the other, the thread tells the application of every press and
    release, in order and once each: with the bit of the channel and its
    level for the first 16 keys, with an empty mask for the 16 after them.  It
    stays in its loop. *)
Theorem event_thread_reports `{Env} fd evs w :
  0 <= fd -> Forall board_event evs -> ok w ->
  refines (event_thread fd (map on_device evs) w)
          ((do* a_handle_all evs; ret false) (abs w)).
Proof.
  intros Hfd He Hw. unfold event_thread. destruct (fd <? 0) eqn:E; bool_cases; [lia|].
  rewrite <- (app_nil_r (map _ _)), event_turns_device by done.
  apply refines_bind; [by apply handle_all_refines|]. intros [] w1 Hw1. by apply implements_ret.
Qed.

(** ** The handles of the event server *)

Lemma union_take_back (X : gset Z) a : a ∉ X -> (X ∪ {[a]}) ∖ {[a]} = X.
Proof. intros. set_solver. Qed.

Lemma union_take_back_nat (X : gset nat) a : a ∉ X -> (X ∪ {[a]}) ∖ {[a]} = X.
Proof. intros. set_solver. Qed.

(** Evaluates the operations on the handles. *)
Ltac handles := lazy beta iota zeta delta
  [ h_fds h_threads h_conds h_mutexes joined close cond_destroy mutex_destroy opened created
    cond_init mutex_init stop_event_server scorpion_socket_stop_server thread_id pipe_fd event_fd
    fst snd ].

(** Descriptors and thread as the system hands them out: new and different,
    and the thread's identifier is not the number of a descriptor. *)
Record fresh_start (s : event_start) (fd : Z) (h : handles) : Prop := {
  fs_ok : es_pipe s = 0 /\ es_cond s = 0 /\ es_mutex s = 0 /\ es_thread s = 0;
  fs_fds : NoDup [fst (es_pipe_fd s); snd (es_pipe_fd s); fd; es_thread_id s];
  fs_new : Forall (fun n => ~ (n ∈ h_fds h)) [fst (es_pipe_fd s); snd (es_pipe_fd s); fd; es_thread_id s];
  fs_thread : es_thread_id s ∉ h_threads h;
  fs_locks : (EVENT_LOCK ∉ h_conds h) /\ (EVENT_LOCK ∉ h_mutexes h)
}.

Lemma stop_balances s d fd h :
  0 <= fd -> fresh_start s fd h ->
  let '(r, d1, h1) := event_start_server s d h in
  let '(up, d2, h2) := event_open fd d1 h1 in
  r = 0 /\ up = true /\ stop_event_server true d2 h2 = Some (opened fd h).
Proof.
  intros Hfd [(E1 & E2 & E3 & E4) Hn Hf Ht [Hc Hm]]. unfold event_start_server.
  rewrite E1, E2, E3, E4. cbn [Z.eqb negb]. unfold event_open.
  destruct (fd <? 0) eqn:E; bool_cases; [lia|]. split_and!; [done..|].
  destruct s as [? [p0 p1] ? ? ? t], h as [fds ths cs ms].
  cbn [es_pipe_fd es_thread_id fst snd h_fds h_threads h_conds h_mutexes] in *. handles.
  rewrite !union_take_back_nat, union_take_back by done. do 2 f_equal.
  rewrite !NoDup_cons in Hn. rewrite !Forall_cons in Hf.
  destruct Hn as (N1 & N2 & N3 & _), Hf as (F1 & F2 & F3 & F4 & _).
  set_unfold. intros x. destruct (decide (x = p0)), (decide (x = p1)), (decide (x = t)); naive_solver.
Qed.

(** How the thread ends, when [select] works: the pipe is ready in every turn
    [after] the stop request and in none before it. *)
Lemma event_thread_ends `{Env} fd evs after w ended w' :
  0 <= fd -> Forall (fun t => exists d, fst t = SelReady d true) after ->
  event_thread fd (map on_device evs ++ after) w = Ret ended w' ->
  ended = bool_decide (evs = [] /\ after <> []).
Proof.
  intros Hfd Ha. unfold event_thread. destruct (fd <? 0) eqn:E; bool_cases; [lia|].
  rewrite event_turns_device by done. rewrite (bind_unfold (handle_all evs)).
  destruct (handle_all evs w) as [[] w1|?|?]; [|done..]. intros R.
  destruct (decide (evs = [])) as [->|Hne].
  - destruct after as [|[s e] after]; [by injection R as <- _|].
    apply Forall_cons in Ha as [(d & Ed) _]. cbn [fst] in Ed. subst s.
    rewrite bool_decide_eq_true_2 by done. cbn [event_turns] in R.
    rewrite (bind_unfold (event_treat _ _ _)) in R. destruct d.
    + rewrite event_treat_ready in R by auto. rewrite (bind_unfold (handle e)) in R.
      destruct (handle e w1) as [[] w2|?|?]; [|done..]. by injection R as <- _.
    + by injection R as <- _.
  - rewrite bool_decide_eq_false_2 by naive_solver.
    pose proof (event_turns_unwatched after (mkSet true false) w1 eq_refl) as U. rewrite R in U.
    apply U. eapply Forall_impl; [exact Ha|]. intros t (d & Ed). by rewrite Ed.
Qed.

(** Starting and stopping the event server.  When no input event came
    before the stop request, [stop_event_server] returns and gives back every
    descriptor, thread and lock the start took; only the descriptor of the
    input device stays open.  Once the thread has seen a single input event
    its pipe is not in the descriptor set any more: whatever [select] says
    later, the thread does not end and [stop_event_server] never returns. *)
Theorem event_server_stop `{Env} s d h fd evs after w ended w' :
  0 <= fd -> fresh_start s fd h ->
  after <> [] -> Forall (fun t => exists b, fst t = SelReady b true) after ->
  event_thread fd (map on_device evs ++ after) w = Ret ended w' ->
  let '(r, d1, h1) := event_start_server s d h in
  let '(up, d2, h2) := event_open fd d1 h1 in
  r = 0 /\ up = true /\
  stop_event_server ended d2 h2 = if decide (evs = []) then Some (opened fd h) else None.
Proof.
  intros Hfd Hs Hne Ha R. apply event_thread_ends in R as ->; [|done..].
  pose proof (stop_balances s d fd h Hfd Hs) as B.
  destruct (event_start_server s d h) as [[r d1] h1].
  destruct (event_open fd d1 h1) as [[up d2] h2]. destruct B as (-> & -> & B).
  split_and!; [done..|]. destruct (decide (evs = [])) as [He|He].
  - by rewrite bool_decide_eq_true_2 by done.
  - by rewrite bool_decide_eq_false_2 by naive_solver.
Qed.

(** A start that fails leaves what it took so far: the pipe stays open. *)
Lemma event_start_keeps_pipe s d h r d1 h1 :
  es_pipe s = 0 -> event_start_server s d h = (r, d1, h1) ->
  fst (es_pipe_fd s) ∈ h_fds h1 /\ snd (es_pipe_fd s) ∈ h_fds h1.
Proof.
  intros E. unfold event_start_server. rewrite E. cbn [Z.eqb negb].
  assert (forall h', h_fds h' = (h_fds h ∪ {[fst (es_pipe_fd s)]}) ∪ {[snd (es_pipe_fd s)]} ->
    fst (es_pipe_fd s) ∈ h_fds h' /\ snd (es_pipe_fd s) ∈ h_fds h') as K.
  { intros h' ->. set_solver. }
  repeat case_match; intros [= <- <- <-]; by apply K.
Qed.

(** The daemon's start looks only at the results, and they agree. *)
Lemma event_start_code s d h st :
  st_pipe st = es_pipe s -> st_cond st = es_cond s -> st_mutex st = es_mutex s ->
  st_thread1 st = es_thread s ->
  fst (fst (event_start_server s d h)) = scorpion_event_start_server st.
Proof.
  intros E1 E2 E3 E4. unfold event_start_server, scorpion_event_start_server.
  rewrite E1, E2, E3, E4. by repeat case_match.
Qed.

(** The stop of the UART server hangs in the same way: once the receive
    thread has had a turn with data and without a stop request, its join does
    not return. *)
Lemma uart_stop_hangs `{Env} turns w ended w' send_ended pipe tr ts h :
  Forall (fun t => fst (fst t) <> SelFail /\ 0 < snd t) turns ->
  recv_turns turns (snd (select fdset0 (SelReady true false))) w = Ret ended w' ->
  uart_stop_server ended send_ended pipe tr ts h = None.
Proof.
  intros Ht R. pose proof (stop_request_lost turns (snd (select fdset0 (SelReady true false))) w eq_refl Ht) as S.
  rewrite R in S. by rewrite S.
Qed.

(** ** The socket thread *)

(** What one [recv] gives: an error, or a run of frames and the beginning of
    another one; the end of the connection is the empty run. *)
Inductive received :=
  | RecvError
  | RecvFrames (fs : list item) (q : list Z) (y : Z) (k : nat).

Definition recv_result (r : received) : list Z * Z :=
  match r with
  | RecvError => ([], -1)
  | RecvFrames fs q y k =>
      let data := stream_bytes fs ++ take k (wire_x q y) in (data, zlen data)
  end.

(** It fits the buffer, its frames are good and its valid messages are
    application messages. *)
Definition recv_ok (r : received) : Prop :=
  match r with
  | RecvError => True
  | RecvFrames fs q y k =>
      Forall good_frame fs /\ (k < length (wire_x q y))%nat /\
      zlen (stream_bytes fs) + Z.of_nat k <= MAX_TEMP_BUFF_SIZE /\
      (forall f, f ∈ fs -> it_check f = xor_all (it_msg f) -> apk_wf (it_msg f))
  end.

Fixpoint a_socket_turns `{Env} (rs : list received) : prog aworld unit :=
  match rs with
  | [] => ret tt
  | RecvError :: rs' => a_socket_turns rs'
  | RecvFrames fs _ _ _ :: rs' => do* a_deliver a_apk_msg fs; a_socket_turns rs'
  end.

Lemma socket_turn_refines `{Env} fs q y k :
  recv_ok (RecvFrames fs q y k) ->
  implements (let '(data, size) := recv_result (RecvFrames fs q y k) in
              scorpion_socket_recv_treat data size)
             (do* a_deliver a_apk_msg fs; ret tt).
Proof.
  intros (Hfs & Hk & Hlen & Hwf) w Hw. cbn [recv_result].
  assert (zlen (take k (wire_x q y)) = Z.of_nat k) as Ek by (unfold zlen; len).
  set (data := _ ++ _). assert (zlen data = zlen (stream_bytes fs) + Z.of_nat k) as Ed
    by (unfold data; rewrite zlen_app; lia).
  pose proof (zlen_nonneg data). unfold scorpion_socket_recv_treat.
  destruct (_ =? -1) eqn:E; bool_cases; [lia|].
  destruct (socket_buffer data ltac:(lia)) as (slack & ->). run. unfold data at 1.
  rewrite <- app_assoc, Ed. unfold MAX_TEMP_BUFF_SIZE in Hlen.
  assert (implements (scorpion_protocol_ayalyze (stream_bytes fs ++ take k (wire_x q y) ++ slack)
                        (zlen (stream_bytes fs) + Z.of_nat k))
            (let* good := a_deliver a_apk_msg fs in
             if good then ret (zlen (stream_bytes fs)) else ret (-1))) as R.
  { apply stream_refines; [done|done|lia|].
    intros f junk Hin Hx. apply scorpion_parse_refines. by apply Hwf. }
  pose proof (refines_bind _ _ (fun _ => ret tt) (fun _ => ret tt) w (abs w) (R w Hw)) as R'.
  rewrite bind_bind in R'. rewrite (bind_unfold (a_deliver _ _)) in *.
  specialize (R' ltac:(intros; by apply implements_ret)).
  by destruct (a_deliver a_apk_msg fs (abs w)) as [[] ?|?|?].
Qed.

(** C10: the socket thread as a whole.  Over any sequence of [recv] results
    (errors, the end of the connection, runs of frames with noise, wrong check
    bytes and a beginning of another frame) the thread does what the messages of
    the complete frames with a right check byte ask for, in order and once each;
    an error and the end of the connection change nothing, and the beginning of
    a frame at the end of a run is dropped.  Where memory for a frame cannot be
    had, the rest of that run is dropped, by the code and by the specification
    [a_deliver]; the next run is treated again.  Assumed of the runs ([recv_ok]):
    each fits the 256-byte buffer it is received into, the noise between its frames
    has no delimiter and every frame has at least a header ([good_frame]), and
    each message with a right check byte has the body its identifier needs
    ([apk_wf]); the handlers do not look at the length, and read a shorter body
    past its end. *)
Theorem socket_thread_delivers `{Env} rs w :
  Forall recv_ok rs -> ok w ->
  refines (socket_turns (map recv_result rs) w) (a_socket_turns rs (abs w)).
Proof.
  intros Hrs. revert w. induction Hrs as [|r rs Hr _ IH]; intros w Hw; [by apply implements_ret|].
  destruct r as [|fs q y k]; [by apply IH|].
  pose proof (socket_turn_refines fs q y k Hr) as R.
  cbn [map recv_result socket_turns a_socket_turns] in *.
  replace (bind (a_deliver a_apk_msg fs) (fun _ => a_socket_turns rs) (abs w))
    with (bind (do* a_deliver a_apk_msg fs; ret tt) (fun _ => a_socket_turns rs) (abs w))
    by (by rewrite bind_bind).
  apply refines_bind; [by apply R|]. intros [] w1 Hw1. by apply IH.
Qed.

(** After the client has gone ([recv] returns 0) and after
    [scorpion_socket_stop_server] ([recv] on the closed descriptor fails) the
    thread goes round without an effect for as many turns as one likes; the
    stop does not join it, and no second client is ever accepted. *)
Theorem socket_thread_spins `{Env} n size w s h :
  size = 0 \/ size = -1 ->
  socket_turns (replicate n ([], size)) w = Ret tt w /\
  h_threads (scorpion_socket_stop_server s h) = h_threads h.
Proof.
  intros Hs. split; [|done]. induction n as [|n IH]; [done|]. cbn [replicate socket_turns].
  rewrite bind_unfold.
  assert (scorpion_socket_recv_treat [] size w = Ret tt w) as ->; [|done].
  destruct Hs as [-> | ->]; reflexivity.
Qed.

Module ServersDemo.
#[local] Existing Instance Demo.demo_env.

Definition press (code : Z) : option input_event := Some (mkEvent EV_KEY code 1).
Definition sync : option input_event := Some (mkEvent 0 0 0).

Lemma demo_events : Forall board_event [press 61; sync; press 80].
Proof.
  apply Forall_cons; split; [cbn; lia|]. apply Forall_cons; split; [done|].
  apply Forall_cons; split; [cbn; lia|constructor].
Qed.

Lemma event_thread_reports_witness :
  match event_thread 7 (map on_device [press 61; sync; press 80]) Demo.world0 with
  | Ret ended w => (ended, a_trace (abs w)) =
      (false, [SockSend (wire (message SCORPION2APK_EVENT_IN [4; 0; 4; 0] 0));
               SockSend (wire (message SCORPION2APK_EVENT_IN [0; 0; 0; 0] 1))])
  | _ => False
  end.
Proof.
  apply (refines_observe (fun b a => (b, a_trace a)) _ _ _
    (event_thread_reports 7 [press 61; sync; press 80] Demo.world0 ltac:(lia) demo_events world0_ok)).
  vm_compute. reflexivity.
Defined.

Definition demo_event_start : event_start := mkEventStart 0 (8, 9) 0 0 0 1000.
Definition demo_handles : handles := mkHandles {[3; 4; 5]} {[2000]} {[SOCKET_LOCK]} {[SOCKET_LOCK]}.

Lemma demo_fresh : fresh_start demo_event_start 7 demo_handles.
Proof.
  constructor; [done|apply (bool_decide_unpack _); by vm_compute..|].
  split; apply (bool_decide_unpack _); by vm_compute.
Qed.

(** A stop after one key press hangs. *)
Lemma event_server_stop_witness :
  let '(_, d1, h1) := event_start_server demo_event_start (mkEventData 0 0 (0, 0)) demo_handles in
  let '(_, d2, h2) := event_open 7 d1 h1 in
  exists w', event_thread 7 (map on_device [press 61] ++ [(SelReady true true, sync)]) Demo.world0
    = Ret false w' /\
  stop_event_server false d2 h2 = None.
Proof.
  destruct (event_thread 7 (map on_device [press 61] ++ [(SelReady true true, sync)]) Demo.world0)
    as [ended w'|?|?] eqn:R; [|vm_compute in R; discriminate R..].
  pose proof (event_server_stop demo_event_start (mkEventData 0 0 (0, 0)) demo_handles 7 [press 61]
    [(SelReady true true, sync)] Demo.world0 ended w' ltac:(lia) demo_fresh ltac:(done)
    ltac:(repeat constructor; by exists true) R) as E.
  destruct (event_start_server _ _ _) as [[r d1] h1]. destruct (event_open 7 d1 h1) as [[up d2] h2].
  destruct E as (_ & _ & E). exists w'.
  destruct ended; [discriminate E|]. split; [done|exact E].
Defined.

Definition demo_recvs : list received :=
  [RecvFrames [mkItem [9] demo_delay 0] demo_delay 1 4; RecvError;
   RecvFrames [mkItem [] demo_delay (xor_all demo_delay)] [] 0 0; RecvFrames [] [] 0 0].

Lemma demo_recvs_ok : Forall recv_ok demo_recvs.
Proof.
  pose proof demo_burst_good as G. unfold demo_burst in G. rewrite !Forall_cons in G.
  destruct G as (G1 & G2 & _).
  assert (forall f x y : item, f ∈ [x] -> it_msg x = demo_delay -> apk_wf (it_msg f)) as W.
  { intros f x _ Hf E. apply list_elem_of_singleton in Hf as ->. rewrite E. apply demo_delay_wf. }
  apply Forall_cons; split.
  { split_and!; [by apply Forall_singleton|vm_compute; lia|by vm_compute|].
    intros f Hf _. by apply (W f _ f Hf). }
  apply Forall_cons; split; [done|]. apply Forall_cons; split.
  { split_and!; [by apply Forall_singleton|vm_compute; lia|by vm_compute|].
    intros f Hf _. by apply (W f _ f Hf). }
  apply Forall_singleton. split_and!; [constructor|vm_compute; lia|by vm_compute|].
  intros f Hf. by apply not_elem_of_nil in Hf.
Qed.

Lemma socket_thread_delivers_witness :
  match socket_turns (map recv_result demo_recvs) Demo.world0 with
  | Ret _ w => a_tx (abs w) = wire (message SYSTEM2MCU_DELAY_TIME [30; 0; 0; 0] 0)
  | _ => False
  end.
Proof.
  apply (refines_observe (fun _ => a_tx) _ _ _
    (socket_thread_delivers demo_recvs Demo.world0 demo_recvs_ok world0_ok)).
  vm_compute. reflexivity.
Defined.
End ServersDemo.
