(* ===== verification/Tools.v ===== *)
(** * The small command-line tools

    [external/htfsk/htfsk.c] (a socket that sends back what it receives),
    [external/getkeys/getkeys.c] (prints the events of an input device) and
    [external/v4l2/v4l2.c] (stores one picture of the camera in a file).  Each
    endless loop runs over the list of what its system calls return. *)

From stdpp Require Import base list numbers strings.
From Stdlib Require Import ZArith Lia.
From S2P Require Import Prelude Text Daemon.
Open Scope Z_scope.

(** ** Buffers filled by a system call *)

Lemma c_string_app_free a b : nul_free a -> c_string (a ++ b) = app a <$> c_string b.
Proof.
  induction 1 as [|c a Hc _ IH]; cbn [app].
  - by destruct (c_string b).
  - cbn [c_string]. destruct (c =? 0) eqn:E; bool_cases; [done|]. rewrite IH. by destruct (c_string b).
Qed.

Lemma recv_into data b :
  zlen data <= zlen b -> memcpy b 0 data 0 (zlen data) = Some (data ++ drop (length data) b).
Proof.
  intros Hd. pose proof (zlen_nonneg data). rewrite memcpy_Some by lia.
  unfold splice. change (Z.to_nat 0) with 0%nat. rewrite drop_0, take_zlen_all. done.
Qed.

(** ** htfsk *)

Module Htfsk.

Definition BUFF_SIZE : Z := 256.

(** The 256 bytes of [buff], which are never cleared; what was sent; and
    whether the connection was closed. *)
Record state := mkState { buff : list Z; sent : list (list Z); closed : bool }.

(** One turn of the loop: [recv] stored [data] and returned [size]; [sendr]
    is what [send] returns. *)
Definition htfsk_turn (data : list Z) (size sendr : Z) : prog state unit :=
  if size =? -1 then ret tt
  else
    let* s := get in
    let* b := lift OutOfBounds (memcpy (buff s) 0 data 0 size) in
    do* put (mkState b (sent s) (closed s));
    let* text := lift OutOfBounds (c_string b) in
    do* put (mkState b (sent s ++ [text]) (closed s));
    if sendr =? -1 then
      do* put (mkState b (sent s ++ [text]) true);
      exit 0
    else ret tt.

Fixpoint htfsk_turns (l : list (list Z * Z * Z)) : prog state unit :=
  match l with
  | [] => ret tt
  | (data, size, sendr) :: l' => do* htfsk_turn data size sendr; htfsk_turns l'
  end.

(** [main]: what [android_get_control_socket], [listen] and [accept] return,
    then the loop. *)
Definition htfsk_main (fdListen listened new_fd : Z) (l : list (list Z * Z * Z)) : prog state unit :=
  if fdListen <? 0 then exit (-1)
  else if listened <? 0 then exit (-1)
  else if new_fd <? 0 then exit (-1)
  else htfsk_turns l.

(** What htfsk answers.  A message that ends in its NUL is sent back
    without it; a message without a NUL is sent back followed by what is left
    of an earlier, longer one up to the next NUL, and when there is none
    either the length is read past the end of the buffer.  At the end of the
    connection ([recv] returns 0) the last text is sent once more. *)
Theorem htfsk_answers data s :
  zlen (buff s) = BUFF_SIZE -> zlen data <= BUFF_SIZE -> nul_free data ->
  let rest := drop (length data) (buff s) in
  (zlen data < BUFF_SIZE -> exists b, htfsk_turn (data ++ [0]) (zlen data + 1) 0 s =
     Ret tt (mkState b (sent s ++ [data]) (closed s)) /\ zlen b = BUFF_SIZE /\
     htfsk_turn [] 0 0 (mkState b (sent s ++ [data]) (closed s)) =
       Ret tt (mkState b (sent s ++ [data; data]) (closed s))) /\
  htfsk_turn data (zlen data) 0 s =
    match c_string rest with
    | Some stale => Ret tt (mkState (data ++ rest) (sent s ++ [data ++ stale]) (closed s))
    | None => Fault OutOfBounds (mkState (data ++ rest) (sent s) (closed s))
    end.
Proof.
  intros Hb Hd Hn rest. pose proof (zlen_nonneg data) as H0. split.
  - intros Hlt. set (b := (data ++ [0]) ++ drop (length (data ++ [0])) (buff s)).
    assert (zlen (data ++ [0]) = zlen data + 1) as El by (by rewrite zlen_app).
    assert (c_string b = Some data) as Ec by (unfold b; rewrite <- app_assoc; by apply c_string_app).
    exists b. unfold htfsk_turn. rewrite <- El.
    destruct (zlen (data ++ [0]) =? -1) eqn:E; bool_cases; [lia|].
    rewrite bind_get, recv_into by lia. fold b. rewrite bind_lift_Some. unfold bind, put, ret, lift, get. cbn [buff sent closed].
    rewrite Ec. cbn [Z.eqb]. split_and!; [done| |].
    + unfold b. rewrite zlen_app, zlen_drop_length by lia. lia.
    + change (memcpy b 0 [] 0 0) with (memcpy b 0 [] 0 (zlen (A := Z) [])).
      rewrite recv_into by apply zlen_nonneg. cbn [app length ret buff sent closed]. rewrite drop_0, Ec.
      cbn [ret]. by rewrite <- app_assoc.
  - unfold htfsk_turn. destruct (zlen data =? -1) eqn:E; bool_cases; [lia|].
    rewrite bind_get, recv_into by lia. rewrite bind_lift_Some. fold rest.
    unfold bind, put. cbn [buff sent closed]. rewrite c_string_app_free by done.
    by destruct (c_string rest).
Qed.

Definition state0 : state := mkState (str "previous answer" ++ replicate 241 0) [] false.

Lemma htfsk_answers_witness :
  htfsk_turn (str "prev") 4 0 state0 =
    Ret tt (mkState (buff state0) [str "previous answer"] false).
Proof.
  destruct (htfsk_answers (str "prev") state0) as (_ & E);
    [vm_compute; reflexivity|vm_compute; congruence|by apply nul_free_true|]. exact E.
Defined.

End Htfsk.

(** ** getkeys *)

Module Getkeys.

Definition KEY_ESC : Z := 1.
(** [sizeof(struct input_event)] on the 32-bit target. *)
Definition SIZEOF_INPUT_EVENT : Z := 16.

(** The lines the tool prints. *)
Inductive out_line :=
  | SelectFailed | EventTimeout
  | Len (len : Z) | Event (e : input_event) | ReadFailed (len : Z)
  | Type_ (t : Z) | Value (v : Z) | Key (code : Z) (pressed : bool)
  | OpenFailed.

(** What [select] returned and whether the descriptor is ready; what [read]
    returned and stored. *)
Record answer := mkAnswer { a_select : Z; a_ready : bool; a_len : Z; a_event : input_event }.

(** One turn of [select_keys]: what it prints.  The loop has no end. *)
Definition select_keys_turn (a : answer) : list out_line :=
  if a_select a =? -1 then [SelectFailed]
  else if a_select a =? 0 then [EventTimeout]
  else if a_ready a then
    Len (a_len a) ::
    (if a_len a =? SIZEOF_INPUT_EVENT then [Event (a_event a)] else [ReadFailed (a_len a)])
  else [].

Definition select_keys (l : list answer) : list out_line := flat_map select_keys_turn l.

(** One turn of [read_keys]: what it prints and whether the loop is left. *)
Definition read_keys_turn (len : Z) (e : input_event) : list out_line * bool :=
  if len =? SIZEOF_INPUT_EVENT then
    if ev_type e =? EV_KEY then
      if (ev_value e =? 0) || (ev_value e =? 1) then
        ([Len len; Type_ (ev_type e); Value (ev_value e); Key (ev_code e) (negb (ev_value e =? 0))],
         ev_code e =? KEY_ESC)
      else ([Len len; Type_ (ev_type e); Value (ev_value e)], false)
    else ([Len len; Type_ (ev_type e)], false)
  else ([Len len], false).

(** What is printed, and what was not read: [None] when the loop goes on. *)
Fixpoint read_keys (l : list (Z * input_event)) : list out_line * option (list (Z * input_event)) :=
  match l with
  | [] => ([], None)
  | (len, e) :: l' =>
      let '(out, stop) := read_keys_turn len e in
      if stop then (out, Some l')
      else let '(out', r) := read_keys l' in (out ++ out', r)
  end.

(** [main]; its loop has no end, so a start that works returns nothing. *)
Definition getkeys_main (keys_fd : Z) (l : list answer) : list out_line * option Z :=
  if keys_fd <=? 0 then ([OpenFailed], Some (-1)) else (select_keys l, None).

(** *** The specification of [read_keys] *)

(** A press or a release, and of the escape key. *)
Definition key_change (x : Z * input_event) : bool :=
  (x.1 =? SIZEOF_INPUT_EVENT) && (ev_type x.2 =? EV_KEY) &&
  ((ev_value x.2 =? 0) || (ev_value x.2 =? 1)).
Definition escape (x : Z * input_event) : bool := key_change x && (ev_code x.2 =? KEY_ESC).

(** The keys a run of lines reports. *)
Definition keys_of (out : list out_line) : list (Z * bool) :=
  omap (fun x => match x with Key c p => Some (c, p) | _ => None end) out.

Lemma keys_of_app a b : keys_of (a ++ b) = keys_of a ++ keys_of b.
Proof. unfold keys_of. induction a as [|[] a IH]; cbn; rewrite ?IH; done. Qed.

Definition key_of (x : Z * input_event) : Z * bool := (ev_code x.2, negb (ev_value x.2 =? 0)).

Lemma read_keys_turn_spec len e :
  keys_of (read_keys_turn len e).1 = (if key_change (len, e) then [key_of (len, e)] else []) /\
  (read_keys_turn len e).2 = escape (len, e).
Proof.
  unfold escape, key_change, read_keys_turn. cbn [fst snd].
  destruct (len =? SIZEOF_INPUT_EVENT); [|done]. destruct (ev_type e =? EV_KEY); [|done].
  by destruct ((ev_value e =? 0) || (ev_value e =? 1)).
Qed.

Lemma read_keys_cons len e l :
  keys_of (read_keys ((len, e) :: l)).1 =
    (if key_change (len, e) then [key_of (len, e)] else []) ++
    (if escape (len, e) then [] else keys_of (read_keys l).1) /\
  (read_keys ((len, e) :: l)).2 = if escape (len, e) then Some l else (read_keys l).2.
Proof.
  cbn [read_keys]. destruct (read_keys_turn_spec len e) as [E1 E2].
  destruct (read_keys_turn len e) as [out stop]. cbn [fst snd] in *. subst stop.
  destruct (escape (len, e)); cbn [fst snd]; [by rewrite E1, app_nil_r|].
  destruct (read_keys l) as [out' r]. cbn [fst snd]. by rewrite keys_of_app, E1.
Qed.

(** [read_keys] ends at the first press or release of the escape key, and
    only there; it reports every press and release up to and with it, in order,
    and leaves what comes after unread.  Short reads, other events and
    auto-repeats are not reported as keys. *)
Theorem read_keys_until_escape pre x post :
  forallb (fun y => negb (escape y)) pre ->
  (keys_of (read_keys pre).1 = map key_of (filter (fun y => key_change y) pre) /\
   (read_keys pre).2 = None) /\
  (escape x ->
   keys_of (read_keys (pre ++ x :: post)).1 =
     map key_of (filter (fun y => key_change y) pre) ++ [key_of x] /\
   (read_keys (pre ++ x :: post)).2 = Some post).
Proof.
  induction pre as [|[len e] pre IH]; intros Hp.
  - split; [done|]. intros Hx. destruct x as [len e].
    destruct (read_keys_cons len e post) as [E1 E2]. cbn [app]. rewrite E1, E2.
    assert (key_change (len, e)) as Hk by (by apply andb_True in Hx as [? _]).
    by destruct (escape (len, e)), (key_change (len, e)).
  - apply andb_True in Hp as [He Hp]. destruct (IH Hp) as [[I1 I2] I3]. clear IH.
    cbn [app]. rewrite filter_cons. split.
    + destruct (read_keys_cons len e pre) as [E1 E2]. rewrite E1, E2, I1, I2.
      destruct (escape (len, e)); [done|]. split; [|done].
      by destruct (key_change (len, e)).
    + intros Hx. destruct (I3 Hx) as [J1 J2].
      destruct (read_keys_cons len e (pre ++ x :: post)) as [E1 E2]. rewrite E1, E2, J1, J2.
      destruct (escape (len, e)); [done|]. split; [|done].
      by destruct (key_change (len, e)).
Qed.

Definition ev (code value : Z) : Z * input_event := (16, mkEvent EV_KEY code value).

Lemma read_keys_until_escape_witness :
  keys_of (read_keys [ev 59 1; (16, mkEvent 0 0 0); ev 59 2; (-1, mkEvent EV_KEY 1 1); ev 1 1; ev 60 1]).1
    = [(59, true); (1, true)].
Proof.
  destruct (read_keys_until_escape [ev 59 1; (16, mkEvent 0 0 0); ev 59 2; (-1, mkEvent EV_KEY 1 1)]
    (ev 1 1) [ev 60 1] I) as [_ E]. apply E. exact I.
Defined.

End Getkeys.

(** ** v4l2 *)

Module V4l2.

Definition EXIT_SUCCESS : Z := 0.
Definition EXIT_FAILURE : Z := 1.

(** [struct v4l2_pix_format] as [VIDIOC_S_FMT] leaves it: the driver may
    change the size, and fills [bytesperline]. *)
Record pix_format := mkPix { width : Z; height : Z; bytesperline : Z }.

(** What is written to test.jpg ([None]: nothing yet) and what is open. *)
Record state := mkState { file : option (list Z); file_open : bool; dev_open : bool }.

(** What [select] returned and whether its error is [EINTR], then what [read]
    returned and stored. *)
Record answer := mkAnswer { s_ret : Z; s_eintr : bool; r_ret : Z; r_data : list Z }.

(** The system: [fopen] works or not, [open] returns [fd], the driver's
    format, [calloc] works or not, and what [malloc] finds in memory. *)
Record system := mkSystem {
  sy_fopen : bool; sy_fd : Z; sy_fmt : pix_format -> pix_format;
  sy_calloc : bool; sy_malloc : Z -> option (list Z)
}.

(** [read] stores into the buffer when there is one; into NULL the kernel
    stores nothing and the call fails. *)
Definition read_frame (buf : option (list Z)) (a : answer) : prog state (Z * option (list Z)) :=
  match buf with
  | None => ret (if r_ret a =? 0 then 0 else -1, None)
  | Some b =>
      if r_ret a <=? 0 then ret (r_ret a, Some b)
      else let* b' := lift OutOfBounds (memcpy b 0 (r_data a) 0 (r_ret a)) in
           ret (r_ret a, Some b')
  end.

(** The loop: the buffer when it is left, [None] when the answers end. *)
Fixpoint capture (l : list answer) (buf : option (list Z)) : prog state (option (option (list Z))) :=
  match l with
  | [] => ret None
  | a :: l' =>
      if (s_ret a =? -1) && s_eintr a then capture l' buf
      else if s_ret a =? 0 then exit EXIT_FAILURE
      else
        let* r := read_frame buf a in
        if negb (fst r =? 0) then ret (Some (snd r)) else capture l' (snd r)
  end.

Definition FD_SETSIZE : Z := 1024.

Definition v4l2_main (sy : system) (l : list answer) : prog state unit :=
  do* modify (fun s => mkState (if sy_fopen sy then Some [] else None) (sy_fopen sy) (dev_open s));
  do* modify (fun s => mkState (file s) (file_open s) (0 <=? sy_fd sy));
  let fmt := sy_fmt sy (mkPix 640 480 0) in
  let file_length := u32 (bytesperline fmt * height fmt) in
  if negb (sy_calloc sy) then fault_with NullDeref
  else
    let start := sy_malloc sy file_length in
    (* FD_SET of a descriptor outside the set *)
    if (sy_fd sy <? 0) || (FD_SETSIZE <=? sy_fd sy) then fault_with OutOfBounds
    else
      let* r := capture l start in
      match r with
      | None => ret tt
      | Some buf =>
          (* fwrite of the whole buffer *)
          let* s := get in
          let* f := lift NullDeref (file s) in
          let* b := (if file_length =? 0 then ret [] else lift NullDeref buf) in
          do* put (mkState (Some (f ++ b)) false false);
          exit EXIT_SUCCESS
      end.

(** A turn that does not leave the loop: an interrupted [select], or a [read]
    of nothing. *)
Definition goes_on (a : answer) : bool :=
  ((s_ret a =? -1) && s_eintr a) || (negb (s_ret a =? 0) && (r_ret a =? 0)).

Lemma capture_skip pre l b s :
  forallb goes_on pre -> capture (pre ++ l) (Some b) s = capture l (Some b) s.
Proof.
  induction pre as [|a pre IH]; [done|]. intros [Ha Hp]%andb_True. cbn [app capture].
  unfold goes_on in Ha. destruct ((s_ret a =? -1) && s_eintr a); [by apply IH|].
  destruct (s_ret a =? 0); [done|]. cbn in Ha. unfold read_frame.
  destruct (r_ret a =? 0) eqn:E; [|done]. bool_cases. rewrite E. cbn [Z.leb Z.compare].
  rewrite bind_ret. cbn [fst snd Z.eqb negb]. by apply IH.
Qed.

(** The picture file.  With every descriptor and allocation in order the
    tool waits over interrupted and empty turns, then writes one buffer of
    [bytesperline * height] bytes (modulo 2^32), closes what it opened and
    ends with success: the [n] bytes of the picture followed by what the
    memory held before, and after a [read] that failed nothing but what the
    memory held before.  A time-out ends it with failure and an empty file. *)
Theorem v4l2_picture sy mem pre a post s :
  let fmt := sy_fmt sy (mkPix 640 480 0) in
  let n := u32 (bytesperline fmt * height fmt) in
  sy_fopen sy = true -> sy_calloc sy = true -> 0 <= sy_fd sy < FD_SETSIZE ->
  sy_malloc sy n = Some mem -> zlen mem = n -> 0 < n ->
  forallb goes_on pre -> goes_on a = false -> s_ret a = -1 \/ 0 <= s_ret a ->
  r_ret a = -1 \/ 0 < r_ret a <= n /\ zlen (r_data a) = r_ret a ->
  v4l2_main sy (pre ++ a :: post) s =
    if s_ret a =? 0 then Exit EXIT_FAILURE (mkState (Some []) true true)
    else Exit EXIT_SUCCESS (mkState
      (Some (if r_ret a =? -1 then mem else r_data a ++ drop (length (r_data a)) mem)) false false).
Proof.
  intros fmt n Hf Hc Hfd Hm Hl Hn Hp Ha Hs Hr. unfold v4l2_main. rewrite Hf, Hc, !bind_modify.
  fold fmt n. cbn [negb file file_open dev_open]. rewrite Hm.
  destruct ((sy_fd sy <? 0) || _) eqn:E1; [apply orb_true_iff in E1; bool_cases; lia|].
  destruct (0 <=? sy_fd sy) eqn:E2; bool_cases; [|lia].
  rewrite (bind_unfold (capture _ _)), capture_skip by done. cbn [capture].
  unfold goes_on in Ha. apply orb_false_iff in Ha as [Ha1 Ha2]. rewrite Ha1.
  destruct (s_ret a =? 0) eqn:E3; [done|]. cbn [negb andb] in Ha2.
  assert (read_frame (Some mem) a (mkState (Some []) true true) =
    Ret (r_ret a, Some (if r_ret a =? -1 then mem else r_data a ++ drop (length (r_data a)) mem))
      (mkState (Some []) true true)) as R.
  { unfold read_frame. destruct Hr as [Hr|[Hr Hd]].
    - rewrite Hr. done.
    - destruct (r_ret a <=? 0) eqn:E4; bool_cases; [lia|].
      destruct (r_ret a =? -1) eqn:E5; bool_cases; [lia|].
      rewrite <- Hd, recv_into by lia. by rewrite Hd. }
  rewrite (bind_unfold (read_frame _ _)), R. cbn [fst snd]. rewrite Ha2. cbn [negb ret].
  rewrite bind_get. cbn [file]. rewrite bind_lift_Some.
  by destruct (n =? 0) eqn:E6; bool_cases; [lia|].
Qed.

Definition demo_system : system :=
  mkSystem true 3 (fun p => mkPix 4 2 8) true (fun n => Some (replicate (Z.to_nat n) 170)).

Lemma v4l2_picture_witness :
  v4l2_main demo_system [mkAnswer (-1) true 0 []; mkAnswer 1 false (-1) []] (mkState None false false) =
    Exit EXIT_SUCCESS (mkState (Some (replicate 16 170)) false false).
Proof.
  apply (v4l2_picture demo_system (replicate 16 170) [mkAnswer (-1) true 0 []]
    (mkAnswer 1 false (-1) []) [] (mkState None false false)); try reflexivity; try (cbn; lia).
  unfold FD_SETSIZE. cbn. lia.
Defined.

End V4l2.
