(* ===== verification/Kernel.v ===== *)
(** * The state of the board drivers and the kernel below them

    [kworld] holds what the drivers of [kernel/drivers/fleety] keep: the
    object each driver allocates, the driver-data pointers that lead to it,
    and whether its timer and delayed work are queued.  An object is [None]
    before its allocation and after [devm_kfree]; a pointer that outlives its
    object is therefore observable as [UseAfterFree].

    [Kernel] is what the drivers call and do not define: semaphore waits that
    a signal may interrupt, number parsing, GPIO lines, class and debugfs
    registration, the device tree.  Calls whose answer may change are stamped
    with the number of calls before them. *)

From stdpp Require Import base list numbers strings.
From Stdlib Require Import ZArith Lia.
From S2P Require Import Prelude Text.
Open Scope Z_scope.

(** ** Error numbers *)

Definition EPERM : Z := 1.
Definition ENOMEM : Z := 12.
Definition EFAULT : Z := 14.
Definition ENODEV : Z := 19.
Definition EINVAL : Z := 22.
Definition ERESTARTSYS : Z := 512.
Definition EPROBE_DEFER : Z := 517.

(** A pointer the kernel returns: NULL, [ERR_PTR(e)] or an object. *)
Inductive kptr := PNull | PErr (e : Z) | PObj.

Definition IS_ERR (p : kptr) : bool := match p with PErr _ => true | _ => false end.
Definition PTR_ERR (p : kptr) : Z := match p with PErr e => e | _ => 0 end.

(** ** The drivers' objects *)

(** [struct fleety_spider]; its timer and work are flags of [kworld]. *)
Record fleety_spider := mkSpider {
  version : Z;
  heart_beat : Z;
  app_ready : Z;
  touch_en : Z;
  gpo_map : Z;
  gpi_map : Z;
  debug_on : Z;
  sem : Z
}.

Definition set_heart_beat (v : Z) (d : fleety_spider) : fleety_spider :=
  mkSpider (version d) v (app_ready d) (touch_en d) (gpo_map d) (gpi_map d) (debug_on d) (sem d).
Definition set_app_ready (v : Z) (d : fleety_spider) : fleety_spider :=
  mkSpider (version d) (heart_beat d) v (touch_en d) (gpo_map d) (gpi_map d) (debug_on d) (sem d).
Definition set_touch_en (v : Z) (d : fleety_spider) : fleety_spider :=
  mkSpider (version d) (heart_beat d) (app_ready d) v (gpo_map d) (gpi_map d) (debug_on d) (sem d).
Definition set_gpo_map (v : Z) (d : fleety_spider) : fleety_spider :=
  mkSpider (version d) (heart_beat d) (app_ready d) (touch_en d) v (gpi_map d) (debug_on d) (sem d).
Definition set_gpi_map (v : Z) (d : fleety_spider) : fleety_spider :=
  mkSpider (version d) (heart_beat d) (app_ready d) (touch_en d) (gpo_map d) v (debug_on d) (sem d).
Definition set_sem (v : Z) (d : fleety_spider) : fleety_spider :=
  mkSpider (version d) (heart_beat d) (app_ready d) (touch_en d) (gpo_map d) (gpi_map d) (debug_on d) v.

(** [struct fleety_gpio] *)
Record fleety_gpio := mkGpio {
  dir : Z; index : Z; level : Z; state : Z; name : list Z
}.

(** [struct fleety_leds] *)
Record fleety_leds := mkLeds {
  leds_version : Z;
  led_gpio : list fleety_gpio;
  leds_sem : Z
}.

Definition set_led_gpio (l : list fleety_gpio) (d : fleety_leds) : fleety_leds :=
  mkLeds (leds_version d) l (leds_sem d).
Definition set_leds_sem (v : Z) (d : fleety_leds) : fleety_leds :=
  mkLeds (leds_version d) (led_gpio d) v.

(** What the drivers do to the hardware. *)
Inductive keffect :=
  | GpioRequest (gpio : Z) (name : list Z)
  | GpioDirOut (gpio value : Z)           (* gpio_direction_output *)
  | GpioSet (gpio value : Z)              (* gpio_set_value *)
  | Mdelay (ms : Z)
  | TouchEnable (on : Z)                  (* gtp_touch_enalbe, drivers/input/touchscreen *)
  | FileWrite (path text : list Z).       (* a write to an attribute file of another driver *)

Definition is_gpio_effect (e : keffect) : bool :=
  match e with GpioRequest _ _ | GpioDirOut _ _ | GpioSet _ _ => true | _ => false end.

Record kworld := mkK {
  k_time : nat;
  spider : option fleety_spider;
  spider_dev_drvdata : bool;     (* dev_set_drvdata on the class device *)
  spider_pdev_drvdata : bool;    (* platform_set_drvdata on fleety_spider_platform_device *)
  spider_timer : bool;           (* the app-ready timer is queued *)
  spider_work : bool;            (* heart_beat_work is queued *)
  leds : option fleety_leds;
  leds_dev_drvdata : bool;       (* on the class device *)
  leds_pdev_drvdata : bool;      (* on the device the device tree created *)
  leds_static_drvdata : bool;    (* on fleety_leds_platform_device *)
  k_trace : list keffect
}.

Definition ktick (w : kworld) : kworld :=
  mkK (S (k_time w)) (spider w) (spider_dev_drvdata w) (spider_pdev_drvdata w) (spider_timer w)
    (spider_work w) (leds w) (leds_dev_drvdata w) (leds_pdev_drvdata w) (leds_static_drvdata w)
    (k_trace w).
Definition kemit (e : keffect) (w : kworld) : kworld :=
  mkK (k_time w) (spider w) (spider_dev_drvdata w) (spider_pdev_drvdata w) (spider_timer w)
    (spider_work w) (leds w) (leds_dev_drvdata w) (leds_pdev_drvdata w) (leds_static_drvdata w)
    (k_trace w ++ [e]).
Definition with_spider (d : option fleety_spider) (w : kworld) : kworld :=
  mkK (k_time w) d (spider_dev_drvdata w) (spider_pdev_drvdata w) (spider_timer w)
    (spider_work w) (leds w) (leds_dev_drvdata w) (leds_pdev_drvdata w) (leds_static_drvdata w)
    (k_trace w).
Definition with_spider_drvdata (dev pdev : bool) (w : kworld) : kworld :=
  mkK (k_time w) (spider w) dev pdev (spider_timer w)
    (spider_work w) (leds w) (leds_dev_drvdata w) (leds_pdev_drvdata w) (leds_static_drvdata w)
    (k_trace w).
Definition with_spider_timer (b : bool) (w : kworld) : kworld :=
  mkK (k_time w) (spider w) (spider_dev_drvdata w) (spider_pdev_drvdata w) b
    (spider_work w) (leds w) (leds_dev_drvdata w) (leds_pdev_drvdata w) (leds_static_drvdata w)
    (k_trace w).
Definition with_spider_work (b : bool) (w : kworld) : kworld :=
  mkK (k_time w) (spider w) (spider_dev_drvdata w) (spider_pdev_drvdata w) (spider_timer w)
    b (leds w) (leds_dev_drvdata w) (leds_pdev_drvdata w) (leds_static_drvdata w)
    (k_trace w).
Definition with_leds (d : option fleety_leds) (w : kworld) : kworld :=
  mkK (k_time w) (spider w) (spider_dev_drvdata w) (spider_pdev_drvdata w) (spider_timer w)
    (spider_work w) d (leds_dev_drvdata w) (leds_pdev_drvdata w) (leds_static_drvdata w)
    (k_trace w).
Definition with_leds_drvdata (dev pdev static : bool) (w : kworld) : kworld :=
  mkK (k_time w) (spider w) (spider_dev_drvdata w) (spider_pdev_drvdata w) (spider_timer w)
    (spider_work w) (leds w) dev pdev static (k_trace w).

(** ** The kernel *)

(** [struct device_attribute]; a show function returns its result and what it
    wrote to its buffer. *)
Record device_attribute := mkAttr {
  attr_name : list Z;
  attr_show : bool -> prog kworld (Z * list Z);
  attr_store : bool -> list Z -> Z -> prog kworld Z
}.

(** A child of the driver's device-tree node, as [of_get_gpio_flags] and
    [of_get_property] read it. *)
Record of_child := mkChild {
  of_gpio : Z;                     (* GPIO number, or a negative error *)
  of_label : option (list Z);
  of_name : list Z;
  of_default_state : option (list Z)
}.

Class Kernel := {
  (** A signal interrupts the wait for a semaphore. *)
  k_interrupted : nat -> bool;
  (** [strict_strtoul(buf, 0, &val)]: [None] for a negative result. *)
  strict_strtoul : list Z -> option Z;
  strict_strtoul_range : forall b v, strict_strtoul b = Some v -> 0 <= v < 2 ^ 32;
  k_zalloc : nat -> bool;
  platform_device_register : nat -> Z;
  platform_driver_register : nat -> Z;
  class_create : nat -> kptr;
  class_create_not_null : forall t, class_create t <> PNull;
  device_create : nat -> kptr;
  device_create_not_null : forall t, device_create t <> PNull;
  debugfs_create_dir : nat -> kptr;
  debugfs_create_file : nat -> kptr;
  gpio_is_valid : Z -> bool;
  gpio_request : nat -> Z -> Z;
  gpio_direction_output : nat -> Z -> Z -> Z;
  k_config_of_gpio : bool;
  of_children : list of_child
}.

Section KernelCalls.
Context `{Kernel}.

(** One call of the kernel. *)
Definition kask {A} (f : nat -> A) : prog kworld A := fun w => Ret (f (k_time w)) (ktick w).
Definition kgets {A} (f : kworld -> A) : prog kworld A := fun w => Ret (f w) w.
Definition keffect_do (e : keffect) : prog kworld unit := modify (kemit e).

(** [p->field] of a driver-data pointer [p]. *)
Definition deref {A} (p : bool) (obj : option A) : prog kworld A :=
  if p then lift UseAfterFree obj else fault_with NullDeref.

Definition get_spider (p : bool) : prog kworld fleety_spider :=
  let* o := kgets spider in deref p o.
Definition put_spider (d : fleety_spider) : prog kworld unit := modify (with_spider (Some d)).
Definition get_leds (p : bool) : prog kworld fleety_leds :=
  let* o := kgets leds in deref p o.
Definition put_leds (d : fleety_leds) : prog kworld unit := modify (with_leds (Some d)).

(** [down_interruptible(&(dev->sem))]: true when a signal ended the wait. *)
Definition down_spider (p : bool) : prog kworld bool :=
  let* d := get_spider p in
  let* intr := kask k_interrupted in
  if intr then ret true
  else if 0 <? sem d then do* put_spider (set_sem (sem d - 1) d); ret false
  else fault_with Deadlock.
Definition up_spider (p : bool) : prog kworld unit :=
  let* d := get_spider p in put_spider (set_sem (sem d + 1) d).

Definition down_leds (p : bool) : prog kworld bool :=
  let* d := get_leds p in
  let* intr := kask k_interrupted in
  if intr then ret true
  else if 0 <? leds_sem d then do* put_leds (set_leds_sem (leds_sem d - 1) d); ret false
  else fault_with Deadlock.
Definition up_leds (p : bool) : prog kworld unit :=
  let* d := get_leds p in put_leds (set_leds_sem (leds_sem d + 1) d).

Lemma bind_kgets {A B} (f : kworld -> A) (k : A -> prog kworld B) w :
  bind (kgets f) k w = k (f w) w.
Proof. reflexivity. Qed.

Lemma bind_kask {A B} (f : nat -> A) (k : A -> prog kworld B) w :
  bind (kask f) k w = k (f (k_time w)) (ktick w).
Proof. reflexivity. Qed.

Lemma bind_keffect {B} e (k : unit -> prog kworld B) w :
  bind (keffect_do e) k w = k tt (kemit e w).
Proof. reflexivity. Qed.

Lemma bind_deref {A B} (d : A) (k : A -> prog kworld B) w :
  bind (deref true (Some d)) k w = k d w.
Proof. reflexivity. Qed.

(** Reads and writes of an object that is there. *)
Lemma bind_get_spider {B} (d : fleety_spider) (k : fleety_spider -> prog kworld B) w :
  spider w = Some d -> bind (get_spider true) k w = k d w.
Proof. intros E. unfold get_spider. by rewrite bind_bind, bind_kgets, E. Qed.

Lemma bind_put_spider {B} d (k : unit -> prog kworld B) w :
  bind (put_spider d) k w = k tt (with_spider (Some d) w).
Proof. reflexivity. Qed.

Lemma bind_get_leds {B} (d : fleety_leds) (k : fleety_leds -> prog kworld B) w :
  leds w = Some d -> bind (get_leds true) k w = k d w.
Proof. intros E. unfold get_leds. by rewrite bind_bind, bind_kgets, E. Qed.

Lemma bind_put_leds {B} d (k : unit -> prog kworld B) w :
  bind (put_leds d) k w = k tt (with_leds (Some d) w).
Proof. reflexivity. Qed.

(** A wait on a free semaphore either is interrupted and changes nothing, or takes it. *)
Lemma bind_down_spider {B} d (k : bool -> prog kworld B) w :
  spider w = Some d -> sem d = 1 ->
  bind (down_spider true) k w =
    if k_interrupted (k_time w) then k true (ktick w)
    else k false (with_spider (Some (set_sem 0 d)) (ktick w)).
Proof.
  intros E Es. unfold down_spider. rewrite bind_bind, (bind_get_spider d) by done.
  rewrite bind_bind, bind_kask. destruct (k_interrupted _); [done|]. by rewrite Es.
Qed.

Lemma bind_up_spider {B} d (k : unit -> prog kworld B) w :
  spider w = Some d ->
  bind (up_spider true) k w = k tt (with_spider (Some (set_sem (sem d + 1) d)) w).
Proof.
  intros E. unfold up_spider. by rewrite bind_bind, (bind_get_spider d) by done.
Qed.

Lemma bind_down_leds {B} d (k : bool -> prog kworld B) w :
  leds w = Some d -> leds_sem d = 1 ->
  bind (down_leds true) k w =
    if k_interrupted (k_time w) then k true (ktick w)
    else k false (with_leds (Some (set_leds_sem 0 d)) (ktick w)).
Proof.
  intros E Es. unfold down_leds. rewrite bind_bind, (bind_get_leds d) by done.
  rewrite bind_bind, bind_kask. destruct (k_interrupted _); [done|]. by rewrite Es.
Qed.

Lemma bind_up_leds {B} d (k : unit -> prog kworld B) w :
  leds w = Some d ->
  bind (up_leds true) k w = k tt (with_leds (Some (set_leds_sem (leds_sem d + 1) d)) w).
Proof. intros E. unfold up_leds. by rewrite bind_bind, (bind_get_leds d) by done. Qed.

End KernelCalls.

Lemma set_sem_same d : sem d = 1 -> set_sem 1 d = d.
Proof. destruct d. simpl. by intros ->. Qed.

Lemma set_leds_sem_same d : leds_sem d = 1 -> set_leds_sem 1 d = d.
Proof. destruct d. simpl. by intros ->. Qed.

Lemma with_leds_same d w : leds w = Some d -> with_leds (Some d) w = w.
Proof. destruct w. simpl. by intros ->. Qed.

Lemma with_spider_same d w : spider w = Some d -> with_spider (Some d) w = w.
Proof. destruct w. simpl. by intros ->. Qed.

(** Runs the first steps of a driver whose results are known. *)
Ltac krun := repeat first
  [ rewrite bind_kgets | rewrite bind_kask | rewrite bind_keffect | rewrite bind_deref
  | rewrite bind_put_spider | rewrite bind_put_leds | rewrite bind_modify
  | rewrite bind_ret | rewrite bind_lift_Some | rewrite bind_bind
  | erewrite bind_get_spider by (simpl; reflexivity || eassumption)
  | erewrite bind_get_leds by (simpl; reflexivity || eassumption)
  | erewrite bind_up_spider by (simpl; reflexivity || eassumption)
  | erewrite bind_up_leds by (simpl; reflexivity || eassumption) ]; cbv beta.

(** The number of kernel calls so far does not depend on the drivers' fields. *)
Ltac ktime := repeat match goal with
  | |- context [k_time (ktick ?w)] => change (k_time (ktick w)) with (S (k_time w))
  | |- context [k_time (kemit ?e ?w)] => change (k_time (kemit e w)) with (k_time w)
  | |- context [k_time (with_spider ?d ?w)] => change (k_time (with_spider d w)) with (k_time w)
  | |- context [k_time (with_spider_timer ?d ?w)] =>
      change (k_time (with_spider_timer d w)) with (k_time w)
  | |- context [k_time (with_leds ?d ?w)] => change (k_time (with_leds d w)) with (k_time w)
  end.

(** Equality of two states that differ in how they were reached. *)
Ltac kstate :=
  repeat match goal with w : kworld |- _ => destruct w | d : fleety_spider |- _ => destruct d
                    | d : fleety_leds |- _ => destruct d end;
  simpl in *; subst;
  cbv [with_spider with_spider_drvdata with_spider_timer with_spider_work with_leds
       with_leds_drvdata ktick kemit set_heart_beat set_app_ready set_touch_en set_gpo_map
       set_gpi_map set_sem set_led_gpio set_leds_sem] in *;
  simpl in *; repeat f_equal; try lia; try done.

(** ** The interfaces between the drivers *)

(** What the spider driver promises to the drivers that own the pins:
    [fleety_set_gpo_map] and [fleety_set_gpi_map] record a level in a bit of a
    bit map and touch nothing else. *)
Definition set_bit (m i v : Z) : Z := if v =? 0 then Z.clearbit m i else Z.setbit m i.

(** The state the promise is about: the spider driver is bound and nobody
    holds its semaphore. *)
Definition spider_ready (w : kworld) : Prop :=
  exists d, spider w = Some d /\ spider_pdev_drvdata w = true /\ sem d = 1.

Class PinMaps `{Kernel} := {
  map_set_gpo : Z -> Z -> prog kworld Z;
  map_set_gpi : Z -> Z -> prog kworld Z;
  map_set_gpo_spec : forall i v w d,
    spider w = Some d -> spider_pdev_drvdata w = true -> sem d = 1 -> 0 <= gpo_map d < 2 ^ 32 ->
    0 <= i < 32 ->
    map_set_gpo i v w =
      if k_interrupted (k_time w) then Ret (- ERESTARTSYS) (ktick w)
      else Ret 0 (with_spider (Some (set_gpo_map (set_bit (gpo_map d) i v) d)) (ktick w));
  map_set_gpi_spec : forall i v w d,
    spider w = Some d -> spider_pdev_drvdata w = true -> sem d = 1 -> 0 <= gpi_map d < 2 ^ 32 ->
    0 <= i < 32 ->
    map_set_gpi i v w =
      if k_interrupted (k_time w) then Ret (- ERESTARTSYS) (ktick w)
      else Ret 0 (with_spider (Some (set_gpi_map (set_bit (gpi_map d) i v) d)) (ktick w))
}.

(** What the leds driver promises to the spider driver: once it is bound, each
    call returns, keeps it bound, and leaves the spider driver's state alone. *)
Definition spider_frame (w w' : kworld) : Prop :=
  spider w' = spider w /\ spider_dev_drvdata w' = spider_dev_drvdata w /\
  spider_pdev_drvdata w' = spider_pdev_drvdata w /\ spider_timer w' = spider_timer w /\
  spider_work w' = spider_work w.

Class UsbControl `{Kernel} := {
  usb_switch : bool -> prog kworld Z;
  usbhub_reset : prog kworld Z;
  usb2eth_reset : prog kworld Z;
  usb_ready : kworld -> Prop;
  usb_ready_frame : forall w w', usb_ready w -> leds w' = leds w ->
    leds_static_drvdata w' = leds_static_drvdata w -> leds_dev_drvdata w' = leds_dev_drvdata w ->
    k_trace w' = k_trace w -> usb_ready w';
  usb_ready_emit : forall w e, usb_ready w -> is_gpio_effect e = false -> usb_ready (kemit e w);
  usb_switch_spec : forall host w, usb_ready w ->
    exists r w', usb_switch host w = Ret r w' /\ usb_ready w' /\ spider_frame w w';
  usbhub_reset_spec : forall w, usb_ready w ->
    exists r w', usbhub_reset w = Ret r w' /\ usb_ready w' /\ spider_frame w w';
  usb2eth_reset_spec : forall w, usb_ready w ->
    exists r w', usb2eth_reset w = Ret r w' /\ usb_ready w' /\ spider_frame w w'
}.

#[export] Instance spider_frame_preorder : PreOrder spider_frame.
Proof.
  split; [done|]. intros x y z (?&?&?&?&?) (?&?&?&?&?). split_and!; congruence.
Qed.

Lemma spider_frame_emit e w : spider_frame w (kemit e w).
Proof. done. Qed.

(** A kernel for the examples: nothing is interrupted or refused, except that
    the results of [class_create] and [debugfs_create_dir] may be chosen;
    numbers are decimal without a leading zero. *)
Module KDemo.
Definition strip_newline (b : list Z) : list Z :=
  match reverse b with 10 :: r => reverse r | _ => b end.

Definition parse_decimal (b : list Z) : option Z :=
  let b := strip_newline b in
  let v := undecimal b in
  if forallb (fun c => (48 <=? c) && (c <=? 57)) b && (0 <? zlen b) && (zlen b <=? 10)
     && ((zlen b =? 1) || negb (default 48 (head b) =? 48)) && (0 <=? v) && (v <? 2 ^ 32)
  then Some v else None.

Lemma parse_decimal_range b v : parse_decimal b = Some v -> 0 <= v < 2 ^ 32.
Proof. unfold parse_decimal. destruct (_ && _) eqn:E; [|done]. intros [= <-]. bool_cases. lia. Qed.

#[refine] Definition kernel_with (cls_error : option Z) (root : kptr) : Kernel := {|
  k_interrupted t := false;
  strict_strtoul := parse_decimal;
  strict_strtoul_range := parse_decimal_range;
  k_zalloc t := true;
  platform_device_register t := 0;
  platform_driver_register t := 0;
  class_create t := match cls_error with Some e => PErr e | None => PObj end;
  class_create_not_null := _;
  device_create t := PObj;
  device_create_not_null := _;
  debugfs_create_dir t := root;
  debugfs_create_file t := PObj;
  gpio_is_valid g := (0 <=? g) && (g <? 1024);
  gpio_request t g := 0;
  gpio_direction_output t g v := 0;
  k_config_of_gpio := true;
  of_children := [mkChild 91 (Some (str "relay1"%string)) (str "led0"%string) (Some (str "on"%string))]
|}.
Proof.
  - by destruct cls_error.
  - done.
Defined.

Definition demo_kernel : Kernel := kernel_with None PObj.

(** The kernel before any driver is bound. *)
Definition kworld0 : kworld := mkK 0 None false false false false None false false false [].
End KDemo.
