(* ===== verification/Spider.v ===== *)
(** * The spider driver

    [kernel/drivers/fleety/spider/fleety_spider.c]: the attribute files
    [heart_beat], [app_ready], [touch_en], [gpo_map] and [gpi_map], the bit maps
    the other drivers record pin levels in, the app-ready timer and the
    heart-beat work, and the driver's binding.  What the driver asks of the USB
    pins goes through [UsbControl]; what it promises to the pin drivers is the
    instance [spider_pin_maps]. *)

From stdpp Require Import base list numbers strings.
From Stdlib Require Import ZArith Lia.
From S2P Require Import Prelude Text Kernel.
Open Scope Z_scope.

Definition HEART_BEAT_DEFAULT_TIMES : Z := 30.

(** [sprintf(buf, "%d\n", v)] of an [unsigned int]: [%d] takes it as an [int]. *)
Definition sprintf_d (v : Z) : list Z := sdecimal (s32 v) ++ [10].

Section Maps.
Context `{Kernel}.

(** ** The pin maps *)

(** [0x01 << index] of an [int]. *)
Definition shift_one (index : Z) : prog kworld Z :=
  if (0 <=? index) && (index <? 32) then ret (Z.shiftl 1 index) else fault_with BadShift.

Definition fleety_set_gpo_map (index level : Z) : prog kworld Z :=
  let* dev := kgets spider_pdev_drvdata in
  let* intr := down_spider dev in
  if intr then ret (- ERESTARTSYS) else
  let* d := get_spider dev in
  let* bit := shift_one index in
  do* put_spider (set_gpo_map
        (if negb (level =? 0) then Z.lor (gpo_map d) (u32 bit)
         else Z.land (gpo_map d) (u32 (Z.lnot bit))) d);
  do* up_spider dev;
  ret 0.

Definition fleety_set_gpi_map (index level : Z) : prog kworld Z :=
  let* dev := kgets spider_pdev_drvdata in
  let* intr := down_spider dev in
  if intr then ret (- ERESTARTSYS) else
  let* d := get_spider dev in
  let* bit := shift_one index in
  do* put_spider (set_gpi_map
        (if negb (level =? 0) then Z.lor (gpi_map d) (u32 bit)
         else Z.land (gpi_map d) (u32 (Z.lnot bit))) d);
  do* up_spider dev;
  ret 0.

(** ** The timer and the delayed work *)

(** [schedule_delayed_work(&dev->heart_beat_work, ...)] *)
Definition schedule_heart_beat_work : prog kworld unit := modify (with_spider_work true).

(** Both take the object's address, whatever became of the object.  The calls
    that would restart the board are commented out in the source. *)
Definition app_ready_timer_treat : prog kworld unit :=
  let* d := get_spider true in
  schedule_heart_beat_work.

Definition heart_beat_work_fn : prog kworld unit :=
  let* d := get_spider true in
  do* (if heart_beat d =? 0 then ret tt
       else put_spider (set_heart_beat (u32 (heart_beat d - 1)) d));
  schedule_heart_beat_work.

(** The kernel runs a queued timer or work once and takes it off its queue. *)
Definition fire_timer : prog kworld unit :=
  let* queued := kgets spider_timer in
  if queued then do* modify (with_spider_timer false); app_ready_timer_treat else ret tt.
Definition fire_work : prog kworld unit :=
  let* queued := kgets spider_work in
  if queued then do* modify (with_spider_work false); heart_beat_work_fn else ret tt.

(** ** Binding *)

(** [memset(dev, 0, ...)] and [sema_init(&dev->sem, 1)]. *)
Definition spider_zeroed : fleety_spider := mkSpider 0 0 0 0 0 0 0 1.

(** A debugfs file of the device: an error ends the probe. *)
Definition debugfs_files (n : nat) : prog kworld (option Z) :=
  Nat.iter n (fun rest => let* ent := kask debugfs_create_file in
                          if IS_ERR ent then ret (Some (PTR_ERR ent)) else rest) (ret None).

Definition fleety_spider_probe : prog kworld Z :=
  let* ok := kask k_zalloc in
  if negb ok then ret (- ENOMEM) else
  do* modify (with_spider (Some spider_zeroed));
  do* modify (with_spider_timer true);
  do* modify (with_spider (Some (mkSpider 1 HEART_BEAT_DEFAULT_TIMES 0 1 0 0 0 1)));
  let* cls := kask class_create in
  if IS_ERR cls then do* modify (with_spider None); ret (PTR_ERR cls) else
  let* dev := kask device_create in
  if IS_ERR dev then do* modify (with_spider None); ret (PTR_ERR dev) else
  let* root := kask debugfs_create_dir in
  match root with
  | PNull => do* modify (with_spider None); ret 0
  | _ =>
    let* err := debugfs_files 3 in      (* heart_beat, app_ready, on *)
    match err with
    | Some e => ret e
    | None =>
      do* modify (with_spider_drvdata true true);
      ret 0
    end
  end.

Definition fleety_spider_remove : prog kworld Z :=
  let* dev := kgets spider_pdev_drvdata in
  let* d := get_spider dev in           (* debugfs_remove_recursive(dev->...) *)
  do* modify (with_spider None);
  ret 0.

(** [platform_driver_register] binds the driver to the device and drops the
    result of the probe; [platform_driver_unregister] unbinds it. *)
Definition fleety_spider_init : prog kworld Z :=
  let* r := kask platform_device_register in
  if negb (r =? 0) then ret r else
  let* r := kask platform_driver_register in
  if negb (r =? 0) then ret r else
  do* fleety_spider_probe;
  ret r.

Definition fleety_spider_exit : prog kworld unit :=
  do* fleety_spider_remove;
  ret tt.

End Maps.

Section Attributes.
Context `{Kernel} {UC : UsbControl}.

(** ** The attribute files

    [dev] is the driver-data pointer of the class device.  A show function
    returns its result and what it wrote to [buf]. *)

Definition app_ready_show (dev : bool) : prog kworld (Z * list Z) :=
  let* intr := down_spider dev in
  if intr then ret (- ERESTARTSYS, []) else
  let* d := get_spider dev in
  let text := sprintf_d (app_ready d) in
  do* up_spider dev;
  ret (zlen text, text).

(** What [app_ready_store] does when the value is not zero. *)
Definition usb_bring_up : prog kworld unit :=
  do* usb_switch true;
  do* keffect_do (Mdelay 200);
  do* usbhub_reset;
  do* keffect_do (Mdelay 200);
  do* usb2eth_reset;
  ret tt.

Definition app_ready_store (dev : bool) (buf : list Z) (count : Z) : prog kworld Z :=
  match strict_strtoul buf with
  | None => ret (- EPERM)
  | Some val =>
    let* intr := down_spider dev in
    if intr then ret (- ERESTARTSYS) else
    let* d := get_spider dev in
    do* put_spider (set_app_ready (u32 val) d);
    let* d := get_spider dev in
    do* (if negb (app_ready d =? 0) then usb_bring_up else ret tt);
    do* up_spider dev;
    ret count
  end.

Definition heart_beat_show (dev : bool) : prog kworld (Z * list Z) :=
  let* intr := down_spider dev in
  if intr then ret (- ERESTARTSYS, []) else
  let* d := get_spider dev in
  let text := sprintf_d (heart_beat d) in
  do* up_spider dev;
  ret (zlen text, text).

Definition heart_beat_store (dev : bool) (buf : list Z) (count : Z) : prog kworld Z :=
  match strict_strtoul buf with
  | None => ret (- EPERM)
  | Some val =>
    let* intr := down_spider dev in
    if intr then ret (- ERESTARTSYS) else
    let* d := get_spider dev in
    do* put_spider (set_heart_beat (u32 val) d);
    do* up_spider dev;
    ret count
  end.

Definition touch_en_show (dev : bool) : prog kworld (Z * list Z) :=
  let* intr := down_spider dev in
  if intr then ret (- ERESTARTSYS, []) else
  let* d := get_spider dev in
  let text := sprintf_d (touch_en d) in
  do* up_spider dev;
  ret (zlen text, text).

Definition touch_en_store (dev : bool) (buf : list Z) (count : Z) : prog kworld Z :=
  match strict_strtoul buf with
  | None => ret (- EPERM)
  | Some val =>
    let* intr := down_spider dev in
    if intr then ret (- ERESTARTSYS) else
    let* d := get_spider dev in
    do* put_spider (set_touch_en (u32 val) d);
    do* keffect_do (TouchEnable (s32 val));
    do* up_spider dev;
    ret count
  end.

Definition gpo_map_show (dev : bool) : prog kworld (Z * list Z) :=
  let* intr := down_spider dev in
  if intr then ret (- ERESTARTSYS, []) else
  let* d := get_spider dev in
  let text := sprintf_d (gpo_map d) in
  do* up_spider dev;
  ret (zlen text, text).

Definition gpo_map_store (dev : bool) (buf : list Z) (count : Z) : prog kworld Z :=
  match strict_strtoul buf with
  | None => ret (- EPERM)
  | Some val =>
    let* intr := down_spider dev in
    if intr then ret (- ERESTARTSYS) else
    let* d := get_spider dev in
    do* put_spider (set_gpo_map (u32 val) d);
    do* up_spider dev;
    ret count
  end.

Definition gpi_map_show (dev : bool) : prog kworld (Z * list Z) :=
  let* intr := down_spider dev in
  if intr then ret (- ERESTARTSYS, []) else
  let* d := get_spider dev in
  let text := sprintf_d (gpi_map d) in
  do* up_spider dev;
  ret (zlen text, text).

Definition gpi_map_store (dev : bool) (buf : list Z) (count : Z) : prog kworld Z :=
  match strict_strtoul buf with
  | None => ret (- EPERM)
  | Some val =>
    let* intr := down_spider dev in
    if intr then ret (- ERESTARTSYS) else
    let* d := get_spider dev in
    do* put_spider (set_gpi_map (u32 val) d);
    do* up_spider dev;
    ret count
  end.

Definition fleety_spider_device_attributes : list device_attribute :=
  [ mkAttr (str "heart_beat") heart_beat_show heart_beat_store;
    mkAttr (str "app_ready") app_ready_show app_ready_store;
    mkAttr (str "touch_en") touch_en_show touch_en_store;
    mkAttr (str "gpo_map") gpo_map_show gpo_map_store;
    mkAttr (str "gpi_map") gpi_map_show gpi_map_store ].

End Attributes.

(** ** Bits of the maps *)

Lemma u32_shift i : 0 <= i < 32 -> u32 (Z.shiftl 1 i) = 2 ^ i.
Proof.
  intros. rewrite Z.shiftl_1_l. apply u32_id. split; [apply Z.pow_nonneg; lia|].
  apply Z.pow_lt_mono_r; lia.
Qed.

Lemma testbit_high m j : 0 <= m < 2 ^ 32 -> 32 <= j -> Z.testbit m j = false.
Proof.
  intros Hm Hj. destruct (decide (m = 0)) as [->|]; [apply Z.bits_0|].
  apply Z.bits_above_log2; [lia|]. apply Z.log2_lt_pow2; [lia|].
  eapply Z.lt_le_trans; [apply Hm|]. apply Z.pow_le_mono_r; lia.
Qed.

Lemma or_bit m i : 0 <= i < 32 -> Z.lor m (u32 (Z.shiftl 1 i)) = Z.setbit m i.
Proof. intros. by rewrite u32_shift, Z.setbit_spec'. Qed.

Lemma and_not_bit m i : 0 <= m < 2 ^ 32 -> 0 <= i < 32 ->
  Z.land m (u32 (Z.lnot (Z.shiftl 1 i))) = Z.clearbit m i.
Proof.
  intros Hm Hi. apply Z.bits_inj'. intros j Hj. unfold u32.
  rewrite Z.land_spec, Z.clearbit_eqb by lia.
  destruct (decide (j < 32)).
  - rewrite Z.mod_pow2_bits_low, Z.lnot_spec, Z.shiftl_1_l, Z.pow2_bits_eqb by lia. done.
  - rewrite (testbit_high m) by lia. done.
Qed.

Lemma testbit_set_bit m i v j : 0 <= i -> 0 <= j ->
  Z.testbit (set_bit m i v) j = if j =? i then negb (v =? 0) else Z.testbit m j.
Proof.
  intros. unfold set_bit. destruct (v =? 0).
  - rewrite Z.clearbit_eqb by lia. rewrite (Z.eqb_sym i j).
    destruct (j =? i); simpl; by rewrite ?andb_false_r, ?andb_true_r.
  - rewrite Z.setbit_eqb by lia. rewrite (Z.eqb_sym i j). by destruct (j =? i).
Qed.

Lemma set_bit_range m i v : 0 <= m < 2 ^ 32 -> 0 <= i < 32 -> 0 <= set_bit m i v < 2 ^ 32.
Proof.
  intros Hm Hi. assert (0 <= set_bit m i v) as H0.
  { unfold set_bit. destruct (v =? 0).
    - rewrite Z.clearbit_spec'. apply Z.ldiff_nonneg. lia.
    - rewrite Z.setbit_spec'. apply Z.lor_nonneg. split; [lia|apply Z.pow_nonneg; lia]. }
  split; [done|]. destruct (decide (set_bit m i v = 0)) as [->|]; [lia|].
  apply Z.log2_lt_pow2; [lia|]. apply Z.lt_nge. intros HL.
  assert (Z.testbit (set_bit m i v) (Z.log2 (set_bit m i v)) = true) as HB
    by (apply Z.bit_log2; lia).
  rewrite testbit_set_bit in HB by lia.
  destruct (_ =? i) eqn:E; bool_cases; [lia|]. by rewrite testbit_high in HB by lia.
Qed.

Section MapLemmas.
Context `{Kernel}.

Lemma shift_one_ret {B} i (k : Z -> prog kworld B) w :
  0 <= i < 32 -> bind (shift_one i) k w = k (Z.shiftl 1 i) w.
Proof. intros. unfold shift_one. by rewrite (proj2 (Z.leb_le 0 i)), (proj2 (Z.ltb_lt i 32)) by lia. Qed.

Lemma fleety_set_gpo_map_run i v w d :
  spider w = Some d -> spider_pdev_drvdata w = true -> sem d = 1 -> 0 <= gpo_map d < 2 ^ 32 ->
  0 <= i < 32 ->
  fleety_set_gpo_map i v w =
    if k_interrupted (k_time w) then Ret (- ERESTARTSYS) (ktick w)
    else Ret 0 (with_spider (Some (set_gpo_map (set_bit (gpo_map d) i v) d)) (ktick w)).
Proof.
  intros E Ep Es Hm Hi. unfold fleety_set_gpo_map. krun. rewrite Ep, (bind_down_spider d) by done.
  destruct (k_interrupted _); [done|]. krun. rewrite shift_one_ret by done. krun.
  rewrite or_bit, and_not_bit by done. unfold ret, set_bit. destruct w, d; simpl in *. subst.
  by destruct (v =? 0).
Qed.

Lemma fleety_set_gpi_map_run i v w d :
  spider w = Some d -> spider_pdev_drvdata w = true -> sem d = 1 -> 0 <= gpi_map d < 2 ^ 32 ->
  0 <= i < 32 ->
  fleety_set_gpi_map i v w =
    if k_interrupted (k_time w) then Ret (- ERESTARTSYS) (ktick w)
    else Ret 0 (with_spider (Some (set_gpi_map (set_bit (gpi_map d) i v) d)) (ktick w)).
Proof.
  intros E Ep Es Hm Hi. unfold fleety_set_gpi_map. krun. rewrite Ep, (bind_down_spider d) by done.
  destruct (k_interrupted _); [done|]. krun. rewrite shift_one_ret by done. krun.
  rewrite or_bit, and_not_bit by done. unfold ret, set_bit. destruct w, d; simpl in *. subst.
  by destruct (v =? 0).
Qed.

(** The spider driver keeps its promise to the pin drivers. *)
#[export] Instance spider_pin_maps : PinMaps := {
  map_set_gpo := fleety_set_gpo_map;
  map_set_gpi := fleety_set_gpi_map;
  map_set_gpo_spec := fleety_set_gpo_map_run;
  map_set_gpi_spec := fleety_set_gpi_map_run
}.
End MapLemmas.

(** ** What the attribute files do

    [spider_fields] names, for each attribute file in the order of the table,
    the field it shows and stores. *)
Definition spider_fields : list ((fleety_spider -> Z) * (Z -> fleety_spider -> fleety_spider)) :=
  [(heart_beat, set_heart_beat); (app_ready, set_app_ready); (touch_en, set_touch_en);
   (gpo_map, set_gpo_map); (gpi_map, set_gpi_map)].

(** The driver is bound, its semaphore is free and its counters are [unsigned int]s. *)
Definition spider_values (d : fleety_spider) : Prop :=
  sem d = 1 /\ 0 <= heart_beat d < 2 ^ 32 /\ 0 <= app_ready d < 2 ^ 32 /\
  0 <= touch_en d < 2 ^ 32 /\ 0 <= gpo_map d < 2 ^ 32 /\ 0 <= gpi_map d < 2 ^ 32.

Definition spider_ok (w : kworld) : Prop :=
  exists d, spider w = Some d /\ spider_dev_drvdata w = true /\ spider_pdev_drvdata w = true /\
    spider_values d.

Lemma spider_ok_frame w w' : spider_frame w w' -> spider_ok w -> spider_ok w'.
Proof. intros (E1&E2&E3&_) (d&?&?&?&?). exists d. split_and!; congruence. Qed.

Section AttributeLemmas.
Context `{Kernel} {UC : UsbControl}.

(** The part of a show function that does not depend on the field. *)
Lemma show_run (show : bool -> prog kworld (Z * list Z)) g w d :
  In (show, g) [(heart_beat_show, heart_beat); (app_ready_show, app_ready);
                (touch_en_show, touch_en); (gpo_map_show, gpo_map); (gpi_map_show, gpi_map)] ->
  spider w = Some d -> sem d = 1 ->
  show true w =
    if k_interrupted (k_time w) then Ret (- ERESTARTSYS, []) (ktick w)
    else Ret (zlen (sprintf_d (g d)), sprintf_d (g d)) (ktick w).
Proof.
  intros Hin E Es.
  destruct Hin as [[= <- <-]|[[= <- <-]|[[= <- <-]|[[= <- <-]|[[= <- <-]|[]]]]]].
  all: unfold heart_beat_show, app_ready_show, touch_en_show, gpo_map_show, gpi_map_show.
  all: rewrite (bind_down_spider d) by done; destruct (k_interrupted _); [done|]; krun.
  all: unfold ret; f_equal; destruct w, d; simpl in *; by subst.
Qed.

(** A store function whose text is not a number, or whose wait is interrupted. *)
Lemma store_error (store : bool -> list Z -> Z -> prog kworld Z) buf count w d :
  In store [heart_beat_store; app_ready_store; touch_en_store; gpo_map_store; gpi_map_store] ->
  spider w = Some d -> sem d = 1 ->
  (strict_strtoul buf = None -> forall dev, store dev buf count w = Ret (- EPERM) w) /\
  (forall v, strict_strtoul buf = Some v -> k_interrupted (k_time w) = true ->
     store true buf count w = Ret (- ERESTARTSYS) (ktick w)).
Proof.
  intros Hin E Es. split.
  - intros En dev. destruct Hin as [<-|[<-|[<-|[<-|[<-|[]]]]]].
    all: unfold heart_beat_store, app_ready_store, touch_en_store, gpo_map_store, gpi_map_store.
    all: by rewrite En.
  - intros v Ev Ei. destruct Hin as [<-|[<-|[<-|[<-|[<-|[]]]]]].
    all: unfold heart_beat_store, app_ready_store, touch_en_store, gpo_map_store, gpi_map_store.
    all: by rewrite Ev, (bind_down_spider d), Ei by done.
Qed.

(** The states [app_ready_store] goes through while it holds the semaphore. *)
Lemma usb_bring_up_run w :
  usb_ready w -> exists w', usb_bring_up w = Ret tt w' /\ usb_ready w' /\ spider_frame w w'.
Proof.
  intros Hu. unfold usb_bring_up. destruct (usb_switch_spec true w Hu) as (r1&w1&E1&H1&F1).
  rewrite (bind_Ret _ _ _ _ _ E1). krun.
  destruct (usbhub_reset_spec (kemit (Mdelay 200) w1)) as (r2&w2&E2&H2&F2);
    [by apply usb_ready_emit|].
  rewrite (bind_Ret _ _ _ _ _ E2). krun.
  destruct (usb2eth_reset_spec (kemit (Mdelay 200) w2)) as (r3&w3&E3&H3&F3);
    [by apply usb_ready_emit|].
  rewrite (bind_Ret _ _ _ _ _ E3). exists w3. split_and!; [done..|].
  etrans; [exact F1|]. etrans; [apply spider_frame_emit|]. etrans; [exact F2|].
  etrans; [apply spider_frame_emit|]. exact F3.
Qed.

Lemma app_ready_store_run buf count v w d :
  spider w = Some d -> sem d = 1 -> usb_ready w -> strict_strtoul buf = Some v ->
  k_interrupted (k_time w) = false ->
  exists w', app_ready_store true buf count w = Ret count w' /\
    spider_frame (with_spider (Some (set_app_ready v d)) w) w' /\ usb_ready w'.
Proof.
  intros E Es Hu Ev Ei. unfold app_ready_store.
  rewrite Ev, (bind_down_spider d), Ei by done. krun.
  pose proof (strict_strtoul_range _ _ Ev). rewrite (u32_id v) by lia.
  set (d1 := set_app_ready v (set_sem 0 d)).
  set (w1 := with_spider _ _).
  assert (usb_ready w1) as Hu1 by by eapply usb_ready_frame.
  assert (exists w', (if negb (app_ready d1 =? 0) then usb_bring_up else ret tt) w1 = Ret tt w' /\
    usb_ready w' /\ spider_frame w1 w') as (w'&Ew&Hu'&F).
  { destruct (negb _); [by apply usb_bring_up_run|]. by exists w1. }
  rewrite (bind_Ret _ _ _ _ _ Ew). assert (spider w' = Some d1) as E' by apply F.
  krun. eexists. split_and!; [done| |by eapply usb_ready_frame].
  destruct F as (F1&F2&F3&F4&F5). split_and!; simpl; rewrite ?F2, ?F3, ?F4, ?F5; try done.
  f_equal. destruct d; simpl in *. by subst.
Qed.

Lemma attr_store_run k a g f buf count v w d :
  fleety_spider_device_attributes !! k = Some a -> spider_fields !! k = Some (g, f) ->
  spider w = Some d -> sem d = 1 -> usb_ready w -> strict_strtoul buf = Some v ->
  k_interrupted (k_time w) = false ->
  exists w', attr_store a true buf count w = Ret count w' /\
    spider_frame (with_spider (Some (f v d)) w) w' /\ usb_ready w'.
Proof.
  intros Ha Hf E Es Hu Ev Ei. pose proof (strict_strtoul_range _ _ Ev) as Hv.
  destruct k as [|[|[|[|[|?]]]]]; simpl in Ha, Hf; simplify_eq; simpl attr_store.
  2: by apply app_ready_store_run.
  all: unfold heart_beat_store, touch_en_store, gpo_map_store, gpi_map_store.
  all: rewrite Ev, (bind_down_spider d), Ei by done; krun; rewrite ?(u32_id v) by lia.
  all: eexists; split_and!; [done| |].
  all: try (by eapply usb_ready_frame).
  all: try (by apply (usb_ready_frame (kemit (TouchEnable (s32 v)) w)); [apply usb_ready_emit|..]).
  all: split_and!; try done; simpl; f_equal; destruct d; simpl in *; by subst.
Qed.

Lemma attr_show_run k a g f w d :
  fleety_spider_device_attributes !! k = Some a -> spider_fields !! k = Some (g, f) ->
  spider w = Some d -> sem d = 1 ->
  attr_show a true w =
    if k_interrupted (k_time w) then Ret (- ERESTARTSYS, []) (ktick w)
    else Ret (zlen (sprintf_d (g d)), sprintf_d (g d)) (ktick w).
Proof.
  intros Ha Hf E Es. apply show_run; [|done..].
  destruct k as [|[|[|[|[|?]]]]]; simpl in Ha, Hf; simplify_eq; simpl; tauto.
Qed.

Lemma field_get_set k g f v d : spider_fields !! k = Some (g, f) -> g (f v d) = v /\ sem (f v d) = sem d.
Proof. by destruct k as [|[|[|[|[|?]]]]]; intros [= <- <-]. Qed.

Lemma field_values k g f v d :
  spider_fields !! k = Some (g, f) -> 0 <= v < 2 ^ 32 -> spider_values d -> spider_values (f v d).
Proof.
  unfold spider_values. intros Hk Hv (?&?&?&?&?&?).
  destruct k as [|[|[|[|[|?]]]]]; simpl in Hk; simplify_eq; simpl; split_and!; lia.
Qed.

(** Every attribute file of the spider driver, on every branch.  A text that
    is not a number gives -EPERM and changes nothing; a signal during the wait
    gives -ERESTARTSYS and changes nothing; otherwise the store returns [count],
    writes exactly its own field, frees the semaphore, and a later show prints
    the stored value followed by a newline, as the [int] with the same bits. *)
Theorem spider_attribute_files k a g f buf count w d :
  fleety_spider_device_attributes !! k = Some a -> spider_fields !! k = Some (g, f) ->
  spider w = Some d -> sem d = 1 -> usb_ready w ->
  match strict_strtoul buf with
  | None => attr_store a true buf count w = Ret (- EPERM) w
  | Some v =>
    if k_interrupted (k_time w) then attr_store a true buf count w = Ret (- ERESTARTSYS) (ktick w)
    else exists w', attr_store a true buf count w = Ret count w' /\
           spider w' = Some (f v d) /\ g (f v d) = v /\ sem (f v d) = 1 /\
           (k_interrupted (k_time w') = false ->
            attr_show a true w' = Ret (zlen (sdecimal (s32 v) ++ [10]), sdecimal (s32 v) ++ [10]) (ktick w')) /\
           (k_interrupted (k_time w') = true -> attr_show a true w' = Ret (- ERESTARTSYS, []) (ktick w'))
  end.
Proof.
  intros Ha Hf E Es Hu. assert (In (attr_store a)
    [heart_beat_store; app_ready_store; touch_en_store; gpo_map_store; gpi_map_store]) as Hin.
  { destruct k as [|[|[|[|[|?]]]]]; simpl in Ha; simplify_eq; simpl; tauto. }
  destruct (store_error _ buf count w d Hin E Es) as [He1 He2].
  destruct (strict_strtoul buf) as [v|] eqn:Ev; [|by apply He1].
  destruct (k_interrupted (k_time w)) eqn:Ei; [by eapply He2|].
  destruct (attr_store_run k a g f buf count v w d) as (w'&Ew&(F&_)&_); [done..|].
  destruct (field_get_set k g f v d Hf) as [Hg Hs]. simpl in F.
  exists w'. split_and!; [done..|congruence| |].
  all: intros Ei'; rewrite (attr_show_run k a g f w' (f v d)), Ei' by congruence.
  all: by rewrite ?Hg.
Qed.

End AttributeLemmas.

(** ** The pin maps as sets of bits *)

Section Claims.
Context `{Kernel}.

(** Recording a level in a pin map.  With the driver bound and its semaphore
    free, [fleety_set_gpo_map] and [fleety_set_gpi_map] return 0, make bit
    [index] of their map 1 exactly when the level is not 0, leave every other
    bit, every other field and the other map alone and keep the map an
    [unsigned int]; a signal makes them return -ERESTARTSYS with the state
    unchanged. *)
Theorem pin_map_bits i v w d :
  spider w = Some d -> spider_pdev_drvdata w = true -> spider_values d -> 0 <= i < 32 ->
  if k_interrupted (k_time w)
  then fleety_set_gpo_map i v w = Ret (- ERESTARTSYS) (ktick w) /\
       fleety_set_gpi_map i v w = Ret (- ERESTARTSYS) (ktick w)
  else (exists m, fleety_set_gpo_map i v w = Ret 0 (with_spider (Some (set_gpo_map m d)) (ktick w)) /\
         0 <= m < 2 ^ 32 /\
         forall j, 0 <= j -> Z.testbit m j = if j =? i then negb (v =? 0) else Z.testbit (gpo_map d) j) /\
       (exists m, fleety_set_gpi_map i v w = Ret 0 (with_spider (Some (set_gpi_map m d)) (ktick w)) /\
         0 <= m < 2 ^ 32 /\
         forall j, 0 <= j -> Z.testbit m j = if j =? i then negb (v =? 0) else Z.testbit (gpi_map d) j).
Proof.
  intros E Ep (Es&_&_&_&Ho&Hi) Hr.
  rewrite (fleety_set_gpo_map_run i v w d), (fleety_set_gpi_map_run i v w d) by done.
  destruct (k_interrupted _); [done|].
  split; eexists; (split; [done|]); (split; [by apply set_bit_range|]);
    intros j Hj; apply testbit_set_bit; lia.
Qed.

(** ** The heart beat *)

Lemma fire_work_run w d :
  spider w = Some d -> spider_work w = true -> 0 <= heart_beat d < 2 ^ 32 ->
  fire_work w = Ret tt (with_spider (Some (set_heart_beat (Z.max 0 (heart_beat d - 1)) d)) w).
Proof.
  intros E Ew Hh. unfold fire_work. krun. rewrite Ew. krun. unfold heart_beat_work_fn. krun.
  destruct (heart_beat d =? 0) eqn:Eh; bool_cases; krun; unfold schedule_heart_beat_work, modify;
    rewrite ?u32_id by lia; kstate.
Qed.

(** The watchdog of the spider driver only counts.  Once the app-ready timer
    has run, whether or not the application is ready, [n] runs of the
    heart-beat work leave the counter at its value minus [n], never below 0,
    the work queued again and everything else unchanged: however long the
    application stays silent, nothing is restarted. *)
Theorem heart_beat_only_counts n w d :
  spider w = Some d -> spider_timer w = true -> 0 <= heart_beat d < 2 ^ 32 ->
  (do* fire_timer; Nat.iter n (fun c => do* fire_work; c) (ret tt)) w =
    Ret tt (with_spider (Some (set_heart_beat (Z.max 0 (heart_beat d - Z.of_nat n)) d))
             (with_spider_work true (with_spider_timer false w))).
Proof.
  intros E Et Hh. unfold fire_timer. krun. rewrite Et. krun. unfold app_ready_timer_treat. krun.
  unfold schedule_heart_beat_work. krun.
  set (w1 := with_spider_work true _).
  assert (spider w1 = Some d /\ spider_work w1 = true) as [E1 Ew1] by done.
  clearbody w1. clear E Et w. revert w1 d E1 Ew1 Hh.
  induction n as [|n IH]; intros w d E Ew Hh.
  - simpl. unfold ret. kstate.
  - rewrite Nat.iter_succ. erewrite bind_Ret by by apply fire_work_run.
    rewrite (IH _ (set_heart_beat (Z.max 0 (heart_beat d - 1)) d)); [|done|done|simpl; lia].
    replace (Z.max 0 (heart_beat d - Z.of_nat (S n)))
      with (Z.max 0 (Z.max 0 (heart_beat d - 1) - Z.of_nat n)) by lia.
    kstate.
Qed.

(** ** Binding *)

(** The state a failed probe leaves behind: the object is gone, its timer is
    still queued and runs into the freed object, and the next driver that
    records a pin level dereferences NULL. *)
Definition dangling (w : kworld) : Prop :=
  spider w = None /\ spider_timer w = true /\
  fire_timer w = Fault UseAfterFree (with_spider_timer false w) /\
  forall i v, fleety_set_gpo_map i v w = Fault NullDeref w.

Lemma dangling_intro w :
  spider w = None -> spider_timer w = true -> spider_pdev_drvdata w = false -> dangling w.
Proof.
  intros E Et Ep. split_and!; [done..| |].
  - unfold fire_timer. krun. rewrite Et. krun. unfold app_ready_timer_treat, get_spider. krun.
    simpl. by rewrite E.
  - intros i v. unfold fleety_set_gpo_map. krun. rewrite Ep. unfold down_spider, get_spider. krun.
    by rewrite bind_unfold.
Qed.

Definition spider_bound : fleety_spider := mkSpider 1 HEART_BEAT_DEFAULT_TIMES 0 1 0 0 0 1.

(** Binding the spider driver, on every branch.  Without memory the probe
    returns -ENOMEM and nothing happened.  If the class or the device cannot be
    created it returns that error, and if the debugfs directory cannot be
    created it returns 0, but in all three cases it frees its object with the
    timer still queued: the timer later runs into freed memory and the pin
    drivers dereference NULL.  If every registration succeeds the driver is
    bound with a heart beat of 30, the touch screen enabled and empty maps. *)
Theorem spider_probe_outcomes w :
  spider_pdev_drvdata w = false ->
  exists r w', fleety_spider_probe w = Ret r w' /\
  let t := k_time w in
  if negb (k_zalloc t) then r = - ENOMEM /\ w' = ktick w else
  match class_create (1 + t), device_create (2 + t), debugfs_create_dir (3 + t) with
  | PErr e, _, _ => r = e /\ dangling w'
  | _, PErr e, _ => r = e /\ dangling w'
  | _, _, PNull => r = 0 /\ dangling w'
  | _, _, _ =>
    if forallb (fun k => negb (IS_ERR (debugfs_create_file (k + t)))) [4; 5; 6]%nat
    then r = 0 /\ spider_ok w' /\ spider w' = Some spider_bound /\ spider_timer w' = true
    else spider_pdev_drvdata w' = false /\ spider w' = Some spider_bound /\ spider_timer w' = true
  end.
Proof.
  intros Ep. unfold fleety_spider_probe. cbv zeta. krun. destruct (k_zalloc _); [|by do 2 eexists].
  cbn [negb Nat.add forallb]. krun. ktime.
  destruct (class_create _) as [|e|]; simpl; krun; ktime;
    [|do 2 eexists; split_and!; [done..|by apply dangling_intro]|].
  all: destruct (device_create _) as [|e|]; simpl; krun; ktime;
    [|do 2 eexists; split_and!; [done..|by apply dangling_intro]|].
  all: destruct (debugfs_create_dir _) as [|e|]; simpl; krun; ktime;
    [do 2 eexists; split_and!; [done..|by apply dangling_intro]|..].
  all: unfold debugfs_files; simpl Nat.iter; krun; ktime.
  all: destruct (IS_ERR _); simpl; [by do 2 eexists|]; krun; ktime.
  all: destruct (IS_ERR _); simpl; [by do 2 eexists|]; krun; ktime.
  all: destruct (IS_ERR _); simpl; [by do 2 eexists|]; krun.
  all: do 2 eexists; split_and!; [done..| |done|done].
  all: exists spider_bound; split_and!; [done..|unfold spider_values; simpl].
  all: unfold HEART_BEAT_DEFAULT_TIMES; split_and!; lia.
Qed.

End Claims.

(** ** The theorems at concrete states *)

Module SpiderDemo.
Import KDemo.

Lemma bound_values : spider_values spider_bound.
Proof. unfold spider_values, spider_bound, HEART_BEAT_DEFAULT_TIMES; simpl. split_and!; lia. Qed.

Definition bound_world : kworld :=
  mkK 7 (Some spider_bound) true true true false None false false false [].

(** A probe whose class cannot be created: the timer is left behind. *)
Lemma spider_probe_outcomes_witness :
  spider_pdev_drvdata kworld0 = false /\
  exists r w', @fleety_spider_probe (kernel_with (Some (-12)) PObj) kworld0 = Ret r w' /\
    r = -12 /\ @dangling (kernel_with (Some (-12)) PObj) w'.
Proof.
  split; [done|].
  destruct (@spider_probe_outcomes (kernel_with (Some (-12)) PObj) kworld0 eq_refl) as (r&w'&E&Hr).
  exists r, w'. split; [done|]. exact Hr.
Defined.

Lemma pin_map_bits_witness :
  spider_values spider_bound /\
  exists m, @fleety_set_gpo_map demo_kernel 4 1 bound_world =
    Ret 0 (with_spider (Some (set_gpo_map m spider_bound)) (ktick bound_world)) /\
    Z.testbit m 4 = true /\ Z.testbit m 5 = false.
Proof.
  split; [exact bound_values|].
  destruct (@pin_map_bits demo_kernel 4 1 bound_world spider_bound) as [(m&E&_&Hb) _];
    [reflexivity|reflexivity|exact bound_values|lia|].
  exists m. split; [exact E|]. by rewrite !Hb by lia.
Defined.

Lemma heart_beat_only_counts_witness :
  spider_timer bound_world = true /\
  exists w', (do* @fire_timer; Nat.iter 31 (fun c => do* @fire_work; c) (ret tt)) bound_world = Ret tt w' /\
    heart_beat <$> spider w' = Some 0 /\ k_trace w' = [].
Proof.
  split; [reflexivity|].
  eexists. split; [by apply (heart_beat_only_counts 31 bound_world spider_bound); [..|apply bound_values]|].
  by vm_compute.
Defined.
End SpiderDemo.
