(* ===== verification/Leds.v ===== *)
(** * The leds driver

    [kernel/drivers/fleety/leds/fleety_leds.c]: the board's seventeen output
    pins, one attribute file per pin (the OTG file drives two), the functions
    other drivers call to switch USB and reset its hub and Ethernet adapter or
    to control the amplifier, and the driver's binding.  Pin levels are recorded
    through [PinMaps], which the spider driver implements; the instance
    [leds_usb_control] is what the spider driver relies on. *)

From stdpp Require Import base list sets numbers strings.
From Stdlib Require Import ZArith Lia.
From S2P Require Import Prelude Text Kernel Spider.
Open Scope Z_scope.

(** ** The pins *)

Definition FLEETY_OUTPUT1_LED_GPIO : Z := 1002.
Definition FLEETY_OUTPUT2_LED_GPIO : Z := 1003.
Definition FLEETY_OUTPUT3_LED_GPIO : Z := 1008.
Definition FLEETY_OUTPUT4_LED_GPIO : Z := 942.
Definition FLEETY_AMP_STB_GPIO : Z := 937.
Definition FLEETY_AMP_MUTE_GPIO : Z := 913.
Definition FLEETY_OTG_ID_GPIO : Z := 914.
Definition FLEETY_OTG_SWITCH_GPIO : Z := 943.
Definition FLEETY_USB2ETH_RST_GPIO : Z := 933.
Definition FLEETY_USBHUB_RST_GPIO : Z := 947.
Definition FLEETY_STM32_RST_GPIO : Z := 1004.
Definition FLEETY_CAMERA_POWER_GPIO : Z := 980.
Definition FLEETY_TACHOGRAPH_POWER_GPIO : Z := 1007.
Definition FLEETY_EX_POWER_GPIO : Z := 1010.
Definition FLEETY_FINGER_POWER_GPIO : Z := 1023.
Definition FLEETY_TSM_POWER_GPIO : Z := 934.
Definition FLEETY_FAN_POWER_GPIO : Z := 919.

(** The positions in [led_gpio]. *)
Definition OUTPUT1_RELAY_GPIO_INDEX : nat := 0.
Definition OUTPUT2_RELAY_GPIO_INDEX : nat := 1.
Definition OUTPUT3_RELAY_GPIO_INDEX : nat := 2.
Definition OUTPUT4_RELAY_GPIO_INDEX : nat := 3.
Definition AMP_STB_GPIO_INDEX : nat := 4.
Definition AMP_MUTE_GPIO_INDEX : nat := 5.
Definition OTG_ID_GPIO_INDEX : nat := 6.
Definition OTG_SWITCH_GPIO_INDEX : nat := 7.
Definition USB2ETH_RST_GPIO_INDEX : nat := 8.
Definition USBHUB_RST_GPIO_INDEX : nat := 9.
Definition STM32_RST_GPIO_INDEX : nat := 10.
Definition CAMERA_POWER_GPIO_INDEX : nat := 11.
Definition TACHOGRAPH_POWER_GPIO_INDEX : nat := 12.
Definition EX_POWER_GPIO_INDEX : nat := 13.
Definition FINGER_POWER_GPIO_INDEX : nat := 14.
Definition TSM_POWER_GPIO_INDEX : nat := 15.
Definition FAN_POWER_GPIO_INDEX : nat := 16.
Definition FLEETY_GPIO_MAX : nat := 17.

(** What the probe writes to [led_gpio]: GPIO number, name, initial level. *)
Definition led_gpio_init : list (nat * Z * list Z * Z) :=
  [ (OUTPUT1_RELAY_GPIO_INDEX, FLEETY_OUTPUT1_LED_GPIO, str "relay1-gpio", 0);
    (OUTPUT2_RELAY_GPIO_INDEX, FLEETY_OUTPUT2_LED_GPIO, str "relay2-gpio", 0);
    (OUTPUT3_RELAY_GPIO_INDEX, FLEETY_OUTPUT3_LED_GPIO, str "relay3-gpio", 0);
    (OUTPUT4_RELAY_GPIO_INDEX, FLEETY_OUTPUT4_LED_GPIO, str "relay4-gpio", 0);
    (AMP_STB_GPIO_INDEX, FLEETY_AMP_STB_GPIO, str "amp-stb", 1);
    (AMP_MUTE_GPIO_INDEX, FLEETY_AMP_MUTE_GPIO, str "amp-mute", 1);
    (OTG_ID_GPIO_INDEX, FLEETY_OTG_ID_GPIO, str "otg-id", 0);
    (OTG_SWITCH_GPIO_INDEX, FLEETY_OTG_SWITCH_GPIO, str "otg-switch", 0);
    (USB2ETH_RST_GPIO_INDEX, FLEETY_USB2ETH_RST_GPIO, str "usb2eth-rst", 1);
    (USBHUB_RST_GPIO_INDEX, FLEETY_USBHUB_RST_GPIO, str "usbhub-rst", 1);
    (STM32_RST_GPIO_INDEX, FLEETY_STM32_RST_GPIO, str "stm32-rst", 1);
    (CAMERA_POWER_GPIO_INDEX, FLEETY_CAMERA_POWER_GPIO, str "camera-power", 1);
    (TACHOGRAPH_POWER_GPIO_INDEX, FLEETY_TACHOGRAPH_POWER_GPIO, str "tachograph-power", 1);
    (EX_POWER_GPIO_INDEX, FLEETY_EX_POWER_GPIO, str "ex-power", 0);
    (FINGER_POWER_GPIO_INDEX, FLEETY_FINGER_POWER_GPIO, str "finger-power", 0);
    (TSM_POWER_GPIO_INDEX, FLEETY_TSM_POWER_GPIO, str "tsm-power", 0);
    (FAN_POWER_GPIO_INDEX, FLEETY_FAN_POWER_GPIO, str "fan-power", 0) ].

(** [led_gpio[i].level = v] *)
Definition set_level (v : Z) (e : fleety_gpio) : fleety_gpio :=
  mkGpio (dir e) (index e) v (state e) (name e).

Section Leds.
Context `{Kernel} {PM : PinMaps}.

(** [led_gpio[i]], with the bounds of the array. *)
Definition get_gpio (dev : bool) (i : nat) : prog kworld fleety_gpio :=
  let* d := get_leds dev in lift OutOfBounds (led_gpio d !! i).
Definition put_gpio (dev : bool) (i : nat) (e : fleety_gpio) : prog kworld unit :=
  let* d := get_leds dev in
  do* lift OutOfBounds (led_gpio d !! i);
  put_leds (set_led_gpio (<[i := e]> (led_gpio d)) d).
Definition write_level (dev : bool) (i : nat) (v : Z) : prog kworld unit :=
  let* e := get_gpio dev i in put_gpio dev i (set_level v e).
Definition gpio_set_value (gpio value : Z) : prog kworld unit := keffect_do (GpioSet gpio value).
(** [gpio_set_value(dev->led_gpio[i].index, v)] *)
Definition set_pin (dev : bool) (i : nat) (v : Z) : prog kworld unit :=
  let* e := get_gpio dev i in gpio_set_value (index e) v.

(** ** One pin through an attribute file *)

Definition fleety_leds_gpio_show_treat (dev : bool) (i : nat) : prog kworld (Z * list Z) :=
  let* intr := down_leds dev in
  if intr then ret (- ERESTARTSYS, []) else
  let* e := get_gpio dev i in
  let text := sdecimal (level e) ++ [10] in
  do* up_leds dev;
  ret (zlen text, text).

Definition fleety_leds_gpio_store_treat (dev : bool) (buf : list Z) (i : nat) : prog kworld Z :=
  match strict_strtoul buf with
  | None => ret (- EPERM)
  | Some val =>
    let* intr := down_leds dev in
    if intr then ret (- ERESTARTSYS) else
    do* write_level dev i (s32 val);
    do* set_pin dev i (s32 val);
    do* up_leds dev;
    ret 0
  end.

(** ** Configuration of the pins *)

Definition fleety_leds_gpio_configure_pin (dev : bool) (i : nat) : prog kworld unit :=
  let* e := get_gpio dev i in
  if gpio_is_valid (index e) then
    do* keffect_do (GpioRequest (index e) (name e));
    let* r := kask (fun t => gpio_request t (index e)) in
    if negb (r =? 0) then fault_with KernelBug else
    do* keffect_do (GpioDirOut (index e) (level e));
    let* r := kask (fun t => gpio_direction_output t (index e) (level e)) in
    if negb (r =? 0) then fault_with KernelBug else
    do* map_set_gpo (Z.of_nat i) (level e);
    ret tt
  else ret tt.

(** The loop over the pins, from [i] on. *)
Fixpoint configure_loop (dev : bool) (i n : nat) : prog kworld unit :=
  match n with
  | O => ret tt
  | S n => do* fleety_leds_gpio_configure_pin dev i; configure_loop dev (S i) n
  end.

Definition fleety_leds_gpio_configure (dev : bool) : prog kworld unit :=
  configure_loop dev 0 FLEETY_GPIO_MAX.

(** ** The attribute files *)

Definition output1_relay_on_show (dev : bool) : prog kworld (Z * list Z) :=
  let* ret_ := fleety_leds_gpio_show_treat dev OUTPUT1_RELAY_GPIO_INDEX in
  ret ret_.

Definition output1_relay_on_store (dev : bool) (buf : list Z) (count : Z) : prog kworld Z :=
  do* fleety_leds_gpio_store_treat dev buf OUTPUT1_RELAY_GPIO_INDEX;
  ret count.

Definition output2_relay_on_show (dev : bool) : prog kworld (Z * list Z) :=
  let* ret_ := fleety_leds_gpio_show_treat dev OUTPUT2_RELAY_GPIO_INDEX in
  ret ret_.

Definition output2_relay_on_store (dev : bool) (buf : list Z) (count : Z) : prog kworld Z :=
  do* fleety_leds_gpio_store_treat dev buf OUTPUT2_RELAY_GPIO_INDEX;
  ret count.

Definition output3_relay_on_show (dev : bool) : prog kworld (Z * list Z) :=
  let* ret_ := fleety_leds_gpio_show_treat dev OUTPUT3_RELAY_GPIO_INDEX in
  ret ret_.

Definition output3_relay_on_store (dev : bool) (buf : list Z) (count : Z) : prog kworld Z :=
  do* fleety_leds_gpio_store_treat dev buf OUTPUT3_RELAY_GPIO_INDEX;
  ret count.

Definition output4_relay_on_show (dev : bool) : prog kworld (Z * list Z) :=
  let* ret_ := fleety_leds_gpio_show_treat dev OUTPUT4_RELAY_GPIO_INDEX in
  ret ret_.

Definition output4_relay_on_store (dev : bool) (buf : list Z) (count : Z) : prog kworld Z :=
  do* fleety_leds_gpio_store_treat dev buf OUTPUT4_RELAY_GPIO_INDEX;
  ret count.

Definition amp_stb_on_show (dev : bool) : prog kworld (Z * list Z) :=
  let* ret_ := fleety_leds_gpio_show_treat dev AMP_STB_GPIO_INDEX in
  ret ret_.

Definition amp_stb_on_store (dev : bool) (buf : list Z) (count : Z) : prog kworld Z :=
  do* fleety_leds_gpio_store_treat dev buf AMP_STB_GPIO_INDEX;
  ret count.

Definition amp_mute_on_show (dev : bool) : prog kworld (Z * list Z) :=
  let* ret_ := fleety_leds_gpio_show_treat dev AMP_MUTE_GPIO_INDEX in
  ret ret_.

Definition amp_mute_on_store (dev : bool) (buf : list Z) (count : Z) : prog kworld Z :=
  do* fleety_leds_gpio_store_treat dev buf AMP_MUTE_GPIO_INDEX;
  ret count.

Definition otg_switch_on_show (dev : bool) : prog kworld (Z * list Z) :=
  let* ret_ := fleety_leds_gpio_show_treat dev OTG_SWITCH_GPIO_INDEX in
  ret ret_.

Definition otg_switch_on_store (dev : bool) (buf : list Z) (count : Z) : prog kworld Z :=
  do* fleety_leds_gpio_store_treat dev buf OTG_SWITCH_GPIO_INDEX;
  do* fleety_leds_gpio_store_treat dev buf OTG_ID_GPIO_INDEX;
  ret count.

Definition usb2eth_rst_on_show (dev : bool) : prog kworld (Z * list Z) :=
  let* ret_ := fleety_leds_gpio_show_treat dev USB2ETH_RST_GPIO_INDEX in
  ret ret_.

Definition usb2eth_rst_on_store (dev : bool) (buf : list Z) (count : Z) : prog kworld Z :=
  do* fleety_leds_gpio_store_treat dev buf USB2ETH_RST_GPIO_INDEX;
  ret count.

Definition usbhub_rst_on_show (dev : bool) : prog kworld (Z * list Z) :=
  let* ret_ := fleety_leds_gpio_show_treat dev USBHUB_RST_GPIO_INDEX in
  ret ret_.

Definition usbhub_rst_on_store (dev : bool) (buf : list Z) (count : Z) : prog kworld Z :=
  do* fleety_leds_gpio_store_treat dev buf USBHUB_RST_GPIO_INDEX;
  ret count.

Definition stm32_rst_on_show (dev : bool) : prog kworld (Z * list Z) :=
  let* ret_ := fleety_leds_gpio_show_treat dev STM32_RST_GPIO_INDEX in
  ret ret_.

Definition stm32_rst_on_store (dev : bool) (buf : list Z) (count : Z) : prog kworld Z :=
  do* fleety_leds_gpio_store_treat dev buf STM32_RST_GPIO_INDEX;
  ret count.

Definition camera_power_on_show (dev : bool) : prog kworld (Z * list Z) :=
  let* ret_ := fleety_leds_gpio_show_treat dev CAMERA_POWER_GPIO_INDEX in
  ret ret_.

Definition camera_power_on_store (dev : bool) (buf : list Z) (count : Z) : prog kworld Z :=
  do* fleety_leds_gpio_store_treat dev buf CAMERA_POWER_GPIO_INDEX;
  ret count.

Definition tachograph_power_on_show (dev : bool) : prog kworld (Z * list Z) :=
  let* ret_ := fleety_leds_gpio_show_treat dev TACHOGRAPH_POWER_GPIO_INDEX in
  ret ret_.

Definition tachograph_power_on_store (dev : bool) (buf : list Z) (count : Z) : prog kworld Z :=
  do* fleety_leds_gpio_store_treat dev buf TACHOGRAPH_POWER_GPIO_INDEX;
  ret count.

Definition ex_power_on_show (dev : bool) : prog kworld (Z * list Z) :=
  let* ret_ := fleety_leds_gpio_show_treat dev EX_POWER_GPIO_INDEX in
  ret ret_.

Definition ex_power_on_store (dev : bool) (buf : list Z) (count : Z) : prog kworld Z :=
  do* fleety_leds_gpio_store_treat dev buf EX_POWER_GPIO_INDEX;
  ret count.

Definition finger_power_on_show (dev : bool) : prog kworld (Z * list Z) :=
  let* ret_ := fleety_leds_gpio_show_treat dev FINGER_POWER_GPIO_INDEX in
  ret ret_.

Definition finger_power_on_store (dev : bool) (buf : list Z) (count : Z) : prog kworld Z :=
  do* fleety_leds_gpio_store_treat dev buf FINGER_POWER_GPIO_INDEX;
  ret count.

Definition tsm_power_on_show (dev : bool) : prog kworld (Z * list Z) :=
  let* ret_ := fleety_leds_gpio_show_treat dev TSM_POWER_GPIO_INDEX in
  ret ret_.

Definition tsm_power_on_store (dev : bool) (buf : list Z) (count : Z) : prog kworld Z :=
  do* fleety_leds_gpio_store_treat dev buf TSM_POWER_GPIO_INDEX;
  ret count.

Definition fan_power_on_show (dev : bool) : prog kworld (Z * list Z) :=
  let* ret_ := fleety_leds_gpio_show_treat dev FAN_POWER_GPIO_INDEX in
  ret ret_.

Definition fan_power_on_store (dev : bool) (buf : list Z) (count : Z) : prog kworld Z :=
  do* fleety_leds_gpio_store_treat dev buf FAN_POWER_GPIO_INDEX;
  ret count.

Definition fleety_leds_device_attributes : list device_attribute :=
  [ mkAttr (str "output1_relay") output1_relay_on_show output1_relay_on_store;
    mkAttr (str "output2_relay") output2_relay_on_show output2_relay_on_store;
    mkAttr (str "output3_relay") output3_relay_on_show output3_relay_on_store;
    mkAttr (str "output4_relay") output4_relay_on_show output4_relay_on_store;
    mkAttr (str "amp_stb") amp_stb_on_show amp_stb_on_store;
    mkAttr (str "amp_mute") amp_mute_on_show amp_mute_on_store;
    mkAttr (str "otg_switch") otg_switch_on_show otg_switch_on_store;
    mkAttr (str "usb2eth_rst") usb2eth_rst_on_show usb2eth_rst_on_store;
    mkAttr (str "usbhub_rst") usbhub_rst_on_show usbhub_rst_on_store;
    mkAttr (str "stm32_rst") stm32_rst_on_show stm32_rst_on_store;
    mkAttr (str "camera_power") camera_power_on_show camera_power_on_store;
    mkAttr (str "tachograph_power") tachograph_power_on_show tachograph_power_on_store;
    mkAttr (str "ex_power") ex_power_on_show ex_power_on_store;
    mkAttr (str "finger_power") finger_power_on_show finger_power_on_store;
    mkAttr (str "tsm_power") tsm_power_on_show tsm_power_on_store;
    mkAttr (str "fan_power") fan_power_on_show fan_power_on_store ].

(** ** The device tree *)

(** [for_each_child_of_node]: the second loop of [fleety_leds_create_of], from
    entry [i] on.  [LEDS_GPIO_DEFSTATE_ON] is 1 and [LEDS_GPIO_DEFSTATE_OFF] 0. *)
Fixpoint create_of_loop (i : nat) (children : list of_child) : prog kworld unit :=
  match children with
  | [] => ret tt
  | c :: rest =>
    let led_name := default (of_name c) (of_label c) in
    let default_state :=
      match of_default_state c with
      | Some s => if bool_decide (s = str "on") then 1 else 0
      | None => 0
      end in
    let* e := get_gpio true i in
    do* put_gpio true i (mkGpio 1 (s32 (of_gpio c + 911)) default_state (state e) led_name);
    create_of_loop (S i) rest
  end.

Definition fleety_leds_create_of : prog kworld Z :=
  let count := length of_children in
  if (count =? 0)%nat || (FLEETY_GPIO_MAX <? count)%nat then ret (- ENODEV) else
  if existsb (fun c => of_gpio c =? - EPROBE_DEFER) of_children then ret (- EPROBE_DEFER) else
  do* create_of_loop 0 of_children;
  ret 0.

(** ** Binding *)

(** [memset(dev, 0, ...)] and [sema_init(&dev->sem, 1)]. *)
Definition leds_zeroed : fleety_leds :=
  mkLeds 0 (replicate FLEETY_GPIO_MAX (mkGpio 0 0 0 0 [])) 1.

(** The four assignments of the probe to each entry. *)
Fixpoint init_table (l : list (nat * Z * list Z * Z)) : prog kworld unit :=
  match l with
  | [] => ret tt
  | (i, gpio, nm, lv) :: l =>
    let* e := get_gpio true i in
    do* put_gpio true i (mkGpio 1 gpio lv (state e) nm);
    init_table l
  end.

Definition fleety_leds_probe : prog kworld Z :=
  let* ok := kask k_zalloc in
  if negb ok then ret (- ENOMEM) else
  do* modify (with_leds (Some leds_zeroed));
  do* (if k_config_of_gpio then do* fleety_leds_create_of; ret tt else ret tt);
  do* init_table led_gpio_init;
  let* d := get_leds true in
  do* put_leds (mkLeds 1 (led_gpio d) (leds_sem d));
  do* fleety_leds_gpio_configure true;
  let* cls := kask class_create in
  if IS_ERR cls then do* modify (with_leds None); ret (PTR_ERR cls) else
  let* dev := kask device_create in
  if IS_ERR dev then do* modify (with_leds None); ret (PTR_ERR dev) else
  do* modify (with_leds_drvdata true true true);
  ret 0.

Definition fleety_leds_remove : prog kworld Z :=
  do* modify (with_leds None);
  ret 0.

(** The device comes from the device tree: registering the driver binds it and
    drops the result of the probe. *)
Definition fleety_leds_init : prog kworld Z :=
  let* r := kask platform_driver_register in
  if negb (r =? 0) then ret r else
  do* fleety_leds_probe;
  ret r.

Definition fleety_leds_exit : prog kworld unit :=
  do* fleety_leds_remove;
  ret tt.

(** ** The functions other drivers call *)

Definition fleety_usb_switch (host : bool) : prog kworld Z :=
  let* dev := kgets leds_static_drvdata in
  let* intr := down_leds dev in
  if intr then ret (- ERESTARTSYS) else
  let level := if host then 1 else 0 in
  do* write_level dev OTG_ID_GPIO_INDEX level;
  do* write_level dev OTG_SWITCH_GPIO_INDEX level;
  do* set_pin dev OTG_ID_GPIO_INDEX level;
  do* set_pin dev OTG_SWITCH_GPIO_INDEX level;
  do* up_leds dev;
  ret 0.

Definition fleety_usbhub_reset : prog kworld Z :=
  let* dev := kgets leds_static_drvdata in
  let* intr := down_leds dev in
  if intr then ret (- ERESTARTSYS) else
  do* write_level dev USBHUB_RST_GPIO_INDEX 0;
  do* set_pin dev USBHUB_RST_GPIO_INDEX 0;
  do* keffect_do (Mdelay 200);
  do* write_level dev USBHUB_RST_GPIO_INDEX 1;
  do* set_pin dev USBHUB_RST_GPIO_INDEX 1;
  do* up_leds dev;
  ret 0.

Definition fleety_usb2eth_reset : prog kworld Z :=
  let* dev := kgets leds_static_drvdata in
  let* intr := down_leds dev in
  if intr then ret (- ERESTARTSYS) else
  do* write_level dev USB2ETH_RST_GPIO_INDEX 0;
  do* set_pin dev USB2ETH_RST_GPIO_INDEX 0;
  do* keffect_do (Mdelay 200);
  do* write_level dev USB2ETH_RST_GPIO_INDEX 1;
  do* set_pin dev USB2ETH_RST_GPIO_INDEX 1;
  do* up_leds dev;
  ret 0.

Definition fleety_amp_standby (on : Z) : prog kworld Z :=
  let* dev := kgets leds_static_drvdata in
  let* intr := down_leds dev in
  if intr then ret (- ERESTARTSYS) else
  do* write_level dev AMP_STB_GPIO_INDEX on;
  do* set_pin dev AMP_STB_GPIO_INDEX on;
  do* up_leds dev;
  ret 0.

Definition fleety_amp_mute (on : Z) : prog kworld Z :=
  let* dev := kgets leds_static_drvdata in
  let* intr := down_leds dev in
  if intr then ret (- ERESTARTSYS) else
  do* write_level dev AMP_MUTE_GPIO_INDEX on;
  do* set_pin dev AMP_MUTE_GPIO_INDEX on;
  do* up_leds dev;
  ret 0.

End Leds.

(** ** The pins seen from outside

    [pin tr g] is the level line [g] was last driven to in the trace [tr]. *)
Definition pin_step (g : Z) (cur : option Z) (e : keffect) : option Z :=
  match e with
  | GpioSet g' v | GpioDirOut g' v => if g' =? g then Some v else cur
  | _ => cur
  end.
Definition pin (tr : list keffect) (g : Z) : option Z := foldl (pin_step g) None tr.

Lemma pin_snoc tr e g : pin (tr ++ [e]) g = pin_step g (pin tr g) e.
Proof. unfold pin. by rewrite foldl_app. Qed.

(** The GPIO numbers of the board, by position. *)
Definition board_gpios : list Z := map (fun '(_, g, _, _) => g) led_gpio_init.

Lemma board_gpios_NoDup : NoDup board_gpios.
Proof. by apply (bool_decide_unpack _). Qed.

(** The driver's table describes the board: the entries are the board's lines and
    the recorded level of each is the level its line was last driven to. *)
Definition wired (tr : list keffect) (l : list fleety_gpio) : Prop :=
  map index l = board_gpios /\
  forall i e, l !! i = Some e -> pin tr (index e) = Some (level e).

Definition leds_ok (w : kworld) : Prop :=
  exists d, leds w = Some d /\ leds_dev_drvdata w = true /\ leds_static_drvdata w = true /\
    leds_sem d = 1 /\ wired (k_trace w) (led_gpio d).

Lemma wired_length tr l : wired tr l -> length l = FLEETY_GPIO_MAX.
Proof. intros [E _]. rewrite <- (length_map index), E. done. Qed.

Lemma wired_lookup tr l i : wired tr l -> (i < FLEETY_GPIO_MAX)%nat -> exists e, l !! i = Some e.
Proof. intros Hw Hi. apply lookup_lt_is_Some. by rewrite (wired_length tr). Qed.

Lemma wired_index tr l i j e f :
  wired tr l -> l !! i = Some e -> l !! j = Some f -> index e = index f -> i = j.
Proof.
  intros [E _] Hi Hj Hx. apply (NoDup_lookup board_gpios i j (index e) board_gpios_NoDup).
  - by rewrite <- E, list_lookup_fmap, Hi.
  - by rewrite <- E, list_lookup_fmap, Hj, Hx.
Qed.

(** Writing a level and driving its line keeps the table true. *)
Lemma wired_write tr l i e v :
  wired tr l -> l !! i = Some e ->
  wired (tr ++ [GpioSet (index e) v]) (<[i := set_level v e]> l).
Proof.
  intros Hw Hi. split.
  - rewrite <- (proj1 Hw). rewrite list_fmap_insert. apply list_insert_id.
    by rewrite list_lookup_fmap, Hi.
  - intros j f Hj. rewrite pin_snoc. simpl. apply list_lookup_insert_Some in Hj as [(<-&<-&_)|[Hn Hj]].
    + simpl. by rewrite Z.eqb_refl.
    + destruct (index e =? index f) eqn:E; bool_cases; [|by eapply (proj2 Hw)].
      by destruct Hn; eapply wired_index.
Qed.

Lemma wired_emit tr l e : wired tr l -> is_gpio_effect e = false -> wired (tr ++ [e]) l.
Proof.
  intros [E Hl] He. split; [done|]. intros i f Hi. rewrite pin_snoc.
  destruct e; simpl in *; try discriminate; by eapply Hl.
Qed.

Section LedsLemmas.
Context `{Kernel}.

Lemma bind_get_gpio {B} d i e (k : fleety_gpio -> prog kworld B) w :
  leds w = Some d -> led_gpio d !! i = Some e -> bind (get_gpio true i) k w = k e w.
Proof. intros E Ei. unfold get_gpio. krun. by rewrite Ei. Qed.

Lemma bind_write_level {B} d i e v (k : unit -> prog kworld B) w :
  leds w = Some d -> led_gpio d !! i = Some e ->
  bind (write_level true i v) k w =
    k tt (with_leds (Some (set_led_gpio (<[i := set_level v e]> (led_gpio d)) d)) w).
Proof.
  intros E Ei. unfold write_level, put_gpio. rewrite bind_bind, (bind_get_gpio d i e) by done. krun.
  rewrite Ei. by krun.
Qed.

Lemma bind_set_pin {B} d i e v (k : unit -> prog kworld B) w :
  leds w = Some d -> led_gpio d !! i = Some e ->
  bind (set_pin true i v) k w = k tt (kemit (GpioSet (index e) v) w).
Proof.
  intros E Ei. unfold set_pin. rewrite bind_bind, (bind_get_gpio d i e) by done. done.
Qed.

(** The state after driving pin [i], which entry [e] describes, to [v]. *)
Definition driven (i : nat) (v : Z) (d : fleety_leds) : fleety_leds :=
  match led_gpio d !! i with
  | Some e => set_led_gpio (<[i := set_level v e]> (led_gpio d)) d
  | None => d
  end.

Lemma fleety_leds_gpio_store_treat_run buf i w d e :
  leds w = Some d -> leds_sem d = 1 -> led_gpio d !! i = Some e ->
  fleety_leds_gpio_store_treat true buf i w =
    match strict_strtoul buf with
    | None => Ret (- EPERM) w
    | Some v =>
      if k_interrupted (k_time w) then Ret (- ERESTARTSYS) (ktick w)
      else Ret 0 (kemit (GpioSet (index e) (s32 v)) (with_leds (Some (driven i (s32 v) d)) (ktick w)))
    end.
Proof.
  intros E Es Ei. unfold fleety_leds_gpio_store_treat. destruct (strict_strtoul buf) as [v|]; [|done].
  rewrite (bind_down_leds d) by done. destruct (k_interrupted _); [done|].
  erewrite bind_write_level by done. erewrite bind_set_pin; [|done|]; [|apply list_lookup_insert_eq].
  2: by eapply lookup_lt_Some.
  krun. unfold driven. rewrite Ei. unfold ret. kstate.
Qed.

Lemma fleety_leds_gpio_show_treat_run i w d e :
  leds w = Some d -> leds_sem d = 1 -> led_gpio d !! i = Some e ->
  fleety_leds_gpio_show_treat true i w =
    if k_interrupted (k_time w) then Ret (- ERESTARTSYS, []) (ktick w)
    else Ret (zlen (sdecimal (level e) ++ [10]), sdecimal (level e) ++ [10]) (ktick w).
Proof.
  intros E Es Ei. unfold fleety_leds_gpio_show_treat. rewrite (bind_down_leds d) by done.
  destruct (k_interrupted _); [done|]. rewrite (bind_get_gpio (set_leds_sem 0 d) i e) by done.
  krun. unfold ret. kstate.
Qed.

Lemma wired_gpio tr l i e : wired tr l -> l !! i = Some e -> board_gpios !! i = Some (index e).
Proof. intros [E _] Hi. by rewrite <- E, list_lookup_fmap, Hi. Qed.

Lemma driven_lookup i v d e : led_gpio d !! i = Some e -> led_gpio (driven i v d) !! i = Some (set_level v e).
Proof.
  intros Hi. unfold driven. rewrite Hi. simpl. apply list_lookup_insert_eq. by eapply lookup_lt_Some.
Qed.

Lemma driven_other i j v d : i <> j -> led_gpio (driven i v d) !! j = led_gpio d !! j.
Proof.
  intros Hn. unfold driven. destruct (led_gpio d !! i); [|done]. by apply list_lookup_insert_ne.
Qed.

Lemma driven_sem i v d : leds_sem (driven i v d) = leds_sem d.
Proof. unfold driven. by destruct (_ !! _). Qed.

Lemma driven_twice i u v d : driven i v (driven i u d) = driven i v d.
Proof.
  unfold driven at 1. destruct (led_gpio d !! i) as [e|] eqn:Ei.
  - rewrite (driven_lookup i u d e Ei). unfold driven. rewrite Ei. unfold set_led_gpio. simpl.
    by rewrite list_insert_insert_eq.
  - unfold driven. rewrite Ei. by rewrite Ei.
Qed.

Lemma wired_driven tr d i e v :
  wired tr (led_gpio d) -> led_gpio d !! i = Some e ->
  wired (tr ++ [GpioSet (index e) v]) (led_gpio (driven i v d)).
Proof. intros Hw Hi. unfold driven. rewrite Hi. by apply wired_write. Qed.

(** One write of a pin while the semaphore is held. *)
Lemma bind_drive {B} d i e v (k : unit -> prog kworld B) w :
  leds w = Some d -> led_gpio d !! i = Some e ->
  bind (write_level true i v) (fun _ => bind (set_pin true i v) k) w =
    k tt (kemit (GpioSet (index e) v) (with_leds (Some (driven i v d)) w)).
Proof.
  intros E Ei. erewrite bind_write_level by done. erewrite bind_set_pin; [|done|].
  2: apply list_lookup_insert_eq; by eapply lookup_lt_Some.
  unfold driven. by rewrite Ei.
Qed.

Lemma set_sem_driven i v z d : driven i v (set_leds_sem z d) = set_leds_sem z (driven i v d).
Proof. unfold driven. simpl. by destruct (led_gpio d !! i). Qed.

Lemma up_down_sem d :
  leds_sem d = 1 -> set_leds_sem (leds_sem (set_leds_sem 0 d) + 1) (set_leds_sem 0 d) = d.
Proof. destruct d. simpl. by intros ->. Qed.

(** The part of the calls that drive one pin and release the semaphore. *)
Lemma drive_and_up_run i v w d e :
  leds w = Some d -> leds_sem d = 1 -> led_gpio d !! i = Some e ->
  leds_static_drvdata w = true ->
  (let* dev := kgets leds_static_drvdata in
   let* intr := down_leds dev in
   if intr then ret (- ERESTARTSYS) else
   do* write_level dev i v; do* set_pin dev i v; do* up_leds dev; ret 0) w =
    if k_interrupted (k_time w) then Ret (- ERESTARTSYS) (ktick w)
    else Ret 0 (kemit (GpioSet (index e) v) (with_leds (Some (driven i v d)) (ktick w))).
Proof.
  intros E Es Ei Ep. krun. rewrite Ep, (bind_down_leds d) by done.
  destruct (k_interrupted _); [done|]. erewrite bind_drive by done. krun.
  by rewrite set_sem_driven, up_down_sem by by rewrite driven_sem.
Qed.

Lemma reset_run i w d e :
  leds w = Some d -> leds_sem d = 1 -> led_gpio d !! i = Some e ->
  leds_static_drvdata w = true ->
  (let* dev := kgets leds_static_drvdata in
   let* intr := down_leds dev in
   if intr then ret (- ERESTARTSYS) else
   do* write_level dev i 0; do* set_pin dev i 0; do* keffect_do (Mdelay 200);
   do* write_level dev i 1; do* set_pin dev i 1; do* up_leds dev; ret 0) w =
    if k_interrupted (k_time w) then Ret (- ERESTARTSYS) (ktick w)
    else Ret 0 (kemit (GpioSet (index e) 1) (kemit (Mdelay 200) (kemit (GpioSet (index e) 0)
           (with_leds (Some (driven i 1 d)) (ktick w))))).
Proof.
  intros E Es Ei Ep. krun. rewrite Ep, (bind_down_leds d) by done.
  destruct (k_interrupted _); [done|]. erewrite bind_drive by done. krun.
  erewrite bind_drive; [|done|by apply driven_lookup]. krun.
  by rewrite driven_twice, set_sem_driven, up_down_sem by by rewrite driven_sem.
Qed.

Lemma fleety_usb_switch_run (host : bool) w d e e' :
  leds w = Some d -> leds_sem d = 1 -> leds_static_drvdata w = true ->
  led_gpio d !! OTG_ID_GPIO_INDEX = Some e -> led_gpio d !! OTG_SWITCH_GPIO_INDEX = Some e' ->
  let v := if host then 1 else 0 in
  fleety_usb_switch host w =
    if k_interrupted (k_time w) then Ret (- ERESTARTSYS) (ktick w)
    else Ret 0 (kemit (GpioSet (index e') v) (kemit (GpioSet (index e) v)
           (with_leds (Some (driven OTG_SWITCH_GPIO_INDEX v (driven OTG_ID_GPIO_INDEX v d))) (ktick w)))).
Proof.
  intros E Es Ep Ei Ei' v. unfold fleety_usb_switch. krun. fold v.
  rewrite Ep, (bind_down_leds d) by done. destruct (k_interrupted _); [done|].
  assert (forall a x f g, led_gpio d !! a = Some f -> g = driven a x (set_leds_sem 0 d) ->
    set_led_gpio (<[a := set_level x f]> (led_gpio d)) (set_leds_sem 0 d) = g) as Hd.
  { intros a x f g Ha ->. unfold driven. simpl. by rewrite Ha. }
  erewrite bind_write_level by done. simpl led_gpio. erewrite Hd by done.
  assert (led_gpio (driven OTG_ID_GPIO_INDEX v (set_leds_sem 0 d)) !! OTG_SWITCH_GPIO_INDEX = Some e')
    as Ei2 by by rewrite driven_other.
  erewrite bind_write_level by done.
  set (d1 := driven OTG_ID_GPIO_INDEX v (set_leds_sem 0 d)) in *.
  replace (set_led_gpio _ d1) with (driven OTG_SWITCH_GPIO_INDEX v d1)
    by (unfold driven at 1; by rewrite Ei2).
  erewrite bind_set_pin; [|done|]; [|rewrite driven_other by done; by apply driven_lookup].
  erewrite bind_set_pin; [|done|by apply driven_lookup]. krun.
  unfold d1. by rewrite !set_sem_driven, up_down_sem by by rewrite !driven_sem.
Qed.
End LedsLemmas.

(** ** Calls that keep the table true *)

Section Safe.
Context `{Kernel}.

(** [safe c]: from a state where the table is true, [c] returns, the table is
    true again, and the spider driver's state is untouched. *)
Definition safe {A} (c : prog kworld A) : Prop :=
  forall w, leds_ok w -> exists r w', c w = Ret r w' /\ leds_ok w' /\ spider_frame w w'.

Lemma safe_ret {A} (a : A) : safe (ret a).
Proof. intros w Hw. by exists a, w. Qed.

Lemma safe_bind {A B} (c : prog kworld A) (k : A -> prog kworld B) :
  safe c -> (forall a, safe (k a)) -> safe (bind c k).
Proof.
  intros Hc Hk w Hw. destruct (Hc w Hw) as (a&w1&E1&H1&F1). rewrite (bind_Ret _ _ _ _ _ E1).
  destruct (Hk a w1 H1) as (b&w2&E2&H2&F2). exists b, w2. split_and!; [done..|by etrans].
Qed.

Lemma leds_ok_frame w w' :
  leds_ok w -> leds w' = leds w -> leds_dev_drvdata w' = leds_dev_drvdata w ->
  leds_static_drvdata w' = leds_static_drvdata w -> k_trace w' = k_trace w -> leds_ok w'.
Proof. intros (d&?&?&?&?&?) ? ? ? Ht. exists d. rewrite Ht. split_and!; congruence. Qed.

Lemma leds_ok_emit w e : leds_ok w -> is_gpio_effect e = false -> leds_ok (kemit e w).
Proof. intros (d&?&?&?&?&?) He. exists d. split_and!; [done..|by apply wired_emit]. Qed.

(** The state with pin [i] driven to [v]. *)
Lemma leds_ok_driven w d i e v :
  leds_ok w -> leds w = Some d -> led_gpio d !! i = Some e ->
  leds_ok (kemit (GpioSet (index e) v) (with_leds (Some (driven i v d)) (ktick w))).
Proof.
  intros (d'&E&?&?&?&?) E' Hi. simplify_eq. exists (driven i v d').
  split_and!; [done..|by rewrite driven_sem|by apply wired_driven].
Qed.

Lemma leds_ok_entry w i :
  leds_ok w -> (i < FLEETY_GPIO_MAX)%nat ->
  exists d e, leds w = Some d /\ leds_sem d = 1 /\ leds_static_drvdata w = true /\
    led_gpio d !! i = Some e /\ board_gpios !! i = Some (index e).
Proof.
  intros (d&E&_&Ep&Es&Hw) Hi. destruct (wired_lookup _ _ _ Hw Hi) as [e He].
  exists d, e. split_and!; [done..|by eapply wired_gpio].
Qed.

Lemma store_treat_safe buf i :
  (i < FLEETY_GPIO_MAX)%nat -> safe (fleety_leds_gpio_store_treat true buf i).
Proof.
  intros Hi w Hw. destruct (leds_ok_entry w i Hw Hi) as (d&e&E&Es&Ep&He&_).
  rewrite (fleety_leds_gpio_store_treat_run buf i w d e) by done.
  destruct (strict_strtoul buf) as [v|]; [|by do 2 eexists].
  destruct (k_interrupted _); (do 2 eexists; split_and!; [done| |done]).
  - by eapply leds_ok_frame.
  - by apply leds_ok_driven.
Qed.

Lemma show_treat_safe i :
  (i < FLEETY_GPIO_MAX)%nat -> safe (fleety_leds_gpio_show_treat true i).
Proof.
  intros Hi w Hw. destruct (leds_ok_entry w i Hw Hi) as (d&e&E&Es&Ep&He&_).
  rewrite (fleety_leds_gpio_show_treat_run i w d e) by done.
  destruct (k_interrupted _); (do 2 eexists; split_and!; [done|by eapply leds_ok_frame|done]).
Qed.

Lemma amp_standby_safe on : safe (fleety_amp_standby on).
Proof.
  intros w Hw. destruct (leds_ok_entry w AMP_STB_GPIO_INDEX Hw) as (d&e&E&Es&Ep&He&_);
    [unfold AMP_STB_GPIO_INDEX, FLEETY_GPIO_MAX; lia|].
  unfold fleety_amp_standby. rewrite (drive_and_up_run _ on w d e) by done.
  destruct (k_interrupted _); (do 2 eexists; split_and!; [done| |done]);
    [by eapply leds_ok_frame|by apply leds_ok_driven].
Qed.

Lemma amp_mute_safe on : safe (fleety_amp_mute on).
Proof.
  intros w Hw. destruct (leds_ok_entry w AMP_MUTE_GPIO_INDEX Hw) as (d&e&E&Es&Ep&He&_);
    [unfold AMP_MUTE_GPIO_INDEX, FLEETY_GPIO_MAX; lia|].
  unfold fleety_amp_mute. rewrite (drive_and_up_run _ on w d e) by done.
  destruct (k_interrupted _); (do 2 eexists; split_and!; [done| |done]);
    [by eapply leds_ok_frame|by apply leds_ok_driven].
Qed.

(** A low pulse on a pin ends with the pin high. *)
Lemma leds_ok_pulse w d i e :
  leds_ok w -> leds w = Some d -> led_gpio d !! i = Some e ->
  leds_ok (kemit (GpioSet (index e) 1) (kemit (Mdelay 200) (kemit (GpioSet (index e) 0)
             (with_leds (Some (driven i 1 d)) (ktick w))))).
Proof.
  intros Hw E Hi. pose proof (leds_ok_driven w d i e 0 Hw E Hi) as H1.
  apply (leds_ok_emit _ (Mdelay 200)) in H1; [|done].
  pose proof (leds_ok_driven _ (driven i 0 d) i (set_level 0 e) 1 H1 eq_refl
                (driven_lookup i 0 d e Hi)) as H2.
  eapply leds_ok_frame; [exact H2|simpl; by rewrite driven_twice|done..].
Qed.

Lemma usbhub_reset_safe : safe fleety_usbhub_reset.
Proof.
  intros w Hw. destruct (leds_ok_entry w USBHUB_RST_GPIO_INDEX Hw) as (d&e&E&Es&Ep&He&_);
    [unfold USBHUB_RST_GPIO_INDEX, FLEETY_GPIO_MAX; lia|].
  unfold fleety_usbhub_reset. rewrite (reset_run _ w d e) by done.
  destruct (k_interrupted _); (do 2 eexists; split_and!; [done| |done]);
    [by eapply leds_ok_frame|by apply leds_ok_pulse].
Qed.

Lemma usb2eth_reset_safe : safe fleety_usb2eth_reset.
Proof.
  intros w Hw. destruct (leds_ok_entry w USB2ETH_RST_GPIO_INDEX Hw) as (d&e&E&Es&Ep&He&_);
    [unfold USB2ETH_RST_GPIO_INDEX, FLEETY_GPIO_MAX; lia|].
  unfold fleety_usb2eth_reset. rewrite (reset_run _ w d e) by done.
  destruct (k_interrupted _); (do 2 eexists; split_and!; [done| |done]);
    [by eapply leds_ok_frame|by apply leds_ok_pulse].
Qed.

Lemma usb_switch_safe host : safe (fleety_usb_switch host).
Proof.
  intros w Hw. destruct (leds_ok_entry w OTG_ID_GPIO_INDEX Hw) as (d&e&E&Es&Ep&He&_);
    [unfold OTG_ID_GPIO_INDEX, FLEETY_GPIO_MAX; lia|].
  destruct (leds_ok_entry w OTG_SWITCH_GPIO_INDEX Hw) as (d0&e'&E'&_&_&He'&_);
    [unfold OTG_SWITCH_GPIO_INDEX, FLEETY_GPIO_MAX; lia|]. rewrite E in E'; injection E' as <-.
  rewrite (fleety_usb_switch_run host w d e e') by done.
  destruct (k_interrupted _); (do 2 eexists; split_and!; [done| |done]); [by eapply leds_ok_frame|].
  set (v := if host then 1 else 0).
  pose proof (leds_ok_driven w d _ e v Hw E He) as H1.
  assert (led_gpio (driven OTG_ID_GPIO_INDEX v d) !! OTG_SWITCH_GPIO_INDEX = Some e') as He2
    by by rewrite driven_other.
  pose proof (leds_ok_driven _ _ _ e' v H1 eq_refl He2) as H2.
  by eapply leds_ok_frame.
Qed.

(** The leds driver keeps its promise to the spider driver. *)
#[export, refine] Instance leds_usb_control : UsbControl := {
  usb_switch := fleety_usb_switch;
  usbhub_reset := fleety_usbhub_reset;
  usb2eth_reset := fleety_usb2eth_reset;
  usb_ready := leds_ok
}.
Proof.
  - intros. by eapply leds_ok_frame.
  - apply leds_ok_emit.
  - apply usb_switch_safe.
  - apply usbhub_reset_safe.
  - apply usb2eth_reset_safe.
Defined.
End Safe.

(** ** The attribute files *)

(** The pins each attribute file drives, in the order of the table; it shows the first. *)
Definition leds_attr_pins : list (list nat) :=
  [ [OUTPUT1_RELAY_GPIO_INDEX]; [OUTPUT2_RELAY_GPIO_INDEX]; [OUTPUT3_RELAY_GPIO_INDEX];
    [OUTPUT4_RELAY_GPIO_INDEX]; [AMP_STB_GPIO_INDEX]; [AMP_MUTE_GPIO_INDEX];
    [OTG_SWITCH_GPIO_INDEX; OTG_ID_GPIO_INDEX]; [USB2ETH_RST_GPIO_INDEX];
    [USBHUB_RST_GPIO_INDEX]; [STM32_RST_GPIO_INDEX]; [CAMERA_POWER_GPIO_INDEX];
    [TACHOGRAPH_POWER_GPIO_INDEX]; [EX_POWER_GPIO_INDEX]; [FINGER_POWER_GPIO_INDEX];
    [TSM_POWER_GPIO_INDEX]; [FAN_POWER_GPIO_INDEX] ].

(** The GPIO number of a position. *)
Definition gpio_at (i : nat) : Z := default 0 (board_gpios !! i).

Section AttributeFiles.
Context `{Kernel}.

(** A store function writes its pins one after the other and returns [count]. *)
Definition store_all (dev : bool) (buf : list Z) (count : Z) (pins : list nat) : prog kworld Z :=
  foldr (fun i c => do* fleety_leds_gpio_store_treat dev buf i; c) (ret count) pins.

Lemma attr_store_all k a pins :
  fleety_leds_device_attributes !! k = Some a -> leds_attr_pins !! k = Some pins ->
  (forall dev buf count, attr_store a dev buf count = store_all dev buf count pins) /\
  (forall dev w, attr_show a dev w = fleety_leds_gpio_show_treat dev (default 0%nat (head pins)) w) /\
  Forall (fun i => (i < FLEETY_GPIO_MAX)%nat) pins /\ NoDup pins /\ pins <> [].
Proof.
  assert (forall i dev w, (let* r := fleety_leds_gpio_show_treat dev i in ret r) w =
    fleety_leds_gpio_show_treat dev i w) as Hs
    by (intros; unfold bind; by destruct (fleety_leds_gpio_show_treat _ _ _)).
  intros Ha Hp.
  do 16 (destruct k as [|k]; [simpl in Ha, Hp; injection Ha as <-; injection Hp as <-;
    split_and!; [done|intros; apply Hs| |by apply (bool_decide_unpack _)|done];
    apply (bool_decide_unpack _); vm_compute; exact I|]).
  done.
Qed.

Lemma attr_store_safe k a buf count :
  fleety_leds_device_attributes !! k = Some a -> safe (attr_store a true buf count).
Proof.
  intros Ha. assert (exists pins, leds_attr_pins !! k = Some pins) as [pins Hp].
  { apply lookup_lt_is_Some. by apply lookup_lt_Some in Ha. }
  destruct (attr_store_all k a pins Ha Hp) as (->&_&Hf&_). clear Hp.
  induction Hf as [|i pins Hi _ IH]; [apply safe_ret|].
  apply safe_bind; [by apply store_treat_safe|intros _; apply IH].
Qed.

Lemma attr_show_safe k a :
  fleety_leds_device_attributes !! k = Some a -> safe (attr_show a true).
Proof.
  intros Ha. assert (exists pins, leds_attr_pins !! k = Some pins) as [pins Hp].
  { apply lookup_lt_is_Some. by apply lookup_lt_Some in Ha. }
  destruct (attr_store_all k a pins Ha Hp) as (_&Hs&Hf&_&Hn). destruct pins as [|p ps]; [done|].
  intros w Hw. rewrite Hs. by apply show_treat_safe; [apply (Forall_inv Hf)|].
Qed.

(** The pins [pins] driven to [v], in order. *)
Lemma store_all_run intr pins buf count v w :
  (forall t, k_interrupted t = intr) -> strict_strtoul buf = Some v ->
  leds_ok w -> Forall (fun i => (i < FLEETY_GPIO_MAX)%nat) pins -> NoDup pins ->
  exists w' d d', store_all true buf count pins w = Ret count w' /\ leds_ok w' /\ spider_frame w w' /\
    leds w = Some d /\ leds w' = Some d' /\
    if intr then k_trace w' = k_trace w /\ d' = d
    else k_trace w' = k_trace w ++ map (fun i => GpioSet (gpio_at i) (s32 v)) pins /\
         (forall i, level <$> (led_gpio d' !! i) =
            if decide (i ∈ pins) then Some (s32 v) else level <$> (led_gpio d !! i)).
Proof.
  intros Hq Ev Hw Hf. revert w Hw. induction Hf as [|i pins Hi _ IH]; intros w Hw Hnd.
  - destruct (Hw) as (d&E&_). exists w, d, d. split_and!; [done..|]. destruct intr; [done|].
    split; [by rewrite app_nil_r|]. intros j. by rewrite decide_False by set_solver.
  - apply NoDup_cons in Hnd as [Hni Hnd].
    destruct (leds_ok_entry w i Hw Hi) as (d&e&E&Es&Ep&He&Hg). cbn [store_all foldr].
    destruct intr.
    + rewrite (bind_Ret _ _ _ (- ERESTARTSYS) (ktick w))
        by (by rewrite (fleety_leds_gpio_store_treat_run buf i w d e), Ev, Hq).
      destruct (IH (ktick w)) as (w'&d1&d'&Ew&Hw'&F&E1&E2&Ht&Hd); [by eapply leds_ok_frame|done|].
      exists w', d1, d'. by split_and!.
    + rewrite (bind_Ret _ _ _ 0
        (kemit (GpioSet (index e) (s32 v)) (with_leds (Some (driven i (s32 v) d)) (ktick w))))
        by (by rewrite (fleety_leds_gpio_store_treat_run buf i w d e), Ev, Hq).
      destruct (IH _ (leds_ok_driven w d i e (s32 v) Hw E He) Hnd)
        as (w'&d1&d'&Ew&Hw'&F&E1&E2&Ht&Hd).
      simpl in E1. injection E1 as <-.
      exists w', d, d'. split_and!; [done..| |].
      * rewrite Ht. simpl. rewrite <- app_assoc. unfold gpio_at at 2. by rewrite Hg.
      * intros j. rewrite Hd. destruct (decide (j ∈ pins)) as [Hj|Hj];
          [by rewrite decide_True by set_solver|].
        destruct (decide (j = i)) as [->|Hn].
        -- rewrite decide_True by set_solver. by erewrite driven_lookup by done.
        -- rewrite decide_False by set_solver. by rewrite driven_other.
Qed.

(** Every attribute file of the leds driver.  A store always returns [count],
    whatever happened.  If the text is not a number nothing changed, and if the
    waits are interrupted no pin moved: the caller is told of neither.
    Otherwise the file's pins are driven in order to the value, their levels are
    recorded, every other pin keeps its level, and a show then prints the value.
    In no case does the pin map of the spider driver follow. *)
Theorem leds_attribute_files k a p ps buf count w intr :
  fleety_leds_device_attributes !! k = Some a -> leds_attr_pins !! k = Some (p :: ps) ->
  leds_ok w -> (forall t, k_interrupted t = intr) ->
  exists w' d d', attr_store a true buf count w = Ret count w' /\ leds_ok w' /\
    spider w' = spider w /\ leds w = Some d /\ leds w' = Some d' /\
    match strict_strtoul buf, intr with
    | None, _ => w' = w
    | Some _, true => k_trace w' = k_trace w /\ d' = d
    | Some v, false =>
      k_trace w' = k_trace w ++ map (fun i => GpioSet (gpio_at i) (s32 v)) (p :: ps) /\
      (forall i, level <$> (led_gpio d' !! i) =
         if decide (i ∈ p :: ps) then Some (s32 v) else level <$> (led_gpio d !! i)) /\
      attr_show a true w' = Ret (zlen (sdecimal (s32 v) ++ [10]), sdecimal (s32 v) ++ [10]) (ktick w')
    end.
Proof.
  intros Ha Hp Hw Hq. destruct (attr_store_all k a _ Ha Hp) as (->&Hs&Hf&Hnd&_).
  destruct (strict_strtoul buf) as [v|] eqn:Ev.
  - destruct (store_all_run intr (p :: ps) buf count v w Hq Ev Hw Hf Hnd)
      as (w'&d&d'&Ew&Hw'&(Hsp&_)&E&E'&Hr).
    exists w', d, d'. split_and!; [done..|]. destruct intr; [done|]. destruct Hr as [Ht Hd].
    split_and!; [done..|]. rewrite Hs. simpl default.
    destruct (leds_ok_entry w' p Hw') as (d1&e&E1&Es&_&He&_); [apply (Forall_inv Hf)|].
    rewrite E' in E1. injection E1 as <-.
    rewrite (fleety_leds_gpio_show_treat_run p w' d' e), Hq by done.
    specialize (Hd p). rewrite He, decide_True in Hd by set_solver. simpl in Hd.
    by injection Hd as ->.
  - destruct (Hw) as (d&E&_). exists w, d, d. split_and!; [|done..].
    clear Hp Hs Hnd. induction Hf as [|i pins Hi _ IH]; [done|]. cbn [store_all foldr].
    destruct (leds_ok_entry w i Hw Hi) as (d1&e&E1&Es&_&He&_).
    rewrite (bind_Ret _ _ _ (- EPERM) w); [done|].
    by rewrite (fleety_leds_gpio_store_treat_run buf i w d1 e), Ev.
Qed.

End AttributeFiles.

(** ** Binding *)

(** The entry the probe leaves at a position: number, name and level from the
    table, whatever the device tree said. *)
Definition init_entry (x : nat * Z * list Z * Z) (old : fleety_gpio) : fleety_gpio :=
  let '(_, gpio, nm, lv) := x in mkGpio 1 gpio lv (state old) nm.

(** The level the probe gives to a position. *)
Definition init_level (i : nat) : Z :=
  match led_gpio_init !! i with Some (_, _, _, lv) => lv | None => 0 end.

Section Probe.
Context `{Kernel} {PM : PinMaps}.

Lemma bind_put_gpio {B} d i e f (k : unit -> prog kworld B) w :
  leds w = Some d -> led_gpio d !! i = Some e ->
  bind (put_gpio true i f) k w = k tt (with_leds (Some (set_led_gpio (<[i := f]> (led_gpio d)) d)) w).
Proof. intros E Ei. unfold put_gpio. krun. rewrite Ei. by krun. Qed.

(** The device tree only writes to the table. *)
Lemma create_of_loop_run children i w d :
  leds w = Some d -> (i + length children <= length (led_gpio d))%nat ->
  exists l, create_of_loop i children w = Ret tt (with_leds (Some (set_led_gpio l d)) w) /\
    length l = length (led_gpio d).
Proof.
  revert i w d. induction children as [|c rest IH]; intros i w d E Hl; simpl in Hl.
  - exists (led_gpio d). split; [|done]. cbn [create_of_loop]. unfold ret. by kstate.
  - destruct (lookup_lt_is_Some_2 (led_gpio d) i) as [e He]; [lia|]. cbn [create_of_loop].
    rewrite (bind_get_gpio d i e) by done. erewrite bind_put_gpio by done.
    match goal with |- context [create_of_loop (S i) rest (with_leds (Some ?d1) w)] =>
      destruct (IH (S i) (with_leds (Some d1) w) d1 eq_refl) as (l&El&Hl2) end;
      [cbn [led_gpio set_led_gpio]; rewrite length_insert; lia|].
    rewrite El. exists l. split; [done|]. rewrite Hl2. cbn [led_gpio set_led_gpio].
    by rewrite length_insert.
Qed.

Lemma fleety_leds_create_of_run w d :
  leds w = Some d -> length (led_gpio d) = FLEETY_GPIO_MAX ->
  exists r l, fleety_leds_create_of w = Ret r (with_leds (Some (set_led_gpio l d)) w) /\
    length l = FLEETY_GPIO_MAX.
Proof.
  intros E Hl. unfold fleety_leds_create_of.
  assert (forall r : Z, exists r' l, Ret r w = Ret r' (with_leds (Some (set_led_gpio l d)) w) /\
    length l = FLEETY_GPIO_MAX) as Hsame.
  { intros r. exists r, (led_gpio d). split; [|done]. by kstate. }
  destruct (_ || _) eqn:Ec; [apply Hsame|]. destruct (existsb _ _); [apply Hsame|].
  apply orb_false_iff in Ec as [_ Ec]. apply Nat.ltb_ge in Ec.
  destruct (create_of_loop_run of_children 0 w d E) as (l&El&Hl2); [lia|].
  rewrite (bind_Ret _ _ _ _ _ El). exists 0, l. split; [done|congruence].
Qed.

Lemma init_table_run l w d :
  leds w = Some (set_led_gpio l d) -> length l = FLEETY_GPIO_MAX ->
  init_table led_gpio_init w =
    Ret tt (with_leds (Some (set_led_gpio (zip_with init_entry led_gpio_init l) d)) w).
Proof.
  intros E Hl. do 17 (destruct l as [|? l]; [done|]). destruct l; [|done].
  unfold led_gpio_init at 1. cbn [init_table].
  do 17 (erewrite bind_get_gpio; [|done|done]; erewrite bind_put_gpio; [|done|done];
         cbn [set_led_gpio led_gpio insert list_insert]).
  reflexivity.
Qed.

(** A kernel that grants the board's lines and does not interrupt. *)
Definition grants : Prop :=
  (forall t, k_interrupted t = false) /\
  (forall g, g ∈ board_gpios -> gpio_is_valid g = true) /\
  (forall t g, gpio_request t g = 0) /\ (forall t g v, gpio_direction_output t g v = 0).

(** One pin: requested, driven to its level, and recorded in the pin map. *)
Lemma configure_pin_run i e w d sd :
  grants -> (i < 32)%nat -> leds w = Some d -> led_gpio d !! i = Some e -> index e ∈ board_gpios ->
  spider w = Some sd -> spider_pdev_drvdata w = true -> sem sd = 1 -> 0 <= gpo_map sd < 2 ^ 32 ->
  exists w', fleety_leds_gpio_configure_pin true i w = Ret tt w' /\
    leds w' = leds w /\ leds_dev_drvdata w' = leds_dev_drvdata w /\
    leds_pdev_drvdata w' = leds_pdev_drvdata w /\ leds_static_drvdata w' = leds_static_drvdata w /\
    spider_pdev_drvdata w' = true /\
    spider w' = Some (set_gpo_map (set_bit (gpo_map sd) (Z.of_nat i) (level e)) sd) /\
    k_trace w' = k_trace w ++ [GpioRequest (index e) (name e); GpioDirOut (index e) (level e)].
Proof.
  intros (Hq&Hv&Hr&Ho) Hi E He Hb Es Ep Hs Hm. unfold fleety_leds_gpio_configure_pin.
  rewrite (bind_get_gpio d i e), Hv by done. krun. rewrite Hr. krun. cbn [Z.eqb negb]. krun.
  rewrite Ho. cbn [Z.eqb negb].
  erewrite bind_Ret; [|rewrite (map_set_gpo_spec _ _ _ sd), Hq by (done || lia); reflexivity].
  eexists. split; [done|]. split_and!; try done. simpl. by rewrite <- app_assoc.
Qed.

(** The pins from [i] on. *)
Lemma configure_loop_run n i w d sd :
  grants -> (i + n <= FLEETY_GPIO_MAX)%nat -> leds w = Some d -> map index (led_gpio d) = board_gpios ->
  spider w = Some sd -> spider_pdev_drvdata w = true -> sem sd = 1 -> 0 <= gpo_map sd < 2 ^ 32 ->
  exists w' m, configure_loop true i n w = Ret tt w' /\
    leds w' = leds w /\ leds_dev_drvdata w' = leds_dev_drvdata w /\
    leds_pdev_drvdata w' = leds_pdev_drvdata w /\ leds_static_drvdata w' = leds_static_drvdata w /\
    spider w' = Some (set_gpo_map m sd) /\ 0 <= m < 2 ^ 32 /\
    (forall j, 0 <= j -> Z.testbit m j =
       if (Z.of_nat i <=? j) && (j <? Z.of_nat (i + n))
       then negb (default 0 (level <$> (led_gpio d !! Z.to_nat j)) =? 0)
       else Z.testbit (gpo_map sd) j) /\
    (forall j e, led_gpio d !! j = Some e -> pin (k_trace w') (index e) =
       if bool_decide (i <= j < i + n)%nat then Some (level e) else pin (k_trace w) (index e)).
Proof.
  intros Hg. revert i w sd. induction n as [|n IH]; intros i w sd Hi E Hb Es Ep Hs Hm.
  - exists w, (gpo_map sd). split_and!; try done; try lia.
    + rewrite Es. by kstate.
    + intros j Hj. rewrite Nat.add_0_r. by destruct (Z.leb_spec (Z.of_nat i) j), (Z.ltb_spec j (Z.of_nat i)); try lia.
    + intros j e Hj. rewrite bool_decide_false by lia. done.
  - assert (exists e, led_gpio d !! i = Some e) as [e He].
    { apply lookup_lt_is_Some. rewrite <- (length_map index), Hb.
      change (length board_gpios) with FLEETY_GPIO_MAX. lia. }
    assert (board_gpios !! i = Some (index e)) as Hx by by rewrite <- Hb, list_lookup_fmap, He.
    destruct (configure_pin_run i e w d sd) as (w1&E1&L1&L2&L3&L4&P1&S1&T1); try done.
    { unfold FLEETY_GPIO_MAX in Hi. lia. } { by eapply list_elem_of_lookup_2. }
    cbn [configure_loop]. rewrite (bind_Ret _ _ _ _ _ E1).
    destruct (IH (S i) w1 _ ltac:(lia) ltac:(congruence) Hb S1 P1)
      as (w'&m&Ew&M1&M2&M3&M4&S2&R2&B2&T2); [done|apply set_bit_range; unfold FLEETY_GPIO_MAX in Hi; lia|].
    exists w', m. split_and!; try congruence; try lia.
    + rewrite S2. by kstate.
    + intros j Hj. rewrite B2 by done. simpl gpo_map. rewrite testbit_set_bit by lia.
      destruct (j =? Z.of_nat i) eqn:Ej; bool_cases.
      * subst j. rewrite Nat2Z.id, He.
        by destruct (Z.leb_spec (Z.of_nat (S i)) (Z.of_nat i)), (Z.leb_spec (Z.of_nat i) (Z.of_nat i)),
          (Z.ltb_spec (Z.of_nat i) (Z.of_nat (i + S n))); try lia.
      * replace (S i + n)%nat with (i + S n)%nat by lia.
        by destruct (Z.leb_spec (Z.of_nat (S i)) j), (Z.leb_spec (Z.of_nat i) j); try lia.
    + intros j f Hj. rewrite (T2 j f Hj), T1. change [?a; ?b] with ([a] ++ [b]).
      rewrite app_assoc, !pin_snoc. simpl pin_step.
      destruct (index e =? index f) eqn:Ej; bool_cases.
      * assert (i = j) as <-.
        { apply (NoDup_lookup board_gpios i j (index e) board_gpios_NoDup Hx).
          by rewrite <- Hb, list_lookup_fmap, Hj, Ej. }
        rewrite bool_decide_false, bool_decide_true by lia. congruence.
      * assert (i <> j) by (intros <-; congruence).
        by destruct (decide (i <= j < i + S n)%nat);
          [rewrite !bool_decide_true by lia|rewrite !bool_decide_false by lia].
Qed.

Lemma init_index l : length l = FLEETY_GPIO_MAX ->
  map index (zip_with init_entry led_gpio_init l) = board_gpios.
Proof. intros Hl. do 17 (destruct l as [|? l]; [done|]). by destruct l. Qed.

Lemma init_levels l i : length l = FLEETY_GPIO_MAX ->
  level <$> (zip_with init_entry led_gpio_init l !! i) =
    if decide (i < FLEETY_GPIO_MAX)%nat then Some (init_level i) else None.
Proof.
  intros Hl. destruct (decide _) as [Hi|Hi].
  - destruct (lookup_lt_is_Some_2 led_gpio_init i) as [[[[j g] nm] lv] Hx]; [done|].
    destruct (lookup_lt_is_Some_2 l i) as [e He]; [by rewrite Hl|].
    rewrite lookup_zip_with, Hx, He. unfold init_level. by rewrite Hx.
  - rewrite lookup_ge_None_2; [done|]. rewrite length_zip_with, Hl.
    change (length led_gpio_init) with FLEETY_GPIO_MAX. lia.
Qed.

(** Binding the leds driver.  When the kernel grants the board's lines and
    the spider driver is bound, the probe returns 0; each of the seventeen pins
    is driven to its initial level (amplifier in standby and muted, resets
    released, camera and tachograph powered, everything else off) whatever the
    device tree says, the table records it, and bits 0 to 16 of the spider
    driver's output map are exactly these levels, the other bits unchanged. *)
Theorem leds_probe_binds w sd :
  grants -> (forall t, k_zalloc t = true) ->
  (forall t, IS_ERR (class_create t) = false) -> (forall t, IS_ERR (device_create t) = false) ->
  spider w = Some sd -> spider_pdev_drvdata w = true -> spider_values sd ->
  exists w' d m, fleety_leds_probe w = Ret 0 w' /\ leds_ok w' /\ leds w' = Some d /\
    (forall i, (i < FLEETY_GPIO_MAX)%nat ->
       level <$> (led_gpio d !! i) = Some (init_level i) /\
       pin (k_trace w') (gpio_at i) = Some (init_level i)) /\
    spider w' = Some (set_gpo_map m sd) /\ 0 <= m < 2 ^ 32 /\
    (forall j, 0 <= j -> Z.testbit m j =
       if j <? 17 then negb (init_level (Z.to_nat j) =? 0) else Z.testbit (gpo_map sd) j).
Proof.
  intros Hg Ha Hc Hd Es Ep (Hs&_&_&_&Hm&_). unfold fleety_leds_probe. krun. rewrite Ha. cbn [negb]. krun.
  set (w1 := with_leds _ _).
  assert (exists l, (if k_config_of_gpio then do* fleety_leds_create_of; ret tt else ret tt) w1 =
    Ret tt (with_leds (Some (set_led_gpio l leds_zeroed)) w1) /\ length l = FLEETY_GPIO_MAX) as (l&E1&Hl).
  { destruct k_config_of_gpio.
    - destruct (fleety_leds_create_of_run w1 leds_zeroed) as (r&l&E&Hl); [done..|].
      exists l. by rewrite (bind_Ret _ _ _ _ _ E).
    - exists (led_gpio leds_zeroed). by split. }
  rewrite (bind_Ret _ _ _ _ _ E1), (bind_Ret _ _ _ _ _ (init_table_run l
    (with_leds (Some (set_led_gpio l leds_zeroed)) w1) leds_zeroed eq_refl Hl)).
  krun. set (tbl := zip_with init_entry led_gpio_init l).
  change (led_gpio (set_led_gpio tbl leds_zeroed)) with tbl.
  change (leds_sem (set_led_gpio tbl leds_zeroed)) with 1. set (d := mkLeds 1 tbl 1).
  destruct (configure_loop_run FLEETY_GPIO_MAX 0 (with_leds (Some d) (with_leds
    (Some (set_led_gpio tbl leds_zeroed)) (with_leds (Some (set_led_gpio l leds_zeroed)) w1))) d sd)
    as (w'&m&Ew&M1&_&_&_&S2&R2&B2&T2); [done|done|done|by apply init_index|done..|].
  unfold fleety_leds_gpio_configure. rewrite (bind_Ret _ _ _ _ _ Ew). krun. rewrite Hc. krun.
  rewrite Hd. krun. simpl in M1.
  assert (forall i e, tbl !! i = Some e -> pin (k_trace w') (index e) = Some (level e)) as Hpin.
  { intros i e Hi. rewrite (T2 i e Hi), bool_decide_true; [done|].
    apply lookup_lt_Some in Hi. unfold tbl in Hi. rewrite length_zip_with, Hl in Hi.
    change (length led_gpio_init) with FLEETY_GPIO_MAX in Hi. lia. }
  exists (with_leds_drvdata true true true (ktick (ktick w'))), d, m.
  split_and!; try done; try lia.
  - exists d. split_and!; try done. split; [by apply init_index|exact Hpin].
  - intros i Hi. pose proof (init_levels l i Hl) as Hli. rewrite decide_True in Hli by done.
    split; [done|]. fold tbl in Hli. destruct (tbl !! i) as [e|] eqn:He; [|done].
    injection Hli as <-. unfold gpio_at. erewrite wired_gpio; [by apply (Hpin i e)| |done].
    split; [by apply init_index|]. exact Hpin.
  - intros j Hj. rewrite B2 by done.
    change (Z.of_nat 0) with 0. change (Z.of_nat (0 + FLEETY_GPIO_MAX)) with 17.
    rewrite (proj2 (Z.leb_le 0 j)) by done. cbn [andb]. destruct (j <? 17) eqn:Ej; [|done].
    bool_cases. change (led_gpio d) with tbl. unfold tbl. rewrite init_levels by done.
    by rewrite decide_True by (unfold FLEETY_GPIO_MAX; lia).
Qed.
End Probe.
