(* ===== verification/Board.v ===== *)
(** * The board drivers together

    The spider driver over the leds driver's USB control, and the leds driver
    over the spider driver's pin maps: every call user space, the other drivers
    and the kernel can make, in any order ([board_run]), and what the
    composition does that neither driver does alone. *)

From stdpp Require Import base list numbers strings.
From Stdlib Require Import ZArith Lia.
From S2P Require Import Prelude Text Kernel Spider Leds.
Open Scope Z_scope.

(** Both drivers are bound, no semaphore is held, and the leds driver's table
    is what the pins show. *)
Definition board_ok (w : kworld) : Prop := spider_ok w /\ leds_ok w.

(** A call into the drivers: an attribute file by its position in its table, a
    function another driver calls, or the kernel running the timer or the work. *)
Inductive board_call :=
  | SpiderShow (k : nat)
  | SpiderStore (k : nat) (buf : list Z) (count : Z)
  | LedsShow (k : nat)
  | LedsStore (k : nat) (buf : list Z) (count : Z)
  | SetGpoMap (i level : Z)
  | SetGpiMap (i level : Z)
  | UsbSwitch (host : bool)
  | UsbhubReset
  | Usb2ethReset
  | AmpStandby (on : Z)
  | AmpMute (on : Z)
  | Timer
  | Work.

(** The pin maps are called with the number of a pin. *)
Definition call_ok (c : board_call) : Prop :=
  match c with SetGpoMap i _ | SetGpiMap i _ => 0 <= i < 32 | _ => True end.

Section Board.
Context `{Kernel}.

Definition board_run (c : board_call) : prog kworld unit :=
  match c with
  | SpiderShow k =>
      match fleety_spider_device_attributes !! k with
      | Some a => let* dev := kgets spider_dev_drvdata in do* attr_show a dev; ret tt
      | None => ret tt
      end
  | SpiderStore k buf count =>
      match fleety_spider_device_attributes !! k with
      | Some a => let* dev := kgets spider_dev_drvdata in do* attr_store a dev buf count; ret tt
      | None => ret tt
      end
  | LedsShow k =>
      match fleety_leds_device_attributes !! k with
      | Some a => let* dev := kgets leds_dev_drvdata in do* attr_show a dev; ret tt
      | None => ret tt
      end
  | LedsStore k buf count =>
      match fleety_leds_device_attributes !! k with
      | Some a => let* dev := kgets leds_dev_drvdata in do* attr_store a dev buf count; ret tt
      | None => ret tt
      end
  | SetGpoMap i level => do* fleety_set_gpo_map i level; ret tt
  | SetGpiMap i level => do* fleety_set_gpi_map i level; ret tt
  | UsbSwitch host => do* fleety_usb_switch host; ret tt
  | UsbhubReset => do* fleety_usbhub_reset; ret tt
  | Usb2ethReset => do* fleety_usb2eth_reset; ret tt
  | AmpStandby on => do* fleety_amp_standby on; ret tt
  | AmpMute on => do* fleety_amp_mute on; ret tt
  | Timer => fire_timer
  | Work => fire_work
  end.

Fixpoint board_runs (cs : list board_call) : prog kworld unit :=
  match cs with [] => ret tt | c :: cs => do* board_run c; board_runs cs end.

(** ** Every call leaves the board in order *)

Definition orderly {A} (c : prog kworld A) : Prop :=
  forall w, board_ok w -> exists r w', c w = Ret r w' /\ board_ok w'.

Lemma orderly_ret {A} (a : A) : orderly (ret a).
Proof. intros w Hw. by exists a, w. Qed.

Lemma orderly_bind {A B} (c : prog kworld A) (k : A -> prog kworld B) :
  orderly c -> (forall a, orderly (k a)) -> orderly (bind c k).
Proof.
  intros Hc Hk w Hw. destruct (Hc w Hw) as (a&w1&E1&H1). rewrite (bind_Ret _ _ _ _ _ E1). by apply Hk.
Qed.

(** A call of the leds driver. *)
Lemma orderly_safe {A} (c : prog kworld A) : safe c -> orderly (do* c; ret tt).
Proof.
  intros Hc. apply orderly_bind; [|intros; apply orderly_ret]. intros w [Hs Hl].
  destruct (Hc w Hl) as (r&w'&E&Hl'&F). exists r, w'. split; [done|].
  split; [by eapply spider_ok_frame|done].
Qed.

(** A change of the spider driver's fields. *)
Lemma board_ok_spider w w' d :
  board_ok w -> spider w' = Some d -> spider_dev_drvdata w' = spider_dev_drvdata w ->
  spider_pdev_drvdata w' = spider_pdev_drvdata w -> spider_values d -> leds_ok w' -> board_ok w'.
Proof.
  intros [(d0&_&E2&E3&_) _] F1 F2 F3 Hd Hl. split; [|done]. exists d. split_and!; congruence.
Qed.

Lemma board_ok_tick w : board_ok w -> board_ok (ktick w).
Proof. intros [Hs Hl]. split; [by apply (spider_ok_frame w)|by apply (leds_ok_frame w)]. Qed.

Lemma orderly_spider_show k a :
  fleety_spider_device_attributes !! k = Some a -> orderly (attr_show a true).
Proof.
  intros Ha w Hw. destruct (Hw) as [(d&E&_&_&Es&_) _].
  destruct (lookup_lt_is_Some_2 spider_fields k) as [[g f] Hf]; [by apply lookup_lt_Some in Ha|].
  rewrite (attr_show_run k a g f w d) by done.
  destruct (k_interrupted _); do 2 eexists; (split; [done|by apply board_ok_tick]).
Qed.

Lemma orderly_spider_store k a buf count :
  fleety_spider_device_attributes !! k = Some a -> orderly (attr_store a true buf count).
Proof.
  intros Ha w Hw. destruct (Hw) as [(d&E&_&_&Hd) Hl].
  destruct (lookup_lt_is_Some_2 spider_fields k) as [[g f] Hf]; [by apply lookup_lt_Some in Ha|].
  assert (In (attr_store a)
    [heart_beat_store; app_ready_store; touch_en_store; gpo_map_store; gpi_map_store]) as Hin.
  { destruct k as [|[|[|[|[|?]]]]]; simpl in Ha; simplify_eq; simpl; tauto. }
  destruct (store_error _ buf count w d Hin E (proj1 Hd)) as [He1 He2].
  destruct (strict_strtoul buf) as [v|] eqn:Ev; [|rewrite He1 by done; by do 2 eexists].
  destruct (k_interrupted (k_time w)) eqn:Ei.
  - rewrite (He2 v) by done. do 2 eexists. split; [done|by apply board_ok_tick].
  - destruct (attr_store_run k a g f buf count v w d) as (w'&Ew&F&Hl'); try done; [apply Hd|].
    exists count, w'. split; [done|].
    destruct F as (F1&F2&F3&_). apply (board_ok_spider w w' (f v d)); try done.
    eapply field_values; [done|by eapply strict_strtoul_range|done].
Qed.

Lemma orderly_spider_update (c : prog kworld Z) :
  (forall w d, spider w = Some d -> spider_pdev_drvdata w = true -> spider_values d ->
     exists d', spider_values d' /\
       c w = if k_interrupted (k_time w) then Ret (- ERESTARTSYS) (ktick w)
             else Ret 0 (with_spider (Some d') (ktick w))) ->
  orderly (do* c; ret tt).
Proof.
  intros Hc. apply orderly_bind; [|intros; apply orderly_ret]. intros w Hw.
  destruct (Hw) as [(d&E&_&Ep&Hd) Hl]. destruct (Hc w d E Ep Hd) as (d'&Hd'&Ec). rewrite Ec.
  destruct (k_interrupted _); do 2 eexists; (split; [done|]); [by apply board_ok_tick|].
  apply (board_ok_spider w _ d'). all: done.
Qed.

Lemma orderly_fire_timer : orderly fire_timer.
Proof.
  intros w Hw. destruct (Hw) as [(d&E&_&_&Hd) Hl]. unfold fire_timer. krun.
  destruct (spider_timer w); [|by do 2 eexists]. krun. unfold app_ready_timer_treat. krun.
  do 2 eexists. split; [done|].
  apply (board_ok_spider w _ d). all: done.
Qed.

Lemma orderly_fire_work : orderly fire_work.
Proof.
  intros w Hw. destruct (Hw) as [(d&E&_&_&Hd) Hl]. destruct (spider_work w) eqn:Ew.
  - rewrite (fire_work_run w d) by (done || apply Hd). do 2 eexists. split; [done|].
    apply (board_ok_spider w _ (set_heart_beat (Z.max 0 (heart_beat d - 1)) d)); try done.
    destruct Hd as (?&?&?&?&?&?). unfold spider_values; simpl. split_and!; lia.
  - unfold fire_work. krun. rewrite Ew. by do 2 eexists.
Qed.

(** The driver-data pointers of the bound drivers. *)
Lemma orderly_spider_dev {A} (c : bool -> prog kworld A) :
  orderly (c true) -> orderly (let* dev := kgets spider_dev_drvdata in do* c dev; ret tt).
Proof.
  intros Hc w Hw. krun. destruct (Hw) as [(d&_&->&_) _].
  exact (orderly_bind (c true) (fun _ => ret tt) Hc (fun _ => orderly_ret tt) w Hw).
Qed.

Lemma orderly_leds_dev {A} (c : bool -> prog kworld A) :
  safe (c true) -> orderly (let* dev := kgets leds_dev_drvdata in do* c dev; ret tt).
Proof.
  intros Hc w Hw. krun. destruct (Hw) as [_ (d&_&->&_)]. by apply (orderly_safe (c true)).
Qed.

Lemma board_run_orderly c : call_ok c -> orderly (board_run c).
Proof.
  intros Hc. destruct c as [k|k buf count|k|k buf count|i v|i v|host| | |on|on| |]; simpl.
  - destruct (_ !! k) as [a|] eqn:Ha; [|apply orderly_ret].
    apply orderly_spider_dev. by eapply orderly_spider_show.
  - destruct (_ !! k) as [a|] eqn:Ha; [|apply orderly_ret].
    apply (orderly_spider_dev (fun dev => attr_store a dev buf count)). by eapply orderly_spider_store.
  - destruct (_ !! k) as [a|] eqn:Ha; [|apply orderly_ret].
    apply orderly_leds_dev. by eapply attr_show_safe.
  - destruct (_ !! k) as [a|] eqn:Ha; [|apply orderly_ret].
    apply (orderly_leds_dev (fun dev => attr_store a dev buf count)). by eapply attr_store_safe.
  - apply orderly_spider_update. intros w d E Ep (?&?&?&?&?&?).
    exists (set_gpo_map (set_bit (gpo_map d) i v) d). split; [|by apply fleety_set_gpo_map_run].
    unfold spider_values; simpl. split_and!; try lia; by apply set_bit_range.
  - apply orderly_spider_update. intros w d E Ep (?&?&?&?&?&?).
    exists (set_gpi_map (set_bit (gpi_map d) i v) d). split; [|by apply fleety_set_gpi_map_run].
    unfold spider_values; simpl. split_and!; try lia; by apply set_bit_range.
  - apply orderly_safe, usb_switch_safe.
  - apply orderly_safe, usbhub_reset_safe.
  - apply orderly_safe, usb2eth_reset_safe.
  - apply orderly_safe, amp_standby_safe.
  - apply orderly_safe, amp_mute_safe.
  - apply orderly_fire_timer.
  - apply orderly_fire_work.
Qed.

(** C9: Every sequence of calls into the two drivers is safe.  Once both are
    bound, attribute reads and writes with any text, the functions other
    drivers call (pin maps with a pin number below 32), and the kernel's timer
    and work, in any order and with any pattern of signals, all return: no
    semaphore is left held or waited for twice, nothing freed or NULL is
    dereferenced and no array is left.  After each, every recorded level is the
    level its line was last driven to, and the counters and maps are
    [unsigned int]s. *)
Theorem board_calls_safe cs w :
  board_ok w -> Forall call_ok cs -> exists w', board_runs cs w = Ret tt w' /\ board_ok w'.
Proof.
  intros Hw Hf. revert w Hw. induction Hf as [|c cs Hc _ IH]; intros w Hw; [by exists w|].
  destruct (board_run_orderly c Hc w Hw) as ([]&w1&E1&H1). cbn [board_runs].
  rewrite (bind_Ret _ _ _ _ _ E1). by apply IH.
Qed.

(** ** Bringing up USB *)

Section Quiet.
Hypothesis quiet : forall t, k_interrupted t = false.

(** The exact effect of the calls, when no signal interrupts them. *)
Lemma usb_switch_trace host w :
  leds_ok w -> exists w', fleety_usb_switch host w = Ret 0 w' /\ leds_ok w' /\ spider_frame w w' /\
    k_trace w' = k_trace w ++ [GpioSet FLEETY_OTG_ID_GPIO (if host then 1 else 0);
                               GpioSet FLEETY_OTG_SWITCH_GPIO (if host then 1 else 0)].
Proof.
  intros Hw. destruct (usb_switch_safe host w Hw) as (r&w'&E&Hw'&F).
  destruct (leds_ok_entry w OTG_ID_GPIO_INDEX Hw) as (d&e&Ed&Es&Ep&He&Hg);
    [unfold OTG_ID_GPIO_INDEX, FLEETY_GPIO_MAX; lia|].
  destruct (leds_ok_entry w OTG_SWITCH_GPIO_INDEX Hw) as (d2&e2&Ed2&_&_&He2&Hg2);
    [unfold OTG_SWITCH_GPIO_INDEX, FLEETY_GPIO_MAX; lia|].
  rewrite Ed in Ed2. injection Ed2 as <-. injection Hg as Hg. injection Hg2 as Hg2.
  rewrite (fleety_usb_switch_run host w d e e2), quiet in E by done. injection E as <- <-.
  eexists. split; [by rewrite (fleety_usb_switch_run host w d e e2), quiet by done|].
  split_and!; [done..|]. simpl. by rewrite <- app_assoc, <- Hg, <- Hg2.
Qed.

Lemma usbhub_reset_trace w :
  leds_ok w -> exists w', fleety_usbhub_reset w = Ret 0 w' /\ leds_ok w' /\ spider_frame w w' /\
    k_trace w' = k_trace w ++ [GpioSet FLEETY_USBHUB_RST_GPIO 0; Mdelay 200;
                               GpioSet FLEETY_USBHUB_RST_GPIO 1].
Proof.
  intros Hw. destruct (usbhub_reset_safe w Hw) as (r&w'&E&Hw'&F).
  destruct (leds_ok_entry w USBHUB_RST_GPIO_INDEX Hw) as (d&e&Ed&Es&Ep&He&Hg);
    [unfold USBHUB_RST_GPIO_INDEX, FLEETY_GPIO_MAX; lia|]. injection Hg as Hg.
  unfold fleety_usbhub_reset in *. rewrite (reset_run _ w d e), quiet in E by done.
  injection E as <- <-. eexists. split; [by rewrite (reset_run _ w d e), quiet by done|].
  split_and!; [done..|]. simpl. by rewrite <- !app_assoc, <- Hg.
Qed.

Lemma usb2eth_reset_trace w :
  leds_ok w -> exists w', fleety_usb2eth_reset w = Ret 0 w' /\ leds_ok w' /\ spider_frame w w' /\
    k_trace w' = k_trace w ++ [GpioSet FLEETY_USB2ETH_RST_GPIO 0; Mdelay 200;
                               GpioSet FLEETY_USB2ETH_RST_GPIO 1].
Proof.
  intros Hw. destruct (usb2eth_reset_safe w Hw) as (r&w'&E&Hw'&F).
  destruct (leds_ok_entry w USB2ETH_RST_GPIO_INDEX Hw) as (d&e&Ed&Es&Ep&He&Hg);
    [unfold USB2ETH_RST_GPIO_INDEX, FLEETY_GPIO_MAX; lia|]. injection Hg as Hg.
  unfold fleety_usb2eth_reset in *. rewrite (reset_run _ w d e), quiet in E by done.
  injection E as <- <-. eexists. split; [by rewrite (reset_run _ w d e), quiet by done|].
  split_and!; [done..|]. simpl. by rewrite <- !app_assoc, <- Hg.
Qed.

(** USB to host mode, then a pulse on the hub's reset, then one on the Ethernet adapter's. *)
Definition bring_up_effects : list keffect :=
  [ GpioSet FLEETY_OTG_ID_GPIO 1; GpioSet FLEETY_OTG_SWITCH_GPIO 1; Mdelay 200;
    GpioSet FLEETY_USBHUB_RST_GPIO 0; Mdelay 200; GpioSet FLEETY_USBHUB_RST_GPIO 1; Mdelay 200;
    GpioSet FLEETY_USB2ETH_RST_GPIO 0; Mdelay 200; GpioSet FLEETY_USB2ETH_RST_GPIO 1 ].

Lemma usb_bring_up_trace w :
  leds_ok w -> exists w', usb_bring_up w = Ret tt w' /\ leds_ok w' /\ spider_frame w w' /\
    k_trace w' = k_trace w ++ bring_up_effects.
Proof.
  intros Hw. unfold usb_bring_up. cbn [usb_switch usbhub_reset usb2eth_reset leds_usb_control].
  destruct (usb_switch_trace true w Hw) as (w1&E1&H1&F1&T1). rewrite (bind_Ret _ _ _ _ _ E1). krun.
  destruct (usbhub_reset_trace (kemit (Mdelay 200) w1)) as (w2&E2&H2&F2&T2); [by apply leds_ok_emit|].
  rewrite (bind_Ret _ _ _ _ _ E2). krun.
  destruct (usb2eth_reset_trace (kemit (Mdelay 200) w2)) as (w3&E3&H3&F3&T3); [by apply leds_ok_emit|].
  rewrite (bind_Ret _ _ _ _ _ E3). exists w3. split_and!; [done..| |].
  - etrans; [exact F1|]. etrans; [apply spider_frame_emit|]. etrans; [exact F2|].
    etrans; [apply spider_frame_emit|]. exact F3.
  - rewrite T3. simpl k_trace. rewrite T2. simpl k_trace. rewrite T1. by rewrite <- !app_assoc.
Qed.

Lemma app_ready_store_trace buf count v w :
  board_ok w -> strict_strtoul buf = Some v ->
  exists w' d, app_ready_store true buf count w = Ret count w' /\ board_ok w' /\
    spider w = Some d /\ spider w' = Some (set_app_ready v d) /\
    k_trace w' = k_trace w ++ (if v =? 0 then [] else bring_up_effects).
Proof.
  intros Hw Ev. destruct (Hw) as [(d&E&_&_&Hd) Hl]. pose proof (strict_strtoul_range _ _ Ev) as Hv.
  unfold app_ready_store. rewrite Ev, (bind_down_spider d), quiet by (done || apply Hd). krun.
  rewrite (u32_id v) by lia. set (d1 := set_app_ready v (set_sem 0 d)). set (w1 := with_spider _ _).
  assert (leds_ok w1) as Hl1 by done.
  assert (exists w', (if negb (app_ready d1 =? 0) then usb_bring_up else ret tt) w1 = Ret tt w' /\
    leds_ok w' /\ spider_frame w1 w' /\
    k_trace w' = k_trace w ++ (if v =? 0 then [] else bring_up_effects)) as (w'&Ew&Hl'&F&T).
  { change (app_ready d1) with v. destruct (v =? 0).
    - exists w1. split_and!; try done. by rewrite app_nil_r.
    - apply (usb_bring_up_trace w1 Hl1). }
  rewrite (bind_Ret _ _ _ _ _ Ew). assert (spider w' = Some d1) as E' by apply F. krun.
  assert (set_sem (sem d1 + 1) d1 = set_app_ready v d) as Hsem
    by (destruct Hd as [Hs _]; destruct d; simpl in *; by subst).
  rewrite Hsem. do 2 eexists. split_and!; [done| |done..|done].
  destruct F as (_&F2&F3&_). apply (board_ok_spider w _ (set_app_ready v d)); try done.
  destruct Hd as (?&?&?&?&?&?). unfold spider_values; simpl. split_and!; lia.
Qed.
End Quiet.

(** C35: Announcing that the application is ready.  On a bound board, and without
    signals, writing a number to [app_ready] returns [count] and records it.  A
    number other than 0 makes the pins do exactly this, in this order: OTG id and
    OTG switch high, 200 ms, hub reset low for 200 ms and high, 200 ms, Ethernet
    reset low for 200 ms and high; 0 makes them do nothing.  Both semaphores are
    free again and the recorded levels are those of the pins. *)
Theorem app_ready_brings_up_usb buf count v w :
  (forall t, k_interrupted t = false) -> board_ok w -> strict_strtoul buf = Some v ->
  exists w' d, app_ready_store true buf count w = Ret count w' /\ board_ok w' /\
    spider w = Some d /\ spider w' = Some (set_app_ready v d) /\
    k_trace w' = k_trace w ++
      (if v =? 0 then [] else
       [ GpioSet 914 1; GpioSet 943 1; Mdelay 200; GpioSet 947 0; Mdelay 200; GpioSet 947 1;
         Mdelay 200; GpioSet 933 0; Mdelay 200; GpioSet 933 1 ]).
Proof. intros Hq Hw Ev. by apply app_ready_store_trace. Qed.
End Board.

(** ** The theorems at concrete states *)

Module BoardDemo.
Import KDemo SpiderDemo.
#[local] Existing Instance demo_kernel.

(** The board after both drivers were bound by the kernel of the examples. *)
Definition booted : kworld :=
  match (do* fleety_spider_init; fleety_leds_init) kworld0 with
  | Ret _ w | Exit _ w | Fault _ w => w
  end.

Lemma demo_grants : grants.
Proof.
  split_and!; try done. intros g Hg. repeat (apply elem_of_cons in Hg as [->|Hg]; [done|]).
  by apply elem_of_nil in Hg.
Qed.

Lemma booted_ok : board_ok booted.
Proof.
  split.
  - eexists. split; [vm_compute; reflexivity|].
    split_and!; try (vm_compute; reflexivity); unfold spider_values; simpl; split_and!; lia.
  - eexists. split; [vm_compute; reflexivity|]. split_and!; try (vm_compute; reflexivity).
    split; [vm_compute; reflexivity|].
    intros i e Hi. do 17 (destruct i as [|i]; [injection Hi as <-; vm_compute; reflexivity|]). done.
Qed.

Lemma board_calls_safe_witness :
  board_ok booted /\
  exists w', board_runs [LedsStore 6 (str "1") 1; SpiderStore 1 (str "1" ++ [10]) 2; Timer; Work;
                         SetGpiMap 31 1; LedsShow 0] booted = Ret tt w' /\ board_ok w'.
Proof.
  split; [exact booted_ok|].
  apply board_calls_safe; [exact booted_ok|].
  repeat (apply Forall_cons; split; [simpl; first [exact I|lia]|]). apply Forall_nil; exact I.
Defined.

Lemma app_ready_brings_up_usb_witness :
  board_ok booted /\
  exists w' d, app_ready_store true (str "1" ++ [10]) 2 booted = Ret 2 w' /\ board_ok w' /\
    spider booted = Some d /\ spider w' = Some (set_app_ready 1 d) /\
    k_trace w' = k_trace booted ++
      [ GpioSet 914 1; GpioSet 943 1; Mdelay 200; GpioSet 947 0; Mdelay 200; GpioSet 947 1;
        Mdelay 200; GpioSet 933 0; Mdelay 200; GpioSet 933 1 ].
Proof.
  split; [exact booted_ok|].
  apply (app_ready_brings_up_usb (str "1" ++ [10]) 2 1 booted); [reflexivity|exact booted_ok|].
  vm_compute. reflexivity.
Defined.

(** A relay switched on: the pin is high and its bit of the output map still 0. *)
Lemma leds_attribute_files_witness :
  leds_ok booted /\
  exists a w', fleety_leds_device_attributes !! 0%nat = Some a /\
    attr_store a true (str "1") 1 booted = Ret 1 w' /\
    k_trace w' = k_trace booted ++ [GpioSet 1002 1] /\ spider w' = spider booted.
Proof.
  split; [apply booted_ok|]. eexists.
  destruct (@leds_attribute_files demo_kernel 0 _ OUTPUT1_RELAY_GPIO_INDEX [] (str "1") 1 booted false
    eq_refl eq_refl (proj2 booted_ok) (fun _ => eq_refl)) as (w'&d&d'&Ew&_&Es&_&_&Hr).
  exists w'. split; [reflexivity|]. split; [exact Ew|]. split; [exact (proj1 Hr)|exact Es].
Defined.

Lemma spider_attribute_files_witness :
  leds_ok booted /\
  exists a w', fleety_spider_device_attributes !! 0%nat = Some a /\
    attr_store a true (str "60") 2 booted = Ret 2 w' /\
    attr_show a true w' = Ret (3, str "60" ++ [10]) (ktick w').
Proof.
  split; [apply booted_ok|]. eexists.
  destruct (spider booted) as [d|] eqn:E; [|vm_compute in E; discriminate].
  destruct (@spider_attribute_files demo_kernel _ 0 _ heart_beat set_heart_beat (str "60") 2 booted d
    eq_refl eq_refl E) as (w'&Ew&_&_&_&Hs&_);
    [vm_compute in E; injection E as <-; reflexivity|apply booted_ok|].
  exists w'. split; [reflexivity|]. split; [exact Ew|]. exact (Hs eq_refl).
Defined.

Lemma leds_probe_binds_witness :
  grants /\
  exists w' d m, fleety_leds_probe bound_world = Ret 0 w' /\ leds w' = Some d /\
    spider w' = Some (set_gpo_map m spider_bound) /\ Z.testbit m 4 = true /\ Z.testbit m 0 = false /\
    pin (k_trace w') 1002 = Some 0.
Proof.
  split; [exact demo_grants|].
  destruct (@leds_probe_binds demo_kernel _ bound_world spider_bound demo_grants) as (w'&d&m&E&_&El&Hp&Es&_&Hm);
    [reflexivity..|exact bound_values|].
  exists w', d, m. split_and!; [exact E|exact El|exact Es|by rewrite Hm by lia|by rewrite Hm by lia|].
  apply (Hp 0%nat). unfold FLEETY_GPIO_MAX. lia.
Defined.
End BoardDemo.
