(* ===== verification/Keys.v ===== *)
(** * The keys driver

    [kernel/drivers/fleety/keys/fleety_keys.c]: buttons on GPIO lines or on
    interrupts, debounced by a timer, reported to the input subsystem and
    recorded in the spider driver's input map ([PinMaps]); the attribute files
    that disable them; the device tree; binding with its unwinding; suspend
    and resume.

    [kbd] is the driver's state over the other drivers' [kworld]; [KeysKernel]
    is what this driver calls besides [Kernel].  A button's timer and work are
    flags of its data.  The spin lock and the mutex make the bodies they
    enclose one step. *)

From stdpp Require Import base list numbers strings.
From Stdlib Require Import ZArith Lia.
From S2P Require Import Prelude Text Kernel Spider.
Open Scope Z_scope.

Definition FLEETY_KEYS_BASE_CODE : Z := 59.
Definition EV_KEY : Z := 1.
Definition EV_ABS : Z := 3.
Definition EV_SW : Z := 5.

(** [struct fleety_keys_button] *)
Record fleety_keys_button := mkButton {
  code : Z; gpio : Z; active_low : Z; desc : option (list Z); type : Z; wakeup : Z;
  debounce_interval : Z; can_disable : bool; value : Z; irq : Z
}.

(** [struct fleety_button_data] *)
Record fleety_button_data := mkData {
  button : fleety_keys_button;
  timer_debounce : Z;
  irq_no : Z;             (* irq *)
  disabled : bool;
  key_pressed : bool;
  timer_on : bool;        (* timer is queued *)
  work_on : bool          (* work is queued *)
}.

Definition set_disabled (v : bool) (b : fleety_button_data) : fleety_button_data :=
  mkData (button b) (timer_debounce b) (irq_no b) v (key_pressed b) (timer_on b) (work_on b).
Definition set_pressed (v : bool) (b : fleety_button_data) : fleety_button_data :=
  mkData (button b) (timer_debounce b) (irq_no b) (disabled b) v (timer_on b) (work_on b).
Definition set_timer (v : bool) (b : fleety_button_data) : fleety_button_data :=
  mkData (button b) (timer_debounce b) (irq_no b) (disabled b) (key_pressed b) v (work_on b).
Definition set_work (v : bool) (b : fleety_button_data) : fleety_button_data :=
  mkData (button b) (timer_debounce b) (irq_no b) (disabled b) (key_pressed b) (timer_on b) v.

(** [struct fleety_keys_platform_data], the fields the driver reads. *)
Record fleety_keys_platform_data := mkPdata {
  buttons : list fleety_keys_button;
  rep : bool;
  has_enable : bool;      (* enable != NULL *)
  has_disable : bool      (* disable != NULL *)
}.

(** [struct fleety_keys_drvdata]; [data] has one entry per button. *)
Record fleety_keys_drvdata := mkDdata {
  pdata : fleety_keys_platform_data;
  key_pinctrl : bool;     (* key_pinctrl != NULL *)
  data : list fleety_button_data
}.

Definition set_data (l : list fleety_button_data) (d : fleety_keys_drvdata) : fleety_keys_drvdata :=
  mkDdata (pdata d) (key_pinctrl d) l.
Definition set_pinctrl (v : bool) (d : fleety_keys_drvdata) : fleety_keys_drvdata :=
  mkDdata (pdata d) v (data d).

(** What the driver does to the input subsystem and to its resources. *)
Inductive keys_effect :=
  | InputEvent (ty code value : Z)
  | InputSync
  | DisableIrq (irq : Z)
  | EnableIrq (irq : Z)
  | EnableIrqWake (irq : Z)
  | DisableIrqWake (irq : Z)
  | PmStayAwake
  | PmRelax
  | PmWakeup
  | GpioTake (gpio : Z)
  | GpioFree (gpio : Z)
  | IrqTake (irq : Z)
  | IrqFree (irq : Z)
  | DdataTake
  | DdataFree
  | InputTake
  | InputFree
  | PdataTake
  | PdataFree
  | GroupTake
  | GroupFree
  | Pinctrl (active : bool)
  | PlatformEnable
  | PlatformDisable
  | InitWakeup (on : Z).

Record kbd := mkKbd {
  below : kworld;
  ddata : option fleety_keys_drvdata;   (* the driver data of the platform device *)
  keys_trace : list keys_effect
}.

Definition with_below (w : kworld) (s : kbd) : kbd := mkKbd w (ddata s) (keys_trace s).
Definition with_ddata (d : option fleety_keys_drvdata) (s : kbd) : kbd := mkKbd (below s) d (keys_trace s).
Definition note (e : keys_effect) (s : kbd) : kbd := mkKbd (below s) (ddata s) (keys_trace s ++ [e]).

(** A child of the driver's device-tree node. *)
Record key_child := mkKeyChild {
  kc_gpios : bool;             (* has the property gpios *)
  kc_gpio : Z;                 (* of_get_gpio_flags: a number or a negative error *)
  kc_flags : Z;
  kc_code : option Z;          (* linux,code *)
  kc_label : option (list Z);
  kc_type : option Z;          (* linux,input-type *)
  kc_wakeup : bool;            (* gpio-key,wakeup *)
  kc_debounce : option Z       (* debounce-interval *)
}.

Class KeysKernel `{Kernel} := {
  KEY_CNT : Z;
  SW_CNT : Z;
  cnt_positive : 0 < KEY_CNT /\ 0 < SW_CNT;
  keys_alloc : nat -> bool;
  gpio_get_value : nat -> Z -> Z;
  gpio_request_one : nat -> Z -> Z;
  gpio_set_debounce : nat -> Z -> Z -> Z;
  gpio_to_irq : nat -> Z -> Z;
  request_any_context_irq : nat -> Z -> Z;
  (** [bitmap_parselist(buf, bits, n)]: an error, or the bits *)
  bitmap_parselist : list Z -> Z -> Z + Z;
  bitmap_parselist_error : forall b n e, bitmap_parselist b n = inl e -> e < 0;
  bitmap_parselist_range : forall b n m, bitmap_parselist b n = inr m -> 0 <= m < 2 ^ n;
  bitmap_scnlistprintf : Z -> Z -> list Z;
  pinctrl_get : nat -> kptr;
  pinctrl_lookup_state : nat -> bool -> kptr;
  pinctrl_select_state : nat -> Z;
  sysfs_create_group : nat -> Z;
  input_register_device : nat -> Z;
  platform_enable : nat -> Z;
  device_may_wakeup : nat -> bool;
  input_users : nat -> bool;
  platform_pdata : option fleety_keys_platform_data;   (* dev_get_platdata *)
  of_node : option (list key_child * bool)             (* children, autorepeat *)
}.

Section Keys.
Context `{Kernel} {KK : KeysKernel} {PM : PinMaps}.

(** One call of the kernel, and one of another driver. *)
Definition qask {A} (f : nat -> A) : prog kbd A :=
  fun s => Ret (f (k_time (below s))) (with_below (ktick (below s)) s).
Definition qgets {A} (f : kbd -> A) : prog kbd A := fun s => Ret (f s) s.
Definition qdo (e : keys_effect) : prog kbd unit := modify (note e).
Definition call_below {A} (c : prog kworld A) : prog kbd A :=
  fun s => match c (below s) with
           | Ret a w => Ret a (with_below w s)
           | Exit n w => Exit n (with_below w s)
           | Fault f w => Fault f (with_below w s)
           end.

Definition get_ddata : prog kbd fleety_keys_drvdata :=
  let* d := qgets ddata in lift NullDeref d.
Definition get_data (i : nat) : prog kbd fleety_button_data :=
  let* d := get_ddata in lift OutOfBounds (data d !! i).
Definition put_data (i : nat) (b : fleety_button_data) : prog kbd unit :=
  let* d := get_ddata in
  do* lift OutOfBounds (data d !! i);
  modify (with_ddata (Some (set_data (<[i := b]> (data d)) d))).

(** [for (i = 0; i < nbuttons; i++) body] *)
Fixpoint for_buttons (i n : nat) (body : nat -> prog kbd unit) : prog kbd unit :=
  match n with O => ret tt | S n => do* body i; for_buttons (S i) n body end.
Definition each_button (body : nat -> prog kbd unit) : prog kbd unit :=
  let* d := get_ddata in for_buttons 0 (length (buttons (pdata d))) body.

(** ** Disabling buttons *)

Definition get_n_events_by_type (ty : Z) : prog kbd Z :=
  if negb (ty =? EV_SW) && negb (ty =? EV_KEY) then fault_with KernelBug
  else ret (if ty =? EV_KEY then KEY_CNT else SW_CNT).

Definition fleety_keys_disable_button (i : nat) : prog kbd unit :=
  let* b := get_data i in
  if negb (disabled b) then
    do* qdo (DisableIrq (irq_no b));
    let b := if negb (timer_debounce b =? 0) then set_timer false b else b in
    put_data i (set_disabled true b)
  else ret tt.

Definition fleety_keys_enable_button (i : nat) : prog kbd unit :=
  let* b := get_data i in
  if disabled b then
    do* qdo (EnableIrq (irq_no b));
    put_data i (set_disabled false b)
  else ret tt.

(** The bitmap has [BITS_TO_LONGS(n)] words of 32 bits. *)
Definition bitmap_size (n : Z) : Z := (n + 31) / 32 * 32.
Definition set_bit_of (n bits i : Z) : prog kbd Z :=
  if (0 <=? i) && (i <? bitmap_size n) then ret (Z.setbit bits i) else fault_with OutOfBounds.
Definition test_bit_of (n bits i : Z) : prog kbd bool :=
  if (0 <=? i) && (i <? bitmap_size n) then ret (Z.testbit bits i) else fault_with OutOfBounds.

(** The first loop of [fleety_keys_attr_show_helper]: the bits of the buttons
    from [i] on. *)
Fixpoint collect_bits (n_events ty : Z) (only_disabled : bool) (i n : nat) (bits : Z) : prog kbd Z :=
  match n with
  | O => ret bits
  | S n =>
    let* b := get_data i in
    let* bits :=
      (if negb (type (button b) =? ty) then ret bits
       else if only_disabled && negb (disabled b) then ret bits
       else set_bit_of n_events bits (code (button b))) in
    collect_bits n_events ty only_disabled (S i) n bits
  end.

(** The result and what was written to [buf]. *)
Definition fleety_keys_attr_show_helper (ty : Z) (only_disabled : bool) : prog kbd (Z * list Z) :=
  let* n_events := get_n_events_by_type ty in
  let* ok := qask keys_alloc in
  if negb ok then ret (- ENOMEM, []) else
  let* d := get_ddata in
  let* bits := collect_bits n_events ty only_disabled 0 (length (buttons (pdata d))) 0 in
  let text := bitmap_scnlistprintf bits n_events in
  ret (zlen text + 1, text ++ [10; 0]).

(** The validation loop of [fleety_keys_attr_store_helper]: false when a button
    that cannot be disabled is in the bitmap. *)
Fixpoint validate (n_events ty bits : Z) (i n : nat) : prog kbd bool :=
  match n with
  | O => ret true
  | S n =>
    let* b := get_data i in
    if negb (type (button b) =? ty) then validate n_events ty bits (S i) n else
    let* t := test_bit_of n_events bits (code (button b)) in
    if t && negb (can_disable (button b)) then ret false else validate n_events ty bits (S i) n
  end.

Definition apply_bit (n_events ty bits : Z) (i : nat) : prog kbd unit :=
  let* b := get_data i in
  if negb (type (button b) =? ty) then ret tt else
  let* t := test_bit_of n_events bits (code (button b)) in
  if t then fleety_keys_disable_button i else fleety_keys_enable_button i.

Definition fleety_keys_attr_store_helper (buf : list Z) (ty : Z) : prog kbd Z :=
  let* n_events := get_n_events_by_type ty in
  let* ok := qask keys_alloc in
  if negb ok then ret (- ENOMEM) else
  match bitmap_parselist buf n_events with
  | inl error => ret error
  | inr bits =>
    let* d := get_ddata in
    let* valid := validate n_events ty bits 0 (length (buttons (pdata d))) in
    if negb valid then ret (- EINVAL) else
    do* each_button (apply_bit n_events ty bits);
    ret 0
  end.

Definition fleety_keys_show_keys := fleety_keys_attr_show_helper EV_KEY false.
Definition fleety_keys_show_switches := fleety_keys_attr_show_helper EV_SW false.
Definition fleety_keys_show_disabled_keys := fleety_keys_attr_show_helper EV_KEY true.
Definition fleety_keys_show_disabled_switches := fleety_keys_attr_show_helper EV_SW true.

Definition attr_store_fn (ty : Z) (buf : list Z) (count : Z) : prog kbd Z :=
  let* error := fleety_keys_attr_store_helper buf ty in
  if negb (error =? 0) then ret error else ret count.
Definition fleety_keys_store_disabled_keys := attr_store_fn EV_KEY.
Definition fleety_keys_store_disabled_switches := attr_store_fn EV_SW.

(** ** Reporting *)

Definition fleety_keys_gpio_report_event (i : nat) : prog kbd unit :=
  let* b := get_data i in
  let ty := if type (button b) =? 0 then EV_KEY else type (button b) in
  let* v := qask (fun t => gpio_get_value t (gpio (button b))) in
  let state := Z.lxor (if v =? 0 then 0 else 1) (active_low (button b)) in
  do* (if ty =? EV_ABS then
         if negb (state =? 0) then qdo (InputEvent ty (code (button b)) (value (button b))) else ret tt
       else
         do* qdo (InputEvent ty (code (button b)) (if state =? 0 then 0 else 1));
         do* call_below (map_set_gpi (s32 (code (button b) - FLEETY_KEYS_BASE_CODE)) state);
         ret tt);
  qdo InputSync.

Definition fleety_keys_gpio_work_func (i : nat) : prog kbd unit :=
  do* fleety_keys_gpio_report_event i;
  let* b := get_data i in
  if negb (wakeup (button b) =? 0) then qdo PmRelax else ret tt.

Definition fleety_keys_gpio_timer (i : nat) : prog kbd unit :=
  let* b := get_data i in put_data i (set_work true b).

Definition fleety_keys_gpio_isr (irq_ : Z) (i : nat) : prog kbd unit :=
  let* b := get_data i in
  if negb (irq_ =? irq_no b) then fault_with KernelBug else
  do* (if negb (wakeup (button b) =? 0) then qdo PmStayAwake else ret tt);
  if negb (timer_debounce b =? 0) then put_data i (set_timer true b)
  else put_data i (set_work true b).

Definition fleety_keys_irq_timer (i : nat) : prog kbd unit :=
  let* b := get_data i in
  if key_pressed b then
    do* qdo (InputEvent EV_KEY (code (button b)) 0);
    do* qdo InputSync;
    put_data i (set_pressed false b)
  else ret tt.

Definition fleety_keys_irq_isr (irq_ : Z) (i : nat) : prog kbd unit :=
  let* b := get_data i in
  if negb (irq_ =? irq_no b) then fault_with KernelBug else
  let* out :=
    (if negb (key_pressed b) then
       do* (if negb (wakeup (button b) =? 0) then qdo PmWakeup else ret tt);
       do* qdo (InputEvent EV_KEY (code (button b)) 1);
       do* qdo InputSync;
       if timer_debounce b =? 0 then
         do* qdo (InputEvent EV_KEY (code (button b)) 0);
         do* qdo InputSync;
         ret true
       else
         do* put_data i (set_pressed true b);
         ret false
     else ret false) in
  if out then ret tt else
  let* b := get_data i in
  if negb (timer_debounce b =? 0) then put_data i (set_timer true b) else ret tt.

Definition fleety_keys_report_state : prog kbd unit :=
  do* each_button (fun i =>
        let* b := get_data i in
        if gpio_is_valid (gpio (button b)) then fleety_keys_gpio_report_event i else ret tt);
  qdo InputSync.

(** ** Setting up and removing a button *)

(** [request_any_context_irq(bdata->irq, isr, ...)] and the [fail] label. *)
Definition claim_irq (btn : fleety_keys_button) (irq_ : Z) : prog kbd Z :=
  let* error := qask (fun t => request_any_context_irq t irq_) in
  if error <? 0 then
    do* (if gpio_is_valid (gpio btn) then qdo (GpioFree (gpio btn)) else ret tt);
    ret error
  else do* qdo (IrqTake irq_); ret 0.

Definition fleety_keys_setup_key (i : nat) (btn : fleety_keys_button) : prog kbd Z :=
  let* b := get_data i in
  let b := mkData btn (timer_debounce b) (irq_no b) (disabled b) (key_pressed b) (timer_on b) (work_on b) in
  do* put_data i b;
  if gpio_is_valid (gpio btn) then
    let* error := qask (fun t => gpio_request_one t (gpio btn)) in
    if error <? 0 then ret error else
    do* qdo (GpioTake (gpio btn));
    let* b :=
      (if negb (debounce_interval btn =? 0) then
         let* error := qask (fun t => gpio_set_debounce t (gpio btn) (s32 (debounce_interval btn * 1000))) in
         let b := if error <? 0
                  then mkData btn (u32 (debounce_interval btn)) (irq_no b) (disabled b) (key_pressed b)
                         (timer_on b) (work_on b)
                  else b in
         do* put_data i b; ret b
       else ret b) in
    let* irq_ := qask (fun t => gpio_to_irq t (gpio btn)) in
    if irq_ <? 0 then
      do* qdo (GpioFree (gpio btn));
      ret irq_
    else
    do* put_data i (mkData btn (timer_debounce b) irq_ (disabled b) (key_pressed b) false false);
    claim_irq btn irq_
  else
    if irq btn =? 0 then ret (- EINVAL) else
    do* put_data i (mkData btn (timer_debounce b) (irq btn) (disabled b) (key_pressed b)
                      (timer_on b) (work_on b));
    if negb (type btn =? 0) && negb (type btn =? EV_KEY) then ret (- EINVAL) else
    do* put_data i (mkData btn (u32 (debounce_interval btn)) (irq btn) (disabled b) (key_pressed b)
                      false (work_on b));
    claim_irq btn (irq btn).

Definition gpio_remove_key (i : nat) : prog kbd unit :=
  let* b := get_data i in
  do* qdo (IrqFree (irq_no b));
  let b := if negb (timer_debounce b =? 0) then set_timer false b else b in
  do* put_data i (set_work false b);
  if gpio_is_valid (gpio (button b)) then qdo (GpioFree (gpio (button b))) else ret tt.

(** ** Pins, open and close *)

Definition fleety_keys_pinctrl_configure (active : bool) : prog kbd Z :=
  let* st := qask (fun t => pinctrl_lookup_state t active) in
  if IS_ERR st then ret (PTR_ERR st) else
  do* qdo (Pinctrl active);
  let* retval := qask pinctrl_select_state in
  if negb (retval =? 0) then ret retval else ret 0.

Definition fleety_keys_open : prog kbd Z :=
  let* d := get_ddata in
  let* error :=
    (if has_enable (pdata d) then do* qdo PlatformEnable; qask platform_enable else ret 0) in
  if negb (error =? 0) then ret error else
  do* fleety_keys_report_state;
  ret 0.

Definition fleety_keys_close : prog kbd unit :=
  let* d := get_ddata in
  if has_disable (pdata d) then qdo PlatformDisable else ret tt.

(** ** The device tree *)

(** The loop over the children: the buttons read so far, or an error. *)
Fixpoint read_children (l : list key_child) (acc : list fleety_keys_button) : Z + list fleety_keys_button :=
  match l with
  | [] => inr acc
  | c :: rest =>
    if negb (kc_gpios c) then read_children rest acc
    else if kc_gpio c <? 0 then inl (kc_gpio c)
    else match kc_code c with
         | None => inl (- EINVAL)
         | Some cd =>
           read_children rest (acc ++
             [mkButton cd (kc_gpio c) (Z.land (kc_flags c) 1) (kc_label c) (default EV_KEY (kc_type c))
                (if kc_wakeup c then 1 else 0) (default 5 (kc_debounce c)) false 0 0])
         end
  end.

(** [ERR_PTR(error)] or the platform data. *)
Definition fleety_keys_get_devtree_pdata : prog kbd (Z + fleety_keys_platform_data) :=
  match of_node with
  | None => ret (inl (- ENODEV))
  | Some (children, autorepeat) =>
    if (length children =? 0)%nat then ret (inl (- ENODEV)) else
    let* ok := qask keys_alloc in
    if negb ok then ret (inl (- ENOMEM)) else
    do* qdo PdataTake;
    match read_children children [] with
    | inl error => do* qdo PdataFree; ret (inl error)
    | inr [] => do* qdo PdataFree; ret (inl (- EINVAL))
    | inr l => ret (inr (mkPdata l autorepeat false false))
    end
  end.

(** ** Binding *)

(** [dev_get_platdata(dev) != NULL] *)
Definition have_platdata : bool := match platform_pdata with Some _ => true | None => false end.

(** [kzalloc]: zeroed button data. *)
Definition data_zeroed (btn : fleety_keys_button) : fleety_button_data :=
  mkData btn 0 0 false false false false.

(** The set-up loop: [inl (i, error)] when button [i] failed. *)
Fixpoint setup_keys (i : nat) (l : list fleety_keys_button) (wake : Z) : prog kbd (nat * Z + Z) :=
  match l with
  | [] => ret (inr wake)
  | btn :: rest =>
    let* error := fleety_keys_setup_key i btn in
    if negb (error =? 0) then ret (inl (i, error))
    else setup_keys (S i) rest (if negb (wakeup btn =? 0) then 1 else wake)
  end.

(** [while (--i >= 0) gpio_remove_key(&ddata->data[i])] *)
Fixpoint remove_down (i : nat) : prog kbd unit :=
  match i with O => ret tt | S i => do* gpio_remove_key i; remove_down i end.

(** The labels [fail1], [fail2] and [err_pinctrl]. *)
Definition probe_fail1 (got_ddata got_input : bool) (error : Z) : prog kbd Z :=
  do* (if got_input then qdo InputFree else ret tt);
  do* (if got_ddata then qdo DdataFree else ret tt);
  do* (if have_platdata then ret tt else qdo PdataFree);
  ret error.

Definition probe_fail2 (i : nat) (error : Z) : prog kbd Z :=
  do* remove_down i;
  do* modify (with_ddata None);
  probe_fail1 true true error.

Definition probe_err_pinctrl (i : nat) (error : Z) : prog kbd Z :=
  let* d := get_ddata in
  do* (if key_pinctrl d then
         let* st := qask (fun t => pinctrl_lookup_state t false) in
         if IS_ERR st then ret tt
         else do* qdo (Pinctrl false); do* qask pinctrl_select_state; ret tt
       else ret tt);
  probe_fail2 i error.

Definition fleety_keys_probe : prog kbd Z :=
  let* r := (match platform_pdata with
             | Some pd => ret (inr pd)
             | None => fleety_keys_get_devtree_pdata
             end) in
  match r with
  | inl e => ret e
  | inr pd =>
    let n := length (buttons pd) in
    let* got_ddata := qask keys_alloc in
    do* (if got_ddata then qdo DdataTake else ret tt);
    let* got_input := qask keys_alloc in
    do* (if got_input then qdo InputTake else ret tt);
    if negb got_ddata || negb got_input then probe_fail1 got_ddata got_input (- ENOMEM) else
    do* modify (with_ddata (Some (mkDdata pd false (data_zeroed <$> buttons pd))));
    let* pc := qask pinctrl_get in
    if IS_ERR pc && (PTR_ERR pc =? - EPROBE_DEFER) then ret (- EPROBE_DEFER) else
    let has_pinctrl := negb (IS_ERR pc) && match pc with PNull => false | _ => true end in
    let* d := get_ddata in
    do* modify (with_ddata (Some (set_pinctrl has_pinctrl d)));
    let* error := (if has_pinctrl then fleety_keys_pinctrl_configure true else ret 0) in
    if negb (error =? 0) then probe_fail2 0 error else
    let* r := setup_keys 0 (buttons pd) 0 in
    match r with
    | inl (i, error) => probe_err_pinctrl i error
    | inr wake =>
      let* error := qask sysfs_create_group in
      if negb (error =? 0) then probe_fail2 n error else
      do* qdo GroupTake;
      let* error := qask input_register_device in
      if negb (error =? 0) then
        do* qdo GroupFree;
        probe_err_pinctrl n error
      else
      do* qdo (InitWakeup wake);
      ret 0
    end
  end.

Definition fleety_keys_remove : prog kbd Z :=
  let* d := get_ddata in
  do* qdo GroupFree;
  do* qdo (InitWakeup 0);
  do* each_button gpio_remove_key;
  do* qdo InputFree;                    (* input_unregister_device *)
  do* (if have_platdata then ret tt else qdo PdataFree);
  do* qdo DdataFree;
  do* modify (with_ddata None);
  ret 0.

(** ** Suspend and resume *)

Definition wake_irqs (on : bool) : prog kbd unit :=
  each_button (fun i =>
    let* b := get_data i in
    if negb (wakeup (button b) =? 0)
    then qdo (if on then EnableIrqWake (irq_no b) else DisableIrqWake (irq_no b)) else ret tt).

Definition fleety_keys_suspend : prog kbd Z :=
  let* d := get_ddata in
  let* r := (if key_pinctrl d then fleety_keys_pinctrl_configure false else ret 0) in
  if negb (r =? 0) then ret r else
  let* may := qask device_may_wakeup in
  if may then do* wake_irqs true; ret 0
  else
    let* users := qask input_users in
    do* (if users then fleety_keys_close else ret tt);
    ret 0.

Definition fleety_keys_resume : prog kbd Z :=
  let* d := get_ddata in
  let* r := (if key_pinctrl d then fleety_keys_pinctrl_configure true else ret 0) in
  if negb (r =? 0) then ret r else
  let* may := qask device_may_wakeup in
  let* error :=
    (if may then do* wake_irqs false; ret 0
     else
       let* users := qask input_users in
       if users then fleety_keys_open else ret 0) in
  if negb (error =? 0) then ret error else
  do* fleety_keys_report_state;
  ret 0.
End Keys.

(** ** Running the driver *)

Section KeysLemmas.
Context `{Kernel} {KK : KeysKernel} {PM : PinMaps}.

Lemma bind_qask {A B} (f : nat -> A) (k : A -> prog kbd B) s :
  bind (qask f) k s = k (f (k_time (below s))) (with_below (ktick (below s)) s).
Proof. reflexivity. Qed.

Lemma bind_qdo {B} e (k : unit -> prog kbd B) s : bind (qdo e) k s = k tt (note e s).
Proof. reflexivity. Qed.

Lemma bind_get_ddata {B} d (k : fleety_keys_drvdata -> prog kbd B) s :
  ddata s = Some d -> bind get_ddata k s = k d s.
Proof. intros E. unfold get_ddata, qgets. rewrite bind_bind. unfold bind at 1. by rewrite E. Qed.

Lemma bind_get_data {B} d i b (k : fleety_button_data -> prog kbd B) s :
  ddata s = Some d -> data d !! i = Some b -> bind (get_data i) k s = k b s.
Proof. intros E Ei. unfold get_data. by rewrite bind_bind, (bind_get_ddata d), Ei. Qed.

Lemma bind_put_data {B} d i b b' (k : unit -> prog kbd B) s :
  ddata s = Some d -> data d !! i = Some b ->
  bind (put_data i b') k s = k tt (with_ddata (Some (set_data (<[i := b']> (data d)) d)) s).
Proof. intros E Ei. unfold put_data. by rewrite bind_bind, (bind_get_ddata d), bind_bind, Ei. Qed.

Lemma put_data_run d i b b' s :
  ddata s = Some d -> data d !! i = Some b ->
  put_data i b' s = Ret tt (with_ddata (Some (set_data (<[i := b']> (data d)) d)) s).
Proof. intros E Ei. unfold put_data. by rewrite (bind_get_ddata d), Ei by done. Qed.

Lemma bind_call_below {A B} (c : prog kworld A) (k : A -> prog kbd B) s a w :
  c (below s) = Ret a w -> bind (call_below c) k s = k a (with_below w s).
Proof. intros E. unfold bind, call_below. by rewrite E. Qed.

End KeysLemmas.

Ltac qrun := repeat first
  [ rewrite bind_qask | rewrite bind_qdo | rewrite bind_ret | rewrite bind_bind | rewrite bind_modify
  | erewrite bind_get_ddata by (simpl; reflexivity || eassumption) ]; cbv beta.

(** ** GPIO buttons *)

Section GpioButtons.
Context `{Kernel} {KK : KeysKernel} {PM : PinMaps}.

(** Reporting a GPIO button.  With the spider driver bound, and a code
    that names one of its 32 inputs, a report sends one event, of the button's
    type (EV_KEY when none is given) and code, whose value is the line's level
    inverted for an active-low button, followed by a synchronisation, and the
    spider driver's input map records the same value in bit [code - 59] and
    changes no other bit; a signal only loses the update of the map. *)
Theorem gpio_key_report i b d s sd :
  ddata s = Some d -> data d !! i = Some b -> type (button b) <> EV_ABS ->
  active_low (button b) = 0 \/ active_low (button b) = 1 ->
  spider (below s) = Some sd -> spider_pdev_drvdata (below s) = true -> spider_values sd ->
  FLEETY_KEYS_BASE_CODE <= code (button b) < FLEETY_KEYS_BASE_CODE + 32 ->
  let pressed := xorb (negb (gpio_get_value (k_time (below s)) (gpio (button b)) =? 0))
                      (negb (active_low (button b) =? 0)) in
  exists s' m, fleety_keys_gpio_report_event i s = Ret tt s' /\ ddata s' = ddata s /\
    keys_trace s' = keys_trace s ++
      [InputEvent (if type (button b) =? 0 then EV_KEY else type (button b)) (code (button b))
         (if pressed then 1 else 0); InputSync] /\
    spider (below s') = Some (set_gpi_map m sd) /\
    (forall j, 0 <= j -> Z.testbit m j =
       if (j =? code (button b) - FLEETY_KEYS_BASE_CODE) && negb (k_interrupted (S (k_time (below s))))
       then pressed else Z.testbit (gpi_map sd) j).
Proof.
  intros Ed Eb Hty Hal Es Ep (Hs&_&_&_&_&Hm) Hc. cbv zeta.
  unfold fleety_keys_gpio_report_event. rewrite (bind_get_data d i b) by done. qrun.
  set (v := gpio_get_value _ _). set (st := Z.lxor _ _).
  assert (exists p : bool, st = (if p then 1 else 0) /\
    p = xorb (negb (v =? 0)) (negb (active_low (button b) =? 0))) as (p&Hst&<-).
  { exists (xorb (negb (v =? 0)) (negb (active_low (button b) =? 0))). split; [|done].
    unfold st. by destruct (v =? 0), Hal as [-> | ->]. }
  rewrite Hst. replace ((if type (button b) =? 0 then EV_KEY else type (button b)) =? EV_ABS) with false.
  2: { symmetry. apply Z.eqb_neq. by destruct (type (button b) =? 0). }
  qrun. rewrite (s32_id (code (button b) - _)) by (unfold FLEETY_KEYS_BASE_CODE in *; lia).
  assert ((if (if p then 1 else 0) =? 0 then 0 else 1) = (if p then 1 else 0)) as -> by by destruct p.
  set (s1 := note _ _). erewrite (bind_call_below _ _ s1).
  2: { rewrite (map_set_gpi_spec _ _ _ sd) by (done || lia).
       instantiate (2 := if k_interrupted (k_time (below s1)) then - ERESTARTSYS else 0).
       instantiate (1 := if k_interrupted (k_time (below s1)) then ktick (below s1)
         else with_spider (Some (set_gpi_map (set_bit (gpi_map sd)
                (code (button b) - FLEETY_KEYS_BASE_CODE) (if p then 1 else 0)) sd)) (ktick (below s1))).
       by destruct (k_interrupted _). }
  qrun. change (k_time (below s1)) with (S (k_time (below s))).
  eexists. exists (if k_interrupted (S (k_time (below s))) then gpi_map sd
          else set_bit (gpi_map sd) (code (button b) - FLEETY_KEYS_BASE_CODE) (if p then 1 else 0)).
  split; [done|]. split_and!; [done|simpl; by rewrite <- app_assoc| |].
  - simpl. destruct (k_interrupted _); [simpl; rewrite Es|]; by destruct sd.
  - intros j Hj. destruct (k_interrupted _); [by rewrite andb_false_r|].
    rewrite testbit_set_bit, andb_true_r by lia. by destruct (j =? _), p.
Qed.
End GpioButtons.

(** ** Interrupt buttons *)

(** The values of the key events of one code, in order. *)
Definition key_value (c : Z) (e : keys_effect) : option Z :=
  match e with
  | InputEvent ty c' v => if (ty =? EV_KEY) && (c' =? c) then Some v else None
  | _ => None
  end.
Definition key_values (c : Z) (tr : list keys_effect) : list Z := omap (key_value c) tr.

(** Presses (1) and releases (0) in turn, starting with a press when [press]. *)
Fixpoint alternating (press : bool) (l : list Z) : Prop :=
  match l with
  | [] => True
  | v :: l => v = (if press then 1 else 0) /\ alternating (negb press) l
  end.
(** What comes next after [l]. *)
Definition next_press (press : bool) (l : list Z) : bool := if Nat.even (length l) then press else negb press.

Lemma alternating_app p l k : alternating p (l ++ k) <-> alternating p l /\ alternating (next_press p l) k.
Proof.
  revert p. induction l as [|v l IH]; intros p; [unfold next_press; simpl; tauto|].
  simpl. rewrite IH. assert (next_press (negb p) l = next_press p (v :: l)) as ->; [|tauto].
  unfold next_press. cbn [length]. rewrite Nat.even_succ, <- Nat.negb_even.
  destruct (Nat.even (length l)); simpl; by rewrite ?negb_involutive.
Qed.

Lemma next_press_app p l k : next_press p (l ++ k) = next_press (next_press p l) k.
Proof.
  unfold next_press. rewrite length_app, Nat.even_add.
  destruct (Nat.even (length l)), (Nat.even (length k)), p; reflexivity.
Qed.

Lemma key_values_app c l k : key_values c (l ++ k) = key_values c l ++ key_values c k.
Proof. apply omap_app. Qed.

(** What happens to an interrupt button: its interrupt, or its queued timer. *)
Inductive irq_input := Interrupt | TimerExpires.

Section IrqButtons.
Context `{Kernel} {KK : KeysKernel}.

Definition irq_button_step (i : nat) (x : irq_input) : prog kbd unit :=
  let* b := get_data i in
  match x with
  | Interrupt => fleety_keys_irq_isr (irq_no b) i
  | TimerExpires =>
      if timer_on b then do* put_data i (set_timer false b); fleety_keys_irq_timer i else ret tt
  end.

Fixpoint irq_button_run (i : nat) (xs : list irq_input) : prog kbd unit :=
  match xs with [] => ret tt | x :: xs => do* irq_button_step i x; irq_button_run i xs end.

(** A pressed button has a debounce time and its timer queued: its release will come. *)
Definition release_pending (b : fleety_button_data) : Prop :=
  key_pressed b = true -> timer_on b = true /\ timer_debounce b <> 0.

(** One step of button [i] from state [s] with data [b] sends [evs] and leaves [b']. *)
Definition stepped (i : nat) (s : kbd) (b b' : fleety_button_data) (evs : list keys_effect) (s' : kbd) : Prop :=
  exists d, ddata s = Some d /\ data d !! i = Some b /\
    ddata s' = Some (set_data (<[i := b']> (data d)) d) /\
    keys_trace s' = keys_trace s ++ evs /\ below s' = below s.

Lemma list_insert_twice {A} (l : list A) i x y : <[i := y]> (<[i := x]> l) = <[i := y]> l.
Proof. apply list_insert_insert_eq. Qed.

Lemma irq_isr_run i s d b :
  ddata s = Some d -> data d !! i = Some b ->
  let wake := if wakeup (button b) =? 0 then [] else [PmWakeup] in
  let c := code (button b) in
  exists s', irq_button_step i Interrupt s = Ret tt s' /\
    stepped i s b (if timer_debounce b =? 0 then b else set_timer true (set_pressed true b))
      (if key_pressed b then []
       else if timer_debounce b =? 0
       then wake ++ [InputEvent EV_KEY c 1; InputSync; InputEvent EV_KEY c 0; InputSync]
       else wake ++ [InputEvent EV_KEY c 1; InputSync]) s'.
Proof.
  intros Ed Eb wake c. pose proof (lookup_lt_Some _ _ _ Eb) as Hi.
  unfold irq_button_step. rewrite (bind_get_data d i b) by done. unfold fleety_keys_irq_isr.
  rewrite (bind_get_data d i b), Z.eqb_refl by done. cbn [negb].
  destruct (key_pressed b) eqn:Ek; cbn [negb].
  - qrun. rewrite (bind_get_data d i b) by done. destruct (timer_debounce b =? 0) eqn:Et; cbn [negb].
    + eexists. split; [done|]. exists d. split_and!; try done; [|by rewrite app_nil_r].
      rewrite list_insert_id by done. rewrite Ed. by destruct d.
    + erewrite put_data_run by done. eexists. split; [done|]. exists d.
      split_and!; try done; [|by rewrite app_nil_r]. simpl. do 3 f_equal. destruct b; simpl in *; by subst.
  - set (w := (if negb (wakeup (button b) =? 0) then qdo PmWakeup else ret tt)).
    assert (exists sw, w s = Ret tt sw /\ ddata sw = ddata s /\ keys_trace sw = keys_trace s ++ wake /\
      below sw = below s) as (sw&Ew&Hd&Ht&Hb).
    { unfold w, wake. destruct (wakeup (button b) =? 0); cbn [negb]; eexists; split_and!; try done.
      by rewrite app_nil_r. }
    rewrite bind_bind, (bind_Ret _ _ _ _ _ Ew). qrun.
    destruct (timer_debounce b =? 0) eqn:Et; qrun.
    + eexists. split; [done|]. exists d. split_and!; try done.
      * rewrite list_insert_id by done. simpl. rewrite Hd, Ed. by destruct d.
      * simpl. rewrite Ht. by rewrite <- !app_assoc.
    + erewrite bind_put_data; [|simpl; by rewrite Hd|done]. qrun.
      erewrite bind_get_data; [|reflexivity|by apply list_lookup_insert_eq].
      cbn [timer_debounce set_pressed]. rewrite Et. cbn [negb].
      erewrite put_data_run; [|reflexivity|by apply list_lookup_insert_eq].
      eexists. split; [done|]. exists d. split_and!; try done.
      * simpl. by rewrite list_insert_twice.
      * simpl. rewrite Ht. by rewrite <- !app_assoc.
Qed.

Lemma irq_timer_run i s d b :
  ddata s = Some d -> data d !! i = Some b ->
  exists s', irq_button_step i TimerExpires s = Ret tt s' /\
    stepped i s b (if timer_on b then set_pressed false (set_timer false b) else b)
      (if timer_on b && key_pressed b then [InputEvent EV_KEY (code (button b)) 0; InputSync] else []) s'.
Proof.
  intros Ed Eb. pose proof (lookup_lt_Some _ _ _ Eb) as Hi.
  unfold irq_button_step. rewrite (bind_get_data d i b) by done.
  destruct (timer_on b) eqn:Et; cbn [andb].
  - erewrite bind_put_data by done. unfold fleety_keys_irq_timer.
    erewrite bind_get_data; [|reflexivity|by apply list_lookup_insert_eq].
    cbn [key_pressed set_timer button]. destruct (key_pressed b) eqn:Ek.
    + qrun. erewrite put_data_run; [|reflexivity|by apply list_lookup_insert_eq].
      eexists. split; [done|]. exists d. split_and!; try done.
      * simpl. by rewrite list_insert_twice.
      * simpl. by rewrite <- app_assoc.
    + eexists. split; [done|]. exists d. split_and!; try done; [|by rewrite app_nil_r].
      simpl. do 3 f_equal. destruct b; simpl in *; by subst.
  - eexists. split; [done|]. exists d. split_and!; try done; [|by rewrite app_nil_r].
    rewrite list_insert_id by done. rewrite Ed. by destruct d.
Qed.

(** What a step adds to the key events, and the phase it leaves. *)
Lemma irq_step_events i x s d b :
  ddata s = Some d -> data d !! i = Some b -> release_pending b ->
  exists s' d' b' l, irq_button_step i x s = Ret tt s' /\ ddata s' = Some d' /\ data d' !! i = Some b' /\
    button b' = button b /\ timer_debounce b' = timer_debounce b /\ release_pending b' /\
    key_values (code (button b)) (keys_trace s') = key_values (code (button b)) (keys_trace s) ++ l /\
    alternating (negb (key_pressed b)) l /\ next_press (negb (key_pressed b)) l = negb (key_pressed b').
Proof.
  intros Ed Eb Hp. assert (key_values (code (button b)) (if wakeup (button b) =? 0 then [] else [PmWakeup]) = [])
    as Hwk by by destruct (_ =? 0).
  assert (forall v, key_value (code (button b)) (InputEvent EV_KEY (code (button b)) v) = Some v) as Hkv
    by (intros v; simpl; by rewrite Z.eqb_refl).
  destruct x.
  - destruct (irq_isr_run i s d b Ed Eb) as (s'&Es&d0&E0&_&Ed'&Et&_).
    rewrite Ed in E0; injection E0 as <-.
    eexists s', _, _, _. split_and!; [done|exact Ed'|by apply list_lookup_insert_eq; eapply lookup_lt_Some
      |by destruct (timer_debounce b =? 0)|by destruct (timer_debounce b =? 0)| |rewrite Et; apply key_values_app| |].
    all: destruct (timer_debounce b =? 0) eqn:Etd, (key_pressed b) eqn:Ek; bool_cases; try done.
    all: rewrite ?key_values_app, ?Hwk; unfold key_values; cbn [omap list_omap app]; rewrite ?Hkv.
    all: try (by destruct (Hp eq_refl)). all: by cbn; rewrite ?Z.eqb_refl.
  - destruct (irq_timer_run i s d b Ed Eb) as (s'&Es&d0&E0&_&Ed'&Et&_).
    rewrite Ed in E0; injection E0 as <-.
    eexists s', _, _, _. split_and!; [done|exact Ed'|by apply list_lookup_insert_eq; eapply lookup_lt_Some
      |by destruct (timer_on b)|by destruct (timer_on b)| |rewrite Et; apply key_values_app| |].
    all: destruct (timer_on b) eqn:Eto, (key_pressed b) eqn:Ek; try done.
    all: cbn; rewrite ?Z.eqb_refl; try done. all: by destruct (Hp eq_refl).
Qed.

Lemma irq_run_events i xs s d b :
  ddata s = Some d -> data d !! i = Some b -> release_pending b ->
  exists s' d' b' l, irq_button_run i xs s = Ret tt s' /\ ddata s' = Some d' /\ data d' !! i = Some b' /\
    button b' = button b /\ timer_debounce b' = timer_debounce b /\ release_pending b' /\
    key_values (code (button b)) (keys_trace s') = key_values (code (button b)) (keys_trace s) ++ l /\
    alternating (negb (key_pressed b)) l /\ next_press (negb (key_pressed b)) l = negb (key_pressed b').
Proof.
  revert s d b. induction xs as [|x xs IH]; intros s d b Ed Eb Hp.
  - exists s, d, b, []. split_and!; try done. by rewrite app_nil_r.
  - destruct (irq_step_events i x s d b Ed Eb Hp) as (s1&d1&b1&l1&E1&Ed1&Eb1&Hb1&Ht1&Hp1&Hk1&Ha1&Hn1).
    destruct (IH s1 d1 b1 Ed1 Eb1 Hp1) as (s2&d2&b2&l2&E2&Ed2&Eb2&Hb2&Ht2&Hp2&Hk2&Ha2&Hn2).
    exists s2, d2, b2, (l1 ++ l2). cbn [irq_button_run]. rewrite (bind_Ret _ _ _ _ _ E1).
    rewrite Hb1 in Hk2, Hb2.
    split_and!; try done; [congruence|by rewrite Hk2, Hk1, <- app_assoc| |].
    + apply alternating_app. by rewrite Hn1.
    + by rewrite next_press_app, Hn1.
Qed.

(** Debouncing an interrupt button.  Whatever the order of interrupts and
    timer expiries, a released button's key events are press, release, press,
    ... in turn, starting with a press; it counts as pressed exactly when the
    last event was a press; without a debounce time it is never left pressed,
    and with one its timer is then queued and its expiry sends the release. *)
Theorem irq_key_alternates i xs s d b :
  ddata s = Some d -> data d !! i = Some b -> key_pressed b = false ->
  let c := code (button b) in
  exists s' d' b' l, irq_button_run i xs s = Ret tt s' /\ ddata s' = Some d' /\ data d' !! i = Some b' /\
    key_values c (keys_trace s') = key_values c (keys_trace s) ++ l /\ alternating true l /\
    key_pressed b' = negb (Nat.even (length l)) /\
    (timer_debounce b = 0 -> key_pressed b' = false) /\
    (key_pressed b' = true -> exists s'', irq_button_step i TimerExpires s' = Ret tt s'' /\
       key_values c (keys_trace s'') = key_values c (keys_trace s') ++ [0]).
Proof.
  intros Ed Eb Hr c. destruct (irq_run_events i xs s d b Ed Eb) as
    (s'&d'&b'&l&E&Ed'&Eb'&Hb&Ht&Hp&Hk&Ha&Hn); [unfold release_pending; by rewrite Hr|].
  rewrite Hr in Ha, Hn. exists s', d', b', l. split_and!; try done.
  - unfold next_press in Hn. by destruct (Nat.even _), (key_pressed b').
  - intros Ht0. destruct (key_pressed b') eqn:Ek; [|done]. destruct (Hp Ek). congruence.
  - intros Ek. destruct (Hp Ek) as [Hto _].
    destruct (irq_timer_run i s' d' b' Ed' Eb') as (s''&Es&d0&_&_&_&Et&_).
    exists s''. split; [done|]. rewrite Et, key_values_app, Hto, Ek. unfold c. rewrite Hb.
    cbn. by rewrite Z.eqb_refl.
Qed.
End IrqButtons.

(** ** The disable bitmaps *)

(** A button after a store of [bits] for type [ty], and what the store does to
    its interrupt line. *)
Definition after_store (ty bits : Z) (b : fleety_button_data) : fleety_button_data :=
  if negb (type (button b) =? ty) then b
  else if Z.testbit bits (code (button b)) then
    if disabled b then b
    else set_disabled true (if negb (timer_debounce b =? 0) then set_timer false b else b)
  else if disabled b then set_disabled false b else b.
Definition store_effects (ty bits : Z) (b : fleety_button_data) : list keys_effect :=
  if negb (type (button b) =? ty) then []
  else if Z.testbit bits (code (button b)) then if disabled b then [] else [DisableIrq (irq_no b)]
  else if disabled b then [EnableIrq (irq_no b)] else [].

(** The buttons of type [ty] have codes inside the bitmap. *)
Definition codes_ok (n ty : Z) (l : list fleety_button_data) : Prop :=
  Forall (fun b => type (button b) = ty -> 0 <= code (button b) < bitmap_size n) l.

Section Bitmaps.
Context `{Kernel} {KK : KeysKernel}.

Lemma test_bit_ok {B} n bits i (k : bool -> prog kbd B) s :
  0 <= i < bitmap_size n -> bind (test_bit_of n bits i) k s = k (Z.testbit bits i) s.
Proof.
  intros. unfold test_bit_of. by rewrite (proj2 (Z.leb_le 0 i)), (proj2 (Z.ltb_lt i _)) by lia.
Qed.

Lemma set_bit_ok {B} n bits i (k : Z -> prog kbd B) s :
  0 <= i < bitmap_size n -> bind (set_bit_of n bits i) k s = k (Z.setbit bits i) s.
Proof.
  intros. unfold set_bit_of. by rewrite (proj2 (Z.leb_le 0 i)), (proj2 (Z.ltb_lt i _)) by lia.
Qed.

Lemma apply_bit_run n ty bits i s d b :
  ddata s = Some d -> data d !! i = Some b -> (type (button b) = ty -> 0 <= code (button b) < bitmap_size n) ->
  apply_bit n ty bits i s =
    Ret tt (mkKbd (below s) (Some (set_data (<[i := after_store ty bits b]> (data d)) d))
              (keys_trace s ++ store_effects ty bits b)).
Proof.
  intros Ed Eb Hc. unfold apply_bit, after_store, store_effects. rewrite (bind_get_data d i b) by done.
  assert (s = mkKbd (below s) (Some (set_data (<[i := b]> (data d)) d)) (keys_trace s ++ [])) as Hsame.
  { rewrite list_insert_id, app_nil_r by done. destruct s, d; simpl in *; by subst. }
  destruct (type (button b) =? ty) eqn:Ety; cbn [negb]; bool_cases; [|by f_equal].
  rewrite test_bit_ok by by apply Hc. destruct (Z.testbit bits _).
  - unfold fleety_keys_disable_button. rewrite (bind_get_data d i b) by done.
    destruct (disabled b) eqn:Edis; cbn [negb]; [by f_equal|]. qrun.
    by erewrite put_data_run.
  - unfold fleety_keys_enable_button. rewrite (bind_get_data d i b) by done.
    destruct (disabled b) eqn:Edis; [|by f_equal]. qrun. by erewrite put_data_run.
Qed.

(** The loop over the buttons after the first [length pre]. *)
Lemma apply_loop_run n ty bits pre l s d :
  ddata s = Some d -> data d = pre ++ l -> codes_ok n ty l ->
  for_buttons (length pre) (length l) (apply_bit n ty bits) s =
    Ret tt (mkKbd (below s) (Some (set_data (pre ++ map (after_store ty bits) l) d))
              (keys_trace s ++ flat_map (store_effects ty bits) l)).
Proof.
  intros Ed Hd Hc. revert pre s d Ed Hd. induction Hc as [|b l Hb _ IH]; intros pre s d Ed Hd.
  - simpl. rewrite app_nil_r in Hd. rewrite !app_nil_r. unfold ret. f_equal.
    destruct s, d; simpl in *; by subst.
  - cbn [for_buttons length]. assert (data d !! length pre = Some b) as Eb
      by (rewrite Hd, lookup_app_r, Nat.sub_diag by lia; done).
    rewrite (bind_Ret _ _ _ _ _ (apply_bit_run n ty bits _ s d b Ed Eb Hb)).
    replace (S (length pre)) with (length (pre ++ [after_store ty bits b])) by (rewrite length_app; simpl; lia).
    erewrite (IH (pre ++ [after_store ty bits b])); [|reflexivity|].
    + simpl. rewrite <- !app_assoc. done.
    + cbn [data set_data]. rewrite Hd, insert_app_r_alt, Nat.sub_diag by lia. simpl. by rewrite <- app_assoc.
Qed.

(** A store of [bits] is refused because of this button. *)
Definition refused (ty bits : Z) (b : fleety_button_data) : bool :=
  (type (button b) =? ty) && Z.testbit bits (code (button b)) && negb (can_disable (button b)).

Lemma validate_run n ty bits pre l s d :
  ddata s = Some d -> data d = pre ++ l -> codes_ok n ty l ->
  validate n ty bits (length pre) (length l) s = Ret (negb (existsb (refused ty bits) l)) s.
Proof.
  intros Ed Hd Hc. revert pre Hd. induction Hc as [|b l Hb _ IH]; intros pre Hd; [done|].
  cbn [validate length existsb]. assert (data d !! length pre = Some b) as Eb
    by (rewrite Hd, lookup_app_r, Nat.sub_diag by lia; done).
  rewrite (bind_get_data d _ b) by done.
  assert (validate n ty bits (S (length pre)) (length l) s = Ret (negb (existsb (refused ty bits) l)) s) as IH'.
  { replace (S (length pre)) with (length (pre ++ [b])) by (rewrite length_app; simpl; lia).
    apply IH. by rewrite <- app_assoc. }
  unfold refused at 1. destruct (type (button b) =? ty) eqn:Ety; cbn [negb andb]; bool_cases; [|done].
  rewrite test_bit_ok by by apply Hb.
  by destruct (Z.testbit bits _ && negb (can_disable (button b))).
Qed.

(** The buttons a show function lists. *)
Definition listed (ty : Z) (only_disabled : bool) (b : fleety_button_data) : bool :=
  (type (button b) =? ty) && (negb only_disabled || disabled b).

Lemma collect_bits_run n ty od pre l bits s d :
  ddata s = Some d -> data d = pre ++ l -> codes_ok n ty l ->
  exists m, collect_bits n ty od (length pre) (length l) bits s = Ret m s /\
    forall j, 0 <= j -> Z.testbit m j =
      Z.testbit bits j || existsb (fun b => listed ty od b && (code (button b) =? j)) l.
Proof.
  intros Ed Hd Hc. revert pre bits Hd. induction Hc as [|b l Hb _ IH]; intros pre bits Hd.
  - exists bits. split; [done|]. intros j _. by rewrite orb_false_r.
  - cbn [collect_bits length existsb]. assert (data d !! length pre = Some b) as Eb
      by (rewrite Hd, lookup_app_r, Nat.sub_diag by lia; done).
    rewrite (bind_get_data d _ b) by done.
    set (bits' := if listed ty od b then Z.setbit bits (code (button b)) else bits).
    destruct (IH (pre ++ [b]) bits') as (m&Em&Hm); [by rewrite <- app_assoc|].
    rewrite length_app, Nat.add_1_r in Em. exists m. split.
    + rewrite <- Em. unfold bits', listed.
      destruct (type (button b) =? ty) eqn:Ety; cbn [negb andb orb]; bool_cases; [|by qrun].
      destruct od; cbn [negb andb orb]; [destruct (disabled b); cbn [negb]; [|by qrun]|].
      all: by rewrite set_bit_ok by by apply Hb.
    + intros j Hj. rewrite Hm by done. unfold bits'.
      destruct (listed ty od b) eqn:El; cbn [andb orb]; [|done]. unfold listed in El. bool_cases.
      rewrite Z.setbit_eqb by (by apply Hb). by destruct (_ =? j), (Z.testbit bits j).
Qed.

Lemma after_store_disabled ty bits b :
  button (after_store ty bits b) = button b /\
  disabled (after_store ty bits b) =
    if type (button b) =? ty then Z.testbit bits (code (button b)) else disabled b.
Proof.
  unfold after_store. destruct (type (button b) =? ty); cbn [negb]; [|done].
  destruct (Z.testbit bits _), (disabled b) eqn:E; try done. by destruct (negb _).
Qed.

Lemma codes_ok_after n ty bits l : codes_ok n ty l -> codes_ok n ty (map (after_store ty bits) l).
Proof.
  intros Hc. apply Forall_map. eapply Forall_impl; [exact Hc|]. intros b Hb. simpl.
  by rewrite (proj1 (after_store_disabled ty bits b)).
Qed.

Lemma listed_after ty bits l j :
  existsb (fun b => listed ty true b && (code (button b) =? j)) (map (after_store ty bits) l) =
    Z.testbit bits j && existsb (fun b => (type (button b) =? ty) && (code (button b) =? j)) l.
Proof.
  induction l as [|b l IH]; cbn [map existsb]; [by rewrite andb_false_r|]. rewrite IH, andb_orb_distrib_r.
  f_equal. unfold listed. destruct (after_store_disabled ty bits b) as [-> ->]. cbn [negb orb].
  destruct (type (button b) =? ty); [|by rewrite andb_false_r]. cbn [andb].
  destruct (code (button b) =? j) eqn:E; bool_cases; [subst|]; by rewrite ?andb_true_r, ?andb_false_r.
Qed.

Lemma n_events_run {B} ty n (k : Z -> prog kbd B) s :
  (ty, n) = (EV_KEY, KEY_CNT) \/ (ty, n) = (EV_SW, SW_CNT) ->
  bind (get_n_events_by_type ty) k s = k n s.
Proof. intros [E|E]; by injection E as -> ->. Qed.

(** Disabling buttons through a bitmap.  A text that is not a bitmap gives
    its parse error and a bitmap naming a button that cannot be disabled gives
    -EINVAL, both without changing anything.  Otherwise the store returns
    [count]; a button of the file's type is disabled exactly when its bit is
    set, no other button changes, and an interrupt line is masked or unmasked
    only if its button changed.  The file then lists exactly the stored bits
    that name a button of the type. *)
Theorem disable_bitmap ty n buf count s d :
  (ty, n) = (EV_KEY, KEY_CNT) \/ (ty, n) = (EV_SW, SW_CNT) ->
  ddata s = Some d -> length (data d) = length (buttons (pdata d)) -> codes_ok n ty (data d) ->
  (forall t, keys_alloc t = true) ->
  match bitmap_parselist buf n with
  | inl e => attr_store_fn ty buf count s = Ret e (with_below (ktick (below s)) s)
  | inr bits =>
    if existsb (refused ty bits) (data d)
    then attr_store_fn ty buf count s = Ret (- EINVAL) (with_below (ktick (below s)) s)
    else exists s' l m, attr_store_fn ty buf count s = Ret count s' /\ ddata s' = Some (set_data l d) /\
      (forall i b, data d !! i = Some b -> exists b', l !! i = Some b' /\ button b' = button b /\
         disabled b' = if type (button b) =? ty then Z.testbit bits (code (button b)) else disabled b) /\
      keys_trace s' = keys_trace s ++ flat_map (store_effects ty bits) (data d) /\
      fleety_keys_attr_show_helper ty true s' =
        Ret (zlen (bitmap_scnlistprintf m n) + 1, bitmap_scnlistprintf m n ++ [10; 0])
          (with_below (ktick (below s')) s') /\
      (forall j, 0 <= j -> Z.testbit m j = Z.testbit bits j &&
         existsb (fun b => (type (button b) =? ty) && (code (button b) =? j)) (data d))
  end.
Proof.
  intros Hty Ed Hlen Hc Ha. unfold attr_store_fn, fleety_keys_attr_store_helper.
  rewrite bind_bind, (n_events_run ty n) by done. rewrite bind_bind, bind_qask, Ha. cbn [negb].
  destruct (bitmap_parselist buf n) as [e|bits] eqn:Ep.
  { apply bitmap_parselist_error in Ep. qrun. by destruct (Z.eqb_spec e 0); [lia|]. }
  set (s1 := with_below _ s). assert (ddata s1 = Some d) as Ed1 by done.
  rewrite bind_bind, (bind_get_ddata d), bind_bind, <- Hlen by done.
  rewrite (bind_Ret _ _ _ _ _ (validate_run n ty bits [] (data d) s1 d Ed1 eq_refl Hc)).
  destruct (existsb _ _); cbn [negb]; [by qrun|].
  unfold each_button. rewrite bind_bind, bind_bind, (bind_get_ddata d), <- Hlen by done.
  rewrite (bind_Ret _ _ _ _ _ (apply_loop_run n ty bits [] (data d) s1 d Ed1 eq_refl Hc)). qrun.
  cbn [app Z.eqb negb]. set (l := map (after_store ty bits) (data d)). set (s' := mkKbd _ _ _).
  destruct (collect_bits_run n ty true [] l 0 (with_below (ktick (below s')) s') (set_data l d)) as (m&Em&Hm);
    [done|done|by apply codes_ok_after|].
  exists s', l, m. split_and!; try done.
  - intros i b Hi. exists (after_store ty bits b).
    split; [unfold l; by rewrite list_lookup_fmap, Hi|]. apply after_store_disabled.
  - unfold fleety_keys_attr_show_helper. rewrite (n_events_run ty n), bind_qask, Ha by done. cbn [negb].
    rewrite (bind_get_ddata (set_data l d)) by done. cbn [pdata set_data].
    replace (length (buttons (pdata d))) with (length l) by (unfold l; by rewrite length_map).
    by rewrite (bind_Ret _ _ _ _ _ Em).
  - intros j Hj. rewrite Hm, Z.bits_0 by done. cbn [orb]. unfold l. apply listed_after.
Qed.
End Bitmaps.

(** ** The device tree *)

(** The button a child describes. *)
Definition child_button (c : key_child) : fleety_keys_button :=
  mkButton (default 0 (kc_code c)) (kc_gpio c) (Z.land (kc_flags c) 1) (kc_label c)
    (default EV_KEY (kc_type c)) (if kc_wakeup c then 1 else 0) (default 5 (kc_debounce c)) false 0 0.

(** The first error among the children that have GPIOs. *)
Definition child_error (c : key_child) : option Z :=
  if kc_gpio c <? 0 then Some (kc_gpio c)
  else match kc_code c with None => Some (- EINVAL) | Some _ => None end.

Lemma read_children_spec l acc :
  read_children l acc =
    match head (omap child_error (filter (fun c => kc_gpios c = true) l)) with
    | Some e => inl e
    | None => inr (acc ++ map child_button (filter (fun c => kc_gpios c = true) l))
    end.
Proof.
  revert acc. induction l as [|c l IH]; intros acc; cbn [read_children].
  - by rewrite app_nil_r.
  - rewrite filter_cons. destruct (kc_gpios c) eqn:Eg; cbn [negb].
    + rewrite decide_True by done. cbn [omap list_omap]. unfold child_error at 1.
      destruct (kc_gpio c <? 0); [done|]. destruct (kc_code c) as [cd|] eqn:Ec; [|done].
      rewrite IH. destruct (head _); [done|]. cbn [map]. rewrite <- app_assoc. simpl.
      unfold child_button at 2. by rewrite Ec.
    + rewrite decide_False by done. apply IH.
Qed.

(** ** Resources *)

Inductive resource := RGpio (gpio : Z) | RIrq (irq : Z) | RDdata | RInput | RPdata | RGroup.

(** How an effect changes the number of times a resource is held. *)
Definition weight (r : resource) (e : keys_effect) : Z :=
  match r, e with
  | RGpio g, GpioTake g' => if g =? g' then 1 else 0
  | RGpio g, GpioFree g' => if g =? g' then -1 else 0
  | RIrq n, IrqTake n' => if n =? n' then 1 else 0
  | RIrq n, IrqFree n' => if n =? n' then -1 else 0
  | RDdata, DdataTake | RInput, InputTake | RPdata, PdataTake | RGroup, GroupTake => 1
  | RDdata, DdataFree | RInput, InputFree | RPdata, PdataFree | RGroup, GroupFree => -1
  | _, _ => 0
  end.
(** How often [r] is held after the trace. *)
Definition held (r : resource) (tr : list keys_effect) : Z := foldr (fun e n => weight r e + n) 0 tr.

Lemma held_app r l k : held r (l ++ k) = held r l + held r k.
Proof. induction l as [|e l IH]; simpl; [done|]. rewrite IH. lia. Qed.

Lemma held_snoc r l e : held r (l ++ [e]) = held r l + weight r e.
Proof. rewrite held_app. simpl. lia. Qed.

Section Balance.
Context `{Kernel} {KK : KeysKernel}.

(** What a button that is set up holds: its interrupt, and its GPIO if it has one. *)
Definition key_holds (r : resource) (btn : fleety_keys_button) (irq_ : Z) : Z :=
  weight r (IrqTake irq_) + (if gpio_is_valid (gpio btn) then weight r (GpioTake (gpio btn)) else 0).
Definition keys_hold (r : resource) (l : list fleety_button_data) : Z :=
  foldr (fun b n => key_holds r (button b) (irq_no b) + n) 0 l.

Lemma weight_irq r n : weight r (IrqFree n) = - weight r (IrqTake n).
Proof. destruct r; simpl; try lia. by destruct (_ =? _). Qed.

Lemma weight_gpio r n : weight r (GpioFree n) = - weight r (GpioTake n).
Proof. destruct r; simpl; try lia. by destruct (_ =? _). Qed.

Lemma keys_hold_app r l k : keys_hold r (l ++ k) = keys_hold r l + keys_hold r k.
Proof. induction l as [|b l IH]; simpl; [done|]. rewrite IH. lia. Qed.

(** Button [i] of state [s] becomes [b'], and nothing else of the data changes. *)
Definition updates (i : nat) (d : fleety_keys_drvdata) (b' : fleety_button_data) (s' : kbd) : Prop :=
  ddata s' = Some (set_data (<[i := b']> (data d)) d).

Lemma claim_irq_run btn irq_ s :
  exists r s', claim_irq btn irq_ s = Ret r s' /\ ddata s' = ddata s /\
    (r = 0 -> forall res, held res (keys_trace s') = held res (keys_trace s) + weight res (IrqTake irq_)) /\
    (r <> 0 -> forall res, held res (keys_trace s') = held res (keys_trace s) -
       (if gpio_is_valid (gpio btn) then weight res (GpioTake (gpio btn)) else 0)).
Proof.
  unfold claim_irq. qrun. set (e := request_any_context_irq _ _). destruct (e <? 0) eqn:Ee; bool_cases.
  - destruct (gpio_is_valid (gpio btn)); qrun; do 2 eexists; (split; [done|]); (split; [done|]);
      (split; [lia|]); intros _ res; simpl; rewrite ?held_snoc, ?weight_gpio; simpl; lia.
  - qrun. do 2 eexists. split; [done|]. split; [done|]. split; [|done]. intros _ res. simpl. apply held_snoc.
Qed.

Lemma updated_data {A} i (l : list A) x y : l !! i = Some x -> <[i := y]> l !! i = Some y.
Proof. intros Hx. apply list_lookup_insert_eq. by eapply lookup_lt_Some. Qed.

(** Setting up a button takes all it holds, or nothing. *)
Lemma setup_key_run i btn s d b :
  ddata s = Some d -> data d !! i = Some b ->
  exists r s' b', fleety_keys_setup_key i btn s = Ret r s' /\ updates i d b' s' /\
    (r = 0 -> button b' = btn /\ forall res,
       held res (keys_trace s') = held res (keys_trace s) + key_holds res btn (irq_no b')) /\
    (r <> 0 -> forall res, held res (keys_trace s') = held res (keys_trace s)).
Proof.
  intros Ed Eb. unfold fleety_keys_setup_key, key_holds, updates. rewrite (bind_get_data d i b) by done.
  set (b1 := mkData btn _ _ _ _ _ _). erewrite bind_put_data by done.
  set (d1 := set_data (<[i := b1]> (data d)) d). set (s1 := with_ddata (Some d1) s).
  assert (data d1 !! i = Some b1) as Eb1 by (by eapply updated_data).
  assert (forall b2, <[i := b2]> (data d1) = <[i := b2]> (data d)) as Hdd
    by (intros; apply list_insert_insert_eq).
  destruct (gpio_is_valid (gpio btn)) eqn:Ev.
  - qrun. set (e := gpio_request_one _ _). destruct (e <? 0) eqn:Ee; bool_cases.
    { do 3 eexists. split; [done|]. split; [done|]. split; [lia|done]. }
    qrun. set (s2 := note _ _).
    assert (exists b2 s3, (if negb (debounce_interval btn =? 0) then
         let* error := qask (fun t => gpio_set_debounce t (gpio btn) (s32 (debounce_interval btn * 1000))) in
         let b := if error <? 0
                  then mkData btn (u32 (debounce_interval btn)) (irq_no b1) (disabled b1) (key_pressed b1)
                         (timer_on b1) (work_on b1)
                  else b1 in
         do* put_data i b; ret b
       else ret b1) s2 = Ret b2 s3 /\ keys_trace s3 = keys_trace s2 /\
       ddata s3 = Some (set_data (<[i := b2]> (data d)) d)) as (b2&s3&E3&T3&D3).
    { destruct (negb _); [|by exists b1, s2]. qrun. erewrite bind_put_data; [|reflexivity|exact Eb1]. qrun.
      do 2 eexists. split; [done|]. split; [done|]. simpl. by rewrite Hdd. }
    cbv zeta in E3 |- *. rewrite (bind_Ret _ _ _ _ _ E3). qrun. set (q := gpio_to_irq _ _).
    destruct (q <? 0) eqn:Eq; bool_cases; qrun.
    { do 3 eexists. split; [done|]. split; [simpl; exact D3|]. split; [lia|]. intros _ res. simpl.
      rewrite T3. simpl. rewrite !held_snoc, weight_gpio. lia. }
    erewrite bind_put_data; [|exact D3|by eapply updated_data]. set (s4 := with_ddata _ _).
    destruct (claim_irq_run btn q s4) as (r&s5&E5&D5&Hok&Hno). rewrite Ev in Hno.
    exists r, s5. eexists. split; [done|]. split; [rewrite D5; simpl; by rewrite list_insert_insert_eq|].
    split; [intros Hr; split; [done|]|intros Hr]; intros res; rewrite ?Hok, ?Hno by done; simpl; rewrite T3;
      simpl; rewrite held_snoc; lia.
  - destruct (irq btn =? 0).
    { do 3 eexists. split; [done|]. split; [done|]. split; [done|done]. }
    erewrite bind_put_data; [|reflexivity|exact Eb1].
    destruct (negb (type btn =? 0) && negb (type btn =? EV_KEY)).
    { do 3 eexists. split; [done|]. split; [simpl; by rewrite list_insert_insert_eq|]. split; done. }
    erewrite bind_put_data; [|reflexivity|by eapply updated_data]. set (s4 := with_ddata _ _).
    destruct (claim_irq_run btn (irq btn) s4) as (r&s5&E5&D5&Hok&Hno). rewrite Ev in Hno.
    exists r, s5. eexists. split; [done|]. split; [rewrite D5; simpl; by rewrite !list_insert_insert_eq|].
    split; [intros Hr; split; [done|]|intros Hr]; intros res; rewrite ?Hok, ?Hno by done; simpl; lia.
Qed.

(** The first [i] buttons are set up and nothing more is held than before ([base]). *)
Definition set_up (base : resource -> Z) (i : nat) (s : kbd) : Prop :=
  exists d, ddata s = Some d /\ (i <= length (data d))%nat /\
    forall res, held res (keys_trace s) = base res + keys_hold res (take i (data d)).

Lemma take_insert_last {A} i (l : list A) x y :
  l !! i = Some x -> take (S i) (<[i := y]> l) = take i l ++ [y].
Proof.
  intros Hx. rewrite (take_S_r _ _ y) by by eapply updated_data. by rewrite take_insert_ge by lia.
Qed.

Lemma setup_keys_run base l i wake s d :
  set_up base i s -> ddata s = Some d -> length (data d) = (i + length l)%nat ->
  exists r s' d', setup_keys i l wake s = Ret r s' /\ ddata s' = Some d' /\
    pdata d' = pdata d /\ key_pinctrl d' = key_pinctrl d /\
    match r with
    | inl (k, e) => set_up base k s' /\ e <> 0
    | inr _ => set_up base (i + length l) s' /\ length (data d') = length (data d)
    end.
Proof.
  revert i wake s d. induction l as [|btn l IH]; intros i wake s d Hs Ed Hl.
  - exists (inr wake), s, d. rewrite Nat.add_0_r. by split_and!.
  - simpl in Hl. destruct (lookup_lt_is_Some_2 (data d) i) as [b Eb]; [lia|]. cbn [setup_keys].
    destruct (setup_key_run i btn s d b Ed Eb) as (r&s1&b1&E1&D1&Hok&Hno).
    rewrite (bind_Ret _ _ _ _ _ E1). destruct Hs as (d0&E0&_&Hh). rewrite Ed in E0. injection E0 as <-.
    unfold updates in D1. destruct (r =? 0) eqn:Er; bool_cases; cbn [negb].
    + destruct (Hok Er) as [Hb Hres]. edestruct (IH (S i)) as (r2&s2&d2&E2&D2&P2&K2&Hr2); [|exact D1| |].
      * eexists. split; [exact D1|]. cbn [data set_data]. split; [rewrite length_insert; lia|]. intros res.
        rewrite Hres, Hh, (take_insert_last i _ b) by done. rewrite keys_hold_app. simpl. rewrite Hb. lia.
      * cbn [data set_data]. rewrite length_insert. lia.
      * exists r2, s2, d2. split_and!; try done. destruct r2 as [[k e]|w]; [done|].
        cbn [data set_data] in Hr2. rewrite length_insert in Hr2.
        replace (i + length (btn :: l))%nat with (S i + length l)%nat by (simpl; lia). done.
    + eexists (inl (i, r)), s1, _. split_and!; [done|exact D1|done|done| |done].
      eexists. split; [exact D1|]. cbn [data set_data]. split; [rewrite length_insert; lia|]. intros res.
      rewrite (Hno Er), Hh. by rewrite take_insert_ge.
Qed.

Lemma gpio_remove_key_run i s d b :
  ddata s = Some d -> data d !! i = Some b ->
  exists s' b', gpio_remove_key i s = Ret tt s' /\ updates i d b' s' /\
    forall res, held res (keys_trace s') = held res (keys_trace s) - key_holds res (button b) (irq_no b).
Proof.
  intros Ed Eb. unfold gpio_remove_key, updates, key_holds. rewrite (bind_get_data d i b) by done. qrun.
  erewrite bind_put_data by done.
  replace (button (if negb (timer_debounce b =? 0) then set_timer false b else b)) with (button b)
    by by destruct (negb _).
  destruct (gpio_is_valid (gpio (button b))); do 2 eexists; (split; [done|]); (split; [done|]);
    intros res; simpl; rewrite ?held_snoc, ?weight_gpio, ?weight_irq; lia.
Qed.

(** Removing the buttons set up so far gives back what they held. *)
Lemma remove_down_run base i s d :
  set_up base i s -> ddata s = Some d ->
  exists s' d', remove_down i s = Ret tt s' /\ ddata s' = Some d' /\ pdata d' = pdata d /\
    forall res, held res (keys_trace s') = base res.
Proof.
  revert s d. induction i as [|i IH]; intros s d (d0&E0&Hl&Hh) Ed; rewrite Ed in E0; injection E0 as <-.
  - exists s, d. split_and!; try done. intros res. rewrite Hh. simpl. lia.
  - destruct (lookup_lt_is_Some_2 (data d) i) as [b Eb]; [lia|]. cbn [remove_down].
    destruct (gpio_remove_key_run i s d b Ed Eb) as (s1&b1&E1&D1&H1). rewrite (bind_Ret _ _ _ _ _ E1).
    unfold updates in D1.
    edestruct (IH s1) as (s2&d2&E2&D2&P2&H2); [|exact D1|by exists s2, d2].
    eexists. split; [exact D1|]. cbn [data set_data]. split; [rewrite length_insert; lia|]. intros res.
    rewrite H1, Hh, (take_S_r _ _ b) by done. rewrite keys_hold_app, take_insert_ge by lia. simpl. lia.
Qed.

(** What the probe's own objects hold. *)
Definition own (r : resource) (ddata_ input_ pdata_ : bool) : Z :=
  match r with
  | RDdata => if ddata_ then 1 else 0
  | RInput => if input_ then 1 else 0
  | RPdata => if pdata_ then 1 else 0
  | _ => 0
  end.

Lemma probe_fail1_run base gd gi e s :
  (forall res, held res (keys_trace s) = base res + own res gd gi (negb have_platdata)) ->
  exists s', probe_fail1 gd gi e s = Ret e s' /\ forall res, held res (keys_trace s') = base res.
Proof.
  intros Hh. unfold probe_fail1.
  destruct gi, gd, have_platdata; qrun; eexists; (split; [done|]); intros res; simpl;
    rewrite ?held_snoc, Hh; destruct res; simpl; lia.
Qed.

Lemma probe_fail2_run base i e s :
  set_up (fun r => base r + own r true true (negb have_platdata)) i s ->
  exists s', probe_fail2 i e s = Ret e s' /\ forall res, held res (keys_trace s') = base res.
Proof.
  intros Hs. unfold probe_fail2. destruct (Hs) as (d&Ed&_).
  destruct (remove_down_run _ i s d Hs Ed) as (s1&d1&E1&D1&_&H1). rewrite (bind_Ret _ _ _ _ _ E1). qrun.
  by apply probe_fail1_run.
Qed.

Lemma set_up_frame base i s s' :
  set_up base i s -> ddata s' = ddata s -> (forall res, held res (keys_trace s') = held res (keys_trace s)) ->
  set_up base i s'.
Proof. intros (d&Ed&Hl&Hh) Hd Ht. exists d. split_and!; [congruence|done|]. intros res. by rewrite Ht. Qed.

Lemma probe_err_pinctrl_run base i e s :
  set_up (fun r => base r + own r true true (negb have_platdata)) i s ->
  exists s', probe_err_pinctrl i e s = Ret e s' /\ forall res, held res (keys_trace s') = base res.
Proof.
  intros Hs. unfold probe_err_pinctrl. destruct (Hs) as (d&Ed&_). rewrite (bind_get_ddata d) by done.
  destruct (key_pinctrl d); [|qrun; by apply probe_fail2_run]. qrun.
  destruct (IS_ERR _); qrun; apply probe_fail2_run; (eapply set_up_frame; [exact Hs|done|]);
    intros res; simpl; rewrite ?held_snoc; destruct res; simpl; lia.
Qed.

Lemma pinctrl_configure_run active s :
  exists r s', fleety_keys_pinctrl_configure active s = Ret r s' /\ ddata s' = ddata s /\
    forall res, held res (keys_trace s') = held res (keys_trace s).
Proof.
  unfold fleety_keys_pinctrl_configure. qrun. destruct (IS_ERR _); [by do 2 eexists|]. qrun.
  destruct (negb _); do 2 eexists; (split; [done|]); (split; [done|]); intros res; simpl;
    rewrite held_snoc; destruct res; simpl; lia.
Qed.

Lemma child_error_nonzero c e : child_error c = Some e -> e <> 0.
Proof.
  unfold child_error. destruct (kc_gpio c <? 0) eqn:E; bool_cases; [intros [= <-]; lia|].
  destruct (kc_code c); [done|]. by intros [= <-].
Qed.

Lemma devtree_run s :
  exists r s', fleety_keys_get_devtree_pdata s = Ret r s' /\ ddata s' = ddata s /\
    match r with
    | inl e => e <> 0 /\ forall res, held res (keys_trace s') = held res (keys_trace s)
    | inr _ => forall res, held res (keys_trace s') = held res (keys_trace s) + own res false false true
    end.
Proof.
  unfold fleety_keys_get_devtree_pdata. destruct of_node as [[children ar]|]; [|by do 2 eexists].
  destruct (_ =? 0)%nat; [by do 2 eexists|]. qrun. destruct (keys_alloc _); cbn [negb]; [|by do 2 eexists].
  qrun. rewrite read_children_spec. destruct (head _) as [e|] eqn:Eh; cbn [app]; qrun.
  - do 2 eexists. split; [done|]. split; [done|]. split.
    + apply head_Some in Eh as [l' El]. assert (e ∈ omap child_error
        (filter (fun c => kc_gpios c = true) children)) as He by (rewrite El; apply list_elem_of_here).
      apply list_elem_of_omap in He as (c&_&Hc). by eapply child_error_nonzero.
    + intros res. simpl. rewrite !held_snoc. destruct res; simpl; lia.
  - destruct (map child_button _); qrun; do 2 eexists; (split; [done|]); (split; [done|]).
    + split; [done|]. intros res. simpl. rewrite !held_snoc. destruct res; simpl; lia.
    + intros res. simpl. rewrite held_snoc. destruct res; simpl; lia.
Qed.

(** The part of the probe after its objects are allocated. *)
Lemma probe_bind_run base pd s :
  (forall res, held res (keys_trace s) = base res + own res true true (negb have_platdata)) ->
  ddata s = Some (mkDdata pd false (data_zeroed <$> buttons pd)) ->
  forall has_pinctrl, exists r s',
  (let* d := get_ddata in
   do* modify (with_ddata (Some (set_pinctrl has_pinctrl d)));
   let* error := (if has_pinctrl then fleety_keys_pinctrl_configure true else ret 0) in
   if negb (error =? 0) then probe_fail2 0 error else
   let* r := setup_keys 0 (buttons pd) 0 in
   match r with
   | inl (i, error) => probe_err_pinctrl i error
   | inr wake =>
     let* error := qask sysfs_create_group in
     if negb (error =? 0) then probe_fail2 (length (buttons pd)) error else
     do* qdo GroupTake;
     let* error := qask input_register_device in
     if negb (error =? 0) then do* qdo GroupFree; probe_err_pinctrl (length (buttons pd)) error else
     do* qdo (InitWakeup wake);
     ret 0
   end) s = Ret r s' /\
  ((r = 0 /\ exists d, ddata s' = Some d /\ forall res, held res (keys_trace s') =
      base res + own res true true (negb have_platdata) + keys_hold res (data d) +
      (match res with RGroup => 1 | _ => 0 end)) \/
   (r <> 0 /\ forall res, held res (keys_trace s') = base res)).
Proof.
  intros Hh Ed hp. rewrite (bind_get_ddata _ _ _ Ed). qrun. set (s1 := with_ddata _ s).
  set (base' := fun r => base r + own r true true (negb have_platdata)).
  assert (exists r s2, (if hp then fleety_keys_pinctrl_configure true else ret 0) s1 = Ret r s2 /\
    ddata s2 = ddata s1 /\ forall res, held res (keys_trace s2) = held res (keys_trace s1)) as (r&s2&E2&D2&H2).
  { destruct hp; [apply pinctrl_configure_run|by exists 0, s1]. }
  rewrite (bind_Ret _ _ _ _ _ E2).
  assert (set_up base' 0 s2) as Hs0.
  { eexists. split; [rewrite D2; reflexivity|]. split; [lia|]. intros res. rewrite H2. simpl. rewrite Hh.
    unfold base'. lia. }
  destruct (r =? 0) eqn:Er; bool_cases; cbn [negb].
  2: { destruct (probe_fail2_run base 0 r s2 Hs0) as (s3&E3&H3). exists r, s3. split; [done|]. by right. }
  edestruct (setup_keys_run base' (buttons pd) 0 0 s2) as (r3&s3&d3&E3&D3&P3&K3&Hr3);
    [done|rewrite D2; reflexivity|simpl; by rewrite length_fmap|].
  rewrite (bind_Ret _ _ _ _ _ E3). destruct r3 as [[i e]|wake].
  { destruct Hr3 as [Hs3 He]. destruct (probe_err_pinctrl_run base i e s3 Hs3) as (s4&E4&H4).
    exists e, s4. split; [done|]. by right. }
  destruct Hr3 as [Hs3 Hl3]. simpl in Hs3, Hl3. qrun. rewrite length_fmap in Hl3.
  set (e4 := sysfs_create_group _). destruct (e4 =? 0) eqn:Ee4; bool_cases; cbn [negb].
  2: { edestruct (probe_fail2_run base) as (s5&E5&H5); [|exists e4, s5; split; [exact E5|by right]].
       by eapply set_up_frame. }
  qrun. set (e5 := input_register_device _). destruct (e5 =? 0) eqn:Ee5; bool_cases; cbn [negb]; qrun.
  2: { edestruct (probe_err_pinctrl_run base) as (s6&E6&H6); [|exists e5, s6; split; [exact E6|by right]].
       eapply set_up_frame; [exact Hs3|done|]. intros res. simpl. rewrite !held_snoc.
       destruct res; simpl; lia. }
  do 2 eexists. split; [done|]. left. split; [done|]. exists d3. split; [done|]. intros res. simpl.
  destruct Hs3 as (d3'&E3'&_&Hh3). rewrite D3 in E3'. injection E3' as <-.
  rewrite !held_snoc, Hh3, <- Hl3, firstn_all. unfold base'. destruct res; simpl; lia.
Qed.

(** Binding the keys driver keeps its resources balanced.  The probe always
    returns.  If it succeeds the driver holds its data, its input device, its
    attribute group, the platform data it read from the device tree if any, and
    for each button its interrupt and its GPIO.  If it fails, at whatever
    button or registration, everything it took is given back, exactly once;
    the one exception is a pin controller that is not there yet: then the
    driver data, the input device and the platform data stay allocated. *)
Theorem keys_probe_balanced s :
  exists r s', fleety_keys_probe s = Ret r s' /\
  ((r = 0 /\ exists d, ddata s' = Some d /\ forall res, held res (keys_trace s') =
      held res (keys_trace s) + own res true true (negb have_platdata) + keys_hold res (data d) +
      (match res with RGroup => 1 | _ => 0 end)) \/
   (r <> 0 /\ forall res, held res (keys_trace s') = held res (keys_trace s)) \/
   (r = - EPROBE_DEFER /\ (exists t, pinctrl_get t = PErr (- EPROBE_DEFER)) /\
    forall res, held res (keys_trace s') =
      held res (keys_trace s) + own res true true (negb have_platdata))).
Proof.
  unfold fleety_keys_probe.
  assert (exists r s1, (match platform_pdata with Some pd => ret (inr pd)
      | None => fleety_keys_get_devtree_pdata end) s = Ret r s1 /\
    match r with
    | inl e => e <> 0 /\ forall res, held res (keys_trace s1) = held res (keys_trace s)
    | inr _ => forall res, held res (keys_trace s1) =
        held res (keys_trace s) + own res false false (negb have_platdata)
    end) as (r&s1&E1&H1).
  { unfold have_platdata. destruct platform_pdata as [pd|].
    - exists (inr pd), s. split; [done|]. intros res. destruct res; simpl; lia.
    - destruct (devtree_run s) as (r&s1&E1&_&H1). exists r, s1. by split. }
  rewrite (bind_Ret _ _ _ _ _ E1). destruct r as [e|pd]; [exists e, s1; by auto|].
  qrun. set (gd := keys_alloc _).
  assert (forall c : prog kbd Z, (let* x := (if gd then qdo DdataTake else ret tt) in c)
    (with_below (ktick (below s1)) s1) = c (mkKbd (ktick (below s1)) (ddata s1)
      (keys_trace s1 ++ if gd then [DdataTake] else []))) as ->.
  { intros c. destruct gd; qrun; [done|]. by rewrite app_nil_r. }
  qrun. set (gi := keys_alloc _). set (s2 := mkKbd _ _ _).
  assert (forall c : prog kbd Z, (let* x := (if gi then qdo InputTake else ret tt) in c)
    (with_below (ktick (below s2)) s2) = c (mkKbd (ktick (below s2)) (ddata s2)
      (keys_trace s2 ++ if gi then [InputTake] else []))) as ->.
  { intros c. destruct gi; qrun; [done|]. by rewrite app_nil_r. }
  set (s3 := mkKbd _ _ _).
  assert (forall res, held res (keys_trace s3) =
    held res (keys_trace s) + own res gd gi (negb have_platdata)) as H3.
  { intros res. unfold s3, s2. simpl. rewrite !held_app, H1. destruct gd, gi, res; simpl; lia. }
  destruct (negb gd || negb gi) eqn:Eg.
  { destruct (probe_fail1_run (fun res => held res (keys_trace s)) gd gi (- ENOMEM) s3 H3) as (s4&E4&H4).
    exists (- ENOMEM), s4. split; [done|]. right. left. split; [done|exact H4]. }
  apply orb_false_iff in Eg as [Egd Egi]. destruct gd, gi; try done. qrun.
  set (pc := pinctrl_get _). assert (exists t, pinctrl_get t = pc) as [t Ht] by (by eexists).
  destruct (IS_ERR pc && (PTR_ERR pc =? - EPROBE_DEFER)) eqn:Epc.
  { apply andb_true_iff in Epc as [Ep1 Ep2]. bool_cases. do 2 eexists. split; [done|]. right. right.
    split; [done|]. split; [|exact H3]. exists t. rewrite Ht.
    destruct pc; simpl in *; [done|by subst|done]. }
  edestruct (probe_bind_run (fun res => held res (keys_trace s)) pd) as (r&s5&E5&H5);
    [..|exists r, s5; split; [exact E5|]]; [exact H3|done|]. tauto.
Qed.

(** Reading the device tree, on every branch.  No node or no child gives
    -ENODEV, no memory -ENOMEM; the first child with a GPIO property whose GPIO
    cannot be had, or that has no key code, gives its error; children without
    GPIOs are skipped, and if none is left the result is -EINVAL.  Otherwise
    there is one button per remaining child, in order, with EV_KEY and 5 ms
    where the tree does not say otherwise.  None of them can be disabled: the
    property that would allow it is not read. *)
Theorem devtree_buttons s :
  exists r s', fleety_keys_get_devtree_pdata s = Ret r s' /\
  match of_node with
  | None | Some ([], _) => r = inl (- ENODEV)
  | Some (children, ar) =>
    let good := filter (fun c => kc_gpios c = true) children in
    if negb (keys_alloc (k_time (below s))) then r = inl (- ENOMEM) else
    match head (omap child_error good), good with
    | Some e, _ => r = inl e
    | None, [] => r = inl (- EINVAL)
    | None, _ => r = inr (mkPdata (map child_button good) ar false false) /\
                 Forall (fun btn => can_disable btn = false) (map child_button good)
    end
  end.
Proof.
  unfold fleety_keys_get_devtree_pdata. destruct of_node as [[children ar]|]; [|by do 2 eexists].
  destruct children as [|c children]; [by do 2 eexists|]. cbn [length Nat.eqb]. set (cs := c :: children).
  qrun. destruct (keys_alloc _); cbn [negb]; [|by do 2 eexists]. qrun. rewrite read_children_spec.
  cbv zeta. destruct (head _) as [e|]; [by do 2 eexists|]. cbn [app].
  destruct (filter _ cs) as [|g gs] eqn:Eg; [by do 2 eexists|]. cbn [map]. do 2 eexists. split; [done|].
  split; [done|]. change (child_button g :: map child_button gs) with (map child_button (g :: gs)).
  apply Forall_map, Forall_forall. done.
Qed.
End Balance.

(** ** The theorems at concrete states *)

Module KeysDemo.
Import KDemo SpiderDemo.
#[local] Existing Instance demo_kernel.

(** Bitmaps of one bit. *)
Definition parse_bit (b : list Z) (n : Z) : Z + Z :=
  match parse_decimal b with
  | Some v => if v <? n then inr (2 ^ v) else inl (- EINVAL)
  | None => inl (- EINVAL)
  end.

Lemma parse_bit_error b n e : parse_bit b n = inl e -> e < 0.
Proof.
  unfold parse_bit, EINVAL. destruct (parse_decimal b); [destruct (_ <? n)|]; intros E; simplify_eq; lia.
Qed.

Lemma parse_bit_range b n m : parse_bit b n = inr m -> 0 <= m < 2 ^ n.
Proof.
  unfold parse_bit. destruct (parse_decimal b) as [v|] eqn:Ep; [|done]. destruct (v <? n) eqn:Ev; [|done].
  apply parse_decimal_range in Ep. bool_cases. intros [= <-].
  split; [apply Z.pow_nonneg; lia|apply Z.pow_lt_mono_r; lia].
Qed.

#[local, refine] Instance demo_keys : KeysKernel := {
  KEY_CNT := 768; SW_CNT := 16; keys_alloc t := true;
  gpio_get_value t g := 0; gpio_request_one t g := 0; gpio_set_debounce t g us := -1;
  gpio_to_irq t g := g + 100; request_any_context_irq t n := 0;
  bitmap_parselist := parse_bit; bitmap_scnlistprintf m n := decimal (Z.log2 m);
  pinctrl_get t := PObj; pinctrl_lookup_state t active := PObj; pinctrl_select_state t := 0;
  sysfs_create_group t := 0; input_register_device t := 0; platform_enable t := 0;
  device_may_wakeup t := true; input_users t := true; platform_pdata := None;
  of_node := Some ([mkKeyChild true 27 1 (Some 59) None (Some 1) true (Some 15)], false)
}.
Proof.
  - lia.
  - apply parse_bit_error.
  - apply parse_bit_range.
Defined.

(** A GPIO button and an interrupt button. *)
Definition gpio_button : fleety_keys_button := mkButton 59 27 1 None EV_KEY 1 15 true 0 0.
Definition irq_button : fleety_keys_button := mkButton 61 (-1) 0 None EV_KEY 0 20 false 0 7.
Definition demo_ddata : fleety_keys_drvdata :=
  mkDdata (mkPdata [gpio_button; irq_button] false false false) false
    [mkData gpio_button 15 127 false false false false; mkData irq_button 20 7 false false false false].
Definition demo_kbd : kbd := mkKbd bound_world (Some demo_ddata) [].

Lemma gpio_key_report_witness :
  spider_values spider_bound /\
  exists s' m, fleety_keys_gpio_report_event 0 demo_kbd = Ret tt s' /\
    keys_trace s' = [InputEvent EV_KEY 59 1; InputSync] /\
    spider (below s') = Some (set_gpi_map m spider_bound) /\ Z.testbit m 0 = true.
Proof.
  split; [exact bound_values|].
  destruct (gpio_key_report 0 (mkData gpio_button 15 127 false false false false) demo_ddata demo_kbd
    spider_bound) as (s'&m&E&_&Ht&Hs&Hm); [reflexivity|reflexivity|discriminate|right; reflexivity|
    reflexivity|reflexivity|exact bound_values|vm_compute; split; congruence|].
  exists s', m. split; [exact E|]. split; [exact Ht|]. split; [exact Hs|]. by rewrite Hm by lia.
Defined.

Lemma irq_key_alternates_witness :
  exists s' d' b' l, irq_button_run 1 [Interrupt; Interrupt; TimerExpires; Interrupt] demo_kbd = Ret tt s' /\
    ddata s' = Some d' /\ data d' !! 1%nat = Some b' /\ key_values 61 (keys_trace s') = l /\
    alternating true l /\ key_pressed b' = negb (Nat.even (length l)).
Proof.
  destruct (irq_key_alternates 1 [Interrupt; Interrupt; TimerExpires; Interrupt] demo_kbd demo_ddata
    (mkData irq_button 20 7 false false false false) eq_refl eq_refl eq_refl)
    as (s'&d'&b'&l&E&Ed&Eb&Hk&Ha&Hp&_).
  exists s', d', b', l. split; [exact E|]. split; [exact Ed|]. split; [exact Eb|]. split; [exact Hk|].
  split; [exact Ha|exact Hp].
Defined.

Lemma disable_bitmap_witness :
  exists s' l, attr_store_fn EV_KEY (str "59") 2 demo_kbd = Ret 2 s' /\
    ddata s' = Some (set_data l demo_ddata) /\ keys_trace s' = [DisableIrq 127].
Proof.
  destruct (disable_bitmap EV_KEY KEY_CNT (str "59") 2 demo_kbd demo_ddata) as (s'&l&m&E&Ed&_&Ht&_);
    [by left|reflexivity|reflexivity| |reflexivity|].
  { unfold codes_ok. cbn. repeat (apply Forall_cons; split; [intros _; vm_compute; split; congruence|]).
    by apply Forall_nil. }
  exists s', l. split; [exact E|]. split; [exact Ed|exact Ht].
Defined.
End KeysDemo.
