(* ===== verification/Hal.v ===== *)
(** * The spider hardware module

    [hardware/qcom/spider/spider.c], the Android hardware module over the
    attribute files of the spider and leds drivers.  The module is written
    against [Files], the file operations it uses; [board_files] is that
    interface over the drivers' attribute tables, as sysfs connects them: the
    file of an attribute can be opened once its class device has its driver
    data, a write runs the attribute's store function and a read its show
    function. *)

From stdpp Require Import base list sets numbers strings.
From Stdlib Require Import ZArith Lia.
From S2P Require Import Prelude Text Kernel Spider Leds Board.
Open Scope Z_scope.

Definition SPIDER_PATH : list Z := str "/sys/class/fleety_spider_class/fleety_spider".
Definition APP_READY_NODE : list Z := str "app_ready".
Definition HEART_BEAT_NODE : list Z := str "heart_beat".
Definition TOUCH_EN_NODE : list Z := str "touch_en".
Definition GPO_MAP_NODE : list Z := str "gpo_map".
Definition GPI_MAP_NODE : list Z := str "gpi_map".
Definition GPIO_PATH : list Z := str "/sys/class/fleety_leds_class/fleety_leds".
Definition RELAY1_NODE : list Z := str "output1_relay".
Definition RELAY2_NODE : list Z := str "output2_relay".
Definition RELAY3_NODE : list Z := str "output3_relay".
Definition RELAY4_NODE : list Z := str "output4_relay".
Definition AMP_STB_NODE : list Z := str "amp_stb".
Definition AMP_MUTE_NODE : list Z := str "amp_mute".
Definition OTG_SWITCH_NODE : list Z := str "otg_switch".
Definition USB2ETH_RST_NODE : list Z := str "usb2eth_rst".
Definition USBHUB_RST_NODE : list Z := str "usbhub_rst".
Definition STM32_RST_NODE : list Z := str "stm32_rst".
Definition CAMERA_POWER_NODE : list Z := str "camera_power".
Definition TACHOGRAPH_POWER_NODE : list Z := str "tachograph_power".
Definition EX_POWER_NODE : list Z := str "ex_power".
Definition FINGER_POWER_NODE : list Z := str "finger_power".
Definition TSM_POWER_NODE : list Z := str "tsm_power".
Definition FAN_POWER_NODE : list Z := str "fan_power".
Definition LIGHT_PATH : list Z := str "/sys/class/leds/lcd-backlight".
Definition BL_NODE : list Z := str "brightness".

(** The file operations the module uses.  A descriptor is a [file]; [open]
    returns none for a negative descriptor. *)
Class Files (S : Type) := {
  file : Type;
  f_open : list Z -> prog S (option file);
  f_write : file -> list Z -> prog S Z;
  f_read : file -> Z -> prog S (list Z);     (* the bytes read; none on an error *)
  f_close : file -> prog S unit
}.

Section Module_.
Context {S : Type} {FS : Files S}.

(** [snprintf(buffer, sizeof(buffer), "%s/%s", path, node)] with a buffer of 100. *)
Definition node_path (path node : list Z) : list Z := snprintf 100 (path ++ str "/" ++ node).

Definition spider_set_common_treat (path node : list Z) (val : Z) : prog S Z :=
  let* fd := f_open (node_path path node) in
  match fd with
  | None => ret (- EFAULT)
  | Some fd =>
    let buffer := snprintf 100 (sdecimal val ++ [10]) in
    do* f_write fd buffer;
    do* f_close fd;
    ret 0
  end.

(** [read] leaves the rest of the zeroed buffer alone; without a NUL in the
    buffer [atoi] would leave it. *)
Definition spider_get_common_treat (path node : list Z) : prog S Z :=
  let* fd := f_open (node_path path node) in
  match fd with
  | None => ret (- EFAULT)
  | Some fd =>
    let* got := f_read fd 100 in
    let buffer := got ++ replicate (100 - length got) 0 in
    let* text := lift OutOfBounds (c_string buffer) in
    let val := atoi text in
    do* f_close fd;
    ret val
  end.

Definition spider_set_app_ready (val : Z) : prog S Z :=
  let* r := spider_set_common_treat SPIDER_PATH APP_READY_NODE val in
  ret r.

Definition spider_set_heart_beat (val : Z) : prog S Z :=
  let* r := spider_set_common_treat SPIDER_PATH HEART_BEAT_NODE val in
  ret r.

Definition spider_set_relay1_gpio (val : Z) : prog S Z :=
  let* r := spider_set_common_treat GPIO_PATH RELAY1_NODE val in
  ret r.

Definition spider_set_relay2_gpio (val : Z) : prog S Z :=
  let* r := spider_set_common_treat GPIO_PATH RELAY2_NODE val in
  ret r.

Definition spider_set_relay3_gpio (val : Z) : prog S Z :=
  let* r := spider_set_common_treat GPIO_PATH RELAY3_NODE val in
  ret r.

Definition spider_set_relay4_gpio (val : Z) : prog S Z :=
  let* r := spider_set_common_treat GPIO_PATH RELAY4_NODE val in
  ret r.

Definition spider_set_amp_stb_gpio (val : Z) : prog S Z :=
  do* spider_set_common_treat GPIO_PATH AMP_STB_NODE val;
  ret 0.

Definition spider_set_amp_mute_gpio (val : Z) : prog S Z :=
  do* spider_set_common_treat GPIO_PATH AMP_MUTE_NODE val;
  ret 0.

Definition spider_set_otg_switch_gpio (val : Z) : prog S Z :=
  do* spider_set_common_treat GPIO_PATH OTG_SWITCH_NODE val;
  ret 0.

Definition spider_set_usb2eth_rst_gpio (val : Z) : prog S Z :=
  do* spider_set_common_treat GPIO_PATH USB2ETH_RST_NODE val;
  ret 0.

Definition spider_set_usbhub_rst_gpio (val : Z) : prog S Z :=
  do* spider_set_common_treat GPIO_PATH USBHUB_RST_NODE val;
  ret 0.

Definition spider_set_stm32_rst_gpio (val : Z) : prog S Z :=
  do* spider_set_common_treat GPIO_PATH STM32_RST_NODE val;
  ret 0.

Definition spider_set_camera_power_gpio (val : Z) : prog S Z :=
  do* spider_set_common_treat GPIO_PATH CAMERA_POWER_NODE val;
  ret 0.

Definition spider_set_tachograph_power_gpio (val : Z) : prog S Z :=
  do* spider_set_common_treat GPIO_PATH TACHOGRAPH_POWER_NODE val;
  ret 0.

Definition spider_set_ex_power_gpio (val : Z) : prog S Z :=
  do* spider_set_common_treat GPIO_PATH EX_POWER_NODE val;
  ret 0.

Definition spider_set_finger_power_gpio (val : Z) : prog S Z :=
  do* spider_set_common_treat GPIO_PATH FINGER_POWER_NODE val;
  ret 0.

Definition spider_set_tsm_power_gpio (val : Z) : prog S Z :=
  do* spider_set_common_treat GPIO_PATH TSM_POWER_NODE val;
  ret 0.

Definition spider_set_fan_power_gpio (val : Z) : prog S Z :=
  do* spider_set_common_treat GPIO_PATH FAN_POWER_NODE val;
  ret 0.

Definition spider_set_gpio_out_map (val : Z) : prog S Z :=
  do* spider_set_common_treat SPIDER_PATH GPO_MAP_NODE val;
  ret 0.

Definition spider_get_gpio_out_map : prog S Z :=
  let* val := spider_get_common_treat SPIDER_PATH GPO_MAP_NODE in
  ret val.

Definition spider_set_gpio_in_map (val : Z) : prog S Z :=
  do* spider_set_common_treat SPIDER_PATH GPI_MAP_NODE val;
  ret 0.

Definition spider_get_gpio_in_map : prog S Z :=
  let* val := spider_get_common_treat SPIDER_PATH GPI_MAP_NODE in
  ret val.

Definition spider_set_backlight (val : Z) : prog S Z :=
  do* spider_set_common_treat LIGHT_PATH BL_NODE val;
  do* spider_set_common_treat SPIDER_PATH TOUCH_EN_NODE (if val =? 0 then 0 else 1);
  ret 0.

(** [struct spider_device_t], its methods in order. *)
Inductive method := Set_ (f : Z -> prog S Z) | Get_ (f : prog S Z).
Definition spider_methods : list method :=
  [ Set_ spider_set_app_ready; Set_ spider_set_heart_beat;
    Set_ spider_set_relay1_gpio;
    Set_ spider_set_relay2_gpio;
    Set_ spider_set_relay3_gpio;
    Set_ spider_set_relay4_gpio;
    Set_ spider_set_amp_stb_gpio;
    Set_ spider_set_amp_mute_gpio;
    Set_ spider_set_otg_switch_gpio;
    Set_ spider_set_usb2eth_rst_gpio;
    Set_ spider_set_usbhub_rst_gpio;
    Set_ spider_set_stm32_rst_gpio;
    Set_ spider_set_camera_power_gpio;
    Set_ spider_set_tachograph_power_gpio;
    Set_ spider_set_ex_power_gpio;
    Set_ spider_set_finger_power_gpio;
    Set_ spider_set_tsm_power_gpio;
    Set_ spider_set_fan_power_gpio;
    Set_ spider_set_gpio_out_map; Get_ spider_get_gpio_out_map;
    Set_ spider_set_gpio_in_map; Get_ spider_get_gpio_in_map; Set_ spider_set_backlight ].

(** The result and the device; [malloc] fails when [alloc] is false. *)
Definition spider_device_open (alloc : bool) : prog S (Z * option (list method)) :=
  if negb alloc then ret (- EFAULT, None) else ret (0, Some spider_methods).

(** [free] of the device, if there is one; the module keeps nothing else. *)
Definition spider_device_close (device : option (list method)) : prog S (Z * option (list method)) :=
  match device with Some _ => ret (0, None) | None => ret (0, None) end.

(** The setters of the output pins, in the order of the leds driver's table. *)
Definition pin_setters : list (Z -> prog S Z) :=
  [ spider_set_relay1_gpio;
    spider_set_relay2_gpio;
    spider_set_relay3_gpio;
    spider_set_relay4_gpio;
    spider_set_amp_stb_gpio;
    spider_set_amp_mute_gpio;
    spider_set_otg_switch_gpio;
    spider_set_usb2eth_rst_gpio;
    spider_set_usbhub_rst_gpio;
    spider_set_stm32_rst_gpio;
    spider_set_camera_power_gpio;
    spider_set_tachograph_power_gpio;
    spider_set_ex_power_gpio;
    spider_set_finger_power_gpio;
    spider_set_tsm_power_gpio;
    spider_set_fan_power_gpio ].
End Module_.

(** ** The attribute files *)

Section BoardFiles.
Context `{Kernel}.

Inductive board_file := SpiderFile (a : device_attribute) | LedsFile (a : device_attribute)
  | OtherFile (path : list Z).

Definition find_attr (dir path : list Z) (l : list device_attribute) : option device_attribute :=
  find (fun a => bool_decide (path = dir ++ str "/" ++ attr_name a)) l.

Definition board_open (path : list Z) : prog kworld (option board_file) :=
  let* sp := kgets spider_dev_drvdata in
  let* le := kgets leds_dev_drvdata in
  match find_attr SPIDER_PATH path fleety_spider_device_attributes,
        find_attr GPIO_PATH path fleety_leds_device_attributes with
  | Some a, _ => ret (if sp then Some (SpiderFile a) else None)
  | None, Some a => ret (if le then Some (LedsFile a) else None)
  | None, None => ret (if bool_decide (path = LIGHT_PATH ++ str "/" ++ BL_NODE)
                       then Some (OtherFile path) else None)
  end.

Definition board_write (f : board_file) (b : list Z) : prog kworld Z :=
  match f with
  | SpiderFile a => let* dev := kgets spider_dev_drvdata in attr_store a dev b (zlen b)
  | LedsFile a => let* dev := kgets leds_dev_drvdata in attr_store a dev b (zlen b)
  | OtherFile p => do* keffect_do (FileWrite p b); ret (zlen b)
  end.

Definition board_read (f : board_file) (n : Z) : prog kworld (list Z) :=
  match f with
  | SpiderFile a =>
      let* dev := kgets spider_dev_drvdata in
      let* r := attr_show a dev in ret (take (Z.to_nat n) (snd r))
  | LedsFile a =>
      let* dev := kgets leds_dev_drvdata in
      let* r := attr_show a dev in ret (take (Z.to_nat n) (snd r))
  | OtherFile p => ret []
  end.

#[export] Instance board_files : Files kworld := {
  file := board_file;
  f_open := board_open;
  f_write := board_write;
  f_read := board_read;
  f_close f := ret tt
}.
End BoardFiles.

(** ** What reaches the pins *)

(** [strict_strtoul] reads what [%d] and a newline write, and refuses a sign. *)
Definition reads_decimal `{Kernel} : Prop :=
  (forall n, 0 <= n < 2 ^ 31 -> strict_strtoul (sdecimal n ++ [10]) = Some n) /\
  (forall n, - 2 ^ 31 <= n < 0 -> strict_strtoul (sdecimal n ++ [10]) = None).

Section HalLemmas.
Context `{Kernel}.

Lemma find_attr_lookup dir l k a :
  NoDup (map attr_name l) -> l !! k = Some a -> find_attr dir (dir ++ str "/" ++ attr_name a) l = Some a.
Proof.
  revert k. induction l as [|b l IH]; intros k Hnd Hk; [done|]. unfold find_attr. cbn [find].
  apply NoDup_cons in Hnd as [Hni Hnd]. destruct k as [|k]; simpl in Hk.
  - injection Hk as ->. by rewrite bool_decide_true.
  - rewrite bool_decide_false; [by apply (IH k)|]. intros E. apply app_inv_head, app_inv_head in E.
    apply Hni. rewrite <- E. apply list_elem_of_fmap. exists a. split; [done|]. by eapply list_elem_of_lookup_2.
Qed.

Lemma find_attr_none dir path l :
  (forall x, path <> dir ++ x) -> find_attr dir path l = None.
Proof.
  intros Hp. induction l as [|b l IH]; [done|]. unfold find_attr. cbn [find].
  rewrite bool_decide_false by apply Hp. exact IH.
Qed.

Lemma node_path_short path node :
  (length path + length node <= 98)%nat -> node_path path node = path ++ str "/" ++ node.
Proof.
  intros Hl. unfold node_path, snprintf. apply take_ge. rewrite !length_app.
  change (length (str "/")) with 1%nat. lia.
Qed.

Lemma decimal_short n : - 2 ^ 31 <= n < 2 ^ 31 -> snprintf 100 (sdecimal n ++ [10]) = sdecimal n ++ [10].
Proof.
  intros Hn. unfold snprintf. apply take_ge. rewrite length_app. pose proof (sdecimal_length n Hn). simpl. lia.
Qed.

Lemma leds_names k a :
  fleety_leds_device_attributes !! k = Some a -> (length (attr_name a) <= 20)%nat.
Proof.
  intros Ha. assert (Forall (fun x => length x <= 20)%nat (map attr_name fleety_leds_device_attributes)) as Hf
    by (apply (bool_decide_unpack _); vm_compute; exact I).
  rewrite Forall_map, Forall_lookup in Hf. by apply (Hf k).
Qed.

Lemma board_open_leds k a w :
  fleety_leds_device_attributes !! k = Some a -> leds_dev_drvdata w = true ->
  board_open (node_path GPIO_PATH (attr_name a)) w = Ret (Some (LedsFile a)) w.
Proof.
  intros Ha Hd. rewrite node_path_short
    by (pose proof (leds_names k a Ha); change (length GPIO_PATH) with 40%nat; lia).
  unfold board_open. krun. rewrite Hd.
  rewrite (find_attr_none SPIDER_PATH) by (intros x E; vm_compute in E; discriminate).
  by rewrite (find_attr_lookup GPIO_PATH _ k) by (done || (apply (bool_decide_unpack _); vm_compute; exact I)).
Qed.

Lemma board_open_spider k a w :
  fleety_spider_device_attributes !! k = Some a -> spider_dev_drvdata w = true ->
  board_open (node_path SPIDER_PATH (attr_name a)) w = Ret (Some (SpiderFile a)) w.
Proof.
  intros Ha Hd. rewrite node_path_short.
  - unfold board_open. krun. rewrite Hd.
    by rewrite (find_attr_lookup SPIDER_PATH _ k) by (done || (apply (bool_decide_unpack _); vm_compute; exact I)).
  - destruct k as [|[|[|[|[|?]]]]]; simpl in Ha; simplify_eq; simpl; lia.
Qed.

(** A setter of an output pin writes its value to the attribute file of the same position. *)
Lemma pin_setter_attr k set :
  pin_setters !! k = Some set ->
  exists a, fleety_leds_device_attributes !! k = Some a /\
    forall val w w', spider_set_common_treat GPIO_PATH (attr_name a) val w = Ret 0 w' -> set val w = Ret 0 w'.
Proof.
  intros Hk. do 16 (destruct k as [|k]; [simpl in Hk; injection Hk as <-; eexists; split; [reflexivity|];
    intros val w w' E; cbv delta [spider_set_relay1_gpio spider_set_relay2_gpio spider_set_relay3_gpio
      spider_set_relay4_gpio spider_set_amp_stb_gpio spider_set_amp_mute_gpio spider_set_otg_switch_gpio
      spider_set_usb2eth_rst_gpio spider_set_usbhub_rst_gpio spider_set_stm32_rst_gpio
      spider_set_camera_power_gpio spider_set_tachograph_power_gpio spider_set_ex_power_gpio
      spider_set_finger_power_gpio spider_set_tsm_power_gpio spider_set_fan_power_gpio]; cbv beta;
    exact (bind_Ret _ _ _ _ _ E)|]).
  done.
Qed.

Lemma set_leds_run k a val w :
  fleety_leds_device_attributes !! k = Some a -> leds_dev_drvdata w = true -> - 2 ^ 31 <= val < 2 ^ 31 ->
  forall r w', attr_store a true (sdecimal val ++ [10]) (zlen (sdecimal val ++ [10])) w = Ret r w' ->
  spider_set_common_treat GPIO_PATH (attr_name a) val w = Ret 0 w'.
Proof.
  intros Ha Hd Hv r w' E. unfold spider_set_common_treat. cbn [f_open f_write f_close board_files].
  rewrite (bind_Ret _ _ _ _ _ (board_open_leds k a w Ha Hd)). rewrite decimal_short by done.
  unfold board_write. krun. by rewrite Hd, (bind_Ret _ _ _ _ _ E).
Qed.

(** From the hardware module to the pins.  On a bound board and without
    signals, the setter of an output called with a value that is not negative
    returns 0, and exactly the lines of that output (OTG switch and OTG id for
    the OTG setter) are driven to the value, in order, the board staying in
    order; called with a negative value it also returns 0, and nothing moves. *)
Theorem hal_drives_pins k set p ps val w :
  reads_decimal -> (forall t, k_interrupted t = false) -> board_ok w ->
  pin_setters !! k = Some set -> leds_attr_pins !! k = Some (p :: ps) -> - 2 ^ 31 <= val < 2 ^ 31 ->
  exists w', set val w = Ret 0 w' /\ board_ok w' /\
    k_trace w' = k_trace w ++
      (if val <? 0 then [] else map (fun i => GpioSet (gpio_at i) val) (p :: ps)).
Proof.
  intros [Hr Hn] Hq [Hs Hl] Hset Hp Hv. destruct (pin_setter_attr k set Hset) as (a&Ha&Hto).
  destruct (attr_store_all k a _ Ha Hp) as (Hst&_&Hf&Hnd&_).
  assert (leds_dev_drvdata w = true) as Hd by (by destruct Hl as (d&_&?&_)).
  destruct (val <? 0) eqn:Ev; bool_cases.
  - exists w. split; [|by rewrite app_nil_r]. apply Hto. eapply (set_leds_run k); [done..|]. rewrite Hst.
    clear Hset Hp Hst Hnd Ha. induction Hf as [|i pins Hi _ IH]; [done|]. cbn [store_all foldr].
    destruct (leds_ok_entry w i Hl Hi) as (d1&e&E1&Es&_&He&_).
    rewrite (bind_Ret _ _ _ (- EPERM) w); [exact IH|].
    by rewrite (fleety_leds_gpio_store_treat_run _ i w d1 e), Hn by (done || lia).
  - destruct (store_all_run false (p :: ps) (sdecimal val ++ [10]) (zlen (sdecimal val ++ [10])) val w)
      as (w'&d&d'&Ew&Hl'&F&_&_&Ht&_); [done|apply Hr; lia|done..|].
    exists w'. split; [|split; [split; [by eapply spider_ok_frame|done]|]].
    + apply Hto. eapply (set_leds_run k); [done..|]. rewrite Hst. exact Ew.
    + rewrite Ht. by rewrite s32_id by lia.
Qed.

Lemma sdecimal_no_nul n : - 2 ^ 31 <= n < 2 ^ 31 -> Forall (fun c => c <> 0) (sdecimal n ++ [10]).
Proof.
  intros Hn. apply Forall_app. split; [|by repeat constructor]. unfold sdecimal.
  assert (forall m, 0 <= m < 10 ^ 10 -> Forall (fun c => c <> 0) (decimal m)) as Hd.
  { intros m Hm. eapply Forall_impl; [by apply decimal_digits|]. simpl. lia. }
  destruct (n <? 0) eqn:E; bool_cases; [constructor; [done|]|]; apply Hd; lia.
Qed.

(** The text [read] returns for a 32-bit value, as [spider_get_common_treat] takes it. *)
Lemma read_value v : - 2 ^ 31 <= v < 2 ^ 31 ->
  let got := take (Z.to_nat 100) (sdecimal v ++ [10]) in
  exists text, c_string (got ++ replicate (100 - length got) 0) = Some text /\ atoi text = v.
Proof.
  intros Hv got. pose proof (sdecimal_length v Hv) as Hl.
  assert (got = sdecimal v ++ [10]) as -> by (apply take_ge; rewrite length_app; simpl; lia).
  exists (sdecimal v ++ [10]). split; [|apply atoi_sdecimal; lia].
  destruct (100 - length (sdecimal v ++ [10%Z]))%nat as [|m] eqn:Em;
    [rewrite length_app in Em; simpl in Em; lia|].
  cbn [replicate]. by apply c_string_app, sdecimal_no_nul.
Qed.

(** Reading an attribute of the spider driver through the module. *)
Lemma get_spider_run k a g f w d :
  fleety_spider_device_attributes !! k = Some a -> spider_fields !! k = Some (g, f) ->
  spider_dev_drvdata w = true -> spider w = Some d -> sem d = 1 -> k_interrupted (k_time w) = false ->
  spider_get_common_treat SPIDER_PATH (attr_name a) w = Ret (s32 (g d)) (ktick w).
Proof.
  intros Ha Hf Hd E Es Hq. unfold spider_get_common_treat. cbn [f_open f_read f_close board_files].
  rewrite (bind_Ret _ _ _ _ _ (board_open_spider k a w Ha Hd)). unfold board_read. krun. rewrite Hd.
  erewrite bind_Ret; [|by rewrite (attr_show_run k a g f w d), Hq by done]. krun. cbn [snd].
  destruct (read_value (s32 (g d)) (s32_range _)) as (text&Ec&Et). unfold sprintf_d. rewrite Ec. krun.
  cbn [f_close board_files]. by rewrite Et.
Qed.

(** Writing one, with a value the driver accepts. *)
Lemma set_spider_run k a g f val w d :
  fleety_spider_device_attributes !! k = Some a -> spider_fields !! k = Some (g, f) ->
  reads_decimal -> board_ok w -> spider w = Some d -> 0 <= val < 2 ^ 31 ->
  k_interrupted (k_time w) = false ->
  exists w', spider_set_common_treat SPIDER_PATH (attr_name a) val w = Ret 0 w' /\ board_ok w' /\
    spider w' = Some (f val d).
Proof.
  intros Ha Hf [Hr _] Hw E Hv Hq. destruct (Hw) as [(d0&E0&Hd&_&Hval) Hl]. rewrite E in E0; injection E0 as <-.
  destruct (attr_store_run k a g f (sdecimal val ++ [10]) (zlen (sdecimal val ++ [10])) val w d)
    as (w'&Ew&(F1&F2&F3&_)&Hl'); try done; [apply Hval|by apply Hr|].
  exists w'. split; [|split; [|done]].
  - unfold spider_set_common_treat. cbn [f_open f_write f_close board_files].
    rewrite (bind_Ret _ _ _ _ _ (board_open_spider k a w Ha Hd)). rewrite decimal_short by lia.
    unfold board_write. krun. by rewrite Hd, (bind_Ret _ _ _ _ _ Ew).
  - apply (board_ok_spider w w' (f val d)); try done. eapply field_values; [done| |done]. lia.
Qed.

(** C36: The pin maps through the hardware module.  On a bound board and without
    signals, each getter returns the driver's map as an [int] and changes
    nothing; after a setter was called with a value that is not negative, which
    returns 0, the getter of the same map returns that value and the other map
    is unchanged.  The attribute files can be opened (permissions are not
    modelled), and a number is read as the kernel printed it
    ([reads_decimal]). *)
Theorem hal_maps_roundtrip val w d :
  reads_decimal -> (forall t, k_interrupted t = false) -> board_ok w -> spider w = Some d ->
  0 <= val < 2 ^ 31 ->
  spider_get_gpio_out_map w = Ret (s32 (gpo_map d)) (ktick w) /\
  spider_get_gpio_in_map w = Ret (s32 (gpi_map d)) (ktick w) /\
  (exists w', spider_set_gpio_out_map val w = Ret 0 w' /\ board_ok w' /\
     spider_get_gpio_out_map w' = Ret val (ktick w') /\
     spider_get_gpio_in_map w' = Ret (s32 (gpi_map d)) (ktick w')) /\
  (exists w', spider_set_gpio_in_map val w = Ret 0 w' /\ board_ok w' /\
     spider_get_gpio_in_map w' = Ret val (ktick w') /\
     spider_get_gpio_out_map w' = Ret (s32 (gpo_map d)) (ktick w')).
Proof.
  intros Hr Hq Hw E Hv.
  assert (forall w d, board_ok w -> spider w = Some d ->
    spider_get_gpio_out_map w = Ret (s32 (gpo_map d)) (ktick w) /\
    spider_get_gpio_in_map w = Ret (s32 (gpi_map d)) (ktick w)) as Hget.
  { clear w d Hw E. intros w d [(d0&E0&Hd&_&Hval) _] E. rewrite E in E0; injection E0 as <-.
    split; apply (bind_Ret _ ret).
    - exact (get_spider_run 3 _ gpo_map set_gpo_map w d eq_refl eq_refl Hd E (proj1 Hval) (Hq _)).
    - exact (get_spider_run 4 _ gpi_map set_gpi_map w d eq_refl eq_refl Hd E (proj1 Hval) (Hq _)). }
  destruct (Hget w d Hw E) as [G1 G2]. split; [done|]. split; [done|]. split.
  - destruct (set_spider_run 3 _ gpo_map set_gpo_map val w d eq_refl eq_refl Hr Hw E Hv (Hq _))
      as (w'&Ew&Hw'&Es). exists w'. split; [by apply (bind_Ret _ (fun _ => ret 0) _ _ _ Ew)|].
    destruct (Hget w' _ Hw' Es) as [-> ->]. simpl. by rewrite s32_id by lia.
  - destruct (set_spider_run 4 _ gpi_map set_gpi_map val w d eq_refl eq_refl Hr Hw E Hv (Hq _))
      as (w'&Ew&Hw'&Es). exists w'. split; [by apply (bind_Ret _ (fun _ => ret 0) _ _ _ Ew)|].
    destruct (Hget w' _ Hw' Es) as [-> ->]. simpl. by rewrite s32_id by lia.
Qed.
End HalLemmas.

(** ** The theorems at concrete states *)

Module HalDemo.
Import KDemo BoardDemo.
#[local] Existing Instance demo_kernel.

Lemma strip_newline_snoc l : strip_newline (l ++ [10]) = l.
Proof. unfold strip_newline. rewrite reverse_snoc. apply reverse_involutive. Qed.

Lemma digits_forallb l :
  Forall (fun c => 48 <= c <= 57) l -> forallb (fun c => (48 <=? c) && (c <=? 57)) l = true.
Proof.
  induction 1 as [|c l Hc _ IH]; [done|]. cbn [forallb]. rewrite IH.
  by rewrite (proj2 (Z.leb_le 48 c)), (proj2 (Z.leb_le c 57)) by lia.
Qed.

Lemma parse_decimal_reads n : 0 <= n < 2 ^ 31 -> parse_decimal (decimal n ++ [10]) = Some n.
Proof.
  intros Hn. unfold parse_decimal. rewrite strip_newline_snoc, decimal_value by lia.
  rewrite digits_forallb by (apply decimal_digits; lia).
  destruct (dec_loop_spec 10 n []) as [_ Hl]; [simpl; lia|lia|]. cbn [length] in Hl.
  assert (exists c l, decimal n = c :: l /\ (zlen (c :: l) = 1 \/ c <> 48)) as (c&l&Ed&Hc).
  { destruct (decide (n = 0)) as [->|]; [by exists 48, []; split; [|left]|].
    destruct (dec_loop_head 10 n []) as (c&l&E&Hc); [simpl; lia|]. exists c, l.
    split; [exact E|]. right. lia. }
  fold (decimal n) in Hl. rewrite Ed in *. cbn [length head default] in *.
  rewrite (proj2 (Z.ltb_lt 0 (zlen (c :: l)))) by (unfold zlen; simpl; lia).
  rewrite (proj2 (Z.leb_le (zlen (c :: l)) 10)) by (unfold zlen; simpl; lia).
  rewrite (proj2 (Z.leb_le 0 n)), (proj2 (Z.ltb_lt n (2 ^ 32))) by lia.
  destruct Hc as [->|Hc]; [done|]. unfold id. rewrite (proj2 (Z.eqb_neq c 48)) by done.
  by rewrite orb_true_r.
Qed.

Lemma demo_reads_decimal : reads_decimal.
Proof.
  split; intros n Hn; cbn [strict_strtoul demo_kernel kernel_with]; unfold sdecimal;
    destruct (n <? 0) eqn:E; bool_cases; try lia; [by apply parse_decimal_reads|].
  unfold parse_decimal. change ((45 :: decimal (- n)) ++ [10]) with (([45] ++ decimal (- n)) ++ [10]).
  by rewrite strip_newline_snoc.
Qed.

Lemma hal_drives_pins_witness :
  reads_decimal /\
  exists w', spider_set_relay1_gpio 1 booted = Ret 0 w' /\ board_ok w' /\
    k_trace w' = k_trace booted ++ [GpioSet 1002 1].
Proof.
  split; [exact demo_reads_decimal|].
  apply (hal_drives_pins 0 spider_set_relay1_gpio OUTPUT1_RELAY_GPIO_INDEX [] 1 booted demo_reads_decimal);
    [reflexivity|exact booted_ok|reflexivity|reflexivity|lia].
Defined.

Lemma hal_maps_roundtrip_witness :
  reads_decimal /\
  exists w', spider_set_gpio_out_map 5 booted = Ret 0 w' /\ spider_get_gpio_out_map w' = Ret 5 (ktick w').
Proof.
  split; [exact demo_reads_decimal|].
  destruct (spider booted) as [d|] eqn:E; [|vm_compute in E; discriminate].
  destruct (hal_maps_roundtrip 5 booted d demo_reads_decimal (fun _ => eq_refl) booted_ok E)
    as (_&_&(w'&E1&_&E2&_)&_); [lia|].
  exists w'. split; [exact E1|exact E2].
Defined.
End HalDemo.
