(* ===== verification/SuAgent.v ===== *)
(** * The command agent

    [external/SuAgent]: a server that runs shell commands for local clients
    ([SuAgentServer.c], [passive_sock.c], [passive_tcp.c], [errexit.c]) and the
    client program ([SuAgentClient.c]).  The client joins its arguments with
    spaces and sends them; the server cuts the request at its spaces, drops the
    first two words, runs the rest with [popen] and sends back what the command
    prints; the client prints it.

    [agent] is the state of either program: open sockets, the descriptor set
    given to [select], the live heap blocks.  [Host] is what they call and do
    not define.  A heap block has its size: a store beyond it is a fault, and
    so is [free] of a string constant. *)

From stdpp Require Import base list numbers strings gmap sets.
From Stdlib Require Import ZArith Lia.
From S2P Require Import Prelude Text.
Open Scope Z_scope.

Definition CLIENT_START_ARG : nat := 0.
Definition SERVER_START_ARG : nat := 2.
Definition MAX_BUF_SIZE : Z := 1024.
Definition MAXLEN : Z := 50.
Definition BUFSIZE : Z := 4096.
Definition MAX_ARGS_SIZE : Z := 1024.
Definition SINGLE_LINE_SIZE : Z := 800.
Definition DEFAULT_PORT : Z := 60001.
Definition FD_SETSIZE : Z := 1024.
Definition sizeof_pointer : Z := 4.

(** ** State and environment *)

(** What the programs do to the outside. *)
Inductive aeffect :=
  | Run (cmd : list Z)                  (* popen(cmd, r) *)
  | Write (fd : Z) (b : list Z)         (* the bytes write() or send() took *)
  | Close (fd : Z)
  | Out (b : list Z).                   (* printf of the client *)

Record agent := mkAgent {
  a_time : nat;
  a_open : gset Z;          (* the open sockets *)
  a_heap : Z;               (* live heap blocks *)
  listen_sockfd : Z;
  maxfd : Z;
  ready_set : gset Z;
  a_trace : list aeffect
}.

(** A string the code returns as [char *]: a heap block or a constant. *)
Inductive cptr := Heap (block : list Z) | Literal (text : list Z).

Class Host := {
  h_malloc : nat -> Z -> option (list Z);
  h_malloc_len : forall t n c, h_malloc t n = Some c -> 0 <= n -> zlen c = n;
  (** The contents of the client's automatic [buf] before it is cleared. *)
  h_stack : list Z;
  (** What is found at the address of an array of a function that returned:
      C gives such an access no meaning, the compiled code reads what the
      stack holds by then. *)
  h_dead_frame : nat -> list Z -> list Z;
  (** [popen] of a command: NULL, or its output and the result of [pclose]. *)
  h_popen : nat -> list Z -> option (list Z * Z);
  h_socket : nat -> gset Z -> Z;
  h_socket_fresh : forall t open, 0 <= h_socket t open -> h_socket t open ∉ open;
  h_bind : nat -> Z -> Z;          (* of the port in the address *)
  h_listen : nat -> Z -> Z;
  h_connect : nat -> Z -> Z;
  (** The descriptors [select] leaves in its set, [None] for a failure. *)
  h_select : nat -> gset Z -> option (gset Z);
  h_select_subset : forall t s r, h_select t s = Some r -> r ⊆ s;
  h_accept : nat -> gset Z -> Z;
  h_accept_fresh : forall t open, 0 <= h_accept t open -> h_accept t open ∉ open;
  (** [read] or [recv] of at most [n] bytes, [None] for a failure. *)
  h_read : nat -> Z -> Z -> option (list Z);
  h_read_len : forall t fd n b, h_read t fd n = Some b -> 0 <= n -> zlen b <= n;
  (** How many bytes [write] or [send] takes, negative for a failure. *)
  h_write : nat -> Z -> list Z -> Z;
  h_write_len : forall t fd b, h_write t fd b <= zlen b
}.

Definition a_tick (s : agent) : agent :=
  mkAgent (S (a_time s)) (a_open s) (a_heap s) (listen_sockfd s) (maxfd s) (ready_set s) (a_trace s).
Definition a_emit (e : aeffect) (s : agent) : agent :=
  mkAgent (a_time s) (a_open s) (a_heap s) (listen_sockfd s) (maxfd s) (ready_set s) (a_trace s ++ [e]).
Definition set_open (o : gset Z) (s : agent) : agent :=
  mkAgent (a_time s) o (a_heap s) (listen_sockfd s) (maxfd s) (ready_set s) (a_trace s).
Definition add_heap (n : Z) (s : agent) : agent :=
  mkAgent (a_time s) (a_open s) (a_heap s + n) (listen_sockfd s) (maxfd s) (ready_set s) (a_trace s).
Definition set_listen (fd : Z) (s : agent) : agent :=
  mkAgent (a_time s) (a_open s) (a_heap s) fd (maxfd s) (ready_set s) (a_trace s).
Definition set_maxfd (fd : Z) (s : agent) : agent :=
  mkAgent (a_time s) (a_open s) (a_heap s) (listen_sockfd s) fd (ready_set s) (a_trace s).
Definition set_ready (r : gset Z) (s : agent) : agent :=
  mkAgent (a_time s) (a_open s) (a_heap s) (listen_sockfd s) (maxfd s) r (a_trace s).

Section Agent.
Context `{Host}.

Definition a_ask {A} (f : nat -> A) : prog agent A := fun s => Ret (f (a_time s)) (a_tick s).
Definition a_gets {A} (f : agent -> A) : prog agent A := fun s => Ret (f s) s.
Definition a_do (e : aeffect) : prog agent unit := modify (a_emit e).

Definition a_malloc (n : Z) : prog agent (option (list Z)) :=
  let* p := a_ask (fun t => h_malloc t n) in
  match p with Some c => do* modify (add_heap 1); ret (Some c) | None => ret None end.

Definition a_free (p : cptr) : prog agent unit :=
  match p with Heap _ => modify (add_heap (-1)) | Literal _ => fault_with BadFree end.

(** [errexit], without its message. *)
Definition errexit {A} : prog agent A := exit 1.

(** The system calls on descriptors. *)
Definition a_write (fd : Z) (b : list Z) : prog agent Z :=
  let* n := a_ask (fun t => h_write t fd b) in
  do* if n <? 0 then ret tt else a_do (Write fd (take (Z.to_nat n) b));
  ret n.

Definition a_close (fd : Z) : prog agent unit :=
  do* modify (fun s => set_open (a_open s ∖ {[fd]}) s); a_do (Close fd).

(** [FD_SET] stores a bit at its index, whatever the index. *)
Definition FD_SET (fd : Z) : prog agent unit :=
  if (0 <=? fd) && (fd <? FD_SETSIZE) then modify (fun s => set_ready (ready_set s ∪ {[fd]}) s)
  else fault_with OutOfBounds.
Definition FD_CLR (fd : Z) : prog agent unit :=
  modify (fun s => set_ready (ready_set s ∖ {[fd]}) s).

(** ** [combineArg], in the client from argument 0, in the server from 2 *)

(** [strcat(args, s)] on an array. *)
Definition strcat (args s : list Z) : option (list Z) := strncat args s (zlen s).

Fixpoint combine_loop (args : list Z) (argv : list (list Z)) : option (list Z) :=
  match argv with
  | [] => Some args
  | a :: argv' =>
      args1 ← strcat args a; args2 ← strcat args1 [32]; combine_loop args2 argv'
  end.

(** The array [args] when the function returns; the value returned is its
    address, which [h_dead_frame] reads. *)
Definition combineArg (start : nat) (argv : list (list Z)) : prog agent (list Z) :=
  lift OutOfBounds (combine_loop (replicate (Z.to_nat MAX_ARGS_SIZE) 0) (drop start argv)).

(** The C string at the returned address. *)
Definition dead_string (args : list Z) : prog agent (list Z) :=
  let* found := a_ask (fun t => h_dead_frame t args) in
  lift OutOfBounds (c_string found).

(** [combineString]: a new block with both strings. *)
Fixpoint copy_loop (ptr : list Z) (l : Z) (a : list Z) : option (list Z) :=
  match a with [] => Some ptr | c :: a' => p ← store8 ptr l c; copy_loop p (l + 1) a' end.

Definition combineString (a b : list Z) : prog agent cptr :=
  let* m := a_malloc (s32 (zlen a + zlen b + 1)) in
  let* p0 := lift NullDeref m in
  let* p1 := lift OutOfBounds (copy_loop p0 0 a) in
  let* p2 := lift OutOfBounds (copy_loop p1 (zlen a) b) in
  let* p3 := lift OutOfBounds (store8 p2 (zlen a + zlen b) 0) in
  ret (Heap p3).

(** ** [runAndGetOutPut] *)

(** [out = malloc(bufSize); memset(out, 0, bufSize)]. *)
Definition new_out (bufSize : Z) : prog agent (list Z) :=
  let* m := a_malloc bufSize in
  do* lift NullDeref m;
  ret (replicate (Z.to_nat bufSize) 0).

(** [strcpy(out, tmp)] *)
Definition strcpy (out tmp : list Z) : option (list Z) :=
  t ← c_string tmp;
  if zlen t + 1 <=? zlen out then Some (splice out 0 (t ++ [0])) else None.

(** The [while (fgets(...))] loop, [fp] what the command has still to print. *)
Fixpoint output_loop (fuel : nat) (fp out : list Z) (curSize bufSize : Z) : prog agent (list Z) :=
  match fuel with
  | O => fault_with NoFuel
  | S fuel' =>
      match fp with
      | [] => ret out
      | _ =>
          let '(buf, fp') := fgets (Z.to_nat (SINGLE_LINE_SIZE - 2)) fp in
          let curSize := s32 (curSize + zlen (strz buf)) in
          if bufSize <=? curSize then
            let bufSize := s32 (bufSize + MAX_ARGS_SIZE) in
            let* out1 := new_out bufSize in
            let* out2 := lift OutOfBounds (strcpy out1 out) in
            do* a_free (Heap out);
            let* out3 := lift OutOfBounds (strncat out2 buf (zlen (strz buf))) in
            output_loop fuel' fp' out3 curSize bufSize
          else
            let* out1 := lift OutOfBounds (strncat out buf (zlen (strz buf))) in
            output_loop fuel' fp' out1 curSize bufSize
      end
  end.

Definition runAndGetOutPut (argv : list (list Z)) : prog agent cptr :=
  let* out := new_out MAX_ARGS_SIZE in
  let* args := combineArg SERVER_START_ARG argv in
  let* cmd := dead_string args in
  let* fp := a_ask (fun t => h_popen t cmd) in
  do* a_do (Run cmd);
  match fp with
  | None => ret (Literal (str "popen failed!"))
  | Some (output, closed) =>
      let* out' := output_loop (S (length output)) output out 0 MAX_ARGS_SIZE in
      if closed =? -1 then ret (Literal (str "pclose failed!"))
      else do* lift OutOfBounds (c_string out'); ret (Heap out')
  end.
(** ** The server *)

(** The [strtok] loop: [paras] has room for 256 pointers and is not bounded. *)
Fixpoint split_loop (fuel : nat) (text : list Z) (paras : list (list Z)) : prog agent (list (list Z)) :=
  match fuel with
  | O => fault_with NoFuel
  | S fuel' =>
      match strtok 32 text with
      | None => ret paras
      | Some (token, rest) =>
          if zlen paras <? 1024 / sizeof_pointer
          then split_loop fuel' rest (paras ++ [token])
          else fault_with OutOfBounds
      end
  end.

Definition execute_and_response_client (fd : Z) : prog agent Z :=
  let* r := a_ask (fun t => h_read t fd BUFSIZE) in
  match r with
  | None => errexit
  | Some data =>
      let cc := zlen data in
      if cc =? 0 then ret cc
      else
        let buf := data ++ replicate (Z.to_nat (BUFSIZE - cc)) 0 in
        let* text := lift OutOfBounds (c_string buf) in
        let* m := a_malloc 1024 in
        do* match m, strtok 32 text with
            | None, Some _ => fault_with NullDeref
            | _, _ => ret tt
            end;
        let* paras := split_loop (S (length text)) text [] in
        let* response := runAndGetOutPut paras in
        do* match m with Some p => a_free (Heap p) | None => ret tt end;
        let* block := lift OutOfBounds
          (match response with Heap b => c_string b | Literal s => Some s end) in
        let* s := get in
        do* if decide (listen_sockfd s ∈ ready_set s)
            then let* n := a_write fd block in if n <? 0 then errexit else ret tt
            else ret tt;
        do* a_free response;
        ret cc
  end.

(** [send_to_others], which nothing calls any more; [gcvt] of a descriptor
    with five significant digits. *)
Definition gcvt5 (fd : Z) : list Z := decimal fd.

Fixpoint others_loop (fds : list Z) (fd : Z) (buf : list Z) : prog agent unit :=
  match fds with
  | [] => ret tt
  | tmp_fd :: fds' =>
      let* s := get in
      do* if bool_decide (tmp_fd <> listen_sockfd s) && bool_decide (tmp_fd ∈ ready_set s) then
            let* n1 := a_write tmp_fd (str "client " ++ gcvt5 fd) in
            if n1 <? 0 then errexit else
            let* n2 := a_write tmp_fd (str " says: ") in
            if n2 <? 0 then errexit else
            let* n3 := a_write tmp_fd buf in
            if n3 <? 0 then errexit else ret tt
          else ret tt;
      others_loop fds' fd buf
  end.

Definition send_to_others (fd maxfd : Z) : prog agent Z :=
  let* r := a_ask (fun t => h_read t fd BUFSIZE) in
  match r with
  | None => errexit
  | Some data =>
      do* if zlen data =? 0 then ret tt
          else others_loop (seqZ 0 (maxfd + 1)) fd data;
      ret (zlen data)
  end.

(** [for (fd = 0; fd <= maxfd; ++fd)] over the descriptors that are ready. *)
Fixpoint serve_loop (fds : list Z) (read_set : gset Z) : prog agent unit :=
  match fds with
  | [] => ret tt
  | fd :: fds' =>
      let* listen := a_gets listen_sockfd in
      do* if bool_decide (fd <> listen) && bool_decide (fd ∈ read_set) then
            do* execute_and_response_client fd;
            do* a_close fd;
            FD_CLR fd
          else ret tt;
      serve_loop fds' read_set
  end.

(** The connection part of the loop of [main]. *)
Definition accept_client : prog agent unit :=
  let* open := a_gets a_open in
  let* client_sockfd := a_ask (fun t => h_accept t open) in
  if client_sockfd <? 0 then errexit
  else
    do* modify (fun s => set_open (a_open s ∪ {[client_sockfd]}) s);
    do* modify (fun s => if maxfd s <? client_sockfd then set_maxfd client_sockfd s else s);
    FD_SET client_sockfd.

(** One pass of the loop of [main]. *)
Definition server_pass : prog agent unit :=
  let* watched := a_gets ready_set in
  let* r := a_ask (fun t => h_select t watched) in
  match r with
  | None => errexit
  | Some read_set =>
      let* listen := a_gets listen_sockfd in
      do* if decide (listen ∈ read_set) then accept_client else ret tt;
      let* top := a_gets maxfd in
      serve_loop (seqZ 0 (top + 1)) read_set
  end.

(** [passive_sock]; [htons] puts the low 16 bits of the port in the address. *)
Definition passive_sock (port : Z) (transport : list Z) (maxlen : Z) : prog agent Z :=
  let stream := bool_decide (transport <> str "udp") in
  let* open := a_gets a_open in
  let* s := a_ask (fun t => h_socket t open) in
  if s <? 0 then errexit
  else
    do* modify (fun st => set_open (a_open st ∪ {[s]}) st);
    let* b := a_ask (fun t => h_bind t (u16 port)) in
    if b <? 0 then errexit
    else if stream
    then let* l := a_ask (fun t => h_listen t maxlen) in if l <? 0 then errexit else ret s
    else ret s.

Definition passive_tcp (port maxlen : Z) : prog agent Z := passive_sock port (str "tcp") maxlen.

(** [main] of the server up to its loop. *)
Definition server_port (argv : list (list Z)) : prog agent Z :=
  match argv with
  | [_] => ret DEFAULT_PORT
  | [_; a] => ret (strtol10 a)
  | _ => errexit
  end.

Definition server_start (argv : list (list Z)) : prog agent unit :=
  let* port := server_port argv in
  let* s := passive_tcp port MAXLEN in
  do* modify (set_listen s);
  do* modify (set_maxfd s);
  do* modify (set_ready ∅);
  FD_SET s.

(** ** The client *)

(** [while (1) { recv; printf }], [fuel] bounding the number of [recv] calls. *)
Fixpoint client_loop (fuel : nat) (sockfd : Z) : prog agent Z :=
  match fuel with
  | O => fault_with NoFuel
  | S fuel' =>
      let* r := a_ask (fun t => h_read t sockfd MAX_BUF_SIZE) in
      match r with
      | None => ret (-1)
      | Some data =>
          if zlen data =? 0 then ret 0
          else
            let buf := data ++ replicate (Z.to_nat (MAX_BUF_SIZE + 1 - zlen data)) 0 in
            let* text := lift OutOfBounds (c_string buf) in
            do* a_do (Out text);
            client_loop fuel' sockfd
      end
  end.

(** [main] of the client: the result of [connect] is not looked at, and the
    length of an empty command, minus one, is the largest [size_t]. *)
Definition client_main (fuel : nat) (argv : list (list Z)) : prog agent Z :=
  let* open := a_gets a_open in
  let* sockfd := a_ask (fun t => h_socket t open) in
  if sockfd <? 0 then exit 1
  else
    do* modify (fun st => set_open (a_open st ∪ {[sockfd]}) st);
    do* a_ask (fun t => h_connect t DEFAULT_PORT);
    let* args := combineArg CLIENT_START_ARG argv in
    let* sendCmd := dead_string args in
    let* b := lift OutOfBounds (range (sendCmd ++ [0]) 0 (u32 (zlen sendCmd - 1))) in
    let* n := a_write sockfd b in
    if n <? 0 then do* lift OutOfBounds (c_string h_stack); ret (-1)
    else client_loop fuel sockfd.
End Agent.

(** ** Lemmas: one step *)

Section Steps.
Context `{Host}.

Lemma bind_agent_ask {A B} (f : nat -> A) (k : A -> prog agent B) s :
  bind (a_ask f) k s = k (f (a_time s)) (a_tick s).
Proof. reflexivity. Qed.

Lemma bind_a_gets {A B} (f : agent -> A) (k : A -> prog agent B) s :
  bind (a_gets f) k s = k (f s) s.
Proof. reflexivity. Qed.

Lemma bind_a_do {B} e (k : unit -> prog agent B) s : bind (a_do e) k s = k tt (a_emit e s).
Proof. reflexivity. Qed.
End Steps.

Ltac arun := repeat first
  [ rewrite bind_agent_ask | rewrite bind_a_gets | rewrite bind_a_do | rewrite bind_modify
  | rewrite bind_get | rewrite bind_ret | rewrite bind_lift_Some | rewrite bind_bind ]; cbv beta.

(** [n] calls of the environment later. *)
Definition later (n : nat) (s : agent) : agent :=
  mkAgent (n + a_time s) (a_open s) (a_heap s) (listen_sockfd s) (maxfd s) (ready_set s) (a_trace s).

Lemma later_0 s : later 0 s = s.
Proof. by destruct s. Qed.

Lemma later_S n s : later (S n) s = later n (a_tick s).
Proof. unfold later, a_tick. simpl. f_equal. lia. Qed.

Lemma a_tick_later s : a_tick s = later 1 s.
Proof. done. Qed.

Lemma heap_balance s : add_heap (-1) (add_heap 1 s) = s.
Proof. destruct s. unfold add_heap. simpl. f_equal. lia. Qed.

(** ** Lemmas: building a command *)

Lemma strcat_spec cur s tl :
  nul_free cur -> nul_free s -> zlen cur + zlen s + 1 <= zlen (cur ++ 0 :: tl) ->
  strcat (cur ++ 0 :: tl) s = Some ((cur ++ s) ++ 0 :: drop (length s) tl).
Proof.
  intros Hc Hs Hl. unfold strcat.
  assert (take (Z.to_nat (zlen s)) (strz s) = s) as E
    by (rewrite strz_id by done; apply take_zlen_all).
  rewrite strncat_spec; rewrite ?E; auto. apply zlen_nonneg.
Qed.

Lemma strcat_full cur s tl :
  nul_free cur -> nul_free s -> zlen (cur ++ 0 :: tl) < zlen cur + zlen s + 1 ->
  strcat (cur ++ 0 :: tl) s = None.
Proof.
  intros Hc Hs Hl. unfold strcat, strncat. rewrite c_string_app by done. cbn [mbind option_bind].
  rewrite strz_id, take_zlen_all by done.
  destruct (_ <=? _) eqn:E; bool_cases; [lia|done].
Qed.

Lemma combine_loop_spec ws cur tl :
  nul_free cur -> Forall nul_free ws -> 
  combine_loop (cur ++ 0 :: tl) ws =
    if zlen (join 32 ws) <=? zlen tl
    then Some ((cur ++ join 32 ws) ++ 0 :: drop (length (join 32 ws)) tl) else None.
Proof.
  intros Hc Hws. revert cur tl Hc. induction Hws as [|w ws Hw _ IH]; intros cur tl Hc; cbn [combine_loop].
  { rewrite (proj2 (Z.leb_le _ _)) by apply zlen_nonneg. by rewrite app_nil_r, drop_0. }
  assert (zlen (cur ++ 0 :: tl) = zlen cur + zlen tl + 1) as EL by (rewrite zlen_app, zlen_cons; lia).
  pose proof (zlen_nonneg (join 32 ws)).
  rewrite join_cons, zlen_app, zlen_cons.
  destruct (Z.le_gt_cases (zlen w) (zlen tl)) as [H1|H1].
  - rewrite strcat_spec by (done || lia). cbn [mbind option_bind].
    set (tl1 := drop (length w) tl).
    assert (zlen tl1 = zlen tl - zlen w) as E1 by (subst tl1; unfold zlen in *; len).
    assert (zlen ((cur ++ w) ++ 0 :: tl1) = zlen cur + zlen tl + 1) as E2
      by (rewrite !zlen_app, zlen_cons; lia).
    assert (nul_free (cur ++ w)) by (by apply nul_free_app).
    destruct (Z.le_gt_cases (zlen w + 1) (zlen tl)) as [H2|H2].
    + rewrite strcat_spec; [|done|by repeat constructor|rewrite E2, zlen_app; change (zlen [32]) with 1; lia].
      cbn [mbind option_bind]. rewrite IH; [|apply nul_free_app; split; [done|by repeat constructor]].
      cbn [length]. assert (zlen (drop 1 tl1) = zlen tl - zlen w - 1) as -> by (unfold zlen in *; len).
      destruct (_ <=? _) eqn:E3, (zlen w + _ <=? _) eqn:E4; bool_cases; try lia; [|done].
      f_equal. rewrite !length_app, <- !app_assoc. cbn [app length]. do 4 f_equal.
      rewrite drop_drop. subst tl1. by rewrite drop_drop.
    + rewrite strcat_full; [|done|by repeat constructor|rewrite E2, zlen_app; change (zlen [32]) with 1; lia].
      destruct (zlen w + _ <=? _) eqn:E4; bool_cases; [lia|done].
  - rewrite strcat_full by (done || lia). destruct (zlen w + _ <=? _) eqn:E4; bool_cases; [lia|done].
Qed.

(** What [combineArg] leaves in its array: the words from [start] on, each
    followed by a space; more than 1023 characters overrun the array. *)
Lemma combineArg_exact `{Host} start argv s :
  Forall nul_free argv ->
  let text := join 32 (drop start argv) in
  combineArg start argv s =
    if zlen text <? MAX_ARGS_SIZE
    then Ret (text ++ replicate (Z.to_nat (MAX_ARGS_SIZE - zlen text)) 0) s
    else Fault OutOfBounds s.
Proof.
  intros Hws text. unfold combineArg.
  change (replicate (Z.to_nat MAX_ARGS_SIZE) 0) with ([] ++ 0 :: replicate 1023 0).
  rewrite combine_loop_spec by (constructor || by apply Forall_drop). fold text.
  change (zlen (replicate 1023 0)) with 1023. change MAX_ARGS_SIZE with 1024.
  pose proof (zlen_nonneg text).
  destruct (_ <=? _) eqn:E1, (_ <? _) eqn:E2; bool_cases; try lia; [|done].
  cbn [lift ret app]. unfold ret. do 2 f_equal. rewrite drop_replicate.
  change (0 :: replicate ?n 0) with (replicate (S n) 0). f_equal. unfold zlen in *. lia.
Qed.

(** ** Lemmas: cutting a request *)

Lemma split_loop_words `{Host} fuel text paras s :
  (length text < fuel)%nat -> zlen paras <= 256 ->
  split_loop fuel text paras s =
    if zlen paras + zlen (words 32 text) <=? 256 then Ret (paras ++ words 32 text) s
    else Fault OutOfBounds s.
Proof.
  revert text paras. induction fuel as [|fuel IH]; intros text paras Hf Hp; [lia|]. cbn [split_loop].
  pose proof (strtok_words 32 text) as HW. destruct (strtok 32 text) as [[t r]|].
  - destruct HW as (-> & _ & Hl). rewrite zlen_cons. pose proof (zlen_nonneg (words 32 r)).
    change (1024 / sizeof_pointer) with 256.
    destruct (zlen paras <? 256) eqn:E1; bool_cases.
    + rewrite IH by (lia || (rewrite zlen_app; change (zlen [t]) with 1; lia)).
      rewrite zlen_app, <- app_assoc. change (zlen [t]) with 1.
      by rewrite (Z.add_comm (zlen (words 32 r)) 1), Z.add_assoc.
    + destruct (_ <=? 256) eqn:E3; bool_cases; [lia|done].
  - rewrite HW, app_nil_r. change (zlen []) with 0. rewrite (proj2 (Z.leb_le _ _)) by lia. done.
Qed.

Lemma split_request `{Host} text s :
  split_loop (S (length text)) text [] s =
    if zlen (words 32 text) <=? 256 then Ret (words 32 text) s else Fault OutOfBounds s.
Proof. by rewrite split_loop_words by (done || lia). Qed.

(** ** Lemmas: collecting the output *)

(** What [runAndGetOutPut] collects: each line of [fgets] up to its first NUL. *)
Definition agent_text (output : list Z) : list Z :=
  fgets_text (Z.to_nat (SINGLE_LINE_SIZE - 2)) (length output) output.

Lemma agent_text_nul_free output : nul_free output -> agent_text output = output.
Proof. apply fgets_text_nul_free; [vm_compute; lia|done]. Qed.

Definition malloc_serves `{Host} (limit : Z) : Prop :=
  forall t n, 0 <= n <= limit -> h_malloc t n <> None.

Lemma new_out_eq `{Host} n s :
  new_out n s = match h_malloc (a_time s) n with
                | Some _ => Ret (replicate (Z.to_nat n) 0) (add_heap 1 (a_tick s))
                | None => Fault NullDeref (a_tick s)
                end.
Proof. unfold new_out, a_malloc. arun. destruct (h_malloc _ n); by arun. Qed.

Lemma new_out_spec `{Host} limit n s :
  malloc_serves limit -> 0 <= n <= limit ->
  new_out n s = Ret (replicate (Z.to_nat n) 0) (add_heap 1 (a_tick s)).
Proof.
  intros HM Hn. rewrite new_out_eq. specialize (HM (a_time s) n Hn). by destruct (h_malloc _ n).
Qed.

Lemma strcpy_spec n cur tl :
  nul_free cur -> zlen cur < n ->
  strcpy (replicate (Z.to_nat n) 0) (cur ++ 0 :: tl) =
    Some (cur ++ 0 :: replicate (Z.to_nat (n - zlen cur - 1)) 0).
Proof.
  intros Hc Hn. unfold strcpy. rewrite c_string_app by done. cbn [mbind option_bind].
  pose proof (zlen_nonneg cur).
  assert (zlen (replicate (Z.to_nat n) 0) = n) as -> by (unfold zlen; rewrite length_replicate; lia).
  rewrite (proj2 (Z.leb_le _ _)) by lia. f_equal. unfold splice. rewrite take_0. cbn [app].
  rewrite <- app_assoc. cbn [app]. do 2 f_equal. rewrite length_app, drop_replicate. cbn [length].
  f_equal. unfold zlen in *. lia.
Qed.

(** Some request for memory of at most [limit] bytes was refused. *)
Definition malloc_refuses `{Host} (limit : Z) : Prop := exists t n, 0 <= n <= limit /\ h_malloc t n = None.

(** The loop appends every line, growing the block when it is full; it stops
    only when there is no memory for the larger block. *)
Lemma output_loop_spec `{Host} limit fuel fp cur tl s :
  (length fp < fuel)%nat -> nul_free cur ->
  zlen tl < 1024 -> zlen cur + zlen fp + 1024 <= limit -> limit < 2 ^ 31 ->
  let c := output_loop fuel fp (cur ++ 0 :: tl) (zlen cur) (zlen (cur ++ 0 :: tl)) s in
  (exists n tl',
    c = Ret ((cur ++ fgets_text (Z.to_nat (SINGLE_LINE_SIZE - 2)) (fuel - 1) fp) ++ 0 :: tl') (later n s)) \/
  (malloc_refuses limit /\ exists s', c = Fault NullDeref s').
Proof.
  intros Hf Hc. cbv zeta. revert fp cur tl s Hf Hc. induction fuel as [|fuel IH]; intros fp cur tl s Hf Hc HT HL HN; [lia|].
  cbn [output_loop]. rewrite Nat.sub_succ, Nat.sub_0_r.
  destruct fp as [|c0 fp0].
  { left. exists O, tl. rewrite later_0. destruct fuel; cbn [fgets_text]; by rewrite app_nil_r. }
  destruct fuel as [|fuel]; [simpl in Hf; lia|]. cbn [fgets_text]. set (fp := c0 :: fp0) in *.
  destruct (fgets _ fp) as [buf fp'] eqn:E. destruct (fgets_spec _ _ _ _ E) as (Es & Hb & Hne).
  specialize (Hne ltac:(done) ltac:(vm_compute; lia)).
  assert (zlen fp = zlen buf + zlen fp') as Ef by (rewrite Es, zlen_app; lia).
  assert (1 <= zlen buf) as Hb1 by (destruct buf; [done|rewrite zlen_cons; pose proof (zlen_nonneg buf); lia]).
  assert (zlen buf <= 798) as Hb2 by (change (Z.to_nat _) with 798%nat in Hb; unfold zlen; lia).
  pose proof (strz_length buf) as Hz. pose proof (zlen_nonneg (strz buf)). pose proof (zlen_nonneg cur).
  pose proof (zlen_nonneg fp'). pose proof (zlen_nonneg tl).
  assert (zlen (cur ++ 0 :: tl) = zlen cur + zlen tl + 1) as EL by (rewrite zlen_app, zlen_cons; lia).
  assert (length fp' < S fuel)%nat as Hf' by (unfold zlen in *; lia).
  rewrite s32_id by lia.
  assert (forall tl2 : list Z, zlen (strz buf) <= zlen tl2 ->
    strncat (cur ++ 0 :: tl2) buf (zlen (strz buf)) =
      Some ((cur ++ strz buf) ++ 0 :: drop (length (strz buf)) tl2)) as Hcat.
  { intros tl2 Htl2. rewrite strncat_spec; [|done|lia|].
    - unfold zlen. rewrite Nat2Z.id. change (@take Z) with (@firstn Z). by rewrite firstn_all.
    - unfold zlen in *. rewrite Nat2Z.id, length_take, length_app. cbn [length]. lia. }
  assert (nul_free (cur ++ strz buf)) as Hc' by (apply nul_free_app; split; [done|apply strz_nul_free]).
  destruct (_ <=? _) eqn:EB; bool_cases.
  - rewrite s32_id by (change MAX_ARGS_SIZE with 1024; lia). change MAX_ARGS_SIZE with 1024.
    rewrite bind_unfold, new_out_eq. destruct (h_malloc _ _) eqn:EM.
    2:{ right. split; [|by eexists]. eexists _, _. split; [|exact EM]. lia. }
    rewrite strcpy_spec by (done || lia). arun.
    unfold a_free. arun. rewrite heap_balance. set (tl2 := replicate _ 0).
    assert (zlen tl2 = zlen tl + 1024) as E2 by (subst tl2; unfold zlen at 1; rewrite length_replicate; lia).
    rewrite Hcat by lia. arun. 
    specialize (IH fp' (cur ++ strz buf) (drop (length (strz buf)) tl2) (a_tick s) Hf' Hc').
    assert (zlen ((cur ++ strz buf) ++ 0 :: drop (length (strz buf)) tl2) = zlen (cur ++ 0 :: tl) + 1024) as E3
      by (rewrite !zlen_app, !zlen_cons, zlen_drop_length; lia).
    rewrite E3, (zlen_app cur (strz buf)) in IH.
    destruct IH as [(n & tl' & IH)|[Hm (s' & IH)]]; [rewrite zlen_drop_length; lia|lia|done| |right; rewrite IH; eauto].
    left. exists (S n), tl'. rewrite later_S, IH, Nat.sub_succ, Nat.sub_0_r. by rewrite <- !app_assoc.
  - rewrite Hcat by lia. arun.
    specialize (IH fp' (cur ++ strz buf) (drop (length (strz buf)) tl) s Hf' Hc').
    assert (zlen ((cur ++ strz buf) ++ 0 :: drop (length (strz buf)) tl) = zlen (cur ++ 0 :: tl)) as E3
      by (rewrite !zlen_app, !zlen_cons, zlen_drop_length; lia).
    rewrite E3, (zlen_app cur (strz buf)) in IH.
    destruct IH as [(n & tl' & IH)|[Hm (s' & IH)]]; [rewrite zlen_drop_length; lia|lia|done| |right; rewrite IH; eauto].
    left. exists n, tl'. rewrite IH, Nat.sub_succ, Nat.sub_0_r. by rewrite <- !app_assoc.
Qed.

(** ** Lemmas: one request *)

(** [combineArg]'s array with [text] in it. *)
Definition args_array (text : list Z) : list Z := text ++ replicate (Z.to_nat (MAX_ARGS_SIZE - zlen text)) 0.

(** The dead array still holds what it held; some string is found in its place. *)
Definition frame_intact `{Host} : Prop := forall t b, h_dead_frame t b = b.
Definition frame_terminated `{Host} : Prop :=
  forall t text, zlen text < MAX_ARGS_SIZE -> c_string (h_dead_frame t (args_array text)) <> None.

Lemma dead_string_intact `{Host} text n s :
  frame_intact -> nul_free text -> (0 < n)%nat ->
  dead_string (text ++ replicate n 0) s = Ret text (a_tick s).
Proof.
  intros HF Ht Hn. unfold dead_string. arun. rewrite HF. destruct n; [lia|].
  by rewrite c_string_zeros.
Qed.

Definition command (paras : list (list Z)) : list Z := join 32 (drop SERVER_START_ARG paras).

Lemma agent_text_text output : nul_free (agent_text output).
Proof.
  unfold agent_text. generalize (length output). intros f. revert output.
  induction f as [|f IH]; intros output; [constructor|]. cbn [fgets_text].
  destruct output; [constructor|]. destruct (fgets _ _). apply nul_free_app. split; [apply strz_nul_free|apply IH].
Qed.

(** Running the command that is found in the dead array. *)
Lemma run_found `{Host} limit paras cmd s output closed :
  malloc_serves limit -> Forall nul_free paras -> zlen (command paras) < 1024 ->
  c_string (h_dead_frame (S (a_time s)) (args_array (command paras))) = Some cmd ->
  h_popen (S (S (a_time s))) cmd = Some (output, closed) -> closed <> -1 ->
  zlen output + 1024 <= limit -> limit < 2 ^ 31 ->
  exists n block, runAndGetOutPut paras s =
      Ret (Heap block) (later n (a_emit (Run cmd) (add_heap 1 s))) /\
    c_string block = Some (agent_text output).
Proof.
  intros HM Hp Hc HF HO Hcl HL HN. unfold runAndGetOutPut.
  pose proof (zlen_nonneg output).
  rewrite bind_unfold, (new_out_spec limit) by (done || (change MAX_ARGS_SIZE with 1024; lia)).
  rewrite bind_unfold, combineArg_exact by done. fold (command paras).
  rewrite (proj2 (Z.ltb_lt _ _)) by done. cbv beta zeta. fold (args_array (command paras)).
  unfold dead_string. arun. cbn [a_time a_tick add_heap]. rewrite HF. arun. cbn [a_time a_tick add_heap]. rewrite HO.
  change (replicate (Z.to_nat MAX_ARGS_SIZE) 0) with ([] ++ 0 :: replicate 1023 0).
  destruct (output_loop_spec limit (S (length output)) output [] (replicate 1023 0)
    (a_emit (Run cmd) (a_tick (a_tick (add_heap 1 (a_tick s)))))) as [(n & tl' & E)|[(t & m & Hm & EM) _]];
    [lia|constructor|done|change (zlen []) with 0; lia|done| |by apply HM in EM].
  change (zlen []) with 0 in E. change (zlen ([] ++ 0 :: replicate 1023 0)) with MAX_ARGS_SIZE in E.
  rewrite bind_unfold, E. rewrite Nat.sub_succ, Nat.sub_0_r. cbn [app]. fold (agent_text output).
  destruct (Z.eqb_spec closed (-1)); [done|].
  rewrite c_string_app by apply agent_text_text. arun. exists (3 + n)%nat. eexists. split; [|by apply c_string_app, agent_text_text].
  unfold ret. f_equal. unfold later, a_emit, a_tick, add_heap. simpl. f_equal. lia.
Qed.

Lemma nul_free_words d text : nul_free text -> Forall nul_free (words d text).
Proof.
  unfold words. assert (nul_free []) as H0 by constructor. revert H0. generalize (@nil Z) as cur.
  induction text as [|c text IH]; intros cur Hc Ht; cbn [words_from].
  - destruct cur; [constructor|]. by apply Forall_singleton.
  - apply Forall_cons in Ht as [H1 Ht]. destruct (c =? d).
    + apply Forall_app. split; [|apply IH; [constructor|done]].
      destruct cur; [constructor|]. by apply Forall_singleton.
    + apply IH; [|done]. apply nul_free_app. split; [done|by repeat constructor].
Qed.

(** The request in the server's buffer. *)
Lemma request_string data :
  nul_free data -> zlen data < BUFSIZE ->
  c_string (data ++ replicate (Z.to_nat (BUFSIZE - zlen data)) 0) = Some data.
Proof.
  intros Hn Hl. destruct (Z.to_nat (BUFSIZE - zlen data)) eqn:E; [change BUFSIZE with 4096 in *; lia|].
  by apply c_string_zeros.
Qed.

Definition takes_all `{Host} (fd : Z) : Prop := forall t b, h_write t fd b = zlen b.

Lemma a_write_all `{Host} {A} fd b (k : Z -> prog agent A) s :
  takes_all fd -> bind (a_write fd b) k s = k (zlen b) (a_emit (Write fd b) (a_tick s)).
Proof.
  intros HW. unfold a_write. arun. rewrite HW. pose proof (zlen_nonneg b).
  destruct (_ <? 0) eqn:E; bool_cases; [lia|]. arun.
  by rewrite !HW, take_zlen_all.
Qed.

Lemma request_settles n e1 e2 s :
  add_heap (-1) (a_emit e2 (a_tick (add_heap (-1) (later n (a_emit e1
    (add_heap 1 (add_heap 1 (a_tick (a_tick s))))))))) = later (3 + n) (a_emit e2 (a_emit e1 s)).
Proof.
  destruct s. lazy [later a_emit a_tick add_heap a_time a_open a_heap listen_sockfd maxfd ready_set a_trace].
  f_equal; lia.
Qed.

(** A write that takes something. *)
Lemma a_write_some `{Host} {A} fd b (k : Z -> prog agent A) s :
  let n := h_write (a_time s) fd b in
  0 <= n -> bind (a_write fd b) k s = k n (a_emit (Write fd (take (Z.to_nat n) b)) (a_tick s)).
Proof. intros n Hn. unfold a_write. arun. fold n. rewrite (proj2 (Z.ltb_ge n 0)) by done. by arun. Qed.

(** One request, with the command that is found in the dead array. *)
Lemma execute_found `{Host} limit fd data cmd output closed s :
  malloc_serves limit -> (forall t b, 0 <= h_write t fd b) ->
  h_read (a_time s) fd BUFSIZE = Some data -> data <> [] -> nul_free data -> zlen data < BUFSIZE ->
  zlen (words 32 data) <= 256 -> zlen (command (words 32 data)) < 1024 ->
  c_string (h_dead_frame (3 + a_time s) (args_array (command (words 32 data)))) = Some cmd ->
  h_popen (4 + a_time s) cmd = Some (output, closed) -> closed <> -1 ->
  zlen output + 1024 <= limit -> limit < 2 ^ 31 -> listen_sockfd s ∈ ready_set s ->
  exists n t, execute_and_response_client fd s =
    Ret (zlen data) (later n (a_emit (Write fd (take (Z.to_nat (h_write t fd (agent_text output))) (agent_text output)))
                               (a_emit (Run cmd) s))).
Proof.
  intros HM HW HR Hne Hn Hl Hw Hc HF HO Hcl HL HN Hready. unfold execute_and_response_client.
  pose proof (zlen_nonneg output). arun. rewrite HR.
  assert (zlen data <> 0) by (destruct data; [done|rewrite zlen_cons; pose proof (zlen_nonneg data); lia]).
  destruct (Z.eqb_spec (zlen data) 0) as [?|_]; [done|]. rewrite request_string by done. arun.
  unfold a_malloc. arun.
  destruct (h_malloc _ 1024) as [p|] eqn:EM; [|exfalso; eapply (HM _ 1024); [lia|exact EM]].
  arun. rewrite bind_unfold, split_request. rewrite (proj2 (Z.leb_le _ _)) by done.
  destruct (run_found limit (words 32 data) cmd (add_heap 1 (a_tick (a_tick s))) output closed) as (n & block & E & EB);
    [done|by apply nul_free_words|done|exact HF|exact HO|done|done|done|].
  rewrite bind_unfold, E. unfold a_free at 1. arun. rewrite EB. arun.
  case_decide as Hd; [|by destruct Hd].
  rewrite bind_bind, a_write_some by apply HW. set (m := h_write _ _ _).
  rewrite (proj2 (Z.ltb_ge m 0)) by apply HW. arun. unfold a_free. arun.
  eexists (3 + n)%nat, _. unfold ret. rewrite request_settles. reflexivity.
Qed.

(** One request, when the dead array is intact. *)
Lemma execute_spec `{Host} limit fd data output closed s :
  frame_intact -> malloc_serves limit -> takes_all fd ->
  h_read (a_time s) fd BUFSIZE = Some data -> data <> [] -> nul_free data -> zlen data < BUFSIZE ->
  zlen (words 32 data) <= 256 -> zlen (command (words 32 data)) < 1024 ->
  (forall t, h_popen t (command (words 32 data)) = Some (output, closed)) -> closed <> -1 ->
  zlen output + 1024 <= limit -> limit < 2 ^ 31 -> listen_sockfd s ∈ ready_set s ->
  exists n, execute_and_response_client fd s =
    Ret (zlen data) (later n (a_emit (Write fd (agent_text output))
                               (a_emit (Run (command (words 32 data))) s))).
Proof.
  intros HF HM HW HR Hne Hn Hl Hw Hc HO Hcl HL HN Hready.
  destruct (execute_found limit fd data (command (words 32 data)) output closed s) as (n & t & E); try done.
  - intros t b. rewrite HW. apply zlen_nonneg.
  - rewrite HF. unfold args_array. destruct (Z.to_nat _) eqn:En; [change MAX_ARGS_SIZE with 1024 in *; lia|].
    apply c_string_zeros. apply nul_free_join; [done|]. by apply Forall_drop, nul_free_words.
  - exists n. by rewrite E, HW, take_zlen_all.
Qed.

(** ** Lemmas: what a call keeps *)

(** [c] leaves the descriptors alone and, when it returns [a], has added
    [grow a] to the number of live blocks. *)
Definition keeps {A} (grow : A -> Z) (c : prog agent A) : Prop :=
  forall s a s', c s = Ret a s' ->
    a_open s' = a_open s /\ ready_set s' = ready_set s /\ listen_sockfd s' = listen_sockfd s /\
    maxfd s' = maxfd s /\ a_heap s' = a_heap s + grow a.

Section Keeps.
Context `{Host}.

Lemma agent_keeps_bind {A B} (f : A -> Z) (g : B -> Z) (c : prog agent A) (k : A -> prog agent B) :
  keeps f c -> (forall a, keeps (fun b => g b - f a) (k a)) -> keeps g (bind c k).
Proof.
  intros Hc Hk s b s2 E. unfold bind in E. destruct (c s) as [a s1| |] eqn:E1; try done.
  destruct (Hc _ _ _ E1) as (?&?&?&?&?). destruct (Hk a _ _ _ E) as (?&?&?&?&?).
  split_and!; try congruence. lia.
Qed.

Lemma agent_keeps_ret {A} (f : A -> Z) a : f a = 0 -> keeps f (ret a).
Proof. intros Hf s b s' [= <- <-]. split_and!; try done. lia. Qed.

Lemma agent_keeps_ask {A} (f : nat -> A) : keeps (fun _ => 0) (a_ask f).
Proof. intros s b s' [= <- <-]. split_and!; try done. simpl. lia. Qed.

Lemma keeps_gets {A} (f : agent -> A) : keeps (fun _ => 0) (a_gets f).
Proof. intros s b s' [= <- <-]. split_and!; try done. lia. Qed.

Lemma agent_keeps_get : keeps (fun _ => 0) get.
Proof. intros s b s' [= <- <-]. split_and!; try done. lia. Qed.

Lemma keeps_do e : keeps (fun _ => 0) (a_do e).
Proof. intros s b s' [= <- <-]. split_and!; try done. simpl. lia. Qed.

Lemma keeps_heap n : keeps (fun _ => n) (modify (add_heap n)).
Proof. intros s b s' [= <- <-]. split_and!; try done. Qed.

Lemma keeps_lift {A} f (o : option A) : keeps (fun _ => 0) (lift f o).
Proof. destruct o; [by apply agent_keeps_ret|by intros s b s' E]. Qed.

Lemma keeps_fault {A} (g : A -> Z) f : keeps g (fault_with f).
Proof. by intros s b s' E. Qed.

Lemma agent_keeps_exit {A} (g : A -> Z) n : keeps g (exit n).
Proof. by intros s b s' E. Qed.

Lemma keeps_ext {A} (f g : A -> Z) c : keeps f c -> (forall a, f a = g a) -> keeps g c.
Proof. intros Hc E s a s' R. rewrite <- E. by apply Hc. Qed.
End Keeps.

Create HintDb keeps.
#[export] Hint Resolve agent_keeps_ask keeps_gets agent_keeps_get keeps_do keeps_heap keeps_lift keeps_fault
  agent_keeps_exit : keeps.

Ltac keeps_leaf := first
  [ solve [eauto with keeps]
  | apply agent_keeps_ret; simpl; lia
  | eapply keeps_ext; [solve [eauto with keeps]|intros; simpl; lia] ].

(** Follows a program to its leaves. *)
Ltac keeps_run := repeat first
  [ keeps_leaf
  | eapply agent_keeps_bind; [solve [eauto with keeps]|intros ?]
  | match goal with |- keeps _ (match ?x with _ => _ end) => destruct x end ].

Section KeepsCalls.
Context `{Host}.

Lemma keeps_new_out n : keeps (fun _ => 1) (new_out n).
Proof.
  unfold new_out, a_malloc. intros s a s' E. revert E. arun.
  destruct (h_malloc _ n); [|done]. arun. intros [= <- <-]. split_and!; done.
Qed.

Lemma keeps_dead_string args : keeps (fun _ => 0) (dead_string args).
Proof. unfold dead_string. keeps_run. Qed.

Lemma keeps_combineArg start argv : keeps (fun _ => 0) (combineArg start argv).
Proof. unfold combineArg. keeps_run. Qed.

Lemma keeps_free p : keeps (fun _ => -1) (a_free p).
Proof. destruct p; simpl; keeps_run. Qed.

Lemma keeps_write fd b : keeps (fun _ => 0) (a_write fd b).
Proof.
  unfold a_write. eapply agent_keeps_bind; [eauto with keeps|]. intros n.
  eapply (agent_keeps_bind (fun _ => 0)); [destruct (n <? 0); [by apply agent_keeps_ret|eauto with keeps]|].
  intros _. by apply agent_keeps_ret.
Qed.
End KeepsCalls.

#[export] Hint Resolve keeps_new_out keeps_dead_string keeps_combineArg keeps_free keeps_write : keeps.

Section KeepsRequest.
Context `{Host}.

Lemma keeps_output_loop fuel fp out curSize bufSize :
  keeps (fun _ => 0) (output_loop fuel fp out curSize bufSize).
Proof.
  revert fp out curSize bufSize. induction fuel as [|fuel IH]; intros; cbn [output_loop]; [keeps_run|].
  destruct fp; [by apply agent_keeps_ret|]. destruct (fgets _ _) as [buf fp'].
  keeps_run; (eapply keeps_ext; [apply IH|intros; lia]).
Qed.

Lemma keeps_split_loop fuel text paras : keeps (fun _ => 0) (split_loop fuel text paras).
Proof.
  revert text paras. induction fuel as [|fuel IH]; intros; cbn [split_loop]; [keeps_run|].
  destruct (strtok 32 text) as [[]|]; [|by apply agent_keeps_ret]. destruct (_ <? _); [apply IH|keeps_run].
Qed.
End KeepsRequest.

#[export] Hint Resolve keeps_output_loop keeps_split_loop : keeps.

(** The block of [runAndGetOutPut] stays live, also when it is not the result. *)
Lemma keeps_run_and_get `{Host} paras : keeps (fun _ => 1) (runAndGetOutPut paras).
Proof. unfold runAndGetOutPut. keeps_run. Qed.
#[export] Hint Resolve keeps_run_and_get : keeps.

(** A request that is served leaves the descriptors and the heap as they were. *)
Lemma keeps_execute `{Host} fd : keeps (fun _ => 0) (execute_and_response_client fd).
Proof.
  unfold execute_and_response_client. eapply agent_keeps_bind; [eauto with keeps|]. intros [data|]; [|keeps_run].
  destruct (_ =? 0); [keeps_run|]. eapply agent_keeps_bind; [eauto with keeps|]. intros text.
  eapply (agent_keeps_bind (fun m : option (list Z) => if m is Some _ then 1 else 0)).
  { intros s a s' E. unfold a_malloc in E. revert E. arun. destruct (h_malloc _ _); arun;
      intros [= <- <-]; split_and!; simpl; done || lia. }
  intros m. eapply (agent_keeps_bind (fun _ => 0)).
  { destruct m; [|destruct (strtok 32 text) as [[]|]]; keeps_run. }
  intros ?. eapply agent_keeps_bind; [eauto with keeps|]. intros paras.
  eapply agent_keeps_bind; [eauto with keeps|]. intros response.
  eapply (agent_keeps_bind (fun _ => if m is Some _ then -1 else 0)).
  { destruct m; keeps_run. }
  intros ?. eapply agent_keeps_bind; [eauto with keeps|]. intros block.
  eapply agent_keeps_bind; [eauto with keeps|]. intros s0. eapply (agent_keeps_bind (fun _ => 0)).
  { destruct (decide _); keeps_run. }
  intros ?. eapply agent_keeps_bind; [eauto with keeps|]. intros ?. apply agent_keeps_ret. destruct m; lia.
Qed.

(** ** Lemmas: what a client is sent *)

(** [c] does nothing to the outside when it returns. *)
Definition quiet {A} (c : prog agent A) : Prop := forall s a s', c s = Ret a s' -> a_trace s' = a_trace s.

Lemma bind_returns {A B} (c : prog agent A) (k : A -> prog agent B) s b s2 :
  bind c k s = Ret b s2 -> exists a s1, c s = Ret a s1 /\ k a s1 = Ret b s2.
Proof. unfold bind. destruct (c s) as [a s1| |] eqn:E; try done. intros. by exists a, s1. Qed.

Section Quiet.
Context `{Host}.

Lemma quiet_bind {A B} (c : prog agent A) (k : A -> prog agent B) : quiet c -> (forall a, quiet (k a)) -> quiet (bind c k).
Proof.
  intros Hc Hk s b s2 (a & s1 & E1 & E2)%bind_returns. by rewrite (Hk _ _ _ _ E2), (Hc _ _ _ E1).
Qed.

Lemma quiet_ret {A} (a : A) : quiet (ret a).
Proof. by intros s b s' [= _ <-]. Qed.
Lemma quiet_ask {A} (f : nat -> A) : quiet (a_ask f).
Proof. by intros s b s' [= _ <-]. Qed.
Lemma quiet_heap n : quiet (modify (add_heap n)).
Proof. by intros s b s' [= _ <-]. Qed.
Lemma quiet_lift {A} f (o : option A) : quiet (lift f o).
Proof. destruct o; [apply quiet_ret|by intros s b s' E]. Qed.
Lemma quiet_fault {A} f : quiet (A := A) (fault_with f).
Proof. by intros s b s' E. Qed.
End Quiet.

Create HintDb quiet.
#[export] Hint Resolve quiet_ret quiet_ask quiet_heap quiet_lift quiet_fault : quiet.

Ltac quiet_run := repeat first
  [ solve [eauto with quiet] | apply quiet_bind; [|intros ?]
  | match goal with |- quiet (match ?x with _ => _ end) => destruct x end ].

Section Answers.
Context `{Host}.

Lemma quiet_malloc n : quiet (a_malloc n).
Proof. unfold a_malloc. quiet_run. Qed.

Lemma quiet_free p : quiet (a_free p).
Proof. unfold a_free. quiet_run. Qed.

Lemma quiet_new_out n : quiet (new_out n).
Proof. pose proof quiet_malloc. unfold new_out. quiet_run. Qed.

Lemma quiet_output_loop fuel fp out curSize bufSize : quiet (output_loop fuel fp out curSize bufSize).
Proof.
  pose proof quiet_new_out. pose proof quiet_free.
  revert fp out curSize bufSize. induction fuel as [|fuel IH]; intros; cbn [output_loop]; [quiet_run|].
  destruct fp; [quiet_run|]. destruct (fgets _ _) as [buf fp']. quiet_run.
Qed.

Lemma quiet_split_loop fuel text paras : quiet (split_loop fuel text paras).
Proof.
  revert text paras. induction fuel as [|fuel IH]; intros; cbn [split_loop]; [quiet_run|].
  destruct (strtok 32 text) as [[]|]; [|quiet_run]. destruct (_ <? _); quiet_run.
Qed.

(** What [runAndGetOutPut] has done when it returns: it ran the command found in
    the dead array of [combineArg] and, if it returns a block, the block holds
    what the command printed (the sizes are [int]s: of less than 2^31 bytes). *)
Definition ran (paras : list (list Z)) (cmd text : list Z) : Prop :=
  zlen (command paras) < 1024 /\
  (exists t, c_string (h_dead_frame t (args_array (command paras))) = Some cmd) /\
  exists t output closed, h_popen t cmd = Some (output, closed) /\ closed <> -1 /\
    (zlen output + 1024 < 2 ^ 31 -> text = agent_text output).

Lemma run_returns paras s r s' :
  Forall nul_free paras -> runAndGetOutPut paras s = Ret r s' ->
  exists cmd, a_trace s' = a_trace s ++ [Run cmd] /\
    match r with Literal _ => True | Heap b => exists text, c_string b = Some text /\ ran paras cmd text end.
Proof.
  intros Hp (out & s1 & E1 & E)%bind_returns. pose proof E1 as Eo. rewrite new_out_eq in Eo.
  destruct (h_malloc _ _); [|done].
  assert (out = replicate (Z.to_nat MAX_ARGS_SIZE) 0) as -> by congruence. clear Eo.
  apply quiet_new_out in E1. rewrite bind_unfold, combineArg_exact in E by done. fold (command paras) in E.
  destruct (_ <? _) eqn:Ec; bool_cases; [|done]. fold (args_array (command paras)) in E.
  apply bind_returns in E as (cmd & s2 & E2 & E).
  assert (a_trace s2 = a_trace s1 /\ exists t, c_string (h_dead_frame t (args_array (command paras))) = Some cmd) as [T2 HF].
  { revert E2. unfold dead_string. arun. destruct (c_string _) eqn:Ed; [|done]. intros [= <- <-]. split; [done|eauto]. }
  exists cmd. revert E. arun. set (s3 := a_emit _ _). assert (a_trace s3 = a_trace s ++ [Run cmd]) as T3
    by (cbn; by rewrite T2, E1). destruct (h_popen _ _) as [[output closed]|] eqn:EP; [|by intros [= <- <-]].
  intros (out' & s4 & E4 & E)%bind_returns. pose proof E4 as Eo. apply quiet_output_loop in Eo.
  destruct (closed =? -1) eqn:Ek; bool_cases; [injection E as <- <-; split; [congruence|done]|].
  destruct (c_string out') as [text|] eqn:Et; [|done]. injection E as <- <-. split; [congruence|].
  exists text. split; [done|]. split; [done|]. split; [done|]. exists (a_time s2), output, closed. split; [done|]. split; [done|].
  intros Hs. change (replicate (Z.to_nat MAX_ARGS_SIZE) 0) with ([] ++ 0 :: replicate 1023 0) in E4.
  destruct (output_loop_spec (zlen output + 1024) (S (length output)) output [] (replicate 1023 0) s3)
    as [(n & tl' & E')|[_ (f & E')]]; [lia|constructor|done|change (zlen []) with 0; lia|done|..];
    change (zlen []) with 0 in E'; change (zlen ([] ++ 0 :: replicate 1023 0)) with MAX_ARGS_SIZE in E';
    rewrite E4 in E'; [|done].
  rewrite Nat.sub_succ, Nat.sub_0_r in E'. fold (agent_text output) in E'.
  assert (out' = ([] ++ agent_text output) ++ 0 :: tl') as -> by congruence. cbn [app] in Et.
  rewrite c_string_app in Et by apply agent_text_text. by injection Et.
Qed.

(** How a client [fd] is served: nothing if it sent nothing; else its words
    from the third on are run as a command, and one write sends it the command's
    output, or as much of it as the write takes. *)
Inductive answered (fd : Z) : list aeffect -> Prop :=
  | answered_nothing t : h_read t fd BUFSIZE = Some [] -> answered fd []
  | answered_run t data text cmd out t' :
      h_read t fd BUFSIZE = Some data -> data <> [] ->
      c_string (data ++ replicate (Z.to_nat (BUFSIZE - zlen data)) 0) = Some text ->
      ran (words 32 text) cmd out -> 0 <= h_write t' fd out ->
      answered fd [Run cmd; Write fd (take (Z.to_nat (h_write t' fd out)) out)].

Lemma c_string_nul_free b text : c_string b = Some text -> nul_free text.
Proof.
  revert text. induction b as [|c b IH]; intros text E; [done|]. cbn in E. destruct (Z.eqb_spec c 0); [injection E as <-; constructor|].
  destruct (c_string b) as [t|]; [|done]. injection E as <-. constructor; [done|by apply IH].
Qed.

Lemma write_returns {A} fd b (k : Z -> prog agent A) s r s' :
  (let* n := a_write fd b in if n <? 0 then errexit else k n) s = Ret r s' ->
  0 <= h_write (a_time s) fd b /\
  k (h_write (a_time s) fd b) (a_emit (Write fd (take (Z.to_nat (h_write (a_time s) fd b)) b)) (a_tick s)) = Ret r s'.
Proof.
  set (n := h_write _ _ _). unfold a_write. arun. fold n. destruct (n <? 0) eqn:E; arun; rewrite ?E; [done|].
  bool_cases. done.
Qed.

Lemma execute_answers fd s cc s' :
  listen_sockfd s ∈ ready_set s -> execute_and_response_client fd s = Ret cc s' ->
  exists es, answered fd es /\ a_trace s' = a_trace s ++ es.
Proof.
  intros HL. unfold execute_and_response_client. arun. destruct (h_read _ _ _) as [data|] eqn:ER; [|done].
  destruct (zlen data =? 0) eqn:Ez; bool_cases.
  { assert (data = []) as -> by (destruct data; [done|rewrite zlen_cons in Ez; pose proof (zlen_nonneg data); lia]).
    intros [= <- <-]. exists []. split; [by eapply answered_nothing|by rewrite app_nil_r]. }
  assert (data <> []) as Hne by (intros ->; by apply Ez).
  destruct (c_string _) as [text|] eqn:Et; [|done]. arun.
  intros (m & s1 & E1 & E)%bind_returns. pose proof E1 as K1.
  assert (listen_sockfd s1 = listen_sockfd s /\ ready_set s1 = ready_set s) as [L1 R1].
  { revert K1. unfold a_malloc. arun. destruct (h_malloc _ _); arun; by intros [= <- <-]. }
  apply quiet_malloc in E1. apply bind_returns in E as (? & s2 & E2 & E).
  assert (s2 = s1) as -> by (destruct m, (strtok 32 text); try done; by injection E2).
  rewrite bind_unfold, split_request in E. destruct (_ <=? 256); [|done].
  apply bind_returns in E as (response & s3 & E3 & E). pose proof E3 as K3. apply keeps_run_and_get in K3 as (_ & R3 & L3 & _).
  apply run_returns in E3 as (cmd & T3 & Hr); [|by eapply nul_free_words, c_string_nul_free].
  apply bind_returns in E as (? & s4 & E4 & E).
  assert (a_trace s4 = a_trace s3 /\ listen_sockfd s4 = listen_sockfd s3 /\ ready_set s4 = ready_set s3) as (T4 & L4 & R4)
    by (destruct m; unfold a_free, modify, ret in E4; by injection E4 as _ <-).
  destruct response as [block|lit].
  2:{ exfalso. revert E. arun. case_decide; [|done]. intros ([] & s5 & E5 & E)%bind_returns. done. }
  destruct Hr as (out & Eb & Hran). rewrite Eb in E. revert E. arun.
  rewrite decide_True by (rewrite L4, R4, L3, R3, L1, R1; exact HL).
  intros ([] & s5 & E5 & E)%bind_returns. apply (write_returns fd out (fun _ => ret tt)) in E5 as [Hw E5].
  injection E5 as <-. unfold a_free, bind, modify, ret in E. injection E as _ <-.
  eexists. split; [by eapply answered_run|]. cbn. by rewrite T4, T3, E1, <- !app_assoc.
Qed.
End Answers.

(** ** Lemmas: a pass of the server *)

(** The descriptors of [fds] that a pass serves. *)
Definition served (listen : Z) (read_set : gset Z) (fds : list Z) : gset Z :=
  list_to_set (filter (fun fd => fd <> listen /\ fd ∈ read_set) fds).

(** The clients [fds] served in turn: each answered, then closed. *)
Definition answers `{Host} (fds : list Z) (es : list aeffect) : Prop :=
  exists blocks, es = concat blocks /\
    Forall2 (fun fd b => exists a, answered fd a /\ b = a ++ [Close fd]) fds blocks.

Lemma serve_loop_answers `{Host} fds read_set s s' :
  listen_sockfd s ∈ ready_set s -> serve_loop fds read_set s = Ret tt s' ->
  exists es, a_trace s' = a_trace s ++ es /\
    answers (filter (fun fd => fd <> listen_sockfd s /\ fd ∈ read_set) fds) es.
Proof.
  revert s. induction fds as [|fd fds IH]; intros s HL E; cbn [serve_loop] in E.
  - injection E as <-. exists []. rewrite app_nil_r. split; [done|]. by exists [].
  - revert E. rewrite bind_a_gets, bind_unfold. rewrite filter_cons.
    destruct (decide (fd <> listen_sockfd s /\ fd ∈ read_set)) as [[H1 H2]|Hn].
    + rewrite !bool_decide_true by done. cbn [andb]. rewrite bind_unfold.
      destruct (execute_and_response_client fd s) as [cc s1| |] eqn:E1; try done.
      destruct (keeps_execute fd _ _ _ E1) as (_ & HR & HLi & _). destruct (execute_answers _ _ _ _ HL E1) as (a & Ha & Ta).
      unfold a_close, FD_CLR. arun. intros E. apply IH in E as (es & T & blocks & -> & HB); [|cbn; rewrite HR, HLi; set_solver].
      cbn in T, HB. rewrite HLi in HB. exists ((a ++ [Close fd]) ++ concat blocks).
      split; [by rewrite T, Ta, <- !app_assoc|]. exists ((a ++ [Close fd]) :: blocks). split; [done|].
      constructor; [by exists a|done].
    + assert (bool_decide (fd <> listen_sockfd s) && bool_decide (fd ∈ read_set) = false) as ->.
      { apply andb_false_iff. rewrite !bool_decide_eq_false. destruct (decide (fd = listen_sockfd s)); tauto. }
      cbn. intros E. by apply IH in E.
Qed.

Lemma serve_loop_spec `{Host} fds read_set s s' :
  serve_loop fds read_set s = Ret tt s' ->
  a_open s' = a_open s ∖ served (listen_sockfd s) read_set fds /\
  ready_set s' = ready_set s ∖ served (listen_sockfd s) read_set fds /\
  listen_sockfd s' = listen_sockfd s /\ maxfd s' = maxfd s /\ a_heap s' = a_heap s.
Proof.
  revert s. induction fds as [|fd fds IH]; intros s E; cbn [serve_loop] in E.
  - injection E as <-. unfold served. simpl. by rewrite !difference_empty_L.
  - revert E. rewrite bind_a_gets, bind_unfold. unfold served. rewrite filter_cons.
    destruct (decide (fd <> listen_sockfd s /\ fd ∈ read_set)) as [[H1 H2]|Hn].
    + rewrite !bool_decide_true by done. cbn [andb]. rewrite bind_unfold.
      destruct (execute_and_response_client fd s) as [cc s1| |] eqn:E1; try done.
      destruct (keeps_execute fd _ _ _ E1) as (HO&HR&HL&?&?). unfold a_close, FD_CLR. arun. intros E.
      apply IH in E as (HO'&HR'&HL'&?&?). cbn in *. rewrite HL, HO, HR in *. unfold served in *.
      rewrite HO', HR', !difference_difference_l_L.
      split_and!; [done|done|congruence|congruence|lia].
    + assert (bool_decide (fd <> listen_sockfd s) && bool_decide (fd ∈ read_set) = false) as ->.
      { apply andb_false_iff. rewrite !bool_decide_eq_false. destruct (decide (fd = listen_sockfd s)); tauto. }
      cbn. intros E. by apply IH in E.
Qed.

(** A pass that meets no failure returns. *)
Record request_ok `{Host} (limit : Z) (data : list Z) : Prop := {
  rq_text : nul_free data;
  rq_size : zlen data < BUFSIZE;
  rq_words : zlen (words 32 data) <= 256;
  rq_command : zlen (command (words 32 data)) < 1024
}.

Record good_host `{Host} (limit : Z) : Prop := {
  (* whatever the dead array of [combineArg] holds by then, it is a string *)
  gh_frame : frame_terminated;
  gh_limit : limit < 2 ^ 31;
  gh_malloc : malloc_serves limit;
  gh_write : forall t fd b, 0 <= h_write t fd b;
  gh_popen : forall t cmd, exists output closed, h_popen t cmd = Some (output, closed) /\ closed <> -1 /\
    zlen output + 1024 <= limit;
  gh_read : forall t fd, exists data, h_read t fd BUFSIZE = Some data /\ request_ok limit data;
  gh_select : forall t r, h_select t r <> None;
  (* the lowest free descriptor, below the set's size while few are open *)
  gh_accept : forall t open, (size open < 512)%nat -> 0 <= h_accept t open < FD_SETSIZE
}.

Definition server_ok (s : agent) : Prop :=
  listen_sockfd s ∈ ready_set s /\ a_open s = ready_set s /\ a_heap s = 0 /\
  forall fd, fd ∈ ready_set s -> 0 <= fd <= maxfd s /\ fd < FD_SETSIZE.

Lemma execute_returns `{Host} limit fd s :
  good_host limit -> listen_sockfd s ∈ ready_set s ->
  exists cc s', execute_and_response_client fd s = Ret cc s'.
Proof.
  intros [HF HN HM HW HP HR _ _] HL. destruct (HR (a_time s) fd) as (data & ER & [H1 H2 H3 H4]).
  destruct (decide (data = [])) as [->|Hne].
  - unfold execute_and_response_client. arun. rewrite ER. by do 2 eexists.
  - destruct (c_string (h_dead_frame (3 + a_time s) (args_array (command (words 32 data))))) as [cmd|] eqn:EF; [|by apply HF in EF; [|exact H4]].
    destruct (HP (4 + a_time s)%nat cmd) as (o & c & H5 & H6 & H7).
    destruct (execute_found limit fd data cmd o c s) as (n & t & E); try done. rewrite E. by do 2 eexists.
Qed.

Lemma serve_loop_returns `{Host} limit fds read_set s :
  good_host limit -> listen_sockfd s ∈ ready_set s -> exists s', serve_loop fds read_set s = Ret tt s'.
Proof.
  intros HG. revert s. induction fds as [|fd fds IH]; intros s HL; cbn [serve_loop]; [by eexists|].
  rewrite bind_a_gets, bind_unfold. destruct (decide (fd = listen_sockfd s)) as [->|Hne].
  - rewrite bool_decide_false by (by intros []). cbn. by apply IH.
  - rewrite bool_decide_true by done. cbn [andb]. case_bool_decide; cbn; [|by apply IH].
    destruct (execute_returns limit fd s HG HL) as (cc & s1 & E1). rewrite bind_unfold, E1.
    destruct (keeps_execute fd _ _ _ E1) as (?&HR&HL1&?&?). unfold a_close, FD_CLR. arun.
    apply IH. simpl. rewrite HR, HL1. set_solver.
Qed.

(** A pass that found [read_set] ready: a new client when the listening socket
    was ready; [fds], the other ready descriptors, each once, answered and
    closed in turn; the sockets that are open afterwards. *)
Definition pass_effect `{Host} (s s' : agent) (read_set new : gset Z) (fds : list Z) : Prop :=
  h_select (a_time s) (ready_set s) = Some read_set /\
  (if decide (listen_sockfd s ∈ read_set) then exists c, new = {[c]} /\ (c ∉ a_open s) /\ 0 <= c
   else new = ∅) /\
  NoDup fds /\ (forall fd, fd ∈ fds <-> fd ∈ read_set ∖ {[listen_sockfd s]}) /\
  (exists es, a_trace s' = a_trace s ++ es /\ answers fds es) /\
  a_open s' = (a_open s ∪ new) ∖ (read_set ∖ {[listen_sockfd s]}).

Lemma accept_spec `{Host} s s' :
  server_ok s -> accept_client s = Ret tt s' ->
  server_ok s' /\ listen_sockfd s' = listen_sockfd s /\ a_trace s' = a_trace s /\
  exists c, a_open s' = a_open s ∪ {[c]} /\ (c ∉ a_open s) /\ 0 <= c.
Proof.
  intros (H1 & H2 & H3 & H4) E. unfold accept_client, FD_SET in E. revert E. arun.
  set (c := h_accept _ _). destruct (c <? 0) eqn:Ec; [done|]. bool_cases. arun.
  destruct (_ && _) eqn:Er; [|done]. bool_cases. intros [= <-].
  destruct (maxfd _ <? c) eqn:Em; simpl in *; bool_cases;
    (split; [unfold server_ok; simpl in *; split_and!;
       [by apply elem_of_union_l|by rewrite H2|done|]|split; [done|split; [done|]]]);
    (intros fd [Hf%H4| ->%elem_of_singleton]%elem_of_union; simpl in *; lia) ||
    (exists c; split_and!; [done|by apply h_accept_fresh|done]).
Qed.

Lemma served_all s read_set :
  read_set ⊆ ready_set s -> (forall fd, fd ∈ ready_set s -> 0 <= fd <= maxfd s) ->
  served (listen_sockfd s) read_set (seqZ 0 (maxfd s + 1)) = read_set ∖ {[listen_sockfd s]}.
Proof.
  intros HS HB. apply set_eq. intros fd. unfold served. rewrite elem_of_list_to_set, list_elem_of_filter, elem_of_seqZ.
  split; [set_solver|]. intros [H1 H2]%elem_of_difference. split; [set_solver|].
  specialize (HB fd ltac:(set_solver)). lia.
Qed.

Lemma server_pass_spec `{Host} s s' :
  server_ok s -> server_pass s = Ret tt s' ->
  server_ok s' /\ exists read_set new fds, pass_effect s s' read_set new fds.
Proof.
  intros HS E. unfold server_pass in E. revert E. arun.
  destruct (h_select _ _) as [R|] eqn:ER; [|done]. pose proof (h_select_subset _ _ _ ER) as HR.
  arun. rewrite bind_unfold. change (listen_sockfd (a_tick s)) with (listen_sockfd s).
  assert (server_ok (a_tick s)) as HS' by done.
  intros E. assert (exists s1 new, server_ok s1 /\ listen_sockfd s1 = listen_sockfd s /\ a_trace s1 = a_trace s /\
    a_open s1 = a_open s ∪ new /\ serve_loop (seqZ 0 (maxfd s1 + 1)) R s1 = Ret tt s' /\
    (if decide (listen_sockfd s ∈ R) then exists c, new = {[c]} /\ (c ∉ a_open s) /\ 0 <= c else new = ∅))
    as (s1 & new & HS1 & HL & HT & HO & EL & HN).
  { destruct (decide _) as [Hl|Hl].
    - destruct (accept_client (a_tick s)) as [[] s1| |] eqn:EA; try done.
      destruct (accept_spec _ _ HS' EA) as (HS1 & HL & HT & c & HO & Hc).
      exists s1, {[c]}. split_and!; try done. by exists c.
    - exists (a_tick s), ∅. split_and!; try done. by rewrite union_empty_r_L. }
  destruct HS1 as (K1 & K2 & K3 & K4). destruct (serve_loop_answers _ _ _ _ K1 EL) as (es & Tes & Hes).
  apply serve_loop_spec in EL as (O' & R' & L' & M' & P').
  assert (R ⊆ ready_set s1) as HR1.
  { destruct HS as (_ & HO0 & _). rewrite <- K2, HO, HO0. by apply union_subseteq_l'. }
  assert (served (listen_sockfd s1) R (seqZ 0 (maxfd s1 + 1)) = R ∖ {[listen_sockfd s1]}) as Hall
    by (apply served_all; [done|intros fd Hf; apply K4 in Hf; lia]).
  rewrite Hall in O', R'. split.
  - unfold server_ok. rewrite L', M', P', O', R', K2. split_and!; [apply elem_of_difference; split; [done|]; intros [_ []]%elem_of_difference; set_solver|done|done|].
    intros fd Hf. apply K4. by apply elem_of_difference in Hf as [? _].
  - eexists R, new, _. unfold pass_effect. rewrite O', HO, <- HL, Tes, HT. split_and!; [done|by rewrite HL| | |by exists es|done].
    + apply NoDup_filter, NoDup_seqZ.
    + intros fd. rewrite <- Hall. unfold served. by rewrite elem_of_list_to_set.
Qed.

Lemma server_start_ok `{Host} argv s0 s :
  a_open s0 = ∅ -> a_heap s0 = 0 -> server_start argv s0 = Ret tt s -> server_ok s.
Proof.
  intros HO HH E. unfold server_start in E. rewrite bind_unfold in E.
  destruct (server_port argv s0) as [port s1| |] eqn:E1; try done.
  assert (s1 = s0) as -> by (unfold server_port, errexit, exit, ret in E1; destruct argv as [|? [|? [|]]]; by simplify_eq/=).
  unfold passive_tcp, passive_sock in E. revert E. arun. set (fd := h_socket _ _).
  destruct (fd <? 0) eqn:Ef; [done|]. bool_cases. arun. destruct (_ <? 0); [done|].
  destruct (bool_decide _); arun; [destruct (_ <? 0); [done|]; arun|];
    (unfold FD_SET; destruct (_ && _) eqn:Er; [|done]; bool_cases; intros [= <-];
     unfold server_ok; simpl; rewrite HO, !union_empty_l_L; split_and!; [set_solver|done|done|];
     intros x ->%elem_of_singleton; lia).
Qed.

(** States of the server between passes. *)
Inductive server_reach `{Host} (argv : list (list Z)) : agent -> Prop :=
  | reach_start s0 s : a_open s0 = ∅ -> a_heap s0 = 0 -> server_start argv s0 = Ret tt s ->
      server_reach argv s
  | reach_pass s s' : server_reach argv s -> server_pass s = Ret tt s' -> server_reach argv s'.

Lemma server_reach_ok `{Host} argv s : server_reach argv s -> server_ok s.
Proof.
  induction 1 as [s0 s HO HH E|s s' _ IH E]; [by eapply server_start_ok|].
  by destruct (server_pass_spec _ _ IH E).
Qed.

Lemma accept_returns `{Host} limit s :
  good_host limit -> (size (a_open s) < 512)%nat -> exists s', accept_client s = Ret tt s'.
Proof.
  intros HG Hsz. unfold accept_client, FD_SET. arun.
  pose proof (gh_accept _ HG (a_time s) (a_open s) Hsz) as Ha. set (c := h_accept _ _) in *.
  destruct (c <? 0) eqn:E1; bool_cases; [lia|]. arun.
  rewrite (proj2 (Z.leb_le _ _)), (proj2 (Z.ltb_lt _ _)) by lia. by eexists.
Qed.

Lemma server_pass_returns `{Host} limit s :
  good_host limit -> server_ok s -> (size (a_open s) < 512)%nat ->
  exists s', server_pass s = Ret tt s'.
Proof.
  intros HG HS Hsz. unfold server_pass. arun. destruct (h_select _ _) as [R|] eqn:ER;
    [|by apply (gh_select _ HG) in ER].
  arun. rewrite bind_unfold. destruct (decide _).
  - destruct (accept_returns limit (a_tick s) HG Hsz) as (s1 & EA). rewrite EA. arun.
    destruct (accept_spec (a_tick s) _ HS EA) as ((HL & _) & _). by eapply serve_loop_returns.
  - arun. eapply serve_loop_returns; [done|]. apply HS.
Qed.

(** ** Lemmas: the client *)

(** The bytes that arrive at the client, in the pieces [recv] returns. *)
Definition arrives `{Host} (fd : Z) (t : nat) (chunks : list (list Z)) : Prop :=
  forall i, (i <= length chunks)%nat -> h_read (i + t) fd MAX_BUF_SIZE = Some (default [] (chunks !! i)).

Definition chunk_ok (c : list Z) : Prop := c <> [] /\ nul_free c /\ zlen c <= MAX_BUF_SIZE.

Lemma client_loop_spec `{Host} chunks fd s :
  Forall chunk_ok chunks -> arrives fd (a_time s) chunks ->
  exists s', client_loop (S (length chunks)) fd s = Ret 0 s' /\ a_trace s' = a_trace s ++ map Out chunks.
Proof.
  intros HC. revert s. induction HC as [|c chunks [H1 [H2 H3]] _ IH]; intros s HA.
  - cbn [length client_loop]. arun. pose proof (HA O ltac:(simpl; lia)) as HA0. cbn in HA0. rewrite HA0. cbn. exists (a_tick s).
    by rewrite app_nil_r.
  - cbn [length client_loop]. arun. pose proof (HA O ltac:(simpl; lia)) as HA0. cbn in HA0. rewrite HA0.
    assert (zlen c <> 0) by (destruct c; [done|rewrite zlen_cons; pose proof (zlen_nonneg c); lia]).
    change MAX_BUF_SIZE with 1024 in *.
    destruct (Z.eqb_spec (zlen c) 0); [done|].
    destruct (Z.to_nat (1024 + 1 - zlen c)) as [|k] eqn:Ek; [lia|]. rewrite c_string_zeros by done. arun.
    destruct (IH (a_emit (Out c) (a_tick s))) as (s' & E & ET).
    { intros i Hi. specialize (HA (S i) ltac:(simpl; lia)). simpl in *. rewrite <- HA. f_equal; lia. }
    exists s'. split; [exact E|]. rewrite ET. simpl. by rewrite <- app_assoc.
Qed.

(** What the client sends: its arguments with a space between them. *)
Definition request (argv : list (list Z)) : list Z := take (length (join 32 argv) - 1) (join 32 argv).

Lemma request_last ws w : request (ws ++ [w]) = join 32 ws ++ w.
Proof.
  unfold request. rewrite join_app. change (join 32 [w]) with ((w ++ [32]) ++ []).
  rewrite app_nil_r, app_assoc, length_app. cbn [length]. by rewrite Nat.add_sub, take_app_length.
Qed.

Lemma words_request argv : argv <> [] -> Forall (word_of 32) argv -> words 32 (request argv) = argv.
Proof.
  intros Hne HW. destruct (exists_last Hne) as (ws & w & ->). apply Forall_app in HW as [HW Hw].
  rewrite request_last. apply words_join_last; [done|]. by apply Forall_inv in Hw.
Qed.

Lemma request_nonempty argv : argv <> [] -> Forall (word_of 32) argv -> request argv <> [].
Proof.
  intros Hne HW E. pose proof (words_request argv Hne HW) as E'. rewrite E in E'. by subst.
Qed.

Lemma client_main_spec `{Host} argv chunks s :
  frame_intact -> (forall fd, takes_all fd) -> argv <> [] ->
  Forall nul_free argv -> zlen (join 32 argv) < 1024 -> 0 <= h_socket (a_time s) (a_open s) ->
  Forall chunk_ok chunks -> arrives (h_socket (a_time s) (a_open s)) (4 + a_time s) chunks ->
  exists s', client_main (S (length chunks)) argv s = Ret 0 s' /\
    a_trace s' = a_trace s ++
      Write (h_socket (a_time s) (a_open s)) (request argv) :: map Out chunks.
Proof.
  intros HF HW Hne Hn HL Hs HC HA. unfold client_main. arun. set (fd := h_socket _ _) in *.
  destruct (fd <? 0) eqn:E; bool_cases; [lia|]. arun.
  rewrite bind_unfold, combineArg_exact by done. rewrite drop_0.
  rewrite (proj2 (Z.ltb_lt _ _)) by done. cbv beta zeta.
  assert (nul_free (join 32 argv)) by (by apply nul_free_join).
  rewrite bind_unfold, dead_string_intact; [|done|done|change MAX_ARGS_SIZE with 1024; lia].
  assert (0 < zlen (join 32 argv)) as Hpos.
  { destruct argv as [|w ws]; [done|]. rewrite join_cons, zlen_app, zlen_cons.
    pose proof (zlen_nonneg w). pose proof (zlen_nonneg (join 32 ws)). lia. }
  rewrite u32_id by lia. unfold range.
  rewrite zlen_app. change (zlen [0]) with 1.
  assert ((0 <=? 0) && (0 <=? zlen (join 32 argv) - 1) && (0 + (zlen (join 32 argv) - 1) <=? zlen (join 32 argv) + 1) = true) as ->
    by (rewrite !andb_true_iff; split_and!; apply Z.leb_le; lia).
  arun. change (Z.to_nat 0) with O. rewrite drop_0, take_app_le by (unfold zlen in *; lia).
  assert (take (Z.to_nat (zlen (join 32 argv) - 1)) (join 32 argv) = request argv) as ->.
  { unfold request. f_equal. unfold zlen. lia. }
  rewrite a_write_all by done. pose proof (zlen_nonneg (request argv)).
  destruct (_ <? 0) eqn:E0; bool_cases; [lia|].
  edestruct (client_loop_spec chunks fd) as (s' & E1 & E2); [done| |exists s'; split; [exact E1|]].
  - intros i Hi. by rewrite <- (HA i Hi).
  - rewrite E2. simpl. by rewrite <- app_assoc.
Qed.

(** ** The theorems *)

(** C14: In every state the server can reach, whatever the system calls answer,
    the descriptor set given to [select] is exactly the set of open sockets,
    the listening socket is in it, all of it lies below [maxfd] and inside the
    set's size, and no heap block is lost.  A pass of the loop that returns has
    accepted at most one client, served the clients that were ready, each once
    and one after the other, and closed exactly those.  A client that sent
    nothing gets nothing; for any other a command was run (the words of its
    request from the third on, or what the array of [combineArg], which is no
    longer live, holds in their place), and the client was sent, in one write,
    what the command printed, or as much as the write took (outputs of less
    than 2 GB).  A pass that exits or faults is not spoken of. *)
Theorem server_invariant `{Host} argv s s' :
  server_reach argv s -> server_pass s = Ret tt s' ->
  server_ok s /\ server_ok s' /\ exists read_set new fds, pass_effect s s' read_set new fds.
Proof.
  intros HR E. pose proof (server_reach_ok _ _ HR) as HS. split; [done|]. by apply server_pass_spec.
Qed.

(** C38: A pass of the server neither exits nor faults while fewer than 512
    sockets are open, every system call succeeds (a write may take less than it
    is given), every command can be run and prints less than the memory
    available, and every request is one string of less than 4096 characters,
    at most 256 words and a command of less than 1024.  The command is read
    from an array that is no longer live: nothing is assumed of what that
    memory holds, except that it has a zero byte. *)
Theorem server_keeps_serving `{Host} limit argv s :
  good_host limit -> server_reach argv s -> (size (a_open s) < 512)%nat ->
  exists s', server_pass s = Ret tt s' /\ server_reach argv s'.
Proof.
  intros HG HR Hsz. destruct (server_pass_returns limit s HG (server_reach_ok _ _ HR) Hsz) as (s' & E).
  exists s'. split; [done|]. by eapply reach_pass.
Qed.

(** The client and the server together: the words of the client's command
    line reach the server, which runs the words from the third on, and what
    the command prints, of any length, comes back whole and is what the client
    prints; the server's heap is as it was. *)
Theorem agent_roundtrip (hc hs : Host) limit argv chunks output closed c s fd :
  Forall (word_of 32) argv -> Forall nul_free argv -> argv <> [] -> zlen argv <= 256 ->
  zlen (join 32 argv) < 1024 ->
  (* the client's side of the connection *)
  frame_intact (H := hc) -> (forall fd, takes_all (H := hc) fd) ->
  0 <= h_socket (Host := hc) (a_time c) (a_open c) ->
  arrives (H := hc) (h_socket (Host := hc) (a_time c) (a_open c)) (4 + a_time c) chunks ->
  Forall chunk_ok chunks -> concat chunks = output ->
  (* the server's side *)
  frame_intact (H := hs) -> malloc_serves (H := hs) limit -> takes_all (H := hs) fd ->
  h_read (Host := hs) (a_time s) fd BUFSIZE = Some (request argv) ->
  (forall t, h_popen (Host := hs) t (command argv) = Some (output, closed)) -> closed <> -1 ->
  zlen output + 1024 <= limit -> limit < 2 ^ 31 -> listen_sockfd s ∈ ready_set s ->
  exists c' s',
    client_main (H := hc) (S (length chunks)) argv c = Ret 0 c' /\
    a_trace c' = a_trace c ++
      Write (h_socket (Host := hc) (a_time c) (a_open c)) (request argv) :: map Out chunks /\
    execute_and_response_client (H := hs) fd s = Ret (zlen (request argv)) s' /\
    a_trace s' = a_trace s ++ [Run (command argv); Write fd (concat chunks)] /\
    a_heap s' = a_heap s.
Proof.
  intros HW HN Hne H256 HL HF HT Hs HA HC <- HF' HM HT' HR HP Hcl HO Hlim Hrd.
  destruct (client_main_spec (H := hc) argv chunks c) as (c' & E1 & E2); try done.
  assert (nul_free (join 32 argv)) as Hj by (by apply nul_free_join).
  assert (nul_free (concat chunks)) as Hout.
  { apply Forall_concat. eapply Forall_impl; [exact HC|]. by intros ? (?&?&?). }
  assert (zlen (request argv) < 1024) as Hreq.
  { unfold request, zlen in *. rewrite length_take. lia. }
  destruct (execute_spec (H := hs) limit fd (request argv) (concat chunks) closed s) as (n & E3);
    rewrite ?words_request by done; try done.
  - by apply request_nonempty.
  - by apply Forall_take.
  - change BUFSIZE with 4096. lia.
  - rewrite <- (take_drop SERVER_START_ARG argv), join_app, zlen_app in HL.
    pose proof (zlen_nonneg (join 32 (take SERVER_START_ARG argv))). unfold command. lia.
  - exists c'. eexists. split_and!; [exact E1|exact E2|exact E3| |].
    + rewrite words_request by done. rewrite agent_text_nul_free by done. simpl. by rewrite <- app_assoc.
    + done.
Qed.

(** The limits of the server's arrays are not checked: a request that
    fills the buffer, one of more than 256 words, and one whose command takes
    1024 characters or more each make the server access memory out of bounds. *)
Theorem request_limits `{Host} limit fd data s :
  malloc_serves limit -> 1024 <= limit -> nul_free data ->
  h_read (a_time s) fd BUFSIZE = Some data -> data <> [] ->
  BUFSIZE <= zlen data \/ 256 < zlen (words 32 data) \/ 1024 <= zlen (command (words 32 data)) ->
  exists s', execute_and_response_client fd s = Fault OutOfBounds s'.
Proof.
  intros HM HL Hn HR Hne Hlim. unfold execute_and_response_client. arun. rewrite HR.
  assert (zlen data <> 0) by (destruct data; [done|rewrite zlen_cons; pose proof (zlen_nonneg data); lia]).
  destruct (Z.eqb_spec (zlen data) 0) as [?|_]; [done|].
  destruct (Z.le_gt_cases BUFSIZE (zlen data)) as [Hb|Hb].
  { assert (Z.to_nat (BUFSIZE - zlen data) = O) as -> by lia. rewrite app_nil_r.
    assert (c_string data = None) as ->.
    { clear -Hn. induction Hn as [|c l Hc _ IH]; [done|]. simpl. rewrite IH. by destruct (Z.eqb_spec c 0). }
    by eexists. }
  rewrite request_string by done. arun. unfold a_malloc. arun.
  destruct (h_malloc _ 1024) as [p|] eqn:EM; [|exfalso; eapply (HM _ 1024); [lia|exact EM]].
  arun. rewrite bind_unfold, split_request.
  destruct (_ <=? 256) eqn:Ew; bool_cases; [|by eexists].
  rewrite bind_unfold. unfold runAndGetOutPut. rewrite bind_unfold, (new_out_spec limit) by done.
  rewrite bind_unfold, combineArg_exact by (by apply nul_free_words).
  fold (command (words 32 data)). destruct (_ <? _) eqn:Ec; bool_cases; [|by eexists].
  change MAX_ARGS_SIZE with 1024 in Ec. lia.
Qed.

(** ** Examples *)

Module SuDemo.
(** The lowest free descriptor from 3 on. *)
Definition lowest_fd (open : gset Z) : Z :=
  match list_find (fun fd => fd ∉ open) (seqZ 3 1021) with Some (_, fd) => fd | None => -1 end.

Lemma lowest_fd_fresh open : 0 <= lowest_fd open -> lowest_fd open ∉ open.
Proof.
  unfold lowest_fd. destruct (list_find _ _) as [[i fd]|] eqn:E; [|lia].
  by apply list_find_Some in E as (_ & ? & _).
Qed.

Lemma lowest_fd_range open : (size open < 512)%nat -> 0 <= lowest_fd open < FD_SETSIZE.
Proof.
  intros Hs. unfold lowest_fd. destruct (list_find _ _) as [[i fd]|] eqn:E.
  - apply list_find_Some in E as (E & _). apply lookup_seqZ in E. change FD_SETSIZE with 1024. lia.
  - apply list_find_None in E. exfalso.
    assert (list_to_set (seqZ 3 1021) ⊆ open) as Hsub.
    { intros fd Hf. apply elem_of_list_to_set in Hf. rewrite Forall_forall in E. specialize (E fd Hf).
      by apply dec_stable in E. }
    apply subseteq_size in Hsub. rewrite size_list_to_set, length_seqZ in Hsub by apply NoDup_seqZ. lia.
Qed.

(** A host where nothing fails, [text] is what every read finds at a time,
    and every command prints [output]. *)
#[refine] Definition host (text : nat -> list Z) (output : list Z) : Host := {|
  h_malloc t n := Some (replicate (Z.to_nat n) 170);
  h_stack := replicate 1025 170;
  h_dead_frame t b := b;
  h_popen t cmd := Some (output, 0);
  h_socket t open := lowest_fd open;
  h_bind t port := 0;
  h_listen t n := 0;
  h_connect t port := 0;
  h_select t s := Some s;
  h_accept t open := lowest_fd open;
  h_read t fd n := Some (take (Z.to_nat n) (text t));
  h_write t fd b := zlen b
|}.
Proof.
  - intros t n c [= <-] Hn. by apply zlen_replicate.
  - intros t open. apply lowest_fd_fresh.
  - by intros t s r [= <-].
  - intros t open. apply lowest_fd_fresh.
  - intros t fd n b [= <-] Hn. unfold zlen. rewrite length_take. lia.
  - done.
Defined.

Definition argv : list (list Z) := map str ["SuAgentClient"; "0"; "id"; "-u"]%string.
Definition reply : list Z := str "uid=0(root)" ++ [10].
(** The server reads the client's request at every time; the client finds the
    reply at its fifth call and then the end of the connection. *)
Definition server_host : Host := host (fun _ => request argv) reply.
Definition client_host : Host := host (fun t => if (t =? 4)%nat then reply else []) [].

Definition agent0 : agent := mkAgent 0 ∅ 0 0 0 ∅ [].
Definition server_args : list (list Z) := [str "SuAgentServer"].
(** The server after its start and after a pass that accepts a client. *)
Definition started : agent := match server_start (H := server_host) server_args agent0 with
  | Ret _ s => s | _ => agent0 end.
Definition connected : agent := match server_pass (H := server_host) started with
  | Ret _ s => s | _ => agent0 end.

Lemma started_reach : server_reach (H := server_host) server_args started.
Proof. by eapply (reach_start (H := server_host) _ agent0). Defined.

Lemma connected_pass : server_pass (H := server_host) started = Ret tt connected.
Proof. vm_compute. reflexivity. Qed.

Lemma host_serves text output limit : malloc_serves (H := host text output) limit.
Proof. by intros t n Hn. Qed.

Lemma server_host_good : good_host (H := server_host) 4096.
Proof.
  split; [|done|apply host_serves|intros; apply zlen_nonneg|by exists reply, 0| |by intros|].
  - intros t text Ht E. cbn [h_dead_frame host server_host] in E. assert (0 ∈ args_array text) as Hin.
    { apply elem_of_app. right. apply elem_of_replicate. split; [done|]. change MAX_ARGS_SIZE with 1024 in *. lia. }
    revert E Hin. generalize (args_array text). induction l as [|c l IH]; intros E Hin; [by apply elem_of_nil in Hin|].
    cbn in E. destruct (Z.eqb_spec c 0); [done|]. apply elem_of_cons in Hin as [|Hin]; [congruence|].
    destruct (c_string l); [done|by apply IH].
  - intros t fd. exists (request argv). split; [reflexivity|].
    split; [by apply nul_free_true|by vm_compute|by vm_compute|by vm_compute].
  - intros t open. apply lowest_fd_range.
Qed.

Lemma server_invariant_witness :
  server_ok started /\ server_ok connected /\
  exists read_set new fds, pass_effect (H := server_host) started connected read_set new fds.
Proof.
  apply (server_invariant (H := server_host) server_args started connected);
    [exact started_reach|vm_compute; reflexivity].
Defined.

Lemma server_keeps_serving_witness :
  exists s', server_pass (H := server_host) connected = Ret tt s' /\
    server_reach (H := server_host) server_args s'.
Proof.
  apply (server_keeps_serving (H := server_host) 4096 server_args connected);
    [exact server_host_good| |vm_compute; lia].
  eapply reach_pass; [exact started_reach|exact connected_pass].
Defined.

Lemma argv_words : Forall (word_of 32) argv.
Proof.
  apply (bool_decide_eq_true_1 (Forall (fun w => w <> [] /\ 32 ∉ w) argv)). by vm_compute.
Qed.

Lemma agent_roundtrip_witness :
  exists c' s',
    client_main (H := client_host) 2 argv agent0 = Ret 0 c' /\
    a_trace c' = [Write 3 (str "SuAgentClient 0 id -u"); Out reply] /\
    execute_and_response_client (H := server_host) 4 connected = Ret 21 s' /\
    a_trace s' = a_trace connected ++ [Run (str "id -u "); Write 4 reply] /\
    a_heap s' = 0.
Proof.
  apply (agent_roundtrip client_host server_host 4096 argv [reply] reply 0 agent0 connected 4);
    [exact argv_words|repeat (apply Forall_cons_2; [by apply nul_free_true|]); constructor|done|by vm_compute|by vm_compute
    |by intros|by intros|by vm_compute| | |by vm_compute|by intros|apply host_serves|by intros
    |reflexivity|by intros|lia|by vm_compute|lia|].
  - intros [|[|i]] Hi; [reflexivity|reflexivity|simpl in Hi; lia].
  - apply Forall_singleton. split_and!; [done|by apply nul_free_true|done].
  - apply (bool_decide_eq_true_1 (listen_sockfd connected ∈ ready_set connected)). by vm_compute.
Defined.

(** Three hundred words overrun the array of words. *)
Definition many_words : list Z := concat (replicate 300 [97; 32]).

Lemma request_limits_witness :
  exists s', execute_and_response_client (H := host (fun _ => many_words) []) 4 agent0 =
    Fault OutOfBounds s'.
Proof.
  apply (request_limits (H := host (fun _ => many_words) []) 1024 4 many_words agent0);
    [apply host_serves|lia|by apply nul_free_true|reflexivity|done|right; left; vm_compute; reflexivity].
Defined.
End SuDemo.
