(* ===== verification/Su.v ===== *)
(** * The su program

    [system/extras/su/su.c], the program that changes the identity of its
    process and executes a command, with the caller check taken out, and
    [su1main] of [external/SuAgent/SuAgentServer.c], an older copy of it that
    changes no identity and that nothing calls.

    [cred] is the identity of the process, [SuKernel] the password file and the
    system calls.  A successful [exec] does not return: the run ends with
    [Exit], and what was executed, and as whom, is in the trace. *)

From stdpp Require Import base list numbers strings.
From Stdlib Require Import ZArith Lia.
From S2P Require Import Prelude Text.
Open Scope Z_scope.

Definition AID_ROOT : Z := 0.
Definition AID_SHELL : Z := 2000.

Record cred := mkCred { cr_uid : Z; cr_gid : Z; cr_groups : list Z }.

(** What was executed, with which arguments and by whom. *)
Record execed := mkExec { ex_file : list Z; ex_args : list (list Z); ex_cred : cred }.

Record su_state := mkSu { su_time : nat; su_cred : cred; su_trace : list execed }.

Class SuKernel := {
  getpwnam : list Z -> option (Z * Z);
  k_setgroups : nat -> list Z -> Z;
  k_setgid : nat -> Z -> Z;
  k_setuid : nat -> Z -> Z;
  (** [None]: the program is started; otherwise [errno]. *)
  k_exec : nat -> list Z -> list (list Z) -> option Z;
  (** [errno] after [strerror] and [fprintf]. *)
  k_errno_after : nat -> Z -> Z
}.

Section Su.
Context `{SuKernel}.

Definition su_ask {A} (f : nat -> A) : prog su_state A :=
  fun s => Ret (f (su_time s)) (mkSu (S (su_time s)) (su_cred s) (su_trace s)).

(** ** The identity argument: [uid[,gid[,group]...]] *)

(** [pwtoid]: the user and group of a name, or its number for both. *)
Definition pwtoid (tok : list Z) : Z * Z :=
  match getpwnam tok with
  | Some (u, g) => (u, g)
  | None => let tmpid := u32 (strtol10 tok) in (tmpid, tmpid)
  end.

(** The loop over the further groups; [room] is [*gids_count - gids_found].
    The groups found and what is left of the text. *)
Fixpoint gids_loop (room : nat) (nexttok : option (list Z)) (gids : list Z)
  : list Z * option (list Z) :=
  match room with
  | O => (gids, nexttok)
  | S room' =>
      match strsep 44 nexttok with
      | None => (gids, nexttok)
      | Some (tok, nexttok') => gids_loop room' nexttok' (gids ++ [snd (pwtoid tok)])
      end
  end.

(** [extract_uidgids]: user, group, further groups. *)
Definition extract_uidgids (uidgids : list Z) (gids_count : nat) : Z * Z * list Z :=
  match uidgids with
  | [] => (0, 0, [])
  | _ =>
      match strsep 44 (Some uidgids) with
      | None => (0, 0, [])
      | Some (tok, nexttok) =>
          let '(uid, gid) := pwtoid tok in
          match strsep 44 nexttok with
          | None => (uid, gid, [])
          | Some (tok, nexttok) =>
              let gid := snd (pwtoid tok) in
              (uid, gid, fst (gids_loop gids_count nexttok []))
          end
      end
  end.

(** ** The system calls *)

Definition setgroups (gids : list Z) : prog su_state Z :=
  let* r := su_ask (fun t => k_setgroups t gids) in
  do* (if r =? 0 then modify (fun s => mkSu (su_time s)
        (mkCred (cr_uid (su_cred s)) (cr_gid (su_cred s)) gids) (su_trace s)) else ret tt);
  ret r.
Definition setgid (gid : Z) : prog su_state Z :=
  let* r := su_ask (fun t => k_setgid t gid) in
  do* (if r =? 0 then modify (fun s => mkSu (su_time s)
        (mkCred (cr_uid (su_cred s)) gid (cr_groups (su_cred s))) (su_trace s)) else ret tt);
  ret r.
Definition setuid (uid : Z) : prog su_state Z :=
  let* r := su_ask (fun t => k_setuid t uid) in
  do* (if r =? 0 then modify (fun s => mkSu (su_time s)
        (mkCred uid (cr_gid (su_cred s)) (cr_groups (su_cred s))) (su_trace s)) else ret tt);
  ret r.

(** [execlp], [execvp]: [errno], when they return. *)
Definition exec (file : list Z) (args : list (list Z)) : prog su_state Z :=
  let* r := su_ask (fun t => k_exec t file args) in
  match r with
  | Some errno => ret errno
  | None =>
      do* modify (fun s => mkSu (su_time s) (su_cred s)
            (su_trace s ++ [mkExec file args (su_cred s)]));
      exit 0
  end.

(** An argument vector up to its NULL, as [execvp] reads it. *)
Fixpoint vector (v : list (option (list Z))) : option (list (list Z)) :=
  match v with
  | [] => None
  | None :: _ => Some []
  | Some a :: v' => cons a <$> vector v'
  end.

(** The command part of [main] and [su1main]: [None] when there is none, the
    value to return when [exec] came back.  [argv] has [argc + 1] entries, the
    last NULL; [exec_args] takes [argc - 1] of them from the third. *)
Definition exec_command (argc : nat) (argv : list (option (list Z))) : prog su_state (option Z) :=
  if (argc =? 3)%nat then
    let* file := lift NullDeref (mjoin (argv !! 2%nat)) in
    let* e := exec file [file] in ret (Some e)
  else if (3 <? argc)%nat then
    if (2 + (argc - 1) <=? length argv)%nat then
      let exec_args := take (argc - 1) (drop 2 argv) in
      let* file := lift NullDeref (mjoin (argv !! 2%nat)) in
      let* args := lift OutOfBounds (vector exec_args) in
      let* e := exec file args in ret (Some e)
    else fault_with OutOfBounds
  else ret None.

(** ** The programs *)

(** [main] of [su.c] from the change of identity on. *)
Definition su_as (uid gid : Z) (argc : nat) (argv : list (option (list Z))) : prog su_state Z :=
  let* g := setgid gid in
  let* u := if g =? 0 then setuid uid else ret g in
  if negb (u =? 0) then ret 1
  else
    let* c := exec_command argc argv in
    match c with
    | Some errno => ret (- errno)
    | None => do* exec (str "/system/bin/sh") [str "sh"]; ret 1
    end.

(** [main] of [su.c]: the caller's identity is looked at and not used. *)
Definition su_main (argc : nat) (argv : list (option (list Z))) : prog su_state Z :=
  if (argc <? 2)%nat then su_as 0 0 argc argv
  else
    let* arg := lift NullDeref (mjoin (argv !! 1%nat)) in
    let '(uid, gid, gids) := extract_uidgids arg 10 in
    match gids with
    | [] => su_as uid gid argc argv
    | _ =>
        let* r := setgroups gids in
        if negb (r =? 0) then ret 1 else su_as uid gid argc argv
    end.

(** [su1main]: the identity it works out is not set; the [errno] it returns is
    the one after its message. *)
Definition su1main (argc : nat) (argv : list (option (list Z))) : prog su_state Z :=
  do* (if (argc <? 2)%nat then ret tt else do* lift NullDeref (mjoin (argv !! 1%nat)); ret tt);
  let* c := exec_command argc argv in
  match c with
  | Some errno => let* e := su_ask (fun t => k_errno_after t errno) in ret (- e)
  | None => do* exec (str "/system/bin/sh") [str "sh"]; ret 1
  end.
End Su.

(** ** Specification *)

(** User, group and further groups an identity argument asks for: the first
    field names the user, and the group too unless a second field does; the
    next ten fields are further groups. *)
Definition identity `{SuKernel} (arg : list Z) : Z * Z * list Z :=
  match arg, fields 44 arg with
  | [], _ | _, [] => (0, 0, [])
  | _, [f] => (fst (pwtoid f), snd (pwtoid f), [])
  | _, f :: g :: rest => (fst (pwtoid f), snd (pwtoid g), map (fun t => snd (pwtoid t)) (take 10 rest))
  end.

(** The command of an argument list: the words from the third on, or a shell. *)
Definition su_command (args : list (list Z)) : list Z * list (list Z) :=
  match drop 2 args with
  | [] => (str "/system/bin/sh", [str "sh"])
  | file :: rest => (file, file :: rest)
  end.

(** The identity after [su] changed it. *)
Definition su_identity `{SuKernel} (args : list (list Z)) (c : cred) : cred :=
  match args !! 1%nat with
  | None => mkCred 0 0 (cr_groups c)
  | Some arg =>
      let '(uid, gid, gids) := identity arg in
      mkCred uid gid (match gids with [] => cr_groups c | _ => gids end)
  end.

(** The vector C programs get: the arguments and a NULL. *)
Definition argv_of (args : list (list Z)) : list (option (list Z)) := map Some args ++ [None].

(** ** Lemmas *)

Section SuFacts.
Context `{SuKernel}.

Lemma gids_loop_spec room next gids :
  fst (gids_loop room next gids) =
    gids ++ map (fun t => snd (pwtoid t))
      (take room (match next with Some r => fields 44 r | None => [] end)).
Proof.
  revert next gids. induction room as [|room IH]; intros next gids; cbn [gids_loop].
  - by rewrite take_0, app_nil_r.
  - destruct next as [r|]; [|by rewrite take_nil, app_nil_r]. cbn [strsep fmap option_fmap option_map].
    destruct (cut_at 44 r) as [t r'] eqn:E. rewrite IH, (fields_cut _ _ _ _ E). cbn [take map].
    by rewrite <- app_assoc.
Qed.

Lemma extract_identity arg : extract_uidgids arg 10 = identity arg.
Proof.
  unfold extract_uidgids, identity. destruct arg as [|c arg]; [done|].
  cbn [strsep fmap option_fmap option_map]. destruct (cut_at 44 (c :: arg)) as [t r] eqn:E.
  rewrite (fields_cut _ _ _ _ E). destruct (pwtoid t) as [u g].
  destruct r as [r|]; [|done]. cbn [strsep fmap option_fmap option_map].
  destruct (cut_at 44 r) as [t' r'] eqn:E'. rewrite (fields_cut _ _ _ _ E'). cbn [fst].
  by rewrite gids_loop_spec.
Qed.

Lemma vector_argv args : vector (argv_of args) = Some args.
Proof. induction args as [|a args IH]; [done|]. unfold argv_of in *. cbn [map app vector]. by rewrite IH. Qed.

Lemma argv_lookup args i : mjoin (argv_of args !! i) = args !! i.
Proof.
  unfold argv_of. rewrite lookup_app, list_lookup_fmap. destruct (args !! i) eqn:E; [done|].
  cbn. rewrite length_map. by destruct (i - length args)%nat.
Qed.

(** The kernel refuses nothing. *)
Definition granted : Prop :=
  (forall t l, k_setgroups t l = 0) /\ (forall t g, k_setgid t g = 0) /\
  (forall t u, k_setuid t u = 0) /\ (forall t f a, k_exec t f a = None).

(** [file] is executed by [c], or the kernel refused something and nothing is. *)
Definition exec_result {A} (s : su_state) (file : list Z) (args : list (list Z)) (c : cred)
    (r : result su_state A) : Prop :=
  match r with
  | Ret _ s' => su_trace s' = su_trace s /\ ~ granted
  | Exit n s' => n = 0 /\ su_trace s' = su_trace s ++ [mkExec file args c]
  | Fault _ _ => False
  end.

Lemma exec_then {A} file args (k : Z -> prog su_state A) s s0 :
  (forall e s1, su_trace s1 = su_trace s0 -> ~ granted ->
     exec_result s0 file args (su_cred s) (k e s1)) ->
  su_trace s = su_trace s0 ->
  exec_result s0 file args (su_cred s) (bind (exec file args) k s).
Proof.
  intros Hk E. unfold exec, su_ask. rewrite !bind_unfold. cbn.
  destruct (k_exec _ file args) as [e|] eqn:EX; cbn; [|by rewrite E].
  apply Hk; [done|]. intros (_ & _ & _ & HG). by rewrite HG in EX.
Qed.

(** The command part of [main] on a well-formed argument vector. *)
Lemma exec_command_spec {A} args (k : option Z -> prog su_state A) s s0 :
  su_trace s = su_trace s0 ->
  (forall e s1, su_trace s1 = su_trace s0 -> ~ granted ->
     exec_result s0 (fst (su_command args)) (snd (su_command args)) (su_cred s) (k (Some e) s1)) ->
  (drop 2 args = [] ->
     exec_result s0 (fst (su_command args)) (snd (su_command args)) (su_cred s) (k None s)) ->
  exec_result s0 (fst (su_command args)) (snd (su_command args)) (su_cred s)
    (bind (exec_command (length args) (argv_of args)) k s).
Proof.
  intros ET Hk Hn. unfold exec_command. destruct (length args =? 3)%nat eqn:E3.
  - apply Nat.eqb_eq in E3. destruct args as [|a [|b [|f [|? ?]]]]; try done.
    rewrite bind_bind, argv_lookup. cbn [lookup list_lookup]. rewrite bind_lift_Some, bind_bind.
    apply exec_then; [|done]. intros e s1 E1 HG. by apply Hk.
  - destruct (3 <? length args)%nat eqn:E4.
    + apply Nat.ltb_lt in E4.
      assert (length (argv_of args) = S (length args)) as EL by (unfold argv_of; rewrite length_app, length_map; simpl; lia).
      rewrite EL. rewrite (proj2 (Nat.leb_le _ _)) by lia.
      rewrite argv_lookup. destruct args as [|a [|b [|f rest]]]; try (simpl in E4; lia).
      rewrite bind_bind. cbn [lookup list_lookup]. rewrite bind_lift_Some.
      change (drop 2 (argv_of (a :: b :: f :: rest))) with (argv_of (f :: rest)).
      rewrite take_ge by (unfold argv_of; rewrite length_app, length_map; simpl; lia).
      rewrite vector_argv, bind_bind, bind_lift_Some, bind_bind. apply exec_then; [|done].
      intros e s1 E1 HG. by apply Hk.
    + apply Nat.ltb_ge in E4. apply Nat.eqb_neq in E3. rewrite bind_ret. apply Hn.
      apply drop_ge. lia.
Qed.
End SuFacts.

(** A system call that changes the identity. *)
Lemma cred_call_then `{SuKernel} {A} (call : prog su_state Z) (c' : cred) (k : Z -> prog su_state A) s0 file args c s
    (r : Z) (Hcall : call s = Ret r (mkSu (S (su_time s)) (if r =? 0 then c' else su_cred s) (su_trace s))) :
  su_trace s = su_trace s0 ->
  (r <> 0 -> forall s1, su_trace s1 = su_trace s0 -> exec_result s0 file args c (k r s1)) ->
  (r = 0 -> forall s1, su_trace s1 = su_trace s0 -> su_cred s1 = c' -> exec_result s0 file args c (k 0 s1)) ->
  exec_result s0 file args c (bind call k s).
Proof.
  intros ET Hn Hz. rewrite bind_unfold, Hcall. destruct (Z.eqb_spec r 0) as [E|Hr].
  - rewrite E. by apply Hz.
  - by apply Hn.
Qed.

Section SuMain.
Context `{SuKernel}.

Lemma setgroups_run gids s : setgroups gids s =
  Ret (k_setgroups (su_time s) gids) (mkSu (S (su_time s))
    (if k_setgroups (su_time s) gids =? 0
     then mkCred (cr_uid (su_cred s)) (cr_gid (su_cred s)) gids else su_cred s) (su_trace s)).
Proof. unfold setgroups, su_ask, bind. cbn. by destruct (_ =? 0). Qed.

Lemma setgid_run gid s : setgid gid s =
  Ret (k_setgid (su_time s) gid) (mkSu (S (su_time s))
    (if k_setgid (su_time s) gid =? 0
     then mkCred (cr_uid (su_cred s)) gid (cr_groups (su_cred s)) else su_cred s) (su_trace s)).
Proof. unfold setgid, su_ask, bind. cbn. by destruct (_ =? 0). Qed.

Lemma setuid_run uid s : setuid uid s =
  Ret (k_setuid (su_time s) uid) (mkSu (S (su_time s))
    (if k_setuid (su_time s) uid =? 0
     then mkCred uid (cr_gid (su_cred s)) (cr_groups (su_cred s)) else su_cred s) (su_trace s)).
Proof. unfold setuid, su_ask, bind. cbn. by destruct (_ =? 0). Qed.

(** From the point where the user and group are known. *)
Lemma su_switch args uid gid s s0 :
  su_trace s = su_trace s0 ->
  exec_result s0 (fst (su_command args)) (snd (su_command args)) (mkCred uid gid (cr_groups (su_cred s)))
    (su_as uid gid (length args) (argv_of args) s).
Proof.
  intros ET. unfold su_as. eapply cred_call_then; [apply setgid_run|done| |].
  - intros Hr s1 E1. rewrite (proj2 (Z.eqb_neq _ _) Hr), bind_ret, (proj2 (Z.eqb_neq _ _) Hr). split; [done|]. intros (HA&HB&HC&_); apply Hr; auto.
  - intros _ s1 E1 C1. cbn [Z.eqb]. eapply cred_call_then; [apply setuid_run|done| |].
    + intros Hr s2 E2. rewrite (proj2 (Z.eqb_neq _ _) Hr). split; [done|]. intros (HA&HB&HC&_); apply Hr; auto.
    + intros _ s2 E2 C2. cbn [Z.eqb negb]. rewrite C1 in C2. cbn in C2. rewrite <- C2.
      apply exec_command_spec; [done| |].
      * intros e s3 E3 HG. done.
      * intros Hd. assert (su_command args = (str "/system/bin/sh", [str "sh"])) as ->
          by (unfold su_command; by rewrite Hd).
        apply exec_then; [|done]. intros e s3 E3 HG. done.
Qed.

Lemma su_main_spec (args : list (list Z)) (s : su_state) :
  let '(file, eargs) := su_command args in
  exec_result s file eargs (su_identity args (su_cred s)) (su_main (length args) (argv_of args) s).
Proof.
  rewrite (surjective_pairing (su_command args)). unfold su_main, su_identity.
  destruct args as [|a args]; [by apply (su_switch [] 0 0 s s)|].
  destruct args as [|arg args]; [by apply (su_switch [a] 0 0 s s)|].
  set (all := a :: arg :: args). change (length all <? 2)%nat with false. cbv iota.
  rewrite argv_lookup. cbn [lookup list_lookup all]. rewrite bind_lift_Some, extract_identity.
  destruct (identity arg) as [[uid gid] gids]. destruct gids as [|g0 gids]; [by apply su_switch|].
  eapply cred_call_then; [apply setgroups_run|done| |].
  - intros Hr s1 E1. rewrite (proj2 (Z.eqb_neq _ _) Hr). split; [done|]. intros (HA&HB&HC&_); apply Hr; auto.
  - intros _ s1 E1 C1. cbn [Z.eqb negb].
    pose proof (su_switch all uid gid s1 s E1) as HS. by rewrite C1 in HS.
Qed.

(** The older copy in the agent executes its command as the caller. *)
Lemma su1main_as_caller (args : list (list Z)) (s : su_state) :
  exec_result s (fst (su_command args)) (snd (su_command args)) (su_cred s)
    (su1main (length args) (argv_of args) s).
Proof.
  unfold su1main.
  assert (forall B (k : unit -> prog su_state B), bind
    (if (length args <? 2)%nat then ret tt
     else do* lift NullDeref (mjoin (argv_of args !! 1%nat)); ret tt) k s = k tt s) as E.
  { intros B k. destruct args as [|a [|b args]]; [done|done|]. by rewrite argv_lookup. }
  rewrite E. apply exec_command_spec; [done| |].
  - intros e s1 E1 HG. split; [exact E1|done].
  - intros Hd. assert (su_command args = (str "/system/bin/sh", [str "sh"])) as ->
      by (unfold su_command; by rewrite Hd).
    apply exec_then; [|done]. intros e s1 E1 HG. done.
Qed.

(** [su] executes one program at most, and only with the identity its
    argument asks for: the user and group of the first two fields, the ten
    groups after them (the caller's when there are none), with the words from
    the third on as the command; when any call that changes the identity
    fails, or the program cannot be started, nothing is
    executed.  It never
    accesses its arguments out of bounds. *)
Theorem su_executes_as_asked (args : list (list Z)) (s : su_state) :
  let '(file, eargs) := su_command args in
  exec_result s file eargs (su_identity args (su_cred s)) (su_main (length args) (argv_of args) s).
Proof. apply su_main_spec. Qed.

(** Nothing of the caller's identity decides: where the kernel grants the
    changes of identity (the program is set-user-id root), every caller gets
    its command executed as the user it names. *)
Theorem su_any_caller (args : list (list Z)) (s : su_state) :
  granted ->
  exists s', su_main (length args) (argv_of args) s = Exit 0 s' /\
    su_trace s' = su_trace s ++ [mkExec (fst (su_command args)) (snd (su_command args))
                                   (su_identity args (su_cred s))].
Proof.
  intros HG. pose proof (su_main_spec args s) as HE. rewrite (surjective_pairing (su_command args)) in HE.
  unfold exec_result in HE. destruct (su_main _ _ s) as [r s'|n s'|f s']; [by destruct HE| |done].
  destruct HE as [-> HE]. by exists s'.
Qed.
End SuMain.

(** ** Examples *)

Module SuExample.
(** Two accounts; nothing is refused. *)
Definition kernel : SuKernel := {|
  getpwnam tok := if bool_decide (tok = str "system") then Some (1000, 1000)
                  else if bool_decide (tok = str "shell") then Some (2000, 2000) else None;
  k_setgroups t l := 0; k_setgid t g := 0; k_setuid t u := 0; k_exec t f a := None;
  k_errno_after t e := e
|}.

(** An application with uid 10057 asks for [id] as system with group shell. *)
Definition args : list (list Z) := map str ["su"; "system,shell,3003,3006"; "id"; "-u"]%string.
Definition app : su_state := mkSu 0 (mkCred 10057 10057 [3003]) [].

Lemma su_any_caller_witness :
  exists s', su_main (H := kernel) 4 (argv_of args) app = Exit 0 s' /\
    su_trace s' = [mkExec (str "id") [str "id"; str "-u"] (mkCred 1000 2000 [3003; 3006])].
Proof. apply (su_any_caller (H := kernel) args app). split_and!; by intros. Defined.

(** Without an argument [su] is a root shell. *)
Example su_root_shell :
  returned (su_main (H := kernel) 1 (argv_of [str "su"]) app) = None /\
  match su_main (H := kernel) 1 (argv_of [str "su"]) app with
  | Exit 0 s => su_trace s = [mkExec (str "/system/bin/sh") [str "sh"] (mkCred 0 0 [3003])]
  | _ => False
  end.
Proof. vm_compute. done. Qed.
End SuExample.
