(* ===== verification/Hello.v ===== *)
(** * The hello driver, its hardware module and its test program

    [kernel/drivers/hello/hello.c]: a four-byte register behind a character
    device and an attribute file, guarded by a semaphore;
    [hardware/qcom/hello/hello.c], the hardware module over the device file;
    [external/hello/hello.c], the test program.

    [hworld] holds the module's variables and the resources it has registered.
    An object that was freed is [None], a pointer to it a flag, so a use after
    the release is a fault.  The register is kept as the four bytes the device
    file copies; [register] is its value as an [int].

    The bodies of the calls are written as [hcode], one constructor per access
    to the semaphore or to a byte of the register.  [hexec] runs a body as a
    whole; [istep] runs the same bodies of any number of callers interleaved,
    one access at a time, where the semaphore alone keeps a call in one piece. *)

From stdpp Require Import base list numbers strings gmap.
From Stdlib Require Import ZArith Lia.
From S2P Require Import Prelude Text Kernel.
Open Scope Z_scope.

Definition PAGE_SIZE : Z := 4096.
Definition sizeof_val : Z := 4.

(** [struct hello_android_dev]; its [cdev] is a resource of [hworld]. *)
Record hello_android_dev := mkHello { hval : list Z; hsem : Z }.

Definition register (d : hello_android_dev) : Z := s32 (le_combine (hval d)).
Definition int_bytes (v : Z) : list Z := le_split 4 (u32 v).

Record hworld := mkH {
  hw_time : nat;
  hello_major : Z;
  hello_minor : Z;
  hello_class : kptr;
  hello_dev : bool;                     (* the pointer hello_dev *)
  hello_obj : option hello_android_dev; (* the object it points to *)
  hw_drvdata : bool;
  hw_region : bool;
  hw_cdev : bool;
  hw_class : bool;
  hw_device : bool;
  hw_attr : bool
}.

Class HelloKernel := {
  hk_interrupted : nat -> bool;
  (** [alloc_chrdev_region]: a negative error, or the numbers. *)
  alloc_chrdev_region : nat -> Z + (Z * Z);
  alloc_chrdev_region_error : forall t e, alloc_chrdev_region t = inl e -> e < 0;
  hk_kmalloc : nat -> bool;
  cdev_add : nat -> Z;
  (** An object or an error pointer, never NULL. *)
  hk_class_create : nat -> kptr;
  hk_class_create_ok : forall t, match hk_class_create t with PNull => False | PErr e => e < 0 | PObj => True end;
  hk_device_create : nat -> kptr;
  hk_device_create_ok : forall t, match hk_device_create t with PNull => False | PErr e => e < 0 | PObj => True end;
  device_create_file : nat -> Z;
  (** The number of bytes that could not be copied. *)
  copy_to_user : nat -> Z;
  copy_from_user : nat -> Z;
  (** [simple_strtol(buf, NULL, 10)] reads a decimal number up to the first
      character that is not a digit. *)
  simple_strtol : list Z -> Z;
  simple_strtol_decimal : forall n c r,
    - 2 ^ 31 <= n < 2 ^ 31 -> ~ (48 <= c <= 57) -> c <> 45 -> simple_strtol (sdecimal n ++ c :: r) = n
}.

Definition htick (w : hworld) : hworld :=
  mkH (S (hw_time w)) (hello_major w) (hello_minor w) (hello_class w) (hello_dev w) (hello_obj w)
    (hw_drvdata w) (hw_region w) (hw_cdev w) (hw_class w) (hw_device w) (hw_attr w).
Definition set_numbers (a b : Z) (w : hworld) : hworld :=
  mkH (hw_time w) a b (hello_class w) (hello_dev w) (hello_obj w)
    (hw_drvdata w) (hw_region w) (hw_cdev w) (hw_class w) (hw_device w) (hw_attr w).
Definition set_class_ptr (p : kptr) (w : hworld) : hworld :=
  mkH (hw_time w) (hello_major w) (hello_minor w) p (hello_dev w) (hello_obj w)
    (hw_drvdata w) (hw_region w) (hw_cdev w) (hw_class w) (hw_device w) (hw_attr w).
Definition set_dev_ptr (p : bool) (w : hworld) : hworld :=
  mkH (hw_time w) (hello_major w) (hello_minor w) (hello_class w) p (hello_obj w)
    (hw_drvdata w) (hw_region w) (hw_cdev w) (hw_class w) (hw_device w) (hw_attr w).
Definition set_obj (d : option hello_android_dev) (w : hworld) : hworld :=
  mkH (hw_time w) (hello_major w) (hello_minor w) (hello_class w) (hello_dev w) d
    (hw_drvdata w) (hw_region w) (hw_cdev w) (hw_class w) (hw_device w) (hw_attr w).
Definition set_hdrvdata (p : bool) (w : hworld) : hworld :=
  mkH (hw_time w) (hello_major w) (hello_minor w) (hello_class w) (hello_dev w) (hello_obj w)
    p (hw_region w) (hw_cdev w) (hw_class w) (hw_device w) (hw_attr w).
Definition set_region (b : bool) (w : hworld) : hworld :=
  mkH (hw_time w) (hello_major w) (hello_minor w) (hello_class w) (hello_dev w) (hello_obj w)
    (hw_drvdata w) b (hw_cdev w) (hw_class w) (hw_device w) (hw_attr w).
Definition set_cdev (b : bool) (w : hworld) : hworld :=
  mkH (hw_time w) (hello_major w) (hello_minor w) (hello_class w) (hello_dev w) (hello_obj w)
    (hw_drvdata w) (hw_region w) b (hw_class w) (hw_device w) (hw_attr w).
Definition set_class (b : bool) (w : hworld) : hworld :=
  mkH (hw_time w) (hello_major w) (hello_minor w) (hello_class w) (hello_dev w) (hello_obj w)
    (hw_drvdata w) (hw_region w) (hw_cdev w) b (hw_device w) (hw_attr w).
(** The class device goes with its attribute files and its driver data. *)
Definition set_device (b : bool) (w : hworld) : hworld :=
  mkH (hw_time w) (hello_major w) (hello_minor w) (hello_class w) (hello_dev w) (hello_obj w)
    (if b then hw_drvdata w else false) (hw_region w) (hw_cdev w) (hw_class w) b
    (if b then hw_attr w else false).
Definition set_attr (b : bool) (w : hworld) : hworld :=
  mkH (hw_time w) (hello_major w) (hello_minor w) (hello_class w) (hello_dev w) (hello_obj w)
    (hw_drvdata w) (hw_region w) (hw_cdev w) (hw_class w) (hw_device w) b.

(** ** The accesses of a call *)

Inductive hcode :=
  | Down (k : bool -> hcode)           (* down_interruptible: whether a signal came *)
  | CopyTo (k : Z -> hcode)            (* how many bytes copy_to_user will not copy *)
  | CopyFrom (k : Z -> hcode)          (* the same for copy_from_user *)
  | Load (i : nat) (k : Z -> hcode)    (* byte i of dev->val *)
  | Store (i : nat) (v : Z) (k : hcode)
  | UpReturn (r : Z * list Z)          (* out: up(&dev->sem); return *)
  | Return (r : Z * list Z).

(** The bytes from [i] on, and stores from [i] on. *)
Fixpoint loads (n i : nat) (got : list Z) (k : list Z -> hcode) : hcode :=
  match n with O => k got | S n' => Load i (fun v => loads n' (S i) (got ++ [v]) k) end.
Fixpoint stores (i : nat) (b : list Z) (k : hcode) : hcode :=
  match b with [] => k | v :: b' => Store i v (stores (S i) b' k) end.

(** How many of the four bytes are copied when [left] are not. *)
Definition reached (left : Z) : nat := Nat.min 4 (Z.to_nat (sizeof_val - left)).

(** What [copy_from_user] stores: a copy that fails half-way leaves zeros in the
    bytes it did not reach. *)
Definition copied (buf : list Z) (left : Z) : list Z :=
  let got := take (Z.to_nat (sizeof_val - left)) buf in got ++ replicate (4 - length got) 0.

Definition read_code (count : Z) : hcode :=
  Down (fun intr =>
    if intr then Return (- ERESTARTSYS, [])
    else if count <? sizeof_val then UpReturn (0, [])
    else CopyTo (fun left => loads (reached left) 0 [] (fun got =>
      UpReturn (if negb (left =? 0) then - EFAULT else sizeof_val, got)))).

Definition write_code (buf : list Z) : hcode :=
  Down (fun intr =>
    if intr then Return (- ERESTARTSYS, [])
    else if negb (zlen buf =? sizeof_val) then UpReturn (0, [])
    else CopyFrom (fun left => stores 0 (copied buf left)
      (UpReturn (if negb (left =? 0) then - EFAULT else sizeof_val, [])))).

Definition get_code : hcode :=
  Down (fun intr =>
    if intr then Return (- ERESTARTSYS, [])
    else loads 4 0 [] (fun b =>
      let text := sdecimal (register (mkHello b 0)) ++ str "/n" in
      UpReturn (zlen text, snprintf PAGE_SIZE text))).

Definition set_code (v count : Z) : hcode :=
  Down (fun intr =>
    if intr then Return (- ERESTARTSYS, []) else stores 0 (int_bytes v) (UpReturn (count, []))).

Section Hello.
Context `{HelloKernel}.

Definition hask {A} (f : nat -> A) : prog hworld A := fun w => Ret (f (hw_time w)) (htick w).
Definition hgets {A} (f : hworld -> A) : prog hworld A := fun w => Ret (f w) w.

(** [p->...] of a pointer to the device object. *)
Definition hderef (p : bool) : prog hworld hello_android_dev :=
  if p then let* o := hgets hello_obj in lift UseAfterFree o else fault_with NullDeref.
Definition hput (d : hello_android_dev) : prog hworld unit := modify (set_obj (Some d)).

Definition hdown (p : bool) : prog hworld bool :=
  let* d := hderef p in
  let* intr := hask hk_interrupted in
  if intr then ret true
  else if 0 <? hsem d then do* hput (mkHello (hval d) (hsem d - 1)); ret false
  else fault_with Deadlock.
Definition hup (p : bool) : prog hworld unit :=
  let* d := hderef p in hput (mkHello (hval d) (hsem d + 1)).

(** ** The device file; [p] is [filp->private_data] *)

Definition hello_open (inode : bool) : prog hworld bool := ret inode.
Definition hello_release : prog hworld Z := ret 0.

(** A body run as a whole. *)
Fixpoint hexec (p : bool) (c : hcode) : prog hworld (Z * list Z) :=
  match c with
  | Down k => let* intr := hdown p in hexec p (k intr)
  | CopyTo k => let* left := hask copy_to_user in hexec p (k left)
  | CopyFrom k => let* left := hask copy_from_user in hexec p (k left)
  | Load i k => let* d := hderef p in let* v := lift OutOfBounds (hval d !! i) in hexec p (k v)
  | Store i v k => let* d := hderef p in do* hput (mkHello (<[i := v]> (hval d)) (hsem d)); hexec p k
  | UpReturn r => do* hup p; ret r
  | Return r => ret r
  end.

(** The result and the bytes put in the caller's buffer. *)
Definition hello_read (p : bool) (count : Z) : prog hworld (Z * list Z) := hexec p (read_code count).

Definition hello_write (p : bool) (buf : list Z) : prog hworld Z :=
  let* r := hexec p (write_code buf) in ret (fst r).

(** ** The attribute file *)

Definition hello_get_val (p : bool) : prog hworld (Z * list Z) := hexec p get_code.

Definition hello_set_val (p : bool) (buf : list Z) (count : Z) : prog hworld Z :=
  let* r := hexec p (set_code (s32 (simple_strtol buf)) count) in ret (fst r).

Definition hello_val_show : prog hworld (Z * list Z) :=
  let* p := hgets hw_drvdata in hello_get_val p.
Definition hello_val_store (buf : list Z) (count : Z) : prog hworld Z :=
  let* p := hgets hw_drvdata in hello_set_val p buf count.

(** ** Loading and unloading the module *)

Definition hello_create_proc : prog hworld unit := ret tt.
Definition hello_remove_proc : prog hworld unit := ret tt.

(** [__hello_setup_dev]: the object is cleared, registered, then initialised. *)
Definition hello_setup_dev : prog hworld Z :=
  do* hput (mkHello [0; 0; 0; 0] 0);
  let* err := hask cdev_add in
  if negb (err =? 0) then ret err
  else
    do* modify (set_cdev true);
    do* hput (mkHello [0; 0; 0; 0] 1);
    ret 0.

Definition hello_init : prog hworld Z :=
  let unregister (err : Z) : prog hworld Z := do* modify (set_region false); ret err in
  let cleanup err := do* modify (set_obj None); unregister err in
  let destroy_cdev err := do* modify (set_cdev false); cleanup err in
  let destroy_class err := do* modify (set_class false); destroy_cdev err in
  let destroy_device err := do* modify (set_device false); destroy_class err in
  let* r := hask alloc_chrdev_region in
  match r with
  | inl err => ret err
  | inr (major, minor) =>
      do* modify (set_region true);
      do* modify (set_numbers major minor);
      let* ok := hask hk_kmalloc in
      do* modify (set_dev_ptr ok);
      if negb ok then unregister (- ENOMEM)
      else
        let* err := hello_setup_dev in
        if negb (err =? 0) then cleanup err
        else
          let* c := hask hk_class_create in
          do* modify (set_class_ptr c);
          if IS_ERR c then destroy_cdev (PTR_ERR c)
          else
            do* modify (set_class true);
            let* temp := hask hk_device_create in
            if IS_ERR temp then destroy_class (PTR_ERR temp)
            else
              do* modify (set_device true);
              let* err := hask device_create_file in
              if err <? 0 then destroy_device err
              else
                do* modify (set_attr true);
                do* modify (set_hdrvdata true);
                do* hello_create_proc;
                ret 0
  end.

Definition hello_exit : prog hworld unit :=
  do* hello_remove_proc;
  let* c := hgets hello_class in
  do* (match c with
       | PNull => ret tt
       | _ => do* modify (set_device false); modify (set_class false)
       end);
  let* p := hgets hello_dev in
  do* (if p then do* modify (set_cdev false); modify (set_obj None) else ret tt);
  modify (set_region false).

(** ** The hardware module: [p] stands for the open device file *)

(** [hello_device_open]: the method table, or none; [open] the descriptor. *)
Definition hello_device_open (alloc open : bool) : Z * bool :=
  if negb alloc then (- EFAULT, false) else if negb open then (- EFAULT, false) else (0, true).
Definition hello_device_close (p : bool) : prog hworld Z := hello_release.

Definition hal_set_val (p : bool) (v : Z) : prog hworld Z :=
  do* hello_write p (int_bytes v); ret 0.

(** [val] is the variable the caller passes the address of; [None] is NULL. *)
Definition hal_get_val (p : bool) (val : option Z) : prog hworld (Z * option Z) :=
  match val with
  | None => ret (- EFAULT, None)
  | Some old =>
      let* r := hello_read p sizeof_val in
      let b := snd r in
      ret (0, Some (s32 (le_combine (b ++ drop (length b) (int_bytes old)))))
  end.

(** ** The test program: what it prints between its messages *)

Definition hello_main (open : bool) : prog hworld (Z * list (list Z)) :=
  if negb open then ret (-1, [])
  else
    let* r1 := hello_read true sizeof_val in
    let v1 := s32 (le_combine (snd r1 ++ drop (length (snd r1)) (int_bytes 0))) in
    do* hello_write true (int_bytes 5);
    let* r2 := hello_read true sizeof_val in
    let v2 := s32 (le_combine (snd r2 ++ drop (length (snd r2)) (int_bytes 5))) in
    ret (0, [sdecimal v1 ++ str "."; sdecimal v2 ++ str "."]).
End Hello.

(** ** Lemmas *)

(** The driver is loaded and nobody is inside it. *)
Definition loaded (w : hworld) (d : hello_android_dev) : Prop :=
  hello_obj w = Some d /\ hsem d = 1 /\ hw_drvdata w = true /\ length (hval d) = 4%nat /\ bytes (hval d).

Section HelloFacts.
Context `{HelloKernel}.

Lemma bind_hask {A B} (f : nat -> A) (k : A -> prog hworld B) w : bind (hask f) k w = k (f (hw_time w)) (htick w).
Proof. reflexivity. Qed.

Lemma bind_hgets {A B} (f : hworld -> A) (k : A -> prog hworld B) w : bind (hgets f) k w = k (f w) w.
Proof. reflexivity. Qed.

Lemma bind_hput {B} d (k : unit -> prog hworld B) w : bind (hput d) k w = k tt (set_obj (Some d) w).
Proof. reflexivity. Qed.

Lemma bind_hderef {B} d (k : hello_android_dev -> prog hworld B) w :
  hello_obj w = Some d -> bind (hderef true) k w = k d w.
Proof. intros E. unfold hderef. by rewrite bind_bind, bind_hgets, E. Qed.

Lemma bind_hdown {B} d (k : bool -> prog hworld B) w :
  hello_obj w = Some d -> hsem d = 1 ->
  bind (hdown true) k w =
    if hk_interrupted (hw_time w) then k true (htick w)
    else k false (set_obj (Some (mkHello (hval d) 0)) (htick w)).
Proof.
  intros E Es. unfold hdown. rewrite bind_bind, (bind_hderef d), bind_bind, bind_hask by done.
  destruct (hk_interrupted _); [done|]. by rewrite Es.
Qed.

Lemma bind_hup {B} d (k : unit -> prog hworld B) w :
  hello_obj w = Some d ->
  bind (hup true) k w = k tt (set_obj (Some (mkHello (hval d) (hsem d + 1))) w).
Proof. intros E. unfold hup. by rewrite bind_bind, (bind_hderef d). Qed.

Lemma int_bytes_length v : length (int_bytes v) = 4%nat.
Proof. done. Qed.

Lemma register_int_bytes v n : - 2 ^ 31 <= v < 2 ^ 31 -> register (mkHello (int_bytes v) n) = v.
Proof.
  intros Hv. unfold register, int_bytes. cbn [hval]. rewrite le_combine_split.
  change (256 ^ Z.of_nat 4) with (2 ^ 32). unfold u32. rewrite Zmod_mod.
  unfold s32. rewrite Zplus_mod_idemp_l, Z.mod_small; lia.
Qed.

Lemma int_bytes_register d : length (hval d) = 4%nat -> bytes (hval d) -> int_bytes (register d) = hval d.
Proof.
  intros Hl Hb. unfold register, int_bytes, u32, s32. rewrite Zminus_mod, Zmod_mod, <- Zminus_mod.
  rewrite Z.add_simpl_r. pose proof (le_combine_bound _ Hb) as Hr. unfold zlen in Hr. rewrite Hl in Hr.
  change (256 ^ Z.of_nat 4) with (2 ^ 32) in Hr. rewrite Z.mod_small by done.
  rewrite <- Hl. by apply le_split_combine.
Qed.

Lemma copied_whole buf : length buf = 4%nat -> copied buf 0 = buf.
Proof.
  intros Hl. unfold copied. change (Z.to_nat (sizeof_val - 0)) with 4%nat.
  rewrite take_ge, Hl by lia. apply app_nil_r.
Qed.

Lemma copied_bytes buf left : bytes buf -> bytes (copied buf left).
Proof.
  intros Hb. unfold copied. apply bytes_app. split; [by apply Forall_take|].
  apply Forall_replicate. unfold is_byte. lia.
Qed.
End HelloFacts.

Ltac hrun := repeat first
  [ rewrite bind_hask | rewrite bind_hgets | rewrite bind_hput | rewrite bind_modify
  | rewrite bind_ret | rewrite bind_lift_Some | rewrite bind_bind
  | erewrite bind_hderef by (simpl; reflexivity || eassumption)
  | erewrite bind_hup by (simpl; reflexivity || eassumption) ]; cbv beta.

(** ** A call as a whole *)

Section Whole.
Context `{HelloKernel}.

Lemma hexec_loads d w n i got k :
  hello_obj w = Some d -> (i + n <= length (hval d))%nat ->
  hexec true (loads n i got k) w = hexec true (k (got ++ take n (drop i (hval d)))) w.
Proof.
  intros E. revert i got. induction n as [|n IH]; intros i got Hl; cbn [loads hexec]; [by rewrite app_nil_r|].
  destruct (lookup_lt_is_Some_2 (hval d) i) as [v Ev]; [lia|].
  rewrite (bind_hderef d), Ev, bind_lift_Some by done. rewrite IH by lia.
  rewrite (drop_S _ _ _ Ev). cbn [take]. by rewrite <- app_assoc.
Qed.

Lemma hexec_stores b d w i k :
  hello_obj w = Some d -> (i + length b <= length (hval d))%nat ->
  hexec true (stores i b k) w =
    hexec true k (set_obj (Some (mkHello (take i (hval d) ++ b ++ drop (i + length b) (hval d)) (hsem d))) w).
Proof.
  revert d w i. induction b as [|v b IH]; intros d w i E Hl; cbn [stores hexec length app] in *.
  - rewrite Nat.add_0_r, take_drop. f_equal. destruct w, d. cbn in *. by subst.
  - rewrite (bind_hderef d), bind_hput by done. erewrite IH; [|reflexivity|cbn; rewrite length_insert; lia].
    cbn [hval hsem]. f_equal. unfold set_obj. cbn. do 3 f_equal.
    destruct (lookup_lt_is_Some_2 (hval d) i) as [x Ex]; [lia|].
    rewrite insert_take_drop by lia. rewrite <- (Nat.add_succ_comm i (length b)).
    set (t := take i (hval d)). assert (length t = i) as Lt by (subst t; rewrite length_take; lia).
    rewrite take_app_ge, Lt by lia. replace (S i - i)%nat with 1%nat by lia. cbn [take]. rewrite <- app_assoc. cbn [app].
    rewrite take_0. cbn [app]. do 3 f_equal. rewrite drop_app_ge by lia. rewrite Lt.
    replace (S (i + length b) - i)%nat with (S (length b)) by lia. cbn [drop]. by rewrite drop_drop.
Qed.

(** The world after a call that changed the register to [v]. *)
Definition hdone (v : list Z) (w : hworld) : hworld := set_obj (Some (mkHello v 1)) w.

(** The call holds the semaphore and has the rest of its body to run. *)
Lemma hexec_entered (k : bool -> hcode) w d :
  hello_obj w = Some d -> hsem d = 1 ->
  hexec true (Down k) w =
    if hk_interrupted (hw_time w) then hexec true (k true) (htick w)
    else hexec true (k false) (set_obj (Some (mkHello (hval d) 0)) (htick w)).
Proof. intros E Es. exact (bind_hdown d (fun b => hexec true (k b)) w E Es). Qed.

Lemma hexec_up r v w : hexec true (UpReturn r) (set_obj (Some (mkHello v 0)) w) = Ret r (hdone v w).
Proof. cbn [hexec]. by rewrite (bind_hup (mkHello v 0)). Qed.

Lemma hello_read_eq count w d :
  hello_obj w = Some d -> hsem d = 1 -> length (hval d) = 4%nat ->
  hello_read true count w =
    if hk_interrupted (hw_time w) then Ret (- ERESTARTSYS, []) (htick w)
    else if count <? sizeof_val then Ret (0, []) (hdone (hval d) (htick w))
    else let left := copy_to_user (S (hw_time w)) in
      Ret (if negb (left =? 0) then - EFAULT else sizeof_val, take (reached left) (hval d)) (hdone (hval d) (htick (htick w))).
Proof.
  intros E Es Hl. unfold hello_read, read_code. rewrite (hexec_entered _ w d) by done. destruct (hk_interrupted _); [done|].
  destruct (count <? sizeof_val); [apply hexec_up|]. cbn [hexec]. rewrite bind_hask. cbv beta.
  rewrite (hexec_loads (mkHello (hval d) 0)); [|done|cbn [hval]; unfold reached; lia]. rewrite drop_0. cbn [app hval].
  exact (hexec_up _ (hval d) (htick (htick w))).
Qed.

Lemma copied_length buf left : length buf = 4%nat -> length (copied buf left) = 4%nat.
Proof. intros Hl. unfold copied. rewrite length_app, length_replicate, length_take. lia. Qed.

Lemma hello_write_eq buf w d :
  hello_obj w = Some d -> hsem d = 1 -> length (hval d) = 4%nat ->
  hello_write true buf w =
    if hk_interrupted (hw_time w) then Ret (- ERESTARTSYS) (htick w)
    else if negb (zlen buf =? sizeof_val) then Ret 0 (hdone (hval d) (htick w))
    else let left := copy_from_user (S (hw_time w)) in
      Ret (if negb (left =? 0) then - EFAULT else sizeof_val) (hdone (copied buf left) (htick (htick w))).
Proof.
  intros E Es Hl. unfold hello_write, write_code. rewrite bind_unfold, (hexec_entered _ w d) by done.
  destruct (hk_interrupted _); [done|]. destruct (negb _) eqn:En; [by rewrite hexec_up|].
  apply negb_false_iff, Z.eqb_eq in En. assert (length buf = 4%nat) as Hb by (unfold zlen in En; change sizeof_val with 4 in En; lia).
  cbn [hexec]. rewrite bind_hask. cbv beta. set (left := copy_from_user _).
  rewrite (hexec_stores _ (mkHello (hval d) 0)) by (done || (rewrite copied_length by done; cbn; lia)).
  cbn [take app hval hsem]. rewrite drop_ge, app_nil_r by (rewrite copied_length by done; cbn; lia).
  change (set_obj (Some (mkHello (copied buf left) 0)) _) with (set_obj (Some (mkHello (copied buf left) 0)) (htick (htick w))).
  by rewrite hexec_up.
Qed.

Lemma hello_get_eq w d :
  hello_obj w = Some d -> hsem d = 1 -> length (hval d) = 4%nat ->
  hello_get_val true w =
    if hk_interrupted (hw_time w) then Ret (- ERESTARTSYS, []) (htick w)
    else let text := sdecimal (register d) ++ str "/n" in
      Ret (zlen text, snprintf PAGE_SIZE text) (hdone (hval d) (htick w)).
Proof.
  intros E Es Hl. unfold hello_get_val, get_code. rewrite (hexec_entered _ w d) by done. destruct (hk_interrupted _); [done|].
  rewrite (hexec_loads (mkHello (hval d) 0)) by (done || (cbn; lia)). rewrite drop_0. cbn [app hval].
  rewrite take_ge by lia. apply hexec_up.
Qed.

Lemma hello_set_eq buf count w d :
  hello_obj w = Some d -> hsem d = 1 -> length (hval d) = 4%nat ->
  hello_set_val true buf count w =
    if hk_interrupted (hw_time w) then Ret (- ERESTARTSYS) (htick w)
    else Ret count (hdone (int_bytes (s32 (simple_strtol buf))) (htick w)).
Proof.
  intros E Es Hl. unfold hello_set_val, set_code. rewrite bind_unfold, (hexec_entered _ w d) by done.
  destruct (hk_interrupted _); [done|]. set (v := s32 _).
  rewrite (hexec_stores _ (mkHello (hval d) 0)) by (done || (cbn; lia)).
  cbn [take app hval hsem]. rewrite drop_ge, app_nil_r by (cbn; lia).
  change (set_obj (Some (mkHello (int_bytes v) 0)) _) with (set_obj (Some (mkHello (int_bytes v) 0)) (htick w)).
  by rewrite hexec_up.
Qed.
End Whole.

(** ** The register *)

(** A call of the driver. *)
Inductive hop := HRead (count : Z) | HWrite (buf : list Z) | HShow | HStore (buf : list Z).

Definition hstep `{HelloKernel} (op : hop) : prog hworld (Z * list Z) :=
  match op with
  | HRead count => hello_read true count
  | HWrite buf => let* r := hello_write true buf in ret (r, [])
  | HShow => hello_val_show
  | HStore buf => let* r := hello_val_store buf (zlen buf) in ret (r, [])
  end.

(** What a call does to a register that holds [v]: the value it returns, the
    bytes it hands out, the value after it.  A signal or a bad buffer may
    refuse any call; only a copy from a bad buffer leaves a value behind. *)
Inductive reg_step `{HelloKernel} (v : Z) : hop -> Z * list Z -> Z -> Prop :=
  | reg_signal op : reg_step v op (- ERESTARTSYS, []) v
  | reg_read count : 4 <= count -> reg_step v (HRead count) (4, int_bytes v) v
  | reg_read_short count : count < 4 -> reg_step v (HRead count) (0, []) v
  | reg_read_fault count n : 4 <= count -> reg_step v (HRead count) (- EFAULT, take n (int_bytes v)) v
  | reg_write buf : length buf = 4%nat -> reg_step v (HWrite buf) (4, []) (s32 (le_combine buf))
  | reg_write_size buf : length buf <> 4%nat -> reg_step v (HWrite buf) (0, []) v
  | reg_write_fault buf left : length buf = 4%nat -> left <> 0 ->
      reg_step v (HWrite buf) (- EFAULT, []) (s32 (le_combine (copied buf left)))
  | reg_show : reg_step v HShow (zlen (sdecimal v ++ str "/n"), sdecimal v ++ str "/n") v
  | reg_store buf : reg_step v (HStore buf) (zlen buf, []) (s32 (simple_strtol buf)).

(** A sequence of calls and their results. *)
Inductive reg_run `{HelloKernel} : Z -> list hop -> list (Z * list Z) -> Z -> Prop :=
  | reg_nil v : reg_run v [] [] v
  | reg_cons v op r v1 ops rs v2 : reg_step v op r v1 -> reg_run v1 ops rs v2 ->
      reg_run v (op :: ops) (r :: rs) v2.

Fixpoint hrun_ops `{HelloKernel} (ops : list hop) : prog hworld (list (Z * list Z)) :=
  match ops with
  | [] => ret []
  | op :: ops' => let* r := hstep op in let* rs := hrun_ops ops' in ret (r :: rs)
  end.

Definition hop_ok (op : hop) : Prop :=
  match op with HWrite buf => bytes buf | _ => True end.

Lemma hstep_refines `{HelloKernel} op w d :
  loaded w d -> hop_ok op ->
  exists r w' d', hstep op w = Ret r w' /\ loaded w' d' /\ reg_step (register d) op r (register d').
Proof.
  intros (E & Es & Ed & Hl & Hb) Hok.
  assert (forall n, loaded (hdone (hval d) (Nat.iter n htick w)) (mkHello (hval d) 1)) as Hd
    by (intros n; split_and!; try done; induction n; done).
  assert (forall v n, length v = 4%nat -> bytes v -> loaded (hdone v (Nat.iter n htick w)) (mkHello v 1)) as Hv
    by (intros v n Lv Bv; split_and!; try done; induction n; done).
  assert (loaded (htick w) d) as Ht by done.
  destruct op as [count|buf| |buf]; cbn [hstep].
  - rewrite (hello_read_eq count w d) by done. destruct (hk_interrupted _); [do 3 eexists; split; [done|]; split; [done|constructor]|].
    destruct (count <? sizeof_val) eqn:Ec; change sizeof_val with 4 in *; bool_cases.
    { do 3 eexists. split; [done|]. split; [exact (Hd 1%nat)|by constructor]. }
    cbv zeta. set (left := copy_to_user _). pose proof (int_bytes_register d Hl Hb) as Ei.
    do 3 eexists; (split; [done|]); (split; [exact (Hd 2%nat)|]). rewrite <- Ei at 1.
    change (register (mkHello (hval d) 1)) with (register d).
    destruct (Z.eqb_spec left 0) as [->|E0]; cbn [negb].
    + rewrite take_ge by (rewrite int_bytes_length; vm_compute; lia). by constructor.
    + by constructor.
  - rewrite bind_unfold, (hello_write_eq buf w d) by done.
    destruct (hk_interrupted _); [do 3 eexists; split; [done|]; split; [done|constructor]|].
    destruct (zlen buf =? sizeof_val) eqn:Ec; change sizeof_val with 4 in *; bool_cases; cbn [negb].
    2:{ do 3 eexists. split; [done|]. split; [exact (Hd 1%nat)|]. constructor. unfold zlen in Ec. lia. }
    assert (length buf = 4%nat) as Hlb by (unfold zlen in Ec; lia). cbv zeta. set (left := copy_from_user _).
    do 3 eexists. split; [done|]. split; [exact (Hv _ 2%nat (copied_length _ _ Hlb) (copied_bytes _ _ Hok))|].
    destruct (Z.eqb_spec left 0) as [->|E0]; cbn [negb]; [rewrite copied_whole by done|]; by constructor.
  - unfold hello_val_show. rewrite bind_hgets, Ed, (hello_get_eq w d) by done.
    destruct (hk_interrupted _); [do 3 eexists; split; [done|]; split; [done|constructor]|].
    cbv zeta. do 3 eexists. split; [done|]. split; [exact (Hd 1%nat)|].
    change (register (mkHello (hval d) 1)) with (register d).
    unfold snprintf. rewrite take_ge; [constructor|].
    pose proof (sdecimal_length (register d) (s32_range _)). rewrite length_app.
    change (length (str "/n")) with 2%nat. change (Z.to_nat (PAGE_SIZE - 1)) with 4095%nat. lia.
  - unfold hello_val_store. rewrite bind_bind, bind_hgets, Ed, bind_unfold, (hello_set_eq buf _ w d) by done.
    destruct (hk_interrupted _); [do 3 eexists; split; [done|]; split; [done|constructor]|].
    do 3 eexists. split; [done|]. split; [exact (Hv _ 1%nat (int_bytes_length _) (bytes_le_split _ _))|].
    rewrite register_int_bytes by apply s32_range. constructor.
Qed.

Lemma hrun_ops_refines `{HelloKernel} ops w d :
  loaded w d -> Forall hop_ok ops ->
  exists rs w' d', hrun_ops ops w = Ret rs w' /\ loaded w' d' /\ reg_run (register d) ops rs (register d').
Proof.
  intros HB HO. revert w d HB. induction HO as [|op ops Hop _ IH]; intros w d HB; cbn [hrun_ops].
  - exists [], w, d. split_and!; [done|done|constructor].
  - destruct (hstep_refines op w d HB Hop) as (r & w1 & d1 & E1 & HB1 & HS1).
    destruct (IH w1 d1 HB1) as (rs & w2 & d2 & E2 & HB2 & HS2).
    exists (r :: rs), w2, d2. rewrite bind_unfold, E1, bind_unfold, E2.
    split_and!; [done|done|by econstructor].
Qed.

(** ** Loading and unloading *)

Definition released (w : hworld) : Prop :=
  hello_obj w = None /\ hw_drvdata w = false /\ hw_region w = false /\ hw_cdev w = false /\
  hw_class w = false /\ hw_device w = false /\ hw_attr w = false.

Definition held (w : hworld) : Prop :=
  hw_region w = true /\ hw_cdev w = true /\ hw_class w = true /\ hw_device w = true /\ hw_attr w = true.

Definition load_outcome `{HelloKernel} (r : result hworld Z) : Prop :=
  match r with
  | Ret 0 w => loaded w (mkHello [0; 0; 0; 0] 1) /\ held w /\
      match hello_exit w with Ret _ w' => released w' | _ => False end
  | Ret _ w => released w
  | _ => False
  end.

(** The clock is apart from the module's variables. *)
Lemma time_htick w : hw_time (htick w) = S (hw_time w). Proof. done. Qed.
Lemma time_region b w : hw_time (set_region b w) = hw_time w. Proof. done. Qed.
Lemma time_numbers a b w : hw_time (set_numbers a b w) = hw_time w. Proof. done. Qed.
Lemma time_dev_ptr p w : hw_time (set_dev_ptr p w) = hw_time w. Proof. done. Qed.
Lemma time_obj d w : hw_time (set_obj d w) = hw_time w. Proof. done. Qed.
Lemma time_cdev b w : hw_time (set_cdev b w) = hw_time w. Proof. done. Qed.
Lemma time_class_ptr p w : hw_time (set_class_ptr p w) = hw_time w. Proof. done. Qed.
Lemma time_class b w : hw_time (set_class b w) = hw_time w. Proof. done. Qed.
Lemma time_device b w : hw_time (set_device b w) = hw_time w. Proof. done. Qed.
Create Rewrite HintDb htime.
#[export] Hint Rewrite time_htick time_region time_numbers time_dev_ptr time_obj time_cdev time_class_ptr
  time_class time_device : htime.

(** A non-zero result with everything given back. *)
Lemma load_failed `{HelloKernel} e w : e <> 0 -> released w -> load_outcome (Ret e w).
Proof. intros He HR. unfold load_outcome. destruct e; [done|exact HR|exact HR]. Qed.

Lemma hello_exit_spec w :
  hello_class w = PObj -> hello_dev w = true ->
  hello_exit w = Ret tt (set_region false (set_obj None (set_cdev false (set_class false (set_device false w))))).
Proof.
  intros EC ED. unfold hello_exit, hello_remove_proc. rewrite bind_ret, bind_hgets, EC, bind_bind, bind_modify.
  rewrite bind_modify, bind_hgets. change (hello_dev (set_class false _)) with (hello_dev w). rewrite ED.
  by rewrite bind_bind, !bind_modify.
Qed.

Lemma hello_init_outcome `{HelloKernel} w : released w -> load_outcome (hello_init w).
Proof.
  intros (R1&R2&R3&R4&R5&R6&R7). unfold hello_init. hrun.
  destruct (alloc_chrdev_region (hw_time w)) as [e|[ma mi]] eqn:E1.
  { apply alloc_chrdev_region_error in E1. apply load_failed; [lia|by split_and!]. }
  hrun. autorewrite with htime. destruct (hk_kmalloc _); cbn [negb]; [|apply load_failed; [done|by split_and!]].
  unfold hello_setup_dev. hrun. autorewrite with htime.
  destruct (Z.eqb_spec (cdev_add (S (S (hw_time w)))) 0) as [E2|E2]; cbn [negb].
  2:{ hrun. rewrite (proj2 (Z.eqb_neq _ _) E2). cbn [negb]. hrun. apply load_failed; [done|by split_and!]. }
  hrun. autorewrite with htime. cbn [Z.eqb negb].
  pose proof (hk_class_create_ok (S (S (S (hw_time w))))) as HC. hrun. autorewrite with htime.
  destruct (hk_class_create _) as [|e|]; [done| |]; cbn [IS_ERR PTR_ERR].
  { hrun. apply load_failed; [lia|by split_and!]. }
  hrun. autorewrite with htime. pose proof (hk_device_create_ok (S (S (S (S (hw_time w)))))) as HD.
  destruct (hk_device_create _) as [|e|]; [done| |]; cbn [IS_ERR PTR_ERR].
  { hrun. apply load_failed; [lia|by split_and!]. }
  hrun. autorewrite with htime. destruct (_ <? 0) eqn:E5; bool_cases.
  { hrun. apply load_failed; [lia|by split_and!]. }
  hrun. unfold hello_create_proc. hrun. unfold load_outcome, ret.
  split; [split_and!; try done; by apply bytes_true|]. split; [by split_and!|].
  rewrite hello_exit_spec by done. by split_and!.
Qed.

(** ** Any number of calls, interleaved access by access *)

(** The body of a call. *)
Definition body `{HelloKernel} (op : hop) : hcode :=
  match op with
  | HRead count => read_code count
  | HWrite buf => write_code buf
  | HShow => get_code
  | HStore buf => set_code (s32 (simple_strtol buf)) (zlen buf)
  end.

(** The register, the semaphore, the calls with what they have still to do, and
    the calls that gave the semaphore back, in that order, with their results. *)
Record shared := mkShared {
  sh_cells : list Z;
  sh_sem : Z;
  sh_callers : gmap nat (hop * hcode);
  sh_log : list (hop * (Z * list Z))
}.

Definition goes (s : shared) (i : nat) (op : hop) (c : hcode) : gmap nat (hop * hcode) := <[i := (op, c)]> (sh_callers s).

(** One access of one call.  A signal may refuse the semaphore, and a copy may
    stop after any number of bytes. *)
Inductive istep : shared -> shared -> Prop :=
  | i_signal s i op k : sh_callers s !! i = Some (op, Down k) ->
      istep s (mkShared (sh_cells s) (sh_sem s) (goes s i op (k true)) (sh_log s))
  | i_down s i op k : sh_callers s !! i = Some (op, Down k) -> 0 < sh_sem s ->
      istep s (mkShared (sh_cells s) (sh_sem s - 1) (goes s i op (k false)) (sh_log s))
  | i_copy_to s i op k left : sh_callers s !! i = Some (op, CopyTo k) -> 0 <= left <= sizeof_val ->
      istep s (mkShared (sh_cells s) (sh_sem s) (goes s i op (k left)) (sh_log s))
  | i_copy_from s i op k left : sh_callers s !! i = Some (op, CopyFrom k) -> 0 <= left <= sizeof_val ->
      istep s (mkShared (sh_cells s) (sh_sem s) (goes s i op (k left)) (sh_log s))
  | i_load s i op j k v : sh_callers s !! i = Some (op, Load j k) -> sh_cells s !! j = Some v ->
      istep s (mkShared (sh_cells s) (sh_sem s) (goes s i op (k v)) (sh_log s))
  | i_store s i op j v k : sh_callers s !! i = Some (op, Store j v k) -> (j < length (sh_cells s))%nat ->
      istep s (mkShared (<[j := v]> (sh_cells s)) (sh_sem s) (goes s i op k) (sh_log s))
  | i_up s i op r : sh_callers s !! i = Some (op, UpReturn r) ->
      istep s (mkShared (sh_cells s) (sh_sem s + 1) (goes s i op (Return r)) (sh_log s ++ [(op, r)])).

(** A body that holds the semaphore: from here on it touches the four bytes and
    gives the semaphore back. *)
Inductive holding : hcode -> Prop :=
  | holding_to k : (forall left, holding (k left)) -> holding (CopyTo k)
  | holding_from k : (forall left, holding (k left)) -> holding (CopyFrom k)
  | holding_load i k : (i < 4)%nat -> (forall v, holding (k v)) -> holding (Load i k)
  | holding_store i v k : (i < 4)%nat -> is_byte v -> holding k -> holding (Store i v k)
  | holding_up r : holding (UpReturn r).

(** Such a body run alone on the bytes [c]: its result and the bytes after it. *)
Inductive alone : hcode -> list Z -> Z * list Z -> list Z -> Prop :=
  | alone_to k c left r c' : 0 <= left <= sizeof_val -> alone (k left) c r c' -> alone (CopyTo k) c r c'
  | alone_from k c left r c' : 0 <= left <= sizeof_val -> alone (k left) c r c' -> alone (CopyFrom k) c r c'
  | alone_load i k c v r c' : c !! i = Some v -> alone (k v) c r c' -> alone (Load i k) c r c'
  | alone_store i v k c r c' : alone k (<[i := v]> c) r c' -> alone (Store i v k) c r c'
  | alone_up c r : alone (UpReturn r) c r c.

Definition inside (c : hcode) : bool := match c with Down _ | Return _ => false | _ => true end.

(** The body of a call once it has the semaphore. *)
Definition entered `{HelloKernel} (op : hop) : hcode := match body op with Down k => k false | c => c end.

Lemma holding_loads n i got k : (i + n <= 4)%nat -> (forall l, holding (k l)) -> holding (loads n i got k).
Proof.
  intros Hn Hk. revert i got Hn. induction n as [|n IH]; intros i got Hn; cbn [loads]; [done|].
  constructor; [lia|]. intros v. apply IH. lia.
Qed.

Lemma holding_stores b i k : (i + length b <= 4)%nat -> bytes b -> holding k -> holding (stores i b k).
Proof.
  intros Hn Hb Hk. revert i Hn. induction Hb as [|v b Hv _ IH]; intros i Hn; cbn [stores length] in *; [done|].
  constructor; [lia|done|]. apply IH. lia.
Qed.

Lemma entered_holding `{HelloKernel} op : hop_ok op -> holding (entered op).
Proof.
  intros Ho. destruct op as [count|buf| |buf]; unfold entered, body, read_code, write_code, get_code, set_code.
  - destruct (_ <? _); constructor. intros left. apply holding_loads; [unfold reached; lia|constructor].
  - destruct (negb _) eqn:En; constructor. intros left. apply negb_false_iff, Z.eqb_eq in En.
    apply holding_stores; [|by apply copied_bytes|constructor]. rewrite copied_length; [lia|].
    unfold zlen in En. change sizeof_val with 4 in En. lia.
  - apply (holding_loads 4 0); [lia|constructor].
  - apply holding_stores; [rewrite int_bytes_length; lia|apply bytes_le_split|constructor].
Qed.

Lemma alone_loads n i got k c r c' :
  (i + n <= length c)%nat -> alone (loads n i got k) c r c' -> alone (k (got ++ take n (drop i c))) c r c'.
Proof.
  revert i got. induction n as [|n IH]; intros i got Hn E; cbn [loads] in E; [by rewrite app_nil_r|].
  inversion E as [| |? ? ? v ? ? Ev E1| |]; subst. apply IH in E1; [|lia].
  rewrite (drop_S _ _ _ Ev). cbn [take]. by rewrite <- app_assoc in E1.
Qed.

Lemma alone_stores b i k c r c' :
  (i + length b <= length c)%nat -> alone (stores i b k) c r c' ->
  alone k (take i c ++ b ++ drop (i + length b) c) r c'.
Proof.
  revert i c. induction b as [|v b IH]; intros i c Hn E; cbn [stores length app] in *.
  - by rewrite Nat.add_0_r, take_drop.
  - inversion E as [| | |? ? ? ? ? ? E1|]; subst. apply IH in E1; [|rewrite length_insert; lia].
    rewrite insert_take_drop in E1 by lia. set (t := take i c) in *.
    assert (length t = i) as Lt by (subst t; rewrite length_take; lia).
    rewrite take_app_ge, Lt in E1 by lia. replace (S i - i)%nat with 1%nat in E1 by lia.
    cbn [take] in E1. rewrite take_0, <- app_assoc in E1. cbn [app] in E1.
    rewrite drop_app_ge, Lt in E1 by lia. replace (S i + length b - i)%nat with (S (length b)) in E1 by lia.
    cbn [drop] in E1. rewrite drop_drop in E1. by replace (i + S (length b))%nat with (S i + length b)%nat by lia.
Qed.

Lemma alone_up_inv r0 c r c' : alone (UpReturn r0) c r c' -> r = r0 /\ c' = c.
Proof. intros E. by inversion E. Qed.

(** A call alone is a step of the register. *)
Lemma alone_reg_step `{HelloKernel} op c r c' n :
  hop_ok op -> length c = 4%nat -> bytes c -> alone (entered op) c r c' ->
  length c' = 4%nat /\ bytes c' /\ reg_step (register (mkHello c n)) op r (register (mkHello c' n)).
Proof.
  intros Ho Hl Hb E. pose proof (int_bytes_register (mkHello c n) Hl Hb) as Ei. cbn [hval] in Ei.
  destruct op as [count|buf| |buf]; unfold entered, body, read_code, write_code, get_code, set_code in E.
  - destruct (count <? sizeof_val) eqn:Ec; change sizeof_val with 4 in *; bool_cases.
    { inversion E; subst. split_and!; [done|done|by constructor]. }
    inversion E as [? ? left ? ? Hle E1| | | |]; subst. apply alone_loads in E1; [|unfold reached; lia].
    rewrite drop_0 in E1. cbn [app] in E1. inversion E1; subst. split_and!; [done|done|].
    rewrite <- (f_equal (take (reached left)) Ei). clear E E1.
    destruct (Z.eqb_spec left 0) as [->|E0]; cbn [negb]; [|by constructor].
    rewrite take_ge by (rewrite int_bytes_length; vm_compute; lia). by constructor.
  - destruct (zlen buf =? sizeof_val) eqn:Ec; change sizeof_val with 4 in *; bool_cases; cbn [negb] in E.
    2:{ inversion E; subst. split_and!; [done|done|]. constructor. unfold zlen in Ec. lia. }
    assert (length buf = 4%nat) as Hlb by (unfold zlen in Ec; lia).
    inversion E as [|? ? left ? ? Hle E1| | |]; subst. pose proof (copied_length buf left Hlb) as Lc.
    apply alone_stores in E1; [|lia]. cbn [take app] in E1. rewrite drop_ge, app_nil_r in E1 by lia.
    inversion E1; subst. split_and!; [done|by apply copied_bytes|].
    clear E E1. destruct (Z.eqb_spec left 0) as [E0|E0]; cbn [negb]; [rewrite E0, copied_whole by done|]; by constructor.
  - apply (alone_loads 4 0) in E; [|lia]. rewrite drop_0, take_ge in E by lia. cbn [app] in E. inversion E; subst.
    split_and!; [done|done|]. change (register (mkHello c' 0)) with (register (mkHello c' n)).
    unfold snprintf. rewrite take_ge; [constructor|].
    pose proof (sdecimal_length (register (mkHello c' n)) (s32_range _)). rewrite length_app.
    change (length (str "/n")) with 2%nat. change (Z.to_nat (PAGE_SIZE - 1)) with 4095%nat. lia.
  - set (v := s32 (simple_strtol buf)) in *. pose proof (int_bytes_length v) as Lb. pose proof (bytes_le_split 4 (u32 v)) as Bb.
    fold (int_bytes v) in Bb. remember (int_bytes v) as b eqn:Eb.
    apply (alone_stores b 0) in E; [|lia]. cbn [take app] in E. rewrite drop_ge, app_nil_r in E by lia.
    apply alone_up_inv in E as [-> ->]. split_and!; [done|done|].
    rewrite take_0. cbn [app]. rewrite Eb, register_int_bytes by apply s32_range. constructor.
Qed.

(** The calls that released the semaphore, as a run of the register. *)
Definition log_run `{HelloKernel} (v : Z) (log : list (hop * (Z * list Z))) (v' : Z) : Prop := reg_run v log.*1 log.*2 v'.

Lemma log_run_app `{HelloKernel} v log v1 op r v2 :
  log_run v log v1 -> reg_step v1 op r v2 -> log_run v (log ++ [(op, r)]) v2.
Proof.
  unfold log_run. rewrite !fmap_app. cbn [fmap list_fmap fst snd]. generalize (log.*1) as ops, (log.*2) as rs.
  intros ops rs HR HS. induction HR as [v|v o x v3 os xs v4 H1 _ IH]; cbn [app].
  - econstructor; [exact HS|constructor].
  - econstructor; [exact H1|by apply IH].
Qed.

(** A caller that is not inside: it has not entered yet, or has returned, refused
    by a signal or with the result in the log. *)
Definition outside_ok `{HelloKernel} (log : list (hop * (Z * list Z))) (p : hop * hcode) : Prop :=
  hop_ok p.1 /\ (p.2 = body p.1 \/ p.2 = Return (- ERESTARTSYS, []) \/ exists r, p.2 = Return r /\ (p.1, r) ∈ log).

(** The caller that is inside, on a register that held [v] when it entered. *)
Definition holder_ok `{HelloKernel} (v cells : list Z) (p : hop * hcode) : Prop :=
  hop_ok p.1 /\ holding p.2 /\ forall r c', alone p.2 cells r c' -> alone (entered p.1) v r c'.

Definition shared_ok `{HelloKernel} (v0 : Z) (s : shared) : Prop :=
  length (sh_cells s) = 4%nat /\ bytes (sh_cells s) /\
  exists v, length v = 4%nat /\ bytes v /\ log_run v0 (sh_log s) (register (mkHello v 1)) /\
  ((sh_sem s = 1 /\ sh_cells s = v /\ forall i p, sh_callers s !! i = Some p -> outside_ok (sh_log s) p) \/
   (sh_sem s = 0 /\ exists i p, sh_callers s !! i = Some p /\ holder_ok v (sh_cells s) p /\
      forall j q, sh_callers s !! j = Some q -> j <> i -> outside_ok (sh_log s) q)).

Lemma body_down `{HelloKernel} op : exists k, body op = Down k /\ k true = Return (- ERESTARTSYS, []) /\ k false = entered op.
Proof. destruct op; eexists; split; [reflexivity|by split|reflexivity|by split|reflexivity|by split|reflexivity|by split]. Qed.

Lemma outside_inside `{HelloKernel} log p : outside_ok log p -> inside p.2 = false.
Proof.
  intros [_ [E|[E|(r & E & _)]]]; rewrite E; [|done|done]. by destruct (body_down p.1) as (k & -> & _).
Qed.

Lemma holding_inside c : holding c -> inside c = true.
Proof. by intros []. Qed.

Lemma outside_log `{HelloKernel} log e p : outside_ok log p -> outside_ok (log ++ [e]) p.
Proof.
  intros [Ho [E|[E|(r & E & Hr)]]]; (split; [done|]); [by left|by right; left|]. right; right. exists r.
  split; [done|]. apply elem_of_app. by left.
Qed.

Lemma holding_bytes c j v k : holding (Store j v k) -> length c = 4%nat -> bytes c ->
  length (<[j := v]> c) = 4%nat /\ bytes (<[j := v]> c).
Proof. intros Hh Hl Hb. inversion Hh; subst. split; [by rewrite length_insert|by apply Forall_insert]. Qed.

(** The holder moves on. *)
Lemma holder_step `{HelloKernel} v0 s i op c c' cells' :
  shared_ok v0 s -> sh_callers s !! i = Some (op, c) -> inside c = true ->
  length cells' = 4%nat -> bytes cells' -> (holding c -> holding c') ->
  (forall r d, alone c' cells' r d -> alone c (sh_cells s) r d) ->
  shared_ok v0 (mkShared cells' (sh_sem s) (goes s i op c') (sh_log s)).
Proof.
  intros (_ & _ & v & Lv & Bv & HR & [(_ & _ & HN)|(E0 & k & p & Ek & (Ho & Hh & Hal) & HU)]) Ei Hi Hl' Hb' Hh' Ha.
  { apply HN in Ei as Eo. apply outside_inside in Eo. cbn in Eo. congruence. }
  destruct (decide (i = k)) as [->|Hne]; [|apply HU in Ei as Eo; [|done]; apply outside_inside in Eo; cbn in Eo; congruence].
  rewrite Ei in Ek. injection Ek as <-. split; [done|]. split; [done|]. exists v. split_and!; try done. right. split; [done|].
  exists k, (op, c'). unfold goes. cbn. split; [by rewrite lookup_insert_eq|]. split.
  - split_and!; [done|by apply Hh'|]. intros r d Hd. by apply Hal, Ha.
  - intros j q Eq Hj. rewrite lookup_insert_ne in Eq by done. by eapply HU.
Qed.

Lemma istep_ok `{HelloKernel} v0 s s' : shared_ok v0 s -> istep s s' -> shared_ok v0 s'.
Proof.
  intros HS HT. pose proof HS as (Hl & Hb & v & Lv & Bv & HR & HC).
  assert (forall i op k, sh_callers s !! i = Some (op, Down k) -> hop_ok op /\ Down k = body op) as HD.
  { intros i op k Ei. destruct HC as [(_ & _ & HN)|(_ & m & p & Em & (Ho & Hh & _) & HU)].
    - apply HN in Ei as [Ho [E|[E|(r & E & _)]]]; by split.
    - destruct (decide (i = m)) as [->|Hne]; [rewrite Ei in Em; injection Em as <-; inversion Hh|].
      apply HU in Ei; [|done]. destruct Ei as [Ho' [E|[E|(r & E & _)]]]; by split. }
  destruct HT as [s i op k Ei|s i op k Ei Hs|s i op k left Ei Hlf|s i op k left Ei Hlf|s i op j k x Ei Ex|s i op j x k Ei Hj|s i op r Ei].
  - destruct (HD i op k Ei) as [Ho Ek]. destruct (body_down op) as (k' & Eb & Et & _). rewrite Eb in Ek. injection Ek as ->.
    split; [done|]. split; [done|]. exists v. split_and!; try done. unfold goes. cbn. rewrite Et.
    assert (outside_ok (sh_log s) (op, Return (- ERESTARTSYS, []))) as Ho' by (split; [done|right; by left]).
    destruct HC as [(E1 & EC & HN)|(E0 & m & p & Em & Hp & HU)]; [left|right].
    + split_and!; [done|done|]. intros j q Eq. apply lookup_insert_Some in Eq as [[_ <-]|[_ Eq]]; [done|by eapply HN].
    + split; [done|]. assert (m <> i) as Hne.
      { intros ->. rewrite Ei in Em. injection Em as <-. destruct Hp as (_ & Hh & _). inversion Hh. }
      exists m, p. split; [by rewrite lookup_insert_ne|]. split; [done|].
      intros j q Eq Hj. apply lookup_insert_Some in Eq as [[_ <-]|[_ Eq]]; [done|by eapply HU].
  - destruct (HD i op k Ei) as [Ho Ek]. destruct (body_down op) as (k' & Eb & _ & Ef). rewrite Eb in Ek. injection Ek as ->.
    destruct HC as [(E1 & EC & HN)|(E0 & _)]; [|lia]. split; [done|]. split; [done|]. exists v. split_and!; try done.
    right. cbn. split; [lia|]. exists i, (op, k' false). unfold goes. split; [by rewrite lookup_insert_eq|]. split.
    + rewrite Ef. split_and!; [done|by apply entered_holding|]. cbn. by rewrite EC.
    + intros j q Eq Hj. rewrite lookup_insert_ne in Eq by done. by eapply HN.
  - eapply holder_step; try done; [by inversion 1|]. intros r d Ha. by econstructor.
  - eapply holder_step; try done; [by inversion 1|]. intros r d Ha. by econstructor.
  - eapply holder_step; try done; [by inversion 1|]. intros r d Ha. by econstructor.
  - assert (holding (Store j x k)) as Hh.
    { destruct HC as [(_ & _ & HN)|(_ & m & p & Em & (_ & Hh & _) & HU)].
      - apply HN in Ei. by apply outside_inside in Ei.
      - destruct (decide (i = m)) as [->|Hne]; [by rewrite Ei in Em; injection Em as <-|].
        apply HU in Ei; [|done]. by apply outside_inside in Ei. }
    destruct (holding_bytes _ _ _ _ Hh Hl Hb) as [Hl' Hb'].
    eapply holder_step; try done; [by inversion 1|]. intros r d Ha. by constructor.
  - destruct HC as [(_ & _ & HN)|(E0 & m & p & Em & (Ho & Hh & Hal) & HU)].
    { apply HN in Ei. by apply outside_inside in Ei. }
    destruct (decide (i = m)) as [->|Hne]; [|apply HU in Ei; [|done]; by apply outside_inside in Ei].
    rewrite Ei in Em. injection Em as <-. cbn [fst snd] in *.
    destruct (alone_reg_step op v r (sh_cells s) 1 Ho Lv Bv (Hal _ _ (alone_up _ _))) as (_ & _ & HS').
    split; [done|]. split; [done|]. exists (sh_cells s). split_and!; try done; [by eapply log_run_app|].
    left. cbn. split_and!; [lia|done|]. intros j q Eq. unfold goes in Eq.
    apply lookup_insert_Some in Eq as [[_ <-]|[Hj Eq]].
    + split; [done|]. right; right. exists r. split; [done|]. apply elem_of_app. right. by left.
    + apply outside_log. by eapply HU.
Qed.

Lemma isteps_ok `{HelloKernel} v0 s s' : shared_ok v0 s -> rtc istep s s' -> shared_ok v0 s'.
Proof. intros HS HR. induction HR as [|s s1 s2 H1 _ IH]; [done|]. apply IH. by eapply istep_ok. Qed.

(** Calls that have not entered yet, over a register that holds [c]. *)
Definition shared_start `{HelloKernel} (c : list Z) (ops : gmap nat hop) : shared :=
  mkShared c 1 ((fun op => (op, body op)) <$> ops) [].

Lemma shared_start_ok `{HelloKernel} c ops :
  length c = 4%nat -> bytes c -> map_Forall (fun _ op => hop_ok op) ops ->
  shared_ok (register (mkHello c 1)) (shared_start c ops).
Proof.
  intros Hl Hb Ho. split; [done|]. split; [done|]. exists c. split_and!; try done; [constructor|]. left.
  split_and!; [done|done|]. intros i p Ei. cbn in Ei. apply lookup_fmap_Some in Ei as (op & <- & Ei).
  split; [by eapply Ho|by left].
Qed.

(** Somebody can move while a call has not returned. *)
Lemma istep_progress `{HelloKernel} v0 s i p :
  shared_ok v0 s -> sh_callers s !! i = Some p -> (forall r, p.2 <> Return r) -> exists s', istep s s'.
Proof.
  intros (Hl & _ & v & _ & _ & _ & [(E1 & _ & HN)|(E0 & k & [op c] & Ek & (_ & Hh & _) & _)]) Ei Hp.
  - destruct p as [op c]. apply HN in Ei as Eo. destruct Eo as [_ [E|[E|(r & E & _)]]]; cbn in E; [|by destruct (Hp _ E)..].
    destruct (body_down op) as (k & Eb & _). subst c. rewrite Eb in Ei. eexists. eapply i_down; [done|lia].
  - cbn in Hh. destruct Hh as [kk _|kk _|j kk Hj _|j x kk Hj _ _|r].
    + eexists. eapply (i_copy_to _ _ _ _ 0); [done|]. change sizeof_val with 4. lia.
    + eexists. eapply (i_copy_from _ _ _ _ 0); [done|]. change sizeof_val with 4. lia.
    + destruct (lookup_lt_is_Some_2 (sh_cells s) j) as [x Ex]; [lia|]. eexists. by eapply i_load.
    + eexists. eapply i_store; [done|lia].
    + eexists. by eapply i_up.
Qed.

(** Calls nothing refuses. *)
Section Free.
Context `{HelloKernel}.
Hypothesis no_signal : forall t, hk_interrupted t = false.
Hypothesis no_fault_in : forall t, copy_from_user t = 0.
Hypothesis no_fault_out : forall t, copy_to_user t = 0.

Lemma hello_write_free v w d :
  loaded w d ->
  exists w', hello_write true (int_bytes v) w = Ret 4 w' /\ loaded w' (mkHello (int_bytes v) 1).
Proof.
  intros (E & Es & Ed & Hl & Hb). rewrite (hello_write_eq _ w d), no_signal by done.
  change (zlen (int_bytes v) =? sizeof_val) with true. cbn [negb]. cbv zeta.
  rewrite !no_fault_in. cbn [Z.eqb negb].
  rewrite copied_whole by done. eexists. split; [done|]. split_and!; try done. apply bytes_le_split.
Qed.

Lemma hello_read_free w d :
  loaded w d -> exists w', hello_read true 4 w = Ret (4, hval d) w' /\ loaded w' (mkHello (hval d) 1).
Proof.
  intros (E & Es & Ed & Hl & Hb). rewrite (hello_read_eq _ w d), no_signal by done.
  change (4 <? sizeof_val) with false. cbv iota zeta. rewrite !no_fault_out. cbn [Z.eqb negb].
  rewrite take_ge by (rewrite Hl; vm_compute; lia). eexists. split; [done|]. by split_and!.
Qed.

Lemma hello_show_free w d :
  loaded w d -> exists n w', hello_val_show w = Ret (n, sdecimal (register d) ++ str "/n") w'.
Proof.
  intros (E & Es & Ed & Hl & Hb). unfold hello_val_show. rewrite bind_hgets, Ed, (hello_get_eq w d), no_signal by done.
  cbv zeta. unfold snprintf. rewrite take_ge; [by do 2 eexists|].
  pose proof (sdecimal_length (register d) (s32_range _)). rewrite length_app.
  change (length (str "/n")) with 2%nat. change (Z.to_nat (PAGE_SIZE - 1)) with 4095%nat. lia.
Qed.

Lemma hello_store_free v w d :
  loaded w d -> - 2 ^ 31 <= v < 2 ^ 31 ->
  exists n w', hello_val_store (sdecimal v ++ [10]) n w = Ret n w' /\ loaded w' (mkHello (int_bytes v) 1).
Proof.
  intros (E & Es & Ed & Hl & Hb) Hv. exists 1. unfold hello_val_store.
  rewrite bind_hgets, Ed, (hello_set_eq _ _ w d), no_signal by done. rewrite simple_strtol_decimal, s32_id by lia.
  eexists. split; [done|]. split_and!; try done. apply bytes_le_split.
Qed.

Lemma hal_get_free old w v :
  loaded w (mkHello (int_bytes v) 1) -> - 2 ^ 31 <= v < 2 ^ 31 ->
  exists w', hal_get_val true (Some old) w = Ret (0, Some v) w' /\ loaded w' (mkHello (int_bytes v) 1).
Proof.
  intros HB Hv. destruct (hello_read_free w _ HB) as (w' & E & HB'). exists w'. split; [|done].
  unfold hal_get_val. change sizeof_val with 4. rewrite bind_unfold, E. unfold ret. cbn [snd hval].
  rewrite drop_ge, app_nil_r by done.
  change (s32 (le_combine (int_bytes v))) with (register (mkHello (int_bytes v) 1)).
  by rewrite register_int_bytes.
Qed.

(** The test program prints the value it finds and then 5. *)
Lemma hello_main_prints w d :
  loaded w d -> exists w',
    hello_main true w = Ret (0, [sdecimal (register d) ++ str "."; str "5."]) w'.
Proof.
  intros HB. destruct (hello_read_free w d HB) as (w1 & E1 & HB1).
  destruct (hello_write_free 5 w1 _ HB1) as (w2 & E2 & HB2).
  destruct (hello_read_free w2 _ HB2) as (w3 & E3 & _). cbn [hval] in E3.
  unfold hello_main. cbn [negb]. change sizeof_val with 4.
  rewrite bind_unfold, E1, bind_unfold, E2, bind_unfold, E3. exists w3. unfold ret. cbn [snd].
  destruct HB as (_ & _ & _ & Hl & _). rewrite drop_ge, app_nil_r by (rewrite Hl; done). done.
Qed.
End Free.

(** ** The theorems *)

(** Every sequence of calls of the device file and the attribute file on
    the loaded driver returns, leaves the semaphore free, and behaves like one
    register: a read hands out the bytes, and the attribute the decimal text,
    of the value the last successful write or store left; calls refused by a
    signal, a short buffer or a wrong size change nothing. *)
Theorem hello_refines_register `{HelloKernel} ops w d :
  loaded w d -> Forall hop_ok ops ->
  exists rs w' d', hrun_ops ops w = Ret rs w' /\ loaded w' d' /\
    reg_run (register d) ops rs (register d').
Proof. apply hrun_ops_refines. Qed.

(** Loading the module either succeeds with every resource held and the
    register zero, after which unloading gives every resource back, or fails
    with a non-zero result and every resource given back. *)
Theorem hello_load_balanced `{HelloKernel} w : released w -> load_outcome (hello_init w).
Proof. apply hello_init_outcome. Qed.

(** C13: However many calls of the device file (read and write, of any size) and
    of the attribute file (show and store) run at once on the loaded driver, and
    however their accesses to the semaphore and to the single bytes of the
    register interleave, signals and copies that fail after any number of bytes
    included: at most one call is inside the driver; the calls that have left,
    in the order in which they gave the semaphore back, have the results they
    would have one after the other on one register, so that no read returns
    bytes of two different writes; a call that has returned was refused by a
    signal or is one of these; and unless all have returned some call can go
    on.  The bodies interleaved are those [hello_read], [hello_write],
    [hello_get_val] and [hello_set_val] run as a whole. *)
Theorem hello_no_torn_access `{HelloKernel} c ops s :
  length c = 4%nat -> bytes c -> map_Forall (fun _ op => hop_ok op) ops -> rtc istep (shared_start c ops) s ->
  (exists v, log_run (register (mkHello c 1)) (sh_log s) v) /\
  (forall i j p q, sh_callers s !! i = Some p -> sh_callers s !! j = Some q ->
     inside p.2 = true -> inside q.2 = true -> i = j) /\
  (forall i op r, sh_callers s !! i = Some (op, Return r) -> r = (- ERESTARTSYS, []) \/ (op, r) ∈ sh_log s) /\
  (forall i p, sh_callers s !! i = Some p -> (forall r, p.2 <> Return r) -> exists s', istep s s').
Proof.
  intros Hl Hb Ho HR. pose proof (isteps_ok _ _ _ (shared_start_ok _ _ Hl Hb Ho) HR) as HS.
  pose proof HS as (_ & _ & v & _ & _ & HL & HC). split_and!.
  - by exists (register (mkHello v 1)).
  - intros i j p q Ei Ej Hi Hj. destruct HC as [(_ & _ & HN)|(_ & k & pk & Ek & _ & HU)].
    + apply HN, outside_inside in Ei. congruence.
    + assert (forall m x, sh_callers s !! m = Some x -> inside x.2 = true -> m = k) as Hk.
      { intros m x Em Hx. destruct (decide (m = k)); [done|]. apply HU, outside_inside in Em; [congruence|done]. }
      by rewrite (Hk i p Ei Hi), (Hk j q Ej Hj).
  - intros i op r Ei. assert (outside_ok (sh_log s) (op, Return r)) as [_ Hr].
    { destruct HC as [(_ & _ & HN)|(_ & k & pk & Ek & (_ & Hh & _) & HU)]; [by eapply HN|].
      destruct (decide (i = k)) as [->|]; [|by eapply HU]. rewrite Ei in Ek. injection Ek as <-. inversion Hh. }
    cbn in Hr. destruct Hr as [E|[[= ->]|(r' & [= ->] & Hr)]]; [|by left|by right].
    destruct (body_down op) as (k & Eb & _). by rewrite Eb in E.
  - intros i p Ei Hp. by eapply istep_progress.
Qed.

(** When no signal arrives, every [int] survives both ways into the
    register and both ways out of it: set or stored as decimal text, it is what
    the hardware module gets and what the attribute file shows (followed by the
    two characters /n). *)
Theorem hello_hal_roundtrip `{HelloKernel} v old w d :
  loaded w d -> (forall t, hk_interrupted t = false) -> (forall t, copy_from_user t = 0) ->
  (forall t, copy_to_user t = 0) -> - 2 ^ 31 <= v < 2 ^ 31 ->
  (exists w1 w2 w3 n,
    hal_set_val true v w = Ret 0 w1 /\ hal_get_val true (Some old) w1 = Ret (0, Some v) w2 /\
    hello_val_show w2 = Ret (n, sdecimal v ++ str "/n") w3) /\
  (exists n w1 w2,
    hello_val_store (sdecimal v ++ [10]) n w = Ret n w1 /\ hal_get_val true (Some old) w1 = Ret (0, Some v) w2).
Proof.
  intros HB HI HF HT Hv. split.
  - destruct (hello_write_free HI HF v w d HB) as (w1 & E1 & HB1).
    destruct (hal_get_free HI HT old w1 v HB1 Hv) as (w2 & E2 & HB2).
    destruct (hello_show_free HI w2 _ HB2) as (n & w3 & E3). rewrite register_int_bytes in E3 by done.
    exists w1, w2, w3, n. split_and!; [|done|done]. unfold hal_set_val. by rewrite bind_unfold, E1.
  - destruct (hello_store_free HI v w d HB Hv) as (n & w1 & E1 & HB1).
    destruct (hal_get_free HI HT old w1 v HB1 Hv) as (w2 & E2 & _). by exists n, w1, w2.
Qed.

(** ** Examples *)

Module HelloDemo.
(** Nothing is refused; a number is read up to its first other character. *)
#[refine] Definition kernel : HelloKernel := {|
  hk_interrupted t := false;
  alloc_chrdev_region t := inr (250, 0);
  alloc_chrdev_region_error := _;
  hk_kmalloc t := true;
  cdev_add t := 0;
  hk_class_create t := PObj;
  hk_class_create_ok := _;
  hk_device_create t := PObj;
  hk_device_create_ok := _;
  device_create_file t := 0;
  copy_to_user t := 0;
  copy_from_user t := 0;
  simple_strtol buf := atoi (buf ++ [0]);
  simple_strtol_decimal := _
|}.
Proof.
  - done.
  - done.
  - done.
  - intros n c r Hn Hc Hm. rewrite <- app_assoc, <- app_comm_cons. by apply atoi_sdecimal.
Defined.

Definition unloaded : hworld := mkH 0 0 0 PNull false None false false false false false false.
Definition up : hworld := match hello_init (H := kernel) unloaded with Ret _ w => w | _ => unloaded end.

Lemma up_loaded : loaded up (mkHello [0; 0; 0; 0] 1).
Proof. split_and!; try done. by apply bytes_true. Qed.

Lemma hello_refines_register_witness :
  exists rs w' d', hrun_ops (H := kernel) [HWrite (int_bytes 7); HShow; HRead 2] up = Ret rs w' /\
    loaded w' d' /\
    reg_run (H := kernel) 0 [HWrite (int_bytes 7); HShow; HRead 2] rs (register d').
Proof.
  apply (hello_refines_register (H := kernel) _ up (mkHello [0; 0; 0; 0] 1)); [exact up_loaded|].
  apply Forall_cons_2; [apply bytes_le_split|by repeat constructor].
Defined.

Lemma hello_load_balanced_witness : load_outcome (H := kernel) (hello_init (H := kernel) unloaded).
Proof. apply (hello_load_balanced (H := kernel) unloaded). by split_and!. Defined.

Lemma hello_hal_roundtrip_witness :
  (exists w1 w2 w3 n,
    hal_set_val (H := kernel) true (-5) up = Ret 0 w1 /\
    hal_get_val (H := kernel) true (Some 9) w1 = Ret (0, Some (-5)) w2 /\
    hello_val_show (H := kernel) w2 = Ret (n, str "-5/n") w3) /\
  (exists n w1 w2, hello_val_store (H := kernel) (sdecimal (-5) ++ [10]) n up = Ret n w1 /\
    hal_get_val (H := kernel) true (Some 9) w1 = Ret (0, Some (-5)) w2).
Proof.
  apply (hello_hal_roundtrip (H := kernel) (-5) 9 up (mkHello [0; 0; 0; 0] 1));
    [exact up_loaded|done|done|done|lia].
Defined.

(** A reader and a writer: the reader enters, the writer waits. *)
Definition two : gmap nat hop := {[ 0%nat := HRead 4; 1%nat := HWrite (int_bytes 7) ]}.
Definition reading : shared :=
  let s := shared_start (H := kernel) [0; 0; 0; 0] two in
  mkShared [0; 0; 0; 0] 0 (goes s 0 (HRead 4) (entered (H := kernel) (HRead 4))) [].

Lemma hello_no_torn_access_witness :
  (exists v, log_run (H := kernel) 0 (sh_log reading) v) /\
  (forall i p, sh_callers reading !! i = Some p -> (forall r, p.2 <> Return r) -> exists s', istep reading s').
Proof.
  destruct (hello_no_torn_access (H := kernel) [0; 0; 0; 0] two reading) as (H1 & _ & _ & H4); [done|by apply bytes_true| | |by split].
  - intros i op E. unfold two in E. apply lookup_insert_Some in E as [[_ <-]|[_ E]]; [done|].
    apply lookup_singleton_Some in E as [_ <-]. apply bytes_le_split.
  - apply rtc_once. destruct (body_down (H := kernel) (HRead 4)) as (k & Eb & _ & Ef). unfold reading. rewrite <- Ef.
    apply (i_down (shared_start (H := kernel) [0; 0; 0; 0] two) 0%nat (HRead 4) k); [|done]. by rewrite <- Eb.
Defined.
End HelloDemo.
