(* ===== verification/ProcInfo.v ===== *)
(** * The process lists under /proc

    [kernel/fs/proc/fleetyinfo.c] and [kernel/fs/proc/seqfile_exam.c], two
    copies of one sequence file that lists the processes.  The kernel's
    [seq_file] code calls [start] with a position, then [show] and [next] in
    turn until [next] returns NULL or the reader's buffer is full, then [stop];
    the next read starts again at the position reached.  [session] is one such
    round, with the number of records that fit as an input.

    The list of processes is a ring with [init_task] in it; a task is its index
    in the ring from there. *)

From stdpp Require Import base list numbers strings.
From Stdlib Require Import ZArith Lia.
From S2P Require Import Prelude Text Kernel.
Open Scope Z_scope.

(** [struct task_struct], the fields shown. *)
Record task_struct := mkTask { comm : list Z; pid : Z }.

(** [%-24s] and [%-5d]: text padded with spaces on the right. *)
Definition pad (n : nat) (s : list Z) : list Z := s ++ replicate (n - length s) 32.

Definition header : list Z :=
  str "Current all the processes in system:" ++ [10] ++ pad 24 (str "name") ++ pad 5 (str "pid") ++ [10].

(** The line of one process. *)
Definition line (t : task_struct) : list Z := pad 24 (comm t) ++ pad 5 (sdecimal (pid t)) ++ [10].

Section Seq.
(** The ring, [init_task] first. *)
Variable tasks : list task_struct.

Definition init_task : nat := 0.
Definition next_task (i : nat) : nat := (S i) mod (length tasks).

(** [l_start]: the text it prints and the task it returns. *)
Definition l_start (pos : Z) : list Z * option nat :=
  if pos =? 0 then (header, Some init_task) else ([], None).

(** [l_next]: the task it returns and the new position. *)
Definition l_next (task : nat) (pos : Z) : option nat * Z :=
  let task := next_task task in
  if negb (pos =? 0) && (task =? init_task)%nat then (None, pos) else (Some task, pos + 1).

Definition l_stop : unit := tt.

Definition l_show (task : nat) : option (list Z) := line <$> tasks !! task.

(** The records of one round, at most [room] of them. *)
Fixpoint records (room task : nat) (pos : Z) : option (list Z * Z) :=
  match room with
  | O => Some ([], pos)
  | S room' =>
      text ← l_show task;
      let '(next, pos') := l_next task pos in
      match next with
      | None => Some (text, pos')
      | Some task' => '(rest, last) ← records room' task' pos'; Some (text ++ rest, last)
      end
  end.

(** One round of the reader from position [pos]: the text and the position
    after it. *)
Definition session (room : nat) (pos : Z) : option (list Z * Z) :=
  match l_start pos with
  | (text, None) => Some (text, pos)
  | (text, Some task) => '(rest, last) ← records room task pos; Some (text ++ rest, last)
  end.
End Seq.

(** [seqfile_exam.c] has the same four functions. *)
Definition exam_l_start := l_start.
Definition exam_l_next := l_next.
Definition exam_l_stop := l_stop.
Definition exam_l_show := l_show.

(** Loading: only [fleetyinfo.c] looks at the result of [proc_create]; the
    value returned and the entries under /proc. *)
Definition proc_fleetyinfo_init (created : bool) (entries : list (list Z)) : Z * list (list Z) :=
  if created then (0, str "fleetyinfo" :: entries) else (- ENOMEM, entries).
Definition exam_seq_init (created : bool) (entries : list (list Z)) : Z * list (list Z) :=
  (0, if created then str "exam_esq_file" :: entries else entries).
Definition remove_proc_entry (name : list Z) (entries : list (list Z)) : list (list Z) :=
  filter (fun e => e <> name) entries.
Definition proc_fleetyinfo_exit := remove_proc_entry (str "fleetyinfo").
Definition exam_seq_exit := remove_proc_entry (str "exam_esq_file").

(** ** Lemmas *)

(** From a task on, with room for it and all after it. *)
Lemma records_spec tasks i pos room :
  (2 <= length tasks)%nat -> (i < length tasks)%nat -> 0 <= pos -> (pos = 0 -> i = O) ->
  (length tasks - i <= room)%nat ->
  exists last, records tasks room i pos = Some (concat (map line (drop i tasks)), last) /\ 0 < last.
Proof.
  intros H2. remember (length tasks - i)%nat as n eqn:En. revert i pos room En.
  induction n as [|n IH]; intros i pos room En Hi Hp H0 Hr; [lia|].
  destruct room as [|room]; [lia|]. cbn [records]. unfold l_show, l_next.
  destruct (lookup_lt_is_Some_2 tasks i Hi) as [t Et]. rewrite Et. cbn [fmap option_fmap option_map mbind option_bind].
  rewrite (drop_S _ _ _ Et). cbn [map concat].
  destruct (decide (S i = length tasks)) as [Hlast|Hmore].
  - unfold next_task. rewrite Hlast, Nat.Div0.mod_same. change (0 =? init_task)%nat with true.
    assert (pos <> 0) as Hpos by (intros ->; specialize (H0 eq_refl); lia).
    rewrite (proj2 (Z.eqb_neq _ _) Hpos). cbn [negb andb]. exists pos.
    rewrite <- Hlast. rewrite drop_ge by lia. cbn [map concat]. rewrite app_nil_r. split; [done|lia].
  - unfold next_task. rewrite Nat.mod_small by lia. change (S i =? init_task)%nat with false.
    rewrite andb_false_r. destruct (IH (S i) (pos + 1) room) as (last & E & HL); try lia.
    rewrite E. exists last. split; [done|lia].
Qed.

(** ** The theorems *)

(** With at least two processes, a reader whose buffer holds the whole
    list gets the heading and then one line for every process, in the order of
    the kernel's list and each once, and the next read finds the end. *)
Theorem proc_lists_all tasks room :
  (2 <= length tasks)%nat -> (length tasks <= room)%nat ->
  exists last, session tasks room 0 = Some (header ++ concat (map line tasks), last) /\
    session tasks room last = Some ([], last).
Proof.
  intros H2 Hr. destruct (records_spec tasks 0 0 room) as (last & E & HL); try lia.
  exists last. unfold session, l_start. cbn [Z.eqb]. change init_task with O. rewrite E. split; [done|].
  by rewrite (proj2 (Z.eqb_neq last 0)) by lia.
Qed.

(** A round that stops before the end: the next one starts at a position that
    is not zero, finds nothing, and the rest of the list is never read. *)
Lemma proc_cut_is_lost tasks room :
  (2 <= length tasks)%nat -> (0 < room < length tasks)%nat ->
  exists last, session tasks room 0 = Some (header ++ concat (map line (take room tasks)), last) /\
    last <> 0 /\ session tasks room last = Some ([], last).
Proof.
  intros H2 Hr.
  assert (forall n i pos, (i + n < length tasks)%nat -> 0 <= pos -> (0 < n)%nat ->
    records tasks n i pos = Some (concat (map line (take n (drop i tasks))), pos + Z.of_nat n)) as HR.
  { induction n as [|n IH]; intros i pos Hi Hp Hn; [lia|]. cbn [records]. unfold l_show, l_next.
    destruct (lookup_lt_is_Some_2 tasks i ltac:(lia)) as [t Et]. rewrite Et.
    cbn [fmap option_fmap option_map mbind option_bind]. rewrite (drop_S _ _ _ Et). cbn [take map concat].
    unfold next_task. rewrite Nat.mod_small by lia. change (S i =? init_task)%nat with false.
    rewrite andb_false_r. destruct n as [|n].
    - cbn [records mbind option_bind take map concat]. do 2 f_equal; lia.
    - rewrite IH by lia. cbn [mbind option_bind]. do 2 f_equal; lia. }
  exists (Z.of_nat room). unfold session, l_start. cbn [Z.eqb]. change init_task with O.
  rewrite HR by lia. cbn [mbind option_bind]. split_and!; [done|lia|].
  by rewrite (proj2 (Z.eqb_neq (Z.of_nat room) 0)) by lia.
Qed.

(** ** Examples *)

Module ProcDemo.
Definition tasks : list task_struct := [mkTask (str "swapper") 0; mkTask (str "init") 1; mkTask (str "scorpion") 212].

Lemma proc_lists_all_witness :
  exists last, session tasks 10 0 = Some (header ++ concat (map line tasks), last) /\
    session tasks 10 last = Some ([], last).
Proof. apply (proc_lists_all tasks 10); simpl; lia. Defined.

(** With one task the list shows it twice. *)
Example one_task_twice :
  fst <$> session (take 1 tasks) 10 0 = Some (header ++ line (mkTask (str "swapper") 0) ++ line (mkTask (str "swapper") 0)).
Proof. reflexivity. Qed.
End ProcDemo.
