(* ===== verification/FreqTable.v ===== *)
(** * Frequency tables

    [kernel/drivers/cpufreq/freq_table.c]: the helpers CPU-frequency drivers
    use on a table of frequencies.  A table is an array of entries that ends
    with an entry whose frequency is [CPUFREQ_TABLE_END]; a loop that runs past
    the array is [None].  [limits] is the one function of the cpufreq core used
    here, [cpufreq_verify_within_limits]. *)

From stdpp Require Import base list numbers strings gmap.
From Stdlib Require Import ZArith Lia.
From S2P Require Import Prelude Text Kernel.
Open Scope Z_scope.

(** [~0] and [~1] as unsigned int. *)
Definition CPUFREQ_ENTRY_INVALID : Z := 2 ^ 32 - 1.
Definition CPUFREQ_TABLE_END : Z := 2 ^ 32 - 2.
Definition CPUFREQ_RELATION_L : Z := 0.
Definition CPUFREQ_RELATION_H : Z := 1.
Definition NONE : Z := 2 ^ 32 - 1.

(** [struct cpufreq_frequency_table] *)
Record freq_entry := mkEntry { driver_data : Z; frequency : Z }.
Definition freq_table := list freq_entry.

(** [struct cpufreq_policy], the fields used. *)
Record cpufreq_policy := mkPolicy {
  p_cpu : Z;
  last_cpu : Z;
  p_min : Z;
  p_max : Z;
  p_cur : Z;
  cpuinfo_min : Z;
  cpuinfo_max : Z;
  p_cpus : list Z
}.

Definition set_range (lo hi : Z) (p : cpufreq_policy) : cpufreq_policy :=
  mkPolicy (p_cpu p) (last_cpu p) lo hi (p_cur p) (cpuinfo_min p) (cpuinfo_max p) (p_cpus p).

(** [cpufreq_verify_within_limits]: the range of a policy brought inside
    [lo, hi]; a bound that is inside already is kept. *)
Class CpufreqLimits := {
  limits : Z -> Z -> Z * Z -> Z * Z;
  limits_inside : forall lo hi r, lo <= hi ->
    lo <= fst (limits lo hi r) <= snd (limits lo hi r) /\ snd (limits lo hi r) <= hi;
  limits_max : forall lo hi a b, lo <= b <= hi -> snd (limits lo hi (a, b)) = b;
  limits_min : forall lo hi a b, lo <= a <= b -> b <= hi -> fst (limits lo hi (a, b)) = a
}.

(** [cpufreq_frequency_table_cpuinfo]: smallest and largest frequency. *)
Fixpoint cpuinfo_loop (table : freq_table) (min_freq max_freq : Z) : option (Z * Z) :=
  match table with
  | [] => None
  | e :: table' =>
      let freq := frequency e in
      if freq =? CPUFREQ_TABLE_END then Some (min_freq, max_freq)
      else if freq =? CPUFREQ_ENTRY_INVALID then cpuinfo_loop table' min_freq max_freq
      else cpuinfo_loop table' (if freq <? min_freq then freq else min_freq)
             (if max_freq <? freq then freq else max_freq)
  end.

Definition cpufreq_frequency_table_cpuinfo (p : cpufreq_policy) (table : freq_table)
  : option (Z * cpufreq_policy) :=
  '(lo, hi) ← cpuinfo_loop table NONE 0;
  let p' := mkPolicy (p_cpu p) (last_cpu p) lo hi (p_cur p) lo hi (p_cpus p) in
  Some (if lo =? NONE then - EINVAL else 0, p').

(** The loop of [cpufreq_frequency_table_verify]: whether a frequency lies in
    the range, and the smallest one above it. *)
Fixpoint verify_loop (table : freq_table) (lo hi next_larger : Z) : option (bool * Z) :=
  match table with
  | [] => None
  | e :: table' =>
      let freq := frequency e in
      if freq =? CPUFREQ_TABLE_END then Some (false, next_larger)
      else if freq =? CPUFREQ_ENTRY_INVALID then verify_loop table' lo hi next_larger
      else if (lo <=? freq) && (freq <=? hi) then Some (true, next_larger)
      else verify_loop table' lo hi
             (if (freq <? next_larger) && (hi <? freq) then freq else next_larger)
  end.

(** The entry of [cpufreq_frequency_table_target] a frequency replaces. *)
Definition keep_entry (better : bool) (freq i : Z) (e : freq_entry) : freq_entry :=
  if better then mkEntry i freq else e.

(** The loop of [cpufreq_frequency_table_target]: the best entry, the best on
    the other side of the target, the index of the end. *)
Fixpoint target_loop (table : freq_table) (p : cpufreq_policy) (target relation i : Z)
    (optimal suboptimal : freq_entry) : option (freq_entry * freq_entry * Z) :=
  match table with
  | [] => None
  | e :: table' =>
      let freq := frequency e in
      let skip := target_loop table' p target relation (u32 (i + 1)) optimal suboptimal in
      if freq =? CPUFREQ_TABLE_END then Some (optimal, suboptimal, i)
      else if freq =? CPUFREQ_ENTRY_INVALID then skip
      else if (freq <? p_min p) || (p_max p <? freq) then skip
      else if relation =? CPUFREQ_RELATION_H then
        if freq <=? target
        then target_loop table' p target relation (u32 (i + 1))
               (keep_entry (frequency optimal <=? freq) freq i optimal) suboptimal
        else target_loop table' p target relation (u32 (i + 1)) optimal
               (keep_entry (freq <=? frequency suboptimal) freq i suboptimal)
      else if relation =? CPUFREQ_RELATION_L then
        if target <=? freq
        then target_loop table' p target relation (u32 (i + 1))
               (keep_entry (freq <=? frequency optimal) freq i optimal) suboptimal
        else target_loop table' p target relation (u32 (i + 1)) optimal
               (keep_entry (frequency suboptimal <=? freq) freq i suboptimal)
      else skip
  end.

(** [cpufreq_frequency_table_target]: the result and, when it is zero, the index. *)
Definition cpufreq_frequency_table_target (p : cpufreq_policy) (table : freq_table)
    (target relation : Z) : option (Z * option Z) :=
  let optimal := mkEntry NONE (if relation =? CPUFREQ_RELATION_L then NONE else 0) in
  let suboptimal := mkEntry NONE (if relation =? CPUFREQ_RELATION_H then NONE else 0) in
  '(opt, sub, i) ← target_loop table p target relation 0 optimal suboptimal;
  Some (if i <? driver_data opt
        then if i <? driver_data sub then (- EINVAL, None) else (0, Some (driver_data sub))
        else (0, Some (driver_data opt))).

(** The text of the attribute [scaling_available_frequencies], [%d] of an
    unsigned number. *)
Fixpoint available_loop (table : freq_table) (text : list Z) : option (list Z) :=
  match table with
  | [] => None
  | e :: table' =>
      if frequency e =? CPUFREQ_TABLE_END then Some text
      else if frequency e =? CPUFREQ_ENTRY_INVALID then available_loop table' text
      else available_loop table' (text ++ sdecimal (s32 (frequency e)) ++ [32])
  end.

(** ** The table shown for each CPU: [per_cpu(cpufreq_show_table, cpu)] *)

Definition show_tables := gmap Z freq_table.

Definition show_available_freqs (shown : show_tables) (p : cpufreq_policy) : option (Z * list Z) :=
  match shown !! p_cpu p with
  | None => Some (- ENODEV, [])
  | Some table => text ← available_loop table []; Some (zlen text + 1, text ++ [10])
  end.

Definition cpufreq_frequency_table_get_attr (table : freq_table) (cpu : Z) (shown : show_tables) : show_tables :=
  <[cpu := table]> shown.
Definition cpufreq_frequency_table_put_attr (cpu : Z) (shown : show_tables) : show_tables :=
  delete cpu shown.

Definition cpufreq_table_validate_and_show (p : cpufreq_policy) (table : freq_table) (shown : show_tables)
  : option (Z * cpufreq_policy * show_tables) :=
  '(r, p') ← cpufreq_frequency_table_cpuinfo p table;
  Some (r, p', if r =? 0 then cpufreq_frequency_table_get_attr table (p_cpu p) shown else shown).

Definition cpufreq_frequency_table_update_policy_cpu (p : cpufreq_policy) (shown : show_tables) : show_tables :=
  let moved := match shown !! last_cpu p with
               | Some t => <[p_cpu p := t]> shown
               | None => delete (p_cpu p) shown
               end in
  delete (last_cpu p) moved.

Definition cpufreq_frequency_get_table (cpu : Z) (shown : show_tables) : option freq_table := shown !! cpu.

Section Verify.
Context `{CpufreqLimits}.

(** [cpufreq_verify_within_cpu_limits] *)
Definition within_cpu_limits (p : cpufreq_policy) : cpufreq_policy :=
  let '(lo, hi) := limits (cpuinfo_min p) (cpuinfo_max p) (p_min p, p_max p) in set_range lo hi p.

Definition cpufreq_frequency_table_verify (p : cpufreq_policy) (table : freq_table)
  : option (Z * cpufreq_policy) :=
  let p1 := within_cpu_limits p in
  '(found, next_larger) ← verify_loop table (p_min p1) (p_max p1) NONE;
  Some (0, if found : bool then p1
           else within_cpu_limits (set_range (p_min p1) next_larger p1)).

Definition cpufreq_generic_frequency_table_verify (p : cpufreq_policy) (shown : show_tables)
  : option (Z * cpufreq_policy) :=
  match cpufreq_frequency_get_table (p_cpu p) shown with
  | None => Some (- ENODEV, p)
  | Some table => cpufreq_frequency_table_verify p table
  end.
End Verify.

(** ** Tables that end *)

(** The frequencies before the end of a table; [None] when it has no end. *)
Fixpoint body (table : freq_table) : option (list Z) :=
  match table with
  | [] => None
  | e :: table' => if frequency e =? CPUFREQ_TABLE_END then Some [] else cons (frequency e) <$> body table'
  end.

(** A frequency a policy allows. *)
Definition eligible (p : cpufreq_policy) (f : Z) : bool :=
  negb (f =? CPUFREQ_ENTRY_INVALID) && (p_min p <=? f) && (f <=? p_max p).

(** [f] is the best of [fs] for a target: the nearest on the preferred side
    (below for [H], above for [L]), or else the nearest on the other. *)
Definition best (relation target : Z) (fs : list Z) (f : Z) : Prop :=
  f ∈ fs /\
  if relation =? CPUFREQ_RELATION_H
  then (f <= target /\ forall g, g ∈ fs -> g <= target -> g <= f) \/
       (target < f /\ forall g, g ∈ fs -> target < g /\ f <= g)
  else (target <= f /\ forall g, g ∈ fs -> target <= g -> f <= g) \/
       (f < target /\ forall g, g ∈ fs -> g < target /\ g <= f).

(** ** Lemmas: one side of the target *)

(** The selection on one side of the target: [good] says which frequencies are
    on it, [better old new] which replaces the other. *)
Fixpoint side (p : cpufreq_policy) (good : Z -> bool) (better : Z -> Z -> bool) (i : Z) (e : freq_entry)
    (fs : list Z) : freq_entry :=
  match fs with
  | [] => e
  | f :: fs' => side p good better (u32 (i + 1))
                  (keep_entry (eligible p f && good f && better (frequency e) f) f i e) fs'
  end.

Section Side.
Variable p : cpufreq_policy.
Variable good : Z -> bool.
Variable better : Z -> Z -> bool.
Hypothesis better_refl : forall x, better x x = true.
Hypothesis better_trans : forall x y z, better x y = true -> better y z = true -> better x z = true.
Hypothesis better_total : forall x y, better x y = false -> better y x = true.

(** The entry kept after [fs]: none yet, or the best of the frequencies on the side. *)
Definition side_ok (init : Z) (fs : list Z) (e : freq_entry) : Prop :=
  (driver_data e = NONE /\ frequency e = init /\ forall g, g ∈ fs -> eligible p g && good g = false) \/
  (exists k : nat, driver_data e = Z.of_nat k /\ fs !! k = Some (frequency e) /\
     eligible p (frequency e) && good (frequency e) = true /\
     forall g, g ∈ fs -> eligible p g && good g = true -> better g (frequency e) = true).

Lemma side_step init fs f e :
  (forall g, eligible p g = true -> better init g = true) -> side_ok init fs e ->
  side_ok init (fs ++ [f])
    (keep_entry (eligible p f && good f && better (frequency e) f) f (Z.of_nat (length fs)) e).
Proof.
  intros HI [(H1 & H2 & H3)|(k & H1 & H2 & H3 & H4)]; unfold keep_entry.
  - destruct (eligible p f && good f) eqn:E; cbn [andb].
    + rewrite H2, HI by (by apply andb_true_iff in E as [? _]). right. exists (length fs). cbn.
      split_and!; [done|apply list_lookup_middle; done|done|].
      intros g [Hg|Hg]%elem_of_app Eg; [by rewrite H3 in Eg|].
      apply list_elem_of_singleton in Hg as ->. apply better_refl.
    + left. split_and!; [done|done|]. intros g [Hg|Hg]%elem_of_app; [by apply H3|].
      by apply list_elem_of_singleton in Hg as ->.
  - right. destruct (eligible p f && good f) eqn:E; cbn [andb]; [destruct (better (frequency e) f) eqn:EB|].
    + exists (length fs). cbn. split_and!; [done|by apply list_lookup_middle|done|].
      intros g [Hg|Hg]%elem_of_app Eg.
      * eapply better_trans; [by apply H4|done].
      * apply list_elem_of_singleton in Hg as ->. apply better_refl.
    + exists k. split_and!; [done|by apply lookup_app_l_Some|done|].
      intros g [Hg|Hg]%elem_of_app Eg; [by apply H4|]. apply list_elem_of_singleton in Hg as ->.
      by apply better_total.
    + exists k. split_and!; [done|by apply lookup_app_l_Some|done|].
      intros g [Hg|Hg]%elem_of_app Eg; [by apply H4|]. apply list_elem_of_singleton in Hg as ->. congruence.
Qed.

Lemma side_spec init done todo e :
  (forall g, eligible p g = true -> better init g = true) ->
  zlen done + zlen todo < NONE -> side_ok init done e ->
  side_ok init (done ++ todo) (side p good better (Z.of_nat (length done)) e todo).
Proof.
  intros HI. revert done e. induction todo as [|f todo IH]; intros done e HL HS; cbn [side].
  - by rewrite app_nil_r.
  - replace (u32 (Z.of_nat (length done) + 1)) with (Z.of_nat (length (done ++ [f]))).
    2:{ rewrite zlen_cons in HL. pose proof (zlen_nonneg todo). rewrite length_app. cbn [length].
        unfold NONE, zlen in *. rewrite u32_id by lia. lia. }
    replace (done ++ f :: todo) with ((done ++ [f]) ++ todo) by (by rewrite <- app_assoc).
    apply IH; [rewrite zlen_app, zlen_cons in *; change (zlen []) with 0; lia|]. by apply side_step.
Qed.
End Side.

(** ** Lemmas: the loop is the two sides *)

Lemma target_loop_H table p target fs opt sub i :
  body table = Some fs -> 0 <= i -> i + zlen fs < NONE ->
  target_loop table p target CPUFREQ_RELATION_H i opt sub =
    Some (side p (fun f => f <=? target) Z.leb i opt fs,
          side p (fun f => target <? f) (fun old new => new <=? old) i sub fs, i + zlen fs).
Proof.
  revert fs opt sub i. induction table as [|e table IH]; intros fs opt sub i EB Hi HL; [done|].
  cbn [body target_loop] in *. destruct (frequency e =? CPUFREQ_TABLE_END).
  { injection EB as <-. cbn [side]. change (zlen []) with 0. by rewrite Z.add_0_r. }
  destruct (body table) as [fs'|]; [|done]. injection EB as <-. specialize (IH fs').
  rewrite zlen_cons in *. pose proof (zlen_nonneg fs'). unfold NONE in *.
  rewrite (u32_id (i + 1)) by lia. cbn [side]. rewrite (u32_id (i + 1)) by lia.
  replace (i + (zlen fs' + 1)) with (i + 1 + zlen fs') by lia.
  unfold eligible, keep_entry. change (CPUFREQ_RELATION_H =? CPUFREQ_RELATION_H) with true. cbv iota.
  destruct (frequency e =? CPUFREQ_ENTRY_INVALID); cbn [negb andb]; [rewrite IH by (done || lia); done|].
  destruct (frequency e <? p_min p) eqn:E1, (p_min p <=? frequency e) eqn:E1'; bool_cases; try lia;
    cbn [orb andb]; [rewrite IH by (done || lia); done|].
  destruct (p_max p <? frequency e) eqn:E2, (frequency e <=? p_max p) eqn:E2'; bool_cases; try lia;
    cbn [andb]; [rewrite IH by (done || lia); done|].
  destruct (frequency e <=? target) eqn:E3, (target <? frequency e) eqn:E3'; bool_cases; try lia;
    cbn [andb]; (rewrite IH by (done || lia); done).
Qed.

Lemma target_loop_L table p target fs opt sub i :
  body table = Some fs -> 0 <= i -> i + zlen fs < NONE ->
  target_loop table p target CPUFREQ_RELATION_L i opt sub =
    Some (side p (fun f => target <=? f) (fun old new => new <=? old) i opt fs,
          side p (fun f => f <? target) Z.leb i sub fs, i + zlen fs).
Proof.
  revert fs opt sub i. induction table as [|e table IH]; intros fs opt sub i EB Hi HL; [done|].
  cbn [body target_loop] in *. destruct (frequency e =? CPUFREQ_TABLE_END).
  { injection EB as <-. cbn [side]. change (zlen []) with 0. by rewrite Z.add_0_r. }
  destruct (body table) as [fs'|]; [|done]. injection EB as <-. specialize (IH fs').
  rewrite zlen_cons in *. pose proof (zlen_nonneg fs'). unfold NONE in *.
  rewrite (u32_id (i + 1)) by lia. cbn [side]. rewrite (u32_id (i + 1)) by lia.
  replace (i + (zlen fs' + 1)) with (i + 1 + zlen fs') by lia.
  unfold eligible, keep_entry. change (CPUFREQ_RELATION_L =? CPUFREQ_RELATION_H) with false.
  change (CPUFREQ_RELATION_L =? CPUFREQ_RELATION_L) with true. cbv iota.
  destruct (frequency e =? CPUFREQ_ENTRY_INVALID); cbn [negb andb]; [rewrite IH by (done || lia); done|].
  destruct (frequency e <? p_min p) eqn:E1, (p_min p <=? frequency e) eqn:E1'; bool_cases; try lia;
    cbn [orb andb]; [rewrite IH by (done || lia); done|].
  destruct (p_max p <? frequency e) eqn:E2, (frequency e <=? p_max p) eqn:E2'; bool_cases; try lia;
    cbn [andb]; [rewrite IH by (done || lia); done|].
  destruct (target <=? frequency e) eqn:E3, (frequency e <? target) eqn:E3'; bool_cases; try lia;
    cbn [andb]; (rewrite IH by (done || lia); done).
Qed.

Lemma leb_order :
  (forall x, (x <=? x) = true) /\
  (forall x y z, (x <=? y) = true -> (y <=? z) = true -> (x <=? z) = true) /\
  (forall x y, (x <=? y) = false -> (y <=? x) = true).
Proof. split_and!; intros; bool_cases; apply Z.leb_le; lia. Qed.

Lemma body_bound table fs : body table = Some fs -> Forall (fun f => f <> CPUFREQ_TABLE_END) fs.
Proof.
  revert fs. induction table as [|e table IH]; intros fs E; [done|]. cbn [body] in E.
  destruct (frequency e =? CPUFREQ_TABLE_END) eqn:EE; bool_cases; [injection E as <-; constructor|].
  destruct (body table); [|done]. injection E as <-. constructor; [done|by apply IH].
Qed.

Definition u32s (fs : list Z) : Prop := Forall (fun f => 0 <= f < 2 ^ 32) fs.

(** The frequencies of a table a policy allows. *)
Definition choices (p : cpufreq_policy) (fs : list Z) : list Z := filter (fun f => eligible p f = true) fs.

Lemma elem_choices p fs f : f ∈ choices p fs <-> eligible p f = true /\ f ∈ fs.
Proof. unfold choices. by rewrite list_elem_of_filter. Qed.

(** What [side] found, as a statement about the choices. *)
Lemma side_none p good better init fs e g :
  side_ok p good better init fs e -> driver_data e = NONE -> zlen fs < NONE ->
  g ∈ choices p fs -> good g = false.
Proof.
  intros [(_ & _ & HN)|(k & Ek & El & _)] ED HL Hg.
  - apply elem_choices in Hg as [H1 H2]. specialize (HN g H2). by rewrite H1 in HN.
  - apply lookup_lt_Some in El. unfold zlen in HL. lia.
Qed.

Lemma side_some p good better init fs e :
  side_ok p good better init fs e -> driver_data e <> NONE ->
  exists k : nat, driver_data e = Z.of_nat k /\ fs !! k = Some (frequency e) /\
    frequency e ∈ choices p fs /\ good (frequency e) = true /\
    forall g, g ∈ choices p fs -> good g = true -> better g (frequency e) = true.
Proof.
  intros [(ED & _)|(k & Ek & El & Eg & Hb)] Hne; [done|]. apply andb_true_iff in Eg as [E1 E2].
  exists k. split_and!; [done|done| |done|].
  - apply elem_choices. split; [done|]. by eapply list_elem_of_lookup_2.
  - intros g [H1 H2]%elem_choices H3. apply Hb; [done|]. by rewrite H1, H3.
Qed.

(** The selection in [cpufreq_frequency_table_target], from the two sides. *)
Definition select (opt sub : freq_entry) (i : Z) : Z * option Z :=
  if i <? driver_data opt
  then if i <? driver_data sub then (- EINVAL, None) else (0, Some (driver_data sub))
  else (0, Some (driver_data opt)).

Lemma select_spec p fs good1 better1 init1 opt good2 better2 init2 sub :
  zlen fs < NONE ->
  side_ok p good1 better1 init1 fs opt -> side_ok p good2 better2 init2 fs sub ->
  (forall g, good1 g = false -> good2 g = true) ->
  match select opt sub (zlen fs) with
  | (r, None) => r = - EINVAL /\ choices p fs = []
  | (r, Some i) => r = 0 /\ exists (k : nat) f, i = Z.of_nat k /\ fs !! k = Some f /\ f ∈ choices p fs /\
      ((good1 f = true /\ forall g, g ∈ choices p fs -> good1 g = true -> better1 g f = true) \/
       (good2 f = true /\ forall g, g ∈ choices p fs -> good1 g = false /\ better2 g f = true))
  end.
Proof.
  intros HL H1 H2 HG. unfold select.
  assert (forall e good better init, side_ok p good better init fs e -> driver_data e <> NONE ->
    (zlen fs <? driver_data e) = false) as Hin.
  { intros e good better init HS Hne. destruct (side_some _ _ _ _ _ _ HS Hne) as (k & -> & El & _).
    apply lookup_lt_Some in El. apply Z.ltb_ge. unfold zlen. lia. }
  destruct (decide (driver_data opt = NONE)) as [E1|E1].
  - rewrite E1, (proj2 (Z.ltb_lt _ _)) by done.
    assert (forall g, g ∈ choices p fs -> good1 g = false) as N1 by (intros g; by eapply side_none).
    destruct (decide (driver_data sub = NONE)) as [E2|E2].
    + rewrite E2, (proj2 (Z.ltb_lt _ _)) by done. split; [done|].
      destruct (choices p fs) as [|g l] eqn:EC; [done|]. exfalso.
      assert (g ∈ choices p fs) as Hg by (rewrite EC; apply list_elem_of_here).
      assert (good2 g = false) as N2 by (by eapply side_none). rewrite HG in N2; [done|].
      apply N1. rewrite <- EC. exact Hg.
    + rewrite (Hin _ _ _ _ H2 E2). split; [done|].
      destruct (side_some _ _ _ _ _ _ H2 E2) as (k & Ek & El & Hc & Hg & Hb).
      exists k, (frequency sub). split_and!; [done|done|done|]. right. split; [done|].
      intros g Hgc. split; [by apply N1|]. apply Hb; [done|]. apply HG, N1, Hgc.
  - rewrite (Hin _ _ _ _ H1 E1). split; [done|].
    destruct (side_some _ _ _ _ _ _ H1 E1) as (k & Ek & El & Hc & Hg & Hb).
    exists k, (frequency opt). split_and!; [done|done|done|]. left. by split.
Qed.

Lemma side_start p good better init : side_ok p good better init [] (mkEntry NONE init).
Proof. left. split_and!; [done|done|]. by intros g ?%elem_of_nil. Qed.

Lemma eligible_u32 p fs g : u32s fs -> g ∈ choices p fs -> 0 <= g < 2 ^ 32.
Proof. intros HU [_ Hg]%elem_choices. unfold u32s in HU. rewrite Forall_forall in HU. by apply HU. Qed.

(** The range of a policy is a range of unsigned numbers. *)
Definition policy_ok (p : cpufreq_policy) : Prop := 0 <= p_min p /\ p_max p < 2 ^ 32.

Lemma eligible_range p g : policy_ok p -> eligible p g = true -> 0 <= g < 2 ^ 32.
Proof. intros [H1 H2] HE. unfold eligible in HE. bool_cases. lia. Qed.

(** What a call of [cpufreq_frequency_table_target] gives. *)
Definition target_result (p : cpufreq_policy) (fs : list Z) (target relation : Z) (r : Z * option Z) : Prop :=
  match r with
  | (e, None) => e = - EINVAL /\ choices p fs = []
  | (e, Some i) => e = 0 /\ exists (k : nat) f, i = Z.of_nat k /\ fs !! k = Some f /\
      best relation target (choices p fs) f
  end.

Section Select.
Variables (p : cpufreq_policy) (table : freq_table) (fs : list Z) (target : Z).
Hypothesis ends : body table = Some fs.
Hypothesis in_range : policy_ok p.
Hypothesis short : zlen fs < NONE.

Lemma up_ok good : side_ok p good Z.leb 0 fs (side p good Z.leb 0 (mkEntry NONE 0) fs).
Proof.
  destruct leb_order as (R1 & R2 & R3).
  apply (side_spec p good Z.leb R1 R2 R3 0 [] fs); [|change (zlen []) with 0; lia|apply side_start].
  intros g HE. apply (eligible_range p g in_range) in HE. apply Z.leb_le. lia.
Qed.

Lemma down_ok good :
  side_ok p good (fun old new => new <=? old) NONE fs (side p good (fun old new => new <=? old) 0 (mkEntry NONE NONE) fs).
Proof.
  destruct leb_order as (R1 & R2 & R3).
  apply (side_spec p good (fun old new => new <=? old) R1 (fun x y z A B => R2 _ _ _ B A) (fun x y => R3 y x) NONE [] fs);
    [|change (zlen []) with 0; lia|apply side_start].
  intros g HE. apply (eligible_range p g in_range) in HE. apply Z.leb_le. unfold NONE. lia.
Qed.

Lemma target_select_H :
  exists r, cpufreq_frequency_table_target p table target CPUFREQ_RELATION_H = Some r /\
    target_result p fs target CPUFREQ_RELATION_H r.
Proof.
  unfold cpufreq_frequency_table_target. rewrite (target_loop_H _ _ _ fs) by (done || lia).
  cbn [mbind option_bind]. eexists. split; [done|]. rewrite Z.add_0_l.
  pose proof (select_spec p fs _ _ _ _ _ _ _ _ short (up_ok (fun f => f <=? target)) (down_ok (fun f => target <? f))
    ltac:(cbv beta; intros g Hg; bool_cases; apply Z.ltb_lt; lia)) as HS.
  unfold select in HS. unfold target_result, best.
  change (CPUFREQ_RELATION_H =? CPUFREQ_RELATION_L) with false in *.
  change (CPUFREQ_RELATION_H =? CPUFREQ_RELATION_H) with true in *. cbv iota beta in *.
  destruct (if _ <? _ then _ else _) as [e [i|]]; [|done]. destruct HS as (-> & k & f & Ek & El & Hf & Hb).
  split; [done|]. exists k, f. split_and!; [done|done|done|].
  destruct Hb as [[Hg Hb]|[Hg Hb]]; bool_cases; [left|right]; (split; [done|]).
  - intros g Hgc Hle. apply Z.leb_le. apply Hb; [done|]. by apply Z.leb_le.
  - intros g Hgc. destruct (Hb g Hgc) as [B1 B2]. bool_cases. lia.
Qed.

Lemma target_select_L :
  exists r, cpufreq_frequency_table_target p table target CPUFREQ_RELATION_L = Some r /\
    target_result p fs target CPUFREQ_RELATION_L r.
Proof.
  unfold cpufreq_frequency_table_target. rewrite (target_loop_L _ _ _ fs) by (done || lia).
  cbn [mbind option_bind]. eexists. split; [done|]. rewrite Z.add_0_l.
  pose proof (select_spec p fs _ _ _ _ _ _ _ _ short (down_ok (fun f => target <=? f)) (up_ok (fun f => f <? target))
    ltac:(cbv beta; intros g Hg; bool_cases; apply Z.ltb_lt; lia)) as HS.
  unfold select in HS. unfold target_result, best.
  change (CPUFREQ_RELATION_L =? CPUFREQ_RELATION_H) with false in *.
  change (CPUFREQ_RELATION_L =? CPUFREQ_RELATION_L) with true in *. cbv iota beta in *.
  destruct (if _ <? _ then _ else _) as [e [i|]]; [|done]. destruct HS as (-> & k & f & Ek & El & Hf & Hb).
  split; [done|]. exists k, f. split_and!; [done|done|done|].
  destruct Hb as [[Hg Hb]|[Hg Hb]]; bool_cases; [left|right]; (split; [done|]).
  - intros g Hgc Hle. apply Z.leb_le. apply Hb; [done|]. by apply Z.leb_le.
  - intros g Hgc. destruct (Hb g Hgc) as [B1 B2]. bool_cases. lia.
Qed.
End Select.

Lemma target_select p table fs target relation :
  body table = Some fs -> policy_ok p -> zlen fs < NONE ->
  relation = CPUFREQ_RELATION_H \/ relation = CPUFREQ_RELATION_L ->
  exists r, cpufreq_frequency_table_target p table target relation = Some r /\ target_result p fs target relation r.
Proof. intros EB HP HL [->| ->]; [by apply target_select_H|by apply target_select_L]. Qed.

(** ** Lemmas: the range of a table *)

Definition valid (f : Z) : bool := negb (f =? CPUFREQ_ENTRY_INVALID).

Lemma cpuinfo_loop_spec table fs lo hi :
  body table = Some fs ->
  exists lo' hi', cpuinfo_loop table lo hi = Some (lo', hi') /\
    lo' <= lo /\ hi <= hi' /\ (forall f, f ∈ fs -> valid f = true -> lo' <= f <= hi') /\
    (lo' = lo \/ (lo' ∈ fs /\ valid lo' = true)) /\ (hi' = hi \/ (hi' ∈ fs /\ valid hi' = true)).
Proof.
  revert fs lo hi. induction table as [|e table IH]; intros fs lo hi EB; [done|]. cbn [body cpuinfo_loop] in *.
  destruct (frequency e =? CPUFREQ_TABLE_END).
  { injection EB as <-. exists lo, hi. split_and!; [done|lia|lia| |by left|by left]. by intros f ?%elem_of_nil. }
  destruct (body table) as [fs'|]; [|done]. injection EB as <-. set (f := frequency e) in *.
  assert (valid f = negb (f =? CPUFREQ_ENTRY_INVALID)) as EV by done.
  destruct (f =? CPUFREQ_ENTRY_INVALID) eqn:EI.
  - destruct (IH fs' lo hi eq_refl) as (lo' & hi' & E & H1 & H2 & H3 & H4 & H5).
    exists lo', hi'. split_and!; [done|lia|lia| | |].
    + intros g [->|Hg]%elem_of_cons Hv; [by rewrite EV in Hv|by apply H3].
    + destruct H4 as [?|[? ?]]; [by left|right]. split; [by apply list_elem_of_further|done].
    + destruct H5 as [?|[? ?]]; [by left|right]. split; [by apply list_elem_of_further|done].
  - destruct (IH fs' (if f <? lo then f else lo) (if hi <? f then f else hi) eq_refl)
      as (lo' & hi' & E & H1 & H2 & H3 & H4 & H5).
    exists lo', hi'. rewrite E. cbn [negb] in EV.
    assert (lo' <= lo /\ lo' <= f /\ hi <= hi' /\ f <= hi') as (K1 & K2 & K3 & K4).
    { destruct (f <? lo) eqn:E1, (hi <? f) eqn:E2; bool_cases; lia. }
    split_and!; [done|lia|lia| | |].
    + intros g [->|Hg]%elem_of_cons Hv; [lia|by apply H3].
    + destruct H4 as [H4|[? ?]]; [|right; split; [by apply list_elem_of_further|done]].
      destruct (f <? lo); [right; rewrite H4; split; [apply list_elem_of_here|done]|by left].
    + destruct H5 as [H5|[? ?]]; [|right; split; [by apply list_elem_of_further|done]].
      destruct (hi <? f); [right; rewrite H5; split; [apply list_elem_of_here|done]|by left].
Qed.

(** A policy whose limits are those of its table. *)
Definition limits_of (p : cpufreq_policy) (fs : list Z) : Prop :=
  (cpuinfo_min p ∈ fs) /\ valid (cpuinfo_min p) = true /\ (cpuinfo_max p ∈ fs) /\ valid (cpuinfo_max p) = true /\
  forall f, f ∈ fs -> valid f = true -> cpuinfo_min p <= f <= cpuinfo_max p.

Lemma cpuinfo_spec p table fs :
  body table = Some fs -> u32s fs ->
  exists r p', cpufreq_frequency_table_cpuinfo p table = Some (r, p') /\
    ((r = 0 /\ limits_of p' fs /\ p_min p' = cpuinfo_min p' /\ p_max p' = cpuinfo_max p') \/
     (r = - EINVAL /\ forall f, f ∈ fs -> valid f = false)).
Proof.
  intros EB HU. destruct (cpuinfo_loop_spec table fs NONE 0 EB) as (lo & hi & E & H1 & H2 & H3 & H4 & H5).
  unfold u32s in HU. rewrite Forall_forall in HU.
  unfold cpufreq_frequency_table_cpuinfo. rewrite E. cbn [mbind option_bind]. do 2 eexists. split; [done|].
  destruct (Z.eqb_spec lo NONE) as [->|Hlo].
  - right. split; [done|]. intros f Hf. destruct (valid f) eqn:EV; [|done]. exfalso.
    specialize (H3 f Hf EV). specialize (HU f Hf). unfold valid in EV. apply negb_true_iff in EV. bool_cases.
    unfold NONE, CPUFREQ_ENTRY_INVALID in *. lia.
  - left. destruct H4 as [?|[L1 L2]]; [done|]. specialize (H3 lo L1 L2) as H3lo.
    assert (hi ∈ fs /\ valid hi = true) as [M1 M2].
    { destruct H5 as [->|?]; [|done]. specialize (HU lo L1). assert (lo = 0) as -> by lia. done. }
    split; [done|]. by split_and!.
Qed.

Lemma verify_loop_spec table fs lo hi next :
  body table = Some fs ->
  exists found next', verify_loop table lo hi next = Some (found, next') /\
    (if found : bool then exists f, f ∈ fs /\ valid f = true /\ lo <= f <= hi
     else next' <= next /\ (forall f, f ∈ fs -> valid f = true -> ~ (lo <= f <= hi)) /\
       (forall f, f ∈ fs -> valid f = true -> hi < f -> next' <= f) /\
       (next' = next \/ (next' ∈ fs /\ valid next' = true /\ hi < next'))).
Proof.
  revert fs next. induction table as [|e table IH]; intros fs next EB; [done|]. cbn [body verify_loop] in *.
  destruct (frequency e =? CPUFREQ_TABLE_END).
  { injection EB as <-. exists false, next. split; [done|]. split_and!; [lia| | |by left]; by intros f ?%elem_of_nil. }
  destruct (body table) as [fs'|]; [|done]. injection EB as <-. set (f := frequency e) in *.
  assert (valid f = negb (f =? CPUFREQ_ENTRY_INVALID)) as EV by done.
  destruct (f =? CPUFREQ_ENTRY_INVALID) eqn:EI; cbn [negb] in EV.
  - destruct (IH fs' next eq_refl) as (found & next' & E & HF). exists found, next'. split; [done|].
    destruct found; [destruct HF as (g & Hg & HF); exists g; split; [by apply list_elem_of_further|done]|].
    destruct HF as (F0 & F1 & F2 & F3). split_and!; [done| | |].
    + intros g [->|Hg]%elem_of_cons Hv; [congruence|by apply F1].
    + intros g [->|Hg]%elem_of_cons Hv; [congruence|by apply F2].
    + destruct F3 as [?|(?&?&?)]; [by left|right]. split_and!; [by apply list_elem_of_further|done|done].
  - destruct ((lo <=? f) && (f <=? hi)) eqn:ER.
    { exists true, next. split; [done|]. bool_cases. exists f. split_and!; [apply list_elem_of_here|done|lia|lia]. }
    set (n1 := if (f <? next) && (hi <? f) then f else next).
    destruct (IH fs' n1 eq_refl) as (found & next' & E & HF). exists found, next'. split; [done|].
    destruct found; [destruct HF as (g & Hg & HF); exists g; split; [by apply list_elem_of_further|done]|].
    destruct HF as (F0 & F1 & F2 & F3).
    assert (~ (lo <= f <= hi)) as HN by (apply andb_false_iff in ER as [ER|ER]; bool_cases; lia).
    assert (n1 <= next /\ (hi < f -> n1 <= f) /\ (n1 = next \/ (n1 = f /\ hi < f))) as (N1 & N2 & N3).
    { unfold n1. destruct ((f <? next) && (hi <? f)) eqn:EN.
      - bool_cases. lia.
      - apply andb_false_iff in EN as [EN|EN]; bool_cases; lia. }
    split_and!; [lia| | |].
    + intros g [->|Hg]%elem_of_cons Hv; [done|by apply F1].
    + intros g [->|Hg]%elem_of_cons Hv Hh; [specialize (N2 Hh); lia|by apply F2].
    + destruct F3 as [->|(?&?&?)].
      * destruct N3 as [->|[-> Hh]]; [by left|]. right. split_and!; [apply list_elem_of_here|done|done].
      * right. split_and!; [by apply list_elem_of_further|done|done].
Qed.

(** The range of a policy holds a frequency of the table. *)
Definition has_choice (p : cpufreq_policy) (fs : list Z) : Prop := choices p fs <> [].

Lemma has_choice_intro p fs f : f ∈ fs -> valid f = true -> p_min p <= f <= p_max p -> has_choice p fs.
Proof.
  intros Hf Hv Hr E. assert (f ∈ choices p fs) as HC.
  { apply elem_choices. split; [|done]. unfold eligible. unfold valid in Hv. rewrite Hv. cbn [andb].
    apply andb_true_iff. split; apply Z.leb_le; lia. }
  rewrite E in HC. by apply elem_of_nil in HC.
Qed.

Lemma verify_spec `{CpufreqLimits} p table fs :
  body table = Some fs -> u32s fs -> limits_of p fs ->
  exists p', cpufreq_frequency_table_verify p table = Some (0, p') /\ has_choice p' fs /\
    cpuinfo_min p <= p_min p' <= p_max p' /\ p_max p' <= cpuinfo_max p /\
    cpuinfo_min p' = cpuinfo_min p /\ cpuinfo_max p' = cpuinfo_max p /\ p_cpu p' = p_cpu p.
Proof.
  intros EB HU (L1 & L2 & L3 & L4 & L5). unfold u32s in HU. rewrite Forall_forall in HU.
  pose proof (L5 _ L1 L2) as LL. unfold cpufreq_frequency_table_verify.
  set (lim := limits (cpuinfo_min p) (cpuinfo_max p) (p_min p, p_max p)).
  destruct (limits_inside (cpuinfo_min p) (cpuinfo_max p) (p_min p, p_max p) ltac:(lia)) as [I1 I2]. fold lim in I1, I2.
  assert (within_cpu_limits p = set_range (fst lim) (snd lim) p) as ->
    by (unfold within_cpu_limits; fold lim; by destruct lim).
  cbn [p_min p_max set_range].
  destruct (verify_loop_spec table fs (fst lim) (snd lim) NONE EB) as (found & next & E & HF).
  rewrite E. cbn [mbind option_bind]. eexists. split; [done|]. destruct found.
  - destruct HF as (f & Hf & Hv & Hr). split; [by eapply has_choice_intro|]. cbn. split_and!; done || lia.
  - destruct HF as (_ & F1 & F2 & F3).
    assert (next ∈ fs /\ valid next = true /\ snd lim < next) as (N1 & N2 & N3).
    { destruct F3 as [->|?]; [|done]. exfalso. pose proof (F1 _ L3 L4). pose proof (F2 _ L3 L4).
      pose proof (HU _ L3). unfold valid in L4. apply negb_true_iff in L4. bool_cases.
      unfold NONE, CPUFREQ_ENTRY_INVALID in *. lia. }
    pose proof (L5 _ N1 N2). set (q := set_range (fst lim) next _).
    assert (within_cpu_limits q = set_range (fst lim) next q) as ->.
    { unfold within_cpu_limits. cbn.
      rewrite (surjective_pairing (limits _ _ _)), limits_max, limits_min by lia. done. }
    split; [eapply has_choice_intro; [exact N1|done|cbn; lia]|]. cbn. split_and!; done || lia.
Qed.

(** ** The theorems *)

(** C11: [cpufreq_frequency_table_target] agrees with its specification: on a
    table that ends it returns the index of the best frequency the policy
    allows (for relation H the highest not above the target, or else the
    lowest; for L the lowest not below it, or else the highest), and -EINVAL
    exactly when the policy allows none; it never reads past the table. *)
Theorem target_picks_best p table fs target relation :
  body table = Some fs -> policy_ok p -> zlen fs < NONE ->
  relation = CPUFREQ_RELATION_H \/ relation = CPUFREQ_RELATION_L ->
  exists r, cpufreq_frequency_table_target p table target relation = Some r /\
    match r with
    | (e, None) => e = - EINVAL /\ choices p fs = []
    | (e, Some i) => e = 0 /\ exists (k : nat) f, i = Z.of_nat k /\ fs !! k = Some f /\
        best relation target (choices p fs) f
    end.
Proof. apply target_select. Qed.

(** The three helpers together: on a table with a valid frequency, the
    limits [cpuinfo] finds are its smallest and largest; whatever range a
    policy then asks for, [verify] leaves a range inside these limits that
    holds a frequency of the table, so [target] finds one for every request. *)
Theorem verified_policy_has_target `{CpufreqLimits} p table fs lo hi target relation :
  body table = Some fs -> u32s fs -> zlen fs < NONE -> (exists f, f ∈ fs /\ valid f = true) ->
  relation = CPUFREQ_RELATION_H \/ relation = CPUFREQ_RELATION_L ->
  exists p1 p2 i (k : nat) f,
    cpufreq_frequency_table_cpuinfo p table = Some (0, p1) /\ limits_of p1 fs /\
    cpufreq_frequency_table_verify (set_range lo hi p1) table = Some (0, p2) /\
    cpuinfo_min p1 <= p_min p2 <= p_max p2 /\ p_max p2 <= cpuinfo_max p1 /\
    cpufreq_frequency_table_target p2 table target relation = Some (0, Some i) /\
    i = Z.of_nat k /\ fs !! k = Some f /\ p_min p2 <= f <= p_max p2.
Proof.
  intros EB HU HL (f0 & Hf0 & Hv0) HR. destruct (cpuinfo_spec p table fs EB HU) as (r & p1 & E1 & [(-> & HLim & _ & _)|(_ & HN)]).
  2:{ rewrite HN in Hv0; done. }
  destruct (verify_spec (set_range lo hi p1) table fs EB HU) as (p2 & E2 & HC & R1 & R2 & _); [done|].
  cbn in R1, R2. pose proof HLim as (L1 & _ & L3 & _). unfold u32s in HU. rewrite Forall_forall in HU.
  pose proof (HU _ L1). pose proof (HU _ L3).
  destruct (target_select p2 table fs target relation EB ltac:(split; lia) HL HR) as ([e [i|]] & E3 & HT).
  - destruct HT as (-> & k & f & Ei & Ek & Hb). exists p1, p2, i, k, f. split_and!; try done; try lia;
      destruct Hb as [[HE _]%elem_choices _]; unfold eligible in HE; bool_cases; lia.
  - by destruct HT as [_ HT].
Qed.

(** ** Examples *)

Module FreqDemo.
Definition clamp (lo hi x : Z) : Z := Z.max lo (Z.min x hi).

#[refine] Definition core : CpufreqLimits := {|
  limits lo hi r := (Z.min (clamp lo hi (fst r)) (clamp lo hi (snd r)), clamp lo hi (snd r))
|}.
Proof. all: intros; unfold clamp; cbn [fst snd]; lia. Defined.

Definition table : freq_table :=
  [mkEntry 0 200000; mkEntry 1 CPUFREQ_ENTRY_INVALID; mkEntry 2 800000; mkEntry 3 1209600; mkEntry 4 CPUFREQ_TABLE_END].
Definition freqs : list Z := [200000; CPUFREQ_ENTRY_INVALID; 800000; 1209600].
Definition policy : cpufreq_policy := mkPolicy 0 0 300000 1000000 800000 200000 1209600 [0; 1; 2; 3].

Lemma target_picks_best_witness :
  exists r, cpufreq_frequency_table_target policy table 900000 CPUFREQ_RELATION_L = Some r /\
    match r with
    | (e, None) => e = - EINVAL /\ choices policy freqs = []
    | (e, Some i) => e = 0 /\ exists (k : nat) f, i = Z.of_nat k /\ freqs !! k = Some f /\
        best CPUFREQ_RELATION_L 900000 (choices policy freqs) f
    end.
Proof.
  apply (target_picks_best policy table freqs 900000 CPUFREQ_RELATION_L);
    [reflexivity|split; [by vm_compute|reflexivity]|reflexivity|by right].
Defined.

(** The only allowed frequency is below the target of an L request. *)
Example target_other_side :
  cpufreq_frequency_table_target policy table 900000 CPUFREQ_RELATION_L = Some (0, Some 2).
Proof. reflexivity. Qed.

Lemma verified_policy_has_target_witness :
  exists p1 p2 i (k : nat) f,
    cpufreq_frequency_table_cpuinfo policy table = Some (0, p1) /\ limits_of p1 freqs /\
    cpufreq_frequency_table_verify (H := core) (set_range 900000 950000 p1) table = Some (0, p2) /\
    cpuinfo_min p1 <= p_min p2 <= p_max p2 /\ p_max p2 <= cpuinfo_max p1 /\
    cpufreq_frequency_table_target p2 table 5 CPUFREQ_RELATION_H = Some (0, Some i) /\
    i = Z.of_nat k /\ freqs !! k = Some f /\ p_min p2 <= f <= p_max p2.
Proof.
  apply (verified_policy_has_target (H := core) policy table freqs 900000 950000 5 CPUFREQ_RELATION_H);
    [reflexivity| |reflexivity| |by left].
  - repeat (apply Forall_cons_2; [split; [by vm_compute|reflexivity]|]). constructor.
  - exists 200000. split; [apply list_elem_of_here|reflexivity].
Defined.
End FreqDemo.
