(* ===== verification/QcomCpufreq.v ===== *)
(** * The CPU-frequency driver

    [kernel/drivers/cpufreq/qcom-cpufreq.c]: the driver that reads frequency
    tables from the device tree, sets the clock of a CPU to a frequency of its
    table, and keeps the CPU clocks prepared and enabled as CPUs come and go.
    It is written over [FreqTable] and over [CpuKernel], the clock, device-tree
    and notifier functions of the kernel.

    [cfworld] holds the driver's variables and the reference counts of the
    clocks; a clock is a number, NULL is [None] (the clock functions accept it
    and do nothing).  A mutex is held for the whole of a call and is left out. *)

From stdpp Require Import base list numbers strings gmap.
From Stdlib Require Import ZArith Lia.
From S2P Require Import Prelude Text Kernel FreqTable.
Open Scope Z_scope.

Definition clk := option Z.

(** What the driver does to the outside. *)
Inductive cfeffect :=
  | PreChange (cpu old new : Z)        (* cpufreq_notify_transition(..., CPUFREQ_PRECHANGE) *)
  | PostChange (cpu old new : Z)
  | SetRate (c : clk) (rate : Z).      (* clk_set_rate that succeeded *)

Record cfworld := mkCf {
  cf_time : nat;
  cpu_clk : gmap Z Z;
  l2_clk : clk;
  cpu_table : gmap Z freq_table;         (* per_cpu(freq_table, cpu) *)
  hotplug_ready : bool;
  device_suspended : gmap Z Z;
  governor_per_policy : bool;
  cf_shown : show_tables;
  clk_prepared : gmap Z Z;
  clk_enabled : gmap Z Z;
  hotcpu_notifier : bool;
  pm_notifier : bool;
  cf_trace : list cfeffect
}.

Class CpuKernel := {
  (** The possible CPUs are numbered from 0. *)
  nr_cpus : nat;
  k_round_rate : clk -> Z -> Z;
  k_round_rate_range : forall c r, 0 <= k_round_rate c r < 2 ^ 32;
  k_set_rate : nat -> clk -> Z -> Z;
  k_get_rate : nat -> clk -> Z;
  k_prepare : nat -> Z -> Z;
  k_enable : nat -> Z -> Z;
  k_enable_result : forall t n, k_enable t n <= 0;   (* 0, or a negative error *)
  (** [devm_clk_get]: an error or a clock. *)
  devm_clk_get : nat -> list Z -> Z + Z;
  devm_clk_get_error : forall t n e, devm_clk_get t n = inl e -> e < 0;
  (** A property of the device-tree node, as 32-bit numbers. *)
  dt_property : list Z -> option (list Z);
  dt_read_error : nat -> Z;
  dt_governor_per_policy : bool;
  cf_kzalloc : nat -> bool;
  (** [cpufreq_get_policy] for a CPU: its policy, or an error. *)
  k_get_policy : nat -> Z -> option cpufreq_policy;
  (** [platform_driver_probe], from the result of the probe function, [None]
      when there is no device to probe. *)
  k_driver_probe : option Z -> Z;
  k_device_present : bool;
  k_register_hotcpu_notifier : nat -> Z;
  k_register_driver : nat -> Z
}.

Definition possible_cpus `{CpuKernel} : list Z := seqZ 0 (Z.of_nat nr_cpus).

Definition cf_tick (w : cfworld) : cfworld :=
  mkCf (S (cf_time w)) (cpu_clk w) (l2_clk w) (cpu_table w) (hotplug_ready w) (device_suspended w)
    (governor_per_policy w) (cf_shown w) (clk_prepared w) (clk_enabled w) (hotcpu_notifier w) (pm_notifier w) (cf_trace w).
Definition cf_emit (e : cfeffect) (w : cfworld) : cfworld :=
  mkCf (cf_time w) (cpu_clk w) (l2_clk w) (cpu_table w) (hotplug_ready w) (device_suspended w)
    (governor_per_policy w) (cf_shown w) (clk_prepared w) (clk_enabled w) (hotcpu_notifier w) (pm_notifier w) (cf_trace w ++ [e]).
Definition set_clocks (m : gmap Z Z) (l2 : clk) (w : cfworld) : cfworld :=
  mkCf (cf_time w) m l2 (cpu_table w) (hotplug_ready w) (device_suspended w)
    (governor_per_policy w) (cf_shown w) (clk_prepared w) (clk_enabled w) (hotcpu_notifier w) (pm_notifier w) (cf_trace w).
Definition set_cpu_table (m : gmap Z freq_table) (w : cfworld) : cfworld :=
  mkCf (cf_time w) (cpu_clk w) (l2_clk w) m (hotplug_ready w) (device_suspended w)
    (governor_per_policy w) (cf_shown w) (clk_prepared w) (clk_enabled w) (hotcpu_notifier w) (pm_notifier w) (cf_trace w).
Definition set_hotplug_ready (b : bool) (w : cfworld) : cfworld :=
  mkCf (cf_time w) (cpu_clk w) (l2_clk w) (cpu_table w) b (device_suspended w)
    (governor_per_policy w) (cf_shown w) (clk_prepared w) (clk_enabled w) (hotcpu_notifier w) (pm_notifier w) (cf_trace w).
Definition set_suspended (m : gmap Z Z) (w : cfworld) : cfworld :=
  mkCf (cf_time w) (cpu_clk w) (l2_clk w) (cpu_table w) (hotplug_ready w) m
    (governor_per_policy w) (cf_shown w) (clk_prepared w) (clk_enabled w) (hotcpu_notifier w) (pm_notifier w) (cf_trace w).
Definition set_governor (b : bool) (w : cfworld) : cfworld :=
  mkCf (cf_time w) (cpu_clk w) (l2_clk w) (cpu_table w) (hotplug_ready w) (device_suspended w)
    b (cf_shown w) (clk_prepared w) (clk_enabled w) (hotcpu_notifier w) (pm_notifier w) (cf_trace w).
Definition set_shown (m : show_tables) (w : cfworld) : cfworld :=
  mkCf (cf_time w) (cpu_clk w) (l2_clk w) (cpu_table w) (hotplug_ready w) (device_suspended w)
    (governor_per_policy w) m (clk_prepared w) (clk_enabled w) (hotcpu_notifier w) (pm_notifier w) (cf_trace w).
Definition set_counts (prep en : gmap Z Z) (w : cfworld) : cfworld :=
  mkCf (cf_time w) (cpu_clk w) (l2_clk w) (cpu_table w) (hotplug_ready w) (device_suspended w)
    (governor_per_policy w) (cf_shown w) prep en (hotcpu_notifier w) (pm_notifier w) (cf_trace w).

Definition set_notifiers (hot pm : bool) (w : cfworld) : cfworld :=
  mkCf (cf_time w) (cpu_clk w) (l2_clk w) (cpu_table w) (hotplug_ready w) (device_suspended w)
    (governor_per_policy w) (cf_shown w) (clk_prepared w) (clk_enabled w) hot pm (cf_trace w).

Section Driver.
Context `{CpuKernel}.

Definition cf_ask {A} (f : nat -> A) : prog cfworld A := fun w => Ret (f (cf_time w)) (cf_tick w).
Definition cf_gets {A} (f : cfworld -> A) : prog cfworld A := fun w => Ret (f w) w.
Definition cf_do (e : cfeffect) : prog cfworld unit := modify (cf_emit e).

(** ** Setting a frequency *)

Definition set_cpu_freq (p : cpufreq_policy) (new_freq : Z) : prog cfworld Z :=
  let* clocks := cf_gets cpu_clk in
  let c := clocks !! p_cpu p in
  do* cf_do (PreChange (p_cpu p) (p_cur p) new_freq);
  let rate := k_round_rate c (u32 (new_freq * 1000)) in
  let* ret_ := cf_ask (fun t => k_set_rate t c rate) in
  if ret_ =? 0
  then do* cf_do (SetRate c rate); do* cf_do (PostChange (p_cpu p) (p_cur p) new_freq); ret ret_
  else ret ret_.

(** [table[index].frequency]. *)
Definition table_entry (table : freq_table) (i : Z) : prog cfworld freq_entry :=
  lift OutOfBounds (if i <? 0 then None else table !! Z.to_nat i).

Definition msm_cpufreq_target (p : cpufreq_policy) (target_freq relation : Z) : prog cfworld Z :=
  let* susp := cf_gets device_suspended in
  if negb (default 0 (susp !! p_cpu p) =? 0) then ret (- EFAULT)
  else
    let* shown := cf_gets cf_shown in
    let* table := lift NullDeref (cpufreq_frequency_get_table (p_cpu p) shown) in
    let* r := lift OutOfBounds (cpufreq_frequency_table_target p table target_freq relation) in
    match r with
    | (0, Some index) => let* e := table_entry table index in set_cpu_freq p (frequency e)
    | _ => ret (- EINVAL)
    end.

Definition msm_cpufreq_verify `{CpufreqLimits} (p : cpufreq_policy) : Z * cpufreq_policy :=
  (0, within_cpu_limits p).

Definition msm_cpufreq_get_freq (cpu : Z) : prog cfworld Z :=
  let* clocks := cf_gets cpu_clk in
  let* r := cf_ask (fun t => k_get_rate t (clocks !! cpu)) in
  ret (r / 1000).

(** The policy and the result. *)
Definition msm_cpufreq_init (p : cpufreq_policy) : prog cfworld (Z * cpufreq_policy) :=
  let* w := get in
  let c := cpu_clk w !! p_cpu p in
  let same := filter (fun cpu => cpu_clk w !! cpu = c) possible_cpus in
  let p0 := mkPolicy (p_cpu p) (last_cpu p) (p_min p) (p_max p) (p_cur p) (cpuinfo_min p) (cpuinfo_max p)
              (p_cpus p ++ same) in
  let* table := lift NullDeref (cpu_table w !! p_cpu p) in
  let* r := lift OutOfBounds (cpufreq_frequency_table_cpuinfo p0 table) in
  let p1 := snd r in
  let* rate := cf_ask (fun t => k_get_rate t c) in
  let cur_freq := rate / 1000 in
  let* h := lift OutOfBounds (cpufreq_frequency_table_target p1 table cur_freq CPUFREQ_RELATION_H) in
  let* l := lift OutOfBounds (cpufreq_frequency_table_target p1 table cur_freq CPUFREQ_RELATION_L) in
  match (if fst h =? 0 then snd h else if fst l =? 0 then snd l else None) with
  | None => ret (- EINVAL, p1)
  | Some index =>
      let* e := table_entry table index in
      let* s := set_cpu_freq p1 (frequency e) in
      if negb (s =? 0) then ret (s, p1)
      else
        do* modify (fun w => set_shown (cpufreq_frequency_table_get_attr table (p_cpu p) (cf_shown w)) w);
        ret (0, mkPolicy (p_cpu p1) (last_cpu p1) (p_min p1) (p_max p1) (frequency e)
                  (cpuinfo_min p1) (cpuinfo_max p1) (p_cpus p1))
  end.

(** ** Clocks and CPUs *)

Definition count (m : gmap Z Z) (c : Z) : Z := default 0 (m !! c).
Definition bump (d : Z) (c : clk) (m : gmap Z Z) : gmap Z Z :=
  match c with None => m | Some c => <[c := count m c + d]> m end.

Definition clk_prepare (c : clk) : prog cfworld Z :=
  match c with
  | None => ret 0
  | Some n =>
      let* r := cf_ask (fun t => k_prepare t n) in
      do* (if r <? 0 then ret tt
           else modify (fun w => set_counts (bump 1 c (clk_prepared w)) (clk_enabled w) w));
      ret r
  end.
Definition clk_enable (c : clk) : prog cfworld Z :=
  match c with
  | None => ret 0
  | Some n =>
      let* r := cf_ask (fun t => k_enable t n) in
      do* (if negb (r =? 0) then ret tt
           else modify (fun w => set_counts (clk_prepared w) (bump 1 c (clk_enabled w)) w));
      ret r
  end.
Definition clk_unprepare (c : clk) : prog cfworld unit :=
  modify (fun w => set_counts (bump (-1) c (clk_prepared w)) (clk_enabled w) w).
Definition clk_disable (c : clk) : prog cfworld unit :=
  modify (fun w => set_counts (clk_prepared w) (bump (-1) c (clk_enabled w)) w).

Definition NOTIFY_DONE : Z := 0.
Definition NOTIFY_OK : Z := 1.
Definition NOTIFY_BAD : Z := 32770.
Definition CPU_UP_PREPARE : Z := 3.
Definition CPU_UP_CANCELED : Z := 4.
Definition CPU_DEAD : Z := 7.
Definition CPU_DYING : Z := 8.
Definition CPU_STARTING : Z := 10.
Definition CPU_TASKS_FROZEN : Z := 16.

Definition msm_cpufreq_cpu_callback (action cpu : Z) : prog cfworld Z :=
  let* w := get in
  let c := cpu_clk w !! cpu in
  let l2 := l2_clk w in
  if negb (hotplug_ready w) then ret NOTIFY_BAD
  else
    let a := Z.ldiff action CPU_TASKS_FROZEN in
    if a =? CPU_DYING then do* clk_disable c; do* clk_disable l2; ret NOTIFY_OK
    else if (a =? CPU_DEAD) || (a =? CPU_UP_CANCELED) then
      do* clk_unprepare c; do* clk_unprepare l2; ret NOTIFY_OK
    else if a =? CPU_UP_PREPARE then
      let* rc := clk_prepare l2 in
      if rc <? 0 then ret NOTIFY_BAD
      else
        let* rc := clk_prepare c in
        if rc <? 0 then do* clk_unprepare l2; ret NOTIFY_BAD else ret NOTIFY_OK
    else if a =? CPU_STARTING then
      let* rc := clk_enable l2 in
      if rc <? 0 then ret NOTIFY_BAD
      else
        let* rc := clk_enable c in
        if negb (rc =? 0) then do* clk_disable l2; ret NOTIFY_BAD else ret NOTIFY_OK
    else ret NOTIFY_OK.

(** ** Suspend and resume *)

Definition mark_all (v : Z) (cpus : list Z) (m : gmap Z Z) : gmap Z Z :=
  foldl (fun m cpu => <[cpu := v]> m) m cpus.

Definition msm_cpufreq_suspend : prog cfworld Z :=
  do* modify (fun w => set_suspended (mark_all 1 possible_cpus (device_suspended w)) w);
  ret NOTIFY_DONE.

(** The online CPUs whose frequency is outside the range of their policy, for
    which [cpufreq_update_policy] is called. *)
Fixpoint resume_loop (online : list Z) : prog cfworld (list Z) :=
  match online with
  | [] => ret []
  | cpu :: online' =>
      let* r := cf_ask (fun t => k_get_policy t cpu) in
      let* rest := resume_loop online' in
      match r with
      | None => ret rest
      | Some p => if (p_cur p <=? p_max p) && (p_min p <=? p_cur p) then ret rest else ret (cpu :: rest)
      end
  end.

Definition msm_cpufreq_resume (online : list Z) : prog cfworld (Z * list Z) :=
  do* modify (fun w => set_suspended (mark_all 0 possible_cpus (device_suspended w)) w);
  let* updated := resume_loop online in
  ret (NOTIFY_DONE, updated).

Definition PM_HIBERNATION_PREPARE : Z := 1.
Definition PM_POST_HIBERNATION : Z := 2.
Definition PM_SUSPEND_PREPARE : Z := 3.
Definition PM_POST_SUSPEND : Z := 4.

Definition msm_cpufreq_pm_event (online : list Z) (event : Z) : prog cfworld Z :=
  if (event =? PM_POST_HIBERNATION) || (event =? PM_POST_SUSPEND)
  then let* r := msm_cpufreq_resume online in ret (fst r)
  else if (event =? PM_HIBERNATION_PREPARE) || (event =? PM_SUSPEND_PREPARE) then msm_cpufreq_suspend
  else ret NOTIFY_DONE.

(** ** Reading the tables *)

Definition IS_ERR_VALUE (f : Z) : bool := 2 ^ 32 - 4095 <=? f.

(** The loop of [cpufreq_parse_dt]: the entries before the end. *)
Fixpoint parse_loop (c : clk) (data : list Z) (acc : list freq_entry) : list freq_entry :=
  match data with
  | [] => acc
  | d :: data' =>
      let f := k_round_rate c (u32 (d * 1000)) in
      if IS_ERR_VALUE f then acc
      else
        let f := f / 1000 in
        if match last acc with Some e => f <=? frequency e | None => false end then acc
        else parse_loop c data' (acc ++ [mkEntry (zlen acc) f])
  end.

(** [cpufreq_parse_dt]: an error or the table, an array of one more entry than
    the property has numbers. *)
Definition cpufreq_parse_dt (tbl_name : list Z) (cpu : Z) : prog cfworld (Z + freq_table) :=
  match dt_property tbl_name with
  | None | Some [] => ret (inl (- EINVAL))
  | Some data =>
      let* ok := cf_ask cf_kzalloc in
      if negb ok then ret (inl (- ENOMEM))
      else
        let* e := cf_ask dt_read_error in
        if negb (e =? 0) then ret (inl e)
        else
          let* ok := cf_ask cf_kzalloc in
          if negb ok then ret (inl (- ENOMEM))
          else
            let* clocks := cf_gets cpu_clk in
            let entries := parse_loop (clocks !! cpu) data [] in
            let i := zlen entries in
            ret (inr (entries ++ [mkEntry i CPUFREQ_TABLE_END] ++
                      replicate (length data - length entries) (mkEntry 0 0)))
  end.

(** ** Binding *)

Definition clk_name (cpu : Z) : list Z := snprintf 10 (str "cpu" ++ sdecimal cpu ++ str "_clk").
Definition tbl_name (cpu : Z) : list Z := snprintf 22 (str "qcom,cpufreq-table-" ++ sdecimal cpu).

Fixpoint get_clocks (cpus : list Z) : prog cfworld Z :=
  match cpus with
  | [] => ret 0
  | cpu :: cpus' =>
      let* r := cf_ask (fun t => devm_clk_get t (clk_name cpu)) in
      match r with
      | inl e => ret e
      | inr c =>
          do* modify (fun w => set_clocks (<[cpu := c]> (cpu_clk w)) (l2_clk w) w);
          get_clocks cpus'
      end
  end.

(** The loop over the individual tables; [kfree] of a block of the device's
    own memory pool is not a block [kmalloc] returned. *)
Fixpoint individual_tables (cpus : list Z) : prog cfworld Z :=
  match cpus with
  | [] => ret 0
  | cpu :: cpus' =>
      let* r := cpufreq_parse_dt (tbl_name cpu) cpu in
      let* w := get in
      let use (t : freq_table) : prog cfworld Z :=
        do* modify (fun w => set_cpu_table (<[cpu := t]> (cpu_table w)) w); individual_tables cpus' in
      match r with
      | inl e =>
          if cpu =? 0 then ret e
          else if negb (bool_decide (cpu_clk w !! cpu = cpu_clk w !! (cpu - 1))) then ret e
          else match cpu_table w !! (cpu - 1) with
               | Some t => use t
               | None => do* modify (fun w => set_cpu_table (delete cpu (cpu_table w)) w); individual_tables cpus'
               end
      | inr t =>
          if cpu =? 0 then use t
          else if bool_decide (cpu_clk w !! cpu = cpu_clk w !! (cpu - 1)) then fault_with BadFree
          else use t
      end
  end.

Definition msm_cpufreq_probe : prog cfworld Z :=
  let* l2 := cf_ask (fun t => devm_clk_get t (str "l2_clk")) in
  do* modify (fun w => set_clocks (cpu_clk w) (match l2 with inr c => Some c | inl _ => None end) w);
  let* e := get_clocks possible_cpus in
  if negb (e =? 0) then ret e
  else
    do* modify (set_hotplug_ready true);
    do* (if dt_governor_per_policy then modify (set_governor true) else ret tt);
    let* r := cpufreq_parse_dt (str "qcom,cpufreq-table") 0 in
    match r with
    | inr t =>
        do* modify (fun w => set_cpu_table (foldl (fun m cpu => <[cpu := t]> m) (cpu_table w) possible_cpus) w);
        ret 0
    | inl _ => individual_tables possible_cpus
    end.

Definition msm_cpufreq_register : prog cfworld Z :=
  do* modify (fun w => set_suspended (mark_all 0 possible_cpus (device_suspended w)) w);
  let* probed := if k_device_present then let* r := msm_cpufreq_probe in ret (Some r) else ret None in
  let rc := k_driver_probe probed in
  if rc <? 0 then do* modify (fun w => set_notifiers false (pm_notifier w) w); ret rc
  else
    do* modify (fun w => set_notifiers (hotcpu_notifier w) true w);
    cf_ask k_register_driver.

Definition msm_cpufreq_early_register : prog cfworld Z :=
  let* r := cf_ask k_register_hotcpu_notifier in
  do* modify (fun w => set_notifiers true (pm_notifier w) w);
  ret r.
End Driver.

(** ** Lemmas: a table that was read *)

Fixpoint increasing (fs : list Z) : bool :=
  match fs with
  | a :: (b :: _) as fs' => (a <? b) && increasing fs'
  | _ => true
  end.

(** A table the driver built: it ends, its frequencies rise strictly, none is
    one of the marks, and each entry has its index. *)
Definition table_ok (t : freq_table) : Prop :=
  exists fs, body t = Some fs /\ increasing fs = true /\
    Forall (fun f => 0 <= f < CPUFREQ_TABLE_END) fs /\
    forall (k : nat) e, (k <= length fs)%nat -> t !! k = Some e -> driver_data e = Z.of_nat k.

Lemma increasing_app fs f :
  increasing (fs ++ [f]) = increasing fs && match last fs with Some g => g <? f | None => true end.
Proof.
  induction fs as [|a fs IH]; [done|]. destruct fs as [|b fs]; [cbn; by rewrite andb_true_r|].
  change (increasing ((a :: b :: fs) ++ [f])) with ((a <? b) && increasing ((b :: fs) ++ [f])).
  rewrite IH. cbn [increasing]. rewrite andb_assoc. done.
Qed.

(** The entries collected so far. *)
Definition entries_ok (acc : list freq_entry) : Prop :=
  increasing (map frequency acc) = true /\ Forall (fun e => 0 <= frequency e < CPUFREQ_TABLE_END) acc /\
  forall (k : nat) e, acc !! k = Some e -> driver_data e = Z.of_nat k.

Lemma parse_loop_ok `{CpuKernel} c data acc : entries_ok acc -> entries_ok (parse_loop c data acc).
Proof.
  revert acc. induction data as [|d data IH]; intros acc (H1 & H2 & H3); cbn [parse_loop]; [done|].
  pose proof (k_round_rate_range c (u32 (d * 1000))) as HR. set (f := k_round_rate _ _) in *.
  destruct (IS_ERR_VALUE f) eqn:EE; [done|]. match goal with |- entries_ok (if ?b then _ else _) => destruct b eqn:EL end; [done|].
  apply IH. unfold entries_ok. split_and!.
  - rewrite map_app. cbn [map frequency]. rewrite increasing_app, H1. cbn [andb].
    change (map frequency acc) with (frequency <$> acc). rewrite fmap_last.
    destruct (last acc) as [e|]; [|done]. cbn [fmap option_fmap option_map] in *. bool_cases. by apply Z.ltb_lt.
  - apply Forall_app. split; [done|]. apply Forall_singleton. cbn. unfold IS_ERR_VALUE in EE. bool_cases.
    split; [apply Z.div_pos; lia|]. apply Z.div_lt_upper_bound; [lia|]. unfold CPUFREQ_TABLE_END. lia.
  - intros k e E. apply lookup_app_Some in E as [E|[Hk E]]; [by apply H3|].
    apply list_lookup_singleton_Some in E as [Hk' <-]. cbn. unfold zlen. f_equal. lia.
Qed.

Lemma body_entries acc i rest :
  Forall (fun e => 0 <= frequency e < CPUFREQ_TABLE_END) acc ->
  body (acc ++ mkEntry i CPUFREQ_TABLE_END :: rest) = Some (map frequency acc).
Proof.
  induction 1 as [|e acc He _ IH]; [done|]. cbn [app body map]. rewrite IH.
  by rewrite (proj2 (Z.eqb_neq _ _)) by lia.
Qed.

Lemma parsed_table_ok acc i rest :
  entries_ok acc -> i = zlen acc -> table_ok (acc ++ [mkEntry i CPUFREQ_TABLE_END] ++ rest).
Proof.
  intros (H1 & H2 & H3) ->. exists (map frequency acc). split_and!.
  - by apply body_entries.
  - done.
  - apply Forall_fmap. exact H2.
  - intros k e Hk E. rewrite length_map in Hk. apply lookup_app_Some in E as [E|[Hk' E]]; [by apply H3|].
    assert (k = length acc) as -> by lia. rewrite Nat.sub_diag in E. injection E as <-. done.
Qed.

Lemma parse_dt_spec `{CpuKernel} name cpu w :
  exists r w', cpufreq_parse_dt name cpu w = Ret r w' /\
    match r with inl e => e <> 0 | inr t => table_ok t end /\
    cpu_clk w' = cpu_clk w /\ cpu_table w' = cpu_table w /\ hotplug_ready w' = hotplug_ready w.
Proof.
  unfold cpufreq_parse_dt. destruct (dt_property name) as [[|d data]|]; try (by do 2 eexists).
  cbn [bind cf_ask]. unfold bind, cf_ask, cf_gets, ret. destruct (cf_kzalloc _); cbn [negb]; [|by do 2 eexists].
  destruct (Z.eqb_spec (dt_read_error (cf_time (cf_tick w))) 0) as [E|E]; cbn [negb]; [|by do 2 eexists].
  destruct (cf_kzalloc _); cbn [negb]; [|by do 2 eexists].
  do 2 eexists. split; [done|]. split; [|done]. apply parsed_table_ok; [|done]. apply parse_loop_ok.
  split_and!; [done|constructor|]. by intros k e ?.
Qed.

(** ** Lemmas: binding *)

Section Probe.
Context `{CpuKernel}.

Lemma bind_cf_ask {A B} (f : nat -> A) (k : A -> prog cfworld B) w : bind (cf_ask f) k w = k (f (cf_time w)) (cf_tick w).
Proof. reflexivity. Qed.

Lemma bind_cf_gets {A B} (f : cfworld -> A) (k : A -> prog cfworld B) w : bind (cf_gets f) k w = k (f w) w.
Proof. reflexivity. Qed.

Lemma bind_cf_do {B} e (k : unit -> prog cfworld B) w : bind (cf_do e) k w = k tt (cf_emit e w).
Proof. reflexivity. Qed.

Lemma get_clocks_spec cpus w :
  exists r w', get_clocks cpus w = Ret r w' /\
    (r = 0 -> forall cpu, cpu ∈ cpus -> is_Some (cpu_clk w' !! cpu)) /\
    (forall cpu, is_Some (cpu_clk w !! cpu) -> is_Some (cpu_clk w' !! cpu)) /\
    cpu_table w' = cpu_table w.
Proof.
  revert w. induction cpus as [|cpu cpus IH]; intros w; cbn [get_clocks].
  - exists 0, w. split_and!; try done. by intros _ c ?%elem_of_nil.
  - rewrite bind_cf_ask. destruct (devm_clk_get (cf_time w) (clk_name cpu)) as [e|c] eqn:E.
    + apply devm_clk_get_error in E. do 2 eexists. split; [done|]. split_and!; [lia|done|done].
    + rewrite bind_modify. match goal with |- context [get_clocks cpus ?x] => set (w1 := x) end.
      destruct (IH w1) as (r & w' & E1 & H1 & H2 & H3). exists r, w'. split; [done|]. split_and!.
      * intros Hr x [->|Hx]%elem_of_cons; [|by apply H1]. apply H2. cbn. by rewrite lookup_insert_eq.
      * intros x Hx. apply H2. cbn. destruct (decide (x = cpu)) as [->|Hne];
          [by rewrite lookup_insert_eq|by rewrite lookup_insert_ne].
      * by rewrite H3.
Qed.

(** Every possible CPU below [n] has a table the driver built. *)
Definition tables_below (n : Z) (w : cfworld) : Prop :=
  forall cpu, 0 <= cpu < n -> exists t, cpu_table w !! cpu = Some t /\ table_ok t.

Lemma tables_below_insert n t w m :
  tables_below n w -> table_ok t -> cpu_table m = <[n := t]> (cpu_table w) -> tables_below (n + 1) m.
Proof.
  intros HB HT Em cpu Hc. rewrite Em. destruct (decide (cpu = n)) as [->|Hne].
  - rewrite lookup_insert_eq. by eexists.
  - rewrite lookup_insert_ne by done. apply HB. lia.
Qed.

(** The outcome of binding the tables. *)
Definition tables_outcome (n : Z) (r : result cfworld Z) : Prop :=
  match r with
  | Ret 0 w => tables_below n w
  | Ret _ _ => True
  | Exit _ _ => False
  | Fault f _ => f = BadFree
  end.

Lemma tables_failed n e w : e <> 0 -> tables_outcome n (Ret e w).
Proof. by destruct e. Qed.

Lemma individual_tables_spec (n : nat) i w :
  0 <= i -> tables_below i w ->
  tables_outcome (i + Z.of_nat n) (individual_tables (seqZ i (Z.of_nat n)) w).
Proof.
  revert i w. induction n as [|n IH]; intros i w Hi HB.
  - cbn. by rewrite Z.add_0_r.
  - rewrite seqZ_cons by lia. replace (Z.pred (Z.of_nat (S n))) with (Z.of_nat n) by lia.
    change (Z.succ i) with (i + 1). cbn [individual_tables].
    destruct (parse_dt_spec (tbl_name i) i w) as (r & w1 & E & HR & _ & ET & _).
    rewrite bind_unfold, E, bind_get.
    assert (forall t, table_ok t -> tables_outcome (i + Z.of_nat (S n))
      (bind (modify (fun w => set_cpu_table (<[i := t]> (cpu_table w)) w))
         (fun _ => individual_tables (seqZ (i + 1) (Z.of_nat n))) w1)) as Huse.
    { intros t HT. rewrite bind_modify. replace (i + Z.of_nat (S n)) with (i + 1 + Z.of_nat n) by lia.
      apply IH; [lia|]. eapply (tables_below_insert i t w); [done|done|]. cbn. by rewrite ET. }
    destruct r as [e|t].
    + destruct (Z.eqb_spec i 0) as [->|Hne]; [by apply tables_failed|].
      destruct (negb _); [by apply tables_failed|].
      destruct (HB (i - 1) ltac:(lia)) as (t & Et & HT). rewrite ET, Et. by apply Huse.
    + destruct (i =? 0); [by apply Huse|]. destruct (bool_decide _); [done|by apply Huse].
Qed.

Lemma foldl_insert_tables t cpus (m : gmap Z freq_table) cpu :
  foldl (fun m c => <[c := t]> m) m cpus !! cpu = if decide (cpu ∈ cpus) then Some t else m !! cpu.
Proof.
  revert m. induction cpus as [|c cpus IH]; intros m; cbn [foldl].
  - rewrite decide_False by apply not_elem_of_nil. done.
  - rewrite IH. destruct (decide (cpu ∈ cpus)) as [Hc|Hc].
    + by rewrite decide_True by (by apply list_elem_of_further).
    + destruct (decide (cpu = c)) as [->|Hne].
      * rewrite lookup_insert_eq, decide_True by apply list_elem_of_here. done.
      * rewrite lookup_insert_ne by done. by rewrite decide_False by (by intros [?|?]%elem_of_cons).
Qed.

Lemma probe_spec w : tables_outcome (Z.of_nat nr_cpus) (msm_cpufreq_probe w).
Proof.
  unfold msm_cpufreq_probe. rewrite bind_cf_ask, bind_modify.
  match goal with |- context [bind (get_clocks _) _ ?x] => set (w1 := x) end.
  destruct (get_clocks_spec possible_cpus w1) as (r & w2 & E & _ & _ & _). rewrite bind_unfold, E.
  destruct (Z.eqb_spec r 0) as [->|Hr]; cbn [negb]; [|by apply tables_failed]. rewrite bind_modify.
  assert (forall (k : unit -> prog cfworld Z), exists w3,
    bind (if dt_governor_per_policy then modify (set_governor true) else ret tt) k (set_hotplug_ready true w2) = k tt w3)
    as HG by (intros k; destruct dt_governor_per_policy; by eexists).
  destruct (HG (fun _ => let* r := cpufreq_parse_dt (str "qcom,cpufreq-table") 0 in
    match r with
    | inr t => do* modify (fun w => set_cpu_table (foldl (fun m cpu => <[cpu := t]> m) (cpu_table w) possible_cpus) w); ret 0
    | inl _ => individual_tables possible_cpus
    end)) as (w3 & ->).
  destruct (parse_dt_spec (str "qcom,cpufreq-table") 0 w3) as (r & w4 & E4 & HR & _ & ET & _).
  rewrite bind_unfold, E4. destruct r as [e|t].
  - apply (individual_tables_spec nr_cpus 0); [done|]. intros cpu Hc. lia.
  - rewrite bind_modify. cbn. intros cpu Hc. cbn. rewrite foldl_insert_tables, decide_True.
    + by exists t.
    + apply elem_of_seqZ. lia.
Qed.
End Probe.

(** ** Lemmas: setting a frequency *)

Section Setting.
Context `{CpuKernel}.

(** What a change of frequency does: the notification, the clock, the second
    notification; only the first when the clock refuses. *)
Definition change_effects (p : cpufreq_policy) (c : clk) (f r : Z) : list cfeffect :=
  PreChange (p_cpu p) (p_cur p) f ::
  (if r =? 0 then [SetRate c (k_round_rate c (u32 (f * 1000))); PostChange (p_cpu p) (p_cur p) f] else []).

(** Everything but the clock of calls and the trace. *)
Definition same_tables (w w' : cfworld) : Prop :=
  cpu_clk w' = cpu_clk w /\ l2_clk w' = l2_clk w /\ cpu_table w' = cpu_table w /\ cf_shown w' = cf_shown w /\
  device_suspended w' = device_suspended w /\ clk_prepared w' = clk_prepared w /\ clk_enabled w' = clk_enabled w.

Lemma set_cpu_freq_spec p f w :
  exists r w', set_cpu_freq p f w = Ret r w' /\
    cf_trace w' = cf_trace w ++ change_effects p (cpu_clk w !! p_cpu p) f r /\ same_tables w w'.
Proof.
  unfold set_cpu_freq. rewrite bind_cf_gets, bind_cf_do, bind_cf_ask. unfold change_effects.
  destruct (_ =? 0) eqn:E; rewrite ?bind_cf_do; do 2 eexists; (split; [done|]); rewrite ?E; cbn.
  - split; [by rewrite <- !app_assoc|]. by split_and!.
  - split; [done|]. by split_and!.
Qed.

Lemma table_entry_spec t k fs f w :
  body t = Some fs -> fs !! k = Some f ->
  exists e, table_entry t (Z.of_nat k) w = Ret e w /\ frequency e = f.
Proof.
  intros EB EF. unfold table_entry. rewrite (proj2 (Z.ltb_ge _ _)) by lia. rewrite Nat2Z.id.
  assert (exists e, t !! k = Some e /\ frequency e = f) as (e & Ee & Hf).
  { revert fs k EB EF. induction t as [|e t IH]; intros fs k EB EF; [done|]. cbn [body] in EB.
    destruct (frequency e =? CPUFREQ_TABLE_END); [injection EB as <-; done|].
    destruct (body t) as [fs'|]; [|done]. injection EB as <-.
    destruct k as [|k]; [injection EF as <-; by eexists|]. cbn in EF |- *. by eapply IH. }
  exists e. by rewrite Ee.
Qed.

Lemma increasing_short fs lo : increasing fs = true -> Forall (fun f => lo <= f < CPUFREQ_TABLE_END) fs ->
  lo + zlen fs <= CPUFREQ_TABLE_END \/ fs = [].
Proof.
  revert lo. induction fs as [|a fs IH]; intros lo HI HF; [by right|]. left.
  apply Forall_cons in HF as [Ha HF]. rewrite zlen_cons. destruct fs as [|b fs].
  - change (zlen []) with 0. lia.
  - cbn [increasing] in HI. apply andb_true_iff in HI as [Hab HI]. bool_cases.
    destruct (IH (lo + 1) HI) as [HL|]; [|lia|done].
    assert (forall fs b, increasing (b :: fs) = true -> lo + 1 <= b ->
      Forall (fun f => lo <= f < CPUFREQ_TABLE_END) (b :: fs) -> Forall (fun f => lo + 1 <= f < CPUFREQ_TABLE_END) (b :: fs)) as HG.
    { clear. induction fs as [|c fs IH]; intros b HI Hb HF; apply Forall_cons in HF as [H1 HF];
        (apply Forall_cons; split; [lia|]); [constructor|].
      cbn [increasing] in HI. apply andb_true_iff in HI as [Hbc HI]. bool_cases. apply IH; [done|lia|done]. }
    apply HG; [done|lia|done].
Qed.

(** A table the driver built is shorter than the mark for no index. *)
Lemma table_ok_short t fs : table_ok t -> body t = Some fs -> zlen fs < NONE /\ u32s fs.
Proof.
  intros (fs' & EB & HI & HF & _) E. rewrite EB in E. injection E as ->. split.
  - destruct (increasing_short fs 0 HI HF) as [HL| ->]; [unfold CPUFREQ_TABLE_END, NONE in *; lia|done].
  - eapply Forall_impl; [exact HF|]. cbn. unfold CPUFREQ_TABLE_END. lia.
Qed.

Lemma target_spec p t fs target relation w :
  default 0 (device_suspended w !! p_cpu p) = 0 -> cf_shown w !! p_cpu p = Some t ->
  table_ok t -> body t = Some fs -> policy_ok p ->
  relation = CPUFREQ_RELATION_H \/ relation = CPUFREQ_RELATION_L ->
  (choices p fs = [] /\ msm_cpufreq_target p target relation w = Ret (- EINVAL) w) \/
  exists f r w', best relation target (choices p fs) f /\ msm_cpufreq_target p target relation w = Ret r w' /\
    cf_trace w' = cf_trace w ++ change_effects p (cpu_clk w !! p_cpu p) f r /\ same_tables w w'.
Proof.
  intros Hs Ht HT EB HP HR. destruct (table_ok_short t fs HT EB) as [HL _].
  destruct (target_select p t fs target relation EB HP HL HR) as ([e o] & E & Hr).
  unfold msm_cpufreq_target. rewrite bind_cf_gets, Hs. cbn [Z.eqb negb]. rewrite bind_cf_gets.
  unfold cpufreq_frequency_get_table. rewrite Ht, bind_lift_Some, E, bind_lift_Some.
  destruct o as [i|]; cbn [target_result] in Hr.
  - destruct Hr as (-> & k & f & -> & Ek & Hb). right.
    destruct (table_entry_spec t k fs f w EB Ek) as (e & Ee & <-). rewrite bind_unfold, Ee.
    destruct (set_cpu_freq_spec p (frequency e) w) as (r & w' & E2 & HTr & HS).
    exists (frequency e), r, w'. by split_and!.
  - destruct Hr as [-> Hc]. left. by split.
Qed.
End Setting.

(** ** Lemmas: the clocks of the CPUs *)








Section Hotplug.
Context `{CpuKernel}.






















End Hotplug.

(** ** Lemmas: a policy from its start *)

Section Init.
Context `{CpuKernel}.

(** [msm_cpufreq_init] on a table with a frequency: it fails only when the
    clock refuses; then the policy has the limits of the table and runs at one
    of its frequencies, and the table is the one [target] will use. *)
Lemma init_spec p t fs w :
  cpu_table w !! p_cpu p = Some t -> table_ok t -> body t = Some fs -> fs <> [] ->
  exists r p' w' f, msm_cpufreq_init p w = Ret (r, p') w' /\ f ∈ fs /\
    cf_trace w' = cf_trace w ++ change_effects p (cpu_clk w !! p_cpu p) f r /\
    limits_of p' fs /\ p_min p' = cpuinfo_min p' /\ p_max p' = cpuinfo_max p' /\ p_cpu p' = p_cpu p /\
    device_suspended w' = device_suspended w /\ cpu_clk w' = cpu_clk w /\
    (r = 0 -> p_cur p' = f /\ cf_shown w' !! p_cpu p = Some t).
Proof.
  intros ET HT EB Hne. destruct (table_ok_short t fs HT EB) as [HL HU].
  assert (forall f, f ∈ fs -> valid f = true) as HV.
  { intros f Hf. destruct HT as (fs' & EB' & _ & HF & _). rewrite EB in EB'. injection EB' as <-.
    rewrite Forall_forall in HF. specialize (HF f Hf). unfold valid, CPUFREQ_ENTRY_INVALID, CPUFREQ_TABLE_END in *.
    apply negb_true_iff, Z.eqb_neq. lia. }
  unfold msm_cpufreq_init. rewrite bind_get, ET, bind_lift_Some.
  set (p0 := mkPolicy _ _ _ _ _ _ _ _).
  destruct (cpuinfo_spec p0 t fs EB HU) as (r1 & p1 & E1 & [(-> & HLim & Hlo & Hhi)|(_ & HN)]).
  2:{ destruct fs as [|f fs]; [done|]. specialize (HN f (list_elem_of_here _ _)).
      rewrite HV in HN by apply list_elem_of_here. done. }
  assert (p_cpu p1 = p_cpu p /\ p_cur p1 = p_cur p) as [Ecpu Ecur].
  { revert E1. unfold cpufreq_frequency_table_cpuinfo. destruct (cpuinfo_loop _ _ _) as [[lo hi]|]; [|done].
    cbn. intros [= _ <-]. done. }
  rewrite E1, bind_lift_Some. cbn [snd]. rewrite bind_cf_ask.
  set (cur := k_get_rate _ _ / 1000).
  pose proof HLim as (L1 & L2 & L3 & L4 & L5). unfold u32s in HU. rewrite Forall_forall in HU.
  assert (policy_ok p1) as HP.
  { pose proof (HU _ L1). pose proof (HU _ L3). split; [rewrite Hlo; lia|rewrite Hhi; lia]. }
  destruct (target_select_H p1 t fs cur EB HP HL) as ([e o] & EH & HH). rewrite EH, bind_lift_Some.
  destruct (target_select_L p1 t fs cur EB HP HL) as (l & ELL & _). rewrite ELL, bind_lift_Some.
  assert (choices p1 fs <> []) as Hch.
  { eapply has_choice_intro; [exact L1|done|]. rewrite Hlo, Hhi. specialize (L5 _ L1 L2). lia. }
  destruct o as [i|]; [|by destruct HH as [_ HH]]. destruct HH as (-> & k & f & -> & Ek & Hb).
  cbn [fst snd Z.eqb]. destruct (table_entry_spec t k fs f (cf_tick w) EB Ek) as (en & Ee & <-).
  rewrite bind_unfold, Ee. destruct (set_cpu_freq_spec p1 (frequency en) (cf_tick w)) as (r & w' & E2 & HTr & HS).
  rewrite bind_unfold, E2. assert (frequency en ∈ fs) as Hin by (by eapply list_elem_of_lookup_2).
  assert (change_effects p1 (cpu_clk w !! p_cpu p1) (frequency en) r = change_effects p (cpu_clk w !! p_cpu p) (frequency en) r) as EC
    by (unfold change_effects; by rewrite Ecpu, Ecur).
  cbn in HTr. rewrite EC in HTr. destruct HS as (S1 & S2 & S3 & S4 & S5 & S6 & S7). cbn in S1, S5.
  destruct (Z.eqb_spec r 0) as [->|Hr]; cbn [negb].
  - rewrite bind_modify. do 2 eexists. eexists. exists (frequency en). split; [done|].
    split_and!; try done. intros _. split; [done|].
    change (cpufreq_frequency_table_get_attr t (p_cpu p) (cf_shown w') !! p_cpu p = Some t).
    apply lookup_insert_eq.
  - exists r, p1, w', (frequency en). split; [done|]. by split_and!.
Qed.
End Init.

(** ** The theorems *)

(** C39: The types of the driver's tables: when binding succeeds every possible
    CPU has a table, and each ends with the end mark, has strictly rising
    frequencies free of the marks, and carries its own indices, whatever the
    device tree lists and however the clock rounds.  The only fault is the
    [kfree] of a table that conflicts with the one of the CPU before it. *)
Theorem probe_tables_typed `{CpuKernel} w :
  match msm_cpufreq_probe w with
  | Ret 0 w' => forall cpu, 0 <= cpu < Z.of_nat nr_cpus ->
      exists t, cpu_table w' !! cpu = Some t /\ table_ok t
  | Ret _ _ => True
  | Exit _ _ => False
  | Fault f _ => f = BadFree
  end.
Proof. apply probe_spec. Qed.

(** On a table the driver built, a frequency request sets the clock of the
    CPU to the best frequency the policy allows, rounded by the clock, between
    the two notifications; a clock that refuses leaves only the first, a policy
    that allows no frequency of the table gives -EINVAL and no effect. *)
Theorem target_sets_best `{CpuKernel} p t fs target relation w :
  default 0 (device_suspended w !! p_cpu p) = 0 -> cf_shown w !! p_cpu p = Some t ->
  table_ok t -> body t = Some fs -> policy_ok p ->
  relation = CPUFREQ_RELATION_H \/ relation = CPUFREQ_RELATION_L ->
  (choices p fs = [] /\ msm_cpufreq_target p target relation w = Ret (- EINVAL) w) \/
  exists f r w', best relation target (choices p fs) f /\ msm_cpufreq_target p target relation w = Ret r w' /\
    cf_trace w' = cf_trace w ++ change_effects p (cpu_clk w !! p_cpu p) f r /\ same_tables w w'.
Proof. apply target_spec. Qed.


(** ** Examples *)

Module QcomDemo.
(** Two CPUs on one clock; the clock gives even multiples of 100 MHz up to
    1.2 GHz; the device tree has one table for all. *)
Definition round (r : Z) : Z := Z.min (r / 100000000 * 100000000) 1200000000.

#[refine] Definition kernel_with (enable : Z) (ok : enable <= 0) : CpuKernel := {|
  nr_cpus := 2;
  k_round_rate c r := Z.max 0 (round r);
  k_set_rate t c r := 0;
  k_get_rate t c := 800000000;
  k_prepare t c := 0;
  k_enable t c := enable;
  k_enable_result t c := ok;
  devm_clk_get t name := inr (if bool_decide (name = str "l2_clk") then 7 else 1);
  dt_property name := if bool_decide (name = str "qcom,cpufreq-table") then Some [200000; 800000; 1200000; 1400000] else None;
  dt_read_error t := 0;
  dt_governor_per_policy := false;
  cf_kzalloc t := true;
  k_get_policy t cpu := None;
  k_driver_probe r := default (- ENODEV) r;
  k_device_present := true;
  k_register_hotcpu_notifier t := 0;
  k_register_driver t := 0
|}.
Proof.
  - intros c r. unfold round. lia.
  - done.
Defined.

Definition kernel : CpuKernel := kernel_with 0 (Z.le_refl 0).

Definition fresh : cfworld := mkCf 0 ∅ None ∅ false ∅ false ∅ ∅ ∅ false false [].
Definition bound : cfworld := match msm_cpufreq_probe (H := kernel) fresh with Ret _ w => w | _ => fresh end.

(** The last number is the third again once rounded, so the table ends there. *)
Example table_read : body <$> (cpu_table bound !! 1) = Some (Some [200000; 800000; 1200000]).
Proof. vm_compute. reflexivity. Qed.

Definition t0 : freq_table := default [] (cpu_table bound !! 0).
Definition policy0 : cpufreq_policy := mkPolicy 0 0 0 0 0 0 0 [].
Definition up : cfworld * cpufreq_policy :=
  match msm_cpufreq_init (H := kernel) policy0 bound with Ret (_, p) w => (w, p) | _ => (fresh, policy0) end.

Lemma t0_ok : table_ok t0.
Proof.
  exists [200000; 800000; 1200000]. split_and!; [by vm_compute|by vm_compute| |].
  - repeat (apply Forall_cons_2; [split; [by vm_compute|by vm_compute]|]). constructor.
  - intros k e Hk E. do 4 (destruct k as [|k]; [vm_compute in E; by injection E as <-|]). simpl in Hk. lia.
Qed.

Lemma target_sets_best_witness :
  (choices (snd up) [200000; 800000; 1200000] = [] /\
   msm_cpufreq_target (H := kernel) (snd up) 1000000 CPUFREQ_RELATION_L (fst up) = Ret (- EINVAL) (fst up)) \/
  exists f r w', best CPUFREQ_RELATION_L 1000000 (choices (snd up) [200000; 800000; 1200000]) f /\
    msm_cpufreq_target (H := kernel) (snd up) 1000000 CPUFREQ_RELATION_L (fst up) = Ret r w' /\
    cf_trace w' = cf_trace (fst up) ++
      change_effects (H := kernel) (snd up) (cpu_clk (fst up) !! p_cpu (snd up)) f r /\
    same_tables (fst up) w'.
Proof.
  apply (target_sets_best (H := kernel) (snd up) t0 [200000; 800000; 1200000] 1000000 CPUFREQ_RELATION_L (fst up));
    [by vm_compute|by vm_compute|exact t0_ok|by vm_compute|split; by vm_compute|by right].
Defined.



(** Where the clocks cannot be enabled: a CPU that is brought up and taken down
    leaves both its clocks with a count of minus one. *)
Definition weak : CpuKernel := kernel_with (-5) (Pos2Z.neg_is_nonpos 5).
Definition run_notes (notes : list Z) : cfworld :=
  foldl (fun w a => match msm_cpufreq_cpu_callback (H := weak) a 1 w with Ret _ w' => w' | _ => w end) bound notes.

Example failed_start_underflows :
  count (clk_enabled (run_notes [CPU_UP_PREPARE; CPU_STARTING; CPU_DYING; CPU_DEAD])) 1 = -1.
Proof. vm_compute. reflexivity. Qed.
End QcomDemo.
