(* ===== verification/Icn6211.v ===== *)
(** * The bridge from the display link to the panel

    [kernel/drivers/video/msm/mdss/m2r_icn6211.c]: the driver of the ICN6211,
    which turns the MIPI signal of the display controller into RGB.  It reads
    its registers from a text in the device tree, and sends them over I2C when
    it is bound and each time the display comes back. *)

From stdpp Require Import base list numbers strings.
From Stdlib Require Import ZArith Lia.
From S2P Require Import Prelude Text Kernel.
Open Scope Z_scope.

Definition EIO : Z := 5.

(** ** State *)

(** A pointer of the driver: NULL, to a live object, to a freed one. *)
Inductive ptr (A : Type) := Null | Live (a : A) | Dangling.
Arguments Null {A}.
Arguments Live {A} a.
Arguments Dangling {A}.

Record device_init_sig_cmd := mkCmd { address : Z; data : Z }.

Record icn6211_platform_data := mkPdata {
  icn6211_reset_gpio : Z;
  icn6211_power_en : Z;
  icn6211_power_enp : Z;
  i2c_tx_len : Z
}.

(** What the driver does to the hardware. *)
Inductive ieffect :=
  | GpioDirection (gpio level : Z)     (* gpio_direction_output *)
  | GpioSet (gpio level : Z)           (* gpio_set_value *)
  | GpioRequest (gpio : Z)
  | Msleep (ms : Z)
  | Usleep (us : Z)
  | I2cSend (buf : list Z).            (* i2c_master_send *)

(** The static variables of the driver, the text [icn,m2r-init-cmd] of the
    device tree, which the driver writes to, whether the class is registered,
    and what was done. *)
Record iworld := mkI {
  iw_time : nat;
  icn6211_cmd_num : Z;
  icn6211_class : ptr unit;
  icn6211_i2c_client : bool;
  icn6211_pdata : ptr icn6211_platform_data;
  icn6211_init_setting : ptr (list device_init_sig_cmd);
  g_rgb_continue_splash_display : bool;
  init_cmd_text : option (list Z);
  class_registered : bool;
  iw_trace : list ieffect
}.

(** What the driver calls: the device tree, the allocator, the I2C and class
    cores, and [simple_strtoul] with base 16. *)
Class IcnKernel := {
  ik_functionality : nat -> bool;
  ik_of_node : bool;
  ik_gpio : list Z -> Z;
  ik_splash : bool;
  ik_tx_len : Z + Z;                     (* an error or the value *)
  ik_no_string : Z;                      (* the error when there is no text *)
  ik_no_string_error : ik_no_string <> 0;
  ik_alloc : nat -> bool;
  ik_class_register : nat -> bool -> Z;  (* told whether the name is registered already *)
  ik_i2c_send : nat -> list Z -> Z;
  ik_strtoul16 : list Z -> Z
}.

Definition i_tick (w : iworld) : iworld :=
  mkI (S (iw_time w)) (icn6211_cmd_num w) (icn6211_class w) (icn6211_i2c_client w) (icn6211_pdata w)
    (icn6211_init_setting w) (g_rgb_continue_splash_display w) (init_cmd_text w) (class_registered w)
    (iw_trace w).
Definition i_emit (l : list ieffect) (w : iworld) : iworld :=
  mkI (iw_time w) (icn6211_cmd_num w) (icn6211_class w) (icn6211_i2c_client w) (icn6211_pdata w)
    (icn6211_init_setting w) (g_rgb_continue_splash_display w) (init_cmd_text w) (class_registered w)
    (iw_trace w ++ l).
Definition set_class (c : ptr unit) (reg : bool) (w : iworld) : iworld :=
  mkI (iw_time w) (icn6211_cmd_num w) c (icn6211_i2c_client w) (icn6211_pdata w)
    (icn6211_init_setting w) (g_rgb_continue_splash_display w) (init_cmd_text w) reg (iw_trace w).
Definition set_client (w : iworld) : iworld :=
  mkI (iw_time w) (icn6211_cmd_num w) (icn6211_class w) true (icn6211_pdata w)
    (icn6211_init_setting w) (g_rgb_continue_splash_display w) (init_cmd_text w) (class_registered w)
    (iw_trace w).
Definition set_pdata (p : ptr icn6211_platform_data) (w : iworld) : iworld :=
  mkI (iw_time w) (icn6211_cmd_num w) (icn6211_class w) (icn6211_i2c_client w) p
    (icn6211_init_setting w) (g_rgb_continue_splash_display w) (init_cmd_text w) (class_registered w)
    (iw_trace w).
Definition set_setting (n : Z) (s : ptr (list device_init_sig_cmd)) (w : iworld) : iworld :=
  mkI (iw_time w) n (icn6211_class w) (icn6211_i2c_client w) (icn6211_pdata w)
    s (g_rgb_continue_splash_display w) (init_cmd_text w) (class_registered w) (iw_trace w).
Definition set_splash (b : bool) (w : iworld) : iworld :=
  mkI (iw_time w) (icn6211_cmd_num w) (icn6211_class w) (icn6211_i2c_client w) (icn6211_pdata w)
    (icn6211_init_setting w) b (init_cmd_text w) (class_registered w) (iw_trace w).
Definition set_text (t : option (list Z)) (w : iworld) : iworld :=
  mkI (iw_time w) (icn6211_cmd_num w) (icn6211_class w) (icn6211_i2c_client w) (icn6211_pdata w)
    (icn6211_init_setting w) (g_rgb_continue_splash_display w) t (class_registered w) (iw_trace w).

(** ** Text *)

(** [strstr(s, t)]: what follows the place of the first [t], with it. *)
Fixpoint strstr (s t : list Z) : option (list Z) :=
  if decide (take (length t) s = t) then Some s
  else match s with [] => None | _ :: s' => strstr s' t end.

Definition HEX : list Z := str "0x".

(** [for (; (p = strstr(p, "0x")) != 0; p++) len++;] *)
Fixpoint count_loop (fuel : nat) (p : list Z) (len : Z) : option Z :=
  match fuel with
  | O => None
  | S fuel' =>
      match strstr p HEX with
      | None => Some len
      | Some q => count_loop fuel' (drop 1 q) (len + 1)
      end
  end.

Section Driver.
Context `{IcnKernel}.

Definition i_ask {A} (f : nat -> A) : prog iworld A := fun w => Ret (f (iw_time w)) (i_tick w).
Definition i_gets {A} (f : iworld -> A) : prog iworld A := fun w => Ret (f w) w.
Definition i_do (e : ieffect) : prog iworld unit := modify (i_emit [e]).

Definition i_deref {A} (p : ptr A) : prog iworld A :=
  match p with
  | Null => fault_with NullDeref
  | Live a => ret a
  | Dangling => fault_with UseAfterFree
  end.

(** ** The chip *)

(** [icn_i2c_write]; the result of the transfer is only logged. *)
Definition icn_i2c_write (addr val data_size : Z) : prog iworld Z :=
  let* buf := lift OutOfBounds (range [Z.land addr 255; Z.land val 255] 0 (s32 data_size)) in
  do* i_ask (fun t => ik_i2c_send t buf);
  do* i_do (I2cSend buf);
  ret 0.

(** The loop of [icn_init_table] over the [count] entries from [i] on. *)
Fixpoint table_loop (count : nat) (i : nat) (table : ptr (list device_init_sig_cmd)) : prog iworld unit :=
  match count with
  | O => ret tt
  | S count' =>
      let* t := i_deref table in
      let* c := lift OutOfBounds (t !! i) in
      let* pp := i_gets icn6211_pdata in
      let* p := i_deref pp in
      do* icn_i2c_write (address c) (data c) (i2c_tx_len p);
      do* i_do (Usleep 100);
      table_loop count' (S i) table
  end.

Definition icn_init_table (table : ptr (list device_init_sig_cmd)) (count : Z) : prog iworld unit :=
  table_loop (Z.to_nat count) 0 table.

Definition icn6211_bridge_init : prog iworld unit :=
  let* t := i_gets icn6211_init_setting in
  let* n := i_gets icn6211_cmd_num in
  icn_init_table t n.

Definition icn6211_reset (icn_info : ptr icn6211_platform_data) : prog iworld unit :=
  let* p := i_deref icn_info in
  do* i_do (GpioDirection (icn6211_reset_gpio p) 1);
  do* i_do (GpioSet (icn6211_reset_gpio p) 1);
  do* i_do (Msleep 50);
  do* i_do (GpioSet (icn6211_reset_gpio p) 0);
  do* i_do (Msleep 50);
  do* i_do (GpioSet (icn6211_reset_gpio p) 1);
  i_do (Msleep 50).

Definition icn6211_poweron (icn_info : ptr icn6211_platform_data) : prog iworld Z :=
  let* p := i_deref icn_info in
  do* i_do (GpioDirection (icn6211_power_en p) 1);
  do* i_do (GpioDirection (icn6211_power_enp p) 1);
  ret 0.

Definition icn6211_power_off (icn_info : ptr icn6211_platform_data) : prog iworld Z :=
  let* p := i_deref icn_info in
  do* i_do (GpioDirection (icn6211_power_en p) 0);
  do* i_do (GpioDirection (icn6211_power_enp p) 0);
  ret 0.

(** ** The device tree *)

(** A store to [temp->address] ([first]) or [temp->data] of entry [i]. *)
Definition store_cmd (first : bool) (i : nat) (val : Z) (s : ptr (list device_init_sig_cmd))
  : prog iworld (list device_init_sig_cmd) :=
  let* t := i_deref s in
  let* c := lift OutOfBounds (t !! i) in
  ret (<[i := if first then mkCmd val (data c) else mkCmd (address c) val]> t).

(** The loop of [prase_one_cmd_one_data] over the fields of the text; [len]
    counts the numbers so far, and [temp] is entry [len / 2]. *)
Fixpoint fields_loop (fuel : nat) (buf : option (list Z)) (len : nat) (s : ptr (list device_init_sig_cmd))
  : prog iworld (ptr (list device_init_sig_cmd)) :=
  match fuel with
  | O => fault_with NoFuel
  | S fuel' =>
      match strsep 44 buf with
      | None => ret s
      | Some (p, buf') =>
          match strstr p HEX with
          | None => fields_loop fuel' buf' len s
          | Some _ =>
              let val := u8 (ik_strtoul16 p) in
              let* t := store_cmd (Nat.even len) (Nat.div2 len) val s in
              fields_loop fuel' buf' (S len) (Live t)
          end
      end
  end.

(** [strsep] puts a NUL over every comma of the text in the device tree: what
    a later reader finds there is its first field. *)
Definition prase_one_cmd_one_data (text : list Z) : prog iworld unit :=
  let* len := lift NoFuel (count_loop (S (length text)) text 0) in
  let num := Z.div len 2 in
  let* ok := i_ask ik_alloc in
  let s := if ok : bool then Live (replicate (Z.to_nat num) (mkCmd 0 0)) else Null in
  do* modify (set_setting num s);
  do* modify (set_text (Some (fst (cut_at 44 text))));
  let* s' := fields_loop (S (S (length text))) (Some text) 0 s in
  modify (set_setting num s').

Definition icn6211_parse_dt : prog iworld Z :=
  let* pp := i_gets icn6211_pdata in
  let* p := i_deref pp in
  let p := mkPdata (ik_gpio (str "icn,reset-gpio")) (ik_gpio (str "icn,pw-en-gpio"))
             (ik_gpio (str "icn,pw-enp-gpio")) (i2c_tx_len p) in
  do* modify (set_pdata (Live p));
  do* modify (set_splash ik_splash);
  match ik_tx_len with
  | inl rc => ret rc
  | inr v =>
      let p := mkPdata (icn6211_reset_gpio p) (icn6211_power_en p) (icn6211_power_enp p) v in
      do* modify (set_pdata (Live p));
      do* i_do (GpioRequest (icn6211_power_en p));
      do* i_do (GpioRequest (icn6211_power_enp p));
      do* i_do (GpioRequest (icn6211_reset_gpio p));
      let* t := i_gets init_cmd_text in
      match t with
      | Some text => do* prase_one_cmd_one_data text; ret 0
      | None => ret ik_no_string
      end
  end.

(** ** Attribute files *)

Definition reset_bridge_store (n : Z) : prog iworld Z :=
  let* pp := i_gets icn6211_pdata in
  let* p := i_deref pp in
  do* i_do (GpioSet (icn6211_reset_gpio p) 1);
  do* i_do (Msleep 5);
  do* i_do (GpioSet (icn6211_reset_gpio p) 0);
  do* i_do (Msleep 50);
  do* i_do (GpioSet (icn6211_reset_gpio p) 1);
  do* i_do (Msleep 1);
  ret n.

(** [strncmp(buf, s, strlen(s)) == 0]. *)
Definition starts_with (buf s : list Z) : bool := bool_decide (take (length s) buf = s).

Definition en_bridge_store (buf : list Z) (n : Z) : prog iworld Z :=
  let* pp := i_gets icn6211_pdata in
  do* (if (3 <=? n) && starts_with buf (str "off") then
         let* p := i_deref pp in i_do (GpioDirection (icn6211_power_en p) 0)
       else ret tt);
  do* (if (2 <=? n) && starts_with buf (str "on") then
         let* p := i_deref pp in i_do (GpioDirection (icn6211_power_en p) 1)
       else ret tt);
  ret n.

(** ** Binding, suspend and resume *)

(** [icn6211_release]: the class stays registered. *)
Definition freed {A} (p : ptr A) : prog iworld (ptr A) :=
  match p with Null => ret Null | Live _ => ret Dangling | Dangling => fault_with UseAfterFree end.

Definition icn6211_release : prog iworld Z :=
  let* w := get in
  let* s := freed (icn6211_init_setting w) in
  do* modify (set_setting (icn6211_cmd_num w) s);
  let* c := freed (icn6211_class w) in
  do* modify (set_class c (class_registered w));
  let* p := freed (icn6211_pdata w) in
  do* modify (set_pdata p);
  ret 0.

Definition icn6211_suspend : prog iworld Z :=
  let* p := i_gets icn6211_pdata in
  icn6211_power_off p.

Definition icn6211_resume : prog iworld Z :=
  let* p := i_gets icn6211_pdata in
  do* icn6211_poweron p;
  let* p := i_gets icn6211_pdata in
  do* icn6211_reset p;
  do* icn6211_bridge_init;
  ret 0.

Definition icn6211_probe : prog iworld Z :=
  do* modify set_client;
  let* fn := i_ask ik_functionality in
  if negb fn then ret (- EIO)
  else
    let* ok := i_ask ik_alloc in
    do* modify (set_pdata (if ok : bool then Live (mkPdata 0 0 0 0) else Null));
    let* rc := (if ik_of_node then icn6211_parse_dt else ret 0) in
    if negb (rc =? 0) then ret (- EIO)
    else
      let* ok := i_ask ik_alloc in
      let* reg := i_gets class_registered in
      do* modify (set_class (if ok : bool then Live tt else Null) reg);
      let* c := i_gets icn6211_class in
      do* i_deref c;
      let* rc := i_ask (fun t => ik_class_register t reg) in
      if negb (rc =? 0) then do* modify (set_class Null reg); ret rc
      else
        do* modify (set_class (Live tt) true);
        let* splash := i_gets g_rgb_continue_splash_display in
        if splash : bool then ret 0
        else
          let* p := i_gets icn6211_pdata in
          let* rc := icn6211_poweron p in
          if rc <? 0 then ret rc
          else
            let* p := i_gets icn6211_pdata in
            do* icn6211_reset p;
            do* icn6211_bridge_init;
            ret 0.

End Driver.

(** ** The register text: specification *)

(** The places of [0x] in a text. *)
Fixpoint occurrences (s : list Z) : nat :=
  match s with
  | [] => 0
  | _ :: s' => (if decide (take 2 s = HEX) then 1 else 0) + occurrences s'
  end.

(** The fields of a text that hold a number. *)
Definition numbers (text : list Z) : list (list Z) :=
  filter (fun f => occurrences f <> 0%nat) (fields 44 text).

(** Two numbers make a command; a last one alone has data 0. *)
Fixpoint pairs (l : list Z) : list device_init_sig_cmd :=
  match l with
  | a :: b :: l' => mkCmd a b :: pairs l'
  | [a] => [mkCmd a 0]
  | [] => []
  end.

(** A table of [m] commands that begins with these numbers. *)
Definition padded (l : list Z) (m : nat) : list device_init_sig_cmd :=
  pairs l ++ replicate (m - length (pairs l)) (mkCmd 0 0).

(** *** Lemmas *)

Lemma strstr_spec s :
  match strstr s HEX with
  | None => occurrences s = 0%nat
  | Some q => occurrences s = S (occurrences (drop 1 q)) /\ (length (drop 1 q) < length s)%nat
  end.
Proof.
  induction s as [|c s IH]; [done|]. cbn [strstr]. change (length HEX) with 2%nat.
  cbn [occurrences]. destruct (decide (take 2 (c :: s) = HEX)) as [E|E].
  - cbn [drop]. rewrite drop_0. split; [done|]. cbn [length]. lia.
  - cbn [Nat.add]. destruct (strstr s HEX) as [q|]; [|done]. destruct IH as [E1 E2].
    split; [done|]. cbn [length]. lia.
Qed.

Lemma count_loop_spec fuel p len :
  (length p < fuel)%nat -> count_loop fuel p len = Some (len + Z.of_nat (occurrences p)).
Proof.
  revert p len. induction fuel as [|fuel IH]; intros p len Hf; [lia|]. cbn [count_loop].
  pose proof (strstr_spec p) as S. destruct (strstr p HEX) as [q|].
  - destruct S as [-> Hl]. rewrite IH by lia. f_equal. lia.
  - rewrite S. f_equal. lia.
Qed.

(** No [0x] lies across a comma. *)
Lemma occurrences_cut s t r :
  cut_at 44 s = (t, r) ->
  occurrences s = (occurrences t + match r with Some r => occurrences r | None => 0 end)%nat.
Proof.
  revert t r. induction s as [|c s IH]; intros t r E; cbn [cut_at] in E; [by simplify_eq|].
  destruct (c =? 44) eqn:Ec; bool_cases; simplify_eq.
  - cbn [occurrences]. rewrite decide_False; [done|]. by intros [=].
  - destruct (cut_at 44 s) as [t' r'] eqn:E'. simplify_eq. cbn [occurrences].
    rewrite (IH _ _ eq_refl).
    destruct (cut_at_spec _ _ _ _ E') as [_ Hs].
    assert (take 2 (c :: s) = HEX <-> take 2 (c :: t') = HEX) as Hd.
    { destruct t' as [|b t']; destruct r; cbn [app] in Hs; subst s; cbn [take]; [|done..].
      split; intros [=]; lia. }
    destruct (decide (take 2 (c :: s) = HEX)), (decide (take 2 (c :: t') = HEX)); [lia|tauto..|lia].
Qed.

Lemma numbers_cut s t r :
  cut_at 44 s = (t, r) ->
  numbers s = (if decide (occurrences t <> 0%nat) then [t] else []) ++
              match r with Some r => numbers r | None => [] end.
Proof.
  intros E. unfold numbers. rewrite (fields_cut _ _ _ _ E), filter_cons.
  destruct (decide _), r; done.
Qed.

Lemma cut_shorter s t r : cut_at 44 s = (t, Some r) -> (length r < length s)%nat.
Proof.
  intros E. destruct (cut_at_spec _ _ _ _ E) as [_ ->]. rewrite length_app. cbn [length]. lia.
Qed.

Lemma numbers_occurrences s : (length (numbers s) <= occurrences s)%nat.
Proof.
  remember (length s) as n eqn:Hn. revert s Hn. induction n as [n IH] using lt_wf_ind. intros s ->.
  destruct (cut_at 44 s) as [t r] eqn:E. rewrite (numbers_cut _ _ _ E), (occurrences_cut _ _ _ E).
  rewrite length_app. assert (length (if decide (occurrences t <> 0%nat) then [t] else []) <= occurrences t)%nat.
  { destruct (decide _); cbn [length]; lia. }
  destruct r as [r|]; [|cbn [length]; lia].
  specialize (IH _ (cut_shorter _ _ _ E) r eq_refl). lia.
Qed.

Lemma pairs_length l : length (pairs l) = Nat.div2 (S (length l)).
Proof.
  remember (length l) as n eqn:Hn. revert l Hn. induction n as [n IH] using lt_wf_ind.
  intros [|a [|b l]] ->; [done..|]. cbn [pairs length]. rewrite (IH (length l)) by (cbn; lia). done.
Qed.

(** Storing the next number. *)
Lemma padded_snoc l m v :
  (length l < 2 * m)%nat ->
  exists c, padded l m !! Nat.div2 (length l) = Some c /\
    <[Nat.div2 (length l) := if Nat.even (length l) then mkCmd v (data c) else mkCmd (address c) v]>
      (padded l m) = padded (l ++ [v]) m.
Proof.
  remember (length l) as n eqn:Hn. revert l m Hn. induction n as [n IH] using lt_wf_ind.
  intros [|a [|b l]] m -> Hm; cbn [length] in Hm.
  - destruct m as [|m]; [lia|]. exists (mkCmd 0 0). unfold padded. cbn. by rewrite Nat.sub_0_r.
  - destruct m as [|m]; [lia|]. exists (mkCmd a 0). unfold padded. cbn. by rewrite Nat.sub_0_r.
  - destruct m as [|m]; [lia|]. destruct (IH (length l) ltac:(cbn; lia) l m eq_refl ltac:(lia)) as (c&E1&E2).
    exists c. split; [exact E1|]. cbn [length app]. change (padded (a :: b :: l ++ [v]) (S m))
      with (mkCmd a b :: padded (l ++ [v]) m). rewrite <- E2. done.
Qed.

Lemma padded_exact l m : length l = (2 * m)%nat -> padded l m = pairs l.
Proof.
  intros E. unfold padded. rewrite pairs_length, E, Nat.div2_succ_double, Nat.sub_diag.
  apply app_nil_r.
Qed.

Section ParseFacts.
Context `{IcnKernel}.

Lemma bind_i_ask {A B} (f : nat -> A) (k : A -> prog iworld B) w :
  bind (i_ask f) k w = k (f (iw_time w)) (i_tick w).
Proof. reflexivity. Qed.

Lemma bind_i_gets {A B} (f : iworld -> A) (k : A -> prog iworld B) w :
  bind (i_gets f) k w = k (f w) w.
Proof. reflexivity. Qed.

Lemma bind_i_do {B} e (k : unit -> prog iworld B) w : bind (i_do e) k w = k tt (i_emit [e] w).
Proof. reflexivity. Qed.

(** The value of a number. *)
Definition value (f : list Z) : Z := u8 (ik_strtoul16 f).

Lemma fields_loop_spec fuel s l m w :
  (length s < fuel)%nat -> (length l <= 2 * m)%nat ->
  fields_loop (S fuel) (Some s) (length l) (Live (padded l m)) w =
    if (length l + length (numbers s) <=? 2 * m)%nat
    then Ret (Live (padded (l ++ map value (numbers s)) m)) w
    else Fault OutOfBounds w.
Proof.
  revert s l. induction fuel as [|fuel IH]; intros s l Hf Hl; [lia|].
  remember (S fuel) as fuel1 eqn:Ef. cbn [fields_loop strsep fmap option_fmap option_map].
  destruct (cut_at 44 s) as [t r] eqn:E. rewrite (numbers_cut _ _ _ E).
  assert (forall l' : list Z, (length l' <= 2 * m)%nat ->
    fields_loop fuel1 r (length l') (Live (padded l' m)) w =
    if (length l' + length (match r with Some r => numbers r | None => [] end) <=? 2 * m)%nat
    then Ret (Live (padded (l' ++ map value (match r with Some r => numbers r | None => [] end)) m)) w
    else Fault OutOfBounds w) as K.
  { intros l' Hl'. subst fuel1. destruct r as [r|].
    - apply IH; [|done]. apply cut_shorter in E. lia.
    - cbn [fields_loop strsep fmap option_fmap option_map length map]. rewrite Nat.add_0_r, app_nil_r.
      by rewrite (proj2 (Nat.leb_le _ _) Hl'). }
  pose proof (strstr_spec t) as S. destruct (strstr t HEX) as [q|].
  - rewrite decide_True by (destruct S as [-> _]; done). cbn [app length map].
    unfold store_cmd. cbn [i_deref]. rewrite bind_bind, bind_ret.
    destruct (decide (length l < 2 * m)%nat) as [Hlt|Hge].
    + destruct (padded_snoc l m (value t) Hlt) as (c & E1 & E2). rewrite E1, bind_bind, bind_lift_Some.
      rewrite bind_ret. unfold value in E2 at 1 2. rewrite E2.
      replace (Datatypes.S (length l)) with (length (l ++ [value t])) by (rewrite length_app; cbn; lia).
      rewrite K by (rewrite length_app; cbn; lia). rewrite length_app, <- app_assoc. cbn [length app].
      by rewrite <- Nat.add_assoc.
    + assert (padded l m !! Nat.div2 (length l) = None) as ->.
      { apply lookup_ge_None. unfold padded. rewrite length_app, length_replicate, pairs_length.
        replace (length l) with (2 * m)%nat by lia.
        rewrite Nat.div2_succ_double, Nat.div2_double. lia. }
      destruct (_ <=? _)%nat eqn:E3; [apply Nat.leb_le in E3; lia|done].
  - rewrite decide_False by (rewrite S; lia). cbn [app]. by rewrite K.
Qed.

(** What [prase_one_cmd_one_data] does, whatever the text: the table has half
    as many entries as the text has places of [0x]. *)
Lemma parse_spec text w :
  let m := (occurrences text / 2)%nat in
  let w0 := set_text (Some (fst (cut_at 44 text)))
    (set_setting (Z.of_nat m) (Live (padded [] m)) (i_tick w)) in
  ik_alloc (iw_time w) = true ->
  prase_one_cmd_one_data text w =
    if (length (numbers text) <=? 2 * m)%nat
    then Ret tt (set_setting (Z.of_nat m) (Live (padded (map value (numbers text)) m)) w0)
    else Fault OutOfBounds w0.
Proof.
  intros m w0 Ha. unfold prase_one_cmd_one_data. rewrite count_loop_spec by lia.
  rewrite bind_lift_Some, bind_i_ask, Ha, !bind_modify. rewrite Z.add_0_l.
  change 2 with (Z.of_nat 2) at 1 2 3 4. rewrite <- !Nat2Z.inj_div, Nat2Z.id. fold m.
  assert (replicate m (mkCmd 0 0) = padded [] m) as -> by (unfold padded; cbn; by rewrite Nat.sub_0_r).
  fold w0. rewrite bind_unfold. change 0%nat with (length (A := Z) []) at 1.
  rewrite fields_loop_spec by (cbn; lia). cbn [length Nat.add app].
  by destruct (_ <=? _)%nat.
Qed.

End ParseFacts.

(** ** Writing the text *)

(** Fields with commas between them. *)
Fixpoint commas (fs : list (list Z)) : list Z :=
  match fs with
  | [] => []
  | [f] => f
  | f :: fs' => f ++ 44 :: commas fs'
  end.

Definition hex_digit (d : Z) : Z := if d <? 10 then 48 + d else 55 + d.

(** A byte as the board's device tree writes it. *)
Definition hex_byte (v : Z) : list Z := HEX ++ [hex_digit (v / 16); hex_digit (v mod 16)].

Definition cmd_fields (cmds : list device_init_sig_cmd) : list (list Z) :=
  concat (map (fun c => [hex_byte (address c); hex_byte (data c)]) cmds).

Definition cmd_bytes (c : device_init_sig_cmd) : Prop := is_byte (address c) /\ is_byte (data c).

(** [simple_strtoul] reads what is written so. *)
Definition reads_hex `{IcnKernel} : Prop := forall v, is_byte v -> ik_strtoul16 (hex_byte v) = v.

Lemma fields_commas fs : fs <> [] -> Forall (fun f => ~ 44 ∈ f) fs -> fields 44 (commas fs) = fs.
Proof.
  intros Hne Hfs. induction Hfs as [|f fs Hf Hfs IH]; [done|]. destruct fs as [|g fs].
  - cbn [commas]. by rewrite (fields_cut _ _ _ _ (cut_at_none _ _ Hf)).
  - change (commas (f :: g :: fs)) with (f ++ 44 :: commas (g :: fs)).
    rewrite (fields_cut _ _ _ _ (cut_at_app _ _ _ Hf)), IH; done.
Qed.

Lemma occurrences_fields s : occurrences s = sum_list (map occurrences (fields 44 s)).
Proof.
  remember (length s) as n eqn:Hn. revert s Hn. induction n as [n IH] using lt_wf_ind. intros s ->.
  destruct (cut_at 44 s) as [t r] eqn:E. rewrite (fields_cut _ _ _ _ E), (occurrences_cut _ _ _ E).
  destruct r as [r|]; cbn; [|done]. by rewrite (IH _ (cut_shorter _ _ _ E) r eq_refl).
Qed.

Lemma sum_filter fs :
  sum_list (map occurrences fs) = sum_list (map occurrences (filter (fun f => occurrences f <> 0%nat) fs)).
Proof.
  induction fs as [|f fs IH]; [done|]. rewrite filter_cons. cbn [map sum_list].
  destruct (decide _) as [E|E]; cbn [map]; [by cbn; rewrite IH|].
  cbn. assert (occurrences f = 0%nat) as -> by lia. done.
Qed.

Lemma occurrences_hex_byte v : is_byte v -> occurrences (hex_byte v) = 1%nat.
Proof.
  intros Hv. assert (forall d, 0 <= d < 16 -> hex_digit d <> 120) as Hd.
  { intros d Hd. unfold hex_digit. destruct (d <? 10) eqn:E; bool_cases; lia. }
  unfold is_byte in Hv. pose proof (Hd (v / 16)) as H1. pose proof (Hd (v mod 16)) as H2.
  pose proof (Z.mod_pos_bound v 16). pose proof (Z.div_lt_upper_bound v 16 16).
  pose proof (Z.div_pos v 16). unfold hex_byte.
  set (a := hex_digit (v / 16)) in *. set (b := hex_digit (v mod 16)) in *.
  change (HEX ++ [a; b]) with [48; 120; a; b]. cbn [occurrences take].
  change HEX with [48; 120]. rewrite decide_True by done.
  rewrite !(decide_False (P := [_; _] = _)) by (intros E; injection E; lia).
  by rewrite decide_False.
Qed.

Section TextFacts.
Context `{IcnKernel}.

Lemma cmd_fields_occurrences cmds :
  Forall cmd_bytes cmds -> sum_list (map occurrences (cmd_fields cmds)) = (2 * length cmds)%nat.
Proof.
  induction 1 as [|c cmds [H1 H2] _ IH]; [done|]. unfold cmd_fields in *. cbn [map concat app].
  cbn [sum_list_with id]. rewrite !occurrences_hex_byte by done. rewrite IH. cbn [length]. lia.
Qed.

Lemma cmd_fields_pairs cmds :
  reads_hex -> Forall cmd_bytes cmds -> pairs (map value (cmd_fields cmds)) = cmds.
Proof.
  intros Hr. induction 1 as [|[a d] cmds [H1 H2] _ IH]; [done|]. unfold cmd_fields in *.
  cbn [map concat app address data] in *. cbn [pairs]. rewrite IH. unfold value.
  rewrite !Hr by done. by rewrite !u8_id.
Qed.

Lemma cmd_fields_length cmds : length (cmd_fields cmds) = (2 * length cmds)%nat.
Proof. unfold cmd_fields. induction cmds as [|c cmds IH]; [done|]. cbn [map concat app length]. rewrite IH. lia. Qed.

(** A text that gives these commands, with any other fields in between. *)
Definition text_of (fs : list (list Z)) (cmds : list device_init_sig_cmd) : Prop :=
  fs <> [] /\ Forall (fun f => ~ 44 ∈ f) fs /\ Forall cmd_bytes cmds /\
  filter (fun f => occurrences f <> 0%nat) fs = cmd_fields cmds.

Lemma text_parsed fs cmds w :
  text_of fs cmds -> reads_hex -> ik_alloc (iw_time w) = true ->
  exists t, prase_one_cmd_one_data (commas fs) w =
    Ret tt (set_setting (zlen cmds) (Live cmds)
      (set_text (Some (fst (cut_at 44 (commas fs)))) (set_setting (zlen cmds) t (i_tick w)))).
Proof.
  intros (Hne & Hf & Hc & Hfs) Hr Ha.
  assert (numbers (commas fs) = cmd_fields cmds) as En
    by (unfold numbers; rewrite fields_commas by done; exact Hfs).
  assert (occurrences (commas fs) = 2 * length cmds)%nat as Eo.
  { rewrite occurrences_fields, fields_commas by done.
    rewrite sum_filter, Hfs. by apply cmd_fields_occurrences. }
  eexists. rewrite parse_spec by done. rewrite En, Eo, cmd_fields_length.
  replace (2 * length cmds / 2)%nat with (length cmds) by (rewrite Nat.mul_comm, Nat.div_mul; lia).
  rewrite (proj2 (Nat.leb_le _ _)) by lia.
  rewrite padded_exact by (rewrite length_map; apply cmd_fields_length).
  by rewrite cmd_fields_pairs.
Qed.

End TextFacts.

(** ** The chip: what a resume sends *)

Ltac irun := repeat first
  [ rewrite bind_i_ask | rewrite bind_i_gets | rewrite bind_i_do | rewrite bind_modify
  | rewrite bind_ret | rewrite bind_lift_Some | rewrite bind_bind ]; cbv beta.

Definition power_on (p : icn6211_platform_data) : list ieffect :=
  [GpioDirection (icn6211_power_en p) 1; GpioDirection (icn6211_power_enp p) 1].
Definition power_down (p : icn6211_platform_data) : list ieffect :=
  [GpioDirection (icn6211_power_en p) 0; GpioDirection (icn6211_power_enp p) 0].
Definition reset_pulse (p : icn6211_platform_data) : list ieffect :=
  let g := icn6211_reset_gpio p in
  [GpioDirection g 1; GpioSet g 1; Msleep 50; GpioSet g 0; Msleep 50; GpioSet g 1; Msleep 50].
Definition programming (cmds : list device_init_sig_cmd) : list ieffect :=
  concat (map (fun c => [I2cSend [address c; data c]; Usleep 100]) cmds).

(** The world after [n] calls of the kernel and these effects. *)
Definition moved (n : nat) (l : list ieffect) (w : iworld) : iworld :=
  i_emit l (Nat.iter n i_tick w).

Lemma moved_0 w : moved 0 [] w = w.
Proof. unfold moved, i_emit. cbn. rewrite app_nil_r. by destruct w. Qed.

Lemma moved_emit n l e w : i_emit e (moved n l w) = moved n (l ++ e) w.
Proof. unfold moved, i_emit. cbn. by rewrite <- app_assoc. Qed.

Lemma moved_tick n l w : i_tick (moved n l w) = moved (S n) l w.
Proof. reflexivity. Qed.

Lemma iter_tick n w :
  Nat.iter n i_tick w = mkI (n + iw_time w) (icn6211_cmd_num w) (icn6211_class w) (icn6211_i2c_client w)
    (icn6211_pdata w) (icn6211_init_setting w) (g_rgb_continue_splash_display w) (init_cmd_text w)
    (class_registered w) (iw_trace w).
Proof. induction n as [|n IH]; [by destruct w|]. cbn [Nat.iter nat_rect]. unfold Nat.iter in IH. by rewrite IH. Qed.

Lemma moved_moved n l m k w : moved m k (moved n l w) = moved (m + n) (l ++ k) w.
Proof. unfold moved. rewrite !iter_tick. unfold i_emit. cbn. by rewrite <- Nat.add_assoc, <- app_assoc. Qed.

Lemma moved_pdata n l w : icn6211_pdata (moved n l w) = icn6211_pdata w.
Proof. unfold moved. by rewrite iter_tick. Qed.
Lemma moved_setting n l w : icn6211_init_setting (moved n l w) = icn6211_init_setting w.
Proof. unfold moved. by rewrite iter_tick. Qed.
Lemma moved_num n l w : icn6211_cmd_num (moved n l w) = icn6211_cmd_num w.
Proof. unfold moved. by rewrite iter_tick. Qed.

(** The driver is bound: its data, its commands, two bytes per transfer. *)
Record bound (p : icn6211_platform_data) (cmds : list device_init_sig_cmd) (w : iworld) : Prop := {
  b_pdata : icn6211_pdata w = Live p;
  b_setting : icn6211_init_setting w = Live cmds;
  b_num : icn6211_cmd_num w = zlen cmds;
  b_len : i2c_tx_len p = 2;
  b_bytes : Forall cmd_bytes cmds
}.

Lemma bound_moved p cmds n l w : bound p cmds w -> bound p cmds (moved n l w).
Proof. intros []. constructor; by rewrite ?moved_pdata, ?moved_setting, ?moved_num. Qed.

Section ChipFacts.
Context `{IcnKernel}.

Lemma land_byte v : is_byte v -> Z.land v 255 = v.
Proof. intros Hv. change 255 with (Z.ones 8). rewrite Z.land_ones by lia. apply Z.mod_small. exact Hv. Qed.

Lemma write_spec c p w :
  cmd_bytes c -> i2c_tx_len p = 2 ->
  icn_i2c_write (address c) (data c) (i2c_tx_len p) w =
    Ret 0 (moved 1 [I2cSend [address c; data c]] w).
Proof. intros [H1 H2] E. unfold icn_i2c_write. rewrite E, !land_byte by done. reflexivity. Qed.

Lemma table_loop_spec p cmds count i w :
  bound p cmds w -> (i + count = length cmds)%nat ->
  table_loop count i (Live cmds) w = Ret tt (moved count (programming (drop i cmds)) w).
Proof.
  revert i w. induction count as [|count IH]; intros i w B Hi.
  - rewrite drop_ge by lia. cbn. by rewrite moved_0.
  - cbn [table_loop i_deref]. irun.
    destruct (lookup_lt_is_Some_2 cmds i ltac:(lia)) as [c Ec]. rewrite Ec. irun.
    rewrite (b_pdata _ _ _ B). cbn [i_deref]. irun.
    rewrite (bind_unfold (icn_i2c_write _ _ _)), write_spec;
      [|by eapply Forall_lookup_1; [apply B|]|apply B]. irun.
    rewrite moved_emit, IH; [|by apply bound_moved|lia].
    rewrite moved_moved, (drop_S _ _ _ Ec), Nat.add_1_r. done.
Qed.

Lemma suspend_spec p cmds w :
  bound p cmds w -> icn6211_suspend w = Ret 0 (moved 0 (power_down p) w).
Proof.
  intros B. unfold icn6211_suspend, icn6211_power_off. irun. rewrite (b_pdata _ _ _ B). cbn [i_deref]. irun.
  unfold ret. f_equal. rewrite <- (moved_0 w) at 1. by rewrite !moved_emit.
Qed.

Lemma resume_spec p cmds w :
  bound p cmds w ->
  icn6211_resume w = Ret 0 (moved (length cmds) (power_on p ++ reset_pulse p ++ programming cmds) w).
Proof.
  intros B. unfold icn6211_resume, icn6211_poweron. irun. rewrite (b_pdata _ _ _ B). cbn [i_deref]. irun.
  rewrite <- (moved_0 w) at 1 2. rewrite !moved_emit, moved_pdata, (b_pdata _ _ _ B).
  unfold icn6211_reset. cbn [i_deref]. irun.
  rewrite !moved_emit. unfold icn6211_bridge_init. irun. rewrite moved_setting, moved_num.
  rewrite (b_setting _ _ _ B), (b_num _ _ _ B). unfold icn_init_table, zlen. rewrite Nat2Z.id.
  rewrite bind_unfold, table_loop_spec with (p := p) by (by apply bound_moved || done).
  rewrite moved_moved, drop_0, Nat.add_0_r. by rewrite <- !app_assoc.
Qed.

End ChipFacts.

(** What a resume ([on]) and a suspend do to the hardware. *)
Definition cycle_effects (p : icn6211_platform_data) (cmds : list device_init_sig_cmd) (on : bool)
  : list ieffect :=
  if on then power_on p ++ reset_pulse p ++ programming cmds else power_down p.

(** ** Binding *)

(** A board on which every call works; a class whose name is taken is refused. *)
Record good_board `{IcnKernel} : Prop := {
  g_functionality : forall t, ik_functionality t = true;
  g_of_node : ik_of_node = true;
  g_alloc : forall t, ik_alloc t = true;
  g_class_new : forall t, ik_class_register t false = 0;
  g_class_taken : forall t, ik_class_register t true <> 0;
  g_tx_len : ik_tx_len = inr 2
}.

Definition pins `{IcnKernel} : icn6211_platform_data :=
  mkPdata (ik_gpio (str "icn,reset-gpio")) (ik_gpio (str "icn,pw-en-gpio"))
    (ik_gpio (str "icn,pw-enp-gpio")) 2.

Definition requests (p : icn6211_platform_data) : list ieffect :=
  [GpioRequest (icn6211_power_en p); GpioRequest (icn6211_power_enp p); GpioRequest (icn6211_reset_gpio p)].

(** The state after the device tree was read. *)
Definition parsed `{IcnKernel} (cmds : list device_init_sig_cmd) (first : list Z) (w w' : iworld) : Prop :=
  bound pins cmds w' /\ init_cmd_text w' = Some first /\ class_registered w' = class_registered w /\
  g_rgb_continue_splash_display w' = ik_splash /\ iw_trace w' = iw_trace w ++ requests pins.

Section BindFacts.
Context `{IcnKernel}.
Hypothesis board : good_board.
Hypothesis hex : reads_hex.

Lemma first_field f fs : ~ 44 ∈ f -> fst (cut_at 44 (commas (f :: fs))) = f.
Proof.
  intros Hf. destruct fs as [|g fs]; cbn [commas]; [by rewrite cut_at_none|by rewrite cut_at_app].
Qed.

Lemma icn_parse_dt_spec f fs cmds p0 w :
  icn6211_pdata w = Live p0 -> init_cmd_text w = Some (commas (f :: fs)) -> text_of (f :: fs) cmds ->
  exists w', icn6211_parse_dt w = Ret 0 w' /\ parsed cmds f w w'.
Proof.
  intros Hp Ht Hx. unfold icn6211_parse_dt. irun. rewrite Hp. cbn [i_deref]. irun.
  rewrite (g_tx_len board). irun. cbn [init_cmd_text i_emit set_pdata set_splash]. rewrite Ht.
  rewrite bind_unfold.
  match goal with |- context [prase_one_cmd_one_data _ ?w1] => set (w1' := w1) end.
  destruct (text_parsed (f :: fs) cmds w1' Hx hex (g_alloc board _)) as [t ->].
  eexists. split; [reflexivity|]. destruct Hx as (_ & Hf & Hc & _). apply Forall_cons in Hf as [Hf _].
  rewrite first_field by done. subst w1'. split; [constructor; done|]. split_and!; [done..|].
  cbn. by rewrite <- !app_assoc.
Qed.

(** Binding the driver for the first time. *)
Lemma icn_probe_spec f fs cmds w :
  init_cmd_text w = Some (commas (f :: fs)) -> text_of (f :: fs) cmds -> class_registered w = false ->
  exists w', icn6211_probe w = Ret 0 w' /\ bound pins cmds w' /\ init_cmd_text w' = Some f /\
    class_registered w' = true /\ icn6211_class w' = Live tt /\
    iw_trace w' = iw_trace w ++ requests pins ++ (if ik_splash then [] else cycle_effects pins cmds true).
Proof.
  intros Ht Hx Hc. unfold icn6211_probe. irun. rewrite (g_functionality board). cbn [negb]. irun.
  rewrite (g_alloc board), (g_of_node board).
  destruct (icn_parse_dt_spec f fs cmds (mkPdata 0 0 0 0) (set_pdata (Live (mkPdata 0 0 0 0)) (i_tick (i_tick (set_client w))))
    eq_refl Ht Hx) as (w1 & E1 & B1 & T1 & R1 & S1 & L1).
  rewrite (bind_Ret _ _ _ _ _ E1). cbn [Z.eqb negb]. irun. cbn [class_registered i_tick]. rewrite R1.
  cbn [class_registered set_pdata i_tick set_client]. rewrite Hc, (g_alloc board).
  cbn [icn6211_class set_class i_deref]. irun. rewrite (g_class_new board). cbn [Z.eqb negb]. irun.
  cbn [g_rgb_continue_splash_display set_class i_tick]. rewrite S1. cbn [iw_trace set_pdata i_tick set_client] in L1.
  set (w2 := set_class (Live tt) true _).
  assert (bound pins cmds w2) as B2 by (destruct B1; constructor; done).
  destruct ik_splash.
  - exists w2. split_and!; [done..|]. by rewrite app_nil_r.
  - pose proof (resume_spec pins cmds w2 B2) as E. unfold icn6211_resume in E. rewrite bind_i_gets in E.
    irun. rewrite bind_unfold in E |- *.
    destruct (icn6211_poweron (icn6211_pdata w2) w2) as [rc w3|?|?] eqn:Ep; [|done..].
    assert (rc = 0) as ->.
    { rewrite (b_pdata _ _ _ B2) in Ep. unfold icn6211_poweron in Ep. cbn [i_deref] in Ep.
      by injection Ep as <- _. }
    cbn [Z.ltb Z.compare]. rewrite E. eexists. split; [reflexivity|].
    split_and!; [by apply bound_moved|unfold moved; rewrite iter_tick; try done..].
    cbn. by rewrite L1, <- !app_assoc.
Qed.

End BindFacts.

(** ** Claims *)

(** What the display driver asks the bridge for. *)
Fixpoint display_cycles `{IcnKernel} (ops : list bool) : prog iworld unit :=
  match ops with
  | [] => ret tt
  | on :: ops' => do* (if on : bool then icn6211_resume else icn6211_suspend); display_cycles ops'
  end.

(** The register text.  Whatever other fields the text has between its
    commas, the driver makes of it exactly the commands that were written
    there, in order; and when the text holds an odd number of values, each
    written with a single [0x], the last one is stored behind the end of the
    table. *)
Theorem init_text_roundtrip `{IcnKernel} fs cmds w :
  text_of fs cmds -> reads_hex -> ik_alloc (iw_time w) = true ->
  (exists w', prase_one_cmd_one_data (commas fs) w = Ret tt w' /\
     icn6211_cmd_num w' = zlen cmds /\ icn6211_init_setting w' = Live cmds) /\
  (forall text, occurrences text = length (numbers text) -> Nat.odd (length (numbers text)) = true ->
     exists w', prase_one_cmd_one_data text w = Fault OutOfBounds w').
Proof.
  intros Ht Hr Ha. split.
  - destruct (text_parsed fs cmds w Ht Hr Ha) as [t ->]. by eexists.
  - intros text Eo Hodd. rewrite parse_spec, Eo by done.
    apply Nat.odd_spec in Hodd as [k ->]. destruct (_ <=? _)%nat eqn:E; [|by eexists].
    apply Nat.leb_le in E. rewrite (Nat.mul_comm 2 k), Nat.div_add_l in E by lia. cbn in E. lia.
Qed.

(** Suspend and resume.  Over any sequence of suspends and resumes of a
    bound driver, each resume powers the bridge, pulses its reset line and
    sends every command of the table in order, with a pause after each; each
    suspend takes both supplies away; none of them can fail, whatever the I2C
    transfers return. *)
Theorem resume_programs_bridge `{IcnKernel} p cmds ops w :
  bound p cmds w ->
  exists w', display_cycles ops w = Ret tt w' /\ bound p cmds w' /\
    iw_trace w' = iw_trace w ++ concat (map (cycle_effects p cmds) ops).
Proof.
  revert w. induction ops as [|on ops IH]; intros w B.
  - exists w. cbn. by rewrite app_nil_r.
  - set (n := if on then length cmds else 0%nat).
    assert ((if on then icn6211_resume else icn6211_suspend) w =
      Ret 0 (moved n (cycle_effects p cmds on) w)) as E
      by (destruct on; [by apply resume_spec|by eapply suspend_spec]).
    destruct (IH (moved n (cycle_effects p cmds on) w)) as (w' & E' & B' & T);
      [by apply bound_moved|].
    exists w'. cbn [display_cycles]. rewrite (bind_Ret _ _ _ _ _ E). split_and!; [done|done|].
    rewrite T. unfold moved at 1. rewrite iter_tick. cbn. by rewrite <- app_assoc.
Qed.

(** Unbinding leaves pointers to freed memory behind. *)
Lemma release_spec `{IcnKernel} p cmds w :
  bound p cmds w -> icn6211_class w = Live tt ->
  exists w', icn6211_release w = Ret 0 w' /\ icn6211_pdata w' = Dangling /\
    init_cmd_text w' = init_cmd_text w /\ class_registered w' = class_registered w /\
    iw_trace w' = iw_trace w.
Proof.
  intros B Hc. unfold icn6211_release. rewrite bind_get, (b_setting _ _ _ B), Hc, (b_pdata _ _ _ B).
  cbn [freed]. irun. by eexists.
Qed.

(** The text of one field without a number holds no command. *)
Lemma text_of_nothing f : ~ 44 ∈ f -> occurrences f = 0%nat -> text_of [f] [].
Proof.
  intros Hf Ho. split_and!; [done|by apply Forall_singleton|constructor|].
  rewrite filter_cons, decide_False by lia. done.
Qed.

(** Unbinding and binding again.  After the driver was unbound its
    attribute files are still there, and a write to one, a resume or a suspend
    uses freed memory.  Reading the text has put a NUL over its first comma:
    binding again finds only the first field.  When that field is a value it
    is stored behind an empty table; when it is none, as on this board, whose
    text begins with a comma, the name of the class is already taken, the
    probe fails, and from then on a resume sends no command at all. *)
Theorem rebind_loses_commands `{IcnKernel} f fs cmds w :
  good_board -> reads_hex ->
  init_cmd_text w = Some (commas (f :: fs)) -> text_of (f :: fs) cmds -> class_registered w = false ->
  exists w1 w2, icn6211_probe w = Ret 0 w1 /\ bound pins cmds w1 /\ icn6211_release w1 = Ret 0 w2 /\
    class_registered w2 = true /\
    icn6211_resume w2 = Fault UseAfterFree w2 /\ icn6211_suspend w2 = Fault UseAfterFree w2 /\
    en_bridge_store (str "on") 2 w2 = Fault UseAfterFree w2 /\
    (occurrences f = 0%nat -> exists rc w3 w4, icn6211_probe w2 = Ret rc w3 /\ rc <> 0 /\
       icn6211_resume w3 = Ret 0 w4 /\
       iw_trace w4 = iw_trace w3 ++ power_on pins ++ reset_pulse pins) /\
    (occurrences f = 1%nat -> exists w3, icn6211_probe w2 = Fault OutOfBounds w3).
Proof.
  intros board hex Ht Hx Hc.
  destruct (icn_probe_spec board hex f fs cmds w Ht Hx Hc) as (w1 & E1 & B1 & T1 & R1 & C1 & _).
  destruct (release_spec pins cmds w1 B1 C1) as (w2 & E2 & D2 & T2 & R2 & _).
  exists w1, w2. rewrite T1 in T2. rewrite R1 in R2.
  assert (~ 44 ∈ f) as Hf by (destruct Hx as (_ & Hf & _); by apply Forall_cons in Hf as [? _]).
  split_and!; [done..| | | | |].
  - unfold icn6211_resume, icn6211_poweron. by rewrite bind_i_gets, D2.
  - unfold icn6211_suspend, icn6211_power_off. by rewrite bind_i_gets, D2.
  - unfold en_bridge_store. by rewrite bind_i_gets, D2.
  - intros Ho. unfold icn6211_probe. irun. rewrite (g_functionality board). cbn [negb]. irun.
    rewrite (g_alloc board), (g_of_node board).
    destruct (icn_parse_dt_spec board hex f [] [] (mkPdata 0 0 0 0)
      (set_pdata (Live (mkPdata 0 0 0 0)) (i_tick (i_tick (set_client w2))))
      eq_refl T2 (text_of_nothing f Hf Ho)) as (w3 & E3 & B3 & _ & R3 & _).
    rewrite (bind_Ret _ _ _ _ _ E3). cbn [Z.eqb negb]. irun. cbn [class_registered i_tick]. rewrite R3.
    cbn [class_registered set_pdata i_tick set_client]. rewrite R2, (g_alloc board).
    cbn [icn6211_class set_class i_deref]. irun.
    set (rc := ik_class_register _ true).
    assert (rc <> 0) as Hrc by apply (g_class_taken board).
    destruct (rc =? 0) eqn:E; bool_cases; [done|]. cbn [negb]. irun.
    set (w4 := set_class Null true _). exists rc, w4.
    assert (bound pins [] w4) as B4 by (destruct B3; constructor; done).
    eexists. split_and!; [done|done|apply (resume_spec pins [] w4 B4)|].
    unfold moved. rewrite iter_tick. cbn. done.
  - intros Ho. unfold icn6211_probe. irun. rewrite (g_functionality board). cbn [negb]. irun.
    rewrite (g_alloc board), (g_of_node board). rewrite bind_unfold. unfold icn6211_parse_dt. irun.
    cbn [icn6211_pdata set_pdata i_deref]. irun. rewrite (g_tx_len board). irun.
    cbn [init_cmd_text i_emit set_pdata set_splash i_tick set_client]. rewrite T2.
    rewrite bind_unfold, parse_spec by apply (g_alloc board).
    assert (length (numbers f) = 1%nat) as En.
    { rewrite (numbers_cut _ _ _ (cut_at_none _ _ Hf)), decide_True by lia. done. }
    rewrite Ho, En. cbn. by eexists.
Qed.

(** ** The board *)

Module IcnDemo.

(** The text of [x300.dtsi] for four lanes: every pair on a line of its own,
    four tabs between the pairs. *)
Definition commands : list device_init_sig_cmd :=
  [mkCmd 0x20 0x20; mkCmd 0x21 0xE0; mkCmd 0x22 0x13; mkCmd 0x23 0xD4; mkCmd 0x24 0x04; mkCmd 0x25 0x2C;
   mkCmd 0x26 0x00; mkCmd 0x27 0xD8; mkCmd 0x28 0x05; mkCmd 0x29 0x17; mkCmd 0x34 0x80; mkCmd 0x36 0xD4;
   mkCmd 0xB5 0xA0; mkCmd 0x5C 0xFF; mkCmd 0x2A 0x01; mkCmd 0x56 0x90; mkCmd 0x6B 0x51; mkCmd 0x69 0x1D;
   mkCmd 0x10 0x05; mkCmd 0x11 0x98; mkCmd 0xB6 0x20; mkCmd 0x51 0x20; mkCmd 0x09 0x10].

Definition board_fields : list (list Z) :=
  tail (concat (map (fun c => [replicate 4 9; hex_byte (address c); hex_byte (data c)]) commands)).

(** [simple_strtoul] with base 16, as far as a number without overflow goes. *)
Definition digit (c : Z) : option Z :=
  if (48 <=? c) && (c <=? 57) then Some (c - 48)
  else if (65 <=? c) && (c <=? 70) then Some (c - 55)
  else if (97 <=? c) && (c <=? 102) then Some (c - 87) else None.
Fixpoint digits (acc : Z) (s : list Z) : Z :=
  match s with
  | c :: s' => match digit c with Some d => digits (acc * 16 + d) s' | None => acc end
  | [] => acc
  end.
Definition strtoul16 (s : list Z) : Z :=
  digits 0 (if decide (take 2 s = HEX) then drop 2 s else s).

#[refine] Instance kernel : IcnKernel := {
  ik_functionality t := true; ik_of_node := true;
  ik_gpio name := if decide (name = str "icn,reset-gpio") then 927
                  else if decide (name = str "icn,pw-en-gpio") then 902 else 926;
  ik_splash := true; ik_tx_len := inr 2; ik_no_string := -22; ik_no_string_error := _;
  ik_alloc t := true; ik_class_register t taken := if taken then -17 else 0;
  ik_i2c_send t b := zlen b; ik_strtoul16 := strtoul16
}.
Proof. lia. Defined.

Lemma kernel_good : good_board.
Proof. by constructor. Qed.

Lemma kernel_hex : reads_hex.
Proof.
  assert (Forall (fun v => strtoul16 (hex_byte v) = v) (seqZ 0 256)) as F
    by (apply (bool_decide_unpack _); by vm_compute).
  intros v Hv. apply (proj1 (Forall_forall _ _) F). apply elem_of_seqZ. exact Hv.
Qed.

Lemma board_text : text_of ([] :: board_fields) commands.
Proof.
  split_and!; [done|apply (bool_decide_unpack _); by vm_compute| |vm_compute; reflexivity].
  repeat constructor; cbn; lia.
Qed.

Definition booted : iworld := mkI 0 0 Null false Null Null false (Some (commas ([] :: board_fields))) false [].

Lemma init_text_roundtrip_witness :
  match prase_one_cmd_one_data (commas ([] :: board_fields)) booted with
  | Ret _ w => icn6211_cmd_num w = 23 /\ icn6211_init_setting w = Live commands
  | _ => False
  end.
Proof.
  destruct (init_text_roundtrip ([] :: board_fields) commands booted board_text kernel_hex eq_refl)
    as [(w' & E & En & Es) _]. rewrite E. split; [exact En|exact Es].
Defined.

Definition bound_world : iworld := match icn6211_probe booted with Ret _ w => w | _ => booted end.

Lemma bound_ok : bound pins commands bound_world.
Proof.
  destruct (icn_probe_spec kernel_good kernel_hex [] board_fields commands booted eq_refl board_text eq_refl)
    as (w' & E & B & _). unfold bound_world. by rewrite E.
Qed.

Lemma resume_programs_bridge_witness :
  exists w', display_cycles [false; true] bound_world = Ret tt w' /\
    iw_trace w' = iw_trace bound_world ++ power_down pins ++ power_on pins ++ reset_pulse pins ++
      programming commands.
Proof.
  destruct (resume_programs_bridge pins commands [false; true] bound_world bound_ok) as (w' & E & _ & T).
  exists w'. split; [exact E|]. rewrite T. cbn [map concat cycle_effects].
  by rewrite app_nil_r.
Defined.

(** On this board: after an unbind and a failed bind the panel stays dark. *)
Lemma rebind_loses_commands_witness :
  exists w1 w2 rc w3 w4, icn6211_probe booted = Ret 0 w1 /\ icn6211_release w1 = Ret 0 w2 /\
    icn6211_probe w2 = Ret rc w3 /\ rc <> 0 /\ icn6211_resume w3 = Ret 0 w4 /\
    iw_trace w4 = iw_trace w3 ++ power_on pins ++ reset_pulse pins.
Proof.
  destruct (rebind_loses_commands [] board_fields commands booted kernel_good kernel_hex eq_refl
    board_text eq_refl) as (w1 & w2 & E1 & _ & E2 & _ & _ & _ & _ & K & _).
  destruct (K eq_refl) as (rc & w3 & w4 & E3 & Hrc & E4 & T).
  exists w1, w2, rc, w3, w4. by split_and!.
Defined.

End IcnDemo.
