(* ===== verification/GoodixTool.v ===== *)
(** * The debug interface of the touch screen

    [kernel/drivers/input/touchscreen/gt9xx/goodix_tool.c], with the interrupt
    switches of [gt9xx.c] that it calls: a /proc file through which any program
    reads and writes the registers of the touch controller.  A write carries a
    20-byte head with a command, lengths and addresses, and the data. *)

From stdpp Require Import base list numbers strings.
From Stdlib Require Import ZArith Lia.
From S2P Require Import Prelude Text Kernel.
Open Scope Z_scope.

Definition DATA_LENGTH_UINT : Z := 512.
Definition CMD_HEAD_LENGTH : Z := 20.
Definition GTP_ADDR_LENGTH : Z := 2.
Definition FAIL : Z := 0.
Definition SUCCESS : Z := 1.
Definition EPERM : Z := 1.
Definition GTP_DRIVER_VERSION : list Z := str "V2.4<2014/11/28>".

(** ** State *)

(** Which pair of transfer functions is registered. *)
Inductive i2c_func := Unregistered | NoExtra | WithExtra.

Inductive geffect :=
  | GWrite (b : list Z)                 (* i2c_transfer of one message *)
  | GRead (addr : list Z) (len : Z)     (* i2c_transfer: address, then read *)
  | GMsleep (ms : Z)
  | DisableIrq | EnableIrq
  | EnterUpdate | LeaveUpdate | UpdateProc (dir : list Z).

(** [cmd_head] is kept as the 20 bytes of its packed layout and the pointer
    [data]; the driver's own state is the interrupt flag and the raw mode. *)
Record tool := mkTool {
  t_time : nat;
  t_head : list Z;
  t_data : option (list Z);
  t_DATA_LENGTH : Z;
  t_IC_TYPE : list Z;
  t_func : i2c_func;
  t_proc : bool;
  irq_is_disable : Z;
  gtp_rawdiff_mode : bool;
  show_len : Z;
  total_len : Z;
  t_trace : list geffect
}.

Definition byte_at (h : list Z) (i : nat) : Z := default 0 (h !! i).
Definition half_at (h : list Z) (i : nat) : Z := byte_at h i + 256 * byte_at h (S i).

(** The members of [st_cmd_head]. *)
Definition wr (h : list Z) : Z := byte_at h 0.
Definition flag (h : list Z) : Z := byte_at h 1.
Definition flag_val (h : list Z) : Z := byte_at h 4.
Definition flag_relation (h : list Z) : Z := byte_at h 5.
Definition circle (h : list Z) : Z := half_at h 6.
Definition times (h : list Z) : Z := byte_at h 8.
Definition retry (h : list Z) : Z := byte_at h 9.
Definition delay (h : list Z) : Z := half_at h 10.
Definition data_len (h : list Z) : Z := half_at h 12.
Definition addr_len (h : list Z) : Z := byte_at h 14.
Definition addr (h : list Z) : list Z := take 2 (drop 15 h).

(** The bus, the allocator, /proc, and what the interface calls in
    [gt9xx_update.c].  That file has a model of its own: there
    [gup_enter_update_mode] returns SUCCESS or FAIL whatever the chip answers
    ([GtFlash.enter_mode_walks]), [gup_leave_update_mode] returns, and
    [gup_update_proc] returns SUCCESS or FAIL, waits for a chip that does not end
    a burn command, or runs past a product identifier without end
    ([GtLive.update_restores]).  Here their results are arbitrary numbers: what
    the theorems below say of command 15 is said of updates that return. *)
Class GtKernel := {
  gk_alloc : nat -> Z -> bool;
  gk_xfer : nat -> Z;                            (* result of i2c_transfer *)
  gk_device : nat -> list Z -> Z -> list Z;      (* what a read stores *)
  gk_device_len : forall t a n, 0 <= n -> zlen (gk_device t a n) = n;
  gk_proc : nat -> bool;
  gk_enter_update : nat -> Z;
  gk_update_proc : nat -> list Z -> Z
}.

Definition t_tick (s : tool) : tool :=
  mkTool (S (t_time s)) (t_head s) (t_data s) (t_DATA_LENGTH s) (t_IC_TYPE s) (t_func s) (t_proc s)
    (irq_is_disable s) (gtp_rawdiff_mode s) (show_len s) (total_len s) (t_trace s).
Definition t_emit (e : geffect) (s : tool) : tool :=
  mkTool (t_time s) (t_head s) (t_data s) (t_DATA_LENGTH s) (t_IC_TYPE s) (t_func s) (t_proc s)
    (irq_is_disable s) (gtp_rawdiff_mode s) (show_len s) (total_len s) (t_trace s ++ [e]).
Definition set_head (h : list Z) (s : tool) : tool :=
  mkTool (t_time s) h (t_data s) (t_DATA_LENGTH s) (t_IC_TYPE s) (t_func s) (t_proc s)
    (irq_is_disable s) (gtp_rawdiff_mode s) (show_len s) (total_len s) (t_trace s).
Definition set_data (d : option (list Z)) (s : tool) : tool :=
  mkTool (t_time s) (t_head s) d (t_DATA_LENGTH s) (t_IC_TYPE s) (t_func s) (t_proc s)
    (irq_is_disable s) (gtp_rawdiff_mode s) (show_len s) (total_len s) (t_trace s).
Definition set_DATA_LENGTH (n : Z) (s : tool) : tool :=
  mkTool (t_time s) (t_head s) (t_data s) n (t_IC_TYPE s) (t_func s) (t_proc s)
    (irq_is_disable s) (gtp_rawdiff_mode s) (show_len s) (total_len s) (t_trace s).
Definition set_IC_TYPE (ic : list Z) (s : tool) : tool :=
  mkTool (t_time s) (t_head s) (t_data s) (t_DATA_LENGTH s) ic (t_func s) (t_proc s)
    (irq_is_disable s) (gtp_rawdiff_mode s) (show_len s) (total_len s) (t_trace s).
Definition set_func (f : i2c_func) (s : tool) : tool :=
  mkTool (t_time s) (t_head s) (t_data s) (t_DATA_LENGTH s) (t_IC_TYPE s) f (t_proc s)
    (irq_is_disable s) (gtp_rawdiff_mode s) (show_len s) (total_len s) (t_trace s).
Definition set_proc (b : bool) (s : tool) : tool :=
  mkTool (t_time s) (t_head s) (t_data s) (t_DATA_LENGTH s) (t_IC_TYPE s) (t_func s) b
    (irq_is_disable s) (gtp_rawdiff_mode s) (show_len s) (total_len s) (t_trace s).
Definition set_irq (n : Z) (s : tool) : tool :=
  mkTool (t_time s) (t_head s) (t_data s) (t_DATA_LENGTH s) (t_IC_TYPE s) (t_func s) (t_proc s)
    n (gtp_rawdiff_mode s) (show_len s) (total_len s) (t_trace s).
Definition set_rawdiff (b : bool) (s : tool) : tool :=
  mkTool (t_time s) (t_head s) (t_data s) (t_DATA_LENGTH s) (t_IC_TYPE s) (t_func s) (t_proc s)
    (irq_is_disable s) b (show_len s) (total_len s) (t_trace s).
Definition set_progress (a b : Z) (s : tool) : tool :=
  mkTool (t_time s) (t_head s) (t_data s) (t_DATA_LENGTH s) (t_IC_TYPE s) (t_func s) (t_proc s)
    (irq_is_disable s) (gtp_rawdiff_mode s) a b (t_trace s).

(** ** The name of the file *)

Definition months : list (list Z) :=
  map str ["Jan"; "Feb"; "Mar"; "Apr"; "May"; "Jun"; "Jul"; "Aug"; "Sep"; "Oct"; "Nov"; "Dec"]%string.

(** The index of the first month whose three letters [month] begins with. *)
Fixpoint month_loop (ms : list (list Z)) (month : list Z) (i : Z) : Z :=
  match ms with
  | [] => 1
  | m :: ms' => if bool_decide (take 3 month = m) then i + 1 else month_loop ms' month (i + 1)
  end.

Definition zero_pad (n : nat) (s : list Z) : list Z := replicate (n - length s) 48 ++ s.

(** [tool_set_proc_name] of the compilation date. *)
Definition tool_set_proc_name (date : list Z) : list Z :=
  match words 32 date with
  | month :: day :: year :: _ =>
      str "gmnode" ++ zero_pad 4 (decimal (strtol10 year)) ++
      zero_pad 2 (decimal (month_loop months month 0)) ++ zero_pad 2 (decimal (strtol10 day))
  | _ => str "gmnode"
  end.

Section Tool.
Context `{GtKernel}.

Definition t_ask {A} (f : nat -> A) : prog tool A := fun s => Ret (f (t_time s)) (t_tick s).
Definition t_gets {A} (f : tool -> A) : prog tool A := fun s => Ret (f s) s.
Definition t_do (e : geffect) : prog tool unit := modify (t_emit e).

(** ** Transfers *)

(** [for (i = 0; i < retry; i++) { ret = ...; if (ret > 0) break; }] *)
Fixpoint write_loop (n : nat) (last : Z) (buf : list Z) : prog tool Z :=
  match n with
  | O => ret last
  | S n' =>
      do* t_do (GWrite buf);
      let* r := t_ask gk_xfer in
      if 0 <? r then ret r else write_loop n' r buf
  end.

(** [len] bytes of [buf]. *)
Definition tool_i2c_write_no_extra (buf : list Z) (len : Z) : prog tool Z :=
  let* h := t_gets t_head in
  let* b := lift OutOfBounds (range buf 0 (u16 len)) in
  write_loop (Z.to_nat (retry h)) (-1) b.

(** The result and the buffer: the address is its first [addr_len] bytes, the
    data is stored from [GTP_ADDR_LENGTH] on, whatever the result. *)
Fixpoint read_loop (n : nat) (last : Z) (buf : list Z) (alen len : Z) : prog tool (Z * list Z) :=
  match n with
  | O => ret (last, buf)
  | S n' =>
      let* a := lift OutOfBounds (range buf 0 alen) in
      do* t_do (GRead a len);
      let* d := t_ask (fun t => gk_device t a len) in
      let* buf := lift OutOfBounds (memcpy buf GTP_ADDR_LENGTH d 0 len) in
      let* r := t_ask gk_xfer in
      if 0 <? r then ret (r, buf) else read_loop n' r buf alen len
  end.

Definition tool_i2c_read_no_extra (buf : list Z) (len : Z) : prog tool (Z * list Z) :=
  let* h := t_gets t_head in
  read_loop (Z.to_nat (retry h)) (-1) buf (addr_len h) (u16 len).

Definition pre : list Z := [15; 255].
Definition end_ : list Z := [128; 0].

Definition tool_i2c_read_with_extra (buf : list Z) (len : Z) : prog tool (Z * list Z) :=
  do* tool_i2c_write_no_extra pre 2;
  let* r := tool_i2c_read_no_extra buf len in
  do* tool_i2c_write_no_extra end_ 2;
  ret r.

Definition tool_i2c_write_with_extra (buf : list Z) (len : Z) : prog tool Z :=
  do* tool_i2c_write_no_extra pre 2;
  let* r := tool_i2c_write_no_extra buf len in
  do* tool_i2c_write_no_extra end_ 2;
  ret r.

Definition tool_i2c_read (buf : list Z) (len : Z) : prog tool (Z * list Z) :=
  let* f := t_gets t_func in
  match f with
  | Unregistered => fault_with NullDeref
  | NoExtra => tool_i2c_read_no_extra buf len
  | WithExtra => tool_i2c_read_with_extra buf len
  end.

Definition tool_i2c_write (buf : list Z) (len : Z) : prog tool Z :=
  let* f := t_gets t_func in
  match f with
  | Unregistered => fault_with NullDeref
  | NoExtra => tool_i2c_write_no_extra buf len
  | WithExtra => tool_i2c_write_with_extra buf len
  end.

(** The types whose transfers need no framing; [strncmp] looks at the length of
    the name. *)
Definition plain_types : list (list Z) :=
  map str ["GT8110"; "GT8105"; "GT801"; "GT800"; "GT801PLUS"; "GT811"; "GTxxx"; "GT9XX"]%string.

Definition register_i2c_func : prog tool unit :=
  let* ic := t_gets t_IC_TYPE in
  let plain := existsb (fun s => bool_decide (take (length s) ic = s)) plain_types in
  modify (set_func (if plain then NoExtra else WithExtra)).

Definition unregister_i2c_func : prog tool unit := modify (set_func Unregistered).

(** ** Start and end *)

(** [while ((!cmd_head.data) && i) ...] from [i] down. *)
Fixpoint alloc_loop (i : nat) : prog tool nat :=
  match i with
  | O => ret O
  | S i' =>
      let* ok := t_ask (fun t => gk_alloc t (Z.of_nat i * DATA_LENGTH_UINT)) in
      if ok : bool then
        do* modify (set_data (Some (replicate (Z.to_nat (Z.of_nat i * DATA_LENGTH_UINT)) 0)));
        ret i
      else alloc_loop i'
  end.

Definition put_byte (i : nat) (v : Z) : prog tool unit := modify (fun s => set_head (<[i := v]> (t_head s)) s).

Definition init_wr_node : prog tool Z :=
  do* modify (set_head (replicate (Z.to_nat CMD_HEAD_LENGTH) 0));
  do* modify (set_data None);
  let* i := alloc_loop 5 in
  if (i =? 0)%nat then ret FAIL
  else
    do* modify (set_DATA_LENGTH (Z.of_nat i * DATA_LENGTH_UINT + GTP_ADDR_LENGTH));
    do* put_byte 14 2;
    do* put_byte 9 5;
    do* register_i2c_func;
    let* ok := t_ask gk_proc in
    if negb ok then ret FAIL
    else do* modify (set_proc true); ret SUCCESS.

Definition uninit_wr_node : prog tool unit :=
  do* modify (set_data None);
  do* unregister_i2c_func;
  modify (set_proc false).

(** ** The flag *)

Definition relation (src dst rlt : Z) : bool :=
  if rlt =? 0 then negb (src =? dst)
  else if rlt =? 1 then src =? dst
  else if rlt =? 2 then dst <? src
  else if rlt =? 3 then src <? dst
  else if rlt =? 4 then negb (Z.land src dst =? 0)
  else if rlt =? 5 then Z.lor src dst =? 0
  else false.

(** The loop of [comfirm], [n] turns from the end. *)
Fixpoint comfirm_loop (n : nat) (buf : list Z) : prog tool Z :=
  match n with
  | O => ret FAIL
  | S n' =>
      let* r := tool_i2c_read buf 1 in
      if fst r <=? 0 then ret FAIL
      else
        let* h := t_gets t_head in
        let* v := lift OutOfBounds (snd r !! Z.to_nat GTP_ADDR_LENGTH) in
        if relation v (flag_val h) (flag_relation h) then ret SUCCESS
        else do* t_do (GMsleep (circle h)); comfirm_loop n' (snd r)
  end.

(** [stack] is what the 32 bytes of [buf] held before; a copy that runs past
    the 20 bytes of the head, into the pointer, counts as out of bounds. *)
Definition comfirm (stack : list Z) : prog tool Z :=
  let* h := t_gets t_head in
  let* buf := lift OutOfBounds (memcpy stack 0 h 2 (addr_len h)) in
  comfirm_loop (Z.to_nat (times h)) buf.

(** ** Interrupts ([gt9xx.c]) *)

Definition gtp_irq_disable : prog tool unit :=
  let* n := t_gets irq_is_disable in
  if n =? 0 then do* modify (set_irq 1); t_do DisableIrq else ret tt.

Definition gtp_irq_enable : prog tool unit :=
  let* n := t_gets irq_is_disable in
  if negb (n =? 0) then do* t_do EnableIrq; modify (set_irq 0) else ret tt.

(** ** The file *)

(** [copy_from_user]: how many bytes could not be read, and the bytes, zeros
    for those. *)
Definition copy_from_user (user : list Z) (off n : Z) : Z * list Z :=
  let got := take (Z.to_nat n) (drop (Z.to_nat off) user) in
  (n - zlen got, got ++ replicate (Z.to_nat (n - zlen got)) 0).

(** [copy_from_user(&cmd_head.data[at], &buff[CMD_HEAD_LENGTH], cmd_head.data_len)]:
    whether it worked. *)
Definition copy_data (user : list Z) (at_ : Z) : prog tool bool :=
  let* h := t_gets t_head in
  let* p := t_gets t_data in
  let* d := lift NullDeref p in
  let '(missed, b) := copy_from_user user CMD_HEAD_LENGTH (data_len h) in
  let* d := lift OutOfBounds (memcpy d at_ b 0 (data_len h)) in
  do* modify (set_data (Some d));
  ret (missed =? 0).

Definition write_register (user stack : list Z) (len : Z) : prog tool Z :=
  let* ok := copy_data user GTP_ADDR_LENGTH in
  if negb ok then ret (- EPERM)
  else
    let* h := t_gets t_head in
    let* p := t_gets t_data in
    let* d := lift NullDeref p in
    let start := GTP_ADDR_LENGTH - addr_len h in
    let* d := lift OutOfBounds (memcpy d start (addr h) 0 (addr_len h)) in
    do* modify (set_data (Some d));
    let* c := (if flag h =? 1 then comfirm stack else ret SUCCESS) in
    if c =? FAIL then ret (- EPERM)
    else
      let* r := tool_i2c_write (drop (Z.to_nat start) d) (data_len h + addr_len h) in
      if r <=? 0 then ret (- EPERM)
      else
        do* (if negb (delay h =? 0) then t_do (GMsleep (delay h)) else ret tt);
        ret len.

Definition write_type (user : list Z) (len : Z) : prog tool Z :=
  let* ok := copy_data user 0 in
  if negb ok then ret (- EPERM)
  else
    let* h := t_gets t_head in
    let* p := t_gets t_data in
    let* d := lift NullDeref p in
    let* ic := t_gets t_IC_TYPE in
    let* ic := lift OutOfBounds (memcpy ic 0 d 0 (data_len h)) in
    do* modify (set_IC_TYPE ic);
    do* register_i2c_func;
    ret len.

Definition write_rawdiff (user : list Z) (len : Z) : prog tool Z :=
  let* ok := copy_data user GTP_ADDR_LENGTH in
  if negb ok then ret (- EPERM)
  else
    let* p := t_gets t_data in
    let* d := lift NullDeref p in
    let* v := lift OutOfBounds (d !! Z.to_nat GTP_ADDR_LENGTH) in
    do* modify (set_rawdiff (negb (v =? 0)));
    ret len.

(** The update command copies from user space with a plain [memcpy]. *)
Definition write_update (user : list Z) (len : Z) : prog tool Z :=
  let* h := t_gets t_head in
  do* modify (set_progress 0 0);
  let* p := t_gets t_data in
  let* d := lift NullDeref p in
  let* d := lift OutOfBounds (memcpy d 0 (replicate (Z.to_nat (data_len h + 1)) 0) 0 (data_len h + 1)) in
  let* d := lift OutOfBounds (memcpy d 0 user CMD_HEAD_LENGTH (data_len h)) in
  do* modify (set_data (Some d));
  do* t_do (UpdateProc d);
  let* r := t_ask (fun t => gk_update_proc t d) in
  if r =? FAIL then ret (- EPERM) else ret len.

(** [goodix_tool_write]; [user] is what can be read from [buff] on, [len] the
    length the caller gave. *)
Definition goodix_tool_write (user stack : list Z) (len : Z) : prog tool Z :=
  let '(missed, h) := copy_from_user user 0 CMD_HEAD_LENGTH in
  do* modify (set_head h);
  if negb (missed =? 0) then ret (- EPERM)
  else if wr h =? 1 then write_register user stack len
  else if wr h =? 3 then write_type user len
  else if wr h =? 5 then ret len
  else if wr h =? 7 then do* gtp_irq_disable; ret len
  else if wr h =? 9 then do* gtp_irq_enable; ret len
  else if wr h =? 17 then write_rawdiff user len
  else if wr h =? 11 then
    do* t_do EnterUpdate;
    let* r := t_ask gk_enter_update in
    if r =? FAIL then ret (- EPERM) else ret len
  else if wr h =? 13 then do* t_do LeaveUpdate; ret len
  else if wr h =? 15 then write_update user len
  else ret len.

(** [simple_read_from_buffer] into [size] bytes of user space that can be
    written: the result, the bytes copied, the new position. *)
Definition simple_read (size pos : Z) (from : list Z) : Z * list Z * Z :=
  if (zlen from <=? pos) || (size =? 0) then (0, [], pos)
  else
    let n := Z.min size (zlen from - pos) in
    (n, take (Z.to_nat n) (drop (Z.to_nat pos) from), pos + n).

(** A store of [b] at [loc] of the page. *)
Definition page_put (page : list Z) (loc : Z) (b : list Z) : list Z := splice page (Z.to_nat loc) b.

(** The loop of the register read: [togo] bytes to go, [loc] stored;
    [false] when a transfer failed. *)
Fixpoint fetch_loop (fuel : nat) (togo loc size pos : Z) (page : list Z)
  : prog tool (bool * list Z * Z) :=
  match fuel with
  | O => fault_with NoFuel
  | S fuel' =>
      if togo <=? 0 then ret (true, page, pos)
      else
        let* n := t_gets t_DATA_LENGTH in
        let len := u16 (if n <? togo then n else togo) in
        let* p := t_gets t_data in
        let* d := lift NullDeref p in
        let* r := tool_i2c_read d len in
        do* modify (set_data (Some (snd r)));
        if fst r <=? 0 then ret (false, page, pos)
        else
          let* from := lift OutOfBounds (range (snd r) GTP_ADDR_LENGTH len) in
          let '(_, b, pos') := simple_read size pos from in
          fetch_loop fuel' (togo - len) (u16 (loc + len)) size pos' (page_put page loc b)
  end.

(** The address is copied from [addr] on; as in [comfirm], running into the
    pointer counts as out of bounds. *)
Definition read_register (stack page : list Z) (size pos : Z) : prog tool (Z * list Z * Z) :=
  let* h := t_gets t_head in
  let* c := (if flag h =? 1 then comfirm stack else ret SUCCESS) in
  if c =? FAIL then ret (- EPERM, page, pos)
  else
    let* p := t_gets t_data in
    let* d := lift NullDeref p in
    let* d := lift OutOfBounds (memcpy d 0 (drop 15 h) 0 (addr_len h)) in
    do* modify (set_data (Some d));
    do* (if negb (delay h =? 0) then t_do (GMsleep (delay h)) else ret tt);
    let n := if data_len h <? 2 ^ 15 then data_len h else data_len h - 2 ^ 16 in
    let* r := fetch_loop (S (Z.to_nat n)) n 0 size pos page in
    let '(ok, page', pos') := r in
    ret (if ok : bool then data_len h else - EPERM, page', pos').

(** [goodix_tool_read]: the result, the page, the new position. *)
Definition goodix_tool_read (stack page : list Z) (size pos : Z) : prog tool (Z * list Z * Z) :=
  let simple from :=
    let '(r, b, pos') := simple_read size pos from in ret (r, page_put page 0 b, pos') in
  if negb (pos =? 0) then ret (0, page, 0)
  else
    let* s := get in
    let h := t_head s in
    if negb (wr h mod 2 =? 0) then ret (- EPERM, page, pos)
    else if wr h =? 0 then read_register stack page size pos
    else if wr h =? 2 then simple (t_IC_TYPE s)
    else if wr h =? 4 then
      simple [u8 (Z.shiftr (show_len s) 8); Z.land (show_len s) 255;
              u8 (Z.shiftr (total_len s) 8); Z.land (total_len s) 255]
    else if wr h =? 8 then simple GTP_DRIVER_VERSION
    else ret (- EPERM, page, pos).

End Tool.

(** ** Invariant *)

(** What the commands rely on: a head of 20 bytes, a block of 512 to 2560
    bytes, a type of 16 bytes, registered functions. *)
Record tool_ok (s : tool) (d : list Z) : Prop := {
  ok_head : zlen (t_head s) = CMD_HEAD_LENGTH /\ bytes (t_head s);
  ok_data : t_data s = Some d;
  ok_block : 512 <= zlen d <= 2560;
  ok_length : t_DATA_LENGTH s = zlen d + GTP_ADDR_LENGTH;
  ok_type : zlen (t_IC_TYPE s) = 16;
  ok_func : t_func s <> Unregistered
}.

(** Only the clock and the trace have changed. *)
Definition quiet (s s' : tool) : Prop :=
  t_head s' = t_head s /\ t_data s' = t_data s /\ t_DATA_LENGTH s' = t_DATA_LENGTH s /\
  t_IC_TYPE s' = t_IC_TYPE s /\ t_func s' = t_func s.

#[export] Instance quiet_preorder : PreOrder quiet.
Proof.
  split; [by intros s|]. intros a b c (E1&E2&E3&E4&E5) (F1&F2&F3&F4&F5). unfold quiet. split_and!; congruence.
Qed.

Lemma quiet_ok s s' d : quiet s s' -> tool_ok s d -> tool_ok s' d.
Proof. intros (E1&E2&E3&E4&E5) []. constructor; congruence. Qed.

(** A program that returns, with a result like this, and only moves on. *)
Definition calm {A} (c : prog tool A) (Q : A -> Prop) (s : tool) : Prop :=
  exists a s', c s = Ret a s' /\ Q a /\ quiet s s'.

Lemma calm_ret {A} (a : A) (Q : A -> Prop) s : Q a -> calm (ret a) Q s.
Proof. intros Hq. by exists a, s. Qed.

Lemma calm_bind {A B} (c : prog tool A) (k : A -> prog tool B) P Q s :
  calm c P s -> (forall a s', P a -> quiet s s' -> calm (k a) Q s') -> calm (bind c k) Q s.
Proof.
  intros (a & s1 & E & Ha & F) K. destruct (K a s1 Ha F) as (b & s2 & E2 & Hb & F2).
  exists b, s2. rewrite (bind_Ret _ _ _ _ _ E). split_and!; [done|done|by transitivity s1].
Qed.

Lemma calm_mono {A} (c : prog tool A) (P Q : A -> Prop) s : calm c P s -> (forall a, P a -> Q a) -> calm c Q s.
Proof. intros (a & s' & E & Ha & F) K. exists a, s'. auto. Qed.

(** Head and data *)

Lemma byte_at_range h i : bytes h -> is_byte (byte_at h i).
Proof.
  intros Hb. unfold byte_at. destruct (h !! i) as [v|] eqn:E; cbn; [|unfold is_byte; lia].
  by eapply Forall_lookup_1.
Qed.

Lemma half_at_range h i : bytes h -> 0 <= half_at h i < 65536.
Proof.
  intros Hb. unfold half_at. pose proof (byte_at_range h i Hb). pose proof (byte_at_range h (S i) Hb).
  unfold is_byte in *. lia.
Qed.

Lemma range_Some b off n : 0 <= off -> 0 <= n -> off + n <= zlen b -> exists r, range b off n = Some r /\ zlen r = n.
Proof.
  intros H1 H2 H3. unfold range.
  destruct ((0 <=? off) && (0 <=? n) && (off + n <=? zlen b)) eqn:E.
  - eexists. split; [reflexivity|]. unfold zlen in *. rewrite length_take, length_drop. lia.
  - exfalso. rewrite !andb_false_iff in E. bool_cases. lia.
Qed.

Lemma memcpy_length dst doff src soff n :
  0 <= doff -> 0 <= soff -> 0 <= n -> doff + n <= zlen dst -> soff + n <= zlen src ->
  exists d, memcpy dst doff src soff n = Some d /\ zlen d = zlen dst.
Proof.
  intros. rewrite memcpy_Some by lia. eexists. split; [reflexivity|].
  unfold zlen in *. rewrite length_splice; [done|]. rewrite length_take, length_drop. lia.
Qed.

Lemma memcpy_None dst doff src soff n :
  zlen dst < doff + n \/ doff < 0 \/ zlen src < soff + n -> memcpy dst doff src soff n = None.
Proof.
  intros Hn. unfold memcpy.
  destruct ((0 <=? doff) && (doff + n <=? zlen dst) && (0 <=? soff) && (soff + n <=? zlen src) && (0 <=? n)) eqn:E;
    [|done]. rewrite !andb_true_iff in E. bool_cases. lia.
Qed.

Section ToolFacts.
Context `{GtKernel}.

Lemma calm_do e s : calm (t_do e) (fun _ => True) s.
Proof. by eexists _, _. Qed.

Lemma calm_ask {A} (f : nat -> A) s : calm (t_ask f) (fun a => a = f (t_time s)) s.
Proof. by eexists _, _. Qed.

Lemma calm_gets {A} (f : tool -> A) s : calm (t_gets f) (fun a => a = f s) s.
Proof. by eexists _, _. Qed.

Lemma calm_lift {A} f (o : option A) (Q : A -> Prop) s a : o = Some a -> Q a -> calm (lift f o) Q s.
Proof. intros -> Hq. by eexists _, _. Qed.

Lemma write_loop_calm n last buf s : calm (write_loop n last buf) (fun _ => True) s.
Proof.
  revert last s. induction n as [|n IH]; intros last s; cbn [write_loop]; [by apply calm_ret|].
  eapply calm_bind; [apply calm_do|]. intros _ s1 _ _.
  eapply calm_bind; [apply calm_ask|]. intros r s2 _ _. cbv beta.
  destruct (0 <? r); [by apply calm_ret|apply IH].
Qed.

Lemma write_no_extra_calm buf len s :
  0 <= len <= zlen buf -> len < 65536 -> calm (tool_i2c_write_no_extra buf len) (fun _ => True) s.
Proof.
  intros H1 H2. unfold tool_i2c_write_no_extra. eapply calm_bind; [apply calm_gets|]. intros h s1 _ _.
  rewrite u16_id by lia. destruct (range_Some buf 0 len) as (b & E & _); [lia..|].
  eapply calm_bind; [by apply (calm_lift _ _ (fun _ => True) _ b)|]. intros b' s2 _ _. apply write_loop_calm.
Qed.

Lemma i2c_write_calm buf len s :
  t_func s <> Unregistered -> 0 <= len <= zlen buf -> len < 65536 ->
  calm (tool_i2c_write buf len) (fun _ => True) s.
Proof.
  intros Hf H1 H2. unfold tool_i2c_write. eapply calm_bind; [apply calm_gets|]. intros f s1 -> Q1.
  destruct (t_func s); [done|by apply write_no_extra_calm|]. unfold tool_i2c_write_with_extra.
  eapply calm_bind; [by apply write_no_extra_calm|]. intros _ s2 _ _.
  eapply calm_bind; [by apply write_no_extra_calm|]. intros r s3 _ _.
  eapply calm_bind; [by apply write_no_extra_calm|]. intros _ s4 _ _. by apply calm_ret.
Qed.

Lemma read_loop_calm n last buf alen len s :
  0 <= alen <= zlen buf -> 0 <= len -> GTP_ADDR_LENGTH + len <= zlen buf ->
  calm (read_loop n last buf alen len) (fun r => zlen (snd r) = zlen buf) s.
Proof.
  intros H1 H2 H3. unfold GTP_ADDR_LENGTH in *.
  revert last buf s H1 H3. induction n as [|n IH]; intros last buf s H1 H3; cbn [read_loop]; [by apply calm_ret|].
  destruct (range_Some buf 0 alen) as (a & Ea & _); [lia..|].
  eapply calm_bind; [by apply (calm_lift _ _ (fun _ => True) _ a)|]. intros a' s1 _ _.
  eapply calm_bind; [apply calm_do|]. intros _ s2 _ _.
  eapply calm_bind; [apply calm_ask|]. intros d s3 -> _.
  destruct (memcpy_length buf GTP_ADDR_LENGTH (gk_device (t_time s2) a' len) 0 len) as (b & Eb & Hb);
    [unfold GTP_ADDR_LENGTH; rewrite ?gk_device_len; lia..|].
  eapply calm_bind; [apply (calm_lift _ _ (fun b' => b' = b) _ b Eb eq_refl)|]. intros b' s4 -> _.
  eapply calm_bind; [apply calm_ask|]. intros r s5 _ _. cbv beta.
  destruct (0 <? r); [by apply calm_ret|].
  eapply calm_mono; [apply IH; lia|]. intros x Hx. by rewrite Hx.
Qed.

Lemma i2c_read_calm buf len s :
  t_func s <> Unregistered -> 0 <= addr_len (t_head s) <= zlen buf -> 0 <= len < 65536 ->
  GTP_ADDR_LENGTH + len <= zlen buf ->
  calm (tool_i2c_read buf len) (fun r => zlen (snd r) = zlen buf) s.
Proof.
  intros Hf H1 H2 H3. unfold tool_i2c_read. eapply calm_bind; [apply calm_gets|]. intros f s1 -> Q1.
  assert (forall s', quiet s s' ->
    calm (tool_i2c_read_no_extra buf len) (fun r => zlen (snd r) = zlen buf) s') as K.
  { intros s' (Eh & _). unfold tool_i2c_read_no_extra. eapply calm_bind; [apply calm_gets|].
    intros h s2 -> _. rewrite Eh, u16_id by lia. apply read_loop_calm; lia. }
  destruct (t_func s); [done|by apply K|]. unfold tool_i2c_read_with_extra.
  eapply calm_bind; [by apply write_no_extra_calm|]. intros _ s2 _ Q2.
  eapply calm_bind; [apply K; by transitivity s1|]. intros r s3 Hr _.
  eapply calm_bind; [by apply write_no_extra_calm|]. intros _ s4 _ _. by apply calm_ret.
Qed.

Lemma comfirm_calm stack s d :
  tool_ok s d -> addr_len (t_head s) <= 2 -> zlen stack = 32 -> calm (comfirm stack) (fun _ => True) s.
Proof.
  intros K Ha Hs. destruct (ok_head _ _ K) as [Hh Hb]. unfold CMD_HEAD_LENGTH in Hh.
  pose proof (byte_at_range (t_head s) 14 Hb) as Hr. fold (addr_len (t_head s)) in Hr. unfold is_byte in Hr.
  unfold comfirm. eapply calm_bind; [apply calm_gets|]. intros h s1 -> Q1.
  destruct (memcpy_length stack 0 (t_head s) 2 (addr_len (t_head s))) as (b & Eb & Lb); [lia..|].
  eapply calm_bind; [apply (calm_lift _ _ (fun b' => b' = b) _ b Eb eq_refl)|]. intros b' s2 -> Q2.
  assert (quiet s s2) as Q by (by transitivity s1). clear Q1 Q2 s1 Eb.
  assert (zlen b = 32) as L by lia. clear Lb. revert b s2 Q L.
  induction (Z.to_nat _) as [|n IH]; intros b s2 Q L; cbn [comfirm_loop]; [by apply calm_ret|].
  destruct Q as (Qh & Qr). eapply calm_bind.
  { apply i2c_read_calm; rewrite ?Qh; unfold GTP_ADDR_LENGTH; [|lia..].
    destruct Qr as (_ & _ & _ & ->). apply K. }
  intros r s3 Hr3 Q3. destruct (fst r <=? 0); [by apply calm_ret|].
  eapply calm_bind; [apply calm_gets|]. intros h s4 _ Q4.
  destruct (lookup_lt_is_Some_2 (snd r) (Z.to_nat GTP_ADDR_LENGTH)) as [v Ev].
  { unfold GTP_ADDR_LENGTH. unfold zlen in *. lia. }
  eapply calm_bind; [by apply (calm_lift _ _ (fun _ => True) _ v)|]. intros v' s5 _ Q5.
  destruct (relation _ _ _); [by apply calm_ret|].
  eapply calm_bind; [apply calm_do|]. intros _ s6 _ Q6. apply IH; [|by rewrite Hr3].
  transitivity s2; [by split|]. by repeat (etransitivity; [eassumption|]).
Qed.

End ToolFacts.

(** ** What fits the buffers *)

Definition fits (h : list Z) (n : Z) : Prop :=
  (wr h = 1 -> data_len h + GTP_ADDR_LENGTH <= n /\ addr_len h <= GTP_ADDR_LENGTH) /\
  (wr h = 3 -> data_len h <= 16) /\
  (wr h = 15 -> data_len h + 1 <= n) /\
  (wr h = 17 -> data_len h + GTP_ADDR_LENGTH <= n).

(** A command that returns when [P] holds, and overflows a buffer otherwise. *)
Definition outcome (P : Prop) (len : Z) (d : list Z) (r : result tool Z) : Prop :=
  match r with
  | Ret v s' => P /\ (v = len \/ v = - EPERM) /\ exists d', tool_ok s' d' /\ zlen d' = zlen d
  | Exit _ _ => False
  | Fault f _ => f = OutOfBounds /\ ~ P
  end.

Lemma ok_set_data s d d' : tool_ok s d -> zlen d' = zlen d -> tool_ok (set_data (Some d') s) d'.
Proof. intros [] E. constructor; cbn; try done; lia. Qed.

Lemma ok_set_head s d h : tool_ok s d -> zlen h = CMD_HEAD_LENGTH -> bytes h -> tool_ok (set_head h s) d.
Proof. intros [] E1 E2. constructor; cbn; done. Qed.

Lemma calm_outcome (P : Prop) len d d1 (c : prog tool Z) s :
  tool_ok s d1 -> zlen d1 = zlen d -> P -> calm c (fun r => r = len \/ r = - EPERM) s ->
  outcome P len d (c s).
Proof.
  intros K E Hp (r & s' & -> & Hr & Q). cbn. split_and!; [done|done|].
  exists d1. split; [by eapply quiet_ok|done].
Qed.

Lemma copy_from_user_whole user off n :
  0 <= off -> 0 <= n -> off + n <= zlen user ->
  exists b, copy_from_user user off n = (0, b) /\ zlen b = n /\ b = take (Z.to_nat n) (drop (Z.to_nat off) user).
Proof.
  intros H1 H2 H3. unfold copy_from_user. set (g := take _ _).
  assert (zlen g = n) as E by (unfold g, zlen in *; rewrite length_take, length_drop; lia).
  rewrite E, Z.sub_diag. exists g. by rewrite app_nil_r.
Qed.

Section WriteFacts.
Context `{GtKernel}.

Lemma head_lens s d : tool_ok s d -> 0 <= data_len (t_head s) < 65536 /\ 0 <= addr_len (t_head s) < 256.
Proof.
  intros K. destruct (ok_head _ _ K) as [_ Hb]. split; [by apply half_at_range|].
  apply (byte_at_range (t_head s) 14 Hb).
Qed.

(** The data behind the head. *)
Definition payload (user : list Z) : list Z :=
  take (Z.to_nat (data_len (take 20 user))) (drop 20 user).

Lemma copy_data_spec user at_ s d :
  tool_ok s d -> t_head s = take 20 user -> 0 <= at_ ->
  CMD_HEAD_LENGTH + data_len (t_head s) <= zlen user ->
  if at_ + data_len (t_head s) <=? zlen d
  then exists d', copy_data user at_ s = Ret true (set_data (Some d') s) /\ zlen d' = zlen d /\
         memcpy d at_ (payload user) 0 (data_len (t_head s)) = Some d'
  else copy_data user at_ s = Fault OutOfBounds s.
Proof.
  intros K Eh Hat Hu. destruct (head_lens s d K) as [Hn _]. unfold CMD_HEAD_LENGTH in *.
  destruct (copy_from_user_whole user 20 (data_len (t_head s))) as (b & E & Lb & Eb); [lia..|].
  assert (b = payload user) as Ep by (unfold payload; rewrite Eb, Eh; done).
  assert (copy_data user at_ s = match memcpy d at_ b 0 (data_len (t_head s)) with
    | Some d' => Ret true (set_data (Some d') s) | None => Fault OutOfBounds s end) as ->.
  { unfold copy_data, bind, t_gets, lift, CMD_HEAD_LENGTH. rewrite (ok_data _ _ K), E.
    cbn [ret]. by destruct (memcpy _ _ _ _ _). }
  rewrite <- Ep. destruct (_ <=? _) eqn:El; bool_cases.
  - destruct (memcpy_length d at_ b 0 (data_len (t_head s))) as (d' & -> & L); [lia..|].
    by exists d'.
  - rewrite memcpy_None by lia. done.
Qed.

Lemma bind_t_gets {A B} (f : tool -> A) (k : A -> prog tool B) s : bind (t_gets f) k s = k (f s) s.
Proof. reflexivity. Qed.

Lemma write_register_outcome user stack len s d :
  tool_ok s d -> t_head s = take 20 user -> zlen stack = 32 ->
  CMD_HEAD_LENGTH + data_len (t_head s) <= zlen user ->
  outcome (data_len (t_head s) + 2 <= zlen d /\ addr_len (t_head s) <= 2) len d
          (write_register user stack len s).
Proof.
  intros K Eh Hst Hu. destruct (head_lens s d K) as [Hn Hal]. pose proof (ok_block _ _ K).
  unfold write_register.
  pose proof (copy_data_spec user GTP_ADDR_LENGTH s d K Eh ltac:(done) Hu) as C.
  unfold GTP_ADDR_LENGTH in *. destruct (_ <=? _) eqn:E; bool_cases.
  2: { rewrite bind_unfold, C. cbn. split; [done|]. lia. }
  destruct C as (d1 & C & L1 & _). rewrite (bind_Ret _ _ _ _ _ C). cbn [negb].
  pose proof (ok_set_data s d d1 K L1) as K1. set (s1 := set_data _ s) in *.
  rewrite !bind_t_gets, (ok_data _ _ K1), bind_lift_Some. change (t_head s1) with (t_head s).
  assert (zlen (addr (t_head s)) = 2) as La.
  { destruct (ok_head _ _ K) as [Hh _]. unfold addr, zlen, CMD_HEAD_LENGTH in *.
    rewrite length_take, length_drop. lia. }
  destruct (decide (addr_len (t_head s) <= 2)) as [Ha|Ha].
  2: { rewrite memcpy_None by lia. cbn. split; [done|]. lia. }
  destruct (memcpy_length d1 (2 - addr_len (t_head s)) (addr (t_head s)) 0 (addr_len (t_head s)))
    as (d2 & E2 & L2); [lia..|].
  rewrite E2, bind_lift_Some, bind_modify.
  pose proof (ok_set_data s1 d1 d2 K1 L2) as K2. set (s2 := set_data _ s1) in *.
  apply (calm_outcome _ _ _ d2); [done|lia|lia|].
  eapply calm_bind.
  { instantiate (1 := fun _ => True). destruct (flag _ =? 1); [|by apply calm_ret].
    by apply (comfirm_calm stack s2 d2). }
  intros c s3 _ Q3. destruct (c =? FAIL); [by apply calm_ret; right|].
  eapply calm_bind.
  { apply i2c_write_calm; [by apply (quiet_ok _ _ _ Q3 K2)| |lia].
    unfold zlen in *. rewrite length_drop. lia. }
  intros r s4 _ Q4. destruct (r <=? 0); [by apply calm_ret; right|].
  eapply calm_bind; [instantiate (1 := fun _ => True);
    destruct (negb _); [apply calm_do|by apply calm_ret]|].
  intros _ s5 _ _. apply calm_ret. by left.
Qed.

Lemma register_func_ok s d :
  tool_ok s d -> exists s', register_i2c_func s = Ret tt s' /\ tool_ok s' d.
Proof.
  intros K. unfold register_i2c_func. rewrite bind_t_gets. eexists. split; [reflexivity|].
  destruct K. constructor; try done. cbn [t_func set_func]. by case_match.
Qed.

Lemma ok_set_type s d ic : tool_ok s d -> zlen ic = 16 -> tool_ok (set_IC_TYPE ic s) d.
Proof. intros [] E. constructor; cbn; done. Qed.

Lemma write_type_outcome user len s d :
  tool_ok s d -> t_head s = take 20 user -> CMD_HEAD_LENGTH + data_len (t_head s) <= zlen user ->
  outcome (data_len (t_head s) <= 16) len d (write_type user len s).
Proof.
  intros K Eh Hu. destruct (head_lens s d K) as [Hn _]. pose proof (ok_block _ _ K).
  unfold write_type. pose proof (copy_data_spec user 0 s d K Eh ltac:(done) Hu) as C.
  destruct (_ <=? _) eqn:E; bool_cases.
  2: { rewrite bind_unfold, C. cbn. split; [done|]. lia. }
  destruct C as (d1 & C & L1 & _). rewrite (bind_Ret _ _ _ _ _ C). cbn [negb].
  pose proof (ok_set_data s d d1 K L1) as K1. set (s1 := set_data _ s) in *.
  rewrite !bind_t_gets, (ok_data _ _ K1), bind_lift_Some, bind_t_gets.
  change (t_head s1) with (t_head s). pose proof (ok_type _ _ K1) as L16.
  destruct (decide (data_len (t_head s) <= 16)) as [Hl|Hl].
  2: { rewrite memcpy_None by lia. done. }
  destruct (memcpy_length (t_IC_TYPE s1) 0 d1 0 (data_len (t_head s))) as (ic & -> & Lic); [lia..|].
  rewrite bind_lift_Some, bind_modify.
  destruct (register_func_ok _ _ (ok_set_type s1 d1 ic K1 ltac:(lia))) as (s2 & E2 & K2).
  rewrite (bind_Ret _ _ _ _ _ E2). cbn. split_and!; [done|by left|]. by exists d1.
Qed.

Lemma write_rawdiff_outcome user len s d :
  tool_ok s d -> t_head s = take 20 user -> CMD_HEAD_LENGTH + data_len (t_head s) <= zlen user ->
  outcome (data_len (t_head s) + 2 <= zlen d) len d (write_rawdiff user len s).
Proof.
  intros K Eh Hu. pose proof (ok_block _ _ K). unfold write_rawdiff.
  pose proof (copy_data_spec user GTP_ADDR_LENGTH s d K Eh ltac:(done) Hu) as C.
  unfold GTP_ADDR_LENGTH in *. destruct (_ <=? _) eqn:E; bool_cases.
  2: { rewrite bind_unfold, C. cbn. split; [done|]. lia. }
  destruct C as (d1 & C & L1 & _). rewrite (bind_Ret _ _ _ _ _ C). cbn [negb].
  pose proof (ok_set_data s d d1 K L1) as K1. set (s1 := set_data _ s) in *.
  rewrite bind_t_gets, (ok_data _ _ K1), bind_lift_Some.
  destruct (lookup_lt_is_Some_2 d1 (Z.to_nat 2)) as [v ->]; [unfold zlen in *; lia|].
  rewrite bind_lift_Some, bind_modify. cbn. split_and!; [lia|by left|].
  exists d1. split; [|done]. destruct K1. constructor; cbn; done.
Qed.

Lemma write_update_outcome user len s d :
  tool_ok s d -> CMD_HEAD_LENGTH + data_len (t_head s) <= zlen user ->
  outcome (data_len (t_head s) + 1 <= zlen d) len d (write_update user len s).
Proof.
  intros K Hu. destruct (head_lens s d K) as [Hn _]. unfold write_update.
  rewrite bind_t_gets, bind_modify, bind_t_gets. cbn [t_data set_progress]. rewrite (ok_data _ _ K), bind_lift_Some.
  set (n := data_len (t_head s)) in *.
  destruct (decide (n + 1 <= zlen d)) as [Hl|Hl].
  2: { rewrite memcpy_None by lia. done. }
  destruct (memcpy_length d 0 (replicate (Z.to_nat (n + 1)) 0) 0 (n + 1)) as (d1 & -> & L1);
    [rewrite ?zlen_replicate; lia..|]. rewrite bind_lift_Some.
  destruct (memcpy_length d1 0 user CMD_HEAD_LENGTH n) as (d2 & -> & L2); [unfold CMD_HEAD_LENGTH in *; lia..|].
  rewrite bind_lift_Some, bind_modify.
  assert (tool_ok (set_data (Some d2) (set_progress 0 0 s)) d2) as K2
    by (apply (ok_set_data _ d); [destruct K; constructor; cbn; done|lia]).
  apply (calm_outcome _ _ _ d2); [done|lia|done|].
  eapply calm_bind; [apply calm_do|]. intros _ s3 _ _.
  eapply calm_bind; [apply calm_ask|]. intros r s4 _ _. cbv beta.
  destruct (r =? FAIL); apply calm_ret; [by right|by left].
Qed.

Lemma irq_outcome len s d (b : bool) :
  tool_ok s d ->
  outcome True len d ((do* (if b then gtp_irq_disable else gtp_irq_enable); ret len) s).
Proof.
  intros K. unfold gtp_irq_disable, gtp_irq_enable.
  destruct b; rewrite bind_bind, bind_t_gets; destruct (_ =? 0); cbn;
    (split_and!; [done|by left|]; exists d; split; [|done]; destruct K; constructor; cbn; done).
Qed.

End WriteFacts.

(** C31: the write command never leaves its buffers exactly when the lengths in
    its head fit.  Whoever writes the file chooses them: for every request
    whose memory can be read, the command returns (the length, or -EPERM), and
    keeps the invariant of the interface, if data and address fit the block
    (and a type fits its 16 bytes); otherwise it stores outside an object.  The
    firmware update (command 15) and the update mode are calls to
    [gt9xx_update.c]; here they are calls that return. *)
Theorem tool_write_bounds `{GtKernel} user stack len s d :
  tool_ok s d -> bytes user -> zlen stack = 32 ->
  CMD_HEAD_LENGTH + data_len (take 20 user) <= zlen user ->
  match goodix_tool_write user stack len s with
  | Ret v s' => fits (take 20 user) (zlen d) /\ (v = len \/ v = - EPERM) /\
      exists d', tool_ok s' d' /\ zlen d' = zlen d
  | Exit _ _ => False
  | Fault f _ => f = OutOfBounds /\ ~ fits (take 20 user) (zlen d)
  end.
Proof.
  intros K Hb Hst Hu. set (h := take 20 user) in *.
  assert (bytes h) as Hbh by (by apply Forall_take).
  pose proof (half_at_range h 12 Hbh) as Hn. fold (data_len h) in Hn.
  unfold CMD_HEAD_LENGTH in Hu.
  destruct (copy_from_user_whole user 0 20) as (b & E & Lb & Eb); [lia..|].
  assert (b = h) as -> by (rewrite Eb; done). unfold goodix_tool_write, CMD_HEAD_LENGTH. rewrite E, bind_modify.
  cbn [Z.eqb negb]. pose proof (ok_set_head s d h K Lb Hbh) as K1. set (s1 := set_head h s) in *.
  change (outcome (fits h (zlen d)) len d
    ((if wr h =? 1 then write_register user stack len
      else if wr h =? 3 then write_type user len
      else if wr h =? 5 then ret len
      else if wr h =? 7 then do* gtp_irq_disable; ret len
      else if wr h =? 9 then do* gtp_irq_enable; ret len
      else if wr h =? 17 then write_rawdiff user len
      else if wr h =? 11 then
        do* t_do EnterUpdate; let* r := t_ask gk_enter_update in if r =? FAIL then ret (- EPERM) else ret len
      else if wr h =? 13 then do* t_do LeaveUpdate; ret len
      else if wr h =? 15 then write_update user len
      else ret len) s1)).
  assert (forall (P : Prop) r, outcome P len d r -> (P <-> fits h (zlen d)) -> outcome (fits h (zlen d)) len d r) as X.
  { intros P r O EP. destruct r; cbn in *; tauto. }
  assert (forall P : Prop, P -> (P <-> fits h (zlen d)) -> forall c, calm c (fun r => r = len \/ r = - EPERM) s1 ->
    outcome (fits h (zlen d)) len d (c s1)) as Y.
  { intros P Hp EP c Hc. apply (X P); [|done]. by apply (calm_outcome _ _ _ d). }
  unfold fits in *. unfold GTP_ADDR_LENGTH in *.
  repeat match goal with |- context [wr h =? ?k] => destruct (wr h =? k) eqn:?; bool_cases end.
  - eapply X; [by apply (write_register_outcome user stack len s1 d K1)|]. change (t_head s1) with h. lia.
  - eapply X; [by apply (write_type_outcome user len s1 d K1)|]. change (t_head s1) with h. lia.
  - eapply (Y True); [done|lia|]. apply calm_ret. by left.
  - eapply X; [by apply (irq_outcome len s1 d true)|]. lia.
  - eapply X; [by apply (irq_outcome len s1 d false)|]. lia.
  - eapply X; [by apply (write_rawdiff_outcome user len s1 d K1)|]. change (t_head s1) with h. lia.
  - eapply (Y True); [done|lia|].
    eapply calm_bind; [apply calm_do|]. intros _ s2 _ _. eapply calm_bind; [apply calm_ask|]. intros r s3 _ _.
    cbv beta. destruct (r =? FAIL); apply calm_ret; [by right|by left].
  - eapply (Y True); [done|lia|].
    eapply calm_bind; [apply calm_do|]. intros _ s2 _ _. apply calm_ret. by left.
  - eapply X; [by apply (write_update_outcome user len s1 d K1)|]. change (t_head s1) with h. lia.
  - eapply (Y True); [done|lia|]. apply calm_ret. by left.
Qed.

(** ** The registers behind the file *)

Lemma drop_splice b off x :
  (off <= length b)%nat -> drop off (splice b off x) = x ++ drop (off + length x) b.
Proof. intros Ho. unfold splice. by rewrite drop_app_length' by (rewrite length_take; lia). Qed.

Lemma take_splice_0 b x : take (length x) (splice b 0 x) = x.
Proof. unfold splice. by rewrite take_0, app_nil_l, take_app_length. Qed.

Lemma range_take b n : 0 <= n <= zlen b -> range b 0 n = Some (take (Z.to_nat n) b).
Proof.
  intros Hn. unfold range. rewrite Z.add_0_l.
  destruct ((0 <=? 0) && (0 <=? n) && (n <=? zlen b)) eqn:E; [by rewrite drop_0|].
  rewrite !andb_false_iff in E. bool_cases. lia.
Qed.

(** The address a request names. *)
Definition register_of (h : list Z) : list Z := take (Z.to_nat (addr_len h)) (addr h).

(** A bus on which every transfer works, and a request that does not wait for
    a flag. *)
Record plain_request `{GtKernel} (s : tool) (h : list Z) : Prop := {
  p_works : forall t, 0 < gk_xfer t;
  p_func : t_func s = NoExtra;
  p_flag : flag h <> 1;
  p_addr : addr_len h <= GTP_ADDR_LENGTH;
  p_retry : 0 < retry h
}.

Definition pause (h : list Z) : list geffect := if delay h =? 0 then [] else [GMsleep (delay h)].

Section WindowFacts.
Context `{GtKernel}.

Lemma retry_some h : 0 < retry h -> exists k, Z.to_nat (retry h) = S k.
Proof. intros Hr. exists (Nat.pred (Z.to_nat (retry h))). lia. Qed.

Lemma head_addr_length s d : tool_ok s d -> zlen (drop 15 (t_head s)) = 5 /\ zlen (addr (t_head s)) = 2.
Proof.
  intros K. destruct (ok_head _ _ K) as [Hh _]. unfold addr, zlen, CMD_HEAD_LENGTH in *.
  rewrite length_take, length_drop. lia.
Qed.

(** A register write puts the address and the data on the bus in one message. *)
Lemma write_register_sends user stack len s d :
  tool_ok s d -> t_head s = take 20 user -> plain_request s (t_head s) ->
  CMD_HEAD_LENGTH + data_len (t_head s) <= zlen user ->
  data_len (t_head s) + GTP_ADDR_LENGTH <= zlen d ->
  exists s', write_register user stack len s = Ret len s' /\
    t_trace s' = t_trace s ++ GWrite (register_of (t_head s) ++ payload user) :: pause (t_head s).
Proof.
  intros K Eh [Pw Pf Pg Pa Pr] Hu Hn. destruct (head_lens s d K) as [Hnn Hal].
  destruct (head_addr_length s d K) as [_ La]. pose proof (ok_block _ _ K). unfold write_register.
  pose proof (copy_data_spec user GTP_ADDR_LENGTH s d K Eh ltac:(done) Hu) as C.
  unfold GTP_ADDR_LENGTH in *. destruct (_ <=? _) eqn:E; bool_cases; [|lia].
  destruct C as (d1 & C & L1 & E1). rewrite (bind_Ret _ _ _ _ _ C). cbn [negb].
  set (h := t_head s) in *.
  assert (length (payload user) = Z.to_nat (data_len h)) as Lp.
  { unfold payload. rewrite <- Eh. unfold zlen, CMD_HEAD_LENGTH in *. rewrite length_take, length_drop. lia. }
  rewrite memcpy_Some in E1 by (unfold zlen in *; lia). injection E1 as E1.
  rewrite !bind_t_gets. cbn [t_data set_data t_head]. rewrite bind_lift_Some. fold h.
  rewrite memcpy_Some by lia. rewrite bind_lift_Some, bind_modify.
  destruct (flag h =? 1) eqn:Ef; bool_cases; [done|]. rewrite bind_ret. cbn [Z.eqb SUCCESS FAIL].
  set (d2 := splice d1 _ _).
  assert (range (drop (Z.to_nat (2 - addr_len h)) d2) 0 (u16 (data_len h + addr_len h)) =
    Some (register_of h ++ payload user)) as ER.
  { rewrite u16_id by lia. unfold d2. rewrite drop_splice by (unfold zlen in *; lia).
    rewrite drop_0. fold (register_of h).
    assert (length (register_of h) = Z.to_nat (addr_len h)) as Lr
      by (unfold register_of, zlen in *; rewrite length_take; lia).
    rewrite Lr. replace (Z.to_nat (2 - addr_len h) + Z.to_nat (addr_len h))%nat with 2%nat by lia.
    rewrite <- E1. change (Z.to_nat 2) with 2%nat. rewrite drop_0.
    rewrite (take_ge (payload user)) by lia. rewrite drop_splice by (unfold zlen in *; lia).
    rewrite app_assoc, range_take by (rewrite !zlen_app; unfold zlen in *; lia).
    f_equal. rewrite take_app_length'; [done|]. rewrite length_app. lia. }
  unfold tool_i2c_write. rewrite bind_bind, bind_t_gets. cbn [t_func set_data]. rewrite Pf.
  unfold tool_i2c_write_no_extra. rewrite bind_bind, bind_t_gets, ER, bind_bind, bind_lift_Some.
  cbn [t_head set_data]. fold h. destruct (retry_some h Pr) as [k ->]. cbn [write_loop].
  rewrite bind_bind. unfold t_do at 1. rewrite bind_modify, bind_bind. rewrite (bind_unfold (t_ask gk_xfer)).
  cbn [t_ask]. destruct (0 <? gk_xfer _) eqn:Ex; bool_cases; [|specialize (Pw (t_time s)); cbn in *; lia].
  rewrite bind_ret. destruct (gk_xfer _ <=? 0) eqn:Ey; bool_cases; [lia|].
  unfold pause. destruct (delay h =? 0); cbn [negb].
  - eexists. split; [reflexivity|]. done.
  - eexists. split; [reflexivity|]. cbn. by rewrite <- app_assoc.
Qed.

(** One transfer of a read whose address is at the start of the buffer. *)
Lemma i2c_read_plain s h buf len :
  plain_request s h -> t_head s = h -> 0 <= addr_len h <= zlen buf -> 0 <= len < 65536 ->
  tool_i2c_read buf len s =
    let a := take (Z.to_nat (addr_len h)) buf in
    let s1 := t_tick (t_emit (GRead a len) s) in
    match memcpy buf GTP_ADDR_LENGTH (gk_device (t_time s) a len) 0 len with
    | Some buf' => Ret (gk_xfer (S (t_time s)), buf') (t_tick s1)
    | None => Fault OutOfBounds s1
    end.
Proof.
  intros [Pw Pf Pg Pa Pr] Eh Ha Hl. unfold tool_i2c_read. rewrite bind_t_gets, Pf.
  unfold tool_i2c_read_no_extra. rewrite bind_t_gets, Eh, u16_id by lia.
  destruct (retry_some h Pr) as [k ->]. cbn [read_loop]. rewrite range_take, bind_lift_Some by lia.
  unfold t_do. rewrite bind_modify. unfold t_ask. rewrite bind_unfold. cbn [t_time t_emit].
  destruct (memcpy _ _ _ _ _) as [b|]; [|done]. rewrite bind_lift_Some, bind_unfold.
  cbn [t_time t_tick t_emit]. specialize (Pw (S (t_time s))).
  destruct (0 <? _) eqn:E; bool_cases; [done|lia].
Qed.

Lemma set_data_request s h d : plain_request s h -> plain_request (set_data d s) h.
Proof. intros []. by constructor. Qed.

(** The buffers of a register read, once the address is in place. *)
Record ready (s : tool) (h d : list Z) : Prop := {
  r_request : plain_request s h;
  r_head : t_head s = h;
  r_data : t_data s = Some d;
  r_addr : 0 <= addr_len h /\ take (Z.to_nat (addr_len h)) d = register_of h;
  r_block : 512 <= zlen d <= 2560;
  r_length : t_DATA_LENGTH s = zlen d + GTP_ADDR_LENGTH
}.

Lemma simple_read_start size dev :
  0 <= size -> simple_read size 0 dev =
    (Z.min size (zlen dev), take (Z.to_nat size) dev, Z.min size (zlen dev)).
Proof.
  intros Hs. pose proof (zlen_nonneg dev). unfold simple_read. rewrite Z.sub_0_r, drop_0, Z.add_0_l.
  destruct ((zlen dev <=? 0) || (size =? 0)) eqn:E.
  - apply orb_true_iff in E as [E|E]; bool_cases.
    + destruct dev; [|unfold zlen in *; cbn in *; lia]. rewrite take_nil. change (zlen []) with 0.
      by rewrite Z.min_r by lia.
    + subst size. by rewrite Z.min_l by lia.
  - f_equal. f_equal. destruct (decide (size <= zlen dev)).
    + by rewrite Z.min_l by lia.
    + rewrite Z.min_r, !take_ge by (unfold zlen in *; lia). done.
Qed.

Lemma range_spliced d dev :
  2 + zlen dev <= zlen d -> range (splice d 2 dev) GTP_ADDR_LENGTH (zlen dev) = Some dev.
Proof.
  intros Hd. unfold range, GTP_ADDR_LENGTH. change (Z.to_nat 2) with 2%nat.
  destruct ((0 <=? 2) && (0 <=? zlen dev) && (2 + zlen dev <=? zlen (splice d 2 dev))) eqn:E.
  - rewrite drop_splice by (unfold zlen in *; lia). rewrite take_app_length'; [done|unfold zlen in *; lia].
  - exfalso. rewrite !andb_false_iff in E. unfold zlen in *. rewrite length_splice in E by lia.
    bool_cases; lia.
Qed.

Lemma fetch_fits fuel n size page s h d :
  ready s h d -> 0 < n < 2 ^ 15 -> n + GTP_ADDR_LENGTH <= zlen d -> 0 <= size ->
  let dev := gk_device (t_time s) (register_of h) n in
  exists s', fetch_loop (S (S fuel)) n 0 size 0 page s =
    Ret (true, page_put page 0 (take (Z.to_nat size) dev), Z.min size n) s' /\
    t_trace s' = t_trace s ++ [GRead (register_of h) n].
Proof.
  intros [P Eh Ed [Ha Er] Hb El] Hn Hfit Hs dev. unfold GTP_ADDR_LENGTH in *. pose proof (p_addr _ _ P) as Pa.
  pose proof (gk_device_len (t_time s) (register_of h) n ltac:(lia)) as Ld. fold dev in Ld.
  cbn [fetch_loop]. destruct (n <=? 0) eqn:E0; bool_cases; [lia|]. rewrite bind_t_gets, El.
  destruct (zlen d + 2 <? n) eqn:E1; bool_cases; [lia|]. rewrite u16_id by lia.
  rewrite bind_t_gets, Ed, bind_lift_Some, bind_unfold.
  rewrite (i2c_read_plain s h d n P Eh) by (unfold GTP_ADDR_LENGTH in *; lia). cbv zeta. rewrite Er. fold dev.
  rewrite memcpy_Some by (unfold GTP_ADDR_LENGTH; lia). rewrite drop_0.
  rewrite (take_ge dev) by (unfold zlen in *; lia). rewrite bind_modify. cbn [fst snd].
  pose proof (p_works _ _ P (S (t_time s))) as Hx.
  destruct (gk_xfer _ <=? 0) eqn:Ex; bool_cases; [lia|].
  change (Z.to_nat GTP_ADDR_LENGTH) with 2%nat.
  pose proof (range_spliced d dev ltac:(lia)) as ER. rewrite Ld in ER. rewrite ER, bind_lift_Some.
  rewrite simple_read_start, Ld, Z.sub_diag by done. cbn [Z.leb Z.compare].
  eexists. split; [reflexivity|]. done.
Qed.

Lemma fetch_overflows fuel n size page s h d :
  ready s h d -> 0 < n < 2 ^ 15 -> zlen d < n + GTP_ADDR_LENGTH ->
  exists s', fetch_loop (S fuel) n 0 size 0 page s = Fault OutOfBounds s'.
Proof.
  intros [P Eh Ed [Ha Er] Hb El] Hn Hbad. unfold GTP_ADDR_LENGTH in *. pose proof (p_addr _ _ P) as Pa.
  cbn [fetch_loop]. destruct (n <=? 0) eqn:E0; bool_cases; [lia|]. rewrite bind_t_gets, El.
  set (len := u16 _).
  assert (zlen d < len + 2 /\ 0 <= len < 65536) as Hlen.
  { unfold len. destruct (zlen d + 2 <? n) eqn:E; bool_cases; rewrite u16_id by lia; lia. }
  rewrite bind_t_gets, Ed, bind_lift_Some, bind_unfold.
  rewrite (i2c_read_plain s h d len P Eh) by (unfold GTP_ADDR_LENGTH in *; lia). cbv zeta.
  rewrite memcpy_None by (unfold GTP_ADDR_LENGTH; lia). by eexists.
Qed.

Lemma fetch_nothing fuel n size page s :
  n <= 0 -> fetch_loop (S fuel) n 0 size 0 page s = Ret (true, page, 0) s.
Proof. intros Hn. cbn [fetch_loop]. by rewrite (proj2 (Z.leb_le _ _)). Qed.

(** A register read up to its loop. *)
Lemma read_register_start stack page size s d :
  tool_ok s d -> plain_request s (t_head s) ->
  let h := t_head s in
  let n := if data_len h <? 2 ^ 15 then data_len h else data_len h - 2 ^ 16 in
  exists s2 d1, ready s2 h d1 /\ zlen d1 = zlen d /\ t_time s2 = t_time s /\
    t_trace s2 = t_trace s ++ pause h /\
    read_register stack page size 0 s =
      (let* r := fetch_loop (S (Z.to_nat n)) n 0 size 0 page in
       let '(ok, page', pos') := r in
       ret (if ok : bool then data_len h else - EPERM, page', pos')) s2.
Proof.
  intros K P h n. destruct (head_lens s d K) as [Hn Hal]. destruct (head_addr_length s d K) as [L5 La].
  fold h in Hn, Hal, L5, La. pose proof (ok_block _ _ K) as Hbl.
  pose proof (p_addr _ _ P) as Pa. fold h in Pa. unfold GTP_ADDR_LENGTH in *. unfold read_register.
  rewrite bind_t_gets. fold h. destruct (flag h =? 1) eqn:Ef; bool_cases; [by destruct (p_flag _ _ P)|].
  rewrite bind_ret. cbn [Z.eqb SUCCESS FAIL]. rewrite bind_t_gets, (ok_data _ _ K), bind_lift_Some.
  rewrite memcpy_Some by lia. rewrite bind_lift_Some, bind_modify, drop_0.
  set (d1 := splice d _ _).
  assert (length (take (Z.to_nat (addr_len h)) (drop 15 h)) = Z.to_nat (addr_len h)) as Lt
    by (unfold zlen in *; rewrite length_take; lia).
  assert (zlen d1 = zlen d) as L1 by (unfold d1, zlen in *; rewrite length_splice; [done|lia]).
  assert (take (Z.to_nat (addr_len h)) d1 = register_of h) as Er.
  { unfold d1. rewrite <- Lt at 1. rewrite take_splice_0. unfold register_of, addr.
    rewrite take_take. f_equal. lia. }
  clearbody d1. pose proof (ok_length _ _ K) as HL. unfold pause.
  assert (forall s2, quiet (set_data (Some d1) s) s2 -> ready s2 h d1) as R.
  { intros s2 (E1&E2&E3&E4&E5). cbn in E1, E2, E3, E5.
    constructor; [destruct P; constructor; try done; congruence|exact E1|exact E2|by split; [lia|]|lia|].
    rewrite E3, L1. exact HL. }
  destruct (delay h =? 0); cbn [negb].
  - exists (set_data (Some d1) s), d1. rewrite app_nil_r. split_and!; try done. by apply R.
  - eexists _, d1. split_and!; [|done|..|reflexivity]; try done. by apply R.
Qed.

End WindowFacts.


(** ** Starting *)

Section InitFacts.
Context `{GtKernel}.

(** The head while the block is sought: 20 zeros. *)
Lemma alloc_loop_spec k s :
  (k <= 5)%nat -> exists i s', alloc_loop k s = Ret i s' /\ (i <= 5)%nat /\
    t_head s' = t_head s /\ t_IC_TYPE s' = t_IC_TYPE s /\
    ((0 < i)%nat -> exists d, t_data s' = Some d /\ zlen d = Z.of_nat i * DATA_LENGTH_UINT).
Proof.
  revert s. induction k as [|k IH]; intros s Hk; [exists 0%nat, s; split_and!; try done; intros; lia|].
  cbn [alloc_loop]. unfold t_ask. rewrite bind_unfold. destruct (gk_alloc _ _).
  - rewrite bind_modify. eexists _, _. split; [reflexivity|]. split_and!; try done. intros _.
    eexists. split; [reflexivity|]. apply zlen_replicate. unfold DATA_LENGTH_UINT. lia.
  - destruct (IH (t_tick s) ltac:(lia)) as (i & s' & E & Hi & R). exists i, s'.
    split; [exact E|]. split; [exact Hi|exact R].
Qed.

(** [init_wr_node] sets the invariant up, or fails. *)
Lemma init_ok s :
  zlen (t_IC_TYPE s) = 16 ->
  exists v s', init_wr_node s = Ret v s' /\
    (v = FAIL \/ v = SUCCESS /\ t_proc s' = true /\ exists d, tool_ok s' d).
Proof.
  intros Hic. unfold init_wr_node. rewrite !bind_modify.
  destruct (alloc_loop_spec 5 (set_data None (set_head (replicate (Z.to_nat CMD_HEAD_LENGTH) 0) s)) ltac:(lia))
    as (i & s1 & E & Hi & Eh & Et & Hd). rewrite (bind_Ret _ _ _ _ _ E).
  destruct (i =? 0)%nat eqn:E0; [by eexists _, _; split; [|left]|]. apply Nat.eqb_neq in E0.
  destruct (Hd ltac:(lia)) as (d & Ed & Ld). unfold DATA_LENGTH_UINT in Ld.
  cbn [t_head t_IC_TYPE set_data set_head] in Eh, Et.
  rewrite bind_modify. unfold put_byte. rewrite !bind_modify. unfold register_i2c_func.
  rewrite bind_bind, bind_t_gets, bind_modify. unfold t_ask. rewrite bind_unfold.
  destruct (gk_proc _); [|by eexists _, _; split; [|left]]. cbn [negb]. rewrite bind_modify.
  eexists _, _. split; [reflexivity|]. right. split_and!; [done|done|]. exists d.
  constructor; cbn [t_head t_data t_DATA_LENGTH t_IC_TYPE t_func set_proc t_tick set_func set_head set_DATA_LENGTH].
  - rewrite Eh. by split; [|apply bytes_true].
  - exact Ed.
  - lia.
  - unfold DATA_LENGTH_UINT. lia.
  - by rewrite Et.
  - by case_match.
Qed.

End InitFacts.

(** The registers behind the file.  With a bus that works and a request
    that fits the block: a write puts address and data on the bus as one
    message; a read makes one transfer for the address, fills the page with
    what the chip returned and returns the length, and the next read returns 0
    and starts over.  A read of more than the block holds stores behind it,
    although the length check of the code (against [DATA_LENGTH], two more
    than the block) lets it pass; a length of 32768 and more is taken for
    negative and reported as read with nothing read. *)
Theorem tool_registers `{GtKernel} user stack page len size s d :
  tool_ok s d -> plain_request s (t_head s) -> 0 <= size ->
  let h := t_head s in
  let n := data_len h in
  let dev := gk_device (t_time s) (register_of h) n in
  (wr h = 1 -> h = take 20 user -> CMD_HEAD_LENGTH + n <= zlen user -> n + GTP_ADDR_LENGTH <= zlen d ->
   exists s', goodix_tool_write user stack len s = Ret len s' /\
     t_trace s' = t_trace s ++ GWrite (register_of h ++ payload user) :: pause h) /\
  (wr h = 0 -> 0 < n -> n + GTP_ADDR_LENGTH <= zlen d ->
   exists s', goodix_tool_read stack page size 0 s =
       Ret (n, page_put page 0 (take (Z.to_nat size) dev), Z.min size n) s' /\
     t_trace s' = t_trace s ++ pause h ++ [GRead (register_of h) n] /\
     (0 < size -> goodix_tool_read stack page size (Z.min size n) s' = Ret (0, page, 0) s')) /\
  (wr h = 0 -> zlen d < n + GTP_ADDR_LENGTH -> n < 2 ^ 15 ->
   exists s', goodix_tool_read stack page size 0 s = Fault OutOfBounds s') /\
  (wr h = 0 -> 2 ^ 15 <= n ->
   exists s', goodix_tool_read stack page size 0 s = Ret (n, page, 0) s' /\
     t_trace s' = t_trace s ++ pause h).
Proof.
  intros K P Hsz h n dev. destruct (head_lens s d K) as [Hn _]. fold h n in Hn.
  pose proof (ok_block _ _ K) as Hb.
  assert (wr h = 0 -> goodix_tool_read stack page size 0 s = read_register stack page size 0 s) as Rd.
  { intros Hw. unfold goodix_tool_read. cbn [Z.eqb negb]. rewrite bind_get. fold h. by rewrite Hw. }
  destruct (read_register_start stack page size s d K P) as (s2 & d1 & R & L & M & T & E). fold h n in R, T, E.
  split_and!.
  - intros Hw Eh Hu Hfit. unfold goodix_tool_write, CMD_HEAD_LENGTH in *.
    destruct (copy_from_user_whole user 0 20) as (b & Ec & Lb & Eb); [lia..|].
    assert (b = h) as -> by (rewrite Eb; exact (eq_sym Eh)). rewrite Ec, bind_modify. cbn [Z.eqb negb].
    rewrite Hw. cbn [Z.eqb Pos.eqb]. replace (set_head h s) with s by (unfold h; by destruct s).
    by apply (write_register_sends user stack len s d).
  - intros Hw Hp Hfit. unfold GTP_ADDR_LENGTH in *. rewrite (proj2 (Z.ltb_lt n (2 ^ 15))) in E by lia.
    destruct (Z.to_nat n) as [|fuel] eqn:En; [lia|].
    destruct (fetch_fits fuel n size page s2 h d1 R) as (s' & F & T'); [lia|unfold GTP_ADDR_LENGTH; lia|done|].
    exists s'. rewrite Rd, E, bind_unfold, F, M by done. split_and!; [done|by rewrite T', T, app_assoc|].
    intros Hs. unfold goodix_tool_read. destruct (Z.min size n =? 0) eqn:E0; bool_cases; [lia|done].
  - intros Hw Hbad Hlt. unfold GTP_ADDR_LENGTH in *. rewrite (proj2 (Z.ltb_lt n (2 ^ 15))) in E by lia.
    destruct (fetch_overflows (Z.to_nat n) n size page s2 h d1 R) as (s' & F); [lia|unfold GTP_ADDR_LENGTH; lia|].
    exists s'. by rewrite Rd, E, bind_unfold, F.
  - intros Hw Hbig. rewrite (proj2 (Z.ltb_ge n (2 ^ 15))) in E by lia.
    exists s2. rewrite Rd, E, bind_unfold, fetch_nothing by (done || lia). by split.
Qed.

Module GoodixDemo.

#[refine] Instance kernel : GtKernel := {
  gk_alloc t n := n <=? 2048; gk_xfer t := 2;
  gk_device t a n := take (Z.to_nat n) (str "9271" ++ replicate (Z.to_nat n) 0); gk_device_len := _;
  gk_proc t := true; gk_enter_update t := 1; gk_update_proc t d := 1
}.
Proof. intros t a n Hn. unfold zlen. rewrite length_take, length_app, length_replicate. lia. Defined.

Definition loaded : tool :=
  mkTool 0 [] None 0 (str "GT9XX" ++ replicate 11 0) Unregistered false 0 false 0 0 [].

(** The allocator refuses five units and grants four. *)
Definition started : tool := match init_wr_node loaded with Ret _ s => s | _ => loaded end.

Lemma started_ok : exists d, tool_ok started d /\ zlen d = 2048.
Proof.
  destruct (init_ok loaded eq_refl) as (v & s & E & [Hv|(_ & _ & d & K)]).
  - exfalso. subst v. vm_compute in E. discriminate E.
  - exists d. unfold started. rewrite E. split; [done|]. pose proof (ok_length _ _ K) as L.
    assert (t_DATA_LENGTH s = 2050) as L2.
    { assert (match init_wr_node loaded with Ret _ s => t_DATA_LENGTH s | _ => 0 end = 2050) as X
        by (vm_compute; reflexivity). by rewrite E in X. }
    unfold GTP_ADDR_LENGTH in L. lia.
Qed.

(** A write of 2047 bytes, one more than fits. *)
Definition big : list Z :=
  [1; 0; 0; 0; 0; 0; 0; 0; 0; 5; 0; 0; 255; 7; 2; 128; 71; 0; 0; 0] ++ replicate 2047 1.

Lemma tool_write_bounds_witness :
  match goodix_tool_write big (replicate 32 170) 2067 started with
  | Fault f _ => f = OutOfBounds
  | _ => False
  end.
Proof.
  destruct started_ok as (d & K & L).
  pose proof (tool_write_bounds big (replicate 32 170) 2067 started d K
    ltac:(apply bytes_true; vm_compute; reflexivity) eq_refl ltac:(vm_compute; congruence)) as B.
  assert (~ fits (take 20 big) (zlen d)) as Hf.
  { rewrite L. intros ([Hd _] & _); [reflexivity|]. vm_compute in Hd. by apply Hd. }
  destruct (goodix_tool_write _ _ _ _) as [v s'|?|f s']; [destruct B as [B _]; by apply Hf|exact B|].
  exact (proj1 B).
Defined.

(** The product identifier at 0x8140. *)
Definition ask_id : tool :=
  set_head [0; 0; 0; 0; 0; 0; 0; 0; 0; 5; 0; 0; 4; 0; 2; 129; 64; 0; 0; 0] started.

Lemma tool_registers_witness :
  exists s', goodix_tool_read (replicate 32 170) (replicate 8 0) 8 0 ask_id =
      Ret (4, str "9271" ++ [0; 0; 0; 0], 4) s' /\
    t_trace s' = [GRead [129; 64] 4].
Proof.
  destruct started_ok as (d & K & L).
  assert (tool_ok ask_id d) as K1 by (apply ok_set_head; [exact K|reflexivity|by apply bytes_true]).
  assert (plain_request ask_id (t_head ask_id)) as P
    by (constructor; [done|by vm_compute|by vm_compute|by vm_compute|by vm_compute]).
  destruct (tool_registers [] (replicate 32 170) (replicate 8 0) 0 8 ask_id d K1 P ltac:(lia))
    as (_ & R & _).
  destruct R as (s' & E & T & _); [reflexivity|reflexivity|rewrite L; vm_compute; congruence|].
  exists s'. split; [rewrite E; reflexivity|]. rewrite T. vm_compute. reflexivity.
Defined.

Example proc_name : tool_set_proc_name (str "Nov 28 2014") = str "gmnode20141128".
Proof. reflexivity. Qed.

End GoodixDemo.
