(* ===== verification/GtBus.v ===== *)
(** * The touch-screen driver: state, bus, pins and interrupts

    [kernel/drivers/input/touchscreen/gt9xx]: the state of the driver
    ([gt9xx.c], [gt9xx.h]) and of its firmware update ([gt9xx_update.c]), the
    kernel below them, and the functions of [gt9xx.c] that both use: I2C
    transfers, the reset of the chip, the configuration, the interrupt
    switches.  [Gt9xx], [GtPanel] and [GtProbe] hold the rest of [gt9xx.c],
    [GtUpdate] and [GtBurn] the update.

    The switches of [gt9xx.h] are as the header sets them: no compatible mode,
    no ESD protection, no gestures, no pen, x and y swapped, the configuration
    from the device tree; [CONFIG_FB] is set. *)

From stdpp Require Import base list numbers strings.
From Stdlib Require Import ZArith Lia.
From S2P Require Import Prelude Text Kernel GoodixTool.
Open Scope Z_scope.

Definition GTP_CONFIG_MIN_LENGTH : Z := 186.
Definition GTP_CONFIG_MAX_LENGTH : Z := 240.
Definition GTP_REG_CONFIG_DATA : Z := 32839.  (* 0x8047 *)

Definition s8 (z : Z) : Z := (z + 128) mod 256 - 128.

(** ** State *)

Inductive ptr := Null | Live | Freed.

(** A [struct file *]: NULL, an error pointer, or an open file with these
    contents. *)
Inductive filep := NoFile | ErrFile | OpenFile (contents : list Z).

(** What the driver asks of the kernel and does to the hardware. *)
Inductive teffect :=
  | XWrite (b : list Z)                (* i2c_transfer, one message *)
  | XRead (a : list Z) (n : Z)         (* i2c_transfer, address and read *)
  | Sleep (ms : Z) | Udelay (us : Z)
  | PinOut (pin v : Z) | PinIn (pin : Z)
  | PinRequest (pin : Z) | PinFree (pin : Z)
  | IrqOff | IrqOn                     (* disable_irq_nosync, enable_irq *)
  | IrqRequest (irq trigger : Z) | IrqFree (irq : Z)
  | QueueWork
  | TimerStart (ms : Z) | TimerCancel
  | ReportKey (code v : Z) | ReportAbs (code v : Z) | MtSync | InputSync
  | InputAlloc | InputBits (ev key prop : list Z) | SetAbs (code max : Z) | InputRegister | InputUnregister
  | Alloc (n : Z) | Free
  | RegGet (name : list Z) | RegPut (name : list Z)
  | RegEnable (name : list Z) | RegDisable (name : list Z)
  | ProcCreate | FbRegister | FbUnregister
  | InitWrNode | UninitWrNode          (* goodix_tool.c *)
  | ThreadRun                          (* kthread_run of the update *)
  | WqCreate | WqDestroy | DriverAdd | DriverDel
  | FileOpen (path : list Z) | FileRead (pos n : Z) | FileClose
  | CheckI2c.

(** [struct goodix_ts_data], without the members that are set up once or unused. *)
Record goodix_ts_data := mkTs {
  irq_is_disable : Z;
  use_irq : Z;
  abs_x_max : Z;
  abs_y_max : Z;
  int_trigger_type : Z;
  enter_update : Z;
  gtp_is_suspend : Z;
  gtp_rawdiff_mode : Z;
  gtp_cfg_len : Z;
  fw_error : Z;
  pnl_init_error : Z;
  input_dev : bool   (* whether it is not NULL *)
}.

Definition with_irq_is_disable (v : Z) (d : goodix_ts_data) : goodix_ts_data :=
  mkTs v (use_irq d) (abs_x_max d) (abs_y_max d) (int_trigger_type d) (enter_update d) (gtp_is_suspend d)
    (gtp_rawdiff_mode d) (gtp_cfg_len d) (fw_error d) (pnl_init_error d) (input_dev d).
Definition with_use_irq (v : Z) (d : goodix_ts_data) : goodix_ts_data :=
  mkTs (irq_is_disable d) v (abs_x_max d) (abs_y_max d) (int_trigger_type d) (enter_update d) (gtp_is_suspend
    d) (gtp_rawdiff_mode d) (gtp_cfg_len d) (fw_error d) (pnl_init_error d) (input_dev d).
Definition with_abs_x_max (v : Z) (d : goodix_ts_data) : goodix_ts_data :=
  mkTs (irq_is_disable d) (use_irq d) v (abs_y_max d) (int_trigger_type d) (enter_update d) (gtp_is_suspend d)
    (gtp_rawdiff_mode d) (gtp_cfg_len d) (fw_error d) (pnl_init_error d) (input_dev d).
Definition with_abs_y_max (v : Z) (d : goodix_ts_data) : goodix_ts_data :=
  mkTs (irq_is_disable d) (use_irq d) (abs_x_max d) v (int_trigger_type d) (enter_update d) (gtp_is_suspend d)
    (gtp_rawdiff_mode d) (gtp_cfg_len d) (fw_error d) (pnl_init_error d) (input_dev d).
Definition with_int_trigger_type (v : Z) (d : goodix_ts_data) : goodix_ts_data :=
  mkTs (irq_is_disable d) (use_irq d) (abs_x_max d) (abs_y_max d) v (enter_update d) (gtp_is_suspend d)
    (gtp_rawdiff_mode d) (gtp_cfg_len d) (fw_error d) (pnl_init_error d) (input_dev d).
Definition with_enter_update (v : Z) (d : goodix_ts_data) : goodix_ts_data :=
  mkTs (irq_is_disable d) (use_irq d) (abs_x_max d) (abs_y_max d) (int_trigger_type d) v (gtp_is_suspend d)
    (gtp_rawdiff_mode d) (gtp_cfg_len d) (fw_error d) (pnl_init_error d) (input_dev d).
Definition with_gtp_is_suspend (v : Z) (d : goodix_ts_data) : goodix_ts_data :=
  mkTs (irq_is_disable d) (use_irq d) (abs_x_max d) (abs_y_max d) (int_trigger_type d) (enter_update d) v
    (gtp_rawdiff_mode d) (gtp_cfg_len d) (fw_error d) (pnl_init_error d) (input_dev d).
Definition with_gtp_rawdiff_mode (v : Z) (d : goodix_ts_data) : goodix_ts_data :=
  mkTs (irq_is_disable d) (use_irq d) (abs_x_max d) (abs_y_max d) (int_trigger_type d) (enter_update d)
    (gtp_is_suspend d) v (gtp_cfg_len d) (fw_error d) (pnl_init_error d) (input_dev d).
Definition with_gtp_cfg_len (v : Z) (d : goodix_ts_data) : goodix_ts_data :=
  mkTs (irq_is_disable d) (use_irq d) (abs_x_max d) (abs_y_max d) (int_trigger_type d) (enter_update d)
    (gtp_is_suspend d) (gtp_rawdiff_mode d) v (fw_error d) (pnl_init_error d) (input_dev d).
Definition with_fw_error (v : Z) (d : goodix_ts_data) : goodix_ts_data :=
  mkTs (irq_is_disable d) (use_irq d) (abs_x_max d) (abs_y_max d) (int_trigger_type d) (enter_update d)
    (gtp_is_suspend d) (gtp_rawdiff_mode d) (gtp_cfg_len d) v (pnl_init_error d) (input_dev d).
Definition with_pnl_init_error (v : Z) (d : goodix_ts_data) : goodix_ts_data :=
  mkTs (irq_is_disable d) (use_irq d) (abs_x_max d) (abs_y_max d) (int_trigger_type d) (enter_update d)
    (gtp_is_suspend d) (gtp_rawdiff_mode d) (gtp_cfg_len d) (fw_error d) v (input_dev d).
Definition with_input_dev (v : bool) (d : goodix_ts_data) : goodix_ts_data :=
  mkTs (irq_is_disable d) (use_irq d) (abs_x_max d) (abs_y_max d) (int_trigger_type d) (enter_update d)
    (gtp_is_suspend d) (gtp_rawdiff_mode d) (gtp_cfg_len d) (fw_error d) (pnl_init_error d) v.

(** The variables of [gt9xx.c]. *)
Record statics := mkStatics {
  touch_enable : Z;   (* static of gt9xx.c *)
  config : list Z;   (* the address 0x8047 and 240 bytes *)
  pre_touch : Z;   (* static of goodix_ts_work_func *)
  gtp_rst_gpio : Z;
  gtp_int_gpio : Z
}.

Definition with_touch_enable (v : Z) (d : statics) : statics :=
  mkStatics v (config d) (pre_touch d) (gtp_rst_gpio d) (gtp_int_gpio d).
Definition with_config (v : list Z) (d : statics) : statics :=
  mkStatics (touch_enable d) v (pre_touch d) (gtp_rst_gpio d) (gtp_int_gpio d).
Definition with_pre_touch (v : Z) (d : statics) : statics :=
  mkStatics (touch_enable d) (config d) v (gtp_rst_gpio d) (gtp_int_gpio d).
Definition with_gtp_rst_gpio (v : Z) (d : statics) : statics :=
  mkStatics (touch_enable d) (config d) (pre_touch d) v (gtp_int_gpio d).
Definition with_gtp_int_gpio (v : Z) (d : statics) : statics :=
  mkStatics (touch_enable d) (config d) (pre_touch d) (gtp_rst_gpio d) v.

(** Pointers and handles that binding the driver sets. *)
Record resources := mkRes {
  connect_client : bool;   (* i2c_connect_client is not NULL *)
  client_irq : Z;   (* client->irq *)
  vdd_ana : ptr;   (* static of gtp_power_switch *)
  vcc_i2c : ptr;
  gt91xx_config_proc : bool;
  goodix_wq : bool
}.

Definition with_connect_client (v : bool) (d : resources) : resources :=
  mkRes v (client_irq d) (vdd_ana d) (vcc_i2c d) (gt91xx_config_proc d) (goodix_wq d).
Definition with_client_irq (v : Z) (d : resources) : resources :=
  mkRes (connect_client d) v (vdd_ana d) (vcc_i2c d) (gt91xx_config_proc d) (goodix_wq d).
Definition with_vdd_ana (v : ptr) (d : resources) : resources :=
  mkRes (connect_client d) (client_irq d) v (vcc_i2c d) (gt91xx_config_proc d) (goodix_wq d).
Definition with_vcc_i2c (v : ptr) (d : resources) : resources :=
  mkRes (connect_client d) (client_irq d) (vdd_ana d) v (gt91xx_config_proc d) (goodix_wq d).
Definition with_gt91xx_config_proc (v : bool) (d : resources) : resources :=
  mkRes (connect_client d) (client_irq d) (vdd_ana d) (vcc_i2c d) v (goodix_wq d).
Definition with_goodix_wq (v : bool) (d : resources) : resources :=
  mkRes (connect_client d) (client_irq d) (vdd_ana d) (vcc_i2c d) (gt91xx_config_proc d) v.

(** The variables of [gt9xx_update.c]: [update_msg], the progress and the search. *)
Record update := mkUpdate {
  force_update : Z;
  ic_hw_info : list Z;   (* ic_fw_msg.hw_info, 4 bytes *)
  ic_pid : list Z;   (* ic_fw_msg.pid, 8 bytes *)
  ic_vid : Z;   (* ic_fw_msg.vid *)
  upd_file : filep;   (* update_msg.file *)
  f_pos : Z;   (* update_msg.file->f_pos *)
  cfg_file : filep;
  fw_total_len : Z;
  fw_burned_len : Z;
  old_fs : Z;
  addr_limit : Z;   (* get_fs() of the running task *)
  show_len : Z;
  total_len : Z;
  got_file_flag : Z;
  searching_file : Z
}.

Definition with_force_update (v : Z) (d : update) : update :=
  mkUpdate v (ic_hw_info d) (ic_pid d) (ic_vid d) (upd_file d) (f_pos d) (cfg_file d) (fw_total_len d)
    (fw_burned_len d) (old_fs d) (addr_limit d) (show_len d) (total_len d) (got_file_flag d) (searching_file
    d).
Definition with_ic_hw_info (v : list Z) (d : update) : update :=
  mkUpdate (force_update d) v (ic_pid d) (ic_vid d) (upd_file d) (f_pos d) (cfg_file d) (fw_total_len d)
    (fw_burned_len d) (old_fs d) (addr_limit d) (show_len d) (total_len d) (got_file_flag d) (searching_file
    d).
Definition with_ic_pid (v : list Z) (d : update) : update :=
  mkUpdate (force_update d) (ic_hw_info d) v (ic_vid d) (upd_file d) (f_pos d) (cfg_file d) (fw_total_len d)
    (fw_burned_len d) (old_fs d) (addr_limit d) (show_len d) (total_len d) (got_file_flag d) (searching_file
    d).
Definition with_ic_vid (v : Z) (d : update) : update :=
  mkUpdate (force_update d) (ic_hw_info d) (ic_pid d) v (upd_file d) (f_pos d) (cfg_file d) (fw_total_len d)
    (fw_burned_len d) (old_fs d) (addr_limit d) (show_len d) (total_len d) (got_file_flag d) (searching_file
    d).
Definition with_upd_file (v : filep) (d : update) : update :=
  mkUpdate (force_update d) (ic_hw_info d) (ic_pid d) (ic_vid d) v (f_pos d) (cfg_file d) (fw_total_len d)
    (fw_burned_len d) (old_fs d) (addr_limit d) (show_len d) (total_len d) (got_file_flag d) (searching_file
    d).
Definition with_f_pos (v : Z) (d : update) : update :=
  mkUpdate (force_update d) (ic_hw_info d) (ic_pid d) (ic_vid d) (upd_file d) v (cfg_file d) (fw_total_len d)
    (fw_burned_len d) (old_fs d) (addr_limit d) (show_len d) (total_len d) (got_file_flag d) (searching_file
    d).
Definition with_cfg_file (v : filep) (d : update) : update :=
  mkUpdate (force_update d) (ic_hw_info d) (ic_pid d) (ic_vid d) (upd_file d) (f_pos d) v (fw_total_len d)
    (fw_burned_len d) (old_fs d) (addr_limit d) (show_len d) (total_len d) (got_file_flag d) (searching_file
    d).
Definition with_fw_total_len (v : Z) (d : update) : update :=
  mkUpdate (force_update d) (ic_hw_info d) (ic_pid d) (ic_vid d) (upd_file d) (f_pos d) (cfg_file d) v
    (fw_burned_len d) (old_fs d) (addr_limit d) (show_len d) (total_len d) (got_file_flag d) (searching_file
    d).
Definition with_fw_burned_len (v : Z) (d : update) : update :=
  mkUpdate (force_update d) (ic_hw_info d) (ic_pid d) (ic_vid d) (upd_file d) (f_pos d) (cfg_file d)
    (fw_total_len d) v (old_fs d) (addr_limit d) (show_len d) (total_len d) (got_file_flag d) (searching_file
    d).
Definition with_old_fs (v : Z) (d : update) : update :=
  mkUpdate (force_update d) (ic_hw_info d) (ic_pid d) (ic_vid d) (upd_file d) (f_pos d) (cfg_file d)
    (fw_total_len d) (fw_burned_len d) v (addr_limit d) (show_len d) (total_len d) (got_file_flag d)
    (searching_file d).
Definition with_addr_limit (v : Z) (d : update) : update :=
  mkUpdate (force_update d) (ic_hw_info d) (ic_pid d) (ic_vid d) (upd_file d) (f_pos d) (cfg_file d)
    (fw_total_len d) (fw_burned_len d) (old_fs d) v (show_len d) (total_len d) (got_file_flag d)
    (searching_file d).
Definition with_show_len (v : Z) (d : update) : update :=
  mkUpdate (force_update d) (ic_hw_info d) (ic_pid d) (ic_vid d) (upd_file d) (f_pos d) (cfg_file d)
    (fw_total_len d) (fw_burned_len d) (old_fs d) (addr_limit d) v (total_len d) (got_file_flag d)
    (searching_file d).
Definition with_total_len (v : Z) (d : update) : update :=
  mkUpdate (force_update d) (ic_hw_info d) (ic_pid d) (ic_vid d) (upd_file d) (f_pos d) (cfg_file d)
    (fw_total_len d) (fw_burned_len d) (old_fs d) (addr_limit d) (show_len d) v (got_file_flag d)
    (searching_file d).
Definition with_got_file_flag (v : Z) (d : update) : update :=
  mkUpdate (force_update d) (ic_hw_info d) (ic_pid d) (ic_vid d) (upd_file d) (f_pos d) (cfg_file d)
    (fw_total_len d) (fw_burned_len d) (old_fs d) (addr_limit d) (show_len d) (total_len d) v (searching_file
    d).
Definition with_searching_file (v : Z) (d : update) : update :=
  mkUpdate (force_update d) (ic_hw_info d) (ic_pid d) (ic_vid d) (upd_file d) (f_pos d) (cfg_file d)
    (fw_total_len d) (fw_burned_len d) (old_fs d) (addr_limit d) (show_len d) (total_len d) (got_file_flag d)
    v.

(** The whole driver, and what it has done so far. *)
Record gworld := mkG {
  g_ptr : ptr;   (* i2c_get_clientdata(client) *)
  g_ts : goodix_ts_data;
  g_st : statics;
  g_res : resources;
  g_upd : update;
  g_trace : list teffect
}.

Definition with_g_ptr (v : ptr) (s : gworld) : gworld :=
  mkG v (g_ts s) (g_st s) (g_res s) (g_upd s) (g_trace s).
Definition with_g_ts (v : goodix_ts_data) (s : gworld) : gworld :=
  mkG (g_ptr s) v (g_st s) (g_res s) (g_upd s) (g_trace s).
Definition with_g_st (v : statics) (s : gworld) : gworld :=
  mkG (g_ptr s) (g_ts s) v (g_res s) (g_upd s) (g_trace s).
Definition with_g_res (v : resources) (s : gworld) : gworld :=
  mkG (g_ptr s) (g_ts s) (g_st s) v (g_upd s) (g_trace s).
Definition with_g_upd (v : update) (s : gworld) : gworld :=
  mkG (g_ptr s) (g_ts s) (g_st s) (g_res s) v (g_trace s).
Definition with_g_trace (v : list teffect) (s : gworld) : gworld :=
  mkG (g_ptr s) (g_ts s) (g_st s) (g_res s) (g_upd s) v.

(** ** The kernel *)

(** Every call is an effect, and its answer may depend on everything the
    driver has done before. *)
Class GtpKernel := {
  gp_addr : Z;                                      (* client->addr *)
  gp_xfer : list teffect -> Z;                      (* result of i2c_transfer *)
  gp_device : list teffect -> list Z -> list Z -> list Z;
      (* the buffer after a read of this address, from what it was before *)
  gp_device_len : forall tr a old, length (gp_device tr a old) = length old;
  gp_gpio_request : list teffect -> Z;
  gp_gpio_to_irq : Z -> Z;
  gp_request_irq : list teffect -> Z;
  gp_alloc : list teffect -> bool;
  gp_input_alloc : list teffect -> bool;
  gp_input_register : list teffect -> Z;
  gp_regulator_get : list teffect -> Z;             (* 0, or PTR_ERR *)
  gp_regulator : list teffect -> Z;                 (* enable and disable *)
  gp_proc_create : list teffect -> bool;
  gp_functionality : bool;                          (* i2c_check_functionality *)
  gp_kthread : list teffect -> bool;
  gp_workqueue : list teffect -> bool;
  gp_add_driver : list teffect -> Z;
  gp_of_node : bool;
  gp_of_gpio : list Z -> Z;                         (* of_get_named_gpio *)
  gp_property : list Z -> option (list Z);          (* of_find_property *)
  gp_open : list teffect -> option (list Z);        (* filp_open: the contents, or an error pointer *)
  gp_read : list teffect -> bool;                   (* whether f_op->read works *)
  gp_stopped : list teffect -> bool;                (* another update cleared searching_file meanwhile *)
  gp_progress : list teffect -> option Z;           (* another update set show_len meanwhile *)
  gp_junk : list teffect -> nat -> list Z;          (* a local array before it is written *)
  gp_junk_len : forall tr n, length (gp_junk tr n) = n;
  gp_polls : nat   (* how many polls of the chip's burn state the model follows *)
}.

Section Bus.
Context `{GtpKernel}.

Definition g_emit (e : teffect) (s : gworld) : gworld := with_g_trace (g_trace s ++ [e]) s.
Definition g_do (e : teffect) : prog gworld unit := modify (g_emit e).
Definition g_ask {A} (f : list teffect -> A) : prog gworld A := fun s => Ret (f (g_trace s)) s.
Definition g_call {A} (e : teffect) (f : list teffect -> A) : prog gworld A := do* g_do e; g_ask f.
Definition g_gets {A} (f : gworld -> A) : prog gworld A := fun s => Ret (f s) s.

(** A member of [*ts], read and written through the pointer. *)
Definition deref (p : ptr) : prog gworld unit :=
  match p with Live => ret tt | Null => fault_with NullDeref | Freed => fault_with UseAfterFree end.
Definition ts_get {A} (f : goodix_ts_data -> A) : prog gworld A :=
  do* (let* p := g_gets g_ptr in deref p); g_gets (fun s => f (g_ts s)).
Definition ts_set (f : goodix_ts_data -> goodix_ts_data) : prog gworld unit :=
  do* (let* p := g_gets g_ptr in deref p); modify (fun s => with_g_ts (f (g_ts s)) s).
Definition st_set (f : statics -> statics) : prog gworld unit := modify (fun s => with_g_st (f (g_st s)) s).
Definition res_set (f : resources -> resources) : prog gworld unit := modify (fun s => with_g_res (f (g_res s)) s).
Definition upd_set (f : update -> update) : prog gworld unit := modify (fun s => with_g_upd (f (g_upd s)) s).

(** ** Reset *)

Definition gtp_int_sync (ms : Z) : prog gworld unit :=
  let* p := g_gets (fun s => gtp_int_gpio (g_st s)) in
  do* g_do (PinOut p 0);
  do* g_do (Sleep ms);
  g_do (PinIn p).

Definition gtp_reset_guitar (ms : Z) : prog gworld unit :=
  let* rst := g_gets (fun s => gtp_rst_gpio (g_st s)) in
  let* int := g_gets (fun s => gtp_int_gpio (g_st s)) in
  do* g_do (PinOut rst 0);
  do* g_do (Sleep ms);
  do* g_do (PinOut int (if gp_addr =? 20 then 1 else 0));
  do* g_do (Sleep 2);
  do* g_do (PinOut rst 1);
  do* g_do (Sleep 6);
  do* g_do (PinIn rst);
  gtp_int_sync 50.

(** ** Transfers *)

(** One [i2c_transfer] of an address and a read of [len - 2] bytes: the result
    and the buffer.  The length of a message is 16 bits. *)
Definition xfer_read (buf : list Z) (len : Z) : prog gworld (Z * list Z) :=
  let n := u16 (len - GTP_ADDR_LENGTH) in
  let* a := lift OutOfBounds (range buf 0 GTP_ADDR_LENGTH) in
  let* old := lift OutOfBounds (range buf GTP_ADDR_LENGTH n) in
  let* r := g_call (XRead a n) (fun tr => (gp_xfer tr, gp_device tr a old)) in
  let* buf := lift OutOfBounds (memcpy buf GTP_ADDR_LENGTH (snd r) 0 n) in
  ret (fst r, buf).

(** [while (retries < 5) ...]: result, number of failures, buffer. *)
Fixpoint rd_loop (n : nat) (r retries : Z) (buf : list Z) (len : Z) : prog gworld (Z * Z * list Z) :=
  match n with
  | O => ret (r, retries, buf)
  | S n' =>
      let* x := xfer_read buf len in
      if fst x =? 2 then ret (fst x, retries, snd x) else rd_loop n' (fst x) (retries + 1) (snd x) len
  end.

Definition gtp_i2c_read (buf : list Z) (len : Z) : prog gworld (Z * list Z) :=
  let* x := rd_loop 5 (-1) 0 buf len in
  let '(r, retries, buf) := x in
  do* (if 5 <=? retries then gtp_reset_guitar 10 else ret tt);
  ret (r, buf).

Fixpoint wr_loop (n : nat) (r retries : Z) (b : list Z) : prog gworld (Z * Z) :=
  match n with
  | O => ret (r, retries)
  | S n' =>
      let* r := g_call (XWrite b) gp_xfer in
      if r =? 1 then ret (r, retries) else wr_loop n' r (retries + 1) b
  end.

Definition gtp_i2c_write (buf : list Z) (len : Z) : prog gworld Z :=
  let* b := lift OutOfBounds (range buf 0 (u16 len)) in
  let* x := wr_loop 5 (-1) 0 b in
  do* (if 5 <=? snd x then gtp_reset_guitar 10 else ret tt);
  ret (fst x).

(** [memset(buf, v, 16)] and the address. *)
Definition check_buf (v addr : Z) : list Z :=
  u8 (Z.shiftr addr 8) :: u8 (Z.land addr 255) :: replicate 14 v.

(** Three rounds of two reads; the bytes read, when both agree. *)
Fixpoint dbl_loop (n : nat) (addr len : Z) : prog gworld (option (list Z)) :=
  match n with
  | O => ret None
  | S n' =>
      let* x := gtp_i2c_read (check_buf 170 addr) (len + 2) in
      let* y := gtp_i2c_read (check_buf 171 addr) (len + 2) in
      let* b1 := lift OutOfBounds (range (snd x) 0 (len + 2)) in
      let* b2 := lift OutOfBounds (range (snd y) 0 (len + 2)) in
      if bool_decide (b1 = b2) then
        let* d := lift OutOfBounds (range (snd y) 2 len) in
        ret (Some d)
      else dbl_loop n' addr len
  end.

(** [Some] bytes for SUCCESS and the [len] bytes stored in [rxbuf]; [None] for
    FAIL. *)
Definition gtp_i2c_read_dbl_check (addr len : Z) : prog gworld (option (list Z)) := dbl_loop 3 addr len.

Fixpoint send_loop (n : nat) (r : Z) : prog gworld Z :=
  match n with
  | O => ret r
  | S n' =>
      let* c := g_gets (fun s => config (g_st s)) in
      let* r := gtp_i2c_write c (GTP_CONFIG_MAX_LENGTH + GTP_ADDR_LENGTH) in
      if 0 <? r then ret r else send_loop n' r
  end.

Definition gtp_send_cfg : prog gworld Z :=
  let* e := ts_get pnl_init_error in
  if negb (e =? 0) then ret 0 else send_loop 5 2.

(** ** Interrupts *)

Definition gtp_irq_disable : prog gworld unit :=
  let* n := ts_get irq_is_disable in
  if n =? 0 then do* ts_set (with_irq_is_disable 1); g_do IrqOff else ret tt.

Definition gtp_irq_enable : prog gworld unit :=
  let* n := ts_get irq_is_disable in
  if negb (n =? 0) then do* g_do IrqOn; ts_set (with_irq_is_disable 0) else ret tt.

(** Called by the spider driver. *)
Definition gtp_touch_enalbe (enable : Z) : prog gworld unit := st_set (with_touch_enable enable).

End Bus.

(** ** Programs that only call the kernel

    [ext tr s] is [s] after the effects [tr]; [emits c s Q] says that [c]
    returns, changes nothing of the driver's memory, and that [Q] holds of its
    result and its effects. *)

Definition ext (tr : list teffect) (s : gworld) : gworld := with_g_trace (g_trace s ++ tr) s.

Definition emits {A} (c : prog gworld A) (s : gworld) (Q : A -> list teffect -> Prop) : Prop :=
  exists a tr, c s = Ret a (ext tr s) /\ Q a tr.

Lemma ext_nil s : ext [] s = s.
Proof. unfold ext. rewrite app_nil_r. by destruct s. Qed.

Lemma ext_ext a b s : ext b (ext a s) = ext (a ++ b) s.
Proof. unfold ext. cbn. by rewrite app_assoc. Qed.

Lemma ext_trace tr s : g_trace (ext tr s) = g_trace s ++ tr.
Proof. reflexivity. Qed.

Lemma emits_ret {A} (a : A) s (Q : A -> list teffect -> Prop) : Q a [] -> emits (ret a) s Q.
Proof. intros Hq. exists a, []. by rewrite ext_nil. Qed.

Lemma emits_mono {A} (c : prog gworld A) s (P Q : A -> list teffect -> Prop) :
  emits c s P -> (forall a tr, P a tr -> Q a tr) -> emits c s Q.
Proof. intros (a & tr & E & Hp) Hm. exists a, tr. auto. Qed.

Lemma emits_bind {A B} (c : prog gworld A) (k : A -> prog gworld B) s P Q :
  emits c s P ->
  (forall a tr, P a tr -> emits (k a) (ext tr s) (fun b tr' => Q b (tr ++ tr'))) ->
  emits (bind c k) s Q.
Proof.
  intros (a & tr & E & Hp) K. destruct (K a tr Hp) as (b & tr' & E' & Hq).
  exists b, (tr ++ tr'). rewrite (bind_Ret _ _ _ _ _ E), E', ext_ext. done.
Qed.

Lemma emits_gets {A} (f : gworld -> A) s : emits (g_gets f) s (fun a tr => a = f s /\ tr = []).
Proof. exists (f s), []. by rewrite ext_nil. Qed.

Lemma emits_do e s : emits (g_do e) s (fun _ tr => tr = [e]).
Proof. by exists tt, [e]. Qed.

Lemma emits_call {A} e (f : list teffect -> A) s :
  emits (g_call e f) s (fun a tr => a = f (g_trace s ++ [e]) /\ tr = [e]).
Proof. by exists (f (g_trace s ++ [e])), [e]. Qed.

Lemma emits_lift {A} f (o : option A) a s : o = Some a -> emits (lift f o) s (fun b tr => b = a /\ tr = []).
Proof. intros ->. exists a, []. by rewrite ext_nil. Qed.

(** A member of [*ts]. *)
Lemma ts_get_eq {A} (f : goodix_ts_data -> A) s : g_ptr s = Live -> ts_get f s = Ret (f (g_ts s)) s.
Proof. intros E. unfold ts_get, bind, g_gets. by rewrite E. Qed.

Lemma ts_set_eq f s : g_ptr s = Live -> ts_set f s = Ret tt (with_g_ts (f (g_ts s)) s).
Proof. intros E. unfold ts_set, bind, g_gets. by rewrite E. Qed.

Lemma emits_ts_get {A} (f : goodix_ts_data -> A) s :
  g_ptr s = Live -> emits (ts_get f) s (fun a tr => a = f (g_ts s) /\ tr = []).
Proof. intros E. exists (f (g_ts s)), []. by rewrite ext_nil, ts_get_eq. Qed.

(** Effects on the bus, the pins and the clock. *)
Definition busy (e : teffect) : bool :=
  match e with XWrite _ | XRead _ _ | Sleep _ | PinOut _ _ | PinIn _ => true | _ => false end.
Definition bus (tr : list teffect) : Prop := Forall (fun e => busy e = true) tr.

Lemma bus_app a b : bus (a ++ b) <-> bus a /\ bus b.
Proof. apply Forall_app. Qed.

(** The same without writing to the chip. *)
Definition asking (e : teffect) : bool :=
  match e with XRead _ _ | Sleep _ | PinOut _ _ | PinIn _ => true | _ => false end.
Definition asks (tr : list teffect) : Prop := Forall (fun e => asking e = true) tr.

Lemma asks_app a b : asks (a ++ b) <-> asks a /\ asks b.
Proof. apply Forall_app. Qed.

Lemma asks_bus tr : asks tr -> bus tr.
Proof. intros Ha. eapply Forall_impl; [exact Ha|]. by intros []. Qed.

(** One step of a program that emits. *)
Ltac e_step := first
  [ eapply emits_bind; [apply emits_gets|]; intros ? ? [-> ->]
  | eapply emits_bind; [apply emits_do|]; intros ? ? ->
  | eapply emits_bind; [apply emits_call|]; intros ? ? [-> ->]
  | eapply emits_bind; [apply emits_ts_get; assumption|]; intros ? ? [-> ->] ];
  rewrite ?ext_nil, ?ext_ext; cbn [app].

Section BusFacts.
Context `{GtpKernel}.

(** The pins of a reset. *)
Definition reset_pins (rst int ms : Z) : list teffect :=
  [PinOut rst 0; Sleep ms; PinOut int (if gp_addr =? 20 then 1 else 0); Sleep 2; PinOut rst 1; Sleep 6;
   PinIn rst; PinOut int 0; Sleep 50; PinIn int].

Lemma reset_eq ms s :
  gtp_reset_guitar ms s =
    Ret tt (ext (reset_pins (gtp_rst_gpio (g_st s)) (gtp_int_gpio (g_st s)) ms) s).
Proof.
  unfold gtp_reset_guitar, gtp_int_sync, g_gets, g_do, bind, modify. f_equal. unfold g_emit, ext. cbn.
  by rewrite <- !app_assoc.
Qed.

Lemma reset_emits ms s :
  emits (gtp_reset_guitar ms) s (fun _ tr => tr = reset_pins (gtp_rst_gpio (g_st s)) (gtp_int_gpio (g_st s)) ms).
Proof. eexists _, _. split; [apply reset_eq|done]. Qed.

Lemma reset_bus rst int ms : bus (reset_pins rst int ms).
Proof. repeat constructor. Qed.

(** The buffer of a read keeps its address and its length. *)
Definition same_head (b b' : list Z) : Prop := length b' = length b /\ take 2 b' = take 2 b.

#[export] Instance same_head_preorder : PreOrder same_head.
Proof. split; [by intros b|]. intros a b c [E1 E2] [F1 F2]. split; congruence. Qed.

Lemma range_eq b off n :
  0 <= off -> 0 <= n -> off + n <= zlen b -> range b off n = Some (take (Z.to_nat n) (drop (Z.to_nat off) b)).
Proof.
  intros H1 H2 H3. unfold range.
  destruct ((0 <=? off) && (0 <=? n) && (off + n <=? zlen b)) eqn:E; [done|].
  rewrite !andb_false_iff in E. bool_cases. lia.
Qed.

(** What one transfer of a read does. *)
Definition answer (tr : list teffect) (buf : list Z) (n : Z) : list Z :=
  splice buf 2 (gp_device tr (take 2 buf) (take (Z.to_nat n) (drop 2 buf))).

Lemma xfer_read_eq buf len s :
  2 <= len <= zlen buf -> len - 2 < 65536 ->
  let tr := g_trace s ++ [XRead (take 2 buf) (len - 2)] in
  xfer_read buf len s = Ret (gp_xfer tr, answer tr buf (len - 2)) (ext [XRead (take 2 buf) (len - 2)] s).
Proof.
  intros Hl Hn tr. unfold xfer_read, GTP_ADDR_LENGTH. rewrite u16_id by lia.
  rewrite (range_eq buf 0 2), (range_eq buf 2 (len - 2)) by lia. rewrite !bind_lift_Some. unfold g_call.
  rewrite bind_bind. unfold g_do. rewrite bind_modify. unfold g_ask. rewrite bind_unfold. cbn [fst snd].
  change (drop (Z.to_nat 0) buf) with buf. change (Z.to_nat 2) with 2%nat.
  change (g_trace (g_emit (XRead (take 2 buf) (len - 2)) s)) with tr.
  set (d := gp_device tr _ _).
  assert (length d = Z.to_nat (len - 2)) as Ld.
  { unfold d. rewrite gp_device_len, length_take, length_drop. unfold zlen in *. lia. }
  rewrite memcpy_Some by (unfold zlen in *; lia). rewrite bind_lift_Some. unfold ret. f_equal. f_equal.
  rewrite drop_0, take_ge by lia. done.
Qed.

Lemma answer_head tr buf n : (2 <= length buf)%nat -> same_head buf (answer tr buf n).
Proof.
  intros Hl. unfold answer. split.
  - apply length_splice. rewrite gp_device_len, length_take, length_drop. lia.
  - unfold splice. rewrite take_app_le by (rewrite length_take; lia). by rewrite take_take.
Qed.

(** What [n] attempts at [e] did: the first that was answered with [ok], or
    all of them. *)
Definition tried (n : nat) (e : teffect) (ok : Z) (tr0 tr : list teffect) (r : Z) (won : bool) : Prop :=
  exists m, (m <= n)%nat /\ tr = replicate m e /\
    (forall i, (1 <= i <= n)%nat -> (i < m)%nat \/ won = false -> gp_xfer (tr0 ++ replicate i e) <> ok) /\
    (if won then (1 <= m)%nat /\ r = ok else m = n /\ (n <> 0%nat -> r <> ok)) /\
    (m <> 0%nat -> r = gp_xfer (tr0 ++ tr)).

Lemma tried_more n e ok tr0 tr r (won : bool) :
  gp_xfer (tr0 ++ [e]) <> ok -> (n = 0%nat -> r = gp_xfer (tr0 ++ [e])) ->
  tried n e ok (tr0 ++ [e]) tr r won -> tried (S n) e ok tr0 (e :: tr) r won.
Proof.
  intros E E0 (m & Hm & -> & Hf & Hw & Hr). exists (S m). split_and!; [lia|done| | |].
  - intros i Hi Hiw. destruct i as [|i]; [lia|]. cbn [replicate]. destruct i as [|i]; [done|].
    specialize (Hf (S i) ltac:(lia)). rewrite <- app_assoc in Hf. apply Hf. destruct Hiw; [left; lia|by right].
  - destruct won; [lia|]. destruct Hw as [-> Hw]. split; [done|]. intros _. destruct n; [by rewrite E0|by apply Hw].
  - intros _. destruct m as [|m].
    + destruct won; [lia|]. by rewrite E0 by lia.
    + rewrite (Hr ltac:(done)), <- app_assoc. done.
Qed.

Lemma rd_loop_emits n r k buf len s :
  2 <= len <= zlen buf -> len - 2 < 65536 ->
  emits (rd_loop n r k buf len) s (fun x tr => same_head buf (snd x) /\ exists won,
    tried n (XRead (take 2 buf) (len - 2)) 2 (g_trace s) tr (fst (fst x)) won /\
    (n = 0%nat -> fst (fst x) = r) /\
    (if won : bool then snd (fst x) < k + Z.of_nat n /\
        exists b, same_head buf b /\ snd x = answer (g_trace s ++ tr) b (len - 2)
     else snd (fst x) = k + Z.of_nat n)).
Proof.
  intros Hl Hn. revert r k buf s Hl. induction n as [|n IH]; intros r k buf s Hl; cbn [rd_loop].
  - apply emits_ret. split; [done|]. exists false. split_and!; [|done|cbn; lia].
    exists 0%nat. split_and!; (done || lia).
  - pose proof (xfer_read_eq buf len s Hl Hn) as X. cbv zeta in X.
    set (e := XRead (take 2 buf) (len - 2)) in *. set (b1 := answer (g_trace s ++ [e]) buf (len - 2)) in *.
    assert (same_head buf b1) as Hb by (apply answer_head; unfold zlen in *; lia).
    assert (emits (xfer_read buf len) s (fun x tr => x = (gp_xfer (g_trace s ++ [e]), b1) /\ tr = [e])) as X'
      by (eexists _, _; split; [exact X|done]).
    eapply emits_bind; [exact X'|]. intros ? ? [-> ->]. cbn [fst snd].
    destruct (gp_xfer (g_trace s ++ [e]) =? 2) eqn:E; bool_cases.
    + apply emits_ret. cbn [fst snd app]. split; [done|]. exists true. split_and!; [|done|lia|by exists buf].
      exists 1%nat. split_and!; (done || lia).
    + destruct Hb as [Hb1 Hb2]. eapply emits_mono; [apply IH; unfold zlen in *; lia|].
      intros x tr (Hx & won & Ht & Hr & HQ). rewrite Hb2 in Ht. fold e in Ht. rewrite ext_trace in *.
      split; [by transitivity b1|]. exists won. split_and!; [|done|].
      * apply tried_more; [done| |exact Ht]. intros En. by apply Hr.
      * cbn [app]. rewrite <- app_assoc in HQ. destruct won; [|lia].
        destruct HQ as (HQ & b & Hs & Ea). split; [lia|]. exists b. split; [by transitivity b1|done].
Qed.

Lemma wr_loop_emits n r k b s :
  emits (wr_loop n r k b) s (fun x tr => exists won, tried n (XWrite b) 1 (g_trace s) tr (fst x) won /\
    (n = 0%nat -> fst x = r) /\
    (if won : bool then snd x < k + Z.of_nat n else snd x = k + Z.of_nat n)).
Proof.
  revert r k s. induction n as [|n IH]; intros r k s; cbn [wr_loop].
  - apply emits_ret. exists false. split_and!; [|done|cbn; lia].
    exists 0%nat. split_and!; (done || lia).
  - e_step. set (e := XWrite b). destruct (gp_xfer (g_trace s ++ [e]) =? 1) eqn:E; bool_cases.
    + apply emits_ret. cbn [fst snd app]. exists true. split_and!; [|done|lia].
      exists 1%nat. split_and!; (done || lia).
    + eapply emits_mono; [apply IH|]. intros x tr (won & Ht & Hr & HQ). rewrite ext_trace in *.
      exists won. split_and!; [|done|destruct won; lia]. apply tried_more; [done|exact Hr|exact Ht].
Qed.

(** Five attempts, and a reset of the chip when none worked. *)
Definition attempts (e : teffect) (ok : Z) (s : gworld) (tr : list teffect) (r : Z) : Prop :=
  exists won tr1, tried 5 e ok (g_trace s) tr1 r won /\
    tr = tr1 ++ (if won : bool then [] else reset_pins (gtp_rst_gpio (g_st s)) (gtp_int_gpio (g_st s)) 10).

Lemma read_emits buf len s :
  2 <= len <= zlen buf -> len - 2 < 65536 ->
  emits (gtp_i2c_read buf len) s (fun x tr => same_head buf (snd x) /\
    attempts (XRead (take 2 buf) (len - 2)) 2 s tr (fst x) /\
    (fst x = 2 -> exists b, same_head buf b /\ snd x = answer (g_trace s ++ tr) b (len - 2))).
Proof.
  intros Hl Hn. unfold gtp_i2c_read. eapply emits_bind; [by apply rd_loop_emits|].
  intros [[r k] b'] tr (Hs & won & Ht & _ & HQ). cbn [fst snd] in *.
  eapply emits_bind with (P := fun _ tr' => tr' = if won then [] else
    reset_pins (gtp_rst_gpio (g_st s)) (gtp_int_gpio (g_st s)) 10).
  { destruct won.
    - destruct (5 <=? k) eqn:E; bool_cases; [lia|]. by apply emits_ret.
    - destruct (5 <=? k) eqn:E; bool_cases; [|lia]. apply (reset_emits 10 (ext tr s)). }
  intros _ tr' ->. apply emits_ret. cbn [fst snd]. rewrite app_nil_r. split_and!; [done| |].
  - by exists won, tr.
  - intros ->. destruct won; [|destruct Ht as (m & _ & _ & _ & [_ Hb] & _); by destruct Hb].
    rewrite app_nil_r. apply HQ.
Qed.

Lemma write_emits buf len s :
  0 <= len <= zlen buf -> len < 65536 ->
  emits (gtp_i2c_write buf len) s (fun r tr => attempts (XWrite (take (Z.to_nat len) buf)) 1 s tr r).
Proof.
  intros Hl Hn. unfold gtp_i2c_write. rewrite u16_id, range_take by lia.
  eapply emits_bind; [by apply emits_lift|]. intros b tr [-> ->]. rewrite ext_nil. cbn [app].
  eapply emits_bind; [apply wr_loop_emits|]. intros [r k] tr (won & Ht & _ & HQ). cbn [fst snd] in *.
  eapply emits_bind with (P := fun _ tr' => tr' = if won then [] else
    reset_pins (gtp_rst_gpio (g_st s)) (gtp_int_gpio (g_st s)) 10).
  { destruct won.
    - destruct (5 <=? k) eqn:E; bool_cases; [lia|]. by apply emits_ret.
    - destruct (5 <=? k) eqn:E; bool_cases; [|lia]. apply (reset_emits 10 (ext tr s)). }
  intros _ tr' ->. apply emits_ret. rewrite app_nil_r. by exists won, tr.
Qed.

Lemma tried_bus n e ok tr0 tr r won : busy e = true -> tried n e ok tr0 tr r won -> bus tr.
Proof. intros He (m & _ & -> & _). by apply Forall_replicate. Qed.

Lemma attempts_bus e ok s tr r : busy e = true -> attempts e ok s tr r -> bus tr.
Proof.
  intros He (won & tr1 & Ht & ->). apply bus_app. split; [by eapply tried_bus|].
  destruct won; [constructor|apply reset_bus].
Qed.

Lemma read_asks buf len s :
  2 <= len <= zlen buf -> len - 2 < 65536 ->
  emits (gtp_i2c_read buf len) s (fun x tr => asks tr /\ same_head buf (snd x)).
Proof.
  intros Hl Hn. eapply emits_mono; [by apply read_emits|]. intros x tr (Hs & (won & tr1 & Ht & ->) & _).
  split; [|done]. apply asks_app. split; [|destruct won; by repeat constructor].
  destruct Ht as (m & _ & -> & _). by apply Forall_replicate.
Qed.

Lemma read_bus buf len s :
  2 <= len <= zlen buf -> len - 2 < 65536 ->
  emits (gtp_i2c_read buf len) s (fun x tr => bus tr /\ same_head buf (snd x)).
Proof.
  intros Hl Hn. eapply emits_mono; [by apply read_asks|]. intros x tr [Ha Hs]. by split; [apply asks_bus|].
Qed.

Lemma write_bus buf len s :
  0 <= len <= zlen buf -> len < 65536 -> emits (gtp_i2c_write buf len) s (fun _ tr => bus tr).
Proof. intros Hl Hn. eapply emits_mono; [by apply write_emits|]. intros r tr Ha. revert Ha. by apply attempts_bus. Qed.

(** ** The double check *)

Lemma check_buf_length v a : length (check_buf v a) = 16%nat.
Proof. reflexivity. Qed.

Lemma same_head_split b b' : (2 <= length b)%nat -> same_head b b' -> b' = take 2 b ++ drop 2 b'.
Proof. intros Hl [_ E]. by rewrite <- E, take_drop. Qed.

(** The data both reads agree on. *)
Definition data_of (b : list Z) (len : Z) : list Z := take (Z.to_nat len) (drop 2 b).

Lemma dbl_step n addr len s :
  0 <= len <= 14 ->
  exists b1 b2 tr1 tr2,
    let s1 := ext tr1 s in let s2 := ext (tr1 ++ tr2) s in
    gtp_i2c_read (check_buf 170 addr) (len + 2) s = Ret b1 s1 /\
    gtp_i2c_read (check_buf 171 addr) (len + 2) s1 = Ret b2 s2 /\
    asks (tr1 ++ tr2) /\ length (data_of (snd b2) len) = Z.to_nat len /\
    dbl_loop (S n) addr len s =
      if decide (data_of (snd b1) len = data_of (snd b2) len) then Ret (Some (data_of (snd b2) len)) s2
      else dbl_loop n addr len s2.
Proof.
  intros Hl.
  destruct (read_asks (check_buf 170 addr) (len + 2) s) as (x & tr1 & E1 & B1 & H1);
    [change (zlen (check_buf 170 addr)) with 16; lia|lia|].
  destruct (read_asks (check_buf 171 addr) (len + 2) (ext tr1 s)) as (y & tr2 & E2 & B2 & H2);
    [change (zlen (check_buf 171 addr)) with 16; lia|lia|].
  exists x, y, tr1, tr2. cbv zeta. split_and!; [done|by rewrite E2, ext_ext|by apply asks_app| |].
  { unfold data_of. rewrite length_take, length_drop. destruct H2 as [-> _]. cbn. lia. }
  cbn [dbl_loop]. rewrite (bind_Ret _ _ _ _ _ E1), (bind_Ret _ _ _ _ _ E2), ext_ext.
  assert (zlen (snd x) = 16) as L1 by (unfold zlen; by rewrite (proj1 H1)).
  assert (zlen (snd y) = 16) as L2 by (unfold zlen; by rewrite (proj1 H2)).
  rewrite !range_take by lia. rewrite !bind_lift_Some.
  assert (forall b v, same_head (check_buf v addr) b ->
    take (Z.to_nat (len + 2)) b = take 2 (check_buf v addr) ++ data_of b len) as T.
  { intros b v Hs. rewrite (same_head_split (check_buf v addr) b ltac:(rewrite check_buf_length; lia) Hs) at 1. unfold data_of.
    replace (Z.to_nat (len + 2)) with (2 + Z.to_nat len)%nat by lia. reflexivity. }
  rewrite (T _ _ H1), (T _ _ H2). change (take 2 (check_buf 170 addr)) with (take 2 (check_buf 171 addr)).
  destruct (decide (data_of (snd x) len = data_of (snd y) len)) as [Ed|Ed].
  - rewrite bool_decide_eq_true_2 by (by rewrite Ed). rewrite range_eq by lia. by rewrite bind_lift_Some.
  - rewrite bool_decide_eq_false_2; [done|]. intros Eq. apply Ed. by apply app_inv_head in Eq.
Qed.

(** The chip answered a read of [a] with [d] in a transfer that worked. *)
Definition answered (tr : list teffect) (a d : list Z) : Prop :=
  gp_xfer tr = 2 /\ exists old, length old = length d /\ gp_device tr a old = d.

(** A transfer that fails stores nothing. *)
Definition failures_store_nothing : Prop :=
  forall tr a old, gp_xfer tr <> 2 -> gp_device tr a old = old.

Lemma rd_loop_buffer n r k buf len s :
  failures_store_nothing -> 2 <= len <= zlen buf -> len - 2 < 65536 ->
  emits (rd_loop n r k buf len) s (fun x tr => gp_xfer (g_trace s ++ tr) <> 2 \/ n = 0%nat -> snd x = buf).
Proof.
  intros Hf Hl Hn. revert r k s. induction n as [|n IH]; intros r k s; cbn [rd_loop]; [by apply emits_ret|].
  pose proof (xfer_read_eq buf len s Hl Hn) as X. cbv zeta in X.
  set (e := XRead (take 2 buf) (len - 2)) in *. set (b1 := answer (g_trace s ++ [e]) buf (len - 2)) in *.
  assert (emits (xfer_read buf len) s (fun x tr => x = (gp_xfer (g_trace s ++ [e]), b1) /\ tr = [e])) as X'
    by (eexists _, _; split; [exact X|done]).
  eapply emits_bind; [exact X'|]. intros ? ? [-> ->]. cbn [fst snd].
  destruct (gp_xfer (g_trace s ++ [e]) =? 2) eqn:E; bool_cases.
  - apply emits_ret. cbn [snd]. rewrite app_nil_r. intros [?|?]; done.
  - assert (b1 = buf) as ->.
    { unfold b1, answer. rewrite Hf by done. unfold splice. rewrite length_take, length_drop.
      rewrite app_assoc. replace (2 + _)%nat with (Z.to_nat len) by (unfold zlen in *; lia).
      replace (take 2 buf ++ take (Z.to_nat (len - 2)) (drop 2 buf)) with (take (Z.to_nat len) buf);
        [apply take_drop|]. rewrite <- (take_drop 2 buf) at 1. unfold zlen in *.
      rewrite take_app_ge by (rewrite length_take; lia). rewrite length_take. f_equal. f_equal. lia. }
    eapply emits_mono; [apply IH|]. intros x tr HQ Hx. rewrite ext_trace, <- app_assoc in HQ. apply HQ.
    destruct Hx as [Hx|Hx]; [by left|done].
Qed.

(** A read whose result is not 2 leaves the buffer as it was. *)
Lemma read_failed buf len s x s' :
  failures_store_nothing -> 2 <= len <= zlen buf -> len - 2 < 65536 ->
  gtp_i2c_read buf len s = Ret x s' -> fst x <> 2 -> snd x = buf.
Proof.
  intros Hf Hl Hn E Hx. unfold gtp_i2c_read in E.
  destruct (rd_loop_emits 5 (-1) 0 buf len s Hl Hn) as (y & tr & Ey & _ & won & Ht & _ & HQ).
  destruct (rd_loop_buffer 5 (-1) 0 buf len s Hf Hl Hn) as (y' & tr' & Ey' & HB).
  rewrite Ey in Ey'. injection Ey' as <- Etr.
  apply app_inv_head in Etr as <-.
  rewrite (bind_Ret _ _ _ _ _ Ey) in E. destruct y as [[r k] b]. cbn [fst snd] in *.
  assert (x = (r, b)) as ->.
  { destruct (5 <=? k); [|by injection E as <- _].
    rewrite (bind_Ret _ _ _ _ _ (reset_eq 10 (ext tr s))) in E. by injection E as <- _. }
  cbn [fst snd] in *. apply HB. left. destruct Ht as (m & _ & -> & _ & Hw & Hr).
  destruct won; [lia|]. destruct Hw as [-> Hw]. rewrite <- Hr; [done|done].
Qed.

(** A read that worked stored what the chip answered. *)
Lemma read_answered buf len s x s' :
  2 <= len <= zlen buf -> len - 2 < 65536 ->
  gtp_i2c_read buf len s = Ret x s' -> fst x = 2 ->
  answered (g_trace s') (take 2 buf) (data_of (snd x) (len - 2)).
Proof.
  intros Hl Hn E Hx. destruct (read_emits buf len s Hl Hn) as (y & tr & Ey & Hs & Ha & Hb).
  rewrite E in Ey. injection Ey as <- ->. rewrite ext_trace.
  destruct Ha as (won & tr1 & Ht & Etr). destruct (Hb Hx) as (b & [Hs1 Hs2] & Eb).
  destruct Ht as (m & _ & _ & _ & Hw & Hr). rewrite Hx in Hw.
  destruct won; [|by destruct Hw as [_ []]]. rewrite app_nil_r in Etr. subst tr1.
  split; [rewrite <- Hr; [done|lia]|]. rewrite Eb. unfold answer. rewrite Hs2.
  set (old := take _ (drop 2 b)). exists old.
  assert (length old = Z.to_nat (len - 2)) as Lo
    by (unfold old; rewrite length_take, length_drop; unfold zlen in *; lia).
  set (d := gp_device _ _ old). assert (length d = length old) as Ld by apply gp_device_len.
  assert (data_of (splice b 2 d) (len - 2) = d) as ->; [|by rewrite Ld].
  unfold data_of. rewrite drop_splice by (unfold zlen in *; lia). by rewrite take_app_length' by lia.
Qed.

(** The two bytes of a register address. *)
Definition reg (a : Z) : list Z := [u8 (Z.shiftr a 8); u8 (Z.land a 255)].

(** At some point of the trace the chip answered a read of [a] with [d]. *)
Definition seen (tr : list teffect) (a d : list Z) : Prop := exists p, p `prefix_of` tr /\ answered p a d.

Lemma dbl_loop_sound n addr len s :
  0 <= len <= 14 ->
  emits (dbl_loop n addr len) s (fun o tr => asks tr /\ forall d, o = Some d -> zlen d = len /\
    (failures_store_nothing -> 1 <= len -> seen (g_trace s ++ tr) (reg addr) d)).
Proof.
  intros Hl. revert s. induction n as [|n IH]; intros s.
  { cbn [dbl_loop]. apply emits_ret. by split; [constructor|]. }
  destruct (dbl_step n addr len s Hl) as (x & y & tr1 & tr2 & E1 & E2 & B & Ld & E). unfold emits. rewrite E.
  set (s1 := ext tr1 s) in *. set (s2 := ext (tr1 ++ tr2) s) in *.
  destruct (decide _) as [Ed|Ed].
  - eexists _, _. split; [reflexivity|]. split; [done|]. intros d [= <-]. split; [unfold zlen; lia|].
    intros Hf H1. assert (2 <= len + 2 <= 16 /\ len + 2 - 2 < 65536) as [Hb Hc] by lia.
    destruct (decide (fst y = 2)) as [Hy|Hy].
    { exists (g_trace s2). split; [done|].
      pose proof (read_answered (check_buf 171 addr) (len + 2) s1 y s2 Hb Hc E2 Hy) as A.
      replace (len + 2 - 2) with len in A by lia. exact A. }
    destruct (decide (fst x = 2)) as [Hx|Hx].
    { exists (g_trace s1). split; [exists tr2; unfold s1; by rewrite ext_trace, app_assoc|].
      pose proof (read_answered (check_buf 170 addr) (len + 2) s x s1 Hb Hc E1 Hx) as A.
      replace (len + 2 - 2) with len in A by lia. by rewrite <- Ed. }
    exfalso. rewrite (read_failed (check_buf 170 addr) _ _ _ _ Hf Hb Hc E1 Hx),
      (read_failed (check_buf 171 addr) _ _ _ _ Hf Hb Hc E2 Hy) in Ed.
    unfold data_of in Ed. destruct (Z.to_nat len) eqn:En; [lia|]. cbn in Ed. congruence.
  - destruct (IH s2) as (o & tr & Eo & Bo & Ho). exists o, ((tr1 ++ tr2) ++ tr).
    unfold s2 in Eo. rewrite ext_ext in Eo. split; [exact Eo|]. split; [by apply asks_app|].
    intros d Hd. destruct (Ho d Hd) as [L S]. split; [done|]. intros Hf H1. specialize (S Hf H1).
    unfold s2 in S. by rewrite ext_trace, <- app_assoc in S.
Qed.

Lemma dbl_asks addr len s :
  0 <= len <= 14 ->
  emits (gtp_i2c_read_dbl_check addr len) s (fun o tr => asks tr /\ forall d, o = Some d -> zlen d = len).
Proof.
  intros Hl. eapply emits_mono; [by apply dbl_loop_sound|]. intros o tr [B Ho]. split; [done|].
  intros d Hd. by apply Ho.
Qed.

(** ** A bus on which transfers work *)

Record bus_works : Prop := {
  w_read : forall tr a n, gp_xfer (tr ++ [XRead a n]) = 2;
  w_write : forall tr b, gp_xfer (tr ++ [XWrite b]) = 1
}.

Lemma read_works buf len s :
  bus_works -> 2 <= len <= zlen buf -> len - 2 < 65536 ->
  let e := XRead (take 2 buf) (len - 2) in
  gtp_i2c_read buf len s = Ret (2, answer (g_trace s ++ [e]) buf (len - 2)) (ext [e] s).
Proof.
  intros W Hl Hn e. unfold gtp_i2c_read. cbn [rd_loop].
  rewrite bind_bind, (bind_Ret _ _ _ _ _ (xfer_read_eq buf len s Hl Hn)). cbv zeta. fold e. cbn [fst snd].
  assert (gp_xfer (g_trace s ++ [e]) = 2) as -> by apply W. reflexivity.
Qed.

Lemma write_works buf len s :
  bus_works -> 0 <= len <= zlen buf -> len < 65536 ->
  gtp_i2c_write buf len s = Ret 1 (ext [XWrite (take (Z.to_nat len) buf)] s).
Proof.
  intros W Hl Hn. unfold gtp_i2c_write. rewrite u16_id, range_take by lia. rewrite bind_lift_Some. cbn [wr_loop].
  unfold g_call, g_ask, g_do. rewrite !bind_bind, bind_modify, bind_unfold.
  set (b := take _ _). assert (gp_xfer (g_trace (g_emit (XWrite b) s)) = 1) as -> by apply W. reflexivity.
Qed.

(** What a register read of a stable chip gives. *)
Lemma dbl_works addr len s :
  bus_works -> 0 <= len <= 14 ->
  let e := XRead (reg addr) len in
  let rd v tr := gp_device tr (reg addr) (replicate (Z.to_nat len) v) in
  rd 170 (g_trace s ++ [e]) = rd 171 (g_trace s ++ [e; e]) ->
  gtp_i2c_read_dbl_check addr len s = Ret (Some (rd 171 (g_trace s ++ [e; e]))) (ext [e; e] s).
Proof.
  intros W Hl e rd Eq. unfold gtp_i2c_read_dbl_check.
  destruct (dbl_step 2 addr len s Hl) as (x & y & tr1 & tr2 & E1 & E2 & _ & _ & E). rewrite E.
  assert (forall v s0 z s0', gtp_i2c_read (check_buf v addr) (len + 2) s0 = Ret z s0' ->
    s0' = ext [e] s0 /\ data_of (snd z) len = rd v (g_trace s0 ++ [e])) as R.
  { intros v s0 z s0' Ez. pose proof (read_works (check_buf v addr) (len + 2) s0 W) as R.
    cbv zeta in R. change (take 2 (check_buf v addr)) with (reg addr) in R.
    rewrite R in Ez by (change (zlen (check_buf v addr)) with 16; lia).
    replace (len + 2 - 2) with len in Ez by lia. fold e in Ez. injection Ez as <- <-. split; [done|]. cbn [snd].
    unfold answer. change (take 2 (check_buf v addr)) with (reg addr).
    change (drop 2 (check_buf v addr)) with (replicate 14 v).
    rewrite take_replicate, Nat.min_l by lia. fold (rd v (g_trace s0 ++ [e])). unfold data_of.
    assert (length (rd v (g_trace s0 ++ [e])) = Z.to_nat len) as Lr
      by (unfold rd; by rewrite gp_device_len, length_replicate).
    rewrite drop_splice by (rewrite check_buf_length; lia). by rewrite take_app_length' by done. }
  destruct (R _ _ _ _ E1) as [S1 D1]. destruct (R _ _ _ _ E2) as [S2 D2].
  rewrite S1, ext_trace, <- app_assoc in D2. cbn [app] in D2.
  destruct (decide _) as [_|N]; [|by rewrite D1, D2 in N]. by rewrite D2, S2, S1, ext_ext.
Qed.

(** ** The configuration *)

(** Nothing but [b] was written, and [b] was. *)
Definition sends (b : list Z) (tr : list teffect) : Prop :=
  Forall (fun e => asking e = true \/ e = XWrite b) tr /\ XWrite b ∈ tr.

Lemma write_sends buf len s :
  0 <= len <= zlen buf -> len < 65536 ->
  emits (gtp_i2c_write buf len) s (fun _ tr => sends (take (Z.to_nat len) buf) tr).
Proof.
  intros Hl Hn. eapply emits_mono; [by apply write_emits|]. intros r tr (won & tr1 & (m & Hm & -> & _ & Hw & _) & ->).
  split.
  - apply Forall_app. split; [apply Forall_replicate; by right|].
    destruct won; [constructor|]. repeat constructor.
  - destruct m as [|m]; [destruct won; lia|]. cbn. apply elem_of_cons. by left.
Qed.

Lemma sends_bus b tr : sends b tr -> bus tr.
Proof. intros [Ha _]. eapply Forall_impl; [exact Ha|]. intros e [He| ->]; [by destruct e|done]. Qed.

Lemma send_loop_emits n r s :
  length (config (g_st s)) = 242%nat ->
  emits (send_loop n r) s (fun _ tr => n = 0%nat /\ tr = [] \/ sends (config (g_st s)) tr).
Proof.
  intros Hc. revert r s Hc. induction n as [|n IH]; intros r s Hc; cbn [send_loop].
  { apply emits_ret. by left. }
  e_step. unfold GTP_CONFIG_MAX_LENGTH, GTP_ADDR_LENGTH. change (240 + 2) with 242. eapply emits_bind.
  { apply write_sends; unfold zlen; [rewrite Hc|]; lia. }
  intros r' tr S. change (Z.to_nat 242) with 242%nat in S. rewrite take_ge in S by lia.
  destruct (0 <? r'). { apply emits_ret. rewrite app_nil_r. by right. }
  eapply emits_mono; [apply IH; exact Hc|]. intros r2 tr2 [[-> ->]|[S1 S2]]; [rewrite app_nil_r; by right|].
  right. destruct S as [S3 S4]. split; [by apply Forall_app|]. apply elem_of_app. by left.
Qed.

Lemma send_cfg_sends s :
  g_ptr s = Live -> length (config (g_st s)) = 242%nat ->
  emits gtp_send_cfg s (fun _ tr => if pnl_init_error (g_ts s) =? 0 then sends (config (g_st s)) tr else tr = []).
Proof.
  intros Hp Hc. unfold gtp_send_cfg. e_step. destruct (_ =? 0); cbn [negb]; [|by apply emits_ret].
  eapply emits_mono; [by apply send_loop_emits|]. by intros ? ? [[? _]|?].
Qed.

Lemma send_cfg_bus s :
  g_ptr s = Live -> length (config (g_st s)) = 242%nat -> emits gtp_send_cfg s (fun _ tr => bus tr).
Proof.
  intros Hp Hc. eapply emits_mono; [by apply send_cfg_sends|]. intros r tr.
  destruct (_ =? 0); [apply sends_bus|intros ->; constructor].
Qed.

Lemma send_cfg_works s :
  bus_works -> g_ptr s = Live -> length (config (g_st s)) = 242%nat ->
  gtp_send_cfg s =
    if pnl_init_error (g_ts s) =? 0 then Ret 1 (ext [XWrite (config (g_st s))] s) else Ret 0 s.
Proof.
  intros W Hp Hc. unfold gtp_send_cfg. rewrite (bind_Ret _ _ _ _ _ (ts_get_eq _ _ Hp)).
  destruct (pnl_init_error (g_ts s) =? 0); [|done]. cbn [negb send_loop]. rewrite bind_unfold. cbn [g_gets].
  rewrite (bind_Ret _ _ _ _ _ (write_works (config (g_st s)) 242 s W ltac:(unfold zlen; lia) ltac:(lia))).
  change (Z.to_nat 242) with 242%nat. rewrite take_ge by lia. reflexivity.
Qed.

(** ** The interrupt switches *)

Lemma irq_disable_eq s :
  g_ptr s = Live ->
  gtp_irq_disable s = Ret tt (if irq_is_disable (g_ts s) =? 0
    then ext [IrqOff] (with_g_ts (with_irq_is_disable 1 (g_ts s)) s) else s).
Proof.
  intros Hp. unfold gtp_irq_disable. rewrite (bind_Ret _ _ _ _ _ (ts_get_eq _ _ Hp)).
  destruct (_ =? 0); [|done]. by rewrite (bind_Ret _ _ _ _ _ (ts_set_eq _ _ Hp)).
Qed.

Lemma irq_enable_eq s :
  g_ptr s = Live ->
  gtp_irq_enable s = Ret tt (if irq_is_disable (g_ts s) =? 0
    then s else ext [IrqOn] (with_g_ts (with_irq_is_disable 0 (g_ts s)) s)).
Proof.
  intros Hp. unfold gtp_irq_enable. rewrite (bind_Ret _ _ _ _ _ (ts_get_eq _ _ Hp)).
  destruct (_ =? 0); cbn [negb]; [done|]. unfold g_do. rewrite bind_modify. by rewrite ts_set_eq.
Qed.

End BusFacts.

(** ** A chip, for concrete runs

    All transfers work.  The first two effects find a finger on the screen,
    later ones find none; the firmware is valid, the sensor is number 0. *)

Module GtDemo.

Definition finger : list Z := [129; 3; 32; 3; 144; 1; 20; 0; 0] ++ replicate 33 0.
Definition no_finger : list Z := 128 :: replicate 41 0.

Definition registers (tr : list teffect) (a : list Z) : list Z :=
  let points := if (length tr <=? 2)%nat then finger else no_finger in
  if bool_decide (a = reg 33102) then points
  else if bool_decide (a = reg 33112) then drop 10 points
  else if bool_decide (a = reg 16868) then [190]
  else [].

#[refine] Instance kernel : GtpKernel := {
  gp_addr := 20;
  gp_xfer tr := match last tr with Some (XRead _ _) => 2 | _ => 1 end;
  gp_device tr a old := take (length old) (registers tr a ++ replicate (length old) 0);
  gp_device_len := _;
  gp_gpio_request tr := 0; gp_gpio_to_irq p := p + 100; gp_request_irq tr := 0;
  gp_alloc tr := true; gp_input_alloc tr := true; gp_input_register tr := 0;
  gp_regulator_get tr := 0; gp_regulator tr := 0; gp_proc_create tr := true;
  gp_functionality := true; gp_kthread tr := true; gp_workqueue tr := true; gp_add_driver tr := 0;
  gp_of_node := true; gp_of_gpio n := zlen n;
  gp_property n := if bool_decide (n = str "goodix,cfg-group0") then Some (71 :: replicate 185 1) else None;
  gp_open tr := None; gp_read tr := true; gp_stopped tr := false; gp_progress tr := None;
  gp_junk tr n := replicate n 165; gp_junk_len := _; gp_polls := 10
}.
Proof.
  - intros tr a old. rewrite length_take, length_app, length_replicate. lia.
  - intros. apply length_replicate.
Defined.

Lemma works : bus_works.
Proof. split; intros; cbn [gp_xfer kernel]; by rewrite last_snoc. Qed.

Definition unbound : gworld :=
  mkG Null (mkTs 0 0 0 0 0 0 0 0 0 0 0 false) (mkStatics 1 (reg GTP_REG_CONFIG_DATA ++ replicate 240 0) 0 0 0)
    (mkRes false 0 Null Null false true) (mkUpdate 0 [] [] 0 NoFile 0 NoFile 0 0 0 0 0 0 0 0) [].

Definition ready : gworld :=
  mkG Live (mkTs 0 1 480 800 1 0 0 0 186 0 0 true) (g_st unbound) (g_res unbound) (g_upd unbound) [].

End GtDemo.
