(* ===== verification/Gt9xx.v ===== *)
(** * The touch-screen driver: events, suspend and resume

    [gt9xx.c]: the interrupt and timer handlers, the work function that reads
    the touched points and reports them, sleep and wake-up, and the callback of
    the frame buffer that suspends and resumes the driver.  [gstep] interleaves
    them with each other, with the firmware update and with the debug file. *)

From stdpp Require Import base list numbers strings relations.
From Stdlib Require Import ZArith Lia.
From S2P Require Import Prelude Text Kernel GoodixTool GtBus.
Open Scope Z_scope.

Definition GTP_MAX_TOUCH : Z := 5.
Definition GTP_READ_COOR_ADDR : Z := 33102.  (* 0x814E *)
Definition GTP_REG_SLEEP : Z := 32832.       (* 0x8040 *)
Definition BTN_TOUCH : Z := 330.
Definition ABS_MT_TOUCH_MAJOR : Z := 48.
Definition ABS_MT_WIDTH_MAJOR : Z := 50.
Definition ABS_MT_POSITION_X : Z := 53.
Definition ABS_MT_POSITION_Y : Z := 54.
Definition ABS_MT_TRACKING_ID : Z := 57.
Definition FB_EVENT_BLANK : Z := 9.
Definition FB_BLANK_UNBLANK : Z := 0.
Definition FB_BLANK_POWERDOWN : Z := 4.

Section Events.
Context `{GtpKernel}.

(** A report through [ts->input_dev]. *)
Definition input_report (e : teffect) : prog gworld unit :=
  let* dev := ts_get input_dev in
  if dev : bool then g_do e else fault_with NullDeref.

(** [GTP_SWAP] exchanges the coordinates first. *)
Definition gtp_touch_down (id x y w : Z) : prog gworld unit :=
  do* input_report (ReportKey BTN_TOUCH 1);
  do* input_report (ReportAbs ABS_MT_POSITION_X y);
  do* input_report (ReportAbs ABS_MT_POSITION_Y x);
  do* input_report (ReportAbs ABS_MT_TOUCH_MAJOR w);
  do* input_report (ReportAbs ABS_MT_WIDTH_MAJOR w);
  do* input_report (ReportAbs ABS_MT_TRACKING_ID id);
  input_report MtSync.

Definition gtp_touch_up : prog gworld unit := input_report (ReportKey BTN_TOUCH 0).

(** [if (touch_enable)] *)
Definition if_enabled (c : prog gworld unit) : prog gworld unit :=
  let* en := g_gets (fun s => touch_enable (g_st s)) in
  if en =? 0 then ret tt else c.

Definition half (lo hi : Z) : Z := Z.lor lo (Z.shiftl hi 8).

(** The body of the loop over the points. *)
Definition report_point (pd : list Z) (i : Z) : prog gworld unit :=
  let coor_data k := lift OutOfBounds (load8 pd (i * 8 + 3 + k)) in
  let* c0 := coor_data 0 in
  let* c1 := coor_data 1 in
  let* c2 := coor_data 2 in
  let* c3 := coor_data 3 in
  let* c4 := coor_data 4 in
  let* c5 := coor_data 5 in
  let* c6 := coor_data 6 in
  if_enabled (gtp_touch_down (Z.land c0 15) (half c1 c2) (half c3 c4) (half c5 c6)).

Fixpoint points_loop (n : nat) (i : Z) (pd : list Z) : prog gworld unit :=
  match n with
  | O => ret tt
  | S n' => do* report_point pd i; points_loop n' (i + 1) pd
  end.

(** [if (ts->use_irq) gtp_irq_enable(ts);] *)
Definition irq_back : prog gworld unit :=
  let* u := ts_get use_irq in
  if u =? 0 then ret tt else gtp_irq_enable.

Definition exit_work_func : prog gworld unit :=
  let* raw := ts_get gtp_rawdiff_mode in
  do* (if raw =? 0 then do* gtp_i2c_write (reg GTP_READ_COOR_ADDR ++ [0]) 3; ret tt else ret tt);
  irq_back.

(** The second read, of the points after the first: [buf] has 40 bytes. *)
Definition more_points (pd : list Z) (touch_num : Z) : prog gworld (list Z) :=
  if 1 <? touch_num then
    let* y := gtp_i2c_read (reg (GTP_READ_COOR_ADDR + 10) ++ replicate 38 0) (2 + 8 * (touch_num - 1)) in
    lift OutOfBounds (memcpy pd 12 (snd y) 2 (8 * (touch_num - 1)))
  else ret pd.

Definition goodix_ts_work_func : prog gworld unit :=
  let* u := ts_get enter_update in
  if negb (u =? 0) then ret tt
  else
    let* x := gtp_i2c_read (reg GTP_READ_COOR_ADDR ++ replicate 42 0) 12 in
    if fst x <? 0 then irq_back
    else
      let* finger := lift OutOfBounds (load8 (snd x) GTP_ADDR_LENGTH) in
      if finger =? 0 then irq_back
      else if Z.land finger 128 =? 0 then exit_work_func
      else
        let touch_num := Z.land finger 15 in
        if GTP_MAX_TOUCH <? touch_num then exit_work_func
        else
          let* pd := more_points (snd x) touch_num in
          do* (if negb (touch_num =? 0) then points_loop (Z.to_nat touch_num) 0 pd
               else
                 let* pre := g_gets (fun s => pre_touch (g_st s)) in
                 if pre =? 0 then ret tt else if_enabled gtp_touch_up);
          do* st_set (with_pre_touch touch_num);
          do* if_enabled (input_report InputSync);
          exit_work_func.

(** Polling mode: 16 ms. *)
Definition goodix_ts_timer_handler : prog gworld unit :=
  do* g_do QueueWork;
  g_do (TimerStart 16).

Definition goodix_ts_irq_handler : prog gworld unit :=
  do* gtp_irq_disable;
  g_do QueueWork.

(** ** Sleep *)

Fixpoint sleep_loop (n : nat) (r : Z) : prog gworld Z :=
  match n with
  | O => ret r
  | S n' =>
      let* r := gtp_i2c_write (reg GTP_REG_SLEEP ++ [5]) 3 in
      if 0 <? s8 r then ret (s8 r)
      else do* g_do (Sleep 10); sleep_loop n' (s8 r)
  end.

Definition gtp_enter_sleep : prog gworld Z :=
  let* p := g_gets (fun s => gtp_int_gpio (g_st s)) in
  do* g_do (PinOut p 0);
  do* g_do (Sleep 5);
  sleep_loop 5 (-1).

(** The loop of [gtp_wakeup_sleep] returns in its first round. *)
Definition gtp_wakeup_sleep : prog gworld Z :=
  do* gtp_reset_guitar 20;
  ret 1.

Definition goodix_ts_suspend : prog gworld unit :=
  let* u := ts_get enter_update in
  if negb (u =? 0) then ret tt
  else
    do* ts_set (with_gtp_is_suspend 1);
    let* q := ts_get use_irq in
    do* (if q =? 0 then g_do TimerCancel else gtp_irq_disable);
    do* gtp_enter_sleep;
    g_do (Sleep 58).

Definition goodix_ts_resume : prog gworld unit :=
  let* u := ts_get enter_update in
  if negb (u =? 0) then ret tt
  else
    do* gtp_wakeup_sleep;
    do* gtp_send_cfg;
    let* q := ts_get use_irq in
    do* (if q =? 0 then g_do (TimerStart 1000) else gtp_irq_enable);
    ts_set (with_gtp_is_suspend 0).

(** [ev_data->data]: [None] when one of the pointers is NULL. *)
Definition gtp_fb_notifier_callback (event : Z) (blank : option Z) : prog gworld Z :=
  do* match blank with
      | Some b =>
          if event =? FB_EVENT_BLANK then
            if b =? FB_BLANK_UNBLANK then goodix_ts_resume
            else if b =? FB_BLANK_POWERDOWN then goodix_ts_suspend
            else ret tt
          else ret tt
      | None => ret tt
      end;
  ret 0.

Definition gtp_register_powermanger : prog gworld Z := do* g_do FbRegister; ret 0.
Definition gtp_unregister_powermanger : prog gworld Z := do* g_do FbUnregister; ret 0.

End Events.

(** ** Effects that leave the interrupt alone *)

Definition silent_effect (e : teffect) : bool := match e with IrqOff | IrqOn => false | _ => true end.
Definition silent (tr : list teffect) : Prop := Forall (fun e => silent_effect e = true) tr.

Lemma silent_app a b : silent (a ++ b) <-> silent a /\ silent b.
Proof. apply Forall_app. Qed.

Lemma bus_silent tr : bus tr -> silent tr.
Proof. intros Hb. eapply Forall_impl; [exact Hb|]. by intros []. Qed.

(** How often [disable_irq_nosync] was called more than [enable_irq]. *)
Fixpoint irq_depth (tr : list teffect) : Z :=
  match tr with
  | [] => 0
  | e :: tr' => (match e with IrqOff => 1 | IrqOn => -1 | _ => 0 end) + irq_depth tr'
  end.

Lemma irq_depth_app a b : irq_depth (a ++ b) = irq_depth a + irq_depth b.
Proof. induction a as [|e a IH]; cbn; [done|]. rewrite IH. lia. Qed.

Lemma irq_depth_silent tr : silent tr -> irq_depth tr = 0.
Proof. induction 1 as [|e tr He _ IH]; cbn; [done|]. rewrite IH. by destruct e. Qed.

(** ** The invariant of the running driver *)

Record winv (s : gworld) : Prop := {
  wi_ptr : g_ptr s = Live;
  wi_config : length (config (g_st s)) = 242%nat;
  wi_input : input_dev (g_ts s) = true;
  wi_flag : irq_is_disable (g_ts s) = 0 \/ irq_is_disable (g_ts s) = 1;
  wi_depth : irq_depth (g_trace s) = irq_is_disable (g_ts s)
}.

Lemma winv_ext tr s : silent tr -> winv s -> winv (ext tr s).
Proof.
  intros Ht []. constructor; cbn; try done. by rewrite irq_depth_app, (irq_depth_silent tr), Z.add_0_r.
Qed.

(** The variables other than [*ts] may have changed, and silent effects
    happened. *)
Definition upto (s s' : gworld) : Prop :=
  exists tr st, s' = ext tr (with_g_st st s) /\ silent tr /\ length (config st) = length (config (g_st s)).

Lemma upto_refl s : upto s s.
Proof. exists [], (g_st s). rewrite ext_nil. split_and!; [by destruct s|constructor|done]. Qed.

Lemma upto_trans a b c : upto a b -> upto b c -> upto a c.
Proof.
  intros (t1 & st1 & -> & S1 & L1) (t2 & st2 & -> & S2 & L2). exists (t1 ++ t2), st2.
  split_and!; [|by apply silent_app|by rewrite L2].
  unfold ext. cbn. by rewrite app_assoc.
Qed.

#[export] Instance upto_preorder : PreOrder upto.
Proof. split; [exact upto_refl|exact upto_trans]. Qed.

Lemma upto_winv s s' : upto s s' -> winv s -> winv s'.
Proof.
  intros (tr & st & -> & Ht & L) W. apply winv_ext; [done|]. destruct W. constructor; cbn; try done. by rewrite L.
Qed.

Lemma upto_ts s s' : upto s s' -> g_ts s' = g_ts s.
Proof. by intros (tr & st & -> & _). Qed.

(** A program that returns, in a state like this. *)
Definition returns {A} (c : prog gworld A) (s : gworld) (Q : A -> gworld -> Prop) : Prop :=
  exists a s', c s = Ret a s' /\ Q a s'.

Lemma returns_ret {A} (a : A) s (Q : A -> gworld -> Prop) : Q a s -> returns (ret a) s Q.
Proof. intros Hq. by exists a, s. Qed.

Lemma returns_bind {A B} (c : prog gworld A) (k : A -> prog gworld B) s P Q :
  returns c s P -> (forall a s', P a s' -> returns (k a) s' Q) -> returns (bind c k) s Q.
Proof.
  intros (a & s1 & E & Hp) K. destruct (K a s1 Hp) as (b & s2 & E2 & Hq). exists b, s2.
  by rewrite (bind_Ret _ _ _ _ _ E).
Qed.

Lemma returns_mono {A} (c : prog gworld A) s (P Q : A -> gworld -> Prop) :
  returns c s P -> (forall a s', P a s' -> Q a s') -> returns c s Q.
Proof. intros (a & s' & E & Hp) K. exists a, s'. auto. Qed.

Lemma emits_returns {A} (c : prog gworld A) s (P : A -> list teffect -> Prop) :
  emits c s P -> (forall a tr, P a tr -> silent tr) ->
  returns c s (fun a s' => upto s s' /\ exists tr, P a tr /\ s' = ext tr s).
Proof.
  intros (a & tr & E & Hp) K. exists a, (ext tr s). split; [done|]. split; [|by exists tr].
  exists tr, (g_st s). split_and!; [by destruct s|by eapply K|done].
Qed.

Lemma returns_ts_get {A} (f : goodix_ts_data -> A) s :
  g_ptr s = Live -> returns (ts_get f) s (fun a s' => a = f (g_ts s) /\ s' = s).
Proof. intros Hp. eexists _, _. by rewrite ts_get_eq. Qed.

Lemma returns_gets {A} (f : gworld -> A) s : returns (g_gets f) s (fun a s' => a = f s /\ s' = s).
Proof. by eexists _, _. Qed.

Section EventFacts.
Context `{GtpKernel}.

Lemma report_eq e s :
  g_ptr s = Live -> input_dev (g_ts s) = true -> input_report e s = Ret tt (ext [e] s).
Proof. intros Hp Hi. unfold input_report. by rewrite (bind_Ret _ _ _ _ _ (ts_get_eq _ _ Hp)), Hi. Qed.

Lemma report_emits e s :
  g_ptr s = Live -> input_dev (g_ts s) = true -> emits (input_report e) s (fun _ tr => tr = [e]).
Proof. intros Hp Hi. eexists _, _. by rewrite report_eq. Qed.

(** The events of a touched point: x and y are exchanged. *)
Definition down (id x y w : Z) : list teffect :=
  [ReportKey BTN_TOUCH 1; ReportAbs ABS_MT_POSITION_X y; ReportAbs ABS_MT_POSITION_Y x;
   ReportAbs ABS_MT_TOUCH_MAJOR w; ReportAbs ABS_MT_WIDTH_MAJOR w; ReportAbs ABS_MT_TRACKING_ID id; MtSync].

Lemma touch_down_emits id x y w s :
  g_ptr s = Live -> input_dev (g_ts s) = true ->
  emits (gtp_touch_down id x y w) s (fun _ tr => tr = down id x y w).
Proof.
  intros Hp Hi. unfold gtp_touch_down.
  do 6 (eapply emits_bind; [by apply report_emits|]; intros ? ? ->; rewrite ?ext_ext).
  eapply emits_mono; [by apply report_emits|]. by intros ? ? ->.
Qed.

Lemma if_enabled_emits c s tr0 :
  emits c s (fun _ tr => tr = tr0) ->
  emits (if_enabled c) s (fun _ tr => tr = if touch_enable (g_st s) =? 0 then [] else tr0).
Proof.
  intros Hc. unfold if_enabled. e_step. destruct (_ =? 0); [by apply emits_ret|].
  eapply emits_mono; [exact Hc|]. by intros ? ? ->.
Qed.

Lemma down_silent id x y w : silent (down id x y w).
Proof. repeat constructor. Qed.

Lemma load8_some b i : 0 <= i < zlen b -> exists v, load8 b i = Some v.
Proof.
  intros Hi. unfold load8. destruct (Z.ltb_spec i 0); [lia|].
  apply lookup_lt_is_Some_2. unfold zlen in *. lia.
Qed.

(** Any seven bytes are a point. *)
Lemma report_point_emits pd i s :
  g_ptr s = Live -> input_dev (g_ts s) = true -> 0 <= i -> i * 8 + 10 <= zlen pd ->
  emits (report_point pd i) s (fun _ tr => silent tr).
Proof.
  intros Hp Hi H0 Hl. unfold report_point.
  do 7 (match goal with |- emits (bind (lift _ (load8 pd ?k)) _) _ _ =>
      let v := fresh "v" in let E := fresh "E" in
      destruct (load8_some pd k) as [v E]; [lia|];
      eapply emits_bind; [by apply (emits_lift _ _ v)|]; intros ? ? [-> ->] end;
    rewrite ?ext_nil; cbn [app]).
  eapply emits_mono; [apply if_enabled_emits; by apply touch_down_emits|].
  intros ? ? ->. destruct (_ =? 0); [constructor|apply down_silent].
Qed.

Lemma points_loop_emits n i pd s :
  g_ptr s = Live -> input_dev (g_ts s) = true -> 0 <= i -> (i + Z.of_nat n) * 8 + 2 <= zlen pd ->
  emits (points_loop n i pd) s (fun _ tr => silent tr).
Proof.
  intros Hp Hi. revert i s Hp Hi. induction n as [|n IH]; intros i s Hp Hi H0 Hl; cbn [points_loop].
  { apply emits_ret. constructor. }
  eapply emits_bind; [apply report_point_emits; [done..|lia|lia]|]. intros ? tr Ht.
  eapply emits_mono; [apply IH; [done..|lia|lia]|]. intros ? tr' Ht'. by apply silent_app.
Qed.

Lemma land_15 a : 0 <= Z.land a 15 <= 15.
Proof. change (Z.land a 15) with (Z.land a (Z.ones 4)). rewrite Z.land_ones by lia. pose proof (Z.mod_pos_bound a (2 ^ 4)). lia. Qed.

(** The interrupt switched on and off. *)
Definition irq_on (s : gworld) : gworld :=
  ext (if irq_is_disable (g_ts s) =? 0 then [] else [IrqOn]) (with_g_ts (with_irq_is_disable 0 (g_ts s)) s).
Definition irq_off (s : gworld) : gworld :=
  ext (if irq_is_disable (g_ts s) =? 0 then [IrqOff] else []) (with_g_ts (with_irq_is_disable 1 (g_ts s)) s).

Lemma irq_enable_on s : winv s -> gtp_irq_enable s = Ret tt (irq_on s).
Proof.
  intros []. rewrite irq_enable_eq by done. unfold irq_on. destruct wi_flag0 as [E|E]; rewrite E; cbn [Z.eqb]; [|done].
  rewrite ext_nil. destruct s as [? [] ? ? ? ?]. cbn in *. by subst.
Qed.

Lemma irq_disable_off s : winv s -> gtp_irq_disable s = Ret tt (irq_off s).
Proof.
  intros []. rewrite irq_disable_eq by done. unfold irq_off. destruct wi_flag0 as [E|E]; rewrite E; cbn [Z.eqb]; [done|].
  rewrite ext_nil. destruct s as [? [] ? ? ? ?]. cbn in *. by subst.
Qed.

Lemma irq_on_winv s : winv s -> winv (irq_on s).
Proof.
  intros [? ? ? F D]. constructor; try done; [by left|]. unfold irq_on. rewrite ext_trace, irq_depth_app. cbn.
  rewrite D. destruct F as [-> | ->]; done.
Qed.

Lemma irq_off_winv s : winv s -> winv (irq_off s).
Proof.
  intros [? ? ? F D]. constructor; try done; [by right|]. unfold irq_off. rewrite ext_trace, irq_depth_app. cbn.
  rewrite D. destruct F as [-> | ->]; done.
Qed.

(** What the work function leaves behind: the interrupt is on again, unless an
    update is running or the driver polls. *)
Definition finished (s s' : gworld) : Prop :=
  exists s1, upto s s1 /\
    s' = if (enter_update (g_ts s) =? 0) && negb (use_irq (g_ts s) =? 0) then irq_on s1 else s1.

Lemma irq_back_finished s s1 :
  winv s -> upto s s1 -> enter_update (g_ts s) = 0 -> returns irq_back s1 (fun _ s' => finished s s').
Proof.
  intros W U E. pose proof (upto_winv _ _ U W) as W1. unfold irq_back.
  eapply returns_bind; [apply returns_ts_get, W1|]. intros ? ? [-> ->]. rewrite (upto_ts _ _ U).
  unfold finished. rewrite E. cbn [Z.eqb andb]. destruct (use_irq (g_ts s) =? 0); cbn [negb].
  - apply returns_ret. by exists s1.
  - eexists _, _. split; [by apply irq_enable_on|]. by exists s1.
Qed.

Lemma exit_work_finished s s1 :
  winv s -> upto s s1 -> enter_update (g_ts s) = 0 -> returns exit_work_func s1 (fun _ s' => finished s s').
Proof.
  intros W U E. pose proof (upto_winv _ _ U W) as W1. unfold exit_work_func.
  eapply returns_bind; [apply returns_ts_get, W1|]. intros ? ? [-> ->].
  eapply returns_bind with (P := fun _ s2 => upto s s2).
  { destruct (_ =? 0); [|by apply returns_ret]. eapply returns_bind.
    - apply emits_returns; [by apply write_bus|]. intros r tr. apply bus_silent.
    - intros r s2 [U2 _]. apply returns_ret. by transitivity s1. }
  intros _ s2 U2. by apply irq_back_finished.
Qed.

Lemma more_points_upto pd n s :
  zlen pd = 44 -> 0 <= n <= 5 -> returns (more_points pd n) s (fun pd' s' => upto s s' /\ zlen pd' = 44).
Proof.
  intros Hl Hn. unfold more_points. destruct (1 <? n) eqn:E; bool_cases; [|by apply returns_ret].
  eapply returns_bind.
  - apply emits_returns; [apply read_bus; [|lia]|].
    + change (zlen (reg (GTP_READ_COOR_ADDR + 10) ++ replicate 38 0)) with 40. lia.
    + intros x tr [B _]. by apply bus_silent.
  - intros x s' [U (tr & [_ [Hs _]] & _)].
    destruct (memcpy_length pd 12 (snd x) 2 (8 * (n - 1))) as (d & -> & Ld); try lia.
    { unfold zlen. rewrite Hs. cbn. lia. }
    apply returns_ret. split; [done|lia].
Qed.

Lemma if_enabled_upto c s tr0 :
  emits c s (fun _ tr => tr = tr0) -> silent tr0 -> returns (if_enabled c) s (fun _ s' => upto s s').
Proof.
  intros Hc Ht. eapply returns_mono; [eapply emits_returns; [by apply if_enabled_emits|]|].
  - intros ? ? ->. destruct (_ =? 0); [constructor|done].
  - intros a s' [U _]. exact U.
Qed.

(** The work function returns, whatever the chip answers. *)
Lemma work_func_finished s : winv s -> returns goodix_ts_work_func s (fun _ s' => finished s s').
Proof.
  intros W. unfold goodix_ts_work_func.
  eapply returns_bind; [apply returns_ts_get, W|]. intros ? ? [-> ->].
  destruct (enter_update (g_ts s) =? 0) eqn:E; cbn [negb].
  2: { apply returns_ret. exists s. by rewrite E. }
  bool_cases. eapply returns_bind.
  { apply emits_returns; [apply read_bus; [by vm_compute|lia]|]. intros x tr [B _]. by apply bus_silent. }
  intros x s1 [U (tr & [_ [Hs _]] & _)].
  destruct (fst x <? 0); [by apply irq_back_finished|].
  assert (zlen (snd x) = 44) as Lx by (unfold zlen; by rewrite Hs).
  destruct (load8_some (snd x) GTP_ADDR_LENGTH) as [finger Ef]; [unfold GTP_ADDR_LENGTH; lia|].
  rewrite Ef. eapply returns_bind; [by apply returns_ret with (Q := fun a s' => a = finger /\ s' = s1)|].
  intros ? ? [-> ->]. destruct (finger =? 0); [by apply irq_back_finished|].
  destruct (Z.land finger 128 =? 0); [by apply exit_work_finished|].
  pose proof (land_15 finger) as Hn. unfold GTP_MAX_TOUCH.
  destruct (5 <? Z.land finger 15) eqn:E5; bool_cases; [by apply exit_work_finished|].
  set (n := Z.land finger 15) in *.
  eapply returns_bind; [apply more_points_upto; [done|lia]|]. intros pd s2 [U2 Lp].
  assert (winv s2) as W2 by (eapply upto_winv; [|exact W]; by transitivity s1).
  eapply returns_bind with (P := fun _ s' => upto s s').
  { assert (upto s s2) as U02 by (by transitivity s1). destruct (negb (n =? 0)).
    - eapply returns_mono; [apply emits_returns|].
      + apply points_loop_emits; [apply W2|apply W2|lia|lia].
      + intros ? ? Ht. exact Ht.
      + intros ? s' [U3 _]. by transitivity s2.
    - eapply returns_bind; [apply returns_gets|]. intros ? ? [-> ->]. destruct (_ =? 0); [by apply returns_ret|].
      eapply returns_mono; [eapply if_enabled_upto; [apply report_emits; apply W2|by repeat constructor]|].
      intros ? s' U3. by transitivity s2. }
  intros ? s3 U3. eapply returns_bind with (P := fun _ s' => upto s s').
  { eexists _, _. split; [reflexivity|]. transitivity s3; [done|]. exists [], (with_pre_touch n (g_st s3)).
    rewrite ext_nil. split_and!; [done|constructor|done]. }
  intros ? s4 U4. pose proof (upto_winv _ _ U4 W) as W4. eapply returns_bind with (P := fun _ s' => upto s s').
  { eapply returns_mono; [eapply if_enabled_upto; [apply report_emits; apply W4|by repeat constructor]|].
    intros ? s' U5. by transitivity s4. }
  intros ? s5 U5. by apply exit_work_finished.
Qed.

Lemma finished_winv s s' : winv s -> finished s s' -> winv s'.
Proof.
  intros W (s1 & U & ->). pose proof (upto_winv _ _ U W). case_match; [by apply irq_on_winv|done].
Qed.

End EventFacts.

(** ** Suspend and resume *)

Section SleepFacts.
Context `{GtpKernel}.

Lemma sleep_loop_emits n r s : emits (sleep_loop n r) s (fun _ tr => bus tr).
Proof.
  revert r s. induction n as [|n IH]; intros r s; cbn [sleep_loop]; [apply emits_ret; constructor|].
  eapply emits_bind; [by apply write_bus|]. intros r' tr B.
  destruct (0 <? s8 r'); [apply emits_ret; by rewrite app_nil_r|].
  e_step. eapply emits_mono; [apply IH|]. intros ? ? B'. apply bus_app. split; [done|]. by constructor.
Qed.

Lemma enter_sleep_emits s : emits gtp_enter_sleep s (fun _ tr => bus tr).
Proof.
  unfold gtp_enter_sleep. do 3 e_step. eapply emits_mono; [apply sleep_loop_emits|].
  intros ? ? B. by repeat constructor.
Qed.

Lemma with_suspend_winv v s : winv s -> winv (with_g_ts (with_gtp_is_suspend v (g_ts s)) s).
Proof. intros []. by constructor. Qed.

Lemma emits_silent_returns {A} (c : prog gworld A) s (P : A -> list teffect -> Prop) :
  emits c s P -> (forall a tr, P a tr -> silent tr) -> returns c s (fun _ s' => upto s s').
Proof. intros He Hs. eapply returns_mono; [by eapply emits_returns|]. by intros a s' [U _]. Qed.

(** Suspend: marked as suspended, and with an interrupt it is off. *)
Lemma ts_suspend_spec s :
  winv s -> returns goodix_ts_suspend s (fun _ s' =>
    if enter_update (g_ts s) =? 0 then
      exists s1, upto (with_g_ts (with_gtp_is_suspend 1 (g_ts s)) s) s1 /\
        upto (if use_irq (g_ts s) =? 0 then s1 else irq_off s1) s'
    else s' = s).
Proof.
  intros W. unfold goodix_ts_suspend. eapply returns_bind; [apply returns_ts_get, W|]. intros ? ? [-> ->].
  destruct (enter_update (g_ts s) =? 0); cbn [negb]; [|by apply returns_ret].
  set (s0 := with_g_ts _ s). pose proof (with_suspend_winv 1 s W) as W0. fold s0 in W0.
  eapply returns_bind with (P := fun _ s' => s' = s0).
  { eexists _, _. rewrite ts_set_eq by apply W. done. }
  intros ? ? ->. eapply returns_bind; [apply returns_ts_get, W0|]. intros ? ? [-> ->].
  change (use_irq (g_ts s0)) with (use_irq (g_ts s)).
  eapply returns_bind with (P := fun _ s' => exists s1, upto s0 s1 /\
    s' = if use_irq (g_ts s) =? 0 then s1 else irq_off s1).
  { destruct (_ =? 0).
    - eapply returns_mono; [eapply emits_silent_returns; [apply emits_do|]|].
      + intros ? ? ->. by repeat constructor.
      + intros ? s' U. by exists s'.
    - eexists _, _. split; [by apply irq_disable_off|]. by exists s0. }
  intros ? s2 (s1 & U1 & E2). eapply returns_bind.
  { eapply emits_silent_returns; [apply enter_sleep_emits|]. intros ? ?. apply bus_silent. }
  intros ? s3 U3. eapply returns_mono; [eapply emits_silent_returns; [apply emits_do|]|].
  - intros ? ? ->. by repeat constructor.
  - intros ? s4 U4. exists s1. split; [done|]. rewrite <- E2. by transitivity s3.
Qed.

(** Resume: with an interrupt it is on, and the mark is gone. *)
Lemma ts_resume_spec s :
  winv s -> returns goodix_ts_resume s (fun _ s' =>
    if enter_update (g_ts s) =? 0 then
      exists s1, upto s s1 /\
        let s2 := if use_irq (g_ts s) =? 0 then s1 else irq_on s1 in
        s' = with_g_ts (with_gtp_is_suspend 0 (g_ts s2)) s2
    else s' = s).
Proof.
  intros W. unfold goodix_ts_resume. eapply returns_bind; [apply returns_ts_get, W|]. intros ? ? [-> ->].
  destruct (enter_update (g_ts s) =? 0); cbn [negb]; [|by apply returns_ret].
  eapply returns_bind.
  { eapply (emits_silent_returns _ _ (fun _ tr => bus tr)); [|intros ? ?; apply bus_silent].
    unfold gtp_wakeup_sleep. eapply emits_bind; [apply reset_emits|]. intros ? ? ->. apply emits_ret.
    rewrite app_nil_r. apply reset_bus. }
  intros ? s1 U1. pose proof (upto_winv _ _ U1 W) as W1. eapply returns_bind.
  { eapply emits_silent_returns; [apply send_cfg_bus; apply W1|]. intros ? ?. apply bus_silent. }
  intros ? s2 U2. assert (upto s s2) as U02 by (by transitivity s1). pose proof (upto_winv _ _ U02 W) as W2.
  eapply returns_bind; [apply returns_ts_get, W2|]. intros ? ? [-> ->]. rewrite (upto_ts _ _ U02).
  eapply returns_bind with (P := fun _ s' => winv s' /\ exists s1, upto s s1 /\
    s' = if use_irq (g_ts s) =? 0 then s1 else irq_on s1).
  { destruct (_ =? 0).
    - eapply returns_mono; [eapply emits_silent_returns; [apply emits_do|]|].
      + intros ? ? ->. by repeat constructor.
      + intros ? s' U. split; [by apply (upto_winv s2 s' U W2)|]. exists s'. split; [by transitivity s2|done].
    - eexists _, _. split; [by apply irq_enable_on|]. split; [by apply irq_on_winv|]. by exists s2. }
  intros ? s3 (W3 & s4 & U4 & ->). eexists _, _. split; [apply ts_set_eq, W3|].
  exists s4. by split.
Qed.

Lemma suspend_winv s a s' : winv s -> goodix_ts_suspend s = Ret a s' -> winv s'.
Proof.
  intros W E. destruct (ts_suspend_spec s W) as (? & s2 & E2 & HQ). rewrite E in E2. injection E2 as _ <-.
  destruct (_ =? 0); [|by subst]. destruct HQ as (s1 & U1 & U2). eapply upto_winv; [exact U2|].
  pose proof (upto_winv _ _ U1 (with_suspend_winv 1 s W)). case_match; [done|by apply irq_off_winv].
Qed.

Lemma resume_winv s a s' : winv s -> goodix_ts_resume s = Ret a s' -> winv s'.
Proof.
  intros W E. destruct (ts_resume_spec s W) as (? & s2 & E2 & HQ). rewrite E in E2. injection E2 as _ <-.
  destruct (_ =? 0); [|by subst]. destruct HQ as (s1 & U1 & ->). apply with_suspend_winv.
  pose proof (upto_winv _ _ U1 W). case_match; [done|by apply irq_on_winv].
Qed.

End SleepFacts.

(** ** All handlers together *)

Section System.
Context `{GtpKernel}.

(** The two ends of a firmware update ([gup_update_proc]). *)
Definition update_begin : prog gworld unit := do* ts_set (with_enter_update 1); gtp_irq_disable.
Definition update_end : prog gworld unit := do* ts_set (with_enter_update 0); gtp_irq_enable.

(** The driver, whether its work is queued, and whether the debug file has
    switched the interrupt off. *)
Record sys := mkSys { y_g : gworld; y_work : bool; y_debug : bool }.

(** One handler at a time.  The interrupt comes when it is enabled, the work
    runs when it is queued; the frame buffer, the update, the debug file and
    the spider driver act at any time. *)
Inductive gstep : sys -> sys -> Prop :=
  | s_irq g g' w d : use_irq (g_ts g) <> 0 -> irq_depth (g_trace g) = 0 ->
      goodix_ts_irq_handler g = Ret tt g' -> gstep (mkSys g w d) (mkSys g' true d)
  | s_timer g g' w d : use_irq (g_ts g) = 0 ->
      goodix_ts_timer_handler g = Ret tt g' -> gstep (mkSys g w d) (mkSys g' true d)
  | s_work g g' d : goodix_ts_work_func g = Ret tt g' -> gstep (mkSys g true d) (mkSys g' false d)
  | s_fb g g' w d event blank v :
      gtp_fb_notifier_callback event blank g = Ret v g' -> gstep (mkSys g w d) (mkSys g' w d)
  | s_update_begin g g' w d : update_begin g = Ret tt g' -> gstep (mkSys g w d) (mkSys g' w d)
  | s_update_end g g' w d : update_end g = Ret tt g' -> gstep (mkSys g w d) (mkSys g' w d)
  | s_debug_off g g' w d : gtp_irq_disable g = Ret tt g' -> gstep (mkSys g w d) (mkSys g' w true)
  | s_debug_on g g' w d : gtp_irq_enable g = Ret tt g' -> gstep (mkSys g w d) (mkSys g' w false)
  | s_touch g g' w d v : gtp_touch_enalbe v g = Ret tt g' -> gstep (mkSys g w d) (mkSys g' w d).

(** Whoever has switched the interrupt off is there to switch it on. *)
Definition has_owner (y : sys) : Prop :=
  irq_is_disable (g_ts (y_g y)) = 1 ->
  enter_update (g_ts (y_g y)) <> 0 \/ y_debug y = true \/
  use_irq (g_ts (y_g y)) <> 0 /\ (y_work y = true \/ gtp_is_suspend (g_ts (y_g y)) = 1).

Definition sinv (y : sys) : Prop := winv (y_g y) /\ has_owner y.

Lemma with_update_winv v s : winv s -> winv (with_g_ts (with_enter_update v (g_ts s)) s).
Proof. intros []. by constructor. Qed.

Lemma gstep_inv y y' : gstep y y' -> sinv y -> sinv y'.
Proof.
  intros St [W O]. unfold sinv, has_owner in *. destruct St as
    [g g' w d Hu Hd E|g g' w d Hu E|g g' d E|g g' w d event blank v E|g g' w d E|g g' w d E|g g' w d E
    |g g' w d E|g g' w d v E]; cbn [y_g y_work y_debug] in *.
  - unfold goodix_ts_irq_handler in E. rewrite (bind_Ret _ _ _ _ _ (irq_disable_off g W)) in E.
    injection E as <-. split; [apply (winv_ext [QueueWork]); [by repeat constructor|by apply irq_off_winv]|].
    intros _. right. right. split; [done|by left].
  - injection E as <-. split; [apply (winv_ext [TimerStart 16]), (winv_ext [QueueWork]), W; by repeat constructor|].
    cbn. intros Hi. destruct (O Hi) as [?|[?|[? _]]]; tauto.
  - destruct (work_func_finished g W) as (? & s' & E2 & F). rewrite E in E2. injection E2 as _ <-.
    split; [by apply (finished_winv g)|]. destruct F as (s1 & U & ->). intros Hi.
    destruct (enter_update (g_ts g) =? 0) eqn:Eu; [|cbn in *; rewrite (upto_ts _ _ U); bool_cases; by left].
    destruct (use_irq (g_ts g) =? 0) eqn:Eq; [|done]. cbn in *. rewrite (upto_ts _ _ U) in *. bool_cases.
    destruct (O Hi) as [?|[?|[? _]]]; tauto.
  - unfold gtp_fb_notifier_callback in E.
    assert (goodix_ts_suspend g = Ret tt g' -> sinv (mkSys g' w d)) as KS.
    { intros Es. split; [by eapply suspend_winv|]. intros Hi. cbn in *.
      destruct (ts_suspend_spec g W) as (? & s2 & E2 & HQ). rewrite Es in E2. injection E2 as _ <-.
      destruct (enter_update (g_ts g) =? 0); [|subst; by apply O].
      destruct HQ as (s1 & U1 & U2). rewrite (upto_ts _ _ U2) in *. destruct (use_irq (g_ts g) =? 0) eqn:Eq.
      - rewrite (upto_ts _ _ U1) in *. bool_cases. cbn in *. destruct (O Hi) as [?|[?|[? _]]]; tauto.
      - bool_cases. right. right. unfold irq_off. cbn. rewrite (upto_ts _ _ U1). cbn. tauto. }
    assert (goodix_ts_resume g = Ret tt g' -> sinv (mkSys g' w d)) as KR.
    { intros Es. split; [by eapply resume_winv|]. intros Hi. cbn in *.
      destruct (ts_resume_spec g W) as (? & s2 & E2 & HQ). rewrite Es in E2. injection E2 as _ <-.
      destruct (enter_update (g_ts g) =? 0) eqn:Eu; [|subst; by apply O]. destruct HQ as (s1 & U1 & ->).
      destruct (use_irq (g_ts g) =? 0) eqn:Eq; [|done]. cbn in *. rewrite (upto_ts _ _ U1) in *. bool_cases.
      destruct (O Hi) as [?|[?|[? _]]]; tauto. }
    assert (ret tt g = Ret tt g' -> sinv (mkSys g' w d)) as KN by (intros [= <-]; by split).
    rewrite bind_unfold in E. 
    destruct blank as [b|]; [destruct (event =? FB_EVENT_BLANK); [destruct (b =? FB_BLANK_UNBLANK);
      [|destruct (b =? FB_BLANK_POWERDOWN)]|]|];
      (match type of E with match ?c with _ => _ end = _ => destruct c as [[] g1|?|?] eqn:E1 end;
       [|done..]; injection E as _ <-);
      first [exact (KR eq_refl)|exact (KS eq_refl)|exact (KN eq_refl)].
  - unfold update_begin in E. rewrite (bind_Ret _ _ _ _ _ (ts_set_eq _ _ (wi_ptr _ W))) in E.
    pose proof (with_update_winv 1 g W) as W1. rewrite irq_disable_off in E by done. injection E as <-.
    split; [by apply irq_off_winv|]. intros _. by left.
  - unfold update_end in E. rewrite (bind_Ret _ _ _ _ _ (ts_set_eq _ _ (wi_ptr _ W))) in E.
    pose proof (with_update_winv 0 g W) as W1. rewrite irq_enable_on in E by done. injection E as <-.
    split; [by apply irq_on_winv|]. by intros.
  - rewrite irq_disable_off in E by done. injection E as <-. split; [by apply irq_off_winv|]. intros _. by right; left.
  - rewrite irq_enable_on in E by done. injection E as <-. split; [by apply irq_on_winv|]. by intros.
  - injection E as <-. split; [|done]. destruct W. by constructor.
Qed.

Lemma gstep_reach y y' : rtc gstep y y' -> sinv y -> sinv y'.
Proof. induction 1 as [|a b c St _ IH]; [done|]. intros I. apply IH. by eapply gstep_inv. Qed.

(** Just bound: the interrupt is on, nothing is queued. *)
Definition idle (g : gworld) : Prop :=
  winv g /\ irq_is_disable (g_ts g) = 0.

Lemma idle_inv g : idle g -> sinv (mkSys g false false).
Proof. intros [W E]. split; [done|]. unfold has_owner. cbn. lia. Qed.

(** C24: the interrupt is never lost.  In every state that any interleaving of
    interrupts, work, suspend and resume, updates, the debug file and the
    spider driver reaches: the work returns; the calls of [disable_irq] and
    [enable_irq] are balanced (depth 0 or 1, as the flag says, so the kernel
    never sees an enable too many); and when the interrupt is off although no
    update runs, the debug file has not switched it off and the driver is not
    suspended, then the work is queued and switches it on. *)
Theorem interrupts_return g y :
  idle g -> rtc gstep (mkSys g false false) y ->
  let s := y_g y in
  irq_depth (g_trace s) = irq_is_disable (g_ts s) /\ 0 <= irq_is_disable (g_ts s) <= 1 /\
  (exists s', goodix_ts_work_func s = Ret tt s') /\
  (irq_depth (g_trace s) <> 0 -> enter_update (g_ts s) = 0 -> y_debug y = false -> gtp_is_suspend (g_ts s) <> 1 ->
   y_work y = true /\
   exists s', gstep y (mkSys s' false false) /\ irq_depth (g_trace s') = 0).
Proof.
  intros I R. destruct (gstep_reach _ _ R (idle_inv g I)) as [W O]. destruct y as [s w d]. cbn [y_g y_work y_debug] in *.
  unfold has_owner in O. cbn [y_g y_work y_debug] in O.
  pose proof (wi_depth _ W) as D. pose proof (wi_flag _ W) as F.
  destruct (work_func_finished s W) as ([] & s' & E & Fi). split_and!; [done|lia|lia|by exists s'|].
  intros Hd Hu Hb Hs. rewrite D in Hd. destruct (O ltac:(lia)) as [?|[?|[Hq Hw]]]; [done|congruence|].
  destruct Hw as [-> |?]; [|done]. split; [done|]. subst d. exists s'. split; [by constructor|].
  pose proof (finished_winv _ _ W Fi) as W'. rewrite (wi_depth _ W'). destruct Fi as (s1 & U & ->).
  rewrite Hu. destruct (use_irq (g_ts s) =? 0) eqn:Eq; bool_cases; done.
Qed.

End System.

(** ** The points of the chip *)

(** One point in the chip's registers: track, position, size, a spare byte. *)
Record touch := mkTouch { t_id : Z; t_x : Z; t_y : Z; t_w : Z; t_spare : Z }.

Definition touch_ok (p : touch) : Prop :=
  0 <= t_id p < 16 /\ 0 <= t_x p < 65536 /\ 0 <= t_y p < 65536 /\ 0 <= t_w p < 65536.

Definition encode (p : touch) : list Z :=
  [t_id p; t_x p mod 256; t_x p / 256; t_y p mod 256; t_y p / 256; t_w p mod 256; t_w p / 256; t_spare p].

Definition events (p : touch) : list teffect := down (t_id p) (t_x p) (t_y p) (t_w p).

Lemma half_split x : 0 <= x < 65536 -> half (x mod 256) (x / 256) = x.
Proof.
  intros Hx. unfold half. rewrite Z.shiftl_mul_pow2 by lia. change (2 ^ 8) with 256.
  assert (Z.land (x mod 256) (x / 256 * 256) = 0) as E.
  { apply Z.bits_inj'. intros k Hk. rewrite Z.land_spec, Z.bits_0.
    change 256 with (2 ^ 8) at 1. destruct (Z.ltb_spec k 8).
    - change 256 with (2 ^ 8). rewrite Z.mul_pow2_bits_low by lia. apply andb_false_r.
    - rewrite Z.mod_pow2_bits_high by lia. done. }
  rewrite <- Z.lxor_lor by done. rewrite <- Z.add_nocarry_lxor by done. pose proof (Z.div_mod x 256). lia.
Qed.

Lemma land_id z : 0 <= z < 16 -> Z.land z 15 = z.
Proof. intros Hz. change 15 with (Z.ones 4). rewrite Z.land_ones by lia. by apply Z.mod_small. Qed.

Section FrameFacts.
Context `{GtpKernel}.

(** One point of a frame at place [i]. *)
Lemma report_encoded pre p rest i s :
  g_ptr s = Live -> input_dev (g_ts s) = true -> touch_ok p -> zlen pre = i * 8 + 3 ->
  emits (report_point (pre ++ encode p ++ rest) i) s
    (fun _ tr => tr = if touch_enable (g_st s) =? 0 then [] else events p).
Proof.
  intros Hp Hi (H1 & H2 & H3 & H4) Hl. unfold report_point. rewrite <- Hl.
  rewrite !load8_app_r by lia.
  change (emits (if_enabled (gtp_touch_down (Z.land (t_id p) 15) (half (t_x p mod 256) (t_x p / 256))
    (half (t_y p mod 256) (t_y p / 256)) (half (t_w p mod 256) (t_w p / 256)))) s
    (fun _ tr => tr = if touch_enable (g_st s) =? 0 then [] else events p)).
  apply if_enabled_emits. unfold events. rewrite land_id, !half_split by done. by apply touch_down_emits.
Qed.

Lemma points_encoded pts : forall pre rest i s,
  g_ptr s = Live -> input_dev (g_ts s) = true -> Forall touch_ok pts -> zlen pre = i * 8 + 3 ->
  emits (points_loop (length pts) i (pre ++ concat (encode <$> pts) ++ rest)) s
    (fun _ tr => tr = if touch_enable (g_st s) =? 0 then [] else concat (events <$> pts)).
Proof.
  induction pts as [|p pts IH]; intros pre rest i s Hp Hi Hok Hl; cbn [length points_loop].
  { apply emits_ret. by destruct (_ =? 0). }
  inversion Hok as [|? ? Ho Hok']; subst. cbn [fmap list_fmap concat]. rewrite <- app_assoc.
  eapply emits_bind; [by apply report_encoded|]. intros ? tr ->. rewrite app_assoc.
  eapply emits_mono; [apply IH; [done..|]|].
  { rewrite zlen_app. change (zlen (encode p)) with 8. lia. }
  intros ? ? ->. cbn. by destruct (_ =? 0).
Qed.

(** A chip that shows this frame, 0x814E and on, to the next two transfers. *)
Definition shows (tr0 : list teffect) (status : Z) (pts : list touch) (tail : list Z) : Prop :=
  let regs := status :: concat (encode <$> pts) ++ tail in
  42 <= zlen regs /\
  forall k old, (length k <= 2)%nat -> zlen old <= 32 ->
    let tr := tr0 ++ k in
    gp_device tr (reg GTP_READ_COOR_ADDR) old = take (length old) regs /\
    gp_device tr (reg (GTP_READ_COOR_ADDR + 10)) old = take (length old) (drop 10 regs).

Lemma encode_length pts : length (concat (encode <$> pts)) = (8 * length pts)%nat.
Proof. induction pts as [|p pts IH]; cbn [fmap list_fmap concat length]; [done|]. rewrite length_app, IH. cbn. lia. Qed.

(** The transfers that read a frame of [n] points. *)
Definition frame_reads (n : Z) : list teffect :=
  XRead (reg GTP_READ_COOR_ADDR) 10 ::
  if 1 <? n then [XRead (reg (GTP_READ_COOR_ADDR + 10)) (8 * (n - 1))] else [].

(** What a frame makes the driver report. *)
Definition frame_events (enable pre : Z) (pts : list touch) : list teffect :=
  if enable =? 0 then []
  else (match pts with
        | [] => if pre =? 0 then [] else [ReportKey BTN_TOUCH 0]
        | _ => concat (events <$> pts)
        end) ++ [InputSync].

Lemma splice_in_middle a b c x : length b = length x -> splice (a ++ b ++ c) (length a) x = a ++ x ++ c.
Proof.
  intros Hl. unfold splice. rewrite take_app_length. f_equal. f_equal.
  rewrite <- Hl, <- length_app, app_assoc. apply drop_app_length.
Qed.

(** The buffer after a read into zeros. *)
Lemma answer_zeros tr a n k :
  length a = 2%nat -> (n <= k)%nat ->
  answer tr (a ++ replicate k 0) (Z.of_nat n) = a ++ gp_device tr a (replicate n 0) ++ replicate (k - n) 0.
Proof.
  intros Ha Hn. unfold answer. rewrite Nat2Z.id. rewrite <- Ha at 1 2 3. rewrite take_app_length, drop_app_length.
  rewrite take_replicate, Nat.min_l by lia.
  replace (replicate k 0) with (replicate n 0 ++ replicate (k - n) 0) by (rewrite <- replicate_add; f_equal; lia).
  apply splice_in_middle. by rewrite gp_device_len.
Qed.

Lemma first_points tr0 status pts tail k :
  shows tr0 status pts tail -> (length k <= 2)%nat ->
  answer (tr0 ++ k) (reg GTP_READ_COOR_ADDR ++ replicate 42 0) 10 =
    reg GTP_READ_COOR_ADDR ++ take 10 (status :: concat (encode <$> pts) ++ tail) ++ replicate 32 0.
Proof.
  intros [_ S] Hk. change 10 with (Z.of_nat 10) at 1. rewrite answer_zeros by (done || lia).
  destruct (S k (replicate 10 0) Hk) as [-> _]; [unfold zlen; rewrite length_replicate; lia|]. done.
Qed.

Lemma more_points_frame tr0 e status pts tail s :
  bus_works -> g_trace s = tr0 ++ [e] -> shows tr0 status pts tail -> (length pts <= 5)%nat ->
  let n := Z.of_nat (length pts) in
  let pd := reg GTP_READ_COOR_ADDR ++ take 10 (status :: concat (encode <$> pts) ++ tail) ++ replicate 32 0 in
  exists rest, more_points pd n s =
    Ret ((reg GTP_READ_COOR_ADDR ++ [status]) ++ concat (encode <$> pts) ++ rest) (ext (drop 1 (frame_reads n)) s).
Proof.
  intros W Et Sh Hn n pd. set (regs := status :: concat (encode <$> pts) ++ tail) in *.
  pose proof Sh as [Hl _]. change (42 <= zlen regs) in Hl.
  (* the bytes of the points, once enough of the registers are there *)
  assert (forall m r, (1 + 8 * length pts <= m)%nat -> exists rest,
    reg GTP_READ_COOR_ADDR ++ take m regs ++ r =
    (reg GTP_READ_COOR_ADDR ++ [status]) ++ concat (encode <$> pts) ++ rest) as K.
  { intros m r Hm. exists (take (m - 1 - 8 * length pts) tail ++ r). unfold regs.
    destruct m as [|m]; [lia|]. cbn [take]. rewrite take_app_ge by (rewrite encode_length; lia).
    rewrite encode_length. replace (S m - 1)%nat with m by lia. rewrite <- !app_assoc. cbn [app]. by rewrite <- !app_assoc. }
  unfold more_points, frame_reads. destruct (1 <? n) eqn:E; bool_cases.
  2: { destruct (K 10%nat (replicate 32 0) ltac:(lia)) as [rest ER]. exists rest. cbn [drop]. rewrite ext_nil.
       unfold pd. by rewrite ER. }
  set (k := (8 * (length pts - 1))%nat). assert (8 * (n - 1) = Z.of_nat k) as Ek by lia.
  assert (k <= 32)%nat as Hk by lia.
  set (a := reg (GTP_READ_COOR_ADDR + 10)).
  pose proof (read_works (a ++ replicate 38 0) (2 + 8 * (n - 1)) s W) as R. cbv zeta in R.
  change (take 2 (a ++ replicate 38 0)) with a in R.
  replace (2 + 8 * (n - 1) - 2) with (8 * (n - 1)) in R by lia.
  rewrite (bind_Ret _ _ _ _ _ (R ltac:(change (zlen (a ++ replicate 38 0)) with 40; lia) ltac:(lia))). clear R.
  cbn [snd]. set (tr := g_trace s ++ _). rewrite Ek, answer_zeros by (done || lia).
  destruct Sh as [_ Sh]. destruct (Sh [e; XRead a (8 * (n - 1))] (replicate k 0) ltac:(cbn; lia)) as [_ Sd]; [unfold zlen; rewrite length_replicate; lia|]. fold a in Sd.
  assert (tr = tr0 ++ [e; XRead a (8 * (n - 1))]) as -> by (unfold tr; by rewrite Et, <- app_assoc). rewrite Sd.
  fold regs. rewrite length_replicate. set (d := take k (drop 10 regs)).
  assert (length d = k) as Ld by (unfold d; rewrite length_take, length_drop; unfold zlen in *; lia).
  assert (length (take 10 regs) = 10%nat) as L10 by (rewrite length_take; unfold zlen in *; lia).
  rewrite memcpy_Some.
  2-5: unfold pd; rewrite ?zlen_app; change (zlen a) with 2; change (zlen (reg GTP_READ_COOR_ADDR)) with 2;
    unfold zlen; rewrite ?L10, ?Ld, ?length_replicate; lia.
  2: lia. change (Z.to_nat 2) with (length a). rewrite drop_app_length. rewrite Nat2Z.id.
  rewrite take_app_length' by done. cbn [lift ret drop].
  assert (splice pd (Z.to_nat 12) d = reg GTP_READ_COOR_ADDR ++ take (10 + k) regs ++ replicate (32 - k) 0) as ->.
  { unfold pd. replace (replicate 32 0) with (replicate k 0 ++ replicate (32 - k) 0)
      by (rewrite <- replicate_add; f_equal; lia).
    rewrite app_assoc. change (Z.to_nat 12) with 12%nat.
    replace 12%nat with (length (reg GTP_READ_COOR_ADDR ++ take 10 regs)) by (rewrite length_app, L10; done).
    rewrite splice_in_middle by (by rewrite length_replicate). rewrite <- !app_assoc. f_equal. rewrite app_assoc. f_equal.
    unfold d. rewrite <- (take_drop 10 regs) at 3. rewrite take_app_ge by lia. rewrite L10.
    f_equal. f_equal. lia. }
  destruct (K (10 + k)%nat (replicate (32 - k) 0) ltac:(lia)) as [rest ->]. exists rest. done.
Qed.

(** The end of the work: the chip may overwrite the frame, the interrupt comes
    back. *)
Definition frame_end (s : gworld) : list teffect :=
  (if gtp_rawdiff_mode (g_ts s) =? 0 then [XWrite (reg GTP_READ_COOR_ADDR ++ [0])] else []) ++
  (if use_irq (g_ts s) =? 0 then [] else if irq_is_disable (g_ts s) =? 0 then [] else [IrqOn]).

Lemma exit_work_frame s :
  bus_works -> winv s ->
  exists s', exit_work_func s = Ret tt s' /\ g_trace s' = g_trace s ++ frame_end s /\ g_st s' = g_st s /\
    use_irq (g_ts s') = use_irq (g_ts s) /\ enter_update (g_ts s') = enter_update (g_ts s) /\ winv s'.
Proof.
  intros Wk W. unfold exit_work_func. rewrite (bind_Ret _ _ _ _ _ (ts_get_eq _ _ (wi_ptr _ W))).
  set (tr := if gtp_rawdiff_mode (g_ts s) =? 0 then [XWrite (reg GTP_READ_COOR_ADDR ++ [0])] else []).
  assert ((if gtp_rawdiff_mode (g_ts s) =? 0 then do* gtp_i2c_write (reg GTP_READ_COOR_ADDR ++ [0]) 3; ret tt
    else ret tt) s = Ret tt (ext tr s)) as E.
  { unfold tr. destruct (_ =? 0); [|by rewrite ext_nil].
    by rewrite (bind_Ret _ _ _ _ _ (write_works (reg GTP_READ_COOR_ADDR ++ [0]) 3 s Wk ltac:(by vm_compute) ltac:(lia))). }
  rewrite (bind_Ret _ _ _ _ _ E). assert (silent tr) as St by (unfold tr; destruct (_ =? 0); repeat constructor).
  pose proof (winv_ext tr s St W) as W1. unfold irq_back, frame_end. fold tr.
  rewrite (bind_Ret _ _ _ _ _ (ts_get_eq _ _ (wi_ptr _ W1))). change (g_ts (ext tr s)) with (g_ts s).
  destruct (use_irq (g_ts s) =? 0) eqn:Eu.
  - eexists. split; [reflexivity|]. rewrite app_nil_r. done.
  - rewrite irq_enable_on by done. eexists. split; [reflexivity|].
    split_and!; try done; [|by apply irq_on_winv]. unfold irq_on. cbn. by rewrite <- app_assoc.
Qed.

Definition set_pre_touch (n : Z) (s : gworld) : gworld := with_g_st (with_pre_touch n (g_st s)) s.

Lemma set_pre_touch_ext n tr s : set_pre_touch n (ext tr s) = ext tr (set_pre_touch n s).
Proof. reflexivity. Qed.

Lemma set_pre_touch_winv n s : winv s -> winv (set_pre_touch n s).
Proof. intros []. by constructor. Qed.

Lemma concat_silent pts : silent (concat (events <$> pts)).
Proof. induction pts as [|p pts IH]; [constructor|]. apply silent_app. split; [apply down_silent|exact IH]. Qed.

Lemma frame_events_silent en pre pts : silent (frame_events en pre pts).
Proof.
  unfold frame_events. destruct (en =? 0); [constructor|]. apply silent_app. split; [|by repeat constructor].
  destruct pts; [destruct (pre =? 0); by repeat constructor|apply concat_silent].
Qed.

Lemma bind_tail {S A B} (a : prog S A) (b : prog S unit) (c : prog S unit) (d : prog S B) s s' :
  bind a (fun _ => bind b (fun _ => c)) s = Ret tt s' ->
  bind a (fun _ => bind b (fun _ => bind c (fun _ => d))) s = d s'.
Proof. unfold bind. destruct (a s); [|done..]. destruct (b _); [|done..]. by intros ->. Qed.

(** The reports of a frame, once its bytes are in the buffer. *)
Lemma report_frame pts pre rest s :
  winv s -> Forall touch_ok pts -> zlen pre = 3 ->
  let n := Z.of_nat (length pts) in
  (do* (if negb (n =? 0) then points_loop (Z.to_nat n) 0 (pre ++ concat (encode <$> pts) ++ rest)
        else let* p := g_gets (fun s => pre_touch (g_st s)) in if p =? 0 then ret tt else if_enabled gtp_touch_up);
   do* st_set (with_pre_touch n);
   if_enabled (input_report InputSync)) s =
  Ret tt (ext (frame_events (touch_enable (g_st s)) (pre_touch (g_st s)) pts) (set_pre_touch n s)).
Proof.
  intros W Hok Hl n. set (en := touch_enable (g_st s)). set (pr := pre_touch (g_st s)).
  set (tr1 := if en =? 0 then [] else match pts with
    [] => if pr =? 0 then [] else [ReportKey BTN_TOUCH 0] | _ => concat (events <$> pts) end).
  match goal with |- bind ?c _ _ = _ => assert (c s = Ret tt (ext tr1 s)) as E1 end.
  { unfold tr1, n, en. destruct pts as [|p pts].
    - cbn [length Z.of_nat Z.eqb negb].
      match goal with |- ?c s = _ => change (c s) with ((if pr =? 0 then ret tt else if_enabled gtp_touch_up) s) end.
      destruct (pr =? 0); [destruct (_ =? 0); by rewrite ext_nil|].
      destruct (if_enabled_emits gtp_touch_up s [ReportKey BTN_TOUCH 0]) as ([] & tr & -> & ->);
        [apply report_emits; apply W|done].
    - rewrite Nat2Z.id. cbn [length negb Z.of_nat Z.eqb].
      destruct (points_encoded (p :: pts) pre rest 0 s) as ([] & tr & Ep & ->);
        [apply W|apply W|done|lia|]. exact Ep. }
  rewrite (bind_Ret _ _ _ _ _ E1). unfold st_set at 1. rewrite bind_modify. fold (set_pre_touch n (ext tr1 s)).
  set (s1 := set_pre_touch n (ext tr1 s)).
  destruct (if_enabled_emits (input_report InputSync) s1 [InputSync]) as ([] & tr & -> & ->);
    [apply report_emits; apply W|].
  unfold s1. rewrite set_pre_touch_ext, ext_ext. f_equal. f_equal. unfold frame_events, tr1. cbn.
  fold en. by destruct (en =? 0).
Qed.

Lemma work_frame status pts tail s :
  winv s -> enter_update (g_ts s) = 0 -> bus_works -> shows (g_trace s) status pts tail -> Forall touch_ok pts ->
  Z.land status 128 <> 0 -> Z.land status 15 = Z.of_nat (length pts) -> (length pts <= 5)%nat ->
  exists s', goodix_ts_work_func s = Ret tt s' /\
    g_trace s' = g_trace s ++ frame_reads (Z.of_nat (length pts)) ++
      frame_events (touch_enable (g_st s)) (pre_touch (g_st s)) pts ++ frame_end s /\
    g_st s' = with_pre_touch (Z.of_nat (length pts)) (g_st s) /\ enter_update (g_ts s') = 0 /\ winv s'.
Proof.
  intros W Hu Wk Sh Hok H128 Hn Hle. set (n := Z.of_nat (length pts)) in *.
  unfold goodix_ts_work_func. rewrite (bind_Ret _ _ _ _ _ (ts_get_eq _ _ (wi_ptr _ W))), Hu. cbn [Z.eqb negb].
  pose proof (read_works (reg GTP_READ_COOR_ADDR ++ replicate 42 0) 12 s Wk ltac:(by vm_compute) ltac:(lia)) as R.
  cbv zeta in R. change (12 - 2) with 10 in R.
  change (take 2 (reg GTP_READ_COOR_ADDR ++ replicate 42 0)) with (reg GTP_READ_COOR_ADDR) in R.
  rewrite (bind_Ret _ _ _ _ _ R). clear R. cbn [fst snd Z.ltb Z.compare].
  rewrite (first_points (g_trace s) status pts tail) by (done || cbn; lia).
  set (pd1 := reg GTP_READ_COOR_ADDR ++ take 10 _ ++ _).
  change (load8 pd1 GTP_ADDR_LENGTH) with (Some status). rewrite bind_lift_Some.
  destruct (status =? 0) eqn:E0; bool_cases; [by subst status|].
  destruct (Z.land status 128 =? 0) eqn:E1; bool_cases; [done|].
  rewrite Hn. unfold GTP_MAX_TOUCH. destruct (5 <? n) eqn:E5; bool_cases; [lia|].
  set (s1 := ext [XRead (reg GTP_READ_COOR_ADDR) 10] s).
  destruct (more_points_frame (g_trace s) _ status pts tail s1 Wk eq_refl Sh Hle) as [rest M]. cbv zeta in M. fold n pd1 in M.
  rewrite (bind_Ret _ _ _ _ _ M). set (s2 := ext _ s1). set (pre := reg GTP_READ_COOR_ADDR ++ [status]).
  assert (s2 = ext (frame_reads n) s) as Es2 by (unfold s2, s1; by rewrite ext_ext).
  assert (winv s2) as W2.
  { rewrite Es2. apply winv_ext; [|done]. unfold frame_reads. destruct (1 <? n); by repeat constructor. }
  pose proof (report_frame pts pre rest s2 W2 Hok eq_refl) as F. cbv zeta in F. fold n in F.
  set (s3 := ext _ (set_pre_touch n s2)) in F.
  destruct (exit_work_frame s3 Wk) as (s' & Ex & T & St & Us & Up & W3).
  { apply winv_ext; [apply frame_events_silent|by apply set_pre_touch_winv]. }
  exists s'. split_and!; [|rewrite T; unfold s3; rewrite Es2; cbn; by rewrite <- !app_assoc
    |rewrite St; unfold s3; by rewrite Es2|rewrite Up; unfold s3; by rewrite Es2|done].
  rewrite <- Ex. exact (bind_tail _ _ _ _ _ _ F).
Qed.

End FrameFacts.

Section Claims.
Context `{GtpKernel}.

(** C25: the points reported are the points of the chip.  When the chip shows a
    frame that is ready (bit 7 of its status) with up to five points (4 bits of
    identifier, 16-bit numbers), no update is running, the driver is set up and
    the bus works, one run of the work function
    reads it with one or two transfers, reports every point in order (x and y
    exchanged) and one synchronisation, or the release when the last finger
    has gone, tells the chip that the frame is taken, and switches the
    interrupt on; with the touch screen disabled by the spider driver it does
    the same and reports nothing. *)
Theorem work_reports_frame status pts tail s :
  winv s -> enter_update (g_ts s) = 0 -> bus_works -> shows (g_trace s) status pts tail -> Forall touch_ok pts ->
  Z.land status 128 <> 0 -> Z.land status 15 = Z.of_nat (length pts) -> (length pts <= 5)%nat ->
  exists s', goodix_ts_work_func s = Ret tt s' /\
    g_trace s' = g_trace s ++ frame_reads (Z.of_nat (length pts)) ++
      frame_events (touch_enable (g_st s)) (pre_touch (g_st s)) pts ++ frame_end s /\
    pre_touch (g_st s') = Z.of_nat (length pts) /\ winv s'.
Proof.
  intros W Hu Wk Sh Hok H1 H2 H3. destruct (work_frame status pts tail s W Hu Wk Sh Hok H1 H2 H3)
    as (s' & E & T & St & _ & W'). exists s'. by rewrite St.
Qed.

(** The last value reported for BTN_TOUCH. *)
Definition last_key (tr : list teffect) : option Z :=
  foldl (fun o e => match e with ReportKey c v => if c =? BTN_TOUCH then Some v else o | _ => o end) None tr.

Definition keyless (e : teffect) : bool := match e with ReportKey _ _ => false | _ => true end.

Lemma last_key_app a b : forallb keyless b = true -> last_key (a ++ b) = last_key a.
Proof.
  unfold last_key. rewrite foldl_app. generalize (foldl (fun o e => match e with ReportKey c v =>
    if c =? BTN_TOUCH then Some v else o | _ => o end) None a).
  induction b as [|e b IH]; intros o Hb; [done|]. cbn in Hb. apply andb_true_iff in Hb as [He Hb].
  cbn [foldl]. rewrite IH by done. by destruct e.
Qed.

Lemma last_key_down a v b : forallb keyless b = true -> last_key (a ++ ReportKey BTN_TOUCH v :: b) = Some v.
Proof.
  intros Hb. replace (a ++ ReportKey BTN_TOUCH v :: b) with ((a ++ [ReportKey BTN_TOUCH v]) ++ b)
    by (by rewrite <- app_assoc). rewrite last_key_app by done. unfold last_key. by rewrite foldl_app.
Qed.

Lemma frame_end_keyless s : forallb keyless (frame_end s) = true.
Proof. unfold frame_end. by repeat destruct (_ =? 0). Qed.

(** A finger lifted while the touch screen is disabled stays down for the
    system.  A finger is reported, the spider driver disables the touch screen,
    the finger is lifted, the spider driver enables it again: the driver has
    forgotten the finger, and no further frame without fingers reports the
    release; the last report of BTN_TOUCH is "pressed". *)
Theorem release_is_lost status1 status2 p tail1 tail2 s s1 s2 s3 :
  winv s -> enter_update (g_ts s) = 0 -> bus_works -> touch_enable (g_st s) <> 0 -> touch_ok p ->
  Z.land status1 128 <> 0 -> Z.land status1 15 = 1 -> Z.land status2 128 <> 0 -> Z.land status2 15 = 0 ->
  shows (g_trace s) status1 [p] tail1 -> goodix_ts_work_func s = Ret tt s1 ->
  shows (g_trace s1) status2 [] tail2 -> (do* gtp_touch_enalbe 0; goodix_ts_work_func) s1 = Ret tt s2 ->
  shows (g_trace s2) status2 [] tail2 -> (do* gtp_touch_enalbe 1; goodix_ts_work_func) s2 = Ret tt s3 ->
  last_key (g_trace s1) = Some 1 /\ last_key (g_trace s3) = Some 1 /\ pre_touch (g_st s3) = 0.
Proof.
  intros W Hu Wk He Hp A1 A2 B1 B2 Sh1 E1 Sh2 E2 Sh3 E3.
  destruct (work_frame status1 [p] tail1 s W Hu Wk Sh1 ltac:(by constructor) A1 A2 ltac:(cbn; lia))
    as (s1' & F1 & T1 & St1 & U1 & W1). rewrite E1 in F1. injection F1 as <-.
  unfold gtp_touch_enalbe, st_set in E2, E3. rewrite bind_modify in E2, E3.
  set (s1d := with_g_st (with_touch_enable 0 (g_st s1)) s1) in E2.
  assert (winv s1d) as W1d by (destruct W1; by constructor).
  destruct (work_frame status2 [] tail2 s1d W1d U1 Wk Sh2 ltac:(constructor) B1 B2 ltac:(cbn; lia))
    as (s2' & F2 & T2 & St2 & U2 & W2). rewrite E2 in F2. injection F2 as <-.
  set (s2e := with_g_st (with_touch_enable 1 (g_st s2)) s2) in E3.
  assert (winv s2e) as W2e by (destruct W2; by constructor).
  destruct (work_frame status2 [] tail2 s2e W2e U2 Wk Sh3 ltac:(constructor) B1 B2 ltac:(cbn; lia))
    as (s3' & F3 & T3 & St3 & U3 & W3). rewrite E3 in F3. injection F3 as <-.
  change (g_trace s1d) with (g_trace s1) in T2. change (g_trace s2e) with (g_trace s2) in T3.
  assert (last_key (g_trace s1) = Some 1) as K1.
  { rewrite T1. unfold frame_events. destruct (_ =? 0) eqn:E; bool_cases; [done|].
    unfold fmap, list_fmap, events, down. cbn [concat app]. rewrite app_assoc.
    cbn [app]. rewrite last_key_down; [done|]. cbn. by rewrite ?forallb_app, frame_end_keyless. }
  split_and!; [done| |by rewrite St3].
  rewrite T3, last_key_app; [|]; [rewrite T2, last_key_app; [done|]|].
  - rewrite !forallb_app, frame_end_keyless. done.
  - rewrite !forallb_app, frame_end_keyless. unfold s2e. rewrite St2. done.
Qed.

(** The sleep command, and what a suspend and a resume put on the pins and the
    bus when the bus works. *)
Definition suspend_effects (s : gworld) : list teffect :=
  (if use_irq (g_ts s) =? 0 then [TimerCancel]
   else if irq_is_disable (g_ts s) =? 0 then [IrqOff] else []) ++
  [PinOut (gtp_int_gpio (g_st s)) 0; Sleep 5; XWrite (reg GTP_REG_SLEEP ++ [5]); Sleep 58].

Definition resume_effects (s : gworld) : list teffect :=
  reset_pins (gtp_rst_gpio (g_st s)) (gtp_int_gpio (g_st s)) 20 ++
  (if pnl_init_error (g_ts s) =? 0 then [XWrite (config (g_st s))] else []) ++
  (if use_irq (g_ts s) =? 0 then [TimerStart 1000]
   else if irq_is_disable (g_ts s) =? 0 then [] else [IrqOn]).

Lemma suspend_eq s :
  bus_works -> winv s -> enter_update (g_ts s) = 0 ->
  exists s', goodix_ts_suspend s = Ret tt s' /\ g_trace s' = g_trace s ++ suspend_effects s /\
    g_ts s' = with_gtp_is_suspend 1 (if use_irq (g_ts s) =? 0 then g_ts s else with_irq_is_disable 1 (g_ts s)) /\
    g_st s' = g_st s /\ winv s'.
Proof.
  intros Wk W Hu. unfold goodix_ts_suspend, suspend_effects.
  rewrite (bind_Ret _ _ _ _ _ (ts_get_eq _ _ (wi_ptr _ W))), Hu. cbn [Z.eqb negb].
  rewrite (bind_Ret _ _ _ _ _ (ts_set_eq _ _ (wi_ptr _ W))). set (s0 := with_g_ts _ s).
  assert (winv s0) as W0 by (by apply with_suspend_winv).
  rewrite (bind_Ret _ _ _ _ _ (ts_get_eq _ _ (wi_ptr _ W0))). change (use_irq (g_ts s0)) with (use_irq (g_ts s)).
  assert (forall s1, winv s1 -> g_st s1 = g_st s -> exists s', (do* gtp_enter_sleep; g_do (Sleep 58)) s1 = Ret tt s' /\
    s' = ext [PinOut (gtp_int_gpio (g_st s)) 0; Sleep 5; XWrite (reg GTP_REG_SLEEP ++ [5]); Sleep 58] s1) as K.
  { intros s1 W1 Es. eexists. split; [|reflexivity]. unfold gtp_enter_sleep. rewrite !bind_bind.
    rewrite (bind_unfold (g_gets _)). cbn [g_gets]. rewrite Es. unfold g_do. rewrite !bind_bind, bind_modify.
    rewrite !bind_bind, bind_modify. cbn [sleep_loop]. rewrite bind_bind.
    match goal with |- bind _ _ ?s2 = _ =>
      rewrite (bind_Ret _ _ _ _ _ (write_works (reg GTP_REG_SLEEP ++ [5]) 3 s2 Wk ltac:(by vm_compute) ltac:(lia))) end.
    change (0 <? s8 1) with true. cbv iota. rewrite bind_ret. unfold modify. f_equal. unfold g_emit, ext. cbn.
    by rewrite <- !app_assoc. }
  destruct (use_irq (g_ts s) =? 0) eqn:Eq.
  - unfold g_do at 1. rewrite bind_modify. set (s1 := g_emit TimerCancel s0).
    assert (winv s1) as W1 by (apply (winv_ext [TimerCancel]); [by repeat constructor|done]).
    destruct (K s1 W1 eq_refl) as (s' & -> & ->). eexists. split; [reflexivity|].
    split_and!; [unfold s1, s0; cbn; by rewrite <- app_assoc|done|done|apply winv_ext; [by repeat constructor|done]].
  - rewrite (bind_Ret _ _ _ _ _ (irq_disable_off s0 W0)). pose proof (irq_off_winv s0 W0) as W1.
    destruct (K (irq_off s0) W1 eq_refl) as (s' & -> & ->). eexists. split; [reflexivity|].
    split_and!; [unfold irq_off, s0; cbn; by rewrite <- app_assoc|done|done|apply winv_ext; [by repeat constructor|done]].
Qed.

Lemma resume_eq s :
  bus_works -> winv s -> enter_update (g_ts s) = 0 ->
  exists s', goodix_ts_resume s = Ret tt s' /\ g_trace s' = g_trace s ++ resume_effects s /\
    g_ts s' = with_gtp_is_suspend 0 (if use_irq (g_ts s) =? 0 then g_ts s else with_irq_is_disable 0 (g_ts s)) /\
    g_st s' = g_st s /\ winv s'.
Proof.
  intros Wk W Hu. unfold goodix_ts_resume, resume_effects.
  rewrite (bind_Ret _ _ _ _ _ (ts_get_eq _ _ (wi_ptr _ W))), Hu. cbn [Z.eqb negb].
  unfold gtp_wakeup_sleep. rewrite bind_bind, (bind_Ret _ _ _ _ _ (reset_eq 20 s)), bind_ret.
  set (R := reset_pins _ _ 20). assert (winv (ext R s)) as W1 by (apply winv_ext; [apply bus_silent, reset_bus|done]).
  set (C := if pnl_init_error (g_ts s) =? 0 then [XWrite (config (g_st s))] else []).
  assert (exists r, gtp_send_cfg (ext R s) = Ret r (ext (R ++ C) s)) as [r Es].
  { rewrite send_cfg_works by (done || apply W). change (g_ts (ext R s)) with (g_ts s).
    change (g_st (ext R s)) with (g_st s). unfold C. destruct (_ =? 0).
    - eexists. by rewrite ext_ext.
    - eexists. by rewrite app_nil_r. }
  rewrite (bind_Ret _ _ _ _ _ Es).
  assert (winv (ext (R ++ C) s)) as W2.
  { apply winv_ext; [|done]. apply silent_app. split; [apply bus_silent, reset_bus|].
    unfold C. destruct (_ =? 0); by repeat constructor. }
  rewrite (bind_Ret _ _ _ _ _ (ts_get_eq _ _ (wi_ptr _ W2))). change (g_ts (ext (R ++ C) s)) with (g_ts s).
  destruct (use_irq (g_ts s) =? 0) eqn:Eq.
  - unfold g_do. rewrite bind_modify. set (s3 := g_emit _ _).
    assert (winv s3) as W3 by (apply (winv_ext [TimerStart 1000]); [by repeat constructor|done]).
    rewrite ts_set_eq by apply W3. eexists. split; [reflexivity|].
    split_and!; [|done|done|by apply (with_suspend_winv 0 s3)].
    transitivity ((g_trace s ++ R ++ C) ++ [TimerStart 1000]); [reflexivity|by rewrite <- !app_assoc].
  - rewrite (bind_Ret _ _ _ _ _ (irq_enable_on _ W2)). pose proof (irq_on_winv _ W2) as W3.
    rewrite ts_set_eq by apply W3. eexists. split; [reflexivity|].
    split_and!; [|done|done|by apply (with_suspend_winv 0 (irq_on _))].
    transitivity ((g_trace s ++ R ++ C) ++ if irq_is_disable (g_ts s) =? 0 then [] else [IrqOn]);
      [reflexivity|by rewrite <- !app_assoc].
Qed.

(** C37: blanking and unblanking the screen.  With a bus that works, no update
    running, the interrupt on and the driver not suspended, a blank event switches the interrupt (or the polling
    timer) off and sends the chip to sleep; the next unblank event resets the
    chip, sends it the configuration again and switches the interrupt on; the
    driver's data is as before. *)
Theorem blank_unblank s :
  bus_works -> winv s -> enter_update (g_ts s) = 0 -> irq_is_disable (g_ts s) = 0 -> gtp_is_suspend (g_ts s) = 0 ->
  exists s1 s2,
    gtp_fb_notifier_callback FB_EVENT_BLANK (Some FB_BLANK_POWERDOWN) s = Ret 0 s1 /\
    g_trace s1 = g_trace s ++ suspend_effects s /\ gtp_is_suspend (g_ts s1) = 1 /\
    (use_irq (g_ts s) <> 0 -> irq_depth (g_trace s1) = 1) /\
    gtp_fb_notifier_callback FB_EVENT_BLANK (Some FB_BLANK_UNBLANK) s1 = Ret 0 s2 /\
    g_trace s2 = g_trace s1 ++ resume_effects s1 /\
    g_ts s2 = g_ts s /\ g_st s2 = g_st s /\ irq_depth (g_trace s2) = 0.
Proof.
  intros Wk W Hu Hi Hs. destruct (suspend_eq s Wk W Hu) as (s1 & E1 & T1 & D1 & St1 & W1).
  assert (enter_update (g_ts s1) = 0) as Hu1 by (rewrite D1; by destruct (_ =? 0)).
  destruct (resume_eq s1 Wk W1 Hu1) as (s2 & E2 & T2 & D2 & St2 & W2). exists s1, s2.
  assert (g_ts s2 = g_ts s) as Eg.
  { rewrite D2, D1. destruct (use_irq (g_ts s) =? 0) eqn:Eq; cbn; rewrite ?Eq;
      destruct (g_ts s); cbn in *; by subst. }
  split_and!; try done.
  - unfold gtp_fb_notifier_callback. cbn [Z.eqb Pos.eqb FB_EVENT_BLANK FB_BLANK_POWERDOWN FB_BLANK_UNBLANK].
    by rewrite (bind_Ret _ _ _ _ _ E1).
  - rewrite D1. by destruct (_ =? 0).
  - intros Hq. rewrite (wi_depth _ W1), D1. destruct (_ =? 0) eqn:Eq; bool_cases; done.
  - unfold gtp_fb_notifier_callback. cbn [Z.eqb Pos.eqb FB_EVENT_BLANK FB_BLANK_UNBLANK].
    by rewrite (bind_Ret _ _ _ _ _ E2).
  - by rewrite St2.
  - rewrite (wi_depth _ W2), Eg. done.
Qed.

(** Work that was queued before a suspend switches the interrupt on after it:
    nothing looks at [gtp_is_suspend]. *)
Theorem suspend_race g :
  idle g -> use_irq (g_ts g) <> 0 -> enter_update (g_ts g) = 0 ->
  exists y, rtc gstep (mkSys g false false) y /\ gtp_is_suspend (g_ts (y_g y)) = 1 /\
    irq_depth (g_trace (y_g y)) = 0 /\ y_work y = false /\ y_debug y = false.
Proof.
  intros [W Hi] Hq Hu.
  set (g1 := ext [QueueWork] (irq_off g)).
  assert (goodix_ts_irq_handler g = Ret tt g1) as E1
    by (unfold goodix_ts_irq_handler; by rewrite (bind_Ret _ _ _ _ _ (irq_disable_off g W))).
  assert (winv g1) as W1 by (apply winv_ext; [by repeat constructor|by apply irq_off_winv]).
  destruct (ts_suspend_spec g1 W1) as ([] & g2 & E2 & HQ).
  assert (winv g2) as W2 by (by eapply suspend_winv).
  change (enter_update (g_ts g1)) with (enter_update (g_ts g)) in HQ. rewrite Hu in HQ. cbn [Z.eqb] in HQ.
  destruct HQ as (s1 & U1 & U2). change (use_irq (g_ts g1)) with (use_irq (g_ts g)) in U2.
  destruct (use_irq (g_ts g) =? 0) eqn:Eq; bool_cases; [done|].
  assert (gtp_is_suspend (g_ts g2) = 1 /\ enter_update (g_ts g2) = 0 /\ use_irq (g_ts g2) = use_irq (g_ts g))
    as (S2 & Hu2 & Hq2) by (rewrite (upto_ts _ _ U2); cbn; rewrite (upto_ts _ _ U1); done).
  destruct (work_func_finished g2 W2) as ([] & g3 & E3 & F). exists (mkSys g3 false false).
  split_and!; try done.
  - eapply rtc_l; [eapply s_irq; [done| |exact E1]; by rewrite (wi_depth _ W)|].
    eapply rtc_l; [eapply (s_fb _ g2 _ _ FB_EVENT_BLANK (Some FB_BLANK_POWERDOWN) 0)|].
    { unfold gtp_fb_notifier_callback. cbn [Z.eqb Pos.eqb FB_EVENT_BLANK FB_BLANK_POWERDOWN FB_BLANK_UNBLANK].
      by rewrite (bind_Ret _ _ _ _ _ E2). }
    eapply rtc_l; [by apply s_work|]. apply rtc_refl.
  - cbn. destruct F as (s2 & Us & ->). rewrite Hu2, Hq2, (proj2 (Z.eqb_neq (use_irq (g_ts g)) 0) Hq). cbn. by rewrite (upto_ts _ _ Us).
  - cbn. rewrite (wi_depth _ (finished_winv _ _ W2 F)). destruct F as (s2 & Us & ->). 
    by rewrite Hu2, Hq2, (proj2 (Z.eqb_neq (use_irq (g_ts g)) 0) Hq).
Qed.

End Claims.

Module TouchDemo.
Import GtDemo.

Lemma ready_winv : winv ready.
Proof. by constructor; [..|left|]. Qed.

Definition interrupted : gworld := match goodix_ts_irq_handler ready with Ret _ s => s | _ => ready end.

Lemma interrupts_return_witness :
  irq_depth (g_trace interrupted) = 1 /\
  exists s', gstep (mkSys interrupted true false) (mkSys s' false false) /\ irq_depth (g_trace s') = 0.
Proof.
  assert (rtc gstep (mkSys ready false false) (mkSys interrupted true false)) as R.
  { eapply rtc_l; [eapply s_irq; [done|done|]|apply rtc_refl]. reflexivity. }
  destruct (interrupts_return ready _ (conj ready_winv eq_refl) R) as (D & _ & _ & B).
  split; [exact D|]. apply B; try reflexivity; discriminate.
Defined.

Definition point : touch := mkTouch 3 800 400 20 0.

Lemma shows_by tr0 status pts tail :
  42 <= zlen (status :: concat (encode <$> pts) ++ tail) ->
  (forall k, (length k <= 2)%nat -> registers (tr0 ++ k) (reg 33102) = status :: concat (encode <$> pts) ++ tail /\
    registers (tr0 ++ k) (reg 33112) = drop 10 (status :: concat (encode <$> pts) ++ tail)) ->
  shows tr0 status pts tail.
Proof.
  intros Hl Hk. split; [done|]. intros k old K O. cbv zeta. destruct (Hk k K) as [R1 R2].
  cbn [gp_device kernel]. unfold GTP_READ_COOR_ADDR. change (33102 + 10) with 33112. rewrite R1, R2.
  unfold zlen in *. rewrite !take_app_le by (rewrite ?length_drop; lia). done.
Qed.

Lemma shows_finger : shows [] 129 [point] (replicate 33 0).
Proof.
  apply shows_by; [by vm_compute|]. intros k Hk. unfold registers.
  rewrite (proj2 (Nat.leb_le (length ([] ++ k)) 2) Hk). by vm_compute.
Qed.

Lemma shows_none tr : (2 < length tr)%nat -> shows tr 128 [] (replicate 41 0).
Proof.
  intros Ht. apply shows_by; [by vm_compute|]. intros k _. unfold registers.
  rewrite (proj2 (Nat.leb_gt (length (tr ++ k)) 2)) by (rewrite length_app; lia). by vm_compute.
Qed.

Lemma work_reports_frame_witness :
  exists s', goodix_ts_work_func ready = Ret tt s' /\
    g_trace s' = [XRead [129; 78] 10; ReportKey 330 1; ReportAbs 53 400; ReportAbs 54 800; ReportAbs 48 20;
      ReportAbs 50 20; ReportAbs 57 3; MtSync; InputSync; XWrite [129; 78; 0]] /\
    pre_touch (g_st s') = 1.
Proof.
  destruct (work_reports_frame 129 [point] (replicate 33 0) ready ready_winv eq_refl works shows_finger
    ltac:(by repeat constructor; vm_compute) ltac:(done) eq_refl ltac:(cbn; lia)) as (s' & E & T & P & _).
  exists s'. split_and!; [done| |done]. rewrite T. vm_compute. reflexivity.
Defined.

Definition after (c : prog gworld unit) (s : gworld) : gworld := match c s with Ret _ s' => s' | _ => s end.
Definition touched : gworld := after goodix_ts_work_func ready.
Definition lifted : gworld := after (do* gtp_touch_enalbe 0; goodix_ts_work_func) touched.
Definition enabled : gworld := after (do* gtp_touch_enalbe 1; goodix_ts_work_func) lifted.

Lemma release_is_lost_witness : last_key (g_trace enabled) = Some 1 /\ pre_touch (g_st enabled) = 0.
Proof.
  destruct (release_is_lost 129 128 point (replicate 33 0) (replicate 41 0) ready touched lifted enabled ready_winv
    eq_refl works ltac:(done) ltac:(by vm_compute) ltac:(done) eq_refl ltac:(done) eq_refl shows_finger
    ltac:(vm_compute; reflexivity) ltac:(apply shows_none; vm_compute; lia) ltac:(vm_compute; reflexivity)
    ltac:(apply shows_none; vm_compute; lia) ltac:(vm_compute; reflexivity)) as (_ & K & P).
  by split.
Defined.

Lemma blank_unblank_witness :
  exists s1 s2, gtp_fb_notifier_callback 9 (Some 4) ready = Ret 0 s1 /\
    g_trace s1 = [IrqOff; PinOut 0 0; Sleep 5; XWrite [128; 64; 5]; Sleep 58] /\
    gtp_fb_notifier_callback 9 (Some 0) s1 = Ret 0 s2 /\ g_ts s2 = g_ts ready.
Proof.
  destruct (blank_unblank ready works ready_winv eq_refl eq_refl eq_refl) as (s1 & s2 & E1 & T1 & _ & _ & E2 & _ & G & _).
  exists s1, s2. split_and!; [exact E1| |exact E2|exact G]. rewrite T1. vm_compute. reflexivity.
Defined.

End TouchDemo.
