(* ===== verification/GtPanel.v ===== *)
(** * The touch-screen driver: configuration

    [gt9xx.c]: the configuration is read from the device tree, checked against
    the version in the chip, closed with a checksum and sent; the file
    /proc/gt9xx_config shows it and replaces it; version and bus test. *)

From stdpp Require Import base list numbers strings.
From Stdlib Require Import ZArith Lia.
From S2P Require Import Prelude Text Kernel GoodixTool GtBus Gt9xx.
Open Scope Z_scope.

Definition GTP_REG_SENSOR_ID : Z := 33098.   (* 0x814A *)
Definition GTP_REG_VERSION : Z := 33088.     (* 0x8140 *)
Definition GTP_REG_FW_CHECK : Z := 16868.    (* 0x41E4 *)
Definition RESOLUTION_LOC : Z := 3.
Definition TRIGGER_LOC : Z := 8.

Section Panel.
Context `{GtpKernel}.

Definition get_config : prog gworld (list Z) := g_gets (fun s => config (g_st s)).
Definition put_config (c : list Z) : prog gworld unit := st_set (with_config c).

(** The name of a configuration, in 18 bytes. *)
Definition cfg_name (sid : Z) : list Z := snprintf 18 (str "goodix,cfg-group" ++ decimal sid).

(** [gtp_parse_dt_cfg(&config[2], &ts->gtp_cfg_len, sid)].  A property without
    a value has no bytes. *)
Definition gtp_parse_dt_cfg (sid : Z) : prog gworld Z :=
  match gp_property (cfg_name sid) with
  | None => ret (-1)
  | Some value =>
      do* ts_set (with_gtp_cfg_len (zlen value));
      if (zlen value =? 0) || (GTP_CONFIG_MAX_LENGTH <? zlen value) then ret (-1)
      else
        let* c := get_config in
        let* c := lift OutOfBounds (memcpy c GTP_ADDR_LENGTH value 0 (zlen value)) in
        do* put_config c;
        ret 0
  end.

(** [for (i = GTP_ADDR_LENGTH; i < ts->gtp_cfg_len; i++) check_sum += config[i];] *)
Definition sum_bytes (l : list Z) : Z := foldl (fun a b => u8 (a + b)) 0 l.

Definition config_part (c : list Z) (len : Z) : option (list Z) :=
  if len <=? GTP_ADDR_LENGTH then Some [] else range c GTP_ADDR_LENGTH (len - GTP_ADDR_LENGTH).

(** The checksum over the configuration, stored behind it. *)
Definition close_config : prog gworld unit :=
  let* len := ts_get gtp_cfg_len in
  let* c := get_config in
  let* b := lift OutOfBounds (config_part c len) in
  let* c := lift OutOfBounds (store8 c len (u8 (Z.lnot (sum_bytes b) + 1))) in
  put_config c.

Definition set_version (v : Z) : prog gworld unit :=
  let* c := get_config in
  let* c := lift OutOfBounds (store8 c GTP_ADDR_LENGTH v) in
  put_config c.

(** Resolution and trigger from the configuration, unless they are known. *)
Definition read_resolution : prog gworld unit :=
  let* x := ts_get abs_x_max in
  let* y := ts_get abs_y_max in
  if (x =? 0) && (y =? 0) then
    let* c := get_config in
    let at_ k := lift OutOfBounds (load8 c k) in
    let* x0 := at_ RESOLUTION_LOC in
    let* x1 := at_ (RESOLUTION_LOC + 1) in
    let* y0 := at_ (RESOLUTION_LOC + 2) in
    let* y1 := at_ (RESOLUTION_LOC + 3) in
    let* t := at_ TRIGGER_LOC in
    do* ts_set (with_abs_x_max (u16 (Z.shiftl x1 8 + x0)));
    do* ts_set (with_abs_y_max (u16 (Z.shiftl y1 8 + y0)));
    ts_set (with_int_trigger_type (Z.land t 3))
  else ret tt.

(** [flash_cfg_version < 90 && flash_cfg_version > drv_cfg_version] *)
Definition newer (flash drv : Z) : bool := (flash <? 90) && (drv <? flash).

(** From the version check on. *)
Definition send_panel_config : prog gworld Z :=
  let* v := gtp_i2c_read_dbl_check GTP_REG_CONFIG_DATA 1 in
  match v with
  | None => ret (-1)
  | Some opr_buf =>
      let* flash := lift OutOfBounds (load8 opr_buf 0) in
      let* c := get_config in
      let* drv := lift OutOfBounds (load8 c GTP_ADDR_LENGTH) in
      do* (if newer flash drv then set_version 0 else ret tt);
      do* close_config;
      do* read_resolution;
      do* gtp_send_cfg;
      do* (if newer flash drv then do* set_version drv; close_config else ret tt);
      do* g_do (Sleep 10);
      ret 0
  end.

(** From the sensor identifier on. *)
Definition init_sensor : prog gworld Z :=
  let* id := gtp_i2c_read_dbl_check GTP_REG_SENSOR_ID 1 in
  match id with
  | None => do* ts_set (with_pnl_init_error 1); ret (-1)
  | Some b =>
      let* sensor_id := lift OutOfBounds (load8 b 0) in
      if 6 <=? sensor_id then do* ts_set (with_pnl_init_error 1); ret (-1)
      else
        let* r := gtp_parse_dt_cfg sensor_id in
        if r <? 0 then do* ts_set (with_pnl_init_error 1); ret (-1)
        else
          let* len := ts_get gtp_cfg_len in
          if len <? GTP_CONFIG_MIN_LENGTH then do* ts_set (with_pnl_init_error 1); ret (-1)
          else send_panel_config
  end.

Definition gtp_init_panel : prog gworld Z :=
  let* fw := gtp_i2c_read_dbl_check GTP_REG_FW_CHECK 1 in
  match fw with
  | Some opr_buf =>
      let* b := lift OutOfBounds (load8 opr_buf 0) in
      if negb (b =? 190) then do* ts_set (with_fw_error 1); ret (-1)
      else init_sensor
  | None => init_sensor
  end.

(** ** /proc/gt9xx_config *)

Definition hex_upper (d : Z) : Z := if d <? 10 then 48 + d else 55 + d.

(** sprintf with 0x%02X and a blank; [char] is unsigned on the target. *)
Definition hex_cell (v : Z) : list Z := [48; 120; hex_upper (v / 16); hex_upper (v mod 16); 32].

Fixpoint config_rows (i : Z) (l : list Z) : list Z :=
  match l with
  | [] => []
  | v :: l' => hex_cell v ++ (if i mod 8 =? 7 then [10] else []) ++ config_rows (i + 1) l'
  end.

Definition init_title : list Z := str "==== GT9XX config init value====" ++ [10].
Definition real_title : list Z := str "==== GT9XX config real value====" ++ [10].

(** The result, the text stored at [page], the new position; [size] is not
    looked at. *)
Definition gt91xx_config_read_proc (size pos : Z) : prog gworld (Z * list Z * Z) :=
  if negb (pos =? 0) then ret (0, [], pos)
  else
    let* c := get_config in
    let* b := lift OutOfBounds (range c 2 GTP_CONFIG_MAX_LENGTH) in
    let* x := gtp_i2c_read (reg GTP_REG_CONFIG_DATA ++ replicate 240 0) (GTP_CONFIG_MAX_LENGTH + 2) in
    let* d := lift OutOfBounds (range (snd x) 2 GTP_CONFIG_MAX_LENGTH) in
    let text := init_title ++ config_rows 0 b ++ [10] ++ real_title ++ config_rows 0 d in
    ret (zlen text, text, pos + zlen text).

Definition gt91xx_config_write_proc (user : list Z) (count : Z) : prog gworld Z :=
  if GTP_CONFIG_MAX_LENGTH <? count then ret (- EFAULT)
  else
    let '(missed, b) := copy_from_user user 0 count in
    let* c := get_config in
    let* c := lift OutOfBounds (memcpy c 2 b 0 count) in
    do* put_config c;
    if negb (missed =? 0) then ret (- EFAULT)
    else do* gtp_send_cfg; ret count.

(** ** Version and bus test *)

(** The result and [*version]. *)
Definition gtp_read_version : prog gworld (Z * option Z) :=
  let* x := gtp_i2c_read (reg GTP_REG_VERSION ++ replicate 6 0) 8 in
  if fst x <? 0 then ret (fst x, None)
  else
    let* lo := lift OutOfBounds (load8 (snd x) 6) in
    let* hi := lift OutOfBounds (load8 (snd x) 7) in
    ret (fst x, Some (u16 (half lo hi))).

(** [test] keeps what the last read left. *)
Fixpoint test_loop (n : nat) (r : Z) (test : list Z) : prog gworld Z :=
  match n with
  | O => ret r
  | S n' =>
      let* x := gtp_i2c_read test 3 in
      let r := s8 (fst x) in
      if 0 <? r then ret r
      else do* g_do (Sleep 10); test_loop n' r (snd x)
  end.

Definition gtp_i2c_test : prog gworld Z := test_loop 5 (-1) (reg GTP_REG_CONFIG_DATA ++ [0]).

End Panel.

(** ** The checksum *)

Definition zsum (l : list Z) : Z := foldr Z.add 0 l.

(** The configuration with its checksum adds up to 0. *)
Definition checked (c : list Z) (len : Z) : Prop :=
  zsum (take (Z.to_nat (len - 1)) (drop 2 c)) mod 256 = 0.

Lemma u8_add_l a b : u8 (u8 a + b) = u8 (a + b).
Proof. unfold u8. by rewrite Zplus_mod_idemp_l. Qed.

Lemma u8_add_r a b : u8 (a + u8 b) = u8 (a + b).
Proof. unfold u8. by rewrite Zplus_mod_idemp_r. Qed.

Lemma sum_bytes_spec l : sum_bytes l = u8 (zsum l).
Proof.
  unfold sum_bytes. enough (forall a, foldl (fun a b => u8 (a + b)) (u8 a) l = u8 (a + zsum l)) as K
    by (apply (K 0)).
  induction l as [|b l IH]; intros a; cbn; [by rewrite Z.add_0_r|].
  rewrite u8_add_l, IH. f_equal. unfold zsum. lia.
Qed.

Lemma zsum_app a b : zsum (a ++ b) = zsum a + zsum b.
Proof. induction a as [|x a IH]; cbn; [done|]. unfold zsum in *. lia. Qed.

(** [c] with its checksum. *)
Definition closed (c : list Z) (len : Z) : list Z :=
  <[Z.to_nat len := u8 (Z.lnot (sum_bytes (take (Z.to_nat (len - 2)) (drop 2 c))) + 1)]> c.

Lemma closed_length c len : length (closed c len) = length c.
Proof. apply length_insert. Qed.

Lemma closed_checked c len : 2 <= len < zlen c -> checked (closed c len) len.
Proof.
  intros Hl. unfold checked, closed. set (b := take (Z.to_nat (len - 2)) (drop 2 c)). set (v := u8 _).
  assert (take (Z.to_nat (len - 1)) (drop 2 (<[Z.to_nat len := v]> c)) = b ++ [v]) as ->.
  { apply list_eq. intros i. unfold b. unfold zlen in Hl.
    destruct (decide (i < Z.to_nat (len - 2))%nat).
    - rewrite lookup_app_l by (rewrite length_take, length_drop; lia).
      rewrite !lookup_take_lt by lia. rewrite !lookup_drop. by rewrite list_lookup_insert_ne by lia.
    - rewrite lookup_app_r by (rewrite length_take, length_drop; lia).
      rewrite length_take, length_drop, Nat.min_l by lia.
      destruct (decide (i = Z.to_nat (len - 2))) as [-> |].
      + rewrite lookup_take_lt, lookup_drop by lia. replace (2 + _)%nat with (Z.to_nat len) by lia.
        rewrite list_lookup_insert_eq by lia. by rewrite Nat.sub_diag.
      + rewrite lookup_take_ge by lia. symmetry. apply lookup_ge_None_2. cbn. lia. }
  rewrite zsum_app. cbn [zsum foldr]. rewrite Z.add_0_r. change (u8 (zsum b + v) = 0).
  unfold v. rewrite u8_add_r, sum_bytes_spec. unfold Z.lnot.
  replace (zsum b + (Z.pred (- u8 (zsum b)) + 1)) with (zsum b - u8 (zsum b)) by lia.
  unfold u8. by rewrite Zminus_mod_idemp_r, Z.sub_diag.
Qed.

Section PanelFacts.
Context `{GtpKernel}.

Lemma close_config_eq s :
  g_ptr s = Live -> length (config (g_st s)) = 242%nat -> 2 <= gtp_cfg_len (g_ts s) <= 240 ->
  close_config s = Ret tt (with_g_st (with_config (closed (config (g_st s)) (gtp_cfg_len (g_ts s))) (g_st s)) s).
Proof.
  intros Hp Hc Hl. unfold close_config. rewrite (bind_Ret _ _ _ _ _ (ts_get_eq _ _ Hp)).
  unfold get_config. rewrite bind_unfold. cbn [g_gets]. set (c := config (g_st s)) in *. set (len := gtp_cfg_len _) in *.
  unfold config_part, GTP_ADDR_LENGTH, closed.
  assert ((if len <=? 2 then Some [] else range c 2 (len - 2)) = Some (take (Z.to_nat (len - 2)) (drop 2 c))) as ->.
  { destruct (len <=? 2) eqn:E; bool_cases.
    - replace (Z.to_nat (len - 2)) with 0%nat by lia. done.
    - apply range_eq; unfold zlen; lia. }
  rewrite bind_lift_Some. unfold store8, zlen. rewrite Hc.
  destruct ((0 <=? len) && (len <? Z.of_nat 242)) eqn:E; [done|].
  apply andb_false_iff in E as [E|E]; bool_cases; lia.
Qed.

Lemma set_version_eq v s :
  length (config (g_st s)) = 242%nat ->
  set_version v s = Ret tt (with_g_st (with_config (<[2%nat := v]> (config (g_st s))) (g_st s)) s).
Proof.
  intros Hc. unfold set_version, get_config. rewrite bind_unfold. cbn [g_gets]. unfold store8, zlen. by rewrite Hc.
Qed.

(** What [read_resolution] does to [*ts]. *)
Definition resolution (c : list Z) (d : goodix_ts_data) : goodix_ts_data :=
  if (abs_x_max d =? 0) && (abs_y_max d =? 0) then
    with_int_trigger_type (Z.land (c !!! 8%nat) 3)
      (with_abs_y_max (u16 (Z.shiftl (c !!! 6%nat) 8 + c !!! 5%nat))
        (with_abs_x_max (u16 (Z.shiftl (c !!! 4%nat) 8 + c !!! 3%nat)) d))
  else d.

Lemma load8_total c i : 0 <= i < zlen c -> load8 c i = Some (c !!! Z.to_nat i).
Proof.
  intros Hi. destruct (load8_some c i Hi) as [v E]. rewrite E. f_equal. unfold load8 in E.
  destruct (i <? 0); [done|]. symmetry. by apply list_lookup_total_correct.
Qed.

Lemma read_resolution_eq s :
  g_ptr s = Live -> length (config (g_st s)) = 242%nat ->
  read_resolution s = Ret tt (with_g_ts (resolution (config (g_st s)) (g_ts s)) s).
Proof.
  intros Hp Hc. unfold read_resolution, resolution.
  rewrite (bind_Ret _ _ _ _ _ (ts_get_eq _ _ Hp)), (bind_Ret _ _ _ _ _ (ts_get_eq _ _ Hp)).
  destruct (_ && _); [|by destruct s].
  unfold get_config. rewrite (bind_unfold (g_gets _)). cbn [g_gets].
  assert (zlen (config (g_st s)) = 242) as Lz by (unfold zlen; lia).
  rewrite !load8_total by (unfold RESOLUTION_LOC, TRIGGER_LOC; lia). rewrite !bind_lift_Some.
  rewrite (bind_Ret _ _ _ _ _ (ts_set_eq _ _ Hp)).
  rewrite (bind_Ret _ _ _ _ _ (ts_set_eq _ (with_g_ts _ s) Hp)). by rewrite ts_set_eq.
Qed.

(** The checked read of a register gave [v], over the bus traffic [tr]; and that
    is what the chip answered, if transfers that fail store nothing. *)
Definition told (addr v : Z) (s : gworld) (tr : list teffect) : Prop :=
  gtp_i2c_read_dbl_check addr 1 s = Ret (Some [v]) (ext tr s) /\
  (failures_store_nothing -> seen (g_trace s ++ tr) (reg addr) [v]).

(** The two reads never agreed. *)
Definition untold (addr : Z) (s : gworld) (tr : list teffect) : Prop :=
  gtp_i2c_read_dbl_check addr 1 s = Ret None (ext tr s).

Lemma dbl_one addr s :
  emits (gtp_i2c_read_dbl_check addr 1) s (fun o tr => asks tr /\
    (o = None /\ untold addr s tr \/ exists v, o = Some [v] /\ told addr v s tr)).
Proof.
  destruct (dbl_loop_sound 3 addr 1 s ltac:(lia)) as (o & tr & E & Ha & Hd). exists o, tr. split; [exact E|].
  split; [done|]. destruct o as [d|]; [|by left]. right. destruct (Hd d eq_refl) as [Hl Hs].
  destruct d as [|v [|]]; try (unfold zlen in Hl; cbn in Hl; lia). exists v. split; [done|]. split; [exact E|].
  intros Hf. apply Hs; [done|lia].
Qed.

Lemma closed_again c len v : 2 < len < zlen c -> c !! 2%nat = Some v ->
  closed (<[2%nat := v]> (closed (<[2%nat := 0]> c) len)) len = closed c len.
Proof.
  intros Hl Hv. unfold closed at 2. set (x := u8 _).
  rewrite list_insert_insert_ne by lia. rewrite (list_insert_insert_eq c 2), (list_insert_id c 2 v) by done.
  unfold closed. rewrite list_insert_insert_eq. f_equal. f_equal. f_equal. f_equal. f_equal.
  apply list_eq. intros i. destruct (decide (i < Z.to_nat (len - 2))%nat).
  - rewrite !lookup_take_lt, !lookup_drop by lia. by rewrite list_lookup_insert_ne by lia.
  - by rewrite !lookup_take_ge by lia.
Qed.

Definition with_cfg (c : list Z) (s : gworld) : gworld := with_g_st (with_config c (g_st s)) s.

(** What a configuration that was sent looks like: the driver's [c], with
    version 0 when the chip has a newer one, and its checksum. *)
Definition sent_config (c : list Z) (len flash : Z) : list Z :=
  closed (if newer flash (c !!! 2%nat) then <[2%nat := 0]> c else c) len.

Lemma send_panel_spec s :
  let c := config (g_st s) in let len := gtp_cfg_len (g_ts s) in
  g_ptr s = Live -> length c = 242%nat -> 186 <= len <= 240 ->
  returns send_panel_config s (fun r s' =>
    (r = -1 /\ exists tr, s' = ext tr s /\ asks tr /\ untold GTP_REG_CONFIG_DATA s tr) \/
    (r = 0 /\ exists flash tr1 tr2, told GTP_REG_CONFIG_DATA flash s tr1 /\
       s' = ext (tr1 ++ tr2 ++ [Sleep 10])
              (with_cfg (closed c len) (with_g_ts (resolution (sent_config c len flash) (g_ts s)) s)) /\
       asks tr1 /\
       (if pnl_init_error (g_ts s) =? 0 then sends (sent_config c len flash) tr2 else tr2 = []))).
Proof.
  intros c len Hp Hc Hl. unfold send_panel_config.
  destruct (dbl_one GTP_REG_CONFIG_DATA s) as (o & tr1 & E1 & A1 & Ho). rewrite <- (ext_nil s) at 1.
  unfold returns. rewrite ext_nil, (bind_Ret _ _ _ _ _ E1). destruct Ho as [[-> U]|(flash & -> & T)].
  { eexists _, _. split; [reflexivity|]. left. split; [done|]. by exists tr1. }
  change (load8 [flash] 0) with (Some flash). rewrite bind_lift_Some. unfold get_config at 1.
  rewrite (bind_unfold (g_gets _)). cbn [g_gets]. change (config (g_st (ext tr1 s))) with c.
  assert (zlen c = 242) as Lz by (unfold zlen; lia).
  rewrite load8_total by (unfold GTP_ADDR_LENGTH; lia). rewrite bind_lift_Some.
  change (c !!! Z.to_nat GTP_ADDR_LENGTH) with (c !!! 2%nat). set (drv := c !!! 2%nat).
  assert (c !! 2%nat = Some drv) as Hd by (apply list_lookup_lookup_total_lt; lia).
  set (c1 := if newer flash drv then <[2%nat := 0]> c else c).
  assert (length c1 = 242%nat) as L1 by (unfold c1; destruct (newer _ _); [by rewrite length_insert|done]).
  set (s1 := ext tr1 s). assert ((if newer flash drv then set_version 0 else ret tt) s1 = Ret tt (with_cfg c1 s1)) as E2.
  { unfold c1. destruct (newer flash drv); [by apply set_version_eq|]. unfold with_cfg, s1, c. by destruct s as [? ? [] ? ? ?]. }
  rewrite (bind_Ret _ _ _ _ _ E2). rewrite (bind_Ret _ _ _ _ _ (close_config_eq (with_cfg c1 s1) Hp L1 ltac:(cbn; lia))).
  change (config (g_st (with_cfg c1 s1))) with c1. change (gtp_cfg_len (g_ts (with_cfg c1 s1))) with len.
  set (sc := closed c1 len). set (s2 := with_g_st _ (with_cfg c1 s1)).
  assert (length (config (g_st s2)) = 242%nat) as L2 by (cbn; unfold sc; by rewrite closed_length).
  rewrite (bind_Ret _ _ _ _ _ (read_resolution_eq s2 Hp L2)). change (config (g_st s2)) with sc.
  set (s3 := with_g_ts _ s2).
  assert (pnl_init_error (g_ts s3) = pnl_init_error (g_ts s)) as Ep by (unfold s3, resolution; cbn; by destruct (_ && _)).
  assert (gtp_cfg_len (g_ts s3) = len) as Eg by (unfold s3, resolution; cbn; by destruct (_ && _)).
  destruct (send_cfg_sends s3 Hp L2) as (r & tr2 & E3 & S3). rewrite (bind_Ret _ _ _ _ _ E3). rewrite Ep in S3.
  assert (exists s4, (if newer flash drv then do* set_version drv; close_config else ret tt) (ext tr2 s3) = Ret tt s4 /\
    s4 = ext (tr1 ++ tr2) (with_cfg (closed c len) (with_g_ts (resolution sc (g_ts s)) s))) as (s4 & E4 & F4).
  { unfold sc, c1 in *. destruct (newer flash drv).
    - rewrite (bind_Ret _ _ _ _ _ (set_version_eq drv (ext tr2 s3) L2)). rewrite close_config_eq.
      + eexists. split; [reflexivity|]. change (gtp_cfg_len (g_ts (with_g_st _ (ext tr2 s3)))) with (gtp_cfg_len (g_ts s3)).
        rewrite Eg. cbn [config with_g_st with_config g_st ext s3 s2 with_g_trace with_g_ts with_cfg s1].
        rewrite closed_again by (done || lia). unfold s3, s2, with_cfg, s1, ext. cbn. by rewrite app_assoc.
      + done.
      + cbn. rewrite length_insert. exact L2.
      + change (gtp_cfg_len (g_ts (with_g_st _ (ext tr2 s3)))) with (gtp_cfg_len (g_ts s3)). rewrite Eg. lia.
    - eexists. split; [reflexivity|]. unfold s3, s2, with_cfg, s1, ext. cbn. by rewrite app_assoc. }
  rewrite (bind_Ret _ _ _ _ _ E4), F4. unfold g_do. rewrite bind_modify. eexists _, _. split; [reflexivity|]. right.
  split; [done|]. exists flash, tr1, tr2. unfold sent_config. fold drv c1 sc. split_and!; [done| |done|done].
  unfold g_emit, ext. cbn. by rewrite <- !app_assoc.
Qed.

(** The interrupt switches are as they were. *)
Definition same_switches (d d' : goodix_ts_data) : Prop :=
  irq_is_disable d' = irq_is_disable d /\ use_irq d' = use_irq d.

(** The driver with the group [v] of the device tree. *)
Definition loaded (v : list Z) (s : gworld) : gworld :=
  with_cfg (splice (config (g_st s)) 2 v) (with_g_ts (with_gtp_cfg_len (zlen v) (g_ts s)) s).

(** The device tree has no usable group for a sensor. *)
Definition no_group (sid : Z) : Prop :=
  match gp_property (cfg_name sid) with Some v => zlen v < 186 \/ 240 < zlen v | None => True end.

(** The three outcomes of the device tree. *)
Lemma parse_cfg_spec sid s :
  g_ptr s = Live -> length (config (g_st s)) = 242%nat ->
  (exists s', gtp_parse_dt_cfg sid s = Ret (-1) s' /\ g_trace s' = g_trace s /\ g_ptr s' = Live /\
     g_st s' = g_st s /\ same_switches (g_ts s) (g_ts s') /\ no_group sid) \/
  (exists v, gp_property (cfg_name sid) = Some v /\ 0 < zlen v <= 240 /\ gtp_parse_dt_cfg sid s = Ret 0 (loaded v s)).
Proof.
  intros Hp Hc. unfold gtp_parse_dt_cfg, no_group. destruct (gp_property _) as [v|]; [|left; by exists s].
  rewrite (bind_Ret _ _ _ _ _ (ts_set_eq _ _ Hp)). unfold GTP_CONFIG_MAX_LENGTH, GTP_ADDR_LENGTH.
  pose proof (zlen_nonneg v). destruct ((zlen v =? 0) || (240 <? zlen v)) eqn:E.
  { left. eexists. split; [reflexivity|]. split_and!; try done. apply orb_true_iff in E as [E|E]; bool_cases; [left|right]; lia. }
  apply orb_false_iff in E as [E1 E2]. bool_cases. right. exists v. split_and!; [done|lia|lia|].
  unfold get_config. rewrite bind_unfold. cbn [g_gets].
  rewrite memcpy_Some by (unfold zlen in *; cbn; lia). rewrite bind_lift_Some.
  rewrite drop_0, take_ge by (unfold zlen; lia). done.
Qed.

Lemma splice_in c v : length c = 242%nat -> zlen v <= 240 -> length (splice c 2 v) = 242%nat.
Proof. intros Hc Hv. rewrite length_splice; [done|]. unfold zlen in *. lia. Qed.

(** The flag that keeps [gtp_send_cfg] from sending. *)
Lemma fail_panel (f : goodix_ts_data -> goodix_ts_data) s :
  g_ptr s = Live -> same_switches (g_ts s) (f (g_ts s)) ->
  exists s', (do* ts_set f; ret (-1)) s = Ret (-1) s' /\ g_trace s' = g_trace s /\ g_ptr s' = Live /\
    g_st s' = g_st s /\ same_switches (g_ts s) (g_ts s').
Proof. intros Hp Hs. rewrite (bind_Ret _ _ _ _ _ (ts_set_eq _ _ Hp)). by eexists. Qed.

(** Failed, with nothing written to the chip. *)
Definition gave_up (s : gworld) (r : Z) (s' : gworld) : Prop :=
  r = -1 /\ g_ptr s' = Live /\ length (config (g_st s')) = 242%nat /\ same_switches (g_ts s) (g_ts s') /\
  exists tr, g_trace s' = g_trace s ++ tr /\ asks tr.

(** Why the initialisation gives up from the sensor identifier on: the read of
    the identifier, its value, the device tree or the read of the version. *)
Definition sensor_refused (s : gworld) : Prop :=
  (exists tr, untold GTP_REG_SENSOR_ID s tr) \/
  exists sid tr, told GTP_REG_SENSOR_ID sid s tr /\
    (6 <= sid \/ no_group sid \/
     exists v tr', gp_property (cfg_name sid) = Some v /\ untold GTP_REG_CONFIG_DATA (loaded v (ext tr s)) tr').

(** Configured with the group [v] of the sensor [sid] the chip reports; [flash]
    is the version the chip reports. *)
Definition sensor_configured (s s' : gworld) : Prop :=
  exists sid tr v flash tr1 tr2,
    told GTP_REG_SENSOR_ID sid s tr /\ sid < 6 /\ gp_property (cfg_name sid) = Some v /\ 186 <= zlen v <= 240 /\
    told GTP_REG_CONFIG_DATA flash (loaded v (ext tr s)) tr1 /\
    let c := splice (config (g_st s)) 2 v in let out := sent_config c (zlen v) flash in
    s' = ext (tr ++ tr1 ++ tr2 ++ [Sleep 10])
           (with_cfg (closed c (zlen v)) (with_g_ts (resolution out (with_gtp_cfg_len (zlen v) (g_ts s))) s)) /\
    asks tr /\ asks tr1 /\ (if pnl_init_error (g_ts s) =? 0 then sends out tr2 else tr2 = []).

(** The firmware check passes: 0xBE was read, or nothing could be read. *)
Definition firmware_passes (s : gworld) (tr : list teffect) : Prop :=
  asks tr /\ (told GTP_REG_FW_CHECK 190 s tr \/ untold GTP_REG_FW_CHECK s tr).

Definition refused (s : gworld) : Prop :=
  (exists b tr, told GTP_REG_FW_CHECK b s tr /\ b <> 190) \/
  exists tr, firmware_passes s tr /\ sensor_refused (ext tr s).

Definition configured (s : gworld) (r : Z) (s' : gworld) : Prop :=
  r = 0 /\ exists tr, firmware_passes s tr /\ sensor_configured (ext tr s) s'.

Lemma gave_up_ext tr s r s' : asks tr -> gave_up (ext tr s) r s' -> gave_up s r s'.
Proof.
  intros Ha (-> & H1 & H2 & H3 & tr' & E & A). split; [done|]. split; [done|]. split; [done|]. split; [exact H3|].
  exists (tr ++ tr').
  rewrite E, ext_trace, <- app_assoc. split; [done|by apply asks_app].
Qed.

Lemma init_sensor_spec s :
  g_ptr s = Live -> length (config (g_st s)) = 242%nat ->
  returns init_sensor s (fun r s' => (gave_up s r s' /\ sensor_refused s) \/ (r = 0 /\ sensor_configured s s')).
Proof.
  intros Hp Hc. unfold init_sensor.
  destruct (dbl_one GTP_REG_SENSOR_ID s) as (o & tr1 & E1 & A1 & Ho).
  unfold returns. rewrite (bind_Ret _ _ _ _ _ E1). set (s1 := ext tr1 s).
  assert (forall s2 c, sensor_refused s -> g_trace s2 = g_trace s1 -> length (config (g_st s2)) = 242%nat ->
    same_switches (g_ts s1) (g_ts s2) -> (exists s', c s2 = Ret (-1) s' /\ g_trace s' = g_trace s2 /\
      g_ptr s' = Live /\ g_st s' = g_st s2 /\ same_switches (g_ts s2) (g_ts s')) ->
    exists r s', c s2 = Ret r s' /\ ((gave_up s r s' /\ sensor_refused s) \/ (r = 0 /\ sensor_configured s s'))) as K.
  { intros s2 c Hr E2 L2 [W1 W2] (s' & Ec & Et & Ep & Es & [V1 V2]). exists (-1), s'. split; [done|]. left. split; [|done].
    split; [done|]. split; [done|]. split; [by rewrite Es|]. split; [split; [by rewrite V1, W1|by rewrite V2, W2]|].
    exists tr1. by rewrite Et, E2. }
  destruct Ho as [[-> U]|(sid & -> & T)]; [apply K; try done; [left; by exists tr1|by apply fail_panel]|].
  change (load8 [sid] 0) with (Some sid). rewrite bind_lift_Some.
  assert (6 <= sid \/ no_group sid \/ (exists v tr', gp_property (cfg_name sid) = Some v
    /\ untold GTP_REG_CONFIG_DATA (loaded v s1) tr') -> sensor_refused s) as Hrf by (intros X; right; by exists sid, tr1).
  destruct (6 <=? sid) eqn:E6; bool_cases; [apply K; try done; [apply Hrf; by left|by apply fail_panel]|].
  destruct (parse_cfg_spec sid s1 Hp Hc) as [(s2 & E2 & T2 & P2 & C2 & W2 & Hg)|(v & Ev & Hv & E2)].
  { rewrite (bind_Ret _ _ _ _ _ E2). cbn [Z.ltb Z.compare].
    apply K; [apply Hrf; by right; left|done|by rewrite C2|done|by apply fail_panel]. }
  rewrite (bind_Ret _ _ _ _ _ E2). cbn [Z.ltb Z.compare]. set (s2 := loaded v s1) in *.
  rewrite (bind_Ret _ _ _ _ _ (ts_get_eq _ s2 Hp)). change (gtp_cfg_len (g_ts s2)) with (zlen v).
  assert (length (config (g_st s2)) = 242%nat) as L2 by (apply splice_in; [done|lia]).
  unfold GTP_CONFIG_MIN_LENGTH. destruct (zlen v <? 186) eqn:E186; bool_cases.
  { apply K; try done; [|by apply fail_panel]. apply Hrf. right; left. unfold no_group. rewrite Ev. by left. }
  destruct (send_panel_spec s2 Hp L2 ltac:(cbn; lia)) as (r & s' & E3 & [(-> & tr & -> & A & U)|(-> & fl & t1 & t2 & F & -> & A & S)]).
  - eexists _, _. split; [exact E3|]. left. split; [|apply Hrf; right; right; by exists v, tr].
    split; [done|]. split; [done|]. split; [done|]. split; [done|].
    exists (tr1 ++ tr). split; [cbn; by rewrite app_assoc|by apply asks_app].
  - eexists _, _. split; [exact E3|]. right. split; [done|].
    exists sid, tr1, v, fl, t1, t2. split_and!; try done; [lia|]. unfold s2, loaded, with_cfg, s1, ext. cbn.
    by rewrite <- !app_assoc.
Qed.

Lemma init_panel_spec s :
  g_ptr s = Live -> length (config (g_st s)) = 242%nat ->
  returns gtp_init_panel s (fun r s' => (gave_up s r s' /\ refused s) \/ configured s r s').
Proof.
  intros Hp Hc. unfold gtp_init_panel. destruct (dbl_one GTP_REG_FW_CHECK s) as (o & tr & E & A & Ho).
  assert (firmware_passes s tr -> returns init_sensor (ext tr s) (fun r s' => (gave_up s r s' /\ refused s) \/ configured s r s')) as R.
  { intros Hf. eapply returns_mono; [by apply init_sensor_spec|]. intros r s' [[G Hs]|[-> G]].
    - left. split; [by eapply gave_up_ext|]. right. by exists tr.
    - right. split; [done|]. by exists tr. }
  unfold returns. rewrite (bind_Ret _ _ _ _ _ E). destruct Ho as [[-> U]|(b & -> & T)]; [apply R; by split; [|right]|].
  change (load8 [b] 0) with (Some b). rewrite bind_lift_Some. destruct (b =? 190) eqn:Eb; bool_cases; cbn [negb].
  { subst b. apply R. by split; [|left]. }
  destruct (fail_panel (with_fw_error 1) (ext tr s) Hp ltac:(done)) as (s' & -> & Et & Ep & Es & Ew). eexists _, _.
  split; [reflexivity|]. left. split; [|left; by exists b, tr].
  split; [done|]. split; [done|]. split; [by rewrite Es|]. split; [exact Ew|]. by exists tr.
Qed.

(** C28: what reaches the chip as configuration is right.  Whatever the chip and
    the device tree answer, the initialisation of a bound driver returns 0 or
    -1.  With -1 nothing was written to the chip, and the reason is one of
    these: the firmware check gave another byte than 0xBE; the sensor
    identifier could not be read, or is 6 or more; the device tree has no group
    for it of 186 to 240 bytes; the chip's version could not be read.  With 0
    the group is the one of the identifier the chip reported.  Unless an earlier
    initialisation failed, in which case nothing is sent, the only message
    written is that group with its checksum, and with version 0 exactly when
    the version the chip reported is below 90 and above the group's.
    Configuration and message add up to 0 with their checksum, the driver keeps
    the group with its own version, and takes resolution and trigger from it
    when it had none.  What the chip reported is what the checked read of the
    register returned at that moment of the run, and, if transfers that fail
    store nothing, an answer of the chip. *)
Theorem init_panel_configures s :
  g_ptr s = Live -> length (config (g_st s)) = 242%nat ->
  returns gtp_init_panel s (fun r s' => (gave_up s r s' /\ refused s) \/ configured s r s' /\
    let len := gtp_cfg_len (g_ts s') in
    186 <= len <= 240 /\ checked (config (g_st s')) len /\
    forall b, XWrite b ∈ drop (length (g_trace s)) (g_trace s') -> checked b len).
Proof.
  intros Hp Hc.
  assert (forall s', configured s 0 s' -> let len := gtp_cfg_len (g_ts s') in
    186 <= len <= 240 /\ checked (config (g_st s')) len /\
    forall b, XWrite b ∈ drop (length (g_trace s)) (g_trace s') -> checked b len) as K.
  { intros s' (_ & tr0 & [A0 _] & sid & tr & v & fl & tr1 & tr2 & _ & _ & _ & Hv & _ & Es & A & A1 & S).
    cbn [g_st g_ts ext with_g_trace] in *. set (c := splice _ 2 v) in *.
    set (out := sent_config c (zlen v) fl) in *. assert (gtp_cfg_len (g_ts s') = zlen v) as ->.
    { rewrite Es. unfold resolution. cbn. by destruct (_ && _). }
    assert (length c = 242%nat) as Lc by (apply splice_in; [done|lia]).
    assert (checked out (zlen v)) as Ko.
    { unfold out, sent_config. apply closed_checked. unfold zlen at 3. destruct (newer _ _); rewrite ?length_insert; lia. }
    split_and!; [lia|lia|rewrite Es; apply closed_checked; unfold zlen at 3; lia|].
    intros b. rewrite Es, ext_trace. cbn [g_trace with_cfg with_g_st with_g_ts ext with_g_trace].
    rewrite <- app_assoc, drop_app_length.
    assert (forall tr, asks tr -> XWrite b ∈ tr -> False) as NA.
    { intros t Ha Hb. unfold asks in Ha. rewrite Forall_forall in Ha. by specialize (Ha _ Hb). }
    rewrite !elem_of_app. intros [Hb|[Hb|[Hb|[Hb|Hb]]]];
      [by destruct (NA tr0)|by destruct (NA tr)|by destruct (NA tr1)| |by apply list_elem_of_singleton in Hb].
    destruct (_ =? 0); [|subst tr2; by apply elem_of_nil in Hb]. destruct S as [S _]. rewrite Forall_forall in S.
    destruct (S _ Hb) as [?|[= ->]]; [done|exact Ko]. }
  eapply returns_mono; [by apply init_panel_spec|]. intros r s' [G|G]; [by left|]. right. split; [done|].
  pose proof G as [-> _]. by apply K.
Qed.

End PanelFacts.

(** ** The text of the file *)

Definition unhex (c : Z) : Z := if c <? 58 then c - 48 else c - 55.

(** Every "0x" with its two digits. *)
Fixpoint decode_hex (l : list Z) : list Z :=
  match l with
  | 48 :: 120 :: h :: d :: l' => (16 * unhex h + unhex d) :: decode_hex l'
  | _ :: l' => decode_hex l'
  | [] => []
  end.

Lemma unhex_upper d : 0 <= d < 16 -> unhex (hex_upper d) = d.
Proof.
  intros Hd. unfold hex_upper, unhex. destruct (Z.ltb_spec d 10).
  - destruct (Z.ltb_spec (48 + d) 58); lia.
  - destruct (Z.ltb_spec (55 + d) 58); lia.
Qed.

Lemma decode_cell v r : is_byte v -> decode_hex (hex_cell v ++ r) = v :: decode_hex r.
Proof.
  intros Hv. unfold is_byte in Hv.
  change (decode_hex (hex_cell v ++ r)) with
    ((16 * unhex (hex_upper (v / 16)) + unhex (hex_upper (v mod 16))) :: decode_hex r).
  rewrite !unhex_upper by (pose proof (Z.div_pos v 16); pose proof (Z.mod_pos_bound v 16);
    pose proof (Z.div_lt_upper_bound v 16 16); lia).
  f_equal. pose proof (Z.div_mod v 16). lia.
Qed.

Lemma decode_rows i l r : bytes l -> decode_hex (config_rows i l ++ r) = l ++ decode_hex r.
Proof.
  intros Hl. revert i. induction Hl as [|v l Hv _ IH]; intros i; [done|]. cbn [config_rows].
  rewrite <- !app_assoc, decode_cell by done. cbn [app]. f_equal. destruct (_ =? 7); cbn [app decode_hex]; apply IH.
Qed.

Lemma rows_length i l : 0 <= i -> zlen (config_rows i l) = 5 * zlen l + ((i + zlen l) / 8 - i / 8).
Proof.
  revert i. induction l as [|v l IH]; intros i Hi.
  { cbn [config_rows]. change (@zlen Z []) with 0. rewrite Z.add_0_r. lia. }
  cbn [config_rows]. rewrite !zlen_app, IH by lia. change (zlen (hex_cell v)) with 5. rewrite (zlen_cons v l).
  assert (zlen (if i mod 8 =? 7 then [10] else []) = (i + 1) / 8 - i / 8) as ->.
  { destruct (Z.eqb_spec (i mod 8) 7); unfold zlen; cbn [length]; Z.div_mod_to_equations; lia. }
  replace (i + 1 + zlen l) with (i + (zlen l + 1)) by lia. lia.
Qed.

Section ProcFacts.
Context `{GtpKernel}.

Definition config_bytes (s : gworld) : list Z := drop 2 (config (g_st s)).

(** What the chip holds at 0x8047, as a read that starts from zeros sees it. *)
Definition chip_config (tr : list teffect) : list Z := gp_device tr (reg GTP_REG_CONFIG_DATA) (replicate 240 0).

Lemma config_read_eq size s :
  bus_works -> length (config (g_st s)) = 242%nat ->
  let e := XRead (reg GTP_REG_CONFIG_DATA) 240 in
  let text := init_title ++ config_rows 0 (config_bytes s) ++ [10] ++ real_title ++
    config_rows 0 (chip_config (g_trace s ++ [e])) in
  gt91xx_config_read_proc size 0 s = Ret (zlen text, text, zlen text) (ext [e] s) /\ zlen text = 2527.
Proof.
  intros W Hc e text. unfold gt91xx_config_read_proc, get_config, GTP_CONFIG_MAX_LENGTH.
  cbn [Z.eqb negb]. rewrite bind_unfold. cbn [g_gets].
  rewrite range_eq by (unfold zlen; rewrite ?Hc; lia). rewrite bind_lift_Some.
  pose proof (read_works (reg GTP_REG_CONFIG_DATA ++ replicate 240 0) 242 s W ltac:(by vm_compute) ltac:(lia)) as R.
  cbv zeta in R. change (take 2 (reg GTP_REG_CONFIG_DATA ++ replicate 240 0)) with (reg GTP_REG_CONFIG_DATA) in R.
  change (242 - 2) with 240 in R. fold e in R. change (240 + 2) with 242. rewrite (bind_Ret _ _ _ _ _ R). clear R.
  cbn [snd]. change 240 with (Z.of_nat 240) at 1. rewrite answer_zeros by (done || lia).
  fold (chip_config (g_trace s ++ [e])). set (d := chip_config (g_trace s ++ [e])) in *.
  assert (length d = 240%nat) as Ld by (unfold d, chip_config; by rewrite gp_device_len, length_replicate).
  rewrite Nat.sub_diag, app_nil_r. rewrite range_eq by (unfold zlen; rewrite ?length_app, ?Ld; cbn; lia).
  rewrite bind_lift_Some. change (Z.to_nat 2) with 2%nat.
  change (drop 2 (reg GTP_REG_CONFIG_DATA ++ d)) with d. rewrite (take_ge d) by lia.
  rewrite (take_ge (drop 2 _)) by (rewrite length_drop; lia). split; [done|].
  unfold text. rewrite !zlen_app, !rows_length by lia. unfold config_bytes, zlen at 2 3 6 7.
  rewrite length_drop, Hc, Ld. done.
Qed.

(** The configuration through its file.  240 bytes written to
    /proc/gt9xx_config become the configuration, go to the chip in one message
    behind the address 0x8047, and a read of the file shows them, followed by
    the chip's registers, each as two hexadecimal digits.  The text always has
    2527 bytes, whatever room the reader has. *)
Theorem config_proc_roundtrip user size s :
  bus_works -> g_ptr s = Live -> length (config (g_st s)) = 242%nat -> take 2 (config (g_st s)) = reg GTP_REG_CONFIG_DATA ->
  pnl_init_error (g_ts s) = 0 -> bytes user -> zlen user = 240 ->
  (forall tr, bytes (chip_config tr)) ->
  exists s1 s2 text chip,
    gt91xx_config_write_proc user 240 s = Ret 240 s1 /\
    g_trace s1 = g_trace s ++ [XWrite (reg GTP_REG_CONFIG_DATA ++ user)] /\
    gt91xx_config_read_proc size 0 s1 = Ret (2527, text, 2527) s2 /\ zlen text = 2527 /\
    decode_hex text = user ++ chip /\ chip = chip_config (g_trace s2).
Proof.
  intros W Hp Hc Ht He Hb Hl Hd. set (c := config (g_st s)) in *.
  assert (splice c 2 user = reg GTP_REG_CONFIG_DATA ++ user) as Ec.
  { unfold splice. rewrite Ht, (drop_ge c) by (unfold zlen in *; lia). by rewrite app_nil_r. }
  set (s1 := with_cfg (splice c 2 user) s).
  assert (length (config (g_st s1)) = 242%nat) as L1 by (apply splice_in; [done|lia]).
  assert (gt91xx_config_write_proc user 240 s = Ret 240 (ext [XWrite (reg GTP_REG_CONFIG_DATA ++ user)] s1)) as E1.
  { unfold gt91xx_config_write_proc, GTP_CONFIG_MAX_LENGTH. cbn [Z.ltb Z.compare Pos.compare Pos.compare_cont].
    destruct (copy_from_user_whole user 0 240) as (b & -> & Lb & Eb); [lia..|].
    rewrite drop_0, take_ge in Eb by (unfold zlen in *; lia). subst b.
    unfold get_config. rewrite bind_unfold. cbn [g_gets]. fold c.
    rewrite memcpy_Some by (unfold zlen in *; lia). rewrite bind_lift_Some.
    rewrite drop_0, take_ge by (unfold zlen in *; lia). unfold put_config, st_set. rewrite bind_modify.
    cbn [Z.eqb negb]. fold (with_cfg (splice c 2 user) s). fold s1.
    pose proof (send_cfg_works s1 W Hp L1) as E. change (pnl_init_error (g_ts s1)) with (pnl_init_error (g_ts s)) in E.
    rewrite He in E. cbn [Z.eqb] in E. rewrite (bind_Ret _ _ _ _ _ E).
    change (config (g_st s1)) with (splice c 2 user). by rewrite Ec. }
  destruct (config_read_eq size (ext [XWrite (reg GTP_REG_CONFIG_DATA ++ user)] s1) W L1) as [E2 L2].
  change (config_bytes (ext _ s1)) with (drop 2 (splice c 2 user)) in E2, L2.
  rewrite Ec in E2, L2. change (drop 2 (reg GTP_REG_CONFIG_DATA ++ user)) with user in E2, L2.
  eexists _, _, _, _. split_and!; [exact E1|done|rewrite E2, L2; reflexivity|exact L2| |reflexivity].
  change (decode_hex (init_title ++ ?r)) with (decode_hex r). rewrite decode_rows by done. f_equal.
  change (decode_hex ([10] ++ real_title ++ ?r)) with (decode_hex r).
  pose proof (decode_rows 0 (chip_config (g_trace (ext [XWrite (reg GTP_REG_CONFIG_DATA ++ user)] s1) ++
    [XRead (reg GTP_REG_CONFIG_DATA) 240])) [] (Hd _)) as D. rewrite !app_nil_r in D. exact D.
Qed.

End ProcFacts.

Module PanelDemo.
Import GtDemo.

Definition result_of {A} (r : result gworld A) : option A := match r with Ret a _ => Some a | _ => None end.

Lemma init_panel_configures_witness :
  exists s', gtp_init_panel ready = Ret 0 s' /\ checked (config (g_st s')) (gtp_cfg_len (g_ts s')).
Proof.
  destruct (init_panel_configures ready eq_refl eq_refl) as (r & s' & E & [[(-> & _) _]|((-> & _) & _ & K & _)]).
  - exfalso. assert (result_of (gtp_init_panel ready) = Some 0) as X by (vm_compute; reflexivity).
    rewrite E in X. discriminate X.
  - by exists s'.
Defined.

Lemma config_proc_roundtrip_witness :
  exists s1 s2 text, gt91xx_config_write_proc (replicate 240 90) 240 ready = Ret 240 s1 /\
    gt91xx_config_read_proc 100 0 s1 = Ret (2527, text, 2527) s2 /\
    decode_hex text = replicate 240 90 ++ replicate 240 0.
Proof.
  destruct (config_proc_roundtrip (replicate 240 90) 100 ready works eq_refl eq_refl eq_refl eq_refl
    ltac:(apply bytes_true; vm_compute; reflexivity) eq_refl
    ltac:(intros tr; apply bytes_true; vm_compute; reflexivity)) as (s1 & s2 & text & chip & E1 & _ & E2 & _ & D & C).
  exists s1, s2, text. split_and!; [exact E1|exact E2|]. rewrite D, C. reflexivity.
Defined.

End PanelDemo.
