(* ===== verification/GtProbe.v ===== *)
(** * The touch-screen driver: binding

    [gt9xx.c]: the device tree, the supplies, the pins, the interrupt and the
    input device; probe and remove; loading and unloading.  What a probe holds
    is read off its effects ([held]). *)

From stdpp Require Import base list numbers strings.
From Stdlib Require Import ZArith Lia.
From S2P Require Import Prelude Text Kernel GoodixTool GtBus Gt9xx GtPanel.
Open Scope Z_scope.

Definition GTP_MAX_WIDTH : Z := 480.
Definition GTP_MAX_HEIGHT : Z := 800.
Definition GTP_INT_TRIGGER : Z := 1.

(** IRQ_TYPE_EDGE_RISING, EDGE_FALLING, LEVEL_LOW, LEVEL_HIGH *)
Definition GTP_IRQ_TAB : list Z := [1; 2; 8; 4].

Section Probe.
Context `{GtpKernel}.

Definition gtp_parse_dt : prog gworld unit :=
  do* st_set (with_gtp_int_gpio (gp_of_gpio (str "goodix,irq-gpio")));
  st_set (with_gtp_rst_gpio (gp_of_gpio (str "goodix,rst-gpio"))).

(** The call through a regulator pointer. *)
Definition regulator_call (p : ptr) (e : teffect) : prog gworld Z :=
  do* deref p; g_call e gp_regulator.

Definition power_both (on : bool) : prog gworld Z :=
  let* vdd := g_gets (fun s => vdd_ana (g_res s)) in
  let* vcc := g_gets (fun s => vcc_i2c (g_res s)) in
  if on then
    do* regulator_call vdd (RegEnable (str "vdd_ana"));
    do* g_do (Udelay 2);
    regulator_call vcc (RegEnable (str "vcc_i2c"))
  else
    do* regulator_call vcc (RegDisable (str "vcc_i2c"));
    do* g_do (Udelay 2);
    regulator_call vdd (RegDisable (str "vdd_ana")).

(** The second supply; when it cannot be had the first is put back, and its
    static pointer stays. *)
Definition power_vcc (on : bool) : prog gworld Z :=
  let* vcc := g_gets (fun s => vcc_i2c (g_res s)) in
  match vcc with
  | Null =>
      let* err := g_call (RegGet (str "vcc_i2c")) gp_regulator_get in
      if err =? 0 then do* res_set (with_vcc_i2c Live); power_both on
      else
        let* vdd := g_gets (fun s => vdd_ana (g_res s)) in
        do* deref vdd;
        do* g_do (RegPut (str "vdd_ana"));
        do* res_set (with_vdd_ana Freed);
        ret err
  | _ => power_both on
  end.

Definition gtp_power_switch (on : bool) : prog gworld Z :=
  let* vdd := g_gets (fun s => vdd_ana (g_res s)) in
  match vdd with
  | Null =>
      let* err := g_call (RegGet (str "vdd_ana")) gp_regulator_get in
      if err =? 0 then do* res_set (with_vdd_ana Live); power_vcc on
      else ret err
  | _ => power_vcc on
  end.

Definition gtp_request_io_port : prog gworld Z :=
  let* int := g_gets (fun s => gtp_int_gpio (g_st s)) in
  let* rst := g_gets (fun s => gtp_rst_gpio (g_st s)) in
  let* r := g_call (PinRequest int) gp_gpio_request in
  do* (if r <? 0 then ret tt
       else do* g_do (PinIn int); res_set (with_client_irq (gp_gpio_to_irq int)));
  let* r := g_call (PinRequest rst) gp_gpio_request in
  let r := if r <? 0 then - ENODEV else r in
  do* g_do (PinIn rst);
  do* gtp_reset_guitar 20;
  do* (if r <? 0 then do* g_do (PinFree rst); g_do (PinFree int) else ret tt);
  ret (s8 r).

Definition gtp_request_irq : prog gworld Z :=
  let* t := ts_get int_trigger_type in
  let* irq := g_gets (fun s => client_irq (g_res s)) in
  let* int := g_gets (fun s => gtp_int_gpio (g_st s)) in
  let* trigger := lift OutOfBounds (load8 GTP_IRQ_TAB t) in
  let* r := g_call (IrqRequest irq trigger) gp_request_irq in
  if negb (r =? 0) then
    do* g_do (PinIn int);
    do* g_do (PinFree int);
    do* g_do (TimerStart 1000);
    ret (-1)
  else
    do* gtp_irq_disable;
    do* ts_set (with_use_irq 1);
    ret 0.

(** [GTP_SWAP(ts->abs_x_max, ts->abs_y_max)] *)
Definition swap_max (d : goodix_ts_data) : goodix_ts_data :=
  with_abs_x_max (abs_y_max d) (with_abs_y_max (abs_x_max d) d).

(** EV_SYN, EV_KEY and EV_ABS, BTN_TOUCH, INPUT_PROP_DIRECT; the name and the
    identifiers of the device are left out. *)
Definition gtp_request_input_dev : prog gworld Z :=
  let* ok := g_call InputAlloc gp_input_alloc in
  do* ts_set (with_input_dev ok);
  if negb ok then ret (- ENOMEM)
  else
    do* g_do (InputBits [0; 1; 3] [BTN_TOUCH] [1]);
    do* ts_set swap_max;
    let* x := ts_get abs_x_max in
    let* y := ts_get abs_y_max in
    do* g_do (SetAbs ABS_MT_POSITION_X x);
    do* g_do (SetAbs ABS_MT_POSITION_Y y);
    do* g_do (SetAbs ABS_MT_WIDTH_MAJOR 255);
    do* g_do (SetAbs ABS_MT_TOUCH_MAJOR 255);
    do* g_do (SetAbs ABS_MT_TRACKING_ID 255);
    let* r := g_call InputRegister gp_input_register in
    if negb (s8 r =? 0) then ret (- ENODEV) else ret 0.

(** [kzalloc] of [struct goodix_ts_data]. *)
Definition zero_ts : goodix_ts_data := mkTs 0 0 0 0 0 0 0 0 0 0 0 false.

(** [gup_init_update_proc]: -1 becomes 255 in its [u8] result. *)
Definition gup_init_update_proc : prog gworld Z :=
  let* ok := g_call ThreadRun gp_kthread in
  ret (if ok : bool then 0 else u8 (-1)).

(** From the bus test on: nothing here makes the probe fail. *)
Definition probe_tail : prog gworld Z :=
  do* gtp_i2c_test;
  do* gtp_read_version;
  let* r := gtp_init_panel in
  do* (if r <? 0 then
         do* ts_set (with_abs_x_max GTP_MAX_WIDTH);
         do* ts_set (with_abs_y_max GTP_MAX_HEIGHT);
         ts_set (with_int_trigger_type GTP_INT_TRIGGER)
       else ret tt);
  let* p := g_call ProcCreate gp_proc_create in
  do* res_set (with_gt91xx_config_proc p);
  do* gup_init_update_proc;
  do* gtp_request_input_dev;
  do* gtp_request_irq;
  let* u := ts_get use_irq in
  do* (if u =? 0 then ret tt else gtp_irq_enable);
  do* gtp_register_powermanger;
  do* g_do InitWrNode;
  ret 0.

Definition goodix_ts_probe : prog gworld Z :=
  do* res_set (with_connect_client true);
  do* g_do CheckI2c;
  if negb gp_functionality then ret (- ENODEV)
  else
    let* ok := g_call (Alloc 0) gp_alloc in
    if negb ok then ret (- ENOMEM)
    else
      do* modify (with_g_ts zero_ts);
      do* (if gp_of_node then gtp_parse_dt else ret tt);
      let* r := gtp_power_switch true in
      if negb (r =? 0) then ret (- EINVAL)
      else
        do* modify (with_g_ptr Live);
        do* ts_set (with_gtp_rawdiff_mode 0);
        let* r := gtp_request_io_port in
        if r <? 0 then
          do* g_do Free;
          do* modify (with_g_ptr Freed);
          ret r
        else probe_tail.

(** The pointer is read once; the object is used after the client has
    forgotten it, and then freed. *)
Definition goodix_ts_remove : prog gworld Z :=
  let* ts := g_gets g_ptr in
  do* gtp_unregister_powermanger;
  do* g_do UninitWrNode;
  do* match ts with
      | Null => ret tt
      | _ =>
          let* u := ts_get use_irq in
          let* int := g_gets (fun s => gtp_int_gpio (g_st s)) in
          let* irq := g_gets (fun s => client_irq (g_res s)) in
          if u =? 0 then g_do TimerCancel
          else
            do* g_do (PinIn int);
            do* g_do (PinFree int);
            g_do (IrqFree irq)
      end;
  do* deref ts;
  let* dev := g_gets (fun s => input_dev (g_ts s)) in
  do* (if dev : bool then g_do InputUnregister else fault_with NullDeref);
  do* g_do Free;
  do* modify (with_g_ptr Null);
  ret 0.

Definition goodix_ts_init : prog gworld Z :=
  let* ok := g_call WqCreate gp_workqueue in
  do* res_set (with_goodix_wq ok);
  if negb ok then ret (- ENOMEM) else g_call DriverAdd gp_add_driver.

Definition goodix_ts_exit : prog gworld unit :=
  do* g_do DriverDel;
  let* wq := g_gets (fun s => goodix_wq (g_res s)) in
  if wq : bool then g_do WqDestroy else ret tt.

End Probe.

(** ** What a probe leaves *)

Section ProbeFacts.
Context `{GtpKernel}.

Lemma test_loop_asks n r test s : length test = 3%nat -> emits (test_loop n r test) s (fun _ tr => asks tr).
Proof.
  revert r test s. induction n as [|n IH]; intros r test s Hl; cbn [test_loop]; [apply emits_ret; constructor|].
  eapply emits_bind; [apply read_asks; unfold zlen; lia|]. intros x tr [Ha Hs].
  destruct (0 <? s8 _); [apply emits_ret; by rewrite app_nil_r|].
  e_step. eapply emits_mono; [apply IH; by rewrite (proj1 Hs)|]. intros ? ? Ha'. apply asks_app.
  split; [done|]. by constructor.
Qed.

Lemma version_asks s : emits gtp_read_version s (fun _ tr => asks tr).
Proof.
  unfold gtp_read_version. eapply emits_bind; [apply read_asks; by vm_compute|]. intros x tr [Ha Hs].
  destruct (fst x <? 0); [apply emits_ret; by rewrite app_nil_r|].
  assert (zlen (snd x) = 8) as Lx by (unfold zlen; by rewrite (proj1 Hs)).
  destruct (load8_some (snd x) 6) as [lo ->]; [lia|]. destruct (load8_some (snd x) 7) as [hi ->]; [lia|].
  do 2 (eapply emits_bind; [by apply emits_lift|]; intros ? ? [-> ->]; rewrite ?ext_nil; cbn [app]).
  apply emits_ret. by rewrite app_nil_r.
Qed.

(** Effects that give nothing back and leave the interrupt alone. *)
Definition taking (e : teffect) : bool :=
  match e with Free | RegDisable _ | IrqOff | IrqOn => false | _ => true end.
Definition takes (tr : list teffect) : Prop := Forall (fun e => taking e = true) tr.

Lemma takes_app a b : takes (a ++ b) <-> takes a /\ takes b.
Proof. apply Forall_app. Qed.

Lemma takes_silent tr : takes tr -> silent tr.
Proof. intros Ht. eapply Forall_impl; [exact Ht|]. by intros []. Qed.

Lemma bus_takes tr : bus tr -> takes tr.
Proof. intros Hb. eapply Forall_impl; [exact Hb|]. by intros []. Qed.

Lemma asks_takes tr : asks tr -> takes tr.
Proof. intros Ha. by apply bus_takes, asks_bus. Qed.

Lemma asks_silent tr : asks tr -> silent tr.
Proof. intros Ha. by apply takes_silent, asks_takes. Qed.

(** Neither a supply nor the object was given back since [base]. *)
Definition keeping (e : teffect) : bool := match e with Free | RegDisable _ => false | _ => true end.
Definition since (base : list teffect) (s : gworld) : Prop :=
  exists tr, g_trace s = base ++ tr /\ Forall (fun e => keeping e = true) tr.

Lemma takes_keeping tr : takes tr -> Forall (fun e => keeping e = true) tr.
Proof. intros Ht. eapply Forall_impl; [exact Ht|]. by intros []. Qed.

Lemma since_more base tr s s' :
  g_trace s' = g_trace s ++ tr -> Forall (fun e => keeping e = true) tr -> since base s -> since base s'.
Proof. intros E Ht (t & Et & Hk). exists (t ++ tr). rewrite E, Et, <- app_assoc. split; [done|by apply Forall_app]. Qed.

(** The state of a probe after its pins: bound, the interrupt untouched. *)
Record binding (base : list teffect) (s : gworld) : Prop := {
  b_ptr : g_ptr s = Live;
  b_config : length (config (g_st s)) = 242%nat;
  b_flag : irq_is_disable (g_ts s) = 0;
  b_depth : irq_depth (g_trace s) = 0;
  b_since : since base s
}.

Section Binding.
Context (base : list teffect).

Lemma binding_ext tr s : takes tr -> binding base s -> binding base (ext tr s).
Proof.
  intros Ht [? ? ? D S]. constructor; try done.
  - cbn. by rewrite irq_depth_app, (irq_depth_silent tr), D by by apply takes_silent.
  - by apply (since_more base tr s); [|apply takes_keeping|].
Qed.

Lemma emits_binding {A} (c : prog gworld A) s (P : A -> list teffect -> Prop) :
  binding base s -> emits c s P -> (forall a tr, P a tr -> takes tr) ->
  returns c s (fun _ s' => binding base s' /\ g_ts s' = g_ts s).
Proof. intros B (a & tr & E & Hp) K. exists a, (ext tr s). split; [done|]. split; [|done]. apply binding_ext; [by eapply K|done]. Qed.

Lemma ts_set_binding f s :
  binding base s -> irq_is_disable (f (g_ts s)) = 0 ->
  returns (ts_set f) s (fun _ s' => binding base s' /\ g_ts s' = f (g_ts s)).
Proof. intros [] Hf. eexists _, _. rewrite ts_set_eq by done. split; [done|]. by split; [constructor|]. Qed.

Lemma res_set_binding f s : binding base s -> returns (res_set f) s (fun _ s' => binding base s' /\ g_ts s' = g_ts s).
Proof. intros []. eexists _, _. split; [reflexivity|]. by split; [constructor|]. Qed.

(** The trigger is an index of the table. *)
Definition trigger_ok (s : gworld) : Prop := 0 <= int_trigger_type (g_ts s) < 4.

Lemma land_3 t : 0 <= Z.land t 3 < 4.
Proof.
  change (Z.land t 3) with (Z.land t (Z.ones 2)). rewrite Z.land_ones by lia.
  pose proof (Z.mod_pos_bound t (2 ^ 2) ltac:(lia)). lia.
Qed.

Lemma init_panel_binding s :
  binding base s -> abs_x_max (g_ts s) = 0 -> abs_y_max (g_ts s) = 0 ->
  returns gtp_init_panel s (fun r s' => binding base s' /\ (r < 0 \/ trigger_ok s') /\ use_irq (g_ts s') = use_irq (g_ts s)).
Proof.
  intros [B1 B2 B3 B4 B5] Hx Hy. eapply returns_mono; [by apply init_panel_spec|]. intros r s' [G|G].
  - destruct G as [(-> & P & L & [S1 S2] & tr & T & A) _]. split; [|split; [left; lia|done]].
    constructor; [done|done|by rewrite S1|rewrite T, irq_depth_app, B4, irq_depth_silent; [done|by apply asks_silent]|].
    by eapply since_more; [exact T|apply takes_keeping, asks_takes|].
  - destruct G as (-> & t0 & [A0 _] & sid & t & v & fl & t1 & t2 & _ & _ & _ & Hv & _ & -> & A & A1 & S).
    assert (takes (t ++ t1 ++ t2 ++ [Sleep 10])) as St.
    { do 2 (apply takes_app; split; [by apply asks_takes|]). apply takes_app. split; [|by repeat constructor].
      destruct (_ =? 0); [by eapply bus_takes, sends_bus|subst; constructor]. }
    unfold resolution. cbn [abs_x_max abs_y_max with_gtp_cfg_len ext with_g_trace g_ts]. rewrite Hx, Hy. cbn [Z.eqb andb].
    split; [|split; [right; apply land_3|done]]. apply binding_ext; [done|]. constructor; try done.
    + cbn. rewrite closed_length. apply splice_in; [done|lia].
    + cbn. by rewrite irq_depth_app, B4, irq_depth_silent by by apply asks_silent.
    + by eapply since_more; [reflexivity|apply takes_keeping, asks_takes|].
Qed.

Lemma input_dev_binding s :
  binding base s -> returns gtp_request_input_dev s (fun _ s' => binding base s' /\
    int_trigger_type (g_ts s') = int_trigger_type (g_ts s) /\ use_irq (g_ts s') = use_irq (g_ts s)).
Proof.
  intros B. unfold gtp_request_input_dev.
  eapply returns_bind; [eapply (emits_binding _ s); [done|apply emits_call|]|].
  { intros ? ? [_ ->]. by repeat constructor. }
  intros ok s1 [B1 E1]. eapply returns_bind; [apply ts_set_binding; [done|apply B1]|]. intros ? s2 [B2 E2].
  destruct ok; cbn [negb]; [|apply returns_ret; by rewrite E2, E1].
  eapply returns_bind; [eapply (emits_binding _ s2); [done|apply emits_do|]|].
  { intros ? ? ->. by repeat constructor. }
  intros ? s2' [B2' E2']. eapply returns_bind; [apply ts_set_binding; [done|apply B2']|]. intros ? s3 [B3 E3].
  eapply returns_bind; [apply returns_ts_get, B3|]. intros x ? [_ ->].
  eapply returns_bind; [apply returns_ts_get, B3|]. intros y ? [_ ->].
  eapply returns_mono.
  - eapply (emits_binding _ s3 (fun _ tr => takes tr)); [done| |done].
    do 6 e_step. destruct (negb _); apply emits_ret; by repeat constructor.
  - intros ? s4 [B4 E4]. by rewrite E4, E3, E2', E2, E1.
Qed.

(** How the driver is told of a finger: the interrupt was requested since
    [base], with a trigger of the table, and granted; or it was refused and
    the timer started. *)
Definition armed (s : gworld) : Prop :=
  exists p t q, let e := IrqRequest (client_irq (g_res s)) t in
    g_trace s = base ++ p ++ [e] ++ q /\ t ∈ GTP_IRQ_TAB /\
    ((gp_request_irq (base ++ p ++ [e]) = 0 /\ use_irq (g_ts s) = 1) \/
     (gp_request_irq (base ++ p ++ [e]) <> 0 /\ use_irq (g_ts s) = 0 /\ TimerStart 1000 ∈ q)).

Lemma armed_more tr s s' :
  g_trace s' = g_trace s ++ tr -> g_res s' = g_res s -> use_irq (g_ts s') = use_irq (g_ts s) -> armed s -> armed s'.
Proof.
  intros E R U (p & t & q & Et & Ht & Hq). unfold armed. rewrite E, R, U. exists p, t, (q ++ tr). split; [by rewrite Et, <- !app_assoc|].
  split; [done|]. destruct Hq as [Hq|(H1 & H2 & H3)]; [by left|]. right. split_and!; try done. apply elem_of_app. by left.
Qed.

Lemma request_irq_binding s :
  binding base s -> trigger_ok s -> use_irq (g_ts s) = 0 ->
  returns gtp_request_irq s (fun r s' => armed s' /\
    ((use_irq (g_ts s') = 0 /\ binding base s') \/
     (use_irq (g_ts s') = 1 /\ g_ptr s' = Live /\ length (config (g_st s')) = 242%nat /\
      irq_is_disable (g_ts s') = 1 /\ irq_depth (g_trace s') = 1 /\ since base s'))).
Proof.
  intros B Ht Hu. unfold gtp_request_irq.
  eapply returns_bind; [apply returns_ts_get, B|]. intros t ? [-> ->].
  do 2 (eapply returns_bind; [apply returns_gets|]; intros ? ? [-> ->]).
  destruct (load8_some GTP_IRQ_TAB (int_trigger_type (g_ts s))) as [tr Et]; [exact Ht|].
  assert (tr ∈ GTP_IRQ_TAB) as Htab.
  { unfold load8 in Et. destruct (_ <? 0); [done|]. by eapply list_elem_of_lookup_2. }
  rewrite Et. eapply returns_bind; [by apply returns_ret with (Q := fun a s' => a = tr /\ s' = s)|]. intros ? ? [-> ->].
  set (e := IrqRequest _ tr). destruct (b_since _ _ B) as (p & Ep & Hk).
  unfold g_call. unfold returns. rewrite bind_bind. unfold g_do at 1. rewrite bind_modify. set (s1 := g_emit e s).
  assert (binding base s1) as B1 by (apply (binding_ext [e]); [by repeat constructor|done]).
  assert (g_trace s1 = base ++ p ++ [e]) as E1 by (cbn; by rewrite Ep, <- app_assoc).
  rewrite bind_unfold. unfold g_ask. rewrite E1. destruct (gp_request_irq _ =? 0) eqn:Er; bool_cases; cbn [negb].
  - destruct B1 as [P1 C1 F1 D1 S1]. pose proof (irq_disable_eq s1 P1) as Ed. rewrite F1 in Ed. cbn [Z.eqb] in Ed.
    set (s2 := ext _ _) in Ed. assert (g_ptr s2 = Live) as P2 by exact P1.
    rewrite (bind_Ret _ _ _ _ _ Ed), (bind_Ret _ _ _ _ _ (ts_set_eq _ s2 P2)).
    eexists _, _. split; [reflexivity|]. split.
    + exists p, tr, [IrqOff]. change (g_trace (with_g_ts _ s2)) with (g_trace s1 ++ [IrqOff]). rewrite E1, <- !app_assoc.
      split; [done|]. split; [done|]. by left.
    + right. split_and!; try done; [change (irq_depth (g_trace s1 ++ [IrqOff]) = 1); by rewrite irq_depth_app, D1|].
      apply (since_more base [IrqOff] s1); [done|by repeat constructor|done].
  - set (tl := [PinIn (gtp_int_gpio (g_st s)); PinFree (gtp_int_gpio (g_st s)); TimerStart 1000]).
    exists (-1), (ext tl s1). split; [unfold ext, g_do, bind, modify, ret, g_emit; cbn; by rewrite <- !app_assoc|]. split.
    + exists p, tr, tl. rewrite ext_trace, E1, <- !app_assoc. split; [done|]. split; [done|]. right. split_and!; [done|done|].
      right. right. by left.
    + left. split; [done|]. apply binding_ext; [by repeat constructor|done].
Qed.

(** Bound: the interrupt is granted and on, or the timer runs; the supplies and
    the object are still there. *)
Definition running (s : gworld) : Prop := binding base s /\ armed s.

Lemma probe_tail_running s :
  binding base s -> abs_x_max (g_ts s) = 0 -> abs_y_max (g_ts s) = 0 -> use_irq (g_ts s) = 0 ->
  returns probe_tail s (fun r s' => r = 0 /\ running s').
Proof.
  intros B Hx Hy Hu. unfold probe_tail.
  eapply returns_bind; [eapply (emits_binding _ s); [done|by apply test_loop_asks|intros ? ?; apply asks_takes]|].
  intros ? s1 [B1 E1].
  eapply returns_bind; [eapply (emits_binding _ s1); [done|apply version_asks|intros ? ?; apply asks_takes]|].
  intros ? s2 [B2 E2]. eapply returns_bind; [apply init_panel_binding; [done|by rewrite E2, E1..]|].
  intros r s3 (B3 & Tr & U3). rewrite E2, E1, Hu in U3.
  eapply returns_bind with (P := fun _ s' => binding base s' /\ trigger_ok s' /\ use_irq (g_ts s') = 0).
  { destruct (r <? 0) eqn:E; bool_cases; [|destruct Tr; [lia|]; by apply returns_ret].
    eapply returns_bind; [apply ts_set_binding; [done|apply B3]|]. intros ? s4 [B4 E4].
    eapply returns_bind; [apply ts_set_binding; [done|apply B4]|]. intros ? s5 [B5 E5].
    eapply returns_mono; [apply ts_set_binding; [done|apply B5]|]. intros ? s6 [B6 E6].
    split; [done|]. unfold trigger_ok. rewrite E6, E5, E4. cbn. by split. }
  intros ? s4 (B4 & T4 & U4).
  eapply returns_bind; [eapply (emits_binding _ s4); [done|apply emits_call|]|].
  { intros ? ? [_ ->]. by repeat constructor. }
  intros p s5 [B5 E5]. eapply returns_bind; [by apply res_set_binding|]. intros ? s6 [B6 E6].
  eapply returns_bind; [eapply (emits_binding _ s6 (fun _ tr => takes tr)); [done| |done]|].
  { unfold gup_init_update_proc. e_step. apply emits_ret. by repeat constructor. }
  intros ? s7 [B7 E7]. eapply returns_bind; [by apply input_dev_binding|]. intros ? s8 (B8 & T8 & U8).
  eapply returns_bind; [apply request_irq_binding; [done| |]|].
  { unfold trigger_ok in *. by rewrite T8, E7, E6, E5. }
  { by rewrite U8, E7, E6, E5. }
  intros ? s9 [A9 B9]. assert (g_ptr s9 = Live) as P9 by (destruct B9 as [[_ []]|(_ & ? & _)]; done).
  eapply returns_bind; [by apply returns_ts_get|]. intros ? ? [-> ->].
  eapply returns_bind with (P := fun _ s' => running s').
  { destruct B9 as [[U9 B9]|(U9 & _ & C9 & F9 & D9 & S9)]; rewrite U9; cbn [Z.eqb].
    - apply returns_ret. by split.
    - eexists _, _. split; [by apply irq_enable_eq|]. rewrite F9. cbn [Z.eqb]. split.
      + constructor; try done; [cbn; by rewrite irq_depth_app, D9|].
        by apply (since_more base [IrqOn] s9); [|repeat constructor|].
      + by apply (armed_more [IrqOn] s9). }
  intros ? s10 [B10 A10]. unfold gtp_register_powermanger.
  set (tr := [FbRegister; InitWrNode]). assert (takes tr) as T by by repeat constructor.
  exists 0, (ext tr s10). split; [unfold bind, g_do, modify, ret, g_emit, ext; cbn; by rewrite <- app_assoc|]. split; [done|]. split; [by apply binding_ext|by apply (armed_more tr s10)].
Qed.

End Binding.

(** Only handles and effects of this kind. *)
Definition takes_only (s s' : gworld) : Prop :=
  exists tr res st, s' = ext tr (with_g_st st (with_g_res res s)) /\ takes tr /\
    length (config st) = length (config (g_st s)).

Lemma takes_only_trans a b c : takes_only a b -> takes_only b c -> takes_only a c.
Proof.
  intros (t1 & r1 & st1 & -> & S1 & L1) (t2 & r2 & st2 & -> & S2 & L2). exists (t1 ++ t2), r2, st2.
  split_and!; [|by apply takes_app|by rewrite L2]. unfold ext. cbn. by rewrite app_assoc.
Qed.

Lemma takes_only_refl s : takes_only s s.
Proof. exists [], (g_res s), (g_st s). rewrite ext_nil. split_and!; [by destruct s|constructor|done]. Qed.

Lemma call_takes {A} e (f : list teffect -> A) s :
  taking e = true -> returns (g_call e f) s (fun _ s' => takes_only s s' /\ g_res s' = g_res s).
Proof.
  intros He. eexists _, _. split; [reflexivity|]. split; [|done]. exists [e], (g_res s), (g_st s).
  split_and!; [by destruct s|by repeat constructor|done].
Qed.

Lemma do_takes e s : taking e = true -> returns (g_do e) s (fun _ s' => takes_only s s' /\ g_res s' = g_res s).
Proof.
  intros He. eexists _, _. split; [reflexivity|]. split; [|done]. exists [e], (g_res s), (g_st s).
  split_and!; [by destruct s|by repeat constructor|done].
Qed.

Lemma res_takes f s : returns (res_set f) s (fun _ s' => takes_only s s' /\ g_res s' = f (g_res s)).
Proof.
  eexists _, _. split; [reflexivity|]. split; [|done]. exists [], (f (g_res s)), (g_st s).
  rewrite ext_nil. split_and!; [by destruct s|constructor|done].
Qed.

(** What such a program leaves alone. *)
Lemma takes_only_keeps s s' :
  takes_only s s' -> g_ptr s' = g_ptr s /\ g_ts s' = g_ts s /\ length (config (g_st s')) = length (config (g_st s)) /\
    exists tr, g_trace s' = g_trace s ++ tr /\ takes tr.
Proof. intros (tr & res & st & -> & Ht & L). split_and!; try done. by exists tr. Qed.

(** Both supplies were switched on, the second with success (the first one's
    result is dropped). *)
Definition switched_on (tr : list teffect) : list teffect :=
  tr ++ [RegEnable (str "vdd_ana"); Udelay 2; RegEnable (str "vcc_i2c")].
Definition powered (base : list teffect) (s : gworld) : Prop :=
  exists p, g_trace s = switched_on (base ++ p) /\ gp_regulator (g_trace s) = 0.

(** The supplies are switched on, or an error comes back. *)
Lemma power_on_takes s :
  vdd_ana (g_res s) = Null -> vcc_i2c (g_res s) = Null ->
  returns (gtp_power_switch true) s (fun r s' => takes_only s s' /\ (r = 0 -> powered (g_trace s) s')).
Proof.
  intros Hd Hc. unfold gtp_power_switch.
  eapply returns_bind; [apply returns_gets|]. intros ? ? [-> ->]. rewrite Hd.
  eapply returns_bind; [by apply call_takes|]. intros err s1 [T1 R1].
  destruct (err =? 0) eqn:Ee; bool_cases; [|by apply returns_ret].
  eapply returns_bind; [apply res_takes|]. intros ? s2 [T2 R2].
  assert (takes_only s s2) as T02 by (by eapply takes_only_trans).
  unfold power_vcc. eapply returns_bind; [apply returns_gets|]. intros ? ? [-> ->]. rewrite R2, R1. cbn [vcc_i2c with_vdd_ana].
  rewrite Hc. eapply returns_bind; [by apply call_takes|]. intros err2 s3 [T3 R3].
  assert (takes_only s s3) as T03 by (by eapply takes_only_trans). rewrite R2, R1 in R3.
  destruct (err2 =? 0) eqn:Ee2; bool_cases.
  - eapply returns_bind; [apply res_takes|]. intros ? s4 [T4 R4]. rewrite R3 in R4.
    assert (takes_only s s4) as T04 by (by eapply takes_only_trans).
    unfold power_both. do 2 (eapply returns_bind; [apply returns_gets|]; intros ? ? [-> ->]). rewrite R4.
    cbn [vdd_ana vcc_i2c with_vdd_ana with_vcc_i2c]. unfold regulator_call. cbn [deref].
    destruct (takes_only_keeps _ _ T04) as (_ & _ & _ & p & Ep & Kp).
    set (tr := [RegEnable (str "vdd_ana"); Udelay 2; RegEnable (str "vcc_i2c")]).
    exists (gp_regulator (g_trace s4 ++ tr)), (ext tr s4). split; [|split].
    + unfold ret, g_call, g_do, g_ask, bind, modify, g_emit, ext. cbn. by rewrite <- !app_assoc.
    + eapply takes_only_trans; [exact T04|]. exists tr, (g_res s4), (g_st s4). split_and!; [by destruct s4|by repeat constructor|done].
    + intros Er. exists p. rewrite ext_trace. split; [unfold switched_on; by rewrite Ep|done].
  - eapply returns_bind; [apply returns_gets|]. intros ? ? [-> ->]. rewrite R3. cbn [vdd_ana with_vdd_ana deref].
    eapply returns_bind; [by apply returns_ret with (Q := fun _ s' => s' = s3)|]. intros ? ? ->.
    eapply returns_bind; [by apply do_takes|]. intros ? s4 [T4 _].
    eapply returns_bind; [apply res_takes|]. intros ? s5 [T5 _]. apply returns_ret.
    split; [|done]. eapply takes_only_trans; [exact T03|]. by eapply takes_only_trans.
Qed.

Lemma emits_takes {A} (c : prog gworld A) s (P : A -> list teffect -> Prop) :
  emits c s P -> (forall a tr, P a tr -> takes tr) -> returns c s (fun _ s' => takes_only s s').
Proof.
  intros (a & tr & E & Hp) K. exists a, (ext tr s). split; [done|]. exists tr, (g_res s), (g_st s).
  split_and!; [by destruct s|by eapply K|done].
Qed.

Lemma io_port_takes s : returns gtp_request_io_port s (fun _ s' => takes_only s s').
Proof.
  unfold gtp_request_io_port. do 2 (eapply returns_bind; [apply returns_gets|]; intros ? ? [-> ->]).
  set (int := gtp_int_gpio _). set (rst := gtp_rst_gpio _).
  eapply returns_bind; [by apply call_takes|]. intros r s1 [T1 _].
  eapply returns_bind with (P := fun _ s' => takes_only s s').
  { destruct (r <? 0); [by apply returns_ret|]. eapply returns_bind; [by apply do_takes|]. intros ? s2 [T2 _].
    eapply returns_mono; [apply res_takes|]. intros ? s3 [T3 _].
    eapply takes_only_trans; [exact T1|]. by eapply takes_only_trans. }
  intros ? s2 T2. eapply returns_mono.
  - eapply (emits_takes _ s2 (fun _ tr => takes tr)); [|done]. e_step. e_step.
    eapply emits_bind; [apply reset_emits|]. intros ? ? ->.
    destruct ((if _ <? 0 then _ else _) <? 0).
    + eapply emits_bind with (P := fun _ tr => tr = [PinFree rst; PinFree int]).
      { e_step. by eapply emits_mono; [apply emits_do|]; intros ? ? ->. }
      intros ? ? ->. apply emits_ret. by repeat constructor.
    + eapply emits_bind; [by apply emits_ret with (Q := fun _ tr => tr = [])|]. intros ? ? ->.
      apply emits_ret. by repeat constructor.
  - intros ? s3 T3. by eapply takes_only_trans.
Qed.


Lemma not_taken tr e : takes tr -> taking e = false -> e ∉ tr.
Proof. intros Ht He Hin. unfold takes in Ht. rewrite Forall_forall in Ht. specialize (Ht _ Hin). congruence. Qed.

(** What is new in the trace. *)
Definition fresh (s s' : gworld) : list teffect := drop (length (g_trace s)) (g_trace s').

Lemma fresh_eq s s' tr : g_trace s' = g_trace s ++ tr -> fresh s s' = tr.
Proof. intros E. unfold fresh. by rewrite E, drop_app_length. Qed.

(** The supplies were switched on and none was switched off since. *)
Definition supplied (s s' : gworld) : Prop :=
  (exists p q, g_trace s' = switched_on (g_trace s ++ p) ++ q /\ gp_regulator (switched_on (g_trace s ++ p)) = 0) /\
  forall name, RegDisable name ∉ fresh s s'.

(** The probe gave up: early, with the object leaked, or with the supplies on
    and the client's data freed. *)
Definition probe_failed (s : gworld) (r : Z) (s' : gworld) : Prop :=
  (r = - ENODEV \/ r = - ENOMEM) /\ g_ptr s' = Null /\ fresh s s' ⊆ [CheckI2c; Alloc 0] \/
  r = - EINVAL /\ g_ptr s' = Null /\ Alloc 0 ∈ fresh s s' /\ Free ∉ fresh s s' \/
  r < 0 /\ g_ptr s' = Freed /\ Free ∈ fresh s s' /\ supplied s s'.

(** Bound by a probe from [s]: the interrupt was granted and is on, or the timer
    was started instead; the supplies are on and the object is not freed. *)
Definition bound (s s' : gworld) : Prop :=
  g_ptr s' = Live /\ length (config (g_st s')) = 242%nat /\ irq_is_disable (g_ts s') = 0 /\ irq_depth (g_trace s') = 0 /\
  armed (g_trace s) s' /\ supplied s s' /\ Free ∉ fresh s s'.

Lemma bound_idle s s' : bound s s' -> input_dev (g_ts s') = true -> idle s'.
Proof. intros (? & ? & F & D & _) ?. split; [|done]. constructor; try done; [by left|by rewrite D]. Qed.

Lemma kept_all tr e : Forall (fun e => keeping e = true) tr -> keeping e = false -> e ∉ tr.
Proof. intros Ht He Hin. rewrite Forall_forall in Ht. specialize (Ht _ Hin). congruence. Qed.

(** What runs after the supplies were switched on is bound. *)
Lemma running_bound s s2 s' tr :
  g_trace s2 = g_trace s ++ tr -> takes tr -> powered (g_trace s) s2 -> running (g_trace s2) s' -> bound s s'.
Proof.
  intros E T (p & Ep & Er) [[P C F D (q & Eq & Hq)] (p' & t & q' & Ea & Ht & Ha)].
  assert (fresh s s' = tr ++ q) as Ef by (apply fresh_eq; by rewrite Eq, E, <- app_assoc).
  assert (Forall (fun e => keeping e = true) (tr ++ q)) as K by (apply Forall_app; split; [by apply takes_keeping|done]).
  split_and!; try done.
  - rewrite E, <- !app_assoc in Ea, Ha. exists (tr ++ p'), t, q'. cbv zeta. rewrite <- !app_assoc. by split_and!.
  - split; [exists p, q; rewrite <- Ep; by split|]. intros nm. rewrite Ef. by apply kept_all.
  - rewrite Ef. by apply kept_all.
Qed.

(** The probe once its object is allocated. *)
Lemma probe_allocated s s0 tr0 :
  g_ptr s0 = Null -> length (config (g_st s0)) = 242%nat -> irq_depth (g_trace s0) = 0 ->
  vdd_ana (g_res s0) = Null -> vcc_i2c (g_res s0) = Null -> g_ts s0 = zero_ts ->
  g_trace s0 = g_trace s ++ tr0 -> takes tr0 -> Alloc 0 ∈ tr0 ->
  returns (
    do* (if gp_of_node then gtp_parse_dt else ret tt);
    let* r := gtp_power_switch true in
    if negb (r =? 0) then ret (- EINVAL)
    else
      do* modify (with_g_ptr Live);
      do* ts_set (with_gtp_rawdiff_mode 0);
      let* r := gtp_request_io_port in
      if r <? 0 then
        do* g_do Free;
        do* modify (with_g_ptr Freed);
        ret r
      else probe_tail) s0 (fun r s' => r = 0 /\ bound s s' \/ probe_failed s r s').
Proof.
  intros Hp Hc Hd Hv1 Hv2 Ht E0 T0 A0.
  eapply returns_bind with (P := fun _ s' => takes_only s0 s' /\ g_res s' = g_res s0).
  { destruct gp_of_node; [|apply returns_ret; by split; [apply takes_only_refl|]].
    eexists _, _. split; [reflexivity|]. split; [|done].
    eexists [], (g_res s0), _. split_and!; [by rewrite ext_nil; destruct s0|constructor|done]. }
  intros ? s1 [T1 R1]. eapply returns_bind; [apply power_on_takes; by rewrite R1|]. intros r s2 [T2 Pw2].
  destruct (takes_only_keeps _ _ T1) as (_ & _ & _ & tr1 & E1 & _).
  destruct (takes_only_keeps _ _ (takes_only_trans _ _ _ T1 T2)) as (P2 & D2 & C2 & tr2 & E2 & K2).
  rewrite E0, <- app_assoc in E2. destruct (r =? 0) eqn:Er0; bool_cases; cbn [negb]; swap 1 2.
  { apply returns_ret. right. right. left. rewrite (fresh_eq s s2 (tr0 ++ tr2) E2). split_and!; [done|by rewrite P2| |].
    - apply elem_of_app. by left.
    - by apply not_taken; [apply takes_app|]. }
  assert (powered (g_trace s) s2) as Pw.
  { destruct (Pw2 Er0) as (p & Ep & Hp2). exists (tr0 ++ tr1 ++ p). split; [|done]. by rewrite Ep, E1, E0, <- !app_assoc. }
  assert (takes (tr0 ++ tr2)) as K02 by (by apply takes_app).
  set (s3 := with_g_ts (with_gtp_rawdiff_mode 0 (g_ts s2)) (with_g_ptr Live s2)).
  eapply returns_bind with (P := fun _ s' => s' = with_g_ptr Live s2); [by eexists _, _|]. intros ? ? ->.
  eapply returns_bind with (P := fun _ s' => s' = s3); [eexists _, _; by rewrite ts_set_eq|]. intros ? ? ->.
  eapply returns_bind; [apply io_port_takes|]. intros r2 s4 T4.
  destruct (takes_only_keeps _ _ T4) as (P4 & D4 & C4 & tr4 & E4 & K4).
  assert (g_trace s4 = g_trace s ++ tr0 ++ tr2 ++ tr4) as E4'
    by (rewrite E4; change (g_trace s3) with (g_trace s2); by rewrite E2, <- !app_assoc).
  assert (takes (tr0 ++ tr2 ++ tr4)) as K by (by rewrite !takes_app).
  destruct (r2 <? 0) eqn:Er; bool_cases.
  - eexists _, _. split; [reflexivity|]. right. right. right.
    assert (fresh s (with_g_ptr Freed (g_emit Free s4)) = (tr0 ++ tr2 ++ tr4) ++ [Free]) as Ff.
    { apply fresh_eq. cbn. rewrite E4'. by rewrite <- !app_assoc. }
    split_and!; [lia|done|rewrite Ff; apply elem_of_app; right; by left|]. destruct Pw as (p & Ep & Er2). split.
    + exists p, (tr4 ++ [Free]). split; [|by rewrite <- Ep]. rewrite <- Ep. cbn. rewrite E4. by rewrite <- app_assoc.
    + intros nm. rewrite Ff, not_elem_of_app. split; [by apply not_taken|]. by rewrite list_elem_of_singleton.
  - eapply returns_mono; [apply (probe_tail_running (g_trace s2))|];
      [|by rewrite D4; cbn; rewrite D2, Ht..|intros ? s' [-> R]; left; split; [done|]; exact (running_bound s s2 s' _ E2 K02 Pw R)].
    constructor; [done|by rewrite C4; cbn; rewrite C2|by rewrite D4; cbn; rewrite D2, Ht| |by exists tr4; split; [|apply takes_keeping]].
    rewrite E4', app_assoc, irq_depth_app, <- E0, Hd, irq_depth_silent; [done|].
    by apply takes_silent; apply takes_app in K as [_ K].
Qed.

(** C30: every way a probe ends.  With both supplies and the client's pointer
    still NULL and the interrupt's disables balanced, a probe always returns.
    With 0, whatever failed after the pins, the driver is bound: both supplies
    were switched on, the second with success, and none switched off since; and
    the client's interrupt was requested with a trigger of the table and
    granted, and is on, or it was refused, the flag use_irq stays 0 and the
    polling timer was started.  With an input device the driver is then in the
    state the handlers start from.  An error leaves nothing behind, or (supply
    failed) the allocated object, which nobody frees, or (pins failed) the
    supplies on and the client pointing at the freed object. *)
Theorem probe_outcome s :
  g_ptr s = Null -> length (config (g_st s)) = 242%nat -> irq_depth (g_trace s) = 0 ->
  vdd_ana (g_res s) = Null -> vcc_i2c (g_res s) = Null ->
  returns goodix_ts_probe s (fun r s' =>
    r = 0 /\ bound s s' /\ (input_dev (g_ts s') = true -> idle s') \/ probe_failed s r s').
Proof.
  intros Hp Hc Hd Hv1 Hv2. unfold goodix_ts_probe.
  set (s1 := with_g_res (with_connect_client true (g_res s)) s).
  eapply returns_bind with (P := fun _ s' => s' = s1); [by eexists _, _|]. intros ? ? ->.
  eapply returns_bind with (P := fun _ s' => s' = ext [CheckI2c] s1); [by eexists _, _|]. intros ? ? ->.
  assert (forall tr, fresh s (ext tr s1) = tr) as F by (intros tr; by apply fresh_eq).
  destruct (negb gp_functionality).
  { apply returns_ret. right. left. rewrite F. split_and!; [by left|done|]. intros e. rewrite !elem_of_cons. tauto. }
  eapply returns_bind with (P := fun _ s' => s' = ext [CheckI2c; Alloc 0] s1).
  { eexists _, _. split; [reflexivity|]. unfold g_emit, ext. cbn. by rewrite <- app_assoc. }
  intros ok ? ->. destruct (negb ok).
  { apply returns_ret. right. left. rewrite F. by split_and!; [right|done|]. }
  set (s2 := with_g_ts zero_ts (ext [CheckI2c; Alloc 0] s1)).
  eapply returns_bind with (P := fun _ s' => s' = s2); [by eexists _, _|]. intros ? ? ->.
  eapply returns_mono; [apply (probe_allocated s s2 [CheckI2c; Alloc 0]); try done|].
  - cbn. rewrite irq_depth_app, Hd. done.
  - by repeat constructor.
  - right. by left.
  - intros r s' [[-> B]|Fa]; [left|by right]. split_and!; [done|done|by apply (bound_idle s)].
Qed.

(** Once the analogue supply was put back its pointer is never valid again. *)
Lemma power_freed on s :
  vdd_ana (g_res s) = Freed -> vcc_i2c (g_res s) <> Freed ->
  exists s', gtp_power_switch on s = Fault UseAfterFree s'.
Proof.
  intros Hd Hc. unfold gtp_power_switch. rewrite bind_unfold. cbn [g_gets]. rewrite Hd.
  assert (forall t, vdd_ana (g_res t) = Freed -> vcc_i2c (g_res t) = Live ->
    exists s', power_both on t = Fault UseAfterFree s') as B.
  { intros t Td Tc. unfold power_both, bind, g_gets. rewrite Td, Tc. destruct on; eexists; reflexivity. }
  unfold power_vcc. rewrite bind_unfold. cbn [g_gets]. destruct (vcc_i2c (g_res s)) eqn:Ec; [|by apply B|done].
  unfold g_call, g_do. rewrite bind_bind, bind_modify, bind_unfold. cbn [g_ask].
  destruct (_ =? 0).
  - unfold res_set. rewrite bind_modify. by apply B.
  - rewrite bind_unfold. cbn [g_gets]. change (vdd_ana (g_res (g_emit _ s))) with (vdd_ana (g_res s)).
    rewrite Hd. by eexists.
Qed.

(** A probe that cannot get the second supply breaks the next one.  It
    puts the first supply back, keeps the pointer in a static variable and
    returns -EINVAL; every later probe that gets that far uses the released
    regulator. *)
Theorem reprobe_uses_freed s :
  gp_functionality = true -> (forall tr, gp_alloc tr = true) ->
  (forall tr, gp_regulator_get (tr ++ [RegGet (str "vdd_ana")]) = 0) ->
  (forall tr, gp_regulator_get (tr ++ [RegGet (str "vcc_i2c")]) <> 0) ->
  g_ptr s = Null -> vdd_ana (g_res s) = Null -> vcc_i2c (g_res s) = Null ->
  exists s1 s2, goodix_ts_probe s = Ret (- EINVAL) s1 /\ goodix_ts_probe s1 = Fault UseAfterFree s2.
Proof.
  intros Hf Ha H1 H2 Hp Hd Hc.
  assert (forall t (Q : result gworld Z -> Prop),
    (forall t', g_res t' = with_connect_client true (g_res t) -> g_ptr t' = g_ptr t ->
      Q ((let* r := gtp_power_switch true in
          if negb (r =? 0) then ret (- EINVAL)
          else
            do* modify (with_g_ptr Live); do* ts_set (with_gtp_rawdiff_mode 0);
            let* r := gtp_request_io_port in
            if r <? 0 then do* g_do Free; do* modify (with_g_ptr Freed); ret r else probe_tail) t')) ->
    Q (goodix_ts_probe t)) as Run.
  { intros t Q K. unfold goodix_ts_probe, res_set, g_do. rewrite bind_modify, bind_modify, Hf. cbn [negb].
    unfold g_call, g_do. rewrite bind_bind, bind_modify, bind_unfold. cbn [g_ask]. rewrite Ha. cbn [negb].
    rewrite bind_modify. destruct gp_of_node; [|rewrite bind_ret; by apply K].
    unfold gtp_parse_dt, st_set. rewrite bind_bind, bind_modify, bind_modify. by apply K. }
  apply (Run s (fun o => exists s1 s2, o = Ret (- EINVAL) s1 /\ goodix_ts_probe s1 = Fault UseAfterFree s2)).
  intros t Rt Pt.
  assert (exists v s1, gtp_power_switch true t = Ret v s1 /\ v <> 0 /\ vdd_ana (g_res s1) = Freed /\ vcc_i2c (g_res s1) = Null)
    as (v & s1 & Ev & Hv & D1 & C1).
  { unfold gtp_power_switch. rewrite bind_unfold. cbn [g_gets]. rewrite Rt. cbn [vdd_ana with_connect_client]. rewrite Hd.
    unfold g_call, g_do. rewrite bind_bind, bind_modify, bind_unfold. cbn [g_ask].
    change (g_trace (g_emit ?e ?s)) with (g_trace s ++ [e]). rewrite H1. cbn [Z.eqb]. unfold res_set. rewrite bind_modify.
    unfold power_vcc. rewrite bind_unfold. cbn [g_gets]. cbn [g_res with_g_res vcc_i2c with_vdd_ana g_emit with_g_trace].
    rewrite Rt. cbn [vcc_i2c with_connect_client]. rewrite Hc. unfold g_call, g_do. rewrite bind_bind, bind_modify, bind_unfold.
    cbn [g_ask]. change (g_trace (g_emit ?e ?s)) with (g_trace s ++ [e]).
    set (err := gp_regulator_get _). assert (err <> 0) as He by apply H2. destruct (err =? 0) eqn:Ee; bool_cases; [done|].
    eexists err, _. split; [reflexivity|]. split_and!; [done|done|exact Hc]. }
  rewrite (bind_Ret _ _ _ _ _ Ev). destruct (v =? 0) eqn:E0; bool_cases; [done|]. cbn [negb].
  destruct (Run s1 (fun o => exists s2, o = Fault UseAfterFree s2)) as [s2 E2]; [|by exists s1, s2].
  intros t2 R2 _. destruct (power_freed true t2) as [s2 E2]; [by rewrite R2|by rewrite R2; cbn; rewrite C1|].
  exists s2. by rewrite bind_unfold, E2.
Qed.

(** The file outlives the driver. *)
Lemma config_file_after_remove user s s1 :
  goodix_ts_remove s = Ret 0 s1 -> length (config (g_st s)) = 242%nat -> bytes user -> zlen user = 240 ->
  gt91xx_config_proc (g_res s1) = gt91xx_config_proc (g_res s) /\
  exists s2, gt91xx_config_write_proc user 240 s1 = Fault NullDeref s2.
Proof.
  intros E Hc Hb Hl.
  assert (g_st s1 = g_st s /\ g_res s1 = g_res s /\ g_ptr s1 = Null) as (Est & Eres & Ep).
  { unfold goodix_ts_remove, gtp_unregister_powermanger in E. rewrite bind_unfold in E. cbn [g_gets] in E.
    unfold bind, ts_get, g_gets, g_do, modify, ret, deref, fault_with in E.
    change (g_ptr (g_emit _ _)) with (g_ptr s) in E. change (g_ptr (g_emit _ _)) with (g_ptr s) in E.
    destruct s as [p d st res u tr]. cbn [g_ptr g_emit with_g_trace g_ts g_st g_res g_upd g_trace] in E.
    destruct p; [discriminate E| |discriminate E].
    cbn in E. destruct (use_irq d =? 0); cbn in E; destruct (input_dev d); cbn in E; try done; by injection E as <-. }
  rewrite Eres. split; [done|]. unfold gt91xx_config_write_proc, GTP_CONFIG_MAX_LENGTH.
  cbn [Z.ltb Z.compare Pos.compare Pos.compare_cont].
  destruct (copy_from_user_whole user 0 240) as (b & -> & Lb & _); [lia..|].
  unfold get_config. rewrite bind_unfold. cbn [g_gets]. rewrite Est.
  rewrite memcpy_Some by (unfold zlen in *; lia). rewrite bind_lift_Some.
  unfold put_config, st_set. rewrite bind_modify. cbn [Z.eqb negb]. unfold gtp_send_cfg, ts_get, bind, g_gets.
  cbn [g_ptr with_g_st]. rewrite Ep. by eexists.
Qed.

(** A driver without an input device stops at the first finger. *)
Lemma touch_without_input id x y w s :
  g_ptr s = Live -> input_dev (g_ts s) = false -> exists s', gtp_touch_down id x y w s = Fault NullDeref s'.
Proof.
  intros Hp Hi. unfold gtp_touch_down, input_report, bind. rewrite ts_get_eq by done. rewrite Hi. by eexists.
Qed.

End ProbeFacts.

Module ProbeDemo.
Import GtDemo.

Lemma probe_outcome_witness : exists s', goodix_ts_probe unbound = Ret 0 s' /\ idle s'.
Proof.
  destruct (probe_outcome unbound eq_refl eq_refl eq_refl eq_refl eq_refl) as (r & s' & E & Q).
  assert (match goodix_ts_probe unbound with Ret v s => v = 0 /\ input_dev (g_ts s) = true | _ => False end) as X
    by (vm_compute; split; reflexivity).
  rewrite E in X. destruct X as [-> I]. exists s'. split; [done|].
  destruct Q as [(_ & _ & K)|F]; [by apply K|]. exfalso.
  destruct F as [([F|F] & _)|[[F _]|[F _]]]; discriminate F || (vm_compute in F; discriminate F) || lia.
Defined.

(** The same board without the second supply. *)
#[refine] Instance no_vcc : GtpKernel := {
  gp_addr := 20; gp_xfer tr := 1; gp_device tr a old := old; gp_device_len := _;
  gp_gpio_request tr := 0; gp_gpio_to_irq p := p + 100; gp_request_irq tr := 0;
  gp_alloc tr := true; gp_input_alloc tr := true; gp_input_register tr := 0;
  gp_regulator_get tr := match last tr with
    | Some (RegGet n) => if bool_decide (n = str "vcc_i2c") then - ENODEV else 0
    | _ => 0
    end;
  gp_regulator tr := 0; gp_proc_create tr := true;
  gp_functionality := true; gp_kthread tr := true; gp_workqueue tr := true; gp_add_driver tr := 0;
  gp_of_node := false; gp_of_gpio n := 0; gp_property n := None;
  gp_open tr := None; gp_read tr := true; gp_stopped tr := false; gp_progress tr := None;
  gp_junk tr n := replicate n 0; gp_junk_len := _; gp_polls := 10
}.
Proof. done. intros. apply length_replicate. Defined.

Lemma reprobe_uses_freed_witness :
  exists s1 s2, goodix_ts_probe (H := no_vcc) unbound = Ret (-22) s1 /\
    goodix_ts_probe (H := no_vcc) s1 = Fault UseAfterFree s2.
Proof.
  apply (reprobe_uses_freed (H := no_vcc) unbound); try reflexivity; intros tr; cbn [gp_regulator_get no_vcc];
    rewrite last_snoc; [reflexivity|discriminate].
Defined.

End ProbeDemo.
