(* ===== verification/GtUpdate.v ===== *)
(** * The touch-screen driver: checking a firmware update

    [gt9xx_update.c] up to the burning: transfers without reset, what the chip
    says of itself, the update mode, the decision whether to update, the
    configuration file, the search for files and the check of the image.

    The helpers of another update that runs at the same time (the automatic
    one, started by the probe) are answers of the kernel: it may end the search
    ([gp_stopped]) and set the progress ([gp_progress]). *)

From stdpp Require Import base list numbers strings.
From Stdlib Require Import ZArith Lia.
From S2P Require Import Prelude Text Kernel GoodixTool GtBus Gt9xx GtPanel GtProbe.
Open Scope Z_scope.

Definition GUP_REG_HW_INFO : Z := 16928.     (* 0x4220 *)
Definition GUP_REG_FW_MSG : Z := 16868.      (* 0x41E4 *)
Definition GUP_REG_PID_VID : Z := 33088.     (* 0x8140 *)
Definition SWRST_B0 : Z := 16768.            (* 0x4180, _rRW_MISCTL__SWRST_B0_ *)
Definition GUP_SEARCH_FILE_TIMES : Z := 50.
Definition UPDATE_FILE_PATH_1 : list Z := str "/data/_goodix_update_.bin".
Definition UPDATE_FILE_PATH_2 : list Z := str "/sdcard/_goodix_update_.bin".
Definition CONFIG_FILE_PATH_1 : list Z := str "/data/_goodix_config_.cfg".
Definition CONFIG_FILE_PATH_2 : list Z := str "/sdcard/_goodix_config_.cfg".
Definition FW_HEAD_LENGTH : Z := 14.
Definition FW_SECTION_LENGTH : Z := 8192.
Definition FW_DSP_ISP_LENGTH : Z := 4096.
Definition FW_DSP_LENGTH : Z := 4096.
Definition FW_BOOT_LENGTH : Z := 2048.
Definition AUTO_SEARCH_BIN : Z := 1.
Definition AUTO_SEARCH_CFG : Z := 2.
Definition BIN_FILE_READY : Z := 128.
Definition CFG_FILE_READY : Z := 8.
Definition EIO : Z := 5.
Definition KERNEL_DS : Z := 0.               (* on ARM *)

Section Update.
Context `{GtpKernel}.

(** A local array. *)
Definition junk (n : nat) : prog gworld (list Z) := g_ask (fun tr => gp_junk tr n).

(** ** Transfers *)

Definition gup_i2c_read (buf : list Z) (len : Z) : prog gworld (Z * list Z) :=
  let* x := rd_loop 5 (-1) 0 buf len in
  let '(r, _, buf) := x in
  ret (r, buf).

Definition gup_i2c_write (buf : list Z) (len : Z) : prog gworld Z :=
  let* b := lift OutOfBounds (range buf 0 (u16 len)) in
  let* x := wr_loop 5 (-1) 0 b in
  ret (fst x).

Fixpoint get_loop (n : nat) (msg : list Z) (len : Z) : prog gworld (Z * list Z) :=
  match n with
  | O => ret (FAIL, msg)
  | S n' =>
      let* x := gup_i2c_read msg (GTP_ADDR_LENGTH + len) in
      if 0 <? fst x then ret (SUCCESS, snd x) else get_loop n' (snd x) len
  end.

Definition gup_get_ic_msg (addr : Z) (msg : list Z) (len : Z) : prog gworld (Z * list Z) :=
  let* msg := lift OutOfBounds (store8 msg 0 (u8 (Z.shiftr addr 8))) in
  let* msg := lift OutOfBounds (store8 msg 1 (u8 (Z.land addr 255))) in
  get_loop 5 msg len.

Fixpoint set_loop (n : nat) (msg : list Z) : prog gworld Z :=
  match n with
  | O => ret FAIL
  | S n' =>
      let* r := gup_i2c_write msg (GTP_ADDR_LENGTH + 1) in
      if 0 <? r then ret SUCCESS else set_loop n' msg
  end.

Definition gup_set_ic_msg (addr val : Z) : prog gworld Z :=
  set_loop 5 [u8 (Z.shiftr addr 8); u8 (Z.land addr 255); u8 val].

(** ** What the chip says of itself *)

(** [for (retry = 0; retry < 2; retry++)]; [None] when a read fails. *)
Fixpoint fw_msg_loop (n : nat) (retry : Z) (buf : list Z) : prog gworld (option (list Z)) :=
  match n with
  | O => ret (Some buf)
  | S n' =>
      let* x := gup_get_ic_msg GUP_REG_FW_MSG buf 1 in
      if fst x =? FAIL then ret None
      else
        let* f := lift OutOfBounds (load8 (snd x) GTP_ADDR_LENGTH) in
        do* upd_set (with_force_update f);
        if negb (f =? 190) && (retry =? 0) then fw_msg_loop n' (retry + 1) (snd x) else ret (Some (snd x))
  end.

(** The product identifier: four bytes and zeros; a 9111 is a 9110P. *)
Definition map_pid (d : list Z) : list Z :=
  let pid := take 4 d ++ replicate 4 0 in
  if bool_decide (take 4 d = str "9111") then str "9110P" ++ drop 5 pid else pid.

Definition gup_get_ic_fw_msg : prog gworld Z :=
  let* buf := junk 16 in
  let* hw := gtp_i2c_read_dbl_check GUP_REG_HW_INFO 4 in
  match hw with
  | None => ret FAIL
  | Some d =>
      let* buf := lift OutOfBounds (memcpy buf GTP_ADDR_LENGTH d 0 4) in
      do* upd_set (with_ic_hw_info (reverse d));
      let* o := fw_msg_loop 2 0 buf in
      match o with
      | None => ret FAIL
      | Some buf =>
          let* id := gtp_i2c_read_dbl_check GUP_REG_PID_VID 6 in
          match id with
          | None => ret FAIL
          | Some d =>
              do* upd_set (with_ic_pid (map_pid d));
              let* lo := lift OutOfBounds (load8 d 4) in
              let* hi := lift OutOfBounds (load8 d 5) in
              do* upd_set (with_ic_vid (u16 (lo + Z.shiftl hi 8)));
              ret SUCCESS
          end
      end
  end.

(** ** The update mode *)

(** [while (retry++ < 200)]: the value of [retry] when the loop is left. *)
Fixpoint hold_loop (n : nat) (retry : Z) (rd_buf : list Z) : prog gworld Z :=
  match n with
  | O => ret (retry + 1)
  | S n' =>
      let* r := gup_set_ic_msg SWRST_B0 12 in
      if r <=? 0 then hold_loop n' (retry + 1) rd_buf
      else
        let* x := gup_get_ic_msg SWRST_B0 rd_buf 1 in
        if fst x <=? 0 then hold_loop n' (retry + 1) (snd x)
        else
          let* v := lift OutOfBounds (load8 (snd x) GTP_ADDR_LENGTH) in
          if v =? 12 then ret (retry + 1) else hold_loop n' (retry + 1) (snd x)
  end.

Definition gup_enter_update_mode : prog gworld Z :=
  let* rd_buf := junk 3 in
  let* rst := g_gets (fun s => gtp_rst_gpio (g_st s)) in
  let* int := g_gets (fun s => gtp_int_gpio (g_st s)) in
  do* g_do (PinOut rst 0);
  do* g_do (Sleep 2);
  do* g_do (PinOut int (if gp_addr =? 20 then 1 else 0));
  do* g_do (Sleep 2);
  do* g_do (PinOut rst 1);
  do* g_do (Sleep 5);
  let* retry := hold_loop 200 0 rd_buf in
  if 200 <=? retry then ret FAIL else gup_set_ic_msg 16400 0.

Definition gup_leave_update_mode : prog gworld unit :=
  let* int := g_gets (fun s => gtp_int_gpio (g_st s)) in
  do* g_do (PinIn int);
  gtp_reset_guitar 20.

(** ** The decision *)

(** [update_msg.ic_fw_msg], packed. *)
Definition ic_fw_msg (u : update) : list Z := ic_hw_info u ++ ic_pid u ++ le_split 2 (ic_vid u).

Definition is_digit (c : Z) : bool := (48 <=? c) && (c <=? 57).

(** A pid is compared up to the longer of the two strings. *)
Definition gup_enter_update_judge (fw_head : list Z) : prog gworld Z :=
  let* t := lift OutOfBounds (load_le fw_head 12 2) in
  let vid := u16 (u16 (Z.shiftr t 8) + u16 (Z.shiftl t 8)) in
  let* fw_head := lift OutOfBounds (memcpy fw_head 12 (le_split 2 vid) 0 2) in
  let* u := g_gets g_upd in
  let ic := ic_fw_msg u in
  let* fpid := lift OutOfBounds (range fw_head 4 4) in
  let* ipid := lift OutOfBounds (range ic 4 4) in
  if bool_decide (fpid = str "9158") && bool_decide (ipid = str "915S") then ret SUCCESS
  else
    let* fhw := lift OutOfBounds (range fw_head 0 4) in
    let* ihw := lift OutOfBounds (range ic 0 4) in
    let fw_len := if bool_decide (fhw = ihw) then 42 * 1024 else u32 (le_combine (reverse fhw)) in
    if negb (fw_total_len u =? fw_len) then ret FAIL
    else if negb (force_update u =? 190) then ret SUCCESS
    else
      let* pid := lift OutOfBounds (load_str ic 4) in
      if zlen pid <? 3 then ret SUCCESS
      else if negb (forallb is_digit (take 3 pid)) then ret SUCCESS
      else
        let* fp := lift OutOfBounds (load_str fw_head 4) in
        let n := Z.max (zlen fp) (zlen pid) in
        let* a := lift OutOfBounds (range fw_head 4 n) in
        let* b := lift OutOfBounds (range ic 4 n) in
        if bool_decide (a = b) || bool_decide (ipid = str "91XX") || bool_decide (fpid = str "91XX") then
          if ic_vid u <? vid then ret SUCCESS else ret FAIL
        else ret FAIL.

(** ** The configuration file *)

Definition ascii2hex (a : Z) : Z :=
  if (48 <=? a) && (a <=? 57) then a - 48
  else if (65 <=? a) && (a <=? 70) then a - 65 + 10
  else if (97 <=? a) && (a <=? 102) then a - 97 + 10
  else 255.

(** [kzalloc]; a size that is negative is one that nobody has. *)
Definition kzalloc (n : Z) : prog gworld (option (list Z)) :=
  let* ok := g_call (Alloc n) gp_alloc in
  ret (if ok && (0 <=? n) then Some (replicate (Z.to_nat n) 0) else None).

(** Through a pointer that may be NULL. *)
Definition cell (p : option (list Z)) (i : Z) : prog gworld Z :=
  let* b := lift NullDeref p in lift OutOfBounds (load8 b i).
Definition set_cell (p : option (list Z)) (i v : Z) : prog gworld (option (list Z)) :=
  let* b := lift NullDeref p in
  let* b := lift OutOfBounds (store8 b i v) in
  ret (Some b).

Definition blank_char (c : Z) : bool := (c =? 32) || (c =? 13) || (c =? 10).

(** [for (i = 0, count = 0; i < file_len; i++)]: [count] and [buf]. *)
Fixpoint strip_loop (n : nat) (i count : Z) (pre_buf buf : option (list Z)) : prog gworld (Z * option (list Z)) :=
  match n with
  | O => ret (count, buf)
  | S n' =>
      let* c := cell pre_buf i in
      if blank_char c then strip_loop n' (i + 1) count pre_buf buf
      else let* buf := set_cell buf count c in strip_loop n' (i + 1) (count + 1) pre_buf buf
  end.

(** [for (i = 0, file_cfg_len = 2; i < count; i += 5)], by the number of
    rounds: [file_config] and its length, or [None] for an illegal file. *)
Fixpoint hex_loop (n : nat) (i len : Z) (buf file_config : option (list Z))
    : prog gworld (option (Z * option (list Z))) :=
  match n with
  | O => ret (Some (len, file_config))
  | S n' =>
      let* a := cell buf i in
      let* x := (if a =? 48 then let* b := cell buf (i + 1) in ret ((b =? 120) || (b =? 88)) else ret false) in
      if x : bool then
        let* h := cell buf (i + 2) in
        let* l := cell buf (i + 3) in
        if (ascii2hex h =? 255) || (ascii2hex l =? 255) then ret None
        else
          let* file_config := set_cell file_config len (u8 (Z.shiftl (ascii2hex h) 4 + ascii2hex l)) in
          hex_loop n' (i + 5) (len + 1) buf file_config
      else ret None
  end.

(** [while (i++ < 5)]: the last result. *)
Fixpoint cfg_loop (n : nat) (r : Z) (file_config : list Z) (len : Z) : prog gworld Z :=
  match n with
  | O => ret r
  | S n' =>
      let* r := gup_i2c_write file_config len in
      if 0 <? r then ret r else cfg_loop n' r file_config len
  end.

Definition free_all (r : Z) : prog gworld Z :=
  do* g_do Free; do* g_do Free; do* g_do Free; ret (s8 r).

(** From the text in [pre_buf] on. *)
Definition config_text (file_len : Z) (pre_buf buf file_config : option (list Z)) : prog gworld Z :=
  let* x := strip_loop (Z.to_nat file_len) 0 0 pre_buf buf in
  let '(count, buf) := x in
  let* fc := set_cell file_config 0 (Z.shiftr GTP_REG_CONFIG_DATA 8) in
  let* fc := set_cell fc 1 (Z.land GTP_REG_CONFIG_DATA 255) in
  let* o := hex_loop (Z.to_nat ((count + 4) / 5)) 0 GTP_ADDR_LENGTH buf fc in
  match o with
  | None => free_all 0
  | Some (len, fc) =>
      let* fc := lift NullDeref fc in
      let* r := cfg_loop 5 0 fc len in
      free_all r
  end.

(** A read of the whole file to NULL fails. *)
Definition gup_update_config : prog gworld Z :=
  let* f := g_gets (fun s => cfg_file (g_upd s)) in
  match f with
  | NoFile => ret FAIL
  | ErrFile => fault_with NullDeref
  | OpenFile text =>
      let file_len := s32 (zlen text) in
      let* chip_cfg_len := ts_get gtp_cfg_len in
      if file_len + 5 <? chip_cfg_len * 5 then ret (-1)
      else
        let* buf := kzalloc file_len in
        let* pre_buf := kzalloc file_len in
        let* file_config := kzalloc (chip_cfg_len + GTP_ADDR_LENGTH) in
        let* ok := g_call (FileRead 0 file_len) gp_read in
        match pre_buf with
        | Some b =>
            if ok then
              let* b := lift OutOfBounds (memcpy b 0 text 0 file_len) in
              config_text file_len (Some b) buf file_config
            else free_all (- EIO)
        | None => if file_len =? 0 then config_text file_len None buf file_config else free_all (- EFAULT)
        end
  end.

(** ** The search for files *)

Definition filp_open (path : list Z) : prog gworld filep :=
  let* o := g_call (FileOpen path) gp_open in
  ret (match o with Some c => OpenFile c | None => ErrFile end).

(** The first of two files that opens. *)
Definition open_one (path1 path2 : list Z) : prog gworld filep :=
  let* f := filp_open path1 in
  match f with ErrFile => filp_open path2 | _ => ret f end.

Definition or_flag (v : Z) : prog gworld unit := upd_set (fun u => with_got_file_flag (Z.lor (got_file_flag u) v) u).

Definition search_bin : prog gworld unit :=
  let* f := open_one UPDATE_FILE_PATH_1 UPDATE_FILE_PATH_2 in
  match f with
  | ErrFile => ret tt
  | _ => do* or_flag BIN_FILE_READY; do* upd_set (with_upd_file f); upd_set (with_f_pos 0)
  end.

Definition search_cfg : prog gworld unit :=
  let* f := open_one CONFIG_FILE_PATH_1 CONFIG_FILE_PATH_2 in
  match f with
  | ErrFile => ret tt
  | _ => do* or_flag CFG_FILE_READY; upd_set (with_cfg_file f)
  end.

Definition flag_set (v : Z) : prog gworld bool := g_gets (fun s => negb (Z.land (got_file_flag (g_upd s)) v =? 0)).

(** [for (i = 0; i < 50; ++i)]; a binary file that was found makes this the
    last round. *)
Fixpoint search_loop (n : nat) (search_type : Z) : prog gworld unit :=
  match n with
  | O => upd_set (with_searching_file 0)
  | S n' =>
      let* s := g_gets (fun w => searching_file (g_upd w)) in
      if s =? 0 then upd_set (with_got_file_flag 0)
      else
        let bin := negb (Z.land search_type AUTO_SEARCH_BIN =? 0) in
        let cfg := negb (Z.land search_type AUTO_SEARCH_CFG =? 0) in
        do* (if bin then search_bin else ret tt);
        let* got := flag_set BIN_FILE_READY in
        if bin && got && negb cfg then upd_set (with_searching_file 0)
        else
          let* have := flag_set CFG_FILE_READY in
          do* (if cfg && negb have then search_cfg else ret tt);
          let* got_cfg := flag_set CFG_FILE_READY in
          if cfg && negb have && got_cfg then upd_set (with_searching_file 0)
          else
            let* stop := g_call (Sleep 3000) gp_stopped in
            do* (if stop : bool then upd_set (with_searching_file 0) else ret tt);
            if bin && got then upd_set (with_searching_file 0) else search_loop n' search_type
  end.

Definition gup_search_file (search_type : Z) : prog gworld unit :=
  do* upd_set (with_got_file_flag 0);
  do* upd_set (with_searching_file 1);
  search_loop (Z.to_nat GUP_SEARCH_FILE_TIMES) search_type.

(** ** The image *)

Definition the_file : prog gworld (list Z) :=
  let* f := g_gets (fun s => upd_file (g_upd s)) in
  match f with OpenFile c => ret c | _ => fault_with NullDeref end.

(** [file->f_op->read(file, dst, n, &file->f_pos)]: the result and [dst]. *)
Definition file_read (dst : list Z) (n : Z) : prog gworld (Z * list Z) :=
  let* c := the_file in
  let* pos := g_gets (fun s => f_pos (g_upd s)) in
  let* ok := g_call (FileRead pos n) gp_read in
  if ok : bool then
    let d := take (Z.to_nat n) (drop (Z.to_nat pos) c) in
    do* upd_set (with_f_pos (pos + zlen d));
    let* dst := lift OutOfBounds (memcpy dst 0 d 0 (zlen d)) in
    ret (zlen d, dst)
  else ret (- EIO, dst).

(** [for (i = 0; i < fw_total_len; i += 2)], by the number of rounds: the sum,
    or [None] when a read fails. *)
Fixpoint checksum_loop (n : nat) (fw_checksum : Z) (buf : list Z) : prog gworld (option Z) :=
  match n with
  | O => ret (Some fw_checksum)
  | S n' =>
      let* x := file_read buf 2 in
      if fst x <? 0 then ret None
      else
        let* hi := lift OutOfBounds (load8 (snd x) 0) in
        let* lo := lift OutOfBounds (load8 (snd x) 1) in
        checksum_loop n' (s32 (fw_checksum + u16 (Z.shiftl hi 8 + lo))) (snd x)
  end.

Definition FW_MIN_LENGTH : Z :=
  FW_HEAD_LENGTH + FW_SECTION_LENGTH * 4 + FW_DSP_ISP_LENGTH + FW_DSP_LENGTH + FW_BOOT_LENGTH.

(** From the open file on; the result and [*fw_head]. *)
Definition check_image (fw_head : list Z) : prog gworld (Z * list Z) :=
  let* buf := junk 14 in
  let* fs := g_gets (fun s => addr_limit (g_upd s)) in
  do* upd_set (with_old_fs fs);
  do* upd_set (with_addr_limit KERNEL_DS);
  let* c := the_file in
  let size := u32 (zlen c) in
  do* upd_set (with_fw_total_len size);
  do* upd_set (with_f_pos (zlen c));
  if size <? FW_MIN_LENGTH then ret (FAIL, fw_head)
  else
    let total := u32 (size - FW_HEAD_LENGTH) in
    do* upd_set (with_fw_total_len total);
    do* upd_set (with_f_pos 0);
    let* x := file_read buf FW_HEAD_LENGTH in
    if fst x <? 0 then ret (FAIL, fw_head)
    else
      let fw_head := snd x in
      let* o := checksum_loop (Z.to_nat ((total + 1) / 2)) 0 (snd x) in
      match o with
      | None => ret (FAIL, fw_head)
      | Some sum => if negb (Z.land sum 65535 =? 0) then ret (FAIL, fw_head) else ret (SUCCESS, fw_head)
      end.

Definition close_file (f : filep) : prog gworld unit :=
  match f with OpenFile _ => g_do FileClose | _ => ret tt end.

Definition gup_check_update_file (fw_head : list Z) (path : option (list Z)) : prog gworld (Z * list Z) :=
  do* upd_set (with_got_file_flag 0);
  match path with
  | Some p =>
      let* f := filp_open p in
      do* upd_set (with_upd_file f);
      do* upd_set (with_f_pos 0);
      match f with
      | ErrFile => ret (FAIL, fw_head)
      | _ => do* upd_set (with_got_file_flag BIN_FILE_READY); check_image fw_head
      end
  | None =>
      do* gup_search_file (Z.lor AUTO_SEARCH_BIN AUTO_SEARCH_CFG);
      let* cfg := flag_set CFG_FILE_READY in
      do* (if cfg then
             do* gup_update_config;
             let* f := g_gets (fun s => cfg_file (g_upd s)) in
             do* close_file f;
             g_do (Sleep 500)
           else ret tt);
      let* bin := flag_set BIN_FILE_READY in
      if negb bin then ret (FAIL, fw_head) else check_image fw_head
  end.

(** ** The panel after an update *)

Definition store_config (i : Z) (f : Z -> Z) : prog gworld unit :=
  let* c := get_config in
  let* v := lift OutOfBounds (load8 c i) in
  let* c := lift OutOfBounds (store8 c i (f v)) in
  put_config c.

(** Resolution and trigger as the header has them ([GTP_INT_TRIGGER] is 1). *)
Definition set_resolution : prog gworld unit :=
  do* store_config RESOLUTION_LOC (fun _ => u8 GTP_MAX_WIDTH);
  do* store_config (RESOLUTION_LOC + 1) (fun _ => u8 (Z.shiftr GTP_MAX_WIDTH 8));
  do* store_config (RESOLUTION_LOC + 2) (fun _ => u8 GTP_MAX_HEIGHT);
  do* store_config (RESOLUTION_LOC + 3) (fun _ => u8 (Z.shiftr GTP_MAX_HEIGHT 8));
  store_config TRIGGER_LOC (fun v => Z.lor v 1).

Definition resend_config : prog gworld Z :=
  let* v := gtp_i2c_read_dbl_check GTP_REG_CONFIG_DATA 1 in
  match v with
  | None => ret (-1)
  | Some opr_buf =>
      let* flash := lift OutOfBounds (load8 opr_buf 0) in
      let* c := get_config in
      let* drv := lift OutOfBounds (load8 c GTP_ADDR_LENGTH) in
      do* (if newer flash drv then set_version 0 else ret tt);
      do* set_resolution;
      do* close_config;
      do* gtp_send_cfg;
      do* (if newer flash drv then do* set_version drv; close_config else ret tt);
      do* gtp_read_version;
      do* g_do (Sleep 10);
      ret 0
  end.

Definition gup_init_panel : prog gworld Z :=
  let* id := gtp_i2c_read_dbl_check GTP_REG_SENSOR_ID 1 in
  match id with
  | None => ret (-1)
  | Some b =>
      let* sensor_id := lift OutOfBounds (load8 b 0) in
      if 6 <=? sensor_id then ret (-1)
      else
        let* r := gtp_parse_dt_cfg sensor_id in
        if r <? 0 then do* ts_set (with_pnl_init_error 1); ret (-1)
        else
          let* len := ts_get gtp_cfg_len in
          if len <? GTP_CONFIG_MIN_LENGTH then ret (-1) else resend_config
  end.

End Update.

(** ** Transfers *)

Section TransferFacts.
Context `{GtpKernel}.

(** All effects are this one, and there is at least one. *)
Definition only (e : teffect) (tr : list teffect) : Prop := exists m, tr = replicate (S m) e.

Lemma only_one e : only e [e].
Proof. by exists 0%nat. Qed.

Lemma only_app e a b : only e a -> only e b -> only e (a ++ b).
Proof. intros [m ->] [n ->]. exists (m + S n)%nat. rewrite <- replicate_add. f_equal. Qed.

Lemma only_cons e a : only e a -> only e (e :: a).
Proof. intros Ha. by apply (only_app e [e]); [apply only_one|]. Qed.

Lemma only_bus e tr : busy e = true -> only e tr -> bus tr.
Proof. intros He [m ->]. by apply Forall_replicate. Qed.

(** The buffer of a read holds what the chip answered to the last transfer,
    whatever the result. *)
Lemma rd_last n r k buf len s :
  2 <= len <= zlen buf -> len - 2 < 65536 ->
  emits (rd_loop (S n) r k buf len) s (fun x tr => same_head buf (snd x) /\
    only (XRead (take 2 buf) (len - 2)) tr /\ fst (fst x) = gp_xfer (g_trace s ++ tr) /\
    exists b, same_head buf b /\ snd x = answer (g_trace s ++ tr) b (len - 2)).
Proof.
  intros Hl Hn. revert r k buf s Hl. induction n as [|n IH]; intros r k buf s Hl; cbn [rd_loop];
    pose proof (xfer_read_eq buf len s Hl Hn) as X; cbv zeta in X;
    set (e := XRead (take 2 buf) (len - 2)) in *; set (b1 := answer (g_trace s ++ [e]) buf (len - 2)) in *;
    (assert (same_head buf b1) as Hb by (apply answer_head; unfold zlen in *; lia));
    (assert (emits (xfer_read buf len) s (fun x tr => x = (gp_xfer (g_trace s ++ [e]), b1) /\ tr = [e])) as X'
      by (eexists _, _; split; [exact X|done]));
    (eapply emits_bind; [exact X'|]; intros ? ? [-> ->]; cbn [fst snd]).
  - destruct (_ =? 2); apply emits_ret; (split_and!; [done|apply only_one|done|by exists buf]).
  - destruct (_ =? 2); [apply emits_ret; (split_and!; [done|apply only_one|done|by exists buf])|].
    destruct Hb as [Hb1 Hb2]. eapply emits_mono; [apply (IH (gp_xfer (g_trace s ++ [e])) (k + 1) b1 (ext [e] s)); unfold zlen in *; lia|].
    intros x tr (Hs & Ho & Hr & b & Sb & Eb). rewrite Hb2 in Ho. rewrite ext_trace, <- app_assoc in Hr, Eb.
    assert (same_head buf b1) as Sb1 by done.
    split_and!; [by transitivity b1|by apply only_cons|done|exists b; split; [by transitivity b1|done]].
Qed.

Lemma gread_emits buf len s :
  2 <= len <= zlen buf -> len - 2 < 65536 ->
  emits (gup_i2c_read buf len) s (fun x tr => same_head buf (snd x) /\
    only (XRead (take 2 buf) (len - 2)) tr /\ fst x = gp_xfer (g_trace s ++ tr) /\
    exists old, length old = Z.to_nat (len - 2) /\
      data_of (snd x) (len - 2) = gp_device (g_trace s ++ tr) (take 2 buf) old).
Proof.
  intros Hl Hn. unfold gup_i2c_read. eapply emits_bind; [by apply rd_last|].
  intros [[r k] b'] tr (Hs & Ho & Hr & b & [Sb Tb] & Eb). cbn [fst snd] in *. apply emits_ret. rewrite app_nil_r.
  split_and!; [done|done|done|]. exists (take (Z.to_nat (len - 2)) (drop 2 b)).
  assert (length (take (Z.to_nat (len - 2)) (drop 2 b)) = Z.to_nat (len - 2)) as Lo
    by (rewrite length_take, length_drop; unfold zlen in *; lia).
  split; [done|]. cbn [snd]. rewrite Eb. unfold answer. rewrite Tb. set (d := gp_device _ _ _).
  assert (length d = Z.to_nat (len - 2)) as Ld by (unfold d; by rewrite gp_device_len).
  unfold data_of. rewrite drop_splice by (unfold zlen in *; lia). by rewrite take_app_length' by lia.
Qed.

Lemma gwrite_emits buf len s :
  0 <= len <= zlen buf -> len < 65536 ->
  emits (gup_i2c_write buf len) s (fun r tr => only (XWrite (take (Z.to_nat len) buf)) tr /\
    r = gp_xfer (g_trace s ++ tr)).
Proof.
  intros Hl Hn. unfold gup_i2c_write. rewrite u16_id, range_take by lia.
  eapply emits_bind; [by apply emits_lift|]. intros b tr [-> ->]. rewrite ext_nil. cbn [app].
  eapply emits_bind; [apply wr_loop_emits|]. intros [r k] tr (won & (m & Hm & -> & _ & Hw & Hr) & _). cbn [fst] in *.
  apply emits_ret. rewrite app_nil_r. destruct m as [|m]; [destruct won; lia|]. split; [by exists m|by apply Hr].
Qed.

(** What a register read gave. *)
Definition got (base tr : list teffect) (a : list Z) (d : list Z) : Prop :=
  0 < gp_xfer (base ++ tr) /\ exists old, length old = length d /\ gp_device (base ++ tr) a old = d.

Lemma get_loop_emits n msg len s a :
  take 2 msg = a -> 0 <= len -> len + 2 <= zlen msg -> len < 65536 ->
  emits (get_loop n msg len) s (fun x tr => same_head msg (snd x) /\
    (fst x = FAIL /\ (tr = [] \/ only (XRead a len) tr) \/
     fst x = SUCCESS /\ only (XRead a len) tr /\ got (g_trace s) tr a (data_of (snd x) len))).
Proof.
  intros Ha H1 H2 H3. revert msg s Ha H2. induction n as [|n IH]; intros msg s Ha H2; cbn [get_loop].
  { apply emits_ret. split; [done|]. left. by split; [|left]. }
  unfold GTP_ADDR_LENGTH. eapply emits_bind; [apply gread_emits; lia|].
  intros [r b] tr (Hs & Ho & Hr & old & Lo & Ed). cbn [fst snd] in *. rewrite Ha in *.
  replace (2 + len - 2) with len in * by lia. destruct (0 <? r) eqn:E; bool_cases.
  - apply emits_ret. cbn [fst snd]. rewrite app_nil_r. split; [done|]. right. split_and!; [done|done|].
    split; [by rewrite <- Hr|]. exists old. split; [|done]. rewrite Lo. rewrite Ed, gp_device_len. lia.
  - assert (zlen b = zlen msg) as Lb by (unfold zlen; by rewrite (proj1 Hs)).
    eapply emits_mono; [apply IH; [rewrite (proj2 Hs); exact Ha|lia]|].
    intros x tr2 (Hs2 & HQ). split; [by transitivity b|].
    destruct HQ as [[Ef [-> |Ho2]]|(Es & Ho2 & G)].
    + left. split; [done|]. right. by rewrite app_nil_r.
    + left. split; [done|]. right. by apply only_app.
    + right. split_and!; [done|by apply only_app|]. unfold got in *. by rewrite ext_trace, <- app_assoc in G.
Qed.

Lemma store8_in b i v : 0 <= i < zlen b -> store8 b i v = Some (<[Z.to_nat i := v]> b).
Proof. intros Hi. unfold store8. destruct (_ && _) eqn:E; [done|]. rewrite andb_false_iff in E. bool_cases. lia. Qed.

Lemma get_emits addr msg len s :
  0 <= len -> len + 2 <= zlen msg -> len < 65536 ->
  emits (gup_get_ic_msg addr msg len) s (fun x tr => length (snd x) = length msg /\
    (fst x = FAIL /\ (tr = [] \/ only (XRead (reg addr) len) tr) \/
     fst x = SUCCESS /\ only (XRead (reg addr) len) tr /\ got (g_trace s) tr (reg addr) (data_of (snd x) len))).
Proof.
  intros H1 H2 H3. unfold gup_get_ic_msg. destruct msg as [|m0 [|m1 msg]]; try (unfold zlen in H2; cbn in H2; lia).
  assert (store8 (m0 :: m1 :: msg) 0 (u8 (Z.shiftr addr 8)) = Some (u8 (Z.shiftr addr 8) :: m1 :: msg)) as ->.
  { rewrite store8_in; [done|]. unfold zlen. cbn [length]. lia. }
  eapply emits_bind; [by apply emits_lift|]. intros ? ? [-> ->]. rewrite ext_nil. cbn [app].
  assert (store8 (u8 (Z.shiftr addr 8) :: m1 :: msg) 1 (u8 (Z.land addr 255)) = Some (reg addr ++ msg)) as ->.
  { rewrite store8_in; [done|]. unfold zlen. cbn [length]. lia. }
  eapply emits_bind; [by apply emits_lift|]. intros ? ? [-> ->]. rewrite ext_nil. cbn [app].
  eapply emits_mono; [apply (get_loop_emits 5 (reg addr ++ msg) len s (reg addr)); [done|done|exact H2|done]|].
  intros x tr [[L _] HQ]. by split; [rewrite L|].
Qed.

Definition set_effect (addr v : Z) : teffect := XWrite (reg addr ++ [u8 v]).

Lemma set_emits addr v s :
  emits (gup_set_ic_msg addr v) s (fun r tr => only (set_effect addr v) tr /\
    (r = FAIL \/ r = SUCCESS /\ 0 < gp_xfer (g_trace s ++ tr))).
Proof.
  unfold gup_set_ic_msg. change ([u8 (Z.shiftr addr 8); u8 (Z.land addr 255); u8 v]) with (reg addr ++ [u8 v]).
  enough (forall n s, emits (set_loop n (reg addr ++ [u8 v])) s (fun r tr => (tr = [] /\ n = 0%nat \/ only (set_effect addr v) tr) /\
    (r = FAIL \/ r = SUCCESS /\ only (set_effect addr v) tr /\ 0 < gp_xfer (g_trace s ++ tr)))) as K.
  { eapply emits_mono; [apply K|]. intros r tr [[[_ ?]|?] HQ]; [done|]. split; [done|]. destruct HQ as [?|(? & _ & ?)]; auto. }
  intros n. induction n as [|n IH]; intros s0; cbn [set_loop]; [apply emits_ret; auto|].
  unfold GTP_ADDR_LENGTH. eapply emits_bind; [apply gwrite_emits; [by vm_compute|lia]|]. intros r tr [Ho Hr].
  change (take (Z.to_nat (2 + 1)) (reg addr ++ [u8 v])) with (reg addr ++ [u8 v]) in Ho. fold (set_effect addr v) in Ho.
  destruct (0 <? r) eqn:E; bool_cases.
  - apply emits_ret. rewrite app_nil_r. split; [by right|]. right. by rewrite <- Hr.
  - eapply emits_mono; [apply IH|]. intros r2 tr2 [Ho2 HQ].
    assert (only (set_effect addr v) (tr ++ tr2)) as Ho3 by (destruct Ho2 as [[-> _]|?]; [by rewrite app_nil_r|by apply only_app]).
    split; [by right|]. destruct HQ as [->|(-> & _ & Hx)]; [by left|right]. by rewrite ext_trace, <- app_assoc in Hx.
Qed.

End TransferFacts.

(** ** The decision *)

Section JudgeFacts.
Context `{GtpKernel}.

(** What the chip's identifiers and an image's head make the driver do.  [hw]
    is the first field of the head, [vid] its version, [pid] and [ipid] are the
    identifiers as strings. *)
Definition accepts (u : update) (hw pid : list Z) (vid : Z) (ipid : list Z) : Prop :=
  (take 4 pid = str "9158" /\ take 4 ipid = str "915S") \/
  fw_total_len u = (if decide (hw = ic_hw_info u) then 43008 else le_combine (reverse hw)) /\
  (force_update u <> 190 \/ (length ipid < 3)%nat \/ ~ Forall (fun c => is_digit c = true) (take 3 ipid) \/
   (pid = ipid \/ take 4 ipid = str "91XX" \/ take 4 pid = str "91XX") /\ ic_vid u < vid).

Lemma swap_vid vh vl :
  is_byte vh -> is_byte vl ->
  let t := vh + 256 * vl in u16 (u16 (Z.shiftr t 8) + u16 (Z.shiftl t 8)) = 256 * vh + vl.
Proof.
  intros Hh Hl t. unfold is_byte in *. rewrite Z.shiftr_div_pow2, Z.shiftl_mul_pow2 by lia.
  change (2 ^ 8) with 256. unfold t.
  replace ((vh + 256 * vl) / 256) with vl by (apply Z.div_unique with vh; lia).
  rewrite (u16_id vl) by lia. unfold u16. change (2 ^ 16) with 65536.
  replace ((vh + 256 * vl) * 256) with (256 * vh + vl * 65536) by lia.
  rewrite Z.mod_add by lia. rewrite (Z.mod_small (256 * vh)) by lia. rewrite Z.mod_small by lia. lia.
Qed.

(** A comparison over the longer of two strings compares the strings. *)
Lemma memcmp_strings a ra b rb n :
  nul_free a -> nul_free b -> n = Nat.max (length a) (length b) ->
  (take n (a ++ 0 :: ra) = take n (b ++ 0 :: rb) <-> a = b).
Proof.
  intros Ha Hb ->. split; [|intros ->; by rewrite Nat.max_id, !take_app_length].
  intros E. assert (forall x rx y ry, nul_free x -> (length y < length x)%nat ->
    take (length x) (x ++ 0 :: rx) = take (length x) (y ++ 0 :: ry) -> False) as K.
  { intros x rx y ry Hx Hl Et. rewrite take_app_length in Et.
    assert (x !! length y = Some 0) as L.
    { rewrite Et, lookup_take_lt, lookup_app_r, Nat.sub_diag by lia. done. }
    apply list_elem_of_lookup_2 in L. unfold nul_free in Hx. rewrite Forall_forall in Hx. by apply (Hx _ L). }
  destruct (Nat.lt_trichotomy (length a) (length b)) as [L|[L|L]].
  - exfalso. rewrite Nat.max_r in E by lia. by eapply (K b rb a ra).
  - rewrite <- L, Nat.max_id in E. rewrite take_app_length in E. rewrite L, take_app_length in E. done.
  - exfalso. rewrite Nat.max_l in E by lia. by eapply (K a ra b rb).
Qed.

Lemma take_short n (a r : list Z) l : nul_free l -> length l = n ->
  (take n (a ++ 0 :: r) = l <-> take n a = l).
Proof.
  intros Hl Ln. destruct (decide (n <= length a)%nat); [by rewrite take_app_le|].
  split; intros E; exfalso.
  - assert (l !! length a = Some 0) as L.
    { rewrite <- E, lookup_take_lt, lookup_app_r, Nat.sub_diag by lia. done. }
    apply list_elem_of_lookup_2 in L. unfold nul_free in Hl. rewrite Forall_forall in Hl. by apply (Hl _ L).
  - rewrite take_ge in E by lia. subst l. lia.
Qed.

Lemma list_4 (l : list Z) : length l = 4%nat -> exists a b c d, l = [a; b; c; d].
Proof. destruct l as [|a [|b [|c [|d []]]]]; try done. intros _. by exists a, b, c, d. Qed.

Lemma list_8 (l : list Z) : length l = 8%nat -> exists a b c d e f g h, l = [a; b; c; d; e; f; g; h].
Proof.
  destruct l as [|a [|b [|c [|d [|e [|f [|g [|h []]]]]]]]]; try done. intros _. by exists a, b, c, d, e, f, g, h.
Qed.

Lemma bind_lift_eq {S A B} f (a : A) (k : A -> prog S B) : bind (lift f (Some a)) k = k a.
Proof. reflexivity. Qed.

(** The test the function makes. *)
Definition judge_test (u : update) (hw pid : list Z) (vid : Z) (name iname : list Z) : bool :=
  let n := Nat.max (length name) (length iname) in
  bool_decide (take 4 pid = str "9158") && bool_decide (take 4 (ic_pid u) = str "915S") ||
  (fw_total_len u =? (if bool_decide (hw = ic_hw_info u) then 43008 else le_combine (reverse hw))) &&
  (negb (force_update u =? 190) || ((zlen iname <? 3) || (negb (forallb is_digit (take 3 iname)) ||
   ((bool_decide (take n pid = take n (ic_pid u)) || bool_decide (take 4 (ic_pid u) = str "91XX") ||
     bool_decide (take 4 pid = str "91XX")) && (ic_vid u <? vid))))).

Lemma judge_eq hw name rest vh vl iname irest s :
  let u := g_upd s in let pid := name ++ 0 :: rest in
  bytes hw -> length hw = 4%nat -> nul_free name -> length pid = 8%nat -> is_byte vh -> is_byte vl ->
  length (ic_hw_info u) = 4%nat -> ic_pid u = iname ++ 0 :: irest -> nul_free iname -> length (ic_pid u) = 8%nat ->
  gup_enter_update_judge (hw ++ pid ++ [vh; vl]) s =
    Ret (if judge_test u hw pid (256 * vh + vl) name iname then SUCCESS else FAIL) s.
Proof.
  intros u pid Bh Lh Hn Lp Hvh Hvl Li Ei Hi Lip. unfold gup_enter_update_judge.
  set (head := hw ++ pid ++ [vh; vl]).
  assert (load_le head 12 2 = Some (vh + 256 * vl)) as ->.
  { destruct (list_4 hw Lh) as (? & ? & ? & ? & Eh), (list_8 pid Lp) as (? & ? & ? & ? & ? & ? & ? & ? & Ep).
    unfold head. rewrite Eh, Ep. change (Some (vh + 256 * (vl + 256 * 0)) = Some (vh + 256 * vl)). f_equal. lia. }
  rewrite bind_lift_Some. pose proof (swap_vid vh vl Hvh Hvl) as Sv. cbv zeta in Sv. rewrite Sv.
  assert (le_split 2 (256 * vh + vl) = [vl; vh]) as ->.
  { unfold is_byte in *. cbn [le_split]. rewrite Z.add_comm, (Z.mul_comm 256), Z.mod_add, Z.mod_small by lia.
    rewrite Z.div_add by lia. rewrite (Z.div_small vl) by lia. f_equal. rewrite Z.mod_small by lia. done. }
  set (head2 := hw ++ pid ++ [vl; vh]).
  assert (memcpy head 12 [vl; vh] 0 2 = Some head2) as ->.
  { destruct (list_4 hw Lh) as (? & ? & ? & ? & Eh), (list_8 pid Lp) as (? & ? & ? & ? & ? & ? & ? & ? & Ep).
    unfold head, head2. rewrite Eh, Ep. reflexivity. }
  rewrite bind_lift_Some, bind_unfold. cbn [g_gets]. fold u. set (ic := ic_fw_msg u).
  assert (forall n, (n <= 8)%nat -> range head2 4 (Z.of_nat n) = Some (take n pid)) as Rf.
  { intros n Hle. rewrite range_eq; [|lia..|unfold head2, zlen; rewrite !length_app, Lh, Lp; cbn; lia].
    unfold head2. change (Z.to_nat 4) with 4%nat. rewrite drop_app_length' by done. rewrite Nat2Z.id.
    by rewrite take_app_le by lia. }
  assert (forall n, (n <= 8)%nat -> range ic 4 (Z.of_nat n) = Some (take n (ic_pid u))) as Ri.
  { intros n Hle. rewrite range_eq; [|lia..|unfold ic, ic_fw_msg, zlen; rewrite !length_app, Li, Lip; cbn; lia].
    unfold ic, ic_fw_msg. change (Z.to_nat 4) with 4%nat. rewrite drop_app_length' by done. rewrite Nat2Z.id.
    by rewrite take_app_le by lia. }
  change 4 with (Z.of_nat 4) at 2 4. rewrite Rf, Ri by lia. rewrite !bind_lift_Some.
  assert (range head2 0 4 = Some hw) as ->.
  { rewrite range_eq; [|lia..|unfold head2, zlen; rewrite !length_app, Lh, Lp; cbn; lia].
    unfold head2. cbn [Z.to_nat]. rewrite drop_0. by rewrite take_app_length' by done. }
  assert (range ic 0 4 = Some (ic_hw_info u)) as ->.
  { rewrite range_eq; [|lia..|unfold ic, ic_fw_msg, zlen; rewrite !length_app, Li, Lip; cbn; lia].
    unfold ic, ic_fw_msg. rewrite drop_0. by rewrite take_app_length' by done. }
  rewrite !bind_lift_eq.
  assert (load_str ic 4 = Some iname) as ->.
  { unfold load_str. destruct (_ || _) eqn:E; [apply orb_true_iff in E as [E|E]; bool_cases; [lia|];
      unfold ic, ic_fw_msg, zlen in E; rewrite !length_app, Li, Lip in E; cbn in E; lia|].
    unfold ic, ic_fw_msg. change (Z.to_nat 4) with 4%nat. rewrite drop_app_length' by done. rewrite Ei, <- app_assoc.
    by apply c_string_app. }
  assert (load_str head2 4 = Some name) as ->.
  { unfold load_str. destruct (_ || _) eqn:E; [apply orb_true_iff in E as [E|E]; bool_cases; [lia|];
      unfold head2, zlen in E; rewrite !length_app, Lh, Lp in E; cbn in E; lia|].
    unfold head2. change (Z.to_nat 4) with 4%nat. rewrite drop_app_length' by done. unfold pid. rewrite <- app_assoc.
    by apply c_string_app. }
  rewrite !bind_lift_eq.
  assert (length name < 8)%nat as Ln by (unfold pid in Lp; rewrite length_app in Lp; cbn in Lp; lia).
  assert (length iname < 8)%nat as Lin by (rewrite Ei, length_app in Lip; cbn in Lip; lia).
  assert (Z.max (zlen name) (zlen iname) = Z.of_nat (Nat.max (length name) (length iname))) as -> by (unfold zlen; lia).
  rewrite Rf, Ri by lia. rewrite !bind_lift_eq.
  assert (u32 (le_combine (reverse hw)) = le_combine (reverse hw)) as ->.
  { apply u32_id. pose proof (le_combine_bound (reverse hw)) as B. unfold zlen in B. rewrite length_reverse, Lh in B.
    apply B. unfold bytes. by apply Forall_reverse. }
  unfold judge_test. cbv zeta. change (42 * 1024) with 43008.
  set (c1 := bool_decide (take 4 pid = str "9158") && bool_decide (take 4 (ic_pid u) = str "915S")).
  destruct c1; [done|]. destruct (fw_total_len u =? _); [|done]. destruct (force_update u =? 190); [|done].
  destruct (zlen iname <? 3); [done|]. destruct (forallb _ _); [|done].
  destruct (bool_decide (take _ pid = _) || _ || _); [|done]. by destruct (_ <? _).
Qed.

Lemma judge_test_accepts u hw name rest iname irest vid :
  nul_free name -> nul_free iname -> ic_pid u = iname ++ 0 :: irest ->
  judge_test u hw (name ++ 0 :: rest) vid name iname = true <-> accepts u hw name vid iname.
Proof.
  intros Hn Hi Ei. set (pid := name ++ 0 :: rest).
  assert (forall l, l = str "9158" \/ l = str "91XX" -> (take 4 pid = l <-> take 4 name = l)) as Tf
    by (intros l [-> | ->]; apply take_short; by repeat constructor).
  assert (forall l, l = str "915S" \/ l = str "91XX" -> (take 4 (ic_pid u) = l <-> take 4 iname = l)) as Ti
    by (intros l [-> | ->]; rewrite Ei; apply take_short; by repeat constructor).
  unfold accepts. rewrite <- (Tf (str "9158")), <- (Ti (str "915S")), <- (Tf (str "91XX")), <- (Ti (str "91XX")) by auto.
  rewrite <- (memcmp_strings name rest iname irest (Nat.max (length name) (length iname))) by done. fold pid. rewrite <- Ei.
  unfold judge_test. repeat (rewrite orb_true_iff || rewrite andb_true_iff || rewrite bool_decide_eq_true ||
    rewrite negb_true_iff). rewrite Z.eqb_eq, Z.eqb_neq, Z.ltb_lt.
  assert ((if bool_decide (hw = ic_hw_info u) then 43008 else le_combine (reverse hw)) =
    (if decide (hw = ic_hw_info u) then 43008 else le_combine (reverse hw))) as ->.
  { destruct (decide _); [by rewrite bool_decide_eq_true_2|by rewrite bool_decide_eq_false_2]. }
  assert (zlen iname < 3 <-> (length iname < 3)%nat) as -> by (unfold zlen; lia).
  assert (forallb is_digit (take 3 iname) = false <-> ~ Forall (fun c => is_digit c = true) (take 3 iname)) as ->.
  { rewrite <- not_true_iff_false. rewrite forallb_forall, Forall_forall. setoid_rewrite list_elem_of_In. done. }
  rewrite Z.ltb_lt. tauto.
Qed.

(** Which images are burned.  The decision always comes back, and it is
    "yes" exactly for an image whose size is 42K when it names the chip's
    hardware and the size it states otherwise, and which is newer than the
    chip's firmware with the same product identifier (or 91XX on either side),
    or for a chip whose firmware or identifier is invalid; and for a 9158 image
    on a 915S whatever its size.  Versions are big-endian in the file,
    identifiers are compared as strings.  (The hardware need not be the same,
    which the comment over the function asks for.) *)
Theorem judge_spec hw name rest vh vl iname irest s :
  let u := g_upd s in
  bytes hw -> length hw = 4%nat -> nul_free name -> length (name ++ 0 :: rest) = 8%nat -> is_byte vh -> is_byte vl ->
  length (ic_hw_info u) = 4%nat -> ic_pid u = iname ++ 0 :: irest -> nul_free iname -> length (ic_pid u) = 8%nat ->
  exists r, gup_enter_update_judge (hw ++ (name ++ 0 :: rest) ++ [vh; vl]) s = Ret r s /\ (r = SUCCESS \/ r = FAIL) /\
    (r = SUCCESS <-> accepts u hw name (256 * vh + vl) iname).
Proof.
  intros u Bh Lh Hn Lp Hvh Hvl Li Ei Hi Lip. eexists. split; [by apply (judge_eq _ _ _ _ _ iname irest)|].
  fold u. rewrite <- (judge_test_accepts u hw name rest iname irest) by done.
  destruct (judge_test _ _ _ _ _ _); (split; [auto|]); by intuition.
Qed.

End JudgeFacts.

(** ** Programs that change the state of the update only

    [does c s Q]: [c] returns, leaves everything but [g_upd] alone, and [Q]
    holds of its result, the new state of the update and the effects. *)

Definition does {A} (c : prog gworld A) (s : gworld) (Q : A -> update -> list teffect -> Prop) : Prop :=
  exists a u tr, c s = Ret a (ext tr (with_g_upd u s)) /\ Q a u tr.

Lemma with_upd_same s : with_g_upd (g_upd s) s = s.
Proof. by destruct s. Qed.

Lemma does_ret {A} (a : A) s (Q : A -> update -> list teffect -> Prop) : Q a (g_upd s) [] -> does (ret a) s Q.
Proof. intros Hq. exists a, (g_upd s), []. by rewrite ext_nil, with_upd_same. Qed.

Lemma does_mono {A} (c : prog gworld A) s (P Q : A -> update -> list teffect -> Prop) :
  does c s P -> (forall a u tr, P a u tr -> Q a u tr) -> does c s Q.
Proof. intros (a & u & tr & E & Hp) K. exists a, u, tr. auto. Qed.

Lemma does_bind {A B} (c : prog gworld A) (k : A -> prog gworld B) s P Q :
  does c s P ->
  (forall a u tr, P a u tr -> does (k a) (ext tr (with_g_upd u s)) (fun b u' tr' => Q b u' (tr ++ tr'))) ->
  does (bind c k) s Q.
Proof.
  intros (a & u & tr & E & Hp) K. destruct (K a u tr Hp) as (b & u' & tr' & E' & Hq).
  exists b, u', (tr ++ tr'). rewrite (bind_Ret _ _ _ _ _ E), E'. split; [|done].
  unfold ext. cbn. by rewrite app_assoc.
Qed.

Lemma emits_does {A} (c : prog gworld A) s (P : A -> list teffect -> Prop) :
  emits c s P -> does c s (fun a u tr => u = g_upd s /\ P a tr).
Proof. intros (a & tr & E & Hp). exists a, (g_upd s), tr. by rewrite with_upd_same. Qed.

Lemma does_upd f s : does (upd_set f) s (fun _ u tr => u = f (g_upd s) /\ tr = []).
Proof. exists tt, (f (g_upd s)), []. by rewrite ext_nil. Qed.

Lemma does_returns {A} (c : prog gworld A) s P :
  does c s P -> returns c s (fun a s' => exists u tr, s' = ext tr (with_g_upd u s) /\ P a u tr).
Proof. intros (a & u & tr & E & Hp). eexists _, _. split; [exact E|]. by exists u, tr. Qed.

(** The normal form of a state: effects, the update, the rest. *)
Lemma upd_twice u v s : with_g_upd u (with_g_upd v s) = with_g_upd u s.
Proof. reflexivity. Qed.

Lemma upd_of u s : g_upd (with_g_upd u s) = u.
Proof. reflexivity. Qed.

Lemma upd_ext u tr s : with_g_upd u (ext tr s) = ext tr (with_g_upd u s).
Proof. reflexivity. Qed.

Lemma ext_upd tr s : g_upd (ext tr s) = g_upd s.
Proof. reflexivity. Qed.

Ltac d_norm := rewrite ?upd_ext, ?ext_upd, ?upd_twice, ?upd_of, ?ext_ext, ?ext_nil, ?with_upd_same; cbn [app].

(** One step: a value of the state, an effect, a call, an update, a partial
    computation that is known to work. *)
Ltac d_step := first
  [ eapply does_bind; [apply emits_does, emits_gets|]; intros ? ? ? (-> & -> & ->)
  | eapply does_bind; [apply emits_does, emits_do|]; intros ? ? ? (-> & ->)
  | eapply does_bind; [apply emits_does, emits_call|]; intros ? ? ? (-> & -> & ->)
  | eapply does_bind; [apply does_upd|]; intros ? ? ? (-> & ->)
  | eapply does_bind; [apply emits_does; apply emits_lift; reflexivity|]; intros ? ? ? (-> & -> & ->) ];
  d_norm.

Section ImageFacts.
Context `{GtpKernel}.

(** The sum of the 16-bit big-endian words; a last odd byte is taken with the
    low byte of the word before it. *)
Fixpoint word_sum (prev : Z) (l : list Z) : Z :=
  match l with
  | hi :: lo :: l' => 256 * hi + lo + word_sum lo l'
  | [hi] => 256 * hi + prev
  | [] => 0
  end.

Definition pos_only (u u' : update) : Prop := exists p, u' = with_f_pos p u.

Lemma pos_only_refl u : pos_only u u.
Proof. exists (f_pos u). by destruct u. Qed.

Lemma pos_only_trans a b c : pos_only a b -> pos_only b c -> pos_only a c.
Proof. intros [p ->] [q ->]. by exists q. Qed.

Definition reads (tr : list teffect) : Prop := Forall (fun e => match e with FileRead _ _ => True | _ => False end) tr.

Lemma file_read_does dst n c p s :
  upd_file (g_upd s) = OpenFile c -> f_pos (g_upd s) = p -> 0 <= n <= zlen dst ->
  let d := take (Z.to_nat n) (drop (Z.to_nat p) c) in
  does (file_read dst n) s (fun x u tr => tr = [FileRead p n] /\
    (if gp_read (g_trace s ++ tr) then x = (zlen d, splice dst 0 d) /\ u = with_f_pos (p + zlen d) (g_upd s)
     else x = (- EIO, dst) /\ u = g_upd s)).
Proof.
  intros Hf Hp Hn d. unfold file_read, the_file.
  eapply does_bind with (P := fun a u tr => a = c /\ u = g_upd s /\ tr = []).
  { d_step. rewrite Hf. by apply does_ret. }
  intros ? ? ? (-> & -> & ->). rewrite ext_nil, with_upd_same. cbn [app]. d_step. rewrite Hp. d_step.
  destruct (gp_read _) eqn:E.
  - d_step. fold d.
    assert (zlen d <= n) as Ld by (unfold d, zlen; rewrite length_take; lia).
    rewrite memcpy_Some by (unfold zlen in *; lia). change (Z.to_nat 0) with 0%nat.
    rewrite drop_0, take_zlen_all. d_step. apply does_ret. cbn [app]. rewrite ?E. done.
  - apply does_ret. by rewrite E.
Qed.

Lemma splice_0 b d : splice b 0 d = d ++ drop (length d) b.
Proof. reflexivity. Qed.

Lemma s32_mod v : s32 v mod 65536 = v mod 65536.
Proof.
  unfold s32. rewrite Zminus_mod. change (2 ^ 32) with (65536 * 65536). change (2 ^ 31 mod 65536) with 0.
  rewrite Z.sub_0_r, Z.mod_mod by lia. rewrite Z.rem_mul_r, Z.mul_comm, Z.mod_add by lia.
  rewrite Z.mod_mod by lia. rewrite Zplus_mod. change (2 ^ 31 mod 65536) with 0. rewrite Z.add_0_r, Z.mod_mod by lia. done.
Qed.

Lemma word_u16 hi lo : is_byte hi -> is_byte lo -> u16 (Z.shiftl hi 8 + lo) = 256 * hi + lo.
Proof. unfold is_byte. intros. rewrite Z.shiftl_mul_pow2 by lia. change (2 ^ 8) with 256. rewrite u16_id; lia. Qed.

(** The sum of what is left of the file. *)
Lemma checksum_does n : forall acc b0 prev buf c p s,
  upd_file (g_upd s) = OpenFile c -> f_pos (g_upd s) = p -> 0 <= p -> bytes c -> is_byte prev ->
  (length (drop (Z.to_nat p) c) <= 2 * n <= length (drop (Z.to_nat p) c) + 1)%nat ->
  does (checksum_loop n acc (b0 :: prev :: buf)) s (fun o u tr => pos_only (g_upd s) u /\ reads tr /\
    match o with
    | None => exists t, gp_read t = false
    | Some v => v mod 65536 = (acc + word_sum prev (drop (Z.to_nat p) c)) mod 65536
    end).
Proof.
  induction n as [|n IH]; intros acc b0 prev buf c p s Hf Hp H1 Hb Hv Hl; cbn [checksum_loop].
  { apply does_ret. split_and!; [apply pos_only_refl|constructor|].
    destruct (drop _ c) eqn:E; cbn in Hl; [|lia]. cbn. by rewrite Z.add_0_r. }
  eapply does_bind; [apply (file_read_does _ _ c p); [done|done|unfold zlen; cbn [length]; lia]|].
  intros x u tr (-> & Hx). destruct (gp_read _) eqn:Er; destruct Hx as [-> ->]; cbn [fst snd].
  2:{ cbn. apply does_ret. split_and!; [apply pos_only_refl|by repeat constructor|by eexists]. }
  set (l := drop (Z.to_nat p) c) in *. change (Z.to_nat 2) with 2%nat.
  assert (bytes l) as Bl by (by apply Forall_drop).
  assert (exists hi lo, take 2 l = [hi; lo] /\ is_byte hi /\ is_byte lo /\ word_sum prev l = 256 * hi + lo + word_sum lo (drop 2 l)
    \/ l = [hi] /\ is_byte hi /\ lo = prev) as (hi & lo & Hw).
  { destruct l as [|hi [|lo l]]; [cbn in Hl; lia| |].
    - exists hi, prev. right. by inversion Bl.
    - exists hi, lo. left. inversion Bl as [|? ? ? Bl2]. by inversion Bl2. }
  assert (splice (b0 :: prev :: buf) 0 (take 2 l) = hi :: lo :: buf) as ->.
  { destruct Hw as [(-> & _)|(-> & _ & ->)]; reflexivity. }
  assert ((zlen (take 2 l) <? 0) = false) as -> by (apply Z.ltb_ge, zlen_nonneg).
  d_step. d_step. set (s1 := ext _ _).
  assert (is_byte hi /\ is_byte lo) as [Bhi Blo] by (destruct Hw as [(_ & ? & ? & _)|(_ & ? & ->)]; done).
  rewrite word_u16 by done.
  assert (drop (Z.to_nat (p + zlen (take 2 l))) c = drop 2 l) as Ed.
  { unfold l. rewrite drop_drop. replace (Z.to_nat (p + zlen (take 2 (drop (Z.to_nat p) c)))) with
      (Z.to_nat p + length (take 2 (drop (Z.to_nat p) c)))%nat by (unfold zlen; lia).
    rewrite length_take. destruct (decide (2 <= length (drop (Z.to_nat p) c))%nat); [by rewrite Nat.min_l|].
    rewrite Nat.min_r by lia. rewrite length_drop in *. rewrite !drop_ge; [done|lia..]. }
  eapply does_mono; [apply (IH _ hi lo buf c (p + zlen (take 2 l)) s1); [done|done|pose proof (zlen_nonneg (take 2 l)); lia|done|done|]|].
  { rewrite Ed, length_drop. lia. }
  intros o u' tr' (Hu & Hr & Ho). split_and!.
  - eapply pos_only_trans; [by eexists|exact Hu].
  - by constructor.
  - destruct o as [v|]; [|done]. rewrite Ho, Ed. rewrite <- Zplus_mod_idemp_l, s32_mod, Zplus_mod_idemp_l.
    f_equal. destruct Hw as [(_ & _ & _ & ->)|(-> & _ & ->)]; cbn; lia.
Qed.

(** An image that passes the check. *)
Definition valid_image (c : list Z) : Prop := FW_MIN_LENGTH <= zlen c /\ word_sum 0 (drop 14 c) mod 65536 = 0.

Lemma word_sum_prev p q l : length l <> 1%nat -> word_sum p l = word_sum q l.
Proof. by destruct l as [|a [|b l]]. Qed.

Lemma check_image_does fw_head c s :
  upd_file (g_upd s) = OpenFile c -> bytes c -> zlen c < 2 ^ 31 ->
  does (check_image fw_head) s (fun x u tr => reads tr /\
    old_fs u = addr_limit (g_upd s) /\ addr_limit u = KERNEL_DS /\ upd_file u = OpenFile c /\
    (fst x = FAIL /\ (valid_image c -> exists t, gp_read t = false) \/
     fst x = SUCCESS /\ valid_image c /\ snd x = take 14 c /\ fw_total_len u = zlen c - 14)).
Proof.
  intros Hf Hb Hz. unfold check_image, junk.
  eapply does_bind with (P := fun a u tr => a = gp_junk (g_trace s) 14 /\ u = g_upd s /\ tr = []).
  { eexists _, _, _. rewrite ext_nil, with_upd_same. split; [reflexivity|done]. }
  intros ? ? ? (-> & -> & ->). rewrite ext_nil, with_upd_same. cbn [app]. d_step. d_step. d_step. unfold the_file.
  eapply does_bind with (P := fun a u tr => a = c /\ u = with_addr_limit KERNEL_DS (with_old_fs (addr_limit (g_upd s)) (g_upd s)) /\ tr = []).
  { d_step. cbn [upd_file g_upd with_g_upd with_addr_limit with_old_fs]. rewrite Hf. by apply does_ret. }
  intros ? ? ? (-> & -> & ->). rewrite ext_nil. cbn [app]. pose proof (zlen_nonneg c) as Hc. rewrite (u32_id (zlen c)) by lia.
  d_step. d_step. change FW_MIN_LENGTH with 43022 at 1. change FW_HEAD_LENGTH with 14.
  destruct (zlen c <? 43022) eqn:Es; bool_cases.
  { apply does_ret. split_and!; try done; [constructor|]. left. split; [done|]. intros [L _].
    change FW_MIN_LENGTH with 43022 in L. lia. }
  rewrite u32_id by lia. d_step. d_step. set (s1 := with_g_upd _ _).
  eapply does_bind; [apply (file_read_does _ 14 c 0 s1); [done|done|unfold zlen; rewrite gp_junk_len; lia]|].
  intros x u tr (-> & Hx). change (Z.to_nat 0) with 0%nat in Hx. rewrite drop_0 in Hx. change (Z.to_nat 14) with 14%nat in Hx.
  destruct (gp_read _) eqn:Er; destruct Hx as [-> ->]; cbn [fst snd].
  2:{ cbn. apply does_ret. split_and!; try done; [by repeat constructor|]. left. split; [done|]. intros _. by eexists. }
  assert (length (take 14 c) = 14%nat) as L14 by (rewrite length_take; unfold zlen in *; lia).
  assert (zlen (take 14 c) = 14) as -> by (unfold zlen; lia). cbn [Z.ltb Z.compare].
  rewrite splice_0, L14, drop_ge, app_nil_r by (rewrite gp_junk_len; lia).
  assert (exists b0 b1 r, take 14 c = b0 :: b1 :: r) as (b0 & b1 & r & Ec).
  { destruct (take 14 c) as [|b0 [|b1 r]]; try done. by exists b0, b1, r. }
  assert (is_byte b1) as Bb1.
  { assert (bytes (take 14 c)) as B by (by apply Forall_take). rewrite Ec in B. inversion B as [|? ? ? B2]. by inversion B2. }
  rewrite Ec at 1. set (s2 := ext _ _).
  eapply does_bind; [apply (checksum_does _ 0 b0 b1 r c 14 s2); try done|].
  { rewrite length_drop. change (Z.to_nat 14) with 14%nat. unfold zlen in *. Z.div_mod_to_equations; lia. }
  intros o u tr ([q ->] & Hr & Ho). change (Z.to_nat 14) with 14%nat in Ho.
  destruct o as [v|]; [|apply does_ret; split_and!; try done; [rewrite app_nil_r; by constructor|left; by split]].
  rewrite Z.add_0_l in Ho. rewrite (word_sum_prev b1 0) in Ho by (rewrite length_drop; unfold zlen in *; lia).
  change 65535 with (Z.ones 16). rewrite Z.land_ones by lia. change (2 ^ 16) with 65536. rewrite Ho.
  destruct (word_sum 0 (drop 14 c) mod 65536 =? 0) eqn:Ew; bool_cases; cbn [negb]; apply does_ret;
    (split_and!; try done; [rewrite app_nil_r; by constructor|]).
  - right. split_and!; [done|split; [change FW_MIN_LENGTH with 43022; lia|done]|done|done].
  - left. split; [done|]. by intros [_ ?].
Qed.

(** C29: the check of an image.  It returns; "yes" means that the file has at
    least 43022 bytes and that the words behind its head add up to 0, and gives
    the head and the length of the rest; an image like that is refused only
    when reads can fail: with a file whose reads always succeed it is accepted.
    The file holds bytes and is shorter than 2 GiB.  The address limit of the task is [KERNEL_DS]
    afterwards, its old value is kept. *)
Theorem check_image_spec fw_head c s :
  upd_file (g_upd s) = OpenFile c -> bytes c -> zlen c < 2 ^ 31 ->
  does (check_image fw_head) s (fun x u tr => reads tr /\
    old_fs u = addr_limit (g_upd s) /\ addr_limit u = KERNEL_DS /\ upd_file u = OpenFile c /\
    (fst x = FAIL /\ (valid_image c -> exists t, gp_read t = false) \/
     fst x = SUCCESS /\ valid_image c /\ snd x = take 14 c /\ fw_total_len u = zlen c - 14)).
Proof. apply check_image_does. Qed.

End ImageFacts.

(** ** The configuration file *)

Section ConfigFile.
Context `{GtpKernel}.

(** A byte as it stands in the file, with its comma. *)
Definition hex_field (v : Z) : list Z := [48; 120; hex_upper (v / 16); hex_upper (v mod 16); 44].
Definition hex_fields (l : list Z) : list Z := concat (hex_field <$> l).

Definition unblank (text : list Z) : list Z := filter (fun c => blank_char c = false) text.

(** The text lists the bytes [l], with blanks and newlines anywhere; the last
    comma may be missing. *)
Definition lists (text l : list Z) : Prop := unblank text = hex_fields l \/ unblank text ++ [44] = hex_fields l.

Lemma hex_fields_length l : length (hex_fields l) = (5 * length l)%nat.
Proof. unfold hex_fields. induction l as [|v l IH]; cbn; [done|]. cbn in IH. rewrite IH. lia. Qed.

Lemma hex_fields_lookup l k v j x :
  l !! k = Some v -> hex_field v !! j = Some x -> hex_fields l !! (5 * k + j)%nat = Some x.
Proof.
  revert k. unfold hex_fields. induction l as [|w l IH]; intros k Hk Hj; [done|]. destruct k as [|k]; cbn in Hk.
  - injection Hk as ->. cbn [fmap list_fmap concat]. rewrite lookup_app_l; [done|]. by eapply lookup_lt_Some.
  - cbn [fmap list_fmap concat]. replace (5 * S k + j)%nat with (length (hex_field w) + (5 * k + j))%nat by (cbn; lia).
    rewrite lookup_app_r, Nat.add_comm, Nat.add_sub by lia. by apply IH.
Qed.

Lemma ascii2hex_upper d : 0 <= d < 16 -> ascii2hex (hex_upper d) = d.
Proof.
  intros Hd. unfold hex_upper, ascii2hex. destruct (Z.ltb_spec d 10).
  - destruct (Z.leb_spec 48 (48 + d)), (Z.leb_spec (48 + d) 57); cbn [andb]; lia.
  - destruct (Z.leb_spec 48 (55 + d)), (Z.leb_spec (55 + d) 57), (Z.leb_spec 65 (55 + d)), (Z.leb_spec (55 + d) 70);
      cbn [andb]; lia.
Qed.

Lemma hex_byte v : is_byte v ->
  let h := ascii2hex (hex_upper (v / 16)) in let l := ascii2hex (hex_upper (v mod 16)) in
  (h =? 255) || (l =? 255) = false /\ u8 (Z.shiftl h 4 + l) = v.
Proof.
  unfold is_byte. intros Hv. assert (0 <= v / 16 < 16 /\ 0 <= v mod 16 < 16) as [Hd Hm] by (Z.div_mod_to_equations; lia).
  rewrite !ascii2hex_upper by lia. cbv zeta. split.
  - apply orb_false_iff. split; apply Z.eqb_neq; lia.
  - rewrite Z.shiftl_mul_pow2 by lia. change (2 ^ 4) with 16. rewrite u8_id; [|unfold is_byte]; Z.div_mod_to_equations; lia.
Qed.

(** Fields stand at [i] of the buffer. *)
Definition fields_at (buf : list Z) (i : Z) (l : list Z) : Prop :=
  forall k v j x, l !! k = Some v -> (j < 4)%nat -> hex_field v !! j = Some x ->
    load8 buf (i + 5 * Z.of_nat k + Z.of_nat j) = Some x.

Lemma fields_at_start text l z :
  lists text l -> fields_at (unblank text ++ z) 0 l.
Proof.
  intros Hl k v j x Hk Hj Hx. pose proof (hex_fields_lookup l k v j x Hk Hx) as L.
  pose proof (hex_fields_length l) as Len. pose proof (lookup_lt_Some _ _ _ Hk) as Lk.
  unfold load8. destruct (_ <? 0) eqn:E; bool_cases; [lia|].
  replace (Z.to_nat (0 + 5 * Z.of_nat k + Z.of_nat j)) with (5 * k + j)%nat by lia.
  destruct Hl as [E1|E1].
  - rewrite E1, lookup_app_l; [done|lia].
  - assert (length (unblank text) = 5 * length l - 1)%nat as Lu
      by (rewrite <- Len, <- E1, length_app; cbn; lia).
    rewrite lookup_app_l by lia. rewrite <- L, <- E1, lookup_app_l by lia. done.
Qed.

Lemma fields_at_next buf i v l : fields_at buf i (v :: l) -> fields_at buf (i + 5) l.
Proof.
  intros F k w j x Hk Hj Hx. specialize (F (S k) w j x Hk Hj Hx).
  by replace (i + 5 * Z.of_nat (S k) + Z.of_nat j) with (i + 5 + 5 * Z.of_nat k + Z.of_nat j) in F by lia.
Qed.

Lemma cell_eq b i v s : load8 b i = Some v -> cell (Some b) i s = Ret v s.
Proof. intros E. unfold cell, bind, lift, ret. by rewrite E. Qed.

Lemma set_cell_eq b i v s : 0 <= i < zlen b -> set_cell (Some b) i v s = Ret (Some (<[Z.to_nat i := v]> b)) s.
Proof. intros Hi. unfold set_cell, bind, lift, ret. by rewrite store8_in. Qed.

Lemma set_cell_out b i v s : zlen b <= i -> set_cell (Some b) i v s = Fault OutOfBounds s.
Proof.
  intros Hi. unfold set_cell, bind, lift, ret, store8. destruct (_ && _) eqn:E; [|done].
  apply andb_true_iff in E as [_ E]. bool_cases. lia.
Qed.

Lemma cell_room (out : list Z) r rest : 0 <= zlen out < zlen (out ++ r :: rest).
Proof. rewrite zlen_app, zlen_cons. pose proof (zlen_nonneg out). pose proof (zlen_nonneg rest). lia. Qed.

(** Blanks go; what stays is stored from [count] on. *)
Lemma strip_eq todo : forall pre out rest s,
  (length (unblank todo) <= length rest)%nat ->
  strip_loop (length todo) (zlen pre) (zlen out) (Some (pre ++ todo)) (Some (out ++ rest)) s =
    Ret (zlen out + zlen (unblank todo),
         Some (out ++ unblank todo ++ drop (length (unblank todo)) rest)) s.
Proof.
  unfold unblank. induction todo as [|c todo IH]; intros pre out rest s Hl; cbn [length strip_loop].
  { change (zlen (filter _ [])) with 0. by rewrite Z.add_0_r. }
  rewrite (bind_Ret _ _ _ c s); [|apply cell_eq; replace (zlen pre) with (zlen pre + 0) by lia; by rewrite load8_app_r].
  replace (zlen pre + 1) with (zlen (pre ++ [c])) by (by rewrite zlen_app).
  replace (pre ++ c :: todo) with ((pre ++ [c]) ++ todo) by (by rewrite <- app_assoc).
  destruct (blank_char c) eqn:Eb.
  - rewrite filter_cons_False in Hl |- * by congruence. by apply IH.
  - rewrite filter_cons_True in Hl |- * by done. cbn [length] in Hl. destruct rest as [|r rest]; [cbn in Hl; lia|].
    rewrite (bind_Ret _ _ _ _ s (set_cell_eq (out ++ r :: rest) (zlen out) c s (cell_room out r rest))).
    assert (<[Z.to_nat (zlen out):=c]> (out ++ r :: rest) = (out ++ [c]) ++ rest) as ->.
    { unfold zlen. rewrite Nat2Z.id, insert_app_r_alt, Nat.sub_diag by lia. cbn. by rewrite <- app_assoc. }
    replace (zlen out + 1) with (zlen (out ++ [c])) by (by rewrite zlen_app).
    rewrite IH by (cbn in Hl; lia). f_equal. f_equal.
    + rewrite zlen_app, !zlen_cons. change (@zlen Z []) with 0. lia.
    + cbn. by rewrite <- app_assoc.
Qed.

Lemma field_cells buf i v l :
  fields_at buf i (v :: l) ->
  load8 buf i = Some 48 /\ load8 buf (i + 1) = Some 120 /\
  load8 buf (i + 2) = Some (hex_upper (v / 16)) /\ load8 buf (i + 3) = Some (hex_upper (v mod 16)).
Proof.
  intros F. assert (forall j x, (j < 4)%nat -> hex_field v !! j = Some x -> load8 buf (i + Z.of_nat j) = Some x) as K.
  { intros j x Hj Hx. specialize (F 0%nat v j x eq_refl Hj Hx). by replace (i + 5 * Z.of_nat 0) with i in F by lia. }
  pose proof (K 0%nat _ ltac:(lia) eq_refl) as K0. rewrite Z.add_0_r in K0.
  by split_and!; [done|apply (K 1%nat)|apply (K 2%nat)|apply (K 3%nat)]; (lia || done).
Qed.

Lemma hex_eq l : forall buf i out rest s,
  fields_at buf i l -> bytes l ->
  hex_loop (length l) i (zlen out) (Some buf) (Some (out ++ rest)) s =
    if decide (length l <= length rest)%nat
    then Ret (Some (zlen out + zlen l, Some (out ++ l ++ drop (length l) rest))) s
    else Fault OutOfBounds s.
Proof.
  induction l as [|v l IH]; intros buf i out rest s F B; cbn [length hex_loop].
  { rewrite decide_True by lia. rewrite Z.add_0_r. done. }
  destruct (field_cells _ _ _ _ F) as (C0 & C1 & C2 & C3). inversion B as [|? ? Bv Bl]; subst.
  rewrite (bind_Ret _ _ _ _ _ (cell_eq _ _ _ s C0)). cbn [Z.eqb Pos.eqb].
  rewrite bind_bind, (bind_Ret _ _ _ _ _ (cell_eq _ _ _ s C1)). cbn [Z.eqb Pos.eqb orb]. rewrite bind_ret.
  rewrite (bind_Ret _ _ _ _ _ (cell_eq _ _ _ s C2)), (bind_Ret _ _ _ _ _ (cell_eq _ _ _ s C3)).
  destruct (hex_byte v Bv) as [-> ->]. destruct rest as [|r rest].
  - rewrite bind_unfold, set_cell_out by (rewrite app_nil_r; lia). by rewrite decide_False by (cbn; lia).
  - rewrite (bind_Ret _ _ _ _ _ (set_cell_eq (out ++ r :: rest) (zlen out) v s (cell_room out r rest))).
    assert (<[Z.to_nat (zlen out):=v]> (out ++ r :: rest) = (out ++ [v]) ++ rest) as ->.
    { unfold zlen. rewrite Nat2Z.id, insert_app_r_alt, Nat.sub_diag by lia. cbn. by rewrite <- app_assoc. }
    replace (zlen out + 1) with (zlen (out ++ [v])) by (by rewrite zlen_app).
    rewrite IH by (done || by eapply fields_at_next).
    destruct (decide (length l <= length rest)%nat), (decide (S (length l) <= length (r :: rest))%nat) as [D|D];
      cbn [length] in D; try lia; [|done].
    f_equal. f_equal. f_equal; [rewrite zlen_app, !zlen_cons; change (@zlen Z []) with 0; lia|].
    f_equal. cbn. by rewrite <- app_assoc.
Qed.

Lemma gwrite_works buf len s :
  bus_works -> 0 <= len <= zlen buf -> len < 65536 ->
  gup_i2c_write buf len s = Ret 1 (ext [XWrite (take (Z.to_nat len) buf)] s).
Proof.
  intros W Hl Hn. unfold gup_i2c_write. rewrite u16_id, range_take by lia. rewrite bind_lift_Some. cbn [wr_loop].
  unfold g_call, g_ask, g_do. rewrite !bind_bind, bind_modify, bind_unfold.
  set (b := take _ _). assert (gp_xfer (g_trace (g_emit (XWrite b) s)) = 1) as -> by apply W. reflexivity.
Qed.

Lemma rounds_of text l : lists text l -> Z.to_nat ((zlen (unblank text) + 4) / 5) = length l.
Proof.
  intros Hl. pose proof (hex_fields_length l) as L. unfold zlen.
  assert (length (unblank text) = 5 * length l \/ length (unblank text) + 1 = 5 * length l)%nat as [E|E].
  { destruct Hl as [E|E]; rewrite <- E in L; [by left|right]. rewrite length_app in L. cbn in L. lia. }
  all: Z.div_mod_to_equations; lia.
Qed.

Lemma unblank_length text : (length (unblank text) <= length text)%nat.
Proof. apply length_filter. Qed.

Lemma kzalloc_eq n s :
  (forall tr, gp_alloc tr = true) -> 0 <= n -> kzalloc n s = Ret (Some (replicate (Z.to_nat n) 0)) (ext [Alloc n] s).
Proof.
  intros Ha Hn. unfold kzalloc, g_call, g_do. rewrite bind_bind, bind_modify, bind_unfold. cbn [g_ask]. rewrite Ha.
  rewrite (proj2 (Z.leb_le 0 n) Hn). reflexivity.
Qed.

(** From the text of the file to the message. *)
Lemma config_text_eq text l n s :
  bus_works -> lists text l -> bytes l -> 0 <= n < 65000 ->
  config_text (zlen text) (Some text) (Some (replicate (length text) 0)) (Some (replicate (Z.to_nat (n + 2)) 0)) s =
    if decide (zlen l <= n) then Ret 1 (ext [XWrite (reg GTP_REG_CONFIG_DATA ++ l); Free; Free; Free] s)
    else Fault OutOfBounds s.
Proof.
  intros W Hl Bl Hn. unfold config_text. pose proof (unblank_length text) as Lu.
  pose proof (strip_eq text [] [] (replicate (length text) 0) s ltac:(by rewrite length_replicate)) as S.
  change (zlen []) with 0 in S. cbn [app] in S. unfold zlen at 1. rewrite Nat2Z.id, (bind_Ret _ _ _ _ _ S). rewrite Z.add_0_l.
  replace (Z.to_nat (n + 2)) with (2 + Z.to_nat n)%nat by lia.
  rewrite (bind_Ret _ _ _ _ _ (set_cell_eq (replicate (2 + Z.to_nat n) 0) 0 128 s ltac:(unfold zlen; cbn [length Nat.add replicate]; lia))).
  change (<[Z.to_nat 0:=128]> (replicate (2 + Z.to_nat n) 0)) with (128 :: 0 :: replicate (Z.to_nat n) 0).
  rewrite (bind_Ret _ _ _ _ _ (set_cell_eq (128 :: 0 :: replicate (Z.to_nat n) 0) 1 71 s ltac:(unfold zlen; cbn [length]; lia))).
  change (<[Z.to_nat 1:=71]> (128 :: 0 :: replicate (Z.to_nat n) 0)) with (reg GTP_REG_CONFIG_DATA ++ replicate (Z.to_nat n) 0).
  rewrite (rounds_of text l Hl).
  pose proof (hex_eq l _ 0 (reg GTP_REG_CONFIG_DATA) (replicate (Z.to_nat n) 0) s
    (fields_at_start text l (drop (length (unblank text)) (replicate (length text) 0)) Hl) Bl) as X.
  change (zlen (reg GTP_REG_CONFIG_DATA)) with GTP_ADDR_LENGTH in X. rewrite length_replicate in X.
  rewrite bind_unfold, X. destruct (decide (length l <= Z.to_nat n)%nat), (decide (zlen l <= n)); try (unfold zlen in *; lia); [|done].
  rewrite bind_lift_Some. set (msg := reg GTP_REG_CONFIG_DATA ++ l ++ _). cbn [cfg_loop]. unfold GTP_ADDR_LENGTH.
  assert (zlen msg = n + 2) as Lm by (unfold msg, zlen in *; rewrite !length_app, length_drop, length_replicate; cbn; lia).
  rewrite bind_bind, (bind_Ret _ _ _ _ _ (gwrite_works msg (2 + zlen l) s W ltac:(pose proof (zlen_nonneg l); lia) ltac:(lia))).
  cbn [Z.ltb Z.compare]. rewrite bind_ret.
  assert (take (Z.to_nat (2 + zlen l)) msg = reg GTP_REG_CONFIG_DATA ++ l) as ->.
  { unfold msg. rewrite app_assoc. apply take_app_length'. rewrite length_app. unfold zlen. cbn. lia. }
  unfold free_all, bind, g_do, modify, g_emit, ext, ret. cbn. f_equal. by rewrite <- !app_assoc.
Qed.

(** C27: the configuration file.  Take a file that lists bytes as 0x and two
    upper-case digits, separated by commas, with blanks and newlines anywhere
    ([lists]), for a configuration of [n] bytes, on a bus that works and with
    memory and reads that succeed.  A text of less than 5 n - 5 characters is
    refused before anything is allocated, read or sent (Config length error).
    Otherwise the file is sent to the chip as one message: the address 0x8047
    and these bytes, when there are no more than [n] of them; the byte after the
    [n]th is stored behind the memory that was allocated for them.  So a file of
    fewer bytes is sent only when blanks make up for the length. *)
Theorem config_file_sent text l s :
  let n := gtp_cfg_len (g_ts s) in
  bus_works -> (forall tr, gp_alloc tr = true) -> (forall tr, gp_read tr = true) -> g_ptr s = Live ->
  cfg_file (g_upd s) = OpenFile text -> lists text l -> bytes l -> zlen text < 2 ^ 31 -> 0 <= n < 65000 ->
  let tr0 := [Alloc (zlen text); Alloc (zlen text); Alloc (n + 2); FileRead 0 (zlen text)] in
  gup_update_config s =
    if decide (zlen text < 5 * n - 5) then Ret (-1) s
    else if decide (zlen l <= n)
    then Ret 1 (ext (tr0 ++ [XWrite (reg GTP_REG_CONFIG_DATA ++ l); Free; Free; Free]) s)
    else Fault OutOfBounds (ext tr0 s).
Proof.
  intros n W Ha Hr Hp Hf Hl Bl Ht Hn tr0. pose proof (zlen_nonneg text) as Hz. unfold gup_update_config.
  rewrite bind_unfold. cbn [g_gets]. rewrite Hf. rewrite s32_id by lia. rewrite (bind_Ret _ _ _ _ _ (ts_get_eq _ _ Hp)). fold n.
  destruct (zlen text + 5 <? n * 5) eqn:E, (decide (zlen text < 5 * n - 5)) as [D|D]; bool_cases; try lia; [done|].
  rewrite (bind_Ret _ _ _ _ _ (kzalloc_eq (zlen text) s Ha Hz)).
  rewrite (bind_Ret _ _ _ _ _ (kzalloc_eq (zlen text) _ Ha Hz)), ext_ext.
  unfold GTP_ADDR_LENGTH. rewrite (bind_Ret _ _ _ _ _ (kzalloc_eq (n + 2) _ Ha ltac:(lia))), ext_ext. cbn [app].
  unfold g_call, g_do. rewrite bind_bind, bind_modify, bind_unfold. cbn [g_ask]. rewrite Hr.
  rewrite memcpy_Some by (unfold zlen in *; rewrite ?length_replicate; lia). rewrite bind_lift_Some.
  change (Z.to_nat 0) with 0%nat. rewrite drop_0, take_zlen_all.
  assert (splice (replicate (Z.to_nat (zlen text)) 0) 0 text = text) as ->.
  { rewrite splice_0, drop_ge, app_nil_r; [done|]. rewrite length_replicate. unfold zlen. lia. }
  replace (Z.to_nat (zlen text)) with (length text) by (unfold zlen; lia).
  assert (g_emit (FileRead 0 (zlen text)) (ext [Alloc (zlen text); Alloc (zlen text); Alloc (n + 2)] s) = ext tr0 s) as ->.
  { unfold g_emit, ext, tr0. cbn. by rewrite <- app_assoc. }
  rewrite (config_text_eq text l n _ W Hl Bl Hn). by rewrite ext_ext.
Qed.

End ConfigFile.

(** ** An image and a configuration file *)

Module UpdateDemo.
Import GtDemo.

(** An image of 42K for a 9271. *)
Definition head : list Z := [0; 144; 6; 0] ++ str "9271" ++ [0; 0; 0; 0; 16; 1].
Definition image : list Z := head ++ replicate (Z.to_nat 43008) 0.

Lemma zlen_image : zlen image = 43022.
Proof. unfold image, zlen. rewrite length_app, length_replicate. change (length head) with 14%nat. lia. Qed.

Lemma image_bytes : bytes image.
Proof. apply Forall_app. split; [by repeat constructor|by apply Forall_replicate]. Qed.

Lemma zeros_sum n : word_sum 0 (replicate n 0) = 0.
Proof. induction n as [n IH] using lt_wf_ind. destruct n as [|[|n]]; [done|done|]. cbn. rewrite IH; lia. Qed.

Lemma image_valid : valid_image image.
Proof.
  split; [rewrite zlen_image; by vm_compute|]. change (drop 14 image) with (replicate (Z.to_nat 43008) 0). by rewrite zeros_sum.
Qed.

(** The driver with a file that is open, and with a chip it knows. *)
Definition with_image : gworld := with_g_upd (with_upd_file (OpenFile image) (g_upd ready)) ready.

Lemma check_image_spec_witness : exists x s', check_image [] with_image = Ret x s' /\ x = (SUCCESS, head).
Proof.
  destruct (check_image_spec [] image with_image eq_refl image_bytes ltac:(rewrite zlen_image; lia))
    as (x & u & tr & E & _ & _ & _ & _ & HQ).
  exists x. eexists. split; [exact E|]. destruct x as [r b]. cbn [fst snd] in HQ.
  destruct HQ as [[_ F]|(-> & _ & -> & _)]; [|reflexivity].
  destruct (F image_valid) as [t Ft]. discriminate Ft.
Defined.

Definition known (version : Z) : gworld :=
  with_g_upd (with_fw_total_len 43008 (with_force_update 190 (with_ic_hw_info [0; 144; 6; 0]
    (with_ic_pid (str "9271" ++ [0; 0; 0; 0]) (with_ic_vid version (g_upd ready)))))) ready.

(** Version 0x1000 is replaced by 0x1001. *)
Lemma judge_spec_witness : gup_enter_update_judge head (known 4096) = Ret SUCCESS (known 4096).
Proof.
  destruct (judge_spec [0; 144; 6; 0] (str "9271") [0; 0; 0] 16 1 (str "9271") [0; 0; 0] (known 4096)) as (r & E & _ & Hr);
    [by repeat constructor..|].
  rewrite (proj2 Hr) in E; [exact E|]. right. split; [vm_compute; reflexivity|]. do 3 right. split; [by left|vm_compute; reflexivity].
Defined.

(** Two bytes on two lines, for a configuration of two. *)
Definition two_bytes : list Z := str "0x1F, " ++ [10] ++ str "0xA0,".

Definition with_config : gworld :=
  with_g_ts (with_gtp_cfg_len 2 (g_ts ready)) (with_g_upd (with_cfg_file (OpenFile two_bytes) (g_upd ready)) ready).

Lemma config_file_sent_witness :
  exists tr, gup_update_config with_config = Ret 1 (ext tr with_config) /\ XWrite [128; 71; 31; 160] ∈ tr.
Proof.
  pose proof (config_file_sent two_bytes [31; 160] with_config works (fun _ => eq_refl) (fun _ => eq_refl) eq_refl eq_refl) as X.
  eexists. split; [apply X|].
  - left. vm_compute. reflexivity.
  - by repeat constructor.
  - by vm_compute.
  - by vm_compute.
  - apply list_elem_of_In. vm_compute. tauto.
Defined.

End UpdateDemo.
