(* ===== verification/GtBurn.v ===== *)
(** * The touch-screen driver: burning a firmware update

    [gt9xx_update.c] from [gup_burn_proc] on: a section of the image goes to the
    chip's memory in pages of 256 bytes, each read back; a command moves it to
    flash, the driver waits for the end of the command, and reads the section
    back again.  [gup_update_proc] burns all sections, the first one as 0xFF
    before the others and as what it is after them.

    The wait has no bound in the code: it ends when the chip says that the
    command is over.  The model follows [S gp_polls] polls, for an arbitrary
    [gp_polls], and stops with [NoFuel] when the command is still running then.
    Nothing is assumed about that: the facts below hold up to [hangs], which
    says that the chip answered all these polls with a command that runs.  On a
    chip that ends its commands in time ([settles]) nothing hangs
    ([settles_ends]). *)

From stdpp Require Import base list numbers strings.
From Stdlib Require Import ZArith Lia.
From S2P Require Import Prelude Text Kernel GoodixTool GtBus Gt9xx GtPanel GtProbe GtUpdate.
Open Scope Z_scope.

Definition FW_BOOT_ISP_LENGTH : Z := 2048.
Definition FW_GLINK_LENGTH : Z := 12288.
Definition PACK_SIZE : Z := 256.
Definition SRAM_BANK : Z := 16456.         (* 0x4048 *)
Definition MEM_CD_EN : Z := 16457.         (* 0x4049 *)
Definition CACHE_EN : Z := 16459.          (* 0x404B *)
Definition TMR0_EN : Z := 16560.           (* 0x40B0 *)
Definition CPU_SWRST_PULSE : Z := 16772.   (* 0x4184 *)
Definition BOOTCTL_B0 : Z := 16784.        (* 0x4190 *)
Definition BOOT_OPT_B0 : Z := 16920.       (* 0x4218 *)
Definition BOOT_CTL : Z := 20628.          (* 0x5094 *)

(** [ret = c; if (ret <= 0) return FAIL;] *)
Definition and_then (c k : prog gworld Z) : prog gworld Z :=
  let* r := c in if r <=? 0 then ret FAIL else k.
Notation "'ok*' c ';' k" := (and_then c k) (at level 10, c at level 100, k at level 200) : c_scope.

Section Burn.
Context `{GtpKernel}.

(** ** One section *)

(** [for (retry = 0; retry < 5; retry++)]: whether the page was confirmed, and
    [rd_buf]. *)
Fixpoint frame_loop (n : nat) (wr_buf rd_buf : list Z) (frame_length : Z) : prog gworld (bool * list Z) :=
  match n with
  | O => ret (false, rd_buf)
  | S n' =>
      let* r := gup_i2c_write wr_buf (GTP_ADDR_LENGTH + frame_length) in
      if r <=? 0 then frame_loop n' wr_buf rd_buf frame_length
      else
        let* x := gup_i2c_read rd_buf (GTP_ADDR_LENGTH + frame_length) in
        if fst x <=? 0 then frame_loop n' wr_buf (snd x) frame_length
        else
          let* a := lift OutOfBounds (range wr_buf GTP_ADDR_LENGTH frame_length) in
          let* b := lift OutOfBounds (range (snd x) GTP_ADDR_LENGTH frame_length) in
          if bool_decide (a = b) then ret (true, snd x) else frame_loop n' wr_buf (snd x) frame_length
  end.

Definition frame_head (buf : list Z) (addr : Z) : option (list Z) := memcpy buf 0 [u8 (Z.shiftr addr 8); u8 addr] 0 2.

(** [while (burn_length < total_length)] *)
Fixpoint burn_loop (n : nat) (burn_buf : list Z) (burn_addr burn_length total_length : Z) (wr_buf rd_buf : list Z)
    : prog gworld Z :=
  if burn_length <? total_length then
    match n with
    | O => fault_with NoFuel
    | S n' =>
        let frame_length := Z.min PACK_SIZE (total_length - burn_length) in
        let* wr_buf := lift OutOfBounds (frame_head wr_buf burn_addr) in
        let* rd_buf := lift OutOfBounds (frame_head rd_buf burn_addr) in
        let* wr_buf := lift OutOfBounds (memcpy wr_buf GTP_ADDR_LENGTH burn_buf burn_length frame_length) in
        let* x := frame_loop 5 wr_buf rd_buf frame_length in
        if fst x then
          burn_loop n' burn_buf (u16 (burn_addr + frame_length)) (u16 (burn_length + frame_length)) total_length
            wr_buf (snd x)
        else ret FAIL
    end
  else ret SUCCESS.

(** Every round adds at least one byte. *)
Definition gup_burn_proc (burn_buf : list Z) (start_addr total_length : Z) : prog gworld Z :=
  let* wr_buf := junk 258 in
  let* rd_buf := junk 258 in
  burn_loop (Z.to_nat total_length) burn_buf start_addr 0 total_length wr_buf rd_buf.

(** [while (recall_length < chk_length)] *)
Fixpoint recall_loop (n : nat) (chk_src : list Z) (recall_addr recall_length chk_length : Z) (rd_buf : list Z)
    : prog gworld Z :=
  if recall_length <? chk_length then
    match n with
    | O => fault_with NoFuel
    | S n' =>
        let frame_length := Z.min PACK_SIZE (chk_length - recall_length) in
        let* x := gup_get_ic_msg recall_addr rd_buf frame_length in
        if fst x <=? 0 then ret FAIL
        else
          let* a := lift OutOfBounds (range (snd x) GTP_ADDR_LENGTH frame_length) in
          let* b := lift OutOfBounds (range chk_src recall_length frame_length) in
          if bool_decide (a = b) then
            recall_loop n' chk_src (u16 (recall_addr + frame_length)) (u16 (recall_length + frame_length)) chk_length
              (snd x)
          else ret FAIL
    end
  else ret SUCCESS.

Definition gup_recall_check (chk_src : list Z) (start_rd_addr chk_length : Z) : prog gworld Z :=
  let* rd_buf := junk 258 in
  recall_loop (Z.to_nat chk_length) chk_src start_rd_addr 0 chk_length rd_buf.

(** [do ... while (rd_buf[GTP_ADDR_LENGTH]);], up to [n] polls; [NoFuel]: the
    driver is still waiting after them. *)
Fixpoint wait_loop (n : nat) (rd_buf : list Z) : prog gworld Z :=
  match n with
  | O => fault_with NoFuel
  | S n' =>
      let* x := gup_get_ic_msg BOOT_CTL rd_buf 1 in
      if fst x <=? 0 then ret FAIL
      else
        do* g_do (Sleep 10);
        let* v := lift OutOfBounds (load8 (snd x) GTP_ADDR_LENGTH) in
        if v =? 0 then ret SUCCESS else wait_loop n' (snd x)
  end.

Definition wait_burn : prog gworld Z := let* rd_buf := junk 5 in wait_loop (S gp_polls) rd_buf.

Definition bank_of (bank_cmd : Z) : Z := Z.land (Z.shiftr bank_cmd 4) 15.

Definition gup_burn_fw_section (fw_section : list Z) (start_addr bank_cmd : Z) : prog gworld Z :=
  ok* gup_set_ic_msg SWRST_B0 12;
  ok* gup_set_ic_msg BOOT_OPT_B0 0;
  ok* gup_set_ic_msg SRAM_BANK (bank_of bank_cmd);
  ok* gup_set_ic_msg MEM_CD_EN 1;
  ok* gup_burn_proc fw_section start_addr FW_SECTION_LENGTH;
  ok* gup_set_ic_msg SWRST_B0 4;
  do* g_do (Sleep 1);
  ok* gup_set_ic_msg BOOT_CTL (Z.land bank_cmd 15);
  ok* wait_burn;
  ok* gup_set_ic_msg SRAM_BANK (bank_of bank_cmd);
  ok* gup_set_ic_msg MEM_CD_EN 1;
  ok* gup_recall_check fw_section start_addr FW_SECTION_LENGTH;
  ok* gup_set_ic_msg MEM_CD_EN 0;
  ret SUCCESS.

(** Sections of the link and of the wake-up code. *)
Definition gup_burn_fw_gwake_section (fw_section : list Z) (start_addr len bank_cmd : Z) : prog gworld Z :=
  ok* gup_set_ic_msg SWRST_B0 12;
  ok* gup_set_ic_msg BOOT_OPT_B0 0;
  ok* gup_set_ic_msg SWRST_B0 4;
  do* g_do (Sleep 1);
  ok* gup_set_ic_msg SRAM_BANK (bank_of bank_cmd);
  ok* gup_burn_proc fw_section start_addr (u16 len);
  ok* gup_set_ic_msg BOOT_CTL (Z.land bank_cmd 15);
  ok* wait_burn;
  ok* gup_recall_check fw_section start_addr (u16 len);
  ret SUCCESS.

(** ** The image *)

Definition SEEK_SET : Z := 0.
Definition SEEK_END : Z := 2.

(** The result and [buf]. *)
Definition gup_load_section_file (buf : list Z) (offset length set_or_end : Z) : prog gworld (Z * list Z) :=
  let* f := g_gets (fun s => upd_file (g_upd s)) in
  match f with
  | OpenFile _ =>
      let* total := g_gets (fun s => fw_total_len (g_upd s)) in
      do* upd_set (with_f_pos (if set_or_end =? SEEK_SET then u32 (FW_HEAD_LENGTH + offset)
                               else u32 (total + FW_HEAD_LENGTH - offset)));
      let* x := file_read buf length in
      if fst x <? 0 then ret (FAIL, snd x) else ret (SUCCESS, snd x)
  | _ => ret (FAIL, buf)
  end.

(** [while (retry++ < 5)]: [retry] at the end, and the memory. *)
Fixpoint kzalloc_loop (n : nat) (retry size : Z) : prog gworld (Z * option (list Z)) :=
  match n with
  | O => ret (retry + 1, None)
  | S n' =>
      let* p := kzalloc size in
      match p with None => kzalloc_loop n' (retry + 1) size | Some _ => ret (retry + 1, p) end
  end.

(** Memory for one section, freed at the end. *)
Definition with_memory (size : Z) (k : list Z -> prog gworld Z) : prog gworld Z :=
  let* x := kzalloc_loop 5 0 size in
  if 5 <=? fst x then ret FAIL
  else
    let* b := lift NullDeref (snd x) in
    let* r := k b in
    do* g_do Free;
    ret r.

(** [ret = gup_load_section_file(...); if (FAIL == ret) goto exit;] *)
Definition load_then (b : list Z) (offset length set_or_end : Z) (k : list Z -> prog gworld Z) : prog gworld Z :=
  let* x := gup_load_section_file b offset length set_or_end in
  if fst x =? FAIL then ret FAIL else k (snd x).

Definition burned (n : Z) : prog gworld Z :=
  do* upd_set (fun u => with_fw_burned_len (u32 (fw_burned_len u + n)) u); ret SUCCESS.

Definition gup_burn_dsp_isp : prog gworld Z :=
  with_memory FW_DSP_ISP_LENGTH (fun b =>
    load_then b FW_DSP_ISP_LENGTH FW_DSP_ISP_LENGTH SEEK_END (fun b =>
      ok* gup_set_ic_msg TMR0_EN 0;
      ok* gup_set_ic_msg CACHE_EN 0;
      ok* gup_set_ic_msg SWRST_B0 12;
      ok* gup_set_ic_msg BOOTCTL_B0 2;
      ok* gup_set_ic_msg CPU_SWRST_PULSE 1;
      ok* gup_set_ic_msg SRAM_BANK 2;
      ok* gup_set_ic_msg MEM_CD_EN 1;
      ok* gup_burn_proc b 49152 FW_DSP_ISP_LENGTH;
      ok* gup_set_ic_msg BOOT_OPT_B0 0;
      burned FW_DSP_ISP_LENGTH)).

Definition gup_burn_fw_ss51 : prog gworld Z :=
  with_memory FW_SECTION_LENGTH (fun b =>
    let b := replicate (length b) 255 in
    ok* gup_set_ic_msg BOOT_CTL 0;
    ok* gup_burn_fw_section b 49152 1;
    load_then b FW_SECTION_LENGTH FW_SECTION_LENGTH SEEK_SET (fun b =>
    ok* gup_burn_fw_section b 57344 2;
    load_then b (2 * FW_SECTION_LENGTH) FW_SECTION_LENGTH SEEK_SET (fun b =>
    ok* gup_burn_fw_section b 49152 19;
    load_then b (3 * FW_SECTION_LENGTH) FW_SECTION_LENGTH SEEK_SET (fun b =>
    ok* gup_burn_fw_section b 57344 20;
    burned (FW_SECTION_LENGTH * 4))))).

Definition gup_burn_fw_dsp : prog gworld Z :=
  with_memory FW_DSP_LENGTH (fun b =>
    load_then b (4 * FW_SECTION_LENGTH) FW_DSP_LENGTH SEEK_SET (fun b =>
      ok* gup_set_ic_msg SRAM_BANK 3;
      ok* gup_set_ic_msg SWRST_B0 12;
      ok* gup_set_ic_msg BOOT_OPT_B0 0;
      ok* gup_set_ic_msg SWRST_B0 4;
      do* g_do (Sleep 1);
      ok* gup_burn_proc b 36864 FW_DSP_LENGTH;
      ok* gup_set_ic_msg BOOT_CTL 5;
      ok* wait_burn;
      ok* gup_recall_check b 36864 FW_DSP_LENGTH;
      burned FW_DSP_LENGTH)).

(** The steps that the two boot sections share. *)
Definition burn_boot_section (b : list Z) (len cmd : Z) : prog gworld Z :=
  ok* gup_set_ic_msg SWRST_B0 12;
  ok* gup_set_ic_msg BOOT_OPT_B0 0;
  ok* gup_set_ic_msg SWRST_B0 4;
  do* g_do (Sleep 1);
  ok* gup_set_ic_msg SRAM_BANK 3;
  ok* gup_burn_proc b 36864 len;
  ok* gup_set_ic_msg BOOT_CTL cmd;
  ok* wait_burn;
  ok* gup_recall_check b 36864 len;
  burned len.

Definition gup_burn_fw_boot : prog gworld Z :=
  with_memory FW_BOOT_LENGTH (fun b =>
    load_then b (4 * FW_SECTION_LENGTH + FW_DSP_LENGTH) FW_BOOT_LENGTH SEEK_SET (fun b =>
      burn_boot_section b FW_BOOT_LENGTH 6)).

(** [if (update_msg.fw_burned_len >= update_msg.fw_total_len) return SUCCESS;] *)
Definition unless_burned (k : prog gworld Z) : prog gworld Z :=
  let* u := g_gets g_upd in
  if fw_total_len u <=? fw_burned_len u then ret SUCCESS else k.

Definition gup_burn_fw_boot_isp : prog gworld Z :=
  unless_burned (with_memory FW_BOOT_ISP_LENGTH (fun b =>
    let* n := g_gets (fun s => fw_burned_len (g_upd s)) in
    load_then b (u32 (n - FW_DSP_ISP_LENGTH)) FW_BOOT_ISP_LENGTH SEEK_SET (fun b =>
      burn_boot_section b FW_BOOT_ISP_LENGTH 7))).

Definition gup_burn_fw_link : prog gworld Z :=
  unless_burned (with_memory FW_SECTION_LENGTH (fun b =>
    let* n := g_gets (fun s => fw_burned_len (g_upd s)) in
    let offset := u32 (n - FW_DSP_ISP_LENGTH) in
    load_then b offset FW_SECTION_LENGTH SEEK_SET (fun b =>
    ok* gup_burn_fw_gwake_section b 36864 FW_SECTION_LENGTH 56;
    load_then b (u32 (offset + FW_SECTION_LENGTH)) (FW_GLINK_LENGTH - FW_SECTION_LENGTH) SEEK_SET (fun b =>
    ok* gup_burn_fw_gwake_section b 36864 (FW_GLINK_LENGTH - FW_SECTION_LENGTH) 57;
    burned FW_GLINK_LENGTH)))).

(** Section [k] of four of the wake-up code. *)
Definition start_index : Z :=
  u16 (4 * FW_SECTION_LENGTH + FW_DSP_LENGTH + FW_BOOT_LENGTH + FW_BOOT_ISP_LENGTH + FW_GLINK_LENGTH).
Definition gwake_then (b : list Z) (i : Z) (k : list Z -> prog gworld Z) : prog gworld Z :=
  load_then b (start_index + i * FW_SECTION_LENGTH) FW_SECTION_LENGTH SEEK_SET (fun b =>
    ok* gup_burn_fw_gwake_section b 36864 FW_SECTION_LENGTH (58 + i);
    k b).

Definition gup_burn_fw_gwake : prog gworld Z :=
  unless_burned (with_memory FW_SECTION_LENGTH (fun b =>
    ok* gup_set_ic_msg BOOT_CTL 0;
    gwake_then b 0 (fun b => gwake_then b 1 (fun b => gwake_then b 2 (fun b => gwake_then b 3 (fun _ =>
      ret SUCCESS)))))).

Definition gup_burn_fw_finish : prog gworld Z :=
  with_memory FW_SECTION_LENGTH (fun b =>
    load_then b 0 FW_SECTION_LENGTH SEEK_SET (fun b =>
      ok* gup_set_ic_msg BOOT_CTL 0;
      ok* gup_burn_fw_section b 49152 1;
      ok* gup_set_ic_msg BOOT_CTL 153;
      ok* gup_set_ic_msg SWRST_B0 8;
      ret SUCCESS)).

(** ** The update *)

Definition show (n : Z) : prog gworld unit := upd_set (with_show_len n).

(** One round of [while (retry++ < 5)]. *)
Definition burn_attempt : prog gworld Z :=
  do* show 10;
  do* upd_set (with_total_len 100);
  do* upd_set (with_fw_burned_len 0);
  ok* gup_burn_dsp_isp;
  do* show 20; ok* gup_burn_fw_gwake;
  do* show 30; ok* gup_burn_fw_ss51;
  do* show 40; ok* gup_burn_fw_dsp;
  do* show 50; ok* gup_burn_fw_boot;
  do* show 60; ok* gup_burn_fw_boot_isp;
  do* show 70; ok* gup_burn_fw_link;
  do* show 80; ok* gup_burn_fw_finish;
  do* show 90;
  ret SUCCESS.

(** [retry] after the loop. *)
Fixpoint attempt_loop (n : nat) (retry : Z) : prog gworld Z :=
  match n with
  | O => ret (retry + 1)
  | S n' =>
      let* r := burn_attempt in
      if r =? FAIL then attempt_loop n' (retry + 1) else ret 0
  end.

(** From the update mode to [update_fail]: [update_ret]. *)
Definition burn_all : prog gworld Z :=
  let* r := gup_enter_update_mode in
  if r =? FAIL then ret FAIL
  else
    let* retry := attempt_loop 5 0 in
    ret (if 5 <=? retry then FAIL else SUCCESS).

(** From [update_fail] to [file_fail]. *)
Definition finish_update (update_ret : Z) : prog gworld unit :=
  do* gup_leave_update_mode;
  do* g_do (Sleep 100);
  do* (if update_ret =? SUCCESS then
         let* e := ts_get fw_error in
         if negb (e =? 0) then do* gup_init_panel; ret tt
         else
           let* r := gtp_send_cfg in
           if r <? 0 then ret tt else g_do (Sleep 100)
       else ret tt);
  update_end.

(** From [file_fail] on. *)
Definition end_update (update_ret : Z) : prog gworld Z :=
  let* u := g_gets g_upd in
  do* match upd_file u with
      | OpenFile _ =>
          do* (if old_fs u =? 0 then ret tt else upd_set (with_addr_limit (old_fs u)));
          g_do FileClose
      | _ => ret tt
      end;
  do* upd_set (with_total_len 100);
  if update_ret =? SUCCESS then do* show 100; ret SUCCESS else do* show 200; ret FAIL.

(** [while (show_len != 200 && show_len != 100 && timeout++ < 100) msleep(100);] *)
Fixpoint quit_loop (n : nat) : prog gworld unit :=
  let* l := g_gets (fun s => show_len (g_upd s)) in
  if negb (l =? 200) && negb (l =? 100) then
    match n with
    | O => ret tt
    | S n' =>
        let* p := g_call (Sleep 100) gp_progress in
        do* match p with Some v => show v | None => ret tt end;
        quit_loop n'
    end
  else ret tt.

(** Ends the search of another update; [show_len = 1; ...] *)
Definition prepare_update : prog gworld unit :=
  let* searching := g_gets (fun s => searching_file (g_upd s)) in
  do* (if searching =? 0 then ret tt
       else do* upd_set (with_searching_file 0); quit_loop 100);
  do* show 1;
  do* upd_set (with_total_len 100);
  upd_set (with_upd_file NoFile).

(** From [ts->enter_update = 1] on. *)
Definition burn_update : prog gworld Z :=
  do* update_begin;
  let* update_ret := burn_all in
  do* finish_update update_ret;
  end_update update_ret.

(** [dir] is NULL for the automatic update. *)
Definition gup_update_proc (dir : option (list Z)) : prog gworld Z :=
  let* fw_head := junk 14 in
  do* prepare_update;
  let* x := gup_check_update_file fw_head dir in
  if fst x =? FAIL then end_update FAIL
  else
    let* r := gup_get_ic_fw_msg in
    if r =? FAIL then end_update FAIL
    else
      let* r := gup_enter_update_judge (snd x) in
      if r =? FAIL then end_update FAIL else burn_update.

End Burn.

(** ** Steps that end with SUCCESS or FAIL *)

Section StepFacts.
Context `{GtpKernel}.

(** [n] rounds of the wait, after [base]: the chip was asked for its state until
    it answered, the state was not 0, and the driver slept for 10 ms. *)
Fixpoint rounds (n : nat) (base t : list teffect) : Prop :=
  match n with
  | O => t = []
  | S n' =>
      exists tr v t', t = tr ++ Sleep 10 :: t' /\ only (XRead (reg BOOT_CTL) 1) tr /\
        got base tr (reg BOOT_CTL) [v] /\ v <> 0 /\ rounds n' (base ++ tr ++ [Sleep 10]) t'
  end.

(** [c] is waiting for the chip: [S gp_polls] polls in a row, the last thing
    it did, found a burn command that had not ended. *)
Definition hangs {A} (c : prog gworld A) (s : gworld) : Prop :=
  exists s' t0 t, c s = Fault NoFuel s' /\ g_trace s' = (g_trace s ++ t0) ++ t /\ rounds (S gp_polls) (g_trace s ++ t0) t.

Lemma hangs_bind {A B} (c : prog gworld A) (k : A -> prog gworld B) s : hangs c s -> hangs (bind c k) s.
Proof. intros (s' & t0 & t & E & T & R). exists s', t0, t. by rewrite bind_unfold, E. Qed.

Lemma hangs_after {A B} (c : prog gworld A) (k : A -> prog gworld B) s a s1 tr :
  c s = Ret a s1 -> g_trace s1 = g_trace s ++ tr -> hangs (k a) s1 -> hangs (bind c k) s.
Proof.
  intros E T1 (s' & t0 & t & E' & T & R). exists s', (tr ++ t0), t. rewrite (bind_Ret _ _ _ _ _ E).
  rewrite T1 in T, R. by rewrite (app_assoc (g_trace s)).
Qed.

(** As [emits], unless the wait does not end. *)
Definition tries {A} (c : prog gworld A) (s : gworld) (Q : A -> list teffect -> Prop) : Prop := emits c s Q \/ hangs c s.

Lemma tries_mono {A} (c : prog gworld A) s (P Q : A -> list teffect -> Prop) :
  tries c s P -> (forall a tr, P a tr -> Q a tr) -> tries c s Q.
Proof. intros [G|?] K; [left; by eapply emits_mono|by right]. Qed.

Lemma tries_bind {A B} (c : prog gworld A) (k : A -> prog gworld B) s P Q :
  tries c s P -> (forall a tr, P a tr -> tries (k a) (ext tr s) (fun b tr' => Q b (tr ++ tr'))) -> tries (bind c k) s Q.
Proof.
  intros [(a & tr & E & Hp)|?] K; [|right; by apply hangs_bind].
  destruct (K a tr Hp) as [(b & tr' & E' & Hq)|Hg]; [left|right; by eapply hangs_after].
  exists b, (tr ++ tr'). rewrite (bind_Ret _ _ _ _ _ E), E', ext_ext. done.
Qed.

(** [goes c s Q]: [c] only uses the bus, and when it says SUCCESS then [Q]
    holds of what it did; unless it waits for ever. *)
Definition goes (c : prog gworld Z) (s : gworld) (Q : list teffect -> Prop) : Prop :=
  tries c s (fun r tr => bus tr /\ (r = FAIL \/ r = SUCCESS /\ Q tr)).

Lemma emits_goes c s (Q : list teffect -> Prop) :
  emits c s (fun r tr => bus tr /\ (r = FAIL \/ r = SUCCESS /\ Q tr)) -> goes c s Q.
Proof. by left. Qed.

Lemma goes_mono c s (P Q : list teffect -> Prop) : goes c s P -> (forall tr, P tr -> Q tr) -> goes c s Q.
Proof. intros G K. eapply tries_mono; [exact G|]. intros r tr (B & [->|[-> Hp]]); auto. Qed.

Lemma goes_success s (Q : list teffect -> Prop) : Q [] -> goes (ret SUCCESS) s Q.
Proof. intros Hq. left. apply emits_ret. split; [constructor|]. by right. Qed.

Lemma goes_then c k s (P Q : list teffect -> Prop) :
  goes c s P -> (forall tr, P tr -> goes k (ext tr s) (fun tr' => Q (tr ++ tr'))) -> goes (and_then c k) s Q.
Proof.
  intros G K. unfold and_then, goes. eapply tries_bind; [exact G|]. intros r tr (B & [->|[-> Hp]]).
  - cbn. left. apply emits_ret. rewrite app_nil_r. auto.
  - change (SUCCESS <=? 0) with false. cbn. eapply tries_mono; [by apply K|]. intros r tr' (B' & HQ).
    split; [by apply bus_app|done].
Qed.

Lemma goes_do e k s (Q : list teffect -> Prop) :
  busy e = true -> goes k (ext [e] s) (fun tr' => Q (e :: tr')) -> goes (do* g_do e; k) s Q.
Proof.
  intros He G. eapply tries_bind; [left; apply emits_do|]. intros ? ? ->. eapply tries_mono; [exact G|].
  intros r tr (B & HQ). split; [by constructor|done].
Qed.

Lemma only_write b tr : only (XWrite b) tr -> bus tr.
Proof. by apply only_bus. Qed.

Lemma only_read a n tr : only (XRead a n) tr -> bus tr.
Proof. by apply only_bus. Qed.

Lemma set_goes a v s : goes (gup_set_ic_msg a v) s (only (set_effect a v)).
Proof.
  apply emits_goes. eapply emits_mono; [apply set_emits|].
  intros r tr [Ho [->|[-> _]]]; (split; [exact (only_write _ tr Ho)|auto]).
Qed.

Lemma junk_emits n s : emits (junk n) s (fun b tr => length b = n /\ tr = []).
Proof. exists (gp_junk (g_trace s) n), []. rewrite ext_nil. split; [done|]. by rewrite gp_junk_len. Qed.

(** ** Pages *)

(** In [tr], which follows [base], a read of [a] gave [d]. *)
Definition seen_in (base tr : list teffect) (a d : list Z) : Prop :=
  exists p q, tr = p ++ q /\ got base p a d.

(** The addresses and contents of [n] pages. *)
Fixpoint pages (n : nat) (addr : Z) (l : list Z) : list (Z * list Z) :=
  match n with
  | O => []
  | S n' => (addr, take 256 l) :: pages n' (u16 (addr + 256)) (drop 256 l)
  end.

Definition all_seen (base tr : list teffect) (ps : list (Z * list Z)) : Prop :=
  Forall (fun p => seen_in base tr (reg (fst p)) (snd p)) ps.

Lemma seen_in_r base tr tr' a d : seen_in base tr a d -> seen_in base (tr ++ tr') a d.
Proof. intros (p & q & -> & G). exists p, (q ++ tr'). by rewrite app_assoc. Qed.

Lemma seen_in_l base tr tr' a d : seen_in (base ++ tr) tr' a d -> seen_in base (tr ++ tr') a d.
Proof.
  intros (p & q & -> & G). exists (tr ++ p), q. rewrite app_assoc. split; [done|]. unfold got in *. by rewrite app_assoc.
Qed.

Lemma all_seen_r base tr tr' ps : all_seen base tr ps -> all_seen base (tr ++ tr') ps.
Proof. intros A. eapply Forall_impl; [exact A|]. intros p. apply seen_in_r. Qed.

Lemma all_seen_l base tr tr' ps : all_seen (base ++ tr) tr' ps -> all_seen base (tr ++ tr') ps.
Proof. intros A. eapply Forall_impl; [exact A|]. intros p. apply seen_in_l. Qed.

Lemma frame_head_eq buf addr : (2 <= length buf)%nat -> frame_head buf addr = Some (reg addr ++ drop 2 buf).
Proof.
  intros Hl. unfold frame_head. rewrite memcpy_Some by (unfold zlen; cbn [length]; lia). f_equal.
  change (Z.to_nat 0) with 0%nat. rewrite splice_0. change (take (Z.to_nat 2) _) with [u8 (Z.shiftr addr 8); u8 addr].
  unfold reg. cbn [app drop length]. f_equal. f_equal. unfold u8. change 255 with (Z.ones 8).
  rewrite Z.land_ones by lia. by rewrite Z.mod_mod.
Qed.

Lemma data_range b n : 0 <= n -> n + 2 <= zlen b -> range b GTP_ADDR_LENGTH n = Some (data_of b n).
Proof. intros H1 H2. unfold GTP_ADDR_LENGTH. by rewrite range_eq by lia. Qed.

(** One page is written until it reads back as it was written. *)
Lemma frame_loop_emits n wr rd len s a d :
  length wr = 258%nat -> length rd = 258%nat -> 0 <= len <= 256 ->
  take 2 rd = a -> data_of wr len = d ->
  emits (frame_loop n wr rd len) s (fun x tr => bus tr /\ length (snd x) = 258%nat /\
    (fst x = true -> seen_in (g_trace s) tr a d)).
Proof.
  intros Lw. revert rd s. induction n as [|n IH]; intros rd s Lr Hl Ha Hd; cbn [frame_loop].
  { apply emits_ret. split_and!; [constructor|done|done]. }
  assert (zlen wr = 258 /\ zlen rd = 258) as [Zw Zr] by (unfold zlen; lia).
  assert (forall rd' tr, bus tr -> length rd' = 258%nat -> take 2 rd' = a ->
    emits (frame_loop n wr rd' len) (ext tr s) (fun x tr' => bus (tr ++ tr') /\ length (snd x) = 258%nat /\
      (fst x = true -> seen_in (g_trace s) (tr ++ tr') a d))) as Next.
  { intros rd' tr B L T. eapply emits_mono; [by apply IH|]. intros x tr' (B' & L' & S'). rewrite ext_trace in S'.
    split_and!; [by apply bus_app|done|]. intros Hx. by apply seen_in_l, S'. }
  unfold GTP_ADDR_LENGTH. eapply emits_bind; [apply gwrite_emits; lia|]. intros r tr [Ho _].
  assert (bus tr) as B by exact (only_write _ tr Ho). destruct (r <=? 0); [by apply Next|].
  eapply emits_bind; [apply gread_emits; lia|]. intros [r2 b] tr2 ([L2 T2] & Ho2 & Hr & old & Lo & Ed). cbn [fst snd] in *.
  rewrite ext_ext, ext_trace, <- app_assoc in *. assert (bus (tr ++ tr2)) as B2 by (apply bus_app; split; [done|exact (only_read _ _ tr2 Ho2)]).
  replace (2 + len - 2) with len in * by lia.
  destruct (r2 <=? 0) eqn:E; bool_cases.
  { eapply emits_mono; [apply (Next b (tr ++ tr2)); [done|lia|by rewrite T2]|].
    intros x t HQ. cbn beta in HQ. by rewrite <- app_assoc in HQ. }
  change 2 with GTP_ADDR_LENGTH. rewrite !data_range by (unfold zlen; lia).
  do 2 (eapply emits_bind; [by apply emits_lift|]; intros ? ? [-> ->]; rewrite ext_nil; cbn [app]).
  destruct (bool_decide _) eqn:Eb.
  - apply bool_decide_eq_true in Eb. apply emits_ret. cbn [fst snd]. rewrite app_nil_r. split_and!; [done|lia|]. intros _.
    exists (tr ++ tr2), []. rewrite app_nil_r. split; [done|]. rewrite <- Hd, Eb. split; [rewrite <- Hr; lia|].
    exists old. rewrite <- Ha. split; [|done]. rewrite Lo, Ed, gp_device_len. lia.
  - eapply emits_mono; [apply (Next b (tr ++ tr2)); [done|lia|by rewrite T2]|]. intros x t HQ. cbn beta in HQ. by rewrite <- app_assoc in HQ.
Qed.

(** [goes] for steps that do not wait. *)
Definition walks (c : prog gworld Z) (s : gworld) (Q : list teffect -> Prop) : Prop :=
  emits c s (fun r tr => bus tr /\ (r = FAIL \/ r = SUCCESS /\ Q tr)).

Lemma walks_success s (Q : list teffect -> Prop) : Q [] -> walks (ret SUCCESS) s Q.
Proof. intros Hq. apply emits_ret. split; [constructor|]. by right. Qed.

(** The result of a step, made explicit. *)
Lemma goes_fail tr s : bus tr -> emits (ret FAIL) (ext tr s) (fun r tr' => bus (tr ++ tr') /\ r = FAIL).
Proof. intros B. apply emits_ret. by rewrite app_nil_r. Qed.

Lemma burn_loop_walks k : forall n buf addr done wr rd s,
  (k <= n)%nat -> 0 <= done -> done + 256 * Z.of_nat k <= zlen buf -> done + 256 * Z.of_nat k < 65536 ->
  length wr = 258%nat -> length rd = 258%nat ->
  walks (burn_loop n buf addr done (done + 256 * Z.of_nat k) wr rd) s
    (fun tr => all_seen (g_trace s) tr (pages k addr (drop (Z.to_nat done) buf))).
Proof.
  induction k as [|k IH]; intros n buf addr done wr rd s Hk H1 H2 H3 Lw Lr.
  { replace (done + 256 * Z.of_nat 0) with done by lia.
    destruct n; cbn [burn_loop]; rewrite Z.ltb_irrefl; apply walks_success; constructor. }
  destruct n as [|n]; [lia|]. cbn [burn_loop]. destruct (_ <? _) eqn:E; bool_cases; [|lia].
  unfold PACK_SIZE. rewrite Z.min_l by lia. rewrite !frame_head_eq by lia.
  do 2 (eapply emits_bind; [by apply emits_lift|]; intros ? ? [-> ->]; rewrite ext_nil; cbn [app]).
  set (w := drop 2 wr). assert (length w = 256%nat) as Lw' by (unfold w; rewrite length_drop; lia).
  set (l := drop (Z.to_nat done) buf). assert (256 <= length l)%nat as Ll by (unfold l; rewrite length_drop; unfold zlen in H2; lia).
  assert (memcpy (reg addr ++ w) GTP_ADDR_LENGTH buf done 256 = Some (reg addr ++ take 256 l)) as ->.
  { unfold GTP_ADDR_LENGTH. assert (zlen (reg addr ++ w) = 258) by (unfold zlen; rewrite length_app, Lw'; done). rewrite memcpy_Some by lia.
    f_equal. change (Z.to_nat 2) with 2%nat. change (Z.to_nat 256) with 256%nat. fold l. unfold splice.
    change (take 2 (reg addr ++ w)) with (reg addr). f_equal.
    rewrite drop_ge, app_nil_r; [done|]. rewrite length_app, length_take, Lw'. change (length (reg addr)) with 2%nat. lia. }
  eapply emits_bind; [by apply emits_lift|]. intros ? ? [-> ->]. rewrite ext_nil. cbn [app].
  assert (length (take 256 l) = 256%nat) as Lt by (rewrite length_take; lia).
  eapply emits_bind; [eapply (frame_loop_emits 5 (reg addr ++ take 256 l) (reg addr ++ drop 2 rd) 256 s (reg addr) (take 256 l))|].
  { rewrite length_app, Lt. done. } { rewrite length_app, length_drop, Lr. done. } { lia. } { done. }
  { unfold data_of. change (drop 2 (reg addr ++ take 256 l)) with (take 256 l). by rewrite take_ge by lia. }
  intros [b rd2] tr (B & L2 & S2). cbn [fst snd] in *. destruct b.
  2:{ eapply emits_mono; [by apply goes_fail|]. intros r t [B' ->]. auto. }
  rewrite (u16_id (done + 256)) by lia.
  replace (done + 256 * Z.of_nat (S k)) with (done + 256 + 256 * Z.of_nat k) by lia.
  eapply emits_mono; [apply (IH n buf (u16 (addr + 256)) (done + 256)); try lia; rewrite ?length_app, ?Lt; try done|].
  intros r tr' (B' & HQ). split; [by apply bus_app|]. destruct HQ as [->|[-> HQ]]; [by left|]. right. split; [done|].
  cbn [pages]. constructor; [apply seen_in_r; by apply S2|]. rewrite ext_trace in HQ. apply all_seen_l in HQ.
  unfold l. rewrite drop_drop. replace (Z.to_nat done + 256)%nat with (Z.to_nat (done + 256)) by lia. exact HQ.
Qed.

Lemma burn_goes buf addr k s :
  256 * Z.of_nat k <= zlen buf -> 256 * Z.of_nat k < 65536 ->
  goes (gup_burn_proc buf addr (256 * Z.of_nat k)) s (fun tr => all_seen (g_trace s) tr (pages k addr buf)).
Proof.
  intros H1 H2. left. unfold gup_burn_proc.
  do 2 (eapply emits_bind; [apply junk_emits|]; intros ? ? [? ->]; rewrite ext_nil; cbn [app]).
  apply (burn_loop_walks k _ buf addr 0); try lia; done.
Qed.

Lemma recall_loop_walks k : forall n buf addr done rd s,
  (k <= n)%nat -> 0 <= done -> done + 256 * Z.of_nat k <= zlen buf -> done + 256 * Z.of_nat k < 65536 -> length rd = 258%nat ->
  walks (recall_loop n buf addr done (done + 256 * Z.of_nat k) rd) s
    (fun tr => all_seen (g_trace s) tr (pages k addr (drop (Z.to_nat done) buf))).
Proof.
  induction k as [|k IH]; intros n buf addr done rd s Hk H1 H2 H3 Lr.
  { replace (done + 256 * Z.of_nat 0) with done by lia.
    destruct n; cbn [recall_loop]; rewrite Z.ltb_irrefl; apply walks_success; constructor. }
  destruct n as [|n]; [lia|]. cbn [recall_loop]. destruct (_ <? _) eqn:E; bool_cases; [|lia].
  unfold PACK_SIZE. rewrite Z.min_l by lia.
  eapply emits_bind; [apply get_emits; unfold zlen; lia|]. intros [r rd2] tr (L2 & HQ). cbn [fst snd] in *.
  destruct HQ as [[-> HQ]|(-> & Ho & G)].
  { cbn. eapply emits_mono; [apply goes_fail; destruct HQ as [->|Ho]; [constructor|exact (only_read _ _ tr Ho)]|].
    intros r t [B' ->]. auto. }
  assert (bus tr) as B by exact (only_read _ _ tr Ho). change (SUCCESS <=? 0) with false. cbn iota.
  rewrite data_range by (unfold zlen; lia). set (l := drop (Z.to_nat done) buf).
  rewrite range_eq by lia. fold l.
  do 2 (eapply emits_bind; [by apply emits_lift|]; intros ? ? [-> ->]; rewrite ext_nil; cbn [app]).
  destruct (bool_decide _) eqn:Eb.
  2:{ eapply emits_mono; [by apply goes_fail|]. intros r t [B' ->]. auto. }
  apply bool_decide_eq_true in Eb. rewrite (u16_id (done + 256)) by lia.
  replace (done + 256 * Z.of_nat (S k)) with (done + 256 + 256 * Z.of_nat k) by lia.
  eapply emits_mono; [apply (IH n buf (u16 (addr + 256)) (done + 256)); try lia; by rewrite L2|].
  intros r tr' (B' & HQ). split; [by apply bus_app|]. destruct HQ as [->|[-> HQ]]; [by left|]. right. split; [done|].
  cbn [pages]. constructor.
  - apply seen_in_r. exists tr, []. rewrite app_nil_r. cbn [fst snd]. split; [done|].
    change 256%nat with (Z.to_nat 256). fold l. by rewrite <- Eb.
  - rewrite ext_trace in HQ. apply all_seen_l in HQ.
    unfold l. rewrite drop_drop. replace (Z.to_nat done + 256)%nat with (Z.to_nat (done + 256)) by lia. exact HQ.
Qed.

Lemma recall_goes buf addr k s :
  256 * Z.of_nat k <= zlen buf -> 256 * Z.of_nat k < 65536 ->
  goes (gup_recall_check buf addr (256 * Z.of_nat k)) s (fun tr => all_seen (g_trace s) tr (pages k addr buf)).
Proof.
  intros H1 H2. left. unfold gup_recall_check.
  eapply emits_bind; [apply junk_emits|]; intros ? ? [? ->]; rewrite ext_nil; cbn [app].
  apply (recall_loop_walks k _ buf addr 0); try lia; done.
Qed.

(** ** The wait *)

(** How often the driver has slept for 10 ms. *)
Fixpoint naps (tr : list teffect) : nat :=
  match tr with [] => 0 | Sleep 10 :: tr' => S (naps tr') | _ :: tr' => naps tr' end.

(** The chip ends a command within [gp_polls] polls: when the driver has done
    nothing but ask for its state and sleep for 10 ms that often, the state is
    0. *)
Definition settles : Prop :=
  forall base tr old, Forall (fun e => e = XRead (reg BOOT_CTL) 1 \/ e = Sleep 10) tr -> (gp_polls <= naps tr)%nat ->
    gp_device (base ++ tr ++ [XRead (reg BOOT_CTL) 1]) (reg BOOT_CTL) old = replicate (length old) 0.

Lemma naps_app a b : naps (a ++ b) = (naps a + naps b)%nat.
Proof.
  induction a as [|e a IH]; [done|]. cbn [app naps]. destruct e; try done.
  repeat match goal with |- context [match ?x with _ => _ end] => is_var x; destruct x; try done end. lia.
Qed.

Lemma naps_only a n tr : only (XRead a n) tr -> naps tr = 0%nat.
Proof. intros [m ->]. cbn. by induction m. Qed.

Lemma one_byte b v : length b = 5%nat -> load8 b GTP_ADDR_LENGTH = Some v -> data_of b 1 = [v].
Proof.
  destruct b as [|x0 [|x1 [|x2 [|x3 [|x4 []]]]]]; try done. intros _ E. cbn in E. by injection E as ->.
Qed.

Lemma settled base t tr v :
  settles -> Forall (fun e => e = XRead (reg BOOT_CTL) 1 \/ e = Sleep 10) t -> (gp_polls <= naps t)%nat ->
  only (XRead (reg BOOT_CTL) 1) tr -> got (base ++ t) tr (reg BOOT_CTL) [v] -> v = 0.
Proof.
  intros St Ht Hn [m ->] (_ & old & Lo & Ed). rewrite replicate_S_end in Ed.
  rewrite <- app_assoc, (app_assoc t) in Ed. rewrite St in Ed.
  - rewrite Lo in Ed. by injection Ed as ->.
  - apply Forall_app. split; [done|]. apply Forall_replicate. by left.
  - rewrite naps_app. lia.
Qed.

(** The wait: it ends, or every poll finds the command running. *)
Lemma wait_loop_tries n : forall rd s, length rd = 5%nat ->
  walks (wait_loop n rd) s (fun _ => True) \/
  exists s' t, wait_loop n rd s = Fault NoFuel s' /\ g_trace s' = g_trace s ++ t /\ rounds n (g_trace s) t.
Proof.
  induction n as [|n IH]; intros rd s Lr; cbn [wait_loop]; [right; exists s, []; by rewrite app_nil_r|].
  destruct (get_emits BOOT_CTL rd 1 s) as ([r rd2] & tr & E & L2 & HQ); [unfold zlen; lia..|]. cbn [fst snd] in *.
  unfold walks, emits. rewrite (bind_Ret _ _ _ _ _ E). cbn [fst snd].
  destruct HQ as [[-> HQ]|(-> & Ho & G)].
  { left. exists FAIL, tr. split; [done|]. split; [|by left]. destruct HQ as [->|Ho]; [constructor|exact (only_read _ _ tr Ho)]. }
  assert (bus (tr ++ [Sleep 10])) as B by (apply bus_app; split; [exact (only_read _ _ tr Ho)|by repeat constructor]).
  change (SUCCESS <=? 0) with false. cbn iota. unfold g_do. rewrite bind_modify.
  change (g_emit (Sleep 10) (ext tr s)) with (ext [Sleep 10] (ext tr s)). rewrite ext_ext.
  destruct (load8_some rd2 GTP_ADDR_LENGTH) as [v Ev]; [unfold zlen, GTP_ADDR_LENGTH; lia|]. rewrite Ev, bind_lift_Some.
  rewrite (one_byte rd2 v) in G by (done || congruence). destruct (v =? 0) eqn:Ez; bool_cases.
  { left. exists SUCCESS, (tr ++ [Sleep 10]). split; [done|]. split; [done|by right]. }
  destruct (IH rd2 (ext (tr ++ [Sleep 10]) s)) as [(r & t & Er & Br & Hr)|(s' & t & Er & T & R)]; [congruence|left|right].
  - exists r, ((tr ++ [Sleep 10]) ++ t). rewrite Er, ext_ext. split; [done|]. split; [by apply bus_app|done].
  - exists s', (tr ++ Sleep 10 :: t). rewrite ext_trace in *. split; [done|]. split; [by rewrite T, <- !app_assoc|].
    exists tr, v, t. by split_and!.
Qed.

Lemma wait_goes s : goes wait_burn s (fun _ => True).
Proof.
  eapply tries_bind; [left; apply junk_emits|]. intros b tr [Lb ->]. rewrite ext_nil. cbn [app].
  destruct (wait_loop_tries (S gp_polls) b s Lb) as [G|(s' & t & E & T & R)]; [by left|right].
  exists s', [], t. by rewrite app_nil_r.
Qed.

(** A chip that settles lets nobody wait. *)
Lemma rounds_last n : forall base t, rounds (S n) base t ->
  exists t0 tr v, t = t0 ++ tr ++ [Sleep 10] /\ Forall (fun e => e = XRead (reg BOOT_CTL) 1 \/ e = Sleep 10) t0 /\ naps t0 = n /\
    only (XRead (reg BOOT_CTL) 1) tr /\ got (base ++ t0) tr (reg BOOT_CTL) [v] /\ v <> 0.
Proof.
  induction n as [|n IH]; intros base t (tr & v & t' & -> & Ho & G & Hv & R).
  { cbn in R. subst. exists [], tr, v. rewrite app_nil_r. by split_and!. }
  destruct (IH _ _ R) as (t0 & tr' & v' & -> & F & N & Ho' & G' & Hv'). exists (tr ++ [Sleep 10] ++ t0), tr', v'.
  split_and!; [by rewrite <- !app_assoc| | |done| |done].
  - rewrite !Forall_app. split_and!; [|by repeat constructor; right|done]. destruct Ho as [m ->]. apply Forall_replicate. by left.
  - rewrite !naps_app, (naps_only _ _ tr Ho), N. done.
  - by rewrite <- !app_assoc in *.
Qed.

Lemma settles_ends {A} (c : prog gworld A) s : settles -> ~ hangs c s.
Proof.
  intros St (s' & t0 & t & _ & _ & R). destruct (rounds_last _ _ _ R) as (t1 & tr & v & _ & F & N & Ho & G & Hv).
  apply Hv. eapply (settled (g_trace s ++ t0) t1 tr); try done. lia.
Qed.

(** ** A section *)

(** After the command [cmd] every page of [data] was read back at [addr]. *)
Definition confirmed (base tr : list teffect) (cmd addr : Z) (k : nat) (data : list Z) : Prop :=
  exists p q, tr = p ++ set_effect BOOT_CTL cmd :: q /\
    all_seen (base ++ p ++ [set_effect BOOT_CTL cmd]) q (pages k addr data).

Lemma confirmed_l base t tr cmd addr k data : confirmed (base ++ t) tr cmd addr k data -> confirmed base (t ++ tr) cmd addr k data.
Proof.
  intros (p & q & -> & A). exists (t ++ p), q. rewrite <- app_assoc. split; [done|]. by rewrite <- !app_assoc in *.
Qed.

(** What holds of a trace and what comes later holds with what came before. *)
Class LeftClosed (R : list teffect -> list teffect -> Prop) : Prop :=
  left_closed : forall base t tr, R (base ++ t) tr -> R base (t ++ tr).

#[export] Instance all_seen_closed ps : LeftClosed (fun base tr => all_seen base tr ps).
Proof. intros base t tr. apply all_seen_l. Qed.

#[export] Instance confirmed_closed cmd addr k data : LeftClosed (fun base tr => confirmed base tr cmd addr k data).
Proof. intros base t tr. apply confirmed_l. Qed.

Lemma goes_skip R `{!LeftClosed R} c k s (P : list teffect -> Prop) :
  goes c s P -> (forall tr, goes k (ext tr s) (R (g_trace (ext tr s)))) -> goes (and_then c k) s (R (g_trace s)).
Proof.
  intros G K. eapply goes_then; [exact G|]. intros tr _. eapply goes_mono; [apply K|].
  intros tr' HQ. rewrite ext_trace in HQ. by apply left_closed.
Qed.

Lemma goes_pause R `{!LeftClosed R} ms k s :
  goes k (ext [Sleep ms] s) (R (g_trace (ext [Sleep ms] s))) -> goes (do* g_do (Sleep ms); k) s (R (g_trace s)).
Proof.
  intros G. apply goes_do; [done|]. eapply goes_mono; [exact G|]. intros tr HQ. rewrite ext_trace in HQ.
  by apply (left_closed _ [Sleep ms]).
Qed.

Lemma goes_ignore c s P (R : list teffect -> Prop) k :
  goes c s P -> (forall tr, R tr -> forall tr', R (tr ++ tr')) ->
  (forall tr, P tr -> R tr) -> (forall tr, goes k (ext tr s) (fun _ => True)) -> goes (and_then c k) s R.
Proof.
  intros G C I K. eapply goes_then; [exact G|]. intros tr Hp. eapply goes_mono; [apply K|]. intros tr' _. by apply C, I.
Qed.

(** The command, and the pages that are read back after it. *)
Lemma goes_command cmd addr j data k s :
  (forall tr, goes k (ext tr s) (fun tr' => all_seen (g_trace (ext tr s)) tr' (pages j addr data))) ->
  goes (and_then (gup_set_ic_msg BOOT_CTL cmd) k) s (fun tr => confirmed (g_trace s) tr cmd addr j data).
Proof.
  intros K. eapply goes_then; [apply set_goes|]. intros tr [m ->]. eapply goes_mono; [apply K|]. intros q A.
  rewrite ext_trace, replicate_S_end in *. exists (replicate m (set_effect BOOT_CTL cmd)), q.
  split; [by rewrite <- app_assoc|]. done.
Qed.

(** Steps before the command, and after it. *)
Ltac g_skip := first
  [ eapply (goes_skip (fun base tr => confirmed base tr _ _ _ _)); [first [apply set_goes|by apply burn_goes|apply wait_goes]|intros ?]
  | eapply (goes_skip (fun base tr => all_seen base tr _)); [first [apply set_goes|apply wait_goes]|intros ?]
  | eapply (goes_pause (fun base tr => confirmed base tr _ _ _ _)) ].

Lemma section_goes sec addr bank_cmd s :
  zlen sec = 8192 ->
  goes (gup_burn_fw_section sec addr bank_cmd) s
    (fun tr => confirmed (g_trace s) tr (Z.land bank_cmd 15) addr 32 sec).
Proof.
  intros L. unfold gup_burn_fw_section. change FW_SECTION_LENGTH with (256 * Z.of_nat 32).
  do 4 g_skip. eapply (goes_skip (fun base tr => confirmed base tr _ _ _ _)); [apply burn_goes; lia|intros ?].
  g_skip. g_skip. apply goes_command. intros ?. g_skip. g_skip. g_skip.
  eapply goes_ignore; [apply recall_goes; lia|intros ? A ?; by apply all_seen_r|done|].
  intros ?. eapply goes_then; [apply set_goes|]. intros. by apply goes_success.
Qed.

Lemma gwake_section_goes sec addr k bank_cmd s :
  256 * Z.of_nat k <= zlen sec -> 256 * Z.of_nat k < 65536 ->
  goes (gup_burn_fw_gwake_section sec addr (256 * Z.of_nat k) bank_cmd) s
    (fun tr => confirmed (g_trace s) tr (Z.land bank_cmd 15) addr k sec).
Proof.
  intros L1 L2. unfold gup_burn_fw_gwake_section. rewrite u16_id by lia. do 5 g_skip.
  eapply (goes_skip (fun base tr => confirmed base tr _ _ _ _)); [by apply burn_goes|intros ?].
  apply goes_command. intros ?. g_skip.
  eapply goes_ignore; [by apply recall_goes|intros ? A ?; by apply all_seen_r|done|].
  intros. by apply goes_success.
Qed.

End StepFacts.

(** ** Burning from the file *)

Section BurnFacts.
Context `{GtpKernel}.

(** What burning changes in the state of the update. *)
Definition progress (u u' : update) : Prop :=
  exists p b sl tl, u' = with_f_pos p (with_fw_burned_len b (with_show_len sl (with_total_len tl u))).

Lemma progress_refl u : progress u u.
Proof. exists (f_pos u), (fw_burned_len u), (show_len u), (total_len u). by destruct u. Qed.

Lemma progress_trans a b c : progress a b -> progress b c -> progress a c.
Proof. intros (p & q & x & y & ->) (p' & q' & x' & y' & ->). by exists p', q', x', y'. Qed.

#[export] Instance progress_preorder : PreOrder progress.
Proof. split; [exact progress_refl|exact progress_trans]. Qed.

(** As [does], unless the wait does not end. *)
Definition may {A} (c : prog gworld A) (s : gworld) (Q : A -> update -> list teffect -> Prop) : Prop := does c s Q \/ hangs c s.

Lemma may_mono {A} (c : prog gworld A) s (P Q : A -> update -> list teffect -> Prop) :
  may c s P -> (forall a u tr, P a u tr -> Q a u tr) -> may c s Q.
Proof. intros [G|?] K; [left; by eapply does_mono|by right]. Qed.

Lemma may_bind {A B} (c : prog gworld A) (k : A -> prog gworld B) s P Q :
  may c s P ->
  (forall a u tr, P a u tr -> may (k a) (ext tr (with_g_upd u s)) (fun b u' tr' => Q b u' (tr ++ tr'))) ->
  may (bind c k) s Q.
Proof.
  intros [(a & u & tr & E & Hp)|?] K; [|right; by apply hangs_bind].
  destruct (K a u tr Hp) as [D|Hg]; [left|right; by eapply hangs_after].
  destruct D as (b & u' & tr' & E' & Hq). exists b, u', (tr ++ tr'). rewrite (bind_Ret _ _ _ _ _ E), E'. split; [|done].
  unfold ext. cbn. by rewrite app_assoc.
Qed.

Lemma may_step {A B} (c : prog gworld A) (k : A -> prog gworld B) s P Q :
  does c s P ->
  (forall a u tr, P a u tr -> may (k a) (ext tr (with_g_upd u s)) (fun b u' tr' => Q b u' (tr ++ tr'))) ->
  may (bind c k) s Q.
Proof. intros D. apply may_bind. by left. Qed.

Lemma may_ret {A} (a : A) s (Q : A -> update -> list teffect -> Prop) : Q a (g_upd s) [] -> may (ret a) s Q.
Proof. intros Hq. left. by apply does_ret. Qed.

(** [burns c s Q]: [c] leaves the interrupt alone and only makes progress; when
    it says SUCCESS then [Q] holds of the new state and of what it did; unless
    it waits for ever. *)
Definition burns (c : prog gworld Z) (s : gworld) (Q : update -> list teffect -> Prop) : Prop :=
  may c s (fun r u tr => silent tr /\ progress (g_upd s) u /\ (r = FAIL \/ r = SUCCESS /\ Q u tr)).

Lemma burns_mono c s (P Q : update -> list teffect -> Prop) :
  burns c s P -> (forall u tr, progress (g_upd s) u -> P u tr -> Q u tr) -> burns c s Q.
Proof. intros G K. eapply may_mono; [exact G|]. intros r u tr (B & Pr & [->|[-> Hp]]); auto 6. Qed.

Lemma goes_burns c s P : goes c s P -> burns c s (fun u tr => u = g_upd s /\ P tr).
Proof.
  intros [G|?]; [left|by right]. eapply does_mono; [apply emits_does, G|]. intros r u tr (-> & B & HQ).
  split_and!; [by apply bus_silent|done|]. destruct HQ as [->|[-> ?]]; auto.
Qed.

Lemma burns_success s (Q : update -> list teffect -> Prop) : Q (g_upd s) [] -> burns (ret SUCCESS) s Q.
Proof. intros Hq. apply may_ret. split_and!; [constructor|done|by right]. Qed.

Lemma burns_then c k s P Q :
  burns c s P ->
  (forall u tr, progress (g_upd s) u -> P u tr -> burns k (ext tr (with_g_upd u s)) (fun u' tr' => Q u' (tr ++ tr'))) ->
  burns (and_then c k) s Q.
Proof.
  intros G K. unfold and_then, burns. eapply may_bind; [exact G|]. intros r u tr (B & Pr & [->|[-> Hp]]).
  - cbn. apply may_ret. rewrite app_nil_r. auto.
  - change (SUCCESS <=? 0) with false. cbn iota. eapply may_mono; [by apply K|]. intros r u' tr' (B' & Pr' & HQ).
    rewrite ext_upd, upd_of in Pr'. split_and!; [by apply silent_app|by transitivity u|done].
Qed.

Lemma burns_upd f k s Q :
  progress (g_upd s) (f (g_upd s)) -> burns k (with_g_upd (f (g_upd s)) s) Q -> burns (do* upd_set f; k) s Q.
Proof.
  intros Hp G. unfold burns. eapply may_step; [apply does_upd|]. intros ? ? ? [-> ->]. d_norm. eapply may_mono; [exact G|]. intros r u tr (B & Pr & HQ).
  split_and!; [done|by transitivity (f (g_upd s))|done].
Qed.

Lemma progress_show n u : progress u (with_show_len n u).
Proof. exists (f_pos u), (fw_burned_len u), n, (total_len u). by destruct u. Qed.

Lemma progress_burned n u : progress u (with_fw_burned_len n u).
Proof. exists (f_pos u), n, (show_len u), (total_len u). by destruct u. Qed.

Lemma progress_total n u : progress u (with_total_len n u).
Proof. exists (f_pos u), (fw_burned_len u), (show_len u), n. by destruct u. Qed.

Lemma progress_pos u u' : pos_only u u' -> progress u u'.
Proof. intros [p ->]. exists p, (fw_burned_len u), (show_len u), (total_len u). by destruct u. Qed.

(** The memory of a section after a load: what the file has, then what was
    there. *)
Definition loaded (c b : list Z) (offset len : Z) : list Z :=
  let d := take (Z.to_nat len) (drop (Z.to_nat (14 + offset)) c) in d ++ drop (length d) b.

Lemma loaded_length c b offset len : 0 <= len <= zlen b -> length (loaded c b offset len) = length b.
Proof. intros Hl. unfold loaded, zlen in *. rewrite length_app, length_drop, length_take. lia. Qed.

Lemma loaded_whole c b offset len :
  0 <= offset -> 0 <= len -> zlen b = len -> 14 + offset + len <= zlen c ->
  loaded c b offset len = take (Z.to_nat len) (drop (Z.to_nat (14 + offset)) c).
Proof.
  intros H1 H2 H3 H4. unfold loaded. rewrite (drop_ge b), app_nil_r; [done|].
  rewrite length_take, length_drop. unfold zlen in *. lia.
Qed.

Lemma load_does b offset len whence c s :
  upd_file (g_upd s) = OpenFile c -> 0 <= len <= zlen b ->
  let off := if whence =? SEEK_SET then offset else fw_total_len (g_upd s) - offset in
  0 <= 14 + off < 2 ^ 32 ->
  does (gup_load_section_file b offset len whence) s (fun x u tr => reads tr /\ pos_only (g_upd s) u /\
    (fst x = FAIL \/ x = (SUCCESS, loaded c b off len))).
Proof.
  intros Hf Hl off Ho. unfold gup_load_section_file. d_step. rewrite Hf. d_step. d_step. set (p := if _ =? _ then u32 _ else _).
  assert (p = 14 + off) as ->.
  { unfold p, off, FW_HEAD_LENGTH in *. destruct (whence =? SEEK_SET); [rewrite u32_id; lia|rewrite u32_id; lia]. }
  eapply does_bind; [apply (file_read_does b len c (14 + off)); [done|done|lia]|]. intros x u tr (-> & Hx).
  destruct (gp_read _); destruct Hx as [-> ->]; cbn [fst snd].
  - destruct (_ <? 0) eqn:E; bool_cases; [pose proof (zlen_nonneg (take (Z.to_nat len) (drop (Z.to_nat (14 + off)) c))); lia|].
    apply does_ret. split_and!; [by repeat constructor|by eexists|]. right. by rewrite splice_0.
  - cbn. apply does_ret. split_and!; [by repeat constructor|by eexists|by left].
Qed.

Lemma reads_silent tr : reads tr -> silent tr.
Proof. intros Hr. eapply Forall_impl; [exact Hr|]. by intros []. Qed.

Lemma burns_load b offset len whence c k s (Q : update -> list teffect -> Prop) :
  upd_file (g_upd s) = OpenFile c -> 0 <= len <= zlen b ->
  let off := if whence =? SEEK_SET then offset else fw_total_len (g_upd s) - offset in
  0 <= 14 + off < 2 ^ 32 ->
  (forall p tr, burns (k (loaded c b off len)) (ext tr (with_g_upd (with_f_pos p (g_upd s)) s)) (fun u' tr' => Q u' (tr ++ tr'))) ->
  burns (load_then b offset len whence k) s Q.
Proof.
  intros Hf Hl off Ho K. unfold load_then, burns. eapply may_step; [by apply load_does|].
  intros x u tr (Hr & Hp & Hx). pose proof (reads_silent tr Hr) as B. pose proof (progress_pos _ _ Hp) as Pr.
  destruct Hx as [Ex| ->].
  - rewrite Ex. cbn. apply may_ret. rewrite app_nil_r. auto.
  - change (SUCCESS =? FAIL) with false. cbn [fst snd]. destruct Hp as [p ->]. eapply may_mono; [apply K|].
    intros r u' tr' (B' & Pr' & HQ). rewrite ext_upd, upd_of in Pr'.
    split_and!; [by apply silent_app|by etransitivity|done].
Qed.

Lemma alloc_loop_does n : forall retry size s, 0 <= size ->
  emits (kzalloc_loop n retry size) s (fun x tr => silent tr /\
    (snd x = Some (replicate (Z.to_nat size) 0) \/ fst x = retry + 1 + Z.of_nat n)).
Proof.
  induction n as [|n IH]; intros retry size s Hs; cbn [kzalloc_loop].
  { apply emits_ret. split; [constructor|]. right. cbn. lia. }
  eapply emits_bind with (P := fun p tr => tr = [Alloc size] /\ (p = None \/ p = Some (replicate (Z.to_nat size) 0))).
  { unfold kzalloc. e_step. apply emits_ret. split; [done|]. rewrite (proj2 (Z.leb_le 0 size) Hs), andb_true_r.
    destruct (gp_alloc _); auto. }
  intros p tr (-> & [->| ->]).
  - eapply emits_mono; [by apply IH|]. intros x tr (B & HQ). split; [by constructor|].
    destruct HQ as [?|E]; [by left|right]. rewrite E. lia.
  - apply emits_ret. split; [by repeat constructor|]. by left.
Qed.

Lemma burns_memory size k s (Q : update -> list teffect -> Prop) :
  0 <= size ->
  (forall tr, burns (k (replicate (Z.to_nat size) 0)) (ext tr s) (fun u' tr' => Q u' (tr ++ tr' ++ [Free]))) ->
  burns (with_memory size k) s Q.
Proof.
  intros Hs K. unfold with_memory, burns. eapply may_step; [apply emits_does; by apply alloc_loop_does|].
  intros [retry p] u tr (-> & B & HQ). rewrite with_upd_same. cbn [fst snd] in *. destruct (5 <=? retry) eqn:E; bool_cases.
  { apply may_ret. rewrite app_nil_r. split_and!; [done|reflexivity|by left]. }
  destruct HQ as [->|HQ]; [|lia]. eapply may_step; [apply emits_does; by apply emits_lift|].
  intros ? ? ? (-> & -> & ->). d_norm. eapply may_bind; [apply K|]. intros r u t (B' & Pr & HQ).
  eapply may_step; [apply emits_does, emits_do|]. intros ? ? ? (-> & ->). apply may_ret. rewrite app_nil_r.
  rewrite !ext_upd in *. cbn [g_upd with_g_upd]. rewrite app_nil_r in HQ. split_and!; [|done|done].
  apply silent_app. split; [done|]. apply silent_app. split; [done|]. by repeat constructor.
Qed.

End BurnFacts.
