(* ===== verification/GtFlash.v ===== *)
(** * The touch-screen driver: what an update leaves in flash

    Every part of the image with the command that burns it and the address
    where it is read back ([pieces]); a run that reports SUCCESS has burned and
    confirmed them in that order ([burn_log]), within one attempt
    ([attempt_burned]).  The update as a whole ([ends]): it returns and gives the
    driver back as it was, or it waits for a chip that does not end its command,
    or it looks for the end of a product identifier that has none. *)

From stdpp Require Import base list numbers strings.
From Stdlib Require Import ZArith Lia.
From S2P Require Import Prelude Text Kernel GoodixTool GtBus Gt9xx GtPanel GtProbe GtUpdate GtBurn.
Open Scope Z_scope.

(** A part of the image: the burn command, the address, the number of pages
    and the memory they are taken from. *)
Record piece := mkPiece { pc_cmd : Z; pc_addr : Z; pc_pages : nat; pc_data : list Z }.

Section Log.
Context `{GtpKernel}.

Definition burned_piece (base tr : list teffect) (p : piece) : Prop :=
  confirmed base tr (pc_cmd p) (pc_addr p) (pc_pages p) (pc_data p).

(** The pieces were burned and confirmed one after the other. *)
Fixpoint burn_log (base tr : list teffect) (ps : list piece) : Prop :=
  match ps with
  | [] => True
  | p :: ps' => exists t1 t2, tr = t1 ++ t2 /\ burned_piece base t1 p /\ burn_log (base ++ t1) t2 ps'
  end.

#[export] Instance burn_log_closed ps : LeftClosed (fun base tr => burn_log base tr ps).
Proof.
  intros base t tr. destruct ps as [|p ps]; [done|]. intros (t1 & t2 & -> & B & L). exists (t ++ t1), t2.
  split_and!; [by rewrite app_assoc|by apply confirmed_l|by rewrite app_assoc].
Qed.

Lemma burn_log_l base t tr ps : burn_log (base ++ t) tr ps -> burn_log base (t ++ tr) ps.
Proof. apply (left_closed (R := fun base tr => burn_log base tr ps)). Qed.

Lemma burn_log_r ps : forall base tr t, burn_log base tr ps -> burn_log base (tr ++ t) ps.
Proof.
  induction ps as [|p ps IH]; intros base tr t; [done|]. intros (t1 & t2 & -> & B & L). exists t1, (t2 ++ t).
  split_and!; [by rewrite app_assoc|done|by apply IH].
Qed.

Lemma burn_log_app ps1 : forall base t1 t2 ps2,
  burn_log base t1 ps1 -> burn_log (base ++ t1) t2 ps2 -> burn_log base (t1 ++ t2) (ps1 ++ ps2).
Proof.
  induction ps1 as [|p ps1 IH]; intros base t1 t2 ps2.
  { intros _ L. by apply burn_log_l. }
  intros (a & b & -> & B & L) L2. exists a, (b ++ t2). split_and!; [by rewrite app_assoc|done|].
  apply IH; [done|]. by rewrite <- app_assoc.
Qed.

(** Programs that burn [ps] when they say SUCCESS, and leave [b] as the number
    of bytes burned. *)
Definition logs (c : prog gworld Z) (s : gworld) (ps : list piece) (b : Z) : Prop :=
  burns c s (fun u tr => burn_log (g_trace s) tr ps /\ fw_burned_len u = b).

(** The memory of a section that is being filled. *)
Definition image_of (c : list Z) (u : update) : Prop :=
  upd_file u = OpenFile c /\ fw_total_len u = zlen c - 14 /\ FW_MIN_LENGTH <= zlen c < 2 ^ 31.

Lemma image_progress c u u' : image_of c u -> progress u u' -> image_of c u'.
Proof. by intros I (p & q & x & y & ->). Qed.

Lemma logs_set c k s P ps b : goes c s P -> (forall tr, logs k (ext tr s) ps b) -> logs (and_then c k) s ps b.
Proof.
  intros G K. eapply burns_then; [apply goes_burns, G|]. intros u tr _ [-> _]. rewrite with_upd_same.
  eapply burns_mono; [apply K|]. intros u tr' _ [L E]. split; [by apply burn_log_l|done].
Qed.

Lemma logs_pause ms k s ps b : logs k (ext [Sleep ms] s) ps b -> logs (do* g_do (Sleep ms); k) s ps b.
Proof.
  intros K. eapply may_step; [apply emits_does, emits_do|]. intros ? ? ? (-> & ->). rewrite with_upd_same.
  eapply may_mono; [exact K|]. intros r u tr (B & Pr & HQ). split_and!; [by constructor|done|].
  destruct HQ as [?|(? & L & ?)]; [by left|right]. split_and!; [done|by apply (burn_log_l _ [Sleep ms])|done].
Qed.

Lemma logs_piece c k s p ps b :
  goes c s (fun tr => burned_piece (g_trace s) tr p) -> (forall tr, logs k (ext tr s) ps b) ->
  logs (and_then c k) s (p :: ps) b.
Proof.
  intros G K. eapply burns_then; [apply goes_burns, G|]. intros u tr _ [-> B]. rewrite with_upd_same.
  eapply burns_mono; [apply K|]. intros u tr' _ [L E]. split; [|done]. by exists tr, tr'.
Qed.

Lemma logs_memory size k s ps b :
  0 <= size -> (forall tr, logs (k (replicate (Z.to_nat size) 0)) (ext tr s) ps b) -> logs (with_memory size k) s ps b.
Proof.
  intros Hs K. apply burns_memory; [done|]. intros tr. eapply burns_mono; [apply K|]. intros u tr' _ [L E].
  split; [|done]. apply burn_log_l. by apply burn_log_r.
Qed.

Lemma logs_load m offset len c k s ps b :
  image_of c (g_upd s) -> 0 <= len <= zlen m -> 0 <= 14 + offset < 2 ^ 32 ->
  (forall p tr, logs (k (loaded c m offset len)) (ext tr (with_g_upd (with_f_pos p (g_upd s)) s)) ps b) ->
  logs (load_then m offset len SEEK_SET k) s ps b.
Proof.
  intros (If & _) Hl Ho K. eapply burns_load; [exact If|done|exact Ho|]. intros p tr.
  eapply burns_mono; [apply K|]. intros u tr' _ [L E]. split; [by apply burn_log_l|done].
Qed.

Lemma logs_success s b : fw_burned_len (g_upd s) = b -> logs (ret SUCCESS) s [] b.
Proof. intros E. by apply burns_success. Qed.

Lemma logs_burned n s b : u32 (fw_burned_len (g_upd s) + n) = b -> logs (burned n) s [] b.
Proof. intros E. apply burns_upd; [apply progress_burned|]. by apply burns_success. Qed.

(** One function after the other. *)
Lemma logs_then c k s ps1 ps2 b1 b2 :
  logs c s ps1 b1 ->
  (forall u tr, progress (g_upd s) u -> fw_burned_len u = b1 -> logs k (ext tr (with_g_upd u s)) ps2 b2) ->
  logs (and_then c k) s (ps1 ++ ps2) b2.
Proof.
  intros G K. eapply burns_then; [exact G|]. intros u tr Pr [L E]. eapply burns_mono; [by apply K|].
  intros u' tr' _ [L' E']. split; [|done]. by apply burn_log_app.
Qed.

Lemma logs_upd f k s ps b :
  progress (g_upd s) (f (g_upd s)) -> logs k (with_g_upd (f (g_upd s)) s) ps b -> logs (do* upd_set f; k) s ps b.
Proof. apply burns_upd. Qed.

Lemma logs_show n k s ps b :
  logs k (with_g_upd (with_show_len n (g_upd s)) s) ps b -> logs (do* show n; k) s ps b.
Proof. apply logs_upd, progress_show. Qed.

End Log.

(** ** The parts of the image *)

Section Parts.
Context `{GtpKernel}.

Definition zeros (n : Z) : list Z := replicate (Z.to_nat n) 0.

(** The bytes at [offset] behind the head. *)
Definition part (c : list Z) (offset len : Z) : list Z := take (Z.to_nat len) (drop (Z.to_nat (14 + offset)) c).

(** The memory for the wake-up code after the load of section [i]: past the
    end of the file it keeps what it had. *)
Fixpoint gwake_data (c : list Z) (i : nat) : list Z :=
  loaded c (match i with O => zeros FW_SECTION_LENGTH | S i' => gwake_data c i' end)
    (start_index + Z.of_nat i * FW_SECTION_LENGTH) FW_SECTION_LENGTH.

Definition gwake_pieces (c : list Z) : list piece :=
  (fun i => mkPiece (10 + Z.of_nat i) 36864 32 (gwake_data c i)) <$> [0; 1; 2; 3]%nat.

Definition ss51_pieces (c : list Z) : list piece :=
  [mkPiece 1 49152 32 (replicate (Z.to_nat 8192) 255); mkPiece 2 57344 32 (part c 8192 8192);
   mkPiece 3 49152 32 (part c 16384 8192); mkPiece 4 57344 32 (part c 24576 8192)].

Definition link_pieces (c : list Z) : list piece :=
  let b := loaded c (zeros 8192) 40960 8192 in
  [mkPiece 8 36864 32 b; mkPiece 9 36864 16 (loaded c b 49152 4096)].

(** Everything in the order of the burning; [t] is the length of the image. *)
Definition pieces (c : list Z) : list piece :=
  let t := zlen c - 14 in
  gwake_pieces c ++ ss51_pieces c ++ [mkPiece 5 36864 16 (part c 32768 4096)] ++ [mkPiece 6 36864 8 (part c 36864 2048)] ++
  (if t <=? 43008 then [] else [mkPiece 7 36864 8 (part c 38912 2048)]) ++
  (if t <=? 45056 then [] else link_pieces c) ++
  [mkPiece 1 49152 32 (part c 0 8192)].

Lemma loaded_part c m offset len : 0 <= offset -> 0 <= len -> zlen m = len -> 14 + offset + len <= zlen c -> loaded c m offset len = part c offset len.
Proof. apply loaded_whole. Qed.

Lemma part_length c offset len : 0 <= offset -> 0 <= len -> 14 + offset + len <= zlen c -> zlen (part c offset len) = len.
Proof. intros. unfold part, zlen in *. rewrite length_take, length_drop. lia. Qed.

Lemma zlen_loaded c m offset len : 0 <= len <= zlen m -> zlen (loaded c m offset len) = zlen m.
Proof. intros Hl. unfold zlen at 1. by rewrite loaded_length. Qed.

Lemma zlen_zeros n : 0 <= n -> zlen (zeros n) = n.
Proof. apply zlen_replicate. Qed.

(** A section in the code's memory. *)
Lemma section_burned sec addr cmd s :
  zlen sec = 8192 ->
  goes (gup_burn_fw_section sec addr cmd) s (fun tr => burned_piece (g_trace s) tr (mkPiece (Z.land cmd 15) addr 32 sec)).
Proof. apply section_goes. Qed.

Lemma gwake_section_burned sec addr k cmd s :
  256 * Z.of_nat k <= zlen sec -> 256 * Z.of_nat k < 65536 ->
  goes (gup_burn_fw_gwake_section sec addr (256 * Z.of_nat k) cmd) s
    (fun tr => burned_piece (g_trace s) tr (mkPiece (Z.land cmd 15) addr k sec)).
Proof. apply gwake_section_goes. Qed.

Lemma min_length c u : image_of c u -> 43022 <= zlen c < 2 ^ 31.
Proof. intros (_ & _ & L). exact L. Qed.

Lemma ss51_logs c s :
  image_of c (g_upd s) -> logs gup_burn_fw_ss51 s (ss51_pieces c) (u32 (fw_burned_len (g_upd s) + 32768)).
Proof.
  intros I. pose proof (min_length _ _ I) as L. unfold gup_burn_fw_ss51, FW_SECTION_LENGTH. apply logs_memory; [lia|]. intros t0.
  rewrite length_replicate. eapply logs_set; [apply set_goes|]. intros t1.
  assert (zlen (replicate (Z.to_nat 8192) 255) = 8192) as L0 by (by apply zlen_replicate).
  eapply logs_piece; [by apply (section_burned _ 49152 1)|]. intros t2. apply (logs_load _ _ _ c); [exact I|lia|lia|]. intros p1 t3.
  rewrite loaded_part by lia. eapply logs_piece; [apply (section_burned _ 57344 2); apply part_length; lia|]. intros t4.
  apply (logs_load _ _ _ c); [exact I|rewrite part_length; lia|lia|]. intros p2 t5. rewrite loaded_part; [|try lia..]; [|apply part_length; lia].
  eapply logs_piece; [apply (section_burned _ 49152 19); apply part_length; lia|]. intros t6.
  apply (logs_load _ _ _ c); [exact I|rewrite part_length; lia|lia|]. intros p3 t7. rewrite loaded_part; [|try lia..]; [|apply part_length; lia].
  eapply logs_piece; [apply (section_burned _ 57344 20); apply part_length; lia|]. intros t8. by apply logs_burned.
Qed.

(** One section of the wake-up code. *)
Lemma gwake_logs_step c i k s ps b :
  image_of c (g_upd s) -> 0 <= Z.of_nat i < 4 ->
  (forall p tr, logs (k (gwake_data c i)) (ext tr (with_g_upd (with_f_pos p (g_upd s)) s)) ps b) ->
  logs (gwake_then (match i with O => zeros FW_SECTION_LENGTH | S i' => gwake_data c i' end) (Z.of_nat i) k) s
    (mkPiece (10 + Z.of_nat i) 36864 32 (gwake_data c i) :: ps) b.
Proof.
  intros I Hi K.
  assert (forall j, zlen (gwake_data c j) = 8192) as Lg.
  { induction j as [|j IH]; cbn [gwake_data]; rewrite zlen_loaded; rewrite ?IH; by vm_compute. }
  set (m := match i with O => _ | S _ => _ end).
  assert (zlen m = 8192) as Lm by (unfold m; destruct i; [by rewrite zlen_zeros|apply Lg]).
  unfold gwake_then. apply (logs_load _ _ _ c); [exact I|unfold FW_SECTION_LENGTH; lia|change start_index with 53248; unfold FW_SECTION_LENGTH; lia|].
  intros p tr.
  assert (loaded c m (start_index + Z.of_nat i * FW_SECTION_LENGTH) FW_SECTION_LENGTH = gwake_data c i) as ->
    by (unfold m; clear; destruct i; cbn [gwake_data]; reflexivity).
  change FW_SECTION_LENGTH with (256 * Z.of_nat 32). eapply logs_piece.
  - replace (10 + Z.of_nat i) with (Z.land (58 + Z.of_nat i) 15).
    { apply gwake_section_burned; [rewrite Lg; lia|lia]. }
    destruct i as [|[|[|[|i]]]]; try done. lia.
  - intros t. rewrite ext_ext. apply K.
Qed.

Lemma gwake_logs c s :
  image_of c (g_upd s) -> fw_burned_len (g_upd s) < zlen c - 14 ->
  logs gup_burn_fw_gwake s (gwake_pieces c) (fw_burned_len (g_upd s)).
Proof.
  intros I Hb. eapply may_step; [apply emits_does, emits_gets|]. intros ? ? ? (-> & -> & ->). d_norm.
  destruct (_ <=? _) eqn:E; bool_cases; [destruct I as (_ & -> & _) in E; lia|].
  apply (logs_memory FW_SECTION_LENGTH); [by vm_compute|]. intros t0. eapply logs_set; [apply set_goes|]. intros t1.
  unfold gwake_pieces. cbn [fmap list_fmap].
  apply (gwake_logs_step c 0); [exact I|lia|]. intros p0 t2.
  apply (gwake_logs_step c 1); [exact I|lia|]. intros p1 t3.
  apply (gwake_logs_step c 2); [exact I|lia|]. intros p2 t4.
  apply (gwake_logs_step c 3); [exact I|lia|]. intros p3 t5. by apply logs_success.
Qed.

Lemma and_then_assoc a b c s : and_then (and_then a b) c s = and_then a (and_then b c) s.
Proof.
  unfold and_then. rewrite bind_bind. unfold bind. destruct (a s) as [r s1| |]; try done. by destruct (r <=? 0).
Qed.

Lemma burns_ext c c' s Q : c s = c' s -> burns c' s Q -> burns c s Q.
Proof.
  intros E [(r & u & tr & E' & K)|(s' & t0 & t & E' & K)]; [left; exists r, u, tr|right; exists s', t0, t]; by rewrite E.
Qed.

Lemma then_eq c k k' s : (forall s', k s' = k' s') -> and_then c k s = and_then c k' s.
Proof. intros E. unfold and_then, bind. destruct (c s) as [r s1| |]; try done. by destruct (r <=? 0). Qed.

(** The command, the wait and the check. *)
Lemma logs_commit cmd addr j data k s ps b :
  256 * Z.of_nat j <= zlen data -> 256 * Z.of_nat j < 65536 ->
  (forall tr, logs k (ext tr s) ps b) ->
  logs (and_then (gup_set_ic_msg BOOT_CTL cmd) (and_then wait_burn (and_then (gup_recall_check data addr (256 * Z.of_nat j)) k)))
    s (mkPiece cmd addr j data :: ps) b.
Proof.
  intros L1 L2 K. eapply burns_ext.
  { rewrite (then_eq _ _ (and_then (and_then wait_burn (gup_recall_check data addr (256 * Z.of_nat j))) k))
      by (intros; by rewrite and_then_assoc). by rewrite <- and_then_assoc. }
  apply logs_piece; [|exact K]. apply (goes_command cmd addr j data). intros t.
  eapply (goes_skip (fun base tr => all_seen base tr _)); [apply wait_goes|]. intros t'. by apply recall_goes.
Qed.

Lemma dsp_logs c s :
  image_of c (g_upd s) ->
  logs gup_burn_fw_dsp s [mkPiece 5 36864 16 (part c 32768 4096)] (u32 (fw_burned_len (g_upd s) + 4096)).
Proof.
  intros I. pose proof (min_length _ _ I) as L. unfold gup_burn_fw_dsp. apply logs_memory; [by vm_compute|]. intros t0.
  fold (zeros FW_DSP_LENGTH). unfold FW_DSP_LENGTH, FW_SECTION_LENGTH.
  apply (logs_load _ _ _ c); [exact I|by rewrite zlen_zeros|lia|]. intros p t1.
  rewrite loaded_part by (rewrite ?zlen_zeros; lia). change (4 * 8192) with 32768.
  assert (zlen (part c 32768 4096) = 4096) as Lp by (apply part_length; lia).
  do 4 (eapply logs_set; [apply set_goes|]; intros ?). apply logs_pause.
  eapply logs_set; [apply (burn_goes _ _ 16); lia|]. intros t2. apply (logs_commit 5 36864 16); [lia|lia|]. intros t3. by apply logs_burned.
Qed.

Lemma boot_section_logs m k cmd s :
  256 * Z.of_nat k <= zlen m -> 256 * Z.of_nat k < 65536 ->
  logs (burn_boot_section m (256 * Z.of_nat k) cmd) s [mkPiece cmd 36864 k m]
    (u32 (fw_burned_len (g_upd s) + 256 * Z.of_nat k)).
Proof.
  intros L1 L2. unfold burn_boot_section. do 3 (eapply logs_set; [apply set_goes|]; intros ?). apply logs_pause.
  eapply logs_set; [apply set_goes|]. intros ?. eapply logs_set; [by apply burn_goes|]. intros ?.
  apply logs_commit; [lia|lia|]. intros t3. by apply logs_burned.
Qed.

(** A boot section at [offset]. *)
Lemma boot_part_logs c offset cmd s :
  image_of c (g_upd s) -> 0 <= offset -> 14 + offset + 2048 <= zlen c ->
  logs (with_memory 2048 (fun b => load_then b offset 2048 SEEK_SET (fun b => burn_boot_section b 2048 cmd))) s
    [mkPiece cmd 36864 8 (part c offset 2048)] (u32 (fw_burned_len (g_upd s) + 2048)).
Proof.
  intros I H1 H2. pose proof (min_length _ _ I) as L. apply logs_memory; [lia|]. intros t0. fold (zeros 2048).
  apply (logs_load _ _ _ c); [exact I|by rewrite zlen_zeros|lia|]. intros p t1.
  rewrite loaded_part by (rewrite ?zlen_zeros; lia).
  refine (boot_section_logs (part c offset 2048) 8 cmd (ext t1 _) _ _); [rewrite part_length; lia|lia].
Qed.

Lemma boot_logs c s :
  image_of c (g_upd s) ->
  logs gup_burn_fw_boot s [mkPiece 6 36864 8 (part c 36864 2048)] (u32 (fw_burned_len (g_upd s) + 2048)).
Proof. intros I. pose proof (min_length _ _ I) as L. by apply (boot_part_logs c 36864 6); [..|lia]. Qed.

Lemma logs_unless c k s ps b :
  image_of c (g_upd s) ->
  (zlen c - 14 <= fw_burned_len (g_upd s) -> ps = [] /\ b = fw_burned_len (g_upd s)) ->
  (fw_burned_len (g_upd s) < zlen c - 14 -> logs k s ps b) -> logs (unless_burned k) s ps b.
Proof.
  intros (_ & It & _) H1 H2. eapply may_step; [apply emits_does, emits_gets|]. intros ? ? ? (-> & -> & ->). d_norm. rewrite It.
  destruct (_ <=? _) eqn:E; bool_cases; [destruct (H1 E) as [-> ->]; by apply burns_success|by apply H2].
Qed.

Lemma logs_gets {A} (f : gworld -> A) k s ps b : logs (k (f s)) s ps b -> logs (let* n := g_gets f in k n) s ps b.
Proof. intros L. eapply burns_ext; [reflexivity|exact L]. Qed.

Lemma boot_isp_logs c s :
  image_of c (g_upd s) -> fw_burned_len (g_upd s) = 43008 ->
  let t := zlen c - 14 in
  logs gup_burn_fw_boot_isp s (if t <=? 43008 then [] else [mkPiece 7 36864 8 (part c 38912 2048)])
    (if t <=? 43008 then 43008 else 45056).
Proof.
  intros I Hb t. pose proof (min_length _ _ I) as L. apply (logs_unless c); [done|..]; rewrite Hb.
  - intros E. destruct (t <=? 43008) eqn:Et; bool_cases; [done|unfold t in *; lia].
  - intros E. destruct (t <=? 43008) eqn:Et; bool_cases; [unfold t in *; lia|].
    apply logs_memory; [by vm_compute|]. intros t0. apply logs_gets. rewrite ext_upd, Hb.
    change (u32 (43008 - FW_DSP_ISP_LENGTH)) with 38912. fold (zeros FW_BOOT_ISP_LENGTH).
    apply (logs_load _ _ _ c); [exact I|by rewrite zlen_zeros|lia|]. intros p t1.
    rewrite loaded_part by (rewrite ?zlen_zeros; unfold FW_BOOT_ISP_LENGTH; lia).
    pose proof (boot_section_logs (part c 38912 2048) 8 7 (ext t1 (with_g_upd (with_f_pos p (g_upd (ext t0 s))) (ext t0 s)))
      ltac:(rewrite part_length; lia) ltac:(lia)) as X. cbn [g_upd ext with_g_trace with_g_upd fw_burned_len with_f_pos] in X.
    rewrite Hb in X. exact X.
Qed.

(** The two link sections, from any memory. *)
Lemma link_sections_logs c m s :
  image_of c (g_upd s) -> zlen m = 8192 ->
  logs (load_then m 40960 8192 SEEK_SET (fun b =>
    ok* gup_burn_fw_gwake_section b 36864 8192 56;
    load_then b 49152 4096 SEEK_SET (fun b =>
    ok* gup_burn_fw_gwake_section b 36864 4096 57;
    burned FW_GLINK_LENGTH))) s
    [mkPiece 8 36864 32 (loaded c m 40960 8192); mkPiece 9 36864 16 (loaded c (loaded c m 40960 8192) 49152 4096)]
    (u32 (fw_burned_len (g_upd s) + 12288)).
Proof.
  intros I Lm. pose proof (zlen_loaded c m 40960 8192 ltac:(lia)) as L1.
  apply (logs_load _ _ _ c); [exact I|lia|lia|]. intros p t1. set (m1 := loaded c m 40960 8192) in *. clearbody m1.
  eapply logs_piece; [apply (gwake_section_burned _ 36864 32 56); lia|]. intros t2.
  apply (logs_load _ _ _ c); [exact I|lia|lia|]. intros p2 t3.
  eapply logs_piece; [apply (gwake_section_burned _ 36864 16 57); rewrite ?zlen_loaded; lia|]. intros t4.
  by apply logs_burned.
Qed.

Lemma link_logs c s :
  image_of c (g_upd s) ->
  let t := zlen c - 14 in
  fw_burned_len (g_upd s) = (if t <=? 43008 then 43008 else 45056) ->
  logs gup_burn_fw_link s (if t <=? 45056 then [] else link_pieces c)
    (if t <=? 43008 then 43008 else if t <=? 45056 then 45056 else 57344).
Proof.
  intros I t Hb. pose proof (min_length _ _ I) as L. apply (logs_unless c); [done|..].
  - rewrite Hb. intros E. destruct (t <=? 43008) eqn:E1, (t <=? 45056) eqn:E2; bool_cases; unfold t in *; try lia; done.
  - rewrite Hb. intros E. destruct (t <=? 43008) eqn:E1, (t <=? 45056) eqn:E2; bool_cases; unfold t in *; try lia.
    apply logs_memory; [by vm_compute|]. intros t0. apply logs_gets. rewrite ext_upd, Hb. cbv zeta.
    change (u32 (45056 - FW_DSP_ISP_LENGTH)) with 40960. change (u32 (40960 + FW_SECTION_LENGTH)) with 49152.
    change (FW_GLINK_LENGTH - FW_SECTION_LENGTH) with 4096. unfold FW_SECTION_LENGTH. fold (zeros 8192).
    pose proof (link_sections_logs c (zeros 8192) (ext t0 s) I (zlen_zeros 8192 ltac:(lia))) as X.
    rewrite ext_upd, Hb in X. exact X.
Qed.

Lemma finish_logs c s :
  image_of c (g_upd s) ->
  logs gup_burn_fw_finish s [mkPiece 1 49152 32 (part c 0 8192)] (fw_burned_len (g_upd s)).
Proof.
  intros I. pose proof (min_length _ _ I) as L. apply logs_memory; [by vm_compute|]. intros t0.
  fold (zeros FW_SECTION_LENGTH). unfold FW_SECTION_LENGTH.
  apply (logs_load _ _ _ c); [exact I|by rewrite zlen_zeros|lia|]. intros p t1.
  rewrite loaded_part by (rewrite ?zlen_zeros; lia).
  eapply logs_set; [apply set_goes|]. intros t2.
  eapply logs_piece; [apply (section_burned _ 49152 1); apply part_length; lia|]. intros t3.
  do 2 (eapply logs_set; [apply set_goes|]; intros ?). by apply logs_success.
Qed.

Lemma dsp_isp_logs c s :
  image_of c (g_upd s) -> logs gup_burn_dsp_isp s [] (u32 (fw_burned_len (g_upd s) + 4096)).
Proof.
  intros I. pose proof (min_length _ _ I) as L. apply logs_memory; [by vm_compute|]. intros t0.
  fold (zeros FW_DSP_ISP_LENGTH). eapply (burns_load _ _ _ _ c); [apply I|by rewrite zlen_zeros| |].
  { cbn [Z.eqb SEEK_END SEEK_SET]. destruct I as (_ & It & _). rewrite ext_upd, It. unfold FW_DSP_ISP_LENGTH. lia. }
  intros p t1. cbn [Z.eqb SEEK_END SEEK_SET].
  eapply burns_mono with (P := fun u tr => burn_log _ tr [] /\ fw_burned_len u = u32 (fw_burned_len (g_upd s) + 4096)).
  - do 7 (eapply logs_set; [apply set_goes|]; intros ?).
    eapply logs_set; [apply (burn_goes _ _ 16); rewrite ?zlen_loaded, ?zlen_zeros; by vm_compute|]. intros ?.
    eapply logs_set; [apply set_goes|]; intros ?. apply logs_burned. reflexivity.
  - intros u tr _ [_ E]. done.
Qed.

(** One attempt. *)
Lemma attempt_logs c s :
  image_of c (g_upd s) ->
  let t := zlen c - 14 in
  logs burn_attempt s (pieces c) (if t <=? 43008 then 43008 else if t <=? 45056 then 45056 else 57344).
Proof.
  intros I t. pose proof (min_length _ _ I) as L. unfold burn_attempt.
  apply logs_show. apply logs_upd; [apply progress_total|]. apply logs_upd; [apply progress_burned|].
  set (s1 := with_g_upd _ _). assert (image_of c (g_upd s1)) as I1 by exact I.
  assert (fw_burned_len (g_upd s1) = 0) as B1 by done. clearbody s1.
  change (pieces c) with ([] ++ pieces c). eapply logs_then; [by apply (dsp_isp_logs c)|]. rewrite B1. intros u2 t2 P2 E2.
  apply logs_show. set (s2 := with_g_upd _ _). assert (image_of c (g_upd s2)) as I2 by exact (image_progress _ _ _ I1 P2).
  assert (fw_burned_len (g_upd s2) = 4096) as B2 by exact E2. clearbody s2. unfold pieces.
  eapply logs_then; [apply (gwake_logs c); [done|lia]|]. rewrite B2. intros u3 t3 P3 E3.
  apply logs_show. set (s3 := with_g_upd _ _). assert (image_of c (g_upd s3)) as I3 by exact (image_progress _ _ _ I2 P3).
  assert (fw_burned_len (g_upd s3) = 4096) as B3 by exact E3. clearbody s3.
  eapply logs_then; [by apply (ss51_logs c)|]. rewrite B3. intros u4 t4 P4 E4.
  apply logs_show. set (s4 := with_g_upd _ _). assert (image_of c (g_upd s4)) as I4 by exact (image_progress _ _ _ I3 P4).
  assert (fw_burned_len (g_upd s4) = 36864) as B4 by exact E4. clearbody s4.
  eapply logs_then; [by apply (dsp_logs c)|]. rewrite B4. intros u5 t5 P5 E5.
  apply logs_show. set (s5 := with_g_upd _ _). assert (image_of c (g_upd s5)) as I5 by exact (image_progress _ _ _ I4 P5).
  assert (fw_burned_len (g_upd s5) = 40960) as B5 by exact E5. clearbody s5.
  eapply logs_then; [by apply (boot_logs c)|]. rewrite B5. intros u6 t6 P6 E6.
  apply logs_show. set (s6 := with_g_upd _ _). assert (image_of c (g_upd s6)) as I6 by exact (image_progress _ _ _ I5 P6).
  assert (fw_burned_len (g_upd s6) = 43008) as B6 by exact E6. clearbody s6.
  eapply logs_then; [by apply (boot_isp_logs c)|]. intros u7 t7 P7 E7.
  apply logs_show. set (s7 := with_g_upd _ _). assert (image_of c (g_upd s7)) as I7 by exact (image_progress _ _ _ I6 P7).
  assert (fw_burned_len (g_upd s7) = if t <=? 43008 then 43008 else 45056) as B7 by exact E7. clearbody s7.
  eapply logs_then; [by apply (link_logs c)|]. intros u8 t8 P8 E8.
  apply logs_show. set (s8 := with_g_upd _ _). assert (image_of c (g_upd s8)) as I8 by exact (image_progress _ _ _ I7 P8).
  rewrite <- (app_nil_r [mkPiece 1 _ _ _]). eapply logs_then; [by apply (finish_logs c)|].
  intros u9 t9 P9 E9. apply logs_show. apply logs_success. cbn. by rewrite E9.
Qed.

End Parts.

(** ** The panel after an update *)

Section PanelAgain.
Context `{GtpKernel}.

(** Members of [*ts] that only handlers and updates change. *)
Definition same_ts (d d' : goodix_ts_data) : Prop :=
  irq_is_disable d' = irq_is_disable d /\ use_irq d' = use_irq d /\ input_dev d' = input_dev d /\
  enter_update d' = enter_update d /\ gtp_is_suspend d' = gtp_is_suspend d.

(** The configuration changed, and perhaps the rest of [*ts]. *)
Definition kept (s s' : gworld) : Prop :=
  exists tr st d, s' = ext tr (with_g_st st (with_g_ts d s)) /\ silent tr /\
    length (config st) = length (config (g_st s)) /\ same_ts (g_ts s) d.

Lemma kept_refl s : kept s s.
Proof. exists [], (g_st s), (g_ts s). rewrite ext_nil. split_and!; [by destruct s|constructor|done|done]. Qed.

Lemma kept_trans a b c : kept a b -> kept b c -> kept a c.
Proof.
  intros (t1 & st1 & d1 & -> & S1 & L1 & T1) (t2 & st2 & d2 & -> & S2 & L2 & T2). exists (t1 ++ t2), st2, d2.
  split_and!; [unfold ext; cbn; by rewrite app_assoc|by apply silent_app|by rewrite L2|].
  unfold same_ts in *. cbn in T2. intuition congruence.
Qed.

#[export] Instance kept_preorder : PreOrder kept.
Proof. split; [exact kept_refl|exact kept_trans]. Qed.

Lemma upto_kept s s' : upto s s' -> kept s s'.
Proof. intros (tr & st & -> & St & L). exists tr, st, (g_ts s). by split_and!. Qed.

Lemma kept_winv s s' : kept s s' -> winv s -> winv s'.
Proof.
  intros (tr & st & d & -> & St & L & (Hi & Hu & Hd & _)) []. apply winv_ext; [done|].
  constructor; cbn; rewrite ?Hi, ?Hd; try done. by rewrite L.
Qed.

Lemma emits_kept {A} (c : prog gworld A) s P :
  emits c s P -> (forall a tr, P a tr -> silent tr) -> returns c s (fun a s' => upto s s' /\ exists tr, P a tr).
Proof. intros E K. eapply returns_mono; [by eapply emits_returns|]. intros a s' (U & tr & Hp & _). split; [done|by exists tr]. Qed.

Lemma store_config_upto i f s :
  length (config (g_st s)) = 242%nat -> 0 <= i < 242 -> returns (store_config i f) s (fun _ s' => upto s s').
Proof.
  intros Hc Hi. destruct (load8_some (config (g_st s)) i) as [v Ev]; [unfold zlen; lia|].
  unfold store_config, get_config. eexists _, _. rewrite bind_unfold. cbn [g_gets]. rewrite Ev, bind_lift_Some.
  rewrite store8_in by (unfold zlen; lia). rewrite bind_lift_Some. split; [reflexivity|].
  eexists [], _. rewrite ext_nil. split_and!; [reflexivity|constructor|]. cbn. apply length_insert.
Qed.

Lemma upto_config s s' : upto s s' -> length (config (g_st s')) = length (config (g_st s)).
Proof. by intros (tr & st & -> & _ & L). Qed.

Lemma upto_live s s' : upto s s' -> g_ptr s' = g_ptr s.
Proof. by intros (tr & st & -> & _ & L). Qed.

Lemma set_resolution_upto s :
  length (config (g_st s)) = 242%nat -> returns set_resolution s (fun _ s' => upto s s').
Proof.
  intros Hc. unfold set_resolution, RESOLUTION_LOC, TRIGGER_LOC.
  eapply returns_bind; [apply store_config_upto; [done|lia]|]. intros ? s1 U1. pose proof (upto_config _ _ U1) as C1. rewrite Hc in C1.
  eapply returns_bind; [apply store_config_upto; [done|lia]|]. intros ? s2 U2. pose proof (upto_config _ _ U2) as C2. rewrite C1 in C2.
  eapply returns_bind; [apply store_config_upto; [done|lia]|]. intros ? s3 U3. pose proof (upto_config _ _ U3) as C3. rewrite C2 in C3.
  eapply returns_bind; [apply store_config_upto; [done|lia]|]. intros ? s4 U4. pose proof (upto_config _ _ U4) as C4. rewrite C3 in C4.
  eapply returns_mono; [apply store_config_upto; [done|lia]|]. intros ? s5 U5.
  by transitivity s1; [|transitivity s2; [|transitivity s3; [|transitivity s4]]].
Qed.

Lemma close_config_upto s :
  g_ptr s = Live -> length (config (g_st s)) = 242%nat -> 2 <= gtp_cfg_len (g_ts s) <= 240 ->
  returns close_config s (fun _ s' => upto s s').
Proof.
  intros Hp Hc Hl. eexists _, _. rewrite close_config_eq by done. split; [reflexivity|].
  eexists [], _. rewrite ext_nil. split_and!; [reflexivity|constructor|]. cbn. apply closed_length.
Qed.

Lemma set_version_upto v s :
  length (config (g_st s)) = 242%nat -> returns (set_version v) s (fun _ s' => upto s s').
Proof.
  intros Hc. eexists _, _. rewrite set_version_eq by done. split; [reflexivity|].
  eexists [], _. rewrite ext_nil. split_and!; [reflexivity|constructor|]. cbn. apply length_insert.
Qed.

(** What stays true along [upto]. *)
Definition ready_to_send (s : gworld) : Prop :=
  g_ptr s = Live /\ length (config (g_st s)) = 242%nat /\ 2 <= gtp_cfg_len (g_ts s) <= 240.

Lemma upto_ready s s' : upto s s' -> ready_to_send s -> ready_to_send s'.
Proof.
  intros U (R1 & R2 & R3). split_and!; [by rewrite (upto_live _ _ U)|by rewrite (upto_config _ _ U)|rewrite (upto_ts _ _ U); lia..].
Qed.

Lemma resend_config_upto s : ready_to_send s -> returns resend_config s (fun _ s' => upto s s').
Proof.
  intros R. unfold resend_config.
  eapply returns_bind; [eapply emits_kept; [apply dbl_one|intros ? ? [A _]; by apply bus_silent, asks_bus]|].
  intros o s1 (U1 & tr & _ & Ho). pose proof (upto_ready _ _ U1 R) as R1.
  destruct Ho as [[-> _]|(flash & -> & _)]; [by apply returns_ret|]. change (load8 [flash] 0) with (Some flash).
  eapply returns_bind; [apply returns_ret with (Q := fun a s' => a = flash /\ s' = s1); done|]. intros ? ? [-> ->].
  eapply returns_bind; [apply returns_gets|]. intros ? ? [-> ->].
  destruct (load8_some (config (g_st s1)) GTP_ADDR_LENGTH) as [drv ->]; [unfold zlen, GTP_ADDR_LENGTH; destruct R1 as (_ & -> & _); lia|].
  eapply returns_bind; [apply returns_ret with (Q := fun a s' => a = drv /\ s' = s1); done|]. intros ? ? [-> ->].
  eapply returns_bind with (P := fun _ s' => upto s1 s').
  { destruct (newer _ _); [apply set_version_upto; apply R1|by apply returns_ret]. }
  intros ? s2 U2. pose proof (upto_ready _ _ U2 R1) as R2.
  eapply returns_bind; [apply set_resolution_upto; apply R2|]. intros ? s3 U3. pose proof (upto_ready _ _ U3 R2) as R3.
  eapply returns_bind; [apply close_config_upto; apply R3|]. intros ? s4 U4. pose proof (upto_ready _ _ U4 R3) as R4.
  eapply returns_bind; [eapply emits_kept; [apply send_cfg_bus; apply R4|intros ? ? B; by apply bus_silent]|].
  intros ? s5 (U5 & _). pose proof (upto_ready _ _ U5 R4) as R5.
  eapply returns_bind with (P := fun _ s' => upto s5 s').
  { destruct (newer _ _); [|by apply returns_ret].
    eapply returns_bind; [apply set_version_upto; apply R5|]. intros ? s6 U6. pose proof (upto_ready _ _ U6 R5) as R6.
    eapply returns_mono; [apply close_config_upto; apply R6|]. intros ? s7 U7. by transitivity s6. }
  intros ? s6 U6.
  eapply returns_bind; [eapply emits_kept; [apply version_asks|intros ? ? B; by apply asks_silent]|]. intros ? s7 (U7 & _).
  eexists _, _. split; [reflexivity|]. assert (upto s7 (g_emit (Sleep 10) s7)) as U8.
  { exists [Sleep 10], (g_st s7). split_and!; [by destruct s7|by repeat constructor|done]. }
  by transitivity s1; [|transitivity s2; [|transitivity s3; [|transitivity s4; [|transitivity s5; [|transitivity s6; [|transitivity s7]]]]]].
Qed.

Lemma ts_set_kept f s : g_ptr s = Live -> same_ts (g_ts s) (f (g_ts s)) -> returns (ts_set f) s (fun _ s' => kept s s').
Proof.
  intros Hp Hf. eexists _, _. rewrite ts_set_eq by done. split; [reflexivity|].
  exists [], (g_st s), (f (g_ts s)). rewrite ext_nil. split_and!; [by destruct s|constructor|done|done].
Qed.

Lemma parse_cfg_kept sid s :
  g_ptr s = Live -> length (config (g_st s)) = 242%nat ->
  returns (gtp_parse_dt_cfg sid) s (fun r s' => kept s s' /\ (r < 0 \/ gtp_cfg_len (g_ts s') <= 240)).
Proof.
  intros Hp Hc. unfold gtp_parse_dt_cfg. destruct (gp_property _) as [v|]; [|apply returns_ret; split; [reflexivity|lia]].
  eapply returns_bind with (P := fun _ s' => s' = with_g_ts (with_gtp_cfg_len (zlen v) (g_ts s)) s).
  { eexists _, _. by rewrite ts_set_eq. }
  intros ? ? ->. set (s1 := with_g_ts _ s).
  assert (kept s s1) as K1 by (exists [], (g_st s), (g_ts s1); rewrite ext_nil; split_and!; [by destruct s|constructor|done|done]).
  unfold GTP_CONFIG_MAX_LENGTH, GTP_ADDR_LENGTH. pose proof (zlen_nonneg v).
  destruct ((zlen v =? 0) || (240 <? zlen v)) eqn:E; [apply returns_ret; split; [done|lia]|].
  apply orb_false_iff in E as [E1 E2]. bool_cases.
  eapply returns_bind; [apply returns_gets|]. intros ? ? [-> ->].
  rewrite memcpy_Some by (unfold zlen in *; cbn; lia).
  eapply returns_bind; [apply returns_ret with (Q := fun a s' => a = splice (config (g_st s1)) 2 v /\ s' = s1)|].
  { split; [|done]. rewrite drop_0. change (Z.to_nat 2) with 2%nat. by rewrite take_ge by (unfold zlen; lia). }
  intros ? ? [-> ->]. eexists _, _. split; [reflexivity|]. split; [|right; cbn; lia]. etransitivity; [exact K1|].
  eexists [], _, (g_ts s1). rewrite ext_nil. split_and!; [reflexivity|constructor| |done]. cbn. rewrite Hc. by apply splice_in.
Qed.

Lemma kept_live s s' : kept s s' -> g_ptr s' = g_ptr s /\ length (config (g_st s')) = length (config (g_st s)) /\ g_upd s' = g_upd s.
Proof. by intros (tr & st & d & -> & _ & L & _). Qed.

Lemma gup_init_panel_kept s :
  g_ptr s = Live -> length (config (g_st s)) = 242%nat -> returns gup_init_panel s (fun _ s' => kept s s').
Proof.
  intros Hp Hc. unfold gup_init_panel.
  eapply returns_bind; [eapply emits_kept; [apply dbl_one|intros ? ? [A _]; by apply bus_silent, asks_bus]|].
  intros o s1 (U1 & tr & _ & Ho). pose proof (upto_kept _ _ U1) as K1. destruct (kept_live _ _ K1) as (P1 & C1 & _).
  destruct Ho as [[-> _]|(sid & -> & _)]; [by apply returns_ret|]. change (load8 [sid] 0) with (Some sid).
  eapply returns_bind; [apply returns_ret with (Q := fun a s' => a = sid /\ s' = s1); done|]. intros ? ? [-> ->].
  destruct (6 <=? sid); [by apply returns_ret|].
  eapply returns_bind; [apply parse_cfg_kept; congruence|]. intros r s2 [K2 Hr]. destruct (kept_live _ _ K2) as (P2 & C2 & _).
  assert (kept s s2) as K02 by (by transitivity s1). destruct (r <? 0) eqn:Er; bool_cases.
  { eapply returns_bind; [apply ts_set_kept; [congruence|done]|]. intros ? s3 K3. apply returns_ret. by transitivity s2. }
  destruct Hr as [Hr|Hr]; [lia|]. eapply returns_bind; [apply returns_ts_get; congruence|]. intros ? ? [-> ->].
  unfold GTP_CONFIG_MIN_LENGTH. destruct (_ <? 186) eqn:El; bool_cases; [by apply returns_ret|].
  eapply returns_mono; [apply resend_config_upto; split_and!; [congruence|congruence|lia|lia]|].
  intros ? s3 U3. transitivity s2; [done|by apply upto_kept].
Qed.

End PanelAgain.

(** ** The update as a whole *)

Section UpdateFacts.
Context `{GtpKernel}.

Lemma hold_loop_emits n : forall r rd s, length rd = 3%nat -> emits (hold_loop n r rd) s (fun _ tr => bus tr).
Proof.
  induction n as [|n IH]; intros r rd s Lr; cbn [hold_loop]; [apply emits_ret; constructor|].
  assert (forall rd' t, length rd' = 3%nat -> bus t ->
    emits (hold_loop n (r + 1) rd') (ext t s) (fun _ tr => bus (t ++ tr))) as Next.
  { intros rd' t L B. eapply emits_mono; [by apply IH|]. intros ? tr ?. by apply bus_app. }
  eapply emits_bind; [apply set_emits|]. intros x tr [Ho _]. pose proof (only_write _ _ Ho) as B.
  destruct (x <=? 0); [by apply Next|].
  eapply emits_bind; [apply get_emits; unfold zlen; rewrite ?Lr; lia|]. intros [y rd2] tr2 (L2 & HQ). cbn [fst snd] in *.
  assert (bus (tr ++ tr2)) as B2.
  { apply bus_app. split; [done|]. destruct HQ as [[_ [->|Ho2]]|(_ & Ho2 & _)]; [constructor|by eapply only_read..]. }
  rewrite ext_ext. assert (emits (hold_loop n (r + 1) rd2) (ext (tr ++ tr2) s) (fun _ tr' => bus (tr ++ tr2 ++ tr'))) as Nx.
  { eapply emits_mono; [apply Next; [by rewrite L2|done]|]. intros ? t Hb. cbn beta in Hb. by rewrite <- app_assoc in Hb. }
  destruct (y <=? 0); [exact Nx|].
  destruct (load8_some rd2 GTP_ADDR_LENGTH) as [v Ev]; [unfold zlen, GTP_ADDR_LENGTH; lia|]. rewrite Ev.
  eapply emits_bind; [by apply emits_lift|]. intros ? ? [-> ->]. rewrite ext_nil. cbn [app].
  destruct (v =? 12); [|exact Nx]. apply emits_ret. by rewrite app_nil_r.
Qed.

Lemma enter_mode_walks s : walks gup_enter_update_mode s (fun _ => True).
Proof.
  unfold gup_enter_update_mode, walks. eapply emits_bind; [apply junk_emits|]. intros rd ? [Lr ->]. rewrite ext_nil. cbn [app].
  do 8 e_step. set (pins := [_; _; _; _; _; _]). eapply emits_bind; [by apply hold_loop_emits|]. intros n tr B.
  assert (bus (pins ++ tr)) as B0 by (apply bus_app; split; [by repeat constructor|done]).
  destruct (200 <=? n).
  - apply emits_ret. rewrite app_nil_r. split; [exact B0|by left].
  - eapply emits_mono; [apply set_emits|]. intros r t (Ho & HQ). split; [|destruct HQ as [?|[? _]]; auto].
    change (bus (pins ++ tr ++ t)). rewrite app_assoc. apply bus_app. split; [exact B0|exact (only_write _ _ Ho)].
Qed.

(** What asking the chip changes. *)
Definition ic_only (u u' : update) : Prop :=
  exists f h p v, u' = with_force_update f (with_ic_hw_info h (with_ic_pid p (with_ic_vid v u))).

Lemma ic_only_refl u : ic_only u u.
Proof. exists (force_update u), (ic_hw_info u), (ic_pid u), (ic_vid u). by destruct u. Qed.

Lemma ic_only_trans a b c : ic_only a b -> ic_only b c -> ic_only a c.
Proof. intros (? & ? & ? & ? & ->) (f & h & p & v & ->). by exists f, h, p, v. Qed.

#[export] Instance ic_only_preorder : PreOrder ic_only.
Proof. split; [exact ic_only_refl|exact ic_only_trans]. Qed.

Lemma ic_force f u : ic_only u (with_force_update f u).
Proof. exists f, (ic_hw_info u), (ic_pid u), (ic_vid u). by destruct u. Qed.

Lemma ic_hw h u : ic_only u (with_ic_hw_info h u).
Proof. exists (force_update u), h, (ic_pid u), (ic_vid u). by destruct u. Qed.

Lemma ic_pid_only p u : ic_only u (with_ic_pid p u).
Proof. exists (force_update u), (ic_hw_info u), p, (ic_vid u). by destruct u. Qed.

Lemma ic_vid_only v u : ic_only u (with_ic_vid v u).
Proof. exists (force_update u), (ic_hw_info u), (ic_pid u), v. by destruct u. Qed.

Lemma fw_msg_does n : forall retry buf s, length buf = 16%nat ->
  does (fw_msg_loop n retry buf) s (fun o u tr => silent tr /\ exists f, u = with_force_update f (g_upd s)).
Proof.
  induction n as [|n IH]; intros retry buf s Lb; cbn [fw_msg_loop].
  { apply does_ret. split; [constructor|]. exists (force_update (g_upd s)). by destruct (g_upd s). }
  eapply does_bind; [apply emits_does, get_emits; unfold zlen; rewrite ?Lb; lia|].
  intros [y b2] u tr (-> & L2 & HQ). cbn [fst snd] in *. rewrite with_upd_same.
  assert (silent tr) as B.
  { apply bus_silent. destruct HQ as [[_ [->|Ho2]]|(_ & Ho2 & _)]; [constructor|by eapply only_read..]. }
  destruct (y =? FAIL).
  { apply does_ret. rewrite app_nil_r. split; [done|]. exists (force_update (g_upd s)). rewrite ext_upd. by destruct (g_upd s). }
  destruct (load8_some b2 GTP_ADDR_LENGTH) as [v Ev]; [unfold zlen, GTP_ADDR_LENGTH; lia|]. rewrite Ev.
  eapply does_bind; [apply emits_does; by apply emits_lift|]. intros ? ? ? (-> & -> & ->). d_norm. d_step.
  destruct (_ && _).
  - eapply does_mono; [apply IH; by rewrite L2|]. intros o u tr' (B' & f & ->). split; [by apply silent_app|]. by exists f.
  - apply does_ret. rewrite app_nil_r. split; [done|]. by exists v.
Qed.

(** A string in an array with a 0. *)
Lemma first_zero l : 0 ∈ l -> exists a r, l = a ++ 0 :: r /\ nul_free a.
Proof.
  induction l as [|x l IH]; intros Hin; [by apply elem_of_nil in Hin|]. destruct (decide (x = 0)) as [->|Hx].
  - exists [], l. split; [done|constructor].
  - apply elem_of_cons in Hin as [?|Hin]; [done|]. destruct (IH Hin) as (a & r & -> & Ha). exists (x :: a), r.
    split; [done|by constructor].
Qed.

Lemma map_pid_ok d : length d = 6%nat -> length (map_pid d) = 8%nat /\ 0 ∈ map_pid d.
Proof.
  destruct d as [|d0 [|d1 [|d2 [|d3 [|d4 [|d5 []]]]]]]; try done. intros _. unfold map_pid. cbn [take app replicate].
  destruct (bool_decide _); (split; [done|]); apply list_elem_of_In; cbn; tauto.
Qed.

(** What the chip said is well formed. *)
Definition ic_known (u : update) : Prop :=
  length (ic_hw_info u) = 4%nat /\ length (ic_pid u) = 8%nat /\ 0 ∈ ic_pid u.

Lemma get_ic_does s :
  does gup_get_ic_fw_msg s (fun r u tr => silent tr /\ ic_only (g_upd s) u /\ (r = FAIL \/ r = SUCCESS /\ ic_known u)).
Proof.
  unfold gup_get_ic_fw_msg. eapply does_bind; [apply emits_does, junk_emits|]. intros buf ? ? (-> & Lb & ->). d_norm.
  eapply does_bind; [apply emits_does, dbl_asks; lia|]. intros o ? tr (-> & A & Ho). d_norm. pose proof (asks_silent _ A) as B.
  destruct o as [d|]; [|apply does_ret; rewrite app_nil_r; split_and!; [done|reflexivity|by left]].
  specialize (Ho d eq_refl). rewrite memcpy_Some by (unfold zlen, GTP_ADDR_LENGTH in *; lia).
  eapply does_bind; [apply emits_does; by apply emits_lift|]. intros ? ? ? (-> & -> & ->). d_norm. d_step.
  eapply does_bind; [apply fw_msg_does; rewrite length_splice; [done|]; rewrite length_take, length_drop; unfold GTP_ADDR_LENGTH; lia|].
  intros o u tr2 (B2 & f & ->). d_norm. assert (silent (tr ++ tr2)) as B02 by (by apply silent_app).
  set (u1 := with_force_update f _). assert (ic_only (g_upd s) u1) as I1 by (transitivity (with_ic_hw_info (reverse d) (g_upd s)); [apply ic_hw|apply ic_force]).
  destruct o as [buf2|]; [|apply does_ret; rewrite app_nil_r; split_and!; [done|done|by left]].
  eapply does_bind; [apply emits_does, dbl_asks; lia|]. intros o ? tr3 (-> & A3 & Ho3). d_norm. pose proof (asks_silent _ A3) as B3.
  assert (silent (tr ++ tr2 ++ tr3)) as B03 by (rewrite app_assoc; by apply silent_app).
  destruct o as [d2|]; [|apply does_ret; rewrite app_nil_r; split_and!; [done|done|by left]].
  specialize (Ho3 d2 eq_refl). d_step.
  destruct (load8_some d2 4) as [lo ->]; [lia|]. destruct (load8_some d2 5) as [hi ->]; [lia|].
  do 2 (eapply does_bind; [apply emits_does; by apply emits_lift|]; intros ? ? ? (-> & -> & ->); d_norm). d_step.
  apply does_ret. rewrite app_nil_r. cbn [g_upd ext with_g_trace with_g_upd]. split_and!; [done| |right].
  - transitivity u1; [done|]. transitivity (with_ic_pid (map_pid d2) u1); [apply ic_pid_only|apply ic_vid_only].
  - split; [done|]. destruct (map_pid_ok d2) as [Lm Hm]; [unfold zlen in Ho3; lia|]. split_and!; [|done|done].
    cbn. rewrite length_reverse. unfold zlen in Ho. lia.
Qed.

(** A file: bytes, and not 2 GiB of them. *)
Definition stored (c : list Z) : Prop := bytes c /\ zlen c < 2 ^ 31.

(** The product identifier in its head is a string. *)
Definition named (c : list Z) : Prop := 0 ∈ take 8 (drop 4 c).

Definition readable (c : list Z) : Prop := stored c /\ named c.

Lemma c_string_short b l : c_string b = Some l -> (length l < length b)%nat.
Proof.
  revert l. induction b as [|x b IH]; intros l; [done|]. cbn [c_string]. destruct (x =? 0); [intros [= <-]; cbn; lia|].
  destruct (c_string b) as [l'|]; [|done]. intros [= <-]. cbn. specialize (IH l' eq_refl). lia.
Qed.

Lemma c_string_none b : c_string b = None -> 0 ∉ b.
Proof.
  induction b as [|x b IH]; [intros _; apply not_elem_of_nil|]. cbn [c_string]. destruct (x =? 0) eqn:E; [done|]. bool_cases.
  destruct (c_string b); [done|]. intros _. apply not_elem_of_cons. split; [congruence|by apply IH].
Qed.

Lemma load_str_at b off : 0 <= off <= zlen b -> load_str b off = c_string (drop (Z.to_nat off) b).
Proof.
  intros Ho. unfold load_str. rewrite (proj2 (Z.ltb_ge off 0)), (proj2 (Z.ltb_ge (zlen b) off)) by lia. done.
Qed.

(** The decision, for every head: it is made, unless the product identifier
    has no end. *)
Lemma judge_cases h s :
  length h = 14%nat -> ic_known (g_upd s) ->
  (exists r, gup_enter_update_judge h s = Ret r s /\ (r = SUCCESS \/ r = FAIL)) \/
  ~ 0 ∈ take 8 (drop 4 h) /\ gup_enter_update_judge h s = Fault OutOfBounds s.
Proof.
  intros Lh (Li & Lp & Hi). unfold gup_enter_update_judge, load_le. rewrite range_eq by (unfold zlen; lia). cbn [fmap option_fmap option_map].
  rewrite bind_lift_Some. set (vid := u16 _). rewrite memcpy_Some by (unfold zlen; rewrite ?length_le_split; lia). rewrite bind_lift_Some.
  set (h2 := splice h _ _). set (u := g_upd s) in *. set (ic := ic_fw_msg u).
  assert (length h2 = 14%nat /\ take 8 (drop 4 h2) = take 8 (drop 4 h)) as [L2 E2].
  { clear -Lh. unfold h2. do 14 (destruct h as [|? h]; [done|]). destruct h; [|done]. done. }
  assert (length ic = 14%nat) as Lc by (unfold ic, ic_fw_msg; rewrite !length_app, Li, Lp, length_le_split; done).
  rewrite bind_unfold. cbn [g_gets]. fold u ic. rewrite !range_eq by (unfold zlen; lia). rewrite !bind_lift_eq.
  destruct (_ && _); [left; by exists SUCCESS; auto|]. destruct (negb _); [left; by exists FAIL; auto|].
  destruct (negb _); [left; by exists SUCCESS; auto|]. rewrite !load_str_at by (unfold zlen; lia).
  change (Z.to_nat 4) with 4%nat. destruct (c_string (drop 4 ic)) as [pid|] eqn:Ep.
  2:{ exfalso. apply (c_string_none _ Ep). unfold ic, ic_fw_msg. rewrite drop_app_length' by done. apply elem_of_app. by left. }
  rewrite bind_lift_eq. destruct (_ <? 3); [left; by exists SUCCESS; auto|]. destruct (negb _); [left; by exists SUCCESS; auto|].
  pose proof (c_string_short _ _ Ep) as Sp. rewrite length_drop in Sp. destruct (c_string (drop 4 h2)) as [fp|] eqn:Ef.
  - left. pose proof (c_string_short _ _ Ef) as Sf. rewrite length_drop in Sf. rewrite bind_lift_eq.
    rewrite !range_eq by (unfold zlen; lia). rewrite !bind_lift_eq.
    destruct (_ || _); [destruct (_ <? _)|]; [by exists SUCCESS; auto|by exists FAIL; auto..].
  - right. split; [|done]. rewrite <- E2. intros Hin. apply (c_string_none _ Ef).
    rewrite <- (take_drop 8 (drop 4 h2)). apply elem_of_app. by left.
Qed.

(** The address limit can be put back to [a]. *)
Definition fs_saved (a : Z) (u : update) : Prop :=
  match upd_file u with OpenFile _ => old_fs u = a /\ addr_limit u = KERNEL_DS | _ => addr_limit u = a end.

(** The file [c] was opened at [path], after [base]. *)
Definition opened_file (base : list teffect) (path c : list Z) : Prop :=
  exists t, gp_open (base ++ t ++ [FileOpen path]) = Some c.

Lemma opened_l base t path c : opened_file (base ++ t) path c -> opened_file base path c.
Proof. intros (t' & E). exists (t ++ t'). by rewrite <- !app_assoc in *. Qed.

Lemma check_file_does head path s :
  (forall tr c, gp_open tr = Some c -> stored c) ->
  does (gup_check_update_file head (Some path)) s (fun x u tr => silent tr /\ fs_saved (addr_limit (g_upd s)) u /\
    (fst x = FAIL \/ fst x = SUCCESS /\ exists c, opened_file (g_trace s) path c /\ valid_image c /\ snd x = take 14 c /\
       upd_file u = OpenFile c /\ fw_total_len u = zlen c - 14)).
Proof.
  intros Hr. unfold gup_check_update_file. d_step. unfold filp_open.
  set (u0 := with_got_file_flag 0 (g_upd s)). set (t := g_trace s ++ [FileOpen path]).
  eapply does_bind with (P := fun f u tr => u = u0 /\ tr = [FileOpen path] /\
    f = match gp_open t with Some c => OpenFile c | None => ErrFile end).
  { d_step. apply does_ret. done. }
  intros ? ? ? (-> & -> & ->). d_norm. d_step. d_step. destruct (gp_open t) as [c|] eqn:Eo.
  2:{ apply does_ret. split_and!; [by repeat constructor|done|by left]. }
  destruct (Hr t c Eo) as (Bc & Lc). d_step. set (u1 := with_got_file_flag BIN_FILE_READY _).
  eapply does_mono; [apply (check_image_does head c); try done|]. intros x u tr (R & F1 & F2 & F3 & HQ).
  split_and!; [constructor; [done|by apply reads_silent]|unfold fs_saved; rewrite F3; by split|].
  destruct HQ as [[? _]|(E & V & Sn & T)]; [by left|right]. split; [done|]. exists c. split_and!; try done. by exists [].
Qed.

(** In [tr], after [base], one attempt said SUCCESS: within it all parts of the
    image [c] were burned and confirmed. *)
Definition attempt_burned (base tr : list teffect) (c : list Z) : Prop :=
  exists s1 s2 t0 t1 t2, tr = t0 ++ t1 ++ t2 /\ g_trace s1 = base ++ t0 /\ burn_attempt s1 = Ret SUCCESS s2 /\
    g_trace s2 = g_trace s1 ++ t1 /\ burn_log (g_trace s1) t1 (pieces c).

Lemma attempt_l base t tr c : attempt_burned (base ++ t) tr c -> attempt_burned base (t ++ tr) c.
Proof.
  intros (s1 & s2 & t0 & t1 & t2 & -> & T1 & E & T2 & L). exists s1, s2, (t ++ t0), t1, t2.
  by rewrite <- !app_assoc in *.
Qed.

Lemma attempt_r base tr t c : attempt_burned base tr c -> attempt_burned base (tr ++ t) c.
Proof.
  intros (s1 & s2 & t0 & t1 & t2 & -> & T1 & E & T2 & L). exists s1, s2, t0, t1, (t2 ++ t).
  by rewrite <- !app_assoc in *.
Qed.

Lemma attempt_tried c s :
  image_of c (g_upd s) ->
  may burn_attempt s (fun r u tr => silent tr /\ progress (g_upd s) u /\ (r = FAIL \/ r = SUCCESS /\ attempt_burned (g_trace s) tr c)).
Proof.
  intros I. destruct (attempt_logs c s I) as [(r & u & tr & E & B & P & HQ)|?]; [left|by right].
  exists r, u, tr. split; [done|]. split_and!; [done|done|]. destruct HQ as [->|(-> & L & _)]; [by left|right]. split; [done|].
  eexists s, _, [], tr, []. rewrite !app_nil_r. by split_and!.
Qed.

Lemma attempt_loop_does n : forall retry c s,
  image_of c (g_upd s) -> 0 <= retry ->
  may (attempt_loop n retry) s (fun r u tr => silent tr /\ progress (g_upd s) u /\
    (r = retry + 1 + Z.of_nat n \/ r = 0 /\ attempt_burned (g_trace s) tr c)).
Proof.
  induction n as [|n IH]; intros retry c s I Hr; cbn [attempt_loop].
  { apply may_ret. split_and!; [constructor|reflexivity|left; lia]. }
  eapply may_bind; [by apply (attempt_tried c)|]. intros r u tr (B & P & HQ). destruct HQ as [->|(-> & L)].
  - change (FAIL =? FAIL) with true. cbn iota. eapply may_mono; [apply (IH (retry + 1) c); [exact (image_progress _ _ _ I P)|lia]|].
    intros r u' tr' (B' & P' & HQ). rewrite ext_upd, upd_of in P'. split_and!; [by apply silent_app|by transitivity u|].
    destruct HQ as [->|[-> L]]; [left; lia|right]. split; [done|]. by apply attempt_l.
  - change (SUCCESS =? FAIL) with false. cbn iota. apply may_ret. rewrite app_nil_r. split_and!; [done|done|by right].
Qed.

Lemma burn_all_does c s :
  image_of c (g_upd s) ->
  may burn_all s (fun r u tr => silent tr /\ progress (g_upd s) u /\
    (r = FAIL \/ r = SUCCESS /\ attempt_burned (g_trace s) tr c)).
Proof.
  intros I. unfold burn_all. eapply may_step; [apply emits_does, enter_mode_walks|]. intros r u tr (-> & B & HQ). d_norm.
  assert (silent tr) as B0 by (by apply bus_silent). destruct HQ as [->|[-> _]].
  { change (FAIL =? FAIL) with true. cbn iota. apply may_ret. rewrite app_nil_r. split_and!; [done|reflexivity|by left]. }
  change (SUCCESS =? FAIL) with false. cbn iota. eapply may_bind; [by apply (attempt_loop_does 5 0 c)|].
  intros r u tr' (B' & P' & HQ). d_norm. apply may_ret. rewrite app_nil_r. cbn [g_upd ext with_g_trace with_g_upd].
  split_and!; [by apply silent_app|done|]. destruct HQ as [->|[-> L]]; [by left|right]. split; [done|]. by apply attempt_l.
Qed.

Lemma end_update_does r s :
  does (end_update r) s (fun x u tr => silent tr /\
    (r = SUCCESS /\ x = SUCCESS /\ show_len u = 100 \/ r <> SUCCESS /\ x = FAIL /\ show_len u = 200) /\
    forall a, fs_saved a (g_upd s) -> addr_limit u = a).
Proof.
  unfold end_update. d_step.
  eapply does_bind with (P := fun _ u tr => silent tr /\ (forall a, fs_saved a (g_upd s) -> addr_limit u = a)).
  { unfold fs_saved. destruct (upd_file (g_upd s)) eqn:Ef.
    - apply does_ret. split; [constructor|]. by intros a ->.
    - apply does_ret. split; [constructor|]. by intros a ->.
    - eapply does_bind with (P := fun _ u tr => tr = [] /\ forall a, old_fs (g_upd s) = a /\ addr_limit (g_upd s) = KERNEL_DS -> addr_limit u = a).
      { destruct (old_fs (g_upd s) =? 0) eqn:E; bool_cases.
        - apply does_ret. split; [done|]. intros a [E1 E2]. rewrite E2. change KERNEL_DS with 0. congruence.
        - eapply does_mono; [apply does_upd|]. intros ? ? ? [-> ->]. split; [done|]. by intros fs0 [-> _]. }
      intros ? u ? [-> Ha]. d_norm. eapply does_mono; [apply emits_does, emits_do|]. intros ? ? ? (-> & ->).
      split; [by repeat constructor|exact Ha]. }
  intros ? u tr [B Ha]. d_norm. d_step. unfold show. destruct (r =? SUCCESS) eqn:E; bool_cases; d_step; apply does_ret;
    rewrite app_nil_r; (split_and!; [done| |exact Ha]); [left|right]; done.
Qed.

Lemma winv_upd u s : winv s -> winv (with_g_upd u s).
Proof. intros []. by constructor. Qed.

Lemma update_begin_eq s :
  winv s -> exists s', update_begin s = Ret tt s' /\ winv s' /\ g_upd s' = g_upd s /\ exists tr, g_trace s' = g_trace s ++ tr.
Proof.
  intros W. unfold update_begin. rewrite (bind_Ret _ _ _ _ _ (ts_set_eq _ _ (wi_ptr _ W))).
  pose proof (with_update_winv 1 s W) as W1. rewrite (irq_disable_off _ W1). eexists. split; [reflexivity|].
  split; [by apply irq_off_winv|]. split; [done|]. by eexists.
Qed.

Lemma update_end_eq s :
  winv s -> exists s', update_end s = Ret tt s' /\ winv s' /\ g_upd s' = g_upd s /\
    enter_update (g_ts s') = 0 /\ irq_is_disable (g_ts s') = 0 /\ exists tr, g_trace s' = g_trace s ++ tr.
Proof.
  intros W. unfold update_end. rewrite (bind_Ret _ _ _ _ _ (ts_set_eq _ _ (wi_ptr _ W))).
  pose proof (with_update_winv 0 s W) as W1. rewrite (irq_enable_on _ W1). eexists. split; [reflexivity|].
  split; [by apply irq_on_winv|]. split_and!; try done. by eexists.
Qed.

Lemma kept_trace s s' : kept s s' -> exists tr, g_trace s' = g_trace s ++ tr.
Proof. intros (tr & st & d & -> & _). by exists tr. Qed.

Lemma finish_update_returns r s :
  winv s -> returns (finish_update r) s (fun _ s' => winv s' /\ g_upd s' = g_upd s /\
    enter_update (g_ts s') = 0 /\ irq_is_disable (g_ts s') = 0 /\ exists tr, g_trace s' = g_trace s ++ tr).
Proof.
  intros W. unfold finish_update.
  eapply returns_bind; [eapply (emits_kept _ s (fun _ tr => silent tr)); [|done]|].
  { unfold gup_leave_update_mode. e_step. e_step. eapply emits_mono; [apply reset_emits|]. intros ? ? ->.
    constructor; [done|]. apply bus_silent, reset_bus. }
  intros ? s1 (U1 & _). eapply returns_bind; [eapply (emits_kept _ s1 (fun _ tr => silent tr)); [|done]|].
  { eapply emits_mono; [apply emits_do|]. intros ? ? ->. by repeat constructor. }
  intros ? s2 (U2 & _). assert (kept s s2) as K2 by (transitivity s1; by apply upto_kept).
  pose proof (kept_winv _ _ K2 W) as W2.
  eapply returns_bind with (P := fun _ s' => kept s s').
  { destruct (r =? SUCCESS); [|by apply returns_ret].
    eapply returns_bind; [apply returns_ts_get, W2|]. intros ? ? [-> ->]. destruct (negb _).
    - eapply returns_bind; [apply gup_init_panel_kept; apply W2|]. intros ? s3 K3. apply returns_ret. by transitivity s2.
    - eapply returns_bind; [eapply (emits_kept _ s2); [apply send_cfg_bus; apply W2|intros ? ? B; by apply bus_silent]|].
      intros x s3 (U3 & _). assert (kept s s3) as K3 by (transitivity s2; [done|by apply upto_kept]).
      destruct (x <? 0); [by apply returns_ret|].
      eapply returns_mono; [eapply (emits_kept _ s3 (fun _ tr => silent tr)); [|done]|].
      { eapply emits_mono; [apply emits_do|]. intros ? ? ->. by repeat constructor. }
      intros ? s4 (U4 & _). transitivity s3; [done|by apply upto_kept]. }
  intros ? s3 K3. destruct (update_end_eq s3 (kept_winv _ _ K3 W)) as (s4 & E4 & W4 & G4 & Hu & Hi & tr4 & T4).
  exists tt, s4. destruct (kept_live _ _ K3) as (_ & _ & Eu). destruct (kept_trace _ _ K3) as [tr3 T3].
  split_and!; try done; [congruence|]. exists (tr3 ++ tr4). by rewrite T4, T3, app_assoc.
Qed.

(** No burn command was sent. *)
Definition unburned (tr : list teffect) : Prop :=
  Forall (fun e => match e with XWrite b => take 2 b <> reg BOOT_CTL | _ => True end) tr.

Lemma unburned_app a b : unburned (a ++ b) <-> unburned a /\ unburned b.
Proof. apply Forall_app. Qed.

Lemma quit_loop_does n : forall s, does (quit_loop n) s (fun _ u tr => silent tr /\ unburned tr /\ progress (g_upd s) u).
Proof.
  induction n as [|n IH]; intros s; cbn [quit_loop]; d_step;
    (destruct (_ && _); [|apply does_ret; split_and!; [constructor|constructor|reflexivity]]).
  { apply does_ret. split_and!; [constructor|constructor|reflexivity]. }
  d_step. eapply does_bind with (P := fun _ u tr => tr = [] /\ progress (g_upd s) u).
  { destruct (gp_progress _) as [v|]; [|apply does_ret; by split].
    eapply does_mono; [apply does_upd|]. intros ? ? ? [-> ->]. split; [done|apply progress_show]. }
  intros ? u ? [-> P]. d_norm. eapply does_mono; [apply IH|]. intros ? u' tr (B & N & P'). rewrite ext_upd, upd_of in P'.
  split_and!; [by constructor|by constructor|by transitivity u].
Qed.

(** Before the file is opened. *)
Lemma prepare_does s :
  does prepare_update s
    (fun _ u tr => silent tr /\ unburned tr /\ addr_limit u = addr_limit (g_upd s)).
Proof.
  unfold prepare_update. d_step.
  eapply does_bind with (P := fun _ u tr => silent tr /\ unburned tr /\ addr_limit u = addr_limit (g_upd s)).
  { destruct (_ =? 0); [apply does_ret; split_and!; [constructor|constructor|done]|]. d_step.
    eapply does_mono; [apply quit_loop_does|]. intros ? u tr (B & N & p & b & sl & tl & ->). done. }
  intros ? u tr (B & N & A). d_norm. unfold show. d_step. d_step. eapply does_mono; [apply does_upd|].
  intros ? ? ? [-> ->]. by rewrite app_nil_r.
Qed.

(** The update from a file that is named. *)
Definition update_outcome (path : list Z) (s : gworld) (r : Z) (s' : gworld) : Prop :=
  winv s' /\ addr_limit (g_upd s') = addr_limit (g_upd s) /\
  (r = SUCCESS /\ show_len (g_upd s') = 100 \/ r = FAIL /\ show_len (g_upd s') = 200) /\
  (r = FAIL /\ g_ts s' = g_ts s \/ enter_update (g_ts s') = 0 /\ irq_is_disable (g_ts s') = 0) /\
  exists tr, g_trace s' = g_trace s ++ tr /\
    (r = SUCCESS -> exists c, opened_file (g_trace s) path c /\ valid_image c /\ attempt_burned (g_trace s) tr c).

Lemma end_outcome path r s0 s1 :
  winv s1 -> fs_saved (addr_limit (g_upd s0)) (g_upd s1) -> (r = SUCCESS \/ r = FAIL) ->
  (r = FAIL /\ g_ts s1 = g_ts s0 \/ enter_update (g_ts s1) = 0 /\ irq_is_disable (g_ts s1) = 0) ->
  (exists tr, g_trace s1 = g_trace s0 ++ tr /\
    (r = SUCCESS -> exists c, opened_file (g_trace s0) path c /\ valid_image c /\ attempt_burned (g_trace s0) tr c)) ->
  returns (end_update r) s1 (update_outcome path s0).
Proof.
  intros W F Hr Ht (tr & T & HQ). eapply returns_mono; [apply does_returns, end_update_does|].
  intros x s' (u & tr' & -> & B & Hx & Ha). unfold update_outcome. rewrite ext_upd, upd_of. split_and!.
  - apply winv_ext; [done|]. by apply winv_upd.
  - by apply Ha.
  - destruct Hx as [(_ & -> & ->)|(_ & -> & ->)]; auto.
  - destruct Hx as [(-> & -> & _)|(Hn & -> & _)]; [|by destruct Ht as [[_ ?]|?]; [left|right]].
    destruct Ht as [[? _]|?]; [done|by right].
  - exists (tr ++ tr'). rewrite ext_trace. cbn [g_trace with_g_upd]. rewrite T, app_assoc. split; [done|]. intros ->.
    destruct Hx as [(-> & _)|(_ & Hx & _)]; [|done]. destruct (HQ eq_refl) as (c & Ho & V & L).
    exists c. split; [done|]. split; [done|]. by apply attempt_r.
Qed.

(** A file without an end of its product identifier: [strlen] leaves the head. *)
Definition overruns {A} (base : list teffect) (path : list Z) (c : prog gworld A) (s : gworld) : Prop :=
  exists s' f, c s = Fault OutOfBounds s' /\ opened_file base path f /\ ~ named f.

(** [c] returns with [Q], or waits for ever, or reads past the end of the head
    of the file that was opened at [path] after [base]. *)
Definition ends {A} (base : list teffect) (path : list Z) (c : prog gworld A) (s : gworld) (Q : A -> gworld -> Prop) : Prop :=
  returns c s Q \/ hangs c s \/ overruns base path c s.

Lemma ends_step {A B} base path (c : prog gworld A) (k : A -> prog gworld B) s P Q :
  does c s P -> (forall a u tr, P a u tr -> ends base path (k a) (ext tr (with_g_upd u s)) Q) -> ends base path (bind c k) s Q.
Proof.
  intros (a & u & tr & E & Hp) K. destruct (K a u tr Hp) as [(b & s' & E' & Hq)|[Hg|(s' & f & E' & Hf & Hn)]].
  - left. exists b, s'. by rewrite (bind_Ret _ _ _ _ _ E).
  - right. left. by eapply hangs_after.
  - right. right. exists s', f. rewrite (bind_Ret _ _ _ _ _ E). by split_and!.
Qed.

(** From the decision on. *)
Lemma burn_update_ends path c t0 s0 s :
  image_of c (g_upd s) -> winv s -> fs_saved (addr_limit (g_upd s0)) (g_upd s) ->
  opened_file (g_trace s0) path c -> valid_image c -> g_trace s = g_trace s0 ++ t0 ->
  ends (g_trace s0) path burn_update s (update_outcome path s0).
Proof.
  intros I W F Ho V T. unfold burn_update. destruct (update_begin_eq s W) as (s1 & E1 & W1 & G1 & tr1 & T1).
  destruct (burn_all_does c s1) as [(r & u2 & tr2 & E2 & B2 & P2 & HQ)|Hg]; [by rewrite G1| |].
  2:{ right. left. eapply hangs_after; [exact E1|exact T1|]. by apply hangs_bind. }
  left. unfold returns. rewrite (bind_Ret _ _ _ _ _ E1), (bind_Ret _ _ _ _ _ E2). rewrite G1 in P2.
  eapply returns_bind; [apply finish_update_returns, winv_ext; [done|by apply winv_upd]|].
  intros ? s3 (W3 & G3 & Hu & Hi & tr3 & T3). rewrite ext_upd, upd_of in G3.
  apply end_outcome; [done| |destruct HQ as [->|[-> _]]; auto|by right|].
  - rewrite G3. destruct P2 as (p & b & sl & tl & ->). exact F.
  - exists (t0 ++ tr1 ++ tr2 ++ tr3). split.
    { rewrite T3, ext_trace. cbn [g_trace with_g_upd]. by rewrite T1, T, <- !app_assoc. }
    intros ->. destruct HQ as [?|[_ L]]; [done|]. exists c. split; [done|]. split; [done|].
    rewrite (app_assoc t0). apply attempt_l. rewrite app_assoc, <- T, <- T1. by apply attempt_r.
Qed.

Lemma ic_only_keeps u u' : ic_only u u' ->
  upd_file u' = upd_file u /\ fw_total_len u' = fw_total_len u /\ old_fs u' = old_fs u /\ addr_limit u' = addr_limit u.
Proof. by intros (f & h & p & v & ->). Qed.

Lemma update_spec path s :
  (forall tr c, gp_open tr = Some c -> stored c) -> winv s ->
  ends (g_trace s) path (gup_update_proc (Some path)) s (update_outcome path s).
Proof.
  intros Hr W. unfold gup_update_proc.
  eapply ends_step; [apply emits_does, junk_emits|]. intros head ? ? (-> & _ & ->). d_norm.
  eapply ends_step; [apply prepare_does|]. intros ? u1 tr1 (B1 & _ & A1).
  eapply ends_step; [apply (check_file_does head path _ Hr)|]. intros x u2 tr2 (B2 & F2 & Hx).
  rewrite ext_upd, upd_of, A1 in F2. d_norm.
  assert (forall tr u, silent tr -> fs_saved (addr_limit (g_upd s)) u ->
    ends (g_trace s) path (end_update FAIL) (ext tr (with_g_upd u s)) (update_outcome path s)) as Stop.
  { intros tr u B F. left. apply end_outcome; [apply winv_ext; [done|by apply winv_upd]|done|by right|by left|].
    exists tr. split; [done|]. discriminate. }
  assert (silent (tr1 ++ tr2)) as B12 by (by apply silent_app).
  destruct Hx as [->|(-> & c & Ho & V & Eh & Ef & Et)]; [by apply Stop|].
  apply opened_l in Ho. change (SUCCESS =? FAIL) with false. cbn iota.
  eapply ends_step; [apply get_ic_does|]. intros r u3 tr3 (B3 & I3 & Hic). d_norm.
  rewrite ext_upd, upd_of in I3. destruct (ic_only_keeps _ _ I3) as (K1 & K2 & K3 & K4).
  assert (silent ((tr1 ++ tr2) ++ tr3)) as B13 by (by apply silent_app).
  assert (fs_saved (addr_limit (g_upd s)) u3) as F3 by (unfold fs_saved in *; by rewrite K1, K3, K4).
  destruct Hic as [->|[-> Hic]]; [by apply Stop|]. change (SUCCESS =? FAIL) with false. cbn iota. rewrite Eh.
  pose proof (proj1 V) as V1. change FW_MIN_LENGTH with 43022 in V1. set (s3 := ext _ _).
  destruct (judge_cases (take 14 c) s3) as [(r & Ej & HQ)|[Hn Ej]]; [rewrite length_take; unfold zlen in V1; lia|exact Hic| |].
  2:{ right. right. exists s3, c. rewrite bind_unfold, Ej. split_and!; [done|done|]. unfold named. intros N. apply Hn.
      rewrite skipn_firstn_comm, take_take. by rewrite Nat.min_l by lia. }
  unfold ends, hangs, overruns, returns. rewrite (bind_Ret _ _ _ _ _ Ej).
  destruct HQ as [->| ->]; [|by apply Stop]. change (SUCCESS =? FAIL) with false. cbn iota.
  apply (burn_update_ends path c ((tr1 ++ tr2) ++ tr3) s); [|apply winv_ext; [done|by apply winv_upd]|done|done|done|done].
  cbn [g_upd ext with_g_trace with_g_upd s3]. split_and!; [by rewrite K1|by rewrite K2|exact V1|destruct Ho as (t & Ho); apply (Hr _ c Ho)].
Qed.

End UpdateFacts.
