(* ===== verification/GtLive.v ===== *)
(** * The touch-screen driver: updates that succeed

    A chip that works ([healthy]): transfers succeed, burn commands end, it
    remembers what is written to a page of the selected bank and to the reset
    register, and until it is told to burn its identifiers do not change.  On such
    a chip, with a valid image that the
    driver accepts and with memory and file at hand, an update reports
    SUCCESS.  At the end: what an update promises, on every chip and on such a
    chip. *)

From stdpp Require Import base list numbers strings.
From Stdlib Require Import ZArith Lia.
From S2P Require Import Prelude Text Kernel GoodixTool GtBus Gt9xx GtPanel GtProbe GtUpdate GtBurn GtFlash.
Open Scope Z_scope.

(** ** The memory of the chip *)

(** The bank selected after a trace, if any. *)
Definition bank_after (tr : list teffect) : option Z :=
  foldl (fun b e => match e with
                    | XWrite [x; y; v] => if bool_decide ([x; y] = reg SRAM_BANK) then Some v else b
                    | _ => b
                    end) None tr.

(** Effects that leave the memory at [a] alone: no message to [a], no pin. *)
Definition calm_effect (a : list Z) (e : teffect) : Prop :=
  match e with
  | XWrite b => take 2 b <> a
  | XRead _ _ | Sleep _ | Alloc _ | Free | FileRead _ _ => True
  | _ => False
  end.

Definition calm (a : list Z) (tr : list teffect) : Prop := Forall (calm_effect a) tr.

(** The last message to [a] was [d], in the bank that is selected now. *)
Definition holds (tr : list teffect) (a d : list Z) : Prop :=
  exists p q, tr = p ++ XWrite (a ++ d) :: q /\ calm a q /\ bank_after p = bank_after tr.

(** A page of the chip's memory, or the register that holds the processors. *)
Definition ram (a : list Z) : Prop := a = reg SWRST_B0 \/ exists x, 36864 <= x < 65536 /\ a = reg x.

Section Chip.
Context `{GtpKernel}.

(** A chip that works.  Transfers succeed, a burn command ends, and the memory
    and the reset register keep what is written to them.  What the chip says of
    itself: its hardware; and after [start], for as long as no burn command was
    sent, its product and version and that its firmware is whole.  Nothing is
    said of these once a command was sent. *)
Record healthy (start : list teffect) (hw id : list Z) : Prop := {
  h_bus : bus_works;
  h_settles : settles;
  h_ram : forall tr a d n old, ram a -> holds tr a d -> length old = length d -> gp_device (tr ++ [XRead a n]) a old = d;
  h_hw : forall tr old, length old = 4%nat -> gp_device tr (reg GUP_REG_HW_INFO) old = hw;
  h_id : forall tr old, unburned tr -> length old = 6%nat -> gp_device (start ++ tr) (reg GUP_REG_PID_VID) old = id;
  h_fw : forall tr old, unburned tr -> length old = 1%nat -> gp_device (start ++ tr) (reg GUP_REG_FW_MSG) old = [190]
}.

Lemma bank_snoc tr e : bank_after (tr ++ [e]) =
  match e with
  | XWrite [x; y; v] => if bool_decide ([x; y] = reg SRAM_BANK) then Some v else bank_after tr
  | _ => bank_after tr
  end.
Proof. unfold bank_after. rewrite foldl_app. done. Qed.

Lemma holds_write tr a d :
  bank_after (tr ++ [XWrite (a ++ d)]) = bank_after tr -> holds (tr ++ [XWrite (a ++ d)]) a d.
Proof. intros Hb. exists tr, []. by split_and!; [|constructor|]. Qed.

Lemma holds_more tr t a d :
  calm a t -> bank_after (tr ++ t) = bank_after tr -> holds tr a d -> holds (tr ++ t) a d.
Proof.
  intros Ct Hb (p & q & -> & Cq & Ep). exists p, (q ++ t). rewrite <- app_assoc. split_and!; [done|by apply Forall_app|].
  by rewrite Ep, <- Hb, <- app_assoc.
Qed.

Lemma reg_inj x y : 0 <= x < 65536 -> 0 <= y < 65536 -> reg x = reg y -> x = y.
Proof.
  intros Hx Hy [= E1 E2]. unfold u8 in *. change 255 with (Z.ones 8) in E2. rewrite !Z.land_ones, !Z.mod_mod in E2 by lia.
  rewrite !Z.shiftr_div_pow2 in E1 by lia. change (2 ^ 8) with 256 in *.
  rewrite !Z.mod_small in E1 by (split; [apply Z.div_pos|apply Z.div_lt_upper_bound]; lia).
  rewrite (Z.div_mod x 256), (Z.div_mod y 256) by lia. congruence.
Qed.

(** ** Steps that succeed *)

(** [c] says SUCCESS, and [Q] holds of all effects up to its end. *)
Definition sure (c : prog gworld Z) (s : gworld) (Q : list teffect -> Prop) : Prop :=
  exists tr, c s = Ret SUCCESS (ext tr s) /\ Q (g_trace s ++ tr).

Lemma sure_then c k s P Q :
  sure c s P -> (forall tr, P (g_trace (ext tr s)) -> sure k (ext tr s) Q) -> sure (and_then c k) s Q.
Proof.
  intros (tr & E & Hp) K. destruct (K tr Hp) as (tr' & E' & HQ). exists (tr ++ tr').
  unfold and_then. rewrite (bind_Ret _ _ _ _ _ E). change (SUCCESS <=? 0) with false. cbn iota. rewrite E', ext_ext.
  split; [done|]. by rewrite ext_trace, <- app_assoc in HQ.
Qed.

Lemma sure_success s (Q : list teffect -> Prop) : Q (g_trace s) -> sure (ret SUCCESS) s Q.
Proof. intros Hq. exists []. rewrite ext_nil, app_nil_r. done. Qed.

Lemma sure_pause ms k s Q : sure k (ext [Sleep ms] s) Q -> sure (do* g_do (Sleep ms); k) s Q.
Proof.
  intros (tr & E & HQ). exists (Sleep ms :: tr). unfold g_do. rewrite bind_modify.
  change (g_emit (Sleep ms) s) with (ext [Sleep ms] s). rewrite E, ext_ext. split; [done|]. by rewrite ext_trace, <- app_assoc in HQ.
Qed.

Lemma set_sure a v s : bus_works -> sure (gup_set_ic_msg a v) s (fun t => t = g_trace s ++ [set_effect a v]).
Proof.
  intros W. exists [set_effect a v]. unfold gup_set_ic_msg. split; [|done].
  change ([u8 (Z.shiftr a 8); u8 (Z.land a 255); u8 v]) with (reg a ++ [u8 v]). cbn [set_loop]. unfold GTP_ADDR_LENGTH.
  rewrite (bind_Ret _ _ _ _ _ (gwrite_works (reg a ++ [u8 v]) (2 + 1) s W ltac:(by vm_compute) ltac:(lia))). done.
Qed.

(** The pages [ps] of bank [b] are in the chip. *)
Definition mem_ok (t : list teffect) (b : option Z) (ps : list (Z * list Z)) : Prop :=
  bank_after t = b /\ Forall (fun p => holds t (reg (fst p)) (snd p)) ps.

Definition page_addrs (lo hi : Z) (ps : list (Z * list Z)) : Prop := Forall (fun p => lo <= fst p < hi) ps.

Lemma mem_more t t' b ps :
  bank_after (t ++ t') = bank_after t -> Forall (fun p => calm (reg (fst p)) t') ps -> mem_ok t b ps -> mem_ok (t ++ t') b ps.
Proof.
  intros Hb Hc [E M]. split; [by rewrite Hb|]. rewrite Forall_forall in *. intros p Hp. apply holds_more; auto.
Qed.

(** Reading and sleeping. *)
Definition idle_effect (e : teffect) : Prop := match e with XRead _ _ | Sleep _ => True | _ => False end.

Lemma bank_idle t t' : Forall idle_effect t' -> bank_after (t ++ t') = bank_after t.
Proof.
  revert t. induction t' as [|e t' IH]; intros t Hi; [by rewrite app_nil_r|]. inversion Hi as [|? ? He Hi']; subst.
  change (t ++ e :: t') with (t ++ [e] ++ t'). rewrite app_assoc, IH by done. rewrite bank_snoc. by destruct e.
Qed.

Lemma mem_idle t t' b ps : Forall idle_effect t' -> mem_ok t b ps -> mem_ok (t ++ t') b ps.
Proof.
  intros Hi. apply mem_more; [by apply bank_idle|]. rewrite Forall_forall. intros p _. eapply Forall_impl; [exact Hi|].
  by intros [].
Qed.

(** A register that is not memory; the bank may be selected again. *)
Lemma mem_set t b ps a v :
  page_addrs 36864 65536 ps -> 0 <= a < 36864 -> (a = SRAM_BANK -> b = Some (u8 v)) -> mem_ok t b ps ->
  mem_ok (t ++ [set_effect a v]) b ps.
Proof.
  intros Hp Ha Hb [E M]. assert (bank_after (t ++ [set_effect a v]) = bank_after t) as Eb.
  { rewrite bank_snoc. unfold set_effect, reg. cbn [app]. destruct (bool_decide _) eqn:Ed; [|done].
    apply bool_decide_eq_true, (reg_inj a SRAM_BANK) in Ed; [|lia|by vm_compute]. rewrite E. symmetry. by apply Hb. }
  apply mem_more; [done| |done]. unfold page_addrs in Hp. rewrite Forall_forall in *. intros p Hin. constructor; [|constructor].
  cbn. intros Er. change (reg a = reg (fst p)) in Er. specialize (Hp p Hin). cbn in Hp. apply reg_inj in Er; lia.
Qed.

(** A page that is written and read back. *)
Lemma page_written t a d n :
  36864 <= a < 65536 -> (2 <= length d)%nat ->
  bank_after ((t ++ [XWrite (reg a ++ d)]) ++ [XRead (reg a) n]) = bank_after t /\
  bank_after (t ++ [XWrite (reg a ++ d)]) = bank_after t.
Proof.
  intros Ha Hd. rewrite !bank_snoc. unfold reg. cbn [app]. by destruct d as [|? [|? ?]]; try (cbn in Hd; lia).
Qed.

Lemma mem_page t b ps a d n :
  mem_ok t b ps -> page_addrs 36864 a ps -> 36864 <= a < 65536 -> (2 <= length d)%nat ->
  mem_ok ((t ++ [XWrite (reg a ++ d)]) ++ [XRead (reg a) n]) b (ps ++ [(a, d)]).
Proof.
  intros M Hp Ha Hd. destruct (page_written t a d n Ha Hd) as [B1 B2]. destruct M as [E M]. split; [by rewrite B1|].
  apply Forall_app. split; [|constructor; [|constructor]].
  - unfold page_addrs in Hp. rewrite Forall_forall in *. intros p Hin. rewrite <- app_assoc. apply holds_more; [|by rewrite app_assoc|by apply M].
    repeat constructor. cbn. intros Er. change (reg a = reg (fst p)) in Er. specialize (Hp p Hin). cbn in Hp. apply reg_inj in Er; lia.
  - cbn [fst snd]. apply holds_more; [by repeat constructor|by rewrite B1, B2|]. by apply holds_write.
Qed.

Lemma gread_works buf len s :
  bus_works -> 2 <= len <= zlen buf -> len - 2 < 65536 ->
  let e := XRead (take 2 buf) (len - 2) in
  gup_i2c_read buf len s = Ret (2, answer (g_trace s ++ [e]) buf (len - 2)) (ext [e] s).
Proof.
  intros W Hl Hn e. unfold gup_i2c_read. cbn [rd_loop].
  rewrite bind_bind, (bind_Ret _ _ _ _ _ (xfer_read_eq buf len s Hl Hn)). cbv zeta. fold e. cbn [fst snd].
  assert (gp_xfer (g_trace s ++ [e]) = 2) as -> by apply W. reflexivity.
Qed.

(** A read of a register whose contents are known. *)
Lemma gread_known addr r d s n :
  bus_works -> (n <= length r)%nat -> Z.of_nat n < 65536 ->
  gp_device (g_trace s ++ [XRead (reg addr) (Z.of_nat n)]) (reg addr) (take n r) = d ->
  gup_i2c_read (reg addr ++ r) (2 + Z.of_nat n) s =
    Ret (2, reg addr ++ d ++ drop n r) (ext [XRead (reg addr) (Z.of_nat n)] s).
Proof.
  intros W Lr Hn Hd.
  assert (2 + Z.of_nat n <= zlen (reg addr ++ r)) as Lz by (unfold zlen; rewrite length_app; cbn [length reg]; lia).
  pose proof (gread_works (reg addr ++ r) (2 + Z.of_nat n) s W) as R. cbv zeta in R.
  replace (2 + Z.of_nat n - 2) with (Z.of_nat n) in R by lia. rewrite R by lia.
  change (take 2 (reg addr ++ r)) with (reg addr). f_equal. f_equal. unfold answer.
  change (take 2 (reg addr ++ r)) with (reg addr). change (drop 2 (reg addr ++ r)) with r. rewrite Nat2Z.id.
  assert (length (take n r) = n) as Lt by (rewrite length_take; lia). rewrite Hd.
  assert (length d = n) as Ld by (by rewrite <- Hd, gp_device_len).
  unfold splice. change (take 2 (reg addr ++ r)) with (reg addr). by rewrite Ld.
Qed.

Lemma get_known addr buf d s n :
  bus_works -> (n + 2 <= length buf)%nat -> Z.of_nat n < 65536 ->
  gp_device (g_trace s ++ [XRead (reg addr) (Z.of_nat n)]) (reg addr) (take n (drop 2 buf)) = d ->
  gup_get_ic_msg addr buf (Z.of_nat n) s =
    Ret (SUCCESS, reg addr ++ d ++ drop (n + 2) buf) (ext [XRead (reg addr) (Z.of_nat n)] s).
Proof.
  intros W Lb Hn Hd. unfold gup_get_ic_msg. destruct buf as [|x [|y r]]; try (cbn in Lb; lia).
  rewrite store8_in by (unfold zlen; cbn [length]; lia). rewrite bind_lift_Some.
  rewrite store8_in by (unfold zlen; rewrite length_insert; cbn [length]; lia). rewrite bind_lift_Some.
  change (<[Z.to_nat 1 := _]> (<[Z.to_nat 0 := _]> (x :: y :: r))) with (reg addr ++ r).
  cbn [get_loop]. unfold GTP_ADDR_LENGTH. rewrite (bind_Ret _ _ _ _ _ (gread_known addr r d s n W ltac:(cbn in Lb; lia) Hn Hd)).
  cbn [fst snd]. change (0 <? 2) with true. cbn iota. by rewrite Nat.add_comm.
Qed.

Context (start : list teffect) (hw id : list Z) (Hh : healthy start hw id).

Lemma frame_sure a d r s :
  36864 <= a < 65536 -> length d = 256%nat -> length r = 256%nat ->
  frame_loop 5 (reg a ++ d) (reg a ++ r) 256 s =
    Ret (true, reg a ++ d) (ext [XWrite (reg a ++ d); XRead (reg a) 256] s).
Proof.
  intros Ha Ld Lr. cbn [frame_loop]. unfold GTP_ADDR_LENGTH. change (2 + 256) with 258.
  assert (zlen (reg a ++ d) = 258) as Lz by (unfold zlen; rewrite length_app, Ld; done).
  rewrite (bind_Ret _ _ _ _ _ (gwrite_works (reg a ++ d) 258 s (h_bus _ _ _ Hh) ltac:(lia) ltac:(lia))).
  change (1 <=? 0) with false. cbn iota. rewrite (take_ge (reg a ++ d)) by (unfold zlen in Lz; lia).
  set (s1 := ext [XWrite (reg a ++ d)] s).
  assert (gp_device (g_trace s1 ++ [XRead (reg a) (Z.of_nat 256)]) (reg a) (take 256 r) = d) as Hd.
  { apply (h_ram _ _ _ Hh); [right; by exists a| |rewrite length_take; lia].
    unfold s1. rewrite ext_trace. apply holds_write. apply (page_written (g_trace s) a d 256 Ha). lia. }
  pose proof (gread_known a r d s1 256 (h_bus _ _ _ Hh) ltac:(lia) ltac:(lia) Hd) as R. rewrite (drop_ge r), app_nil_r in R by lia.
  change (2 + Z.of_nat 256) with 258 in R. change (Z.of_nat 256) with 256 in R. rewrite (bind_Ret _ _ _ _ _ R). cbn [fst snd].
  change (2 <=? 0) with false. cbn iota. change 2 with GTP_ADDR_LENGTH. rewrite data_range by lia. rewrite !bind_lift_Some.
  rewrite bool_decide_eq_true_2 by done. unfold s1. by rewrite ext_ext.
Qed.

Lemma burn_loop_sure b k : forall n buf addr done ps w r s,
  (k <= n)%nat -> 0 <= done -> done + 256 * Z.of_nat k <= zlen buf -> done + 256 * Z.of_nat k < 65536 ->
  length w = 258%nat -> length r = 258%nat -> 36864 <= addr -> addr + 256 * Z.of_nat k <= 65536 ->
  mem_ok (g_trace s) b ps -> page_addrs 36864 addr ps ->
  sure (burn_loop n buf addr done (done + 256 * Z.of_nat k) w r) s
    (fun t => mem_ok t b (ps ++ pages k addr (drop (Z.to_nat done) buf))).
Proof.
  induction k as [|k IH]; intros n buf addr done ps w r s Hk H1 H2 H3 Lw Lr Ha Hb M Pa.
  { replace (done + 256 * Z.of_nat 0) with done by lia.
    destruct n; cbn [burn_loop pages]; rewrite Z.ltb_irrefl; apply sure_success; by rewrite app_nil_r. }
  destruct n as [|n]; [lia|]. unfold sure. cbn [burn_loop]. destruct (_ <? _) eqn:E; bool_cases; [|lia].
  unfold PACK_SIZE. rewrite Z.min_l by lia. rewrite !frame_head_eq by lia. rewrite !bind_lift_Some.
  set (l := drop (Z.to_nat done) buf). assert (256 <= length l)%nat as Ll by (unfold l; rewrite length_drop; unfold zlen in H2; lia).
  assert (length (take 256 l) = 256%nat) as Lt by (rewrite length_take; lia).
  assert (memcpy (reg addr ++ drop 2 w) GTP_ADDR_LENGTH buf done 256 = Some (reg addr ++ take 256 l)) as ->.
  { assert (zlen (reg addr ++ drop 2 w) = 258) by (unfold zlen; rewrite length_app, length_drop, Lw; done).
    unfold GTP_ADDR_LENGTH. rewrite memcpy_Some by lia. f_equal. change (Z.to_nat 2) with 2%nat. change (Z.to_nat 256) with 256%nat.
    fold l. unfold splice. change (take 2 (reg addr ++ drop 2 w)) with (reg addr). f_equal.
    rewrite drop_ge, app_nil_r; [done|]. rewrite length_app, length_drop, Lw, Lt. done. }
  rewrite bind_lift_Some.
  rewrite (bind_Ret _ _ _ _ _ (frame_sure addr (take 256 l) (drop 2 r) s ltac:(lia) Lt ltac:(rewrite length_drop; lia))). cbn [fst snd].
  set (t := [XWrite _; XRead _ _]). rewrite (u16_id (done + 256)) by lia.
  replace (done + 256 * Z.of_nat (S k)) with (done + 256 + 256 * Z.of_nat k) by lia.
  assert (mem_ok (g_trace (ext t s)) b (ps ++ [(addr, take 256 l)])) as M'.
  { rewrite ext_trace. pose proof (mem_page (g_trace s) b ps addr (take 256 l) 256 M Pa ltac:(lia) ltac:(lia)) as X.
    by rewrite <- app_assoc in X. }
  assert (sure (burn_loop n buf (u16 (addr + 256)) (done + 256) (done + 256 + 256 * Z.of_nat k) (reg addr ++ take 256 l) (reg addr ++ take 256 l))
    (ext t s) (fun t => mem_ok t b ((ps ++ [(addr, take 256 l)]) ++ pages k (u16 (addr + 256)) (drop (Z.to_nat (done + 256)) buf)))) as (tr & Er & Mr).
  { destruct k as [|k].
    - replace (done + 256 + 256 * Z.of_nat 0) with (done + 256) by lia.
      destruct n; cbn [burn_loop pages]; rewrite Z.ltb_irrefl; apply sure_success; by rewrite app_nil_r.
    - rewrite u16_id by lia. apply IH; try lia; try done; [by rewrite length_app, Lt|by rewrite length_app, Lt|].
      apply Forall_app. split; [|by repeat constructor; cbn; lia].
      eapply Forall_impl; [exact Pa|]. intros p Hp. cbn in *. lia. }
  exists (t ++ tr). rewrite Er, ext_ext. split; [done|]. rewrite ext_trace, <- !app_assoc in Mr. cbn [app] in Mr. cbn [pages].
  unfold l. rewrite drop_drop. replace (Z.to_nat done + 256)%nat with (Z.to_nat (done + 256)) by lia. exact Mr.
Qed.

Lemma burn_sure b buf addr k s :
  bank_after (g_trace s) = b -> 256 * Z.of_nat k <= zlen buf -> 256 * Z.of_nat k < 65536 ->
  36864 <= addr -> addr + 256 * Z.of_nat k <= 65536 ->
  sure (gup_burn_proc buf addr (256 * Z.of_nat k)) s (fun t => mem_ok t b (pages k addr buf)).
Proof.
  intros Hb H1 H2 H3 H4. unfold gup_burn_proc, junk, sure.
  rewrite (bind_unfold (g_ask _)). cbn [g_ask]. rewrite (bind_unfold (g_ask _)). cbn [g_ask].
  apply (burn_loop_sure b k _ buf addr 0 []); try lia; try (apply gp_junk_len); [split; [done|constructor]|constructor].
Qed.

Lemma recall_loop_sure b k : forall n buf addr done rd s,
  (k <= n)%nat -> 0 <= done -> done + 256 * Z.of_nat k <= zlen buf -> done + 256 * Z.of_nat k < 65536 ->
  length rd = 258%nat -> 36864 <= addr -> addr + 256 * Z.of_nat k <= 65536 ->
  mem_ok (g_trace s) b (pages k addr (drop (Z.to_nat done) buf)) ->
  sure (recall_loop n buf addr done (done + 256 * Z.of_nat k) rd) s (fun _ => True).
Proof.
  induction k as [|k IH]; intros n buf addr done rd s Hk H1 H2 H3 Lr Ha Hb M.
  { replace (done + 256 * Z.of_nat 0) with done by lia.
    destruct n; cbn [recall_loop]; rewrite Z.ltb_irrefl; by apply sure_success. }
  destruct n as [|n]; [lia|]. unfold sure. cbn [recall_loop]. destruct (_ <? _) eqn:E; bool_cases; [|lia].
  unfold PACK_SIZE. rewrite Z.min_l by lia. set (l := drop (Z.to_nat done) buf) in *.
  assert (256 <= length l)%nat as Ll by (unfold l; rewrite length_drop; unfold zlen in H2; lia).
  assert (length (take 256 l) = 256%nat) as Lt by (rewrite length_take; lia).
  cbn [pages] in M. destruct M as [Mb M]. inversion M as [|? ? M1 M2]; subst. cbn [fst snd] in M1.
  assert (gp_device (g_trace s ++ [XRead (reg addr) (Z.of_nat 256)]) (reg addr) (take 256 (drop 2 rd)) = take 256 l) as Hd.
  { apply (h_ram _ _ _ Hh); [right; exists addr; split; [lia|done]|done|rewrite Lt, length_take, length_drop; lia]. }
  pose proof (get_known addr rd (take 256 l) s 256 (h_bus _ _ _ Hh) ltac:(lia) ltac:(lia) Hd) as R.
  rewrite (drop_ge rd), app_nil_r in R by lia. change (Z.of_nat 256) with 256 in R. rewrite (bind_Ret _ _ _ _ _ R). cbn [fst snd].
  change (SUCCESS <=? 0) with false. cbn iota.
  assert (zlen (reg addr ++ take 256 l) = 258) as Lz by (unfold zlen; rewrite length_app, Lt; done).
  rewrite data_range by lia. rewrite range_eq by lia. rewrite !bind_lift_Some. unfold data_of.
  change (drop 2 (reg addr ++ take 256 l)) with (take 256 l). fold l. change (Z.to_nat 256) with 256%nat.
  rewrite (take_ge (take 256 l)), bool_decide_eq_true_2 by (done || lia).
  rewrite (u16_id (done + 256)) by lia. set (t := [XRead _ _]).
  replace (done + 256 * Z.of_nat (S k)) with (done + 256 + 256 * Z.of_nat k) by lia.
  assert (sure (recall_loop n buf (u16 (addr + 256)) (done + 256) (done + 256 + 256 * Z.of_nat k) (reg addr ++ take 256 l))
    (ext t s) (fun _ => True)) as (tr & Er & _).
  { destruct k as [|k].
    - replace (done + 256 + 256 * Z.of_nat 0) with (done + 256) by lia.
      destruct n; cbn [recall_loop]; rewrite Z.ltb_irrefl; by apply sure_success.
    - rewrite u16_id in * by lia. apply IH; try lia; [by rewrite length_app, Lt|].
      rewrite ext_trace. apply mem_idle; [by repeat constructor|]. split; [done|].
      unfold l in M2. rewrite drop_drop in M2. replace (Z.to_nat (done + 256)) with (Z.to_nat done + 256)%nat by lia. exact M2. }
  exists (t ++ tr). by rewrite Er, ext_ext.
Qed.

Lemma recall_sure b buf addr k s :
  256 * Z.of_nat k <= zlen buf -> 256 * Z.of_nat k < 65536 -> 36864 <= addr -> addr + 256 * Z.of_nat k <= 65536 ->
  mem_ok (g_trace s) b (pages k addr buf) ->
  sure (gup_recall_check buf addr (256 * Z.of_nat k)) s (fun _ => True).
Proof.
  intros H1 H2 H3 H4 M. unfold gup_recall_check, junk, sure. rewrite (bind_unfold (g_ask _)). cbn [g_ask].
  apply (recall_loop_sure b k _ buf addr 0); try lia; [apply gp_junk_len|done].
Qed.

Lemma wait_loop_sure b ps n : forall rd base t s,
  length rd = 5%nat -> g_trace s = base ++ t ->
  Forall (fun e => e = XRead (reg BOOT_CTL) 1 \/ e = Sleep 10) t -> (naps t + S n = S gp_polls)%nat ->
  mem_ok (g_trace s) b ps -> sure (wait_loop (S n) rd) s (fun t => mem_ok t b ps).
Proof.
  induction n as [|n IH]; intros rd base t s Lr Et Ht Hn M; unfold sure; cbn [wait_loop];
    set (d := gp_device (g_trace s ++ [XRead (reg BOOT_CTL) (Z.of_nat 1)]) (reg BOOT_CTL) (take 1 (drop 2 rd)));
    (assert (length d = 1%nat) as Ld by (unfold d; rewrite gp_device_len, length_take, length_drop; lia));
    (destruct d as [|v []] eqn:Ed; try done);
    pose proof (get_known BOOT_CTL rd [v] s 1 (h_bus _ _ _ Hh) ltac:(lia) ltac:(lia) Ed) as R;
    change (Z.of_nat 1) with 1 in R; rewrite (bind_Ret _ _ _ _ _ R); cbn [fst snd];
    change (SUCCESS <=? 0) with false; cbn iota; unfold g_do; rewrite bind_modify;
    set (rest := drop (1 + 2) rd); change (load8 (reg BOOT_CTL ++ [v] ++ rest) GTP_ADDR_LENGTH) with (Some v); rewrite bind_lift_Some;
    set (e := [XRead (reg BOOT_CTL) 1; Sleep 10]); change (g_emit (Sleep 10) (ext [XRead (reg BOOT_CTL) 1] s)) with (ext [Sleep 10] (ext [XRead (reg BOOT_CTL) 1] s));
    rewrite ext_ext; change ([XRead (reg BOOT_CTL) 1] ++ [Sleep 10]) with e;
    (assert (mem_ok (g_trace s ++ e) b ps) as Me by (apply mem_idle; [by repeat constructor|done])).
  - exists e. assert (v = 0) as ->; [|by split].
    subst d. pose proof (h_settles _ _ _ Hh base t (take 1 (drop 2 rd)) Ht ltac:(lia)) as X.
    rewrite app_assoc, <- Et in X. change 1 with (Z.of_nat 1) in X at 1. rewrite X, length_take, length_drop, Lr in Ed. by injection Ed as <-.
  - destruct (v =? 0); [by exists e|].
    destruct (IH (reg BOOT_CTL ++ [v] ++ rest) base (t ++ e) (ext e s)) as (tr & Er & Mr).
    + unfold rest. rewrite !length_app, length_drop, Lr. done.
    + by rewrite ext_trace, Et, app_assoc.
    + apply Forall_app. split; [done|]. constructor; [by left|]. constructor; [by right|constructor].
    + rewrite naps_app. cbn. lia.
    + by rewrite ext_trace.
    + exists (e ++ tr). rewrite <- ext_ext. split; [exact Er|]. by rewrite ext_trace, <- app_assoc in Mr.
Qed.

Lemma wait_sure b ps s : mem_ok (g_trace s) b ps -> sure wait_burn s (fun t => mem_ok t b ps).
Proof.
  intros M. unfold wait_burn, junk, sure. rewrite (bind_unfold (g_ask _)). cbn [g_ask].
  apply (wait_loop_sure b ps gp_polls _ (g_trace s) []); try done; [apply gp_junk_len|by rewrite app_nil_r].
Qed.

(** One section. *)
Lemma sure_set a v k s Q : sure k (ext [set_effect a v] s) Q -> sure (and_then (gup_set_ic_msg a v) k) s Q.
Proof.
  intros K. eapply sure_then; [apply set_sure, Hh|]. intros tr E. rewrite ext_trace in E. by apply app_inv_head in E as ->.
Qed.

Lemma pages_addrs k : forall addr l,
  36864 <= addr -> addr + 256 * Z.of_nat k <= 65536 -> page_addrs 36864 65536 (pages k addr l).
Proof.
  induction k as [|k IH]; intros addr l Ha Hb; cbn [pages]; constructor; [cbn; lia|].
  destruct k as [|k]; [constructor|]. rewrite u16_id by lia. apply IH; lia.
Qed.

Lemma set_keeps s b addr k l a v :
  36864 <= addr -> addr + 256 * Z.of_nat k <= 65536 -> 0 <= a < 36864 -> (a = SRAM_BANK -> b = Some (u8 v)) ->
  mem_ok (g_trace s) b (pages k addr l) -> mem_ok (g_trace (ext [set_effect a v] s)) b (pages k addr l).
Proof. intros. rewrite ext_trace. apply mem_set; try done. by apply pages_addrs. Qed.

Lemma bank_set a v s : bank_after (g_trace (ext [set_effect a v] s)) =
  if bool_decide (reg a = reg SRAM_BANK) then Some (u8 v) else bank_after (g_trace s).
Proof. rewrite ext_trace, bank_snoc. done. Qed.

(** Burn, command, wait and check, with what comes between. *)
Lemma burn_then b buf addr k c s Q :
  bank_after (g_trace s) = b -> 256 * Z.of_nat k <= zlen buf -> 256 * Z.of_nat k < 65536 ->
  36864 <= addr -> addr + 256 * Z.of_nat k <= 65536 ->
  (forall tr, mem_ok (g_trace (ext tr s)) b (pages k addr buf) -> sure c (ext tr s) Q) ->
  sure (and_then (gup_burn_proc buf addr (256 * Z.of_nat k)) c) s Q.
Proof. intros H1 H2 H3 H4 H5 K. eapply sure_then; [by apply (burn_sure b)|exact K]. Qed.

Lemma wait_then b ps c s Q :
  mem_ok (g_trace s) b ps -> (forall tr, mem_ok (g_trace (ext tr s)) b ps -> sure c (ext tr s) Q) ->
  sure (and_then wait_burn c) s Q.
Proof. intros M K. eapply sure_then; [by apply (wait_sure b ps)|exact K]. Qed.

Lemma recall_then b buf addr k c s Q :
  256 * Z.of_nat k <= zlen buf -> 256 * Z.of_nat k < 65536 -> 36864 <= addr -> addr + 256 * Z.of_nat k <= 65536 ->
  mem_ok (g_trace s) b (pages k addr buf) -> (forall tr, sure c (ext tr s) Q) ->
  sure (and_then (gup_recall_check buf addr (256 * Z.of_nat k)) c) s Q.
Proof. intros H1 H2 H3 H4 M K. eapply sure_then; [by apply (recall_sure b)|]. intros tr _. apply K. Qed.

Definition any (t : list teffect) : Prop := True.

Ltac keeps := apply set_keeps; [lia|lia|by vm_compute|first [done|by intros ?]|].

Lemma section_sure sec addr cmd s :
  zlen sec = 8192 -> 36864 <= addr -> addr + 8192 <= 65536 -> sure (gup_burn_fw_section sec addr cmd) s any.
Proof.
  intros L Ha Hb. unfold gup_burn_fw_section. change FW_SECTION_LENGTH with (256 * Z.of_nat 32).
  do 4 apply sure_set. apply (burn_then (Some (u8 (bank_of cmd)))); try lia; [by rewrite !bank_set|].
  intros t1 M. apply sure_set, sure_pause, sure_set. apply (wait_then (Some (u8 (bank_of cmd))) (pages 32 addr sec)).
  { keeps. rewrite ext_trace. apply mem_idle; [by repeat constructor|]. keeps. exact M. }
  intros t2 M2. do 2 apply sure_set. eapply (recall_then (Some (u8 (bank_of cmd)))); try lia; [do 2 keeps; exact M2|].
  intros t3. apply sure_set. by apply sure_success.
Qed.

(** Command, wait and check. *)
Lemma commit_sure b buf addr k cmd c s Q :
  256 * Z.of_nat k <= zlen buf -> 256 * Z.of_nat k < 65536 -> 36864 <= addr -> addr + 256 * Z.of_nat k <= 65536 ->
  mem_ok (g_trace s) b (pages k addr buf) -> (forall tr, sure c (ext tr s) Q) ->
  sure (and_then (gup_set_ic_msg BOOT_CTL cmd) (and_then wait_burn (and_then (gup_recall_check buf addr (256 * Z.of_nat k)) c))) s Q.
Proof.
  intros H1 H2 H3 H4 M K. apply sure_set. apply (wait_then b (pages k addr buf)); [keeps; exact M|]. intros t2 M2.
  eapply recall_then; try done. intros t3. rewrite !ext_ext. apply K.
Qed.

Lemma gwake_section_sure sec k cmd s :
  256 * Z.of_nat k <= zlen sec -> 256 * Z.of_nat k < 28672 ->
  sure (gup_burn_fw_gwake_section sec 36864 (256 * Z.of_nat k) cmd) s any.
Proof.
  intros L1 L2. unfold gup_burn_fw_gwake_section. rewrite u16_id by lia. do 3 apply sure_set. apply sure_pause, sure_set.
  eapply burn_then; [reflexivity|lia..|]. intros t1 M. eapply commit_sure; [lia..|exact M|]. intros t2. by apply sure_success.
Qed.

(** ** Burning from the file *)

Context (Hmem : forall tr, gp_alloc tr = true) (Hread : forall tr, gp_read tr = true).

(** [c] says SUCCESS with progress only, and leaves [b] as the number of bytes burned. *)
Definition wins (c : prog gworld Z) (s : gworld) (b : Z) : Prop :=
  exists u tr, c s = Ret SUCCESS (ext tr (with_g_upd u s)) /\ progress (g_upd s) u /\ fw_burned_len u = b.

Lemma wins_ext c s s0 tr u b :
  progress (g_upd s) u -> s0 = ext tr (with_g_upd u s) -> wins c s0 b ->
  exists u' tr', c s0 = Ret SUCCESS (ext tr' (with_g_upd u' s)) /\ progress (g_upd s) u' /\ fw_burned_len u' = b.
Proof.
  intros P -> (u' & tr' & E & P' & B). exists u', (tr ++ tr'). rewrite ext_upd, upd_of in P'.
  split_and!; [rewrite E; by rewrite upd_ext, upd_twice, ext_ext|by transitivity u|done].
Qed.

Lemma wins_step c k s Q b : sure c s Q -> (forall tr, wins k (ext tr s) b) -> wins (and_then c k) s b.
Proof.
  intros (tr & E & _) K. unfold wins, and_then. rewrite (bind_Ret _ _ _ _ _ E). change (SUCCESS <=? 0) with false. cbn iota.
  eapply (wins_ext k s _ tr (g_upd s)); [reflexivity|by rewrite with_upd_same|apply K].
Qed.

Lemma wins_set a v k s b : (forall tr, wins k (ext tr s) b) -> wins (and_then (gup_set_ic_msg a v) k) s b.
Proof. apply (wins_step _ k s _ b (set_sure a v s (h_bus _ _ _ Hh))). Qed.

Lemma wins_pause ms k s b : wins k (ext [Sleep ms] s) b -> wins (do* g_do (Sleep ms); k) s b.
Proof.
  intros K. unfold wins, g_do. rewrite bind_modify. change (g_emit (Sleep ms) s) with (ext [Sleep ms] s).
  eapply (wins_ext k s _ [Sleep ms] (g_upd s)); [reflexivity|by rewrite with_upd_same|exact K].
Qed.

Lemma wins_upd f k s b :
  progress (g_upd s) (f (g_upd s)) -> wins k (with_g_upd (f (g_upd s)) s) b -> wins (do* upd_set f; k) s b.
Proof.
  intros P K. unfold wins, upd_set. rewrite bind_modify.
  eapply (wins_ext k s _ [] (f (g_upd s))); [exact P|by rewrite ext_nil|exact K].
Qed.

Lemma wins_show n k s b : wins k (with_g_upd (with_show_len n (g_upd s)) s) b -> wins (do* show n; k) s b.
Proof. apply wins_upd, progress_show. Qed.

Lemma wins_success s b : fw_burned_len (g_upd s) = b -> wins (ret SUCCESS) s b.
Proof. intros E. exists (g_upd s), []. rewrite ext_nil, with_upd_same. by split_and!. Qed.

Lemma wins_burned n s b : u32 (fw_burned_len (g_upd s) + n) = b -> wins (burned n) s b.
Proof. intros E. apply wins_upd; [apply progress_burned|]. by apply wins_success. Qed.

Lemma wins_then c k s b1 b2 :
  wins c s b1 -> (forall u tr, progress (g_upd s) u -> fw_burned_len u = b1 -> wins k (ext tr (with_g_upd u s)) b2) ->
  wins (and_then c k) s b2.
Proof.
  intros (u & tr & E & P & B) K. unfold wins, and_then. rewrite (bind_Ret _ _ _ _ _ E). change (SUCCESS <=? 0) with false. cbn iota.
  eapply (wins_ext k s _ tr u); [done|done|by apply K].
Qed.

Lemma wins_gets {A} (f : gworld -> A) k s b : wins (k (f s)) s b -> wins (let* n := g_gets f in k n) s b.
Proof. intros K. unfold wins. rewrite bind_unfold. exact K. Qed.

Lemma wins_memory size k s b :
  0 <= size -> (forall tr, wins (k (replicate (Z.to_nat size) 0)) (ext tr s) b) -> wins (with_memory size k) s b.
Proof.
  intros Hs K. unfold wins, with_memory. cbn [kzalloc_loop].
  rewrite bind_bind, (bind_Ret _ _ _ _ _ (kzalloc_eq size s Hmem Hs)), bind_ret. cbn [fst snd]. change (5 <=? 0 + 1) with false. cbn iota.
  rewrite bind_lift_Some. destruct (K [Alloc size]) as (u & tr & E & P & B). rewrite (bind_Ret _ _ _ _ _ E).
  unfold g_do. rewrite bind_modify. exists u, ([Alloc size] ++ tr ++ [Free]).
  rewrite ext_upd in P. split_and!; [|done|done]. rewrite upd_ext, <- !ext_ext. reflexivity.
Qed.

Lemma load_works m offset len whence c s :
  upd_file (g_upd s) = OpenFile c -> 0 <= len <= zlen m ->
  let off := if whence =? SEEK_SET then offset else fw_total_len (g_upd s) - offset in
  0 <= 14 + off < 2 ^ 32 ->
  does (gup_load_section_file m offset len whence) s (fun x u tr => pos_only (g_upd s) u /\ x = (SUCCESS, loaded c m off len)).
Proof.
  intros Hf Hl off Ho. unfold gup_load_section_file. d_step. rewrite Hf. d_step. d_step. set (p := if _ =? _ then u32 _ else _).
  assert (p = 14 + off) as ->.
  { unfold p, off, FW_HEAD_LENGTH in *. destruct (whence =? SEEK_SET); [rewrite u32_id; lia|rewrite u32_id; lia]. }
  eapply does_bind; [apply (file_read_does m len c (14 + off)); [done|done|lia]|]. intros x u tr (-> & Hx).
  rewrite Hread in Hx. destruct Hx as [-> ->]. cbn [fst snd].
  destruct (_ <? 0) eqn:E; bool_cases; [pose proof (zlen_nonneg (take (Z.to_nat len) (drop (Z.to_nat (14 + off)) c))); lia|].
  apply does_ret. split_and!; [by eexists|]. by rewrite splice_0.
Qed.

Lemma wins_load m offset len whence c k s b :
  upd_file (g_upd s) = OpenFile c -> 0 <= len <= zlen m ->
  let off := if whence =? SEEK_SET then offset else fw_total_len (g_upd s) - offset in
  0 <= 14 + off < 2 ^ 32 ->
  (forall p tr, wins (k (loaded c m off len)) (ext tr (with_g_upd (with_f_pos p (g_upd s)) s)) b) ->
  wins (load_then m offset len whence k) s b.
Proof.
  intros Hf Hl off Ho K. destruct (load_works m offset len whence c s Hf Hl Ho) as (x & u & tr & E & [p ->] & ->).
  unfold wins, load_then. rewrite (bind_Ret _ _ _ _ _ E). cbn [fst snd]. change (SUCCESS =? FAIL) with false. cbn iota.
  eapply (wins_ext _ s _ tr); [|reflexivity|apply K]. apply progress_pos. by eexists.
Qed.

Lemma wins_unless c k s b :
  image_of c (g_upd s) -> (zlen c - 14 <= fw_burned_len (g_upd s) -> b = fw_burned_len (g_upd s)) ->
  (fw_burned_len (g_upd s) < zlen c - 14 -> wins k s b) -> wins (unless_burned k) s b.
Proof.
  intros (_ & It & _) H1 H2. apply wins_gets. rewrite It.
  destruct (_ <=? _) eqn:E; bool_cases; [by apply wins_success; rewrite H1|by apply H2].
Qed.

(** ** The parts of the image *)

Lemma wins_part m offset len c k s b :
  image_of c (g_upd s) -> 0 <= len -> zlen m = len -> 0 <= offset -> 14 + offset + len <= zlen c ->
  (forall p tr, wins (k (part c offset len)) (ext tr (with_g_upd (with_f_pos p (g_upd s)) s)) b) ->
  wins (load_then m offset len SEEK_SET k) s b.
Proof.
  intros I Hl Lm Ho Hc K. pose proof (min_length _ _ I). eapply (wins_load _ _ _ _ c); [apply I|lia|cbn; lia|].
  intros p tr. cbn [Z.eqb SEEK_SET]. rewrite loaded_part by done. apply K.
Qed.

Lemma ss51_wins c s : image_of c (g_upd s) -> wins gup_burn_fw_ss51 s (u32 (fw_burned_len (g_upd s) + 32768)).
Proof.
  intros I. pose proof (min_length _ _ I) as L. unfold gup_burn_fw_ss51, FW_SECTION_LENGTH. apply wins_memory; [lia|]. intros t0.
  rewrite length_replicate. apply wins_set. intros t1.
  assert (zlen (replicate (Z.to_nat 8192) 255) = 8192) as L0 by (by apply zlen_replicate).
  assert (forall off, 0 <= off <= 24576 -> zlen (part c off 8192) = 8192) as Lp by (intros; apply part_length; lia).
  eapply wins_step; [apply (section_sure _ 49152 1); lia|]. intros t2. apply (wins_part _ _ _ c); [exact I|lia..|]. intros p1 t3.
  eapply wins_step; [apply (section_sure _ 57344 2); [apply Lp|..]; lia|]. intros t4.
  apply (wins_part _ _ _ c); [exact I|lia|apply Lp; lia|lia|lia|]. intros p2 t5.
  eapply wins_step; [apply (section_sure _ 49152 19); [apply Lp|..]; lia|]. intros t6.
  apply (wins_part _ _ _ c); [exact I|lia|apply Lp; lia|lia|lia|]. intros p3 t7.
  eapply wins_step; [apply (section_sure _ 57344 20); [apply Lp|..]; lia|]. intros t8. by apply wins_burned.
Qed.

Lemma gwake_wins_step c m i k s b :
  image_of c (g_upd s) -> 0 <= i < 4 -> zlen m = 8192 ->
  (forall m' p tr, zlen m' = 8192 -> wins (k m') (ext tr (with_g_upd (with_f_pos p (g_upd s)) s)) b) ->
  wins (gwake_then m i k) s b.
Proof.
  intros I Hi Lm K. unfold gwake_then. eapply (wins_load _ _ _ _ c); [apply I|unfold FW_SECTION_LENGTH; lia| |].
  { cbn [Z.eqb SEEK_SET]. change start_index with 53248. unfold FW_SECTION_LENGTH. lia. }
  intros p tr. set (m' := loaded _ _ _ _). assert (zlen m' = 8192) as L' by (unfold m', FW_SECTION_LENGTH; rewrite zlen_loaded; lia).
  change FW_SECTION_LENGTH with (256 * Z.of_nat 32). eapply wins_step; [apply gwake_section_sure; lia|].
  intros t. rewrite ext_ext. by apply K.
Qed.

Lemma gwake_wins c s :
  image_of c (g_upd s) -> fw_burned_len (g_upd s) < zlen c - 14 -> wins gup_burn_fw_gwake s (fw_burned_len (g_upd s)).
Proof.
  intros I Hb. apply (wins_unless c); [done|lia|]. intros _. apply wins_memory; [by vm_compute|]. intros t0. apply wins_set. intros t1.
  apply (gwake_wins_step c); [exact I|lia|by apply zlen_replicate|]. intros m0 p0 t2 L0.
  apply (gwake_wins_step c); [exact I|lia|done|]. intros m1 p1 t3 L1.
  apply (gwake_wins_step c); [exact I|lia|done|]. intros m2 p2 t4 L2.
  apply (gwake_wins_step c); [exact I|lia|done|]. intros m3 p3 t5 L3. by apply wins_success.
Qed.

(** Burn into the memory at 0x9000, command, wait and check. *)
Lemma wins_commit cmd k m c s b :
  256 * Z.of_nat k <= zlen m -> 256 * Z.of_nat k < 28672 -> (forall tr, wins c (ext tr s) b) ->
  wins (and_then (gup_burn_proc m 36864 (256 * Z.of_nat k)) (and_then (gup_set_ic_msg BOOT_CTL cmd)
    (and_then wait_burn (and_then (gup_recall_check m 36864 (256 * Z.of_nat k)) c)))) s b.
Proof.
  intros L1 L2 K.
  assert (sure (and_then (gup_burn_proc m 36864 (256 * Z.of_nat k)) (and_then (gup_set_ic_msg BOOT_CTL cmd)
    (and_then wait_burn (and_then (gup_recall_check m 36864 (256 * Z.of_nat k)) (ret SUCCESS))))) s any) as (tr & E & _).
  { eapply burn_then; [reflexivity|lia..|]. intros t1 M. eapply commit_sure; [lia..|exact M|]. intros t2. by apply sure_success. }
  destruct (K tr) as (u & tr' & E' & P & B). exists u, (tr ++ tr'). rewrite ext_upd in P. split_and!; [|done|done].
  rewrite upd_ext, ext_ext in E'. rewrite <- E'. revert E. unfold and_then, bind.
  repeat (match goal with |- context [match ?x with Ret _ _ => _ | _ => _ end] => destruct x; try done end;
          destruct (_ <=? 0); try done). cbn. by intros [= ->].
Qed.

Lemma dsp_wins c s : image_of c (g_upd s) -> wins gup_burn_fw_dsp s (u32 (fw_burned_len (g_upd s) + 4096)).
Proof.
  intros I. pose proof (min_length _ _ I) as L. unfold gup_burn_fw_dsp, FW_DSP_LENGTH, FW_SECTION_LENGTH.
  apply wins_memory; [lia|]. intros t0. apply (wins_part _ _ _ c); [exact I|lia|by apply zlen_replicate|lia|lia|]. intros p t1.
  do 4 (apply wins_set; intros ?). apply wins_pause. apply (wins_commit 5 16); [rewrite part_length; lia|lia|]. intros t2.
  by apply wins_burned.
Qed.

Lemma boot_section_wins m k cmd s :
  256 * Z.of_nat k <= zlen m -> 256 * Z.of_nat k < 28672 ->
  wins (burn_boot_section m (256 * Z.of_nat k) cmd) s (u32 (fw_burned_len (g_upd s) + 256 * Z.of_nat k)).
Proof.
  intros L1 L2. unfold burn_boot_section. do 3 (apply wins_set; intros ?). apply wins_pause, wins_set. intros ?.
  apply wins_commit; [done..|]. intros t3. by apply wins_burned.
Qed.

Lemma boot_part_wins c offset cmd m s :
  image_of c (g_upd s) -> 0 <= offset -> 14 + offset + 2048 <= zlen c -> zlen m = 2048 ->
  wins (load_then m offset 2048 SEEK_SET (fun b => burn_boot_section b 2048 cmd)) s (u32 (fw_burned_len (g_upd s) + 2048)).
Proof.
  intros I H1 H2 Lm. apply (wins_part _ _ _ c); [exact I|lia|done|lia|lia|]. intros p t1.
  refine (boot_section_wins (part c offset 2048) 8 cmd (ext t1 _) _ _); [rewrite part_length; lia|lia].
Qed.

Lemma boot_wins c s : image_of c (g_upd s) -> wins gup_burn_fw_boot s (u32 (fw_burned_len (g_upd s) + 2048)).
Proof.
  intros I. pose proof (min_length _ _ I) as L. apply wins_memory; [by vm_compute|]. intros t0.
  refine (boot_part_wins c 36864 6 _ (ext t0 s) I _ _ _); [lia|lia|by apply zlen_replicate].
Qed.

Lemma boot_isp_wins c s :
  image_of c (g_upd s) -> fw_burned_len (g_upd s) = 43008 ->
  wins gup_burn_fw_boot_isp s (if zlen c - 14 <=? 43008 then 43008 else 45056).
Proof.
  intros I Hb. apply (wins_unless c); [done|..]; rewrite Hb; intros E;
    (destruct (zlen c - 14 <=? 43008) eqn:Et; bool_cases; [try lia|try lia]).
  apply wins_memory; [by vm_compute|]. intros t0. apply wins_gets. rewrite ext_upd, Hb.
  pose proof (boot_part_wins c 38912 7 (zeros 2048) (ext t0 s) I ltac:(lia) ltac:(lia) ltac:(by apply zlen_zeros)) as X.
  rewrite ext_upd, Hb in X. exact X.
Qed.

(** Bytes burned after the link. *)
Definition all_burned (c : list Z) : Z :=
  let t := zlen c - 14 in if t <=? 43008 then 43008 else if t <=? 45056 then 45056 else 57344.

Lemma link_wins c s :
  image_of c (g_upd s) -> fw_burned_len (g_upd s) = (if zlen c - 14 <=? 43008 then 43008 else 45056) ->
  wins gup_burn_fw_link s (all_burned c).
Proof.
  intros I Hb. pose proof (min_length _ _ I) as L.
  assert (all_burned c = if zlen c - 14 <=? fw_burned_len (g_upd s) then fw_burned_len (g_upd s) else 57344) as ->.
  { rewrite Hb. unfold all_burned. cbv zeta. destruct (zlen c - 14 <=? 43008) eqn:E1; [by rewrite E1|done]. }
  apply (wins_unless c); [done|..]; intros E; (destruct (_ <=? fw_burned_len _) eqn:E0; bool_cases; try lia).
  assert (fw_burned_len (g_upd s) = 45056) as Hb' by (destruct (zlen c - 14 <=? 43008) eqn:E1; bool_cases; lia).
  apply wins_memory; [by vm_compute|]. intros t0. apply wins_gets. rewrite ext_upd, Hb'. cbv zeta.
  change (u32 (45056 - FW_DSP_ISP_LENGTH)) with 40960. change (u32 (40960 + FW_SECTION_LENGTH)) with 49152.
  change (FW_GLINK_LENGTH - FW_SECTION_LENGTH) with 4096. unfold FW_SECTION_LENGTH. fold (zeros 8192).
  assert (zlen (zeros 8192) = 8192) as Lz by (by apply zlen_zeros). set (m := zeros 8192) in *. clearbody m.
  pose proof (zlen_loaded c m 40960 8192 ltac:(lia)) as L1.
  eapply (wins_load _ _ _ _ c); [apply I|lia|cbn; lia|]. intros p t1. cbn [Z.eqb SEEK_SET].
  set (m1 := loaded c m 40960 8192) in *. clearbody m1.
  eapply wins_step; [apply (gwake_section_sure _ 32 56); lia|]. intros t2.
  eapply (wins_load _ _ _ _ c); [apply I|lia|cbn; lia|]. intros p2 t3. cbn [Z.eqb SEEK_SET].
  eapply wins_step; [apply (gwake_section_sure _ 16 57); rewrite ?zlen_loaded; lia|]. intros t4. apply wins_burned.
  change (u32 (fw_burned_len (g_upd s) + FW_GLINK_LENGTH) = 57344). by rewrite Hb'.
Qed.

Lemma finish_wins c s : image_of c (g_upd s) -> wins gup_burn_fw_finish s (fw_burned_len (g_upd s)).
Proof.
  intros I. pose proof (min_length _ _ I) as L. unfold gup_burn_fw_finish, FW_SECTION_LENGTH. apply wins_memory; [lia|]. intros t0.
  apply (wins_part _ _ _ c); [exact I|lia|by apply zlen_replicate|lia|lia|]. intros p t1. apply wins_set. intros t2.
  eapply wins_step; [apply (section_sure _ 49152 1); [apply part_length|..]; lia|]. intros t3.
  do 2 (apply wins_set; intros ?). by apply wins_success.
Qed.

Lemma dsp_isp_wins c s : image_of c (g_upd s) -> wins gup_burn_dsp_isp s (u32 (fw_burned_len (g_upd s) + 4096)).
Proof.
  intros I. pose proof (min_length _ _ I) as L. apply wins_memory; [by vm_compute|]. intros t0.
  fold (zeros FW_DSP_ISP_LENGTH). eapply (wins_load _ _ _ _ c); [apply I|by rewrite zlen_zeros| |].
  { cbn [Z.eqb SEEK_END SEEK_SET]. destruct I as (_ & It & _). rewrite ext_upd, It. unfold FW_DSP_ISP_LENGTH. lia. }
  intros p t1. do 7 (apply wins_set; intros ?).
  eapply wins_step; [eapply (burn_sure _ _ 49152 16); [reflexivity|rewrite ?zlen_loaded, ?zlen_zeros; by vm_compute|lia..]|]. intros ?.
  apply wins_set. intros ?. by apply wins_burned.
Qed.

(** One attempt. *)
Lemma attempt_wins c s : image_of c (g_upd s) -> wins burn_attempt s (all_burned c).
Proof.
  intros I. pose proof (min_length _ _ I) as L. unfold burn_attempt.
  apply wins_show. apply wins_upd; [apply progress_total|]. apply wins_upd; [apply progress_burned|].
  set (s1 := with_g_upd _ _). assert (image_of c (g_upd s1)) as I1 by exact I.
  assert (fw_burned_len (g_upd s1) = 0) as B1 by done. clearbody s1.
  eapply wins_then; [by apply (dsp_isp_wins c)|]. rewrite B1. intros u2 t2 P2 E2.
  apply wins_show. set (s2 := with_g_upd _ _). assert (image_of c (g_upd s2)) as I2 by exact (image_progress _ _ _ I1 P2).
  assert (fw_burned_len (g_upd s2) = 4096) as B2 by exact E2. clearbody s2.
  eapply wins_then; [apply (gwake_wins c); [done|lia]|]. rewrite B2. intros u3 t3 P3 E3.
  apply wins_show. set (s3 := with_g_upd _ _). assert (image_of c (g_upd s3)) as I3 by exact (image_progress _ _ _ I2 P3).
  assert (fw_burned_len (g_upd s3) = 4096) as B3 by exact E3. clearbody s3.
  eapply wins_then; [by apply (ss51_wins c)|]. rewrite B3. intros u4 t4 P4 E4.
  apply wins_show. set (s4 := with_g_upd _ _). assert (image_of c (g_upd s4)) as I4 by exact (image_progress _ _ _ I3 P4).
  assert (fw_burned_len (g_upd s4) = 36864) as B4 by exact E4. clearbody s4.
  eapply wins_then; [by apply (dsp_wins c)|]. rewrite B4. intros u5 t5 P5 E5.
  apply wins_show. set (s5 := with_g_upd _ _). assert (image_of c (g_upd s5)) as I5 by exact (image_progress _ _ _ I4 P5).
  assert (fw_burned_len (g_upd s5) = 40960) as B5 by exact E5. clearbody s5.
  eapply wins_then; [by apply (boot_wins c)|]. rewrite B5. intros u6 t6 P6 E6.
  apply wins_show. set (s6 := with_g_upd _ _). assert (image_of c (g_upd s6)) as I6 by exact (image_progress _ _ _ I5 P6).
  assert (fw_burned_len (g_upd s6) = 43008) as B6 by exact E6. clearbody s6.
  eapply wins_then; [by apply (boot_isp_wins c)|]. intros u7 t7 P7 E7.
  apply wins_show. set (s7 := with_g_upd _ _). assert (image_of c (g_upd s7)) as I7 by exact (image_progress _ _ _ I6 P7).
  eapply wins_then; [by apply (link_wins c)|]. intros u8 t8 P8 E8.
  apply wins_show. set (s8 := with_g_upd _ _). assert (image_of c (g_upd s8)) as I8 by exact (image_progress _ _ _ I7 P8).
  eapply wins_then; [by apply (finish_wins c)|]. intros u9 t9 P9 E9. apply wins_show, wins_success. cbn. by rewrite E9.
Qed.

(** ** Before and after *)

Lemma hold_sure n r rd s :
  length rd = 3%nat -> hold_loop (S n) r rd s = Ret (r + 1) (ext [set_effect SWRST_B0 12; XRead (reg SWRST_B0) 1] s).
Proof.
  intros Lr. cbn [hold_loop]. destruct (set_sure SWRST_B0 12 s (h_bus _ _ _ Hh)) as (tr & E & Et).
  apply app_inv_head in Et as ->. rewrite (bind_Ret _ _ _ _ _ E). change (SUCCESS <=? 0) with false. cbn iota.
  assert (gp_device (g_trace (ext [set_effect SWRST_B0 12] s) ++ [XRead (reg SWRST_B0) (Z.of_nat 1)]) (reg SWRST_B0) (take 1 (drop 2 rd)) = [12]) as Hd.
  { apply (h_ram _ _ _ Hh); [by left| |rewrite length_take, length_drop; cbn [length]; lia]. rewrite ext_trace. apply holds_write. by rewrite bank_snoc. }
  pose proof (get_known SWRST_B0 rd [12] _ 1 (h_bus _ _ _ Hh) ltac:(lia) ltac:(lia) Hd) as R. change (Z.of_nat 1) with 1 in R.
  rewrite (bind_Ret _ _ _ _ _ R). cbn [fst snd]. change (SUCCESS <=? 0) with false. cbn iota.
  set (rest := drop (1 + 2) rd). change (load8 (reg SWRST_B0 ++ [12] ++ rest) GTP_ADDR_LENGTH) with (Some 12). rewrite bind_lift_Some.
  rewrite ext_ext. reflexivity.
Qed.

Lemma enter_mode_sure s : sure gup_enter_update_mode s any.
Proof.
  unfold sure, gup_enter_update_mode, junk. rewrite (bind_unfold (g_ask _)). cbn [g_ask].
  do 2 (rewrite (bind_unfold (g_gets _)); cbn [g_gets]). unfold g_do.
  set (p1 := PinOut (gtp_rst_gpio _) 0). set (p2 := PinOut (gtp_int_gpio _) _). set (p3 := PinOut (gtp_rst_gpio _) 1).
  rewrite !bind_modify. set (s1 := g_emit (Sleep 5) _). assert (s1 = ext [p1; Sleep 2; p2; Sleep 2; p3; Sleep 5] s) as E1.
  { unfold s1. change (g_emit (Sleep 5)) with (ext [Sleep 5]). change (g_emit p3) with (ext [p3]). change (g_emit (Sleep 2)) with (ext [Sleep 2]).
    change (g_emit p2) with (ext [p2]). change (g_emit p1) with (ext [p1]). by rewrite !ext_ext. }
  rewrite (bind_Ret _ _ _ _ _ (hold_sure 199 0 _ s1 (gp_junk_len _ _))). change (200 <=? 0 + 1) with false. cbn iota.
  destruct (set_sure 16400 0 (ext [set_effect SWRST_B0 12; XRead (reg SWRST_B0) 1] s1) (h_bus _ _ _ Hh)) as (tr & E & _).
  rewrite E, E1, !ext_ext. by eexists.
Qed.

(** What the driver knows of the chip. *)
Definition identified (u : update) : update :=
  with_ic_vid (u16 (nth 4 id 0 + Z.shiftl (nth 5 id 0) 8)) (with_ic_pid (map_pid id) (with_force_update 190 (with_ic_hw_info (reverse hw) u))).

Lemma chip_lengths : length hw = 4%nat /\ length id = 6%nat.
Proof.
  split.
  - rewrite <- (h_hw _ _ _ Hh [] (replicate 4 0)) by done. by rewrite gp_device_len.
  - rewrite <- (h_id _ _ _ Hh [] (replicate 6 0)) by (constructor || done). by rewrite gp_device_len.
Qed.

(** No burn command was sent since [start]. *)
Definition fresh (t : list teffect) : Prop := exists tr, t = start ++ tr /\ unburned tr.

Lemma fresh_app t tr : fresh t -> unburned tr -> fresh (t ++ tr).
Proof. intros (t0 & -> & U) Ut. exists (t0 ++ tr). rewrite app_assoc. split; [done|]. by apply unburned_app. Qed.

Lemma id_known t old : fresh t -> length old = 6%nat -> gp_device t (reg GUP_REG_PID_VID) old = id.
Proof. intros (tr & -> & U). by apply Hh. Qed.

Lemma fw_known t old : fresh t -> length old = 1%nat -> gp_device t (reg GUP_REG_FW_MSG) old = [190].
Proof. intros (tr & -> & U). by apply Hh. Qed.

Lemma get_ic_works s :
  fresh (g_trace s) -> does gup_get_ic_fw_msg s (fun r u tr => r = SUCCESS /\ u = identified (g_upd s)).
Proof.
  intros Hf.
  destruct chip_lengths as [L1 L2]. unfold gup_get_ic_fw_msg. eapply does_bind; [apply emits_does, junk_emits|].
  intros buf ? ? (-> & Lb & ->). d_norm.
  pose proof (dbl_works GUP_REG_HW_INFO 4 s (h_bus _ _ _ Hh) ltac:(lia)) as D1. cbv beta zeta in D1. rewrite !(h_hw _ _ _ Hh) in D1 by done.
  eapply does_bind with (P := fun o u tr => o = Some hw /\ u = g_upd s /\ unburned tr).
  { eexists _, (g_upd s), _. rewrite with_upd_same. split; [by apply D1|]. split_and!; [done|done|by repeat constructor]. }
  intros ? ? t1 (-> & -> & N1). d_norm. rewrite memcpy_Some by (unfold zlen, GTP_ADDR_LENGTH; lia).
  eapply does_bind; [apply emits_does; by apply emits_lift|]. intros ? ? ? (-> & -> & ->). d_norm. d_step.
  set (b1 := splice _ _ _). assert (length b1 = 16%nat) as L3.
  { unfold b1. rewrite length_splice; [done|]. rewrite length_take, length_drop. unfold GTP_ADDR_LENGTH. lia. }
  set (s1 := ext _ (with_g_upd _ s)). cbn [fw_msg_loop].
  assert (fresh (g_trace s1)) as F1 by (apply (fresh_app (g_trace s)); [done|rewrite ?app_nil_r; exact N1]).
  eapply does_bind with (P := fun o u tr => (exists b, o = Some b) /\ u = with_force_update 190 (g_upd s1) /\ unburned tr).
  { pose proof (get_known GUP_REG_FW_MSG b1 [190] s1 1 (h_bus _ _ _ Hh) ltac:(lia) ltac:(lia)) as G.
    rewrite fw_known in G by (first [apply fresh_app; [done|by repeat constructor]|rewrite length_take, length_drop; lia]). specialize (G eq_refl). change (Z.of_nat 1) with 1 in G.
    eexists _, _, _. rewrite (bind_Ret _ _ _ _ _ G). cbn [fst snd]. change (SUCCESS =? FAIL) with false. cbn iota.
    set (rest := drop (1 + 2) b1). change (load8 (reg GUP_REG_FW_MSG ++ [190] ++ rest) GTP_ADDR_LENGTH) with (Some 190).
    rewrite bind_lift_Some. unfold upd_set. rewrite bind_modify. change (negb (190 =? 190) && (0 =? 0)) with false. cbn iota.
    split; [rewrite ext_upd; by rewrite upd_ext|]. split_and!; [by eexists|reflexivity|by repeat constructor]. }
  intros ? ? t2 ([b2 ->] & -> & N2). set (s2 := ext t2 _).
  assert (fresh (g_trace s2)) as F2 by (by apply (fresh_app (g_trace s1))).
  pose proof (dbl_works GUP_REG_PID_VID 6 s2 (h_bus _ _ _ Hh) ltac:(lia)) as D2. cbv beta zeta in D2. rewrite !id_known in D2 by (first [done|apply fresh_app; [done|by repeat constructor]]).
  eapply does_bind with (P := fun o u tr => o = Some id /\ u = g_upd s2).
  { eexists _, (g_upd s2), _. rewrite with_upd_same. by split; [apply D2|]. }
  intros ? ? t3 (-> & ->). rewrite with_upd_same. d_step.
  assert (exists a b c d e f, id = [a; b; c; d; e; f]) as (? & ? & ? & ? & lo & hi & Ei).
  { clear -L2. destruct id as [|? [|? [|? [|? [|? [|? []]]]]]]; try done. by repeat eexists. }
  assert (load8 id 4 = Some (nth 4 id 0)) as -> by (by rewrite Ei). assert (load8 id 5 = Some (nth 5 id 0)) as -> by (by rewrite Ei).
  do 2 (eapply does_bind; [apply emits_does; by apply emits_lift|]; intros ? ? ? (-> & -> & ->); d_norm). d_step.
  apply does_ret. by split.
Qed.

(** ** The update *)

Context (c : list Z) (Hopen : forall tr, gp_open tr = Some c) (Hc : readable c) (Hv : valid_image c).

Lemma same_state {A} (a b : A) (s t : gworld) : Ret a s = Ret b t -> s = t.
Proof. by intros [= _ E]. Qed.

Lemma check_file_works head path s :
  does (gup_check_update_file head (Some path)) s (fun x u tr => x = (SUCCESS, take 14 c) /\
    upd_file u = OpenFile c /\ fw_total_len u = zlen c - 14 /\ unburned tr).
Proof.
  destruct Hc as ((Bc & Lc) & _). unfold gup_check_update_file. d_step. unfold filp_open.
  eapply does_bind with (P := fun f u tr => u = with_got_file_flag 0 (g_upd s) /\ f = OpenFile c /\ unburned tr).
  { d_step. apply does_ret. rewrite Hopen. split_and!; [done|done|by repeat constructor]. }
  intros ? ? t1 (-> & -> & N1). d_norm. d_step. d_step. d_step. eapply does_mono; [apply (check_image_does head c); done|].
  intros [x b] u tr (R & _ & _ & Ef & [[_ Hx]|(Ex & _ & Eb & Et)]); cbn [fst snd] in *.
  - destruct (Hx Hv) as [t Et]. by rewrite Hread in Et.
  - subst. split_and!; try done. apply unburned_app. split; [done|]. eapply Forall_impl; [exact R|]. by intros [].
Qed.

Lemma burn_all_works s : image_of c (g_upd s) -> does burn_all s (fun r u tr => r = SUCCESS /\ progress (g_upd s) u).
Proof.
  intros I. unfold burn_all. destruct (enter_mode_sure s) as (t1 & E1 & _).
  destruct (attempt_wins c (ext t1 s) I) as (u & t2 & E2 & P & _). exists SUCCESS, u, (t1 ++ t2).
  rewrite (bind_Ret _ _ _ _ _ E1). change (SUCCESS =? FAIL) with false. cbn iota.
  assert (attempt_loop 5 0 (ext t1 s) = Ret 0 (ext t2 (with_g_upd u (ext t1 s)))) as E3.
  { cbn [attempt_loop]. rewrite (bind_Ret _ _ _ _ _ E2). reflexivity. }
  rewrite (bind_Ret _ _ _ _ _ E3). change (5 <=? 0) with false. cbn iota. by rewrite upd_ext, ext_ext.
Qed.

Lemma burn_update_works s :
  image_of c (g_upd s) -> winv s -> returns burn_update s (fun r s' => r = SUCCESS /\ show_len (g_upd s') = 100).
Proof.
  intros I W. unfold burn_update. destruct (update_begin_eq s W) as (s1 & E1 & W1 & G1 & _).
  unfold returns. rewrite (bind_Ret _ _ _ _ _ E1).
  destruct (burn_all_works s1) as (r & u2 & tr2 & E2 & -> & _); [by rewrite G1|]. rewrite (bind_Ret _ _ _ _ _ E2).
  destruct (burn_all_does c s1) as [(r & u3 & tr3 & E3 & B3 & _)|N]; [by rewrite G1| |by destruct (settles_ends burn_all s1 (h_settles _ _ _ Hh) N)].
  rewrite E2 in E3. apply same_state in E3.
  eapply returns_bind; [apply finish_update_returns; rewrite E3; apply winv_ext; [exact B3|by apply winv_upd]|].
  intros ? s3 _. eapply returns_mono; [apply does_returns, end_update_does|].
  intros x s' (u & tr & -> & _ & [(_ & -> & Sh)|(N & _)] & _); [|by destruct N]. split; [done|exact Sh].
Qed.

(** An image for this chip: the same product, a newer version, and the length
    that the driver expects. *)
Definition upgrade : Prop :=
  exists name rest vh vl irest,
    take 14 c = take 4 c ++ (name ++ 0 :: rest) ++ [vh; vl] /\ nul_free name /\ map_pid id = name ++ 0 :: irest /\
    zlen c - 14 = (if decide (take 4 c = reverse hw) then 43008 else le_combine (reverse (take 4 c))) /\
    u16 (nth 4 id 0 + Z.shiftl (nth 5 id 0) 8) < 256 * vh + vl.

Lemma judge_works s u :
  upgrade -> g_upd s = identified u -> fw_total_len u = zlen c - 14 -> gup_enter_update_judge (take 14 c) s = Ret SUCCESS s.
Proof.
  intros (name & rest & vh & vl & irest & Ec & Hn & Ei & El & Ev) Eu Et. destruct Hc as ((Bc & _) & _). destruct chip_lengths as [L1 L2].
  pose proof (proj1 Hv) as Lc. change FW_MIN_LENGTH with 43022 in Lc. destruct (map_pid_ok id L2) as [Lm _].
  assert (length (take 4 c) = 4%nat) as L4 by (rewrite length_take; unfold zlen in Lc; lia).
  assert (length (take 14 c) = 14%nat) as L14 by (rewrite length_take; unfold zlen in Lc; lia).
  assert (bytes (take 14 c)) as B14 by (by apply Forall_take). rewrite Ec in B14, L14. rewrite Ec.
  unfold bytes in B14. rewrite !Forall_app in B14. destruct B14 as (B4 & _ & Bv). inversion Bv as [|? ? Bh Bv2]. inversion Bv2 as [|? ? Bl _]. subst.
  rewrite (judge_eq (take 4 c) name rest vh vl name irest); try done; rewrite ?Eu; try done.
  - assert (judge_test (identified u) (take 4 c) (name ++ 0 :: rest) (256 * vh + vl) name name = true) as ->; [|done].
    apply (judge_test_accepts _ _ _ _ _ irest); try done. right. cbn [fw_total_len ic_hw_info identified with_ic_vid with_ic_pid with_force_update with_ic_hw_info].
    split; [by rewrite Et, El|]. right. right. right. split; [by left|exact Ev].
  - rewrite !length_app, L4 in L14. rewrite length_app. cbn in L14 |- *. lia.
  - cbn. by rewrite length_reverse.
Qed.

Lemma update_works path s :
  upgrade -> winv s -> g_trace s = start ->
  returns (gup_update_proc (Some path)) s (fun r s' => r = SUCCESS /\ show_len (g_upd s') = 100).
Proof.
  intros U W Et. unfold gup_update_proc.
  eapply returns_bind; [apply does_returns, emits_does, junk_emits|]. intros head ? (u & tr & -> & -> & _ & ->). d_norm.
  eapply returns_bind; [apply does_returns, prepare_does|]. intros ? ? (u1 & tr1 & -> & B1 & N1 & _).
  destruct (check_file_works head path (ext tr1 (with_g_upd u1 s))) as (x & u2 & tr2 & E2 & -> & F2 & T2 & N2).
  destruct (check_file_does head path (ext tr1 (with_g_upd u1 s))) as (x & u2' & tr2' & E2' & B2 & _).
  { intros t d Ed. rewrite Hopen in Ed. injection Ed as <-. apply Hc. }
  unfold returns. rewrite (bind_Ret _ _ _ _ _ E2). cbn [fst snd]. change (SUCCESS =? FAIL) with false. cbn iota.
  rewrite E2 in E2'. apply same_state in E2'. revert E2'. d_norm. intros E2'.
  set (s2 := ext _ (with_g_upd u2 s)) in *. assert (winv s2) as W2.
  { rewrite E2'. apply winv_ext; [by apply silent_app|by apply winv_upd]. }
  assert (g_upd s2 = u2) as G2 by done.
  assert (fresh (g_trace s2)) as Fr.
  { exists (tr1 ++ tr2). unfold s2. cbn. rewrite Et. split; [by rewrite ?app_assoc|by apply unburned_app]. }
  clearbody s2. clear E2'.
  destruct (get_ic_works s2 Fr) as (r & u3 & tr3 & E3 & -> & Eu). destruct (get_ic_does s2) as (r & u3' & tr3' & E3' & B3 & _).
  rewrite (bind_Ret _ _ _ _ _ E3). change (SUCCESS =? FAIL) with false. cbn iota. rewrite E3 in E3'. apply same_state in E3'.
  set (s3 := ext tr3 _) in *. assert (winv s3) as W3 by (rewrite E3'; apply winv_ext; [done|by apply winv_upd]).
  assert (g_upd s3 = identified u2) as G3 by (by rewrite <- G2). clearbody s3.
  rewrite (bind_Ret _ _ _ _ _ (judge_works s3 u2 U G3 T2)). change (SUCCESS =? FAIL) with false. cbn iota.
  apply burn_update_works; [|done]. rewrite G3. split_and!; [exact F2|exact T2|apply Hv|apply Hc].
Qed.

End Chip.

(** ** What an update promises *)

Section UpdateClaims.
Context `{GtpKernel}.

(** The driver after an update that started in [s]. *)
Definition given_back (s : gworld) (r : Z) (s' : gworld) : Prop :=
  winv s' /\ addr_limit (g_upd s') = addr_limit (g_upd s) /\
  (r = SUCCESS /\ show_len (g_upd s') = 100 \/ r = FAIL /\ show_len (g_upd s') = 200) /\
  (r = FAIL /\ g_ts s' = g_ts s \/ enter_update (g_ts s') = 0 /\ irq_is_disable (g_ts s') = 0).

(** The file at [path] was opened, it holds a valid image, and in one attempt
    all parts of it were burned and confirmed. *)
Definition image_burned (path : list Z) (s s' : gworld) : Prop :=
  exists c tr, opened_file (g_trace s) path c /\ valid_image c /\ g_trace s' = g_trace s ++ tr /\ attempt_burned (g_trace s) tr c.

(** C22: an update gives the driver back.  From every state of a running driver,
    whatever the chip answers, [gup_update_proc] on a file ends in one of three
    ways ([ends]).  It returns: then the driver's invariant holds, the address
    limit of the task is what it was, the progress says 100 for SUCCESS and 200
    for FAIL, and either the update failed and nothing of [*ts] changed, or the
    update is over and the interrupt is on.  Or it is waiting for a burn command
    ([hangs]): the wait has no bound in the code; in the model, which follows
    any chosen number [gp_polls] of polls, the last [gp_polls + 1] polls were
    answered and each found the command running.  Or it reads past the end of
    the head of the file it opened, which then has a product identifier without
    NUL ([overruns]).  So on a chip that ends every burn command within
    [gp_polls] polls ([settles]), with files whose product identifier has a NUL,
    it returns.  About files it is assumed that they hold bytes and are shorter
    than 2 GiB. *)
Theorem update_restores path s :
  (forall tr c, gp_open tr = Some c -> stored c) -> winv s ->
  ends (g_trace s) path (gup_update_proc (Some path)) s (given_back s) /\
  (settles -> (forall tr c, gp_open tr = Some c -> named c) -> returns (gup_update_proc (Some path)) s (given_back s)).
Proof.
  intros Hr W. assert (ends (g_trace s) path (gup_update_proc (Some path)) s (given_back s)) as E.
  { destruct (update_spec path s Hr W) as [R|?]; [left|by right]. eapply returns_mono; [exact R|].
    intros r s' (H1 & H2 & H3 & H4 & _). done. }
  split; [exact E|]. intros St Hn. destruct E as [R|[N|(s' & f & _ & (t & Ho) & Nf)]]; [done|by apply settles_ends in N|].
  by destruct Nf; eapply Hn.
Qed.

(** C23: SUCCESS means that the image is in the chip.  When an update from a file
    reports SUCCESS, the file it opened is a valid image, and one of its attempts
    reported SUCCESS, in which every part of the image was moved to flash by its
    command and afterwards read back page by page, in this order: the four
    sections of wake-up code, the first section as 0xFF, the three other
    sections, the signal processor, the boot code, with a longer image the second
    boot code and the link code, and at last the first section itself.  A part
    is the bytes of the file at its offset; the wake-up code and the link code
    may lie past the end of the file, and there they are what the memory of the
    section held before, zeros at first ([gwake_data], [link_pieces]).  The chip
    may answer anything; files hold bytes and are shorter than 2 GiB. *)
Theorem update_verified path s s' :
  (forall tr c, gp_open tr = Some c -> stored c) -> winv s ->
  gup_update_proc (Some path) s = Ret SUCCESS s' -> image_burned path s s'.
Proof.
  intros Hr W E. destruct (update_spec path s Hr W) as [R|[N|N]].
  - destruct R as (r & s1 & E1 & _ & _ & _ & _ & tr & T & HQ). rewrite E in E1. injection E1 as <- <-.
    destruct (HQ eq_refl) as (c & Ho & V & L). by exists c, tr.
  - destruct N as (s1 & t0 & t & E1 & _). by rewrite E in E1.
  - destruct N as (s1 & f & E1 & _). by rewrite E in E1.
Qed.

(** C26: an update succeeds when nothing goes wrong.  From every state of a
    running driver [gup_update_proc] reports SUCCESS, with progress 100, when the
    chip works ([healthy]): all transfers succeed, every burn command ends within
    [gp_polls] polls, a page of memory and the reset register read back as they
    were last written in the same bank, the hardware information does not
    change, and before the first burn command of this update the firmware says
    that it is whole (0xBE) and has the product and version [id]; when memory is
    there; when the file opens and all reads of it succeed; and when it is an
    upgrade for this chip: a valid image of less than 2 GiB whose product
    identifier is a string, the one of the chip, with a newer version, and with
    the one length that the driver accepts for it: 42 KiB when its head names
    the hardware of the chip, otherwise the length that its head gives.  (An
    image of another length is refused.)  Nothing is assumed of what the chip
    says of its firmware once burning has begun. *)
Theorem update_burns hw id c path s :
  healthy (g_trace s) hw id -> (forall tr, gp_alloc tr = true) -> (forall tr, gp_read tr = true) ->
  (forall tr, gp_open tr = Some c) -> readable c -> valid_image c -> upgrade hw id c -> winv s ->
  returns (gup_update_proc (Some path)) s (fun r s' => r = SUCCESS /\ show_len (g_upd s') = 100).
Proof. intros Hh Hm Hr Ho Hc Hv U W. by apply (update_works (g_trace s) hw id Hh Hm Hr c Ho Hc Hv). Qed.

End UpdateClaims.

(** ** A chip and an image *)

Module FlashDemo.
Import GtDemo UpdateDemo.

(** The bytes of the last message to [a]. *)
Fixpoint find_write (tr : list teffect) (a : list Z) : list Z :=
  match tr with
  | [] => []
  | XWrite b :: tr' => if bool_decide (take 2 b = a) then drop 2 b else find_write tr' a
  | _ :: tr' => find_write tr' a
  end.

Definition hw : list Z := [0; 6; 144; 0].
Definition id : list Z := str "9271" ++ [0; 16].

(** Whether a burn command was sent. *)
Definition commanded (tr : list teffect) : bool :=
  existsb (fun e => match e with XWrite b => bool_decide (take 2 b = reg BOOT_CTL) | _ => false end) tr.

(** A chip that keeps what it is told and ends every command at once; once it
    burns, its version is the one of the image. *)
Definition echo (tr : list teffect) (a : list Z) : list Z :=
  if bool_decide (a = reg BOOT_CTL) then []
  else if bool_decide (a = reg GUP_REG_HW_INFO) then hw
  else if bool_decide (a = reg GUP_REG_FW_MSG) then [190]
  else if bool_decide (a = reg GUP_REG_PID_VID) then (if commanded tr then str "9271" ++ [1; 16] else id)
  else find_write (reverse tr) a.

#[refine] Instance chip : GtpKernel := {
  gp_addr := 20; gp_xfer tr := match last tr with Some (XRead _ _) => 2 | _ => 1 end;
  gp_device tr a old := take (length old) (echo tr a ++ replicate (length old) 0); gp_device_len := _;
  gp_gpio_request tr := 0; gp_gpio_to_irq p := p + 100; gp_request_irq tr := 0;
  gp_alloc tr := true; gp_input_alloc tr := true; gp_input_register tr := 0;
  gp_regulator_get tr := 0; gp_regulator tr := 0; gp_proc_create tr := true;
  gp_functionality := true; gp_kthread tr := true; gp_workqueue tr := true; gp_add_driver tr := 0;
  gp_of_node := false; gp_of_gpio n := 0; gp_property n := None;
  gp_open tr := Some image; gp_read tr := true; gp_stopped tr := false; gp_progress tr := None;
  gp_junk tr n := replicate n 165; gp_junk_len := _; gp_polls := 0
}.
Proof.
  - intros tr a old. rewrite length_take, length_app, length_replicate. lia.
  - intros. apply length_replicate.
Defined.

Lemma chip_settles : settles (H := chip).
Proof.
  intros base tr old _ _. cbn [gp_device chip]. unfold echo. rewrite bool_decide_eq_true_2 by done. cbn [app].
  apply take_ge. by rewrite length_replicate.
Qed.

Lemma find_write_calm q : forall tr a, calm a q -> find_write (reverse (tr ++ q)) a = find_write (reverse tr) a.
Proof.
  induction q as [|e q IH]; intros tr a C; [by rewrite app_nil_r|]. inversion C as [|? ? He Cq]; subst.
  change (tr ++ e :: q) with (tr ++ [e] ++ q). rewrite app_assoc, IH by done. rewrite reverse_snoc. cbn [find_write].
  destruct e; try done. by rewrite bool_decide_eq_false_2.
Qed.

Lemma ram_plain a x : ram a -> x < 36864 -> 0 <= x -> x <> SWRST_B0 -> a <> reg x.
Proof.
  intros [->|(y & Hy & ->)] Hx H0 Hn E.
  - apply reg_inj in E; [by destruct Hn|by vm_compute|lia].
  - apply reg_inj in E; lia.
Qed.

Lemma unburned_id tr : unburned tr -> commanded tr = false.
Proof.
  induction 1 as [|e tr He _ IH]; [done|]. cbn [commanded existsb]. unfold commanded in IH. rewrite IH, orb_false_r.
  destruct e; try done. by apply bool_decide_eq_false.
Qed.

Lemma chip_healthy : healthy (H := chip) [] hw id.
Proof.
  assert (forall tr a d old, echo tr a = d -> length old = length d -> gp_device (GtpKernel := chip) tr a old = d) as K.
  { intros tr a d old E L. cbn [gp_device chip]. rewrite E, L. by rewrite take_app_length. }
  split.
  - split; intros; cbn [gp_xfer chip]; by rewrite last_snoc.
  - exact chip_settles.
  - intros tr a d n old R (p & q & -> & C & _) L. apply K; [|done]. unfold echo.
    rewrite !bool_decide_eq_false_2 by (apply ram_plain; try done; by vm_compute). rewrite <- app_assoc. cbn [app].
    change (p ++ XWrite (a ++ d) :: q ++ [XRead a n]) with (p ++ [XWrite (a ++ d)] ++ (q ++ [XRead a n])).
    rewrite app_assoc, find_write_calm by (apply Forall_app; split; [done|by repeat constructor]).
    rewrite reverse_snoc. cbn [find_write]. destruct R as [->|(x & _ & ->)]; by rewrite bool_decide_eq_true_2.
  - intros tr old L. by apply K.
  - intros tr old U L. apply K; [|done]. cbn [app]. unfold echo. by rewrite unburned_id.
  - intros tr old _ L. by apply K.
Qed.

Lemma image_readable : readable image.
Proof.
  split; [split; [exact image_bytes|rewrite zlen_image; lia]|]. unfold named.
  change (take 8 (drop 4 image)) with (str "9271" ++ [0; 0; 0; 0]). apply list_elem_of_In. cbn. tauto.
Qed.

Lemma image_upgrade : upgrade hw id image.
Proof.
  exists (str "9271"), [0; 0; 0], 16, 1, [0; 0; 0]. rewrite zlen_image. split_and!; try done; by repeat constructor.
Qed.

Lemma opened : forall tr c, gp_open (GtpKernel := chip) tr = Some c -> stored c.
Proof. intros tr c [= <-]. apply image_readable. Qed.

Lemma opened_named : forall tr c, gp_open (GtpKernel := chip) tr = Some c -> named c.
Proof. intros tr c [= <-]. apply image_readable. Qed.

Lemma update_burns_witness :
  exists s', gup_update_proc (H := chip) (Some UPDATE_FILE_PATH_1) ready = Ret SUCCESS s' /\ show_len (g_upd s') = 100.
Proof.
  destruct (update_burns (H := chip) hw id image UPDATE_FILE_PATH_1 ready chip_healthy (fun _ => eq_refl) (fun _ => eq_refl)
    (fun _ => eq_refl) image_readable image_valid image_upgrade TouchDemo.ready_winv) as (r & s' & E & -> & Hs).
  exists s'. split; [exact E|exact Hs].
Defined.

Lemma runs :
  returns (gup_update_proc (H := chip) (Some UPDATE_FILE_PATH_1)) ready (fun r s' => r = SUCCESS /\ show_len (g_upd s') = 100).
Proof.
  apply (update_works (H := chip) [] hw id chip_healthy (fun _ => eq_refl) (fun _ => eq_refl) image (fun _ => eq_refl)
    image_readable image_valid); [exact image_upgrade|exact TouchDemo.ready_winv|reflexivity].
Qed.

Lemma update_verified_witness :
  exists s', gup_update_proc (H := chip) (Some UPDATE_FILE_PATH_1) ready = Ret SUCCESS s' /\
    image_burned (H := chip) UPDATE_FILE_PATH_1 ready s'.
Proof.
  destruct runs as (r & s' & E & -> & _). exists s'. split; [exact E|].
  exact (update_verified (H := chip) UPDATE_FILE_PATH_1 ready s' opened TouchDemo.ready_winv E).
Defined.

Lemma update_restores_witness :
  exists s', gup_update_proc (H := chip) (Some UPDATE_FILE_PATH_1) ready = Ret SUCCESS s' /\
    addr_limit (g_upd s') = 0 /\ irq_is_disable (g_ts s') = 0 /\ winv s'.
Proof.
  destruct (proj2 (update_restores (H := chip) UPDATE_FILE_PATH_1 ready opened TouchDemo.ready_winv) chip_settles opened_named)
    as (r & s' & E & W & A & _ & T).
  destruct runs as (r2 & s2 & E2 & -> & _). rewrite E2 in E. injection E as <- <-.
  exists s2. split; [exact E2|]. split; [exact A|]. split; [|exact W]. destruct T as [[N _]|[_ I]]; [discriminate N|exact I].
Defined.

End FlashDemo.
