(* ===== verification/SmbRegs.v ===== *)
(** * Registers and constants of the charger chip

    The [#define]s and enumerations of
    [kernel/drivers/power/smb1360-charger-fg.c] that the model of the driver
    uses, with the values the macros [BIT] and [SMB1360_MASK] give them. *)

From Stdlib Require Import ZArith.
Open Scope Z_scope.

Definition CFG_BATT_CHG_REG : Z := 0.  (* 0x00 *)
Definition CHG_ITERM_MASK : Z := 7.  (* SMB1360_MASK(2, 0) *)
Definition CHG_ITERM_25MA : Z := 0.  (* 0x0 *)
Definition CHG_ITERM_200MA : Z := 7.  (* 0x7 *)
Definition RECHG_MV_MASK : Z := 96.  (* SMB1360_MASK(6, 5) *)
Definition RECHG_MV_SHIFT : Z := 5.
Definition OTG_CURRENT_MASK : Z := 24.  (* SMB1360_MASK(4, 3) *)
Definition OTG_CURRENT_SHIFT : Z := 3.
Definition CFG_BATT_CHG_ICL_REG : Z := 5.  (* 0x05 *)
Definition AC_INPUT_ICL_PIN_BIT : Z := 128.  (* BIT(7) *)
Definition AC_INPUT_PIN_HIGH_BIT : Z := 64.  (* BIT(6) *)
Definition RESET_STATE_USB_500 : Z := 32.  (* BIT(5) *)
Definition INPUT_CURR_LIM_MASK : Z := 15.  (* SMB1360_MASK(3, 0) *)
Definition INPUT_CURR_LIM_300MA : Z := 0.  (* 0x0 *)
Definition CFG_GLITCH_FLT_REG : Z := 6.  (* 0x06 *)
Definition AICL_ENABLED_BIT : Z := 1.  (* BIT(0) *)
Definition INPUT_UV_GLITCH_FLT_20MS_BIT : Z := 128.  (* BIT(7) *)
Definition CFG_CHG_MISC_REG : Z := 7.  (* 0x7 *)
Definition CHG_EN_BY_PIN_BIT : Z := 128.  (* BIT(7) *)
Definition CHG_EN_ACTIVE_LOW_BIT : Z := 64.  (* BIT(6) *)
Definition PRE_TO_FAST_REQ_CMD_BIT : Z := 32.  (* BIT(5) *)
Definition CHG_CURR_TERM_DIS_BIT : Z := 8.  (* BIT(3) *)
Definition CFG_AUTO_RECHG_DIS_BIT : Z := 4.  (* BIT(2) *)
Definition CFG_CHG_INHIBIT_EN_BIT : Z := 1.  (* BIT(0) *)
Definition CFG_CHG_FUNC_CTRL_REG : Z := 8.  (* 0x08 *)
Definition CHG_RECHG_THRESH_FG_SRC_BIT : Z := 2.  (* BIT(1) *)
Definition CFG_STAT_CTRL_REG : Z := 9.  (* 0x09 *)
Definition CHG_STAT_IRQ_ONLY_BIT : Z := 16.  (* BIT(4) *)
Definition CHG_TEMP_CHG_ERR_BLINK_BIT : Z := 8.  (* BIT(3) *)
Definition CHG_STAT_ACTIVE_HIGH_BIT : Z := 2.  (* BIT(1) *)
Definition CHG_STAT_DISABLE_BIT : Z := 1.  (* BIT(0) *)
Definition CFG_SFY_TIMER_CTRL_REG : Z := 10.  (* 0x0A *)
Definition SAFETY_TIME_DISABLE_BIT : Z := 32.  (* BIT(5) *)
Definition SAFETY_TIME_MINUTES_SHIFT : Z := 2.
Definition SAFETY_TIME_MINUTES_MASK : Z := 12.  (* SMB1360_MASK(3, 2) *)
Definition CFG_BATT_MISSING_REG : Z := 13.  (* 0x0D *)
Definition BATT_MISSING_SRC_THERM_BIT : Z := 2.  (* BIT(1) *)
Definition CFG_FG_BATT_CTRL_REG : Z := 14.  (* 0x0E *)
Definition CFG_FG_OTP_BACK_UP_ENABLE : Z := 128.  (* BIT(7) *)
Definition BATT_ID_ENABLED_BIT : Z := 32.  (* BIT(5) *)
Definition CHG_BATT_ID_FAIL : Z := 16.  (* BIT(4) *)
Definition BATT_PROFILE_SELECT_MASK : Z := 15.  (* SMB1360_MASK(3, 0) *)
Definition BATT_PROFILEA_MASK : Z := 0.  (* 0x0 *)
Definition BATT_PROFILEB_MASK : Z := 15.  (* 0xF *)
Definition IRQ_CFG_REG : Z := 15.  (* 0x0F *)
Definition IRQ_BAT_HOT_COLD_HARD_BIT : Z := 128.  (* BIT(7) *)
Definition IRQ_BAT_HOT_COLD_SOFT_BIT : Z := 64.  (* BIT(6) *)
Definition IRQ_DCIN_UV_BIT : Z := 4.  (* BIT(2) *)
Definition IRQ_AICL_DONE_BIT : Z := 2.  (* BIT(1) *)
Definition IRQ_INTERNAL_TEMPERATURE_BIT : Z := 1.  (* BIT(0) *)
Definition IRQ2_CFG_REG : Z := 16.  (* 0x10 *)
Definition IRQ2_SAFETY_TIMER_BIT : Z := 128.  (* BIT(7) *)
Definition IRQ2_CHG_ERR_BIT : Z := 64.  (* BIT(6) *)
Definition IRQ2_CHG_PHASE_CHANGE_BIT : Z := 16.  (* BIT(4) *)
Definition IRQ2_POWER_OK_BIT : Z := 4.  (* BIT(2) *)
Definition IRQ2_BATT_MISSING_BIT : Z := 2.  (* BIT(1) *)
Definition IRQ2_VBAT_LOW_BIT : Z := 1.  (* BIT(0) *)
Definition IRQ3_CFG_REG : Z := 17.  (* 0x11 *)
Definition IRQ3_SOC_CHANGE_BIT : Z := 16.  (* BIT(4) *)
Definition IRQ3_SOC_MIN_BIT : Z := 8.  (* BIT(3) *)
Definition IRQ3_SOC_MAX_BIT : Z := 4.  (* BIT(2) *)
Definition IRQ3_SOC_EMPTY_BIT : Z := 2.  (* BIT(1) *)
Definition IRQ3_SOC_FULL_BIT : Z := 1.  (* BIT(0) *)
Definition CHG_CURRENT_REG : Z := 19.  (* 0x13 *)
Definition FASTCHG_CURR_MASK : Z := 28.  (* SMB1360_MASK(4, 2) *)
Definition FASTCHG_CURR_SHIFT : Z := 2.
Definition CHG_CMP_CFG : Z := 20.  (* 0x14 *)
Definition JEITA_COMP_CURR_MASK : Z := 15.  (* SMB1360_MASK(3, 0) *)
Definition JEITA_COMP_EN_MASK : Z := 240.  (* SMB1360_MASK(7, 4) *)
Definition JEITA_COMP_EN_BIT : Z := 240.  (* SMB1360_MASK(7, 4) *)
Definition BATT_CHG_FLT_VTG_REG : Z := 21.  (* 0x15 *)
Definition VFLOAT_MASK : Z := 127.  (* SMB1360_MASK(6, 0) *)
Definition CFG_FVC_REG : Z := 22.  (* 0x16 *)
Definition FLT_VTG_COMP_MASK : Z := 127.  (* SMB1360_MASK(6, 0) *)
Definition SHDN_CTRL_REG : Z := 26.  (* 0x1A *)
Definition SHDN_CMD_USE_BIT : Z := 2.  (* BIT(1) *)
Definition SHDN_CMD_POLARITY_BIT : Z := 4.  (* BIT(2) *)
Definition CURRENT_GAIN_LSB_REG : Z := 29.  (* 0x1D *)
Definition CURRENT_GAIN_MSB_REG : Z := 30.  (* 0x1E *)
Definition CMD_I2C_REG : Z := 64.  (* 0x40 *)
Definition ALLOW_VOLATILE_BIT : Z := 64.  (* BIT(6) *)
Definition FG_ACCESS_ENABLED_BIT : Z := 32.  (* BIT(5) *)
Definition FG_RESET_BIT : Z := 16.  (* BIT(4) *)
Definition CYCLE_STRETCH_CLEAR_BIT : Z := 8.  (* BIT(3) *)
Definition CMD_IL_REG : Z := 65.  (* 0x41 *)
Definition USB_CTRL_MASK : Z := 3.  (* SMB1360_MASK(1 , 0) *)
Definition USB_100_BIT : Z := 1.  (* 0x01 *)
Definition USB_500_BIT : Z := 0.  (* 0x00 *)
Definition USB_AC_BIT : Z := 2.  (* 0x02 *)
Definition SHDN_CMD_BIT : Z := 128.  (* BIT(7) *)
Definition CMD_CHG_REG : Z := 66.  (* 0x42 *)
Definition CMD_CHG_EN : Z := 2.  (* BIT(1) *)
Definition CMD_OTG_EN_BIT : Z := 1.  (* BIT(0) *)
Definition STATUS_1_REG : Z := 72.  (* 0x48 *)
Definition AICL_CURRENT_STATUS_MASK : Z := 127.  (* SMB1360_MASK(6, 0) *)
Definition AICL_LIMIT_1500MA : Z := 15.  (* 0xF *)
Definition STATUS_3_REG : Z := 75.  (* 0x4B *)
Definition CHG_HOLD_OFF_BIT : Z := 8.  (* BIT(3) *)
Definition CHG_TYPE_MASK : Z := 6.  (* SMB1360_MASK(2, 1) *)
Definition CHG_TYPE_SHIFT : Z := 1.
Definition BATT_NOT_CHG_VAL : Z := 0.  (* 0x0 *)
Definition BATT_PRE_CHG_VAL : Z := 1.  (* 0x1 *)
Definition BATT_FAST_CHG_VAL : Z := 2.  (* 0x2 *)
Definition BATT_TAPER_CHG_VAL : Z := 3.  (* 0x3 *)
Definition CHG_EN_BIT : Z := 1.  (* BIT(0) *)
Definition STATUS_4_REG : Z := 76.  (* 0x4C *)
Definition CYCLE_STRETCH_ACTIVE_BIT : Z := 32.  (* BIT(5) *)
Definition REVISION_CTRL_REG : Z := 79.  (* 0x4F *)
Definition DEVICE_REV_MASK : Z := 15.  (* SMB1360_MASK(3, 0) *)
Definition IRQ_A_REG : Z := 80.  (* 0x50 *)
Definition IRQ_A_HOT_HARD_BIT : Z := 64.  (* BIT(6) *)
Definition IRQ_A_COLD_HARD_BIT : Z := 16.  (* BIT(4) *)
Definition IRQ_A_HOT_SOFT_BIT : Z := 4.  (* BIT(2) *)
Definition IRQ_A_COLD_SOFT_BIT : Z := 1.  (* BIT(0) *)
Definition IRQ_B_REG : Z := 81.  (* 0x51 *)
Definition IRQ_B_BATT_TERMINAL_BIT : Z := 64.  (* BIT(6) *)
Definition IRQ_B_BATT_MISSING_BIT : Z := 16.  (* BIT(4) *)
Definition IRQ_C_REG : Z := 82.  (* 0x52 *)
Definition IRQ_C_CHG_TERM : Z := 1.  (* BIT(0) *)
Definition IRQ_D_REG : Z := 83.  (* 0x53 *)
Definition IRQ_E_REG : Z := 84.  (* 0x54 *)
Definition IRQ_E_USBIN_UV_BIT : Z := 1.  (* BIT(0) *)
Definition IRQ_F_REG : Z := 85.  (* 0x55 *)
Definition IRQ_G_REG : Z := 86.  (* 0x56 *)
Definition IRQ_H_REG : Z := 87.  (* 0x57 *)
Definition IRQ_I_REG : Z := 88.  (* 0x58 *)
Definition FG_ACCESS_ALLOWED_BIT : Z := 1.  (* BIT(0) *)
Definition SOC_MAX_REG : Z := 36.  (* 0x24 *)
Definition SOC_MIN_REG : Z := 37.  (* 0x25 *)
Definition VTG_EMPTY_REG : Z := 38.  (* 0x26 *)
Definition SOC_DELTA_REG : Z := 40.  (* 0x28 *)
Definition JEITA_SOFT_COLD_REG : Z := 41.  (* 0x29 *)
Definition JEITA_SOFT_HOT_REG : Z := 42.  (* 0x2A *)
Definition VTG_MIN_REG : Z := 43.  (* 0x2B *)
Definition SHDW_FG_ESR_ACTUAL : Z := 32.  (* 0x20 *)
Definition SHDW_FG_BATT_STATUS : Z := 96.  (* 0x60 *)
Definition BATTERY_PROFILE_BIT : Z := 1.  (* BIT(0) *)
Definition SHDW_FG_MSYS_SOC : Z := 97.  (* 0x61 *)
Definition SHDW_FG_CAPACITY : Z := 98.  (* 0x62 *)
Definition SHDW_FG_VTG_NOW : Z := 105.  (* 0x69 *)
Definition SHDW_FG_CURR_NOW : Z := 107.  (* 0x6B *)
Definition SHDW_FG_BATT_TEMP : Z := 109.  (* 0x6D *)
Definition VOLTAGE_PREDICTED_REG : Z := 128.  (* 0x80 *)
Definition CC_TO_SOC_COEFF : Z := 186.  (* 0xBA *)
Definition NOMINAL_CAPACITY_REG : Z := 188.  (* 0xBC *)
Definition ACTUAL_CAPACITY_REG : Z := 190.  (* 0xBE *)
Definition FG_AUTO_RECHARGE_SOC : Z := 210.  (* 0xD2 *)
Definition FG_SYS_CUTOFF_V_REG : Z := 211.  (* 0xD3 *)
Definition FG_CC_TO_CV_V_REG : Z := 213.  (* 0xD5 *)
Definition FG_ITERM_REG : Z := 217.  (* 0xD9 *)
Definition FG_THERM_C1_COEFF_REG : Z := 219.  (* 0xDB *)
Definition FG_IBATT_STANDBY_REG : Z := 207.  (* 0xCF *)
Definition FG_I2C_CFG_MASK : Z := 6.  (* SMB1360_MASK(2, 1) *)
Definition FG_CFG_I2C_ADDR : Z := 2.  (* 0x2 *)
Definition FG_PROFILE_A_ADDR : Z := 4.  (* 0x4 *)
Definition FG_PROFILE_B_ADDR : Z := 6.  (* 0x6 *)
Definition CURRENT_100_MA : Z := 100.
Definition CURRENT_500_MA : Z := 500.
Definition MAX_8_BITS : Z := 255.
Definition JEITA_WORK_MS : Z := 3000.
Definition FG_RESET_THRESHOLD_MV : Z := 15.
Definition SMB1360_REV_1 : Z := 1.  (* 0x01 *)
Definition WRKRND_FG_CONFIG_FAIL : Z := 1.  (* BIT(0) *)
Definition WRKRND_BATT_DET_FAIL : Z := 2.  (* BIT(1) *)
Definition WRKRND_USB100_FAIL : Z := 4.  (* BIT(2) *)
Definition WRKRND_HARD_JEITA : Z := 8.  (* BIT(3) *)
Definition USER : Z := 1.  (* BIT(0) *)
Definition PARALLEL_USER : Z := 1.  (* BIT(0) *)
Definition PARALLEL_CURRENT : Z := 2.  (* BIT(1) *)
Definition PARALLEL_JEITA_SOFT : Z := 4.  (* BIT(2) *)
Definition PARALLEL_JEITA_HARD : Z := 8.  (* BIT(3) *)
Definition PARALLEL_EOC : Z := 16.  (* BIT(4) *)
Definition FG_ACCESS_CFG : Z := 1.  (* 0x1 *)
Definition FG_ACCESS_PROFILE_A : Z := 2.  (* 0x2 *)
Definition FG_ACCESS_PROFILE_B : Z := 3.  (* 0x3 *)
Definition BATTERY_PROFILE_A : Z := 0.
Definition BATTERY_PROFILE_B : Z := 1.
Definition BATTERY_PROFILE_MAX : Z := 2.
Definition EXPONENT_MASK : Z := 63488.  (* 0xF800 *)
Definition MANTISSA_MASK : Z := 1023.  (* 0x3FF *)
Definition SIGN_MASK : Z := 1024.  (* 0x400 *)
Definition EXPONENT_SHIFT : Z := 11.
Definition SIGN_SHIFT : Z := 10.
Definition MICRO_UNIT : Z := 1000000.  (* 1000000ULL *)
Definition MAX_MANTISSA : Z := 1023000000.  (* (1023 * 1000000ULL) *)
Definition TRIM_1C_REG : Z := 28.  (* 0x1C *)
Definition CHECK_USB100_GOOD_BIT : Z := 64.  (* BIT(6) *)
Definition MIN_FLOAT_MV : Z := 3460.
Definition MAX_FLOAT_MV : Z := 4730.
Definition VFLOAT_STEP_MV : Z := 10.
Definition MIN_RECHG_MV : Z := 50.
Definition MAX_RECHG_MV : Z := 300.
Definition IRQ_LATCHED_MASK : Z := 2.  (* 0x02 *)
Definition IRQ_STATUS_MASK : Z := 1.  (* 0x01 *)
Definition BATT_ID_LATCHED_MASK : Z := 8.  (* 0x08 *)
Definition BATT_ID_STATUS_MASK : Z := 7.  (* 0x07 *)
Definition BITS_PER_IRQ : Z := 2.
Definition LAST_CNFG_REG : Z := 23.  (* 0x17 *)
Definition FIRST_CMD_REG : Z := 64.  (* 0x40 *)
Definition LAST_CMD_REG : Z := 66.  (* 0x42 *)
Definition FIRST_STATUS_REG : Z := 72.  (* 0x48 *)
Definition LAST_STATUS_REG : Z := 75.  (* 0x4B *)
Definition FIRST_IRQ_REG : Z := 80.  (* 0x50 *)
Definition LAST_IRQ_REG : Z := 88.  (* 0x58 *)
Definition FIRST_FG_CFG_REG : Z := 32.  (* 0x20 *)
Definition LAST_FG_CFG_REG : Z := 47.  (* 0x2F *)
Definition FIRST_FG_SHDW_REG : Z := 96.  (* 0x60 *)
Definition LAST_FG_SHDW_REG : Z := 111.  (* 0x6F *)
Definition FG_SCRATCH_PAD_MAX : Z := 93.
Definition FG_SCRATCH_PAD_BASE_REG : Z := 128.  (* 0x80 *)
Definition SMB1360_I2C_READ_LENGTH : Z := 32.
Definition MAX_PARALLEL_CURRENT : Z := 540.

(** ** Tables *)

Definition otg_curr_ma : list Z := (350 :: 550 :: 950 :: 1500 :: nil)%list.
Definition chg_time : list Z := (192 :: 384 :: 768 :: 1536 :: nil)%list.
Definition input_current_limit : list Z :=
  (300 :: 400 :: 450 :: 500 :: 600 :: 700 :: 800 :: 850 :: 900 ::
   950 :: 1000 :: 1100 :: 1200 :: 1300 :: 1400 :: 1500 :: nil)%list.
Definition fastchg_current : list Z := (450 :: 600 :: 750 :: 900 :: 1050 :: 1200 :: 1350 :: 1500 :: nil)%list.

(** ** Errors and power supply constants of the kernel *)

Definition EBUSY : Z := 16.
Definition EAGAIN : Z := 11.
Definition POWER_SUPPLY_STATUS_UNKNOWN : Z := 0.
Definition POWER_SUPPLY_STATUS_CHARGING : Z := 1.
Definition POWER_SUPPLY_STATUS_DISCHARGING : Z := 2.
Definition POWER_SUPPLY_STATUS_NOT_CHARGING : Z := 3.
Definition POWER_SUPPLY_STATUS_FULL : Z := 4.
Definition POWER_SUPPLY_CHARGE_TYPE_UNKNOWN : Z := 0.
Definition POWER_SUPPLY_CHARGE_TYPE_NONE : Z := 1.
Definition POWER_SUPPLY_CHARGE_TYPE_TRICKLE : Z := 2.
Definition POWER_SUPPLY_CHARGE_TYPE_FAST : Z := 3.
Definition POWER_SUPPLY_HEALTH_GOOD : Z := 1.
Definition POWER_SUPPLY_HEALTH_OVERHEAT : Z := 2.
Definition POWER_SUPPLY_HEALTH_COLD : Z := 6.
Definition POWER_SUPPLY_HEALTH_WARM : Z := 8.
Definition POWER_SUPPLY_HEALTH_COOL : Z := 9.
