(* ===== verification/SmbBus.v ===== *)
(** * The charger driver: state, bus and registers

    [kernel/drivers/power/smb1360-charger-fg.c] drives the SMB1360 charger and
    fuel gauge.  This file holds its state, the kernel below it, the access to
    the registers of the chip with its locks and its second bus address, the
    handshake for the fuel gauge's memory, and the chip's 16-bit floats.
    [SmbCharge] holds the currents, voltages and battery properties, [SmbIrq]
    the interrupts, the on-the-go supply and suspend, [SmbInit] the set-up,
    [SmbDebug] the debug files. *)

From stdpp Require Import base list numbers sets strings.
From Stdlib Require Import ZArith Lia.
From S2P Require Import Prelude Kernel SmbRegs.
Open Scope Z_scope.

(** ** State *)

(** What the driver asks of the kernel and does to the chip, with the answers. *)
Inductive seffect :=
  | I2cRead (addr reg ret : Z)                  (* i2c_smbus_read_byte_data *)
  | I2cWrite (addr reg val ret : Z)             (* i2c_smbus_write_byte_data *)
  | I2cReadBlock (addr reg n ret : Z)           (* i2c_smbus_read_i2c_block_data *)
  | I2cWriteBlock (addr reg : Z) (val : list Z) (ret : Z)
  | Msleep (ms : Z)
  | StayAwake | Relax                           (* pm_stay_awake, pm_relax *)
  | JeitaSchedule (ms : Z) | JeitaCancel        (* jeita_work *)
  | ParallelSchedule | ParallelCancel           (* parallel_work *)
  | BattChanged | UsbChanged                    (* power_supply_changed *)
  | UsbPresent (v : bool)                       (* power_supply_set_present *)
  | UsbOnline (v : bool) (ret : Z)              (* power_supply_set_online *)
  | UsbGet (prop : string) (ret : Z)            (* usb_psy->get_property *)
  | ParallelSet (prop : string) (v : Z)         (* parallel_psy->set_property *)
  | PsyByName (name : string) (found : bool)
  | GpioSet (pin v : Z) | GpioRequest (pin ret : Z)
  | IrqDisable | IrqEnable | IrqWake
  | IrqRequest (ret : Z)
  | RegulatorRegister (ret : Z) | RegulatorUnregister
  | PsyRegister (ret : Z) | PsyUnregister
  | Kzalloc (ok : bool) | InitWakeup | Vadc (ret : Z) | Debugfs | MutexDestroy.

Inductive mutex := irq_complete | charging_disable_lock | current_change_lock | read_write_lock | parallel_chg_lock.
#[export] Instance mutex_eq_dec : EqDecision mutex.
Proof. solve_decision. Defined.

(** One of the [handlers]: the status register, its value now and before, and
    how often each of its interrupts was seen high and low. *)
Record irq_row := mkRow {
  row_reg : Z;
  row_val : Z;
  row_prev : Z;
  row_counts : list (Z * Z)
}.

(** What the device tree says about charging. *)
Record chg_cfg := mkChg {
  pulsed_irq : bool;
  batt_id_disabled : bool;
  charging_disabled : bool;
  recharge_disabled : bool;
  chg_inhibit_disabled : bool;
  iterm_disabled : bool;
  shdn_after_pwroff : bool;
  min_icl_usb100 : bool;
  rsense_10mohm : bool;
  otg_fet_present : bool;
  otg_fet_enable_gpio : Z;
  iterm_ma : Z;
  vfloat_mv : Z;
  safety_time : Z;
  resume_delta_mv : Z;
  otg_batt_curr_limit : Z
}.

Definition with_pulsed_irq (v : bool) (d : chg_cfg) : chg_cfg :=
  mkChg v (batt_id_disabled d) (charging_disabled d) (recharge_disabled d) (chg_inhibit_disabled d)
    (iterm_disabled d) (shdn_after_pwroff d) (min_icl_usb100 d) (rsense_10mohm d) (otg_fet_present d)
    (otg_fet_enable_gpio d) (iterm_ma d) (vfloat_mv d) (safety_time d) (resume_delta_mv d)
    (otg_batt_curr_limit d).
Definition with_batt_id_disabled (v : bool) (d : chg_cfg) : chg_cfg :=
  mkChg (pulsed_irq d) v (charging_disabled d) (recharge_disabled d) (chg_inhibit_disabled d)
    (iterm_disabled d) (shdn_after_pwroff d) (min_icl_usb100 d) (rsense_10mohm d) (otg_fet_present d)
    (otg_fet_enable_gpio d) (iterm_ma d) (vfloat_mv d) (safety_time d) (resume_delta_mv d)
    (otg_batt_curr_limit d).
Definition with_charging_disabled (v : bool) (d : chg_cfg) : chg_cfg :=
  mkChg (pulsed_irq d) (batt_id_disabled d) v (recharge_disabled d) (chg_inhibit_disabled d) (iterm_disabled
    d) (shdn_after_pwroff d) (min_icl_usb100 d) (rsense_10mohm d) (otg_fet_present d) (otg_fet_enable_gpio
    d) (iterm_ma d) (vfloat_mv d) (safety_time d) (resume_delta_mv d) (otg_batt_curr_limit d).
Definition with_recharge_disabled (v : bool) (d : chg_cfg) : chg_cfg :=
  mkChg (pulsed_irq d) (batt_id_disabled d) (charging_disabled d) v (chg_inhibit_disabled d) (iterm_disabled
    d) (shdn_after_pwroff d) (min_icl_usb100 d) (rsense_10mohm d) (otg_fet_present d) (otg_fet_enable_gpio
    d) (iterm_ma d) (vfloat_mv d) (safety_time d) (resume_delta_mv d) (otg_batt_curr_limit d).
Definition with_chg_inhibit_disabled (v : bool) (d : chg_cfg) : chg_cfg :=
  mkChg (pulsed_irq d) (batt_id_disabled d) (charging_disabled d) (recharge_disabled d) v (iterm_disabled d)
    (shdn_after_pwroff d) (min_icl_usb100 d) (rsense_10mohm d) (otg_fet_present d) (otg_fet_enable_gpio d)
    (iterm_ma d) (vfloat_mv d) (safety_time d) (resume_delta_mv d) (otg_batt_curr_limit d).
Definition with_iterm_disabled (v : bool) (d : chg_cfg) : chg_cfg :=
  mkChg (pulsed_irq d) (batt_id_disabled d) (charging_disabled d) (recharge_disabled d)
    (chg_inhibit_disabled d) v (shdn_after_pwroff d) (min_icl_usb100 d) (rsense_10mohm d) (otg_fet_present
    d) (otg_fet_enable_gpio d) (iterm_ma d) (vfloat_mv d) (safety_time d) (resume_delta_mv d)
    (otg_batt_curr_limit d).
Definition with_shdn_after_pwroff (v : bool) (d : chg_cfg) : chg_cfg :=
  mkChg (pulsed_irq d) (batt_id_disabled d) (charging_disabled d) (recharge_disabled d)
    (chg_inhibit_disabled d) (iterm_disabled d) v (min_icl_usb100 d) (rsense_10mohm d) (otg_fet_present d)
    (otg_fet_enable_gpio d) (iterm_ma d) (vfloat_mv d) (safety_time d) (resume_delta_mv d)
    (otg_batt_curr_limit d).
Definition with_min_icl_usb100 (v : bool) (d : chg_cfg) : chg_cfg :=
  mkChg (pulsed_irq d) (batt_id_disabled d) (charging_disabled d) (recharge_disabled d)
    (chg_inhibit_disabled d) (iterm_disabled d) (shdn_after_pwroff d) v (rsense_10mohm d) (otg_fet_present
    d) (otg_fet_enable_gpio d) (iterm_ma d) (vfloat_mv d) (safety_time d) (resume_delta_mv d)
    (otg_batt_curr_limit d).
Definition with_rsense_10mohm (v : bool) (d : chg_cfg) : chg_cfg :=
  mkChg (pulsed_irq d) (batt_id_disabled d) (charging_disabled d) (recharge_disabled d)
    (chg_inhibit_disabled d) (iterm_disabled d) (shdn_after_pwroff d) (min_icl_usb100 d) v (otg_fet_present
    d) (otg_fet_enable_gpio d) (iterm_ma d) (vfloat_mv d) (safety_time d) (resume_delta_mv d)
    (otg_batt_curr_limit d).
Definition with_otg_fet_present (v : bool) (d : chg_cfg) : chg_cfg :=
  mkChg (pulsed_irq d) (batt_id_disabled d) (charging_disabled d) (recharge_disabled d)
    (chg_inhibit_disabled d) (iterm_disabled d) (shdn_after_pwroff d) (min_icl_usb100 d) (rsense_10mohm d) v
    (otg_fet_enable_gpio d) (iterm_ma d) (vfloat_mv d) (safety_time d) (resume_delta_mv d)
    (otg_batt_curr_limit d).
Definition with_otg_fet_enable_gpio (v : Z) (d : chg_cfg) : chg_cfg :=
  mkChg (pulsed_irq d) (batt_id_disabled d) (charging_disabled d) (recharge_disabled d)
    (chg_inhibit_disabled d) (iterm_disabled d) (shdn_after_pwroff d) (min_icl_usb100 d) (rsense_10mohm d)
    (otg_fet_present d) v (iterm_ma d) (vfloat_mv d) (safety_time d) (resume_delta_mv d)
    (otg_batt_curr_limit d).
Definition with_iterm_ma (v : Z) (d : chg_cfg) : chg_cfg :=
  mkChg (pulsed_irq d) (batt_id_disabled d) (charging_disabled d) (recharge_disabled d)
    (chg_inhibit_disabled d) (iterm_disabled d) (shdn_after_pwroff d) (min_icl_usb100 d) (rsense_10mohm d)
    (otg_fet_present d) (otg_fet_enable_gpio d) v (vfloat_mv d) (safety_time d) (resume_delta_mv d)
    (otg_batt_curr_limit d).
Definition with_vfloat_mv (v : Z) (d : chg_cfg) : chg_cfg :=
  mkChg (pulsed_irq d) (batt_id_disabled d) (charging_disabled d) (recharge_disabled d)
    (chg_inhibit_disabled d) (iterm_disabled d) (shdn_after_pwroff d) (min_icl_usb100 d) (rsense_10mohm d)
    (otg_fet_present d) (otg_fet_enable_gpio d) (iterm_ma d) v (safety_time d) (resume_delta_mv d)
    (otg_batt_curr_limit d).
Definition with_safety_time (v : Z) (d : chg_cfg) : chg_cfg :=
  mkChg (pulsed_irq d) (batt_id_disabled d) (charging_disabled d) (recharge_disabled d)
    (chg_inhibit_disabled d) (iterm_disabled d) (shdn_after_pwroff d) (min_icl_usb100 d) (rsense_10mohm d)
    (otg_fet_present d) (otg_fet_enable_gpio d) (iterm_ma d) (vfloat_mv d) v (resume_delta_mv d)
    (otg_batt_curr_limit d).
Definition with_resume_delta_mv (v : Z) (d : chg_cfg) : chg_cfg :=
  mkChg (pulsed_irq d) (batt_id_disabled d) (charging_disabled d) (recharge_disabled d)
    (chg_inhibit_disabled d) (iterm_disabled d) (shdn_after_pwroff d) (min_icl_usb100 d) (rsense_10mohm d)
    (otg_fet_present d) (otg_fet_enable_gpio d) (iterm_ma d) (vfloat_mv d) (safety_time d) v
    (otg_batt_curr_limit d).
Definition with_otg_batt_curr_limit (v : Z) (d : chg_cfg) : chg_cfg :=
  mkChg (pulsed_irq d) (batt_id_disabled d) (charging_disabled d) (recharge_disabled d)
    (chg_inhibit_disabled d) (iterm_disabled d) (shdn_after_pwroff d) (min_icl_usb100 d) (rsense_10mohm d)
    (otg_fet_present d) (otg_fet_enable_gpio d) (iterm_ma d) (vfloat_mv d) (safety_time d) (resume_delta_mv
    d) v.

(** The temperature limits, in tenths of a degree, and what holds between them. *)
Record jeita_cfg := mkJeita {
  config_hard_thresholds : bool;
  soft_jeita_supported : bool;
  cold_bat_decidegc : Z;
  hot_bat_decidegc : Z;
  cool_bat_decidegc : Z;
  warm_bat_decidegc : Z;
  cool_bat_mv : Z;
  warm_bat_mv : Z;
  cool_bat_ma : Z;
  warm_bat_ma : Z
}.

Definition with_config_hard_thresholds (v : bool) (d : jeita_cfg) : jeita_cfg :=
  mkJeita v (soft_jeita_supported d) (cold_bat_decidegc d) (hot_bat_decidegc d) (cool_bat_decidegc d)
    (warm_bat_decidegc d) (cool_bat_mv d) (warm_bat_mv d) (cool_bat_ma d) (warm_bat_ma d).
Definition with_soft_jeita_supported (v : bool) (d : jeita_cfg) : jeita_cfg :=
  mkJeita (config_hard_thresholds d) v (cold_bat_decidegc d) (hot_bat_decidegc d) (cool_bat_decidegc d)
    (warm_bat_decidegc d) (cool_bat_mv d) (warm_bat_mv d) (cool_bat_ma d) (warm_bat_ma d).
Definition with_cold_bat_decidegc (v : Z) (d : jeita_cfg) : jeita_cfg :=
  mkJeita (config_hard_thresholds d) (soft_jeita_supported d) v (hot_bat_decidegc d) (cool_bat_decidegc d)
    (warm_bat_decidegc d) (cool_bat_mv d) (warm_bat_mv d) (cool_bat_ma d) (warm_bat_ma d).
Definition with_hot_bat_decidegc (v : Z) (d : jeita_cfg) : jeita_cfg :=
  mkJeita (config_hard_thresholds d) (soft_jeita_supported d) (cold_bat_decidegc d) v (cool_bat_decidegc d)
    (warm_bat_decidegc d) (cool_bat_mv d) (warm_bat_mv d) (cool_bat_ma d) (warm_bat_ma d).
Definition with_cool_bat_decidegc (v : Z) (d : jeita_cfg) : jeita_cfg :=
  mkJeita (config_hard_thresholds d) (soft_jeita_supported d) (cold_bat_decidegc d) (hot_bat_decidegc d) v
    (warm_bat_decidegc d) (cool_bat_mv d) (warm_bat_mv d) (cool_bat_ma d) (warm_bat_ma d).
Definition with_warm_bat_decidegc (v : Z) (d : jeita_cfg) : jeita_cfg :=
  mkJeita (config_hard_thresholds d) (soft_jeita_supported d) (cold_bat_decidegc d) (hot_bat_decidegc d)
    (cool_bat_decidegc d) v (cool_bat_mv d) (warm_bat_mv d) (cool_bat_ma d) (warm_bat_ma d).
Definition with_cool_bat_mv (v : Z) (d : jeita_cfg) : jeita_cfg :=
  mkJeita (config_hard_thresholds d) (soft_jeita_supported d) (cold_bat_decidegc d) (hot_bat_decidegc d)
    (cool_bat_decidegc d) (warm_bat_decidegc d) v (warm_bat_mv d) (cool_bat_ma d) (warm_bat_ma d).
Definition with_warm_bat_mv (v : Z) (d : jeita_cfg) : jeita_cfg :=
  mkJeita (config_hard_thresholds d) (soft_jeita_supported d) (cold_bat_decidegc d) (hot_bat_decidegc d)
    (cool_bat_decidegc d) (warm_bat_decidegc d) (cool_bat_mv d) v (cool_bat_ma d) (warm_bat_ma d).
Definition with_cool_bat_ma (v : Z) (d : jeita_cfg) : jeita_cfg :=
  mkJeita (config_hard_thresholds d) (soft_jeita_supported d) (cold_bat_decidegc d) (hot_bat_decidegc d)
    (cool_bat_decidegc d) (warm_bat_decidegc d) (cool_bat_mv d) (warm_bat_mv d) v (warm_bat_ma d).
Definition with_warm_bat_ma (v : Z) (d : jeita_cfg) : jeita_cfg :=
  mkJeita (config_hard_thresholds d) (soft_jeita_supported d) (cold_bat_decidegc d) (hot_bat_decidegc d)
    (cool_bat_decidegc d) (warm_bat_decidegc d) (cool_bat_mv d) (warm_bat_mv d) (cool_bat_ma d) v.

(** The parallel charger and the thermal levels. *)
Record lim_cfg := mkLim {
  parallel_charging : bool;
  max_parallel_chg_current : Z;
  thermal_levels : Z;   (* unsigned *)
  thermal_mitigation : option (list Z)
}.

Definition with_parallel_charging (v : bool) (d : lim_cfg) : lim_cfg :=
  mkLim v (max_parallel_chg_current d) (thermal_levels d) (thermal_mitigation d).
Definition with_max_parallel_chg_current (v : Z) (d : lim_cfg) : lim_cfg :=
  mkLim (parallel_charging d) v (thermal_levels d) (thermal_mitigation d).
Definition with_thermal_levels (v : Z) (d : lim_cfg) : lim_cfg :=
  mkLim (parallel_charging d) (max_parallel_chg_current d) v (thermal_mitigation d).
Definition with_thermal_mitigation (v : option (list Z)) (d : lim_cfg) : lim_cfg :=
  mkLim (parallel_charging d) (max_parallel_chg_current d) (thermal_levels d) v.

(** What the device tree says about the fuel gauge, and the battery it found. *)
Record fg_cfg := mkFg {
  soc_max : Z;
  soc_min : Z;
  delta_soc : Z;
  voltage_min_mv : Z;
  voltage_empty_mv : Z;
  batt_capacity_mah : Z;
  cc_soc_coeff : Z;
  v_cutoff_mv : Z;
  fg_iterm_ma : Z;
  fg_ibatt_standby_ma : Z;
  fg_thermistor_c1_coeff : Z;
  fg_cc_to_cv_mv : Z;
  fg_auto_recharge_soc : Z;
  empty_soc_disabled : bool;
  awake_min_soc : bool;
  fg_reset_threshold_mv : Z;
  fg_reset_at_pon : bool;
  connected_rid : Z;
  profile_rid_a : Z;   (* profile_rid[0] *)
  profile_rid_b : Z   (* profile_rid[1] *)
}.

Definition with_soc_max (v : Z) (d : fg_cfg) : fg_cfg :=
  mkFg v (soc_min d) (delta_soc d) (voltage_min_mv d) (voltage_empty_mv d) (batt_capacity_mah d)
    (cc_soc_coeff d) (v_cutoff_mv d) (fg_iterm_ma d) (fg_ibatt_standby_ma d) (fg_thermistor_c1_coeff d)
    (fg_cc_to_cv_mv d) (fg_auto_recharge_soc d) (empty_soc_disabled d) (awake_min_soc d)
    (fg_reset_threshold_mv d) (fg_reset_at_pon d) (connected_rid d) (profile_rid_a d) (profile_rid_b d).
Definition with_soc_min (v : Z) (d : fg_cfg) : fg_cfg :=
  mkFg (soc_max d) v (delta_soc d) (voltage_min_mv d) (voltage_empty_mv d) (batt_capacity_mah d)
    (cc_soc_coeff d) (v_cutoff_mv d) (fg_iterm_ma d) (fg_ibatt_standby_ma d) (fg_thermistor_c1_coeff d)
    (fg_cc_to_cv_mv d) (fg_auto_recharge_soc d) (empty_soc_disabled d) (awake_min_soc d)
    (fg_reset_threshold_mv d) (fg_reset_at_pon d) (connected_rid d) (profile_rid_a d) (profile_rid_b d).
Definition with_delta_soc (v : Z) (d : fg_cfg) : fg_cfg :=
  mkFg (soc_max d) (soc_min d) v (voltage_min_mv d) (voltage_empty_mv d) (batt_capacity_mah d) (cc_soc_coeff
    d) (v_cutoff_mv d) (fg_iterm_ma d) (fg_ibatt_standby_ma d) (fg_thermistor_c1_coeff d) (fg_cc_to_cv_mv d)
    (fg_auto_recharge_soc d) (empty_soc_disabled d) (awake_min_soc d) (fg_reset_threshold_mv d)
    (fg_reset_at_pon d) (connected_rid d) (profile_rid_a d) (profile_rid_b d).
Definition with_voltage_min_mv (v : Z) (d : fg_cfg) : fg_cfg :=
  mkFg (soc_max d) (soc_min d) (delta_soc d) v (voltage_empty_mv d) (batt_capacity_mah d) (cc_soc_coeff d)
    (v_cutoff_mv d) (fg_iterm_ma d) (fg_ibatt_standby_ma d) (fg_thermistor_c1_coeff d) (fg_cc_to_cv_mv d)
    (fg_auto_recharge_soc d) (empty_soc_disabled d) (awake_min_soc d) (fg_reset_threshold_mv d)
    (fg_reset_at_pon d) (connected_rid d) (profile_rid_a d) (profile_rid_b d).
Definition with_voltage_empty_mv (v : Z) (d : fg_cfg) : fg_cfg :=
  mkFg (soc_max d) (soc_min d) (delta_soc d) (voltage_min_mv d) v (batt_capacity_mah d) (cc_soc_coeff d)
    (v_cutoff_mv d) (fg_iterm_ma d) (fg_ibatt_standby_ma d) (fg_thermistor_c1_coeff d) (fg_cc_to_cv_mv d)
    (fg_auto_recharge_soc d) (empty_soc_disabled d) (awake_min_soc d) (fg_reset_threshold_mv d)
    (fg_reset_at_pon d) (connected_rid d) (profile_rid_a d) (profile_rid_b d).
Definition with_batt_capacity_mah (v : Z) (d : fg_cfg) : fg_cfg :=
  mkFg (soc_max d) (soc_min d) (delta_soc d) (voltage_min_mv d) (voltage_empty_mv d) v (cc_soc_coeff d)
    (v_cutoff_mv d) (fg_iterm_ma d) (fg_ibatt_standby_ma d) (fg_thermistor_c1_coeff d) (fg_cc_to_cv_mv d)
    (fg_auto_recharge_soc d) (empty_soc_disabled d) (awake_min_soc d) (fg_reset_threshold_mv d)
    (fg_reset_at_pon d) (connected_rid d) (profile_rid_a d) (profile_rid_b d).
Definition with_cc_soc_coeff (v : Z) (d : fg_cfg) : fg_cfg :=
  mkFg (soc_max d) (soc_min d) (delta_soc d) (voltage_min_mv d) (voltage_empty_mv d) (batt_capacity_mah d) v
    (v_cutoff_mv d) (fg_iterm_ma d) (fg_ibatt_standby_ma d) (fg_thermistor_c1_coeff d) (fg_cc_to_cv_mv d)
    (fg_auto_recharge_soc d) (empty_soc_disabled d) (awake_min_soc d) (fg_reset_threshold_mv d)
    (fg_reset_at_pon d) (connected_rid d) (profile_rid_a d) (profile_rid_b d).
Definition with_v_cutoff_mv (v : Z) (d : fg_cfg) : fg_cfg :=
  mkFg (soc_max d) (soc_min d) (delta_soc d) (voltage_min_mv d) (voltage_empty_mv d) (batt_capacity_mah d)
    (cc_soc_coeff d) v (fg_iterm_ma d) (fg_ibatt_standby_ma d) (fg_thermistor_c1_coeff d) (fg_cc_to_cv_mv d)
    (fg_auto_recharge_soc d) (empty_soc_disabled d) (awake_min_soc d) (fg_reset_threshold_mv d)
    (fg_reset_at_pon d) (connected_rid d) (profile_rid_a d) (profile_rid_b d).
Definition with_fg_iterm_ma (v : Z) (d : fg_cfg) : fg_cfg :=
  mkFg (soc_max d) (soc_min d) (delta_soc d) (voltage_min_mv d) (voltage_empty_mv d) (batt_capacity_mah d)
    (cc_soc_coeff d) (v_cutoff_mv d) v (fg_ibatt_standby_ma d) (fg_thermistor_c1_coeff d) (fg_cc_to_cv_mv d)
    (fg_auto_recharge_soc d) (empty_soc_disabled d) (awake_min_soc d) (fg_reset_threshold_mv d)
    (fg_reset_at_pon d) (connected_rid d) (profile_rid_a d) (profile_rid_b d).
Definition with_fg_ibatt_standby_ma (v : Z) (d : fg_cfg) : fg_cfg :=
  mkFg (soc_max d) (soc_min d) (delta_soc d) (voltage_min_mv d) (voltage_empty_mv d) (batt_capacity_mah d)
    (cc_soc_coeff d) (v_cutoff_mv d) (fg_iterm_ma d) v (fg_thermistor_c1_coeff d) (fg_cc_to_cv_mv d)
    (fg_auto_recharge_soc d) (empty_soc_disabled d) (awake_min_soc d) (fg_reset_threshold_mv d)
    (fg_reset_at_pon d) (connected_rid d) (profile_rid_a d) (profile_rid_b d).
Definition with_fg_thermistor_c1_coeff (v : Z) (d : fg_cfg) : fg_cfg :=
  mkFg (soc_max d) (soc_min d) (delta_soc d) (voltage_min_mv d) (voltage_empty_mv d) (batt_capacity_mah d)
    (cc_soc_coeff d) (v_cutoff_mv d) (fg_iterm_ma d) (fg_ibatt_standby_ma d) v (fg_cc_to_cv_mv d)
    (fg_auto_recharge_soc d) (empty_soc_disabled d) (awake_min_soc d) (fg_reset_threshold_mv d)
    (fg_reset_at_pon d) (connected_rid d) (profile_rid_a d) (profile_rid_b d).
Definition with_fg_cc_to_cv_mv (v : Z) (d : fg_cfg) : fg_cfg :=
  mkFg (soc_max d) (soc_min d) (delta_soc d) (voltage_min_mv d) (voltage_empty_mv d) (batt_capacity_mah d)
    (cc_soc_coeff d) (v_cutoff_mv d) (fg_iterm_ma d) (fg_ibatt_standby_ma d) (fg_thermistor_c1_coeff d) v
    (fg_auto_recharge_soc d) (empty_soc_disabled d) (awake_min_soc d) (fg_reset_threshold_mv d)
    (fg_reset_at_pon d) (connected_rid d) (profile_rid_a d) (profile_rid_b d).
Definition with_fg_auto_recharge_soc (v : Z) (d : fg_cfg) : fg_cfg :=
  mkFg (soc_max d) (soc_min d) (delta_soc d) (voltage_min_mv d) (voltage_empty_mv d) (batt_capacity_mah d)
    (cc_soc_coeff d) (v_cutoff_mv d) (fg_iterm_ma d) (fg_ibatt_standby_ma d) (fg_thermistor_c1_coeff d)
    (fg_cc_to_cv_mv d) v (empty_soc_disabled d) (awake_min_soc d) (fg_reset_threshold_mv d) (fg_reset_at_pon
    d) (connected_rid d) (profile_rid_a d) (profile_rid_b d).
Definition with_empty_soc_disabled (v : bool) (d : fg_cfg) : fg_cfg :=
  mkFg (soc_max d) (soc_min d) (delta_soc d) (voltage_min_mv d) (voltage_empty_mv d) (batt_capacity_mah d)
    (cc_soc_coeff d) (v_cutoff_mv d) (fg_iterm_ma d) (fg_ibatt_standby_ma d) (fg_thermistor_c1_coeff d)
    (fg_cc_to_cv_mv d) (fg_auto_recharge_soc d) v (awake_min_soc d) (fg_reset_threshold_mv d)
    (fg_reset_at_pon d) (connected_rid d) (profile_rid_a d) (profile_rid_b d).
Definition with_awake_min_soc (v : bool) (d : fg_cfg) : fg_cfg :=
  mkFg (soc_max d) (soc_min d) (delta_soc d) (voltage_min_mv d) (voltage_empty_mv d) (batt_capacity_mah d)
    (cc_soc_coeff d) (v_cutoff_mv d) (fg_iterm_ma d) (fg_ibatt_standby_ma d) (fg_thermistor_c1_coeff d)
    (fg_cc_to_cv_mv d) (fg_auto_recharge_soc d) (empty_soc_disabled d) v (fg_reset_threshold_mv d)
    (fg_reset_at_pon d) (connected_rid d) (profile_rid_a d) (profile_rid_b d).
Definition with_fg_reset_threshold_mv (v : Z) (d : fg_cfg) : fg_cfg :=
  mkFg (soc_max d) (soc_min d) (delta_soc d) (voltage_min_mv d) (voltage_empty_mv d) (batt_capacity_mah d)
    (cc_soc_coeff d) (v_cutoff_mv d) (fg_iterm_ma d) (fg_ibatt_standby_ma d) (fg_thermistor_c1_coeff d)
    (fg_cc_to_cv_mv d) (fg_auto_recharge_soc d) (empty_soc_disabled d) (awake_min_soc d) v (fg_reset_at_pon
    d) (connected_rid d) (profile_rid_a d) (profile_rid_b d).
Definition with_fg_reset_at_pon (v : bool) (d : fg_cfg) : fg_cfg :=
  mkFg (soc_max d) (soc_min d) (delta_soc d) (voltage_min_mv d) (voltage_empty_mv d) (batt_capacity_mah d)
    (cc_soc_coeff d) (v_cutoff_mv d) (fg_iterm_ma d) (fg_ibatt_standby_ma d) (fg_thermistor_c1_coeff d)
    (fg_cc_to_cv_mv d) (fg_auto_recharge_soc d) (empty_soc_disabled d) (awake_min_soc d)
    (fg_reset_threshold_mv d) v (connected_rid d) (profile_rid_a d) (profile_rid_b d).
Definition with_connected_rid (v : Z) (d : fg_cfg) : fg_cfg :=
  mkFg (soc_max d) (soc_min d) (delta_soc d) (voltage_min_mv d) (voltage_empty_mv d) (batt_capacity_mah d)
    (cc_soc_coeff d) (v_cutoff_mv d) (fg_iterm_ma d) (fg_ibatt_standby_ma d) (fg_thermistor_c1_coeff d)
    (fg_cc_to_cv_mv d) (fg_auto_recharge_soc d) (empty_soc_disabled d) (awake_min_soc d)
    (fg_reset_threshold_mv d) (fg_reset_at_pon d) v (profile_rid_a d) (profile_rid_b d).
Definition with_profile_rid_a (v : Z) (d : fg_cfg) : fg_cfg :=
  mkFg (soc_max d) (soc_min d) (delta_soc d) (voltage_min_mv d) (voltage_empty_mv d) (batt_capacity_mah d)
    (cc_soc_coeff d) (v_cutoff_mv d) (fg_iterm_ma d) (fg_ibatt_standby_ma d) (fg_thermistor_c1_coeff d)
    (fg_cc_to_cv_mv d) (fg_auto_recharge_soc d) (empty_soc_disabled d) (awake_min_soc d)
    (fg_reset_threshold_mv d) (fg_reset_at_pon d) (connected_rid d) v (profile_rid_b d).
Definition with_profile_rid_b (v : Z) (d : fg_cfg) : fg_cfg :=
  mkFg (soc_max d) (soc_min d) (delta_soc d) (voltage_min_mv d) (voltage_empty_mv d) (batt_capacity_mah d)
    (cc_soc_coeff d) (v_cutoff_mv d) (fg_iterm_ma d) (fg_ibatt_standby_ma d) (fg_thermistor_c1_coeff d)
    (fg_cc_to_cv_mv d) (fg_auto_recharge_soc d) (empty_soc_disabled d) (awake_min_soc d)
    (fg_reset_threshold_mv d) (fg_reset_at_pon d) (connected_rid d) (profile_rid_a d) v.

(** Status tracking. *)
Record flags := mkFlags {
  usb_present : bool;
  batt_present : bool;
  batt_hot : bool;
  batt_cold : bool;
  batt_warm : bool;
  batt_cool : bool;
  batt_full : bool;
  empty_soc : bool;
  soft_hot_rt_stat : Z;   (* u8 *)
  soft_cold_rt_stat : Z
}.

Definition with_usb_present (v : bool) (d : flags) : flags :=
  mkFlags v (batt_present d) (batt_hot d) (batt_cold d) (batt_warm d) (batt_cool d) (batt_full d) (empty_soc
    d) (soft_hot_rt_stat d) (soft_cold_rt_stat d).
Definition with_batt_present (v : bool) (d : flags) : flags :=
  mkFlags (usb_present d) v (batt_hot d) (batt_cold d) (batt_warm d) (batt_cool d) (batt_full d) (empty_soc
    d) (soft_hot_rt_stat d) (soft_cold_rt_stat d).
Definition with_batt_hot (v : bool) (d : flags) : flags :=
  mkFlags (usb_present d) (batt_present d) v (batt_cold d) (batt_warm d) (batt_cool d) (batt_full d)
    (empty_soc d) (soft_hot_rt_stat d) (soft_cold_rt_stat d).
Definition with_batt_cold (v : bool) (d : flags) : flags :=
  mkFlags (usb_present d) (batt_present d) (batt_hot d) v (batt_warm d) (batt_cool d) (batt_full d)
    (empty_soc d) (soft_hot_rt_stat d) (soft_cold_rt_stat d).
Definition with_batt_warm (v : bool) (d : flags) : flags :=
  mkFlags (usb_present d) (batt_present d) (batt_hot d) (batt_cold d) v (batt_cool d) (batt_full d)
    (empty_soc d) (soft_hot_rt_stat d) (soft_cold_rt_stat d).
Definition with_batt_cool (v : bool) (d : flags) : flags :=
  mkFlags (usb_present d) (batt_present d) (batt_hot d) (batt_cold d) (batt_warm d) v (batt_full d)
    (empty_soc d) (soft_hot_rt_stat d) (soft_cold_rt_stat d).
Definition with_batt_full (v : bool) (d : flags) : flags :=
  mkFlags (usb_present d) (batt_present d) (batt_hot d) (batt_cold d) (batt_warm d) (batt_cool d) v
    (empty_soc d) (soft_hot_rt_stat d) (soft_cold_rt_stat d).
Definition with_empty_soc (v : bool) (d : flags) : flags :=
  mkFlags (usb_present d) (batt_present d) (batt_hot d) (batt_cold d) (batt_warm d) (batt_cool d) (batt_full
    d) v (soft_hot_rt_stat d) (soft_cold_rt_stat d).
Definition with_soft_hot_rt_stat (v : Z) (d : flags) : flags :=
  mkFlags (usb_present d) (batt_present d) (batt_hot d) (batt_cold d) (batt_warm d) (batt_cool d) (batt_full
    d) (empty_soc d) v (soft_cold_rt_stat d).
Definition with_soft_cold_rt_stat (v : Z) (d : flags) : flags :=
  mkFlags (usb_present d) (batt_present d) (batt_hot d) (batt_cold d) (batt_warm d) (batt_cool d) (batt_full
    d) (empty_soc d) (soft_hot_rt_stat d) v.

(** What the driver decided last. *)
Record ctl := mkCtl {
  revision : Z;
  workaround_flags : Z;
  fake_battery_soc : Z;
  therm_lvl_sel : Z;   (* unsigned *)
  chip_fastchg_current : Z;   (* fastchg_current *)
  usb_psy_ma : Z;
  charging_disabled_status : Z;
  parallel_chg_disable_status : Z;
  parallel_psy : bool;   (* whether it was found *)
  soft_cold_thresh : Z;
  soft_hot_thresh : Z;
  fet_gain_enabled : bool;
  otg_rdev : bool   (* otg_vreg.rdev, whether not NULL *)
}.

Definition with_revision (v : Z) (d : ctl) : ctl :=
  mkCtl v (workaround_flags d) (fake_battery_soc d) (therm_lvl_sel d) (chip_fastchg_current d) (usb_psy_ma
    d) (charging_disabled_status d) (parallel_chg_disable_status d) (parallel_psy d) (soft_cold_thresh d)
    (soft_hot_thresh d) (fet_gain_enabled d) (otg_rdev d).
Definition with_workaround_flags (v : Z) (d : ctl) : ctl :=
  mkCtl (revision d) v (fake_battery_soc d) (therm_lvl_sel d) (chip_fastchg_current d) (usb_psy_ma d)
    (charging_disabled_status d) (parallel_chg_disable_status d) (parallel_psy d) (soft_cold_thresh d)
    (soft_hot_thresh d) (fet_gain_enabled d) (otg_rdev d).
Definition with_fake_battery_soc (v : Z) (d : ctl) : ctl :=
  mkCtl (revision d) (workaround_flags d) v (therm_lvl_sel d) (chip_fastchg_current d) (usb_psy_ma d)
    (charging_disabled_status d) (parallel_chg_disable_status d) (parallel_psy d) (soft_cold_thresh d)
    (soft_hot_thresh d) (fet_gain_enabled d) (otg_rdev d).
Definition with_therm_lvl_sel (v : Z) (d : ctl) : ctl :=
  mkCtl (revision d) (workaround_flags d) (fake_battery_soc d) v (chip_fastchg_current d) (usb_psy_ma d)
    (charging_disabled_status d) (parallel_chg_disable_status d) (parallel_psy d) (soft_cold_thresh d)
    (soft_hot_thresh d) (fet_gain_enabled d) (otg_rdev d).
Definition with_chip_fastchg_current (v : Z) (d : ctl) : ctl :=
  mkCtl (revision d) (workaround_flags d) (fake_battery_soc d) (therm_lvl_sel d) v (usb_psy_ma d)
    (charging_disabled_status d) (parallel_chg_disable_status d) (parallel_psy d) (soft_cold_thresh d)
    (soft_hot_thresh d) (fet_gain_enabled d) (otg_rdev d).
Definition with_usb_psy_ma (v : Z) (d : ctl) : ctl :=
  mkCtl (revision d) (workaround_flags d) (fake_battery_soc d) (therm_lvl_sel d) (chip_fastchg_current d) v
    (charging_disabled_status d) (parallel_chg_disable_status d) (parallel_psy d) (soft_cold_thresh d)
    (soft_hot_thresh d) (fet_gain_enabled d) (otg_rdev d).
Definition with_charging_disabled_status (v : Z) (d : ctl) : ctl :=
  mkCtl (revision d) (workaround_flags d) (fake_battery_soc d) (therm_lvl_sel d) (chip_fastchg_current d)
    (usb_psy_ma d) v (parallel_chg_disable_status d) (parallel_psy d) (soft_cold_thresh d) (soft_hot_thresh
    d) (fet_gain_enabled d) (otg_rdev d).
Definition with_parallel_chg_disable_status (v : Z) (d : ctl) : ctl :=
  mkCtl (revision d) (workaround_flags d) (fake_battery_soc d) (therm_lvl_sel d) (chip_fastchg_current d)
    (usb_psy_ma d) (charging_disabled_status d) v (parallel_psy d) (soft_cold_thresh d) (soft_hot_thresh d)
    (fet_gain_enabled d) (otg_rdev d).
Definition with_parallel_psy (v : bool) (d : ctl) : ctl :=
  mkCtl (revision d) (workaround_flags d) (fake_battery_soc d) (therm_lvl_sel d) (chip_fastchg_current d)
    (usb_psy_ma d) (charging_disabled_status d) (parallel_chg_disable_status d) v (soft_cold_thresh d)
    (soft_hot_thresh d) (fet_gain_enabled d) (otg_rdev d).
Definition with_soft_cold_thresh (v : Z) (d : ctl) : ctl :=
  mkCtl (revision d) (workaround_flags d) (fake_battery_soc d) (therm_lvl_sel d) (chip_fastchg_current d)
    (usb_psy_ma d) (charging_disabled_status d) (parallel_chg_disable_status d) (parallel_psy d) v
    (soft_hot_thresh d) (fet_gain_enabled d) (otg_rdev d).
Definition with_soft_hot_thresh (v : Z) (d : ctl) : ctl :=
  mkCtl (revision d) (workaround_flags d) (fake_battery_soc d) (therm_lvl_sel d) (chip_fastchg_current d)
    (usb_psy_ma d) (charging_disabled_status d) (parallel_chg_disable_status d) (parallel_psy d)
    (soft_cold_thresh d) v (fet_gain_enabled d) (otg_rdev d).
Definition with_fet_gain_enabled (v : bool) (d : ctl) : ctl :=
  mkCtl (revision d) (workaround_flags d) (fake_battery_soc d) (therm_lvl_sel d) (chip_fastchg_current d)
    (usb_psy_ma d) (charging_disabled_status d) (parallel_chg_disable_status d) (parallel_psy d)
    (soft_cold_thresh d) (soft_hot_thresh d) v (otg_rdev d).
Definition with_otg_rdev (v : bool) (d : ctl) : ctl :=
  mkCtl (revision d) (workaround_flags d) (fake_battery_soc d) (therm_lvl_sel d) (chip_fastchg_current d)
    (usb_psy_ma d) (charging_disabled_status d) (parallel_chg_disable_status d) (parallel_psy d)
    (soft_cold_thresh d) (soft_hot_thresh d) (fet_gain_enabled d) v.

(** The addresses on the bus and the debugfs switches. *)
Record i2c := mkI2c {
  client_addr : Z;   (* client->addr *)
  default_i2c_addr : Z;
  fg_i2c_addr : Z;
  fg_access_type : Z;
  skip_writes : Z;
  skip_reads : Z;
  peek_poke_address : Z;
  fg_peek_poke_address : Z
}.

Definition with_client_addr (v : Z) (d : i2c) : i2c :=
  mkI2c v (default_i2c_addr d) (fg_i2c_addr d) (fg_access_type d) (skip_writes d) (skip_reads d)
    (peek_poke_address d) (fg_peek_poke_address d).
Definition with_default_i2c_addr (v : Z) (d : i2c) : i2c :=
  mkI2c (client_addr d) v (fg_i2c_addr d) (fg_access_type d) (skip_writes d) (skip_reads d)
    (peek_poke_address d) (fg_peek_poke_address d).
Definition with_fg_i2c_addr (v : Z) (d : i2c) : i2c :=
  mkI2c (client_addr d) (default_i2c_addr d) v (fg_access_type d) (skip_writes d) (skip_reads d)
    (peek_poke_address d) (fg_peek_poke_address d).
Definition with_fg_access_type (v : Z) (d : i2c) : i2c :=
  mkI2c (client_addr d) (default_i2c_addr d) (fg_i2c_addr d) v (skip_writes d) (skip_reads d)
    (peek_poke_address d) (fg_peek_poke_address d).
Definition with_skip_writes (v : Z) (d : i2c) : i2c :=
  mkI2c (client_addr d) (default_i2c_addr d) (fg_i2c_addr d) (fg_access_type d) v (skip_reads d)
    (peek_poke_address d) (fg_peek_poke_address d).
Definition with_skip_reads (v : Z) (d : i2c) : i2c :=
  mkI2c (client_addr d) (default_i2c_addr d) (fg_i2c_addr d) (fg_access_type d) (skip_writes d) v
    (peek_poke_address d) (fg_peek_poke_address d).
Definition with_peek_poke_address (v : Z) (d : i2c) : i2c :=
  mkI2c (client_addr d) (default_i2c_addr d) (fg_i2c_addr d) (fg_access_type d) (skip_writes d) (skip_reads
    d) v (fg_peek_poke_address d).
Definition with_fg_peek_poke_address (v : Z) (d : i2c) : i2c :=
  mkI2c (client_addr d) (default_i2c_addr d) (fg_i2c_addr d) (fg_access_type d) (skip_writes d) (skip_reads
    d) (peek_poke_address d) v.

(** Suspend and resume. *)
Record pmst := mkPm {
  resume_completed : bool;
  irq_waiting : bool;
  irq_cfg_mask : list Z
}.

Definition with_resume_completed (v : bool) (d : pmst) : pmst :=
  mkPm v (irq_waiting d) (irq_cfg_mask d).
Definition with_irq_waiting (v : bool) (d : pmst) : pmst :=
  mkPm (resume_completed d) v (irq_cfg_mask d).
Definition with_irq_cfg_mask (v : list Z) (d : pmst) : pmst :=
  mkPm (resume_completed d) (irq_waiting d) v.

(** The whole driver: [struct smb1360_chip], the table [handlers], the mutexes that are held, and
    what it has done. *)
Record sworld := mkS {
  s_chg : chg_cfg;
  s_jeita : jeita_cfg;
  s_lim : lim_cfg;
  s_fg : fg_cfg;
  s_st : flags;
  s_ctl : ctl;
  s_i2c : i2c;
  s_pm : pmst;
  s_irqs : list irq_row;
  s_locks : list mutex;
  s_trace : list seffect
}.

Definition with_s_chg (v : chg_cfg) (d : sworld) : sworld :=
  mkS v (s_jeita d) (s_lim d) (s_fg d) (s_st d) (s_ctl d) (s_i2c d) (s_pm d) (s_irqs d) (s_locks d) (s_trace
    d).
Definition with_s_jeita (v : jeita_cfg) (d : sworld) : sworld :=
  mkS (s_chg d) v (s_lim d) (s_fg d) (s_st d) (s_ctl d) (s_i2c d) (s_pm d) (s_irqs d) (s_locks d) (s_trace
    d).
Definition with_s_lim (v : lim_cfg) (d : sworld) : sworld :=
  mkS (s_chg d) (s_jeita d) v (s_fg d) (s_st d) (s_ctl d) (s_i2c d) (s_pm d) (s_irqs d) (s_locks d) (s_trace
    d).
Definition with_s_fg (v : fg_cfg) (d : sworld) : sworld :=
  mkS (s_chg d) (s_jeita d) (s_lim d) v (s_st d) (s_ctl d) (s_i2c d) (s_pm d) (s_irqs d) (s_locks d)
    (s_trace d).
Definition with_s_st (v : flags) (d : sworld) : sworld :=
  mkS (s_chg d) (s_jeita d) (s_lim d) (s_fg d) v (s_ctl d) (s_i2c d) (s_pm d) (s_irqs d) (s_locks d)
    (s_trace d).
Definition with_s_ctl (v : ctl) (d : sworld) : sworld :=
  mkS (s_chg d) (s_jeita d) (s_lim d) (s_fg d) (s_st d) v (s_i2c d) (s_pm d) (s_irqs d) (s_locks d) (s_trace
    d).
Definition with_s_i2c (v : i2c) (d : sworld) : sworld :=
  mkS (s_chg d) (s_jeita d) (s_lim d) (s_fg d) (s_st d) (s_ctl d) v (s_pm d) (s_irqs d) (s_locks d) (s_trace
    d).
Definition with_s_pm (v : pmst) (d : sworld) : sworld :=
  mkS (s_chg d) (s_jeita d) (s_lim d) (s_fg d) (s_st d) (s_ctl d) (s_i2c d) v (s_irqs d) (s_locks d)
    (s_trace d).
Definition with_s_irqs (v : list irq_row) (d : sworld) : sworld :=
  mkS (s_chg d) (s_jeita d) (s_lim d) (s_fg d) (s_st d) (s_ctl d) (s_i2c d) (s_pm d) v (s_locks d) (s_trace
    d).
Definition with_s_locks (v : list mutex) (d : sworld) : sworld :=
  mkS (s_chg d) (s_jeita d) (s_lim d) (s_fg d) (s_st d) (s_ctl d) (s_i2c d) (s_pm d) (s_irqs d) v (s_trace
    d).
Definition with_s_trace (v : list seffect) (d : sworld) : sworld :=
  mkS (s_chg d) (s_jeita d) (s_lim d) (s_fg d) (s_st d) (s_ctl d) (s_i2c d) (s_pm d) (s_irqs d) (s_locks d)
    v.

(** ** The kernel *)

(** Every call is an effect, and its answer may depend on everything the
    driver has done before. *)
Class SmbKernel := {
  sk_read : list seffect -> Z -> Z -> Z;           (* address and register: the byte, or an error *)
  sk_write : list seffect -> Z -> Z -> Z -> Z;
  sk_read_block : list seffect -> Z -> Z -> list Z -> Z * list Z;
      (* the result, and the buffer afterwards from what it was before *)
  sk_read_block_len : forall tr a r b, length (snd (sk_read_block tr a r b)) = length b;
  sk_write_block : list seffect -> Z -> Z -> list Z -> Z;
  sk_junk : list seffect -> Z -> Z;                (* a byte of a local array before it is written *)
  sk_usb_get : list seffect -> string -> Z -> Z * Z;   (* result, and the value afterwards *)
  sk_set_online : list seffect -> Z;
  sk_psy_by_name : list seffect -> string -> bool;
  sk_gpio_request : list seffect -> Z;
  sk_request_irq : list seffect -> Z;
  sk_regulator : list seffect -> option Z;         (* None: no init data; else 0 or PTR_ERR *)
  sk_regulator_name : bool;                        (* init_data->constraints.name *)
  sk_psy_register : list seffect -> Z;
  sk_alloc : list seffect -> bool;
  sk_client_irq : Z;                               (* client->irq *)
  sk_of_node : bool;
  sk_bool : string -> bool;                        (* of_property_read_bool *)
  sk_u32 : string -> Z + Z;                        (* of_property_read_u32: an error or the value *)
  sk_u32_err : forall n e, sk_u32 n = inl e -> e < 0;
  sk_array : string -> option (Z * (Z + list Z));  (* size in bytes; the error of reading the cells, or the cells *)
  sk_array_len : forall n b c, sk_array n = Some (b, c) -> 0 <= b < 2 ^ 32 /\ (forall l, c = inr l -> zlen l = b / 4);
  sk_of_gpio : string -> Z;
  sk_gpio_is_valid : Z -> bool;
  sk_vadc : list seffect -> Z;                     (* qpnp_get_vadc: 0, or PTR_ERR *)
  sk_vadc_read : list seffect -> Z * Z             (* result and result.physical *)
}.

(** ** Effects and locks *)

Definition s_emit (e : seffect) (s : sworld) : sworld := with_s_trace (s_trace s ++ [e]) s.
Definition s_do (e : seffect) : prog sworld unit := modify (s_emit e).
Definition s_gets {A} (f : sworld -> A) : prog sworld A := fun s => Ret (f s) s.

(** A call: the answer to the trace so far, recorded with the effect. *)
Definition s_call {A} (f : list seffect -> A) (e : A -> seffect) : prog sworld A :=
  fun s => let a := f (s_trace s) in Ret a (s_emit (e a) s).

Definition set_st (f : flags -> flags) : prog sworld unit := modify (fun s => with_s_st (f (s_st s)) s).
Definition set_ctl (f : ctl -> ctl) : prog sworld unit := modify (fun s => with_s_ctl (f (s_ctl s)) s).
Definition set_i2c (f : i2c -> i2c) : prog sworld unit := modify (fun s => with_s_i2c (f (s_i2c s)) s).
Definition set_pm (f : pmst -> pmst) : prog sworld unit := modify (fun s => with_s_pm (f (s_pm s)) s).
Definition set_chg (f : chg_cfg -> chg_cfg) : prog sworld unit := modify (fun s => with_s_chg (f (s_chg s)) s).
Definition set_jeita (f : jeita_cfg -> jeita_cfg) : prog sworld unit := modify (fun s => with_s_jeita (f (s_jeita s)) s).
Definition set_lim (f : lim_cfg -> lim_cfg) : prog sworld unit := modify (fun s => with_s_lim (f (s_lim s)) s).
Definition set_fg (f : fg_cfg -> fg_cfg) : prog sworld unit := modify (fun s => with_s_fg (f (s_fg s)) s).

(** A mutex is not recursive: locking it twice waits forever. *)
Definition mutex_lock (m : mutex) : prog sworld unit :=
  fun s => if decide (m ∈ s_locks s) then Fault Deadlock s else Ret tt (with_s_locks (m :: s_locks s) s).
Definition mutex_unlock (m : mutex) : prog sworld unit :=
  modify (fun s => with_s_locks (filter (fun x => x <> m) (s_locks s)) s).

(** [mutex_lock(m); c; mutex_unlock(m)]. *)
Definition locked {A} (m : mutex) (c : prog sworld A) : prog sworld A :=
  do* mutex_lock m; let* r := c in do* mutex_unlock m; ret r.

(** [rc = c; if (rc) return rc; k], and the same with [rc < 0]. *)
Definition and_then (c k : prog sworld Z) : prog sworld Z := let* rc := c in if rc =? 0 then k else ret rc.
Definition unless_neg (c k : prog sworld Z) : prog sworld Z := let* rc := c in if rc <? 0 then ret rc else k.
Notation "'ok*' c ';' k" := (and_then c k) (at level 10, c at level 100, k at level 200) : c_scope.
Notation "'nn*' c ';' k" := (unless_neg c k) (at level 10, c at level 100, k at level 200) : c_scope.

Definition when (b : bool) (c : prog sworld unit) : prog sworld unit := if b then c else ret tt.

Section SmbBus.
Context `{SmbKernel}.

(** ** Registers *)

(** The result and the byte; the byte keeps its value when the read fails. *)
Definition __smb1360_read (reg old : Z) : prog sworld (Z * Z) :=
  let* a := s_gets (fun s => client_addr (s_i2c s)) in
  let* r := s_call (fun tr => sk_read tr a reg) (I2cRead a reg) in
  ret (if r <? 0 then (r, old) else (0, u8 r)).

Definition __smb1360_write (reg val : Z) : prog sworld Z :=
  let* a := s_gets (fun s => client_addr (s_i2c s)) in
  let* r := s_call (fun tr => sk_write tr a reg (u8 val)) (I2cWrite a reg (u8 val)) in
  ret (if r <? 0 then r else 0).

Definition skipping_reads : prog sworld bool := s_gets (fun s => negb (skip_reads (s_i2c s) =? 0)).
Definition skipping_writes : prog sworld bool := s_gets (fun s => negb (skip_writes (s_i2c s) =? 0)).

Definition smb1360_read (reg old : Z) : prog sworld (Z * Z) :=
  let* skip := skipping_reads in
  if skip then ret (0, 0) else locked read_write_lock (__smb1360_read reg old).

Definition smb1360_write (reg val : Z) : prog sworld Z :=
  let* skip := skipping_writes in
  if skip then ret 0 else locked read_write_lock (__smb1360_write reg val).

(** The fuel gauge's memory answers at another address. *)
Definition at_fg_addr {A} (c : prog sworld A) : prog sworld A :=
  do* set_i2c (fun b => with_client_addr (fg_i2c_addr b) b);
  let* r := c in
  do* set_i2c (fun b => with_client_addr (default_i2c_addr b) b);
  ret r.

Definition smb1360_fg_read (reg old : Z) : prog sworld (Z * Z) :=
  let* skip := skipping_reads in
  if skip then ret (0, 0) else locked read_write_lock (at_fg_addr (__smb1360_read reg old)).

Definition smb1360_fg_write (reg val : Z) : prog sworld Z :=
  let* skip := skipping_writes in
  if skip then ret 0 else locked read_write_lock (at_fg_addr (__smb1360_write reg val)).

(** [*val = 0]: the first byte of the buffer. *)
Definition zero_first (b : list Z) : list Z := <[0%nat := 0]> b.

Definition smb1360_read_bytes (reg : Z) (val : list Z) : prog sworld (Z * list Z) :=
  let* skip := skipping_reads in
  if skip then ret (0, zero_first val) else
  locked read_write_lock (
    let* a := s_gets (fun s => client_addr (s_i2c s)) in
    let* r := s_call (fun tr => sk_read_block tr a reg val) (fun r => I2cReadBlock a reg (zlen val) (fst r)) in
    ret (if fst r <? 0 then fst r else 0, snd r)).

(** The result, and the buffer: skipping the write clears its first byte. *)
Definition smb1360_write_bytes (reg : Z) (val : list Z) : prog sworld (Z * list Z) :=
  let* skip := skipping_writes in
  if skip then ret (0, zero_first val) else
  locked read_write_lock (
    let* a := s_gets (fun s => client_addr (s_i2c s)) in
    let* rc := s_call (fun tr => sk_write_block tr a reg val) (I2cWriteBlock a reg val) in
    ret (if rc <? 0 then rc else 0, val)).

(** A local [u8 reg[2]], and the little-endian number it holds. *)
Definition local2 : prog sworld (list Z) := fun s => Ret [sk_junk (s_trace s) 0; sk_junk (s_trace s) 1] s.
Definition byte_at (b : list Z) (i : nat) : Z := u8 (nth i b 0).
Definition word16 (b : list Z) : Z := Z.lor (Z.shiftl (byte_at b 1) 8) (byte_at b 0).

(** The bits of [mask] from [val], the others from [old]. *)
Definition set_masked (old mask val : Z) : Z := Z.lor (Z.land old (Z.lnot mask)) (Z.land (u8 val) mask).

Definition smb1360_masked_write (reg mask val : Z) : prog sworld Z :=
  let* sw := skipping_writes in
  let* sr := skipping_reads in
  if sw || sr then ret 0 else
  locked read_write_lock (
    let* r := __smb1360_read reg 0 in
    if fst r <? 0 then ret (fst r) else __smb1360_write reg (set_masked (snd r) mask val)).

(** ** Access to the fuel gauge's memory *)

(** [while (timeout)]: the value of [timeout] at the end. *)
Fixpoint fg_poll (timeout : nat) (reg : Z) : prog sworld nat :=
  match timeout with
  | O => ret O
  | S n =>
      do* s_do (Msleep 200);
      let* r := smb1360_read IRQ_I_REG reg in
      if (fst r =? 0) && negb (Z.land (snd r) FG_ACCESS_ALLOWED_BIT =? 0) then ret timeout
      else fg_poll n (snd r)
  end.

Definition smb1360_enable_fg_access : prog sworld Z :=
  ok* smb1360_masked_write CMD_I2C_REG FG_ACCESS_ENABLED_BIT FG_ACCESS_ENABLED_BIT;
  let* timeout := fg_poll 50 0 in
  ret (match timeout with O => - EBUSY | _ => 0 end).

Definition smb1360_disable_fg_access : prog sworld Z :=
  smb1360_masked_write CMD_I2C_REG FG_ACCESS_ENABLED_BIT 0.

Definition smb1360_enable_volatile_writes : prog sworld Z :=
  smb1360_masked_write CMD_I2C_REG ALLOW_VOLATILE_BIT ALLOW_VOLATILE_BIT.

(** An error is returned as a [bool], that is as true. *)
Definition is_usb100_broken : prog sworld bool :=
  let* r := smb1360_read TRIM_1C_REG 0 in
  ret (if fst r <? 0 then true else negb (Z.land (snd r) CHECK_USB100_GOOD_BIT =? 0)).

(** The result and the revision. *)
Definition read_revision : prog sworld (Z * Z) :=
  let* r := smb1360_read REVISION_CTRL_REG 0 in
  ret (fst r, Z.land (snd r) DEVICE_REV_MASK).

Definition smb1360_select_fg_i2c_address : prog sworld Z :=
  let* b := s_gets s_i2c in
  let addr := u16 (Z.shiftl (default_i2c_addr b) 1) in
  let select sub := set_i2c (with_fg_i2c_addr (Z.shiftr (u16 (Z.lor (Z.land addr (Z.lnot FG_I2C_CFG_MASK)) sub)) 1)) in
  if fg_access_type b =? FG_ACCESS_CFG then do* select FG_CFG_I2C_ADDR; ret 0
  else if fg_access_type b =? FG_ACCESS_PROFILE_A then do* select FG_PROFILE_A_ADDR; ret 0
  else if fg_access_type b =? FG_ACCESS_PROFILE_B then do* select FG_PROFILE_B_ADDR; ret 0
  else ret (- EINVAL).

End SmbBus.

(** ** The chip's floats

    Sixteen bits: five of exponent, a sign, ten of mantissa; the driver
    computes in millionths. *)

Definition float_decode (reg : Z) : Z :=
  let exponent := Z.shiftr (Z.land reg EXPONENT_MASK) EXPONENT_SHIFT in
  let mantissa := Z.land reg MANTISSA_MASK in
  let sign := negb (Z.land reg SIGN_MASK =? 0) in
  let mantissa_val := mantissa * MICRO_UNIT in
  let n := exponent - 15 in
  let exponent_val := if n <? 0 then Z.shiftr MICRO_UNIT (- n) else Z.shiftl MICRO_UNIT n in
  let n := n - 10 in
  let mantissa_val := if n <? 0 then Z.shiftr mantissa_val (- n) else Z.shiftl mantissa_val n in
  let final_val := exponent_val + mantissa_val in
  if sign then - final_val else final_val.

(** [while (float_val >= MAX_MANTISSA)]; 64 steps empty any 64-bit value. *)
Fixpoint encode_reduce (fuel : nat) (exponent float_val : Z) : Z * Z :=
  match fuel with
  | O => (exponent, float_val)
  | S f => if MAX_MANTISSA <=? float_val then encode_reduce f (exponent + 1) (Z.shiftr float_val 1)
           else (exponent, float_val)
  end.

(** [while (float_val < MAX_MANTISSA && exponent > -25)]. *)
Fixpoint encode_raise (fuel : nat) (exponent float_val : Z) : Z * Z :=
  match fuel with
  | O => (exponent, float_val)
  | S f => if (float_val <? MAX_MANTISSA) && (-25 <? exponent) then encode_raise f (exponent - 1) (Z.shiftl float_val 1)
           else (exponent, float_val)
  end.

Definition float_encode (float_val : Z) : Z :=
  if float_val =? 0 then 0 else
  let sign := if float_val <? 0 then 1 else 0 in
  let float_val := Z.abs float_val in
  let '(exponent, float_val) := encode_reduce 64 0 float_val in
  let '(exponent, float_val) := encode_raise 96 exponent float_val in
  let exponent := exponent + 25 in
  let float_val := Z.quot (float_val + MICRO_UNIT) MICRO_UNIT in
  let '(exponent, float_val) := if float_val =? 1024 then (exponent - 1, Z.shiftl float_val 1) else (exponent, float_val) in
  let float_val := float_val - 1024 in
  let float_val := if MANTISSA_MASK <? float_val then MANTISSA_MASK else float_val in
  Z.lor (Z.lor (Z.land float_val MANTISSA_MASK) (Z.shiftl sign SIGN_SHIFT))
    (Z.land (Z.shiftl exponent EXPONENT_SHIFT) EXPONENT_MASK).

(** ** Programs that only talk to the chip *)

Definition more (es : list seffect) (s : sworld) : sworld := with_s_trace (s_trace s ++ es) s.

Lemma more_nil s : more [] s = s.
Proof. unfold more. rewrite app_nil_r. by destruct s. Qed.

Lemma more_more es es' s : more es' (more es s) = more (es ++ es') s.
Proof. unfold more. destruct s. cbn. by rewrite <- app_assoc. Qed.

Lemma emit_more e s : s_emit e s = more [e] s.
Proof. done. Qed.

(** The effects that do not switch the interrupt, and how often it was switched
    off more than on. *)
Definition plain (e : seffect) : Prop := match e with IrqDisable | IrqEnable => False | _ => True end.

Fixpoint irq_off (tr : list seffect) : Z :=
  match tr with
  | [] => 0
  | IrqDisable :: tr' => 1 + irq_off tr'
  | IrqEnable :: tr' => irq_off tr' - 1
  | _ :: tr' => irq_off tr'
  end.

Lemma irq_off_app tr tr' : irq_off (tr ++ tr') = irq_off tr + irq_off tr'.
Proof. induction tr as [|[] tr IH]; cbn [app irq_off]; rewrite ?IH; lia. Qed.

Lemma irq_off_plain es : Forall plain es -> irq_off es = 0.
Proof. induction 1 as [|[] es He _ IH]; cbn in *; try done. Qed.

Lemma irq_off_more es s : Forall plain es -> irq_off (s_trace (more es s)) = irq_off (s_trace s).
Proof. intros He. cbn. rewrite irq_off_app, (irq_off_plain es He). lia. Qed.

(** The state in which the driver may use the bus: nobody holds these mutexes,
    and the client has the address of the charger. *)
Definition idle (L : list mutex) (s : sworld) : Prop :=
  Forall (fun m => m ∉ s_locks s) L /\ client_addr (s_i2c s) = default_i2c_addr (s_i2c s).

(** A program that changes nothing but the trace, whatever the chip answers, and
    leaves the interrupt alone. *)
Definition reg_only {A} (c : prog sworld A) : Prop :=
  forall s, idle [read_write_lock] s -> exists a es, c s = Ret a (more es s) /\ Forall plain es.

Lemma idle_more L es s : idle L (more es s) <-> idle L s.
Proof. done. Qed.

Lemma idle_in L m s : idle L s -> m ∈ L -> m ∉ s_locks s.
Proof. intros [HL _] Hm. by eapply Forall_forall in HL. Qed.

Lemma idle_sub L L' s : idle L s -> L' ⊆ L -> idle L' s.
Proof. intros [HL Ha] Hs. split; [|done]. apply Forall_forall. intros m Hm. eapply Forall_forall in HL; eauto. Qed.

Lemma filter_fresh (m : mutex) l : m ∉ l -> filter (fun x => x <> m) (m :: l) = l.
Proof.
  intros Hm. rewrite filter_cons_False by naive_solver.
  induction l as [|x l IH]; [done|]. rewrite not_elem_of_cons in Hm. destruct Hm as [Hx Hl].
  rewrite filter_cons_True by done. by rewrite IH.
Qed.

Lemma with_locks_id s : with_s_locks (s_locks s) s = s.
Proof. by destruct s. Qed.

(** A section under a lock nobody holds, for a program that gives the other
    locks back. *)
Lemma locked_run {A} m (c : prog sworld A) s a s' :
  m ∉ s_locks s -> c (with_s_locks (m :: s_locks s) s) = Ret a s' -> s_locks s' = m :: s_locks s ->
  locked m c s = Ret a (with_s_locks (s_locks s) s').
Proof.
  intros Hm Hc Hl. unfold locked, mutex_lock, bind. rewrite decide_False by done. rewrite Hc.
  unfold mutex_unlock, modify. by rewrite Hl, filter_fresh.
Qed.

Lemma reg_only_ret {A} (a : A) : reg_only (ret a).
Proof. intros s _. exists a, []. by rewrite more_nil. Qed.

Lemma reg_only_bind {A B} (c : prog sworld A) (k : A -> prog sworld B) :
  reg_only c -> (forall a, reg_only (k a)) -> reg_only (bind c k).
Proof.
  intros Hc Hk s Hs. destruct (Hc s Hs) as (a & es & E & P).
  destruct (Hk a (more es s)) as (b & es' & E' & P'); [done|].
  exists b, (es ++ es'). unfold bind. rewrite E, E', more_more. split; [done|by apply Forall_app].
Qed.

Lemma reg_only_gets {A} (f : sworld -> A) : reg_only (s_gets f).
Proof. intros s _. exists (f s), []. by rewrite more_nil. Qed.

Lemma reg_only_do e : plain e -> reg_only (s_do e).
Proof. intros He s _. exists tt, [e]. split; [done|by repeat constructor]. Qed.

Lemma reg_only_call {A} (f : list seffect -> A) e : (forall a, plain (e a)) -> reg_only (s_call f e).
Proof. intros He s _. exists (f (s_trace s)), [e (f (s_trace s))]. split; [done|by repeat constructor]. Qed.

Lemma reg_only_when b c : reg_only c -> reg_only (when b c).
Proof. intros Hc. destruct b; [done|apply reg_only_ret]. Qed.

Lemma reg_only_and_then c k : reg_only c -> reg_only k -> reg_only (and_then c k).
Proof. intros Hc Hk. apply reg_only_bind; [done|]. intros rc. destruct (rc =? 0); [done|apply reg_only_ret]. Qed.

Lemma reg_only_unless_neg c k : reg_only c -> reg_only k -> reg_only (unless_neg c k).
Proof. intros Hc Hk. apply reg_only_bind; [done|]. intros rc. destruct (rc <? 0); [apply reg_only_ret|done]. Qed.

(** Under [read_write_lock] the program may not take it again, so it must be
    one that only calls the bus. *)
Definition bus_only {A} (c : prog sworld A) : Prop :=
  forall s, exists a es, c s = Ret a (more es s) /\ Forall plain es.

Lemma bus_only_ret {A} (a : A) : bus_only (ret a).
Proof. intros s. exists a, []. by rewrite more_nil. Qed.

Lemma bus_only_bind {A B} (c : prog sworld A) (k : A -> prog sworld B) :
  bus_only c -> (forall a, bus_only (k a)) -> bus_only (bind c k).
Proof.
  intros Hc Hk s. destruct (Hc s) as (a & es & E & P). destruct (Hk a (more es s)) as (b & es' & E' & P').
  exists b, (es ++ es'). unfold bind. rewrite E, E', more_more. split; [done|by apply Forall_app].
Qed.

Lemma bus_only_gets {A} (f : sworld -> A) : bus_only (s_gets f).
Proof. intros s. exists (f s), []. by rewrite more_nil. Qed.

Lemma bus_only_call {A} (f : list seffect -> A) e : (forall a, plain (e a)) -> bus_only (s_call f e).
Proof. intros He s. exists (f (s_trace s)), [e (f (s_trace s))]. split; [done|by repeat constructor]. Qed.

Lemma reg_only_locked {A} (c : prog sworld A) : bus_only c -> reg_only (locked read_write_lock c).
Proof.
  intros Hc s Hs. destruct (Hc (with_s_locks (read_write_lock :: s_locks s) s)) as (a & es & E & P).
  exists a, es. rewrite (locked_run _ _ _ a _ (idle_in _ _ _ Hs ltac:(left)) E) by done. by destruct s.
Qed.

Lemma at_fg_addr_run {A} (c : prog sworld A) s :
  bus_only c -> client_addr (s_i2c s) = default_i2c_addr (s_i2c s) ->
  exists a es, at_fg_addr c s = Ret a (more es s) /\ Forall plain es.
Proof.
  intros Hc Ha. unfold at_fg_addr, set_i2c, modify, bind.
  match goal with |- context [c ?x] => destruct (Hc x) as (a & es & E & P) end.
  exists a, es. rewrite E. split; [|done]. unfold ret. f_equal. destruct s as [? ? ? ? ? ? [? ? ? ? ? ? ? ?] ? ? ? ?].
  cbn in Ha. subst. done.
Qed.

Ltac bus_step :=
  lazymatch goal with
  | |- bus_only (ret _) => apply bus_only_ret
  | |- bus_only (s_gets _) => apply bus_only_gets
  | |- bus_only (s_call _ _) => apply bus_only_call; done
  | |- bus_only (bind _ _) => apply bus_only_bind; [|intros ?]
  | |- bus_only (if ?b then _ else _) => destruct b
  end.

(** Discharges [reg_only] along the text of a program. *)
Ltac reg_step :=
  lazymatch goal with
  | |- reg_only (ret _) => apply reg_only_ret
  | |- reg_only (s_gets _) => apply reg_only_gets
  | |- reg_only (s_do _) => apply reg_only_do; done
  | |- reg_only (s_call _ _) => apply reg_only_call; done
  | |- reg_only (when _ _) => apply reg_only_when
  | |- reg_only (and_then _ _) => apply reg_only_and_then
  | |- reg_only (unless_neg _ _) => apply reg_only_unless_neg
  | |- reg_only (bind _ _) => apply reg_only_bind; [|intros ?]
  | |- reg_only (if ?b then _ else _) => destruct b
  | |- reg_only (match ?x with _ => _ end) => destruct x
  | |- reg_only (let _ := _ in _) => cbv zeta
  | |- reg_only _ => solve [auto with smb]
  end.
Ltac regs := repeat reg_step.

Create HintDb smb.

Section SmbBusFacts.
Context `{SmbKernel}.

Lemma bus_only_read reg old : bus_only (__smb1360_read reg old).
Proof. unfold __smb1360_read. repeat bus_step. Qed.

Lemma bus_only_write reg val : bus_only (__smb1360_write reg val).
Proof. unfold __smb1360_write. repeat bus_step. Qed.

Lemma reg_only_read reg old : reg_only (smb1360_read reg old).
Proof.
  unfold smb1360_read, skipping_reads. regs. apply reg_only_locked, bus_only_read.
Qed.

Lemma reg_only_write reg val : reg_only (smb1360_write reg val).
Proof. unfold smb1360_write, skipping_writes. regs. apply reg_only_locked, bus_only_write. Qed.

Lemma reg_only_fg (A : Type) (c : prog sworld A) : bus_only c -> reg_only (locked read_write_lock (at_fg_addr c)).
Proof.
  intros Hc s Hs. destruct (at_fg_addr_run c (with_s_locks (read_write_lock :: s_locks s) s) Hc (proj2 Hs)) as (a & es & E & P).
  exists a, es. rewrite (locked_run _ _ _ a _ (idle_in _ _ _ Hs ltac:(left)) E) by done. by destruct s.
Qed.

Lemma reg_only_fg_read reg old : reg_only (smb1360_fg_read reg old).
Proof. unfold smb1360_fg_read, skipping_reads. regs. apply reg_only_fg, bus_only_read. Qed.

Lemma reg_only_fg_write reg val : reg_only (smb1360_fg_write reg val).
Proof. unfold smb1360_fg_write, skipping_writes. regs. apply reg_only_fg, bus_only_write. Qed.

Lemma reg_only_read_bytes reg b : reg_only (smb1360_read_bytes reg b).
Proof. unfold smb1360_read_bytes, skipping_reads. regs. apply reg_only_locked. repeat bus_step. Qed.

Lemma reg_only_write_bytes reg b : reg_only (smb1360_write_bytes reg b).
Proof. unfold smb1360_write_bytes, skipping_writes. regs. apply reg_only_locked. repeat bus_step. Qed.

Lemma reg_only_local2 : reg_only local2.
Proof. intros s _. eexists _, []. by rewrite more_nil. Qed.

Lemma reg_only_masked_write reg mask val : reg_only (smb1360_masked_write reg mask val).
Proof.
  unfold smb1360_masked_write, skipping_writes, skipping_reads. regs. apply reg_only_locked.
  apply bus_only_bind; [apply bus_only_read|]. intros r. destruct (fst r <? 0); [apply bus_only_ret|apply bus_only_write].
Qed.

(** The exact runs, when the debug switches are off. *)
Lemma locked_bus {A} (c : prog sworld A) s a es :
  idle [read_write_lock] s -> (forall l, c (with_s_locks l s) = Ret a (more es (with_s_locks l s))) ->
  locked read_write_lock c s = Ret a (more es s).
Proof.
  intros Hs Hc. rewrite (locked_run _ _ _ a _ (idle_in _ _ _ Hs ltac:(left)) (Hc _)) by done. by destruct s.
Qed.

Lemma read_run reg old s :
  idle [read_write_lock] s ->
  smb1360_read reg old s =
    if negb (skip_reads (s_i2c s) =? 0) then Ret (0, 0) s else
    let a := client_addr (s_i2c s) in
    let r := sk_read (s_trace s) a reg in
    Ret (if r <? 0 then (r, old) else (0, u8 r)) (more [I2cRead a reg r] s).
Proof.
  intros Hs. unfold smb1360_read, skipping_reads. rewrite bind_unfold. unfold s_gets.
  destruct (negb _); [done|]. by apply locked_bus.
Qed.

Lemma write_run reg val s :
  idle [read_write_lock] s ->
  smb1360_write reg val s =
    if negb (skip_writes (s_i2c s) =? 0) then Ret 0 s else
    let a := client_addr (s_i2c s) in
    let r := sk_write (s_trace s) a reg (u8 val) in
    Ret (if r <? 0 then r else 0) (more [I2cWrite a reg (u8 val) r] s).
Proof.
  intros Hs. unfold smb1360_write, skipping_writes. rewrite bind_unfold. unfold s_gets.
  destruct (negb _); [done|]. by apply locked_bus.
Qed.

(** What a masked write does to the bus: a read that fails, or a read and the
    write of its bits outside the mask with the bits of [val] inside. *)
Definition masked_effects (tr : list seffect) (a reg mask val : Z) : Z * list seffect :=
  let r := sk_read tr a reg in
  if r <? 0 then (r, [I2cRead a reg r]) else
  let v := u8 (set_masked (u8 r) mask val) in
  let w := sk_write (tr ++ [I2cRead a reg r]) a reg v in
  (if w <? 0 then w else 0, [I2cRead a reg r; I2cWrite a reg v w]).

Definition skipping (s : sworld) : bool := negb (skip_writes (s_i2c s) =? 0) || negb (skip_reads (s_i2c s) =? 0).

Lemma masked_run reg mask val s :
  idle [read_write_lock] s ->
  smb1360_masked_write reg mask val s =
    if skipping s then Ret 0 s else
    let r := masked_effects (s_trace s) (client_addr (s_i2c s)) reg mask val in Ret (fst r) (more (snd r) s).
Proof.
  intros Hs. unfold smb1360_masked_write, skipping_writes, skipping_reads.
  rewrite !bind_unfold. unfold s_gets at 1. rewrite bind_unfold. unfold s_gets at 1. fold (skipping s).
  destruct (skipping s); [done|]. cbv zeta. unfold masked_effects. apply locked_bus; [done|]. intros l.
  set (s1 := with_s_locks l s). change (s_trace s) with (s_trace s1). change (s_i2c s) with (s_i2c s1).
  unfold __smb1360_read, __smb1360_write, s_call, s_gets, bind, ret.
  destruct (sk_read _ _ _ <? 0) eqn:E; cbn [fst snd]; rewrite ?E; [done|].
  change (0 <? 0) with false. cbn [fst snd]. by rewrite !emit_more, more_more.
Qed.

(** The bits a masked write sends. *)
Lemma masked_testbit r mask val k :
  0 <= k < 8 ->
  Z.testbit (u8 (set_masked (u8 r) mask val)) k = if Z.testbit mask k then Z.testbit val k else Z.testbit r k.
Proof.
  intros Hk. assert (forall z, Z.testbit (u8 z) k = Z.testbit z k) as Hu by (intros; apply Z.mod_pow2_bits_low; lia).
  unfold set_masked. rewrite Hu, Z.lor_spec, !Z.land_spec, !Hu, Z.lnot_spec by lia.
  by destruct (Z.testbit mask k), (Z.testbit r k), (Z.testbit val k).
Qed.

Lemma masked_field r mask val :
  0 <= mask < 256 -> Z.land (u8 (set_masked (u8 r) mask val)) mask = Z.land val mask.
Proof.
  intros Hm. apply Z.bits_inj'. intros k Hk. rewrite !Z.land_spec. destruct (decide (k < 8)) as [Hlt|Hge].
  - rewrite masked_testbit by lia. by destruct (Z.testbit mask k); rewrite ?andb_false_r.
  - assert (Z.testbit mask k = false) as ->; [|by rewrite !andb_false_r].
    destruct (decide (mask = 0)) as [->|]; [apply Z.bits_0|]. apply Z.bits_above_log2; [lia|].
    apply Z.log2_lt_pow2; [lia|]. assert (2 ^ 8 <= 2 ^ k) by (apply Z.pow_le_mono_r; lia). lia.
Qed.

#[local] Hint Resolve reg_only_read reg_only_write reg_only_masked_write : smb.

Lemma reg_only_fg_poll n reg : reg_only (fg_poll n reg).
Proof. revert reg. induction n as [|n IH]; intros reg; cbn [fg_poll]; regs; apply IH. Qed.

Lemma reg_only_enable_fg_access : reg_only smb1360_enable_fg_access.
Proof. unfold smb1360_enable_fg_access. regs. apply reg_only_fg_poll. Qed.

Lemma reg_only_disable_fg_access : reg_only smb1360_disable_fg_access.
Proof. unfold smb1360_disable_fg_access. regs. Qed.

End SmbBusFacts.

#[export] Hint Resolve reg_only_read reg_only_write reg_only_masked_write reg_only_fg_read reg_only_fg_write
  reg_only_read_bytes reg_only_write_bytes reg_only_local2 reg_only_enable_fg_access reg_only_disable_fg_access : smb.

(** ** Programs that keep the set-up *)

(** What no operation changes once the driver is bound. *)
Record same_setup (s s' : sworld) : Prop := {
  same_chg : s_chg s' = s_chg s;
  same_jeita : s_jeita s' = s_jeita s;
  same_lim : s_lim s' = s_lim s;
  same_fg : s_fg s' = s_fg s;
  same_client : client_addr (s_i2c s') = client_addr (s_i2c s);
  same_default : default_i2c_addr (s_i2c s') = default_i2c_addr (s_i2c s);
  same_locks : s_locks s' = s_locks s;
  same_rows : row_reg <$> s_irqs s' = row_reg <$> s_irqs s
}.

#[export] Instance same_setup_preorder : PreOrder same_setup.
Proof.
  split.
  - intros s. by constructor.
  - intros s1 s2 s3 [] []. constructor; congruence.
Qed.

(** The thermal level is off, the highest, or one of the table. *)
Definition level_ok (s : sworld) : Prop :=
  let l := therm_lvl_sel (s_ctl s) in
  match thermal_mitigation (s_lim s) with
  | None => l = 0
  | Some t => thermal_levels (s_lim s) = zlen t /\ zlen t < 2 ^ 32
              /\ (l = 0 \/ l = u32 (zlen t - 1) \/ 0 < l < zlen t)
  end.

(** A part of the state that does not record plain effects and the locks. *)
Class Frame {X} (f : sworld -> X) := {
  frame_more : forall es s, Forall plain es -> f (more es s) = f s;
  frame_locks : forall l s, f (with_s_locks l s) = f s
}.

(** From a state where the mutexes [L] are free, the program returns, keeps the
    set-up and gives every mutex back, and leaves [f] alone. *)
Definition keeps (L : list mutex) {X} (f : sworld -> X) {A} (c : prog sworld A) : Prop :=
  forall s, idle L s -> level_ok s ->
  exists a s', c s = Ret a s' /\ same_setup s s' /\ level_ok s' /\ f s' = f s.

Lemma idle_setup L s s' : same_setup s s' -> idle L s -> idle L s'.
Proof. intros HS [HL Ha]. split; [by rewrite (same_locks _ _ HS)|]. by rewrite (same_client _ _ HS), (same_default _ _ HS). Qed.

Lemma keeps_reg_only L {X} (f : sworld -> X) `{!Frame f} {A} (c : prog sworld A) :
  read_write_lock ∈ L -> reg_only c -> keeps L f c.
Proof.
  intros HL Hc s Hi Hl. destruct (Hc s) as (a & es & E & P); [eapply idle_sub; [done|set_solver]|].
  exists a, (more es s). repeat split; try done. by apply frame_more.
Qed.

Lemma keep_ret L {X} (f : sworld -> X) {A} (a : A) : keeps L f (ret a).
Proof. intros s _ Hl. by exists a, s. Qed.

Lemma keep_gets L {X} (f : sworld -> X) {A} (g : sworld -> A) : keeps L f (s_gets g).
Proof. intros s _ Hl. by exists (g s), s. Qed.

Lemma keeps_call L {X} (f : sworld -> X) `{!Frame f} {A} (g : list seffect -> A) e :
  (forall a, plain (e a)) -> keeps L f (s_call g e).
Proof.
  intros He s _ Hl. eexists _, (more [e (g (s_trace s))] s).
  split; [reflexivity|]. split; [by constructor|]. split; [done|apply frame_more; by repeat constructor].
Qed.

Lemma keep_do L {X} (f : sworld -> X) `{!Frame f} e : plain e -> keeps L f (s_do e).
Proof.
  intros He s _ Hl. exists tt, (more [e] s). split; [done|]. split; [by constructor|]. split; [done|].
  apply frame_more. by repeat constructor.
Qed.

Lemma keep_bind L {X} (f : sworld -> X) {A B} (c : prog sworld A) (k : A -> prog sworld B) :
  keeps L f c -> (forall a, keeps L f (k a)) -> keeps L f (bind c k).
Proof.
  intros Hc Hk s Hi Hl. destruct (Hc s Hi Hl) as (a & s1 & E & HS & Hl1 & Hf).
  destruct (Hk a s1 (idle_setup _ _ _ HS Hi) Hl1) as (b & s2 & E2 & HS2 & Hl2 & Hf2).
  exists b, s2. unfold bind. rewrite E, E2. split; [done|]. split; [by etransitivity|]. split; congruence.
Qed.

Lemma keeps_when L {X} (f : sworld -> X) b c : keeps L f c -> keeps L f (when b c).
Proof. intros. destruct b; [done|apply keep_ret]. Qed.

Lemma keeps_and_then L {X} (f : sworld -> X) c k : keeps L f c -> keeps L f k -> keeps L f (and_then c k).
Proof. intros Hc Hk. apply keep_bind; [done|]. intros rc. destruct (rc =? 0); [done|apply keep_ret]. Qed.

Lemma keeps_unless_neg L {X} (f : sworld -> X) c k : keeps L f c -> keeps L f k -> keeps L f (unless_neg c k).
Proof. intros Hc Hk. apply keep_bind; [done|]. intros rc. destruct (rc <? 0); [apply keep_ret|done]. Qed.

Lemma keeps_sub L L' {X} (f : sworld -> X) {A} (c : prog sworld A) : keeps L' f c -> L' ⊆ L -> keeps L f c.
Proof. intros Hc HL s Hi Hl. apply Hc; [by eapply idle_sub|done]. Qed.

(** A coarser part of the state. *)
Lemma keeps_part L {X Y} (f : sworld -> X) (g : X -> Y) {A} (c : prog sworld A) :
  keeps L f c -> keeps L (fun s => g (f s)) c.
Proof. intros Hc s Hi Hl. destruct (Hc s Hi Hl) as (a & s' & E & HS & Hl' & Hf). exists a, s'. by rewrite Hf. Qed.

(** Inside the section: the mutex is held, the others are as before. *)
Lemma idle_inside L L' m s : idle L s -> L' ⊆ L -> m ∉ L' -> idle L' (with_s_locks (m :: s_locks s) s).
Proof.
  intros Hi Hs Hn. split; [|apply Hi]. apply Forall_forall. intros x Hx. cbn. rewrite not_elem_of_cons.
  split; [by intros ->|]. eapply idle_in; [done|]. by apply Hs.
Qed.

Lemma locked_at m {X} (f : sworld -> X) `{!Frame f} {A} (c : prog sworld A) s a s' :
  m ∉ s_locks s -> c (with_s_locks (m :: s_locks s) s) = Ret a s' ->
  same_setup (with_s_locks (m :: s_locks s) s) s' -> level_ok s' -> f s' = f s ->
  exists b s2, locked m c s = Ret b s2 /\ same_setup s s2 /\ level_ok s2 /\ f s2 = f s.
Proof.
  intros Hm E HS Hl Hf. exists a, (with_s_locks (s_locks s) s').
  split; [by apply locked_run; [| |apply HS]|].
  destruct HS as [? ? ? ? ? ? ? ?]. cbn in *. split; [by constructor|]. split; [done|]. by rewrite frame_locks.
Qed.

Lemma keeps_locked L L' m {X} (f : sworld -> X) `{!Frame f} {A} (c : prog sworld A) :
  m ∈ L -> L' ⊆ L -> m ∉ L' -> keeps L' f c -> keeps L f (locked m c).
Proof.
  intros Hm Hs Hn Hc s Hi Hl.
  destruct (Hc _ (idle_inside _ _ _ _ Hi Hs Hn)) as (a & s' & E & HS & Hl' & Hf); [done|].
  eapply locked_at; [exact _|by eapply idle_in|done..|]. by rewrite Hf, frame_locks.
Qed.

(** The updates of the parts that change. *)
Lemma keeps_set_st L {X} (f : sworld -> X) g : (forall s, f (with_s_st (g (s_st s)) s) = f s) -> keeps L f (set_st g).
Proof. intros Hf s _ Hl. eexists tt, _. split; [reflexivity|]. split; [by constructor|]. by split. Qed.

Lemma keeps_set_pm L {X} (f : sworld -> X) g : (forall s, f (with_s_pm (g (s_pm s)) s) = f s) -> keeps L f (set_pm g).
Proof. intros Hf s _ Hl. eexists tt, _. split; [reflexivity|]. split; [by constructor|]. by split. Qed.

Lemma keeps_set_ctl L {X} (f : sworld -> X) g :
  (forall s, f (with_s_ctl (g (s_ctl s)) s) = f s) -> (forall c, therm_lvl_sel (g c) = therm_lvl_sel c) ->
  keeps L f (set_ctl g).
Proof.
  intros Hf Hg s _ Hl. eexists tt, _. split; [reflexivity|]. split; [by constructor|]. split; [|done].
  unfold level_ok in *. cbn. by rewrite Hg.
Qed.

Lemma keeps_set_i2c L {X} (f : sworld -> X) g :
  (forall s, f (with_s_i2c (g (s_i2c s)) s) = f s) ->
  (forall b, client_addr (g b) = client_addr b) -> (forall b, default_i2c_addr (g b) = default_i2c_addr b) ->
  keeps L f (set_i2c g).
Proof.
  intros Hf Hc Hd s _ Hl. eexists tt, _. split; [reflexivity|]. split; [by constructor; cbn|]. by split.
Qed.

(** Walks along the text of a program. *)
Ltac keep_step :=
  lazymatch goal with
  | |- keeps _ _ (ret _) => apply keep_ret
  | |- keeps _ _ (s_gets _) => apply keep_gets
  | |- keeps _ _ (s_do _) => apply keep_do; [exact _|first [done | by case_match]]
  | |- keeps _ _ (s_call _ _) => apply keeps_call; [exact _|done]
  | |- keeps _ _ (when _ _) => apply keeps_when
  | |- keeps _ _ (and_then _ _) => apply keeps_and_then
  | |- keeps _ _ (unless_neg _ _) => apply keeps_unless_neg
  | |- keeps _ _ (set_ctl _) => apply keeps_set_ctl; done
  | |- keeps _ _ (set_st _) => apply keeps_set_st; done
  | |- keeps _ _ (set_pm _) => apply keeps_set_pm; done
  | |- keeps _ _ (set_i2c _) => apply keeps_set_i2c; done
  | |- keeps _ _ (bind _ _) => apply keep_bind; [|intros ?]
  | |- keeps _ _ (if ?b then _ else _) => destruct b
  | |- keeps _ _ (match ?x with _ => _ end) => destruct x
  | |- keeps _ _ (let _ := _ in _) => cbv zeta
  | |- keeps _ _ _ => first
      [ solve [eauto with smb]
      | apply keeps_reg_only; [exact _ | set_solver | solve [eauto with smb]] ]
  | |- Frame _ => exact _
  end.
Ltac keep := repeat keep_step.

(** Enters a section under a lock, with the locks [L] still free inside. *)
Ltac keep_lock L := eapply (keeps_locked _ L); [exact _|set_solver|set_solver|set_solver|].

(** ** What was last written *)

(** The value of a register after the writes of a trace, from [v] before. *)
Fixpoint last_write (a r : Z) (tr : list seffect) (v : Z) : Z :=
  match tr with
  | [] => v
  | I2cWrite a' r' v' _ :: tr' => last_write a r tr' (if (a =? a') && (r =? r') then v' else v)
  | _ :: tr' => last_write a r tr' v
  end.

Lemma last_write_app a r tr tr' v : last_write a r (tr ++ tr') v = last_write a r tr' (last_write a r tr v).
Proof. revert v. induction tr as [|[] tr IH]; intros v0; cbn [app last_write]; auto. Qed.

(** ** A chip that answers *)

Section SmbAnswers.
Context `{SmbKernel}.

(** A chip that remembers what is written to it, and the value of a register at
    the client's address. *)
Definition remembers (start : Z -> Z) : Prop := forall tr a r, sk_read tr a r = last_write a r tr (start r).
Definition chip_reg (start : Z -> Z) (s : sworld) (r : Z) : Z := last_write (client_addr (s_i2c s)) r (s_trace s) (start r).

(** Reads and writes work. *)
Definition answering (start : Z -> Z) : Prop := remembers start /\ forall tr a r v, 0 <= sk_write tr a r v.

(** The driver may use the bus, the debug switches are off, registers hold bytes. *)
Definition live (start : Z -> Z) (s : sworld) : Prop :=
  idle [read_write_lock] s /\ skipping s = false /\ forall r, 0 <= chip_reg start s r < 256.

(** What a masked write to such a chip leaves in its registers. *)
Lemma masked_sets start reg mask val s :
  answering start -> live start s -> 0 <= mask < 256 ->
  exists es, smb1360_masked_write reg mask val s = Ret 0 (more es s) /\ live start (more es s)
    /\ Z.land (chip_reg start (more es s) reg) mask = Z.land val mask
    /\ (forall r, r <> reg -> chip_reg start (more es s) r = chip_reg start s r).
Proof.
  intros [Hr Hw] (Hi & Hk & Hb) Hm. rewrite masked_run, Hk by done. cbv zeta. unfold masked_effects.
  set (a := client_addr (s_i2c s)). assert (sk_read (s_trace s) a reg = chip_reg start s reg) as Er by apply Hr.
  rewrite !Er. rewrite (proj2 (Z.ltb_ge _ 0)) by apply Hb. set (v := u8 (set_masked _ _ _)). set (w := sk_write _ _ _ _).
  rewrite (proj2 (Z.ltb_ge w 0)) by apply Hw. cbn [fst snd]. set (es := [I2cRead _ _ _; _]).
  assert (forall r, chip_reg start (more es s) r = if r =? reg then v else chip_reg start s r) as Hc.
  { intros r. unfold chip_reg. cbn -[last_write]. rewrite last_write_app. cbn [last_write es]. fold a. rewrite Z.eqb_refl. done. }
  exists es. split; [done|]. split; [|split].
  - split; [done|]. split; [done|]. intros r. rewrite Hc. destruct (r =? reg); [by apply Z.mod_pos_bound|apply Hb].
  - rewrite Hc, Z.eqb_refl. by apply masked_field.
  - intros r Hne. rewrite Hc. by rewrite (proj2 (Z.eqb_neq r reg)).
Qed.

End SmbAnswers.

(** ** The loops of the float encoding end *)

Lemma encode_reduce_ends n e v :
  0 <= v < MAX_MANTISSA * 2 ^ Z.of_nat n ->
  0 <= snd (encode_reduce n e v) < MAX_MANTISSA /\ e <= fst (encode_reduce n e v) <= e + Z.of_nat n.
Proof.
  revert e v. induction n as [|n IH]; intros e v Hv; cbn [encode_reduce]; [cbn in *; lia|].
  destruct (MAX_MANTISSA <=? v) eqn:E; [|cbn; lia]. rewrite Z.shiftr_div_pow2 by lia.
  destruct (IH (e + 1) (v / 2 ^ 1)) as [H1 H2]; [|lia]. rewrite Nat2Z.inj_succ, Z.pow_succ_r in Hv by lia.
  split; [apply Z.div_pos; lia|]. apply Z.div_lt_upper_bound; lia.
Qed.

Lemma encode_raise_ends n e v :
  e + 25 <= Z.of_nat n -> MAX_MANTISSA <= snd (encode_raise n e v) \/ fst (encode_raise n e v) <= -25.
Proof.
  revert e v. induction n as [|n IH]; intros e v Hn; cbn [encode_raise]; [cbn in *; lia|].
  destruct ((v <? MAX_MANTISSA) && (-25 <? e)) eqn:E.
  - apply IH. lia.
  - cbn [fst snd]. apply andb_false_iff in E. lia.
Qed.

(** For every 64-bit value both loops of [float_encode] end by their own
    condition: the bounds of the model cut nothing off. *)
Theorem encode_loops_end v :
  - 2 ^ 63 <= v < 2 ^ 63 ->
  let p := encode_reduce 64 0 (Z.abs v) in
  let q := encode_raise 96 (fst p) (snd p) in
  snd p < MAX_MANTISSA /\ (MAX_MANTISSA <= snd q \/ fst q <= -25).
Proof.
  intros Hv p q. destruct (encode_reduce_ends 64 0 (Z.abs v)) as [H1 H2].
  { change (2 ^ Z.of_nat 64) with (2 ^ 63 * 2). unfold MAX_MANTISSA. lia. }
  split; [apply H1|]. apply encode_raise_ends. fold p in H2. lia.
Qed.

(** ** A chip that remembers

    A kernel whose chip returns what was last written to a register, or the
    value it starts with; the device tree is given by two functions; writes and
    block reads may be made to fail. *)
Module Demo.

Definition kernel_with (start : Z -> Z) (bools : string -> bool) (cells : string -> option Z)
  (wr : Z -> Z -> Z) (blk : Z) : SmbKernel.
Proof.
  refine {| sk_read tr a r := last_write a r tr (start r); sk_write _ a r _ := wr a r;
    sk_read_block tr a r b := (blk, match b with [] => [] | _ => start r :: tail b end);
    sk_write_block _ _ _ _ := 0; sk_junk _ _ := 0; sk_usb_get _ _ old := (0, old); sk_set_online _ := 0;
    sk_psy_by_name _ _ := true; sk_gpio_request _ := 0; sk_request_irq _ := 0; sk_regulator _ := Some 0;
    sk_regulator_name := true; sk_psy_register _ := 0; sk_alloc _ := true; sk_client_irq := 7; sk_of_node := true;
    sk_bool := bools; sk_u32 n := match cells n with Some v => inr v | None => inl (- EINVAL) end;
    sk_array _ := None; sk_of_gpio _ := 5; sk_gpio_is_valid _ := true; sk_vadc _ := 0; sk_vadc_read _ := (0, 0) |}.
  - intros tr a r [|x b]; done.
  - intros n e. destruct (cells n); intros E; inversion E. done.
  - done.
Defined.

Definition kernel (start : Z -> Z) (bools : string -> bool) (cells : string -> option Z) : SmbKernel :=
  kernel_with start bools cells (fun _ _ => 0) 0.

(** A driver that was bound: battery in place, interrupts registered, the
    temperatures 0, 10, 45 and 55 degrees. *)
Definition chg0 : chg_cfg := mkChg false false false false false false true true false false 0 100 4200 192 200 500.
Definition jeita0 : jeita_cfg := mkJeita true true 0 550 100 450 4100 4050 600 800.
Definition lim0 : lim_cfg := mkLim false 540 4 (Some [1500; 700; 600; 0]).
Definition fg0 : fg_cfg := mkFg 100 10 1 3000 2800 2000 60 3200 100 50 100 4100 95 false true 15 false 0 0 0.
Definition flags0 : flags := mkFlags true true false false false false false false 0 0.
Definition ctl0 : ctl := mkCtl 1 0 (-22) 0 450 500 0 0 false 0 0 false true.
Definition i2c0 : i2c := mkI2c 20 20 0 0 0 0 0 0.
Definition pm0 : pmst := mkPm true false [0; 0; 0].
Definition rows0 : list irq_row := map (fun r => mkRow r 0 0 [(0, 0); (0, 0); (0, 0); (0, 0)]) [80; 81; 82; 83; 84; 85; 86; 87; 88].
Definition bound : sworld := mkS chg0 jeita0 lim0 fg0 flags0 ctl0 i2c0 pm0 rows0 [] [].

End Demo.
