(* ===== verification/SmbCharge.v ===== *)
(** * The charger driver: voltages, currents and battery properties

    [smb1360-charger-fg.c]: the float voltage and recharge threshold, enabling
    and disabling the charger and the parallel charger by reasons, the choice
    of the input and charge currents, the temperature compensation, and the
    properties of the battery that user space reads and writes. *)

From stdpp Require Import base list numbers sets strings.
From Stdlib Require Import ZArith Lia.
From S2P Require Import Prelude Kernel SmbRegs SmbBus.
Open Scope Z_scope.

(** A flag of a C integer. *)
Definition has (flags bit : Z) : bool := negb (Z.land flags bit =? 0).

(** ** Tables of currents *)

(** [for (i = n - 1; i >= 0; i--) if (tab[i] <= ma) break;] *)
Fixpoint search_down (tab : list Z) (ma : Z) (n : nat) : Z :=
  match n with
  | O => -1
  | S k => if nth k tab 0 <=? ma then Z.of_nat k else search_down tab ma k
  end.

(** ... followed by [if (i < 0) i = 0;]. *)
Definition pick (tab : list Z) (ma : Z) : Z :=
  let i := search_down tab ma (length tab) in if i <? 0 then 0 else i.

(** [for (i = 0; i < n; i++) if (tab[i] >= ma) break;] on the first [n] cells,
    [i] counting from [i0]. *)
Fixpoint search_up (tab : list Z) (ma i0 : Z) (n : nat) : Z :=
  match n, tab with
  | S k, v :: tab' => if ma <=? v then i0 else search_up tab' ma (i0 + 1) k
  | _, _ => i0
  end.

Section SmbCharge.
Context `{SmbKernel}.

(** ** Voltages *)

Definition smb1360_float_voltage_set (vfloat_mv : Z) : prog sworld Z :=
  if (vfloat_mv <? MIN_FLOAT_MV) || (MAX_FLOAT_MV <? vfloat_mv) then ret (- EINVAL) else
  smb1360_masked_write BATT_CHG_FLT_VTG_REG VFLOAT_MASK ((vfloat_mv - MIN_FLOAT_MV) / VFLOAT_STEP_MV).

Definition smb1360_recharge_threshold_set (resume_mv : Z) : prog sworld Z :=
  if (resume_mv <? MIN_RECHG_MV) || (MAX_RECHG_MV <? resume_mv) then ret (- EINVAL) else
  smb1360_masked_write CFG_BATT_CHG_REG RECHG_MV_MASK (Z.shiftl (resume_mv / 100) RECHG_MV_SHIFT).

(** ** Enabling the charger *)

Definition __smb1360_charging_disable (disable : bool) : prog sworld Z :=
  smb1360_masked_write CMD_CHG_REG CMD_CHG_EN (if disable then 0 else CMD_CHG_EN).

Definition smb1360_charging_disable (reason disable : Z) : prog sworld Z :=
  locked charging_disable_lock (
    let* disabled := s_gets (fun s => charging_disabled_status (s_ctl s)) in
    let disabled := if disable =? 1 then Z.lor disabled reason else Z.land disabled (Z.lnot reason) in
    let* rc := __smb1360_charging_disable (negb (disabled =? 0)) in
    do* when (rc =? 0) (set_ctl (with_charging_disabled_status disabled));
    ret rc).

Definition smb1360_soft_jeita_comp_enable (enable : bool) : prog sworld Z :=
  smb1360_masked_write CHG_CMP_CFG JEITA_COMP_EN_MASK (if enable then JEITA_COMP_EN_BIT else 0).

(** ** Battery properties *)

Definition smb1360_get_prop_batt_present : prog sworld Z :=
  s_gets (fun s => if batt_present (s_st s) then 1 else 0).

Definition chg_type (reg : Z) : Z := Z.shiftr (Z.land reg CHG_TYPE_MASK) CHG_TYPE_SHIFT.

Definition smb1360_get_prop_batt_status : prog sworld Z :=
  let* full := s_gets (fun s => batt_full (s_st s)) in
  if full then ret POWER_SUPPLY_STATUS_FULL else
  let* r := smb1360_read STATUS_3_REG 0 in
  if negb (fst r =? 0) then ret POWER_SUPPLY_STATUS_UNKNOWN else
  if has (snd r) CHG_HOLD_OFF_BIT then ret POWER_SUPPLY_STATUS_NOT_CHARGING else
  ret (if chg_type (snd r) =? BATT_NOT_CHG_VAL then POWER_SUPPLY_STATUS_DISCHARGING
       else POWER_SUPPLY_STATUS_CHARGING).

Definition smb1360_get_prop_charging_status : prog sworld Z :=
  let* r := smb1360_read STATUS_3_REG 0 in
  if negb (fst r =? 0) then ret 0 else
  ret (if has (snd r) CHG_EN_BIT then 1 else 0).

Definition smb1360_get_prop_charge_type : prog sworld Z :=
  let* r := smb1360_read STATUS_3_REG 0 in
  if negb (fst r =? 0) then ret POWER_SUPPLY_CHARGE_TYPE_UNKNOWN else
  let t := chg_type (snd r) in
  ret (if t =? BATT_NOT_CHG_VAL then POWER_SUPPLY_CHARGE_TYPE_NONE
       else if (t =? BATT_FAST_CHG_VAL) || (t =? BATT_TAPER_CHG_VAL) then POWER_SUPPLY_CHARGE_TYPE_FAST
       else if t =? BATT_PRE_CHG_VAL then POWER_SUPPLY_CHARGE_TYPE_TRICKLE
       else POWER_SUPPLY_CHARGE_TYPE_NONE).

Definition smb1360_get_prop_batt_health : prog sworld Z :=
  s_gets (fun s =>
    if batt_hot (s_st s) then POWER_SUPPLY_HEALTH_OVERHEAT
    else if batt_cold (s_st s) then POWER_SUPPLY_HEALTH_COLD
    else if batt_warm (s_st s) then POWER_SUPPLY_HEALTH_WARM
    else if batt_cool (s_st s) then POWER_SUPPLY_HEALTH_COOL
    else POWER_SUPPLY_HEALTH_GOOD).

Definition bound (val min max : Z) : Z :=
  if val <? min then min else if max <? val then max else val.

(** The state of charge of the register, rounded to per cent, and stretched. *)
Definition soc_of (reg : Z) : Z :=
  let soc := 100 * reg / MAX_8_BITS in
  let soc := if MAX_8_BITS / 2 <? (100 * reg) mod MAX_8_BITS then soc + 1 else soc in
  soc * 100 / 85.

Definition smb1360_get_prop_batt_capacity : prog sworld Z :=
  let* fake := s_gets (fun s => fake_battery_soc (s_ctl s)) in
  if 0 <=? fake then ret fake else
  let* empty := s_gets (fun s => empty_soc (s_st s)) in
  if empty then ret 0 else
  let* r := smb1360_read SHDW_FG_MSYS_SOC 0 in
  if negb (fst r =? 0) then ret (fst r) else
  let* full := s_gets (fun s => batt_full (s_st s)) in
  ret (if full then 100 else bound (soc_of (snd r)) 0 100).

(** [smb1360_read_bytes(chip, reg, local, 2)], the error or [f] of the number read. *)
Definition shadow_word (reg : Z) (f : list Z -> Z) : prog sworld Z :=
  let* b := local2 in
  let* r := smb1360_read_bytes reg b in
  ret (if negb (fst r =? 0) then fst r else f (snd r)).

Definition smb1360_get_prop_chg_full_design : prog sworld Z :=
  shadow_word SHDW_FG_CAPACITY (fun b => word16 b * 1000).

Definition smb1360_get_prop_batt_temp : prog sworld Z :=
  shadow_word SHDW_FG_BATT_TEMP (fun b => (word16 b * 625 / 10000 - 273) * 10).

Definition smb1360_get_prop_voltage_now : prog sworld Z :=
  shadow_word SHDW_FG_VTG_NOW (fun b => word16 b * 5000 / 32767 * 1000).

Definition smb1360_get_prop_batt_resistance : prog sworld Z :=
  shadow_word SHDW_FG_ESR_ACTUAL (fun b => s32 (float_decode (word16 b) * 2)).

(** The high byte is signed. *)
Definition signed_word16 (b : list Z) : Z :=
  Z.lor (Z.shiftl ((byte_at b 1 + 128) mod 256 - 128) 8) (byte_at b 0).

Definition smb1360_get_prop_current_now : prog sworld Z :=
  shadow_word SHDW_FG_CURR_NOW (fun b => Z.quot (signed_word16 b * 2500) 32767 * 1000).

(** ** Currents *)

Definition smb1360_set_minimum_usb_current : prog sworld Z :=
  let* usb100 := s_gets (fun s => min_icl_usb100 (s_chg s)) in
  if usb100 then
    let* rc := smb1360_masked_write CFG_BATT_CHG_ICL_REG INPUT_CURR_LIM_MASK INPUT_CURR_LIM_300MA in
    let* w := s_gets (fun s => workaround_flags (s_ctl s)) in
    if negb (has w WRKRND_USB100_FAIL) then smb1360_masked_write CMD_IL_REG USB_CTRL_MASK USB_100_BIT
    else ret rc
  else smb1360_masked_write CMD_IL_REG USB_CTRL_MASK USB_500_BIT.

Definition get_parallel_psy : prog sworld bool :=
  let* found := s_gets (fun s => parallel_psy (s_ctl s)) in
  if found then ret true else
  let* found := s_call (fun tr => sk_psy_by_name tr "usb-parallel") (PsyByName "usb-parallel") in
  do* set_ctl (with_parallel_psy found);
  ret found.

Definition __smb1360_parallel_charger_enable (enable : bool) : prog sworld Z :=
  let* found := get_parallel_psy in
  if negb found then ret 0 else
  let* max := s_gets (fun s => max_parallel_chg_current (s_lim s)) in
  do* s_do (ParallelSet "CONSTANT_CHARGE_CURRENT_MAX" (if enable then max * 1000 else 0));
  do* s_do (ParallelSet "CHARGING_ENABLED" (if enable then 1 else 0));
  ret 0.

Definition smb1360_parallel_charger_enable (reason : Z) (enable : bool) : prog sworld Z :=
  locked parallel_chg_lock (
    let* status := s_gets (fun s => parallel_chg_disable_status (s_ctl s)) in
    let disabled := if enable then Z.land status (Z.lnot reason) else Z.lor status reason in
    do* when (negb (status =? 0) && (disabled =? 0)) (do* __smb1360_parallel_charger_enable true; ret tt);
    do* when ((status =? 0) && negb (disabled =? 0)) (do* __smb1360_parallel_charger_enable false; ret tt);
    do* set_ctl (with_parallel_chg_disable_status disabled);
    ret 0).

Definition smb1360_parallel_work : prog sworld unit :=
  let* r := smb1360_read STATUS_1_REG 0 in
  do* when (fst r =? 0) (
    if Z.land (snd r) AICL_CURRENT_STATUS_MASK =? AICL_LIMIT_1500MA then
      let* max := s_gets (fun s => max_parallel_chg_current (s_lim s)) in
      let* cur := s_gets (fun s => chip_fastchg_current (s_ctl s)) in
      let cur := s32 (cur + Z.quot max 2) in
      do* set_ctl (with_chip_fastchg_current cur);
      let i := search_up fastchg_current cur 0 (length fastchg_current - 1) in
      let i := if i =? zlen fastchg_current then i - 1 else i in
      do* smb1360_masked_write CHG_CURRENT_REG FASTCHG_CURR_MASK (Z.shiftl i FASTCHG_CURR_SHIFT);
      do* smb1360_parallel_charger_enable PARALLEL_CURRENT true;
      ret tt
    else do* smb1360_parallel_charger_enable PARALLEL_CURRENT false; ret tt);
  s_do Relax.

(** [thermal_mitigation[therm_lvl_sel]] when the level is active and not the
    highest; the comparison is unsigned. *)
Definition thermal_current (path_current : Z) : prog sworld Z :=
  let* lvl := s_gets (fun s => therm_lvl_sel (s_ctl s)) in
  let* lim := s_gets s_lim in
  if (0 <? lvl) && (lvl <? u32 (thermal_levels lim - 1)) then
    let* t := lift NullDeref (thermal_mitigation lim) in
    let* v := lift OutOfBounds (load8 t lvl) in
    ret (s32 v)
  else ret path_current.

(** The current of the code after the thermal and temperature limits. *)
Definition limited_current : prog sworld Z :=
  let* path_current := s_gets (fun s => usb_psy_ma (s_ctl s)) in
  let* therm_ma := thermal_current path_current in
  let current_ma := Z.min therm_ma path_current in
  s_gets (fun s =>
    if has (workaround_flags (s_ctl s)) WRKRND_HARD_JEITA then
      if batt_warm (s_st s) then Z.min current_ma (warm_bat_ma (s_jeita s))
      else if batt_cool (s_st s) then Z.min current_ma (cool_bat_ma (s_jeita s))
      else current_ma
    else current_ma).

(** From [if (current_ma <= CURRENT_100_MA && ...)] on. *)
Definition set_usb_mode (current_ma : Z) : prog sworld Z :=
  let* w := s_gets (fun s => workaround_flags (s_ctl s)) in
  let* chg := s_gets s_chg in
  let current_ma := if (current_ma <=? CURRENT_100_MA) && (has w WRKRND_USB100_FAIL || negb (min_icl_usb100 chg))
                    then CURRENT_500_MA else current_ma in
  if current_ma <=? CURRENT_100_MA then smb1360_masked_write CMD_IL_REG USB_CTRL_MASK USB_100_BIT
  else if current_ma <=? CURRENT_500_MA then smb1360_masked_write CMD_IL_REG USB_CTRL_MASK USB_500_BIT
  else
    let current_ma := if rsense_10mohm chg then current_ma / 2 else current_ma in
    let i := pick fastchg_current current_ma in
    do* set_ctl (with_chip_fastchg_current (nth (Z.to_nat i) fastchg_current 0));
    do* smb1360_masked_write CHG_CURRENT_REG FASTCHG_CURR_MASK (Z.shiftl i FASTCHG_CURR_SHIFT);
    do* smb1360_masked_write CMD_IL_REG USB_CTRL_MASK USB_500_BIT;
    smb1360_masked_write CMD_IL_REG USB_CTRL_MASK USB_AC_BIT.

Definition smb1360_set_appropriate_usb_current : prog sworld Z :=
  let* present := s_gets (fun s => batt_present (s_st s)) in
  if negb present then ret 0 else
  let* current_ma := limited_current in
  if current_ma <=? 2 then
    let* rc := smb1360_set_minimum_usb_current in
    let* par := s_gets (fun s => parallel_charging (s_lim s)) in
    do* when par (do* smb1360_parallel_charger_enable PARALLEL_CURRENT false; ret tt);
    ret rc
  else
    do* smb1360_masked_write CFG_BATT_CHG_ICL_REG INPUT_CURR_LIM_MASK (pick input_current_limit current_ma);
    set_usb_mode current_ma.

Definition smb1360_set_jeita_comp_curr (current_ma : Z) : prog sworld Z :=
  smb1360_masked_write CHG_CMP_CFG JEITA_COMP_CURR_MASK (pick fastchg_current current_ma).

Definition TEMP_THRE_SET (x : Z) : Z := Z.quot (x + 300) 10.

Definition smb1360_set_soft_jeita_threshold (cold_threshold hot_threshold : Z) : prog sworld Z :=
  ok* smb1360_write JEITA_SOFT_COLD_REG (TEMP_THRE_SET cold_threshold);
  do* set_ctl (with_soft_cold_thresh cold_threshold);
  ok* smb1360_write JEITA_SOFT_HOT_REG (TEMP_THRE_SET hot_threshold);
  do* set_ctl (with_soft_hot_thresh hot_threshold);
  ret 0.

Definition smb1360_system_temp_level_set (lvl_sel : Z) : prog sworld Z :=
  let* lim := s_gets s_lim in
  match thermal_mitigation lim with
  | None => ret (- EINVAL)
  | Some _ =>
      if lvl_sel <? 0 then ret (- EINVAL) else
      let lvl_sel := if thermal_levels lim <=? lvl_sel then s32 (thermal_levels lim - 1) else lvl_sel in
      let* cur := s_gets (fun s => therm_lvl_sel (s_ctl s)) in
      if u32 lvl_sel =? cur then ret 0 else
      locked current_change_lock (
        do* set_ctl (with_therm_lvl_sel (u32 lvl_sel));
        if u32 lvl_sel =? u32 (thermal_levels lim - 1) then smb1360_set_minimum_usb_current
        else smb1360_set_appropriate_usb_current)
  end.

(** ** The battery as user space sees it *)

Inductive psy_prop :=
  | PROP_HEALTH | PROP_STATUS | PROP_PRESENT | PROP_CHARGING_ENABLED | PROP_CHARGE_TYPE | PROP_CAPACITY
  | PROP_CHARGE_FULL_DESIGN | PROP_VOLTAGE_NOW | PROP_CURRENT_NOW | PROP_RESISTANCE | PROP_TEMP
  | PROP_SYSTEM_TEMP_LEVEL | PROP_OTHER.

Definition smb1360_battery_set_property (prop : psy_prop) (intval : Z) : prog sworld Z :=
  match prop with
  | PROP_CHARGING_ENABLED =>
      do* smb1360_charging_disable USER (if intval =? 0 then 1 else 0);
      let* par := s_gets (fun s => parallel_charging (s_lim s)) in
      do* when par (do* smb1360_parallel_charger_enable PARALLEL_USER (negb (intval =? 0)); ret tt);
      do* s_do BattChanged;
      do* s_do UsbChanged;
      ret 0
  | PROP_CAPACITY =>
      do* set_ctl (with_fake_battery_soc intval);
      do* s_do BattChanged;
      ret 0
  | PROP_SYSTEM_TEMP_LEVEL => do* smb1360_system_temp_level_set intval; ret 0
  | _ => ret (- EINVAL)
  end.

Definition smb1360_battery_is_writeable (prop : psy_prop) : bool :=
  match prop with PROP_CHARGING_ENABLED | PROP_CAPACITY | PROP_SYSTEM_TEMP_LEVEL => true | _ => false end.

(** The result, and the value when it is 0. *)
Definition smb1360_battery_get_property (prop : psy_prop) : prog sworld (Z * Z) :=
  let value c := (let* v := c in ret (0, v)) in
  match prop with
  | PROP_HEALTH => value (do* smb1360_get_prop_batt_health; ret POWER_SUPPLY_HEALTH_GOOD)
  | PROP_PRESENT => value smb1360_get_prop_batt_present
  | PROP_STATUS => value smb1360_get_prop_batt_status
  | PROP_CHARGING_ENABLED => value smb1360_get_prop_charging_status
  | PROP_CHARGE_TYPE => value smb1360_get_prop_charge_type
  | PROP_CAPACITY => value (do* smb1360_get_prop_batt_capacity; ret 50)
  | PROP_CHARGE_FULL_DESIGN => value smb1360_get_prop_chg_full_design
  | PROP_VOLTAGE_NOW => value smb1360_get_prop_voltage_now
  | PROP_CURRENT_NOW => value smb1360_get_prop_current_now
  | PROP_RESISTANCE => value smb1360_get_prop_batt_resistance
  | PROP_TEMP => value smb1360_get_prop_batt_temp
  | PROP_SYSTEM_TEMP_LEVEL => value (s_gets (fun s => s32 (therm_lvl_sel (s_ctl s))))
  | PROP_OTHER => ret (- EINVAL, 0)
  end.

Definition usb_get (prop : string) (old : Z) : prog sworld (Z * Z) :=
  s_call (fun tr => sk_usb_get tr prop old) (fun r => UsbGet prop (fst r)).

Definition smb1360_external_power_changed : prog sworld unit :=
  let* r := usb_get "CURRENT_MAX" 0 in
  let current_limit := if fst r <? 0 then 0 else Z.quot (snd r) 1000 in
  let* ma := s_gets (fun s => usb_psy_ma (s_ctl s)) in
  do* when (negb (ma =? current_limit)) (locked current_change_lock (
    do* set_ctl (with_usb_psy_ma current_limit);
    do* smb1360_set_appropriate_usb_current;
    ret tt));
  let* r := usb_get "ONLINE" (snd r) in
  let* s := s_gets (fun s => s) in
  if usb_present (s_st s) && (charging_disabled_status (s_ctl s) =? 0) && negb (usb_psy_ma (s_ctl s) =? 0)
  then when (snd r =? 0) (do* s_call sk_set_online (UsbOnline true); ret tt)
  else when (snd r =? 1) (do* s_call sk_set_online (UsbOnline false); ret tt).

End SmbCharge.

(** ** What the operations leave alone *)

(** The flags, the state of suspend, the interrupt table and whether the
    interrupt is switched off. *)
Definition watch (s : sworld) : flags * pmst * list irq_row * Z := (s_st s, s_pm s, s_irqs s, irq_off (s_trace s)).
#[export] Instance watch_frame : Frame watch.
Proof. split; [|done]. intros es s He. unfold watch. by rewrite irq_off_more. Qed.

Section SmbChargeFacts.
Context `{SmbKernel}.

Lemma reg_only_float_voltage_set mv : reg_only (smb1360_float_voltage_set mv).
Proof. unfold smb1360_float_voltage_set. regs. Qed.

Lemma reg_only_shadow_word r f : reg_only (shadow_word r f).
Proof. unfold shadow_word. regs. Qed.

Lemma reg_only_set_minimum : reg_only smb1360_set_minimum_usb_current.
Proof. unfold smb1360_set_minimum_usb_current. regs. Qed.

#[local] Hint Resolve reg_only_float_voltage_set reg_only_shadow_word reg_only_set_minimum : smb.

Lemma reg_only_get_property p : reg_only (smb1360_battery_get_property p).
Proof.
  destruct p; unfold smb1360_battery_get_property, smb1360_get_prop_batt_health, smb1360_get_prop_batt_status,
    smb1360_get_prop_batt_present, smb1360_get_prop_charging_status, smb1360_get_prop_charge_type,
    smb1360_get_prop_batt_capacity, smb1360_get_prop_chg_full_design, smb1360_get_prop_voltage_now,
    smb1360_get_prop_current_now, smb1360_get_prop_batt_resistance, smb1360_get_prop_batt_temp; regs.
Qed.

Lemma reg_only_capacity : reg_only smb1360_get_prop_batt_capacity.
Proof. unfold smb1360_get_prop_batt_capacity. regs. Qed.

Lemma keeps_charging_disable reason disable :
  keeps [charging_disable_lock; read_write_lock] watch (smb1360_charging_disable reason disable).
Proof.
  keep_lock [read_write_lock]. unfold __smb1360_charging_disable. keep.
Qed.

Lemma keeps_parallel_enable reason enable :
  keeps [parallel_chg_lock] watch (smb1360_parallel_charger_enable reason enable).
Proof.
  keep_lock (@nil mutex). unfold __smb1360_parallel_charger_enable, get_parallel_psy. keep.
Qed.

Lemma keeps_parallel L reason enable :
  parallel_chg_lock ∈ L -> keeps L watch (smb1360_parallel_charger_enable reason enable).
Proof. intros HL. eapply keeps_sub; [apply keeps_parallel_enable|]. intros m ->%list_elem_of_singleton. done. Qed.

(** The index of the thermal table is in range. *)
Lemma thermal_pure path s :
  level_ok s ->
  exists v, thermal_current path s = Ret v s
    /\ (forall t w, thermal_mitigation (s_lim s) = Some t -> 0 < therm_lvl_sel (s_ctl s) < zlen t - 1 ->
          t !! Z.to_nat (therm_lvl_sel (s_ctl s)) = Some w -> v <= s32 w).
Proof.
  intros Hl. unfold thermal_current, bind, s_gets. unfold level_ok in Hl.
  destruct (thermal_mitigation (s_lim s)) as [t|].
  - destruct Hl as (Ht & Hb & Hc). rewrite Ht in *. destruct ((0 <? _) && _) eqn:E; bool_cases.
    + assert (0 < therm_lvl_sel (s_ctl s) < zlen t) as Hr by (unfold u32 in *; destruct Hc as [|[|]]; lia).
      cbn. unfold load8. destruct (_ <? 0) eqn:E2; bool_cases; [lia|].
      destruct (lookup_lt_is_Some_2 t (Z.to_nat (therm_lvl_sel (s_ctl s)))) as [v Hv]; [unfold zlen in Hr; lia|].
      rewrite Hv. cbn. eexists. split; [done|]. intros t' w [= <-] _ Hw. rewrite Hv in Hw. by injection Hw as <-.
    + eexists. split; [done|]. intros t' w [= <-] Hr _. exfalso. unfold u32 in E.
      rewrite Z.mod_small in E by lia. lia.
  - rewrite Hl. cbn. by eexists.
Qed.

Lemma keeps_thermal L {X} (f : sworld -> X) path : keeps L f (thermal_current path).
Proof. intros s _ Hl. destruct (thermal_pure path s Hl) as (v & E & _). by exists v, s. Qed.

Lemma keeps_set_usb_mode L current_ma : read_write_lock ∈ L -> keeps L watch (set_usb_mode current_ma).
Proof. intros HL. unfold set_usb_mode. keep. Qed.

Lemma keeps_usb_current :
  keeps [parallel_chg_lock; read_write_lock] watch smb1360_set_appropriate_usb_current.
Proof.
  unfold smb1360_set_appropriate_usb_current, limited_current. keep.
  - apply keeps_thermal.
  - apply keeps_parallel. set_solver.
  - apply keeps_set_usb_mode. set_solver.
Qed.

Lemma keeps_jeita_threshold cold hot :
  keeps [read_write_lock] watch (smb1360_set_soft_jeita_threshold cold hot).
Proof. unfold smb1360_set_soft_jeita_threshold. keep. Qed.

Lemma keeps_parallel_work : keeps [parallel_chg_lock; read_write_lock] watch smb1360_parallel_work.
Proof. unfold smb1360_parallel_work. keep; apply keeps_parallel; set_solver. Qed.

Lemma u32_s32 z : u32 (s32 z) = u32 z.
Proof. unfold u32, s32. rewrite Zminus_mod_idemp_l. f_equal. lia. Qed.

(** A new level of the range is in order. *)
Lemma level_ok_set s t v :
  level_ok s -> thermal_mitigation (s_lim s) = Some t ->
  v = 0 \/ v = u32 (zlen t - 1) \/ 0 < v < zlen t ->
  level_ok (with_s_ctl (with_therm_lvl_sel v (s_ctl s)) s).
Proof. unfold level_ok. cbn. intros Hl E. rewrite E in *. naive_solver. Qed.

Lemma keeps_set_level L L' m v t (c : prog sworld Z) s :
  m ∈ L -> L' ⊆ L -> m ∉ L' -> keeps L' watch c -> idle L s -> level_ok s -> thermal_mitigation (s_lim s) = Some t ->
  v = 0 \/ v = u32 (zlen t - 1) \/ 0 < v < zlen t ->
  exists a s', locked m (do* set_ctl (with_therm_lvl_sel v); c) s = Ret a s'
    /\ same_setup s s' /\ level_ok s' /\ watch s' = watch s.
Proof.
  intros Hm Hs Hn Hc Hi Hl Et Hv.
  set (s1 := with_s_locks (m :: s_locks s) s). set (s2 := with_s_ctl (with_therm_lvl_sel v (s_ctl s)) s1).
  destruct (Hc s2) as (a & s' & E & HS & Hl' & Hf);
    [exact (idle_inside _ _ _ _ Hi Hs Hn)|exact (level_ok_set s t v Hl Et Hv)|].
  eapply (locked_at m watch); [by eapply idle_in|unfold bind, set_ctl, modify; fold s1 s2; exact E| |done|].
  - transitivity s2; [by constructor|done].
  - by rewrite Hf.
Qed.

Lemma keeps_temp_level lvl_sel :
  keeps [current_change_lock; parallel_chg_lock; read_write_lock] watch (smb1360_system_temp_level_set lvl_sel).
Proof.
  intros s Hi Hl. unfold smb1360_system_temp_level_set. rewrite bind_unfold. unfold s_gets at 1.
  destruct (thermal_mitigation (s_lim s)) as [t|] eqn:Et; [|by eexists _, s].
  destruct (lvl_sel <? 0) eqn:E0; [by eexists _, s|]. bool_cases. rewrite bind_unfold. unfold s_gets at 1.
  destruct (_ =? _) eqn:E1; [by eexists _, s|]. clear E1.
  assert (thermal_levels (s_lim s) = zlen t /\ zlen t < 2 ^ 32) as [Ht Hb]
    by (unfold level_ok in Hl; rewrite Et in Hl; naive_solver).
  set (v := u32 _). assert (v = 0 \/ v = u32 (zlen t - 1) \/ 0 < v < zlen t) as Hv.
  { subst v. rewrite Ht. pose proof (zlen_nonneg t). destruct (zlen t <=? lvl_sel) eqn:E2; bool_cases.
    - right; left. apply u32_s32.
    - unfold u32. rewrite Z.mod_small by lia. lia. }
  destruct (v =? _).
  - eapply (keeps_set_level [current_change_lock; parallel_chg_lock; read_write_lock] [read_write_lock]); [set_solver..| |done|done|done|done].
    apply keeps_reg_only; [exact _|set_solver|apply reg_only_set_minimum].
  - eapply (keeps_set_level [current_change_lock; parallel_chg_lock; read_write_lock] [parallel_chg_lock; read_write_lock]);
      [set_solver..| |done|done|done|done].
    apply keeps_usb_current.
Qed.

Definition chg_locks : list mutex := [charging_disable_lock; current_change_lock; parallel_chg_lock; read_write_lock].

Lemma keeps_set_property p v : keeps chg_locks watch (smb1360_battery_set_property p v).
Proof.
  destruct p; unfold smb1360_battery_set_property; keep.
  - eapply keeps_sub; [apply keeps_charging_disable|unfold chg_locks; set_solver].
  - apply keeps_parallel. unfold chg_locks. set_solver.
  - eapply keeps_sub; [apply keeps_temp_level|unfold chg_locks; set_solver].
Qed.

Lemma keeps_power_changed : keeps chg_locks watch smb1360_external_power_changed.
Proof.
  unfold smb1360_external_power_changed, usb_get. keep.
  eapply (keeps_locked _ [parallel_chg_lock; read_write_lock]); [exact _|unfold chg_locks; set_solver..|].
  keep. apply keeps_usb_current.
Qed.

(** ** Choosing a current *)

Lemma search_down_spec tab ma n :
  let i := search_down tab ma n in
  (i = -1 /\ (forall k, (k < n)%nat -> ma < nth k tab 0))
  \/ (0 <= i < Z.of_nat n /\ nth (Z.to_nat i) tab 0 <= ma /\ (forall k, i < Z.of_nat k < Z.of_nat n -> ma < nth k tab 0)).
Proof.
  induction n as [|n IH]; cbn [search_down]; [left; split; [done|lia]|].
  destruct (nth n tab 0 <=? ma) eqn:E; bool_cases.
  - right. rewrite Nat2Z.id. split; [lia|]. split; [done|lia].
  - destruct IH as [[-> Hall]|(Hi & Hv & Hall)].
    + left. split; [done|]. intros k Hk. destruct (decide (k = n)) as [->|]; [done|apply Hall; lia].
    + right. split; [lia|]. split; [done|]. intros k Hk. destruct (decide (k = n)) as [->|]; [done|apply Hall; lia].
Qed.

Definition increasing (tab : list Z) : bool :=
  forallb (fun k => nth k tab 0 <=? nth (S k) tab 0) (seq 0 (length tab - 1)).

Lemma increasing_le tab j k :
  increasing tab = true -> (j <= k < length tab)%nat -> nth j tab 0 <= nth k tab 0.
Proof.
  intros Hi [Hjk Hk]. induction Hjk as [|k Hjk IH]; [lia|].
  transitivity (nth k tab 0); [apply IH; lia|]. unfold increasing in Hi. rewrite forallb_forall in Hi.
  specialize (Hi k). bool_cases. apply Z.leb_le, Hi, in_seq. lia.
Qed.

(** The entry chosen: in the table, not above the request unless it is the
    smallest, and no larger entry would do. *)
Lemma pick_spec tab ma :
  increasing tab = true -> (0 < length tab)%nat ->
  let v := nth (Z.to_nat (pick tab ma)) tab 0 in
  0 <= pick tab ma < zlen tab /\ (v <= ma \/ (pick tab ma = 0 /\ Forall (fun m => ma < m) tab)) /\ (forall m, In m tab -> m <= ma -> m <= v).
Proof.
  intros Hi Hn. unfold pick. destruct (search_down_spec tab ma (length tab)) as [[-> Hall]|(Hr & Hv & Hall)]; cbv zeta.
  - cbn. assert (forall m, In m tab -> ma < m) as Habove
      by (intros m Hm; apply (In_nth tab m 0) in Hm as (k & Hk & <-); specialize (Hall k Hk); lia).
    split; [unfold zlen; lia|]. split; [right; split; [done|by apply List.Forall_forall]|].
    intros m Hm Hle. specialize (Habove m Hm). lia.
  - destruct (search_down tab ma (length tab) <? 0) eqn:E; bool_cases; [lia|].
    split; [done|]. split; [by left|]. intros m Hm Hle. apply (In_nth tab m 0) in Hm as (k & Hk & <-).
    destruct (decide (Z.of_nat k <= search_down tab ma (length tab))) as [|Hgt].
    + apply increasing_le; [done|lia].
    + specialize (Hall k ltac:(lia)). lia.
Qed.

(** Entry [i] of a table is the largest that is not above [ma], or the first if
    all are. *)
Definition largest (tab : list Z) (i ma : Z) : Prop :=
  let v := nth (Z.to_nat i) tab 0 in
  0 <= i < zlen tab /\ (v <= ma \/ (i = 0 /\ Forall (fun m => ma < m) tab)) /\ (forall m, In m tab -> m <= ma -> m <= v).

Lemma pick_field tab ma mask shift :
  increasing tab = true -> (0 < length tab)%nat -> 0 <= shift ->
  forallb (fun k => Z.shiftr (Z.land (Z.shiftl (Z.of_nat k) shift) mask) shift =? Z.of_nat k) (seq 0 (length tab)) = true ->
  largest tab (Z.shiftr (Z.land (Z.shiftl (pick tab ma) shift) mask) shift) ma.
Proof.
  intros Hi Hn Hs Hf. destruct (pick_spec tab ma Hi Hn) as (Hr & Hrest).
  rewrite forallb_forall in Hf. specialize (Hf (Z.to_nat (pick tab ma))).
  rewrite Z2Nat.id in Hf by lia. assert (Z.shiftr (Z.land (Z.shiftl (pick tab ma) shift) mask) shift = pick tab ma) as ->; [|done].
  apply Z.eqb_eq, Hf, in_seq. unfold zlen in Hr. lia.
Qed.

(** The current the battery side allows: what the supply grants; at most the
    entry of the thermal level, when the level is active and not the highest;
    and, under the temperature workaround, at most that of the band. *)
Definition allowed_ma (s : sworld) : Z :=
  let lvl := therm_lvl_sel (s_ctl s) in
  let ma := match thermal_mitigation (s_lim s) with
            | Some t => if (0 <? lvl) && (lvl <? zlen t - 1)
                        then Z.min (s32 (nth (Z.to_nat lvl) t 0)) (usb_psy_ma (s_ctl s)) else usb_psy_ma (s_ctl s)
            | None => usb_psy_ma (s_ctl s)
            end in
  if has (workaround_flags (s_ctl s)) WRKRND_HARD_JEITA then
    if batt_warm (s_st s) then Z.min ma (warm_bat_ma (s_jeita s))
    else if batt_cool (s_st s) then Z.min ma (cool_bat_ma (s_jeita s)) else ma
  else ma.

(** The mode of a current: USB knows 100 and 500 mA, and 100 only when chip and
    device tree allow it; more is the mode of an adapter. *)
Definition usb_mode (s : sworld) (ma : Z) : Z :=
  if (ma <=? 100) && min_icl_usb100 (s_chg s) && negb (has (workaround_flags (s_ctl s)) WRKRND_USB100_FAIL) then USB_100_BIT
  else if ma <=? 500 then USB_500_BIT else USB_AC_BIT.

(** The fields of the chip's registers that limit the current. *)
Definition mode_field (start : Z -> Z) (s : sworld) : Z := Z.land (chip_reg start s CMD_IL_REG) USB_CTRL_MASK.
Definition icl_field (start : Z -> Z) (s : sworld) : Z := Z.land (chip_reg start s CFG_BATT_CHG_ICL_REG) INPUT_CURR_LIM_MASK.
Definition fast_field (start : Z -> Z) (s : sworld) : Z :=
  Z.shiftr (Z.land (chip_reg start s CHG_CURRENT_REG) FASTCHG_CURR_MASK) FASTCHG_CURR_SHIFT.

Lemma limited_run s : level_ok s -> limited_current s = Ret (allowed_ma s) s.
Proof.
  intros Hl. unfold limited_current, thermal_current, allowed_ma. rewrite !bind_unfold. unfold s_gets at 1.
  unfold bind, s_gets, level_ok in *. destruct (thermal_mitigation (s_lim s)) as [t|].
  - destruct Hl as (-> & Hb & Hc). set (l := therm_lvl_sel (s_ctl s)) in *. pose proof (zlen_nonneg t).
    assert ((0 <? l) && (l <? u32 (zlen t - 1)) = (0 <? l) && (l <? zlen t - 1)) as ->.
    { destruct (decide (zlen t = 0)) as [Ez|]; [|by unfold u32; rewrite Z.mod_small by lia].
      unfold u32 in *. rewrite Ez in *. change ((0 - 1) mod 2 ^ 32) with (2 ^ 32 - 1) in *.
      destruct Hc as [->|[->|]]; [done|done|lia]. }
    destruct ((0 <? l) && _) eqn:E; bool_cases.
    + cbn. unfold load8. rewrite (proj2 (Z.ltb_ge l 0)) by lia.
      destruct (lookup_lt_is_Some_2 t (Z.to_nat l)) as [v Hv]; [unfold zlen in *; lia|].
      rewrite Hv. by rewrite (nth_lookup_Some _ _ 0 v Hv).
    + unfold ret. cbn. by rewrite Z.min_id.
  - rewrite Hl. cbn. by rewrite Z.min_id.
Qed.

(** ** The theorems *)

(** C19: the charger is on exactly while nobody has a reason against it.  Adding
    or removing a reason updates the set of reasons bit by bit; when the call
    succeeds, the chip was sent its register with the enable bit set exactly
    if the set is now empty and every other bit as it was read; when it fails,
    the set is unchanged.  Accesses are not switched off through debugfs
    ([skipping]); with them off a call succeeds and sends nothing. *)
Theorem charging_follows_reasons reason disable s :
  idle [charging_disable_lock; read_write_lock] s -> skipping s = false ->
  let old := charging_disabled_status (s_ctl s) in
  exists rc es new,
    smb1360_charging_disable reason disable s
      = Ret rc (with_s_ctl (with_charging_disabled_status (if rc =? 0 then new else old) (s_ctl s)) (more es s))
    /\ (forall k, 0 <= k -> Z.testbit new k = if disable =? 1 then Z.testbit old k || Z.testbit reason k
                                            else Z.testbit old k && negb (Z.testbit reason k))
    /\ (rc = 0 -> exists v r w,
          es = [I2cRead (client_addr (s_i2c s)) CMD_CHG_REG r; I2cWrite (client_addr (s_i2c s)) CMD_CHG_REG v w]
          /\ 0 <= r /\ 0 <= w
          /\ (forall k, 0 <= k < 8 -> Z.testbit v k = if k =? 1 then new =? 0 else Z.testbit r k)).
Proof.
  intros Hi Hs old.
  set (new := if disable =? 1 then Z.lor old reason else Z.land old (Z.lnot reason)).
  set (s0 := with_s_locks (charging_disable_lock :: s_locks s) s).
  set (r := masked_effects (s_trace s) (client_addr (s_i2c s)) CMD_CHG_REG CMD_CHG_EN (if negb (new =? 0) then 0 else CMD_CHG_EN)).
  assert (idle [read_write_lock] s0) as Hi0 by (eapply (idle_inside _ [read_write_lock]); [done|set_solver|set_solver]).
  assert (__smb1360_charging_disable (negb (new =? 0)) s0 = Ret (fst r) (more (snd r) s0)) as Er.
  { unfold __smb1360_charging_disable. rewrite (masked_run _ _ _ s0 Hi0).
    assert (skipping s0 = false) as -> by exact Hs. done. }
  exists (fst r), (snd r), new. split; [|split].
  - unfold smb1360_charging_disable.
    erewrite (locked_run _ _ s (fst r)); [|eapply idle_in; [exact Hi|set_solver]| |].
    + instantiate (1 := with_s_ctl (with_charging_disabled_status (if fst r =? 0 then new else old) (s_ctl s0)) (more (snd r) s0)).
      by destruct s.
    + fold s0. rewrite bind_unfold. unfold s_gets. fold new. rewrite (bind_Ret _ _ _ _ _ Er).
      destruct (fst r =? 0); [done|]. unfold bind, when, ret. f_equal. destruct s as [? ? ? ? ? [] ? ? ? ? ?]. done.
    + done.
  - intros k Hk. unfold new. destruct (disable =? 1); [apply Z.lor_spec|]. rewrite Z.land_spec, Z.lnot_spec by done. done.
  - subst r. unfold masked_effects. destruct (sk_read _ _ _ <? 0) eqn:E1; cbn [fst snd]; bool_cases; [lia|].
    set (w := sk_write _ _ _ _). destruct (w <? 0) eqn:E2; bool_cases; [lia|]. intros _.
    eexists _, _, _. split; [reflexivity|]. split; [done|]. split; [done|]. intros k Hk.
    rewrite masked_testbit by done. change CMD_CHG_EN with (2 ^ 1). rewrite Z.pow2_bits_eqb, (Z.eqb_sym 1 k) by lia.
    destruct (k =? 1) eqn:Ek; bool_cases; [subst k|done].
    destruct (new =? 0); [done|apply Z.bits_0].
Qed.

(** A program that writes no register of [R], and gives the locks back. *)
Definition spares (R : list Z) {A} (c : prog sworld A) : Prop :=
  forall s, idle [read_write_lock] s -> exists a s', c s = Ret a s' /\ s_locks s' = s_locks s /\ s_i2c s' = s_i2c s
    /\ s_st s' = s_st s /\ (forall start r, r ∈ R -> chip_reg start s' r = chip_reg start s r).

Lemma spares_bind R {A B} (c : prog sworld A) (k : A -> prog sworld B) :
  spares R c -> (forall a, spares R (k a)) -> spares R (bind c k).
Proof.
  intros Hc Hk s Hi. destruct (Hc s Hi) as (a & s1 & E & L & I & F & C).
  destruct (Hk a s1) as (b & s2 & E2 & L2 & I2 & F2 & C2); [unfold idle in *; by rewrite L, I|].
  exists b, s2. rewrite (bind_Ret _ _ _ _ _ E). split; [done|]. split; [congruence|]. split; [congruence|]. split; [congruence|].
  intros start r Hr. by rewrite C2, C.
Qed.

Lemma spares_emit R {A} (c : prog sworld A) :
  (forall s, exists a e, c s = Ret a (s_emit e s) /\ match e with I2cWrite _ _ _ _ => False | _ => True end) -> spares R c.
Proof.
  intros Hc s _. destruct (Hc s) as (a & e & E & He). exists a, (s_emit e s). repeat split; try done. intros start r _.
  unfold chip_reg. cbn -[last_write]. rewrite last_write_app. by destruct e.
Qed.

Lemma spares_pure R {A} (c : prog sworld A) :
  (forall s, exists a s', c s = Ret a s' /\ s_locks s' = s_locks s /\ s_trace s' = s_trace s /\ s_i2c s' = s_i2c s
    /\ s_st s' = s_st s) -> spares R c.
Proof.
  intros Hc s _. destruct (Hc s) as (a & s' & E & L & T & I & F). exists a, s'. repeat split; try done. intros start r _.
  unfold chip_reg. by rewrite T, I.
Qed.

Lemma spares_masked R reg mask val : reg ∉ R -> spares R (smb1360_masked_write reg mask val).
Proof.
  intros Hn s Hi. rewrite masked_run by done. destruct (skipping s); [by eexists _, s|]. cbv zeta.
  eexists _, _. repeat split. intros start r Hr. unfold chip_reg. cbn -[last_write]. rewrite last_write_app.
  unfold masked_effects. destruct (_ <? 0); cbn [snd last_write]; [done|].
  rewrite (proj2 (Z.eqb_neq r reg)) by (intros ->; done). by rewrite andb_false_r.
Qed.

Lemma spares_gets R {A} (f : sworld -> A) : spares R (s_gets f).
Proof. apply spares_pure. intros t. eexists _, _. by repeat split. Qed.

Lemma spares_ret R {A} (a : A) : spares R (ret a).
Proof. apply spares_pure. intros t. eexists _, _. by repeat split. Qed.

Lemma spares_ctl R f : spares R (set_ctl f).
Proof. apply spares_pure. intros t. eexists _, _. by repeat split. Qed.

(** The structural cases. *)
Ltac spare := repeat first [apply spares_gets | apply spares_ret | apply spares_ctl | apply spares_masked; assumption
  | apply spares_bind; [|intros ?] | match goal with |- spares _ (if ?x then _ else _) => destruct x end
  | apply spares_emit; intros ?; eexists _, _; split; [reflexivity|exact I] ].

(** The parallel charger is told over its own driver: no register changes. *)
Lemma parallel_no_bus (R : list Z) reason enable s :
  idle [parallel_chg_lock; read_write_lock] s ->
  exists rc s', smb1360_parallel_charger_enable reason enable s = Ret rc s' /\ s_locks s' = s_locks s /\ s_i2c s' = s_i2c s
    /\ s_st s' = s_st s /\ (forall start r, r ∈ R -> chip_reg start s' r = chip_reg start s r).
Proof.
  intros Hi. set (s0 := with_s_locks (parallel_chg_lock :: s_locks s) s).
  unfold smb1360_parallel_charger_enable.
  match goal with |- context [locked _ ?c _] => assert (spares R c) as Qi end.
  { unfold when, __smb1360_parallel_charger_enable, get_parallel_psy. spare. }
  destruct (Qi s0) as (a & s' & Ec & Hl & Hb & Hf & Hr); [refine (idle_inside _ [read_write_lock] parallel_chg_lock _ Hi _ _); set_solver|].
  exists a, (with_s_locks (s_locks s) s'). split; [|done]. apply locked_run; [eapply idle_in; [done|left]|done|done].
Qed.

Lemma minimum_run start s :
  answering start -> live start s ->
  exists es, smb1360_set_minimum_usb_current s = Ret 0 (more es s)
    /\ (if min_icl_usb100 (s_chg s)
        then icl_field start (more es s) = INPUT_CURR_LIM_300MA
             /\ (has (workaround_flags (s_ctl s)) WRKRND_USB100_FAIL = false -> mode_field start (more es s) = USB_100_BIT)
        else mode_field start (more es s) = USB_500_BIT)
    /\ (forall r, r ∉ [CMD_IL_REG; CFG_BATT_CHG_ICL_REG; CHG_CURRENT_REG] -> chip_reg start (more es s) r = chip_reg start s r).
Proof.
  intros Ha Hv. unfold smb1360_set_minimum_usb_current, mode_field, icl_field. rewrite bind_unfold. unfold s_gets at 1.
  destruct (min_icl_usb100 (s_chg s)).
  - destruct (masked_sets start CFG_BATT_CHG_ICL_REG INPUT_CURR_LIM_MASK INPUT_CURR_LIM_300MA s Ha Hv ltac:(done))
      as (es & E & Hv1 & F1 & R1). rewrite (bind_Ret _ _ _ _ _ E), bind_unfold. unfold s_gets at 1.
    change (workaround_flags (s_ctl (more es s))) with (workaround_flags (s_ctl s)).
    destruct (has _ _); cbn [negb].
    + exists es. split; [done|]. split; [by split|]. intros r Hr. apply R1. set_solver.
    + destruct (masked_sets start CMD_IL_REG USB_CTRL_MASK USB_100_BIT _ Ha Hv1 ltac:(done)) as (es2 & E2 & _ & F2 & R2).
      rewrite more_more in *. exists (es ++ es2). split; [done|]. split; [split; [|by intros _]|].
      * by rewrite R2.
      * intros r Hr. rewrite R2, R1; [done|set_solver..].
  - destruct (masked_sets start CMD_IL_REG USB_CTRL_MASK USB_500_BIT s Ha Hv ltac:(done)) as (es & E & _ & F1 & R1).
    exists es. split; [done|]. split; [done|]. intros r Hr. apply R1. set_solver.
Qed.

(** More than 100 mA: one write for USB 500, three for an adapter. *)
Lemma adapter_or_500 start s ma :
  answering start -> live start s ->
  (forall mode, exists es, smb1360_masked_write CMD_IL_REG USB_CTRL_MASK mode s = Ret 0 (more es s)
    /\ Z.land (chip_reg start (more es s) CMD_IL_REG) USB_CTRL_MASK = Z.land mode USB_CTRL_MASK
    /\ (forall r, r ∉ [CMD_IL_REG; CHG_CURRENT_REG] -> chip_reg start (more es s) r = chip_reg start s r)) ->
  let half := if rsense_10mohm (s_chg s) then ma / 2 else ma in
  exists s', (if ma <=? 500 then smb1360_masked_write CMD_IL_REG USB_CTRL_MASK USB_500_BIT
              else do* set_ctl (with_chip_fastchg_current (nth (Z.to_nat (pick fastchg_current half)) fastchg_current 0));
                   do* smb1360_masked_write CHG_CURRENT_REG FASTCHG_CURR_MASK (Z.shiftl (pick fastchg_current half) FASTCHG_CURR_SHIFT);
                   do* smb1360_masked_write CMD_IL_REG USB_CTRL_MASK USB_500_BIT;
                   smb1360_masked_write CMD_IL_REG USB_CTRL_MASK USB_AC_BIT) s = Ret 0 s'
    /\ Z.land (chip_reg start s' CMD_IL_REG) USB_CTRL_MASK = (if ma <=? 500 then USB_500_BIT else USB_AC_BIT)
    /\ (500 < ma -> largest fastchg_current (Z.shiftr (Z.land (chip_reg start s' CHG_CURRENT_REG) FASTCHG_CURR_MASK) FASTCHG_CURR_SHIFT) half)
    /\ (forall r, r ∉ [CMD_IL_REG; CHG_CURRENT_REG] -> chip_reg start s' r = chip_reg start s r).
Proof.
  intros Ha Hv Hmode half. destruct (ma <=? 500) eqn:E5; bool_cases.
  { destruct (Hmode USB_500_BIT) as (es & E & F & R). exists (more es s). split; [done|]. split; [done|]. split; [lia|done]. }
  rewrite bind_unfold. unfold set_ctl, modify. set (s1 := with_s_ctl _ s).
  assert (live start s1) as Hv1 by exact Hv.
  destruct (masked_sets start CHG_CURRENT_REG FASTCHG_CURR_MASK (Z.shiftl (pick fastchg_current half) FASTCHG_CURR_SHIFT)
    s1 Ha Hv1 ltac:(done)) as (es & E & Hv2 & F1 & R1). rewrite (bind_Ret _ _ _ _ _ E).
  destruct (masked_sets start CMD_IL_REG USB_CTRL_MASK USB_500_BIT _ Ha Hv2 ltac:(done)) as (es2 & E2 & Hv3 & F2 & R2).
  rewrite (bind_Ret _ _ _ _ _ E2).
  destruct (masked_sets start CMD_IL_REG USB_CTRL_MASK USB_AC_BIT _ Ha Hv3 ltac:(done)) as (es3 & E3 & _ & F3 & R3).
  eexists. split; [exact E3|]. split; [by rewrite F3|]. split.
  - intros _. rewrite R3, R2, F1 by done. apply (pick_field fastchg_current); [done|cbn; lia|done|done].
  - intros r Hr. rewrite R3, R2, R1; [done|set_solver..].
Qed.

(** The registers the currents are set with; every other is spared. *)
Definition current_regs : list Z := [CMD_IL_REG; CFG_BATT_CHG_ICL_REG; CHG_CURRENT_REG].

Lemma usb_current_spares (R : list Z) s :
  idle [parallel_chg_lock; read_write_lock] s -> level_ok s -> Forall (fun r => r ∉ R) current_regs ->
  exists rc s', smb1360_set_appropriate_usb_current s = Ret rc s' /\ s_locks s' = s_locks s /\ s_i2c s' = s_i2c s
    /\ s_st s' = s_st s /\ (forall start r, r ∈ R -> chip_reg start s' r = chip_reg start s r).
Proof.
  intros Hi Hl HR. inversion HR as [|? ? N1 HR1]. inversion HR1 as [|? ? N2 HR2]. inversion HR2 as [|? ? N3 _]. subst.
  assert (idle [read_write_lock] s) as Hrw by (eapply idle_sub; [done|set_solver]).
  unfold smb1360_set_appropriate_usb_current. rewrite bind_unfold. unfold s_gets at 1.
  destruct (negb _); [by eexists _, s|]. rewrite (bind_Ret _ _ _ _ _ (limited_run s Hl)). destruct (_ <=? 2).
  - assert (spares R smb1360_set_minimum_usb_current) as Hm
      by (unfold smb1360_set_minimum_usb_current; spare).
    destruct (Hm s Hrw) as (rc & s1 & E & L & I & F & C). rewrite (bind_Ret _ _ _ _ _ E), bind_unfold. unfold s_gets.
    destruct (parallel_charging _); unfold when; [|by eexists _, s1].
    destruct (parallel_no_bus R PARALLEL_CURRENT false s1) as (rc' & s' & Ep & L' & I' & F' & C'); [unfold idle in *; by rewrite L, I|].
    exists rc, s'. rewrite !bind_unfold, Ep. split; [done|]. split; [congruence|]. split; [congruence|]. split; [congruence|].
    intros start r Hr. by rewrite C', C.
  - match goal with |- exists rc s', ?c s = _ /\ _ => assert (spares R c) as Hc by (unfold set_usb_mode; spare) end.
    exact (Hc s Hrw).
Qed.

Lemma usb_mode_run start s ma :
  answering start -> live start s ->
  exists s', set_usb_mode ma s = Ret 0 s' /\ mode_field start s' = usb_mode s ma
    /\ (500 < ma -> largest fastchg_current (fast_field start s') (if rsense_10mohm (s_chg s) then ma / 2 else ma))
    /\ (forall r, r ∉ [CMD_IL_REG; CHG_CURRENT_REG] -> chip_reg start s' r = chip_reg start s r).
Proof.
  intros Ha Hv. unfold set_usb_mode, usb_mode, mode_field, fast_field.
  rewrite bind_unfold. unfold s_gets at 1. rewrite bind_unfold. unfold s_gets at 1.
  set (bad := has _ _ || _).
  assert (negb bad = min_icl_usb100 (s_chg s) && negb (has (workaround_flags (s_ctl s)) WRKRND_USB100_FAIL)) as Hbad
    by (subst bad; rewrite negb_orb, negb_involutive; apply andb_comm).
  rewrite <- andb_assoc, <- Hbad. unfold CURRENT_100_MA, CURRENT_500_MA.
  assert (forall mode, exists es, smb1360_masked_write CMD_IL_REG USB_CTRL_MASK mode s = Ret 0 (more es s)
    /\ Z.land (chip_reg start (more es s) CMD_IL_REG) USB_CTRL_MASK = Z.land mode USB_CTRL_MASK
    /\ (forall r, r ∉ [CMD_IL_REG; CHG_CURRENT_REG] -> chip_reg start (more es s) r = chip_reg start s r)) as Hmode.
  { intros mode. destruct (masked_sets start CMD_IL_REG USB_CTRL_MASK mode s Ha Hv ltac:(done)) as (es & E & _ & F & R).
    exists es. split; [done|]. split; [done|]. intros r Hr. apply R. set_solver. }
  destruct (ma <=? 100) eqn:E1, bad; cbn [andb negb]; bool_cases.
  - destruct (Hmode USB_500_BIT) as (es & E & F & R). exists (more es s). rewrite (proj2 (Z.leb_le ma 500)) by lia.
    split; [done|]. split; [done|]. split; [lia|done].
  - rewrite (proj2 (Z.leb_le ma 100)) by lia. destruct (Hmode USB_100_BIT) as (es & E & F & R). exists (more es s).
    split; [done|]. split; [done|]. split; [lia|done].
  - rewrite (proj2 (Z.leb_gt ma 100)) by lia. exact (adapter_or_500 start s ma Ha Hv Hmode).
  - rewrite (proj2 (Z.leb_gt ma 100)) by lia. exact (adapter_or_500 start s ma Ha Hv Hmode).
Qed.

(** C18: which current is drawn.  Assume a chip that keeps what is written to it
    and on whose bus no read or write fails, the debug switches that suppress
    writes off, the locks free, the usual bus address, a battery in place and
    a thermal level of the table.  Then the call succeeds and leaves the
    registers as follows, where [ma] is
    the smallest of what the supply grants, of the thermal level's entry (when
    the level is active and not the highest) and, under the temperature
    workaround, of the band's current.  Above 2 mA: the mode is USB 100 up to
    100 mA if chip and device tree allow that mode, else USB 500 up to 500 mA,
    else adapter; the input limit is the largest entry of its table that is not
    above [ma], or the smallest if all are; in adapter mode the charge current
    is so for [ma], or for half of it with a 10 mOhm resistor, and the input
    limit is at most [ma].  Up to 2 mA: the minimum the device tree names.  No
    other register changes. *)
Theorem usb_current_choice start s :
  answering start -> live start s -> idle [parallel_chg_lock; read_write_lock] s -> level_ok s ->
  batt_present (s_st s) = true ->
  let ma := allowed_ma s in
  exists s', smb1360_set_appropriate_usb_current s = Ret 0 s'
    /\ (2 < ma -> mode_field start s' = usb_mode s ma
         /\ largest input_current_limit (icl_field start s') ma
         /\ (500 < ma -> nth (Z.to_nat (icl_field start s')) input_current_limit 0 <= ma
              /\ largest fastchg_current (fast_field start s') (if rsense_10mohm (s_chg s) then ma / 2 else ma)))
    /\ (ma <= 2 ->
          if min_icl_usb100 (s_chg s)
          then icl_field start s' = INPUT_CURR_LIM_300MA
               /\ (has (workaround_flags (s_ctl s)) WRKRND_USB100_FAIL = false -> mode_field start s' = USB_100_BIT)
          else mode_field start s' = USB_500_BIT)
    /\ (forall r, r ∉ [CMD_IL_REG; CFG_BATT_CHG_ICL_REG; CHG_CURRENT_REG] -> chip_reg start s' r = chip_reg start s r).
Proof.
  intros Ha Hv Hi Hl Hb ma.
  unfold smb1360_set_appropriate_usb_current. rewrite bind_unfold. unfold s_gets at 1. rewrite Hb. cbn [negb].
  rewrite (bind_Ret _ _ _ _ _ (limited_run s Hl)). fold ma. destruct (ma <=? 2) eqn:E2; bool_cases.
  - destruct (minimum_run start s Ha Hv) as (es & E & F & R). rewrite (bind_Ret _ _ _ _ _ E), bind_unfold. unfold s_gets.
    destruct (parallel_charging _); unfold when.
    + destruct (parallel_no_bus [CMD_IL_REG; CFG_BATT_CHG_ICL_REG] PARALLEL_CURRENT false (more es s) Hi) as (rc & s' & Ep & _ & Hbus & _ & Rp).
      exists s'. rewrite !bind_unfold, Ep. split; [done|]. unfold mode_field, icl_field in *.
      split; [lia|]. split; [intros _; by rewrite !Rp by set_solver|]. intros r Hr.
      destruct (parallel_no_bus [r] PARALLEL_CURRENT false (more es s) Hi) as (rc' & s2 & Ep' & _ & _ & _ & Rp').
      rewrite Ep in Ep'. injection Ep' as <- <-. rewrite Rp' by set_solver. by apply R.
    + exists (more es s). split; [done|]. split; [lia|]. by split.
  - destruct (masked_sets start CFG_BATT_CHG_ICL_REG INPUT_CURR_LIM_MASK (pick input_current_limit ma) s Ha Hv ltac:(done))
      as (es & E & Hv1 & F1 & R1). rewrite (bind_Ret _ _ _ _ _ E).
    destruct (usb_mode_run start _ ma Ha Hv1) as (s' & E' & Fm & Ff & R'). exists s'. split; [done|].
    assert (largest input_current_limit (icl_field start s') ma) as Hicl.
    { unfold icl_field. rewrite R', F1 by set_solver.
      pose proof (pick_field input_current_limit ma INPUT_CURR_LIM_MASK 0) as Hp.
      rewrite Z.shiftl_0_r, Z.shiftr_0_r in Hp. apply Hp; [done|cbn; lia|done|done]. }
    split; [|split; [lia|]].
    + intros _. split; [exact Fm|]. split; [done|]. intros Hm. split; [|by apply Ff].
      destruct Hicl as (_ & [Hle|[_ Habove]] & _); [done|]. inversion Habove. lia.
    + intros r Hr. rewrite R', R1; [done|set_solver..].
Qed.

(** The level a call leaves, whatever it returns. *)
Definition forced_level (s : sworld) (lvl_sel : Z) : Z :=
  u32 (if thermal_levels (s_lim s) <=? lvl_sel then s32 (thermal_levels (s_lim s) - 1) else lvl_sel).

(** What the current-setting programs do to the level: nothing. *)
Definition level_of (s : sworld) : Z := therm_lvl_sel (s_ctl s).
#[local] Instance level_frame : Frame level_of.
Proof. by split. Qed.

Lemma keeps_level_min L : read_write_lock ∈ L -> keeps L level_of smb1360_set_minimum_usb_current.
Proof. intros. apply keeps_reg_only; [exact _|done|apply reg_only_set_minimum]. Qed.

Lemma keeps_level_parallel L reason enable :
  parallel_chg_lock ∈ L -> keeps L level_of (smb1360_parallel_charger_enable reason enable).
Proof.
  intros HL. eapply (keeps_sub _ [parallel_chg_lock]); [|by intros m ->%list_elem_of_singleton].
  keep_lock (@nil mutex). unfold __smb1360_parallel_charger_enable, get_parallel_psy. keep.
Qed.

Lemma keeps_level_usb : keeps [parallel_chg_lock; read_write_lock] level_of smb1360_set_appropriate_usb_current.
Proof.
  unfold smb1360_set_appropriate_usb_current, limited_current, set_usb_mode. keep.
  - apply keeps_thermal.
  - apply keeps_level_parallel. set_solver.
Qed.

Lemma temp_level_after lvl_sel s rc s' :
  idle [current_change_lock; parallel_chg_lock; read_write_lock] s -> level_ok s ->
  thermal_mitigation (s_lim s) <> None -> 0 <= lvl_sel ->
  smb1360_system_temp_level_set lvl_sel s = Ret rc s' -> therm_lvl_sel (s_ctl s') = forced_level s lvl_sel.
Proof.
  intros Hi Hl Ht Hp. unfold smb1360_system_temp_level_set. rewrite bind_unfold. unfold s_gets at 1.
  destruct (thermal_mitigation (s_lim s)) as [t|] eqn:Et; [|done]. clear Ht.
  destruct (lvl_sel <? 0) eqn:E0; bool_cases; [lia|]. rewrite bind_unfold. unfold s_gets at 1.
  fold (forced_level s lvl_sel). destruct (_ =? _) eqn:E1; bool_cases; [by intros [= _ <-]|].
  set (v := forced_level s lvl_sel) in *.
  assert (forall L' (c : prog sworld Z), L' ⊆ [current_change_lock; parallel_chg_lock; read_write_lock] ->
    current_change_lock ∉ L' -> keeps L' level_of c ->
    locked current_change_lock (do* set_ctl (with_therm_lvl_sel v); c) s = Ret rc s' -> therm_lvl_sel (s_ctl s') = v) as Hk.
  { intros L' c HL Hn Hc. set (s1 := with_s_ctl (with_therm_lvl_sel v (s_ctl s)) (with_s_locks (current_change_lock :: s_locks s) s)).
    destruct (Hc s1) as (a & s2 & E & HS & _ & Hf); [exact (idle_inside _ _ _ _ Hi HL Hn)| |].
    - refine (level_ok_set s t v Hl Et _). unfold v, forced_level. unfold level_ok in Hl. rewrite Et in Hl.
      destruct Hl as (-> & Hb & _). pose proof (zlen_nonneg t). destruct (zlen t <=? lvl_sel) eqn:E2; bool_cases.
      + right; left. apply u32_s32.
      + unfold u32. rewrite Z.mod_small by lia. lia.
    - rewrite (locked_run _ _ s a s2); [by intros [= _ <-]|eapply idle_in; [done|set_solver]|exact E|by rewrite (same_locks _ _ HS)]. }
  destruct (v =? _).
  - apply (Hk [read_write_lock]); [set_solver|set_solver|]. apply keeps_level_min. set_solver.
  - apply (Hk [parallel_chg_lock; read_write_lock]); [set_solver|set_solver|]. apply keeps_level_usb.
Qed.

(** C34: a thermal level that could not be set is not set later.  On a board with
    thermal levels and for a level that is not negative, whatever the first call
    answers, an error of the bus included, the driver remembers the
    level as selected: asking for it again answers success and does nothing. *)
Theorem temp_level_not_retried lvl_sel s rc s1 :
  idle [current_change_lock; parallel_chg_lock; read_write_lock] s -> level_ok s ->
  thermal_mitigation (s_lim s) <> None -> 0 <= lvl_sel ->
  smb1360_system_temp_level_set lvl_sel s = Ret rc s1 ->
  smb1360_system_temp_level_set lvl_sel s1 = Ret 0 s1.
Proof.
  intros Hi Hl Ht Hp E.
  destruct (keeps_temp_level lvl_sel s Hi Hl) as (a & s1' & E' & HS & _). rewrite E in E'. injection E' as <- <-.
  pose proof (temp_level_after _ _ _ _ Hi Hl Ht Hp E) as Hlv. unfold forced_level in Hlv.
  unfold smb1360_system_temp_level_set. rewrite bind_unfold. unfold s_gets at 1. rewrite (same_lim _ _ HS).
  destruct (thermal_mitigation (s_lim s)); [|done]. destruct (lvl_sel <? 0) eqn:E0; bool_cases; [lia|].
  rewrite bind_unfold. unfold s_gets at 1. by rewrite Hlv, Z.eqb_refl.
Qed.

(** The capacity is a percentage, or the error of the read that failed; what
    user space reads is always 50 per cent and good health. *)
Theorem capacity_range s :
  idle [read_write_lock] s -> fake_battery_soc (s_ctl s) < 0 ->
  exists c es, smb1360_get_prop_batt_capacity s = Ret c (more es s) /\ c <= 100
    /\ (0 <= c \/ exists a, es = [I2cRead a SHDW_FG_MSYS_SOC c])
    /\ (exists es', smb1360_battery_get_property PROP_CAPACITY s = Ret (0, 50) (more es' s))
    /\ smb1360_battery_get_property PROP_HEALTH s = Ret (0, POWER_SUPPLY_HEALTH_GOOD) s.
Proof.
  intros Hi Hf.
  assert (exists c es, smb1360_get_prop_batt_capacity s = Ret c (more es s) /\ c <= 100
    /\ (0 <= c \/ exists a, es = [I2cRead a SHDW_FG_MSYS_SOC c])) as (c & es & E & Hc & Hr).
  { unfold smb1360_get_prop_batt_capacity. rewrite bind_unfold. unfold s_gets at 1.
    destruct (0 <=? _) eqn:E0; bool_cases; [lia|]. rewrite bind_unfold. unfold s_gets at 1.
    destruct (empty_soc (s_st s)); [exists 0, []; rewrite more_nil; split; [done|lia]|].
    assert (forall r, exists c, (if batt_full (s_st s) then 100 else bound (soc_of r) 0 100) = c /\ 0 <= c <= 100) as Hb.
    { intros r. eexists. split; [reflexivity|]. unfold bound. repeat split_if; bool_cases; lia. }
    rewrite bind_unfold, read_run by done. destruct (negb _).
    - destruct (Hb 0) as (c & Ec & Hc). exists c, []. rewrite more_nil. cbn in *. rewrite <- Ec. split; [done|lia].
    - cbv zeta. set (r := sk_read _ _ _). destruct (r <? 0) eqn:En; bool_cases; cbn [fst snd].
      + destruct (r =? 0) eqn:Er; bool_cases; [lia|]. eexists _, _. split; [reflexivity|]. split; [lia|]. right. by eexists.
      + destruct (Hb (u8 r)) as (c & Ec & Hc). exists c, [I2cRead (client_addr (s_i2c s)) SHDW_FG_MSYS_SOC r].
        cbn in *. rewrite <- Ec. split; [done|lia]. }
  exists c, es. split; [done|]. split; [done|]. split; [done|]. split; [|done]. exists es.
  cbn [smb1360_battery_get_property]. rewrite bind_unfold. by rewrite (bind_Ret _ _ _ _ _ E).
Qed.

(** The parallel charger is told only when the set of reasons against it
    becomes empty (its current, then "on") or stops being empty (no current,
    then "off"). *)
Theorem parallel_on_change reason (enable : bool) s :
  idle [parallel_chg_lock] s -> parallel_psy (s_ctl s) = true ->
  let old := parallel_chg_disable_status (s_ctl s) in
  let new := if enable then Z.land old (Z.lnot reason) else Z.lor old reason in
  let tell (b : bool) := [ParallelSet "CONSTANT_CHARGE_CURRENT_MAX" (if b then max_parallel_chg_current (s_lim s) * 1000 else 0);
                 ParallelSet "CHARGING_ENABLED" (if b then 1 else 0)] in
  smb1360_parallel_charger_enable reason enable s =
    Ret 0 (with_s_ctl (with_parallel_chg_disable_status new (s_ctl s))
      (more (if negb (old =? 0) && (new =? 0) then tell true
             else if (old =? 0) && negb (new =? 0) then tell false else []) s)).
Proof.
  intros Hi Hp old new tell. set (s0 := with_s_locks (parallel_chg_lock :: s_locks s) s).
  assert (forall b, __smb1360_parallel_charger_enable b s0 = Ret 0 (more (tell b) s0)) as Et.
  { intros b. unfold __smb1360_parallel_charger_enable, get_parallel_psy. rewrite bind_unfold.
    rewrite bind_unfold. unfold s_gets at 1. cbn [s_ctl s0 with_s_locks]. rewrite Hp. unfold ret at 1. cbn [negb].
    unfold bind, s_gets, s_do, modify, ret. f_equal. by rewrite !emit_more, more_more. }
  unfold smb1360_parallel_charger_enable. set (es := if negb (old =? 0) && _ then _ else _).
  match goal with |- locked _ ?c _ = _ =>
    assert (c s0 = Ret 0 (with_s_ctl (with_parallel_chg_disable_status new (s_ctl s0)) (more es s0))) as Ec end.
  { rewrite bind_unfold. unfold s_gets. change (s_ctl s0) with (s_ctl s). fold old. fold new. subst es.
    destruct (negb (old =? 0) && (new =? 0)) eqn:E1; cbn [when].
    - rewrite bind_bind, (bind_Ret _ _ _ _ _ (Et true)). apply andb_true_iff in E1 as [E1%negb_true_iff _].
      rewrite bind_unfold. unfold ret at 1. by rewrite E1.
    - rewrite bind_unfold. unfold ret at 1. destruct ((old =? 0) && negb (new =? 0)); cbn [when].
      + by rewrite bind_bind, (bind_Ret _ _ _ _ _ (Et false)).
      + by rewrite more_nil. }
  rewrite (locked_run parallel_chg_lock _ s 0 _ (idle_in _ parallel_chg_lock _ Hi ltac:(left)) Ec) by done. by destruct s.
Qed.

End SmbChargeFacts.

#[export] Hint Resolve reg_only_float_voltage_set reg_only_shadow_word reg_only_set_minimum reg_only_get_property
  reg_only_capacity : smb.

(** ** Witnesses *)

Module ChargeDemo.
Import Demo.

Definition chip : SmbKernel := kernel (fun _ => 0) (fun _ => false) (fun _ => None).

Lemma bound_driver_idle L : idle L bound.
Proof. split; [|done]. apply Forall_forall. intros m _. exact (not_elem_of_nil m). Qed.

Lemma bound_level : level_ok bound.
Proof. split; [done|]. split; [done|]. by left. Qed.

Lemma charging_follows_reasons_witness :
  exists rc es new,
    @smb1360_charging_disable chip USER 1 bound
      = Ret rc (with_s_ctl (with_charging_disabled_status (if rc =? 0 then new else 0) ctl0) (more es bound))
    /\ Z.testbit new 0 = true.
Proof.
  destruct (@charging_follows_reasons chip USER 1 bound (bound_driver_idle _) eq_refl) as (rc & es & new & E & Hn & _).
  exists rc, es, new. split; [exact E|]. exact (Hn 0 ltac:(lia)).
Defined.

Lemma chip_answers : @answering chip (fun _ => 0).
Proof. split; [by intros tr a r|done]. Qed.

Lemma bound_live : live (fun _ => 0) bound.
Proof. split; [apply bound_driver_idle|]. split; [done|]. intros r. cbn. lia. Qed.

Lemma usb_current_choice_witness :
  allowed_ma bound = 500
  /\ exists s', @smb1360_set_appropriate_usb_current chip bound = Ret 0 s'
    /\ mode_field (fun _ => 0) s' = USB_500_BIT /\ largest input_current_limit (icl_field (fun _ => 0) s') 500.
Proof.
  split; [reflexivity|].
  destruct (@usb_current_choice chip (fun _ => 0) bound chip_answers bound_live (bound_driver_idle _) bound_level eq_refl)
    as (s' & E & Hm & _). exists s'. split; [exact E|].
  destruct (Hm ltac:(vm_compute; reflexivity)) as (Hmode & Hicl & _). split; [exact Hmode|exact Hicl].
Defined.

Lemma temp_level_not_retried_witness :
  exists rc s1, @smb1360_system_temp_level_set chip 2 bound = Ret rc s1 /\ therm_lvl_sel (s_ctl s1) = 2
    /\ @smb1360_system_temp_level_set chip 2 s1 = Ret 0 s1.
Proof.
  eexists _, _. split; [vm_compute; reflexivity|]. split; [reflexivity|].
  apply (@temp_level_not_retried chip 2 bound 0); [apply bound_driver_idle|apply bound_level|done|lia|vm_compute; reflexivity].
Defined.

End ChargeDemo.
