(* ===== verification/SmbIrq.v ===== *)
(** * The charger driver: interrupts, the on-the-go supply, suspend

    [smb1360-charger-fg.c]: the handlers of the chip's interrupts and the
    dispatcher that calls them, the work they queue, the on-the-go supply with
    the current gain it programs into the fuel gauge, and suspend, resume and
    shutdown. *)

From stdpp Require Import base list numbers sets strings.
From Stdlib Require Import ZArith Lia.
From S2P Require Import Prelude Kernel SmbRegs SmbBus SmbCharge.
Open Scope Z_scope.

(** [reg_val_mapping] of [smb1360_adjust_current_gain]. *)
Definition reg_val_mapping : list (Z * Z) :=
  [(224, 29); (225, 0); (226, 30); (227, 0); (228, 0); (229, 0); (230, 0); (231, 0); (232, 0);
   (233, 0); (234, 0); (235, 0); (236, 0); (237, 0); (239, 0); (240, 80); (241, 0)].

Section SmbIrq.
Context `{SmbKernel}.

(** ** The on-the-go supply *)

(** The loop over the table; 0xE1 and 0xE3 take the new gain. *)
Fixpoint write_gain (rows : list (Z * Z)) (lo hi : Z) : prog sworld Z :=
  match rows with
  | [] => ret 0
  | (a, v) :: rows' =>
      let v := if a =? 225 then lo else v in
      let v := if a =? 227 then hi else v in
      ok* smb1360_fg_write a v;
      write_gain rows' lo hi
  end.

(** The register of a gain of [gain_factor] times the one of [reg], plus one. *)
Definition new_gain (gain_factor reg : Z) : Z :=
  u16 (float_encode (MICRO_UNIT + gain_factor * float_decode reg)).

Definition smb1360_adjust_current_gain (gain_factor : Z) : prog sworld Z :=
  if negb (gain_factor =? 0) then
    let* l := smb1360_fg_read CURRENT_GAIN_LSB_REG 0 in
    if negb (fst l =? 0) then ret (fst l) else
    let* h := smb1360_fg_read CURRENT_GAIN_MSB_REG 0 in
    if negb (fst h =? 0) then ret (fst h) else
    let reg_value2 := new_gain gain_factor (Z.lor (Z.shiftl (snd h) 8) (snd l)) in
    write_gain reg_val_mapping (Z.land reg_value2 255) (Z.shiftr (Z.land reg_value2 65280) 8)
  else smb1360_fg_write 240 0.

(** The result of the work between [enable] and [restore_fg] is lost. *)
Definition smb1360_otp_gain_config (gain_factor : Z) : prog sworld Z :=
  ok* smb1360_enable_fg_access;
  do* set_i2c (with_fg_access_type FG_ACCESS_CFG);
  do* (ok* smb1360_select_fg_i2c_address;
       ok* smb1360_adjust_current_gain gain_factor;
       smb1360_masked_write CFG_FG_BATT_CTRL_REG CFG_FG_OTP_BACK_UP_ENABLE CFG_FG_OTP_BACK_UP_ENABLE);
  smb1360_disable_fg_access.

Definition smb1360_otg_disable : prog sworld Z :=
  let* rc := smb1360_masked_write CMD_CHG_REG CMD_OTG_EN_BIT 0 in
  if negb (rc =? 0) then ret rc else
  let* chg := s_gets s_chg in
  let* gain := s_gets (fun s => fet_gain_enabled (s_ctl s)) in
  if otg_fet_present chg && gain then
    do* s_do (GpioSet (otg_fet_enable_gpio chg) 1);
    let* rc := smb1360_otp_gain_config 0 in
    do* when (0 <=? rc) (set_ctl (with_fet_gain_enabled false));
    ret rc
  else ret rc.

Definition smb1360_otg_regulator_enable : prog sworld Z :=
  let* rc := smb1360_masked_write CMD_CHG_REG CMD_OTG_EN_BIT CMD_OTG_EN_BIT in
  if negb (rc =? 0) then ret rc else
  let* chg := s_gets s_chg in
  if otg_fet_present chg then
    do* s_do (GpioSet (otg_fet_enable_gpio chg) 0);
    let* rc := smb1360_otp_gain_config 3 in
    do* when (0 <=? rc) (set_ctl (with_fet_gain_enabled true));
    ret rc
  else ret rc.

Definition smb1360_otg_regulator_disable : prog sworld Z := smb1360_otg_disable.

Definition smb1360_otg_regulator_is_enable : prog sworld Z :=
  let* r := smb1360_read CMD_CHG_REG 0 in
  ret (if negb (fst r =? 0) then fst r else if has (snd r) CMD_OTG_EN_BIT then 1 else 0).

(** ** The handlers *)

Definition if_parallel (c : prog sworld Z) : prog sworld unit :=
  let* par := s_gets (fun s => parallel_charging (s_lim s)) in
  when par (do* c; ret tt).

Definition hot_hard_handler (rt_stat : Z) : prog sworld Z :=
  let hot := negb (rt_stat =? 0) in
  do* set_st (with_batt_hot hot);
  do* if_parallel (smb1360_parallel_charger_enable PARALLEL_JEITA_HARD (negb hot));
  ret 0.

Definition cold_hard_handler (rt_stat : Z) : prog sworld Z :=
  let cold := negb (rt_stat =? 0) in
  do* set_st (with_batt_cold cold);
  do* if_parallel (smb1360_parallel_charger_enable PARALLEL_JEITA_HARD (negb cold));
  ret 0.

(** [schedule_delayed_work(&chip->jeita_work, ...)] under the workaround. *)
Definition kick_jeita : prog sworld unit :=
  let* w := s_gets (fun s => workaround_flags (s_ctl s)) in
  when (has w WRKRND_HARD_JEITA) (
    do* s_do JeitaCancel;
    do* s_do (JeitaSchedule JEITA_WORK_MS);
    s_do StayAwake).

Definition hot_soft_handler (rt_stat : Z) : prog sworld Z :=
  do* set_st (with_soft_hot_rt_stat rt_stat);
  let* hard := s_gets (fun s => config_hard_thresholds (s_jeita s)) in
  do* when (negb hard) (set_st (with_batt_warm (negb (rt_stat =? 0))));
  do* kick_jeita;
  let* warm := s_gets (fun s => batt_warm (s_st s)) in
  do* if_parallel (smb1360_parallel_charger_enable PARALLEL_JEITA_SOFT (negb warm));
  ret 0.

Definition cold_soft_handler (rt_stat : Z) : prog sworld Z :=
  do* set_st (with_soft_cold_rt_stat rt_stat);
  let* hard := s_gets (fun s => config_hard_thresholds (s_jeita s)) in
  do* when (negb hard) (set_st (with_batt_cool (negb (rt_stat =? 0))));
  do* kick_jeita;
  let* cool := s_gets (fun s => batt_cool (s_st s)) in
  do* if_parallel (smb1360_parallel_charger_enable PARALLEL_JEITA_SOFT (negb cool));
  ret 0.

Definition battery_missing_handler (rt_stat : Z) : prog sworld Z :=
  do* set_st (with_batt_present (rt_stat =? 0)); ret 0.

(** The handlers that only print. *)
Definition vbat_low_handler (rt_stat : Z) : prog sworld Z := ret 0.
Definition chg_hot_handler (rt_stat : Z) : prog sworld Z := ret 0.
Definition chg_fastchg_handler (rt_stat : Z) : prog sworld Z := ret 0.
Definition delta_soc_handler (rt_stat : Z) : prog sworld Z := ret 0.
Definition full_soc_handler (rt_stat : Z) : prog sworld Z := ret 0.
Definition fg_access_allowed_handler (rt_stat : Z) : prog sworld Z := ret 0.
Definition batt_id_complete_handler (rt_stat : Z) : prog sworld Z := ret 0.

Definition chg_term_handler (rt_stat : Z) : prog sworld Z :=
  let full := negb (rt_stat =? 0) in
  do* set_st (with_batt_full full);
  do* if_parallel (smb1360_parallel_charger_enable PARALLEL_EOC (negb full));
  ret 0.

Definition usbin_uv_handler (rt_stat : Z) : prog sworld Z :=
  let now := rt_stat =? 0 in
  let announce := (do* set_st (with_usb_present now); s_do (UsbPresent now)) in
  let* was := s_gets (fun s => usb_present (s_st s)) in
  do* when (was && negb now) announce;
  let* was := s_gets (fun s => usb_present (s_st s)) in
  do* when (negb was && now) announce;
  ret 0.

Definition aicl_done_handler (rt_stat : Z) : prog sworld Z :=
  let* par := s_gets (fun s => parallel_charging (s_lim s)) in
  do* when (par && negb (rt_stat =? 0)) (
    do* s_do ParallelCancel;
    do* s_do StayAwake;
    s_do ParallelSchedule);
  ret 0.

Definition chg_inhibit_handler (rt_stat : Z) : prog sworld Z :=
  do* set_st (with_batt_full (negb (rt_stat =? 0))); ret 0.

Definition min_soc_handler (rt_stat : Z) : prog sworld Z :=
  let* awake := s_gets (fun s => awake_min_soc (s_fg s)) in
  do* when awake (s_do (if negb (rt_stat =? 0) then StayAwake else Relax));
  ret 0.

Definition empty_soc_handler (rt_stat : Z) : prog sworld Z :=
  let* off := s_gets (fun s => empty_soc_disabled (s_fg s)) in
  do* when (negb off) (
    if negb (rt_stat =? 0) then do* set_st (with_empty_soc true); s_do StayAwake
    else do* set_st (with_empty_soc false); s_do Relax);
  ret 0.

Definition otg_fail_handler (rt_stat : Z) : prog sworld Z := do* smb1360_otg_disable; ret 0.
Definition otg_oc_handler (rt_stat : Z) : prog sworld Z := do* smb1360_otg_disable; ret 0.

(** The function pointers of [handlers], by status register and position. *)
Definition smb_irq (reg : Z) (j : nat) : option (Z -> prog sworld Z) :=
  if reg =? IRQ_A_REG then
    match j with 0%nat => Some cold_soft_handler | 1%nat => Some hot_soft_handler
               | 2%nat => Some cold_hard_handler | 3%nat => Some hot_hard_handler | _ => None end
  else if reg =? IRQ_B_REG then
    match j with 0%nat => Some chg_hot_handler | 1%nat => Some vbat_low_handler
               | 2%nat => Some battery_missing_handler | 3%nat => Some battery_missing_handler | _ => None end
  else if reg =? IRQ_C_REG then
    match j with 0%nat => Some chg_term_handler | 3%nat => Some chg_fastchg_handler | _ => None end
  else if reg =? IRQ_D_REG then
    match j with 2%nat => Some aicl_done_handler | _ => None end
  else if reg =? IRQ_E_REG then
    match j with 0%nat => Some usbin_uv_handler | 3%nat => Some chg_inhibit_handler | _ => None end
  else if reg =? IRQ_F_REG then
    match j with 2%nat => Some otg_fail_handler | 3%nat => Some otg_oc_handler | _ => None end
  else if reg =? IRQ_G_REG then
    match j with 0%nat => Some delta_soc_handler | _ => None end
  else if reg =? IRQ_H_REG then
    match j with 0%nat => Some min_soc_handler | 2%nat => Some empty_soc_handler
               | 3%nat => Some full_soc_handler | _ => None end
  else if reg =? IRQ_I_REG then
    match j with 0%nat => Some fg_access_allowed_handler | 2%nat => Some batt_id_complete_handler | _ => None end
  else None.

(** ** The work the handlers queue *)

(** The thresholds and flags of a temperature, up to the label [end]. *)
Definition jeita_step (temp : Z) : prog sworld Z :=
  let* j := s_gets s_jeita in
  let* st := s_gets s_st in
  let* vfloat := s_gets (fun s => vfloat_mv (s_chg s)) in
  if hot_bat_decidegc j <? temp then
    smb1360_set_soft_jeita_threshold (warm_bat_decidegc j) (hot_bat_decidegc j)
  else if (warm_bat_decidegc j <? temp) || ((temp =? warm_bat_decidegc j) && negb (soft_hot_rt_stat st =? 0)) then
    do* set_st (fun f => with_batt_cool false (with_batt_warm true f));
    ok* smb1360_float_voltage_set (warm_bat_mv j);
    do* smb1360_set_appropriate_usb_current;
    smb1360_set_soft_jeita_threshold (warm_bat_decidegc j) (hot_bat_decidegc j)
  else if (cool_bat_decidegc j <? temp) || ((temp =? cool_bat_decidegc j) && (soft_cold_rt_stat st =? 0)) then
    do* set_st (fun f => with_batt_cool false (with_batt_warm false f));
    ok* smb1360_float_voltage_set vfloat;
    do* smb1360_set_appropriate_usb_current;
    smb1360_set_soft_jeita_threshold (cool_bat_decidegc j) (warm_bat_decidegc j)
  else if cold_bat_decidegc j <? temp then
    do* set_st (fun f => with_batt_warm false (with_batt_cool true f));
    ok* smb1360_float_voltage_set (cool_bat_mv j);
    smb1360_set_soft_jeita_threshold (cold_bat_decidegc j) (cool_bat_decidegc j)
  else
    smb1360_set_soft_jeita_threshold (cold_bat_decidegc j) (cool_bat_decidegc j).

Definition smb1360_jeita_work_fn : prog sworld unit :=
  let* temp := smb1360_get_prop_batt_temp in
  do* jeita_step temp;
  s_do Relax.

(** ** The dispatcher *)

Definition set_row (i : nat) (f : irq_row -> irq_row) : prog sworld unit :=
  modify (fun s => with_s_irqs (alter f i (s_irqs s)) s).
Definition with_row_val (v : Z) (r : irq_row) : irq_row := mkRow (row_reg r) v (row_prev r) (row_counts r).
Definition with_row_prev (v : Z) (r : irq_row) : irq_row := mkRow (row_reg r) (row_val r) v (row_counts r).
Definition count_irq (j : nat) (high : bool) (r : irq_row) : irq_row :=
  mkRow (row_reg r) (row_val r) (row_prev r)
    (alter (fun c => if high then (s32 (fst c + 1), snd c) else (fst c, s32 (snd c + 1))) j (row_counts r)).

Definition latched_mask (reg : Z) (j : nat) : Z :=
  if (reg =? IRQ_I_REG) && (Z.of_nat j =? 2) then BATT_ID_LATCHED_MASK else IRQ_LATCHED_MASK.
Definition status_mask (reg : Z) (j : nat) : Z :=
  if (reg =? IRQ_I_REG) && (Z.of_nat j =? 2) then BATT_ID_STATUS_MASK else IRQ_STATUS_MASK.

(** [val & (mask << (j * BITS_PER_IRQ))], as a [u8]. *)
Definition irq_bits (val mask : Z) (j : nat) : Z := u8 (Z.land val (Z.shiftl mask (Z.of_nat j * BITS_PER_IRQ))).

(** One interrupt of a row: how many handlers were called. *)
Definition dispatch (i j : nat) : prog sworld Z :=
  let* row := s_gets (fun s => s_irqs s !! i) in
  match row with
  | None => fault_with OutOfBounds
  | Some r =>
      let triggered := irq_bits (row_val r) (latched_mask (row_reg r) j) j in
      let rt_stat := irq_bits (row_val r) (status_mask (row_reg r) j) j in
      let prev_rt_stat := irq_bits (row_prev r) (status_mask (row_reg r) j) j in
      let changed := Z.lxor prev_rt_stat rt_stat in
      let seen := negb (triggered =? 0) || negb (changed =? 0) in
      do* when seen (set_row i (count_irq j (negb (rt_stat =? 0))));
      match smb_irq (row_reg r) j with
      | Some f => if seen then do* f rt_stat; ret 1 else ret 0
      | None => ret 0
      end
  end.

(** One status register: read it, dispatch its four interrupts, remember it. *)
Definition stat_row (i : nat) : prog sworld Z :=
  let* row := s_gets (fun s => s_irqs s !! i) in
  match row with
  | None => fault_with OutOfBounds
  | Some r =>
      let* v := smb1360_read (row_reg r) (row_val r) in
      do* set_row i (with_row_val (snd v));
      if fst v <? 0 then ret 0 else
      let* n0 := dispatch i 0 in
      let* n1 := dispatch i 1 in
      let* n2 := dispatch i 2 in
      let* n3 := dispatch i 3 in
      do* set_row i (fun r => with_row_prev (row_val r) r);
      ret (n0 + n1 + n2 + n3)
  end.

Fixpoint stat_rows (rows : list nat) : prog sworld Z :=
  match rows with
  | [] => ret 0
  | i :: rows' =>
      let* n := stat_row i in
      let* m := stat_rows rows' in
      ret (n + m)
  end.

(** What [stat_handler] does once the device has resumed. *)
Definition stat_scan : prog sworld unit :=
  let* n := stat_rows (seq 0 9) in
  when (negb (n =? 0)) (s_do BattChanged).

Definition smb1360_stat_handler : prog sworld unit :=
  locked irq_complete (
    do* set_pm (with_irq_waiting true);
    let* resumed := s_gets (fun s => resume_completed (s_pm s)) in
    if negb resumed then s_do IrqDisable else
    do* set_pm (with_irq_waiting false);
    stat_scan).

(** ** Suspend, resume, shutdown *)

Definition save_mask (i : nat) : prog sworld unit :=
  let* m := s_gets (fun s => nth i (irq_cfg_mask (s_pm s)) 0) in
  let* r := smb1360_read (IRQ_CFG_REG + Z.of_nat i) m in
  set_pm (fun p => with_irq_cfg_mask (<[i := snd r]> (irq_cfg_mask p)) p).

(** Save the interrupt masks and leave only the important interrupts on. *)
Definition suspend_irqs : prog sworld unit :=
  do* save_mask 0;
  do* save_mask 1;
  do* save_mask 2;
  do* smb1360_write IRQ_CFG_REG
        (Z.lor (Z.lor IRQ_DCIN_UV_BIT IRQ_AICL_DONE_BIT) (Z.lor IRQ_BAT_HOT_COLD_SOFT_BIT IRQ_BAT_HOT_COLD_HARD_BIT));
  do* smb1360_write IRQ2_CFG_REG (Z.lor (Z.lor IRQ2_BATT_MISSING_BIT IRQ2_VBAT_LOW_BIT) IRQ2_POWER_OK_BIT);
  do* smb1360_write IRQ3_CFG_REG (Z.lor (Z.lor IRQ3_SOC_FULL_BIT IRQ3_SOC_MIN_BIT) IRQ3_SOC_EMPTY_BIT);
  ret tt.

Definition smb1360_suspend : prog sworld Z :=
  do* suspend_irqs;
  do* locked irq_complete (set_pm (with_resume_completed false));
  ret 0.

Definition smb1360_suspend_noirq : prog sworld Z :=
  let* waiting := s_gets (fun s => irq_waiting (s_pm s)) in
  ret (if waiting then - EBUSY else 0).

Definition restore_mask (i : nat) : prog sworld Z :=
  let* m := s_gets (fun s => nth i (irq_cfg_mask (s_pm s)) 0) in
  smb1360_write (IRQ_CFG_REG + Z.of_nat i) m.

Definition resume_irqs : prog sworld unit :=
  do* restore_mask 0;
  do* restore_mask 1;
  do* restore_mask 2;
  ret tt.

Definition smb1360_resume : prog sworld Z :=
  do* resume_irqs;
  let* waiting := locked irq_complete (
    do* set_pm (with_resume_completed true);
    s_gets (fun s => irq_waiting (s_pm s))) in
  do* when waiting (do* smb1360_stat_handler; s_do IrqEnable);
  ret 0.

(** ** Power of the chip *)

Definition smb1360_enable (enable : bool) : prog sworld Z :=
  let* r := smb1360_read SHDN_CTRL_REG 0 in
  if fst r <? 0 then ret (fst r) else
  if negb (has (snd r) SHDN_CMD_USE_BIT) then ret 0 else
  let shdn_cmd_polar := has (snd r) SHDN_CMD_POLARITY_BIT in
  smb1360_masked_write CMD_IL_REG SHDN_CMD_BIT (if xorb shdn_cmd_polar enable then SHDN_CMD_BIT else 0).

Definition smb1360_poweroff : prog sworld Z := smb1360_enable false.
Definition smb1360_poweron : prog sworld Z := smb1360_enable true.

Definition smb1360_shutdown : prog sworld unit :=
  do* smb1360_otg_disable;
  let* off := s_gets (fun s => shdn_after_pwroff (s_chg s)) in
  when off (do* smb1360_poweroff; ret tt).

End SmbIrq.

(** ** What the handlers leave alone *)

(** The state of suspend, the interrupt table but for its counters, and whether
    the interrupt is switched off. *)
Definition row_core (r : irq_row) : Z * Z * Z := (row_reg r, row_val r, row_prev r).
Definition table (s : sworld) : pmst * list (Z * Z * Z) * Z := (s_pm s, row_core <$> s_irqs s, irq_off (s_trace s)).

Definition irq_locks : list mutex := [parallel_chg_lock; read_write_lock].

(** The flags after a handler, by status register, position and status;
    [hard] is [config_hard_thresholds], [off] is [empty_soc_disabled]. *)
Definition st_after (hard off : bool) (reg : Z) (j : nat) (rt : Z) (f : flags) : flags :=
  let b := negb (rt =? 0) in
  if reg =? IRQ_A_REG then
    match j with
    | 0%nat => let f := with_soft_cold_rt_stat rt f in if hard then f else with_batt_cool b f
    | 1%nat => let f := with_soft_hot_rt_stat rt f in if hard then f else with_batt_warm b f
    | 2%nat => with_batt_cold b f
    | 3%nat => with_batt_hot b f
    | _ => f
    end
  else if reg =? IRQ_B_REG then match j with 2%nat | 3%nat => with_batt_present (negb b) f | _ => f end
  else if reg =? IRQ_C_REG then match j with 0%nat => with_batt_full b f | _ => f end
  else if reg =? IRQ_E_REG then
    match j with 0%nat => with_usb_present (negb b) f | 3%nat => with_batt_full b f | _ => f end
  else if reg =? IRQ_H_REG then
    match j with 2%nat => if off then f else with_empty_soc b f | _ => f end
  else f.

Definition hard_of (s : sworld) : bool := config_hard_thresholds (s_jeita s).
Definition off_of (s : sworld) : bool := empty_soc_disabled (s_fg s).

(** The program returns, keeps the set-up and the table, and the flags are [g]. *)
Definition sets_st (g : sworld -> flags) {A} (c : prog sworld A) : Prop :=
  forall s, idle irq_locks s -> level_ok s ->
  exists a s', c s = Ret a s' /\ same_setup s s' /\ level_ok s' /\ table s' = table s /\ s_st s' = g s.

Lemma sets_st_keeps {A} (c : prog sworld A) : keeps irq_locks watch c -> sets_st s_st c.
Proof.
  intros Hc s Hi Hl. destruct (Hc s Hi Hl) as (a & s' & E & HS & Hl' & Hf). exists a, s'.
  unfold watch, table in *. split; [done|]. split; [done|]. split; [done|]. split; congruence.
Qed.

(** One program after another. *)
Lemma sets_st_bind g1 g2 g {A B} (c : prog sworld A) (k : A -> prog sworld B) :
  sets_st g1 c -> (forall a, sets_st g2 (k a)) ->
  (forall s s1, same_setup s s1 -> s_st s1 = g1 s -> g2 s1 = g s) -> sets_st g (bind c k).
Proof.
  intros Hc Hk Hg s Hi Hl. destruct (Hc s Hi Hl) as (a & s1 & E & HS & Hl1 & Ht & Hf).
  destruct (Hk a s1 (idle_setup _ _ _ HS Hi) Hl1) as (b & s2 & E2 & HS2 & Hl2 & Ht2 & Hf2).
  exists b, s2. unfold bind. rewrite E, E2. split; [done|]. split; [by etransitivity|]. split; [done|].
  split; [congruence|]. by rewrite Hf2, (Hg s s1 HS Hf).
Qed.

Lemma sets_st_set u : sets_st (fun s => u (s_st s)) (set_st u).
Proof. intros s Hi Hl. eexists tt, _. split; [reflexivity|]. split; [by constructor|]. by repeat split. Qed.

(** A handler stores its flag, then does what leaves the flags alone. *)
Lemma sets_st_then (u : flags -> flags) {A} (k : prog sworld A) :
  keeps irq_locks watch k -> sets_st (fun s => u (s_st s)) (do* set_st u; k).
Proof. intros Hk. eapply sets_st_bind; [apply sets_st_set|intros _; by apply sets_st_keeps|]. by intros s s1 _ ->. Qed.

(** A value of the state chooses the program. *)
Lemma sets_st_gets g {A B} (h : sworld -> A) (k : A -> prog sworld B) :
  (forall s, exists g', sets_st g' (k (h s)) /\ g' s = g s) ->
  sets_st g (bind (s_gets h) k).
Proof.
  intros Hk s Hi Hl. rewrite bind_unfold. cbn. destruct (Hk s) as (g' & Hc & <-). by apply Hc.
Qed.

Section SmbIrqFacts.
Context `{SmbKernel}.

Lemma reg_only_write_gain rows lo hi : reg_only (write_gain rows lo hi).
Proof. induction rows as [|[a v] rows IH]; cbn [write_gain]; regs. Qed.

Lemma reg_only_adjust g : reg_only (smb1360_adjust_current_gain g).
Proof. unfold smb1360_adjust_current_gain. regs. apply reg_only_write_gain. Qed.

Lemma keeps_select L : keeps L watch smb1360_select_fg_i2c_address.
Proof. unfold smb1360_select_fg_i2c_address. keep. Qed.

Lemma keeps_gain_config L g : read_write_lock ∈ L -> keeps L watch (smb1360_otp_gain_config g).
Proof.
  intros HL. unfold smb1360_otp_gain_config. keep; [apply keeps_select|].
  apply keeps_reg_only; [exact _|done|apply reg_only_adjust].
Qed.

Lemma keeps_otg_disable L : read_write_lock ∈ L -> keeps L watch smb1360_otg_disable.
Proof. intros HL. unfold smb1360_otg_disable. keep. by apply keeps_gain_config. Qed.

Lemma keeps_otg_enable L : read_write_lock ∈ L -> keeps L watch smb1360_otg_regulator_enable.
Proof. intros HL. unfold smb1360_otg_regulator_enable. keep. by apply keeps_gain_config. Qed.

Lemma keeps_if_parallel c : keeps irq_locks watch c -> keeps irq_locks watch (if_parallel c).
Proof. intros Hc. unfold if_parallel. keep. Qed.

Lemma keeps_parallel_irq reason enable :
  keeps irq_locks watch (if_parallel (smb1360_parallel_charger_enable reason enable)).
Proof. apply keeps_if_parallel, keeps_parallel. unfold irq_locks. set_solver. Qed.

Lemma keeps_kick L : keeps L watch kick_jeita.
Proof. unfold kick_jeita. keep. Qed.

(** The two soft handlers, up to the flag they store. *)
Lemma soft_handler_st (rt : Z) (u : flags -> flags) (store : bool -> flags -> flags) (get : flags -> bool) reason :
  sets_st (fun s => if config_hard_thresholds (s_jeita s) then u (s_st s) else store (negb (rt =? 0)) (u (s_st s)))
    (do* set_st u;
     let* hard := s_gets (fun s => config_hard_thresholds (s_jeita s)) in
     do* when (negb hard) (set_st (store (negb (rt =? 0))));
     do* kick_jeita;
     let* b := s_gets (fun s => get (s_st s)) in
     do* if_parallel (smb1360_parallel_charger_enable reason (negb b));
     ret 0).
Proof.
  eapply (sets_st_bind _ (fun s => if config_hard_thresholds (s_jeita s) then s_st s else store (negb (rt =? 0)) (s_st s)));
    [apply sets_st_set|intros _|].
  - assert (keeps irq_locks watch (do* kick_jeita; let* b := s_gets (fun s => get (s_st s)) in
      do* if_parallel (smb1360_parallel_charger_enable reason (negb b)); ret 0)) as Hk
      by (keep; [apply keeps_kick|apply keeps_parallel_irq]).
    apply sets_st_gets. intros s.
    destruct (config_hard_thresholds (s_jeita s)) eqn:Eh; cbn [negb when]; eexists;
      (split; [first [by apply sets_st_then | apply sets_st_keeps, keep_bind; [apply keep_ret|done]]|done]).
  - intros s s1 HS Hf. by rewrite (same_jeita _ _ HS), Hf.
Qed.

Lemma usbin_uv_st rt : sets_st (fun s => with_usb_present (rt =? 0) (s_st s)) (usbin_uv_handler rt).
Proof.
  intros s Hi Hl. unfold usbin_uv_handler, s_gets, bind, when, set_st, s_do, modify, ret.
  destruct (usb_present (s_st s)) eqn:Eu, (rt =? 0) eqn:Er; cbn; rewrite ?Eu;
    (eexists _, _; split; [reflexivity|]; split; [by constructor|]; split; [done|];
     split; [unfold table; cbn; by rewrite ?irq_off_app, ?Z.add_0_r|]; cbn;
     destruct s as [? ? ? ? [] ? ? ? ? ? ?]; cbn in *; by subst).
Qed.

Lemma empty_soc_st rt :
  sets_st (fun s => if empty_soc_disabled (s_fg s) then s_st s else with_empty_soc (negb (rt =? 0)) (s_st s))
    (empty_soc_handler rt).
Proof.
  apply sets_st_gets. intros s. destruct (empty_soc_disabled (s_fg s)); cbn [negb when].
  - exists s_st. split; [|done]. apply sets_st_keeps. keep.
  - exists (fun s => with_empty_soc (negb (rt =? 0)) (s_st s)). split; [|done].
    eapply (sets_st_bind _ s_st); [|intros _; apply sets_st_keeps, keep_ret|by intros ? ? _ ->].
    destruct (rt =? 0); apply sets_st_then; keep.
Qed.

(** What each of the handlers does to the flags. *)
Lemma handler_st reg j f rt : 
  smb_irq reg j = Some f ->
  sets_st (fun s => st_after (hard_of s) (off_of s) reg j rt (s_st s)) (f rt).
Proof.
  assert (sets_st s_st (ret 0 : prog sworld Z)) as Hret0 by apply sets_st_keeps, keep_ret.
  assert (read_write_lock ∈ irq_locks) as Hrw by (unfold irq_locks; set_solver).
  unfold smb_irq, st_after, hard_of, off_of.
  repeat match goal with |- (if ?x =? ?y then _ else _) = _ -> _ => destruct (x =? y) eqn:?; bool_cases; subst; cbn -[irq_locks] end;
    try done; do 4 (try (destruct j as [|j]; try done)); intros [= <-]; try exact Hret0.
  - exact (soft_handler_st rt (with_soft_cold_rt_stat rt) with_batt_cool batt_cool _).
  - exact (soft_handler_st rt (with_soft_hot_rt_stat rt) with_batt_warm batt_warm _).
  - apply sets_st_then. keep. apply keeps_parallel_irq.
  - apply sets_st_then. keep. apply keeps_parallel_irq.
  - rewrite negb_involutive. apply sets_st_then. keep.
  - rewrite negb_involutive. apply sets_st_then. keep.
  - apply sets_st_then. keep. apply keeps_parallel_irq.
  - apply sets_st_keeps. unfold aicl_done_handler. keep.
  - rewrite negb_involutive. apply usbin_uv_st.
  - apply sets_st_then. keep.
  - apply sets_st_keeps. unfold otg_fail_handler. keep. by apply keeps_otg_disable.
  - apply sets_st_keeps. unfold otg_oc_handler. keep. by apply keeps_otg_disable.
  - apply sets_st_keeps. unfold min_soc_handler. keep.
  - apply empty_soc_st.
Qed.

(** ** The dispatcher *)

(** Whether an interrupt of a row is reported. *)
Definition seen (r : irq_row) (j : nat) : bool :=
  negb (irq_bits (row_val r) (latched_mask (row_reg r) j) j =? 0)
  || negb (Z.lxor (irq_bits (row_prev r) (status_mask (row_reg r) j) j)
                  (irq_bits (row_val r) (status_mask (row_reg r) j) j) =? 0).

Definition rt_stat_of (r : irq_row) (j : nat) : Z := irq_bits (row_val r) (status_mask (row_reg r) j) j.

(** The flags after the [j]th interrupt of a row. *)
Definition st_dispatch (hard off : bool) (r : irq_row) (j : nat) (f : flags) : flags :=
  if seen r j then st_after hard off (row_reg r) j (rt_stat_of r j) f else f.

Lemma st_after_none hard off reg j rt f : smb_irq reg j = None -> st_after hard off reg j rt f = f.
Proof.
  unfold smb_irq, st_after.
  repeat match goal with
    |- (if ?x =? ?y then _ else _) = _ -> _ => destruct (x =? y) eqn:?; bool_cases; subst; cbn end; try done;
    do 4 (try (destruct j as [|j]; try done)).
Qed.

Lemma fmap_alter_same {A B} (f : A -> B) (g : A -> A) i (l : list A) :
  (forall x, f (g x) = f x) -> f <$> alter g i l = f <$> l.
Proof. intros Hg. revert i. induction l as [|x l IH]; intros [|i]; cbn; f_equal; auto. Qed.

Lemma fmap_alter {A B} (f : A -> B) (g : A -> A) i (l : list A) x :
  l !! i = Some x -> f <$> alter g i l = <[i := f (g x)]> (f <$> l).
Proof. revert i. induction l as [|y l IH]; intros [|i] E; cbn in *; try done; [by injection E as ->|]. f_equal. by apply IH. Qed.

Lemma dispatch_run i j r s :
  idle irq_locks s -> level_ok s -> s_irqs s !! i = Some r ->
  exists n s', dispatch i j s = Ret n s' /\ same_setup s s' /\ level_ok s' /\ table s' = table s
    /\ s_st s' = st_dispatch (hard_of s) (off_of s) r j (s_st s).
Proof.
  intros Hi Hl Hr. unfold dispatch. rewrite bind_unfold. unfold s_gets. rewrite Hr.
  fold (seen r j) (rt_stat_of r j). unfold st_dispatch.
  set (s1 := if seen r j then with_s_irqs (alter (count_irq j (negb (rt_stat_of r j =? 0))) i (s_irqs s)) s else s).
  assert (when (seen r j) (set_row i (count_irq j (negb (rt_stat_of r j =? 0)))) s = Ret tt s1) as E1
    by (subst s1; by destruct (seen r j)).
  assert (same_setup s s1) as HS1.
  { subst s1. destruct (seen r j); [|done]. constructor; try done. by apply fmap_alter_same. }
  assert (table s1 = table s) as Ht1 by (subst s1; destruct (seen r j); [|done]; unfold table; cbn;
      by rewrite fmap_alter_same).
  assert (s_st s1 = s_st s /\ level_ok s1) as [Hs1 Hl1] by (subst s1; by destruct (seen r j)).
  rewrite (bind_Ret _ _ _ _ _ E1).
  destruct (smb_irq (row_reg r) j) as [f|] eqn:Ef; [|].
  - destruct (seen r j) eqn:Es; [|by exists 0, s1].
    destruct (handler_st _ _ _ (rt_stat_of r j) Ef s1 (idle_setup _ _ _ HS1 Hi) Hl1) as (a & s2 & E2 & HS2 & Hl2 & Ht2 & Hf2).
    exists 1, s2. rewrite (bind_Ret _ _ _ _ _ E2). split; [done|]. split; [by etransitivity|]. split; [done|].
    split; [congruence|].
    rewrite Hf2. unfold hard_of, off_of. by rewrite (same_jeita _ _ HS1), (same_fg _ _ HS1), Hs1.
  - exists 0, s1. split; [done|]. split; [done|]. split; [done|]. split; [done|].
    rewrite st_after_none by done. by destruct (seen r j).
Qed.

(** The flags after the four interrupts of a row. *)
Definition st_row (hard off : bool) (r : irq_row) (f : flags) : flags :=
  st_dispatch hard off r 3 (st_dispatch hard off r 2 (st_dispatch hard off r 1 (st_dispatch hard off r 0 f))).

Lemma st_dispatch_core hard off r r' j f : row_core r = row_core r' -> st_dispatch hard off r j f = st_dispatch hard off r' j f.
Proof. destruct r, r'. unfold row_core. cbn. by intros [= -> -> ->]. Qed.

Lemma table_core s s' : table s' = table s -> row_core <$> s_irqs s' = row_core <$> s_irqs s.
Proof. unfold table. intros Ht. by injection Ht. Qed.

Lemma table_pm s s' : table s' = table s -> s_pm s' = s_pm s.
Proof. unfold table. intros Ht. by injection Ht. Qed.
Lemma table_off s s' : table s' = table s -> irq_off (s_trace s') = irq_off (s_trace s).
Proof. unfold table. intros Ht. by injection Ht. Qed.

(** A row keeps its core through a dispatch. *)
Lemma table_row s s' i r : table s' = table s -> s_irqs s !! i = Some r -> exists r', s_irqs s' !! i = Some r' /\ row_core r' = row_core r.
Proof.
  unfold table. intros Ht Hr. injection Ht as _ Ht _.
  assert ((row_core <$> s_irqs s') !! i = Some (row_core r)) as E by (rewrite Ht, list_lookup_fmap, Hr; done).
  rewrite list_lookup_fmap in E. destruct (s_irqs s' !! i) as [r'|]; [|done]. exists r'. split; [done|].
  by apply (inj Some) in E.
Qed.

Lemma dispatch_next i j r s0 s :
  idle irq_locks s0 -> same_setup s0 s -> level_ok s -> table s = table s0 -> s_irqs s0 !! i = Some r ->
  exists n s', dispatch i j s = Ret n s' /\ same_setup s0 s' /\ level_ok s' /\ table s' = table s0
    /\ s_st s' = st_dispatch (hard_of s0) (off_of s0) r j (s_st s).
Proof.
  intros Hi HS Hl Ht Hr. destruct (table_row _ _ _ _ Ht Hr) as (r' & Hr' & Hc).
  destruct (dispatch_run i j r' s (idle_setup _ _ _ HS Hi) Hl Hr') as (n & s' & E & HS' & Hl' & Ht' & Hf).
  exists n, s'. split; [done|]. split; [by etransitivity|]. split; [done|]. split; [congruence|].
  rewrite Hf, (st_dispatch_core _ _ _ _ _ _ Hc). unfold hard_of, off_of. by rewrite (same_jeita _ _ HS), (same_fg _ _ HS).
Qed.

(** One status register: nothing when the read fails, otherwise the value
    becomes the remembered one and the flags follow. *)
Lemma stat_row_run i r s :
  idle irq_locks s -> level_ok s -> s_irqs s !! i = Some r ->
  exists n s', stat_row i s = Ret n s' /\ same_setup s s' /\ level_ok s' /\ s_pm s' = s_pm s
    /\ irq_off (s_trace s') = irq_off (s_trace s)
    /\ ((table s' = table s /\ s_st s' = s_st s)
        \/ exists v, row_core <$> s_irqs s' = <[i := (row_reg r, v, v)]> (row_core <$> s_irqs s)
             /\ s_st s' = st_row (hard_of s) (off_of s) (with_row_val v r) (s_st s)).
Proof.
  intros Hi Hl Hr. unfold stat_row. rewrite bind_unfold. unfold s_gets. rewrite Hr.
  assert (idle [read_write_lock] s) as Hrw by (eapply idle_sub; [done|unfold irq_locks; set_solver]).
  assert (exists rc v es, smb1360_read (row_reg r) (row_val r) s = Ret (rc, v) (more es s)
    /\ (rc < 0 -> v = row_val r) /\ Forall plain es) as (rc & v & es & E & Hv & Hp).
  { rewrite read_run by done. destruct (negb _); [exists 0, 0, []; by rewrite more_nil|].
    cbv zeta. destruct (_ <? 0) eqn:En; eexists _, _, _; (split; [reflexivity|]; split; [done|by repeat constructor]). }
  rewrite (bind_Ret _ _ _ _ _ E). cbn [fst snd].
  set (s1 := with_s_irqs (alter (with_row_val v) i (s_irqs s)) (more es s)).
  rewrite (bind_Ret _ _ _ tt s1) by done.
  assert (same_setup s s1) as HS1 by (constructor; try done; by apply fmap_alter_same).
  assert (s_irqs s1 !! i = Some (with_row_val v r)) as Hr1 by (cbn; by rewrite list_lookup_alter_eq, Hr).
  assert (row_core <$> s_irqs s1 = <[i := (row_reg r, v, row_prev r)]> (row_core <$> s_irqs s)) as Hc1
    by (cbn; by rewrite (fmap_alter _ _ _ _ _ Hr)).
  destruct (rc <? 0) eqn:En; bool_cases.
  - exists 0, s1. split; [done|]. split; [done|]. split; [done|]. split; [done|]. split; [by apply irq_off_more|].
    left. split; [|done]. unfold table. rewrite (irq_off_more es s Hp : irq_off (s_trace s1) = _), Hc1, Hv by done.
    rewrite list_insert_id; [done|]. by rewrite list_lookup_fmap, Hr.
  - pose proof (idle_setup _ _ _ HS1 Hi) as Hi1.
    destruct (dispatch_next i 0 _ s1 s1 Hi1 ltac:(done) Hl ltac:(done) Hr1) as (n0 & t0 & E0 & S0 & L0 & T0 & F0).
    destruct (dispatch_next i 1 _ s1 t0 Hi1 S0 L0 T0 Hr1) as (n1 & t1 & E1 & S1 & L1 & T1 & F1).
    destruct (dispatch_next i 2 _ s1 t1 Hi1 S1 L1 T1 Hr1) as (n2 & t2 & E2 & S2 & L2 & T2 & F2).
    destruct (dispatch_next i 3 _ s1 t2 Hi1 S2 L2 T2 Hr1) as (n3 & t3 & E3 & S3 & L3 & T3 & F3).
    rewrite (bind_Ret _ _ _ _ _ E0), (bind_Ret _ _ _ _ _ E1), (bind_Ret _ _ _ _ _ E2), (bind_Ret _ _ _ _ _ E3).
    set (s2 := with_s_irqs (alter (fun r => with_row_prev (row_val r) r) i (s_irqs t3)) t3).
    rewrite (bind_Ret _ _ _ tt s2) by done.
    exists (n0 + n1 + n2 + n3), s2. split; [done|].
    split; [transitivity t3; [by etransitivity|]; constructor; try done; by apply fmap_alter_same|].
    split; [done|]. split; [exact (table_pm _ _ T3)|]. split; [cbn; rewrite (table_off _ _ T3); by apply irq_off_more|].
    right. exists v.
    destruct (table_row _ _ _ _ T3 Hr1) as (r' & Hr' & Hc').
    split.
    + unfold s2. cbn [with_s_irqs s_irqs]. rewrite (fmap_alter _ _ _ _ _ Hr'). rewrite (table_core _ _ T3), Hc1, list_insert_insert_eq.
      destruct r'. unfold row_core in Hc'. cbn in *. by injection Hc' as -> -> ->.
    + cbn. rewrite F3, F2, F1, F0. done.
Qed.

(** ** The flags mirror the chip's status bits *)

(** What a status register with value [v] says of the flags. *)
Definition mirror_row (hard off : bool) (reg v : Z) (f : flags) : Prop :=
  (reg = IRQ_A_REG ->
     batt_hot f = Z.testbit v 6 /\ batt_cold f = Z.testbit v 4
     /\ (hard = false -> batt_warm f = Z.testbit v 2 /\ batt_cool f = Z.testbit v 0))
  /\ (reg = IRQ_E_REG -> usb_present f = negb (Z.testbit v 0))
  /\ (reg = IRQ_H_REG -> off = false -> empty_soc f = Z.testbit v 4).

(** The flags are those of the values the table remembers. *)
Definition mirrors (s : sworld) : Prop :=
  Forall (fun c => mirror_row (hard_of s) (off_of s) c.1.1 c.2 (s_st s)) (row_core <$> s_irqs s).

Definition irq_regs : list Z :=
  [IRQ_A_REG; IRQ_B_REG; IRQ_C_REG; IRQ_D_REG; IRQ_E_REG; IRQ_F_REG; IRQ_G_REG; IRQ_H_REG; IRQ_I_REG].

Lemma pow_bit v n : 0 <= n < 8 -> (u8 (Z.land v (Z.shiftl 1 n)) =? 0) = negb (Z.testbit v n).
Proof.
  intros Hn. unfold u8. rewrite <- Z.land_ones by lia. rewrite Z.shiftl_1_l.
  destruct (Z.testbit v n) eqn:E; cbn [negb].
  - apply Z.eqb_neq. intros E0. assert (Z.testbit (Z.land (Z.land v (2 ^ n)) (Z.ones 8)) n = true) as E1.
    { rewrite !Z.land_spec, E, Z.pow2_bits_true, Z.ones_spec_low by lia. done. }
    by rewrite E0, Z.bits_0 in E1.
  - apply Z.eqb_eq, Z.bits_inj'. intros k Hk. rewrite !Z.land_spec, Z.bits_0.
    destruct (Z.eq_dec k n) as [->|]; [by rewrite E|]. by rewrite (Z.pow2_bits_false n k), andb_false_r.
Qed.

Lemma irq_bit v j : (j < 4)%nat -> (irq_bits v IRQ_STATUS_MASK j =? 0) = negb (Z.testbit v (Z.of_nat j * 2)).
Proof. intros. apply pow_bit. lia. Qed.

Lemma status_mask_plain reg j : reg <> IRQ_I_REG -> status_mask reg j = IRQ_STATUS_MASK.
Proof. intros Hr. unfold status_mask. apply Z.eqb_neq in Hr. by rewrite Hr. Qed.

Lemma rt_bit r j :
  (j < 4)%nat -> row_reg r <> IRQ_I_REG -> (rt_stat_of r j =? 0) = negb (Z.testbit (row_val r) (Z.of_nat j * 2)).
Proof. intros Hj Hr. unfold rt_stat_of. rewrite status_mask_plain by done. by apply irq_bit. Qed.

(** An interrupt that is not reported has kept its status. *)
Lemma unseen_bit r j :
  (j < 4)%nat -> row_reg r <> IRQ_I_REG -> seen r j = false ->
  Z.testbit (row_val r) (Z.of_nat j * 2) = Z.testbit (row_prev r) (Z.of_nat j * 2).
Proof.
  intros Hj Hr Hs. unfold seen in Hs. apply orb_false_iff in Hs as [_ Hs].
  rewrite status_mask_plain in Hs by done. apply negb_false_iff, Z.eqb_eq, Z.lxor_eq in Hs.
  pose proof (irq_bit (row_val r) j Hj) as E1. pose proof (irq_bit (row_prev r) j Hj) as E2.
  rewrite Hs, E1 in E2. by destruct (Z.testbit (row_val r) _), (Z.testbit (row_prev r) _).
Qed.

Lemma st_row_own hard off r f :
  mirror_row hard off (row_reg r) (row_prev r) f -> mirror_row hard off (row_reg r) (row_val r) (st_row hard off r f).
Proof.
  intros (HA & HE & HH). unfold st_row, st_dispatch, st_after. split; [|split]; intros Hr; rewrite !Hr in *; cbn -[seen rt_stat_of Z.testbit].
  - destruct (HA eq_refl) as (Hh & Hc & Hw). clear HA HE HH.
    pose proof (fun j Hj => rt_bit r j Hj ltac:(rewrite Hr; done)) as Hb.
    pose proof (fun j Hj => unseen_bit r j Hj ltac:(rewrite Hr; done)) as Hu.
    rewrite !Hb, !negb_involutive by lia.
    destruct hard; [|destruct (Hw eq_refl) as [Hw1 Hw0]];
      destruct (seen r 3) eqn:E3, (seen r 2) eqn:E2, (seen r 1) eqn:E1, (seen r 0) eqn:E0;
      cbn -[Z.testbit]; change (Z.of_nat 3 * 2) with 6; change (Z.of_nat 2 * 2) with 4;
      change (Z.of_nat 1 * 2) with 2; change (Z.of_nat 0 * 2) with 0;
      repeat match goal with E : seen r ?j = false |- _ => apply (Hu j ltac:(lia)) in E; vm_compute (Z.of_nat j * 2) in E end;
      (split; [congruence|split; [congruence|intros; try done; split; congruence]]).
  - specialize (HE eq_refl).
    pose proof (rt_bit r 0 ltac:(lia) ltac:(rewrite Hr; done)) as Hb. rewrite Hb, negb_involutive.
    destruct (seen r 3), (seen r 2), (seen r 1), (seen r 0) eqn:E0; cbn; try done;
      rewrite HE; f_equal; symmetry; exact (unseen_bit r 0 ltac:(lia) ltac:(rewrite Hr; done) E0).
  - intros ->. specialize (HH eq_refl eq_refl).
    pose proof (rt_bit r 2 ltac:(lia) ltac:(rewrite Hr; done)) as Hb. rewrite Hb, negb_involutive.
    destruct (seen r 3), (seen r 2) eqn:E2, (seen r 1), (seen r 0); cbn; try done;
      rewrite HH; symmetry; exact (unseen_bit r 2 ltac:(lia) ltac:(rewrite Hr; done) E2).
Qed.

Lemma st_after_other hard off reg j rt reg' v f :
  reg' <> reg -> mirror_row hard off reg' v f -> mirror_row hard off reg' v (st_after hard off reg j rt f).
Proof.
  intros Hr (HA & HE & HH). unfold st_after.
  repeat match goal with |- context [if ?x =? ?y then _ else _] => destruct (x =? y) eqn:?; bool_cases; subst end;
    do 4 (try destruct j as [|j]); destruct hard, off;
    (split; [|split]; intros E; subst; first [exact (HA eq_refl) | exact (HE eq_refl) | exact (HH eq_refl) | done]).
Qed.

Lemma st_row_other hard off r reg v f :
  reg <> row_reg r -> mirror_row hard off reg v f -> mirror_row hard off reg v (st_row hard off r f).
Proof.
  intros Hr Hm. unfold st_row, st_dispatch.
  destruct (seen r 0), (seen r 1), (seen r 2), (seen r 3); repeat (apply st_after_other; [done|]); done.
Qed.

(** What a scan of status registers gives: it keeps the set-up and the state of
    suspend, leaves the interrupt alone, and flags that mirror the table do so
    afterwards. *)
Definition scanned (s s' : sworld) : Prop :=
  same_setup s s' /\ level_ok s' /\ s_pm s' = s_pm s /\ irq_off (s_trace s') = irq_off (s_trace s)
  /\ (mirrors s -> mirrors s').

Lemma stat_row_mirrors i s :
  idle irq_locks s -> level_ok s -> row_reg <$> s_irqs s = irq_regs -> (i < 9)%nat ->
  exists n s', stat_row i s = Ret n s' /\ scanned s s'.
Proof.
  intros Hi Hl Hregs Hlt.
  assert (length (s_irqs s) = 9%nat) as Hlen by (rewrite <- (length_fmap row_reg), Hregs; done).
  destruct (lookup_lt_is_Some_2 (s_irqs s) i ltac:(lia)) as [r Hr].
  destruct (stat_row_run i r s Hi Hl Hr) as (n & s' & E & HS & Hl' & Hpm & Hoff & Hcase).
  exists n, s'. split; [done|]. split; [done|]. split; [done|]. split; [done|]. split; [done|]. intros Hm.
  unfold mirrors, hard_of, off_of in *. rewrite (same_jeita _ _ HS), (same_fg _ _ HS).
  destruct Hcase as [[Ht Hst]|(v & Hc & Hst)]; [by rewrite Hst, (table_core _ _ Ht)|].
  rewrite Hst, Hc. apply Forall_lookup. intros k c Hk.
  destruct (decide (k = i)) as [->|Hne].
  - rewrite list_lookup_insert_eq in Hk by (rewrite length_fmap; lia). injection Hk as <-. cbn.
    apply (st_row_own _ _ (with_row_val v r)). cbn.
    exact (Forall_lookup_1 _ _ i (row_core r) Hm ltac:(by rewrite list_lookup_fmap, Hr)).
  - rewrite list_lookup_insert_ne in Hk by done. pose proof Hk as Hk0. apply (Forall_lookup_1 _ _ _ _ Hm) in Hk.
    apply st_row_other; [|done]. cbn. intros Heq. apply Hne.
    assert ((row_reg <$> s_irqs s) !! k = Some c.1.1) as Hk1.
    { rewrite list_lookup_fmap in Hk0. rewrite list_lookup_fmap. destruct (s_irqs s !! k); [|done]. apply (inj Some) in Hk0. by subst c. }
    assert ((row_reg <$> s_irqs s) !! i = Some c.1.1) as Hi1 by (rewrite list_lookup_fmap, Hr, Heq; done).
    eapply (NoDup_lookup (row_reg <$> s_irqs s)); [|done|done]. rewrite Hregs. by apply (bool_decide_unpack _).
Qed.

Lemma stat_rows_mirrors l s :
  idle irq_locks s -> level_ok s -> row_reg <$> s_irqs s = irq_regs -> Forall (fun i => (i < 9)%nat) l ->
  exists n s', stat_rows l s = Ret n s' /\ scanned s s'.
Proof.
  intros Hi Hl Hregs Hlt. revert s Hi Hl Hregs.
  induction Hlt as [|i l Hx _ IH]; intros s Hi Hl Hregs; [by exists 0, s|].
  destruct (stat_row_mirrors i s Hi Hl Hregs Hx) as (n & s1 & E1 & S1 & L1 & P1 & O1 & M1).
  destruct (IH s1) as (m & s2 & E2 & S2 & L2 & P2 & O2 & M2);
    [by eapply idle_setup|done|by rewrite (same_rows _ _ S1)|].
  exists (n + m), s2. cbn [stat_rows]. rewrite (bind_Ret _ _ _ _ _ E1), (bind_Ret _ _ _ _ _ E2).
  split; [done|]. split; [by etransitivity|]. split; [done|]. split; [congruence|]. split; [congruence|auto].
Qed.

Lemma stat_scan_run s :
  idle irq_locks s -> level_ok s -> row_reg <$> s_irqs s = irq_regs -> exists s', stat_scan s = Ret tt s' /\ scanned s s'.
Proof.
  intros Hi Hl Hregs.
  destruct (stat_rows_mirrors (seq 0 9) s Hi Hl Hregs) as (n & s1 & E & HS & Hl1 & Hp & Ho & Hm);
    [by apply (bool_decide_unpack _)|].
  unfold stat_scan. rewrite (bind_Ret _ _ _ _ _ E). destruct (negb (n =? 0)); [|by exists s1].
  exists (more [BattChanged] s1). split; [done|]. split; [by transitivity s1; [|constructor]|].
  split; [done|]. split; [done|]. split; [|done]. rewrite irq_off_more; [done|by repeat constructor].
Qed.

(** ** Every entry point returns *)

Definition all_locks : list mutex :=
  [irq_complete; charging_disable_lock; current_change_lock; read_write_lock; parallel_chg_lock].

(** A bound driver between two calls: no mutex is held, the client has the
    charger's address, the thermal level and the interrupt table are in order. *)
Definition ready (s : sworld) : Prop :=
  s_locks s = [] /\ client_addr (s_i2c s) = default_i2c_addr (s_i2c s) /\ level_ok s /\ row_reg <$> s_irqs s = irq_regs.

Lemma ready_idle L s : ready s -> idle L s.
Proof. intros (Hl & Ha & _). split; [|done]. rewrite Hl. apply Forall_forall. set_solver. Qed.

Lemma ready_setup s s' : ready s -> same_setup s s' -> level_ok s' -> ready s'.
Proof.
  intros (Hl & Ha & _ & Hr) HS Hl'.
  split; [by rewrite (same_locks _ _ HS)|]. split; [by rewrite (same_client _ _ HS), (same_default _ _ HS)|].
  split; [done|]. by rewrite (same_rows _ _ HS).
Qed.

(** What the driver is called for. *)
Inductive smb_op :=
  | OpIrq | OpSuspend | OpSuspendNoirq | OpResume | OpShutdown
  | OpJeitaWork | OpParallelWork
  | OpSet (p : psy_prop) (v : Z) | OpGet (p : psy_prop) | OpPowerChanged
  | OpOtgEnable | OpOtgDisable | OpOtgIsEnabled.

Definition run_op (op : smb_op) : prog sworld unit :=
  match op with
  | OpIrq => smb1360_stat_handler
  | OpSuspend => do* smb1360_suspend; ret tt
  | OpSuspendNoirq => do* smb1360_suspend_noirq; ret tt
  | OpResume => do* smb1360_resume; ret tt
  | OpShutdown => smb1360_shutdown
  | OpJeitaWork => smb1360_jeita_work_fn
  | OpParallelWork => smb1360_parallel_work
  | OpSet p v => do* smb1360_battery_set_property p v; ret tt
  | OpGet p => do* smb1360_battery_get_property p; ret tt
  | OpPowerChanged => smb1360_external_power_changed
  | OpOtgEnable => do* smb1360_otg_regulator_enable; ret tt
  | OpOtgDisable => do* smb1360_otg_regulator_disable; ret tt
  | OpOtgIsEnabled => do* smb1360_otg_regulator_is_enable; ret tt
  end.

(** Suspend, resume and the interrupt: switched off exactly while an interrupt
    waits for the resume. *)
Definition protocol (s : sworld) : Prop :=
  irq_off (s_trace s) = (if irq_waiting (s_pm s) then 1 else 0)
  /\ (irq_waiting (s_pm s) = true -> resume_completed (s_pm s) = false).

(** Whether an interrupt waits, whether the driver is resumed, and how often
    the interrupt is off; and what an operation does to them. *)
Definition pm3 (s : sworld) : bool * bool * Z := (irq_waiting (s_pm s), resume_completed (s_pm s), irq_off (s_trace s)).

Definition pm_next (op : smb_op) (p : bool * bool * Z) : bool * bool * Z :=
  let '(w, r, o) := p in
  match op with
  | OpIrq => if r then (false, true, o) else (true, false, o + 1)
  | OpSuspend => (w, false, o)
  | OpResume => if w then (false, true, o - 1) else (false, true, o)
  | _ => p
  end.

(** What the mirrored flags and the protocol depend on. *)
Definition mirrored (s : sworld) : list irq_row * (bool * bool * Z) * (bool * bool * bool * bool) :=
  (s_irqs s, pm3 s, (batt_hot (s_st s), batt_cold (s_st s), usb_present (s_st s), empty_soc (s_st s))).
Definition mirrored_soft (s : sworld) := (mirrored s, (batt_warm (s_st s), batt_cool (s_st s))).
#[local] Instance mirrored_frame : Frame mirrored.
Proof. split; [|done]. intros es s He. unfold mirrored, pm3. by rewrite irq_off_more. Qed.
#[local] Instance mirrored_soft_frame : Frame mirrored_soft.
Proof. split; [|done]. intros es s He. unfold mirrored_soft. by rewrite frame_more. Qed.

Lemma keeps_mirrored L {A} (c : prog sworld A) : keeps L watch c -> keeps L mirrored_soft c.
Proof.
  exact (keeps_part L watch (fun w => let '(f, p, l, o) := w in
    (l, (irq_waiting p, resume_completed p, o), (batt_hot f, batt_cold f, usb_present f, empty_soc f),
     (batt_warm f, batt_cool f))) c).
Qed.

Lemma keeps_soft L {A} (c : prog sworld A) : keeps L watch c -> keeps L mirrored c.
Proof. intros Hc. exact (keeps_part L mirrored_soft fst c (keeps_mirrored L c Hc)). Qed.

Lemma mirrors_kept s s' :
  same_setup s s' -> (hard_of s = false -> mirrored_soft s' = mirrored_soft s) -> mirrored s' = mirrored s ->
  mirrors s -> mirrors s'.
Proof.
  intros HS Hs Hm. unfold mirrors, hard_of, off_of in *. rewrite (same_jeita _ _ HS), (same_fg _ _ HS).
  unfold mirrored_soft, mirrored in *. injection Hm as Hrows _ _ _ Hh Hc Hu He. rewrite Hrows.
  intros HF. eapply Forall_impl; [exact HF|]. intros c (HA & HE & HH). unfold mirror_row. rewrite Hh, Hc, Hu, He.
  split; [|done]. intros E. destruct (HA E) as (? & ? & Hw). split; [done|]. split; [done|]. intros Eh.
  specialize (Hs Eh). specialize (Hw Eh). injection Hs as _ _ _ _ _ _ _ _ -> ->. done.
Qed.

Lemma keeps_jeita_step temp : keeps irq_locks mirrored (jeita_step temp).
Proof.
  assert (forall c h, keeps irq_locks mirrored (smb1360_set_soft_jeita_threshold c h)) as Ht
    by (intros; apply keeps_soft; eapply keeps_sub; [apply keeps_jeita_threshold|unfold irq_locks; set_solver]).
  assert (forall v, keeps irq_locks mirrored (smb1360_float_voltage_set v)) as Hv
    by (intros; apply keeps_reg_only; [exact _|unfold irq_locks; set_solver|apply reg_only_float_voltage_set]).
  assert (keeps irq_locks mirrored smb1360_set_appropriate_usb_current) as Hu by apply keeps_soft, keeps_usb_current.
  unfold jeita_step. keep; auto.
Qed.

Lemma keeps_jeita_work : keeps irq_locks mirrored smb1360_jeita_work_fn.
Proof.
  unfold smb1360_jeita_work_fn. keep. apply keeps_jeita_step.
Qed.

Lemma keeps_save_mask i : keeps [read_write_lock] mirrored_soft (save_mask i).
Proof. unfold save_mask. keep. Qed.

Lemma keeps_restore_mask i : keeps [read_write_lock] mirrored_soft (restore_mask i).
Proof. unfold restore_mask. keep. Qed.

(** A run of an operation from a ready state. *)
Definition op_done (op : smb_op) (s s' : sworld) : Prop :=
  same_setup s s' /\ level_ok s' /\ pm3 s' = pm_next op (pm3 s)
  /\ ((op = OpJeitaWork -> hard_of s = true) -> mirrors s -> mirrors s').

(** An operation that leaves flags, table and suspend alone. *)
Lemma op_watch op L {A} (c : prog sworld A) s :
  ready s -> keeps L watch c -> (forall p, pm_next op p = p) ->
  exists a s', c s = Ret a s' /\ op_done op s s'.
Proof.
  intros Hr Hc Hop. destruct (keeps_mirrored _ _ Hc s (ready_idle _ _ Hr)) as (a & s' & E & HS & Hl & Hf); [apply Hr|].
  assert (mirrored s' = mirrored s) as Hm by exact (f_equal fst Hf).
  exists a, s'. split; [done|]. split; [done|]. split; [done|].
  split; [rewrite Hop; exact (f_equal (fun m => m.1.2) Hm)|]. intros _. by apply mirrors_kept.
Qed.

Lemma op_watch_unit op L {A} (c : prog sworld A) s :
  ready s -> keeps L watch c -> (forall p, pm_next op p = p) ->
  exists s', (do* c; ret tt) s = Ret tt s' /\ op_done op s s'.
Proof.
  intros Hr Hc Hop. destruct (op_watch op L c s Hr Hc Hop) as (a & s' & E & Hd).
  exists s'. by rewrite (bind_Ret _ _ _ _ _ E).
Qed.

(** The dispatcher, with the lock it takes. *)
Lemma stat_handler_run s :
  ready s -> exists s', smb1360_stat_handler s = Ret tt s' /\ op_done OpIrq s s'.
Proof.
  intros Hr. pose proof Hr as (Hlk & Ha & Hl & Hregs).
  set (s0 := with_s_locks (irq_complete :: s_locks s) s).
  set (s1 := with_s_pm (with_irq_waiting true (s_pm s)) s0).
  assert (irq_complete ∉ s_locks s) as Hn by (rewrite Hlk; set_solver).
  destruct (resume_completed (s_pm s)) eqn:Er.
  - set (s2 := with_s_pm (with_irq_waiting false (s_pm s1)) s1).
    destruct (stat_scan_run s2) as (s3 & E & HS & Hl3 & Hp & Ho & Hm); [|done|done|].
    { split; [|done]. cbn. rewrite Hlk. repeat constructor; set_solver. }
    exists (with_s_locks (s_locks s) s3). split.
    { unfold smb1360_stat_handler. apply (locked_run _ _ _ tt s3 Hn); [|by rewrite (same_locks _ _ HS)].
      fold s0. unfold bind at 1, set_pm at 1, modify. fold s1. unfold bind, s_gets. cbn [s_pm s1 with_s_pm].
      cbn. rewrite Er. cbn. exact E. }
    split; [destruct HS; by constructor|]. split; [done|]. split.
    { unfold pm3. cbn. rewrite Hp, Ho. cbn. by rewrite Er. }
    intros _ Hmir. apply Hm. exact Hmir.
  - exists (s_emit IrqDisable (with_s_locks (s_locks s) s1)). split.
    { unfold smb1360_stat_handler. rewrite (locked_run _ _ s tt (s_emit IrqDisable s1) Hn); [done| |done].
      fold s0. unfold bind at 1, set_pm at 1, modify. fold s1. unfold bind, s_gets. cbn. by rewrite Er. }
    split; [by constructor|]. split; [done|]. split; [|done].
    unfold pm3. cbn. rewrite irq_off_app, Er. done.
Qed.

Lemma keeps_suspend_irqs : keeps [read_write_lock] mirrored_soft suspend_irqs.
Proof. unfold suspend_irqs. keep; apply keeps_save_mask. Qed.

Lemma keeps_resume_irqs : keeps [read_write_lock] mirrored_soft resume_irqs.
Proof. unfold resume_irqs. keep; apply keeps_restore_mask. Qed.

(** A section under [irq_complete] that only changes the state of suspend. *)
Lemma locked_pm {A} (g : pmst -> pmst) (h : sworld -> A) s :
  ready s ->
  locked irq_complete (do* set_pm g; s_gets h) s =
    Ret (h (with_s_pm (g (s_pm s)) (with_s_locks [irq_complete] s))) (with_s_pm (g (s_pm s)) s).
Proof.
  intros (Hlk & _).
  rewrite (locked_run irq_complete _ s (h (with_s_pm (g (s_pm s)) (with_s_locks [irq_complete] s)))
    (with_s_pm (g (s_pm s)) (with_s_locks [irq_complete] s))); [by destruct s; cbn in *; subst|rewrite Hlk; set_solver| |].
  - rewrite Hlk. done.
  - by rewrite Hlk.
Qed.

Lemma suspend_run s : ready s -> exists s', (do* smb1360_suspend; ret tt) s = Ret tt s' /\ op_done OpSuspend s s'.
Proof.
  intros Hr. destruct (keeps_suspend_irqs s (ready_idle _ _ Hr)) as ([] & s1 & E & HS & Hl & Hf); [apply Hr|].
  pose proof (ready_setup _ _ Hr HS Hl) as Hr1.
  exists (with_s_pm (with_resume_completed false (s_pm s1)) s1). split.
  { unfold smb1360_suspend. rewrite bind_bind, (bind_Ret _ _ _ _ _ E), bind_bind.
    assert (locked irq_complete (set_pm (with_resume_completed false)) s1 =
      Ret tt (with_s_pm (with_resume_completed false (s_pm s1)) s1)) as EL
      by exact (locked_pm (with_resume_completed false) (fun _ => tt) s1 Hr1).
    by rewrite (bind_Ret _ _ _ _ _ EL). }
  assert (mirrored s1 = mirrored s) as Hm by exact (f_equal fst Hf).
  split; [transitivity s1; [done|by constructor]|]. split; [done|]. split.
  { pose proof (f_equal (fun m => m.1.2) Hm) as Hp. unfold pm3, pm_next in *. cbn in *. by injection Hp as -> _ ->. }
  intros _ Hmir. assert (mirrors s1) as H1 by (by eapply mirrors_kept). exact H1.
Qed.

Lemma resume_run s : ready s -> exists s', (do* smb1360_resume; ret tt) s = Ret tt s' /\ op_done OpResume s s'.
Proof.
  intros Hr. destruct (keeps_resume_irqs s (ready_idle _ _ Hr)) as ([] & s1 & E & HS & Hl & Hf); [apply Hr|].
  pose proof (ready_setup _ _ Hr HS Hl) as Hr1.
  assert (mirrored s1 = mirrored s) as Hm by exact (f_equal fst Hf).
  pose proof (f_equal (fun m => m.1.2) Hm) as Hp. cbn in Hp.
  assert (mirrors s -> mirrors s1) as Hmir by (by eapply mirrors_kept).
  set (s2 := with_s_pm (with_resume_completed true (s_pm s1)) s1).
  assert (ready s2) as Hr2 by exact Hr1.
  unfold smb1360_resume. rewrite bind_bind, (bind_Ret _ _ _ _ _ E), bind_bind.
  rewrite (bind_Ret _ _ _ _ _ (locked_pm (with_resume_completed true) (fun s => irq_waiting (s_pm s)) s1 Hr1)).
  fold s2. cbn [s_pm with_s_pm].
  change (irq_waiting (with_resume_completed true (s_pm s1))) with (irq_waiting (s_pm s1)).
  unfold pm3 in Hp. injection Hp as Hw Hrc Ho. rewrite Hw.
  destruct (irq_waiting (s_pm s)) eqn:Ew.
  - destruct (stat_handler_run s2 Hr2) as (s3 & E3 & HS3 & Hl3 & Hp3 & Hm3).
    exists (s_emit IrqEnable s3). split; [cbn [when]; rewrite !bind_unfold, E3; done|].
    split; [transitivity s2; [transitivity s1; [done|by constructor]|]; transitivity s3; [done|by constructor]|].
    split; [done|]. split; [|intros _ HM; by apply Hm3, Hmir].
    unfold pm3 in *. cbn in Hp3 |- *. injection Hp3 as -> -> Ho3. rewrite irq_off_app, Ho3, Ho, Ew. done.
  - exists s2. split; [done|]. split; [transitivity s1; [done|by constructor]|]. split; [done|].
    split; [|intros _ HM; by apply Hmir]. unfold pm3. cbn. by rewrite Hw, Ho, Ew.
Qed.

Lemma jeita_run s : ready s -> exists s', smb1360_jeita_work_fn s = Ret tt s' /\ op_done OpJeitaWork s s'.
Proof.
  intros Hr. destruct (keeps_jeita_work s (ready_idle _ _ Hr)) as ([] & s' & E & HS & Hl & Hf); [apply Hr|].
  exists s'. split; [done|]. split; [done|]. split; [done|]. split; [exact (f_equal (fun m => m.1.2) Hf)|].
  intros Hh. apply mirrors_kept; [done| |done]. intros E0. by rewrite Hh in E0.
Qed.

Lemma op_run op s : ready s -> exists s', run_op op s = Ret tt s' /\ op_done op s s'.
Proof.
  intros Hr. assert (forall (c : prog sworld unit) L, keeps L watch c -> (forall p, pm_next op p = p) ->
    exists s', c s = Ret tt s' /\ op_done op s s') as Hu
    by (intros c L Hc Hp; destruct (op_watch op L c s Hr Hc Hp) as ([] & s' & E & Hd); by exists s').
  assert (read_write_lock ∈ [read_write_lock]) as Hrw by set_solver.
  destruct op; cbn [run_op].
  - by apply stat_handler_run.
  - by apply suspend_run.
  - eapply op_watch_unit; [done|apply (keep_gets [])|by intros [[? ?] ?]].
  - by apply resume_run.
  - eapply (Hu _ [read_write_lock]); [|by intros [[? ?] ?]]. unfold smb1360_shutdown, smb1360_poweroff, smb1360_enable.
    keep. by apply keeps_otg_disable.
  - by apply jeita_run.
  - eapply Hu; [apply keeps_parallel_work|by intros [[? ?] ?]].
  - eapply op_watch_unit; [done|apply keeps_set_property|by intros [[? ?] ?]].
  - eapply (op_watch_unit _ [read_write_lock]); [done| |by intros [[? ?] ?]].
    apply keeps_reg_only; [exact _|done|apply reg_only_get_property].
  - eapply Hu; [apply keeps_power_changed|by intros [[? ?] ?]].
  - eapply op_watch_unit; [done|by apply (keeps_otg_enable [read_write_lock])|by intros [[? ?] ?]].
  - eapply op_watch_unit; [done|by apply (keeps_otg_disable [read_write_lock])|by intros [[? ?] ?]].
  - eapply (op_watch_unit _ [read_write_lock]); [done| |by intros [[? ?] ?]].
    unfold smb1360_otg_regulator_is_enable. keep.
Qed.

(** A run: one operation after another, an interrupt only while its line is on. *)
Inductive runs_from : sworld -> list smb_op -> sworld -> Prop :=
  | runs_nil s : runs_from s [] s
  | runs_cons s op s1 ops s2 :
      (op = OpIrq -> irq_off (s_trace s) = 0) -> run_op op s = Ret tt s1 -> runs_from s1 ops s2 ->
      runs_from s (op :: ops) s2.

Lemma protocol_next op s s' :
  protocol s -> (op = OpIrq -> irq_off (s_trace s) = 0) -> pm3 s' = pm_next op (pm3 s) -> protocol s'.
Proof.
  unfold protocol, pm3. intros [Ho Hw] Hop Hp.
  destruct op; cbn in Hp; try (injection Hp as -> -> ->; done).
  - rewrite Hop in Hp by done. destruct (resume_completed (s_pm s)); injection Hp as -> -> ->; done.
  - destruct (irq_waiting (s_pm s)); injection Hp as -> -> ->; rewrite Ho; done.
Qed.

Lemma runs_ready s ops s' : ready s -> runs_from s ops s' -> ready s' /\ same_setup s s'.
Proof.
  intros Hr Hs. induction Hs as [s|s op s1 ops s2 _ E _ IH]; [done|].
  destruct (op_run op s Hr) as (s1' & E' & HS & Hl & _). rewrite E in E'. injection E' as <-.
  destruct (IH (ready_setup _ _ Hr HS Hl)) as [Hr2 HS2]. split; [done|by etransitivity].
Qed.

(** C15: from a bound driver, every entry point (the interrupt, suspend and
    resume, shutdown, both works, reading and writing every battery property
    with every value, a change of the USB supply, the on-the-go regulator)
    returns, whatever the chip, the bus and the other supplies answer: no mutex
    is taken twice, the index of the thermal table is in range, and no other
    undefined behaviour occurs.  Afterwards every mutex is free, the I2C client
    has the charger's address again, and the configuration is unchanged. *)
Theorem charger_safe op s : ready s -> exists s', run_op op s = Ret tt s' /\ ready s' /\ same_setup s s'.
Proof.
  intros Hr. destruct (op_run op s Hr) as (s' & E & HS & Hl & _). exists s'. eauto using ready_setup.
Qed.

(** C17: suspend, resume and the interrupt.  Along every run the interrupt line
    is switched off exactly while an interrupt waits for the resume, and never
    while the driver is resumed; an interrupt that came during suspend is
    handled by the resume, which calls the handler with the driver resumed and
    only then switches the line on again. *)
Theorem irq_protocol s ops s' :
  ready s -> protocol s -> runs_from s ops s' ->
  protocol s'
  /\ (irq_waiting (s_pm s') = true ->
      exists s1 s2, smb1360_stat_handler s1 = Ret tt s2 /\ resume_completed (s_pm s1) = true
        /\ smb1360_resume s' = Ret 0 (s_emit IrqEnable s2) /\ irq_off (s_trace (s_emit IrqEnable s2)) = 0).
Proof.
  intros Hr Hp Hs. destruct (runs_ready _ _ _ Hr Hs) as [Hr' _].
  assert (protocol s') as Hp'.
  { clear Hr'. induction Hs as [|s op s1 ops s2 Hop E _ IH]; [done|].
    destruct (op_run op s Hr) as (s1' & E' & HS & Hl & Hn & _). rewrite E in E'. injection E' as <-.
    apply IH; [by eapply ready_setup|by eapply protocol_next]. }
  split; [done|]. intros Hw.
  destruct (keeps_resume_irqs s' (ready_idle _ _ Hr')) as ([] & t & E & HS & Hl & Hf); [apply Hr'|].
  pose proof (ready_setup _ _ Hr' HS Hl) as Ht.
  set (s1 := with_s_pm (with_resume_completed true (s_pm t)) t).
  destruct (stat_handler_run s1 Ht) as (s2 & E2 & HS2 & Hl2 & Hp2 & _).
  assert (pm3 t = pm3 s') as Hpt by exact (f_equal (fun m => m.1.1.2) Hf).
  exists s1, s2. split; [done|]. split; [done|].
  assert (irq_waiting (s_pm t) = true) as Hwt by (unfold pm3 in Hpt; injection Hpt as -> _ _; done). split.
  - unfold smb1360_resume. rewrite (bind_Ret _ _ _ _ _ E).
    rewrite (bind_Ret _ _ _ _ _ (locked_pm (with_resume_completed true) (fun s => irq_waiting (s_pm s)) t Ht)).
    fold s1. cbn [s_pm with_s_pm]. change (irq_waiting (with_resume_completed true (s_pm t))) with (irq_waiting (s_pm t)).
    rewrite Hwt. cbn [when]. by rewrite !bind_unfold, E2.
  - cbn. rewrite irq_off_app. unfold pm3 in *. cbn in Hp2. injection Hp2 as _ _ ->. injection Hpt as _ _ ->.
    destruct Hp' as [-> _]. by rewrite Hw.
Qed.

(** C16: the flags mirror the chip.  If the flags "battery hot", "battery cold",
    "USB present", "empty" and (when the thresholds are not programmed) "warm"
    and "cool" are those of the status registers the dispatcher remembers, they
    are so after every run: bits that changed or latched are passed on, bits
    that did not are already right, and a register that could not be read
    changes neither.  The work of the temperature workaround, which sets "warm"
    and "cool" itself, takes part only when the thresholds are programmed, which
    is when the driver starts it. *)
Theorem status_mirrors s ops s' :
  ready s -> (OpJeitaWork ∈ ops -> hard_of s = true) -> mirrors s -> runs_from s ops s' -> mirrors s'.
Proof.
  intros Hr Hj Hm Hs. induction Hs as [|s op s1 ops s2 _ E _ IH]; [done|].
  destruct (op_run op s Hr) as (s1' & E' & HS & Hl & _ & Hk). rewrite E in E'. injection E' as <-.
  apply IH; [by eapply ready_setup| |].
  - intros Hin. unfold hard_of. rewrite (same_jeita _ _ HS). apply Hj. by right.
  - apply Hk; [|done]. intros ->. apply Hj. left.
Qed.

(** ** Suspend and resume restore the interrupt masks *)

Definition mask_at (s : sworld) (i : nat) : Z := nth i (irq_cfg_mask (s_pm s)) 0.

Lemma save_mask_run i s :
  idle [read_write_lock] s -> skip_reads (s_i2c s) = 0 ->
  let a := client_addr (s_i2c s) in
  let r := sk_read (s_trace s) a (IRQ_CFG_REG + Z.of_nat i) in
  let m := if r <? 0 then mask_at s i else u8 r in
  save_mask i s = Ret tt (with_s_pm (with_irq_cfg_mask (<[i := m]> (irq_cfg_mask (s_pm s))) (s_pm s))
    (more [I2cRead a (IRQ_CFG_REG + Z.of_nat i) r] s)).
Proof.
  intros Hi Hs a r m. unfold save_mask. rewrite bind_unfold. unfold s_gets at 1. rewrite bind_unfold, read_run by done.
  rewrite Hs. cbv zeta. fold a r. subst m. by destruct (r <? 0).
Qed.

Lemma write_off_run reg val s :
  idle [read_write_lock] s -> skip_writes (s_i2c s) = 0 ->
  exists rc w, smb1360_write reg val s = Ret rc (more [I2cWrite (client_addr (s_i2c s)) reg (u8 val) w] s).
Proof. intros Hi Hs. rewrite write_run by done. rewrite Hs. by eexists _, _. Qed.

(** The chip was only read since [s]. *)
Definition only_read (start : Z -> Z) (s t : sworld) : Prop :=
  idle [read_write_lock] t /\ s_i2c t = s_i2c s /\ (forall r, chip_reg start t r = chip_reg start s r).

Lemma save_mask_step start i s t :
  remembers start -> skip_reads (s_i2c s) = 0 -> only_read start s t ->
  is_byte (chip_reg start s (IRQ_CFG_REG + Z.of_nat i)) ->
  exists t', save_mask i t = Ret tt t' /\ only_read start s t'
    /\ irq_cfg_mask (s_pm t') = <[i := chip_reg start s (IRQ_CFG_REG + Z.of_nat i)]> (irq_cfg_mask (s_pm t)).
Proof.
  intros Hrem Hs (Hi & Hb & Hc) Hv. eexists. split; [apply save_mask_run; [done|by rewrite Hb]|].
  assert (sk_read (s_trace t) (client_addr (s_i2c t)) (IRQ_CFG_REG + Z.of_nat i) = chip_reg start s (IRQ_CFG_REG + Z.of_nat i))
    as Er by (rewrite <- Hc; apply Hrem). rewrite !Er. split.
  - split; [done|]. split; [done|]. intros r. transitivity (chip_reg start t r); [|apply Hc].
    unfold chip_reg. cbn -[last_write]. by rewrite last_write_app.
  - cbn -[chip_reg]. destruct (_ <? 0) eqn:E; bool_cases; [unfold is_byte in Hv; lia|]. by rewrite u8_id by exact Hv.
Qed.

Lemma suspend_irqs_run start s :
  remembers start -> idle [read_write_lock] s -> skipping s = false -> length (irq_cfg_mask (s_pm s)) = 3%nat ->
  (forall i, (i < 3)%nat -> is_byte (chip_reg start s (IRQ_CFG_REG + Z.of_nat i))) ->
  exists s', suspend_irqs s = Ret tt s' /\ s_i2c s' = s_i2c s
    /\ irq_cfg_mask (s_pm s') = [chip_reg start s 15; chip_reg start s 16; chip_reg start s 17].
Proof.
  intros Hrem Hi Hs Hlen Hb.
  apply orb_false_iff in Hs as [Hw%negb_false_iff%Z.eqb_eq Hrd%negb_false_iff%Z.eqb_eq].
  destruct (save_mask_step start 0 s s Hrem Hrd ltac:(done) (Hb 0%nat ltac:(lia))) as (t0 & E0 & O0 & M0).
  destruct (save_mask_step start 1 s t0 Hrem Hrd O0 (Hb 1%nat ltac:(lia))) as (t1 & E1 & O1 & M1).
  destruct (save_mask_step start 2 s t1 Hrem Hrd O1 (Hb 2%nat ltac:(lia))) as (t2 & E2 & (I2 & B2 & _) & M2).
  unfold suspend_irqs. rewrite (bind_Ret _ _ _ _ _ E0), (bind_Ret _ _ _ _ _ E1), (bind_Ret _ _ _ _ _ E2).
  assert (skip_writes (s_i2c t2) = 0) as Hw2 by (by rewrite B2).
  match goal with |- context [bind (smb1360_write ?r ?v) _] => destruct (write_off_run r v t2 I2 Hw2) as (? & ? & E3) end.
  rewrite (bind_Ret _ _ _ _ _ E3).
  match goal with |- context [bind (smb1360_write ?r ?v) _ ?t] => destruct (write_off_run r v t I2 Hw2) as (? & ? & E4) end.
  rewrite (bind_Ret _ _ _ _ _ E4).
  match goal with |- context [bind (smb1360_write ?r ?v) _ ?t] => destruct (write_off_run r v t I2 Hw2) as (? & ? & E5) end.
  rewrite (bind_Ret _ _ _ _ _ E5).
  eexists. split; [reflexivity|]. split; [done|]. cbn. rewrite M2, M1, M0.
  destruct (irq_cfg_mask (s_pm s)) as [|? [|? [|? [|? ?]]]]; try done.
Qed.

Lemma resume_irqs_run s m0 m1 m2 :
  idle [read_write_lock] s -> skip_writes (s_i2c s) = 0 -> irq_cfg_mask (s_pm s) = [m0; m1; m2] ->
  is_byte m0 -> is_byte m1 -> is_byte m2 ->
  exists w0 w1 w2, let a := client_addr (s_i2c s) in
    resume_irqs s = Ret tt (more [I2cWrite a 15 m0 w0; I2cWrite a 16 m1 w1; I2cWrite a 17 m2 w2] s).
Proof.
  intros Hi Hw Hm H0 H1 H2.
  assert (forall i t m, idle [read_write_lock] t -> s_i2c t = s_i2c s -> s_pm t = s_pm s -> is_byte m ->
    nth i [m0; m1; m2] 0 = m -> exists rc w, restore_mask i t
      = Ret rc (more [I2cWrite (client_addr (s_i2c s)) (IRQ_CFG_REG + Z.of_nat i) m w] t)) as Hr.
  { intros i t m It Bt Pt Bm <-. unfold restore_mask. rewrite bind_unfold. unfold s_gets. rewrite Pt, Hm.
    destruct (write_off_run (IRQ_CFG_REG + Z.of_nat i) (nth i [m0; m1; m2] 0) t It) as (rc & w & E); [by rewrite Bt|].
    exists rc, w. rewrite E, Bt, u8_id by done. done. }
  destruct (Hr 0%nat s m0 Hi eq_refl eq_refl H0 eq_refl) as (r0 & w0 & E0).
  destruct (Hr 1%nat (more [I2cWrite (client_addr (s_i2c s)) 15 m0 w0] s) m1 Hi eq_refl eq_refl H1 eq_refl) as (r1 & w1 & E1).
  destruct (Hr 2%nat (more [I2cWrite (client_addr (s_i2c s)) 16 m1 w1] (more [I2cWrite (client_addr (s_i2c s)) 15 m0 w0] s))
    m2 Hi eq_refl eq_refl H2 eq_refl) as (r2 & w2 & E2).
  exists w0, w1, w2. cbv zeta. unfold resume_irqs.
  rewrite (bind_Ret _ _ _ _ _ E0), (bind_Ret _ _ _ _ _ E1), (bind_Ret _ _ _ _ _ E2). unfold ret.
  f_equal. by rewrite !more_more.
Qed.

(** C32: suspend and resume leave the interrupt masks as they were.  On a chip
    that remembers its registers, suspending (which switches all but the
    important interrupts off) and resuming with no interrupt in between and
    none waiting at first leaves the three mask registers of the chip with the
    values they had.  Accesses are not switched off through debugfs ([skipping]). *)
Theorem suspend_resume_masks start s :
  remembers start -> ready s -> skipping s = false -> length (irq_cfg_mask (s_pm s)) = 3%nat ->
  irq_waiting (s_pm s) = false ->
  (forall i, (i < 3)%nat -> is_byte (chip_reg start s (IRQ_CFG_REG + Z.of_nat i))) ->
  exists s1 s2, smb1360_suspend s = Ret 0 s1 /\ smb1360_resume s1 = Ret 0 s2
    /\ (forall i, (i < 3)%nat -> chip_reg start s2 (IRQ_CFG_REG + Z.of_nat i) = chip_reg start s (IRQ_CFG_REG + Z.of_nat i)).
Proof.
  intros Hrem Hr Hs Hlen Hnw Hb. pose proof (ready_idle [read_write_lock] s Hr) as Hi.
  destruct (suspend_irqs_run start s Hrem Hi Hs Hlen Hb) as (t & Et & Bt & Mt).
  destruct (keeps_suspend_irqs s Hi) as ([] & t' & E' & HS & Hl & Hf); [apply Hr|]. rewrite Et in E'. injection E' as <-.
  pose proof (ready_setup _ _ Hr HS Hl) as Hrt.
  set (s1 := with_s_pm (with_resume_completed false (s_pm t)) t).
  assert (ready s1) as Hr1 by exact Hrt.
  assert (irq_waiting (s_pm s1) = false) as Hw1.
  { pose proof (f_equal (fun m => m.1.1.2) Hf) as Hp. unfold pm3 in Hp. cbn in Hp. injection Hp as Hp _ _. cbn. congruence. }
  apply orb_false_iff in Hs as [Hw%negb_false_iff%Z.eqb_eq _].
  destruct (resume_irqs_run s1 _ _ _ (ready_idle _ _ Hr1) ltac:(cbn; by rewrite Bt) Mt
    (Hb 0%nat ltac:(lia)) (Hb 1%nat ltac:(lia)) (Hb 2%nat ltac:(lia))) as (w0 & w1 & w2 & E1).
  cbv zeta in E1. set (t1 := more _ s1) in E1. assert (ready t1) as Hrt1 by exact Hr1.
  exists s1, (with_s_pm (with_resume_completed true (s_pm t1)) t1). split; [|split].
  - unfold smb1360_suspend. rewrite (bind_Ret _ _ _ _ _ Et).
    assert (locked irq_complete (set_pm (with_resume_completed false)) t = Ret tt s1) as EL
      by exact (locked_pm (with_resume_completed false) (fun _ => tt) t Hrt).
    by rewrite (bind_Ret _ _ _ _ _ EL).
  - unfold smb1360_resume. rewrite (bind_Ret _ _ _ _ _ E1).
    rewrite (bind_Ret _ _ _ _ _ (locked_pm (with_resume_completed true) (fun s => irq_waiting (s_pm s)) t1 Hrt1)).
    cbn [s_pm with_s_pm]. change (irq_waiting (with_resume_completed true (s_pm t1))) with (irq_waiting (s_pm s1)). by rewrite Hw1.
  - intros i Hlt. unfold chip_reg at 1. cbn -[last_write]. rewrite Bt, last_write_app.
    destruct i as [|[|[|i]]]; [..|lia]; cbn; by rewrite ?Z.eqb_refl.
Qed.

(** ** The temperature bands *)

(** What the chip was told: its two soft thresholds, and the float voltage. *)
Definition thresholds (start : Z -> Z) (s : sworld) : Z * Z :=
  (chip_reg start s JEITA_SOFT_COLD_REG, chip_reg start s JEITA_SOFT_HOT_REG).
Definition float_field (start : Z -> Z) (s : sworld) : Z := Z.land (chip_reg start s BATT_CHG_FLT_VTG_REG) VFLOAT_MASK.

Lemma write_ok reg val s s' :
  idle [read_write_lock] s -> skip_writes (s_i2c s) = 0 -> smb1360_write reg val s = Ret 0 s' ->
  exists es, s' = more es s /\ forall start r, chip_reg start s' r = if r =? reg then u8 val else chip_reg start s r.
Proof.
  intros Hi Hk. rewrite write_run, Hk by done. cbv zeta. set (w := sk_write _ _ _ _). cbn [negb Z.eqb].
  intros [= _ <-]. eexists. split; [reflexivity|]. intros start r. unfold chip_reg. cbn -[last_write].
  rewrite last_write_app. cbn [last_write]. by rewrite Z.eqb_refl.
Qed.

Lemma threshold_ok c h s s' :
  idle [read_write_lock] s -> skip_writes (s_i2c s) = 0 -> smb1360_set_soft_jeita_threshold c h s = Ret 0 s' ->
  soft_cold_thresh (s_ctl s') = c /\ soft_hot_thresh (s_ctl s') = h /\ s_st s' = s_st s
  /\ forall start, thresholds start s' = (u8 (TEMP_THRE_SET c), u8 (TEMP_THRE_SET h))
       /\ (forall r, r ∉ [JEITA_SOFT_COLD_REG; JEITA_SOFT_HOT_REG] -> chip_reg start s' r = chip_reg start s r).
Proof.
  intros Hi Hk. unfold smb1360_set_soft_jeita_threshold, and_then.
  destruct (reg_only_write JEITA_SOFT_COLD_REG (TEMP_THRE_SET c) s Hi) as (r1 & es1 & E1 & _).
  rewrite (bind_Ret _ _ _ _ _ E1). destruct (r1 =? 0) eqn:Z1; bool_cases; [subst r1|by intros [= ? _]].
  destruct (write_ok _ _ _ _ Hi Hk E1) as (_ & _ & C1).
  set (s1 := with_s_ctl (with_soft_cold_thresh c (s_ctl (more es1 s))) (more es1 s)).
  rewrite (bind_Ret _ _ _ tt s1) by done.
  destruct (reg_only_write JEITA_SOFT_HOT_REG (TEMP_THRE_SET h) s1 Hi) as (r2 & es2 & E2 & _).
  rewrite (bind_Ret _ _ _ _ _ E2). destruct (r2 =? 0) eqn:Z2; bool_cases; [subst r2|by intros [= ? _]].
  destruct (write_ok _ _ s1 _ Hi Hk E2) as (_ & _ & C2).
  intros [= <-]. split; [done|]. split; [done|]. split; [done|]. intros start.
  assert (forall r, chip_reg start (with_s_ctl (with_soft_hot_thresh h (s_ctl (more es2 s1))) (more es2 s1)) r
    = if r =? JEITA_SOFT_HOT_REG then u8 (TEMP_THRE_SET h) else if r =? JEITA_SOFT_COLD_REG then u8 (TEMP_THRE_SET c)
      else chip_reg start s r) as C by (intros r; rewrite <- C1; exact (C2 start r)).
  split; [unfold thresholds; by rewrite !C|]. intros r Hr. rewrite C.
  rewrite (proj2 (Z.eqb_neq r JEITA_SOFT_HOT_REG)), (proj2 (Z.eqb_neq r JEITA_SOFT_COLD_REG)) by (intros ->; set_solver). done.
Qed.

Lemma float_ok mv s s' :
  idle [read_write_lock] s -> skipping s = false -> smb1360_float_voltage_set mv s = Ret 0 s' ->
  forall start, float_field start s' = (mv - MIN_FLOAT_MV) / VFLOAT_STEP_MV.
Proof.
  intros Hi Hk. unfold smb1360_float_voltage_set. destruct (_ || _) eqn:Eb; [done|].
  apply orb_false_iff in Eb as [Hlo%Z.ltb_ge Hhi%Z.ltb_ge].
  rewrite masked_run, Hk by done. cbv zeta. unfold masked_effects. destruct (_ <? 0) eqn:E1; cbn [fst snd];
    [intros [= E _]; bool_cases; lia|]. intros [= _ <-] start. unfold float_field, chip_reg. cbn -[last_write u8].
  rewrite last_write_app. cbn [last_write]. rewrite !Z.eqb_refl. cbn [andb]. rewrite masked_field by done.
  change VFLOAT_MASK with (Z.ones 7). rewrite Z.land_ones by lia. apply Z.mod_small.
  unfold MIN_FLOAT_MV, MAX_FLOAT_MV, VFLOAT_STEP_MV in *. split; [apply Z.div_pos; lia|apply Z.div_lt_upper_bound; lia].
Qed.

(** A program between the float voltage and the thresholds. *)
Definition harmless (c : prog sworld Z) : Prop :=
  forall s, idle irq_locks s -> level_ok s -> exists a s', c s = Ret a s' /\ s_locks s' = s_locks s /\ s_i2c s' = s_i2c s
    /\ s_st s' = s_st s /\ (forall start r, r ∈ [BATT_CHG_FLT_VTG_REG] -> chip_reg start s' r = chip_reg start s r).

Lemma harmless_usb_current : harmless smb1360_set_appropriate_usb_current.
Proof. intros s Hi Hl. apply usb_current_spares; [done|done|]. repeat constructor; by intros ?%list_elem_of_singleton. Qed.

(** After the flags are set: float voltage, currents, thresholds. *)
Lemma band_ok mv (c : prog sworld Z) lo hi s s' :
  idle irq_locks s -> level_ok s -> skipping s = false -> harmless c ->
  (ok* smb1360_float_voltage_set mv; do* c; smb1360_set_soft_jeita_threshold lo hi) s = Ret 0 s' ->
  soft_cold_thresh (s_ctl s') = lo /\ soft_hot_thresh (s_ctl s') = hi /\ s_st s' = s_st s
  /\ forall start, thresholds start s' = (u8 (TEMP_THRE_SET lo), u8 (TEMP_THRE_SET hi))
       /\ float_field start s' = (mv - MIN_FLOAT_MV) / VFLOAT_STEP_MV.
Proof.
  intros Hi Hl Hk Hc. unfold and_then. assert (idle [read_write_lock] s) as Hrw by (eapply idle_sub; [done|unfold irq_locks; set_solver]).
  destruct (reg_only_float_voltage_set mv s Hrw) as (r & es & E & _).
  rewrite (bind_Ret _ _ _ _ _ E). destruct (r =? 0) eqn:Er; bool_cases; [subst r|by intros [= ? _]].
  destruct (Hc (more es s) Hi Hl) as (a & s1 & E1 & L1 & I1 & F1 & C1). rewrite (bind_Ret _ _ _ _ _ E1).
  intros Et. apply threshold_ok in Et as (? & ? & Hst & HC).
  - split; [done|]. split; [done|]. split; [by rewrite Hst, F1|]. intros start. destruct (HC start) as [HT HR]. split; [done|].
    unfold float_field. rewrite HR, C1 by set_solver. exact (float_ok mv s _ Hrw Hk E start).
  - unfold idle in *. by rewrite L1, I1.
  - rewrite I1. apply orb_false_iff in Hk as [Hk%negb_false_iff%Z.eqb_eq _]. exact Hk.
Qed.

(** What a run of the work that succeeds has done. *)
Definition band_programmed (temp : Z) (s s' : sworld) : Prop :=
  let j := s_jeita s in
  let lo := soft_cold_thresh (s_ctl s') in
  let hi := soft_hot_thresh (s_ctl s') in
  let bands := [cold_bat_decidegc j; cool_bat_decidegc j; warm_bat_decidegc j; hot_bat_decidegc j] in
  let float := if batt_warm (s_st s') then warm_bat_mv j else if batt_cool (s_st s') then cool_bat_mv j else vfloat_mv (s_chg s) in
  (exists k, bands !! k = Some lo /\ bands !! S k = Some hi)
  /\ (forall start, thresholds start s' = (u8 (TEMP_THRE_SET lo), u8 (TEMP_THRE_SET hi)))
  /\ (cold_bat_decidegc j < temp <= hot_bat_decidegc j -> lo <= temp <= hi
      /\ batt_warm (s_st s') = (lo =? warm_bat_decidegc j) /\ batt_cool (s_st s') = (hi =? cool_bat_decidegc j)
      /\ (forall start, float_field start s' = (float - MIN_FLOAT_MV) / VFLOAT_STEP_MV))
  /\ (temp <= cold_bat_decidegc j \/ hot_bat_decidegc j < temp -> s_st s' = s_st s
      /\ (temp <= cold_bat_decidegc j -> hi = cool_bat_decidegc j) /\ (hot_bat_decidegc j < temp -> lo = warm_bat_decidegc j)
      /\ (forall start r, r ∉ [JEITA_SOFT_COLD_REG; JEITA_SOFT_HOT_REG] -> chip_reg start s' r = chip_reg start s r)).

Lemma jeita_step_band temp s s' :
  ready s -> skipping s = false ->
  let j := s_jeita s in
  cold_bat_decidegc j < cool_bat_decidegc j < warm_bat_decidegc j -> warm_bat_decidegc j < hot_bat_decidegc j ->
  jeita_step temp s = Ret 0 s' -> band_programmed temp s s'.
Proof.
  intros Hr Hk j Hcw Hwh. pose proof (ready_idle irq_locks s Hr) as Hi. pose proof (proj1 (proj2 (proj2 Hr))) as Hl.
  assert (idle [read_write_lock] s) as Hrw by by apply ready_idle.
  assert (skip_writes (s_i2c s) = 0) as Hkw by (apply orb_false_iff in Hk as [Hk%negb_false_iff%Z.eqb_eq _]; exact Hk).
  unfold band_programmed. fold j.
  unfold jeita_step. rewrite bind_unfold. unfold s_gets at 1. rewrite bind_unfold. unfold s_gets at 1.
  rewrite bind_unfold. unfold s_gets at 1. fold j.
  destruct (hot_bat_decidegc j <? temp) eqn:E1; bool_cases.
  { intros (-> & -> & -> & HC)%threshold_ok; [|done..]. split; [by exists 2%nat|]. split; [intros; apply HC|].
    split; [lia|]. intros _. split; [done|]. split; [lia|]. split; [done|]. intros. by apply HC. }
  destruct (_ || _) eqn:E2.
  { rewrite bind_unfold. unfold set_st at 1, modify. intros (-> & -> & -> & HC)%band_ok; [|done..|apply harmless_usb_current].
    assert (warm_bat_decidegc j <= temp) by (apply orb_true_iff in E2 as [?|?]; bool_cases; lia).
    split; [by exists 2%nat|]. split; [intros; apply HC|]. split; [|lia]. intros _. split; [lia|].
    cbn. rewrite Z.eqb_refl. split; [done|]. split; [|intros; by apply HC].
    symmetry. apply Z.eqb_neq. lia. }
  assert (temp <= warm_bat_decidegc j) by (apply orb_false_iff in E2 as [? _]; bool_cases; lia). clear E2.
  destruct (_ || _) eqn:E3.
  { rewrite bind_unfold. unfold set_st at 1, modify. intros (-> & -> & -> & HC)%band_ok; [|done..|apply harmless_usb_current].
    assert (cool_bat_decidegc j <= temp) by (apply orb_true_iff in E3 as [?|?]; bool_cases; lia).
    split; [by exists 1%nat|]. split; [intros; apply HC|]. split; [|lia]. intros _. split; [lia|]. cbn.
    split; [symmetry; apply Z.eqb_neq; lia|]. split; [symmetry; apply Z.eqb_neq; lia|]. intros; by apply HC. }
  assert (temp <= cool_bat_decidegc j) by (apply orb_false_iff in E3 as [? _]; bool_cases; lia). clear E3.
  destruct (cold_bat_decidegc j <? temp) eqn:E4; bool_cases.
  - rewrite bind_unfold. unfold set_st at 1, modify. intros Eb.
    assert (forall t, (ok* smb1360_float_voltage_set (cool_bat_mv j);
      smb1360_set_soft_jeita_threshold (cold_bat_decidegc j) (cool_bat_decidegc j)) t =
      (ok* smb1360_float_voltage_set (cool_bat_mv j); do* ret 0;
       smb1360_set_soft_jeita_threshold (cold_bat_decidegc j) (cool_bat_decidegc j)) t) as Eq by done.
    rewrite Eq in Eb. apply band_ok in Eb as (-> & -> & -> & HC); [|done..|by intros t _ _; eexists _, t].
    split; [by exists 0%nat|]. split; [intros; apply HC|]. split; [|lia]. intros _. split; [lia|].
    cbn. rewrite Z.eqb_refl. split; [symmetry; apply Z.eqb_neq; lia|]. split; [done|]. intros; by apply HC.
  - intros (-> & -> & -> & HC)%threshold_ok; [|done..]. split; [by exists 0%nat|]. split; [intros; apply HC|].
    split; [lia|]. intros _. split; [done|]. split; [done|]. split; [lia|]. intros. by apply HC.
Qed.

(** C21: the temperature workaround.  With the four limits in order, the driver
    ready and the debug switches that suppress register accesses off, the work
    returns, and if it succeeds the chip's cold and hot threshold registers
    hold, in the chip's encoding, two neighbouring limits, remembered by the
    driver as such.  Between the cold and the hot limit the temperature lies
    between the two, so that the chip reports the moment it leaves the band;
    the flags say warm in the warm band, cool in the cool band and neither in
    between; and the float voltage register holds the voltage of that band.
    Beyond the limits the thresholds are those of the outer band, and the flags
    and every other register are left alone. *)
Theorem jeita_band temp s :
  ready s -> skipping s = false ->
  let j := s_jeita s in
  cold_bat_decidegc j < cool_bat_decidegc j < warm_bat_decidegc j -> warm_bat_decidegc j < hot_bat_decidegc j ->
  exists rc s', jeita_step temp s = Ret rc s' /\ (rc = 0 -> band_programmed temp s s').
Proof.
  intros Hr Hk j Hcw Hwh. destruct (keeps_jeita_step temp s (ready_idle _ s Hr) (proj1 (proj2 (proj2 Hr)))) as (rc & s' & E & _).
  exists rc, s'. split; [done|]. intros ->. by apply jeita_step_band.
Qed.

End SmbIrqFacts.

(** ** Witnesses, and what goes wrong *)

Module IrqDemo.
Import Demo.

Definition no_bools : string -> bool := fun _ => false.
Definition no_cells : string -> option Z := fun _ => None.
Definition chip : SmbKernel := kernel (fun r => if r =? 80 then 64 else 0) no_bools no_cells.

Lemma bound_ready : ready bound.
Proof. split; [done|]. split; [done|]. split; [|done]. split; [done|]. split; [done|]. by left. Qed.

Lemma ret_inj {A} (a b : A) (s t : sworld) : Ret a s = Ret b t -> a = b /\ s = t.
Proof. by intros [= -> ->]. Qed.

Lemma charger_safe_witness : ready bound /\ exists s', @run_op chip OpIrq bound = Ret tt s' /\ ready s'.
Proof.
  split; [exact bound_ready|]. destruct (@charger_safe chip OpIrq bound bound_ready) as (s' & E & Hr & _).
  exists s'. exact (conj E Hr).
Defined.

(** Suspend, an interrupt, resume. *)
Definition naps : list smb_op := [OpSuspend; OpIrq].
Definition after {A} (r : result sworld A) : sworld := match r with Ret _ s => s | Exit _ s => s | Fault _ s => s end.
Definition napping : sworld := after (@run_op chip OpIrq (after (@run_op chip OpSuspend bound))).

Lemma naps_run : @runs_from chip bound naps napping.
Proof.
  apply (runs_cons _ _ (after (@run_op chip OpSuspend bound))); [done|vm_compute; reflexivity|].
  apply (runs_cons _ _ napping); [intros _; vm_compute; reflexivity|vm_compute; reflexivity|apply runs_nil].
Qed.

Lemma irq_protocol_witness :
  irq_waiting (s_pm napping) = true /\ irq_off (s_trace napping) = 1 /\
  exists s2, @smb1360_resume chip napping = Ret 0 (s_emit IrqEnable s2) /\ irq_off (s_trace (s_emit IrqEnable s2)) = 0.
Proof.
  split; [vm_compute; reflexivity|]. split; [vm_compute; reflexivity|].
  destruct (@irq_protocol chip bound naps napping bound_ready ltac:(split; [done|by intros]) naps_run) as [_ Hw].
  destruct (Hw ltac:(vm_compute; reflexivity)) as (s1 & s2 & _ & _ & E & Ho).
  exists s2. exact (conj E Ho).
Defined.

Lemma status_mirrors_witness :
  exists s', @runs_from chip bound [OpIrq] s' /\ mirrors s' /\ batt_hot (s_st s') = true.
Proof.
  eexists. assert (@runs_from chip bound [OpIrq] (after (@run_op chip OpIrq bound))) as Hs.
  { apply (runs_cons _ _ (after (@run_op chip OpIrq bound))); [done|vm_compute; reflexivity|apply runs_nil]. }
  split; [exact Hs|]. split; [|vm_compute; reflexivity].
  eapply (@status_mirrors chip bound [OpIrq]); [exact bound_ready|intros Hin; exfalso; by apply list_elem_of_singleton in Hin| |exact Hs].
  unfold mirrors. cbn. repeat constructor.
Defined.

Lemma suspend_resume_masks_witness :
  exists s1 s2, @smb1360_suspend chip bound = Ret 0 s1 /\ @smb1360_resume chip s1 = Ret 0 s2
    /\ (forall i, (i < 3)%nat -> chip_reg (fun r => if r =? 80 then 64 else 0) s2 (IRQ_CFG_REG + Z.of_nat i) = 0).
Proof.
  destruct (@suspend_resume_masks chip (fun r => if r =? 80 then 64 else 0) bound) as (s1 & s2 & E1 & E2 & Hm).
  - by intros tr a r.
  - exact bound_ready.
  - reflexivity.
  - reflexivity.
  - reflexivity.
  - intros i Hi. destruct i as [|[|[|i]]]; [..|lia]; vm_compute; by split.
  - exists s1, s2. split; [exact E1|]. split; [exact E2|]. intros i Hi. rewrite (Hm i Hi). destruct i as [|[|[|i]]]; [done..|lia].
Defined.

Lemma jeita_band_witness :
  exists s', @jeita_step chip 475 bound = Ret 0 s' /\ batt_warm (s_st s') = true
    /\ forall start, thresholds start s' = (75, 85) /\ float_field start s' = (4050 - MIN_FLOAT_MV) / VFLOAT_STEP_MV.
Proof.
  destruct (@jeita_band chip 475 bound bound_ready eq_refl ltac:(vm_compute; by split) ltac:(vm_compute; reflexivity)) as (rc & s' & E & Hb).
  assert (@jeita_step chip 475 bound = Ret 0 (after (@jeita_step chip 475 bound))) as E0 by (vm_compute; reflexivity).
  rewrite E0 in E. destruct (ret_inj _ _ _ _ E) as [<- <-]. exists (after (@jeita_step chip 475 bound)). split; [exact E0|].
  destruct (Hb eq_refl) as (_ & Ht & Hw & _). destruct (Hw ltac:(vm_compute; by split)) as (_ & Hwarm & _ & Hf).
  split; [vm_compute; reflexivity|]. intros start. split; [rewrite (Ht start); vm_compute; reflexivity|]. rewrite (Hf start). vm_compute. reflexivity.
Defined.

(** The battery has two "missing" bits and one flag, and the last bit that
    changed wins: here the first bit clears while the second is still set, and
    the battery counts as present. *)
Definition one_bit : SmbKernel := kernel (fun r => if r =? 81 then 64 else 0) no_bools no_cells.
Definition no_battery : sworld :=
  with_s_st (with_batt_present false flags0) (with_s_irqs (alter (with_row_prev 80) 1%nat rows0) bound).

Example missing_battery_present :
  exists s' r, @smb1360_stat_handler one_bit no_battery = Ret tt s' /\ s_irqs s' !! 1%nat = Some r
    /\ Z.testbit (row_prev r) 6 = true /\ batt_present (s_st s') = true.
Proof. eexists _, _. split; [vm_compute; reflexivity|]. split; [vm_compute; reflexivity|]. done. Qed.

(** Likewise for "full": the end of charge is still reported, but the inhibit
    bit cleared, and the battery no longer counts as full. *)
Definition term_bit : SmbKernel := kernel (fun r => if r =? 82 then 1 else 0) no_bools no_cells.
Definition full : sworld :=
  with_s_st (with_batt_full true flags0)
    (with_s_irqs (alter (with_row_prev 64) 4%nat (alter (with_row_prev 1) 2%nat rows0)) bound).

Example full_battery_forgotten :
  exists s' r, @smb1360_stat_handler term_bit full = Ret tt s' /\ s_irqs s' !! 2%nat = Some r
    /\ Z.testbit (row_prev r) 0 = true /\ batt_full (s_st s') = false.
Proof. eexists _, _. split; [vm_compute; reflexivity|]. split; [vm_compute; reflexivity|]. done. Qed.

(** Every write to the fuel gauge fails, and the on-the-go supply reports
    success and a gain that was never programmed. *)
Definition fg_dead : SmbKernel :=
  kernel_with (fun r => if r =? 88 then 1 else 0) no_bools no_cells (fun a _ => if a =? 21 then -5 else 0) 0.
Definition with_fet : sworld := with_s_chg (with_otg_fet_present true chg0) bound.

Example gain_error_lost :
  exists s', @smb1360_otg_regulator_enable fg_dead with_fet = Ret 0 s' /\ fet_gain_enabled (s_ctl s') = true
    /\ I2cWrite 21 224 29 (-5) ∈ s_trace s'.
Proof.
  eexists. split; [vm_compute; reflexivity|]. split; [reflexivity|]. cbn.
  repeat first [apply list_elem_of_here | apply list_elem_of_further].
Qed.

(** Whether the device keeps the system awake: it has one wakeup source. *)
Fixpoint awake (tr : list seffect) (b : bool) : bool :=
  match tr with
  | [] => b
  | StayAwake :: tr' => awake tr' true
  | Relax :: tr' => awake tr' false
  | _ :: tr' => awake tr' b
  end.

(** An empty battery keeps the system awake, until the temperature work ends. *)
Definition empty_chip : SmbKernel := kernel (fun r => if r =? 87 then 16 else 0) no_bools no_cells.
Example empty_battery_sleeps :
  exists s1 s2, @run_op empty_chip OpIrq bound = Ret tt s1 /\ awake (s_trace s1) false = true
    /\ @run_op empty_chip OpJeitaWork s1 = Ret tt s2 /\ empty_soc (s_st s2) = true /\ awake (s_trace s2) false = false.
Proof.
  eexists _, _. split; [vm_compute; reflexivity|]. split; [reflexivity|]. split; [vm_compute; reflexivity|]. done.
Qed.

(** A temperature that cannot be read counts as that many tenths of a degree
    below zero. *)
Definition no_block : SmbKernel := kernel_with (fun _ => 0) no_bools no_cells (fun _ _ => 0) (-5).
Example unread_temperature_is_cold :
  exists s', @smb1360_jeita_work_fn no_block bound = Ret tt s'
    /\ soft_cold_thresh (s_ctl s') = 0 /\ soft_hot_thresh (s_ctl s') = 100.
Proof. eexists. split; [vm_compute; reflexivity|]. done. Qed.

End IrqDemo.
