(* ===== verification/SmbInit.v ===== *)
(** * The charger driver: set-up

    [smb1360-charger-fg.c]: the battery profile and the configuration of the
    fuel gauge, the initial status, the set-up of the hardware, the device
    tree, and binding and unbinding the driver. *)

From stdpp Require Import base list numbers sets strings.
From Stdlib Require Import ZArith Lia.
From S2P Require Import Prelude Kernel SmbRegs SmbBus SmbCharge SmbIrq.
Open Scope Z_scope.

Definition u64 (z : Z) : Z := z mod 2 ^ 64.

(** Division of C, and [DIV_ROUND_UP]. *)
Definition DIV_ROUND_UP (n d : Z) : Z := Z.quot (n + d - 1) d.

Definition is_between (value left right : Z) : bool :=
  ((right <=? left) && (value <=? left) && (right <=? value))
  || ((left <=? right) && (left <=? value) && (value <=? right)).

(** The two bytes of a number, low byte first. *)
Definition split16 (z : Z) : list Z := [Z.land z 255; Z.shiftr (Z.land z 65280) 8].

(** A device-tree value that was absent. *)
Definition absent (z : Z) : bool := z =? - EINVAL.

Section SmbInit.
Context `{SmbKernel}.

(** [if (b) { rc = c; if (rc) stop with rc; }], going on with the last [rc]. *)
Definition step_if (b : bool) (c : prog sworld Z) (rc : Z) (k : Z -> prog sworld Z) : prog sworld Z :=
  if b then let* rc := c in if rc =? 0 then k rc else ret rc else k rc.

(** ** The battery profile *)

(** The loops that wait for access and for the new profile: the error of a
    read, or 0, and the value of [timeout]. *)
Fixpoint access_poll (timeout : nat) (reg : Z) : prog sworld (Z * nat) :=
  match timeout with
  | O => ret (0, O)
  | S n =>
      do* s_do (Msleep 100);
      let* r := smb1360_read IRQ_I_REG reg in
      if negb (fst r =? 0) then ret (fst r, timeout)
      else if has (snd r) FG_ACCESS_ALLOWED_BIT then ret (0, timeout)
      else access_poll n (snd r)
  end.

Fixpoint profile_poll (timeout : nat) (new_profile reg : Z) : prog sworld (Z * nat) :=
  match timeout with
  | O => ret (0, O)
  | S n =>
      do* s_do (Msleep 500);
      let* r := smb1360_read SHDW_FG_BATT_STATUS reg in
      if negb (fst r =? 0) then ret (fst r, timeout)
      else if (if has (snd r) BATTERY_PROFILE_BIT then 1 else 0) =? new_profile then ret (0, timeout)
      else profile_poll n new_profile (snd r)
  end.

(** The profile whose resistor is within a tenth of the connected one. *)
Definition matching_profile (fg : fg_cfg) : Z :=
  let near rid := Z.abs (s32 (rid - connected_rid fg)) <? connected_rid fg / 10 in
  if near (profile_rid_a fg) then BATTERY_PROFILE_A
  else if near (profile_rid_b fg) then BATTERY_PROFILE_B
  else BATTERY_PROFILE_MAX.

(** From [enable FG access] on: [inl] goes to [restore_fg], [inr] returns. *)
Definition switch_profile (new_profile reg : Z) : prog sworld (Z + Z) :=
  let* a := access_poll 50 reg in
  if negb (fst a =? 0) then ret (inl (fst a)) else
  match snd a with
  | O => ret (inl (- EAGAIN))
  | S _ =>
      do* s_do (Msleep 1500);
      let* rc := (ok* smb1360_masked_write CMD_I2C_REG FG_RESET_BIT FG_RESET_BIT;
                  ok* smb1360_masked_write CMD_I2C_REG FG_RESET_BIT 0;
                  smb1360_masked_write CMD_I2C_REG FG_ACCESS_ENABLED_BIT 0) in
      if negb (rc =? 0) then ret (inl rc) else
      let* p := profile_poll 10 new_profile reg in
      if negb (fst p =? 0) then ret (inl (fst p)) else
      ret (inr (match snd p with O => - EBUSY | S _ => 0 end))
  end.

Definition smb1360_check_batt_profile : prog sworld Z :=
  let* fg := s_gets s_fg in
  if connected_rid fg =? 0 then ret 0 else
  let* r := smb1360_read SHDW_FG_BATT_STATUS 0 in
  if negb (fst r =? 0) then ret (fst r) else
  let loaded_profile := if has (snd r) BATTERY_PROFILE_BIT then BATTERY_PROFILE_B else BATTERY_PROFILE_A in
  let i := matching_profile fg in
  if i =? BATTERY_PROFILE_MAX then ret 0 else
  if i =? loaded_profile then ret 0 else
  let new_profile := if loaded_profile =? BATTERY_PROFILE_A then BATTERY_PROFILE_B else BATTERY_PROFILE_A in
  let bid_mask := if new_profile =? BATTERY_PROFILE_A then BATT_PROFILEA_MASK else BATT_PROFILEB_MASK in
  ok* smb1360_masked_write CFG_FG_BATT_CTRL_REG BATT_PROFILE_SELECT_MASK bid_mask;
  ok* smb1360_masked_write CMD_I2C_REG FG_ACCESS_ENABLED_BIT FG_ACCESS_ENABLED_BIT;
  let* res := switch_profile new_profile (snd r) in
  match res with
  | inr rc => ret rc
  | inl rc => do* smb1360_masked_write CMD_I2C_REG FG_ACCESS_ENABLED_BIT 0; ret rc
  end.

(** ** The initial status *)

(** [UPDATE_IRQ_STAT]. *)
Definition update_irq_stat (irq_reg value : Z) : prog sworld unit :=
  set_row (Z.to_nat (irq_reg - IRQ_A_REG)) (with_row_prev value).

(** [rc = smb1360_read(...); if (rc < 0) return rc; UPDATE_IRQ_STAT(...)]; a
    read returns 0 or a negative number, so [if (rc)] is the same. *)
Definition initial_reg (irq_reg old : Z) (k : Z -> prog sworld Z) : prog sworld Z :=
  let* r := smb1360_read irq_reg old in
  if fst r <? 0 then ret (fst r) else
  do* update_irq_stat irq_reg (snd r);
  k (snd r).

(** The temperature bits, unless the work is to decide. *)
Definition initial_temperature (reg : Z) : prog sworld unit :=
  let* w := s_gets (fun s => workaround_flags (s_ctl s)) in
  let* hard := s_gets (fun s => config_hard_thresholds (s_jeita s)) in
  if has w WRKRND_HARD_JEITA then s_do (JeitaSchedule 0)
  else
    do* when (has reg IRQ_A_HOT_HARD_BIT) (set_st (with_batt_hot true));
    do* when (has reg IRQ_A_COLD_HARD_BIT) (set_st (with_batt_cold true));
    when (negb hard) (
      do* when (has reg IRQ_A_HOT_SOFT_BIT) (set_st (with_batt_warm true));
      when (has reg IRQ_A_COLD_SOFT_BIT) (set_st (with_batt_cool true))).

Definition determine_initial_status : prog sworld Z :=
  do* set_st (with_batt_present true);
  initial_reg IRQ_B_REG 0 (fun reg =>
  do* when (has reg IRQ_B_BATT_TERMINAL_BIT || has reg IRQ_B_BATT_MISSING_BIT) (set_st (with_batt_present false));
  initial_reg IRQ_C_REG reg (fun reg =>
  do* when (has reg IRQ_C_CHG_TERM) (set_st (with_batt_full true));
  initial_reg IRQ_A_REG reg (fun reg =>
  do* initial_temperature reg;
  initial_reg IRQ_E_REG reg (fun reg =>
  let present := negb (has reg IRQ_E_USBIN_UV_BIT) in
  do* set_st (with_usb_present present);
  do* s_do (UsbPresent present);
  ret 0)))).

(** ** The configuration of the fuel gauge *)

Definition mv_of (b : list Z) : Z := word16 b * 5000 / 32767.

(** Under [fg_reset_at_pon], from the granted access to [disable_fg_reset]. *)
Definition fg_reset_check : prog sworld Z :=
  let* b := local2 in
  let* p := smb1360_read_bytes VOLTAGE_PREDICTED_REG b in
  if negb (fst p =? 0) then ret (fst p) else
  let* v := smb1360_read_bytes SHDW_FG_VTG_NOW (snd p) in
  if negb (fst v =? 0) then ret (fst v) else
  let* threshold := s_gets (fun s => fg_reset_threshold_mv (s_fg s)) in
  if threshold <=? Z.abs (mv_of (snd p) - mv_of (snd v)) then
    do* s_do (Msleep 1500);
    ok* smb1360_masked_write CMD_I2C_REG FG_RESET_BIT FG_RESET_BIT;
    smb1360_masked_write CMD_I2C_REG FG_RESET_BIT 0
  else ret 0.

(** The IRQ thresholds. *)
Definition fg_thresholds (fg : fg_cfg) (rc : Z) (k : Z -> prog sworld Z) : prog sworld Z :=
  step_if (negb (absent (delta_soc fg)))
    (smb1360_write SOC_DELTA_REG (Z.abs (Z.quot (delta_soc fg * MAX_8_BITS) 100 - 1))) rc (fun rc =>
  step_if (negb (absent (soc_min fg)) && is_between (soc_min fg) 0 100)
    (smb1360_write SOC_MIN_REG (DIV_ROUND_UP (soc_min fg * MAX_8_BITS) 100)) rc (fun rc =>
  step_if (negb (absent (soc_max fg)) && is_between (soc_max fg) 0 100)
    (smb1360_write SOC_MAX_REG (DIV_ROUND_UP (soc_max fg * MAX_8_BITS) 100)) rc (fun rc =>
  step_if (negb (absent (voltage_min_mv fg)))
    (smb1360_write VTG_MIN_REG (DIV_ROUND_UP ((voltage_min_mv fg - 2500) * MAX_8_BITS) 2500)) rc (fun rc =>
  step_if (negb (absent (voltage_empty_mv fg)))
    (smb1360_write VTG_EMPTY_REG (DIV_ROUND_UP ((voltage_empty_mv fg - 2500) * MAX_8_BITS) 2500)) rc k)))).

Definition write2 (reg z : Z) : prog sworld Z := let* r := smb1360_write_bytes reg (split16 z) in ret (fst r).

Definition fg_capacity (fg : fg_cfg) : prog sworld Z :=
  let* b := local2 in
  let* r := smb1360_read_bytes ACTUAL_CAPACITY_REG b in
  if negb (fst r =? 0) then ret (fst r) else
  if word16 (snd r) =? batt_capacity_mah fg then ret 0 else
  let* w := smb1360_write_bytes ACTUAL_CAPACITY_REG (split16 (batt_capacity_mah fg)) in
  if negb (fst w =? 0) then ret (fst w) else
  let* w := smb1360_write_bytes NOMINAL_CAPACITY_REG (snd w) in
  if negb (fst w =? 0) then ret (fst w) else
  if negb (absent (cc_soc_coeff fg)) then write2 CC_TO_SOC_COEFF (cc_soc_coeff fg) else ret 0.

(** [div_u64(v * 0x7FFF, d)] of an [int], as a [u16]. *)
Definition scale_u16 (v d : Z) : Z := u16 (u64 (s32 (v * 32767)) / d).

Definition fg_recharge (fg : fg_cfg) : prog sworld Z :=
  ok* smb1360_masked_write CFG_CHG_FUNC_CTRL_REG CHG_RECHG_THRESH_FG_SRC_BIT CHG_RECHG_THRESH_FG_SRC_BIT;
  smb1360_write FG_AUTO_RECHARGE_SOC (DIV_ROUND_UP (fg_auto_recharge_soc fg * MAX_8_BITS) 100).

(** The scratch pad, up to [disable_fg]. *)
Definition fg_scratch (fg : fg_cfg) : prog sworld Z :=
  step_if (negb (absent (batt_capacity_mah fg))) (fg_capacity fg) 0 (fun rc =>
  step_if (negb (absent (v_cutoff_mv fg))) (write2 FG_SYS_CUTOFF_V_REG (scale_u16 (v_cutoff_mv fg) 5000)) rc (fun rc =>
  step_if (negb (absent (fg_iterm_ma fg)))
    (write2 FG_ITERM_REG (u16 (Z.quot (s32 (- fg_iterm_ma fg * 32767)) 2500))) rc (fun rc =>
  step_if (negb (absent (fg_ibatt_standby_ma fg)))
    (write2 FG_IBATT_STANDBY_REG (scale_u16 (fg_ibatt_standby_ma fg) 2500)) rc (fun rc =>
  step_if (negb (absent (fg_cc_to_cv_mv fg))) (write2 FG_CC_TO_CV_V_REG (scale_u16 (fg_cc_to_cv_mv fg) 5000)) rc (fun rc =>
  step_if (negb (absent (fg_thermistor_c1_coeff fg)))
    (write2 FG_THERM_C1_COEFF_REG (fg_thermistor_c1_coeff fg)) rc (fun rc =>
  step_if (negb (absent (fg_auto_recharge_soc fg))) (fg_recharge fg) rc (fun rc => ret rc))))))).

Definition scratch_wanted (fg : fg_cfg) : bool :=
  negb (absent (batt_capacity_mah fg)) || negb (absent (v_cutoff_mv fg)) || negb (absent (fg_iterm_ma fg))
  || negb (absent (fg_ibatt_standby_ma fg)) || negb (absent (fg_thermistor_c1_coeff fg))
  || negb (absent (fg_cc_to_cv_mv fg)) || negb (absent (fg_auto_recharge_soc fg)).

Definition fg_scratch_part (fg : fg_cfg) (rc : Z) : prog sworld Z :=
  if scratch_wanted fg then
    ok* smb1360_enable_fg_access;
    let* rc := fg_scratch fg in
    do* smb1360_disable_fg_access;
    ret rc
  else ret rc.

Definition fg_config_rest (fg : fg_cfg) (rc : Z) : prog sworld Z :=
  let* w := s_gets (fun s => workaround_flags (s_ctl s)) in
  if negb (has w WRKRND_FG_CONFIG_FAIL) then fg_thresholds fg rc (fg_scratch_part fg)
  else fg_scratch_part fg rc.

Definition smb1360_fg_config : prog sworld Z :=
  let* fg := s_gets s_fg in
  if fg_reset_at_pon fg then
    ok* smb1360_enable_fg_access;
    let* rc := fg_reset_check in
    do* smb1360_disable_fg_access;
    fg_config_rest fg rc
  else fg_config_rest fg 0.

(** ** The set-up of the hardware *)

Definition smb1360_check_feature_support : prog sworld unit :=
  let* broken := is_usb100_broken in
  do* when broken (set_ctl (fun c => with_workaround_flags (Z.lor (workaround_flags c) WRKRND_USB100_FAIL) c));
  let* rev := s_gets (fun s => revision (s_ctl s)) in
  when (rev =? SMB1360_REV_1)
    (set_ctl (fun c => with_workaround_flags
       (Z.lor (workaround_flags c) (Z.lor WRKRND_FG_CONFIG_FAIL WRKRND_BATT_DET_FAIL)) c)).

Definition smb1360_jeita_init : prog sworld Z :=
  let* j := s_gets s_jeita in
  let* vfloat := s_gets (fun s => vfloat_mv (s_chg s)) in
  if config_hard_thresholds j then
    if soft_jeita_supported j then
      do* set_ctl (fun c => with_workaround_flags (Z.lor (workaround_flags c) WRKRND_HARD_JEITA) c);
      smb1360_set_soft_jeita_threshold (cool_bat_decidegc j) (warm_bat_decidegc j)
    else smb1360_set_soft_jeita_threshold (cold_bat_decidegc j) (hot_bat_decidegc j)
  else if soft_jeita_supported j then
    ok* smb1360_set_jeita_comp_curr (Z.min (warm_bat_ma j) (cool_bat_ma j));
    nn* smb1360_masked_write CFG_FVC_REG FLT_VTG_COMP_MASK (Z.quot (vfloat - warm_bat_mv j) 10);
    ok* smb1360_set_soft_jeita_threshold (cool_bat_decidegc j) (warm_bat_decidegc j);
    smb1360_soft_jeita_comp_enable true
  else ret 0.

(** The gain of the sense resistor and of the on-the-go switch. *)
Definition hw_gains (chg : chg_cfg) : prog sworld Z :=
  nn* (if rsense_10mohm chg then smb1360_otp_gain_config 2 else ret 0);
  if otg_fet_present chg then
    ok* s_call sk_gpio_request (GpioRequest (otg_fet_enable_gpio chg));
    nn* smb1360_otp_gain_config 0;
    ret 0
  else ret 0.

(** Pins, filters and the float voltage. *)
Definition hw_pins (chg : chg_cfg) : prog sworld Z :=
  nn* smb1360_masked_write CFG_CHG_MISC_REG
        (Z.lor (Z.lor CHG_EN_BY_PIN_BIT CHG_EN_ACTIVE_LOW_BIT) PRE_TO_FAST_REQ_CMD_BIT) 0;
  nn* smb1360_masked_write CFG_BATT_CHG_ICL_REG
        (Z.lor (Z.lor AC_INPUT_ICL_PIN_BIT AC_INPUT_PIN_HIGH_BIT) RESET_STATE_USB_500)
        (Z.lor AC_INPUT_PIN_HIGH_BIT RESET_STATE_USB_500);
  let reg := Z.lor AICL_ENABLED_BIT INPUT_UV_GLITCH_FLT_20MS_BIT in
  nn* smb1360_masked_write CFG_GLITCH_FLT_REG reg reg;
  if negb (absent (vfloat_mv chg)) then nn* smb1360_float_voltage_set (vfloat_mv chg); ret 0 else ret 0.

(** The register of a termination current. *)
Definition iterm_reg (ma : Z) : Z :=
  if ma <? 25 then CHG_ITERM_25MA else if 200 <? ma then CHG_ITERM_200MA else DIV_ROUND_UP ma 25 - 1.

(** The termination current; goes on with the local [reg]. *)
Definition hw_iterm (reg : Z) (k : Z -> prog sworld Z) : prog sworld Z :=
  let* chg := s_gets s_chg in
  if negb (absent (iterm_ma chg)) then
    if iterm_disabled chg then ret (- EINVAL) else
    do* when (rsense_10mohm chg) (set_chg (with_iterm_ma (Z.quot (iterm_ma chg) 2)));
    let* ma := s_gets (fun s => iterm_ma (s_chg s)) in
    ok* smb1360_masked_write CFG_BATT_CHG_REG CHG_ITERM_MASK (iterm_reg ma);
    ok* smb1360_masked_write CFG_CHG_MISC_REG CHG_CURR_TERM_DIS_BIT 0;
    k (iterm_reg ma)
  else if iterm_disabled chg then
    ok* smb1360_masked_write CFG_CHG_MISC_REG CHG_CURR_TERM_DIS_BIT CHG_CURR_TERM_DIS_BIT;
    k reg
  else k reg.

(** The safety timer; [reg] keeps its value when no entry is large enough. *)
Definition hw_safety (chg : chg_cfg) (reg : Z) : prog sworld Z :=
  if absent (safety_time chg) then ret 0
  else if safety_time chg =? 0 then
    nn* smb1360_masked_write CFG_SFY_TIMER_CTRL_REG SAFETY_TIME_DISABLE_BIT SAFETY_TIME_DISABLE_BIT; ret 0
  else
    let i := search_up chg_time (safety_time chg) 0 (length chg_time) in
    let reg := if i <? zlen chg_time then Z.shiftl i SAFETY_TIME_MINUTES_SHIFT else reg in
    nn* smb1360_masked_write CFG_SFY_TIMER_CTRL_REG (Z.lor SAFETY_TIME_DISABLE_BIT SAFETY_TIME_MINUTES_MASK) reg;
    ret 0.

(** Resume threshold, automatic recharge, charge inhibit, missing battery. *)
Definition hw_recharge (chg : chg_cfg) : prog sworld Z :=
  ok* (if absent (resume_delta_mv chg) then ret 0
       else if recharge_disabled chg && chg_inhibit_disabled chg then ret (- EINVAL)
       else smb1360_recharge_threshold_set (resume_delta_mv chg));
  ok* smb1360_masked_write CFG_CHG_MISC_REG CFG_AUTO_RECHG_DIS_BIT
        (if recharge_disabled chg then CFG_AUTO_RECHG_DIS_BIT else 0);
  ok* smb1360_masked_write CFG_CHG_MISC_REG CFG_CHG_INHIBIT_EN_BIT
        (if chg_inhibit_disabled chg then 0 else CFG_CHG_INHIBIT_EN_BIT);
  nn* smb1360_masked_write CFG_BATT_MISSING_REG BATT_MISSING_SRC_THERM_BIT BATT_MISSING_SRC_THERM_BIT;
  ret 0.

Definition hw_irqs (chg : chg_cfg) : prog sworld Z :=
  if sk_client_irq =? 0 then ret 0 else
  nn* smb1360_masked_write CFG_STAT_CTRL_REG
        (Z.lor (Z.lor CHG_STAT_IRQ_ONLY_BIT CHG_STAT_ACTIVE_HIGH_BIT) (Z.lor CHG_STAT_DISABLE_BIT CHG_TEMP_CHG_ERR_BLINK_BIT))
        (if pulsed_irq chg then CHG_TEMP_CHG_ERR_BLINK_BIT else CHG_STAT_IRQ_ONLY_BIT);
  ok* smb1360_write IRQ_CFG_REG
        (Z.lor (Z.lor IRQ_BAT_HOT_COLD_HARD_BIT IRQ_BAT_HOT_COLD_SOFT_BIT)
               (Z.lor (Z.lor IRQ_INTERNAL_TEMPERATURE_BIT IRQ_DCIN_UV_BIT) IRQ_AICL_DONE_BIT));
  ok* smb1360_write IRQ2_CFG_REG
        (Z.lor (Z.lor (Z.lor IRQ2_SAFETY_TIMER_BIT IRQ2_CHG_ERR_BIT) (Z.lor IRQ2_CHG_PHASE_CHANGE_BIT IRQ2_POWER_OK_BIT))
               (Z.lor IRQ2_BATT_MISSING_BIT IRQ2_VBAT_LOW_BIT));
  nn* smb1360_write IRQ3_CFG_REG
        (Z.lor (Z.lor (Z.lor IRQ3_SOC_CHANGE_BIT IRQ3_SOC_MIN_BIT) (Z.lor IRQ3_SOC_MAX_BIT IRQ3_SOC_EMPTY_BIT))
               IRQ3_SOC_FULL_BIT);
  ret 0.

(** Battery identification and the on-the-go current limit. *)
Definition hw_batt_id (chg : chg_cfg) : prog sworld Z :=
  nn* (if batt_id_disabled chg
       then smb1360_masked_write CFG_FG_BATT_CTRL_REG (Z.lor BATT_ID_ENABLED_BIT CHG_BATT_ID_FAIL) CHG_BATT_ID_FAIL
       else ret 0);
  do* when (negb (absent (otg_batt_curr_limit chg))) (
    let i := search_up otg_curr_ma (otg_batt_curr_limit chg) 0 (length otg_curr_ma) in
    let i := if i =? zlen otg_curr_ma then i - 1 else i in
    do* smb1360_masked_write CFG_BATT_CHG_REG OTG_CURRENT_MASK (Z.shiftl i OTG_CURRENT_SHIFT);
    ret tt);
  ret 0.

(** The charger, and the parallel charger, whose answer is the last [rc]. *)
Definition hw_charging : prog sworld Z :=
  let* off := s_gets (fun s => charging_disabled (s_chg s)) in
  let* rc := smb1360_charging_disable USER (if off then 1 else 0) in
  let* par := s_gets (fun s => parallel_charging (s_lim s)) in
  if par then smb1360_parallel_charger_enable PARALLEL_USER (negb off) else ret rc.

Definition smb1360_hw_init : prog sworld Z :=
  let* chg := s_gets s_chg in
  do* smb1360_check_feature_support;
  nn* smb1360_enable_volatile_writes;
  nn* smb1360_poweron;
  ok* hw_gains chg;
  do* smb1360_check_batt_profile;
  ok* hw_pins chg;
  hw_iterm (Z.lor AICL_ENABLED_BIT INPUT_UV_GLITCH_FLT_20MS_BIT) (fun reg =>
  ok* hw_safety chg reg;
  ok* hw_recharge chg;
  nn* smb1360_jeita_init;
  ok* hw_irqs chg;
  ok* hw_batt_id chg;
  nn* smb1360_fg_config;
  hw_charging).

(** ** The device tree *)

(** [of_property_read_u32(node, name, &member)]: an error leaves the member. *)
Definition dt_u32 (name : string) (store : Z -> prog sworld unit) : prog sworld Z :=
  match sk_u32 name with
  | inl e => ret e
  | inr v => do* store (s32 v); ret 0
  end.

(** ... and [-EINVAL] in the member when it fails. *)
Definition dt_optional (name : string) (store : Z -> prog sworld unit) : prog sworld Z :=
  let* rc := dt_u32 name store in
  do* when (rc <? 0) (store (- EINVAL));
  ret rc.

(** [rc = of_property_read_u32(...); if (rc) return -EINVAL; k]. *)
Definition dt_required (name : string) (store : Z -> prog sworld unit) (k : prog sworld Z) : prog sworld Z :=
  let* rc := dt_u32 name store in if negb (rc =? 0) then ret (- EINVAL) else k.

Definition s64 (z : Z) : Z := (z + 2 ^ 63) mod 2 ^ 64 - 2 ^ 63.

(** The resistor of the battery from the voltage over it. *)
Definition rid_of (vref rpull batt_id_uv : Z) : option Z :=
  if batt_id_uv =? 0 then None else
  let denom := Z.quot (vref * 1000000) batt_id_uv - 1000000 in
  if denom =? 0 then None else Some (u32 (Z.quot (rpull * 1000000 + Z.quot denom 2) denom)).

Definition smb_parse_batt_id : prog sworld Z :=
  ok* s_call sk_vadc Vadc;
  nn* dt_u32 "qcom,profile-a-rid-kohm" (fun v => set_fg (with_profile_rid_a (u32 v)));
  nn* dt_u32 "qcom,profile-b-rid-kohm" (fun v => set_fg (with_profile_rid_b (u32 v)));
  match sk_u32 "qcom,batt-id-vref-uv" with
  | inl e => ret e
  | inr vref =>
      match sk_u32 "qcom,batt-id-rpullup-kohm" with
      | inl e => ret e
      | inr rpull =>
          let* r := s_call sk_vadc_read (fun r => Vadc (fst r)) in
          if negb (fst r =? 0) then ret (fst r) else
          match rid_of (s32 vref) (s32 rpull) (s64 (snd r)) with
          | None => ret 0
          | Some rid => do* set_fg (with_connected_rid rid); ret 0
          end
      end
  end.

Definition smb1360_parse_jeita_params : prog sworld Z :=
  let soft (rc : Z) :=
    if sk_bool "qcom,soft-jeita-supported" then
      dt_required "qcom,warm-bat-decidegc" (fun v => set_jeita (with_warm_bat_decidegc v)) (
      dt_required "qcom,cool-bat-decidegc" (fun v => set_jeita (with_cool_bat_decidegc v)) (
      dt_required "qcom,cool-bat-mv" (fun v => set_jeita (with_cool_bat_mv v)) (
      dt_required "qcom,warm-bat-mv" (fun v => set_jeita (with_warm_bat_mv v)) (
      dt_required "qcom,cool-bat-ma" (fun v => set_jeita (with_cool_bat_ma v)) (
      dt_required "qcom,warm-bat-ma" (fun v => set_jeita (with_warm_bat_ma v)) (
      do* set_jeita (with_soft_jeita_supported true); ret 0))))))
    else ret rc in
  if sk_bool "qcom,config-hard-thresholds" then
    dt_required "qcom,cold-bat-decidegc" (fun v => set_jeita (with_cold_bat_decidegc v)) (
    dt_required "qcom,hot-bat-decidegc" (fun v => set_jeita (with_hot_bat_decidegc v)) (
    do* set_jeita (with_config_hard_thresholds true);
    soft 0))
  else soft 0.

Definition smb1360_parse_parallel_charging_params : prog sworld Z :=
  if sk_bool "qcom,parallel-charging-enabled" then
    let* ten := s_gets (fun s => rsense_10mohm (s_chg s)) in
    if negb ten then ret 0 else
    do* set_lim (fun l => with_max_parallel_chg_current MAX_PARALLEL_CURRENT (with_parallel_charging true l));
    do* dt_u32 "qcom,max-parallel-current-ma" (fun v => set_lim (with_max_parallel_chg_current v));
    do* set_ctl (fun c => with_parallel_chg_disable_status (Z.lor (parallel_chg_disable_status c) PARALLEL_CURRENT) c);
    ret 0
  else ret 0.

Definition parse_thermal : prog sworld Z :=
  match sk_array "qcom,thermal-mitigation" with
  | None => ret 0
  | Some (b, cells) =>
      do* set_lim (with_thermal_levels b);
      let* ok := s_call sk_alloc Kzalloc in
      if negb ok then ret (- ENOMEM) else
      do* set_lim (fun l => with_thermal_levels (b / 4) (with_thermal_mitigation (Some (replicate (Z.to_nat (b / 4)) 0)) l));
      match cells with
      | inl e => ret e
      | inr l => do* set_lim (with_thermal_mitigation (Some l)); ret 0
      end
  end.

(** The properties of the fuel gauge. *)
Definition parse_fg : prog sworld Z :=
  do* set_fg (with_empty_soc_disabled (sk_bool "qcom,empty-soc-disabled"));
  do* dt_optional "qcom,fg-delta-soc" (fun v => set_fg (with_delta_soc v));
  do* dt_optional "qcom,fg-soc-max" (fun v => set_fg (with_soc_max v));
  do* dt_optional "qcom,fg-soc-min" (fun v => set_fg (with_soc_min v));
  do* set_fg (with_awake_min_soc (sk_bool "qcom,awake-min-soc"));
  do* dt_optional "qcom,fg-voltage-min-mv" (fun v => set_fg (with_voltage_min_mv v));
  do* dt_optional "qcom,fg-voltage-empty-mv" (fun v => set_fg (with_voltage_empty_mv v));
  do* dt_optional "qcom,fg-batt-capacity-mah" (fun v => set_fg (with_batt_capacity_mah v));
  do* dt_optional "qcom,fg-cc-soc-coeff" (fun v => set_fg (with_cc_soc_coeff v));
  do* dt_optional "qcom,fg-cutoff-voltage-mv" (fun v => set_fg (with_v_cutoff_mv v));
  do* dt_optional "qcom,fg-iterm-ma" (fun v => set_fg (with_fg_iterm_ma v));
  do* dt_optional "qcom,fg-ibatt-standby-ma" (fun v => set_fg (with_fg_ibatt_standby_ma v));
  do* dt_optional "qcom,thermistor-c1-coeff" (fun v => set_fg (with_fg_thermistor_c1_coeff v));
  do* dt_optional "qcom,fg-cc-to-cv-mv" (fun v => set_fg (with_fg_cc_to_cv_mv v));
  do* dt_optional "qcom,otg-batt-curr-limit" (fun v => set_chg (with_otg_batt_curr_limit v));
  do* dt_optional "qcom,fg-auto-recharge-soc" (fun v => set_fg (with_fg_auto_recharge_soc v));
  if sk_bool "qcom,fg-reset-at-pon" then
    do* set_fg (with_fg_reset_at_pon true);
    let* rc := dt_u32 "qcom,fg-reset-thresold-mv" (fun v => set_fg (with_fg_reset_threshold_mv v)) in
    do* when (negb (rc =? 0)) (set_fg (with_fg_reset_threshold_mv FG_RESET_THRESHOLD_MV));
    ret 0
  else ret 0.

(** From the thermal limits on. *)
Definition parse_limits : prog sworld Z :=
  ok* parse_thermal;
  nn* smb1360_parse_jeita_params;
  parse_fg.

(** The properties of the charger, after the battery and the switch. *)
Definition parse_chg : prog sworld Z :=
  do* set_chg (with_pulsed_irq (sk_bool "qcom,stat-pulsed-irq"));
  do* dt_optional "qcom,float-voltage-mv" (fun v => set_chg (with_vfloat_mv v));
  let* rc := dt_optional "qcom,charging-timeout" (fun v => set_chg (with_safety_time v)) in
  let* time := s_gets (fun s => safety_time (s_chg s)) in
  if (rc =? 0) && (nth 3 chg_time 0 <? time) then ret (- EINVAL) else
  do* dt_optional "qcom,recharge-thresh-mv" (fun v => set_chg (with_resume_delta_mv v));
  do* set_chg (with_recharge_disabled (sk_bool "qcom,recharge-disabled"));
  do* dt_optional "qcom,iterm-ma" (fun v => set_chg (with_iterm_ma v));
  do* set_chg (with_iterm_disabled (sk_bool "qcom,iterm-disabled"));
  do* set_chg (with_chg_inhibit_disabled (sk_bool "qcom,chg-inhibit-disabled"));
  do* set_chg (with_charging_disabled (sk_bool "qcom,charging-disabled"));
  do* set_chg (with_batt_id_disabled (sk_bool "qcom,batt-id-disabled"));
  do* set_chg (with_shdn_after_pwroff (sk_bool "qcom,shdn-after-pwroff"));
  do* set_chg (with_min_icl_usb100 (sk_bool "qcom,min-icl-100ma"));
  ok* smb1360_parse_parallel_charging_params;
  parse_limits.

Definition smb_parse_dt : prog sworld Z :=
  if negb sk_of_node then ret (- EINVAL) else
  do* set_chg (with_rsense_10mohm (sk_bool "qcom,rsense-10mhom"));
  nn* (if sk_bool "qcom,batt-profile-select" then smb_parse_batt_id else ret 0);
  do* set_chg (with_otg_fet_present (sk_bool "qcom,otg-fet-present"));
  if sk_bool "qcom,otg-fet-present" then
    let gpio := sk_of_gpio "qcom,otg-fet-enable-gpio" in
    do* set_chg (with_otg_fet_enable_gpio gpio);
    if negb (sk_gpio_is_valid gpio) then ret gpio else parse_chg
  else parse_chg.

(** ** Binding the driver *)

(** [devm_kzalloc] of the chip: everything zero; the client keeps its address
    and [handlers] is static. *)
Definition zero_chip (s : sworld) : sworld :=
  mkS (mkChg false false false false false false false false false false 0 0 0 0 0 0)
    (mkJeita false false 0 0 0 0 0 0 0 0) (mkLim false 0 0 None)
    (mkFg 0 0 0 0 0 0 0 0 0 0 0 0 0 false false 0 false 0 0 0)
    (mkFlags false false false false false false false false 0 0)
    (mkCtl 0 0 0 0 0 0 0 0 false 0 0 false false)
    (mkI2c (client_addr (s_i2c s)) 0 0 0 0 0 0 0) (mkPm false false [0; 0; 0])
    (s_irqs s) [] (s_trace s).

Definition smb1360_regulator_init : prog sworld Z :=
  let* r := s_gets (fun s => sk_regulator (s_trace s)) in
  match r with
  | None => ret (- ENOMEM)
  | Some rc =>
      if sk_regulator_name then
        do* s_do (RegulatorRegister rc);
        do* set_ctl (with_otg_rdev (rc =? 0));
        ret rc
      else ret 0
  end.

(** The labels [unregister_batt_psy] and [fail_hw_init]. *)
Definition fail_hw_init (rc : Z) : prog sworld Z := do* s_do RegulatorUnregister; ret rc.
Definition unregister_batt_psy (rc : Z) : prog sworld Z := do* s_do PsyUnregister; fail_hw_init rc.

(** From [power_supply_register] on. *)
Definition probe_register : prog sworld Z :=
  let* rc := s_call sk_psy_register PsyRegister in
  if rc <? 0 then fail_hw_init rc else
  let done := (do* s_do Debugfs; do* smb1360_get_prop_batt_capacity; ret 0) in
  if sk_client_irq =? 0 then done else
  let* rc := s_call sk_request_irq IrqRequest in
  if rc <? 0 then unregister_batt_psy rc else
  do* s_do IrqWake;
  done.

(** From [device_init_wakeup] on. *)
Definition probe_start : prog sworld Z :=
  do* s_do InitWakeup;
  do* set_pm (with_resume_completed true);
  do* set_i2c (fun b => with_default_i2c_addr (client_addr b) b);
  let* rc := smb1360_hw_init in
  if rc <? 0 then fail_hw_init rc else
  ok* smb1360_regulator_init;
  let* rc := determine_initial_status in
  if rc <? 0 then fail_hw_init rc else
  probe_register.

Definition smb1360_probe : prog sworld Z :=
  let* usb := s_call (fun tr => sk_psy_by_name tr "usb") (PsyByName "usb") in
  if negb usb then ret (- EPROBE_DEFER) else
  let* ok := s_call sk_alloc Kzalloc in
  if negb ok then ret (- ENOMEM) else
  do* modify zero_chip;
  do* set_ctl (with_fake_battery_soc (- EINVAL));
  let* r := smb1360_read CFG_BATT_CHG_REG 0 in
  if negb (fst r =? 0) then ret (- ENODEV) else
  let* rev := read_revision in
  do* set_ctl (with_revision (snd rev));
  nn* smb_parse_dt;
  probe_start.

Definition smb1360_remove : prog sworld Z :=
  do* s_do RegulatorUnregister;
  do* s_do PsyUnregister;
  do* s_do MutexDestroy;
  do* s_do Debugfs;
  ret 0.

End SmbInit.

(** ** What the set-up leaves alone *)

(** The program returns from every state of [R], in a state of [R'], with the
    flags, the state of suspend, the interrupt table and line as before. *)
Definition leads (R R' : sworld -> Prop) {A} (c : prog sworld A) : Prop :=
  forall s, R s -> exists a s', c s = Ret a s' /\ R' s' /\ watch s' = watch s.
Notation boots R := (leads R R).

(** A weaker condition, and a condition that does not read the trace. *)
Class Weaker (R R' : sworld -> Prop) := weaker : forall s, R s -> R' s.
Class Stable (R : sworld -> Prop) := stable_more : forall es s, R s -> R (more es s).

#[export] Instance weaker_refl R : Weaker R R.
Proof. by intros s. Qed.

Section Boots.
Context (R R' : sworld -> Prop) `{!Weaker R R'}.

Lemma boots_ret {A} (a : A) : leads R R' (ret a).
Proof. intros s Hs. exists a, s. split; [done|]. split; [by apply weaker|done]. Qed.

Lemma boots_bind {A B} (c : prog sworld A) (k : A -> prog sworld B) :
  boots R c -> (forall a, leads R R' (k a)) -> leads R R' (bind c k).
Proof.
  intros Hc Hk s Hs. destruct (Hc s Hs) as (a & s1 & E & Hs1 & W1). destruct (Hk a s1 Hs1) as (b & s2 & E2 & Hs2 & W2).
  exists b, s2. rewrite (bind_Ret _ _ _ _ _ E). split; [done|]. split; [done|]. by rewrite W2.
Qed.

Lemma boots_and_then c k : boots R c -> leads R R' k -> leads R R' (and_then c k).
Proof. intros Hc Hk. apply boots_bind; [done|]. intros rc. destruct (rc =? 0); [done|apply boots_ret]. Qed.

Lemma boots_unless_neg c k : boots R c -> leads R R' k -> leads R R' (unless_neg c k).
Proof. intros Hc Hk. apply boots_bind; [done|]. intros rc. destruct (rc <? 0); [apply boots_ret|done]. Qed.

End Boots.

Section BootsSame.
Context (R : sworld -> Prop).

Lemma boots_gets {A} (f : sworld -> A) : boots R (s_gets f).
Proof. intros s Hs. by exists (f s), s. Qed.

Lemma boots_when b c : boots R c -> boots R (when b c).
Proof. intros. destruct b; [done|apply (boots_ret R R)]. Qed.

Lemma boots_step_if b c rc k : boots R c -> (forall rc, boots R (k rc)) -> boots R (step_if b c rc k).
Proof.
  intros Hc Hk. unfold step_if. destruct b; [|done]. apply boots_bind; [done|]. intros rc'.
  destruct (rc' =? 0); [done|apply (boots_ret R R)].
Qed.

(** An update of the configuration. *)
Lemma boots_modify (f : sworld -> sworld) :
  (forall s, R s -> R (f s)) -> (forall s, watch (f s) = watch s) -> boots R (modify f).
Proof. intros HR HW s Hs. exists tt, (f s). split; [done|]. split; [by apply HR|done]. Qed.

Context `{!Stable R}.

Lemma boots_do e : plain e -> boots R (s_do e).
Proof.
  intros He s Hs. exists tt, (more [e] s). split; [done|]. split; [by apply stable_more|].
  apply frame_more. by repeat constructor.
Qed.

Lemma boots_call {A} (f : list seffect -> A) e : (forall a, plain (e a)) -> boots R (s_call f e).
Proof.
  intros He s Hs. exists (f (s_trace s)), (more [e (f (s_trace s))] s). split; [done|]. split; [by apply stable_more|].
  apply frame_more. by repeat constructor.
Qed.

End BootsSame.

(** A bound driver's operations, during the set-up. *)
Lemma boots_keeps L {A} (c : prog sworld A) : keeps L watch c -> boots ready c.
Proof.
  intros Hc s Hs. destruct (Hc s (ready_idle L s Hs)) as (a & s' & E & HS & Hl & HW); [apply Hs|].
  exists a, s'. split; [done|]. split; [by eapply ready_setup|done].
Qed.

Lemma boots_regs {A} (c : prog sworld A) : reg_only c -> boots ready c.
Proof. intros Hc. apply (boots_keeps [read_write_lock]), keeps_reg_only; [exact _|left|done]. Qed.

#[export] Instance ready_stable : Stable ready.
Proof. intros es s Hs. done. Qed.

(** Before the client's address is known: no lock is held, the tables are in
    order, and the client has the address [a]; [fresh] while there is no thermal
    table. *)
Definition unbound (a : Z) (s : sworld) : Prop :=
  s_locks s = [] /\ client_addr (s_i2c s) = a /\ level_ok s /\ row_reg <$> s_irqs s = irq_regs.

#[export] Instance unbound_stable a : Stable (unbound a).
Proof. intros es s Hs. done. Qed.

Definition fresh (a : Z) (s : sworld) : Prop :=
  unbound a s /\ thermal_mitigation (s_lim s) = None /\ therm_lvl_sel (s_ctl s) = 0.

#[export] Instance fresh_stable a : Stable (fresh a).
Proof. intros es s Hs. done. Qed.

#[export] Instance fresh_unbound a : Weaker (fresh a) (unbound a).
Proof. by intros s []. Qed.

(** Walks along the text of a program of the set-up. *)
Ltac boot_step :=
  lazymatch goal with
  | |- leads _ _ (ret _) => apply boots_ret; exact _
  | |- leads _ _ (s_gets _) => apply boots_gets
  | |- leads _ _ (s_do _) => apply boots_do; [exact _|done]
  | |- leads _ _ (s_call _ _) => apply boots_call; [exact _|done]
  | |- leads _ _ (when _ _) => apply boots_when
  | |- leads _ _ (and_then _ _) => apply boots_and_then; [exact _|..]
  | |- leads _ _ (unless_neg _ _) => apply boots_unless_neg; [exact _|..]
  | |- leads _ _ (step_if _ _ _ _) => apply boots_step_if; [|intros ?]
  | |- leads _ _ (set_ctl _) => apply boots_modify; done
  | |- leads _ _ (set_chg _) => apply boots_modify; done
  | |- leads _ _ (set_lim _) => apply boots_modify; done
  | |- leads _ _ (set_fg _) => apply boots_modify; done
  | |- leads _ _ (set_jeita _) => apply boots_modify; done
  | |- leads _ _ (bind _ _) => apply boots_bind; [|intros ?]
  | |- leads _ _ (if ?b then _ else _) => destruct b
  | |- leads _ _ (match ?x with _ => _ end) => destruct x
  | |- leads _ _ (let _ := _ in _) => cbv zeta
  | |- leads _ _ _ => first
      [ solve [eauto with smb]
      | apply boots_regs; solve [eauto with smb]
      | eapply boots_keeps; solve [eauto with smb] ]
  end.
Ltac boot := repeat boot_step.

Section SmbInitFacts.
Context `{SmbKernel}.

(** ** The battery profile and the hardware *)

Lemma reg_only_access_poll n reg : reg_only (access_poll n reg).
Proof. revert reg. induction n as [|n IH]; intros reg; cbn [access_poll]; regs; apply IH. Qed.

Lemma reg_only_profile_poll n new reg : reg_only (profile_poll n new reg).
Proof. revert reg. induction n as [|n IH]; intros reg; cbn [profile_poll]; regs; apply IH. Qed.

Lemma reg_only_check_profile : reg_only smb1360_check_batt_profile.
Proof.
  unfold smb1360_check_batt_profile, switch_profile. regs; [apply reg_only_access_poll|apply reg_only_profile_poll].
Qed.

Lemma reg_only_write2 reg z : reg_only (write2 reg z).
Proof. unfold write2. regs. Qed.
#[local] Hint Resolve reg_only_write2 reg_only_float_voltage_set : smb.

Lemma reg_only_step_if b c rc k : reg_only c -> (forall rc, reg_only (k rc)) -> reg_only (step_if b c rc k).
Proof. intros Hc Hk. unfold step_if. by regs. Qed.

Ltac steps := repeat first [apply reg_only_step_if; [|intros ?] | reg_step].

Lemma reg_only_fg_config : reg_only smb1360_fg_config.
Proof.
  unfold smb1360_fg_config, fg_config_rest, fg_reset_check, fg_thresholds, fg_scratch_part, fg_scratch, fg_capacity, fg_recharge.
  steps.
Qed.

Lemma boots_gain g : boots ready (smb1360_otp_gain_config g).
Proof. eapply boots_keeps, (keeps_gain_config [read_write_lock]). left. Qed.

Lemma boots_threshold c h : boots ready (smb1360_set_soft_jeita_threshold c h).
Proof. eapply boots_keeps, keeps_jeita_threshold. Qed.

Lemma boots_soft_comp b : boots ready (smb1360_soft_jeita_comp_enable b).
Proof. apply boots_regs. unfold smb1360_soft_jeita_comp_enable. regs. Qed.
#[local] Hint Resolve boots_gain boots_threshold boots_soft_comp : smb.

Lemma boots_jeita_init : boots ready smb1360_jeita_init.
Proof.
  unfold smb1360_jeita_init, smb1360_set_jeita_comp_curr. boot.
Qed.

Lemma boots_charging : boots ready hw_charging.
Proof.
  unfold hw_charging. boot; eapply boots_keeps; [apply keeps_charging_disable|apply keeps_parallel_enable].
Qed.

#[local] Hint Resolve boots_jeita_init boots_charging reg_only_check_profile reg_only_fg_config : smb.

Lemma boots_hw_init : boots ready smb1360_hw_init.
Proof.
  unfold smb1360_hw_init, smb1360_check_feature_support, is_usb100_broken, smb1360_enable_volatile_writes, smb1360_poweron,
    smb1360_enable, hw_gains, hw_pins, hw_iterm, hw_safety, hw_recharge, hw_irqs, hw_batt_id, smb1360_recharge_threshold_set.
  boot.
Qed.

(** ** The device tree *)

Lemma boots_dt_u32 R name store : (forall v, boots R (store v)) -> boots R (dt_u32 name store).
Proof. intros Hs. unfold dt_u32. by boot. Qed.

Lemma boots_dt_optional R name store : (forall v, boots R (store v)) -> boots R (dt_optional name store).
Proof. intros Hs. unfold dt_optional. boot; auto using boots_dt_u32. Qed.

Lemma boots_dt_required R name store k :
  (forall v, boots R (store v)) -> boots R k -> boots R (dt_required name store k).
Proof. intros Hs Hk. unfold dt_required. boot; auto using boots_dt_u32. Qed.

Ltac dt := repeat first
  [ apply boots_dt_optional; intros ? | apply boots_dt_required; [intros ?|] | apply boots_dt_u32; intros ? | boot_step ].

Lemma boots_jeita_params a : boots (unbound a) smb1360_parse_jeita_params.
Proof. unfold smb1360_parse_jeita_params. dt. Qed.

Lemma boots_fg_params a : boots (unbound a) parse_fg.
Proof. unfold parse_fg. dt. Qed.

Lemma boots_batt_id a : boots (fresh a) smb_parse_batt_id.
Proof. unfold smb_parse_batt_id. dt. Qed.

#[local] Hint Resolve boots_jeita_params boots_fg_params boots_batt_id : smb.

Lemma boots_parallel_params a : boots (fresh a) smb1360_parse_parallel_charging_params.
Proof. unfold smb1360_parse_parallel_charging_params. dt. Qed.

(** The thermal table has as many levels as the property has cells. *)
Lemma thermal_leads a : leads (fresh a) (unbound a) parse_thermal.
Proof.
  intros s ((Hl & Ha & Hv & Hr) & Hn & H0). unfold parse_thermal.
  destruct (sk_array _) as [[b cells]|] eqn:E; [|by exists 0, s].
  destruct (sk_array_len _ _ _ E) as [Hb Hc]. unfold set_lim, s_call, modify, bind, ret, negb. cbn.
  set (e := Kzalloc (sk_alloc (s_trace s))).
  assert (0 <= b / 4 < 2 ^ 32) as Hb4 by (split; [apply Z.div_pos; lia|apply Z.div_lt_upper_bound; lia]).
  destruct (sk_alloc (s_trace s)); [destruct cells as [e'|l]|]; (eexists _, _; split; [reflexivity|]).
  - split; [|by unfold watch; cbn; rewrite irq_off_app, Z.add_0_r]. split; [done|]. split; [done|]. split; [|done].
    unfold level_ok. cbn. unfold zlen. rewrite length_replicate, Z2Nat.id by lia. rewrite H0. auto with lia.
  - split; [|by unfold watch; cbn; rewrite irq_off_app, Z.add_0_r]. split; [done|]. split; [done|]. split; [|done].
    unfold level_ok. cbn. rewrite (Hc l eq_refl), H0. auto with lia.
  - split; [|by unfold watch; cbn; rewrite irq_off_app, Z.add_0_r]. split; [done|]. split; [done|]. split; [|done].
    unfold level_ok. cbn. by rewrite Hn.
Qed.

Lemma limits_leads a : leads (fresh a) (unbound a) parse_limits.
Proof.
  intros s Hs. destruct (thermal_leads a s Hs) as (rc & s1 & E & Hs1 & W1).
  unfold parse_limits, and_then. rewrite (bind_Ret _ _ _ _ _ E). rewrite <- W1.
  destruct (rc =? 0); [|by exists rc, s1]. clear E W1. revert s1 Hs1.
  change (boots (unbound a) (nn* smb1360_parse_jeita_params; parse_fg)). boot.
Qed.
#[local] Hint Resolve boots_parallel_params limits_leads : smb.

Lemma parse_dt_leads a : leads (fresh a) (unbound a) smb_parse_dt.
Proof. unfold smb_parse_dt, parse_chg. dt. Qed.

(** ** The initial status *)

Lemma has_bit v n : 0 <= n -> has v (2 ^ n) = Z.testbit v n.
Proof.
  intros Hn. unfold has. destruct (Z.testbit v n) eqn:E.
  - apply negb_true_iff, Z.eqb_neq. intros E0. apply (f_equal (fun z => Z.testbit z n)) in E0.
    by rewrite Z.land_spec, Z.pow2_bits_true, E, Z.bits_0 in E0.
  - apply negb_false_iff, Z.eqb_eq, Z.bits_inj'. intros k Hk. rewrite Z.land_spec, Z.pow2_bits_eqb, Z.bits_0 by done.
    destruct (Z.eqb_spec n k) as [<-|]; [by rewrite E|by rewrite andb_false_r].
Qed.

(** What the initial status leaves alone. *)
Definition status_read (s s' : sworld) : Prop :=
  ready s' /\ s_pm s' = s_pm s /\ irq_off (s_trace s') = irq_off (s_trace s) /\ s_ctl s' = s_ctl s
  /\ s_jeita s' = s_jeita s.

Lemma status_read_more es s t : Forall plain es -> status_read s t -> status_read s (more es t).
Proof. intros He (H1 & H2 & H3 & H4). split; [done|]. split; [done|]. split; [by rewrite irq_off_more|done]. Qed.

Lemma status_read_row v i s t : status_read s t -> status_read s (with_s_irqs (alter (with_row_prev v) i (s_irqs t)) t).
Proof.
  intros ((Hl & Ha & Hv & Hr) & H2). split; [|done]. repeat split; try done. cbn. by rewrite fmap_alter_same.
Qed.

(** A status register is read: an error ends the function, or its value is in
    the table. *)
Lemma initial_reg_then s0 irq_reg old k s (P : Z -> sworld -> Prop) :
  status_read s0 s -> (forall rc s', rc < 0 -> status_read s0 s' -> P rc s') ->
  (forall v es,
     let s1 := with_s_irqs (alter (with_row_prev v) (Z.to_nat (irq_reg - IRQ_A_REG)) (s_irqs s)) (more es s) in
     status_read s0 s1 -> exists rc s', k v s1 = Ret rc s' /\ P rc s') ->
  exists rc s', initial_reg irq_reg old k s = Ret rc s' /\ P rc s'.
Proof.
  intros Hs Herr Hok. unfold initial_reg. pose proof (read_run irq_reg old s (ready_idle _ _ (proj1 Hs))) as E.
  destruct (negb _); [|cbv zeta in E; set (r := sk_read _ _ _) in E; set (e := I2cRead _ _ _) in E];
    rewrite (bind_Ret _ _ _ _ _ E).
  - specialize (Hok 0 []). rewrite more_nil in Hok. by apply Hok, status_read_row.
  - assert (status_read s0 (more [e] s)) as He by (apply status_read_more; [by repeat constructor|done]).
    destruct (r <? 0) eqn:Er; cbn [fst snd].
    + rewrite Er. exists r, (more [e] s). split; [done|]. apply Herr; [lia|done].
    + apply (Hok (u8 r) [e]), (status_read_row _ _ _ (more [e] s)), He.
Qed.

Lemma when_st b g s :
  when b (set_st g) s = Ret tt (with_s_st (if b then g (s_st s) else s_st s) s).
Proof. destruct b; [done|]. unfold when, ret. by destruct s. Qed.

(** The table after the four registers were read, and flags that agree. *)
Lemma rows_mirror hard off f rows vA vB vC vE :
  row_reg <$> rows = irq_regs -> Forall (fun r => row_prev r = 0) rows ->
  batt_hot f = Z.testbit vA 6 -> batt_cold f = Z.testbit vA 4 ->
  (hard = false -> batt_warm f = Z.testbit vA 2 /\ batt_cool f = Z.testbit vA 0) ->
  usb_present f = negb (Z.testbit vE 0) -> empty_soc f = false ->
  Forall (fun c => mirror_row hard off c.1.1 c.2 f)
    (row_core <$> alter (with_row_prev vE) 4%nat (alter (with_row_prev vA) 0%nat
       (alter (with_row_prev vC) 2%nat (alter (with_row_prev vB) 1%nat rows)))).
Proof.
  intros Hr Hp Hh Hc Hs Hu He.
  destruct rows as [|[] [|[] [|[] [|[] [|[] [|[] [|[] [|[] [|[] [|]]]]]]]]]]; try discriminate Hr.
  unfold irq_regs in Hr. cbn in Hr. injection Hr as -> -> -> -> -> -> -> -> ->.
  rewrite !Forall_cons in Hp. cbn in Hp. destruct_and!. subst.
  repeat constructor; cbn -[Z.testbit]; intros; try done; by apply Hs.
Qed.

(** The temperature flags of a status, when the chip decides. *)
Definition temp_flags (hard : bool) (reg : Z) (f : flags) : flags :=
  let f := if has reg IRQ_A_HOT_HARD_BIT then with_batt_hot true f else f in
  let f := if has reg IRQ_A_COLD_HARD_BIT then with_batt_cold true f else f in
  if hard then f else
  let f := if has reg IRQ_A_HOT_SOFT_BIT then with_batt_warm true f else f in
  if has reg IRQ_A_COLD_SOFT_BIT then with_batt_cool true f else f.

Lemma temp_flags_spec hard v f :
  batt_hot f = false -> batt_cold f = false -> batt_warm f = false -> batt_cool f = false ->
  let f' := temp_flags hard v f in
  batt_hot f' = Z.testbit v 6 /\ batt_cold f' = Z.testbit v 4
  /\ (hard = false -> batt_warm f' = Z.testbit v 2 /\ batt_cool f' = Z.testbit v 0) /\ empty_soc f' = empty_soc f.
Proof.
  destruct f; cbn -[Z.testbit]. intros -> -> -> ->. unfold temp_flags.
  assert (has v IRQ_A_HOT_HARD_BIT = Z.testbit v 6) as -> by by apply (has_bit v 6).
  assert (has v IRQ_A_COLD_HARD_BIT = Z.testbit v 4) as -> by by apply (has_bit v 4).
  assert (has v IRQ_A_HOT_SOFT_BIT = Z.testbit v 2) as -> by by apply (has_bit v 2).
  assert (has v IRQ_A_COLD_SOFT_BIT = Z.testbit v 0) as -> by by apply (has_bit v 0).
  destruct (Z.testbit v 6), (Z.testbit v 4), hard, (Z.testbit v 2), (Z.testbit v 0); cbn; repeat split; done.
Qed.

Lemma initial_temperature_run reg s :
  initial_temperature reg s = Ret tt (
    if has (workaround_flags (s_ctl s)) WRKRND_HARD_JEITA then more [JeitaSchedule 0] s
    else with_s_st (temp_flags (hard_of s) reg (s_st s)) s).
Proof.
  unfold initial_temperature, hard_of. rewrite bind_unfold. unfold s_gets at 1. rewrite bind_unfold. unfold s_gets at 1.
  destruct (has (workaround_flags (s_ctl s)) WRKRND_HARD_JEITA); [done|].
  rewrite (bind_Ret _ _ _ _ _ (when_st _ _ _)), (bind_Ret _ _ _ _ _ (when_st _ _ _)). unfold temp_flags.
  destruct (config_hard_thresholds (s_jeita s)); cbn [negb when]; [done|].
  rewrite (bind_Ret _ _ _ _ _ (when_st _ _ _)), when_st. done.
Qed.

Lemma initial_status_run s :
  ready s -> s_st s = mkFlags false false false false false false false false 0 0 ->
  Forall (fun r => row_prev r = 0) (s_irqs s) ->
  exists rc s', determine_initial_status s = Ret rc s' /\ rc <= 0 /\ status_read s s'
    /\ (rc = 0 -> has (workaround_flags (s_ctl s)) WRKRND_HARD_JEITA = false -> mirrors s').
Proof.
  intros Hs Hst Hp. unfold determine_initial_status. rewrite bind_unfold. unfold set_st at 1, modify at 1.
  set (s0 := with_s_st _ s). assert (status_read s s0) as H0 by done.
  assert (forall rc s', rc < 0 -> status_read s s' -> rc <= 0 /\ status_read s s'
    /\ (rc = 0 -> has (workaround_flags (s_ctl s)) WRKRND_HARD_JEITA = false -> mirrors s')) as Herr
    by (intros; split; [lia|]; split; [done|lia]).
  apply (initial_reg_then s); [done|done|]. intros vB es1 s1 H1. rewrite (bind_Ret _ _ _ _ _ (when_st _ _ _)).
  apply (initial_reg_then s); [done|done|]. intros vC es2 s2 H2. rewrite (bind_Ret _ _ _ _ _ (when_st _ _ _)).
  apply (initial_reg_then s); [done|done|]. intros vA es3 s3 H3.
  rewrite (bind_Ret _ _ _ _ _ (initial_temperature_run _ _)).
  assert (s_ctl s3 = s_ctl s) as Hctl by apply H3. rewrite Hctl. fold s1.
  destruct (has (workaround_flags (s_ctl s)) WRKRND_HARD_JEITA) eqn:Ew.
  - apply (initial_reg_then s); [apply status_read_more; [by repeat constructor|done]|done|]. intros vE es4 s4 H4.
    eexists 0, _. split; [reflexivity|]. split; [done|]. split; [|done].
    apply (status_read_more [UsbPresent _] s (with_s_st _ s4)); [by repeat constructor|done].
  - apply (initial_reg_then s); [done|done|]. intros vE es4 s4 H4.
    eexists 0, _. split; [reflexivity|]. split; [done|]. split.
    { apply (status_read_more [UsbPresent _] s (with_s_st _ s4)); [by repeat constructor|done]. }
    intros _ _. unfold mirrors. cbn [s_emit more with_s_st with_s_trace s_irqs s_st].
    assert (s_st s3 = with_batt_present (batt_present (s_st s3)) (with_batt_full (batt_full (s_st s3)) (s_st s))) as Est.
    { unfold s3, s2, s1, s0. cbn. rewrite Hst. by destruct (_ || _), (has vC _). }
    destruct (temp_flags_spec (hard_of s3) vA (s_st s3)) as (F1 & F2 & F3 & F4); [by rewrite Est, Hst..|].
    eapply (rows_mirror _ _ _ (s_irqs s) vA vB vC vE); [apply Hs|done|done|done|done| |].
    + cbn -[Z.testbit]. f_equal. by apply (has_bit vE 0).
    + etransitivity; [exact F4|]. by rewrite Est, Hst.
Qed.

(** ** Binding the driver *)

(** Before the address is known the registers can be read already. *)
Lemma boots_first_read a reg old : boots (fresh a) (smb1360_read reg old).
Proof.
  unfold smb1360_read, skipping_reads. boot. intros s Hs.
  destruct (bus_only_read reg old (with_s_locks (read_write_lock :: s_locks s) s)) as (v & es & E & P).
  exists v, (more es s). split; [|split; [done|by apply frame_more]].
  assert (read_write_lock ∉ s_locks s) as Hm by (destruct Hs as ((-> & _) & _); set_solver).
  rewrite (locked_run _ _ _ v _ Hm E) by done. by destruct s.
Qed.

Lemma boots_regulator_init : boots ready smb1360_regulator_init.
Proof. unfold smb1360_regulator_init. boot. Qed.

Lemma reg_only_probe_register : reg_only probe_register.
Proof. unfold probe_register, unregister_batt_psy, fail_hw_init. regs. Qed.

(** The driver is bound. *)
Definition bound_ok (s : sworld) : Prop :=
  ready s /\ protocol s /\ (has (workaround_flags (s_ctl s)) WRKRND_HARD_JEITA = false -> mirrors s).

Lemma fail_hw_init_run (P : sworld -> Prop) rc s :
  rc < 0 -> exists rc' s', fail_hw_init rc s = Ret rc' s' /\ (rc' = 0 -> P s').
Proof. intros Hrc. exists rc, (s_emit RegulatorUnregister s). split; [done|lia]. Qed.

Lemma probe_start_run a s :
  unbound a s -> s_st s = mkFlags false false false false false false false false 0 0 ->
  Forall (fun r => row_prev r = 0) (s_irqs s) -> irq_waiting (s_pm s) = false -> irq_off (s_trace s) = 0 ->
  exists rc s', probe_start s = Ret rc s' /\ (rc = 0 -> bound_ok s').
Proof.
  intros (Hl & Ha & Hv & Hr) Hst Hp Hw Ho. unfold probe_start.
  rewrite (bind_Ret _ _ s tt (s_emit InitWakeup s) eq_refl).
  rewrite (bind_Ret (set_pm _) _ _ tt _ eq_refl), (bind_Ret (set_i2c _) _ _ tt _ eq_refl).
  set (s1 := with_s_i2c _ _). assert (ready s1) as H1 by done.
  assert (irq_off (s_trace s1) = 0) as Ho1 by (cbn; by rewrite irq_off_app, Ho).
  destruct (boots_hw_init s1 H1) as (rc & s2 & E2 & H2 & W2). rewrite bind_unfold, E2.
  destruct (rc <? 0) eqn:Erc; [apply fail_hw_init_run; lia|].
  destruct (boots_regulator_init s2 H2) as (rc2 & s3 & E3 & H3 & W3). unfold and_then. rewrite (bind_Ret _ _ _ _ _ E3).
  destruct (rc2 =? 0) eqn:Erc2; [|exists rc2, s3; split; [done|lia]].
  rewrite W2 in W3. 
  pose proof (f_equal (fun w => w.1.1.1) W3 : s_st s3 = s_st s1) as W3a.
  pose proof (f_equal (fun w => w.1.1.2) W3 : s_pm s3 = s_pm s1) as W3b.
  pose proof (f_equal (fun w => w.1.2) W3 : s_irqs s3 = s_irqs s1) as W3c.
  pose proof (f_equal snd W3 : irq_off (s_trace s3) = irq_off (s_trace s1)) as W3d.
  destruct (initial_status_run s3 H3) as (rc3 & s4 & E4 & Hrc3 & (H4 & Hpm & Hoff & Hctl & _) & Hm);
    [by rewrite W3a|by rewrite W3c|]. rewrite (bind_Ret _ _ _ _ _ E4).
  destruct (rc3 <? 0) eqn:Erc3; [apply fail_hw_init_run; lia|].
  destruct (reg_only_probe_register s4 (ready_idle _ _ H4)) as (rc5 & es & E5 & P5).
  exists rc5, (more es s4). split; [done|]. intros _. split; [done|]. split.
  - unfold protocol. rewrite irq_off_more, Hoff, W3d, Ho1 by done. cbn. rewrite Hpm, W3b. cbn. by rewrite Hw.
  - cbn. rewrite Hctl. apply Hm. lia.
Qed.

(** C20: binding the driver.  Whatever the chip, the bus, the device tree and the
    kernel answer, the probe returns, through every loop that waits for the fuel
    gauge and every error path.  If it returns 0, every mutex is free, the
    client has the charger's address, the thermal level is in its table, no
    interrupt waits and the line is on, and, unless the temperature work is to
    decide, the flags mirror the status registers read: the bound driver of
    which the theorems on the entry points speak. *)
Theorem probe_ready s :
  row_reg <$> s_irqs s = irq_regs -> Forall (fun r => row_prev r = 0) (s_irqs s) -> irq_off (s_trace s) = 0 ->
  exists rc s', smb1360_probe s = Ret rc s' /\ (rc = 0 -> bound_ok s').
Proof.
  intros Hr Hp Ho. unfold smb1360_probe. rewrite bind_unfold. unfold s_call at 1. set (s1 := s_emit _ s).
  assert (irq_off (s_trace s1) = 0) as Ho1 by (cbn; by rewrite irq_off_app, Ho).
  destruct (negb _); [by exists (- EPROBE_DEFER), s1|].
  rewrite bind_unfold. unfold s_call at 1. set (s2 := s_emit _ s1).
  assert (irq_off (s_trace s2) = 0) as Ho2 by (cbn; by rewrite !irq_off_app, Ho).
  destruct (negb _); [by exists (- ENOMEM), s2|].
  rewrite (bind_Ret (modify _) _ _ tt _ eq_refl), (bind_Ret (set_ctl _) _ _ tt _ eq_refl).
  set (s3 := with_s_ctl _ _). set (a := client_addr (s_i2c s)).
  assert (fresh a s3) as H3 by (repeat split; done).
  destruct (boots_first_read a CFG_BATT_CHG_REG 0 s3 H3) as (r & s4 & E4 & H4 & W4). rewrite (bind_Ret _ _ _ _ _ E4).
  destruct (negb _); [by exists (- ENODEV), s4|].
  assert (boots (fresh a) read_revision) as Hrev by (unfold read_revision; boot; apply boots_first_read).
  destruct (Hrev s4 H4) as (rev & s5 & E5 & H5 & W5). rewrite (bind_Ret _ _ _ _ _ E5).
  rewrite (bind_Ret (set_ctl _) _ _ tt _ eq_refl). set (s6 := with_s_ctl _ s5).
  destruct (parse_dt_leads a s6 H5) as (rc & s7 & E7 & H7 & W7). unfold unless_neg. rewrite (bind_Ret _ _ _ _ _ E7).
  destruct (rc <? 0) eqn:Erc; [exists rc, s7; split; [done|lia]|].
  assert (watch s7 = watch s3) as W by (rewrite W7; change (watch s6) with (watch s5); by rewrite W5).
  apply (probe_start_run a); [done|exact (f_equal (fun w => w.1.1.1) W)| | |].
  - by rewrite (f_equal (fun w => w.1.2) W : s_irqs s7 = s_irqs s).
  - by rewrite (f_equal (fun w => w.1.1.2) W : s_pm s7 = s_pm s3).
  - by rewrite (f_equal snd W : irq_off (s_trace s7) = irq_off (s_trace s2)).
Qed.

End SmbInitFacts.

(** ** Witnesses *)

Module InitDemo.
Import Demo.

Definition cold_start : sworld := with_s_trace [] bound.

(** A device tree with every temperature and no thermal table; the battery is
    hot, the supply is in place. *)
Definition cells (n : string) : option Z :=
  if (n =? "qcom,cold-bat-decidegc")%string then Some 0
  else if (n =? "qcom,hot-bat-decidegc")%string then Some 550
  else if (n =? "qcom,cool-bat-decidegc")%string then Some 100
  else if (n =? "qcom,warm-bat-decidegc")%string then Some 450
  else if (n =? "qcom,float-voltage-mv")%string then Some 4200
  else if (n =? "qcom,batt-capacity-mah")%string then Some 2000
  else if (n =? "qcom,cool-bat-mv")%string then Some 4100
  else if (n =? "qcom,warm-bat-mv")%string then Some 4050
  else if (n =? "qcom,cool-bat-ma")%string then Some 600
  else if (n =? "qcom,warm-bat-ma")%string then Some 800
  else None.
Definition start (r : Z) : Z := if r =? 80 then 64 else if r =? 88 then 1 else 0.
Definition chip : SmbKernel := kernel start (fun _ => false) cells.
Definition hard_chip : SmbKernel :=
  kernel start (fun n => (n =? "qcom,config-hard-thresholds")%string || (n =? "qcom,soft-jeita-supported")%string) cells.

Lemma probe_ready_witness :
  exists s', @smb1360_probe chip cold_start = Ret 0 s' /\ bound_ok s' /\ batt_hot (s_st s') = true.
Proof.
  destruct (@probe_ready chip cold_start) as (rc & s' & E & Hok); [reflexivity|repeat constructor|reflexivity|].
  assert (@smb1360_probe chip cold_start = Ret 0 (IrqDemo.after (@smb1360_probe chip cold_start))) as E0 by (vm_compute; reflexivity).
  rewrite E0 in E. destruct (IrqDemo.ret_inj _ _ _ _ E) as [<- <-]. exists (IrqDemo.after (@smb1360_probe chip cold_start)).
  split; [exact E0|]. split; [apply Hok; reflexivity|]. vm_compute. reflexivity.
Defined.

(** With programmed thresholds and soft limits the hard bits are not looked at:
    a hot battery counts as not hot until its bit changes. *)
Example hot_at_boot_missed :
  exists s' r, @smb1360_probe hard_chip cold_start = Ret 0 s' /\ s_irqs s' !! 0%nat = Some r
    /\ Z.testbit (row_prev r) 6 = true /\ batt_hot (s_st s') = false.
Proof. eexists _, _. split; [vm_compute; reflexivity|]. split; [reflexivity|]. split; reflexivity. Qed.

(** The inhibit bit at boot does not count as a full battery, though its change
    does later. *)
Definition inhibit_chip : SmbKernel := kernel (fun r => if r =? 84 then 64 else start r) (fun _ => false) cells.
Example inhibit_at_boot_missed :
  exists s' r, @smb1360_probe inhibit_chip cold_start = Ret 0 s' /\ s_irqs s' !! 4%nat = Some r
    /\ Z.testbit (row_prev r) 6 = true /\ batt_full (s_st s') = false.
Proof. eexists _, _. split; [vm_compute; reflexivity|]. split; [reflexivity|]. split; reflexivity. Qed.

(** Unbinding leaves the temperature work it scheduled. *)
Definition cancelled (e : seffect) : bool := match e with JeitaCancel => true | _ => false end.
Definition scheduled (e : seffect) : bool := match e with JeitaSchedule _ => true | _ => false end.

Example work_outlives_driver :
  exists s1 s2, @smb1360_probe hard_chip cold_start = Ret 0 s1 /\ smb1360_remove s1 = Ret 0 s2
    /\ existsb scheduled (s_trace s2) = true /\ existsb cancelled (s_trace s2) = false.
Proof. eexists _, _. split; [vm_compute; reflexivity|]. split; [vm_compute; reflexivity|]. split; reflexivity. Qed.

End InitDemo.
