(* ===== verification/SmbDebug.v ===== *)
(** * The charger driver: the debug files

    [smb1360-charger-fg.c]: the files of [/sys/kernel/debug/smb1360] that peek
    and poke registers of the charger and of the fuel gauge, the switches that
    skip the bus, and the dumps of registers and interrupt counts.  A dump is
    the list of lines it prints; a byte outside its buffer is a fault. *)

From stdpp Require Import base list numbers sets strings.
From Stdlib Require Import ZArith Lia.
From S2P Require Import Prelude Kernel SmbRegs SmbBus SmbCharge SmbIrq.
Open Scope Z_scope.

(** A line of a dump. *)
Inductive dline :=
  | RegLine (addr reg : Z)                      (* "0x%02x = 0x%02x" *)
  | TitleLine (title : string)
  | ParamLine (param_name : string) (v : Z)     (* "%s = %x" *)
  | CountLine (name : string) (total high low : Z)
  | TotalLine (total : Z).

(** ** The values of the fuel gauge *)

(** [reg[k]] of a buffer. *)
Definition buf (b : list Z) (k : nat) : prog sworld Z := lift OutOfBounds (b !! k).

(** [calc_func(&reg[index])]; the shifts of an [int] at 32 bits. *)
Definition data_8 (b : list Z) (i : nat) : prog sworld Z := buf b i.
Definition data_16 (b : list Z) (i : nat) : prog sworld Z :=
  let* r1 := buf b (i + 1)%nat in
  let* r0 := buf b i in
  ret (Z.lor (Z.shiftl r1 8) r0).
Definition data_24 (b : list Z) (i : nat) : prog sworld Z :=
  let* r2 := buf b (i + 2)%nat in
  let* r1 := buf b (i + 1)%nat in
  let* r0 := buf b i in
  ret (Z.lor (Z.lor (Z.shiftl r2 16) (Z.shiftl r1 8)) r0).
Definition data_28 (b : list Z) (i : nat) : prog sworld Z :=
  let* r3 := buf b (i + 3)%nat in
  let* r2 := buf b (i + 2)%nat in
  let* r1 := buf b (i + 1)%nat in
  let* r0 := buf b i in
  ret (Z.lor (Z.lor (Z.lor (Z.shiftl (Z.land r3 15) 24) (Z.shiftl r2 16)) (Z.shiftl r1 8)) r0).
Definition data_32 (b : list Z) (i : nat) : prog sworld Z :=
  let* r3 := buf b (i + 3)%nat in
  let* r2 := buf b (i + 2)%nat in
  let* r1 := buf b (i + 1)%nat in
  let* r0 := buf b i in
  ret (s32 (Z.lor (Z.lor (Z.lor (Z.shiftl r3 24) (Z.shiftl r2 16)) (Z.shiftl r1 8)) r0)).

Record fg_regs := mkFgReg {
  fr_index : nat;
  fr_length : nat;
  fr_name : string;
  calc_func : list Z -> nat -> prog sworld Z
}.

Definition fg_scratch_pad : list fg_regs :=
  [mkFgReg 0 2 "v_current_predicted" data_16;
   mkFgReg 2 2 "v_cutoff_predicted" data_16;
   mkFgReg 4 2 "v_full_predicted" data_16;
   mkFgReg 6 2 "ocv_estimate" data_16;
   mkFgReg 8 2 "rslow_drop" data_16;
   mkFgReg 10 2 "voltage_old" data_16;
   mkFgReg 12 2 "current_old" data_16;
   mkFgReg 14 4 "current_average_full" data_32;
   mkFgReg 18 2 "temperature" data_16;
   mkFgReg 20 2 "temp_last_track" data_16;
   mkFgReg 22 2 "ESR_nominal" data_16;
   mkFgReg 26 2 "Rslow" data_16;
   mkFgReg 28 2 "counter_imptr" data_16;
   mkFgReg 30 2 "counter_pulse" data_16;
   mkFgReg 32 1 "IRQ_delta_prev" data_8;
   mkFgReg 33 1 "cap_learning_counter" data_8;
   mkFgReg 34 4 "Vact_int_error" data_32;
   mkFgReg 38 3 "SOC_cutoff" data_24;
   mkFgReg 41 3 "SOC_full" data_24;
   mkFgReg 44 3 "SOC_auto_rechrge_temp" data_24;
   mkFgReg 47 3 "Battery_SOC" data_24;
   mkFgReg 50 4 "CC_SOC" data_28;
   mkFgReg 54 2 "SOC_filtered" data_16;
   mkFgReg 56 2 "SOC_Monotonic" data_16;
   mkFgReg 58 2 "CC_SOC_coeff" data_16;
   mkFgReg 60 2 "nominal_capacity" data_16;
   mkFgReg 62 2 "actual_capacity" data_16;
   mkFgReg 68 1 "temperature_counter" data_8;
   mkFgReg 69 3 "Vbatt_filtered" data_24;
   mkFgReg 72 3 "Ibatt_filtered" data_24;
   mkFgReg 75 2 "Current_CC_shadow" data_16;
   mkFgReg 79 2 "Ibatt_standby" data_16;
   mkFgReg 82 1 "Auto_recharge_SOC_threshold" data_8;
   mkFgReg 83 2 "System_cutoff_voltage" data_16;
   mkFgReg 85 2 "System_CC_to_CV_voltage" data_16;
   mkFgReg 87 2 "System_term_current" data_16;
   mkFgReg 89 2 "System_fake_term_current" data_16;
   mkFgReg 91 2 "thermistor_c1_coeff" data_16].

Definition fg_cfg_table : list fg_regs :=
  [mkFgReg 0 2 "ESR_actual" data_16;
   mkFgReg 4 1 "IRQ_SOC_max" data_8;
   mkFgReg 5 1 "IRQ_SOC_min" data_8;
   mkFgReg 6 1 "IRQ_volt_empty" data_8;
   mkFgReg 7 1 "Temp_external" data_8;
   mkFgReg 8 1 "IRQ_delta_threshold" data_8;
   mkFgReg 9 1 "JIETA_soft_cold" data_8;
   mkFgReg 10 1 "JIETA_soft_hot" data_8;
   mkFgReg 11 1 "IRQ_volt_min" data_8;
   mkFgReg 14 2 "ESR_sys_replace" data_16].

Definition fg_shdw : list fg_regs :=
  [mkFgReg 0 1 "Latest_battery_info" data_8;
   mkFgReg 1 1 "Latest_Msys_SOC" data_8;
   mkFgReg 2 2 "Battery_capacity" data_16;
   mkFgReg 4 2 "Rslow_drop" data_16;
   mkFgReg 6 1 "Latest_SOC" data_8;
   mkFgReg 7 1 "Latest_Cutoff_SOC" data_8;
   mkFgReg 8 1 "Latest_full_SOC" data_8;
   mkFgReg 9 2 "Voltage_shadow" data_16;
   mkFgReg 11 2 "Current_shadow" data_16;
   mkFgReg 13 2 "Latest_temperature" data_16;
   mkFgReg 15 1 "Latest_system_sbits" data_8].

(** The lines of a table. *)
Fixpoint print_params (tab : list fg_regs) (b : list Z) : prog sworld (list dline) :=
  match tab with
  | [] => ret []
  | r :: tab' =>
      let* v := calc_func r b (fr_index r) in
      let* l := print_params tab' b in
      ret (ParamLine (fr_name r) (u32 v) :: l)
  end.

(** The names of the interrupts in [handlers]. *)
Definition irq_names (reg : Z) : list string :=
  if reg =? IRQ_A_REG then ["cold_soft"; "hot_soft"; "cold_hard"; "hot_hard"]
  else if reg =? IRQ_B_REG then ["chg_hot"; "vbat_low"; "battery_missing"; "battery_missing"]
  else if reg =? IRQ_C_REG then ["chg_term"; "taper"; "recharge"; "fast_chg"]
  else if reg =? IRQ_D_REG then ["prechg_timeout"; "safety_timeout"; "aicl_done"; "battery_ov"]
  else if reg =? IRQ_E_REG then ["usbin_uv"; "usbin_ov"; "unused"; "chg_inhibit"]
  else if reg =? IRQ_F_REG then ["power_ok"; "unused"; "otg_fail"; "otg_oc"]
  else if reg =? IRQ_G_REG then ["delta_soc"; "chg_error"; "wd_timeout"; "unused"]
  else if reg =? IRQ_H_REG then ["min_soc"; "max_soc"; "empty_soc"; "full_soc"]
  else if reg =? IRQ_I_REG then ["fg_access_allowed"; "fg_data_recovery"; "batt_id_complete"]
  else [].

Definition count_lines (r : irq_row) : list dline :=
  zip_with (fun name c => CountLine name (s32 (fst c + snd c)) (fst c) (snd c)) (irq_names (row_reg r)) (row_counts r).

(** The named counts of a row, added to [total]. *)
Definition count_total (total : Z) (r : irq_row) : Z :=
  foldl (fun t p => s32 (t + (fst (snd p) + snd (snd p)))) total (zip (irq_names (row_reg r)) (row_counts r)).

Definition show_irq_count : prog sworld (list dline) :=
  let* rows := s_gets s_irqs in
  ret (concat (map count_lines rows) ++ [TotalLine (foldl count_total 0 rows)]).

Section SmbDebug.
Context `{SmbKernel}.

(** ** Peek and poke *)

(** The result and [*val], which keeps its value on an error. *)
Definition get_reg (old : Z) : prog sworld (Z * Z) :=
  let* a := s_gets (fun s => peek_poke_address (s_i2c s)) in
  let* r := smb1360_read (u8 a) 0 in
  ret (if fst r <? 0 then (- EAGAIN, old) else (0, snd r)).

Definition set_reg (val : Z) : prog sworld Z :=
  let* a := s_gets (fun s => peek_poke_address (s_i2c s)) in
  let* rc := smb1360_write (u8 a) (u8 val) in
  ret (if rc <? 0 then - EAGAIN else 0).

Definition fg_get_reg (old : Z) : prog sworld (Z * Z) :=
  let* rc := smb1360_select_fg_i2c_address in
  if negb (rc =? 0) then ret (- EINVAL, old) else
  let* a := s_gets (fun s => fg_peek_poke_address (s_i2c s)) in
  let* r := smb1360_fg_read (u8 a) 0 in
  ret (if fst r <? 0 then (- EAGAIN, old) else (0, snd r)).

Definition fg_set_reg (val : Z) : prog sworld Z :=
  let* rc := smb1360_select_fg_i2c_address in
  if negb (rc =? 0) then ret (- EINVAL) else
  let* a := s_gets (fun s => fg_peek_poke_address (s_i2c s)) in
  let* rc := smb1360_fg_write (u8 a) (u8 val) in
  ret (if rc <? 0 then - EAGAIN else 0).

(** The files of [debugfs_create_x32]. *)
Inductive x32_file := address | fg_address | fg_access | skip_writes_file | skip_reads_file.
Definition x32_set (f : x32_file) (v : Z) : prog sworld unit :=
  set_i2c (match f with
           | address => with_peek_poke_address (u32 v)
           | fg_address => with_fg_peek_poke_address (u32 v)
           | fg_access => with_fg_access_type (u32 v)
           | skip_writes_file => with_skip_writes (u32 v)
           | skip_reads_file => with_skip_reads (u32 v)
           end).

(** ** Dumps *)

(** [for (addr = first; n times; addr++)]. *)
Fixpoint show_regs (addr : Z) (n : nat) : prog sworld (list dline) :=
  match n with
  | O => ret []
  | S n =>
      let* r := smb1360_read addr 0 in
      let* l := show_regs (addr + 1) n in
      ret (if fst r =? 0 then RegLine addr (snd r) :: l else l)
  end.
Definition show_range (first last : Z) : prog sworld (list dline) := show_regs first (Z.to_nat (last - first + 1)).

Definition show_cnfg_regs : prog sworld (list dline) := show_range 0 LAST_CNFG_REG.
Definition show_cmd_regs : prog sworld (list dline) := show_range FIRST_CMD_REG LAST_CMD_REG.
Definition show_status_regs : prog sworld (list dline) := show_range FIRST_STATUS_REG LAST_STATUS_REG.
Definition show_irq_stat_regs : prog sworld (list dline) := show_range FIRST_IRQ_REG LAST_IRQ_REG.

Definition smb1360_check_cycle_stretch : prog sworld Z :=
  let* r := smb1360_read STATUS_4_REG 0 in
  if negb (fst r =? 0) then ret (fst r)
  else if has (snd r) CYCLE_STRETCH_ACTIVE_BIT
  then smb1360_masked_write CMD_I2C_REG CYCLE_STRETCH_CLEAR_BIT CYCLE_STRETCH_CLEAR_BIT
  else ret 0.

(** A local array of [n] bytes, and reading [n] bytes into it at [j]; the
    driver checks no bound, so a read beyond the array is a fault. *)
Definition local_bytes (n : nat) : prog sworld (list Z) :=
  fun s => Ret (map (fun k => u8 (sk_junk (s_trace s) (Z.of_nat k))) (seq 0 n)) s.

Definition read_at (reg : Z) (b : list Z) (j n : nat) : prog sworld (Z * list Z) :=
  if (j + n <=? length b)%nat then
    let* r := smb1360_read_bytes reg (take n (drop j b)) in
    ret (fst r, take j b ++ map u8 (snd r) ++ drop (j + n) b)
  else fun s => Fault OutOfBounds s.

(** The full blocks of the scratch pad from block [i] on: where the loop ends,
    which is early when a read fails. *)
Fixpoint read_blocks (i n : nat) (b : list Z) : prog sworld (nat * list Z) :=
  match n with
  | O => ret (i, b)
  | S n =>
      let j := (i * Z.to_nat SMB1360_I2C_READ_LENGTH)%nat in
      let* r := read_at (FG_SCRATCH_PAD_BASE_REG + Z.of_nat j) b j (Z.to_nat SMB1360_I2C_READ_LENGTH) in
      if negb (fst r =? 0) then ret (i, snd r) else read_blocks (S i) n (snd r)
  end.

(** [fg_scratch_pad]: the blocks and the rest. *)
Definition read_scratch (b : list Z) : prog sworld (list Z) :=
  let* p := read_blocks 0 (Z.to_nat (FG_SCRATCH_PAD_MAX / SMB1360_I2C_READ_LENGTH)) b in
  let j := (fst p * Z.to_nat SMB1360_I2C_READ_LENGTH)%nat in
  let rem_length := FG_SCRATCH_PAD_MAX mod SMB1360_I2C_READ_LENGTH in
  if rem_length =? 0 then ret (snd p) else
  let* r := read_at (FG_SCRATCH_PAD_BASE_REG + Z.of_nat j) (snd p) j (Z.to_nat rem_length) in
  ret (snd r).

(** The result and the lines. *)
Definition show_fg_regs : prog sworld (Z * list dline) :=
  let* b := local_bytes (Z.to_nat FG_SCRATCH_PAD_MAX) in
  do* smb1360_check_cycle_stretch;
  let* rc := smb1360_enable_fg_access in
  if negb (rc =? 0) then ret (rc, []) else
  let* b := read_scratch b in
  let* rc := smb1360_disable_fg_access in
  if negb (rc =? 0) then ret (rc, []) else
  do* smb1360_check_cycle_stretch;
  let* l1 := print_params fg_scratch_pad b in
  let* r := read_at FIRST_FG_CFG_REG b 0 (Z.to_nat (LAST_FG_CFG_REG - FIRST_FG_CFG_REG + 1)) in
  let* l2 := print_params fg_cfg_table (snd r) in
  let* r := read_at FIRST_FG_SHDW_REG (snd r) 0 (Z.to_nat (LAST_FG_SHDW_REG - FIRST_FG_SHDW_REG + 1)) in
  let* l3 := print_params fg_shdw (snd r) in
  ret (fst r, [TitleLine "FG scratch-pad registers"] ++ l1 ++ [TitleLine "FG config registers"] ++ l2
              ++ [TitleLine "FG shadow registers"] ++ l3).

End SmbDebug.

(** ** What the debug files do *)

(** The function reads [k] bytes at [i] of a buffer that is long enough. *)
Definition reads (f : list Z -> nat -> prog sworld Z) (k : nat) : Prop :=
  forall b i, (i + k <= length b)%nat -> exists v, forall s, f b i s = Ret v s.

Lemma buf_run b k : (k < length b)%nat -> exists v, forall s, buf b k s = Ret v s.
Proof. intros Hk. destruct (lookup_lt_is_Some_2 b k Hk) as [v E]. exists v. intros s. unfold buf. by rewrite E. Qed.

(** The first byte a function reads, then the rest. *)
Lemma reads_then (k : Z -> prog sworld Z) b i :
  (i < length b)%nat -> (forall v, exists w, forall s, k v s = Ret w s) ->
  exists v, forall s, (let* r := buf b i in k r) s = Ret v s.
Proof.
  intros Hi Hk. destruct (buf_run b i Hi) as [v Hv]. destruct (Hk v) as [w Hw]. exists w. intros s.
  by rewrite (bind_Ret _ _ _ _ _ (Hv s)).
Qed.

Ltac reads_bytes := intros b i Hi; repeat (apply reads_then; [lia|intros ?]); first [by eexists | apply buf_run; lia].

Lemma reads_8 : reads data_8 1.
Proof. reads_bytes. Qed.
Lemma reads_16 : reads data_16 2.
Proof. reads_bytes. Qed.
Lemma reads_24 : reads data_24 3.
Proof. reads_bytes. Qed.
Lemma reads_28 : reads data_28 4.
Proof. reads_bytes. Qed.
Lemma reads_32 : reads data_32 4.
Proof. reads_bytes. Qed.

(** A row reads [fr_length] bytes, within a buffer of [n]. *)
Definition row_fits (n : nat) (r : fg_regs) : Prop := reads (calc_func r) (fr_length r) /\ (fr_index r + fr_length r <= n)%nat.

Ltac table_fits := repeat constructor; cbn; try lia; first [apply reads_8|apply reads_16|apply reads_24|apply reads_28|apply reads_32].

Lemma scratch_fits : Forall (row_fits (Z.to_nat FG_SCRATCH_PAD_MAX)) fg_scratch_pad.
Proof. table_fits. Qed.
Lemma cfg_fits : Forall (row_fits (Z.to_nat (LAST_FG_CFG_REG - FIRST_FG_CFG_REG + 1))) fg_cfg_table.
Proof. table_fits. Qed.
Lemma shdw_fits : Forall (row_fits (Z.to_nat (LAST_FG_SHDW_REG - FIRST_FG_SHDW_REG + 1))) fg_shdw.
Proof. table_fits. Qed.

Definition param_names (l : list dline) : list string :=
  omap (fun d => match d with ParamLine n _ => Some n | _ => None end) l.

(** A table whose rows fit is printed, one line per row. *)
Lemma print_params_run n tab b :
  Forall (row_fits n) tab -> (n <= length b)%nat ->
  exists l, (forall s, print_params tab b s = Ret l s) /\ param_names l = map fr_name tab.
Proof.
  intros Ht Hn. induction Ht as [|r tab [Hr Hi] _ (l & IH & Hl)]; [by exists []|].
  destruct (Hr b (fr_index r)) as [v Hv]; [lia|]. exists (ParamLine (fr_name r) (u32 v) :: l). split.
  - intros s. cbn [print_params]. by rewrite (bind_Ret _ _ _ _ _ (Hv s)), (bind_Ret _ _ _ _ _ (IH s)).
  - cbn. by rewrite <- Hl.
Qed.

Section SmbDebugFacts.
Context `{SmbKernel}.

(** The program talks to the bus only, and its result is as said. *)
Definition yields {A} (P : A -> Prop) (c : prog sworld A) : Prop :=
  forall s, idle [read_write_lock] s -> exists a es, c s = Ret a (more es s) /\ Forall plain es /\ P a.

Lemma yields_ret {A} (P : A -> Prop) (a : A) : P a -> yields P (ret a).
Proof. intros Ha s _. exists a, []. by rewrite more_nil. Qed.

Lemma yields_bind {A B} (P : A -> Prop) (Q : B -> Prop) (c : prog sworld A) (k : A -> prog sworld B) :
  yields P c -> (forall a, P a -> yields Q (k a)) -> yields Q (bind c k).
Proof.
  intros Hc Hk s Hs. destruct (Hc s Hs) as (a & es & E & P1 & Ha). destruct (Hk a Ha (more es s)) as (b & es' & E' & P2 & Hb); [done|].
  exists b, (es ++ es'). rewrite (bind_Ret _ _ _ _ _ E), E', more_more. split; [done|]. split; [by apply Forall_app|done].
Qed.

Lemma yields_regs {A} (c : prog sworld A) : reg_only c -> yields (fun _ => True) c.
Proof. intros Hc s Hs. destruct (Hc s Hs) as (a & es & E & P). by exists a, es. Qed.

Lemma yields_bytes reg b : yields (fun r => length (snd r) = length b) (smb1360_read_bytes reg b).
Proof.
  intros s Hs. unfold smb1360_read_bytes, skipping_reads. rewrite bind_unfold. unfold s_gets at 1. destruct (negb _).
  - eexists _, []. rewrite more_nil. split; [done|]. split; [done|]. apply length_insert.
  - set (a := client_addr (s_i2c s)). set (r := sk_read_block (s_trace s) a reg b).
    exists (if fst r <? 0 then fst r else 0, snd r), [I2cReadBlock a reg (zlen b) (fst r)].
    split; [apply locked_bus; [done|]; intros l; reflexivity|]. split; [by repeat constructor|]. apply sk_read_block_len.
Qed.

Lemma yields_read_at reg b j n :
  (j + n <= length b)%nat -> yields (fun r => length (snd r) = length b) (read_at reg b j n).
Proof.
  intros Hn. unfold read_at. rewrite (proj2 (Nat.leb_le _ _) Hn). eapply yields_bind; [apply yields_bytes|].
  intros r Hr. apply yields_ret. cbn. rewrite !length_app, length_map, length_take, length_drop, Hr, length_take, length_drop. lia.
Qed.

Lemma yields_blocks i n b :
  ((i + n) * 32 <= length b)%nat ->
  yields (fun p => (fst p <= i + n)%nat /\ length (snd p) = length b) (read_blocks i n b).
Proof.
  revert i b. induction n as [|n IH]; intros i b Hn; cbn [read_blocks]; [apply yields_ret; cbn; lia|].
  change (Z.to_nat SMB1360_I2C_READ_LENGTH) with 32%nat.
  eapply yields_bind; [apply yields_read_at; lia|]. intros [rc b'] Hb. cbn [snd fst] in *. destruct (negb _).
  - apply yields_ret. cbn. lia.
  - intros s Hs. destruct (IH (S i) b' ltac:(rewrite Hb; lia) s Hs) as (p & es & E & P & Hp). exists p, es.
    split; [done|]. split; [done|]. rewrite <- Hb. split; [lia|apply Hp].
Qed.

Lemma yields_scratch b : length b = Z.to_nat FG_SCRATCH_PAD_MAX -> yields (fun b' => length b' = length b) (read_scratch b).
Proof.
  intros Hb. unfold read_scratch. eapply yields_bind; [apply yields_blocks; rewrite Hb; by apply Nat.leb_le|].
  intros [i b'] [Hi Hl]. cbn [fst snd] in *. change (_ =? 0) with false. cbv iota zeta.
  eapply yields_bind; [apply yields_read_at|].
  - rewrite Hl, Hb. revert Hi. change (Z.to_nat (FG_SCRATCH_PAD_MAX / SMB1360_I2C_READ_LENGTH)) with 2%nat.
    change (Z.to_nat SMB1360_I2C_READ_LENGTH) with 32%nat. change (Z.to_nat (FG_SCRATCH_PAD_MAX mod SMB1360_I2C_READ_LENGTH)) with 29%nat.
    change (Z.to_nat FG_SCRATCH_PAD_MAX) with 93%nat. lia.
  - intros r Hr. apply yields_ret. by rewrite Hr.
Qed.

Lemma reg_only_cycle_stretch : reg_only smb1360_check_cycle_stretch.
Proof. unfold smb1360_check_cycle_stretch. regs. Qed.

Lemma yields_params n tab b :
  Forall (row_fits n) tab -> (n <= length b)%nat -> yields (fun l => param_names l = map fr_name tab) (print_params tab b).
Proof.
  intros Ht Hn s _. destruct (print_params_run n tab b Ht Hn) as (l & E & Hl). exists l, []. by rewrite more_nil.
Qed.

(** C33: the dump of the fuel gauge stays in its buffer.  Whatever the chip and
    the bus answer, and wherever the block reads of the scratch pad break off,
    no byte is read or written outside the 93 bytes of the stack buffer (the
    call returns; an access outside would be a fault), and a dump that is printed
    has one line per row of the three tables, in their order.  Apart from the
    bus nothing changes. *)
Theorem fg_dump_in_bounds s :
  ready s ->
  exists rc l es, show_fg_regs s = Ret (rc, l) (more es s) /\ Forall plain es
    /\ (l = [] \/ param_names l = map fr_name (fg_scratch_pad ++ fg_cfg_table ++ fg_shdw)).
Proof.
  intros Hs.
  assert (yields (fun r => snd r = [] \/ param_names (snd r) = map fr_name (fg_scratch_pad ++ fg_cfg_table ++ fg_shdw)) show_fg_regs) as Hy.
  { unfold show_fg_regs.
    eapply (yields_bind (fun b => length b = Z.to_nat FG_SCRATCH_PAD_MAX));
      [intros t _; eexists _, []; by rewrite more_nil|intros b Hb].
    eapply yields_bind; [apply yields_regs, reg_only_cycle_stretch|intros _ _].
    eapply yields_bind; [apply yields_regs; auto with smb|intros rc _]. destruct (negb _); [apply yields_ret; by left|].
    eapply yields_bind; [by apply yields_scratch|intros b1 H1]. rewrite Hb in H1.
    eapply yields_bind; [apply yields_regs; auto with smb|intros rc1 _]. destruct (negb _); [apply yields_ret; by left|].
    eapply yields_bind; [apply yields_regs, reg_only_cycle_stretch|intros _ _].
    eapply yields_bind; [eapply yields_params; [apply scratch_fits|lia]|intros l1 L1].
    eapply yields_bind; [apply yields_read_at; rewrite H1; by apply Nat.leb_le|intros [rc2 b2] H2]. cbn [snd fst] in *. rewrite H1 in H2.
    eapply yields_bind; [eapply yields_params; [apply cfg_fits|rewrite H2; by apply Nat.leb_le]|intros l2 L2].
    eapply yields_bind; [apply yields_read_at; rewrite H2; by apply Nat.leb_le|intros [rc3 b3] H3]. cbn [snd fst] in *. rewrite H2 in H3.
    eapply yields_bind; [eapply yields_params; [apply shdw_fits|rewrite H3; by apply Nat.leb_le]|intros l3 L3].
    apply yields_ret. right. cbn [snd]. unfold param_names in *. rewrite !omap_app, L1, L2, L3. by rewrite !map_app. }
  destruct (Hy s (ready_idle _ _ Hs)) as ([rc l] & es & E & P & Hl). by exists rc, l, es.
Qed.

(** The exact run of an access at the fuel gauge's address. *)
Lemma fg_access_run {A} (c : prog sworld A) a es s :
  idle [read_write_lock] s ->
  (forall t, client_addr (s_i2c t) = fg_i2c_addr (s_i2c s) -> s_trace t = s_trace s -> c t = Ret a (more es t)) ->
  locked read_write_lock (at_fg_addr c) s = Ret a (more es s).
Proof.
  intros Hs Hc. apply locked_bus; [done|]. intros l. unfold at_fg_addr. rewrite (bind_Ret (set_i2c _) _ _ tt _ eq_refl).
  match goal with |- bind c _ ?t = _ => rewrite (bind_Ret c _ t a (more es t)) by by apply Hc end.
  rewrite (bind_Ret (set_i2c _) _ _ tt _ eq_refl). unfold ret. f_equal.
  destruct Hs as [_ Ha]. destruct s as [? ? ? ? ? ? [] ? ? ? ?]. cbn in *. by subst.
Qed.

Lemma fg_write_run reg val s :
  idle [read_write_lock] s -> skip_writes (s_i2c s) = 0 ->
  let a := fg_i2c_addr (s_i2c s) in
  let r := sk_write (s_trace s) a reg (u8 val) in
  smb1360_fg_write reg val s = Ret (if r <? 0 then r else 0) (more [I2cWrite a reg (u8 val) r] s).
Proof.
  intros Hs Hw a r. unfold smb1360_fg_write, skipping_writes. rewrite bind_unfold. unfold s_gets at 1. rewrite Hw. cbn [negb].
  apply fg_access_run; [done|]. intros t Ha Ht. subst r a. by rewrite <- Ha, <- Ht.
Qed.

Lemma fg_read_run reg old s :
  idle [read_write_lock] s -> skip_reads (s_i2c s) = 0 ->
  let a := fg_i2c_addr (s_i2c s) in
  let r := sk_read (s_trace s) a reg in
  smb1360_fg_read reg old s = Ret (if r <? 0 then (r, old) else (0, u8 r)) (more [I2cRead a reg r] s).
Proof.
  intros Hs Hw a r. unfold smb1360_fg_read, skipping_reads. rewrite bind_unfold. unfold s_gets at 1. rewrite Hw. cbn [negb].
  apply fg_access_run; [done|]. intros t Ha Ht. subst r a. by rewrite <- Ha, <- Ht.
Qed.

(** Selecting the fuel gauge's address: it depends on nothing that changes. *)
Lemma select_run s :
  fg_access_type (s_i2c s) ∈ [FG_ACCESS_CFG; FG_ACCESS_PROFILE_A; FG_ACCESS_PROFILE_B] ->
  exists addr, smb1360_select_fg_i2c_address s = Ret 0 (with_s_i2c (with_fg_i2c_addr addr (s_i2c s)) s)
    /\ forall es, let s1 := more es (with_s_i2c (with_fg_i2c_addr addr (s_i2c s)) s) in smb1360_select_fg_i2c_address s1 = Ret 0 s1.
Proof.
  intros Ht. rewrite !elem_of_cons in Ht. unfold smb1360_select_fg_i2c_address. rewrite bind_unfold. unfold s_gets at 1.
  destruct s as [? ? ? ? ? ? [] ? ? ? ?]. cbn in Ht |- *.
  destruct Ht as [->|[->|[->|Ht]]]; [..|by apply not_elem_of_nil in Ht]; cbn; (eexists; split; [reflexivity|intros es; reflexivity]).
Qed.

(** Poking a register of a chip that remembers, then peeking at it, gives the
    byte back, for the charger's registers and, with a valid [fg_access_type],
    for the fuel gauge's memory at its other address. *)
Theorem poke_peek start old v s :
  remembers start -> (forall tr a r x, 0 <= sk_write tr a r x) -> ready s ->
  skip_reads (s_i2c s) = 0 -> skip_writes (s_i2c s) = 0 ->
  (exists s1 s2, set_reg v s = Ret 0 s1 /\ get_reg old s1 = Ret (0, u8 v) s2)
  /\ (fg_access_type (s_i2c s) ∈ [FG_ACCESS_CFG; FG_ACCESS_PROFILE_A; FG_ACCESS_PROFILE_B] ->
      exists s1 s2, fg_set_reg v s = Ret 0 s1 /\ fg_get_reg old s1 = Ret (0, u8 v) s2).
Proof.
  intros Hm Hw Hs Hr0 Hw0.
  assert (forall z, u8 (u8 z) = u8 z) as Huu by (intros z; by apply Z.mod_mod).
  assert (forall z, (u8 z <? 0) = false) as Hu by (intros z; apply Z.ltb_ge; by apply Z.mod_pos_bound).
  assert (forall t c a w r tr, s_trace t = tr ++ [I2cWrite c a (u8 (u8 w)) r] -> sk_read (s_trace t) c a = u8 w) as Hread.
  { intros t c a w r tr ->. rewrite Hm, last_write_app. cbn [last_write]. by rewrite !Z.eqb_refl, Huu. }
  assert (forall tr a r x, (sk_write tr a r x <? 0) = false) as Hw1 by (intros; by apply Z.ltb_ge).
  split.
  - unfold set_reg, get_reg. rewrite bind_unfold. unfold s_gets at 1. set (a := u8 (peek_poke_address (s_i2c s))).
    pose proof (write_run a (u8 v) s (ready_idle _ _ Hs)) as E. rewrite Hw0 in E. cbn [negb Z.eqb] in E. cbv zeta in E.
    rewrite (bind_Ret _ _ _ _ _ E), Hw1. eexists _, _. split; [reflexivity|]. set (s1 := more _ s).
    rewrite bind_unfold. unfold s_gets at 1. change (u8 (peek_poke_address (s_i2c s1))) with a.
    pose proof (read_run a 0 s1 (ready_idle _ _ Hs)) as E1. change (skip_reads (s_i2c s1)) with (skip_reads (s_i2c s)) in E1.
    rewrite Hr0 in E1. cbn [negb Z.eqb] in E1. cbv zeta in E1. 
    change (client_addr (s_i2c s1)) with (client_addr (s_i2c s)) in E1.
    rewrite (Hread s1 _ a v _ (s_trace s) eq_refl), Hu in E1. rewrite (bind_Ret _ _ _ _ _ E1). cbn. by rewrite Huu.
  - intros Ht. destruct (select_run s Ht) as (addr & Es & Es1). unfold fg_set_reg, fg_get_reg.
    rewrite (bind_Ret _ _ _ _ _ Es). cbn [negb Z.eqb]. rewrite bind_unfold. unfold s_gets at 1.
    set (s0 := with_s_i2c _ s) in *. set (a := u8 (fg_peek_poke_address (s_i2c s0))).
    pose proof (fg_write_run a (u8 v) s0 (ready_idle _ s0 Hs) Hw0) as E. cbv zeta in E.
    rewrite (bind_Ret _ _ _ _ _ E), Hw1. eexists _, _. split; [reflexivity|].
    rewrite (bind_Ret _ _ _ _ _ (Es1 _)). cbn [negb Z.eqb]. set (s1 := more _ s0).
    rewrite bind_unfold. unfold s_gets at 1. change (u8 (fg_peek_poke_address (s_i2c s1))) with a.
    pose proof (fg_read_run a 0 s1 (ready_idle _ s0 Hs) Hr0) as E1. cbv zeta in E1. 
    change (fg_i2c_addr (s_i2c s1)) with (fg_i2c_addr (s_i2c s0)) in E1.
    rewrite (Hread s1 _ a v _ (s_trace s0) eq_refl), Hu in E1. rewrite (bind_Ret _ _ _ _ _ E1). cbn. by rewrite Huu.
Qed.

(** On a chip that remembers, with bytes in its registers, a dump prints every
    register of its range with its value, in order. *)
Theorem dump_complete start s first n :
  remembers start -> ready s -> skip_reads (s_i2c s) = 0 -> (forall r, 0 <= chip_reg start s r < 256) ->
  exists es, show_regs first n s
    = Ret (map (fun k => RegLine (first + Z.of_nat k) (chip_reg start s (first + Z.of_nat k))) (seq 0 n)) (more es s).
Proof.
  intros Hm Hs Hr0 Hb. revert first s Hs Hr0 Hb. induction n as [|n IH]; intros first s Hs Hr0 Hb.
  { exists []. by rewrite more_nil. }
  pose proof (read_run first 0 s (ready_idle _ _ Hs)) as E. rewrite Hr0 in E. cbn [negb Z.eqb] in E. cbv zeta in E.
  assert (sk_read (s_trace s) (client_addr (s_i2c s)) first = chip_reg start s first) as Er by apply Hm.
  rewrite !Er in E. rewrite (proj2 (Z.ltb_ge _ 0)) in E by apply Hb.
  set (e := I2cRead _ _ _) in E. cbn [show_regs]. rewrite (bind_Ret _ _ _ _ _ E).
  assert (forall r, chip_reg start (more [e] s) r = chip_reg start s r) as Hsame
    by (intros r; unfold chip_reg; cbn; by rewrite last_write_app).
  destruct (IH (first + 1) (more [e] s)) as [es E1]; [done|done|intros r; rewrite Hsame; apply Hb|].
  rewrite (bind_Ret _ _ _ _ _ E1), more_more. exists ([e] ++ es). unfold ret. f_equal. cbn [fst snd Z.eqb seq map].
  rewrite Z.add_0_r. f_equal; [by unfold u8; rewrite Z.mod_small by exact (Hb first)|].
  rewrite <- seq_shift, map_map. apply map_ext. intros k. rewrite Hsame. f_equal; [lia|f_equal; lia].
Qed.

End SmbDebugFacts.

(** ** Witnesses *)

Module DebugDemo.
Import Demo.

Definition chip : SmbKernel := kernel (fun r => if r =? 88 then 1 else 0) (fun _ => false) (fun _ => None).
Definition printed {S} (r : result S (Z * list dline)) : nat := match r with Ret (_, l) _ => length l | _ => O end.

Lemma fg_dump_in_bounds_witness :
  exists rc l es, @show_fg_regs chip bound = Ret (rc, l) (more es bound)
    /\ param_names l = map fr_name (fg_scratch_pad ++ fg_cfg_table ++ fg_shdw).
Proof.
  destruct (@fg_dump_in_bounds chip bound IrqDemo.bound_ready) as (rc & l & es & E & _ & [->|Hl]).
  - exfalso. assert (printed (@show_fg_regs chip bound) = 62%nat) as Hp by (vm_compute; reflexivity).
    rewrite E in Hp. discriminate Hp.
  - exists rc, l, es. split; [exact E|exact Hl].
Defined.

End DebugDemo.
